(* ===== verification/_CoqProject ===== *)
-Q . S2P
Prelude.v
DecodersUtils.v
NetflowLegacy.v
NetflowTypes.v
NetflowDecode.v
NetflowEncode.v
NetflowSafety.v
NetflowRoundtrip.v
NetflowProps.v
NetflowEncodeSafety.v
SflowTypes.v
SflowDecode.v
SflowEncode.v
SflowRoundtrip.v
SflowSafety.v
SflowEncodeSafety.v
SflowProps.v
FlowStore.v
FlowStoreSpec.v
FlowStoreRefine.v
FlowStoreProps.v
FlowStoreView.v
TemplateStore.v
TemplateStoreProps.v
SamplingRate.v
SamplingInterface.v
NetflowStores.v
Text.v
FlowMessage.v
ProtoReflect.v
ProtoReflectProps.v
PacketParser.v
ProducerConfig.v
PacketParserSafety.v
PacketParserProps.v
PacketFrames.v
ProducerNetflow.v
Pipe.v
PipeProps.v
ProtoProducer.v
ProducerSafety.v
ProducerNetflowProps.v
CollectorProps.v
ProducerProps.v
ReflowEvent.v
Aggregate.v
AggregateKeys.v
AggregateProps.v
AggregateFlush.v
UDP.v
UDPInvariant.v
UDPProps.v
ReflowDecode.v
ReflowDecodeProps.v
ReflowCatalog.v
ReflowSflow.v
ReflowPacket.v
ReflowPacketSafety.v
ReflowPacketEncode.v
ReflowPacketRoundtrip.v
ReflowPacketProps.v
ReflowNormalize.v
ReflowProcessor.v
ReflowProcessorProps.v
ReflowPseudoProps.v
ReflowFields.v
ReflowExportV5.v
ReflowExportSflow.v
ReflowExportSflowProps.v
ReflowTemplated.v
ReflowTemplatedProps.v
ReflowTemplatedPlans.v
ReflowExportTflow.v
ReflowExportTflowProps.v
ReflowExportIpfix.v
ReflowExportIpfixProps.v
ReflowExportNFv9.v
ReflowExportNFv9Props.v
ReflowExportReach.v
