(* ===== verification/Prelude.v ===== *)
(** * GoFlow2: verification of the flow collector, its codecs, stores and pipelines

    GoFlow2 receives UDP datagrams of NetFlow v5, NetFlow v9, IPFIX and sFlow v5, decodes
    them, converts them with a producer into flow messages, and hands those to a formatter
    and a transport.  NetFlow v9 and IPFIX data can only be read with templates that arrived
    in earlier datagrams; these live in a template store with time-to-live entries, and the
    sampling rates of options records in another.  ReFlow, the second program of the
    repository, turns the same datagrams, captured packets and JSON records into events (maps
    of fields), completes them from the packet bytes they hold, and aggregates events into
    flows.

<<
  socket --> utils.UDPReceiver --> utils.*Pipe.DecodeFlow --> producer/proto --> format --> transport
                                       |                          |    |
            netflowlegacy, netflow, sflow (decoders)              |    ParsePacket, the mapping
                                       |                          |
                     templates.TemplateFlowStore    samplingrate.SamplingRateFlowStore
                                        \              /
                                    flowstore.Store[K, V]

  event --> reflow/decode.Decode --> reflow/processor.Process --> reflow/aggregate.Process / Flush
                                             |                                     |
                                             |                    reflow/encode (NetFlow v5, v9, IPFIX, sFlow)
                               reflow/packet.NormalizeEvent (parser, models, fields)
>>

    ** Files and what they model (paths under src/)

    Codecs:
    - Prelude: Go integers, errors, outcomes and the state monad; [wp] and its rules; loops.
    - DecodersUtils: decoders/utils/utils.go and encode.go: typed reads and writes on a
      [bytes.Buffer].
    - NetflowLegacy: decoders/netflowlegacy (packet.go, netflow.go, encode.go): NetFlow v5,
      data, decoder, encoder and their theorems.
    - NetflowTypes: the structs of decoders/netflow (packet.go, nfv9.go, ipfix.go) and the
      [TemplateStore] interface as a type class, with its laws in [TemplateStoreSpec].
    - NetflowDecode, NetflowEncode: decoders/netflow/netflow.go and encode.go, one
      definition per function.  NetflowSafety, NetflowEncodeSafety, NetflowRoundtrip, NetflowProps:
      arbitrary datagrams and packets; decoding inverts encoding; whole messages.
    - SflowTypes, SflowDecode, SflowEncode: decoders/sflow (packet.go, datastructure.go,
      sflow.go, xdr.go, encode.go).  SflowRoundtrip, SflowSafety, SflowEncodeSafety,
      SflowProps: the theorems.

    Stores:
    - FlowStore: pkg/flowstore/store.go and flow_values.go.  [Store] keeps [entries] (map
      from key to pointer), [order] (the linked list, oldest first) and [heap] (what the
      pointers reach), as the Go map and list share their [*entry] objects.
    - FlowStoreSpec, FlowStoreRefine: the abstract store (a list of entries), the
      representation invariant, and the simulation between them.  FlowStoreProps: histories
      of operations.  FlowStoreView: a store of plain values read as a map with deadlines.
    - TemplateStore, TemplateStoreProps: utils/store/templates/store.go and
      [decodeTemplateKey] of persistence.go.
    - SamplingRate: utils/store/samplingrate/store.go.  SamplingInterface: its [Store]
      interface as a type class with laws.
    - NetflowStores: the decoder over two template stores that keep the same contract.

    Producer (producer/proto):
    - Text: numbers in decimal, characters.  FlowMessage: the protobuf message (pb/flow.pb.go),
      a field's number, kind and width.  ProtoReflect, ProtoReflectProps: reflect.go, bytes
      and bits of a packet into a field.
    - PacketParser: producer_packet.go, the parsers of all layers and the loop of
      [ParsePacket].  PacketParserSafety, PacketParserProps, PacketFrames: arbitrary bytes;
      layers; frames back to their fields.
    - ProducerConfig: config.go and config_impl.go, the compiled mapping and its checks.
    - ProducerNetflow, ProducerNetflowProps: producer_nf.go, elements of a record, clocks,
      sampling rates.
    - ProtoProducer, ProducerSafety, ProducerProps: proto.go, producer_sf.go,
      producer_nflegacy.go; every message is well-formed; from exporter to message.

    Collector (utils):
    - Pipe, PipeProps: pipe.go and mute.go.  CollectorProps: pipe, decoders, stores and
      producer together.
    - UDP, UDPInvariant, UDPProps: udp.go as a step relation between a caller, receivers,
      workers and calls of [Stop], which interleave in every way.

    ReFlow (pkg/reflow):
    - ReflowEvent: event/event.go, the values a field can have, and what the code takes of
      Go's library, as a class.
    - Aggregate, AggregateKeys, AggregateProps, AggregateFlush: aggregate/aggregate.go; keys;
      what a bucket holds; when buckets are exported, and that nothing is lost.
    - ReflowDecode: decode/*.go and the catalog check of config/config.go.
      ReflowDecodeProps: any datagram; NetFlow v5.  ReflowCatalog: the field catalog and the
      fields of NetFlow records.  ReflowSflow: the events of sFlow.
    - ReflowPacket, ReflowPacketEncode: packet/normalize.go, the parser from packet bytes to a
      model of layers and the encoder back.  ReflowPacketSafety: any bytes.
      ReflowPacketRoundtrip: nested layers through encoder and parser.  ReflowPacketProps: a
      tunnel the parser cannot follow.
    - ReflowNormalize: the rest of normalize.go, [NormalizeEvent] and [BuildPseudoHeader].
      ReflowPseudoProps: the packet made for a flow.
    - ReflowProcessor, ReflowProcessorProps: processor/processor.go.
    - ReflowFields: encode/fields.go and metadata.go, what the encoders read of an event.
      ReflowExportV5: encode/netflowv5.go and its round trip.  ReflowExportSflow,
      ReflowExportSflowProps: encode/sflow.go, from events to samples, batches and datagrams.
    - ReflowTemplated: the functions of encode/tflow.go on values, field definitions, templates
      and schemas; ReflowTemplatedProps, ReflowTemplatedPlans: records and their templates, the
      cache of plans.  ReflowExportTflow: the state that the encoders of NetFlow v9 and IPFIX
      keep, and what they do alike; ReflowExportIpfix, ReflowExportNFv9: the two encoders.
      ReflowExportTflowProps, ReflowExportIpfixProps, ReflowExportNFv9Props: what every call
      keeps, and the packets of a batch; ReflowExportReach: the state after any calls.

    ** How code becomes definitions

    A function that can fail is a computation [ST S A := S -> res A * S] on the state it
    mutates; [res] tells a value ([Ok]), a returned error ([Err]), a run-time panic
    ([Panic]) and exhausted fuel ([Hang]) apart, so that "never panics" and "always
    terminates" are statements about the model.  For codecs the state is the unread (or
    the written) contents of the [bytes.Buffer]; for [DecodeMessageCommon] also the
    template store; for the stores it is the struct; for the parsers of packets and the
    conversion of records it is the flow message.  A function that returns a value and
    an error together, where callers use both, returns both ([A * option error]).
    [if err != nil { return wrap(err) }] is [errctx].  In pkg/reflow the functions that change
    the event they are given are computations on that event.

    Integers are [Z]; conversions and wrap-around are written out ([to_uint], [to_int])
    and ranges are hypotheses or invariants ([u8], [u16], ...).  [interface{}] values
    are inductive types with a constructor for each dynamic type the code distinguishes,
    pointers and nil included.  Instants are nanoseconds, with 0 for Go's zero [time.Time];
    an operation that reads the clock takes [now] as an argument, so every theorem holds
    for every clock, monotonic or not unless it says so.  Iteration over a Go map takes
    the order as an argument.  A hook is an arbitrary function; the calls made to hooks
    are recorded, in order, in the store ([calls]).  The formatter and the transport are
    arbitrary functions on a state of their own.  A store method is one step: its critical
    section followed by the hooks it fires.  The goroutines of utils/udp.go are the states of
    an [Inductive] step relation with one constructor per atomic step and with channels,
    buffers of the pool and the packets read as data.

    ** What the theorems show

    - Codecs on arbitrary input (NetflowSafety, SflowSafety, NetflowLegacy): decoding any
      bytes ends with a value or an error, without a panic; what is decoded is well-typed;
      flow sets are cut out by their length field alone; an unknown template is a soft
      error; only templates named by the datagram change.
    - Round trips (NetflowProps, SflowProps, NetflowLegacy): decoding what the encoder wrote
      gives the packet back, lengths, counts and padding filled in as the encoder does, and
      the templates of the message are in the store afterwards.
    - The flow store (FlowStoreProps): every history of operations on a new store does
      what the list specification says; sizes stay bounded; hooks report exactly the
      changes of the map; deadlines; the life of the sweeper; counters modulo 2^64.
    - The template and sampling-rate stores (TemplateStoreProps, SamplingRate): they
      implement the map contract the decoder assumes, on top of the flow store; TTLs,
      snapshots, keys.  NetflowStores: the decoder depends on a store through that contract
      only.
    - The packet parser (PacketParserProps, PacketFrames): it ends on any bytes with a
      well-typed message for every valid configuration; frames of the common layers are read
      back field by field.
    - The producer (ProducerNetflowProps, ProducerProps, CollectorProps): the value of each
      field in closed form, sampling rates over any history of packets, from the exporter's
      packet to the messages, and totality on every packet.
    - The pipes and the whole collector (PipeProps, CollectorProps): a datagram the decoder
      accepts is produced, formatted and sent once; an error anywhere is returned; every
      datagram of every sequence is handled to the end.
    - The receiver (UDPProps): no reachable state panics with one call of [Stop]; every
      packet is accounted for; the order of one worker; [Stop] terminates.
    - Aggregation (AggregateKeys, AggregateProps, AggregateFlush): keys of different values
      differ; a bucket holds the fold of its events; sums are conserved from the events to the
      exports; every event is exported within its window.
    - The ReFlow decoder (ReflowDecodeProps, ReflowCatalog, ReflowSflow): any bytes; from the
      packets of the encoders to the events; elements of a catalog to fields, whatever the
      order of map iteration.
    - Packets in ReFlow (ReflowPacketSafety, ReflowPacketRoundtrip, ReflowPseudoProps): the
      parser ends on any bytes; it reads back every stack of layers that the encoder wrote,
      nested to any depth, and the flow from the packet made for it.
    - The processor (ReflowProcessorProps): it ends on every event; the packet that makes it
      panic; the times of a packet; what the order of a JSON object decides.
    - The ReFlow encoders (ReflowExportV5, ReflowExportSflowProps, ReflowExportReach): a flow
      through the NetFlow v5 encoder and back; what a flush of the sFlow, IPFIX and NetFlow v9
      encoders does with every event of its batch; the longest header that fits a datagram;
      after any calls, records have the fields of their templates and do not show the cache.

    Some theorems state limits that a client has to know: padding that can be read as a
    record, nil pointers that make the encoder panic, AS-path segments the sFlow codec
    loses, agent addresses that encode but do not decode, expiries no hook hears of, clocks
    that wrap, a port mapping on which the packet parser loops, concurrent calls of [Stop],
    signed elements in reduced-size encoding, sFlow records that no event tells, a GRE packet
    that ends the processor, label stacks that are not read back, datagrams longer than their
    batch limit, a batch that one record blocks for ever.

    ** Fuel

    A [for buffer.Len() > ..] loop has fuel one more than the length of its buffer: each
    turn consumes at least one byte or stops ([wp_loopM], and the measure argument for
    [commonLoop] in NetflowSafety, where a template or record of size zero is the
    case to exclude).  The eviction loop has fuel one more than the number of entries,
    each turn removing one.  The loop over the layers of a packet in the producer has fuel
    linear in its length ([parse_fuel]); every parser consumes bytes or ends the packet, except
    the TCP parser on a header of length zero, which a valid configuration must not reach again
    ([packet_parser_total], [packet_parser_tcp_loop]).  The loop of the ReFlow parser has
    fuel one more than the length of the packet, its loops over tags, labels and extension
    headers the length of what is left or one more, and each turn advances
    ([packet_parser_ends]).  A flush of the sFlow encoder has fuel one more than its events,
    each turn taking one off at least, and the binary search for a header one more than the cuts
    there are ([sflow_flush_accounts], [search_ends]); so has a flush of the NetFlow v9 and IPFIX
    encoders, whose packets take one event at least ([flush_loop_accounts]).  The safety and refinement theorems
    prove that no [Hang] occurs; loops over a count or a list are structural.

    ** Not modelled

    String and JSON formatting, the name tables of field types, and the text, JSON and binary
    form of flow messages (messages.go, render.go); the value of a packet that sFlow and
    NetFlow v5 decoding returns next to an error (every caller drops it); the mutexes and the
    ticker of the sweeper goroutine of the flow store; files and timers of
    utils/store/persistence and the JSON of snapshots; producer/raw; in pkg/reflow
    capture files, JSON and protobuf output, the eBPF source, the rest of the configuration and
    the application; encoding/json and the other libraries of the processor, which are
    parameters; metrics, transport, format and the commands; generated protobuf code.

    ** Plan

    Next: what a collector decodes from the packets of a batch, by the round trips of
    decoders/netflow on packets whose values carry a length of their own; pcap framing; last the
    text form of snapshot keys and the rest of the configuration checks. *)
From Stdlib Require Export ZArith Lia.
From stdpp Require Export list gmap strings.

#[global] Set Default Proof Using "Type".
#[export] Set Default Goal Selector "!".

(** [in_list]: [x] is a member of a list that shows it. *)
Ltac in_list := first [apply list_elem_of_here | apply list_elem_of_further; in_list].

(** [splits]: split the conjunctions that are written as such. *)
Ltac splits := repeat match goal with |- _ /\ _ => split end.

Declare Scope go_scope.
Delimit Scope go_scope with go.
#[global] Open Scope Z_scope.
#[global] Open Scope go_scope.

(** ** Go integers *)

(** [len s] is Go's [len(s)], an [int]. *)
Definition len {A} (l : list A) : Z := Z.of_nat (length l).

(** [uint w z]: [z] is a value of the Go type [uint<w>]. *)
Definition uint (w z : Z) : Prop := 0 <= z < 2 ^ w.
Abbreviation u8 := (uint 8).
Abbreviation u16 := (uint 16).
Abbreviation u32 := (uint 32).
Abbreviation u64 := (uint 64).

(** Conversion to [uint<w>] keeps the low [w] bits. *)
Definition to_uint (w z : Z) : Z := z mod 2 ^ w.

(** Conversion of the [w]-bit pattern [z] to [int<w>] (two's complement). *)
Definition to_int (w z : Z) : Z :=
  if z mod 2 ^ w <? 2 ^ (w - 1) then z mod 2 ^ w else z mod 2 ^ w - 2 ^ w.

(** A Go [[]byte] (also the contents of a Go [string]). *)
Abbreviation bytes := (list Z).
Definition is_bytes (b : bytes) : Prop := Forall u8 b.

(** ** Go errors *)

(** The sentinel values, [errors.New]/[fmt.Errorf] without [%w] ([Errorf]),
    wrapping by [%w] or by an error struct with an [Unwrap] method ([Wrap]), and
    [errors.Join].  Integer operands of the format are kept in order. *)
Inductive error : Type :=
  | ErrUnexpectedEOF
  | ErrorEmptyRecord
  | ErrorTemplateNotFound
  | ErrAddNotSupported
  | ErrNotFound
  | Errorf (msg : string) (args : list Z)
  | Wrap (ctx : string) (args : list Z) (inner : error)
  | Join (es : list error).

(** [errors.Is(e, ErrorTemplateNotFound)]: the tree of [Unwrap]s holds the sentinel. *)
Fixpoint errors_Is_TemplateNotFound (e : error) : bool :=
  match e with
  | ErrorTemplateNotFound => true
  | Wrap _ _ e' => errors_Is_TemplateNotFound e'
  | Join es => existsb errors_Is_TemplateNotFound es
  | _ => false
  end.

(** [errors.Join(err, e)] where [err] may be nil. *)
Definition errors_Join (err : option error) (e : error) : error :=
  match err with None => Join [e] | Some e0 => Join [e0; e] end.

(** ** Outcomes *)

(** The outcome of running Go code: a value, a returned error, a run-time panic
    (slice bounds, negative [make], nil dereference), or a loop that did not finish
    within the fuel the model gave it. *)
Inductive res (A : Type) : Type :=
  | Ok (a : A)
  | Err (e : error)
  | Panic (why : string)
  | Hang.
Arguments Ok {A} _.
Arguments Err {A} _.
Arguments Panic {A} _.
Arguments Hang {A}.

(** State passing with outcomes. For decoders and encoders the state is the
    contents of a [*bytes.Buffer] (the unread bytes). *)
Definition ST (S A : Type) : Type := S -> res A * S.
Abbreviation M := (ST bytes).

Section monad.
Context {S : Type}.

Definition ret {A} (a : A) : ST S A := fun s => (Ok a, s).
Definition fail {A} (e : error) : ST S A := fun s => (Err e, s).
Definition panic {A} (why : string) : ST S A := fun s => (Panic why, s).
Definition get : ST S S := fun s => (Ok s, s).
Definition put (s : S) : ST S unit := fun _ => (Ok tt, s).

Definition bind {A B} (m : ST S A) (k : A -> ST S B) : ST S B := fun s =>
  match m s with
  | (Ok a, s') => k a s'
  | (Err e, s') => (Err e, s')
  | (Panic w, s') => (Panic w, s')
  | (Hang, s') => (Hang, s')
  end.

(** [if err != nil { return f(err) }] around a call. *)
Definition errctx {A} (f : error -> error) (m : ST S A) : ST S A := fun s =>
  match m s with
  | (Err e, s') => (Err (f e), s')
  | r => r
  end.

(** A computation that does not touch the state. *)
Definition lift_res {A} (r : res A) : ST S A := fun s => (r, s).

(** [make([]T, n)] panics on a negative length. *)
Definition makeslice (n : Z) : ST S unit :=
  if n <? 0 then panic "makeslice: len out of range" else ret tt.

(** [for i := i0; i < i0+n; i++ { x[i] = f(i) }], leaving on the first error. *)
Fixpoint forM {A} (n : nat) (i : Z) (f : Z -> ST S A) : ST S (list A) :=
  match n with
  | O => ret []
  | Datatypes.S n' =>
      bind (f i) (fun a => bind (forM n' (i + 1) f) (fun l => ret (a :: l)))
  end.

(** [for _, x := range l { f(x) }]. *)
Fixpoint rangeM {A} (l : list A) (f : A -> ST S unit) : ST S unit :=
  match l with
  | [] => ret tt
  | x :: l' => bind (f x) (fun _ => rangeM l' f)
  end.

(** [for more(state) { rec, err := one(); if err != nil { return recs, err };
    recs = append(recs, rec) }; return recs, nil], returning both Go results. *)
Fixpoint loopM {A} (fuel : nat) (more : S -> bool) (one : ST S A)
    : ST S (list A * option error) := fun s =>
  match fuel with
  | O => (Hang, s)
  | Datatypes.S fuel' =>
      if more s then
        match one s with
        | (Ok a, s') =>
            bind (loopM fuel' more one) (fun '(l, e) => ret (a :: l, e)) s'
        | (Err e, s') => (Ok ([], Some e), s')
        | (Panic w, s') => (Panic w, s')
        | (Hang, s') => (Hang, s')
        end
      else (Ok ([], None), s)
  end.

(** [for i := i0; i < i0+n && more(state); i++ { x[i] = f(i) }] where [None] is a
    [break]; the entries the loop did not reach are not part of the result. *)
Fixpoint forWhileM {A} (n : nat) (i : Z) (more : S -> bool) (f : Z -> ST S (option A))
    : ST S (list A) :=
  match n with
  | O => ret []
  | Datatypes.S n' => fun s =>
      if more s then
        bind (f i) (fun o =>
          match o with
          | None => ret []
          | Some a => bind (forWhileM n' (i + 1) more f) (fun l => ret (a :: l))
          end) s
      else (Ok [], s)
  end.

(** A run with its final state dropped. *)
Definition run {A} (m : ST S A) (s : S) : res A := fst (m s).
End monad.

(** The entries of [make([]T, n)] a loop left at the zero value. *)
Definition fill {A} (n : nat) (zero : A) (l : list A) : list A :=
  l ++ replicate (n - length l) zero.

Notation "'let*' p ':=' m 'in' k" := (bind m (fun p => k))
  (at level 10, p pattern, m at level 200, k at level 200) : go_scope.
Notation "m ;;; k" := (bind m (fun _ => k))
  (at level 100, right associativity) : go_scope.

(** [ent.elem], [bytes.NewBuffer(x)]: run [m] on a fresh buffer holding [b] inside a
    computation with another state, keeping only the outcome. *)
Definition on_buffer {S A} (b : bytes) (m : M A) : ST S A := fun s => (fst (m b), s).

(** ** Results and interface values *)

Definition rbind {A B} (r : res A) (k : A -> res B) : res B :=
  match r with
  | Ok a => k a
  | Err e => Err e
  | Panic w => Panic w
  | Hang => Hang
  end.

(** The results of [f] on a list, one after the other, or the first failure. *)
Fixpoint rflat_map {A B} (f : A -> res (list B)) (l : list A) : res (list B) :=
  match l with
  | [] => Ok []
  | a :: l' => rbind (f a) (fun bs => rbind (rflat_map f l') (fun rest => Ok (bs ++ rest)))
  end.

(** An outcome as a computation on a buffer. *)
Definition lift {A} (r : res A) : M A := fun b => (r, b).

(** A struct stored in an [interface{}], by value or by (possibly nil) pointer. *)
Inductive boxed (A : Type) : Type :=
  | Val (a : A)
  | Ptr (p : option A).
Arguments Val {A} _.
Arguments Ptr {A} _.

(** [&x] of a value, or the pointer itself. *)
Definition unbox {A} (x : boxed A) : option A :=
  match x with Val a => Some a | Ptr p => p end.

(** ** Postconditions

    [wp m Q E s]: running [m] from [s] neither panics nor runs out of fuel; a result
    satisfies [Q], a returned error [E]. *)
Definition wp {S A} (m : ST S A) (Q : A -> S -> Prop) (E : error -> S -> Prop) (s : S) : Prop :=
  match m s with
  | (Ok a, s') => Q a s'
  | (Err e, s') => E e s'
  | (Panic _, _) => False
  | (Hang, _) => False
  end.

Section wp.
Context {S : Type}.
Implicit Types s : S.

Lemma wp_mono {A} (m : ST S A) (Q Q' : A -> S -> Prop) (E E' : error -> S -> Prop) s :
  wp m Q E s -> (forall a s', Q a s' -> Q' a s') -> (forall e s', E e s' -> E' e s') ->
  wp m Q' E' s.
Proof. unfold wp. destruct (m s) as [[] ?]; eauto. Qed.

Lemma wp_ret {A} (a : A) (Q : A -> S -> Prop) E s : Q a s -> wp (ret a) Q E s.
Proof. done. Qed.

Lemma wp_fail {A} e (Q : A -> S -> Prop) (E : error -> S -> Prop) s : E e s -> wp (fail e) Q E s.
Proof. done. Qed.

Lemma wp_get (Q : S -> S -> Prop) E s : Q s s -> wp get Q E s.
Proof. done. Qed.

Lemma wp_put s0 (Q : unit -> S -> Prop) E s : Q tt s0 -> wp (put s0) Q E s.
Proof. done. Qed.

Lemma wp_bind {A B} (m : ST S A) (k : A -> ST S B) Q E s :
  wp m (fun a s' => wp (k a) Q E s') E s -> wp (bind m k) Q E s.
Proof. unfold wp, bind. destruct (m s) as [[] ?]; auto. Qed.

Lemma wp_errctx {A} f (m : ST S A) (Q : A -> S -> Prop) E s :
  wp m Q (fun e s' => E (f e) s') s -> wp (errctx f m) Q E s.
Proof. unfold wp, errctx. destruct (m s) as [[] ?]; auto. Qed.

Lemma wp_makeslice n (Q : unit -> S -> Prop) E s : 0 <= n -> Q tt s -> wp (makeslice n) Q E s.
Proof. intros Hn HQ. unfold makeslice. destruct (Z.ltb_spec n 0); [lia|done]. Qed.

Lemma wp_on_buffer {A} b (m : M A) (Q : A -> S -> Prop) E s :
  wp m (fun a _ => Q a s) (fun e _ => E e s) b -> wp (on_buffer b m) Q E s.
Proof. unfold wp, on_buffer. destruct (m b) as [[] ?]; auto. Qed.

(** Loops keep an invariant of the state, and what they collect satisfies [P]. *)
Lemma wp_forM {A} n i (f : Z -> ST S A) (I : S -> Prop) (P : A -> Prop) (E : error -> S -> Prop) s :
  I s -> (forall j s', I s' -> wp (f j) (fun a s'' => I s'' /\ P a) E s') ->
  wp (forM n i f) (fun l s' => I s' /\ length l = n /\ Forall P l) E s.
Proof.
  intros Hs Hf. revert i s Hs. induction n as [|n IH]; intros i s Hs; simpl; [by apply wp_ret|].
  apply wp_bind. eapply wp_mono; [apply Hf, Hs| |done]; intros a s' [Hs' Ha]; cbn beta.
  apply wp_bind. eapply wp_mono; [apply IH, Hs'| |done]; intros l s'' (HI & Hl & HP); cbn beta.
  apply wp_ret. simpl. auto.
Qed.

(** [wp_forWhileM]: [I n l s]: [n] iterations are left, [l] was built so far. *)
Lemma wp_forWhileM {A} n i more (f : Z -> ST S (option A)) (I : nat -> list A -> S -> Prop)
    (Q : list A -> S -> Prop) (E : error -> S -> Prop) l0 s :
  I n l0 s ->
  (forall l s', I O l s' -> Q l s') ->
  (forall k l s', I k l s' -> more s' = false -> Q l s') ->
  (forall k j l s', I (Datatypes.S k) l s' -> more s' = true ->
     wp (f j) (fun o s'' => match o with
                            | None => Q l s''
                            | Some a => I k (l ++ [a]) s''
                            end) E s') ->
  wp (forWhileM n i more f) (fun l s' => Q (l0 ++ l) s') E s.
Proof.
  intros Hs H0 Hstop Hf. revert i s l0 Hs. induction n as [|n IH]; intros i s l0 Hs.
  { apply wp_ret. rewrite app_nil_r. auto. }
  unfold wp. cbn [forWhileM]. destruct (more s) eqn:Hm.
  2:{ rewrite app_nil_r. eauto. }
  apply wp_bind. eapply wp_mono; [by eapply Hf| |done]. intros [a|] s' Hs'; cbn beta iota.
  - apply wp_bind. eapply wp_mono; [by apply IH| |done]. intros l s'' HQ.
    apply wp_ret. cbn beta in HQ. by rewrite <- app_assoc in HQ.
  - apply wp_ret. by rewrite app_nil_r.
Qed.

Lemma wp_rangeM {A} (l : list A) f (I : S -> Prop) (E : error -> S -> Prop) s :
  I s -> (forall x s', x ∈ l -> I s' -> wp (f x) (fun _ => I) E s') ->
  wp (rangeM l f) (fun _ => I) E s.
Proof.
  revert s. induction l as [|x l IH]; intros s Hs Hf; simpl; [done|].
  apply wp_bind. eapply wp_mono; [apply Hf; [set_solver|done]| |done]; intros ? s' Hs'.
  apply IH; [done|]. intros; apply Hf; [set_solver|done].
Qed.
End wp.

(** A loop whose body consumes its buffer while it runs ends within fuel [S (len b)]. *)
Lemma wp_loopM {A} fuel more (one : M A) (I : bytes -> Prop) (P : A -> Prop) b :
  (length b < fuel)%nat -> I b ->
  (forall b', I b' -> more b' = true ->
     wp one (fun a b'' => I b'' /\ P a /\ (length b'' < length b')%nat) (fun _ => I) b') ->
  wp (loopM fuel more one)
     (fun '(l, e) b' => I b' /\ Forall P l /\ (length l <= length b)%nat /\
                        (e = None -> more b' = false)) (fun _ _ => False) b.
Proof.
  revert b. induction fuel as [|fuel IH]; intros b Hf HI Hone; [lia|].
  unfold wp; simpl. destruct (more b) eqn:Hm; [|splits; auto; simpl; lia].
  specialize (Hone b HI Hm) as Hb. unfold wp in Hb.
  destruct (one b) as [[a|e|w|] b1]; [|splits; auto; simpl; [lia|done] | done | done].
  destruct Hb as (HI1 & HP & Hlt).
  specialize (IH b1 ltac:(lia) HI1 Hone). unfold wp in IH. unfold bind.
  destruct (loopM fuel more one b1) as [[[l e]|e|w|] b2]; try done.
  simpl. destruct IH as (? & ? & ? & ?). splits; auto. lia.
Qed.

(** ** Round trips

    [reads m bs a]: [m] turns a buffer that starts with [bs] into [a] and leaves what
    follows [bs].  [writes m bs]: [m] appends [bs] to its buffer. *)
Definition reads {A} (m : M A) (bs : bytes) (a : A) : Prop :=
  forall rest, m (bs ++ rest) = (Ok a, rest).
Definition writes (m : M unit) (bs : bytes) : Prop :=
  forall b, m b = (Ok tt, b ++ bs).

(** The bytes a writer puts in an empty buffer ([buf.Bytes()]). *)
Definition written (m : M unit) : res bytes :=
  match m [] with
  | (Ok _, b) => Ok b
  | (Err e, _) => Err e
  | (Panic w, _) => Panic w
  | (Hang, _) => Hang
  end.

Section round_trips.
Lemma reads_ret {A} (a : A) : reads (ret a) [] a.
Proof. done. Qed.

Lemma reads_bind {A B} (m : M A) (k : A -> M B) b1 b2 a c :
  reads m b1 a -> reads (k a) b2 c -> reads (bind m k) (b1 ++ b2) c.
Proof. intros H1 H2 rest. unfold bind. rewrite <- app_assoc, H1. apply H2. Qed.

Lemma reads_errctx {A} f (m : M A) bs a : reads m bs a -> reads (errctx f m) bs a.
Proof. intros H rest. unfold errctx. by rewrite H. Qed.

Lemma reads_makeslice {A} n (m : M A) bs a :
  0 <= n -> reads m bs a -> reads (makeslice n ;;; m) bs a.
Proof. intros Hn H rest. unfold makeslice. destruct (Z.ltb_spec n 0); [lia|apply H]. Qed.

Lemma reads_forM {A B} (l : list A) i (f : Z -> M B) (enc : A -> bytes) (g : A -> B) :
  (forall j x, x ∈ l -> reads (f j) (enc x) (g x)) ->
  reads (forM (length l) i f) (flat_map enc l) (map g l).
Proof.
  revert i. induction l as [|x l IH]; intros i Hf; simpl; [apply reads_ret|].
  eapply reads_bind; [apply Hf; set_solver|].
  rewrite <- (app_nil_r (flat_map enc l)).
  eapply reads_bind; [apply IH; set_solver|]. apply reads_ret.
Qed.

Lemma reads_forWhileM {A B} (l : list A) i more (f : Z -> M (option B)) enc (g : A -> B) :
  (forall x rest, x ∈ l -> more (enc x ++ rest) = true) ->
  (forall j x, x ∈ l -> reads (f j) (enc x) (Some (g x))) ->
  reads (forWhileM (length l) i more f) (flat_map enc l) (map g l).
Proof.
  revert i. induction l as [|x l IH]; intros i Hmore Hf rest; [done|].
  cbn [flat_map length forWhileM map]. rewrite <- app_assoc, Hmore by set_solver.
  unfold bind. rewrite Hf by set_solver. unfold bind. rewrite IH; [done|set_solver|set_solver].
Qed.

Lemma reads_app_nil {A} (m : M A) bs a : reads m (bs ++ []) a -> reads m bs a.
Proof. by rewrite app_nil_r. Qed.

(** A decoding loop reads back what was written record by record, up to a padding
    on which it stops. *)
Lemma reads_loopM {A B} (l : list A) fuel more (one : M B) (enc : A -> bytes) (g : A -> B) pad :
  (length l < fuel)%nat ->
  (forall x rest, x ∈ l -> more (enc x ++ rest) = true) ->
  (forall x, x ∈ l -> reads one (enc x) (g x)) ->
  more pad = false ->
  loopM fuel more one (flat_map enc l ++ pad) = (Ok (map g l, None), pad).
Proof.
  revert fuel. induction l as [|x l IH]; intros [|fuel] Hfuel Hmore Hone Hpad; simpl in *;
    [lia| by rewrite Hpad |lia|].
  rewrite <- app_assoc, Hmore by set_solver.
  rewrite (Hone x) by set_solver. unfold bind.
  rewrite IH; [done|lia|set_solver|set_solver|done].
Qed.

Lemma writes_ret : writes (ret tt) [].
Proof. intros b. unfold ret. by rewrite app_nil_r. Qed.

Lemma writes_bind m (k : unit -> M unit) b1 b2 :
  writes m b1 -> writes (k tt) b2 -> writes (bind m k) (b1 ++ b2).
Proof. intros H1 H2 b. unfold bind. by rewrite H1, H2, app_assoc. Qed.

Lemma writes_rangeM {A} (l : list A) f enc :
  (forall x, x ∈ l -> writes (f x) (enc x)) -> writes (rangeM l f) (flat_map enc l).
Proof.
  induction l as [|x l IH]; intros Hf; simpl; [apply writes_ret|].
  apply writes_bind; [apply Hf; set_solver|]. apply IH. set_solver.
Qed.

Lemma writes_app_nil m bs : writes m (bs ++ []) -> writes m bs.
Proof. by rewrite app_nil_r. Qed.

Lemma written_writes m bs : writes m bs -> written m = Ok bs.
Proof. intros H. unfold written. by rewrite H. Qed.

Lemma writes_lift {A} (a : A) (k : A -> M unit) bs : writes (k a) bs -> writes (bind (lift (Ok a)) k) bs.
Proof. done. Qed.

Lemma written_fail (e : error) : written (fail e) = Err e.
Proof. done. Qed.
End round_trips.

(** ** Lists *)

Lemma len_nonneg {A} (l : list A) : 0 <= len l.
Proof. unfold len; lia. Qed.

Lemma len_app {A} (l1 l2 : list A) : len (l1 ++ l2) = len l1 + len l2.
Proof. unfold len. rewrite length_app. lia. Qed.

Lemma len_nil {A} : len (@nil A) = 0.
Proof. done. Qed.

Lemma len_cons {A} (x : A) l : len (x :: l) = len l + 1.
Proof. unfold len. simpl. lia. Qed.

Lemma len_map {A B} (f : A -> B) l : len (map f l) = len l.
Proof. unfold len. by rewrite length_map. Qed.

Lemma len_replicate {A} n (x : A) : len (replicate n x) = Z.of_nat n.
Proof. unfold len. by rewrite length_replicate. Qed.

Lemma take_app_len {A} (l k : list A) : take (Z.to_nat (len l)) (l ++ k) = l.
Proof. unfold len. by rewrite Nat2Z.id, take_app_length. Qed.

Lemma drop_app_len {A} (l k : list A) : drop (Z.to_nat (len l)) (l ++ k) = k.
Proof. unfold len. by rewrite Nat2Z.id, drop_app_length. Qed.

Lemma flat_map_len_const {A B} (f : A -> list B) n l :
  (forall x, x ∈ l -> len (f x) = n) -> len (flat_map f l) = n * len l.
Proof.
  induction l as [|x l IH]; intros Hf; simpl; [unfold len; simpl; lia|].
  rewrite len_app, len_cons, Hf, IH by set_solver. lia.
Qed.

Lemma map_id_ext {A} (f : A -> A) l : (forall x, x ∈ l -> f x = x) -> map f l = l.
Proof.
  induction l as [|x l IH]; intros Hf; simpl; [done|].
  rewrite Hf, IH by set_solver. done.
Qed.

Lemma omap_map_ext {A B} (f f' : A -> option B) (g : B -> B) l :
  (forall x, x ∈ l -> f' x = g <$> f x) -> omap f' l = map g (omap f l).
Proof.
  induction l as [|x l IH]; intros Hf; [done|]. simpl. rewrite Hf by set_solver.
  destruct (f x); simpl; [f_equal|]; apply IH; intros y Hy; apply Hf; set_solver.
Qed.

Lemma omap_filter_ext {A B} (f f' : A -> option B) (P : A -> bool) (Q : B -> bool) l :
  (forall x, x ∈ l -> exists b, f x = Some b /\ Q b = P x /\ (P x = true -> f' x = Some b)) ->
  omap f' (List.filter P l) = List.filter Q (omap f l).
Proof.
  induction l as [|x l IH]; intros Hf; [done|].
  destruct (Hf x) as (b & Hb & HQ & HP); [set_solver|]. simpl. rewrite Hb. simpl. rewrite HQ.
  assert (Hl := IH ltac:(intros y Hy; apply Hf; set_solver)).
  destruct (P x); simpl; [rewrite HP by done; f_equal|]; apply Hl.
Qed.

Lemma is_bytes_app b1 b2 : is_bytes (b1 ++ b2) <-> is_bytes b1 /\ is_bytes b2.
Proof. apply Forall_app. Qed.

(** Concrete bytes are checked by evaluation. *)
Lemma is_bytes_by_test b : forallb (fun x => (0 <=? x) && (x <? 256)) b = true -> is_bytes b.
Proof.
  intros H. apply Forall_forall. intros x Hx. rewrite forallb_forall in H.
  specialize (H x ltac:(by apply list_elem_of_In)). apply andb_prop in H as [H1 H2].
  apply Z.leb_le in H1. apply Z.ltb_lt in H2. split; [done|]. lia.
Qed.

(** Lemmas that compute lengths, and hints that discharge the usual side conditions. *)
Create HintDb golen discriminated.
#[export] Hint Rewrite @len_app @len_nil @len_cons @len_map @len_replicate : golen.

Create HintDb reads discriminated.
#[export] Hint Resolve reads_ret reads_errctx : reads.
Create HintDb writes discriminated.
#[export] Hint Resolve writes_ret : writes.

(** [golen]: arithmetic about lengths. *)
Ltac golen :=
  autorewrite with golen in *;
  repeat match goal with
    | l : list _ |- _ =>
        lazymatch goal with
        | _ : 0 <= len l |- _ => fail
        | _ => pose proof (len_nonneg l)
        end
    | |- context [len ?l] =>
        lazymatch goal with
        | _ : 0 <= len l |- _ => fail
        | _ => pose proof (len_nonneg l)
        end
    end;
  try lia.

(** [read_step]: one read of a sequence whose bytes are [b1 ++ b2]; the goal for the
    rest is left. *)
Ltac read_step := eapply reads_bind; [solve [eauto with reads]|]; cbv beta iota zeta.
Ltac read_steps := repeat read_step.
Ltac write_step := eapply writes_bind; [solve [eauto with writes]|]; cbv beta iota zeta.
Ltac write_steps := repeat write_step.

(** ** Bit operations as arithmetic *)

Lemma land_shiftl_low a n x : 0 <= n -> 0 <= x < 2 ^ n -> Z.land (Z.shiftl a n) x = 0.
Proof.
  intros Hn Hx. apply Z.bits_inj'. intros i Hi.
  rewrite Z.land_spec, Z.bits_0.
  destruct (Z.lt_ge_cases i n) as [Hlt|Hge].
  - by rewrite Z.shiftl_spec_low.
  - replace x with (x mod 2 ^ n) by (apply Z.mod_small; lia).
    rewrite Z.mod_pow2_bits_high by lia. apply andb_false_r.
Qed.

Lemma lor_shiftl_low a n x : 0 <= n -> 0 <= x < 2 ^ n -> Z.lor (Z.shiftl a n) x = a * 2 ^ n + x.
Proof.
  intros Hn Hx. rewrite <- Z.lxor_lor by (by apply land_shiftl_low).
  rewrite <- Z.add_nocarry_lxor by (by apply land_shiftl_low).
  by rewrite Z.shiftl_mul_pow2.
Qed.

Lemma shiftr_div a n : 0 <= n -> Z.shiftr a n = a / 2 ^ n.
Proof. apply Z.shiftr_div_pow2. Qed.

Lemma land_ones_mod a n : 0 <= n -> Z.land a (Z.ones n) = a mod 2 ^ n.
Proof. apply Z.land_ones. Qed.

Lemma to_uint_uint w z : 0 <= w -> uint w (to_uint w z).
Proof. intros. apply Z.mod_pos_bound. apply Z.pow_pos_nonneg; lia. Qed.

Lemma to_uint_small w z : uint w z -> to_uint w z = z.
Proof. apply Z.mod_small. Qed.

Lemma to_int_eq w a b : a mod 2 ^ w = b mod 2 ^ w -> to_int w a = to_int w b.
Proof. unfold to_int. by intros ->. Qed.

Lemma to_int_mod w z : 0 < w -> to_int w z mod 2 ^ w = z mod 2 ^ w.
Proof.
  intros Hw. assert (0 < 2 ^ w) by lia. unfold to_int. destruct (Z.ltb_spec (z mod 2 ^ w) (2 ^ (w - 1))).
  - by rewrite Z.mod_mod by lia.
  - rewrite <- (Z_mod_plus_full _ 1), Z.mul_1_l, Z.sub_add. by rewrite Z.mod_mod by lia.
Qed.

Lemma to_int_add w a b : 0 < w -> to_int w (to_int w a + b) = to_int w (a + b).
Proof. intros Hw. apply to_int_eq. by rewrite Z.add_mod, to_int_mod, <- Z.add_mod by lia. Qed.

Lemma to_int64_of z v : z mod 2 ^ 64 = v mod 2 ^ 64 -> - 2 ^ 63 <= v < 2 ^ 63 -> to_int 64 z = v.
Proof.
  intros E Hv. unfold to_int. rewrite E. change (2 ^ (64 - 1)) with (2 ^ 63).
  destruct (decide (0 <= v)).
  - rewrite Z.mod_small by lia. destruct (Z.ltb_spec v (2 ^ 63)); lia.
  - rewrite <- (Z.mod_unique v (2 ^ 64) (-1) (v + 2 ^ 64)) by lia. destruct (Z.ltb_spec (v + 2 ^ 64) (2 ^ 63)); lia.
Qed.

Lemma to_int64_small z : - 2 ^ 63 <= z < 2 ^ 63 -> to_int 64 z = z.
Proof. by apply to_int64_of. Qed.

(** [wp_seq]: step over the first computation of a sequence. *)
Ltac wp_seq := apply wp_bind.
