(* ===== verification/DecodersUtils.v ===== *)
(** * decoders/utils: typed reads and writes on a [bytes.Buffer]

    [BinaryRead]/[BinaryDecoder]/[intDataSize] (decoders/utils/utils.go) and the
    [WriteU*] helpers (decoders/utils/encode.go).  A destination [dest A] stands for the
    dynamic type of a pointer or slice passed as [data any] and the type [A] of what is
    stored through it; several destinations in one [BinaryDecoder] call are a sequence of
    reads, since the loop stops at the first error and wraps every error the same way. *)
From S2P Require Import Prelude.

(** ** Byte order ([encoding/binary]) *)

Fixpoint be_get_from (acc : Z) (b : bytes) : Z :=
  match b with
  | [] => acc
  | x :: b' => be_get_from (Z.lor (Z.shiftl acc 8) x) b'
  end.

(** [binary.BigEndian.Uint16/32/64] of the bytes [b]. *)
Definition be_get (b : bytes) : Z := be_get_from 0 b.

(** [binary.BigEndian.PutUint16/32/64]: byte [i] is [byte(v >> (8*(n-1-i)))]. *)
Fixpoint be_put (n : nat) (v : Z) : bytes :=
  match n with
  | O => []
  | S n' => to_uint 8 (Z.shiftr v (8 * Z.of_nat n')) :: be_put n' v
  end.

Inductive ByteOrder : Type := BigEndian | LittleEndian.

Definition order_get (order : ByteOrder) (b : bytes) : Z :=
  match order with BigEndian => be_get b | LittleEndian => be_get (rev b) end.

(** ** The buffer ([bytes.Buffer]) *)

(** [payload.Next(n)]: at most [n] bytes, which are consumed. *)
Definition Next (n : Z) : M bytes := fun b =>
  if n <? 0 then (Panic "bytes.Buffer.Next: slice bounds out of range", b)
  else let m := Z.to_nat (Z.min n (len b)) in (Ok (take m b), drop m b).

(** [payload.Len()] and [payload.Bytes()]. *)
Definition Len : M Z := fun b => (Ok (len b), b).
Definition Bytes : M bytes := fun b => (Ok b, b).

(** [buf.Write(p)]; its error is always nil. *)
Definition Write (p : bytes) : M unit := fun b => (Ok tt, b ++ p).

(** ** BinaryRead *)

Inductive dest : Type -> Type :=
  | D_bool : dest bool
  | D_int8 : dest Z | D_uint8 : dest Z
  | D_int16 : dest Z | D_uint16 : dest Z
  | D_int32 : dest Z | D_uint32 : dest Z
  | D_int64 : dest Z | D_uint64 : dest Z
  | D_string : dest bytes
  | D_bools (n : nat) : dest (list bool)
  | D_int8s (n : nat) : dest (list Z)
  | D_uint8s (n : nat) : dest (list Z)      (* []uint8, IPAddress, MacAddress *)
  | D_int16s (n : nat) : dest (list Z) | D_uint16s (n : nat) : dest (list Z)
  | D_int32s (n : nat) : dest (list Z) | D_uint32s (n : nat) : dest (list Z)
  | D_int64s (n : nat) : dest (list Z) | D_uint64s (n : nat) : dest (list Z)
  | D_other {A} : dest A.                   (* any other dynamic type *)

(** Bytes needed for the destination; zero when the fast path does not apply. *)
Definition intDataSize {A} (data : dest A) : Z :=
  match data with
  | D_bool | D_int8 | D_uint8 => 1
  | D_bools n | D_int8s n | D_uint8s n => Z.of_nat n
  | D_int16 | D_uint16 => 2
  | D_int16s n | D_uint16s n => 2 * Z.of_nat n
  | D_int32 | D_uint32 => 4
  | D_string => 4
  | D_int32s n | D_uint32s n => 4 * Z.of_nat n
  | D_int64 | D_uint64 => 8
  | D_int64s n | D_uint64s n => 8 * Z.of_nat n
  | D_other => 0
  end.

(** [for i := range data { data[i] = f(bs[w*i:]) }]. *)
Fixpoint chunks (w n : nat) (f : bytes -> Z) (bs : bytes) : list Z :=
  match n with
  | O => []
  | S n' => f (take w bs) :: chunks w n' f (drop w bs)
  end.

Definition errInvalidType : error := Errorf "binary.Read: invalid type " [].

(** The [switch data := data.(type)] of the fast path, on the [n] bytes read. *)
Definition BinaryRead_switch (order : ByteOrder) {A} (data : dest A) (bs : bytes) : M A :=
  match data in dest A return M A with
  | D_bool => ret (negb (nth 0 bs 0 =? 0))
  | D_int8 => ret (to_int 8 (nth 0 bs 0))
  | D_uint8 => ret (nth 0 bs 0)
  | D_int16 => ret (to_int 16 (order_get order bs))
  | D_uint16 => ret (order_get order bs)
  | D_int32 => ret (to_int 32 (order_get order bs))
  | D_uint32 => ret (order_get order bs)
  | D_int64 => ret (to_int 64 (order_get order bs))
  | D_uint64 => ret (order_get order bs)
  | D_string =>
      let strlen := order_get order bs in
      let* buf := Next strlen in
      if len buf <? strlen then fail ErrUnexpectedEOF else ret buf
  | D_bools _ => ret (map (fun x => negb (x =? 0)) bs)
  | D_int8s _ => ret (map (to_int 8) bs)
  | D_uint8s _ => ret bs
  | D_int16s n => ret (chunks 2 n (fun b => to_int 16 (order_get order b)) bs)
  | D_uint16s n => ret (chunks 2 n (order_get order) bs)
  | D_int32s n => ret (chunks 4 n (fun b => to_int 32 (order_get order b)) bs)
  | D_uint32s n => ret (chunks 4 n (order_get order) bs)
  | D_int64s n => ret (chunks 8 n (fun b => to_int 64 (order_get order b)) bs)
  | D_uint64s n => ret (chunks 8 n (order_get order) bs)
  | D_other => fail errInvalidType
  end.

Definition BinaryRead (order : ByteOrder) {A} (data : dest A) : M A :=
  let n := intDataSize data in
  if n =? 0 then fail errInvalidType
  else
    let* bs := Next n in
    if len bs <? n then fail ErrUnexpectedEOF
    else BinaryRead_switch order data bs.

Definition BinaryDecoder {A} (data : dest A) : M A :=
  errctx (Wrap "BinaryDecoder" []) (BinaryRead BigEndian data).

(** ** Writers *)

Definition WriteU8 (v : Z) : M unit := Write [v].
Definition WriteU16 (v : Z) : M unit := Write (be_put 2 v).
Definition WriteU32 (v : Z) : M unit := Write (be_put 4 v).
Definition WriteU64 (v : Z) : M unit := Write (be_put 8 v).
Definition WriteString (s : bytes) : M unit :=
  WriteU32 (to_uint 32 (len s)) ;;; Write s.

(** ** Properties of the byte order *)

Lemma length_be_put n v : length (be_put n v) = n.
Proof. induction n; cbn [be_put length]; auto. Qed.

Lemma len_be_put n v : len (be_put n v) = Z.of_nat n.
Proof. unfold len. by rewrite length_be_put. Qed.
#[export] Hint Rewrite len_be_put : golen.

Lemma is_bytes_be_put n v : is_bytes (be_put n v).
Proof. induction n; cbn [be_put]; constructor; [apply to_uint_uint; lia|done]. Qed.

Lemma be_get_from_app acc b1 b2 : be_get_from acc (b1 ++ b2) = be_get_from (be_get_from acc b1) b2.
Proof. revert acc. induction b1; intros; simpl; auto. Qed.

Lemma be_get_from_eq acc b : is_bytes b -> be_get_from acc b = acc * 2 ^ (8 * len b) + be_get b.
Proof.
  intros Hb. unfold be_get. revert acc. induction Hb as [|x b Hx Hb IH]; intros acc; cbn [be_get_from].
  - unfold len; simpl. lia.
  - rewrite IH, (IH (Z.lor (Z.shiftl 0 8) x)), !lor_shiftl_low by (try exact Hx; lia).
    rewrite len_cons, Z.mul_add_distr_l, Z.pow_add_r by (pose proof (len_nonneg b); lia). lia.
Qed.

Lemma be_get_uint b : is_bytes b -> uint (8 * len b) (be_get b).
Proof.
  induction 1 as [|x b Hx Hb IH]; [done|].
  unfold be_get; cbn [be_get_from]. rewrite be_get_from_eq by done.
  rewrite lor_shiftl_low by (try exact Hx; lia).
  unfold uint in *. rewrite len_cons, Z.mul_add_distr_l, Z.pow_add_r by (pose proof (len_nonneg b); lia).
  nia.
Qed.

Lemma be_get_put n v : uint (8 * Z.of_nat n) v -> be_get (be_put n v) = v.
Proof.
  cut (be_get (be_put n v) = v mod 2 ^ (8 * Z.of_nat n)).
  { intros -> ?. by apply Z.mod_small. }
  induction n as [|n IH]; [by rewrite Z.mod_1_r|].
  cbn [be_put]. unfold be_get; cbn [be_get_from].
  rewrite be_get_from_eq by apply is_bytes_be_put.
  rewrite IH, len_be_put, Z.shiftl_0_l, Z.lor_0_l. unfold to_uint.
  rewrite shiftr_div by lia.
  rewrite Nat2Z.inj_succ, Z.mul_succ_r, Z.pow_add_r by lia.
  rewrite Z.rem_mul_r; [lia| apply Z.pow_nonzero; lia | lia].
Qed.

Lemma be_put_get b : is_bytes b -> be_put (length b) (be_get b) = b.
Proof.
  induction 1 as [|x b Hx Hb IH]; [done|]. cbn [length be_put].
  assert (be_get (x :: b) = x * 2 ^ (8 * len b) + be_get b) as ->.
  { unfold be_get at 1; cbn [be_get_from]. by rewrite be_get_from_eq by done. }
  pose proof (be_get_uint b Hb) as Hg. pose proof (len_nonneg b). unfold uint in *.
  f_equal.
  - unfold to_uint. rewrite shiftr_div by lia. fold (len b).
    rewrite Z.div_add_l, Z.div_small, Z.add_0_r by (try apply Z.pow_nonzero; lia).
    by apply Z.mod_small.
  - trans (be_put (length b) (be_get b)); [|exact IH]. clear IH. unfold len in Hg, H |- *. generalize (length b) as n.
    clear Hg H. intros n. generalize (be_get b) as g. intros g.
    assert (forall k y, (k <= n)%nat -> be_put k (y * 2 ^ (8 * Z.of_nat n) + g) = be_put k g) as Hk; [|by apply Hk].
    induction k as [|k IHk]; intros y Hle; [done|]. cbn [be_put]. f_equal; [|apply IHk; lia].
    unfold to_uint. rewrite !shiftr_div by lia.
    replace (8 * Z.of_nat n) with (8 * (Z.of_nat n - Z.of_nat k) + 8 * Z.of_nat k) by lia.
    rewrite Z.pow_add_r, Z.mul_assoc, Z.div_add_l by (try apply Z.pow_nonzero; lia).
    replace (8 * (Z.of_nat n - Z.of_nat k)) with (8 * (Z.of_nat n - Z.of_nat k - 1) + 8) by lia.
    rewrite Z.pow_add_r, Z.mul_assoc by lia.
    rewrite Z.add_comm, Z.mod_add; [done|lia].
Qed.

Arguments be_put : simpl never.

(** ** Reads invert writes *)

Lemma Next_all b : Next (len b) b = (Ok b, []).
Proof.
  unfold Next. pose proof (len_nonneg b). destruct (Z.ltb_spec (len b) 0); [lia|].
  rewrite Z.min_id. unfold len. by rewrite Nat2Z.id, firstn_all, drop_all.
Qed.

Lemma Next_app bs rest : Next (len bs) (bs ++ rest) = (Ok bs, rest).
Proof.
  unfold Next. pose proof (len_nonneg bs). destruct (Z.ltb_spec (len bs) 0); [lia|].
  rewrite Z.min_l by golen. by rewrite take_app_len, drop_app_len.
Qed.

Lemma reads_Next n bs : len bs = n -> reads (Next n) bs bs.
Proof. intros <- rest. apply Next_app. Qed.

(** What the dynamic type of a destination says about the values stored through it. *)
Definition dest_ok {A} (data : dest A) : A -> Prop :=
  match data in dest A return A -> Prop with
  | D_uint8 => u8 | D_uint16 => u16 | D_uint32 => u32 | D_uint64 => u64
  | D_uint8s n => fun l => is_bytes l /\ length l = n
  | D_uint32s n => fun l => Forall u32 l /\ length l = n
  | _ => fun _ => True
  end.

(** The big-endian representation of a value of a fixed-size unsigned destination. *)
Definition dest_put {A} (data : dest A) : A -> bytes :=
  match data in dest A return A -> bytes with
  | D_uint8 => fun v => [v]
  | D_uint16 => be_put 2
  | D_uint32 => be_put 4
  | D_uint64 => be_put 8
  | D_uint8s _ => fun l => l
  | D_uint32s _ => flat_map (be_put 4)
  | _ => fun _ => []
  end.

(** The destinations the flow decoders use. *)
Definition dest_unsigned {A} (data : dest A) : bool :=
  match data with
  | D_uint8 | D_uint16 | D_uint32 | D_uint64 | D_uint8s (S _) | D_uint32s (S _) => true
  | _ => false
  end.

Lemma chunks_flat_map (w : nat) vs rest f enc :
  (forall v, v ∈ vs -> length (enc v) = w /\ f (enc v) = v) ->
  chunks w (length vs) f (flat_map enc vs ++ rest) = vs.
Proof.
  induction vs as [|v vs IH]; intros Hv; simpl; [done|].
  destruct (Hv v) as [Hl Hf]; [set_solver|].
  rewrite <- app_assoc, <- Hl, take_app_length, drop_app_length, Hf, Hl, IH by set_solver. done.
Qed.

Lemma len_dest_put {A} (d : dest A) v :
  dest_unsigned d = true -> dest_ok d v -> len (dest_put d v) = intDataSize d.
Proof.
  destruct d as [| | | | | | | | | | | |n| | | |n| | |]; simpl; try done; intros Hd.
  - destruct n; [done|]. intros [_ <-]. done.
  - intros [Hv <-]. erewrite (flat_map_len_const _ 4); [done|]. intros. apply len_be_put.
Qed.

Lemma reads_BinaryDecoder {A} (d : dest A) v :
  dest_unsigned d = true -> dest_ok d v -> reads (BinaryDecoder d) (dest_put d v) v.
Proof.
  intros Hd Hv rest. pose proof (len_dest_put d v Hd Hv) as Hl.
  unfold BinaryDecoder, errctx, BinaryRead.
  assert (0 < intDataSize d) as Hpos by (destruct d as [| | | | | | | | | |n|n|[]|n|n|n|[]|n|n|]; simpl in *; lia || done).
  destruct (Z.eqb_spec (intDataSize d) 0) as [?|_]; [lia|].
  unfold bind. rewrite <- Hl, Next_app. destruct (Z.ltb_spec (len (dest_put d v)) (len (dest_put d v))); [lia|].
  destruct d as [| | | | | | | | | | | |n| | | |n| | |]; try done;
    cbn [dest_put dest_ok BinaryRead_switch order_get ret] in *; unfold ret; do 2 f_equal.
  1-3: by apply be_get_put.
  destruct Hv as [Hv <-]. rewrite <- (app_nil_r (flat_map _ _)).
  apply chunks_flat_map. intros x Hx. rewrite length_be_put. split; [done|].
  apply be_get_put. by apply (proj1 (Forall_forall _ _) Hv).
Qed.

Section reads_unsigned.
Lemma reads_u8 v : u8 v -> reads (BinaryDecoder D_uint8) [v] v.
Proof. apply (reads_BinaryDecoder D_uint8 v eq_refl). Qed.
Lemma reads_u16 v : u16 v -> reads (BinaryDecoder D_uint16) (be_put 2 v) v.
Proof. apply (reads_BinaryDecoder D_uint16 v eq_refl). Qed.
Lemma reads_u32 v : u32 v -> reads (BinaryDecoder D_uint32) (be_put 4 v) v.
Proof. apply (reads_BinaryDecoder D_uint32 v eq_refl). Qed.
Lemma reads_u64 v : u64 v -> reads (BinaryDecoder D_uint64) (be_put 8 v) v.
Proof. apply (reads_BinaryDecoder D_uint64 v eq_refl). Qed.
Lemma reads_bytes n bs : is_bytes bs -> length bs = S n -> reads (BinaryDecoder (D_uint8s (S n))) bs bs.
Proof. intros. by apply (reads_BinaryDecoder (D_uint8s (S n)) bs eq_refl). Qed.
Lemma reads_u32s n vs :
  Forall u32 vs -> length vs = S n ->
  reads (BinaryDecoder (D_uint32s (S n))) (flat_map (be_put 4) vs) vs.
Proof. intros. by apply (reads_BinaryDecoder (D_uint32s (S n)) vs eq_refl). Qed.
End reads_unsigned.
#[export] Hint Resolve reads_u8 reads_u16 reads_u32 reads_u64 reads_bytes reads_u32s : reads.

Section writes.
Lemma writes_Write p : writes (Write p) p.
Proof. done. Qed.
Lemma writes_u8 v : writes (WriteU8 v) [v].
Proof. done. Qed.
Lemma writes_u16 v : writes (WriteU16 v) (be_put 2 v).
Proof. done. Qed.
Lemma writes_u32 v : writes (WriteU32 v) (be_put 4 v).
Proof. done. Qed.
Lemma writes_u64 v : writes (WriteU64 v) (be_put 8 v).
Proof. done. Qed.
End writes.
#[export] Hint Resolve writes_Write writes_u8 writes_u16 writes_u32 writes_u64 : writes.

(** ** Reads on arbitrary buffers *)

Lemma is_bytes_suffix b' b : b' `suffix_of` b -> is_bytes b -> is_bytes b'.
Proof. intros [p ->] Hb. by apply is_bytes_app in Hb as [_ ?]. Qed.

Lemma Next_spec n b :
  0 <= n ->
  exists bs b', Next n b = (Ok bs, b') /\ b = bs ++ b' /\ len bs = Z.min n (len b).
Proof.
  intros Hn. unfold Next. destruct (Z.ltb_spec n 0); [lia|].
  eexists _, _. split; [reflexivity|]. rewrite take_drop. split; [done|].
  unfold len. rewrite length_take. lia.
Qed.

Lemma wp_Next n (Q : bytes -> bytes -> Prop) E b :
  0 <= n ->
  (forall bs b', b = bs ++ b' -> len bs = Z.min n (len b) -> Q bs b') -> wp (Next n) Q E b.
Proof.
  intros Hn HQ. destruct (Next_spec n b Hn) as (bs & b' & Heq & Hb & Hl).
  unfold wp. rewrite Heq. auto.
Qed.

(** A buffer shorter than the destination: unexpected EOF, and what was left is lost. *)
Lemma BinaryDecoder_short {A} (d : dest A) b :
  len b < intDataSize d ->
  BinaryDecoder d b = (Err (Wrap "BinaryDecoder" [] ErrUnexpectedEOF), []).
Proof.
  intros Hlt. pose proof (len_nonneg b). unfold BinaryDecoder, errctx, BinaryRead, bind, Next.
  destruct (Z.eqb_spec (intDataSize d) 0) as [?|_]; [lia|].
  destruct (Z.ltb_spec (intDataSize d) 0); [lia|].
  rewrite Z.min_r by lia. replace (Z.to_nat (len b)) with (length b) by (unfold len; lia).
  rewrite firstn_all, drop_all.
  by destruct (Z.ltb_spec (len b) (intDataSize d)); [|lia].
Qed.

Lemma dest_get_put {A} (d : dest A) bs :
  dest_unsigned d = true -> is_bytes bs -> len bs = intDataSize d ->
  exists v, dest_ok d v /\ bs = dest_put d v.
Proof.
  intros Hd Hb Hl.
  assert (forall n, Z.of_nat n = len bs -> exists v, uint (8 * len bs) v /\ bs = be_put n v) as Hbe.
  { intros n Hn. exists (be_get bs). split; [by apply be_get_uint|].
    replace n with (length bs) by (unfold len in Hn; lia). by rewrite be_put_get. }
  destruct d as [| | | | | | | | | | | |n| | | |n| | |]; try done; simpl in *;
    try (destruct (Hbe _ (eq_sym Hl)) as (v & Hv & ->); rewrite Hl in Hv; by exists v).
  - destruct bs as [|x [|]]; try (unfold len in Hl; simpl in Hl; lia). exists x. by inversion Hb.
  - destruct (Hbe 2%nat) as (v & Hv & ->); [lia|]. rewrite Hl in Hv. by exists v.
  - destruct (Hbe 4%nat) as (v & Hv & ->); [lia|]. rewrite Hl in Hv. by exists v.
  - destruct (Hbe 8%nat) as (v & Hv & ->); [lia|]. rewrite Hl in Hv. by exists v.
  - exists bs. unfold len in Hl. split; [split; [done|lia]|done].
  - clear Hbe Hd. revert n Hl. assert (forall n, len bs = 4 * Z.of_nat n ->
      exists v, (Forall u32 v /\ length v = n) /\ bs = flat_map (be_put 4) v) as H; [|intros n; apply H].
    intros n. revert bs Hb. induction n as [|n IH]; intros bs Hb Hl.
    { exists []. destruct bs; [done|]. unfold len in Hl; simpl in Hl; lia. }
    rewrite <- (take_drop 4 bs) in Hb |- *. apply is_bytes_app in Hb as [Hb1 Hb2].
    assert (length (take 4 bs) = 4%nat) as Hl4 by (rewrite length_take; unfold len in Hl; lia).
    destruct (IH (drop 4 bs) Hb2) as (v & [Hv <-] & ->).
    { unfold len in *. rewrite length_drop. lia. }
    exists (be_get (take 4 bs) :: v). split; [split; [constructor; [|done]|done]|].
    + pose proof (be_get_uint _ Hb1) as Hg. unfold len in Hg. by rewrite Hl4 in Hg.
    + pose proof (be_put_get _ Hb1) as Hp. rewrite Hl4 in Hp. cbn [flat_map]. by rewrite Hp.
Qed.

(** The postcondition of a typed read: it consumed exactly the representation of a
    value of the destination, or failed on a buffer that is too short. *)
Lemma wp_BinaryDecoder {A} (d : dest A) (Q : A -> bytes -> Prop) (E : error -> bytes -> Prop) b :
  dest_unsigned d = true -> is_bytes b ->
  (forall v b', b = dest_put d v ++ b' -> dest_ok d v -> is_bytes b' -> Q v b') ->
  (len b < intDataSize d -> E (Wrap "BinaryDecoder" [] ErrUnexpectedEOF) []) ->
  wp (BinaryDecoder d) Q E b.
Proof.
  intros Hd Hb HQ HE. unfold wp. destruct (Z.lt_ge_cases (len b) (intDataSize d)) as [Hlt|Hge].
  { rewrite BinaryDecoder_short; auto. }
  assert (0 <= intDataSize d) as Hpos by (destruct d; simpl; lia).
  rewrite <- (take_drop (Z.to_nat (intDataSize d)) b) in Hb |- *.
  apply is_bytes_app in Hb as [Hb1 Hb2].
  destruct (dest_get_put d (take (Z.to_nat (intDataSize d)) b)) as (v & Hv & Heq); [done|done|..].
  { unfold len in *. rewrite length_take. lia. }
  rewrite Heq, (reads_BinaryDecoder d v Hd Hv).
  apply HQ; [|done|done]. rewrite <- Heq. by rewrite take_drop.
Qed.

(** [wp_read v b']: step over a typed read of an arbitrary buffer known to hold bytes,
    naming the value and the rest; the goal of the short buffer comes second. *)
Ltac wp_read v b' :=
  apply wp_bind; apply wp_BinaryDecoder;
  [ reflexivity | assumption
  | let Hb := fresh "Hb" in let Hv := fresh "H" v in
    intros v b' Hb Hv ?; cbn [dest_ok dest_put] in *
  | intros ? ].

(** ** What a decoder yields on any buffer

    [yields m P]: on any buffer of bytes, [m] neither panics nor runs out of fuel, what it
    returns satisfies [P], and what is left are bytes. *)
Definition yields {A} (m : M A) (P : A -> Prop) : Prop :=
  forall b, is_bytes b -> wp m (fun a b' => P a /\ is_bytes b') (fun _ _ => True) b.

Section yields.
Lemma yields_mono {A} (m : M A) (P Q : A -> Prop) :
  yields m P -> (forall a, P a -> Q a) -> yields m Q.
Proof. intros Hm HPQ b Hb. eapply wp_mono; [by apply Hm| |done]. intros a b' [? ?]. auto. Qed.

Lemma yields_ret {A} (a : A) (P : A -> Prop) : P a -> yields (ret a) P.
Proof. intros HP b Hb. by apply wp_ret. Qed.

Lemma yields_fail {A} e (P : A -> Prop) : yields (fail e) P.
Proof. intros b Hb. by apply wp_fail. Qed.

Lemma yields_bind {A B} (m : M A) (k : A -> M B) P Q :
  yields m P -> (forall a, P a -> yields (k a) Q) -> yields (bind m k) Q.
Proof.
  intros Hm Hk b Hb. apply wp_bind. eapply wp_mono; [by apply Hm| |done].
  intros a b' [Ha Hb']. by apply Hk.
Qed.

Lemma yields_errctx {A} f (m : M A) P : yields m P -> yields (errctx f m) P.
Proof. intros Hm b Hb. apply wp_errctx. eapply wp_mono; [by apply Hm|done|done]. Qed.

Lemma yields_makeslice {A} n (m : M A) P : 0 <= n -> yields m P -> yields (makeslice n ;;; m) P.
Proof. intros Hn Hm b Hb. apply wp_bind, wp_makeslice; [done|]. by apply Hm. Qed.

Lemma yields_Len : yields Len (fun n => 0 <= n).
Proof. intros b Hb. split; [apply len_nonneg|done]. Qed.

Lemma yields_Bytes : yields Bytes is_bytes.
Proof. by intros b Hb. Qed.

Lemma yields_Next n : 0 <= n -> yields (Next n) (fun bs => is_bytes bs /\ len bs <= n).
Proof.
  intros Hn b Hb. apply wp_Next; [done|]. intros bs b' -> Hl. apply is_bytes_app in Hb as [? ?].
  splits; [done|lia|done].
Qed.

Lemma yields_BinaryDecoder {A} (d : dest A) :
  dest_unsigned d = true -> yields (BinaryDecoder d) (dest_ok d).
Proof. intros Hd b Hb. by apply wp_BinaryDecoder. Qed.

Lemma yields_forM {A} n i (f : Z -> M A) P :
  (forall j, yields (f j) P) -> yields (forM n i f) (fun l => length l = n /\ Forall P l).
Proof.
  intros Hf b Hb. eapply wp_mono.
  - apply (wp_forM n i f is_bytes P (fun _ _ => True)); [done|]. intros j s Hs.
    eapply wp_mono; [by apply Hf| |done]. intros a s' [? ?]. done.
  - intros l s (? & ? & ?). done.
  - done.
Qed.

Lemma yields_forWhileM {A} n i more (f : Z -> M (option A)) P :
  (forall j, yields (f j) (fun o => match o with Some a => P a | None => True end)) ->
  yields (forWhileM n i more f) (fun l => (length l <= n)%nat /\ Forall P l).
Proof.
  intros Hf b Hb.
  apply (wp_forWhileM n i more f
    (fun k l b => is_bytes b /\ (length l + k <= n)%nat /\ Forall P l)
    (fun l b => ((length l <= n)%nat /\ Forall P l) /\ is_bytes b) _ []); [by split; [|split; [simpl; lia|]]|..].
  - intros l s (? & ? & ?). splits; [lia|done|done].
  - intros k l s (? & ? & ?) _. splits; [lia|done|done].
  - intros k j l s (Hs & Hl & HP) _. eapply wp_mono; [by apply Hf| |done].
    intros [a|] s' [Ha Hs']; [|splits; [lia|done|done]].
    splits; [done|rewrite length_app; simpl; lia|]. apply Forall_app. auto.
Qed.

(** A nested buffer. *)
Lemma yields_on_buffer {A} data (m : M A) P :
  is_bytes data -> yields m P -> yields (on_buffer data m) P.
Proof.
  intros Hd Hm b Hb. apply wp_on_buffer. eapply wp_mono; [by apply Hm| |done]. by intros a s [? _].
Qed.
End yields.

(** [yield_steps]: step through a sequence of reads, naming nothing. *)
Create HintDb yields discriminated.
#[export] Hint Resolve yields_Len yields_Bytes : yields.
#[export] Hint Extern 1 (yields (BinaryDecoder _) _) => (apply yields_BinaryDecoder; reflexivity) : yields.
Ltac yield_step :=
  lazymatch goal with
  | |- yields (ret _) _ => apply yields_ret
  | |- yields (fail _) _ => apply yields_fail
  | |- yields (errctx _ _) _ => apply yields_errctx
  | |- yields (bind (makeslice _) _) _ => apply yields_makeslice
  | |- yields (match ?p with pair _ _ => _ end) _ => destruct p
  | |- yields (bind _ _) _ => eapply yields_bind; [solve [eauto with yields]|]; intros ? ?; cbn [dest_ok] in *
  end.
Ltac yield_steps := repeat (yield_step; cbv beta iota zeta).

(** ** Computations that end with a value or an error *)

(** A value or an error. *)
Definition ends {A} (r : res A) : Prop := match r with Ok _ | Err _ => True | _ => False end.
Definition quiet {S A} (m : ST S A) : Prop := forall s, ends (fst (m s)).

Lemma quiet_ret {S A} (a : A) : quiet (S := S) (ret a).
Proof. done. Qed.
Lemma quiet_fail {S A} e : quiet (S := S) (A := A) (fail e).
Proof. done. Qed.
Lemma quiet_bind {S A B} (m : ST S A) (k : A -> ST S B) : quiet m -> (forall a, quiet (k a)) -> quiet (bind m k).
Proof. intros Hm Hk s. unfold bind. specialize (Hm s). destruct (m s) as [[a|e|w|] s']; [apply Hk|done..]. Qed.
Lemma quiet_rangeM {S A} (l : list A) (f : A -> ST S unit) : (forall x, x ∈ l -> quiet (f x)) -> quiet (rangeM l f).
Proof.
  induction l as [|x l IH]; intros H; [apply quiet_ret|]. apply quiet_bind; [apply H; by left|]. intros _. apply IH. intros y Hy. apply H. by right.
Qed.
Lemma quiet_Write b : quiet (Write b).
Proof. done. Qed.
Lemma quiet_lift {A} (r : res A) : ends r -> quiet (lift r).
Proof. by destruct r. Qed.
Lemma quiet_lift_bind {A B} (r : res A) (k : A -> M B) : ends r -> (forall a, r = Ok a -> quiet (k a)) -> quiet (bind (lift r) k).
Proof. intros Hr Hk s. unfold bind, lift. destruct r as [a|e|w|]; [by apply Hk|done..]. Qed.
Lemma quiet_errctx {S A} f (m : ST S A) : quiet m -> quiet (errctx f m).
Proof. intros H s. specialize (H s). unfold errctx. by destruct (m s) as [[]]. Qed.
Lemma ends_written m : quiet m -> ends (written m).
Proof. intros H. specialize (H []). unfold written. by destruct (m []) as [[]]. Qed.
Lemma ends_rbind {A B} (r : res A) (k : A -> res B) : ends r -> (forall a, ends (k a)) -> ends (rbind r k).
Proof. destruct r; cbn; auto. Qed.

Create HintDb quiet discriminated.
#[export] Hint Resolve quiet_ret quiet_fail quiet_Write : quiet.

(** Straight-line code that writes, with its tests. *)
Ltac quiet_step :=
  first [ solve [eauto 2 with quiet]
        | apply quiet_bind; [|intros []]
        | apply quiet_rangeM; intros
        | match goal with |- quiet (if ?b then _ else _) => destruct b end
        | match goal with |- quiet (match ?x with _ => _ end) => destruct x end
        | progress (cbv zeta) ].
Ltac quiet_steps := repeat quiet_step.

Lemma quiet_WriteU8 v : quiet (WriteU8 v).
Proof. done. Qed.
Lemma quiet_WriteU16 v : quiet (WriteU16 v).
Proof. done. Qed.
Lemma quiet_Len : quiet Len.
Proof. done. Qed.
Lemma quiet_WriteU32 v : quiet (WriteU32 v).
Proof. done. Qed.
Lemma quiet_WriteU64 v : quiet (WriteU64 v).
Proof. done. Qed.
#[export] Hint Resolve quiet_WriteU8 quiet_WriteU16 quiet_Len quiet_WriteU32 quiet_WriteU64 : quiet.
