(* ===== verification/NetflowLegacy.v ===== *)
(** * decoders/netflowlegacy: NetFlow v5

    The packet and record structs (packet.go), [DecodeMessageVersion]/[DecodeMessage]
    (netflow.go) and [EncodeMessage] (encode.go).  When decoding fails the model returns no
    packet: every caller drops it. *)
From S2P Require Import Prelude DecodersUtils.

(** ** Data *)

Record RecordsNetFlowV5 : Type := {
  SrcAddr : Z; DstAddr : Z; NextHop : Z;
  Input : Z; Output : Z;
  DPkts : Z; DOctets : Z; First : Z; Last : Z;
  SrcPort : Z; DstPort : Z;
  Pad1 : Z; TCPFlags : Z; Proto : Z; Tos : Z;
  SrcAS : Z; DstAS : Z; SrcMask : Z; DstMask : Z; Pad2 : Z
}.

(** [RecordsNetFlowV5{}]. *)
Definition zero_record : RecordsNetFlowV5 :=
  {| SrcAddr := 0; DstAddr := 0; NextHop := 0; Input := 0; Output := 0; DPkts := 0;
     DOctets := 0; First := 0; Last := 0; SrcPort := 0; DstPort := 0; Pad1 := 0;
     TCPFlags := 0; Proto := 0; Tos := 0; SrcAS := 0; DstAS := 0; SrcMask := 0;
     DstMask := 0; Pad2 := 0 |}.

Record PacketNetFlowV5 : Type := {
  Version : Z; Count : Z; SysUptime : Z; UnixSecs : Z; UnixNSecs : Z; FlowSequence : Z;
  EngineType : Z; EngineId : Z; SamplingInterval : Z;
  Records : list RecordsNetFlowV5
}.

(** ** Decoding *)

(** [&DecoderError{err}]. *)
Definition DecoderError (e : error) : error := Wrap "DecoderError NetFlowLegacy" [] e.

(** One iteration of the record loop. *)
Definition decodeRecord : M RecordsNetFlowV5 :=
  let* srcAddr := BinaryDecoder D_uint32 in
  let* dstAddr := BinaryDecoder D_uint32 in
  let* nextHop := BinaryDecoder D_uint32 in
  let* input := BinaryDecoder D_uint16 in
  let* output := BinaryDecoder D_uint16 in
  let* dPkts := BinaryDecoder D_uint32 in
  let* dOctets := BinaryDecoder D_uint32 in
  let* first := BinaryDecoder D_uint32 in
  let* last := BinaryDecoder D_uint32 in
  let* srcPort := BinaryDecoder D_uint16 in
  let* dstPort := BinaryDecoder D_uint16 in
  let* pad1 := BinaryDecoder D_uint8 in
  let* tcpFlags := BinaryDecoder D_uint8 in
  let* proto := BinaryDecoder D_uint8 in
  let* tos := BinaryDecoder D_uint8 in
  let* srcAS := BinaryDecoder D_uint16 in
  let* dstAS := BinaryDecoder D_uint16 in
  let* srcMask := BinaryDecoder D_uint8 in
  let* dstMask := BinaryDecoder D_uint8 in
  let* pad2 := BinaryDecoder D_uint16 in
  ret {| SrcAddr := srcAddr; DstAddr := dstAddr; NextHop := nextHop; Input := input;
         Output := output; DPkts := dPkts; DOctets := dOctets; First := first; Last := last;
         SrcPort := srcPort; DstPort := dstPort; Pad1 := pad1; TCPFlags := tcpFlags;
         Proto := proto; Tos := tos; SrcAS := srcAS; DstAS := dstAS; SrcMask := srcMask;
         DstMask := dstMask; Pad2 := pad2 |}.

(** [payload.Len() >= 48]. *)
Definition more_records (b : bytes) : bool := 48 <=? len b.

Definition DecodeMessage (version : Z) : M PacketNetFlowV5 :=
  let* (count, sysUptime, unixSecs, unixNSecs, flowSequence, engineType, engineId, sampling) :=
    errctx (fun e => DecoderError (Wrap "header" [] e))
      (let* count := BinaryDecoder D_uint16 in
       let* sysUptime := BinaryDecoder D_uint32 in
       let* unixSecs := BinaryDecoder D_uint32 in
       let* unixNSecs := BinaryDecoder D_uint32 in
       let* flowSequence := BinaryDecoder D_uint32 in
       let* engineType := BinaryDecoder D_uint8 in
       let* engineId := BinaryDecoder D_uint8 in
       let* sampling := BinaryDecoder D_uint16 in
       ret (count, sysUptime, unixSecs, unixNSecs, flowSequence, engineType, engineId, sampling)) in
  makeslice count ;;;
  let* records :=
    forWhileM (Z.to_nat count) 0 more_records (fun i =>
      errctx (fun e => DecoderError (Wrap "record" [i] e))
        (let* record := decodeRecord in ret (Some record))) in
  ret {| Version := version; Count := count; SysUptime := sysUptime; UnixSecs := unixSecs;
         UnixNSecs := unixNSecs; FlowSequence := flowSequence; EngineType := engineType;
         EngineId := engineId; SamplingInterval := sampling;
         Records := fill (Z.to_nat count) zero_record records |}.

Definition DecodeMessageVersion : M PacketNetFlowV5 :=
  let* version := errctx (fun e => DecoderError (Wrap "version" [] e)) (BinaryDecoder D_uint16) in
  if negb (version =? 5) then fail (DecoderError (Errorf "unknown version" [version]))
  else DecodeMessage version.

(** ** Encoding *)

Definition encodeRecord (record : RecordsNetFlowV5) : M unit :=
  WriteU32 (SrcAddr record) ;;;
  WriteU32 (DstAddr record) ;;;
  WriteU32 (NextHop record) ;;;
  WriteU16 (Input record) ;;;
  WriteU16 (Output record) ;;;
  WriteU32 (DPkts record) ;;;
  WriteU32 (DOctets record) ;;;
  WriteU32 (First record) ;;;
  WriteU32 (Last record) ;;;
  WriteU16 (SrcPort record) ;;;
  WriteU16 (DstPort record) ;;;
  WriteU8 (Pad1 record) ;;;
  WriteU8 (TCPFlags record) ;;;
  WriteU8 (Proto record) ;;;
  WriteU8 (Tos record) ;;;
  WriteU16 (SrcAS record) ;;;
  WriteU16 (DstAS record) ;;;
  WriteU8 (SrcMask record) ;;;
  WriteU8 (DstMask record) ;;;
  WriteU16 (Pad2 record) ;;;
  ret tt.

(** [EncodeMessage(packet)]; [None] is a nil packet. *)
Definition EncodeMessage (packet : option PacketNetFlowV5) : res bytes :=
  match packet with
  | None => Err (Errorf "netflowlegacy: nil packet" [])
  | Some p =>
      let version := if Version p =? 0 then 5 else Version p in
      if negb (version =? 5) then Err (Errorf "netflowlegacy: unsupported version" [version])
      else
        let count := if Count p =? 0 then to_uint 16 (len (Records p)) else Count p in
        if negb (count =? len (Records p)) then
          Err (Errorf "netflowlegacy: count mismatch" [count; len (Records p)])
        else
          written
            (WriteU16 version ;;;
             WriteU16 count ;;;
             WriteU32 (SysUptime p) ;;;
             WriteU32 (UnixSecs p) ;;;
             WriteU32 (UnixNSecs p) ;;;
             WriteU32 (FlowSequence p) ;;;
             WriteU8 (EngineType p) ;;;
             WriteU8 (EngineId p) ;;;
             WriteU16 (SamplingInterval p) ;;;
             rangeM (Records p) encodeRecord)
  end.

(** [(p).MarshalBinary()]. *)
Definition MarshalBinary (packet : option PacketNetFlowV5) : res bytes := EncodeMessage packet.

(** ** Widths *)

Definition record_ok (r : RecordsNetFlowV5) : Prop :=
  u32 (SrcAddr r) /\ u32 (DstAddr r) /\ u32 (NextHop r) /\ u16 (Input r) /\ u16 (Output r) /\
  u32 (DPkts r) /\ u32 (DOctets r) /\ u32 (First r) /\ u32 (Last r) /\ u16 (SrcPort r) /\
  u16 (DstPort r) /\ u8 (Pad1 r) /\ u8 (TCPFlags r) /\ u8 (Proto r) /\ u8 (Tos r) /\
  u16 (SrcAS r) /\ u16 (DstAS r) /\ u8 (SrcMask r) /\ u8 (DstMask r) /\ u16 (Pad2 r).

(** The values Go's types allow. *)
Definition packet_ok (p : PacketNetFlowV5) : Prop :=
  u16 (Version p) /\ u16 (Count p) /\ u32 (SysUptime p) /\ u32 (UnixSecs p) /\
  u32 (UnixNSecs p) /\ u32 (FlowSequence p) /\ u8 (EngineType p) /\ u8 (EngineId p) /\
  u16 (SamplingInterval p) /\ Forall record_ok (Records p).

(** What [EncodeMessage] accepts: version 5 (or unset) and a count that is unset or the
    number of records. *)
Definition encodable (p : PacketNetFlowV5) : Prop :=
  (Version p = 0 \/ Version p = 5) /\
  (Count p = len (Records p) \/ Count p = 0 /\ len (Records p) < 2 ^ 16).

(** The packet with the unset header fields filled in. *)
Definition completed (p : PacketNetFlowV5) : PacketNetFlowV5 :=
  {| Version := 5; Count := len (Records p); SysUptime := SysUptime p; UnixSecs := UnixSecs p;
     UnixNSecs := UnixNSecs p; FlowSequence := FlowSequence p; EngineType := EngineType p;
     EngineId := EngineId p; SamplingInterval := SamplingInterval p; Records := Records p |}.

(** ** Wire layout *)

Definition record_bytes (r : RecordsNetFlowV5) : bytes :=
  be_put 4 (SrcAddr r) ++ be_put 4 (DstAddr r) ++ be_put 4 (NextHop r) ++ be_put 2 (Input r) ++
  be_put 2 (Output r) ++ be_put 4 (DPkts r) ++ be_put 4 (DOctets r) ++ be_put 4 (First r) ++
  be_put 4 (Last r) ++ be_put 2 (SrcPort r) ++ be_put 2 (DstPort r) ++ [Pad1 r] ++
  [TCPFlags r] ++ [Proto r] ++ [Tos r] ++ be_put 2 (SrcAS r) ++ be_put 2 (DstAS r) ++
  [SrcMask r] ++ [DstMask r] ++ be_put 2 (Pad2 r) ++ [].

(** The 24 header bytes, with [count] announced records. *)
Definition header_bytes (count : Z) (p : PacketNetFlowV5) : bytes :=
  be_put 2 count ++ be_put 4 (SysUptime p) ++ be_put 4 (UnixSecs p) ++
  be_put 4 (UnixNSecs p) ++ be_put 4 (FlowSequence p) ++ [EngineType p] ++ [EngineId p] ++
  be_put 2 (SamplingInterval p) ++ [].

Definition packet_bytes (p : PacketNetFlowV5) : bytes :=
  be_put 2 5 ++ header_bytes (len (Records p)) p ++ flat_map record_bytes (Records p).

Lemma writes_encodeRecord r : writes (encodeRecord r) (record_bytes r).
Proof. unfold encodeRecord, record_bytes. write_steps. apply writes_ret. Qed.
#[export] Hint Resolve writes_encodeRecord : writes.

Lemma len_record_bytes r : len (record_bytes r) = 48.
Proof. unfold record_bytes. golen. Qed.

Lemma len_packet_bytes p : len (packet_bytes p) = 24 + 48 * len (Records p).
Proof.
  unfold packet_bytes, header_bytes. golen.
  rewrite (flat_map_len_const _ 48) by (intros; apply len_record_bytes). lia.
Qed.

Lemma reads_decodeRecord r : record_ok r -> reads decodeRecord (record_bytes r) r.
Proof.
  intros H. unfold record_ok in H. decompose [and] H. unfold decodeRecord, record_bytes.
  read_steps. destruct r. apply reads_ret.
Qed.

(** ** Reading any record *)

(** A successful record read consumed 48 bytes, the layout of the record it returned. *)
Lemma wp_decodeRecord b (E : error -> bytes -> Prop) :
  is_bytes b -> 48 <= len b ->
  wp decodeRecord (fun r b' => b = record_bytes r ++ b' /\ record_ok r /\ is_bytes b') E b.
Proof.
  intros Hb Hlen. unfold decodeRecord.
  do 20 (let v := fresh "v" in let b' := fresh "b" in wp_read v b';
         [subst|exfalso; subst; cbn [intDataSize] in *; golen]).
  apply wp_ret. unfold record_bytes, record_ok; cbn. rewrite <- ?app_assoc. cbn. auto 30.
Qed.

(** ** Encoding *)

Lemma EncodeMessage_encodable p : encodable p -> EncodeMessage (Some p) = Ok (packet_bytes p).
Proof.
  intros [Hv Hc]. unfold EncodeMessage, packet_bytes, header_bytes.
  assert ((if Version p =? 0 then 5 else Version p) = 5) as -> by (destruct Hv as [-> | ->]; done).
  assert ((if Count p =? 0 then to_uint 16 (len (Records p)) else Count p) = len (Records p)) as ->.
  { pose proof (len_nonneg (Records p)). destruct Hc as [-> | [-> Hc]].
    - destruct (Z.eqb_spec (len (Records p)) 0) as [->|]; done.
    - apply to_uint_small. split; lia. }
  cbn [negb Z.eqb Pos.eqb]. rewrite Z.eqb_refl. cbn [negb]. apply written_writes.
  rewrite <- !app_assoc, app_nil_l. write_steps.
  apply writes_rangeM. intros. apply writes_encodeRecord.
Qed.

Lemma fill_all {A} (z : A) l : fill (length l) z l = l.
Proof. unfold fill. rewrite Nat.sub_diag. apply app_nil_r. Qed.

Lemma reads_DecodeMessage p :
  packet_ok p -> len (Records p) < 2 ^ 16 ->
  reads (DecodeMessage 5) (header_bytes (len (Records p)) p ++ flat_map record_bytes (Records p))
    (completed p).
Proof.
  intros H Hlen. unfold packet_ok in H. decompose [and] H. pose proof (len_nonneg (Records p)).
  unfold DecodeMessage. eapply reads_bind.
  { assert (u16 (len (Records p))) by (split; lia).
    apply reads_errctx. unfold header_bytes. read_steps. apply reads_ret. }
  cbn beta iota. apply reads_makeslice; [lia|].
  unfold len at 1. rewrite Nat2Z.id. rewrite <- (app_nil_r (flat_map _ _)).
  eapply reads_bind.
  { apply (reads_forWhileM _ _ _ _ record_bytes id).
    - intros r rest _. unfold more_records. apply Z.leb_le. rewrite len_app, len_record_bytes.
      pose proof (len_nonneg rest). lia.
    - intros i r Hr. apply reads_errctx. rewrite <- (app_nil_r (record_bytes r)).
      eapply reads_bind; [apply reads_decodeRecord|apply reads_ret].
      by apply (proj1 (Forall_forall _ _) H10). }
  unfold completed, len. rewrite map_id, Nat2Z.id, fill_all. apply reads_ret.
Qed.

(** ** Decoding any buffer *)

(** Records decoded from a buffer whose header announces [count] of them: as many as
    are announced and as fit. *)
Definition records_available (count avail : Z) : Z := Z.min count (avail / 48).

Lemma wp_decode_records count b (E : error -> bytes -> Prop) :
  is_bytes b -> 0 <= count ->
  wp (forWhileM (Z.to_nat count) 0 more_records (fun i =>
        errctx (fun e => DecoderError (Wrap "record" [i] e))
          (let* record := decodeRecord in ret (Some record))))
     (fun l b' => b = flat_map record_bytes l ++ b' /\ Forall record_ok l /\
                  len l = records_available count (len b)) E b.
Proof.
  intros Hb Hc.
  set (Inv l b' := b = flat_map record_bytes l ++ b' /\ Forall record_ok l /\ is_bytes b').
  assert (forall l b', Inv l b' -> len b = 48 * len l + len b') as Hlen.
  { intros l b' [-> _]. rewrite len_app, (flat_map_len_const _ 48); [done|].
    intros; apply len_record_bytes. }
  apply (wp_forWhileM (Z.to_nat count) 0 more_records _
    (fun k l b' => Inv l b' /\ len l + Z.of_nat k = count)
    (fun l b' => b = flat_map record_bytes l ++ b' /\ Forall record_ok l /\
                 len l = records_available count (len b)) E []).
  - unfold Inv. cbn. rewrite len_nil. repeat split; auto; lia.
  - intros l b' [HI Hk]. pose proof (Hlen _ _ HI) as Hl. destruct HI as (-> & Hok & _).
    repeat split; auto. unfold records_available. pose proof (len_nonneg b').
    assert (len l <= len (flat_map record_bytes l ++ b') / 48) by (apply Z.div_le_lower_bound; lia). lia.
  - intros k l b' [HI Hk] Hm. pose proof (Hlen _ _ HI) as Hl. destruct HI as (-> & Hok & _).
    repeat split; auto. unfold records_available, more_records in *. apply Z.leb_gt in Hm.
    pose proof (len_nonneg b').
    rewrite Hl, Z.mul_comm, Z.div_add_l, Z.div_small by lia. lia.
  - intros k j l b' [HI Hk] Hm. pose proof (Hlen _ _ HI) as Hl. destruct HI as (Heq & Hok & Hb').
    apply Z.leb_le in Hm. apply wp_errctx. apply wp_bind.
    eapply wp_mono; [apply (wp_decodeRecord _ (fun _ _ => False)); done| |done].
    intros r b'' (-> & Hr & Hb''). apply wp_ret. unfold Inv. rewrite Heq, flat_map_app.
    cbn [flat_map]. rewrite app_nil_r, <- app_assoc, len_app, len_cons, len_nil.
    repeat split; auto; [|lia]. apply Forall_app; auto.
Qed.

(** The postcondition of a decoded packet: the header is read back from the bytes, the
    records that fit are, and the rest of [Records] is zero. *)
Definition decoded (b : bytes) (p : PacketNetFlowV5) (b' : bytes) : Prop :=
  exists recs,
    packet_ok p /\ Version p = 5 /\
    b = be_put 2 5 ++ header_bytes (Count p) p ++ flat_map record_bytes recs ++ b' /\
    len recs = records_available (Count p) (len b - 24) /\
    Records p = fill (Z.to_nat (Count p)) zero_record recs.

Lemma Forall_fill {A} (P : A -> Prop) n z l : Forall P l -> P z -> Forall P (fill n z l).
Proof. intros Hl Hz. apply Forall_app. split; [done|]. by apply Forall_replicate. Qed.

Lemma wp_DecodeMessageVersion b :
  is_bytes b ->
  wp DecodeMessageVersion (decoded b)
     (fun _ _ => len b < 24 \/ exists v b', b = be_put 2 v ++ b' /\ v <> 5) b.
Proof.
  intros Hb. unfold DecodeMessageVersion. apply wp_bind, wp_errctx, wp_BinaryDecoder; auto.
  2:{ cbn. lia. }
  cbn. intros v b0 -> Hv Hb0. destruct (Z.eqb_spec v 5) as [->|Hne]; cbn [negb].
  2:{ apply wp_fail. right. by exists v, b0. }
  unfold DecodeMessage. apply wp_bind, wp_errctx.
  do 8 (let v := fresh "v" in let b' := fresh "b" in wp_read v b';
        [subst|left; subst; cbn [intDataSize] in *; golen]).
  apply wp_ret. cbn beta iota. unfold uint in Hv0.
  apply wp_bind, wp_makeslice; [lia|]. apply wp_bind.
  eapply wp_mono; [apply (wp_decode_records _ _ (fun _ _ => False)); [done|lia]| |done].
  intros recs b' (-> & Hok & Hl). apply wp_ret. exists recs. cbn.
  unfold header_bytes, packet_ok; cbn [SysUptime UnixSecs UnixNSecs FlowSequence EngineType
    EngineId SamplingInterval Version Count Records].
  rewrite <- !app_assoc. splits; try done; try exact Hv0.
  - apply Forall_fill; [done|]. unfold record_ok, uint; cbn. lia.
  - rewrite Hl. f_equal. clear. golen.
Qed.

(** ** Properties *)

(** The datagram of an encodable packet is decoded to the completed packet. *)
Lemma reads_version p : packet_ok p -> encodable p -> reads DecodeMessageVersion (packet_bytes p) (completed p).
Proof.
  intros Hok He. assert (len (Records p) < 2 ^ 16) as Hlen.
  { destruct He as [_ [<- | [_ ?]]]; [|done]. by apply Hok. }
  unfold packet_bytes, DecodeMessageVersion. eapply reads_bind; [apply reads_errctx, reads_u16; done|].
  by apply reads_DecodeMessage.
Qed.

(** NetFlow v5 round trip.  Every packet [EncodeMessage] accepts is encoded to its
    24-byte header and 48 bytes per record, and [DecodeMessageVersion] reads those bytes back
    to the same packet (with an unset version and count filled in), leaving the bytes that
    follow in the buffer. *)
Theorem v5_roundtrip (p : PacketNetFlowV5) (rest : bytes) :
  packet_ok p -> encodable p ->
  exists bs, EncodeMessage (Some p) = Ok bs /\ len bs = 24 + 48 * len (Records p) /\
             DecodeMessageVersion (bs ++ rest) = (Ok (completed p), rest).
Proof.
  intros Hok He. exists (packet_bytes p). splits.
  - by apply EncodeMessage_encodable.
  - apply len_packet_bytes.
  - by apply reads_version.
Qed.

(** Decoding any datagram as NetFlow v5 ends without a panic.  On success [Records] has
    exactly the announced length; the records that are present in the datagram are read, the
    others are zero, and exactly the bytes of the header and of those records are consumed.
    An error means a datagram shorter than the header or another version. *)
Theorem v5_decode_total (b : bytes) :
  is_bytes b ->
  match DecodeMessageVersion b with
  | (Ok p, b') => decoded b p b' /\ len (Records p) = Count p
  | (Err _, _) => len b < 24 \/ exists v b', b = be_put 2 v ++ b' /\ v <> 5
  | _ => False
  end.
Proof.
  intros Hb. pose proof (wp_DecodeMessageVersion b Hb) as H. unfold wp in H.
  destruct (DecodeMessageVersion b) as [[p|e|w|] b']; [|done|done|done].
  split; [done|]. destruct H as (recs & Hok & _ & _ & Hl & ->).
  destruct Hok as (_ & [? ?] & _). unfold fill. rewrite len_app, len_replicate.
  unfold records_available in Hl. unfold len in *. lia.
Qed.

(** NetFlow v5 decoding loses nothing: a datagram that holds all the records it announces
    is re-encoded to exactly the bytes that were consumed. *)
Theorem v5_decode_encode (b : bytes) (p : PacketNetFlowV5) (b' : bytes) :
  is_bytes b -> DecodeMessageVersion b = (Ok p, b') -> 24 + 48 * Count p <= len b ->
  exists bs, EncodeMessage (Some p) = Ok bs /\ b = bs ++ b'.
Proof.
  intros Hb Hd Hfull. pose proof (wp_DecodeMessageVersion b Hb) as H. unfold wp in H.
  rewrite Hd in H. destruct H as (recs & Hok & Hv & Hbytes & Hl & Hr).
  destruct Hok as (_ & [? ?] & _).
  assert (len recs = Count p) as Hcount.
  { rewrite Hl. unfold records_available.
    assert (Count p <= (len b - 24) / 48) by (apply Z.div_le_lower_bound; lia). lia. }
  assert (Records p = recs) as Hrecs.
  { rewrite Hr. unfold fill. replace (Z.to_nat (Count p) - length recs)%nat with 0%nat by (unfold len in *; lia).
    apply app_nil_r. }
  exists (packet_bytes p). split.
  - apply EncodeMessage_encodable. split; [auto|]. left. congruence.
  - rewrite Hbytes. unfold packet_bytes. rewrite Hrecs, Hcount. by rewrite <- !app_assoc.
Qed.

(** [EncodeMessage] of NetFlow v5 succeeds exactly on the packets whose version is 5 or
    unset and whose count is unset or the number of records (fewer than 65536). *)
Theorem v5_encode_domain (packet : option PacketNetFlowV5) (bs : bytes) :
  EncodeMessage packet = Ok bs <->
  exists p, packet = Some p /\ encodable p /\ bs = packet_bytes p.
Proof.
  split.
  - destruct packet as [p|]; [|done]. intros H. exists p.
    assert (encodable p) as He.
    { unfold EncodeMessage in H.
      destruct (Z.eqb_spec (Version p) 0); destruct (Z.eqb_spec (Count p) 0);
        cbn [negb Z.eqb Pos.eqb] in H; try destruct (Z.eqb_spec (Version p) 5); cbn [negb] in H;
        try done; match type of H with context [negb (?a =? ?b)] => destruct (Z.eqb_spec a b) as [Hab|] end;
        try done; unfold encodable; split; auto.
      all: right; split; [done|]; rewrite <- Hab; apply to_uint_uint; lia. }
    splits; [done|done|]. rewrite EncodeMessage_encodable in H by done. congruence.
  - intros (p & -> & He & ->). by apply EncodeMessage_encodable.
Qed.

(** ** Witnesses *)

Definition sample_record : RecordsNetFlowV5 :=
  {| SrcAddr := 167772161; DstAddr := 167772162; NextHop := 0; Input := 1; Output := 2;
     DPkts := 3; DOctets := 1500; First := 100; Last := 4294967295; SrcPort := 443;
     DstPort := 65535; Pad1 := 0; TCPFlags := 27; Proto := 6; Tos := 0; SrcAS := 64512;
     DstAS := 13335; SrcMask := 24; DstMask := 32; Pad2 := 0 |}.

Definition sample_packet : PacketNetFlowV5 :=
  {| Version := 0; Count := 0; SysUptime := 1000; UnixSecs := 1700000000; UnixNSecs := 5;
     FlowSequence := 42; EngineType := 1; EngineId := 2; SamplingInterval := 100;
     Records := [sample_record; zero_record] |}.

Lemma sample_packet_ok : packet_ok sample_packet.
Proof.
  unfold packet_ok, uint; cbn [sample_packet Version Count SysUptime UnixSecs UnixNSecs FlowSequence
    EngineType EngineId SamplingInterval Records]. splits; try lia.
  repeat constructor; cbn; lia.
Qed.

Lemma v5_roundtrip_witness :
  exists bs, EncodeMessage (Some sample_packet) = Ok bs /\ len bs = 24 + 48 * 2 /\
             DecodeMessageVersion (bs ++ [7; 7]) = (Ok (completed sample_packet), [7; 7]).
Proof.
  apply (v5_roundtrip sample_packet [7; 7] sample_packet_ok).
  split; [by left|]. right. done.
Defined.

(** Two announced records, one and a half present. *)
Definition short_datagram : bytes := take (Z.to_nat 96) (packet_bytes sample_packet).

Lemma v5_decode_total_witness :
  match DecodeMessageVersion short_datagram with
  | (Ok p, b') => decoded short_datagram p b' /\ len (Records p) = Count p
  | (Err _, _) => len short_datagram < 24 \/ exists v b', short_datagram = be_put 2 v ++ b' /\ v <> 5
  | _ => False
  end.
Proof. apply (v5_decode_total short_datagram). by apply is_bytes_by_test. Defined.

Lemma v5_decode_encode_witness :
  exists bs, EncodeMessage (Some (completed sample_packet)) = Ok bs /\
             packet_bytes sample_packet ++ [9] = bs ++ [9].
Proof.
  apply (v5_decode_encode (packet_bytes sample_packet ++ [9]) (completed sample_packet) [9]).
  - by apply is_bytes_by_test.
  - vm_compute. reflexivity.
  - vm_compute. discriminate.
Defined.
