(* ===== verification/NetflowTypes.v ===== *)
(** * decoders/netflow: data and the template-store interface

    The structs of packet.go, nfv9.go and ipfix.go, the [interface{}] values they hold as
    inductive types, [templateKey], and the [TemplateStore] interface
    (template_store.go, template_types.go) as a class with its contract. *)
From S2P Require Import Prelude.

(** ** Templates and records *)

Record Field : Type := { PenProvided : bool; Type_ : Z; Length : Z; Pen : Z }.

Record FlowSetHeader : Type := { Id : Z; fsLength : Z }.

Record TemplateRecord : Type := { TemplateId : Z; FieldCount : Z; Fields : list Field }.

Record NFv9OptionsTemplateRecord : Type := {
  v9TemplateId : Z; ScopeLength : Z; OptionLength : Z;
  v9Scopes : list Field; v9Options : list Field
}.

Record IPFIXOptionsTemplateRecord : Type := {
  ipfixTemplateId : Z; ipfixFieldCount : Z; ScopeFieldCount : Z;
  ipfixOptions : list Field; ipfixScopes : list Field
}.

(** The dynamic types found in [DataField.Value]. *)
Inductive value : Type :=
  | VNil
  | VBytes (b : bytes)
  | VString (s : bytes)
  | VOther.

Record DataField : Type := {
  dPenProvided : bool; dType : Z; dLength : Z; dPen : Z; dValue : value
}.

(** [DataField{}]. *)
Definition zero_DataField : DataField :=
  {| dPenProvided := false; dType := 0; dLength := 0; dPen := 0; dValue := VNil |}.

Record DataRecord : Type := { Values : list DataField }.
Record OptionsDataRecord : Type := {
  ScopesValues : list DataField; OptionsValues : list DataField
}.

(** ** Flow sets *)

(** A flow set struct: the embedded header and its records. *)
Record FlowSetOf (A : Type) : Type := { Header : FlowSetHeader; Records : A }.
Arguments Header {A} _.
Arguments Records {A} _.

Definition TemplateFlowSet : Type := FlowSetOf (list TemplateRecord).
Definition NFv9OptionsTemplateFlowSet : Type := FlowSetOf (list NFv9OptionsTemplateRecord).
Definition IPFIXOptionsTemplateFlowSet : Type := FlowSetOf (list IPFIXOptionsTemplateRecord).
Definition DataFlowSet : Type := FlowSetOf (list DataRecord).
Definition OptionsDataFlowSet : Type := FlowSetOf (list OptionsDataRecord).
Definition RawFlowSet : Type := FlowSetOf bytes.

(** The elements of [FlowSets []interface{}]. *)
Inductive flowset : Type :=
  | FS_Template (fs : boxed TemplateFlowSet)
  | FS_NFv9OptionsTemplate (fs : boxed NFv9OptionsTemplateFlowSet)
  | FS_IPFIXOptionsTemplate (fs : boxed IPFIXOptionsTemplateFlowSet)
  | FS_Data (fs : boxed DataFlowSet)
  | FS_OptionsData (fs : boxed OptionsDataFlowSet)
  | FS_Raw (fs : boxed RawFlowSet)
  | FS_nil
  | FS_other.

Record NFv9Packet : Type := {
  v9Version : Z; v9Count : Z; SystemUptime : Z; UnixSeconds : Z; v9SequenceNumber : Z;
  SourceId : Z; v9FlowSets : list flowset
}.

Record IPFIXPacket : Type := {
  ipfixVersion : Z; ipfixLength : Z; ExportTime : Z; ipfixSequenceNumber : Z;
  ObservationDomainId : Z; ipfixFlowSets : list flowset
}.

(** ** The template store *)

(** The [interface{}] templates; [T_other] is any other dynamic type. *)
Inductive template : Type :=
  | T_Template (r : TemplateRecord)
  | T_NFv9Options (r : NFv9OptionsTemplateRecord)
  | T_IPFIXOptions (r : IPFIXOptionsTemplateRecord)
  | T_other.

Record FlowContext : Type := { RouterKey : string }.

Inductive TemplateStatus : Type := TemplateUnchanged | TemplateUpdated | TemplateAdded.

Definition templateKey (version obsDomainId templateId : Z) : Z :=
  Z.lor (Z.lor (Z.shiftl version 48) (Z.shiftl obsDomainId 16)) templateId.

(** [TemplateStore]: the decoder-facing interface.  [S] is the state of the store. *)
Class TemplateStore (S : Type) : Type := {
  AddTemplate : FlowContext -> Z -> Z -> Z -> template -> ST S TemplateStatus;
  GetTemplate : FlowContext -> Z -> Z -> Z -> ST S template
}.

(** What the decoder relies on: a view of the store as a finite map from
    router/version/domain/template id to templates, that [AddTemplate] updates and
    [GetTemplate] consults. *)
Class TemplateStoreSpec (S : Type) `{TemplateStore S} : Type := {
  template_view : S -> FlowContext -> Z -> Z -> Z -> option template;
  AddTemplate_spec s ctx v d t tpl :
    exists st s', AddTemplate ctx v d t tpl s = (Ok st, s') /\
      template_view s' ctx v d t = Some tpl /\
      (forall ctx' v' d' t', (ctx', v', d', t') <> (ctx, v, d, t) ->
         template_view s' ctx' v' d' t' = template_view s ctx' v' d' t');
  GetTemplate_found s ctx v d t tpl :
    template_view s ctx v d t = Some tpl ->
    exists s', GetTemplate ctx v d t s = (Ok tpl, s') /\
      forall ctx' v' d' t', template_view s' ctx' v' d' t' = template_view s ctx' v' d' t';
  GetTemplate_missing s ctx v d t :
    template_view s ctx v d t = None ->
    exists s', GetTemplate ctx v d t s = (Err ErrorTemplateNotFound, s') /\
      forall ctx' v' d' t', template_view s' ctx' v' d' t' = template_view s ctx' v' d' t'
}.

(** Two stores with the same view are interchangeable for the decoder. *)
Definition view_equiv {S} `{TemplateStoreSpec S} (s1 s2 : S) : Prop :=
  forall ctx v d t, template_view s1 ctx v d t = template_view s2 ctx v d t.

#[export] Instance view_equiv_equivalence {S} `{TemplateStoreSpec S} : Equivalence view_equiv.
Proof.
  split.
  - intros s ctx v d t. done.
  - intros x y Hxy ctx v d t. done.
  - intros x y z Hxy Hyz ctx v d t. by rewrite Hxy.
Qed.

#[export] Instance template_view_proper {S} `{TemplateStoreSpec S} ctx v d t :
  Proper (view_equiv ==> eq) (fun s => template_view s ctx v d t).
Proof. intros s1 s2 Hs. apply Hs. Qed.

(** ** Decidable equality *)

#[export] Instance Field_eq_dec : EqDecision Field.
Proof. solve_decision. Defined.
#[export] Instance FlowContext_eq_dec : EqDecision FlowContext.
Proof. solve_decision. Defined.
#[export] Instance TemplateRecord_eq_dec : EqDecision TemplateRecord.
Proof. solve_decision. Defined.
#[export] Instance NFv9OptionsTemplateRecord_eq_dec : EqDecision NFv9OptionsTemplateRecord.
Proof. solve_decision. Defined.
#[export] Instance IPFIXOptionsTemplateRecord_eq_dec : EqDecision IPFIXOptionsTemplateRecord.
Proof. solve_decision. Defined.
#[export] Instance template_eq_dec : EqDecision template.
Proof. solve_decision. Defined.

(** ** A reference store

    The plain map from router/version/domain/template id to templates: the simplest
    implementation of the contract. *)
Abbreviation RefStore := (gmap (string * Z * Z * Z) template).

#[export] Instance RefStore_TemplateStore : TemplateStore RefStore := {
  AddTemplate ctx v d t tpl := fun m =>
    (Ok (if m !! (RouterKey ctx, v, d, t) then TemplateUpdated else TemplateAdded),
     <[(RouterKey ctx, v, d, t) := tpl]> m);
  GetTemplate ctx v d t := fun m =>
    match m !! (RouterKey ctx, v, d, t) with
    | Some tpl => (Ok tpl, m)
    | None => (Err ErrorTemplateNotFound, m)
    end
}.

#[export] Program Instance RefStore_Spec : TemplateStoreSpec RefStore := {
  template_view m ctx v d t := m !! (RouterKey ctx, v, d, t)
}.
Next Obligation.
  intros m ctx v d t tpl. do 2 eexists. splits; [reflexivity|by rewrite lookup_insert_eq|].
  intros [r'] v' d' t' Hne. destruct ctx as [r]. simpl in *. rewrite lookup_insert_ne; [done|congruence].
Qed.
Next Obligation. intros m ctx v d t tpl Hm. simpl in *. rewrite Hm. eauto. Qed.
Next Obligation. intros m ctx v d t Hm. simpl in *. rewrite Hm. eauto. Qed.
