(* ===== verification/NetflowDecode.v ===== *)
(** * decoders/netflow: the NetFlow v9 / IPFIX decoder (netflow.go)

    Template sets, options template sets, data sets, and the message loop.  Functions that
    return a value together with an error return both here; functions whose value every
    caller drops on an error return only the error. *)
From S2P Require Import Prelude DecodersUtils NetflowTypes.

(** ** Errors *)

Definition DecoderError (name : string) (e : error) : error :=
  Wrap ("DecoderError " ++ name) [] e.
Definition FlowError (version : Z) (typ : string) (obsDomainId templateId : Z) (e : error) : error :=
  Wrap ("FlowError " ++ typ) [version; obsDomainId; templateId] e.

(** ** Template sets *)

(** [payload.Len() >= 4]. *)
Definition more_templates (b : bytes) : bool := 4 <=? len b.

Definition penBit : Z := 0x8000.

Definition DecodeField (pen : bool) : M Field :=
  let* (ty, length) := errctx (Wrap "DecodeField: header" [])
    (let* ty := BinaryDecoder D_uint16 in
     let* length := BinaryDecoder D_uint16 in
     ret (ty, length)) in
  if pen && negb (Z.land ty penBit =? 0) then
    let* p := errctx (Wrap "DecodeField: pen" []) (BinaryDecoder D_uint32) in
    ret {| PenProvided := true; Type_ := Z.lxor ty penBit; Length := length; Pen := p |}
  else ret {| PenProvided := false; Type_ := ty; Length := length; Pen := 0 |}.

(** The body of the loop of [DecodeNFv9OptionsTemplateSet]. *)
Definition decodeNFv9OptionsTemplate : M NFv9OptionsTemplateRecord :=
  let* (tid, scopeLength, optionLength) := errctx (Wrap "NFv9OptionsTemplateSet: header" [])
    (let* tid := BinaryDecoder D_uint16 in
     let* scopeLength := BinaryDecoder D_uint16 in
     let* optionLength := BinaryDecoder D_uint16 in
     ret (tid, scopeLength, optionLength)) in
  let sizeScope := Z.quot scopeLength 4 in
  let sizeOptions := Z.quot optionLength 4 in
  if (sizeScope <? 0) || (sizeOptions <? 0) then
    fail (Errorf "NFv9OptionsTemplateSet: negative length" [])
  else
    makeslice sizeScope ;;;
    let* scopes := forM (Z.to_nat sizeScope) 0 (fun i =>
      errctx (Wrap "NFv9OptionsTemplateSet: scope" [i]) (DecodeField false)) in
    makeslice sizeOptions ;;;
    let* options := forM (Z.to_nat sizeOptions) 0 (fun i =>
      errctx (Wrap "NFv9OptionsTemplateSet: option" [i]) (DecodeField false)) in
    ret {| v9TemplateId := tid; ScopeLength := scopeLength; OptionLength := optionLength;
           v9Scopes := scopes; v9Options := options |}.

Definition DecodeNFv9OptionsTemplateSet : M (list NFv9OptionsTemplateRecord * option error) :=
  fun b => loopM (S (length b)) more_templates decodeNFv9OptionsTemplate b.

(** The body of the loop of [DecodeIPFIXOptionsTemplateSet]. *)
Definition decodeIPFIXOptionsTemplate : M IPFIXOptionsTemplateRecord :=
  let* (tid, fieldCount, scopeFieldCount) := errctx (Wrap "IPFIXOptionsTemplateSet: header" [])
    (let* tid := BinaryDecoder D_uint16 in
     let* fieldCount := BinaryDecoder D_uint16 in
     let* scopeFieldCount := BinaryDecoder D_uint16 in
     ret (tid, fieldCount, scopeFieldCount)) in
  makeslice scopeFieldCount ;;;
  let* scopes := forM (Z.to_nat scopeFieldCount) 0 (fun i =>
    errctx (Wrap "IPFIXOptionsTemplateSet: scope" [i]) (DecodeField true)) in
  let optionsSize := fieldCount - scopeFieldCount in
  if optionsSize <? 0 then fail (Errorf "IPFIXOptionsTemplateSet: negative length" [])
  else
    makeslice optionsSize ;;;
    let* options := forM (Z.to_nat optionsSize) 0 (fun i =>
      errctx (Wrap "IPFIXOptionsTemplateSet: option" [i]) (DecodeField true)) in
    ret {| ipfixTemplateId := tid; ipfixFieldCount := fieldCount;
           ScopeFieldCount := scopeFieldCount; ipfixOptions := options; ipfixScopes := scopes |}.

Definition DecodeIPFIXOptionsTemplateSet : M (list IPFIXOptionsTemplateRecord * option error) :=
  fun b => loopM (S (length b)) more_templates decodeIPFIXOptionsTemplate b.

(** The field loop of [DecodeTemplateSet]. *)
Definition decodeTemplateField (version : Z) : M Field :=
  let* (ty, length) := errctx (Wrap "TemplateSet: reading field" [])
    (let* ty := BinaryDecoder D_uint16 in
     let* length := BinaryDecoder D_uint16 in
     ret (ty, length)) in
  if (version =? 10) && negb (Z.land ty penBit =? 0) then
    let* p := errctx (Wrap "TemplateSet: reading enterprise field" []) (BinaryDecoder D_uint32) in
    ret {| PenProvided := true; Type_ := Z.lxor ty penBit; Length := length; Pen := p |}
  else ret {| PenProvided := false; Type_ := ty; Length := length; Pen := 0 |}.

(** The body of the loop of [DecodeTemplateSet]. *)
Definition decodeTemplate (version : Z) : M TemplateRecord :=
  let* (tid, fieldCount) := errctx (Wrap "TemplateSet: reading header" [])
    (let* tid := BinaryDecoder D_uint16 in
     let* fieldCount := BinaryDecoder D_uint16 in
     ret (tid, fieldCount)) in
  if fieldCount <? 0 then fail (Errorf "TemplateSet: zero count" [])
  else
    makeslice fieldCount ;;;
    let* fields := forM (Z.to_nat fieldCount) 0 (fun _ => decodeTemplateField version) in
    ret {| TemplateId := tid; FieldCount := fieldCount; Fields := fields |}.

Definition DecodeTemplateSet (version : Z) : M (list TemplateRecord * option error) :=
  fun b => loopM (S (length b)) more_templates (decodeTemplate version) b.

(** ** Data sets *)

Definition GetTemplateSize (version : Z) (template : list Field) : Z :=
  fold_left (fun sum templateField =>
    if Length templateField =? 0xffff then sum else sum + Length templateField) template 0.

(** The length of one value: fixed by the template or read from its prefix. *)
Definition decodeFieldLength (templateField : Field) : M Z :=
  if Length templateField =? 0xffff then
    let* variableLen8 := errctx (Wrap "DataSet: variable length header" []) (BinaryDecoder D_uint8) in
    if variableLen8 =? 0xff then
      errctx (Wrap "DataSet: extended variable length" []) (BinaryDecoder D_uint16)
    else ret variableLen8
  else ret (Length templateField).

Definition decodeDataField (templateField : Field) : M DataField :=
  let* finalLength := decodeFieldLength templateField in
  let* v := Next finalLength in
  ret {| dPenProvided := PenProvided templateField; dType := Type_ templateField; dLength := 0;
         dPen := Pen templateField; dValue := VBytes v |}.

(** [for i, templateField := range listFields { dataFields[i] = ... }]. *)
Fixpoint decodeDataFields (listFields : list Field) : M (list DataField) :=
  match listFields with
  | [] => ret []
  | templateField :: rest =>
      let* d := decodeDataField templateField in
      let* ds := decodeDataFields rest in
      ret (d :: ds)
  end.

Definition DecodeDataSetUsingFields (version : Z) (listFields : list Field) : M (list DataField) :=
  let* n := Len in
  if GetTemplateSize version listFields <=? n then decodeDataFields listFields
  else ret (map (fun _ => zero_DataField) listFields).

(** [payload.Len() > 0 && payload.Len() >= size]. *)
Definition more_data (size : Z) (b : bytes) : bool := (0 <? len b) && (size <=? len b).

Definition decodeOptionsDataRecord (version : Z) (listFieldsScopes listFieldsOption : list Field)
    : M OptionsDataRecord :=
  let* before := Len in
  let* scopeValues := errctx (Wrap "OptionsDataSet: scope" [])
    (DecodeDataSetUsingFields version listFieldsScopes) in
  let* optionValues := errctx (Wrap "OptionsDataSet: options" [])
    (DecodeDataSetUsingFields version listFieldsOption) in
  let* after := Len in
  if after =? before then fail (Wrap "OptionsDataSet" [] ErrorEmptyRecord)
  else ret {| ScopesValues := scopeValues; OptionsValues := optionValues |}.

Definition DecodeOptionsDataSet (version : Z) (listFieldsScopes listFieldsOption : list Field)
    : M (list OptionsDataRecord * option error) :=
  fun b =>
    loopM (S (length b))
      (more_data (GetTemplateSize version listFieldsScopes + GetTemplateSize version listFieldsOption))
      (decodeOptionsDataRecord version listFieldsScopes listFieldsOption) b.

Definition decodeDataRecord (version : Z) (listFields : list Field) : M DataRecord :=
  let* before := Len in
  let* values := errctx (Wrap "DataSet: fields" []) (DecodeDataSetUsingFields version listFields) in
  let* after := Len in
  if after =? before then fail (Wrap "DataSet" [] ErrorEmptyRecord)
  else ret {| Values := values |}.

Definition DecodeDataSet (version : Z) (listFields : list Field) : M (list DataRecord * option error) :=
  fun b =>
    loopM (S (length b)) (more_data (GetTemplateSize version listFields))
      (decodeDataRecord version listFields) b.

(** ** Messages *)

(** The payload and the [TemplateStore] interface value ([None] is nil). *)
Record DState (S : Type) : Type := { payload : bytes; store : option S }.
Arguments payload {S} _.
Arguments store {S} _.

Section messages.
Context {S : Type} `{TemplateStore S}.
Local Abbreviation D := (ST (DState S)).

(** A computation on the payload. *)
Definition on_payload {A} (m : M A) : D A := fun s =>
  let (r, b') := m (payload s) in (r, {| payload := b'; store := store s |}).

(** A method call on the store; panics on a nil interface. *)
Definition on_store {A} (m : ST S A) : D A := fun s =>
  match store s with
  | None => (Panic "nil pointer dereference", s)
  | Some st => let (r, st') := m st in (r, {| payload := payload s; store := Some st' |})
  end.

(** [v, err := m()], the error being looked at by the caller. *)
Definition attempt {A} (m : D A) : D (A + error) := fun s =>
  match m s with
  | (Ok a, s') => (Ok (inl a), s')
  | (Err e, s') => (Ok (inr e), s')
  | (Panic w, s') => (Panic w, s')
  | (Hang, s') => (Hang, s')
  end.

(** [if store != nil { for _, record := range records { store.AddTemplate(...) } }]. *)
Definition addTemplates (ctx : FlowContext) (version obsDomainId fsid : Z) (typ : string)
    (records : list (Z * template)) : D unit :=
  let* s := get in
  match store s with
  | None => ret tt
  | Some _ =>
      rangeM records (fun '(tid, tpl) =>
        errctx (FlowError version typ obsDomainId fsid)
          (let* _ := on_store (AddTemplate ctx version obsDomainId tid tpl) in ret tt))
  end.

(** A template set: decode the records, then store them. *)
Definition decodeTemplates {A} (ctx : FlowContext) (version obsDomainId : Z) (fsheader : FlowSetHeader)
    (nextrelpos : Z) (typDecode typAdd : string) (decode : M (list A * option error))
    (mk : boxed (FlowSetOf (list A)) -> flowset) (key : A -> Z * template)
    : D (flowset * option error) :=
  let* data := on_payload (Next nextrelpos) in
  let* (records, err) := on_buffer data decode in
  match err with
  | Some e => ret (FS_nil, Some (FlowError version typDecode obsDomainId (Id fsheader) e))
  | None =>
      let flowSet := mk (Val {| Header := fsheader; Records := records |}) in
      let* r := attempt (addTemplates ctx version obsDomainId (Id fsheader) typAdd (map key records)) in
      match r with
      | inr e => ret (flowSet, Some e)
      | inl _ => ret (flowSet, None)
      end
  end.

(** The records of a data set are decoded; on an error the raw set is returned. *)
Definition decodeRecords {A} (version obsDomainId : Z) (fsheader : FlowSetHeader) (rawfs : flowset)
    (data : bytes) (typ : string) (decode : M (list A * option error))
    (mk : boxed (FlowSetOf (list A)) -> flowset) : D (flowset * option error) :=
  let* (records, err) := on_buffer data decode in
  match err with
  | Some e => ret (rawfs, Some (FlowError version typ obsDomainId (Id fsheader) e))
  | None => ret (mk (Val {| Header := fsheader; Records := records |}), None)
  end.

(** A data set: look the template up and decode by it. *)
Definition decodeData (ctx : FlowContext) (version obsDomainId : Z) (fsheader : FlowSetHeader)
    (nextrelpos : Z) : D (flowset * option error) :=
  let* data := on_payload (Next nextrelpos) in
  let rawfs := FS_Raw (Val {| Header := fsheader; Records := data |}) in
  let* s := get in
  match store s with
  | None => ret (rawfs, Some (FlowError version "Templates" obsDomainId (Id fsheader)
                                (Errorf "no templates" [])))
  | Some _ =>
      let* r := attempt (on_store (GetTemplate ctx version obsDomainId (Id fsheader))) in
      match r with
      | inr e => ret (rawfs, Some (FlowError version "Decode" obsDomainId (Id fsheader) e))
      | inl (T_Template t) =>
          decodeRecords version obsDomainId fsheader rawfs data "DataSet"
            (DecodeDataSet version (Fields t)) FS_Data
      | inl (T_IPFIXOptions t) =>
          decodeRecords version obsDomainId fsheader rawfs data "DataSet"
            (DecodeOptionsDataSet version (ipfixScopes t) (ipfixOptions t)) FS_OptionsData
      | inl (T_NFv9Options t) =>
          decodeRecords version obsDomainId fsheader rawfs data "OptionDataSet"
            (DecodeOptionsDataSet version (v9Scopes t) (v9Options t)) FS_OptionsData
      | inl T_other => ret (rawfs, None)
      end
  end.

(** [binary.Size(FlowSetHeader{})]. *)
Definition headerSize : Z := 4.

Definition DecodeMessageCommonFlowSet (ctx : FlowContext) (obsDomainId version : Z)
    : D (flowset * option error) :=
  let* h := attempt (on_payload (errctx (Wrap "header" [])
    (let* id := BinaryDecoder D_uint16 in
     let* length := BinaryDecoder D_uint16 in
     ret {| Id := id; fsLength := length |}))) in
  match h with
  | inr e => ret (FS_nil, Some e)
  | inl fsheader =>
      let nextrelpos := fsLength fsheader - headerSize in
      if nextrelpos <? 0 then ret (FS_nil, Some (Errorf "negative length" []))
      else if (Id fsheader =? 0) && (version =? 9) then
        decodeTemplates ctx version obsDomainId fsheader nextrelpos "FlowSet" "FlowSet"
          (DecodeTemplateSet version) FS_Template (fun r => (TemplateId r, T_Template r))
      else if (Id fsheader =? 1) && (version =? 9) then
        decodeTemplates ctx version obsDomainId fsheader nextrelpos
          "NetFlow OptionsTemplateSet" "OptionsTemplateSet"
          DecodeNFv9OptionsTemplateSet FS_NFv9OptionsTemplate
          (fun r => (v9TemplateId r, T_NFv9Options r))
      else if (Id fsheader =? 2) && (version =? 10) then
        decodeTemplates ctx version obsDomainId fsheader nextrelpos
          "IPFIX TemplateSet" "IPFIX TemplateSet"
          (DecodeTemplateSet version) FS_Template (fun r => (TemplateId r, T_Template r))
      else if (Id fsheader =? 3) && (version =? 10) then
        decodeTemplates ctx version obsDomainId fsheader nextrelpos
          "IPFIX OptionsTemplateSet" "IPFIX OptionsTemplateSet"
          DecodeIPFIXOptionsTemplateSet FS_IPFIXOptionsTemplate
          (fun r => (ipfixTemplateId r, T_IPFIXOptions r))
      else if 256 <=? Id fsheader then
        decodeData ctx version obsDomainId fsheader nextrelpos
      else
        ret (FS_nil, Some (FlowError version "Decode" obsDomainId (Id fsheader)
                             (Errorf "ID error" [])))
  end.

(** The loop of [DecodeMessageCommon]; [read] is the number of bytes consumed so far,
    [err] the template-not-found errors joined so far. *)
Fixpoint commonLoop (fuel : nat) (ctx : FlowContext) (obsDomainId size version : Z)
    (startSize read : Z) (flowSets : list flowset) (err : option error)
    : D (list flowset * option error) := fun s =>
  match fuel with
  | O => (Hang, s)
  | Datatypes.S fuel' =>
      if (headerSize <=? len (payload s)) && ((version =? 9) || (to_uint 16 read <? size)) then
        match DecodeMessageCommonFlowSet ctx obsDomainId version s with
        | (Ok (flowSet, lerr), s') =>
            match lerr with
            | Some e =>
                if errors_Is_TemplateNotFound e then
                  commonLoop fuel' ctx obsDomainId size version startSize
                    (startSize - len (payload s')) (flowSets ++ [flowSet])
                    (Some (errors_Join err e)) s'
                else (Ok (flowSets, Some (Wrap "DecodeMessageCommon" [] e)), s')
            | None =>
                commonLoop fuel' ctx obsDomainId size version startSize
                  (startSize - len (payload s')) (flowSets ++ [flowSet]) err s'
            end
        | (Err e, s') => (Err e, s')
        | (Panic w, s') => (Panic w, s')
        | (Hang, s') => (Hang, s')
        end
      else (Ok (flowSets, option_map (Wrap "DecodeMessageCommon" []) err), s)
  end.

Definition DecodeMessageCommon (ctx : FlowContext) (obsDomainId size version : Z)
    : D (list flowset * option error) := fun s =>
  commonLoop (Datatypes.S (length (payload s))) ctx obsDomainId size version
    (len (payload s)) 0 [] None s.

(** The packet is returned with the error of its flow sets; a header error returns no
    packet. *)
Definition DecodeMessageNetFlow (ctx : FlowContext) : D (NFv9Packet * option error) :=
  let* (count, uptime, secs, seq, source) := errctx (DecoderError "NetFlowV9 header")
    (on_payload
      (let* count := BinaryDecoder D_uint16 in
       let* uptime := BinaryDecoder D_uint32 in
       let* secs := BinaryDecoder D_uint32 in
       let* seq := BinaryDecoder D_uint32 in
       let* source := BinaryDecoder D_uint32 in
       ret (count, uptime, secs, seq, source))) in
  let* (flowSets, err) := DecodeMessageCommon ctx source count 9 in
  ret ({| v9Version := 9; v9Count := count; SystemUptime := uptime; UnixSeconds := secs;
          v9SequenceNumber := seq; SourceId := source; v9FlowSets := flowSets |},
       option_map (DecoderError "NetFlowV9") err).

Definition DecodeMessageIPFIX (ctx : FlowContext) : D (IPFIXPacket * option error) :=
  let* (length, exportTime, seq, obs) := errctx (DecoderError "IPFIX header")
    (on_payload
      (let* length := BinaryDecoder D_uint16 in
       let* exportTime := BinaryDecoder D_uint32 in
       let* seq := BinaryDecoder D_uint32 in
       let* obs := BinaryDecoder D_uint32 in
       ret (length, exportTime, seq, obs))) in
  let* (flowSets, err) := DecodeMessageCommon ctx obs (to_uint 16 (length - 16)) 10 in
  ret ({| ipfixVersion := 10; ipfixLength := length; ExportTime := exportTime;
          ipfixSequenceNumber := seq; ObservationDomainId := obs; ipfixFlowSets := flowSets |},
       option_map (DecoderError "IPFIX") err).

Definition DecodeMessageVersion (ctx : FlowContext)
    : D ((NFv9Packet + IPFIXPacket) * option error) :=
  let* version := errctx (DecoderError "IPFIX/NetFlowV9 version")
    (on_payload (BinaryDecoder D_uint16)) in
  if version =? 9 then
    let* (p, err) := errctx (DecoderError "NetFlowV9") (DecodeMessageNetFlow ctx) in
    ret (inl p, option_map (DecoderError "NetFlowV9") err)
  else if version =? 10 then
    let* (p, err) := errctx (DecoderError "IPFIX") (DecodeMessageIPFIX ctx) in
    ret (inr p, option_map (DecoderError "IPFIX") err)
  else fail (DecoderError "IPFIX/NetFlowV9" (Errorf "unknown version" [version])).
End messages.
