(* ===== verification/NetflowEncode.v ===== *)
(** * decoders/netflow: the NetFlow v9 / IPFIX encoder (encode.go)

    [EncodeMessage] and everything it calls.  The map [templates] that [encodeFlowSets]
    threads from template sets to data sets is a [gmap] that is passed and returned.
    A method on a nil [*DataFlowSet] or [*OptionsDataFlowSet] dereferences it
    ([templates[fs.Id]]) before the nil check, hence [Panic]. *)
From S2P Require Import Prelude DecodersUtils NetflowTypes.

Definition netflowV9HeaderLen : Z := 20.
Definition ipfixHeaderLen : Z := 16.
Definition flowSetHeaderLen : Z := 4.

(** The [map[uint16]interface{}] of the templates encoded so far in the message. *)
Abbreviation templateMap := (gmap Z template).

(** ** Values *)

Definition asBytes (v : value) : res bytes :=
  match v with
  | VBytes data => Ok data
  | VString data => Ok data
  | _ => Err (Errorf "unsupported value type" [])
  end.

Definition padFlowSetPayload (payload : bytes) : bytes :=
  let padding := Z.rem (4 - Z.rem (flowSetHeaderLen + len payload) 4) 4 in
  if padding =? 0 then payload else payload ++ replicate (Z.to_nat padding) 0.

Definition encodeField (pen : bool) (field : Field) : M unit :=
  let typeID := if pen && PenProvided field then Z.lor (Type_ field) 0x8000 else Type_ field in
  WriteU16 typeID ;;;
  WriteU16 (Length field) ;;;
  (if pen && PenProvided field then WriteU32 (Pen field) else ret tt).

Definition encodeDataFieldValue (field : DataField) (template : option Field) : M unit :=
  match asBytes (dValue field) with
  | Err e => fail (Wrap "netflow: encode field" [dType field] e)
  | Panic w => panic w
  | Hang => fun b => (Hang, b)
  | Ok v =>
      let length := match template with Some t => Length t | None => dLength field end in
      if length =? 0xffff then
        if 0xffff <? len v then
          fail (Errorf "netflow: variable-length field exceeds 65535" [dType field; len v])
        else
          (if len v <? 255 then WriteU8 (to_uint 8 (len v))
           else WriteU8 0xff ;;; WriteU16 (to_uint 16 (len v))) ;;;
          Write v
      else if negb (length =? 0) && negb (length =? len v) then
        fail (Errorf "length mismatch" [length; len v])
      else Write v
  end.

(** [for i, field := range values { encodeDataFieldValue(buf, field, &fields[i]) }]
    ([fields] may be nil; a short one would panic). *)
Fixpoint encodeValues (values : list DataField) (fields : option (list Field)) : M unit :=
  match values with
  | [] => ret tt
  | field :: values' =>
      match fields with
      | None => encodeDataFieldValue field None ;;; encodeValues values' None
      | Some [] => panic "index out of range"
      | Some (t :: fields') =>
          encodeDataFieldValue field (Some t) ;;; encodeValues values' (Some fields')
      end
  end.

(** ** Template lookup *)

Definition templateFields (tmpl : option template) (values : Z) : res (option (list Field)) :=
  match tmpl with
  | None => Ok None
  | Some (T_Template t) =>
      if negb (len (Fields t) =? values) then
        Err (Errorf "netflow: template field-count mismatch" [len (Fields t); values])
      else Ok (Some (Fields t))
  | Some _ => Err (Errorf "netflow: invalid data template type" [])
  end.

Definition checkOptionFields (tscopes toptions : list Field) (scopes options : Z)
    : res (option (list Field) * option (list Field)) :=
  if negb (len tscopes =? scopes) then
    Err (Errorf "netflow: scope template mismatch" [len tscopes; scopes])
  else if negb (len toptions =? options) then
    Err (Errorf "netflow: option template mismatch" [len toptions; options])
  else Ok (Some tscopes, Some toptions).

Definition optionTemplateFields (tmpl : option template) (scopes options : Z)
    : res (option (list Field) * option (list Field)) :=
  match tmpl with
  | None => Ok (None, None)
  | Some (T_NFv9Options t) => checkOptionFields (v9Scopes t) (v9Options t) scopes options
  | Some (T_IPFIXOptions t) => checkOptionFields (ipfixScopes t) (ipfixOptions t) scopes options
  | Some _ => Err (Errorf "netflow: invalid options template type" [])
  end.

(** ** Flow sets: each returns the padded payload and the set id *)

Definition encodeTemplateRecord (version : Z) (record : TemplateRecord) : M unit :=
  let fieldCount := if FieldCount record =? 0 then to_uint 16 (len (Fields record))
                    else FieldCount record in
  if negb (fieldCount =? len (Fields record)) then
    fail (Errorf "netflow: template field-count mismatch" [fieldCount; len (Fields record)])
  else
    WriteU16 (TemplateId record) ;;;
    WriteU16 fieldCount ;;;
    rangeM (Fields record) (encodeField (version =? 10)).

Definition encodeTemplateFlowSet (version : Z) (flowSet : option TemplateFlowSet) : res (bytes * Z) :=
  match flowSet with
  | None => Err (Errorf "netflow: nil template flow set" [])
  | Some fs =>
      let id := if Id (Header fs) =? 0 then
                  (if version =? 9 then 0 else if version =? 10 then 2 else Id (Header fs))
                else Id (Header fs) in
      if ((version =? 9) && negb (id =? 0)) || ((version =? 10) && negb (id =? 2)) then
        Err (Errorf "netflow: invalid template flow set id" [id; version])
      else
        rbind (written (rangeM (Records fs) (encodeTemplateRecord version))) (fun buf =>
          Ok (padFlowSetPayload buf, id))
  end.

Definition encodeNFv9OptionsTemplateRecord (record : NFv9OptionsTemplateRecord) : M unit :=
  let scopeLength := if ScopeLength record =? 0 then to_uint 16 (len (v9Scopes record) * 4)
                     else ScopeLength record in
  let optionLength := if OptionLength record =? 0 then to_uint 16 (len (v9Options record) * 4)
                      else OptionLength record in
  if negb (Z.quot scopeLength 4 =? len (v9Scopes record)) then
    fail (Errorf "netflow: scope-length mismatch" [scopeLength; len (v9Scopes record)])
  else if negb (Z.quot optionLength 4 =? len (v9Options record)) then
    fail (Errorf "netflow: option-length mismatch" [optionLength; len (v9Options record)])
  else
    WriteU16 (v9TemplateId record) ;;;
    WriteU16 scopeLength ;;;
    WriteU16 optionLength ;;;
    rangeM (v9Scopes record) (encodeField false) ;;;
    rangeM (v9Options record) (encodeField false).

Definition encodeNFv9OptionsTemplateFlowSet (flowSet : option NFv9OptionsTemplateFlowSet)
    : res (bytes * Z) :=
  match flowSet with
  | None => Err (Errorf "netflow: nil options template flow set" [])
  | Some fs =>
      let id := if Id (Header fs) =? 0 then 1 else Id (Header fs) in
      if negb (id =? 1) then
        Err (Errorf "netflow: invalid NetFlow v9 options template flow set id" [id])
      else
        rbind (written (rangeM (Records fs) encodeNFv9OptionsTemplateRecord)) (fun buf =>
          Ok (padFlowSetPayload buf, id))
  end.

Definition encodeIPFIXOptionsTemplateRecord (record : IPFIXOptionsTemplateRecord) : M unit :=
  let nscopes := len (ipfixScopes record) in
  let nfields := nscopes + len (ipfixOptions record) in
  let fieldCount := if ipfixFieldCount record =? 0 then to_uint 16 nfields
                    else ipfixFieldCount record in
  let scopeFieldCount := if (ScopeFieldCount record =? 0) && (0 <? nscopes) then to_uint 16 nscopes
                         else ScopeFieldCount record in
  if negb (fieldCount =? nfields) then
    fail (Errorf "netflow: field-count mismatch" [fieldCount; nfields])
  else if negb (scopeFieldCount =? nscopes) then
    fail (Errorf "netflow: scope-field-count mismatch" [scopeFieldCount; nscopes])
  else
    WriteU16 (ipfixTemplateId record) ;;;
    WriteU16 fieldCount ;;;
    WriteU16 scopeFieldCount ;;;
    rangeM (ipfixScopes record) (encodeField true) ;;;
    rangeM (ipfixOptions record) (encodeField true).

Definition encodeIPFIXOptionsTemplateFlowSet (flowSet : option IPFIXOptionsTemplateFlowSet)
    : res (bytes * Z) :=
  match flowSet with
  | None => Err (Errorf "netflow: nil IPFIX options template flow set" [])
  | Some fs =>
      let id := if Id (Header fs) =? 0 then 3 else Id (Header fs) in
      if negb (id =? 3) then
        Err (Errorf "netflow: invalid IPFIX options template flow set id" [id])
      else
        rbind (written (rangeM (Records fs) encodeIPFIXOptionsTemplateRecord)) (fun buf =>
          Ok (padFlowSetPayload buf, id))
  end.

Definition encodeDataRecord (tmpl : option template) (record : DataRecord) : M unit :=
  let* fields := lift (templateFields tmpl (len (Values record))) in
  encodeValues (Values record) fields.

Definition encodeDataFlowSet (flowSet : option DataFlowSet) (tmpl : option template)
    : res (bytes * Z) :=
  match flowSet with
  | None => Err (Errorf "netflow: nil data flow set" [])
  | Some fs =>
      if Id (Header fs) <? 256 then Err (Errorf "netflow: invalid data flow set id" [Id (Header fs)])
      else
        rbind (written (rangeM (Records fs) (encodeDataRecord tmpl))) (fun buf =>
          Ok (padFlowSetPayload buf, Id (Header fs)))
  end.

Definition encodeOptionsDataRecord (tmpl : option template) (record : OptionsDataRecord) : M unit :=
  let* (scopeFields, optionFields) :=
    lift (optionTemplateFields tmpl (len (ScopesValues record)) (len (OptionsValues record))) in
  encodeValues (ScopesValues record) scopeFields ;;;
  encodeValues (OptionsValues record) optionFields.

Definition encodeOptionsDataFlowSet (flowSet : option OptionsDataFlowSet) (tmpl : option template)
    : res (bytes * Z) :=
  match flowSet with
  | None => Err (Errorf "netflow: nil options data flow set" [])
  | Some fs =>
      if Id (Header fs) <? 256 then
        Err (Errorf "netflow: invalid options data flow set id" [Id (Header fs)])
      else
        rbind (written (rangeM (Records fs) (encodeOptionsDataRecord tmpl))) (fun buf =>
          Ok (padFlowSetPayload buf, Id (Header fs)))
  end.

Definition encodeRawFlowSet (flowSet : option RawFlowSet) : res (bytes * Z) :=
  match flowSet with
  | None => Err (Errorf "netflow: nil raw flow set" [])
  | Some fs =>
      if Id (Header fs) <? 256 then Err (Errorf "netflow: invalid raw flow set id" [Id (Header fs)])
      else Ok (padFlowSetPayload (Records fs), Id (Header fs))
  end.

(** [for _, record := range fs.Records { templates[record.TemplateId] = record }]. *)
Definition recordTemplates {A} (key : A -> Z * template) (records : list A) (templates : templateMap)
    : templateMap :=
  fold_left (fun m r => <[(key r).1 := (key r).2]> m) records templates.

(** Encode a template set and remember its records when that succeeded. *)
Definition encodeAndRecord {A} (fs : boxed (FlowSetOf (list A))) (key : A -> Z * template)
    (templates : templateMap) (r : res (bytes * Z)) : res (bytes * Z * templateMap) :=
  rbind r (fun '(payload, id) =>
    Ok (payload, id,
        match unbox fs with
        | Some fs' => recordTemplates key (Records fs') templates
        | None => templates
        end)).

(** [templates[fs.Id]] reads through [fs]. *)
Definition withFlowSet {A} (fs : boxed (FlowSetOf A)) (templates : templateMap)
    (encode : option (FlowSetOf A) -> option template -> res (bytes * Z)) : res (bytes * Z * templateMap) :=
  match unbox fs with
  | None => Panic "nil pointer dereference"
  | Some fs' =>
      rbind (encode (Some fs') (templates !! Id (Header fs'))) (fun '(payload, id) =>
        Ok (payload, id, templates))
  end.

Definition encodeFlowSet (version : Z) (flowSet : flowset) (templates : templateMap)
    : res (bytes * Z * templateMap) :=
  match flowSet with
  | FS_Template fs =>
      encodeAndRecord fs (fun r => (TemplateId r, T_Template r)) templates
        (encodeTemplateFlowSet version (unbox fs))
  | FS_NFv9OptionsTemplate fs =>
      if negb (version =? 9) then Err (Errorf "netflow: invalid flow set for version" [version])
      else encodeAndRecord fs (fun r => (v9TemplateId r, T_NFv9Options r)) templates
             (encodeNFv9OptionsTemplateFlowSet (unbox fs))
  | FS_IPFIXOptionsTemplate fs =>
      if negb (version =? 10) then Err (Errorf "netflow: invalid flow set for version" [version])
      else encodeAndRecord fs (fun r => (ipfixTemplateId r, T_IPFIXOptions r)) templates
             (encodeIPFIXOptionsTemplateFlowSet (unbox fs))
  | FS_Data fs => withFlowSet fs templates encodeDataFlowSet
  | FS_OptionsData fs => withFlowSet fs templates encodeOptionsDataFlowSet
  | FS_Raw fs =>
      rbind (encodeRawFlowSet (unbox fs)) (fun '(payload, id) => Ok (payload, id, templates))
  | FS_nil | FS_other => Err (Errorf "netflow: unsupported flow set type" [])
  end.

(** The loop of [encodeFlowSets]. *)
Fixpoint encodeFlowSetsLoop (version : Z) (flowSets : list flowset) (templates : templateMap)
    : M unit :=
  match flowSets with
  | [] => ret tt
  | flowSet :: rest =>
      let* (payload, id, templates') := lift (encodeFlowSet version flowSet templates) in
      let* setStart := Len in
      WriteU16 id ;;;
      let length := flowSetHeaderLen + len payload in
      if 0xffff <? length then
        fail (Errorf "netflow: flow set length exceeds 65535" [id; length])
      else
        WriteU16 (to_uint 16 length) ;;;
        Write payload ;;;
        let* setEnd := Len in
        if negb (setEnd =? setStart + length) then
          fail (Errorf "netflow: flow set length invariant failed" [id; length; setEnd - setStart])
        else encodeFlowSetsLoop version rest templates'
  end.

Definition encodeFlowSets (version : Z) (flowSets : list flowset) : res bytes :=
  written (encodeFlowSetsLoop version flowSets ∅).

(** ** Packets *)

Definition encodeNFv9Packet (packet : option NFv9Packet) : res bytes :=
  match packet with
  | None => Err (Errorf "netflow: nil packet" [])
  | Some p =>
      let version := if v9Version p =? 0 then 9 else v9Version p in
      if negb (version =? 9) then Err (Errorf "netflow: unsupported version" [version])
      else
        rbind (encodeFlowSets version (v9FlowSets p)) (fun flowSetPayload =>
          let count := if v9Count p =? 0 then to_uint 16 (len (v9FlowSets p)) else v9Count p in
          written
            (WriteU16 version ;;;
             WriteU16 count ;;;
             WriteU32 (SystemUptime p) ;;;
             WriteU32 (UnixSeconds p) ;;;
             WriteU32 (v9SequenceNumber p) ;;;
             WriteU32 (SourceId p) ;;;
             Write flowSetPayload))
  end.

Definition encodeIPFIXPacket (packet : option IPFIXPacket) : res bytes :=
  match packet with
  | None => Err (Errorf "netflow: nil packet" [])
  | Some p =>
      let version := if ipfixVersion p =? 0 then 10 else ipfixVersion p in
      if negb (version =? 10) then Err (Errorf "netflow: unsupported version" [version])
      else
        rbind (encodeFlowSets version (ipfixFlowSets p)) (fun flowSetPayload =>
          let length := ipfixHeaderLen + len flowSetPayload in
          if 0xffff <? length then
            Err (Errorf "netflow: IPFIX message length exceeds 65535" [length])
          else
            written
              (WriteU16 version ;;;
               WriteU16 (to_uint 16 length) ;;;
               WriteU32 (ExportTime p) ;;;
               WriteU32 (ipfixSequenceNumber p) ;;;
               WriteU32 (ObservationDomainId p) ;;;
               Write flowSetPayload ;;;
               let* emitted := Len in
               if negb (emitted =? length) then
                 fail (Errorf "netflow: IPFIX message length invariant failed" [length; emitted])
               else ret tt))
  end.

(** The dynamic types [EncodeMessage] accepts. *)
Inductive packet : Type :=
  | P_NFv9 (p : boxed NFv9Packet)
  | P_IPFIX (p : boxed IPFIXPacket)
  | P_other.

Definition EncodeMessage (p : packet) : res bytes :=
  match p with
  | P_NFv9 p => encodeNFv9Packet (unbox p)
  | P_IPFIX p => encodeIPFIXPacket (unbox p)
  | P_other => Err (Errorf "netflow: unsupported packet type" [])
  end.
