(* ===== verification/NetflowSafety.v ===== *)
(** * decoders/netflow: the decoder on arbitrary datagrams

    No panic and no endless loop on any input, well-formedness of what is decoded, framing of
    flow sets, and which templates a datagram can touch. *)
From S2P Require Import Prelude DecodersUtils NetflowTypes NetflowDecode.

(** ** Well-formed templates *)

(** What Go's types and the enterprise bit allow for a decoded field. *)
Definition field_ok (pen : bool) (f : Field) : Prop :=
  u16 (Type_ f) /\ u16 (Length f) /\ u32 (Pen f) /\
  (pen = true -> Type_ f < 0x8000) /\ (PenProvided f = true -> pen = true) /\
  (PenProvided f = false -> Pen f = 0).

Definition template_ok (version : Z) (r : TemplateRecord) : Prop :=
  u16 (TemplateId r) /\ FieldCount r = len (Fields r) /\ u16 (FieldCount r) /\
  Forall (field_ok (version =? 10)) (Fields r).

Definition v9options_ok (r : NFv9OptionsTemplateRecord) : Prop :=
  u16 (v9TemplateId r) /\ u16 (ScopeLength r) /\ u16 (OptionLength r) /\
  len (v9Scopes r) = ScopeLength r / 4 /\ len (v9Options r) = OptionLength r / 4 /\
  Forall (field_ok false) (v9Scopes r) /\ Forall (field_ok false) (v9Options r).

Definition ipfixoptions_ok (r : IPFIXOptionsTemplateRecord) : Prop :=
  u16 (ipfixTemplateId r) /\ u16 (ipfixFieldCount r) /\ u16 (ScopeFieldCount r) /\
  len (ipfixScopes r) = ScopeFieldCount r /\
  len (ipfixScopes r) + len (ipfixOptions r) = ipfixFieldCount r /\
  Forall (field_ok true) (ipfixScopes r) /\ Forall (field_ok true) (ipfixOptions r).

(** ** Enterprise bit *)

Lemma pen_bit_set ty : u16 ty -> Z.land ty penBit <> 0 -> 0x8000 <= ty /\ Z.lxor ty penBit = ty - 0x8000.
Proof.
  intros Hty Hbit. unfold uint, penBit in *.
  assert (ty = Z.lor (Z.shiftl (ty / 2 ^ 15) 15) (ty mod 2 ^ 15)) as Hd.
  { pose proof (Z.mod_pos_bound ty (2 ^ 15)). rewrite lor_shiftl_low by lia.
    pose proof (Z.div_mod ty (2 ^ 15)). lia. }
  assert (ty / 2 ^ 15 = 0 \/ ty / 2 ^ 15 = 1) as [H0|H1].
  { assert (0 <= ty / 2 ^ 15 < 2); [|lia]. split; [apply Z.div_pos; lia|apply Z.div_lt_upper_bound; lia]. }
  - exfalso. apply Hbit. change 0x8000 with (Z.shiftl 1 15). rewrite Z.land_comm.
    apply land_shiftl_low; [lia|]. apply Z.div_small_iff in H0; lia.
  - assert (ty mod 2 ^ 15 = ty - 2 ^ 15) as Hm by (pose proof (Z.div_mod ty (2 ^ 15)); lia).
    split; [pose proof (Z.mod_pos_bound ty (2 ^ 15)); lia|].
    rewrite Hd at 1. rewrite H1. change 0x8000 with (Z.shiftl 1 15).
    pose proof (Z.mod_pos_bound ty (2 ^ 15)).
    rewrite <- Z.lxor_lor by (apply land_shiftl_low; lia).
    rewrite (Z.lxor_comm (Z.shiftl 1 15)), Z.lxor_assoc, Z.lxor_nilpotent, Z.lxor_0_r.
    change (Z.shiftl 1 15) with 0x8000. lia.
Qed.

Lemma pen_bit_clear ty : u16 ty -> Z.land ty penBit = 0 <-> ty < 0x8000.
Proof.
  intros Hty. split; intros H.
  - destruct (Z.lt_ge_cases ty 0x8000) as [|Hge]; [done|]. exfalso.
    assert (Z.testbit ty 15 = true) as Hb.
    { rewrite Z.testbit_true by lia. unfold uint in Hty.
      replace (ty / 2 ^ 15) with 1; [done|]. apply (Z.div_unique ty _ _ (ty - 2 ^ 15)); lia. }
    assert (Z.testbit (Z.land ty penBit) 15 = true) as Hl by (rewrite Z.land_spec, Hb; done).
    rewrite H in Hl. by rewrite Z.bits_0 in Hl.
  - unfold penBit. change 0x8000 with (Z.shiftl 1 15). rewrite Z.land_comm.
    unfold uint in Hty. apply land_shiftl_low; lia.
Qed.

(** ** Reading templates *)

(** The buffer holds bytes, and at most [n] of them. *)
Definition within (n : nat) (b : bytes) : Prop := is_bytes b /\ (length b <= n)%nat.

Lemma within_nil n : within n [].
Proof. split; [constructor|simpl; lia]. Qed.
#[export] Hint Resolve within_nil : core.

(** [wp_in v b']: step over a typed read, keeping how much it consumed. *)
Ltac wp_in v b' :=
  let Hv := fresh "H" v in let Hl := fresh "Hlen" in
  apply wp_bind, wp_BinaryDecoder;
  [ reflexivity | assumption
  | intros v b' Hl Hv ?; apply (f_equal length) in Hl; rewrite length_app in Hl;
    cbn [dest_ok dest_put length] in Hv, Hl; rewrite ?length_be_put in Hl
  | intros _; try apply within_nil ].

Ltac within_lia := split; [assumption|lia].

Section templates.
Context (n : nat).

Lemma wp_field_tail pen (ty l : Z) f b :
  u16 ty -> u16 l -> is_bytes b -> (length b <= n)%nat ->
  wp (if pen && negb (Z.land ty penBit =? 0) then
        let* p := errctx f (BinaryDecoder D_uint32) in
        ret {| PenProvided := true; Type_ := Z.lxor ty penBit; Length := l; Pen := p |}
      else ret {| PenProvided := false; Type_ := ty; Length := l; Pen := 0 |})
     (fun f b' => within n b' /\ field_ok pen f) (fun _ => within n) b.
Proof.
  intros Hty Hl Hb Hn. destruct (Z.eqb_spec (Z.land ty penBit) 0) as [H0|H0].
  - rewrite andb_false_r. apply wp_ret. split; [done|].
    apply pen_bit_clear in H0; [|done]. unfold field_ok; cbn. by splits.
  - destruct pen; cbn [andb negb].
    + apply wp_bind, wp_errctx, wp_BinaryDecoder; [done|done| |intros; apply within_nil].
      intros p b' Heq Hp Hb'. cbn [dest_ok] in Hp. apply wp_ret. split.
      * split; [done|]. apply (f_equal length) in Heq. rewrite length_app in Heq. lia.
      * apply pen_bit_set in H0 as [Hge ->]; [|done]. unfold field_ok, uint in *;
        cbn [PenProvided Type_ Length Pen]. splits; try done; lia.
    + apply wp_ret. split; [done|]. unfold field_ok; cbn. splits; done.
Qed.

Lemma wp_DecodeField pen b :
  within n b -> wp (DecodeField pen) (fun f b' => within n b' /\ field_ok pen f) (fun _ => within n) b.
Proof.
  intros [Hb Hn]. unfold DecodeField. apply wp_bind, wp_errctx. wp_in ty b1. wp_in l b2.
  apply wp_ret. apply wp_field_tail; [done|done|done|lia].
Qed.

Lemma wp_decodeTemplateField version b :
  within n b ->
  wp (decodeTemplateField version) (fun f b' => within n b' /\ field_ok (version =? 10) f)
     (fun _ => within n) b.
Proof.
  intros [Hb Hn]. unfold decodeTemplateField. apply wp_bind, wp_errctx. wp_in ty b1. wp_in l b2.
  apply wp_ret. apply wp_field_tail; [done|done|done|lia].
Qed.
End templates.

Lemma wp_decodeTemplate version b :
  is_bytes b ->
  wp (decodeTemplate version)
     (fun r b' => is_bytes b' /\ template_ok version r /\ (length b' < length b)%nat)
     (fun _ => within (length b)) b.
Proof.
  intros Hb. unfold decodeTemplate. apply wp_bind, wp_errctx. wp_in tid b1. wp_in cnt b2.
  apply wp_ret. cbn beta iota. unfold uint in Hcnt. destruct (Z.ltb_spec cnt 0); [lia|].
  apply wp_bind, wp_makeslice; [done|]. apply wp_bind.
  eapply wp_mono.
  - apply (wp_forM _ _ _ (within (length b2)) (field_ok (version =? 10))); [done|].
    intros j b' Hw. by apply wp_decodeTemplateField.
  - intros l b' ([Hb' Hl] & Hn & HP). apply wp_ret. splits; [done| |lia].
    unfold template_ok, uint, len in *. cbn [TemplateId FieldCount Fields]. splits; try done; lia.
  - intros e b' [Hb' Hl]. within_lia.
Qed.

Lemma wp_decodeNFv9OptionsTemplate b :
  is_bytes b ->
  wp decodeNFv9OptionsTemplate
     (fun r b' => is_bytes b' /\ v9options_ok r /\ (length b' < length b)%nat)
     (fun _ => within (length b)) b.
Proof.
  intros Hb. unfold decodeNFv9OptionsTemplate. apply wp_bind, wp_errctx.
  wp_in tid b1. wp_in sl b2. wp_in ol b3.
  apply wp_ret. cbn beta iota zeta. unfold uint in Hsl, Hol. rewrite !Z.quot_div_nonneg by lia.
  assert (0 <= sl / 4) by (apply Z.div_pos; lia). assert (0 <= ol / 4) by (apply Z.div_pos; lia).
  destruct (Z.ltb_spec (sl / 4) 0); [lia|]. destruct (Z.ltb_spec (ol / 4) 0); [lia|]. cbn [orb].
  apply wp_bind, wp_makeslice; [done|]. apply wp_bind. eapply wp_mono.
  { apply (wp_forM _ _ _ (within (length b3)) (field_ok false) (fun _ => within (length b3))); [done|].
    intros j b' Hw. apply wp_errctx. by apply wp_DecodeField. }
  2:{ intros e b' [Hb' Hl]. within_lia. }
  intros scopes b4 (Hw & Hn & HP). apply wp_bind, wp_makeslice; [done|]. apply wp_bind. eapply wp_mono.
  { apply (wp_forM _ _ _ (within (length b3)) (field_ok false) (fun _ => within (length b3))); [done|].
    intros j b' Hw'. apply wp_errctx. by apply wp_DecodeField. }
  2:{ intros e b' [Hb' Hl]. within_lia. }
  intros options b5 ([Hb5 Hl5] & Hn' & HP'). apply wp_ret. splits; [done| |lia].
  unfold v9options_ok, uint, len in *.
  cbn [v9TemplateId ScopeLength OptionLength v9Scopes v9Options]. splits; try done; lia.
Qed.

Lemma wp_decodeIPFIXOptionsTemplate b :
  is_bytes b ->
  wp decodeIPFIXOptionsTemplate
     (fun r b' => is_bytes b' /\ ipfixoptions_ok r /\ (length b' < length b)%nat)
     (fun _ => within (length b)) b.
Proof.
  intros Hb. unfold decodeIPFIXOptionsTemplate. apply wp_bind, wp_errctx.
  wp_in tid b1. wp_in fc b2. wp_in scnt b3.
  apply wp_ret. cbn beta iota zeta. unfold uint in Hfc, Hscnt.
  apply wp_bind, wp_makeslice; [lia|]. apply wp_bind. eapply wp_mono.
  { apply (wp_forM _ _ _ (within (length b3)) (field_ok true) (fun _ => within (length b3))); [done|].
    intros j b' Hw. apply wp_errctx. by apply wp_DecodeField. }
  2:{ intros e b' [Hb' Hl]. within_lia. }
  intros scopes b4 (Hw & Hn & HP). cbn beta zeta.
  destruct (Z.ltb_spec (fc - scnt) 0); [apply wp_fail; destruct Hw; within_lia|].
  apply wp_bind, wp_makeslice; [done|]. apply wp_bind. eapply wp_mono.
  { apply (wp_forM _ _ _ (within (length b3)) (field_ok true) (fun _ => within (length b3))); [done|].
    intros j b' Hw'. apply wp_errctx. by apply wp_DecodeField. }
  2:{ intros e b' [Hb' Hl]. within_lia. }
  intros options b5 ([Hb5 Hl5] & Hn' & HP'). apply wp_ret. splits; [done| |lia].
  unfold ipfixoptions_ok, uint, len in *.
  cbn [ipfixTemplateId ipfixFieldCount ScopeFieldCount ipfixScopes ipfixOptions]. splits; try done; lia.
Qed.

(** ** Reading data *)

(** [Length] is a [uint16]. *)
Definition field_typed (f : Field) : Prop := u16 (Length f).

(** A value holds bytes. *)
Definition value_typed (df : DataField) : Prop :=
  match dValue df with VBytes v => is_bytes v | _ => True end.

Lemma wp_decodeDataField n f b :
  field_typed f -> within n b ->
  wp (decodeDataField f) (fun df b' => within n b' /\ value_typed df) (fun _ => within n) b.
Proof.
  intros Hf [Hb Hn]. unfold decodeDataField. apply wp_bind.
  assert (forall l b', 0 <= l -> within n b' ->
    wp (let* v := Next l in
        ret {| dPenProvided := PenProvided f; dType := Type_ f; dLength := 0; dPen := Pen f;
               dValue := VBytes v |}) (fun df b'' => within n b'' /\ value_typed df) (fun _ => within n) b') as Hnext.
  { intros l b' Hl [Hb' Hn']. apply wp_bind, wp_Next; [done|]. intros bs b'' -> _. apply wp_ret.
    apply is_bytes_app in Hb' as [? ?]. rewrite length_app in Hn'. split; [within_lia|done]. }
  unfold decodeFieldLength. destruct (Z.eqb_spec (Length f) 0xffff).
  - apply wp_bind, wp_errctx, wp_BinaryDecoder; [done|done| |intros; apply within_nil].
    intros l8 b1 -> Hl8 Hb1. cbn [dest_ok dest_put] in *. rewrite length_app in Hn. cbn in Hn.
    destruct (l8 =? 0xff).
    + apply wp_errctx, wp_BinaryDecoder; [done|done| |intros; apply within_nil].
      intros l16 b2 -> Hl16 Hb2. cbn [dest_ok dest_put] in *. rewrite length_app in Hn.
      apply Hnext; [apply Hl16|]. within_lia.
    + apply wp_ret. apply Hnext; [apply Hl8|]. within_lia.
  - apply wp_ret. apply Hnext; [apply Hf|done].
Qed.

Lemma wp_decodeDataFields n fs b :
  Forall field_typed fs -> within n b ->
  wp (decodeDataFields fs) (fun l b' => within n b' /\ length l = length fs /\ Forall value_typed l) (fun _ => within n) b.
Proof.
  intros Hfs. revert b. induction Hfs as [|f fs Hf Hfs IH]; intros b Hw; [by apply wp_ret|].
  cbn [decodeDataFields]. apply wp_bind. eapply wp_mono; [by apply (wp_decodeDataField n)| |done].
  intros d b1 [Hw1 Hd]. apply wp_bind. eapply wp_mono; [by apply IH| |done].
  intros ds b2 (Hw2 & Hl & Hds). apply wp_ret. simpl. auto.
Qed.

Lemma wp_DecodeDataSetUsingFields n version fs b :
  Forall field_typed fs -> within n b ->
  wp (DecodeDataSetUsingFields version fs) (fun l b' => within n b' /\ length l = length fs /\ Forall value_typed l)
     (fun _ => within n) b.
Proof.
  intros Hfs Hw. unfold DecodeDataSetUsingFields. apply wp_bind. unfold wp at 1; cbn.
  destruct (GetTemplateSize version fs <=? len b).
  - by apply wp_decodeDataFields.
  - apply wp_ret. rewrite length_map. splits; [done|done|]. apply Forall_map. by apply Forall_true.
Qed.

(** The values of a record are as many as the fields of its template, and hold bytes. *)
Definition data_shape (fs : list Field) (r : DataRecord) : Prop :=
  length (Values r) = length fs /\ Forall value_typed (Values r).
Definition options_shape (sc op : list Field) (r : OptionsDataRecord) : Prop :=
  (length (ScopesValues r) = length sc /\ Forall value_typed (ScopesValues r)) /\
  length (OptionsValues r) = length op /\ Forall value_typed (OptionsValues r).

Lemma wp_decodeDataRecord version fs b :
  Forall field_typed fs -> is_bytes b ->
  wp (decodeDataRecord version fs)
     (fun r b' => is_bytes b' /\ data_shape fs r /\ (length b' < length b)%nat) (fun _ => is_bytes) b.
Proof.
  intros Hfs Hb. unfold decodeDataRecord. apply wp_bind. unfold wp at 1; cbn.
  apply wp_bind, wp_errctx. eapply wp_mono; [by apply (wp_DecodeDataSetUsingFields (length b))| |].
  2:{ by intros e b' [? _]. }
  intros l b' [[Hb' Hn] Hl]. apply wp_bind. unfold wp at 1; cbn.
  destruct (Z.eqb_spec (len b') (len b)); [by apply wp_fail|].
  apply wp_ret. splits; [done|done|]. unfold len in *. lia.
Qed.

Lemma wp_decodeOptionsDataRecord version sc op b :
  Forall field_typed sc -> Forall field_typed op -> is_bytes b ->
  wp (decodeOptionsDataRecord version sc op)
     (fun r b' => is_bytes b' /\ options_shape sc op r /\ (length b' < length b)%nat)
     (fun _ => is_bytes) b.
Proof.
  intros Hsc Hop Hb. unfold decodeOptionsDataRecord. apply wp_bind. unfold wp at 1; cbn.
  apply wp_bind, wp_errctx. eapply wp_mono; [by apply (wp_DecodeDataSetUsingFields (length b))| |].
  2:{ by intros e b' [? _]. }
  intros l b1 [Hw1 Hl1].
  apply wp_bind, wp_errctx. eapply wp_mono; [by apply (wp_DecodeDataSetUsingFields (length b))| |].
  2:{ by intros e b' [? _]. }
  intros l' b' [[Hb' Hn] Hl]. apply wp_bind. unfold wp at 1; cbn.
  destruct (Z.eqb_spec (len b') (len b)); [by apply wp_fail|].
  apply wp_ret. splits; [done|done|]. unfold len in *. lia.
Qed.

(** ** Whole sets: every set decoder returns, with well-formed records *)

Lemma wp_within_bytes {A} (m : M A) (Q : A -> bytes -> Prop) n b :
  wp m Q (fun _ => within n) b -> wp m Q (fun _ => is_bytes) b.
Proof. intros H. eapply wp_mono; [exact H|done|]. by intros e b' [? _]. Qed.

(** A flow set whose data records hold bytes. *)
Definition flowset_typed (fs : flowset) : Prop :=
  match fs with
  | FS_Data (Val s) => Forall (fun r => Forall value_typed (Values r)) (Records s)
  | FS_OptionsData (Val s) =>
      Forall (fun r => Forall value_typed (ScopesValues r) /\ Forall value_typed (OptionsValues r)) (Records s)
  | _ => True
  end.

(** The outcome of a set decoder on bytes: records satisfying [P], and perhaps an error. *)
Definition returns {A} (m : M (list A * option error)) (P : A -> Prop) : Prop :=
  forall b, is_bytes b -> exists l e b', m b = (Ok (l, e), b') /\ Forall P l /\ (length l <= length b)%nat.

Lemma returns_loopM {A} more (one : M A) P :
  (forall b, is_bytes b ->
     wp one (fun a b' => is_bytes b' /\ P a /\ (length b' < length b)%nat) (fun _ => is_bytes) b) ->
  returns (fun b => loopM (S (length b)) more one b) P.
Proof.
  intros Hone b Hb.
  pose proof (wp_loopM (S (length b)) more one is_bytes P b ltac:(lia) Hb
                (fun b' Hb' _ => Hone b' Hb')) as Hw.
  unfold wp in Hw. destruct (loopM _ _ _ b) as [[[l e]|e|w|] b']; try done.
  destruct Hw as (_ & HP & Hl & _). eauto 8.
Qed.

Lemma returns_DecodeTemplateSet version : returns (DecodeTemplateSet version) (template_ok version).
Proof.
  apply returns_loopM. intros b Hb. eapply wp_within_bytes. by apply wp_decodeTemplate.
Qed.

Lemma returns_DecodeNFv9OptionsTemplateSet : returns DecodeNFv9OptionsTemplateSet v9options_ok.
Proof.
  apply returns_loopM. intros b Hb. eapply wp_within_bytes. by apply wp_decodeNFv9OptionsTemplate.
Qed.

Lemma returns_DecodeIPFIXOptionsTemplateSet : returns DecodeIPFIXOptionsTemplateSet ipfixoptions_ok.
Proof.
  apply returns_loopM. intros b Hb. eapply wp_within_bytes. by apply wp_decodeIPFIXOptionsTemplate.
Qed.

Lemma returns_DecodeDataSet version fs :
  Forall field_typed fs -> returns (DecodeDataSet version fs) (data_shape fs).
Proof. intros Hfs. apply returns_loopM. intros b Hb. by apply wp_decodeDataRecord. Qed.

Lemma returns_DecodeOptionsDataSet version sc op :
  Forall field_typed sc -> Forall field_typed op ->
  returns (DecodeOptionsDataSet version sc op) (options_shape sc op).
Proof. intros Hsc Hop. apply returns_loopM. intros b Hb. by apply wp_decodeOptionsDataRecord. Qed.

(** ** Messages *)

(** Every [Length] of a template is a [uint16]. *)
Definition template_typed (tpl : template) : Prop :=
  match tpl with
  | T_Template r => Forall field_typed (Fields r)
  | T_NFv9Options r => Forall field_typed (v9Scopes r) /\ Forall field_typed (v9Options r)
  | T_IPFIXOptions r => Forall field_typed (ipfixScopes r) /\ Forall field_typed (ipfixOptions r)
  | T_other => True
  end.

Lemma field_ok_typed pen l : Forall (field_ok pen) l -> Forall field_typed l.
Proof. intros Hl. eapply Forall_impl; [exact Hl|]. intros f (_ & H & _). exact H. Qed.

Lemma Next_drop n b : 0 <= n -> Next n b = (Ok (take (Z.to_nat n) b), drop (Z.to_nat n) b).
Proof.
  intros Hn. unfold Next. destruct (Z.ltb_spec n 0); [lia|].
  destruct (Z.le_ge_cases n (len b)).
  - by rewrite Z.min_l by lia.
  - rewrite Z.min_r by lia. unfold len in *. rewrite Nat2Z.id.
    rewrite !take_ge, !drop_ge by lia. done.
Qed.

Lemma is_bytes_take_drop n b : is_bytes b -> is_bytes (take n b) /\ is_bytes (drop n b).
Proof. intros Hb. rewrite <- (take_drop n b) in Hb. by apply is_bytes_app in Hb. Qed.

Section messages.
Context {S : Type} `{TemplateStoreSpec S}.
Implicit Types s : DState S.

Definition store_typed (st : S) : Prop :=
  forall ctx v d t tpl, template_view st ctx v d t = Some tpl -> template_typed tpl.

(** The store keeps its types, and only templates of one router, version and
    observation domain may change. *)
Definition store_step (ctx : FlowContext) (v d : Z) (o o' : option S) : Prop :=
  match o, o' with
  | None, None => True
  | Some a, Some b =>
      (store_typed a -> store_typed b) /\
      (forall ctx' v' d' t, (ctx', v', d') <> (ctx, v, d) ->
         template_view b ctx' v' d' t = template_view a ctx' v' d' t)
  | _, _ => False
  end.

#[export] Instance store_step_refl ctx v d : Reflexive (store_step ctx v d).
Proof. intros [a|]; simpl; auto. Qed.
#[export] Instance store_step_trans ctx v d : Transitive (store_step ctx v d).
Proof.
  intros [a|] [b|] [c|]; simpl; try done. intros [H1 H2] [H3 H4]. split; [auto|].
  intros. rewrite H4, H2; done.
Qed.

(** The payload holds bytes and the templates in the store are typed. *)
Definition state_ok s : Prop :=
  is_bytes (payload s) /\ forall st, store s = Some st -> store_typed st.

Lemma view_equiv_step ctx v d a b : view_equiv a b -> store_step ctx v d (Some a) (Some b).
Proof.
  intros Hab. split.
  - intros Ha c' v' d' t tpl. rewrite <- (Hab c' v' d' t). apply Ha.
  - intros. symmetry. apply Hab.
Qed.

Lemma AddTemplate_step ctx v d t tpl a :
  template_typed tpl ->
  exists st b, AddTemplate ctx v d t tpl a = (Ok st, b) /\ store_step ctx v d (Some a) (Some b).
Proof.
  intros Ht. destruct (AddTemplate_spec a ctx v d t tpl) as (st & b & Heq & Hnew & Hold).
  exists st, b. split; [done|]. split.
  - intros Ha c' v' d' t' tpl' Hv. destruct (decide ((c', v', d', t') = (ctx, v, d, t))) as [[=-> -> -> ->]|Hne].
    + congruence.
    + rewrite Hold in Hv by done. by eapply Ha.
  - intros c' v' d' t' Hne. apply Hold. congruence.
Qed.

Lemma addTemplates_returns ctx v d fsid typ records s :
  Forall (fun r => template_typed r.2) records ->
  exists o, addTemplates ctx v d fsid typ records s = (Ok tt, {| payload := payload s; store := o |}) /\
            store_step ctx v d (store s) o.
Proof.
  intros Hr. unfold addTemplates, bind, get. destruct (store s) as [a|] eqn:Hs.
  2:{ exists None. destruct s; simpl in *; subst. done. }
  assert (exists o, rangeM records (fun '(tid, tpl) =>
    errctx (FlowError v typ d fsid) (let* _ := on_store (AddTemplate ctx v d tid tpl) in ret tt)) s
    = (Ok tt, {| payload := payload s; store := Some o |}) /\ store_step ctx v d (Some a) (Some o))
    as (o & Ho & Hstep); [|eauto].
  revert s a Hs. induction Hr as [|[tid tpl] records Htpl Hr IH]; intros s a Hs.
  - exists a. destruct s; simpl in *; subst. done.
  - destruct (AddTemplate_step ctx v d tid tpl a Htpl) as (st & b & Heq & Hstep).
    cbn [rangeM]. unfold bind at 1, errctx, bind at 1, on_store. rewrite Hs, Heq. cbn [ret].
    destruct (IH {| payload := payload s; store := Some b |} b eq_refl) as (o & Ho & Hstep').
    exists o. split; [exact Ho|]. by etrans.
Qed.

(** One set: the outcome and the payload that is left. *)
Definition set_step ctx v d (m : ST (DState S) (flowset * option error)) s (rest : bytes) : Prop :=
  exists fs err o, m s = (Ok (fs, err), {| payload := rest; store := o |}) /\
                   store_step ctx v d (store s) o /\ flowset_typed fs.

Lemma on_payload_Next n s :
  0 <= n -> on_payload (Next n) s =
    (Ok (take (Z.to_nat n) (payload s)),
     {| payload := drop (Z.to_nat n) (payload s); store := store s |}).
Proof. intros Hn. unfold on_payload. by rewrite Next_drop. Qed.

Lemma decodeTemplates_step {A} ctx v d hdr n t1 t2 (dec : M (list A * option error)) mk key P s :
  0 <= n -> is_bytes (payload s) -> returns dec P -> (forall r, P r -> template_typed (key r).2) ->
  (forall x, flowset_typed (mk x)) ->
  set_step ctx v d (decodeTemplates ctx v d hdr n t1 t2 dec mk key) s (drop (Z.to_nat n) (payload s)).
Proof.
  intros Hn Hb Hdec Hkey Hmk. unfold set_step, decodeTemplates.
  unfold bind at 1. rewrite on_payload_Next by done.
  destruct (Hdec (take (Z.to_nat n) (payload s))) as (l & e & b' & Heq & HP & _).
  { by apply is_bytes_take_drop. }
  unfold bind at 1, on_buffer. rewrite Heq. cbn [fst]. destruct e as [e|].
  - do 3 eexists. splits; [reflexivity|apply store_step_refl|done].
  - unfold bind at 1, attempt.
    destruct (addTemplates_returns ctx v d (Id hdr) t2 (map key l)
      {| payload := drop (Z.to_nat n) (payload s); store := store s |}) as (o & Ho & Hstep).
    { apply Forall_map. eapply Forall_impl; [exact HP|]. exact Hkey. }
    rewrite Ho. do 3 eexists. splits; [reflexivity|done|apply Hmk].
Qed.

Lemma decodeRecords_step {A} ctx v d hdr raw data t (dec : M (list A * option error)) mk P o rest st :
  is_bytes data -> returns dec P -> store_step ctx v d o (Some st) -> flowset_typed raw ->
  (forall l, Forall P l -> flowset_typed (mk (Val {| Header := hdr; Records := l |}))) ->
  exists fs err o',
    decodeRecords v d hdr raw data t dec mk {| payload := rest; store := Some st |}
      = (Ok (fs, err), {| payload := rest; store := o' |}) /\ store_step ctx v d o o' /\ flowset_typed fs.
Proof.
  intros Hb Hdec Hstep Hraw Hmk. unfold decodeRecords, bind, on_buffer.
  destruct (Hdec data Hb) as (l & [e|] & b' & -> & Hl & _); cbn [fst]; unfold ret; eauto 8.
Qed.

Lemma GetTemplate_step ctx v d t a :
  exists r b, GetTemplate ctx v d t a = (r, b) /\ view_equiv a b /\
    match template_view a ctx v d t with
    | Some tpl => r = Ok tpl
    | None => r = Err ErrorTemplateNotFound
    end.
Proof.
  destruct (template_view a ctx v d t) as [tpl|] eqn:Ht.
  - destruct (GetTemplate_found a ctx v d t tpl Ht) as (b & Heq & Hv).
    exists (Ok tpl), b. splits; [done| |done]. intros ????. by rewrite Hv.
  - destruct (GetTemplate_missing a ctx v d t Ht) as (b & Heq & Hv).
    exists (Err ErrorTemplateNotFound), b. splits; [done| |done]. intros ????. by rewrite Hv.
Qed.

Lemma decodeData_step ctx v d hdr n s :
  0 <= n -> state_ok s ->
  set_step ctx v d (decodeData ctx v d hdr n) s (drop (Z.to_nat n) (payload s)).
Proof.
  intros Hn [Hb Hst]. unfold set_step, decodeData.
  unfold bind at 1. rewrite on_payload_Next by done. unfold bind at 1, get. cbn [store].
  destruct (store s) as [a|] eqn:Hs.
  2:{ do 3 eexists. splits; [reflexivity|done|done]. }
  unfold bind at 1, attempt, on_store. cbn [store payload].
  destruct (GetTemplate_step ctx v d (Id hdr) a) as (r & b & -> & Hab & Hr).
  apply (view_equiv_step ctx v d) in Hab.
  destruct (is_bytes_take_drop (Z.to_nat n) (payload s) Hb) as [Hdata _].
  destruct (template_view a ctx v d (Id hdr)) as [tpl|] eqn:Ht; subst r.
  2:{ do 3 eexists. splits; [reflexivity|done|done]. }
  pose proof (Hst a eq_refl _ _ _ _ _ Ht) as Htyped.
  destruct tpl as [r|r|r|]; simpl in Htyped.
  - eapply decodeRecords_step; [done|by apply returns_DecodeDataSet|done|done|].
    intros l Hl. eapply Forall_impl; [exact Hl|]. by intros x [_ ?].
  - destruct Htyped. eapply decodeRecords_step; [done|by apply returns_DecodeOptionsDataSet|done|done|].
    intros l Hl. eapply Forall_impl; [exact Hl|]. by intros x [[_ ?] [_ ?]].
  - destruct Htyped. eapply decodeRecords_step; [done|by apply returns_DecodeOptionsDataSet|done|done|].
    intros l Hl. eapply Forall_impl; [exact Hl|]. by intros x [[_ ?] [_ ?]].
  - do 3 eexists. splits; [reflexivity|done|done].
Qed.

(** ** The header of a set *)

(** The set ids a version knows; any other id is the "ID error". *)
Definition known_set (version id : Z) : bool :=
  ((id =? 0) && (version =? 9)) || ((id =? 1) && (version =? 9)) ||
  ((id =? 2) && (version =? 10)) || ((id =? 3) && (version =? 10)) || (256 <=? id).

(** Where decoding resumes after the set whose header is [id], [length]. *)
Definition set_rest (version id length : Z) (body : bytes) : bytes :=
  if (4 <=? length) && known_set version id then drop (Z.to_nat (length - 4)) body else body.

Lemma on_payload_reads {A} (m : M A) bs a rest s :
  reads m bs a -> payload s = bs ++ rest ->
  on_payload m s = (Ok a, {| payload := rest; store := store s |}).
Proof. intros Hm Hs. unfold on_payload. by rewrite Hs, Hm. Qed.

Lemma set_step_then {A} ctx v d (m : ST (DState S) A) k s s1 a rest :
  m s = (Ok a, s1) -> store s1 = store s -> set_step ctx v d (k a) s1 rest ->
  set_step ctx v d (bind m k) s rest.
Proof.
  intros Hm Hs (fs & err & o & Heq & Hstep). exists fs, err, o. unfold bind.
  rewrite Hm. split; [done|]. by rewrite <- Hs.
Qed.

Lemma set_step_ret ctx v d err s : set_step ctx v d (ret (FS_nil, err)) s (payload s).
Proof. exists FS_nil, err, (store s). splits; [by destruct s|apply store_step_refl|done]. Qed.

Lemma flowset_step ctx d version id length body s :
  state_ok s -> u16 id -> u16 length ->
  payload s = be_put 2 id ++ be_put 2 length ++ body ->
  set_step ctx version d (DecodeMessageCommonFlowSet ctx d version) s (set_rest version id length body).
Proof.
  intros [Hb Hst] Hid Hlen Hp. unfold DecodeMessageCommonFlowSet.
  set (s1 := {| payload := body; store := store s |}).
  assert (state_ok s1) as Hok1.
  { split; [|done]. rewrite Hp in Hb. apply is_bytes_app in Hb as [_ Hb].
    by apply is_bytes_app in Hb as [_ Hb]. }
  eapply (set_step_then _ _ _ _ _ _ s1 (inl {| Id := id; fsLength := length |})).
  { unfold attempt. erewrite (on_payload_reads _ (be_put 2 id ++ be_put 2 length ++ []));
      [reflexivity| |by rewrite <- !app_assoc].
    apply reads_errctx. read_steps. apply reads_ret. }
  { done. }
  cbn [Id fsLength]. unfold headerSize, set_rest.
  destruct (Z.ltb_spec (length - 4) 0) as [Hlt|Hge].
  { destruct (Z.leb_spec 4 length); [lia|]. apply (set_step_ret _ _ _ _ s1). }
  destruct (Z.leb_spec 4 length); [|lia]. cbn [andb]. unfold known_set.
  destruct ((id =? 0) && (version =? 9)); cbn [orb].
  { eapply (decodeTemplates_step _ _ _ _ _ _ _ _ _ _ _ s1);
      [done|apply Hok1|apply returns_DecodeTemplateSet| |done].
    intros r (_ & _ & _ & Hf). by eapply field_ok_typed. }
  destruct ((id =? 1) && (version =? 9)); cbn [orb].
  { eapply (decodeTemplates_step _ _ _ _ _ _ _ _ _ _ _ s1);
      [done|apply Hok1|apply returns_DecodeNFv9OptionsTemplateSet| |done].
    intros r (_ & _ & _ & _ & _ & Hf & Hf'). split; by eapply field_ok_typed. }
  destruct ((id =? 2) && (version =? 10)); cbn [orb].
  { eapply (decodeTemplates_step _ _ _ _ _ _ _ _ _ _ _ s1);
      [done|apply Hok1|apply returns_DecodeTemplateSet| |done].
    intros r (_ & _ & _ & Hf). by eapply field_ok_typed. }
  destruct ((id =? 3) && (version =? 10)); cbn [orb].
  { eapply (decodeTemplates_step _ _ _ _ _ _ _ _ _ _ _ s1);
      [done|apply Hok1|apply returns_DecodeIPFIXOptionsTemplateSet| |done].
    intros r (_ & _ & _ & _ & _ & Hf & Hf'). split; by eapply field_ok_typed. }
  destruct (256 <=? id).
  { by apply (decodeData_step _ _ _ _ _ s1). }
  apply (set_step_ret _ _ _ _ s1).
Qed.

Lemma split_header b :
  is_bytes b -> 4 <= len b ->
  exists id length body, u16 id /\ u16 length /\ b = be_put 2 id ++ be_put 2 length ++ body.
Proof.
  intros Hb Hlen. rewrite <- (take_drop 2 b) in Hb |- *.
  rewrite <- (take_drop 2 (drop 2 b)) in Hb |- *.
  apply is_bytes_app in Hb as [H1 Hb]. apply is_bytes_app in Hb as [H2 H3].
  destruct (dest_get_put D_uint16 (take 2 b)) as (id & Hid & Heq1); [done|done|..].
  { unfold len in *. rewrite length_take. cbn [intDataSize]. lia. }
  destruct (dest_get_put D_uint16 (take 2 (drop 2 b))) as (l & Hl & Heq2); [done|done|..].
  { unfold len in *. rewrite length_take, length_drop. cbn [intDataSize]. lia. }
  exists id, l, (drop 2 (drop 2 b)). splits; [done|done|].
  rewrite Heq1 at 1. by rewrite Heq2 at 1.
Qed.

Lemma set_rest_suffix version id length body :
  exists k, set_rest version id length body = drop k body.
Proof.
  unfold set_rest. destruct (_ && _); [by eexists|]. by exists 0%nat.
Qed.

(** A set consumes its header at least. *)
Lemma flowset_progress ctx d version s :
  state_ok s -> 4 <= len (payload s) ->
  exists fs err o rest,
    DecodeMessageCommonFlowSet ctx d version s = (Ok (fs, err), {| payload := rest; store := o |}) /\
    store_step ctx version d (store s) o /\ flowset_typed fs /\ is_bytes rest /\ len rest + 4 <= len (payload s).
Proof.
  intros Hok Hlen. destruct (split_header (payload s)) as (id & l & body & Hid & Hl & Hp); [apply Hok|done|].
  destruct (flowset_step ctx d version id l body s Hok Hid Hl Hp) as (fs & err & o & Heq & Hstep & Hfs).
  destruct (set_rest_suffix version id l body) as [k Hk].
  exists fs, err, o, (set_rest version id l body). splits; [done|done|done|..].
  - rewrite Hk. destruct Hok as [Hb _]. rewrite Hp in Hb. apply is_bytes_app in Hb as [_ Hb].
    apply is_bytes_app in Hb as [_ Hb]. by apply is_bytes_take_drop.
  - rewrite Hk, Hp. golen. unfold len. rewrite length_drop. lia.
Qed.

(** ** The message loop *)

Lemma state_ok_step ctx v d s rest o :
  state_ok s -> is_bytes rest -> store_step ctx v d (store s) o ->
  state_ok {| payload := rest; store := o |}.
Proof.
  intros [_ Hst] Hb Hstep. split; [done|]. cbn. intros st ->.
  destruct (store s) as [a|]; [|done]. apply Hstep. by apply Hst.
Qed.

Lemma commonLoop_returns ctx d size version start fuel read fss err s :
  state_ok s -> (length (payload s) < fuel)%nat -> Forall flowset_typed fss ->
  exists l e s', commonLoop fuel ctx d size version start read fss err s = (Ok (l, e), s') /\
    state_ok s' /\ store_step ctx version d (store s) (store s') /\ Forall flowset_typed l.
Proof.
  revert read fss err s. induction fuel as [|fuel IH]; intros read fss err s Hok Hf Hfss; [lia|].
  cbn [commonLoop]. unfold headerSize. destruct (Z.leb_spec 4 (len (payload s))); cbn [andb].
  2:{ do 3 eexists. splits; [reflexivity|done|reflexivity|done]. }
  destruct ((version =? 9) || (to_uint 16 read <? size)).
  2:{ do 3 eexists. splits; [reflexivity|done|reflexivity|done]. }
  destruct (flowset_progress ctx d version s Hok) as (fs & lerr & o & rest & Heq & Hstep & Hfs & Hb & Hlen); [done|].
  assert (Hsnoc : Forall flowset_typed (fss ++ [fs])) by (apply Forall_app; auto).
  rewrite Heq. pose proof (state_ok_step _ _ _ _ _ _ Hok Hb Hstep) as Hok'.
  assert (forall read err, exists l e s',
    commonLoop fuel ctx d size version start read (fss ++ [fs]) err {| payload := rest; store := o |} = (Ok (l, e), s') /\
    state_ok s' /\ store_step ctx version d (store s) (store s') /\ Forall flowset_typed l) as Hnext.
  { intros read' err'. destruct (IH read' (fss ++ [fs]) err' _ Hok') as (l & e & s' & Hl & Hs' & Hst & Hty).
    { cbn [payload]. unfold len in *. lia. }
    { done. }
    exists l, e, s'. splits; [done|done| |done]. by etrans. }
  destruct lerr as [e|]; [destruct (errors_Is_TemplateNotFound e)|]; [apply Hnext| |apply Hnext].
  do 3 eexists. splits; [reflexivity|done|done|done].
Qed.

Lemma DecodeMessageCommon_returns ctx d size version s :
  state_ok s ->
  exists l e s', DecodeMessageCommon ctx d size version s = (Ok (l, e), s') /\
    state_ok s' /\ store_step ctx version d (store s) (store s') /\ Forall flowset_typed l.
Proof. intros Hok. apply commonLoop_returns; [done|lia|done]. Qed.

(** For NetFlow v9, what was decoded before does not change what is decoded next. *)
Lemma commonLoop_prefix ctx d size st1 st2 f1 f2 r1 r2 fss err0 err s :
  state_ok s -> (length (payload s) < f1)%nat -> (length (payload s) < f2)%nat ->
  exists l e e' s',
    commonLoop f1 ctx d size 9 st1 r1 [] err0 s = (Ok (l, e), s') /\
    commonLoop f2 ctx d size 9 st2 r2 fss err s = (Ok (fss ++ l, e'), s') /\
    (is_Some err -> is_Some e').
Proof.
  assert (forall f1 f2 r1 r2 pre fss err0 err s, state_ok s ->
    (length (payload s) < f1)%nat -> (length (payload s) < f2)%nat ->
    exists l e e' s',
      commonLoop f1 ctx d size 9 st1 r1 pre err0 s = (Ok (pre ++ l, e), s') /\
      commonLoop f2 ctx d size 9 st2 r2 fss err s = (Ok (fss ++ l, e'), s') /\
      (is_Some err -> is_Some e')) as Hgen.
  2:{ intros Hok H1 H2. apply (Hgen f1 f2 r1 r2 [] fss err0 err s Hok H1 H2). }
  clear. induction f1 as [|f1 IH]; intros f2 r1 r2 pre fss err0 err s Hok H1 H2; [lia|].
  destruct f2 as [|f2]; [lia|]. cbn [commonLoop].
  unfold headerSize. destruct (Z.leb_spec 4 (len (payload s))); cbn [andb Z.eqb Pos.eqb orb].
  2:{ exists []. rewrite !app_nil_r. do 3 eexists. splits; [reflexivity|reflexivity|].
      intros [e ->]. simpl. eauto. }
  destruct (flowset_progress ctx d 9 s Hok) as (fs & lerr & o & rest & Heq & Hstep & _ & Hb & Hlen); [done|].
  rewrite Heq. pose proof (state_ok_step _ _ _ _ _ _ Hok Hb Hstep) as Hok'.
  assert (forall r1 r2 err0 err1, (is_Some err -> is_Some err1) -> exists l e e' s',
    commonLoop f1 ctx d size 9 st1 r1 (pre ++ [fs]) err0 {| payload := rest; store := o |}
      = (Ok (pre ++ l, e), s') /\
    commonLoop f2 ctx d size 9 st2 r2 (fss ++ [fs]) err1 {| payload := rest; store := o |}
      = (Ok (fss ++ l, e'), s') /\ (is_Some err -> is_Some e')) as Hnext.
  { intros r1' r2' err0' err1 Herr.
    destruct (IH f2 r1' r2' (pre ++ [fs]) (fss ++ [fs]) err0' err1 _ Hok') as (l & e & e' & s' & E1 & E2 & E3);
      [cbn [payload]; unfold len in *; lia..|].
    exists (fs :: l), e, e', s'. rewrite <- !app_assoc in E1, E2. splits; auto. }
  destruct lerr as [e|]; [destruct (errors_Is_TemplateNotFound e)|].
  - apply Hnext. intros _. by eexists.
  - exists []. rewrite !app_nil_r. do 3 eexists. splits; [reflexivity|reflexivity|]. eauto.
  - by apply Hnext.
Qed.

Lemma DecodeMessageCommonFlowSet_missing ctx d version id length body s st :
  u16 id -> u16 length -> 256 <= id -> 4 <= length ->
  payload s = be_put 2 id ++ be_put 2 length ++ body ->
  store s = Some st -> template_view st ctx version d id = None ->
  exists st',
    DecodeMessageCommonFlowSet ctx d version s =
      (Ok (FS_Raw (Val {| Header := {| Id := id; fsLength := length |};
                          Records := take (Z.to_nat (length - 4)) body |}),
           Some (FlowError version "Decode" d id ErrorTemplateNotFound)),
       {| payload := drop (Z.to_nat (length - 4)) body; store := Some st' |}) /\
    view_equiv st st'.
Proof.
  intros Hid Hl Hge Hl4 Hp Hst Hmiss. unfold DecodeMessageCommonFlowSet.
  destruct (GetTemplate_step ctx version d id st) as (r & b & Hget & Hab & Hr).
  rewrite Hmiss in Hr. subst r. exists b. split; [|done].
  unfold bind at 1, attempt.
  erewrite (on_payload_reads _ (be_put 2 id ++ be_put 2 length ++ []));
    [|apply reads_errctx; read_steps; apply reads_ret|by rewrite <- !app_assoc].
  cbn [Id fsLength]. unfold headerSize.
  destruct (Z.ltb_spec (length - 4) 0); [lia|].
  destruct (Z.eqb_spec id 0); [lia|]. destruct (Z.eqb_spec id 1); [lia|].
  destruct (Z.eqb_spec id 2); [lia|]. destruct (Z.eqb_spec id 3); [lia|]. cbn [andb].
  destruct (Z.leb_spec 256 id); [|lia].
  unfold decodeData, bind at 1. rewrite on_payload_Next by done.
  unfold bind at 1, get. cbn [store payload]. rewrite Hst.
  unfold bind, attempt, on_store. cbn [store payload Id]. rewrite Hget. reflexivity.
Qed.
End messages.

(** ** Properties *)

Lemma wp_on_payload {S A} (m : M A) (Q : A -> DState S -> Prop) E (s : DState S) :
  wp m (fun a b' => Q a {| payload := b'; store := store s |})
       (fun e b' => E e {| payload := b'; store := store s |}) (payload s) ->
  wp (on_payload m) Q E s.
Proof. unfold wp, on_payload. by destruct (m (payload s)) as [[] ?]. Qed.

(** The packet of either version, its data typed. *)
Definition nf_typed (p : NFv9Packet + IPFIXPacket) : Prop :=
  Forall flowset_typed (match p with inl p => v9FlowSets p | inr p => ipfixFlowSets p end).

Lemma wp_DecodeMessageVersion_nf {S : Type} `{TemplateStoreSpec S} (ctx : FlowContext) (s : DState S) :
  state_ok s ->
  wp (DecodeMessageVersion ctx)
    (fun r s' => (state_ok s' /\ exists v d, store_step ctx v d (store s) (store s')) /\ nf_typed (fst r))
    (fun _ s' => state_ok s' /\ exists v d, store_step ctx v d (store s) (store s')) s.
Proof.
  intros Hok.
  destruct Hok as [Hb Hst].
  assert (forall b, is_bytes b ->
    state_ok {| payload := b; store := store s |} /\ exists v d, store_step ctx v d (store s) (store s)) as Hhdr.
  { intros b Hb'. split; [done|]. exists 0, 0. reflexivity. }
  unfold DecodeMessageVersion. apply wp_bind, wp_errctx, wp_on_payload, wp_BinaryDecoder; [done|done| |].
  2:{ intros _. apply Hhdr. constructor. }
  intros version b0 _ _ Hb0. destruct (version =? 9); [|destruct (version =? 10)].
  - apply wp_bind, wp_errctx. unfold DecodeMessageNetFlow. apply wp_bind, wp_errctx, wp_on_payload.
    do 5 (let v := fresh "v" in let b' := fresh "b" in wp_in v b'; [|apply Hhdr; constructor]).
    apply wp_ret. cbn beta iota. apply wp_bind. unfold wp at 1. cbn [store].
    destruct (DecodeMessageCommon_returns ctx v3 v 9 {| payload := b4; store := store s |})
      as (l & e & s' & -> & Hs' & Hstep & Hl); [by apply Hhdr|].
    apply wp_ret. apply wp_ret. eauto 6.
  - apply wp_bind, wp_errctx. unfold DecodeMessageIPFIX. apply wp_bind, wp_errctx, wp_on_payload.
    do 4 (let v := fresh "v" in let b' := fresh "b" in wp_in v b'; [|apply Hhdr; constructor]).
    apply wp_ret. cbn beta iota. apply wp_bind. unfold wp at 1. cbn [store].
    destruct (DecodeMessageCommon_returns ctx v2 (to_uint 16 (v - 16)) 10 {| payload := b3; store := store s |})
      as (l & e & s' & -> & Hs' & Hstep & Hl); [by apply Hhdr|].
    apply wp_ret. apply wp_ret. eauto 6.
  - apply wp_fail. by apply Hhdr.
Qed.


(** Framing.  Whatever a set contains, decoding it consumes exactly the length its
    header announces (or what is left of the datagram) when the length is at least 4 and the
    id is known to the version, and exactly the header otherwise; templates of other routers,
    versions and domains are untouched. *)
Theorem nf_set_framing {S : Type} `{TemplateStoreSpec S} (ctx : FlowContext) (d version id length : Z)
    (body : bytes) (s : DState S) :
  state_ok s -> u16 id -> u16 length -> payload s = be_put 2 id ++ be_put 2 length ++ body ->
  exists fs err s', DecodeMessageCommonFlowSet ctx d version s = (Ok (fs, err), s') /\
    payload s' = set_rest version id length body /\ store_step ctx version d (store s) (store s').
Proof.
  intros Hok Hid Hl Hp. destruct (flowset_step ctx d version id length body s Hok Hid Hl Hp)
    as (fs & err & o & Heq & Hstep & _). eauto 6.
Qed.

(** An unknown template is a soft error.  In a NetFlow v9 message, a data set whose
    template is not in the store is kept as a [RawFlowSet] holding its bytes, the decoding of
    the sets that follow is the one of a message that starts there, and an error is reported in
    the end. *)
Theorem nf_unknown_template_soft {S : Type} `{TemplateStoreSpec S} (ctx : FlowContext)
    (d size id length : Z) (body : bytes) (s : DState S) (st : S) :
  state_ok s -> u16 id -> u16 length -> 256 <= id -> 4 <= length ->
  payload s = be_put 2 id ++ be_put 2 length ++ body ->
  store s = Some st -> template_view st ctx 9 d id = None ->
  exists st' l e e' s',
    view_equiv st st' /\
    DecodeMessageCommon ctx d size 9
      {| payload := drop (Z.to_nat (length - 4)) body; store := Some st' |} = (Ok (l, e), s') /\
    DecodeMessageCommon ctx d size 9 s =
      (Ok (FS_Raw (Val {| Header := {| Id := id; fsLength := length |};
                          Records := take (Z.to_nat (length - 4)) body |}) :: l, Some e'), s').
Proof.
  intros Hok Hid Hl Hge Hl4 Hp Hst Hmiss.
  destruct (DecodeMessageCommonFlowSet_missing ctx d 9 id length body s st Hid Hl Hge Hl4 Hp Hst Hmiss)
    as (st' & Heq & Hview).
  set (s1 := {| payload := drop (Z.to_nat (length - 4)) body; store := Some st' |}) in *.
  set (raw := FS_Raw _) in Heq.
  assert (state_ok s1) as Hok1.
  { apply (state_ok_step ctx 9 d s); [done| |rewrite Hst; by apply view_equiv_step].
    destruct Hok as [Hb _]. rewrite Hp in Hb. apply is_bytes_app in Hb as [_ Hb].
    apply is_bytes_app in Hb as [_ Hb]. by apply is_bytes_take_drop. }
  unfold DecodeMessageCommon at 2. cbn [commonLoop]. unfold headerSize.
  assert (4 <= len (payload s)) as Hlen by (rewrite Hp; golen).
  destruct (Z.leb_spec 4 (len (payload s))); [|lia]. cbn [andb Z.eqb Pos.eqb orb].
  rewrite Heq. cbn [errors_Is_TemplateNotFound FlowError].
  destruct (commonLoop_prefix ctx d size (len (payload s1)) (len (payload s))
    (Datatypes.S (Datatypes.length (payload s1))) (Datatypes.length (payload s)) 0
    (len (payload s) - len (payload s1)) [raw] None
    (Some (errors_Join None (FlowError 9 "Decode" d id ErrorTemplateNotFound))) s1 Hok1)
    as (l & e & e' & s' & E1 & E2 & E3); [lia| |].
  { cbn [payload s1]. rewrite Hp. rewrite !length_app, !length_be_put, length_drop. lia. }
  destruct (E3 ltac:(by eexists)) as [e'' ->].
  exists st', l, e, e'', s'. splits; [done|exact E1|exact E2].
Qed.

(** What is decoded is well-formed: the counts in the header of every template equal the
    number of its fields (an NFv9 options template: the length in bytes divided by 4), ids and
    lengths fit their types, and the enterprise bit is never left in a type.  A set never
    yields more records than it has bytes. *)
Theorem nf_templates_wellformed (version : Z) (b : bytes) :
  is_bytes b ->
  (exists l e b', DecodeTemplateSet version b = (Ok (l, e), b') /\
     Forall (template_ok version) l /\ (length l <= length b)%nat) /\
  (exists l e b', DecodeNFv9OptionsTemplateSet b = (Ok (l, e), b') /\
     Forall v9options_ok l /\ (length l <= length b)%nat) /\
  (exists l e b', DecodeIPFIXOptionsTemplateSet b = (Ok (l, e), b') /\
     Forall ipfixoptions_ok l /\ (length l <= length b)%nat).
Proof.
  intros Hb. splits.
  - by apply returns_DecodeTemplateSet.
  - by apply returns_DecodeNFv9OptionsTemplateSet.
  - by apply returns_DecodeIPFIXOptionsTemplateSet.
Qed.

(** ** Sample datagrams *)

(** An exporter's first message: a template set, a data set of an unknown template 300, and a
    data set of the template. *)
Definition sample_template : TemplateRecord :=
  {| TemplateId := 256; FieldCount := 2;
     Fields := [{| PenProvided := false; Type_ := 8; Length := 4; Pen := 0 |};
                {| PenProvided := false; Type_ := 7; Length := 2; Pen := 0 |}] |}.

Definition sample_template_set : bytes := [0;0; 0;16; 1;0; 0;2; 0;8; 0;4; 0;7; 0;2].
Definition sample_unknown_set : bytes := [1;44; 0;8; 1;2;3;4].
Definition sample_data_set : bytes := [1;0; 0;12; 10;0;0;1; 0;80; 0;0].

Definition sample_datagram : bytes :=
  [0;9; 0;3; 0;0;1;0; 0;0;2;0; 0;0;0;7; 0;0;0;1] ++
  sample_template_set ++ sample_unknown_set ++ sample_data_set.

Definition sample_ctx : FlowContext := {| RouterKey := "router"%string |}.

Definition sample_state : DState RefStore :=
  {| payload := sample_datagram; store := Some (∅ : RefStore) |}.

Lemma empty_store_ok b : is_bytes b -> state_ok (S := RefStore) {| payload := b; store := Some ∅ |}.
Proof. intros Hb. split; [exact Hb|]. by intros st [= <-] ctx v d t tpl Ht. Qed.


Lemma nf_set_framing_witness :
  let s := {| payload := sample_unknown_set ++ sample_data_set; store := Some (∅ : RefStore) |} in
  exists fs err s', DecodeMessageCommonFlowSet sample_ctx 1 9 s = (Ok (fs, err), s') /\
    payload s' = set_rest 9 300 8 ([1;2;3;4] ++ sample_data_set) /\
    store_step sample_ctx 9 1 (store s) (store s').
Proof.
  apply (nf_set_framing sample_ctx 1 9 300 8 ([1;2;3;4] ++ sample_data_set)).
  - by apply empty_store_ok, is_bytes_by_test.
  - by split.
  - by split.
  - reflexivity.
Defined.

Lemma nf_unknown_template_soft_witness :
  exists st' l e e' s',
    view_equiv (∅ : RefStore) st' /\
    DecodeMessageCommon sample_ctx 1 0 9
      {| payload := drop (Z.to_nat (8 - 4)) ([1;2;3;4] ++ sample_data_set); store := Some st' |}
      = (Ok (l, e), s') /\
    DecodeMessageCommon sample_ctx 1 0 9
      {| payload := sample_unknown_set ++ sample_data_set; store := Some (∅ : RefStore) |} =
      (Ok (FS_Raw (Val {| Header := {| Id := 300; fsLength := 8 |};
             Records := take (Z.to_nat (8 - 4)) ([1;2;3;4] ++ sample_data_set) |}) :: l, Some e'), s').
Proof.
  apply (nf_unknown_template_soft sample_ctx 1 0 300 8 ([1;2;3;4] ++ sample_data_set)
    {| payload := sample_unknown_set ++ sample_data_set; store := Some (∅ : RefStore) |} ∅).
  - by apply empty_store_ok, is_bytes_by_test.
  - by split.
  - by split.
  - lia.
  - lia.
  - reflexivity.
  - reflexivity.
  - reflexivity.
Defined.

Lemma nf_templates_wellformed_witness :
  let b := drop 4 sample_template_set in
  (exists l e b', DecodeTemplateSet 9 b = (Ok (l, e), b') /\
     Forall (template_ok 9) l /\ (length l <= length b)%nat) /\
  (exists l e b', DecodeNFv9OptionsTemplateSet b = (Ok (l, e), b') /\
     Forall v9options_ok l /\ (length l <= length b)%nat) /\
  (exists l e b', DecodeIPFIXOptionsTemplateSet b = (Ok (l, e), b') /\
     Forall ipfixoptions_ok l /\ (length l <= length b)%nat).
Proof. apply (nf_templates_wellformed 9 (drop 4 sample_template_set)). by apply is_bytes_by_test. Defined.
