(* ===== verification/NetflowRoundtrip.v ===== *)
(** * decoders/netflow: decoding inverts encoding

    Wire layout of templates, records, sets and messages; the encoder produces it and the
    decoder reads it back, the template map of the encoder and the template store of the
    decoder being kept in step. *)
From S2P Require Import Prelude DecodersUtils NetflowTypes NetflowDecode NetflowEncode NetflowSafety.

(** ** Templates *)

Definition field_bytes (pen : bool) (f : Field) : bytes :=
  be_put 2 (if pen && PenProvided f then Z.lor (Type_ f) 0x8000 else Type_ f) ++
  be_put 2 (Length f) ++ (if pen && PenProvided f then be_put 4 (Pen f) else []).

Lemma writes_encodeField pen f : writes (encodeField pen f) (field_bytes pen f).
Proof.
  unfold encodeField, field_bytes. do 2 write_step.
  destruct (pen && PenProvided f); auto with writes.
Qed.
#[export] Hint Resolve writes_encodeField : writes.

Lemma lor_pen_bit ty : 0 <= ty < 0x8000 -> Z.lor ty 0x8000 = ty + 0x8000.
Proof.
  intros H. rewrite Z.lor_comm. change 0x8000 with (Z.shiftl 1 15).
  rewrite lor_shiftl_low by lia. change (Z.shiftl 1 15) with 0x8000. lia.
Qed.

(** The field readers of template sets and of options template sets share their tail. *)
Lemma reads_field_tail pen f g1 g2 :
  field_ok pen f ->
  reads (let* (ty, l) := errctx g1
           (let* ty := BinaryDecoder D_uint16 in
            let* l := BinaryDecoder D_uint16 in ret (ty, l)) in
         if pen && negb (Z.land ty penBit =? 0) then
           let* p := errctx g2 (BinaryDecoder D_uint32) in
           ret {| PenProvided := true; Type_ := Z.lxor ty penBit; Length := l; Pen := p |}
         else ret {| PenProvided := false; Type_ := ty; Length := l; Pen := 0 |})
    (field_bytes pen f) f.
Proof.
  intros (Hty & Hl & Hp & Hlow & Hpen & Hno). unfold field_bytes.
  assert (forall ty rest (m : Z -> Z -> M Field), u16 ty -> reads (m ty (Length f)) rest f ->
    reads (let* (ty, l) := errctx g1
             (let* ty := BinaryDecoder D_uint16 in
              let* l := BinaryDecoder D_uint16 in ret (ty, l)) in m ty l)
      (be_put 2 ty ++ be_put 2 (Length f) ++ rest) f) as Hhdr.
  { intros ty rest m Hty' Hm. rewrite (app_assoc (be_put 2 ty)).
    apply (reads_bind _ _ _ _ (ty, Length f)); [|exact Hm].
    apply reads_errctx. rewrite <- (app_nil_r (be_put 2 (Length f))). read_steps. apply reads_ret. }
  destruct f as [provided ty l p]; cbn [PenProvided Type_ Length Pen] in *.
  destruct provided.
  - rewrite (Hpen eq_refl) in *. specialize (Hlow eq_refl). cbn [andb]. unfold uint in Hty.
    rewrite lor_pen_bit by lia.
    assert (u16 (ty + 0x8000)) as Hu by (unfold uint; lia).
    apply (Hhdr _ _ (fun ty l => if true && negb (Z.land ty penBit =? 0) then _ else _)); [done|].
    assert (Z.land (ty + 0x8000) penBit <> 0) as Hbit by (rewrite pen_bit_clear by done; lia).
    apply Z.eqb_neq in Hbit as Hbit'. rewrite Hbit'. cbn [andb negb].
    apply pen_bit_set in Hbit as [_ ->]; [|done]. rewrite <- (app_nil_r (be_put 4 p)).
    eapply reads_bind; [apply reads_errctx; auto with reads|].
    replace (ty + 0x8000 - 0x8000) with ty by lia. apply reads_ret.
  - rewrite andb_false_r. apply (Hhdr ty [] (fun ty l => if pen && negb (Z.land ty penBit =? 0) then _ else _)); [done|].
    rewrite (Hno eq_refl). destruct pen; [|apply reads_ret].
    specialize (Hlow eq_refl). apply pen_bit_clear in Hlow; [|done]. rewrite Hlow. apply reads_ret.
Qed.

Lemma reads_DecodeField pen f : field_ok pen f -> reads (DecodeField pen) (field_bytes pen f) f.
Proof. apply reads_field_tail. Qed.

Lemma reads_decodeTemplateField version f :
  field_ok (version =? 10) f -> reads (decodeTemplateField version) (field_bytes (version =? 10) f) f.
Proof. apply reads_field_tail. Qed.

(** A counted sequence of fields. *)
Lemma reads_fields (n : Z) (l : list Field) pen (m : Z -> M Field) :
  n = len l -> Forall (field_ok pen) l ->
  (forall j f, field_ok pen f -> reads (m j) (field_bytes pen f) f) ->
  reads (forM (Z.to_nat n) 0 m) (flat_map (field_bytes pen) l) l.
Proof.
  intros -> Hl Hm. unfold len. rewrite Nat2Z.id. rewrite <- (map_id l) at 3.
  apply (reads_forM l 0 m (field_bytes pen) (fun f => f)). intros j f Hf. apply Hm.
  by apply (proj1 (Forall_forall _ _) Hl).
Qed.

Definition template_bytes (version : Z) (r : TemplateRecord) : bytes :=
  be_put 2 (TemplateId r) ++ be_put 2 (FieldCount r) ++
  flat_map (field_bytes (version =? 10)) (Fields r).

Definition v9options_bytes (r : NFv9OptionsTemplateRecord) : bytes :=
  be_put 2 (v9TemplateId r) ++ be_put 2 (ScopeLength r) ++ be_put 2 (OptionLength r) ++
  flat_map (field_bytes false) (v9Scopes r) ++ flat_map (field_bytes false) (v9Options r).

Definition ipfixoptions_bytes (r : IPFIXOptionsTemplateRecord) : bytes :=
  be_put 2 (ipfixTemplateId r) ++ be_put 2 (ipfixFieldCount r) ++ be_put 2 (ScopeFieldCount r) ++
  flat_map (field_bytes true) (ipfixScopes r) ++ flat_map (field_bytes true) (ipfixOptions r).

(** A count that is the actual one is kept, whether or not it is zero. *)
Lemma count_kept c n : c = n -> 0 <= n < 2 ^ 16 -> (if c =? 0 then to_uint 16 n else c) = n.
Proof. intros -> Hn. destruct (Z.eqb_spec n 0) as [->|]; done. Qed.

Lemma writes_encodeTemplateRecord version r :
  template_ok version r -> writes (encodeTemplateRecord version r) (template_bytes version r).
Proof.
  intros (Ht & Hc & Hcount & _). unfold encodeTemplateRecord, template_bytes.
  rewrite (count_kept _ (len (Fields r))) by (rewrite <- ?Hc; done).
  rewrite Z.eqb_refl. cbn [negb]. rewrite Hc. write_steps.
  apply writes_rangeM. intros. apply writes_encodeField.
Qed.

Lemma reads_decodeTemplate version r :
  template_ok version r -> reads (decodeTemplate version) (template_bytes version r) r.
Proof.
  intros (Ht & Hc & Hcount & Hf). unfold decodeTemplate, template_bytes.
  rewrite app_assoc. eapply reads_bind.
  { apply reads_errctx. rewrite <- (app_nil_r (be_put 2 (FieldCount r))). read_steps. apply reads_ret. }
  cbn beta iota. destruct Hcount as [Hc0 _]. destruct (Z.ltb_spec (FieldCount r) 0); [lia|].
  apply reads_makeslice; [done|]. rewrite <- (app_nil_r (flat_map _ _)). eapply reads_bind.
  { apply reads_fields; [done|done|]. intros _. apply reads_decodeTemplateField. }
  destruct r. apply reads_ret.
Qed.

Lemma writes_fields pen l : writes (rangeM l (encodeField pen)) (flat_map (field_bytes pen) l).
Proof. apply writes_rangeM. intros. apply writes_encodeField. Qed.
#[export] Hint Resolve writes_fields : writes.

Lemma writes_encodeNFv9OptionsTemplateRecord r :
  v9options_ok r -> writes (encodeNFv9OptionsTemplateRecord r) (v9options_bytes r).
Proof.
  intros (Ht & Hs & Ho & Hns & Hno & _). unfold encodeNFv9OptionsTemplateRecord, v9options_bytes.
  assert (forall c n, u16 c -> n = c / 4 -> (if c =? 0 then to_uint 16 (n * 4) else c) = c) as Hkeep.
  { intros c n Hc ->. destruct (Z.eqb_spec c 0) as [->|]; done. }
  rewrite (Hkeep (ScopeLength r)), (Hkeep (OptionLength r)) by done.
  unfold uint in Hs, Ho. rewrite !Z.quot_div_nonneg by lia. rewrite Hns, Hno, !Z.eqb_refl. cbn [negb].
  write_steps. apply writes_fields.
Qed.

Lemma reads_decodeNFv9OptionsTemplate r :
  v9options_ok r -> reads decodeNFv9OptionsTemplate (v9options_bytes r) r.
Proof.
  intros (Ht & Hs & Ho & Hns & Hno & Hfs & Hfo). unfold decodeNFv9OptionsTemplate, v9options_bytes.
  rewrite (app_assoc (be_put 2 (ScopeLength r))), (app_assoc (be_put 2 (v9TemplateId r))).
  eapply reads_bind.
  { apply reads_errctx. rewrite <- (app_nil_r (be_put 2 (OptionLength r))). read_steps. apply reads_ret. }
  cbn beta iota zeta. pose proof (len_nonneg (v9Scopes r)). pose proof (len_nonneg (v9Options r)).
  unfold uint in Hs, Ho. rewrite !Z.quot_div_nonneg by lia. rewrite <- Hns, <- Hno.
  destruct (Z.ltb_spec (len (v9Scopes r)) 0); [lia|]. destruct (Z.ltb_spec (len (v9Options r)) 0); [lia|].
  cbn [orb]. apply reads_makeslice; [done|]. eapply reads_bind.
  { apply reads_fields; [done|done|]. intros j f Hf. apply reads_errctx. by apply reads_DecodeField. }
  apply reads_makeslice; [done|]. rewrite <- (app_nil_r (flat_map _ (v9Options r))). eapply reads_bind.
  { apply reads_fields; [done|done|]. intros j f Hf. apply reads_errctx. by apply reads_DecodeField. }
  destruct r. apply reads_ret.
Qed.

Lemma writes_encodeIPFIXOptionsTemplateRecord r :
  ipfixoptions_ok r -> writes (encodeIPFIXOptionsTemplateRecord r) (ipfixoptions_bytes r).
Proof.
  intros (Ht & Hf & Hs & Hns & Hn & _). unfold encodeIPFIXOptionsTemplateRecord, ipfixoptions_bytes.
  rewrite Hn, Hns. cbv zeta. rewrite count_kept by done.
  assert ((if (ScopeFieldCount r =? 0) && (0 <? ScopeFieldCount r)
           then to_uint 16 (ScopeFieldCount r) else ScopeFieldCount r) = ScopeFieldCount r) as ->.
  { destruct (Z.eqb_spec (ScopeFieldCount r) 0) as [->|]; done. }
  rewrite !Z.eqb_refl. cbn [negb]. write_steps. apply writes_fields.
Qed.

Lemma reads_decodeIPFIXOptionsTemplate r :
  ipfixoptions_ok r -> reads decodeIPFIXOptionsTemplate (ipfixoptions_bytes r) r.
Proof.
  intros (Ht & Hf & Hs & Hns & Hn & Hfs & Hfo). unfold decodeIPFIXOptionsTemplate, ipfixoptions_bytes.
  rewrite (app_assoc (be_put 2 (ipfixFieldCount r))), (app_assoc (be_put 2 (ipfixTemplateId r))).
  eapply reads_bind.
  { apply reads_errctx. rewrite <- (app_nil_r (be_put 2 (ScopeFieldCount r))). read_steps. apply reads_ret. }
  cbn beta iota zeta. pose proof (len_nonneg (ipfixOptions r)).
  apply reads_makeslice; [apply Hs|]. eapply reads_bind.
  { apply reads_fields; [done|done|]. intros j f Hf'. apply reads_errctx. by apply reads_DecodeField. }
  cbn beta zeta. replace (ipfixFieldCount r - ScopeFieldCount r) with (len (ipfixOptions r)) by lia.
  destruct (Z.ltb_spec (len (ipfixOptions r)) 0); [lia|].
  apply reads_makeslice; [done|]. rewrite <- (app_nil_r (flat_map _ (ipfixOptions r))). eapply reads_bind.
  { apply reads_fields; [done|done|]. intros j f Hf'. apply reads_errctx. by apply reads_DecodeField. }
  destruct r. apply reads_ret.
Qed.

(** ** Padding *)

(** The number of padding bytes of a set with this payload. *)
Definition padding (payload : bytes) : Z := Z.rem (4 - Z.rem (flowSetHeaderLen + len payload) 4) 4.

Lemma padding_mod payload : padding payload = (- len payload) mod 4.
Proof.
  unfold padding, flowSetHeaderLen. pose proof (len_nonneg payload).
  rewrite (Z.rem_mod_nonneg (4 + len payload)) by lia.
  pose proof (Z.mod_pos_bound (4 + len payload) 4 ltac:(lia)).
  rewrite Z.rem_mod_nonneg by lia. rewrite Zminus_mod_idemp_r.
  replace (4 - (4 + len payload)) with (- len payload) by lia. done.
Qed.

Lemma pad_eq payload :
  padFlowSetPayload payload = payload ++ replicate (Z.to_nat (padding payload)) 0.
Proof.
  unfold padFlowSetPayload. fold (padding payload).
  destruct (Z.eqb_spec (padding payload) 0) as [->|]; [by rewrite app_nil_r|done].
Qed.

(** A padded set is a multiple of four bytes long. *)
Lemma len_pad payload :
  len (padFlowSetPayload payload) = len payload + padding payload /\
  0 <= padding payload < 4 /\ len (padFlowSetPayload payload) mod 4 = 0.
Proof.
  rewrite pad_eq, padding_mod. pose proof (Z.mod_pos_bound (- len payload) 4 ltac:(lia)).
  rewrite len_app, len_replicate, Z2Nat.id by lia. splits; try lia.
  rewrite Zplus_mod_idemp_r. replace (len payload + - len payload) with 0 by lia. done.
Qed.

Lemma length_flat_map_ge {A} (enc : A -> bytes) l :
  (forall x, x ∈ l -> 0 < len (enc x)) -> (length l <= length (flat_map enc l))%nat.
Proof.
  induction l as [|x l IH]; intros Hx; simpl; [lia|].
  rewrite length_app. specialize (IH ltac:(set_solver)).
  specialize (Hx x ltac:(set_solver)). unfold len in Hx. lia.
Qed.

(** A set decoder reads a padded sequence of records back. *)
Lemma decode_padded {A} more (one : M A) (enc : A -> bytes) (l : list A) :
  (forall x, x ∈ l -> 0 < len (enc x) /\ reads one (enc x) x) ->
  (forall x rest, x ∈ l -> more (enc x ++ rest) = true) ->
  more (replicate (Z.to_nat (padding (flat_map enc l))) 0) = false ->
  let b := padFlowSetPayload (flat_map enc l) in
  exists p, loopM (S (length b)) more one b = (Ok (l, None), p).
Proof.
  intros Hone Hmore Hpad b. subst b. rewrite pad_eq. eexists.
  etrans; [apply (reads_loopM l _ more one enc (fun x => x))|by rewrite map_id].
  - rewrite length_app. pose proof (length_flat_map_ge enc l ltac:(intros; by apply Hone)). lia.
  - exact Hmore.
  - intros x Hx. by apply Hone.
  - exact Hpad.
Qed.

(** ** Values *)

(** A value that can be encoded under the field [f] of a template. *)
Definition value_ok (f : Field) (d : DataField) : Prop :=
  dPenProvided d = PenProvided f /\ dType d = Type_ f /\ dPen d = Pen f /\ dLength d = 0 /\
  exists b, dValue d = VBytes b /\ is_bytes b /\
    (if Length f =? 0xffff then len b <= 0xffff else len b = Length f).

Definition length_prefix (f : Field) (n : Z) : bytes :=
  if Length f =? 0xffff then (if n <? 255 then [n] else [0xff] ++ be_put 2 n) else [].

Definition value_bytes (f : Field) (d : DataField) : bytes :=
  match dValue d with
  | VBytes b => length_prefix f (len b) ++ b
  | _ => []
  end.

Fixpoint values_bytes (fs : list Field) (ds : list DataField) : bytes :=
  match fs, ds with
  | f :: fs', d :: ds' => value_bytes f d ++ values_bytes fs' ds'
  | _, _ => []
  end.

Lemma writes_encodeDataFieldValue f d :
  value_ok f d -> writes (encodeDataFieldValue d (Some f)) (value_bytes f d).
Proof.
  intros (_ & _ & _ & _ & b & Hv & Hb & Hl). unfold encodeDataFieldValue, value_bytes, length_prefix.
  rewrite Hv. cbn [asBytes]. pose proof (len_nonneg b). destruct (Length f =? 0xffff).
  - destruct (Z.ltb_spec 0xffff (len b)); [lia|]. apply writes_bind; [|apply writes_Write].
    destruct (Z.ltb_spec (len b) 255).
    + rewrite to_uint_small by (split; lia). apply writes_u8.
    + rewrite to_uint_small by (split; lia). apply writes_bind; [apply writes_u8|apply writes_u16].
  - rewrite Hl, Z.eqb_refl, andb_false_r. apply writes_Write.
Qed.

Lemma reads_decodeDataField f d : value_ok f d -> reads (decodeDataField f) (value_bytes f d) d.
Proof.
  intros (Hpp & Ht & Hp & Hl0 & b & Hv & Hb & Hl).
  unfold decodeDataField, decodeFieldLength, value_bytes, length_prefix. rewrite Hv.
  pose proof (len_nonneg b).
  apply (reads_bind _ _ _ _ (len b)).
  - destruct (Length f =? 0xffff) eqn:Hf.
    + destruct (Z.ltb_spec (len b) 255).
      * rewrite <- (app_nil_r [_]). eapply reads_bind; [apply reads_errctx, reads_u8; split; lia|].
        destruct (Z.eqb_spec (len b) 0xff); [lia|]. apply reads_ret.
      * eapply reads_bind; [apply reads_errctx, reads_u8; split; lia|].
        cbn [Z.eqb Pos.eqb]. apply reads_errctx, reads_u16. split; lia.
    + rewrite Hl. apply reads_ret.
  - rewrite <- (app_nil_r b) at 2. eapply reads_bind; [by apply reads_Next|].
    rewrite <- Hpp, <- Ht, <- Hp, <- Hl0, <- Hv. destruct d. apply reads_ret.
Qed.

Lemma writes_encodeValues fs ds :
  Forall2 value_ok fs ds -> writes (encodeValues ds (Some fs)) (values_bytes fs ds).
Proof.
  induction 1 as [|f d fs ds Hv _ IH]; [apply writes_ret|]. cbn [encodeValues values_bytes].
  apply writes_bind; [by apply writes_encodeDataFieldValue|exact IH].
Qed.

Lemma reads_decodeDataFields fs ds :
  Forall2 value_ok fs ds -> reads (decodeDataFields fs) (values_bytes fs ds) ds.
Proof.
  induction 1 as [|f d fs ds Hv _ IH]; [apply reads_ret|]. cbn [decodeDataFields values_bytes].
  eapply reads_bind; [by apply reads_decodeDataField|].
  rewrite <- (app_nil_r (values_bytes _ _)). eapply reads_bind; [exact IH|]. apply reads_ret.
Qed.

Lemma GetTemplateSize_cons version f fs :
  GetTemplateSize version (f :: fs) =
  (if Length f =? 0xffff then 0 else Length f) + GetTemplateSize version fs.
Proof.
  unfold GetTemplateSize. cbn [fold_left].
  set (step := fun sum templateField => if Length templateField =? 0xffff then sum else sum + Length templateField).
  assert (forall l a, fold_left step l a = a + fold_left step l 0) as Hacc.
  { clear. induction l as [|g l IH]; intros a; cbn [fold_left]; [lia|].
    rewrite IH, (IH (step 0 g)). unfold step at 1 3. destruct (_ =? _); lia. }
  rewrite Hacc. by destruct (_ =? _).
Qed.

Lemma GetTemplateSize_le version fs ds :
  Forall2 value_ok fs ds -> GetTemplateSize version fs <= len (values_bytes fs ds).
Proof.
  induction 1 as [|f d fs ds Hv _ IH]; [done|]. rewrite GetTemplateSize_cons.
  cbn [values_bytes]. rewrite len_app. destruct Hv as (_ & _ & _ & _ & b & Hv & _ & Hl).
  unfold value_bytes. rewrite Hv, len_app. pose proof (len_nonneg (length_prefix f (len b))).
  pose proof (len_nonneg b). destruct (Length f =? 0xffff); lia.
Qed.

Lemma reads_DecodeDataSetUsingFields version fs ds :
  Forall2 value_ok fs ds -> reads (DecodeDataSetUsingFields version fs) (values_bytes fs ds) ds.
Proof.
  intros Hv rest. unfold DecodeDataSetUsingFields, bind, Len. rewrite len_app.
  pose proof (GetTemplateSize_le version fs ds Hv). pose proof (len_nonneg rest).
  destruct (Z.leb_spec (GetTemplateSize version fs) (len (values_bytes fs ds) + len rest)); [|lia].
  by apply reads_decodeDataFields.
Qed.

(** ** Records *)

Definition data_ok (fs : list Field) (r : DataRecord) : Prop :=
  Forall2 value_ok fs (Values r) /\ 0 < len (values_bytes fs (Values r)).
Definition data_bytes (fs : list Field) (r : DataRecord) : bytes := values_bytes fs (Values r).

Definition options_ok (sc op : list Field) (r : OptionsDataRecord) : Prop :=
  Forall2 value_ok sc (ScopesValues r) /\ Forall2 value_ok op (OptionsValues r) /\
  0 < len (values_bytes sc (ScopesValues r) ++ values_bytes op (OptionsValues r)).
Definition options_bytes (sc op : list Field) (r : OptionsDataRecord) : bytes :=
  values_bytes sc (ScopesValues r) ++ values_bytes op (OptionsValues r).

Lemma Forall2_len {A B} (P : A -> B -> Prop) l k : Forall2 P l k -> len l = len k.
Proof. intros H. unfold len. by rewrite (Forall2_length _ _ _ H). Qed.

Lemma writes_encodeDataRecord t r :
  data_ok (Fields t) r -> writes (encodeDataRecord (Some (T_Template t)) r) (data_bytes (Fields t) r).
Proof.
  intros [Hv _]. unfold encodeDataRecord. cbn [templateFields].
  rewrite (Forall2_len _ _ _ Hv), Z.eqb_refl. apply writes_lift. by apply writes_encodeValues.
Qed.

Lemma reads_decodeDataRecord version fs r :
  data_ok fs r -> reads (decodeDataRecord version fs) (data_bytes fs r) r.
Proof.
  intros [Hv Hpos] rest. unfold decodeDataRecord, data_bytes in *. unfold bind at 1, Len at 1.
  unfold bind at 1, errctx. rewrite (reads_DecodeDataSetUsingFields version fs _ Hv).
  unfold bind, Len. rewrite len_app.
  destruct (Z.eqb_spec (len rest) (len (values_bytes fs (Values r)) + len rest)); [lia|].
  by destruct r.
Qed.

Lemma writes_encodeOptionsDataRecord tmpl sc op r :
  optionTemplateFields tmpl (len sc) (len op) = Ok (Some sc, Some op) ->
  options_ok sc op r -> writes (encodeOptionsDataRecord tmpl r) (options_bytes sc op r).
Proof.
  intros Ht (Hs & Ho & _). unfold encodeOptionsDataRecord.
  rewrite <- (Forall2_len _ _ _ Hs), <- (Forall2_len _ _ _ Ho), Ht. apply writes_lift.
  apply writes_bind; by apply writes_encodeValues.
Qed.

Lemma reads_decodeOptionsDataRecord version sc op r :
  options_ok sc op r -> reads (decodeOptionsDataRecord version sc op) (options_bytes sc op r) r.
Proof.
  intros (Hs & Ho & Hpos) rest. unfold decodeOptionsDataRecord, options_bytes in *.
  unfold bind at 1, Len at 1. rewrite <- app_assoc.
  unfold bind at 1, errctx at 1. rewrite (reads_DecodeDataSetUsingFields version sc _ Hs).
  unfold bind at 1, errctx at 1. rewrite (reads_DecodeDataSetUsingFields version op _ Ho).
  unfold bind, Len. rewrite !len_app in *.
  destruct (Z.eqb_spec (len rest)
    (len (values_bytes sc (ScopesValues r)) + (len (values_bytes op (OptionsValues r)) + len rest))); [lia|].
  by destruct r.
Qed.

Lemma more_data_record size bs rest : 0 < len bs -> size <= len bs -> more_data size (bs ++ rest) = true.
Proof.
  intros H1 H2. unfold more_data. rewrite len_app. pose proof (len_nonneg rest).
  apply andb_true_intro. split; [apply Z.ltb_lt|apply Z.leb_le]; lia.
Qed.

(** Padding that cannot be taken for a record: there is none, or it is shorter than any. *)
Definition padding_ok (size : Z) (payload : bytes) : Prop :=
  padding payload = 0 \/ padding payload < size.

Lemma more_data_padding size payload :
  padding_ok size payload -> more_data size (replicate (Z.to_nat (padding payload)) 0) = false.
Proof.
  intros H. unfold more_data. destruct (len_pad payload) as (_ & Hp & _).
  rewrite len_replicate, Z2Nat.id by lia. apply andb_false_iff.
  destruct H as [->|H]; [by left|right]. apply Z.leb_gt. lia.
Qed.

(** ** Flow sets *)

(** The header announces the padded payload. *)
Definition header_ok (hdr : FlowSetHeader) (id : Z) (body : bytes) : Prop :=
  Id hdr = id /\ fsLength hdr = 4 + len (padFlowSetPayload body) /\ fsLength hdr <= 0xffff.

Definition template_set_id (version : Z) : Z := if version =? 9 then 0 else 2.

(** The scope and option fields of an options template. *)
Definition options_fields (tpl : template) : option (list Field * list Field) :=
  match tpl with
  | T_NFv9Options t => Some (v9Scopes t, v9Options t)
  | T_IPFIXOptions t => Some (ipfixScopes t, ipfixOptions t)
  | _ => None
  end.

(** The unpadded payload of a set under the templates [m]. *)
Definition flowset_body (version : Z) (m : templateMap) (fs : flowset) : bytes :=
  match fs with
  | FS_Template (Val f) => flat_map (template_bytes version) (Records f)
  | FS_NFv9OptionsTemplate (Val f) => flat_map v9options_bytes (Records f)
  | FS_IPFIXOptionsTemplate (Val f) => flat_map ipfixoptions_bytes (Records f)
  | FS_Data (Val f) =>
      match m !! Id (Header f) with
      | Some (T_Template t) => flat_map (data_bytes (Fields t)) (Records f)
      | _ => []
      end
  | FS_OptionsData (Val f) =>
      match m !! Id (Header f) ≫= options_fields with
      | Some (sc, op) => flat_map (options_bytes sc op) (Records f)
      | None => []
      end
  | _ => []
  end.

(** A set that is complete: its header and counts are the actual ones, its templates are
    well-formed, its data follow a template that came earlier in the message, and its padding
    cannot be mistaken for a record. *)
Definition flowset_ok (version : Z) (m : templateMap) (fs : flowset) : Prop :=
  let body := flowset_body version m fs in
  match fs with
  | FS_Template (Val f) =>
      header_ok (Header f) (template_set_id version) body /\ Forall (template_ok version) (Records f)
  | FS_NFv9OptionsTemplate (Val f) =>
      version = 9 /\ header_ok (Header f) 1 body /\ Forall v9options_ok (Records f)
  | FS_IPFIXOptionsTemplate (Val f) =>
      version = 10 /\ header_ok (Header f) 3 body /\ Forall ipfixoptions_ok (Records f)
  | FS_Data (Val f) =>
      header_ok (Header f) (Id (Header f)) body /\ 256 <= Id (Header f) < 2 ^ 16 /\
      exists t, m !! Id (Header f) = Some (T_Template t) /\
        Forall (data_ok (Fields t)) (Records f) /\
        padding_ok (GetTemplateSize version (Fields t)) body
  | FS_OptionsData (Val f) =>
      header_ok (Header f) (Id (Header f)) body /\ 256 <= Id (Header f) < 2 ^ 16 /\
      exists tpl sc op, m !! Id (Header f) = Some tpl /\ options_fields tpl = Some (sc, op) /\
        Forall (options_ok sc op) (Records f) /\
        padding_ok (GetTemplateSize version sc + GetTemplateSize version op) body
  | _ => False
  end.

Definition flowset_id (fs : flowset) : Z :=
  match fs with
  | FS_Template (Val f) => Id (Header f)
  | FS_NFv9OptionsTemplate (Val f) => Id (Header f)
  | FS_IPFIXOptionsTemplate (Val f) => Id (Header f)
  | FS_Data (Val f) => Id (Header f)
  | FS_OptionsData (Val f) => Id (Header f)
  | _ => 0
  end.

(** The templates known after the set. *)
Definition flowset_templates (m : templateMap) (fs : flowset) : templateMap :=
  match fs with
  | FS_Template (Val f) => recordTemplates (fun r => (TemplateId r, T_Template r)) (Records f) m
  | FS_NFv9OptionsTemplate (Val f) =>
      recordTemplates (fun r => (v9TemplateId r, T_NFv9Options r)) (Records f) m
  | FS_IPFIXOptionsTemplate (Val f) =>
      recordTemplates (fun r => (ipfixTemplateId r, T_IPFIXOptions r)) (Records f) m
  | _ => m
  end.

Lemma written_range {A} (l : list A) (f : A -> M unit) enc P :
  Forall P l -> (forall x, P x -> writes (f x) (enc x)) -> written (rangeM l f) = Ok (flat_map enc l).
Proof.
  intros Hl Hf. apply written_writes, writes_rangeM. intros x Hx. apply Hf.
  by apply (proj1 (Forall_forall _ _) Hl).
Qed.

Lemma encodeFlowSet_ok version m fs :
  version = 9 \/ version = 10 -> flowset_ok version m fs ->
  encodeFlowSet version fs m =
    Ok (padFlowSetPayload (flowset_body version m fs), flowset_id fs, flowset_templates m fs).
Proof.
  intros Hver. destruct fs as [[f|]|[f|]|[f|]|[f|]|[f|]| | |]; try done; cbn [flowset_ok].
  - intros ((Hid & _) & Hr). cbn [encodeFlowSet flowset_id flowset_body flowset_templates unbox].
    unfold encodeTemplateFlowSet, encodeAndRecord. rewrite Hid.
    rewrite (written_range _ _ _ _ Hr (writes_encodeTemplateRecord version)).
    unfold template_set_id. by destruct Hver as [-> | ->].
  - intros (-> & (Hid & _) & Hr). cbn [encodeFlowSet flowset_id flowset_body flowset_templates unbox].
    unfold encodeNFv9OptionsTemplateFlowSet, encodeAndRecord. rewrite Hid.
    by rewrite (written_range _ _ _ _ Hr writes_encodeNFv9OptionsTemplateRecord).
  - intros (-> & (Hid & _) & Hr). cbn [encodeFlowSet flowset_id flowset_body flowset_templates unbox].
    unfold encodeIPFIXOptionsTemplateFlowSet, encodeAndRecord. rewrite Hid.
    by rewrite (written_range _ _ _ _ Hr writes_encodeIPFIXOptionsTemplateRecord).
  - intros (_ & Hid & t & Ht & Hr & _).
    cbn [encodeFlowSet flowset_id flowset_body flowset_templates]. unfold withFlowSet; cbn [unbox].
    unfold encodeDataFlowSet. destruct (Z.ltb_spec (Id (Header f)) 256); [lia|]. rewrite Ht.
    by rewrite (written_range _ _ _ _ Hr (writes_encodeDataRecord t)).
  - intros (_ & Hid & tpl & sc & op & Ht & Hf & Hr & _).
    cbn [encodeFlowSet flowset_id flowset_body flowset_templates]. unfold withFlowSet; cbn [unbox].
    unfold encodeOptionsDataFlowSet. destruct (Z.ltb_spec (Id (Header f)) 256); [lia|]. rewrite Ht.
    cbn [mbind option_bind]. rewrite Hf.
    rewrite (written_range _ _ (options_bytes sc op) _ Hr); [done|].
    intros r. apply writes_encodeOptionsDataRecord.
    destruct tpl; inversion Hf; subst; cbn [optionTemplateFields]; unfold checkOptionFields;
      by rewrite !Z.eqb_refl.
Qed.

Lemma encodeFlowSetsLoop_step version fs fss m b payload id m' :
  encodeFlowSet version fs m = Ok (payload, id, m') -> flowSetHeaderLen + len payload <= 0xffff ->
  encodeFlowSetsLoop version (fs :: fss) m b =
  encodeFlowSetsLoop version fss m' (b ++ be_put 2 id ++ be_put 2 (4 + len payload) ++ payload).
Proof.
  intros Heq Hlen. cbn [encodeFlowSetsLoop]. unfold flowSetHeaderLen in *.
  unfold bind at 1, lift. rewrite Heq. unfold bind at 1, Len at 1.
  unfold bind at 1, WriteU16 at 1, Write at 1. cbv zeta.
  destruct (Z.ltb_spec 0xffff (4 + len payload)); [lia|].
  rewrite to_uint_small by (pose proof (len_nonneg payload); split; lia).
  unfold bind, WriteU16, Write, Len. rewrite <- !app_assoc, !len_app, !len_be_put.
  destruct (Z.eqb_spec (len b + (Z.of_nat 2 + (Z.of_nat 2 + len payload))) (len b + (4 + len payload))); [done|lia].
Qed.

(** The sets of a message, each under the templates of those before it. *)
Fixpoint flowsets_ok (version : Z) (m : templateMap) (fss : list flowset) : Prop :=
  match fss with
  | [] => True
  | fs :: fss' => flowset_ok version m fs /\ flowsets_ok version (flowset_templates m fs) fss'
  end.

Definition set_bytes (version : Z) (m : templateMap) (fs : flowset) : bytes :=
  let payload := padFlowSetPayload (flowset_body version m fs) in
  be_put 2 (flowset_id fs) ++ be_put 2 (4 + len payload) ++ payload.

Fixpoint sets_bytes (version : Z) (m : templateMap) (fss : list flowset) : bytes :=
  match fss with
  | [] => []
  | fs :: fss' => set_bytes version m fs ++ sets_bytes version (flowset_templates m fs) fss'
  end.

Lemma flowset_ok_length version m fs :
  flowset_ok version m fs -> 4 + len (padFlowSetPayload (flowset_body version m fs)) <= 0xffff.
Proof.
  destruct fs as [[f|]|[f|]|[f|]|[f|]|[f|]| | |]; try done; cbn [flowset_ok].
  - by intros ((_ & <- & ?) & _).
  - by intros (_ & (_ & <- & ?) & _).
  - by intros (_ & (_ & <- & ?) & _).
  - by intros ((_ & <- & ?) & _).
  - by intros ((_ & <- & ?) & _).
Qed.

Lemma encodeFlowSets_ok version fss m b :
  version = 9 \/ version = 10 -> flowsets_ok version m fss ->
  encodeFlowSetsLoop version fss m b = (Ok tt, b ++ sets_bytes version m fss).
Proof.
  intros Hver. revert m b. induction fss as [|fs fss IH]; intros m b Hok.
  { cbn. by rewrite app_nil_r. }
  destruct Hok as [Hfs Hfss]. cbn [sets_bytes].
  erewrite encodeFlowSetsLoop_step; [|by apply encodeFlowSet_ok|by apply flowset_ok_length].
  rewrite IH by done. by rewrite <- app_assoc.
Qed.

(** ** Decoding *)

Section decode.
Context {S : Type} `{TemplateStoreSpec S}.
Context (ctx : FlowContext) (d : Z).

(** The decoder's store knows the templates of the encoder's map. *)
Definition agrees (version : Z) (m : templateMap) (st : S) : Prop :=
  forall id tpl, m !! id = Some tpl -> template_view st ctx version d id = Some tpl.

Lemma agrees_view version m a b : view_equiv a b -> agrees version m a -> agrees version m b.
Proof. intros Hab Ha id tpl Hm. rewrite <- Hab. by apply Ha. Qed.

Lemma addTemplates_agrees {A} (key : A -> Z * template) version fsid typ l m p st :
  agrees version m st ->
  exists st', addTemplates ctx version d fsid typ (map key l) {| payload := p; store := Some st |}
                = (Ok tt, {| payload := p; store := Some st' |}) /\
              agrees version (recordTemplates key l m) st'.
Proof.
  intros Hm. unfold addTemplates, bind at 1, get. cbn [store].
  revert m st Hm. induction l as [|r l IH]; intros m st Hm; [by exists st|].
  cbn [map rangeM]. destruct (key r) as [tid tpl] eqn:Hr.
  destruct (AddTemplate_spec st ctx version d tid tpl) as (x & b & Heq & Hnew & Hold).
  unfold bind at 1, errctx, bind at 1, on_store. cbn [store payload]. rewrite Heq. cbn [ret].
  destruct (IH (<[tid := tpl]> m) b) as (st' & Hst' & Hag).
  { intros id t. destruct (decide (tid = id)) as [->|Hne].
    - rewrite lookup_insert_eq. congruence.
    - rewrite lookup_insert_ne by done. intros Ht. rewrite Hold by congruence. by apply Hm. }
  exists st'. split; [exact Hst'|]. unfold recordTemplates in *. cbn [fold_left]. by rewrite Hr.
Qed.

Lemma on_payload_Next_app (p rest : bytes) n (st : option S) :
  n = len p ->
  on_payload (Next n) {| payload := p ++ rest; store := st |} =
    (Ok p, {| payload := rest; store := st |}).
Proof. intros ->. unfold on_payload. cbn [payload store]. by rewrite Next_app. Qed.

Lemma decodeTemplates_ok {A} version hdr n t1 t2 (dec : M (list A * option error)) mk key p rest l pad m st :
  n = len p -> dec p = (Ok (l, None), pad) -> agrees version m st ->
  exists st',
    decodeTemplates ctx version d hdr n t1 t2 dec mk key {| payload := p ++ rest; store := Some st |}
      = (Ok (mk (Val {| Header := hdr; Records := l |}), None), {| payload := rest; store := Some st' |}) /\
    agrees version (recordTemplates key l m) st'.
Proof.
  intros Hn Hdec Hm. unfold decodeTemplates. unfold bind at 1. rewrite on_payload_Next_app by done.
  unfold bind at 1, on_buffer. rewrite Hdec. cbn [fst]. unfold bind at 1, attempt.
  destruct (addTemplates_agrees key version (Id hdr) t2 l m rest st Hm) as (st' & -> & Hag). by exists st'.
Qed.

Lemma decodeData_ok {A} version hdr n p rest m st tpl t (dec : M (list A * option error)) mk l pad :
  n = len p -> agrees version m st -> m !! Id hdr = Some tpl -> dec p = (Ok (l, None), pad) ->
  (forall s, match tpl with
             | T_Template t => decodeRecords version d hdr (FS_Raw (Val {| Header := hdr; Records := p |})) p
                 "DataSet" (DecodeDataSet version (Fields t)) FS_Data s
             | T_IPFIXOptions t => decodeRecords version d hdr (FS_Raw (Val {| Header := hdr; Records := p |})) p
                 "DataSet" (DecodeOptionsDataSet version (ipfixScopes t) (ipfixOptions t)) FS_OptionsData s
             | T_NFv9Options t => decodeRecords version d hdr (FS_Raw (Val {| Header := hdr; Records := p |})) p
                 "OptionDataSet" (DecodeOptionsDataSet version (v9Scopes t) (v9Options t)) FS_OptionsData s
             | T_other => (Hang, s)
             end = decodeRecords (S := S) version d hdr (FS_Raw (Val {| Header := hdr; Records := p |})) p t dec mk s) ->
  exists st',
    decodeData ctx version d hdr n {| payload := p ++ rest; store := Some st |}
      = (Ok (mk (Val {| Header := hdr; Records := l |}), None), {| payload := rest; store := Some st' |}) /\
    agrees version m st'.
Proof.
  intros Hn Hag Hm Hdec Hsel. unfold decodeData. unfold bind at 1. rewrite on_payload_Next_app by done.
  unfold bind at 1, get. cbn [store]. unfold bind at 1, attempt, on_store. cbn [store payload].
  destruct (GetTemplate_step ctx version d (Id hdr) st) as (r & b & -> & Hab & Hr).
  rewrite (Hag _ _ Hm) in Hr. subst r. exists b. split; [|by eapply agrees_view].
  specialize (Hsel {| payload := rest; store := Some b |}).
  assert (decodeRecords (S := S) version d hdr (FS_Raw (Val {| Header := hdr; Records := p |})) p t dec mk
    {| payload := rest; store := Some b |} =
    (Ok (mk (Val {| Header := hdr; Records := l |}), None), {| payload := rest; store := Some b |})) as Hres.
  { unfold decodeRecords, bind, on_buffer. by rewrite Hdec. }
  rewrite Hres in Hsel. by destruct tpl.
Qed.

Lemma decode_templates_set {A} (one : M A) enc (P : A -> Prop) l :
  Forall P l -> (forall x, P x -> reads one (enc x) x) -> (forall x, 4 <= len (enc x)) ->
  exists pad, loopM (Datatypes.S (length (padFlowSetPayload (flat_map enc l)))) more_templates one
                (padFlowSetPayload (flat_map enc l)) = (Ok (l, None), pad).
Proof.
  intros Hl Hone Hlen. apply decode_padded.
  - intros x Hx. split; [specialize (Hlen x); lia|]. apply Hone. by apply (proj1 (Forall_forall _ _) Hl).
  - intros x rest _. apply Z.leb_le. rewrite len_app. pose proof (len_nonneg rest). specialize (Hlen x). lia.
  - apply Z.leb_gt. destruct (len_pad (flat_map enc l)) as (_ & Hp & _).
    rewrite len_replicate, Z2Nat.id by lia. lia.
Qed.

Lemma decode_data_set {A} (one : M A) enc (P : A -> Prop) l size :
  Forall P l -> (forall x, P x -> reads one (enc x) x) ->
  (forall x, P x -> 0 < len (enc x) /\ size <= len (enc x)) ->
  padding_ok size (flat_map enc l) ->
  exists pad, loopM (Datatypes.S (length (padFlowSetPayload (flat_map enc l)))) (more_data size) one
                (padFlowSetPayload (flat_map enc l)) = (Ok (l, None), pad).
Proof.
  intros Hl Hone Hlen Hpad. assert (forall x, x ∈ l -> P x) as HP by by apply Forall_forall.
  apply decode_padded.
  - intros x Hx. split; [by apply Hlen, HP|]. by apply Hone, HP.
  - intros x rest Hx. by apply more_data_record; apply Hlen, HP.
  - by apply more_data_padding.
Qed.

(** One set of a message: it is decoded to itself, and its templates are stored. *)
Lemma decodeFlowSet_ok version m fs rest st :
  version = 9 \/ version = 10 -> flowset_ok version m fs -> agrees version m st ->
  exists st',
    DecodeMessageCommonFlowSet ctx d version
      {| payload := set_bytes version m fs ++ rest; store := Some st |}
      = (Ok (fs, None), {| payload := rest; store := Some st' |}) /\
    agrees version (flowset_templates m fs) st'.
Proof.
  intros Hver Hok Hag. pose proof (flowset_ok_length version m fs Hok) as Hlen.
  assert (u16 (flowset_id fs)) as Hid.
  { destruct fs as [[f|]|[f|]|[f|]|[f|]|[f|]| | |]; try done; cbn [flowset_ok flowset_id] in *.
    - destruct Hok as ((-> & _) & _). unfold template_set_id. by destruct (version =? 9).
    - by destruct Hok as (_ & (-> & _) & _).
    - by destruct Hok as (_ & (-> & _) & _).
    - destruct Hok as (_ & Hid & _). split; lia.
    - destruct Hok as (_ & Hid & _). split; lia. }
  unfold set_bytes. set (p := padFlowSetPayload (flowset_body version m fs)) in *.
  assert (u16 (4 + len p)) as Hu by (pose proof (len_nonneg p); split; lia).
  unfold DecodeMessageCommonFlowSet. unfold bind at 1, attempt.
  erewrite (on_payload_reads _ (be_put 2 (flowset_id fs) ++ be_put 2 (4 + len p) ++ []));
    [|apply reads_errctx; read_steps; apply reads_ret|cbn [payload]; by rewrite <- !app_assoc].
  cbn [Id fsLength store]. unfold headerSize. replace (4 + len p - 4) with (len p) by lia.
  destruct (Z.ltb_spec (len p) 0); [pose proof (len_nonneg p); lia|].
  assert (forall hdr id body, header_ok hdr id body -> p = padFlowSetPayload body ->
    {| Id := id; fsLength := 4 + len p |} = hdr) as Hhdr.
  { intros [i l] id body (Hi & Hl & _) Hp. cbn in *. rewrite Hp. congruence. }
  destruct fs as [[f|]|[f|]|[f|]|[f|]|[f|]| | |]; try done; cbn [flowset_ok flowset_id flowset_templates] in *.
  - destruct Hok as (Hh & Hr). destruct Hh as (Hi & Hh'). rewrite Hi in *.
    erewrite (Hhdr (Header f)); [|by split|done].
    destruct (decode_templates_set (decodeTemplate version) (template_bytes version) _ (Records f) Hr
      (reads_decodeTemplate version)) as [pad Hdec]; [intros; unfold template_bytes; golen|].
    unfold template_set_id. destruct f as [h rs]. destruct Hver as [-> | ->]; cbn [Z.eqb Pos.eqb andb].
    + by eapply decodeTemplates_ok.
    + by eapply decodeTemplates_ok.
  - destruct Hok as (-> & Hh & Hr). destruct Hh as (Hi & Hh'). rewrite Hi in *.
    erewrite (Hhdr (Header f)); [|by split|done].
    destruct (decode_templates_set decodeNFv9OptionsTemplate v9options_bytes _ (Records f) Hr
      reads_decodeNFv9OptionsTemplate) as [pad Hdec]; [intros; unfold v9options_bytes; golen|].
    destruct f as [h rs]. cbn [Z.eqb Pos.eqb andb]. by eapply decodeTemplates_ok.
  - destruct Hok as (-> & Hh & Hr). destruct Hh as (Hi & Hh'). rewrite Hi in *.
    erewrite (Hhdr (Header f)); [|by split|done].
    destruct (decode_templates_set decodeIPFIXOptionsTemplate ipfixoptions_bytes _ (Records f) Hr
      reads_decodeIPFIXOptionsTemplate) as [pad Hdec]; [intros; unfold ipfixoptions_bytes; golen|].
    destruct f as [h rs]. cbn [Z.eqb Pos.eqb andb]. by eapply decodeTemplates_ok.
  - destruct Hok as (Hh & Hid' & t & Ht & Hr & Hpad). erewrite (Hhdr (Header f)); [|exact Hh|done].
    destruct (Z.eqb_spec (Id (Header f)) 0); [lia|]. destruct (Z.eqb_spec (Id (Header f)) 1); [lia|].
    destruct (Z.eqb_spec (Id (Header f)) 2); [lia|]. destruct (Z.eqb_spec (Id (Header f)) 3); [lia|].
    cbn [andb]. destruct (Z.leb_spec 256 (Id (Header f))); [|lia].
    assert (flowset_body version m (FS_Data (Val f)) = flat_map (data_bytes (Fields t)) (Records f))
      as Hbody by (cbn [flowset_body]; by rewrite Ht).
    subst p. rewrite Hbody in *.
    destruct (decode_data_set (decodeDataRecord version (Fields t)) (data_bytes (Fields t)) _ (Records f)
      (GetTemplateSize version (Fields t)) Hr) as [pad Hdec]; [..|done|].
    { intros r. apply reads_decodeDataRecord. }
    { intros r [Hv Hpos]. split; [done|by apply GetTemplateSize_le]. }
    destruct f as [h rs]. by eapply (decodeData_ok _ _ _ _ _ _ _ (T_Template t) "DataSet"
      (DecodeDataSet version (Fields t)) FS_Data).
  - destruct Hok as (Hh & Hid' & tpl & sc & op & Ht & Hf & Hr & Hpad).
    erewrite (Hhdr (Header f)); [|exact Hh|done].
    destruct (Z.eqb_spec (Id (Header f)) 0); [lia|]. destruct (Z.eqb_spec (Id (Header f)) 1); [lia|].
    destruct (Z.eqb_spec (Id (Header f)) 2); [lia|]. destruct (Z.eqb_spec (Id (Header f)) 3); [lia|].
    cbn [andb]. destruct (Z.leb_spec 256 (Id (Header f))); [|lia].
    assert (flowset_body version m (FS_OptionsData (Val f)) = flat_map (options_bytes sc op) (Records f))
      as Hbody by (cbn [flowset_body]; rewrite Ht; cbn [mbind option_bind]; by rewrite Hf).
    subst p. rewrite Hbody in *.
    destruct (decode_data_set (decodeOptionsDataRecord version sc op) (options_bytes sc op) _ (Records f)
      (GetTemplateSize version sc + GetTemplateSize version op) Hr) as [pad Hdec]; [..|done|].
    { intros r. apply reads_decodeOptionsDataRecord. }
    { intros r (Hs & Ho & Hpos). split; [done|]. unfold options_bytes. rewrite len_app.
      pose proof (GetTemplateSize_le version _ _ Hs). pose proof (GetTemplateSize_le version _ _ Ho). lia. }
    destruct f as [h rs]. destruct tpl as [t|t|t|]; inversion Hf; subst.
    + by eapply (decodeData_ok _ _ _ _ _ _ _ (T_NFv9Options t) "OptionDataSet"
        (DecodeOptionsDataSet version (v9Scopes t) (v9Options t)) FS_OptionsData).
    + by eapply (decodeData_ok _ _ _ _ _ _ _ (T_IPFIXOptions t) "DataSet"
        (DecodeOptionsDataSet version (ipfixScopes t) (ipfixOptions t)) FS_OptionsData).
Qed.
End decode.

(** ** Messages *)

(** The templates known after a message. *)
Definition message_templates (m : templateMap) (fss : list flowset) : templateMap :=
  fold_left flowset_templates fss m.

Section decode_message.
Context {S : Type} `{TemplateStoreSpec S}.
Context (ctx : FlowContext) (d : Z).

(** The loop of a message reads the sets and stops at [rest]: NetFlow v9 when less than a
    header is left, IPFIX when the announced [size] is consumed. *)
Lemma commonLoop_ok version fss fuel size start read m st acc rest :
  version = 9 /\ len rest < 4 \/
  version = 10 /\ 0 <= read /\ size = read + len (sets_bytes version m fss) /\ size < 2 ^ 16 ->
  read = start - len (sets_bytes version m fss ++ rest) ->
  flowsets_ok version m fss -> agrees ctx d version m st ->
  (length (sets_bytes version m fss ++ rest) < fuel)%nat ->
  exists st',
    commonLoop fuel ctx d size version start read acc None
      {| payload := sets_bytes version m fss ++ rest; store := Some st |}
      = (Ok (acc ++ fss, None), {| payload := rest; store := Some st' |}) /\
    agrees ctx d version (message_templates m fss) st'.
Proof.
  revert fuel read m st acc. induction fss as [|fs fss IH]; intros [|fuel] read m st acc Hstop Hread Hok Hag Hfuel;
    try lia; cbn [commonLoop payload sets_bytes app].
  - exists st. split; [|done].
    assert ((headerSize <=? len rest) && ((version =? 9) || (to_uint 16 read <? size)) = false) as ->.
    { unfold headerSize. destruct Hstop as [[-> Hr]|(-> & Hr0 & Hsz & Hlt)].
      - destruct (Z.leb_spec 4 (len rest)); [lia|done].
      - cbn [sets_bytes] in Hsz. rewrite len_nil in Hsz. cbn [Z.eqb Pos.eqb orb].
        rewrite to_uint_small by (split; lia).
        destruct (Z.ltb_spec read size); [lia|]. apply andb_false_r. }
    by rewrite app_nil_r.
  - destruct Hok as [Hfs Hfss]. rewrite <- app_assoc.
    assert (4 <= len (set_bytes version m fs)) as Hset by (unfold set_bytes; golen).
    assert ((headerSize <=? len (set_bytes version m fs ++ sets_bytes version (flowset_templates m fs) fss ++ rest))
            && ((version =? 9) || (to_uint 16 read <? size)) = true) as ->.
    { unfold headerSize. apply andb_true_intro. split; [apply Z.leb_le; golen|].
      destruct Hstop as [[-> Hr]|(-> & Hr0 & Hsz & Hlt)]; [done|].
      cbn [sets_bytes] in Hsz. rewrite len_app in Hsz. cbn [Z.eqb Pos.eqb orb].
      pose proof (len_nonneg (sets_bytes 10 (flowset_templates m fs) fss)).
      rewrite to_uint_small by (split; lia). apply Z.ltb_lt. lia. }
    destruct (decodeFlowSet_ok ctx d version m fs (sets_bytes version (flowset_templates m fs) fss ++ rest) st)
      as (st1 & Heq & Hag1); [destruct Hstop as [[-> _]|[-> _]]; auto|done|done|].
    rewrite Heq. cbn [payload]. cbn [sets_bytes] in Hread, Hfuel, Hstop.
    destruct (IH fuel (start - len (sets_bytes version (flowset_templates m fs) fss ++ rest))
      (flowset_templates m fs) st1 (acc ++ [fs])) as (st' & Hrun & Hag'); try done.
    + destruct Hstop as [?|(-> & Hr0 & Hsz & Hlt)]; [by left|right].
      rewrite <- app_assoc in Hread. rewrite !len_app in *. splits; [done|lia|lia|done].
    + rewrite !length_app in Hfuel. rewrite length_app. unfold len in Hset. lia.
    + exists st'. split; [|done]. rewrite Hrun. by rewrite <- app_assoc.
Qed.
End decode_message.

(** A complete NetFlow v9 packet. *)
Definition v9packet_ok (p : NFv9Packet) : Prop :=
  v9Version p = 9 /\ u16 (v9Count p) /\ (v9Count p <> 0 \/ v9FlowSets p = []) /\
  u32 (SystemUptime p) /\ u32 (UnixSeconds p) /\ u32 (v9SequenceNumber p) /\ u32 (SourceId p) /\
  flowsets_ok 9 ∅ (v9FlowSets p).

(** A complete IPFIX packet. *)
Definition ipfixpacket_ok (p : IPFIXPacket) : Prop :=
  ipfixVersion p = 10 /\ ipfixLength p = 16 + len (sets_bytes 10 ∅ (ipfixFlowSets p)) /\
  ipfixLength p <= 0xffff /\
  u32 (ExportTime p) /\ u32 (ipfixSequenceNumber p) /\ u32 (ObservationDomainId p) /\
  flowsets_ok 10 ∅ (ipfixFlowSets p).

Definition v9packet_bytes (p : NFv9Packet) : bytes :=
  be_put 2 9 ++ be_put 2 (v9Count p) ++ be_put 4 (SystemUptime p) ++ be_put 4 (UnixSeconds p) ++
  be_put 4 (v9SequenceNumber p) ++ be_put 4 (SourceId p) ++ sets_bytes 9 ∅ (v9FlowSets p).

Definition ipfixpacket_bytes (p : IPFIXPacket) : bytes :=
  be_put 2 10 ++ be_put 2 (ipfixLength p) ++ be_put 4 (ExportTime p) ++
  be_put 4 (ipfixSequenceNumber p) ++ be_put 4 (ObservationDomainId p) ++
  sets_bytes 10 ∅ (ipfixFlowSets p).

Lemma encodeFlowSets_written version fss :
  version = 9 \/ version = 10 -> flowsets_ok version ∅ fss ->
  encodeFlowSets version fss = Ok (sets_bytes version ∅ fss).
Proof.
  intros Hver Hok. unfold encodeFlowSets, written.
  by rewrite (encodeFlowSets_ok version fss ∅ [] Hver Hok).
Qed.

Lemma encodeNFv9Packet_ok p : v9packet_ok p -> encodeNFv9Packet (Some p) = Ok (v9packet_bytes p).
Proof.
  intros (Hv & Hc & Hc0 & _ & _ & _ & _ & Hok). unfold encodeNFv9Packet. rewrite Hv.
  cbn [Z.eqb Pos.eqb negb]. rewrite encodeFlowSets_written by auto. cbn [rbind].
  assert ((if v9Count p =? 0 then to_uint 16 (len (v9FlowSets p)) else v9Count p) = v9Count p) as ->.
  { destruct (Z.eqb_spec (v9Count p) 0) as [H0|]; [|done]. destruct Hc0 as [? | ->]; done. }
  apply written_writes. unfold v9packet_bytes. write_steps. apply writes_Write.
Qed.

Lemma encodeIPFIXPacket_ok p : ipfixpacket_ok p -> encodeIPFIXPacket (Some p) = Ok (ipfixpacket_bytes p).
Proof.
  intros (Hv & Hl & Hmax & _ & _ & _ & Hok). unfold encodeIPFIXPacket. rewrite Hv.
  cbn [Z.eqb Pos.eqb negb]. rewrite encodeFlowSets_written by auto. cbn [rbind].
  unfold ipfixHeaderLen. rewrite <- Hl. destruct (Z.ltb_spec 0xffff (ipfixLength p)); [lia|].
  pose proof (len_nonneg (sets_bytes 10 ∅ (ipfixFlowSets p))).
  rewrite to_uint_small by (split; lia).
  unfold written, WriteU16, WriteU32, Write, Len, bind, ret. cbn [app].
  rewrite !len_app, !len_be_put.
  match goal with |- context [negb (?a =? ?b)] => destruct (Z.eqb_spec a b) end; [|lia]. cbn [negb].
  unfold ipfixpacket_bytes. by rewrite <- !app_assoc.
Qed.

Section decode_packets.
Context {S : Type} `{TemplateStoreSpec S}.
Context (ctx : FlowContext).

Lemma read_version v rest (st : option S) :
  u16 v ->
  errctx (DecoderError "IPFIX/NetFlowV9 version") (on_payload (BinaryDecoder D_uint16))
    {| payload := be_put 2 v ++ rest; store := st |} = (Ok v, {| payload := rest; store := st |}).
Proof. intros Hv. unfold errctx, on_payload. cbn [payload store]. by rewrite (reads_u16 v Hv). Qed.

Lemma decode_v9packet_ok p st :
  v9packet_ok p ->
  exists st',
    DecodeMessageVersion ctx {| payload := v9packet_bytes p; store := Some st |}
      = (Ok (inl p, None), {| payload := []; store := Some st' |}) /\
    agrees ctx (SourceId p) 9 (message_templates ∅ (v9FlowSets p)) st'.
Proof.
  intros (Hv & Hc & Hc0 & Hu & Hs & Hq & Hd & Hok). unfold v9packet_bytes.
  destruct (commonLoop_ok ctx (SourceId p) 9 (v9FlowSets p)
    (Datatypes.S (length (sets_bytes 9 ∅ (v9FlowSets p)))) (v9Count p)
    (len (sets_bytes 9 ∅ (v9FlowSets p))) 0 ∅ st [] []) as (st' & Hrun & Hag);
    [by left|rewrite app_nil_r; lia|done|by intros ??|rewrite app_nil_r; lia|].
  exists st'. split; [|done]. rewrite app_nil_r in Hrun. clear Hok Hag.
  set (sb := sets_bytes 9 ∅ (v9FlowSets p)) in *. clearbody sb.
  unfold DecodeMessageVersion. unfold bind at 1. rewrite read_version by done. cbn [Z.eqb Pos.eqb].
  unfold DecodeMessageNetFlow. unfold bind at 1, errctx at 1. unfold bind at 1, errctx at 1.
  erewrite (on_payload_reads _ (be_put 2 (v9Count p) ++ be_put 4 (SystemUptime p) ++
      be_put 4 (UnixSeconds p) ++ be_put 4 (v9SequenceNumber p) ++ be_put 4 (SourceId p) ++ []));
    [|read_steps; apply reads_ret|cbn [payload]; by rewrite <- !app_assoc].
  cbn [store]. unfold bind, DecodeMessageCommon. cbn [payload]. rewrite Hrun. cbn [app].
  destruct p as [v c up us sq so fs]. cbn in Hv. by subst v.
Qed.

Lemma decode_ipfixpacket_ok p st rest :
  ipfixpacket_ok p ->
  exists st',
    DecodeMessageVersion ctx {| payload := ipfixpacket_bytes p ++ rest; store := Some st |}
      = (Ok (inr p, None), {| payload := rest; store := Some st' |}) /\
    agrees ctx (ObservationDomainId p) 10 (message_templates ∅ (ipfixFlowSets p)) st'.
Proof.
  intros (Hv & Hl & Hmax & He & Hq & Hd & Hok). unfold ipfixpacket_bytes.
  rewrite <- !app_assoc.
  pose proof (len_nonneg (sets_bytes 10 ∅ (ipfixFlowSets p))).
  assert (u16 (ipfixLength p)) as Hlu by (split; lia).
  destruct (commonLoop_ok ctx (ObservationDomainId p) 10 (ipfixFlowSets p)
    (Datatypes.S (length (sets_bytes 10 ∅ (ipfixFlowSets p) ++ rest))) (to_uint 16 (ipfixLength p - 16))
    (len (sets_bytes 10 ∅ (ipfixFlowSets p) ++ rest)) 0 ∅ st [] rest) as (st' & Hrun & Hag);
    [|lia|done|by intros ??|lia|].
  { right. rewrite to_uint_small by (split; lia). splits; lia. }
  exists st'. split; [|done]. clear Hok Hag Hl.
  set (sb := sets_bytes 10 ∅ (ipfixFlowSets p) ++ rest) in *. clearbody sb.
  unfold DecodeMessageVersion. unfold bind at 1. rewrite read_version by done. cbn [Z.eqb Pos.eqb].
  unfold DecodeMessageIPFIX. unfold bind at 1, errctx at 1. unfold bind at 1, errctx at 1.
  erewrite (on_payload_reads _ (be_put 2 (ipfixLength p) ++ be_put 4 (ExportTime p) ++
      be_put 4 (ipfixSequenceNumber p) ++ be_put 4 (ObservationDomainId p) ++ []));
    [|read_steps; apply reads_ret|cbn [payload]; by rewrite <- !app_assoc].
  cbn [store]. unfold bind, DecodeMessageCommon. cbn [payload]. rewrite Hrun. cbn [app].
  destruct p as [v l et sq od fs]. cbn in Hv. by subst v.
Qed.
End decode_packets.
