(* ===== verification/NetflowProps.v ===== *)
(** * decoders/netflow: properties of messages

    Round trips of whole NetFlow v9 and IPFIX messages, the framing of what the encoder
    emits, data sets of fixed-size templates, and two corner cases of the encoder. *)
From S2P Require Import Prelude DecodersUtils NetflowTypes NetflowDecode NetflowEncode NetflowSafety NetflowRoundtrip.

(** ** What the encoder emits *)

(** The sets of a message as (id, payload) pairs, without the final self-check. *)
Fixpoint frames (version : Z) (fss : list flowset) (m : templateMap) : res (list (Z * bytes)) :=
  match fss with
  | [] => Ok []
  | fs :: fss' =>
      rbind (encodeFlowSet version fs m) (fun '(payload, id, m') =>
        if 0xffff <? 4 + len payload then
          Err (Errorf "netflow: flow set length exceeds 65535" [id; 4 + len payload])
        else rbind (frames version fss' m') (fun l => Ok ((id, payload) :: l)))
  end.

Definition frame_bytes (f : Z * bytes) : bytes :=
  be_put 2 f.1 ++ be_put 2 (4 + len f.2) ++ f.2.

(** A set is a multiple of four bytes and its length fits its header. *)
Definition frame_ok (f : Z * bytes) : Prop :=
  len (frame_bytes f) = 4 + len f.2 /\ len (frame_bytes f) mod 4 = 0 /\ len (frame_bytes f) <= 0xffff.

Lemma encodeFlowSet_padded version fs m payload id m' :
  encodeFlowSet version fs m = Ok (payload, id, m') -> len payload mod 4 = 0.
Proof.
  assert (forall r (f : bytes -> bytes) i, rbind r (fun buf => Ok (padFlowSetPayload buf, i)) = Ok (payload, id) ->
    len payload mod 4 = 0) as Hpad.
  { intros [] f i H; cbn in H; simplify_eq. apply len_pad. }
  assert (forall A (x : boxed (FlowSetOf (list A))) key r, encodeAndRecord x key m r = Ok (payload, id, m') ->
    r = Ok (payload, id)) as Hrec.
  { intros A x key [[] | | |] H; cbn in H; by simplify_eq. }
  assert (forall A (x : boxed (FlowSetOf A)) enc, withFlowSet x m enc = Ok (payload, id, m') ->
    exists y t, enc (Some y) t = Ok (payload, id)) as Hwith.
  { intros A x enc H. unfold withFlowSet in H. destruct (unbox x) as [y|]; [|done].
    destruct (enc _ _) as [[] | | |] eqn:He; cbn in H; simplify_eq; eauto. }
  destruct fs as [x|x|x|x|x|x| |]; cbn [encodeFlowSet]; try done.
  - intros H%Hrec. unfold encodeTemplateFlowSet in H. destruct (unbox x); [|done].
    cbv zeta in H. destruct (_ || _); [done|]. by eapply Hpad.
  - destruct (negb _); [done|]. intros H%Hrec. unfold encodeNFv9OptionsTemplateFlowSet in H.
    destruct (unbox x); [|done]. cbv zeta in H. destruct (negb _); [done|]. by eapply Hpad.
  - destruct (negb _); [done|]. intros H%Hrec. unfold encodeIPFIXOptionsTemplateFlowSet in H.
    destruct (unbox x); [|done]. cbv zeta in H. destruct (negb _); [done|]. by eapply Hpad.
  - intros (y & t & H)%Hwith. unfold encodeDataFlowSet in H. destruct (_ <? _); [done|]. by eapply Hpad.
  - intros (y & t & H)%Hwith. unfold encodeOptionsDataFlowSet in H. destruct (_ <? _); [done|]. by eapply Hpad.
  - unfold encodeRawFlowSet. destruct (unbox x) as [y|]; [|done]. destruct (_ <? _); [done|].
    cbn. intros H. simplify_eq. apply len_pad.
Qed.

Lemma frames_ok version fss m l :
  frames version fss m = Ok l -> length l = length fss /\ Forall frame_ok l.
Proof.
  revert m l. induction fss as [|fs fss IH]; intros m l; cbn [frames]; [by intros [= <-]|].
  destruct (encodeFlowSet version fs m) as [[[payload id] m'] | | |] eqn:He; cbn [rbind]; try done.
  destruct (Z.ltb_spec 0xffff (4 + len payload)) as [|Hl]; [done|].
  destruct (frames version fss m') as [l' | | |] eqn:Hf; cbn [rbind]; try done. intros [= <-].
  destruct (IH _ _ Hf) as [Hlen Hok]. split; [simpl; lia|]. constructor; [|done].
  unfold frame_ok, frame_bytes. cbn [fst snd]. rewrite !len_app, !len_be_put.
  apply encodeFlowSet_padded in He. pose proof (len_nonneg payload).
  splits; [lia| |lia].
  replace (Z.of_nat 2 + (Z.of_nat 2 + len payload)) with (1 * 4 + len payload) by lia.
  by rewrite Z.add_comm, Z.mod_add.
Qed.

Lemma encodeFlowSetsLoop_frames version fss m b :
  fst (encodeFlowSetsLoop version fss m b) = rbind (frames version fss m) (fun _ => Ok tt) /\
  forall l, frames version fss m = Ok l ->
    snd (encodeFlowSetsLoop version fss m b) = b ++ flat_map frame_bytes l.
Proof.
  revert m b. induction fss as [|fs fss IH]; intros m b; cbn [frames].
  { split; [done|]. intros l [= <-]. cbn. by rewrite app_nil_r. }
  destruct (encodeFlowSet version fs m) as [[[payload id] m'] | | |] eqn:He;
    [|cbn [encodeFlowSetsLoop]; unfold bind, lift; by rewrite He..].
  cbn [rbind]. destruct (Z.ltb_spec 0xffff (4 + len payload)) as [Hl|Hl].
  { cbn [encodeFlowSetsLoop]. unfold bind, lift. rewrite He. unfold Len, WriteU16, Write, flowSetHeaderLen.
    by destruct (Z.ltb_spec 0xffff (4 + len payload)); [|lia]. }
  rewrite (encodeFlowSetsLoop_step _ _ _ _ _ _ _ _ He) by (unfold flowSetHeaderLen; lia).
  destruct (IH m' (b ++ be_put 2 id ++ be_put 2 (4 + len payload) ++ payload)) as [H1 H2].
  rewrite H1. destruct (frames version fss m') as [l' | | |]; cbn [rbind]; try done.
  split; [done|]. intros l [= <-]. rewrite (H2 l' eq_refl). cbn [flat_map]. unfold frame_bytes at 2.
  by rewrite <- !app_assoc.
Qed.

(** What [encodeFlowSets] emits is the concatenation of the sets, each with its id and its
    actual length; every set is a multiple of four bytes long and fits its 16-bit length.  The
    only errors are those of a single set and an oversized set: the length self-check of the
    code never fires. *)
Theorem nf_encode_framing (version : Z) (fss : list flowset) :
  encodeFlowSets version fss =
    rbind (frames version fss ∅) (fun l => Ok (flat_map frame_bytes l)) /\
  forall l, frames version fss ∅ = Ok l -> length l = length fss /\ Forall frame_ok l.
Proof.
  split; [|intros l; apply frames_ok]. unfold encodeFlowSets, written.
  destruct (encodeFlowSetsLoop_frames version fss ∅ []) as [H1 H2].
  destruct (encodeFlowSetsLoop version fss ∅ []) as [r b]; cbn [fst snd] in *. rewrite H1.
  destruct (frames version fss ∅) as [l | | |]; cbn [rbind]; try done. by rewrite (H2 l eq_refl).
Qed.

Lemma frames_len_mod l : Forall frame_ok l -> len (flat_map frame_bytes l) mod 4 = 0.
Proof.
  induction 1 as [|f l (_ & Hf & _) _ IH]; [done|]. cbn [flat_map].
  rewrite len_app, Z.add_mod, Hf, IH; done.
Qed.

(** An IPFIX message is emitted with its actual length in the header, which is at most
    65535 and a multiple of four, whatever the packet said its length was; a longer message is
    an error. *)
Theorem ipfix_encode_length (p : IPFIXPacket) (bs : bytes) :
  EncodeMessage (P_IPFIX (Val p)) = Ok bs ->
  len bs mod 4 = 0 /\ 16 <= len bs <= 0xffff /\
  exists tl, bs = be_put 2 10 ++ be_put 2 (len bs) ++ tl.
Proof.
  cbn [EncodeMessage unbox encodeIPFIXPacket]. cbv zeta.
  set (version := if ipfixVersion p =? 0 then 10 else ipfixVersion p).
  destruct (Z.eqb_spec version 10) as [->|]; [|done]. cbn [negb].
  destruct (encodeFlowSets 10 (ipfixFlowSets p)) as [sets | | |] eqn:Hs; cbn [rbind]; try done.
  assert (len sets mod 4 = 0) as Hmod.
  { unfold encodeFlowSets, written in Hs. destruct (encodeFlowSetsLoop_frames 10 (ipfixFlowSets p) ∅ []) as [H1 H2].
    destruct (encodeFlowSetsLoop 10 (ipfixFlowSets p) ∅ []) as [r b]; cbn [fst snd] in *.
    destruct (frames 10 (ipfixFlowSets p) ∅) as [l | | |] eqn:Hf; cbn [rbind] in H1; subst r; try done.
    injection Hs as <-. rewrite (H2 l eq_refl). cbn [app]. apply frames_len_mod. by apply (frames_ok _ _ _ _ Hf). }
  unfold ipfixHeaderLen. destruct (Z.ltb_spec 0xffff (16 + len sets)) as [|Hle]; [done|].
  pose proof (len_nonneg sets). rewrite to_uint_small by (split; lia).
  unfold written, WriteU16, WriteU32, Write, Len, bind, ret. cbn [app].
  set (out := (((((be_put 2 10 ++ _) ++ _) ++ _) ++ _) ++ _)).
  assert (len out = 16 + len sets) as Hout by (unfold out; rewrite !len_app, !len_be_put; lia).
  rewrite Hout, Z.eqb_refl. cbn [negb]. intros [= <-]. rewrite Hout. splits; [|lia|lia|].
  - replace (16 + len sets) with (len sets + 4 * 4) by lia. by rewrite Z.mod_add.
  - unfold out. rewrite <- !app_assoc. eauto.
Qed.

(** ** Round trips *)

(** C2: NetFlow v9 round trip.  A complete packet (its templates well-formed and preceding
    their data, its data fitting the templates) is encoded, and decoding the bytes with any
    store gives back the packet, consumes everything, and leaves the templates of the packet
    in the store under its router and source id. *)
Theorem nf9_roundtrip {S : Type} `{TemplateStoreSpec S} (ctx : FlowContext) (st : S) (p : NFv9Packet) :
  v9packet_ok p ->
  exists bs st',
    EncodeMessage (P_NFv9 (Val p)) = Ok bs /\
    DecodeMessageVersion ctx {| payload := bs; store := Some st |}
      = (Ok (inl p, None), {| payload := []; store := Some st' |}) /\
    forall id tpl, message_templates ∅ (v9FlowSets p) !! id = Some tpl ->
      template_view st' ctx 9 (SourceId p) id = Some tpl.
Proof.
  intros Hp. destruct (decode_v9packet_ok ctx p st Hp) as (st' & Hd & Hag).
  exists (v9packet_bytes p), st'. splits; [by apply encodeNFv9Packet_ok|done|exact Hag].
Qed.

(** C3: IPFIX round trip.  As for NetFlow v9, and the decoder stops at the length the header
    announces, leaving what follows the message in the buffer. *)
Theorem ipfix_roundtrip {S : Type} `{TemplateStoreSpec S} (ctx : FlowContext) (st : S)
    (p : IPFIXPacket) (rest : bytes) :
  ipfixpacket_ok p ->
  exists bs st',
    EncodeMessage (P_IPFIX (Val p)) = Ok bs /\
    DecodeMessageVersion ctx {| payload := bs ++ rest; store := Some st |}
      = (Ok (inr p, None), {| payload := rest; store := Some st' |}) /\
    forall id tpl, message_templates ∅ (ipfixFlowSets p) !! id = Some tpl ->
      template_view st' ctx 10 (ObservationDomainId p) id = Some tpl.
Proof.
  intros Hp. destruct (decode_ipfixpacket_ok ctx p st rest Hp) as (st' & Hd & Hag).
  exists (ipfixpacket_bytes p), st'. splits; [by apply encodeIPFIXPacket_ok|done|exact Hag].
Qed.

(** ** Data sets of fixed-size templates *)

(** The values of a record are consecutive slices. *)
Fixpoint slices (fs : list Field) (b : bytes) : list DataField :=
  match fs with
  | [] => []
  | f :: fs' =>
      {| dPenProvided := PenProvided f; dType := Type_ f; dLength := 0; dPen := Pen f;
         dValue := VBytes (take (Z.to_nat (Length f)) b) |} ::
      slices fs' (drop (Z.to_nat (Length f)) b)
  end.

Definition fixed (fs : list Field) : Prop := Forall (fun f => 0 <= Length f < 0xffff) fs.

Lemma GetTemplateSize_fixed version f fs :
  fixed (f :: fs) -> GetTemplateSize version (f :: fs) = Length f + GetTemplateSize version fs.
Proof.
  intros Hf. inversion Hf; subst. rewrite GetTemplateSize_cons.
  destruct (Z.eqb_spec (Length f) 0xffff); lia.
Qed.

Lemma GetTemplateSize_nonneg version fs : fixed fs -> 0 <= GetTemplateSize version fs.
Proof.
  induction fs as [|f fs IH]; intros Hf; [done|]. rewrite GetTemplateSize_fixed by done.
  inversion Hf; subst. specialize (IH ltac:(done)). lia.
Qed.

Lemma len_drop {A} n (l : list A) : 0 <= n <= len l -> len (drop (Z.to_nat n) l) = len l - n.
Proof. unfold len. rewrite length_drop. lia. Qed.

Lemma Next_exact n b :
  0 <= n <= len b -> Next n b = (Ok (take (Z.to_nat n) b), drop (Z.to_nat n) b).
Proof. intros Hn. unfold Next. destruct (Z.ltb_spec n 0); [lia|]. by rewrite Z.min_l by lia. Qed.

Lemma decodeDataFields_fixed version fs b :
  fixed fs -> GetTemplateSize version fs <= len b ->
  decodeDataFields fs b = (Ok (slices fs b), drop (Z.to_nat (GetTemplateSize version fs)) b).
Proof.
  revert b. induction fs as [|f fs IH]; intros b Hf Hle; [done|].
  rewrite GetTemplateSize_fixed in * by done. inversion Hf as [|?? Hl Hfs]; subst.
  pose proof (GetTemplateSize_nonneg version fs Hfs).
  cbn [decodeDataFields slices]. unfold decodeDataField, decodeFieldLength.
  destruct (Z.eqb_spec (Length f) 0xffff); [lia|].
  unfold bind, ret. rewrite Next_exact by lia. rewrite IH; [|done|rewrite len_drop; lia].
  rewrite drop_drop, Z2Nat.inj_add by lia. done.
Qed.

(** The [i]-th record of the payload [b]. *)
Definition record_at (version : Z) (fs : list Field) (b : bytes) (i : nat) : DataRecord :=
  {| Values := slices fs (drop (i * Z.to_nat (GetTemplateSize version fs)) b) |}.

Lemma decodeDataRecord_fixed version fs b :
  fixed fs -> 0 < GetTemplateSize version fs <= len b ->
  decodeDataRecord version fs b =
    (Ok (record_at version fs b 0), drop (Z.to_nat (GetTemplateSize version fs)) b).
Proof.
  intros Hf Hsize. unfold decodeDataRecord, DecodeDataSetUsingFields, bind, errctx, Len.
  destruct (Z.leb_spec (GetTemplateSize version fs) (len b)); [|lia].
  rewrite (decodeDataFields_fixed version) by (done || lia). rewrite len_drop by lia.
  destruct (Z.eqb_spec (len b - GetTemplateSize version fs) (len b)); [lia|done].
Qed.

Lemma loop_fixed version fs fuel b :
  fixed fs -> 0 < GetTemplateSize version fs -> (length b < fuel)%nat ->
  let k := Z.to_nat (len b / GetTemplateSize version fs) in
  loopM fuel (more_data (GetTemplateSize version fs)) (decodeDataRecord version fs) b =
    (Ok (map (record_at version fs b) (seq 0 k), None),
     drop (k * Z.to_nat (GetTemplateSize version fs)) b).
Proof.
  intros Hf Hpos. revert b. induction fuel as [|fuel IH]; intros b Hlen k; [lia|].
  subst k. set (size := GetTemplateSize version fs) in *. cbn [loopM]. unfold more_data at 1.
  destruct (Z.leb_spec size (len b)) as [Hle|Hlt].
  2:{ rewrite andb_false_r, Z.div_small by (pose proof (len_nonneg b); lia). done. }
  destruct (Z.ltb_spec 0 (len b)); [|lia]. cbn [andb].
  rewrite decodeDataRecord_fixed by done. fold size. unfold bind.
  rewrite IH by (rewrite length_drop; unfold len in *; lia). rewrite len_drop by lia.
  set (k := Z.to_nat ((len b - size) / size)).
  assert (Z.to_nat (len b / size) = Datatypes.S k) as ->.
  { unfold k. replace (len b) with (len b - size + 1 * size) at 1 by lia. rewrite Z.div_add by lia.
    pose proof (Z.div_pos (len b - size) size ltac:(lia) ltac:(lia)). lia. }
  cbn [seq map ret]. rewrite <- seq_shift, map_map, drop_drop. unfold ret. do 4 f_equal.
  apply map_ext. intros i. unfold record_at. by rewrite drop_drop.
Qed.

(** A data set of a template without variable-length fields is cut into consecutive
    records: as many as fit in the set, each value a slice of the length its field announces,
    and a remainder shorter than a record (the padding) is dropped.  When the template takes
    no bytes the set is an empty-record error instead of an endless loop. *)
Theorem nf_fixed_data_set (version : Z) (fs : list Field) (b : bytes) :
  fixed fs ->
  let size := GetTemplateSize version fs in
  let k := Z.to_nat (len b / size) in
  (0 < size ->
     DecodeDataSet version fs b =
       (Ok (map (record_at version fs b) (seq 0 k), None), drop (k * Z.to_nat size) b)) /\
  (size = 0 -> b <> [] ->
     DecodeDataSet version fs b = (Ok ([], Some (Wrap "DataSet" [] ErrorEmptyRecord)), b)).
Proof.
  intros Hf size k. split; intros Hsize.
  - apply loop_fixed; [done|done|lia].
  - intros Hb. unfold DecodeDataSet. cbn [loopM]. fold size. rewrite Hsize. unfold more_data.
    pose proof (len_nonneg b).
    destruct (Z.ltb_spec 0 (len b)); [|destruct b; [done|rewrite len_cons in *; golen]].
    destruct (Z.leb_spec 0 (len b)); [|lia]. cbn [andb].
    unfold decodeDataRecord, DecodeDataSetUsingFields, bind, errctx, Len. fold size. rewrite Hsize.
    destruct (Z.leb_spec 0 (len b)); [|lia].
    rewrite (decodeDataFields_fixed version) by (done || fold size; lia). fold size. rewrite Hsize.
    cbn [Z.to_nat]. by rewrite drop_0, Z.eqb_refl.
Qed.

(** ** Corner cases of the encoder *)

Definition octet_template : TemplateRecord :=
  {| TemplateId := 256; FieldCount := 1;
     Fields := [{| PenProvided := false; Type_ := 4; Length := 1; Pen := 0 |}] |}.
Definition octet_record (v : Z) : DataRecord :=
  {| Values := [{| dPenProvided := false; dType := 4; dLength := 0; dPen := 0; dValue := VBytes [v] |}] |}.

(** A packet with a template and a data set of the records with these values. *)
Definition octet_packet (vs : list Z) : NFv9Packet :=
  {| v9Version := 9; v9Count := 2; SystemUptime := 0; UnixSeconds := 0; v9SequenceNumber := 0;
     SourceId := 0;
     v9FlowSets := [FS_Template (Val {| Header := {| Id := 0; fsLength := 12 |};
                                        Records := [octet_template] |});
                    FS_Data (Val {| Header := {| Id := 256; fsLength := 8 |};
                                    Records := map octet_record vs |})] |}.

Definition octet_bytes : bytes :=
  [0;9; 0;2; 0;0;0;0; 0;0;0;0; 0;0;0;0; 0;0;0;0] ++
  [0;0; 0;12; 1;0; 0;1; 0;4; 0;1] ++ [1;0; 0;8; 6;0;0;0].

(** The padding of a data set is not always distinguishable from records: a single record
    of one byte is encoded with three bytes of padding, and is decoded to four records. *)
Theorem nf_padding_ambiguous :
  EncodeMessage (P_NFv9 (Val (octet_packet [6]))) = Ok octet_bytes /\
  run (DecodeMessageVersion sample_ctx) {| payload := octet_bytes; store := Some (∅ : RefStore) |}
    = Ok (inl (octet_packet [6; 0; 0; 0]), None).
Proof. split; vm_compute; reflexivity. Qed.

(** Nil pointers.  A nil pointer to a packet, a template set, an options template set or
    a raw set is an error; a nil pointer to a data set or an options data set panics, because
    its id is read before the check. *)
Theorem nf_nil_pointers (m : templateMap) (version : Z) :
  (exists e, EncodeMessage (P_NFv9 (Ptr None)) = Err e) /\
  (exists e, EncodeMessage (P_IPFIX (Ptr None)) = Err e) /\
  (exists e, encodeFlowSet version (FS_Template (Ptr None)) m = Err e) /\
  (exists e, encodeFlowSet version (FS_NFv9OptionsTemplate (Ptr None)) m = Err e) /\
  (exists e, encodeFlowSet version (FS_IPFIXOptionsTemplate (Ptr None)) m = Err e) /\
  (exists e, encodeFlowSet version (FS_Raw (Ptr None)) m = Err e) /\
  (exists w, encodeFlowSet version (FS_Data (Ptr None)) m = Panic w) /\
  (exists w, encodeFlowSet version (FS_OptionsData (Ptr None)) m = Panic w).
Proof.
  splits; cbn; try (eexists; reflexivity); destruct (negb _); eexists; reflexivity.
Qed.

(** ** Witnesses *)

Definition sample_options : NFv9OptionsTemplateRecord :=
  {| v9TemplateId := 257; ScopeLength := 4; OptionLength := 4;
     v9Scopes := [{| PenProvided := false; Type_ := 1; Length := 4; Pen := 0 |}];
     v9Options := [{| PenProvided := false; Type_ := 34; Length := 4; Pen := 0 |}] |}.

Definition data_field (ty : Z) (v : bytes) : DataField :=
  {| dPenProvided := false; dType := ty; dLength := 0; dPen := 0; dValue := VBytes v |}.

(** Template sets, an options set and a padded data set. *)
Definition sample_v9 : NFv9Packet :=
  {| v9Version := 9; v9Count := 4; SystemUptime := 256; UnixSeconds := 512; v9SequenceNumber := 7;
     SourceId := 1;
     v9FlowSets :=
       [FS_Template (Val {| Header := {| Id := 0; fsLength := 16 |}; Records := [sample_template] |});
        FS_NFv9OptionsTemplate (Val {| Header := {| Id := 1; fsLength := 20 |};
                                       Records := [sample_options] |});
        FS_Data (Val {| Header := {| Id := 256; fsLength := 12 |};
                        Records := [{| Values := [data_field 8 [10;0;0;1]; data_field 7 [0;80]] |}] |});
        FS_OptionsData (Val {| Header := {| Id := 257; fsLength := 12 |};
                               Records := [{| ScopesValues := [data_field 1 [0;0;0;1]];
                                              OptionsValues := [data_field 34 [0;0;4;0]] |}] |})] |}.

(** A variable-length field and an enterprise field. *)
Definition sample_ipfix_template : TemplateRecord :=
  {| TemplateId := 300; FieldCount := 2;
     Fields := [{| PenProvided := true; Type_ := 5; Length := 0xffff; Pen := 29305 |};
                {| PenProvided := false; Type_ := 4; Length := 1; Pen := 0 |}] |}.

Definition sample_ipfix : IPFIXPacket :=
  {| ipfixVersion := 10; ipfixLength := 48; ExportTime := 9; ipfixSequenceNumber := 3;
     ObservationDomainId := 5;
     ipfixFlowSets :=
       [FS_Template (Val {| Header := {| Id := 2; fsLength := 20 |};
                            Records := [sample_ipfix_template] |});
        FS_Data (Val {| Header := {| Id := 300; fsLength := 12 |};
                        Records := [{| Values :=
                          [{| dPenProvided := true; dType := 5; dLength := 0; dPen := 29305;
                              dValue := VBytes [104;101;108;108;111;33] |};
                           data_field 4 [17]] |}] |})] |}.

(** The side conditions of the samples hold by evaluation. *)
Ltac sample_value :=
  unfold value_ok; splits; try reflexivity;
  eexists; splits; [reflexivity|by apply is_bytes_by_test|vm_compute; congruence].
Ltac sample_cond :=
  lazymatch goal with
  | |- uint _ _ => split; [done|reflexivity]
  | |- True => exact I
  | |- Forall ?P ?l =>
      let l' := eval hnf in l in
      lazymatch l' with
      | [] => apply Forall_nil_2
      | ?x :: ?k => change (Forall P (x :: k)); apply Forall_cons_2; sample_cond
      end
  | |- Forall2 _ _ _ => repeat apply Forall2_cons_2; try apply Forall2_nil_2; sample_value
  | |- _ /\ _ => split; sample_cond
  | |- exists _, _ => idtac
  | |- padding_ok _ _ => first [left; reflexivity | right; reflexivity]
  | |- (_ = _ :> Z) => vm_compute; reflexivity
  | |- _ <= _ => vm_compute; congruence
  | |- _ < _ => vm_compute; congruence
  | |- _ -> _ => vm_compute; congruence
  | |- _ \/ _ => left; vm_compute; congruence
  | |- template_ok _ _ => unfold template_ok; sample_cond
  | |- v9options_ok _ => unfold v9options_ok; sample_cond
  | |- field_ok _ _ => unfold field_ok; sample_cond
  | |- data_ok _ _ => unfold data_ok; sample_cond
  | |- options_ok _ _ _ => unfold options_ok; sample_cond
  | |- header_ok _ _ _ => unfold header_ok; sample_cond
  end.

Lemma sample_v9_ok : v9packet_ok sample_v9.
Proof.
  unfold v9packet_ok. cbn [v9FlowSets sample_v9 flowsets_ok flowset_ok]. sample_cond.
  - exists sample_template. splits; [reflexivity|sample_cond..].
  - exists (T_NFv9Options sample_options), (v9Scopes sample_options), (v9Options sample_options).
    splits; [reflexivity|reflexivity|sample_cond..].
Qed.

Lemma sample_ipfix_ok : ipfixpacket_ok sample_ipfix.
Proof.
  unfold ipfixpacket_ok. cbn [ipfixFlowSets sample_ipfix flowsets_ok flowset_ok]. sample_cond.
  exists sample_ipfix_template. splits; [reflexivity|sample_cond..].
Qed.

Lemma nf9_roundtrip_witness :
  v9packet_ok sample_v9 /\
  exists bs st',
    EncodeMessage (P_NFv9 (Val sample_v9)) = Ok bs /\
    DecodeMessageVersion sample_ctx {| payload := bs; store := Some (∅ : RefStore) |}
      = (Ok (inl sample_v9, None), {| payload := []; store := Some st' |}) /\
    forall id tpl, message_templates ∅ (v9FlowSets sample_v9) !! id = Some tpl ->
      template_view st' sample_ctx 9 1 id = Some tpl.
Proof.
  split; [exact sample_v9_ok|]. apply (nf9_roundtrip sample_ctx (∅ : RefStore) sample_v9), sample_v9_ok.
Defined.

Lemma ipfix_roundtrip_witness :
  ipfixpacket_ok sample_ipfix /\
  exists bs st',
    EncodeMessage (P_IPFIX (Val sample_ipfix)) = Ok bs /\
    DecodeMessageVersion sample_ctx {| payload := bs ++ [1;2;3]; store := Some (∅ : RefStore) |}
      = (Ok (inr sample_ipfix, None), {| payload := [1;2;3]; store := Some st' |}) /\
    forall id tpl, message_templates ∅ (ipfixFlowSets sample_ipfix) !! id = Some tpl ->
      template_view st' sample_ctx 10 5 id = Some tpl.
Proof.
  split; [exact sample_ipfix_ok|].
  apply (ipfix_roundtrip sample_ctx (∅ : RefStore) sample_ipfix [1;2;3]), sample_ipfix_ok.
Defined.

Lemma ipfix_encode_length_witness :
  EncodeMessage (P_IPFIX (Val sample_ipfix)) = Ok (ipfixpacket_bytes sample_ipfix) /\
  len (ipfixpacket_bytes sample_ipfix) mod 4 = 0 /\
  16 <= len (ipfixpacket_bytes sample_ipfix) <= 0xffff /\
  exists tl, ipfixpacket_bytes sample_ipfix =
    be_put 2 10 ++ be_put 2 (len (ipfixpacket_bytes sample_ipfix)) ++ tl.
Proof.
  split; [vm_compute; reflexivity|].
  apply (ipfix_encode_length sample_ipfix). vm_compute; reflexivity.
Defined.

(** Two records of six bytes and a padding of two. *)
Lemma nf_fixed_data_set_witness :
  let fs := Fields sample_template in
  let b := [10;0;0;1;0;80; 10;0;0;2;0;81; 0;0] in
  DecodeDataSet 9 fs b = (Ok (map (record_at 9 fs b) (seq 0 2), None), [0;0]).
Proof.
  apply (nf_fixed_data_set 9 (Fields sample_template) [10;0;0;1;0;80; 10;0;0;2;0;81; 0;0]).
  - repeat constructor; cbn; lia.
  - reflexivity.
Defined.
