(* ===== verification/NetflowEncodeSafety.v ===== *)
(** * decoders/netflow: the encoder ends with bytes or an error

    It panics on nothing but nil pointers to data sets. *)
From S2P Require Import Prelude DecodersUtils NetflowTypes NetflowEncode.

Lemma quiet_encodeField pen f : quiet (encodeField pen f).
Proof. unfold encodeField. cbv zeta. quiet_steps. Qed.

Lemma quiet_encodeDataFieldValue field t : quiet (encodeDataFieldValue field t).
Proof.
  unfold encodeDataFieldValue. destruct (asBytes (dValue field)) as [v|e|w|] eqn:E; cbv zeta; try (quiet_steps; fail).
  all: exfalso; revert E; unfold asBytes; by destruct (dValue field).
Qed.
#[export] Hint Resolve quiet_encodeField quiet_encodeDataFieldValue : quiet.

(** The fields are as many as the values, when there are any. *)
Lemma quiet_encodeValues values fs : match fs with Some l => length l = length values | None => True end -> quiet (encodeValues values fs).
Proof.
  revert fs. induction values as [|v values IH]; intros fs Hf; [apply quiet_ret|]. cbn [encodeValues]. destruct fs as [[|t l]|]; [done| |].
  - apply quiet_bind; [quiet_steps|]. intros _. apply IH. cbn in Hf. lia.
  - apply quiet_bind; [quiet_steps|]. intros _. by apply IH.
Qed.

Lemma quiet_encodeDataRecord t r : quiet (encodeDataRecord t r).
Proof.
  apply quiet_lift_bind.
  - unfold templateFields. destruct t as [[]|]; try done. by destruct (negb _).
  - intros fs E. apply quiet_encodeValues. revert E. unfold templateFields. destruct t as [[t| | |]|]; try done; [|by intros [= <-]].
    destruct (Z.eqb_spec (len (Fields t)) (len (Values r))) as [E|]; [|done]. intros [= <-]. unfold len in E. lia.
Qed.

Lemma checkOptionFields_length sc op n m fs gs : checkOptionFields sc op n m = Ok (fs, gs) -> fs = Some sc /\ len sc = n /\ gs = Some op /\ len op = m.
Proof.
  unfold checkOptionFields. destruct (Z.eqb_spec (len sc) n); [|done]. destruct (Z.eqb_spec (len op) m); [|done]. by intros [= <- <-].
Qed.

Lemma optionTemplateFields_length t n m fs gs : optionTemplateFields t n m = Ok (fs, gs) ->
  match fs with Some l => len l = n | None => True end /\ match gs with Some l => len l = m | None => True end.
Proof.
  unfold optionTemplateFields. destruct t as [[]|]; try done; [..|by intros [= <- <-]];
    intros E; apply checkOptionFields_length in E as (-> & -> & -> & ->); done.
Qed.

Lemma quiet_encodeOptionsDataRecord t r : quiet (encodeOptionsDataRecord t r).
Proof.
  apply quiet_lift_bind.
  - unfold optionTemplateFields, checkOptionFields. destruct t as [[]|]; try done; repeat (destruct (negb _); [done|]); done.
  - intros [fs gs] E. apply optionTemplateFields_length in E as [Ef Eg].
    apply quiet_bind; [|intros _]; apply quiet_encodeValues; [destruct fs|destruct gs]; unfold len in *; (lia || done).
Qed.

Lemma quiet_templates version r : quiet (encodeTemplateRecord version r).
Proof. unfold encodeTemplateRecord. cbv zeta. quiet_steps. Qed.
Lemma quiet_v9_options r : quiet (encodeNFv9OptionsTemplateRecord r).
Proof. unfold encodeNFv9OptionsTemplateRecord. cbv zeta. quiet_steps. Qed.
Lemma quiet_ipfix_options r : quiet (encodeIPFIXOptionsTemplateRecord r).
Proof. unfold encodeIPFIXOptionsTemplateRecord. cbv zeta. quiet_steps. Qed.
#[export] Hint Resolve quiet_encodeDataRecord quiet_encodeOptionsDataRecord quiet_templates quiet_v9_options quiet_ipfix_options : quiet.

(** Not a nil pointer to a data set. *)
Definition flow_set_present (fs : flowset) : Prop :=
  match fs with FS_Data b => is_Some (unbox b) | FS_OptionsData b => is_Some (unbox b) | _ => True end.

Lemma ends_encodeFlowSet version fs m : flow_set_present fs -> ends (encodeFlowSet version fs m).
Proof.
  intros Hp. destruct fs as [b|b|b|b|b|b| |]; cbn [encodeFlowSet flow_set_present] in *; try done.
  1-3: repeat match goal with |- ends (if ?b then _ else _) => destruct b; try done end; unfold encodeAndRecord; (apply ends_rbind; [|by intros []]);
    unfold encodeTemplateFlowSet, encodeNFv9OptionsTemplateFlowSet, encodeIPFIXOptionsTemplateFlowSet; destruct (unbox b); try done; cbv zeta;
    match goal with |- ends (if ?b then _ else _) => destruct b; [done|] end; (apply ends_rbind; [|done]); apply ends_written; quiet_steps.
  1-2: destruct b as [f|[f|]]; [..|by destruct Hp]; unfold withFlowSet; cbn [unbox]; (apply ends_rbind; [|by intros []]);
    unfold encodeDataFlowSet, encodeOptionsDataFlowSet; match goal with |- ends (if ?b then _ else _) => destruct b; [done|] end;
    (apply ends_rbind; [|done]); apply ends_written; quiet_steps.
  apply ends_rbind; [|by intros []]. unfold encodeRawFlowSet. destruct (unbox b); [|done]. by destruct (_ <? _).
Qed.

Lemma ends_encodeFlowSets version l : Forall flow_set_present l -> ends (encodeFlowSets version l).
Proof.
  intros Hl. apply ends_written. generalize (∅ : templateMap). induction Hl as [|fs l Hf _ IH]; intros m; [apply quiet_ret|].
  cbn [encodeFlowSetsLoop]. apply quiet_lift_bind; [by apply ends_encodeFlowSet|]. intros [[payload id] m'] _. cbv zeta.
  apply quiet_bind; [done|]. intros start. quiet_steps.
Qed.

Lemma EncodeMessage_ipfix_ends p : Forall flow_set_present (ipfixFlowSets p) -> ends (EncodeMessage (P_IPFIX (Val p))).
Proof.
  intros Hp. cbn [EncodeMessage unbox]. unfold encodeIPFIXPacket. cbv zeta. destruct (negb _); [done|].
  apply ends_rbind; [by apply ends_encodeFlowSets|]. intros b. destruct (_ <? _); [done|]. apply ends_written. quiet_steps.
Qed.

Lemma EncodeMessage_nfv9_ends p : Forall flow_set_present (v9FlowSets p) -> ends (EncodeMessage (P_NFv9 (Val p))).
Proof.
  intros Hp. cbn [EncodeMessage unbox]. unfold encodeNFv9Packet. cbv zeta. destruct (negb _); [done|].
  apply ends_rbind; [by apply ends_encodeFlowSets|]. intros b. apply ends_written. quiet_steps.
Qed.
