(* ===== verification/SflowTypes.v ===== *)
(** * decoders/sflow: constants, structs and XDR data (sflow.go, packet.go, datastructure.go)

    The structs of datagrams, samples and records; the dynamic types that appear in their
    [interface{}] fields are the constructors of [flow_value], [counter_value] and
    [sample_value]. *)
From S2P Require Import Prelude DecodersUtils.

(** ** Constants *)

Definition SAMPLE_FORMAT_FLOW : Z := 1.
Definition SAMPLE_FORMAT_COUNTER : Z := 2.
Definition SAMPLE_FORMAT_EXPANDED_FLOW : Z := 3.
Definition SAMPLE_FORMAT_EXPANDED_COUNTER : Z := 4.
Definition SAMPLE_FORMAT_DROP : Z := 5.

Definition FLOW_TYPE_RAW : Z := 1.
Definition FLOW_TYPE_ETH : Z := 2.
Definition FLOW_TYPE_IPV4 : Z := 3.
Definition FLOW_TYPE_IPV6 : Z := 4.
Definition FLOW_TYPE_EXT_SWITCH : Z := 1001.
Definition FLOW_TYPE_EXT_ROUTER : Z := 1002.
Definition FLOW_TYPE_EXT_GATEWAY : Z := 1003.
Definition FLOW_TYPE_EXT_MPLS : Z := 1006.
Definition FLOW_TYPE_EXT_NAT : Z := 1007.
Definition FLOW_TYPE_EXT_MPLS_TUNNEL : Z := 1008.
Definition FLOW_TYPE_EXT_MPLS_VC : Z := 1009.
Definition FLOW_TYPE_EXT_MPLS_FEC : Z := 1010.
Definition FLOW_TYPE_EXT_MPLS_LVP_FEC : Z := 1011.
Definition FLOW_TYPE_EGRESS_QUEUE : Z := 1036.
Definition FLOW_TYPE_EXT_ACL : Z := 1037.
Definition FLOW_TYPE_EXT_FUNCTION : Z := 1038.

Definition COUNTER_TYPE_IF : Z := 1.
Definition COUNTER_TYPE_ETH : Z := 2.

(** ** Data formats: a 20-bit enterprise and a 12-bit format *)

Definition dataFormatFormatMask : Z := 0x00000fff.

Definition PackDataFormat (enterprise format : Z) : Z :=
  Z.lor (to_uint 32 (Z.shiftl enterprise 12)) (Z.land format dataFormatFormatMask).

Definition DataFormatEnterprise (dataFormat : Z) : Z := Z.shiftr dataFormat 12.
Definition DataFormatFormat (dataFormat : Z) : Z := Z.land dataFormat dataFormatFormatMask.

Definition isKnownSampleFormat (format : Z) : bool :=
  (format =? SAMPLE_FORMAT_FLOW) || (format =? SAMPLE_FORMAT_COUNTER) ||
  (format =? SAMPLE_FORMAT_EXPANDED_FLOW) || (format =? SAMPLE_FORMAT_EXPANDED_COUNTER) ||
  (format =? SAMPLE_FORMAT_DROP).

(** ** Flow records *)

Record SampledHeader : Type := {
  shProtocol : Z; shFrameLength : Z; shStripped : Z; shOriginalLength : Z; shHeaderData : bytes
}.

Record SampledEthernet : Type := {
  seLength : Z; seSrcMac : bytes; seDstMac : bytes; seEthType : Z
}.

Record SampledIPBase : Type := {
  ipLength : Z; ipProtocol : Z; ipSrcIP : bytes; ipDstIP : bytes;
  ipSrcPort : Z; ipDstPort : Z; ipTcpFlags : Z
}.

Record SampledIPv4 : Type := { v4Base : SampledIPBase; v4Tos : Z }.
Record SampledIPv6 : Type := { v6Base : SampledIPBase; v6Priority : Z }.

Record ExtendedSwitch : Type := {
  SrcVlan : Z; SrcPriority : Z; DstVlan : Z; DstPriority : Z
}.

Record ExtendedRouter : Type := {
  rNextHopIPVersion : Z; rNextHop : bytes; SrcMaskLen : Z; DstMaskLen : Z
}.

Record ASPathSegment : Type := { segType : Z; segPath : list Z }.

Record ExtendedGateway : Type := {
  gNextHopIPVersion : Z; gNextHop : bytes; AS_ : Z; gSrcAS : Z; gSrcPeerAS : Z;
  ASDestinations : Z; ASPathType : Z; ASPathLength : Z; ASPath : list Z;
  DstASPath : list ASPathSegment; CommunitiesLength : Z; Communities : list Z; LocalPref : Z
}.

Record ExtendedMPLS : Type := {
  mNextHopIPVersion : Z; mNextHop : bytes; InLabelStack : list Z; OutLabelStack : list Z
}.

Record ExtendedNAT : Type := {
  SrcAddressIPVersion : Z; SrcAddress : bytes; DstAddressIPVersion : Z; DstAddress : bytes
}.

Record ExtendedMPLSTunnel : Type := { TunnelLSPName : bytes; TunnelID : Z; TunnelCOS : Z }.
Record ExtendedMPLSVC : Type := { VCInstanceName : bytes; VLLVCID : Z; VCLabelCOS : Z }.
Record ExtendedMPLSFTN : Type := { MPLSFTNDescr : bytes; MPLSFTNMask : Z }.
Record ExtendedMPLSLDPFEC : Type := { MPLSFecAddrPrefixLength : Z }.
Record EgressQueue : Type := { Queue : Z }.
Record ExtendedACL : Type := { aclNumber : Z; aclName : bytes; aclDirection : Z }.
Record ExtendedFunction : Type := { Symbol : bytes }.
Record RawRecord : Type := { rawData : bytes }.

Inductive flow_value : Type :=
  | FV_SampledHeader (d : SampledHeader)
  | FV_SampledEthernet (d : SampledEthernet)
  | FV_SampledIPv4 (d : SampledIPv4)
  | FV_SampledIPv6 (d : SampledIPv6)
  | FV_ExtendedSwitch (d : ExtendedSwitch)
  | FV_ExtendedRouter (d : ExtendedRouter)
  | FV_ExtendedGateway (d : ExtendedGateway)
  | FV_ExtendedMPLS (d : ExtendedMPLS)
  | FV_ExtendedNAT (d : ExtendedNAT)
  | FV_ExtendedMPLSTunnel (d : ExtendedMPLSTunnel)
  | FV_ExtendedMPLSVC (d : ExtendedMPLSVC)
  | FV_ExtendedMPLSFTN (d : ExtendedMPLSFTN)
  | FV_ExtendedMPLSLDPFEC (d : ExtendedMPLSLDPFEC)
  | FV_EgressQueue (d : EgressQueue)
  | FV_ExtendedACL (d : ExtendedACL)
  | FV_ExtendedFunction (d : ExtendedFunction)
  | FV_RawRecord (d : RawRecord).

(** ** Counter records *)

Record IfCounters : Type := {
  IfIndex : Z; IfType : Z; IfSpeed : Z; IfDirection : Z; IfStatus : Z; IfInOctets : Z;
  IfInUcastPkts : Z; IfInMulticastPkts : Z; IfInBroadcastPkts : Z; IfInDiscards : Z;
  IfInErrors : Z; IfInUnknownProtos : Z; IfOutOctets : Z; IfOutUcastPkts : Z;
  IfOutMulticastPkts : Z; IfOutBroadcastPkts : Z; IfOutDiscards : Z; IfOutErrors : Z;
  IfPromiscuousMode : Z
}.

Record EthernetCounters : Type := {
  Dot3StatsAlignmentErrors : Z; Dot3StatsFCSErrors : Z; Dot3StatsSingleCollisionFrames : Z;
  Dot3StatsMultipleCollisionFrames : Z; Dot3StatsSQETestErrors : Z;
  Dot3StatsDeferredTransmissions : Z; Dot3StatsLateCollisions : Z;
  Dot3StatsExcessiveCollisions : Z; Dot3StatsInternalMacTransmitErrors : Z;
  Dot3StatsCarrierSenseErrors : Z; Dot3StatsFrameTooLongs : Z;
  Dot3StatsInternalMacReceiveErrors : Z; Dot3StatsSymbolErrors : Z
}.

Inductive counter_value : Type :=
  | CV_IfCounters (d : IfCounters)
  | CV_EthernetCounters (d : EthernetCounters)
  | CV_RawRecord (d : RawRecord).

(** ** Samples and packets *)

Record RecordHeader : Type := { DataFormat : Z; rhLength : Z }.

(** A record: its header and the [interface{}] data, a value or a pointer of one of the types
    above; [None] is nil or any other type. *)
Record record (V : Type) : Type := { rHeader : RecordHeader; rData : option (boxed V) }.
Arguments rHeader {V} _.
Arguments rData {V} _.

Definition FlowRecord : Type := record flow_value.
Definition CounterRecord : Type := record counter_value.

(** [FlowRecord{}], [CounterRecord{}]. *)
Definition zero_record {V} : record V :=
  {| rHeader := {| DataFormat := 0; rhLength := 0 |}; rData := None |}.

Record SampleHeader : Type := {
  Format : Z; sLength : Z; SampleSequenceNumber : Z; SourceIdType : Z; SourceIdValue : Z
}.

Record FlowSample : Type := {
  fsHeader : SampleHeader; fsSamplingRate : Z; fsSamplePool : Z; fsDrops : Z; fsInput : Z;
  fsOutput : Z; fsFlowRecordsCount : Z; fsRecords : list FlowRecord
}.

Record CounterSample : Type := {
  csHeader : SampleHeader; CounterRecordsCount : Z; csRecords : list CounterRecord
}.

Record ExpandedFlowSample : Type := {
  esHeader : SampleHeader; esSamplingRate : Z; esSamplePool : Z; esDrops : Z;
  InputIfFormat : Z; InputIfValue : Z; OutputIfFormat : Z; OutputIfValue : Z;
  esFlowRecordsCount : Z; esRecords : list FlowRecord
}.

Record DropSample : Type := {
  dsHeader : SampleHeader; dsDrops : Z; dsInput : Z; dsOutput : Z; Reason : Z;
  dsFlowRecordsCount : Z; dsRecords : list FlowRecord
}.

Record RawSample : Type := { rsHeader : SampleHeader; rsData : bytes }.

Inductive sample_value : Type :=
  | SV_FlowSample (s : FlowSample)
  | SV_CounterSample (s : CounterSample)
  | SV_ExpandedFlowSample (s : ExpandedFlowSample)
  | SV_DropSample (s : DropSample)
  | SV_RawSample (s : RawSample).

(** An element of [Samples []interface{}]; [None] is nil or any other type. *)
Definition sample : Type := option (boxed sample_value).

Record Packet : Type := {
  Version : Z; IPVersion : Z; AgentIP : bytes; SubAgentId : Z; SequenceNumber : Z;
  Uptime : Z; SamplesCount : Z; Samples : list sample
}.

(** ** Errors *)

Definition DecoderError (e : error) : error := Wrap "DecoderError sFlow" [] e.
Definition FlowError (format seq : Z) (e : error) : error := Wrap "FlowError" [format; seq] e.
Definition RecordError (dataFormat : Z) (e : error) : error := Wrap "RecordError" [dataFormat] e.

(** ** Properties of data formats *)

Lemma dataFormat_split d :
  u32 d -> u32 d /\ DataFormatEnterprise d = d / 2 ^ 12 /\ DataFormatFormat d = d mod 2 ^ 12.
Proof.
  intros Hd. splits; [done| |].
  - unfold DataFormatEnterprise. by rewrite shiftr_div.
  - unfold DataFormatFormat. change dataFormatFormatMask with (Z.ones 12). by rewrite land_ones_mod.
Qed.

Lemma PackDataFormat_eq enterprise format :
  PackDataFormat enterprise format = (enterprise mod 2 ^ 20) * 2 ^ 12 + format mod 2 ^ 12.
Proof.
  unfold PackDataFormat. change dataFormatFormatMask with (Z.ones 12).
  rewrite land_ones_mod by lia. unfold to_uint. rewrite Z.shiftl_mul_pow2 by lia.
  change (2 ^ 32) with (2 ^ 20 * 2 ^ 12). rewrite Z.mul_mod_distr_r by lia.
  rewrite <- Z.shiftl_mul_pow2, lor_shiftl_low; [|lia|apply Z.mod_pos_bound; lia|lia].
  by rewrite Z.shiftl_mul_pow2 by lia.
Qed.

(** Packing and unpacking data formats.  The enterprise keeps its low 20 bits and the
    format its low 12; a packed [uint32] is recovered exactly from its two parts, so a record
    has enterprise 0 and a known format only if it is that format. *)
Theorem PackDataFormat_roundtrip (enterprise format d : Z) :
  DataFormatEnterprise (PackDataFormat enterprise format) = enterprise mod 2 ^ 20 /\
  DataFormatFormat (PackDataFormat enterprise format) = format mod 2 ^ 12 /\
  (u32 d -> PackDataFormat (DataFormatEnterprise d) (DataFormatFormat d) = d) /\
  (DataFormatEnterprise d = 0 <-> 0 <= d < 2 ^ 12).
Proof.
  pose proof (Z.mod_pos_bound enterprise (2 ^ 20) ltac:(lia)).
  pose proof (Z.mod_pos_bound format (2 ^ 12) ltac:(lia)).
  assert (u32 (PackDataFormat enterprise format)) as Hu by (rewrite PackDataFormat_eq; split; lia).
  destruct (dataFormat_split _ Hu) as (_ & -> & ->). rewrite PackDataFormat_eq. splits.
  - rewrite Z.div_add_l, Z.div_small; lia.
  - rewrite Z.add_comm, Z.mod_add, Z.mod_mod; lia.
  - intros Hd. destruct (dataFormat_split _ Hd) as (_ & -> & ->). rewrite PackDataFormat_eq.
    rewrite Z.mod_mod by lia. rewrite (Z.mod_small (d / 2 ^ 12)).
    + pose proof (Z.div_mod d (2 ^ 12)). lia.
    + destruct Hd. split; [apply Z.div_pos; lia|]. apply Z.div_lt_upper_bound; lia.
  - unfold DataFormatEnterprise. rewrite shiftr_div by lia. rewrite Z.div_small_iff by lia. lia.
Qed.

Lemma PackDataFormat_roundtrip_witness :
  u32 0x12345678 /\
  PackDataFormat (DataFormatEnterprise 0x12345678) (DataFormatFormat 0x12345678) = 0x12345678.
Proof.
  assert (u32 0x12345678) as H by (split; done). split; [exact H|].
  apply (PackDataFormat_roundtrip 0 0 0x12345678). exact H.
Defined.
