(* ===== verification/SflowDecode.v ===== *)
(** * decoders/sflow: the sFlow v5 decoder (sflow.go, xdr.go)

    Flow and counter records, samples, and the datagram loop.  When decoding fails the model
    returns the error only: the packet the caller passed is dropped by every caller. *)
From S2P Require Import Prelude DecodersUtils SflowTypes.

(** ** XDR *)

(** The padding of an opaque of [length] bytes, [(4 - (length % 4)) % 4] in [uint32]. *)
Definition xdr_padding (length : Z) : Z := to_uint 32 (4 - length mod 4) mod 4.

Definition readXDROpaqueWithLength (length : Z) : M bytes :=
  let* n := Len in
  if n <? length then fail ErrUnexpectedEOF
  else
    let* data := Next length in
    let padding := xdr_padding length in
    if negb (padding =? 0) then
      let* n := Len in
      if n <? padding then fail ErrUnexpectedEOF
      else let* _ := Next padding in ret data
    else ret data.

Definition readXDROpaque : M bytes :=
  let* length := BinaryDecoder D_uint32 in
  readXDROpaqueWithLength length.

Definition readXDRString : M bytes := readXDROpaque.

(** ** Addresses and vectors *)

Definition DecodeIP_rest (ipVersion n : Z) : M (Z * bytes) :=
  makeslice n ;;;
  let* l := Len in
  if n <=? l then
    let* ip := errctx (Wrap "DecodeIP" []) (BinaryDecoder (D_uint8s (Z.to_nat n))) in
    ret (ipVersion, ip)
  else fail (Errorf "DecodeIP: truncated data" [n; l]).

Definition DecodeIP : M (Z * bytes) :=
  let* ipVersion := errctx (Wrap "DecodeIP" []) (BinaryDecoder D_uint32) in
  if ipVersion =? 0 then ret (ipVersion, [])
  else if ipVersion =? 1 then DecodeIP_rest ipVersion 4
  else if ipVersion =? 2 then DecodeIP_rest ipVersion 16
  else fail (Errorf "DecodeIP: unknown IP version" [ipVersion]).

(** [make([]uint32, length)] read when it is not empty. *)
Definition readU32s (length : Z) : M (list Z) :=
  makeslice length ;;;
  if 0 <? length then BinaryDecoder (D_uint32s (Z.to_nat length)) else ret [].

Definition decodeU32Vector (name : string) : M (list Z) :=
  let* length := BinaryDecoder D_uint32 in
  if 1000 <? length then fail (Errorf (name ++ " length seems quite large") [length])
  else
    let* n := Len in
    if Z.quot n 4 <? length then fail (Errorf ("invalid " ++ name ++ " length") [length])
    else readU32s length.

(** ** Flow records: the cases of [DecodeFlowRecord] *)

Definition decodeSampledHeader : M flow_value :=
  let* protocol := BinaryDecoder D_uint32 in
  let* frameLength := BinaryDecoder D_uint32 in
  let* stripped := BinaryDecoder D_uint32 in
  let* headerLength := BinaryDecoder D_uint32 in
  let* n := Len in
  let* headerData :=
    (if n <? headerLength then
       let* data := Bytes in
       let* _ := Next n in
       ret data
     else readXDROpaqueWithLength headerLength) in
  ret (FV_SampledHeader {| shProtocol := protocol; shFrameLength := frameLength;
         shStripped := stripped; shOriginalLength := headerLength; shHeaderData := headerData |}).

Definition decodeSampledEthernet : M flow_value :=
  let* length := BinaryDecoder D_uint32 in
  let* srcMac := BinaryDecoder (D_uint8s 6) in
  let* srcMacPad := BinaryDecoder D_uint16 in
  let* dstMac := BinaryDecoder (D_uint8s 6) in
  let* dstMacPad := BinaryDecoder D_uint16 in
  let* ethType := BinaryDecoder D_uint32 in
  ret (FV_SampledEthernet {| seLength := length; seSrcMac := srcMac; seDstMac := dstMac;
         seEthType := ethType |}).

(** The fields shared by the IPv4 and IPv6 records, with addresses of [n] bytes. *)
Definition decodeSampledIPBase (n : nat) : M SampledIPBase :=
  let* length := BinaryDecoder D_uint32 in
  let* protocol := BinaryDecoder D_uint32 in
  let* srcIP := BinaryDecoder (D_uint8s n) in
  let* dstIP := BinaryDecoder (D_uint8s n) in
  let* srcPort := BinaryDecoder D_uint32 in
  let* dstPort := BinaryDecoder D_uint32 in
  let* tcpFlags := BinaryDecoder D_uint32 in
  ret {| ipLength := length; ipProtocol := protocol; ipSrcIP := srcIP; ipDstIP := dstIP;
         ipSrcPort := srcPort; ipDstPort := dstPort; ipTcpFlags := tcpFlags |}.

Definition decodeSampledIPv4 : M flow_value :=
  let* base := decodeSampledIPBase 4 in
  let* tos := BinaryDecoder D_uint32 in
  ret (FV_SampledIPv4 {| v4Base := base; v4Tos := tos |}).

Definition decodeSampledIPv6 : M flow_value :=
  let* base := decodeSampledIPBase 16 in
  let* priority := BinaryDecoder D_uint32 in
  ret (FV_SampledIPv6 {| v6Base := base; v6Priority := priority |}).

Definition decodeExtendedSwitch : M flow_value :=
  let* srcVlan := BinaryDecoder D_uint32 in
  let* srcPriority := BinaryDecoder D_uint32 in
  let* dstVlan := BinaryDecoder D_uint32 in
  let* dstPriority := BinaryDecoder D_uint32 in
  ret (FV_ExtendedSwitch {| SrcVlan := srcVlan; SrcPriority := srcPriority;
         DstVlan := dstVlan; DstPriority := dstPriority |}).

Definition decodeExtendedRouter : M flow_value :=
  let* (version, nextHop) := DecodeIP in
  let* srcMaskLen := BinaryDecoder D_uint32 in
  let* dstMaskLen := BinaryDecoder D_uint32 in
  ret (FV_ExtendedRouter {| rNextHopIPVersion := version; rNextHop := nextHop;
         SrcMaskLen := srcMaskLen; DstMaskLen := dstMaskLen |}).

(** One iteration of the AS path loop. *)
Definition decodeASPathSegment : M ASPathSegment :=
  let* segmentType := BinaryDecoder D_uint32 in
  let* segmentLength := BinaryDecoder D_uint32 in
  if 1000 <? segmentLength then
    fail (Errorf "as-path length seems quite large" [segmentLength])
  else
    let* n := Len in
    if Z.quot n 4 <? segmentLength then fail (Errorf "invalid AS path length" [segmentLength])
    else
      let* segmentPath := readU32s segmentLength in
      ret {| segType := segmentType; segPath := segmentPath |}.

Definition decodeExtendedGateway : M flow_value :=
  let* (version, nextHop) := DecodeIP in
  let* as_ := BinaryDecoder D_uint32 in
  let* srcAS := BinaryDecoder D_uint32 in
  let* srcPeerAS := BinaryDecoder D_uint32 in
  let* asPathCount := BinaryDecoder D_uint32 in
  if 1000 <? asPathCount then
    fail (Errorf "as-path segments seems quite large" [asPathCount])
  else
    makeslice asPathCount ;;;
    let* asPathSegments := forM (Z.to_nat asPathCount) 0 (fun _ => decodeASPathSegment) in
    let first := if asPathCount =? 1 then nth_error asPathSegments 0 else None in
    let* communitiesLength := BinaryDecoder D_uint32 in
    if 1000 <? communitiesLength then
      fail (Errorf "communities length seems quite large" [communitiesLength])
    else
      let* n := Len in
      if Z.quot n 4 <? communitiesLength then
        fail (Errorf "invalid communities length" [communitiesLength])
      else
        let* communities := readU32s communitiesLength in
        let* localPref := BinaryDecoder D_uint32 in
        ret (FV_ExtendedGateway {| gNextHopIPVersion := version; gNextHop := nextHop;
               AS_ := as_; gSrcAS := srcAS; gSrcPeerAS := srcPeerAS;
               ASDestinations := asPathCount;
               ASPathType := match first with Some s => segType s | None => 0 end;
               ASPathLength := match first with Some s => to_uint 32 (len (segPath s)) | None => 0 end;
               ASPath := match first with Some s => segPath s | None => [] end;
               DstASPath := asPathSegments;
               CommunitiesLength := communitiesLength; Communities := communities;
               LocalPref := localPref |}).

Definition decodeExtendedMPLS : M flow_value :=
  let* (version, nextHop) := DecodeIP in
  let* inLabels := decodeU32Vector "mpls in label stack" in
  let* outLabels := decodeU32Vector "mpls out label stack" in
  ret (FV_ExtendedMPLS {| mNextHopIPVersion := version; mNextHop := nextHop;
         InLabelStack := inLabels; OutLabelStack := outLabels |}).

Definition decodeExtendedNAT : M flow_value :=
  let* (srcVersion, src) := DecodeIP in
  let* (dstVersion, dst) := DecodeIP in
  ret (FV_ExtendedNAT {| SrcAddressIPVersion := srcVersion; SrcAddress := src;
         DstAddressIPVersion := dstVersion; DstAddress := dst |}).

Definition decodeExtendedMPLSTunnel : M flow_value :=
  let* name := readXDRString in
  let* id := BinaryDecoder D_uint32 in
  let* cos := BinaryDecoder D_uint32 in
  ret (FV_ExtendedMPLSTunnel {| TunnelLSPName := name; TunnelID := id; TunnelCOS := cos |}).

Definition decodeExtendedMPLSVC : M flow_value :=
  let* name := readXDRString in
  let* id := BinaryDecoder D_uint32 in
  let* cos := BinaryDecoder D_uint32 in
  ret (FV_ExtendedMPLSVC {| VCInstanceName := name; VLLVCID := id; VCLabelCOS := cos |}).

Definition decodeExtendedMPLSFTN : M flow_value :=
  let* descr := readXDRString in
  let* mask := BinaryDecoder D_uint32 in
  ret (FV_ExtendedMPLSFTN {| MPLSFTNDescr := descr; MPLSFTNMask := mask |}).

Definition decodeExtendedMPLSLDPFEC : M flow_value :=
  let* prefixLength := BinaryDecoder D_uint32 in
  ret (FV_ExtendedMPLSLDPFEC {| MPLSFecAddrPrefixLength := prefixLength |}).

Definition decodeEgressQueue : M flow_value :=
  let* queue := BinaryDecoder D_uint32 in
  ret (FV_EgressQueue {| Queue := queue |}).

Definition decodeExtendedACL : M flow_value :=
  let* number := BinaryDecoder D_uint32 in
  let* name := readXDRString in
  let* direction := BinaryDecoder D_uint32 in
  ret (FV_ExtendedACL {| aclNumber := number; aclName := name; aclDirection := direction |}).

Definition decodeExtendedFunction : M flow_value :=
  let* symbol := readXDRString in
  ret (FV_ExtendedFunction {| Symbol := symbol |}).

(** [append([]byte(nil), payload.Bytes()...)]: a copy; nothing is consumed. *)
Definition decodeRawRecord : M RawRecord :=
  let* data := Bytes in
  ret {| rawData := data |}.

Definition DecodeFlowRecord_switch (format : Z) : M flow_value :=
  if format =? FLOW_TYPE_RAW then decodeSampledHeader
  else if format =? FLOW_TYPE_ETH then decodeSampledEthernet
  else if format =? FLOW_TYPE_IPV4 then decodeSampledIPv4
  else if format =? FLOW_TYPE_IPV6 then decodeSampledIPv6
  else if format =? FLOW_TYPE_EXT_SWITCH then decodeExtendedSwitch
  else if format =? FLOW_TYPE_EXT_ROUTER then decodeExtendedRouter
  else if format =? FLOW_TYPE_EXT_GATEWAY then decodeExtendedGateway
  else if format =? FLOW_TYPE_EXT_MPLS then decodeExtendedMPLS
  else if format =? FLOW_TYPE_EXT_NAT then decodeExtendedNAT
  else if format =? FLOW_TYPE_EXT_MPLS_TUNNEL then decodeExtendedMPLSTunnel
  else if format =? FLOW_TYPE_EXT_MPLS_VC then decodeExtendedMPLSVC
  else if format =? FLOW_TYPE_EXT_MPLS_FEC then decodeExtendedMPLSFTN
  else if format =? FLOW_TYPE_EXT_MPLS_LVP_FEC then decodeExtendedMPLSLDPFEC
  else if format =? FLOW_TYPE_EGRESS_QUEUE then decodeEgressQueue
  else if format =? FLOW_TYPE_EXT_ACL then decodeExtendedACL
  else if format =? FLOW_TYPE_EXT_FUNCTION then decodeExtendedFunction
  else let* raw := decodeRawRecord in ret (FV_RawRecord raw).

Definition DecodeFlowRecord (header : RecordHeader) : M FlowRecord :=
  if negb (DataFormatEnterprise (DataFormat header) =? 0) then
    let* raw := decodeRawRecord in
    ret {| rHeader := header; rData := Some (Val (FV_RawRecord raw)) |}
  else
    let* data := errctx (RecordError (DataFormat header))
      (DecodeFlowRecord_switch (DataFormatFormat (DataFormat header))) in
    ret {| rHeader := header; rData := Some (Val data) |}.

(** ** Counter records *)

Definition decodeIfCounters : M counter_value :=
  let* ifIndex := BinaryDecoder D_uint32 in
  let* ifType := BinaryDecoder D_uint32 in
  let* ifSpeed := BinaryDecoder D_uint64 in
  let* ifDirection := BinaryDecoder D_uint32 in
  let* ifStatus := BinaryDecoder D_uint32 in
  let* ifInOctets := BinaryDecoder D_uint64 in
  let* ifInUcastPkts := BinaryDecoder D_uint32 in
  let* ifInMulticastPkts := BinaryDecoder D_uint32 in
  let* ifInBroadcastPkts := BinaryDecoder D_uint32 in
  let* ifInDiscards := BinaryDecoder D_uint32 in
  let* ifInErrors := BinaryDecoder D_uint32 in
  let* ifInUnknownProtos := BinaryDecoder D_uint32 in
  let* ifOutOctets := BinaryDecoder D_uint64 in
  let* ifOutUcastPkts := BinaryDecoder D_uint32 in
  let* ifOutMulticastPkts := BinaryDecoder D_uint32 in
  let* ifOutBroadcastPkts := BinaryDecoder D_uint32 in
  let* ifOutDiscards := BinaryDecoder D_uint32 in
  let* ifOutErrors := BinaryDecoder D_uint32 in
  let* ifPromiscuousMode := BinaryDecoder D_uint32 in
  ret (CV_IfCounters {| IfIndex := ifIndex; IfType := ifType; IfSpeed := ifSpeed;
         IfDirection := ifDirection; IfStatus := ifStatus; IfInOctets := ifInOctets;
         IfInUcastPkts := ifInUcastPkts; IfInMulticastPkts := ifInMulticastPkts;
         IfInBroadcastPkts := ifInBroadcastPkts; IfInDiscards := ifInDiscards;
         IfInErrors := ifInErrors; IfInUnknownProtos := ifInUnknownProtos;
         IfOutOctets := ifOutOctets; IfOutUcastPkts := ifOutUcastPkts;
         IfOutMulticastPkts := ifOutMulticastPkts; IfOutBroadcastPkts := ifOutBroadcastPkts;
         IfOutDiscards := ifOutDiscards; IfOutErrors := ifOutErrors;
         IfPromiscuousMode := ifPromiscuousMode |}).

Definition decodeEthernetCounters : M counter_value :=
  let* alignmentErrors := BinaryDecoder D_uint32 in
  let* fcsErrors := BinaryDecoder D_uint32 in
  let* singleCollisionFrames := BinaryDecoder D_uint32 in
  let* multipleCollisionFrames := BinaryDecoder D_uint32 in
  let* sqeTestErrors := BinaryDecoder D_uint32 in
  let* deferredTransmissions := BinaryDecoder D_uint32 in
  let* lateCollisions := BinaryDecoder D_uint32 in
  let* excessiveCollisions := BinaryDecoder D_uint32 in
  let* internalMacTransmitErrors := BinaryDecoder D_uint32 in
  let* carrierSenseErrors := BinaryDecoder D_uint32 in
  let* frameTooLongs := BinaryDecoder D_uint32 in
  let* internalMacReceiveErrors := BinaryDecoder D_uint32 in
  let* symbolErrors := BinaryDecoder D_uint32 in
  ret (CV_EthernetCounters {| Dot3StatsAlignmentErrors := alignmentErrors;
         Dot3StatsFCSErrors := fcsErrors;
         Dot3StatsSingleCollisionFrames := singleCollisionFrames;
         Dot3StatsMultipleCollisionFrames := multipleCollisionFrames;
         Dot3StatsSQETestErrors := sqeTestErrors;
         Dot3StatsDeferredTransmissions := deferredTransmissions;
         Dot3StatsLateCollisions := lateCollisions;
         Dot3StatsExcessiveCollisions := excessiveCollisions;
         Dot3StatsInternalMacTransmitErrors := internalMacTransmitErrors;
         Dot3StatsCarrierSenseErrors := carrierSenseErrors;
         Dot3StatsFrameTooLongs := frameTooLongs;
         Dot3StatsInternalMacReceiveErrors := internalMacReceiveErrors;
         Dot3StatsSymbolErrors := symbolErrors |}).

Definition DecodeCounterRecord_switch (format : Z) : M counter_value :=
  if format =? COUNTER_TYPE_IF then decodeIfCounters
  else if format =? COUNTER_TYPE_ETH then decodeEthernetCounters
  else let* raw := decodeRawRecord in ret (CV_RawRecord raw).

Definition DecodeCounterRecord (header : RecordHeader) : M CounterRecord :=
  if negb (DataFormatEnterprise (DataFormat header) =? 0) then
    let* raw := decodeRawRecord in
    ret {| rHeader := header; rData := Some (Val (CV_RawRecord raw)) |}
  else
    let* data := errctx (RecordError (DataFormat header))
      (DecodeCounterRecord_switch (DataFormatFormat (DataFormat header))) in
    ret {| rHeader := header; rData := Some (Val data) |}.

(** ** Samples *)

(** The sequence number and the data source, interlaced or explicit; fills the header. *)
Definition decodeSampleSource (format seq : Z) : M (Z * Z) :=
  if (format =? SAMPLE_FORMAT_FLOW) || (format =? SAMPLE_FORMAT_COUNTER) then
    let* sourceId := errctx (fun e => FlowError format seq (Wrap "header source" [] e))
      (BinaryDecoder D_uint32) in
    ret (Z.shiftr sourceId 24, Z.land sourceId 0x00ffffff)
  else if (format =? SAMPLE_FORMAT_EXPANDED_FLOW) || (format =? SAMPLE_FORMAT_EXPANDED_COUNTER)
          || (format =? SAMPLE_FORMAT_DROP) then
    errctx (fun e => FlowError format seq (Wrap "header source" [] e))
      (let* sourceIdType := BinaryDecoder D_uint32 in
       let* sourceIdValue := BinaryDecoder D_uint32 in
       ret (sourceIdType, sourceIdValue))
  else fail (FlowError format seq (Errorf "unknown format" [format])).

(** [recordsCount > 1000] is refused before the slice of records is made. *)
Definition checkRecordsCount (format seq recordsCount : Z) : M unit :=
  if 1000 <? recordsCount then
    fail (FlowError format seq (Errorf "too many flow records" [recordsCount]))
  else makeslice recordsCount.

Definition more_records (b : bytes) : bool := 8 <=? len b.

(** One iteration of the record loop; [None] is the [break]. *)
Definition decodeRecordAt {A} (format seq : Z) (typ : string) (decode : RecordHeader -> M A)
    : M (option A) :=
  let* (dataFormat, length) :=
    errctx (fun e => FlowError format seq (Wrap "record header" [] e))
      (let* dataFormat := BinaryDecoder D_uint32 in
       let* length := BinaryDecoder D_uint32 in
       ret (dataFormat, length)) in
  let* n := Len in
  if n <? length then ret None
  else
    let* data := Next length in
    let* record := errctx (fun e => FlowError format seq (Wrap typ [] e))
      (on_buffer data (decode {| DataFormat := dataFormat; rhLength := length |})) in
    ret (Some record).

(** The record loop over [make([]T, recordsCount)]: the records it did not reach stay zero. *)
Definition decodeRecords {V} (format seq recordsCount : Z) (typ : string)
    (decode : RecordHeader -> M (record V)) : M (list (record V)) :=
  let* records := forWhileM (Z.to_nat recordsCount) 0 more_records
    (fun _ => decodeRecordAt format seq typ decode) in
  ret (fill (Z.to_nat recordsCount) zero_record records).

Definition decodeFlowSample (header : SampleHeader) (format seq : Z) : M sample_value :=
  let* (samplingRate, samplePool, drops, input, output, recordsCount) :=
    errctx (fun e => FlowError format seq (Wrap "raw" [] e))
      (let* samplingRate := BinaryDecoder D_uint32 in
       let* samplePool := BinaryDecoder D_uint32 in
       let* drops := BinaryDecoder D_uint32 in
       let* input := BinaryDecoder D_uint32 in
       let* output := BinaryDecoder D_uint32 in
       let* recordsCount := BinaryDecoder D_uint32 in
       ret (samplingRate, samplePool, drops, input, output, recordsCount)) in
  checkRecordsCount format seq recordsCount ;;;
  let* records := decodeRecords format seq recordsCount "record" DecodeFlowRecord in
  ret (SV_FlowSample {| fsHeader := header; fsSamplingRate := samplingRate;
         fsSamplePool := samplePool; fsDrops := drops; fsInput := input; fsOutput := output;
         fsFlowRecordsCount := recordsCount; fsRecords := records |}).

Definition decodeCounterSample (header : SampleHeader) (format seq : Z) : M sample_value :=
  let* recordsCount := errctx (fun e => FlowError format seq (Wrap "eth" [] e))
    (BinaryDecoder D_uint32) in
  checkRecordsCount format seq recordsCount ;;;
  let* records := decodeRecords format seq recordsCount "counter" DecodeCounterRecord in
  ret (SV_CounterSample {| csHeader := header; CounterRecordsCount := recordsCount;
         csRecords := records |}).

Definition decodeExpandedFlowSample (header : SampleHeader) (format seq : Z) : M sample_value :=
  let* (samplingRate, samplePool, drops, (inFormat, inValue, outFormat, outValue), recordsCount) :=
    errctx (fun e => FlowError format seq (Wrap "IPv4" [] e))
      (let* samplingRate := BinaryDecoder D_uint32 in
       let* samplePool := BinaryDecoder D_uint32 in
       let* drops := BinaryDecoder D_uint32 in
       let* inFormat := BinaryDecoder D_uint32 in
       let* inValue := BinaryDecoder D_uint32 in
       let* outFormat := BinaryDecoder D_uint32 in
       let* outValue := BinaryDecoder D_uint32 in
       let* recordsCount := BinaryDecoder D_uint32 in
       ret (samplingRate, samplePool, drops, (inFormat, inValue, outFormat, outValue), recordsCount)) in
  checkRecordsCount format seq recordsCount ;;;
  let* records := decodeRecords format seq recordsCount "record" DecodeFlowRecord in
  ret (SV_ExpandedFlowSample {| esHeader := header; esSamplingRate := samplingRate;
         esSamplePool := samplePool; esDrops := drops; InputIfFormat := inFormat;
         InputIfValue := inValue; OutputIfFormat := outFormat; OutputIfValue := outValue;
         esFlowRecordsCount := recordsCount; esRecords := records |}).

Definition decodeDropSample (header : SampleHeader) (format seq : Z) : M sample_value :=
  let* (drops, input, output, reason, recordsCount) :=
    errctx (fun e => FlowError format seq (Wrap "raw" [] e))
      (let* drops := BinaryDecoder D_uint32 in
       let* input := BinaryDecoder D_uint32 in
       let* output := BinaryDecoder D_uint32 in
       let* reason := BinaryDecoder D_uint32 in
       let* recordsCount := BinaryDecoder D_uint32 in
       ret (drops, input, output, reason, recordsCount)) in
  checkRecordsCount format seq recordsCount ;;;
  let* records := decodeRecords format seq recordsCount "record" DecodeFlowRecord in
  ret (SV_DropSample {| dsHeader := header; dsDrops := drops; dsInput := input;
         dsOutput := output; Reason := reason; dsFlowRecordsCount := recordsCount;
         dsRecords := records |}).

Definition DecodeSample (header : SampleHeader) : M sample_value :=
  let format := Format header in
  let* seq := errctx (Wrap "header seq" []) (BinaryDecoder D_uint32) in
  let* (sourceIdType, sourceIdValue) := decodeSampleSource format seq in
  let header := {| Format := format; sLength := sLength header; SampleSequenceNumber := seq;
                   SourceIdType := sourceIdType; SourceIdValue := sourceIdValue |} in
  if format =? SAMPLE_FORMAT_FLOW then decodeFlowSample header format seq
  else if (format =? SAMPLE_FORMAT_COUNTER) || (format =? SAMPLE_FORMAT_EXPANDED_COUNTER) then
    decodeCounterSample header format seq
  else if format =? SAMPLE_FORMAT_EXPANDED_FLOW then decodeExpandedFlowSample header format seq
  else decodeDropSample header format seq.

(** ** Datagrams *)

Definition decodeAgentIP (ipVersion : Z) : M bytes :=
  if ipVersion =? 0 then ret []
  else if ipVersion =? 1 then
    errctx (fun e => DecoderError (Wrap "IPv4" [] e)) (BinaryDecoder (D_uint8s 4))
  else if ipVersion =? 2 then
    errctx (fun e => DecoderError (Wrap "IPv6" [] e)) (BinaryDecoder (D_uint8s 16))
  else fail (DecoderError (Errorf "unknown IP version" [ipVersion])).

(** One iteration of the sample loop. *)
Definition decodeSampleAt (i : Z) : M sample :=
  let* n := Len in
  if n <? 8 then fail (DecoderError (Errorf "sample header truncated" [i; n]))
  else
    let* (format, length) := errctx (fun e => DecoderError (Wrap "header" [] e))
      (let* format := BinaryDecoder D_uint32 in
       let* length := BinaryDecoder D_uint32 in
       ret (format, length)) in
    let* n := Len in
    if n <? length then
      fail (DecoderError (Errorf "sample length exceeds remaining payload" [i; length; n]))
    else
      let header := {| Format := format; sLength := length; SampleSequenceNumber := 0;
                       SourceIdType := 0; SourceIdValue := 0 |} in
      let* data := Next length in
      if negb (DataFormatEnterprise format =? 0) || negb (isKnownSampleFormat (DataFormatFormat format))
      then ret (Some (Val (SV_RawSample {| rsHeader := header; rsData := data |})))
      else
        let* sample := errctx (fun e => DecoderError (Wrap "sample" [] e))
          (on_buffer data (DecodeSample header)) in
        ret (Some (Val sample)).

Definition DecodeMessage (version : Z) : M Packet :=
  let* ipVersion := errctx (fun e => DecoderError (Wrap "IP version" [] e))
    (BinaryDecoder D_uint32) in
  let* ip := decodeAgentIP ipVersion in
  let* (subAgentId, sequenceNumber, uptime, samplesCount) :=
    errctx (fun e => DecoderError (Wrap "header" [] e))
      (let* subAgentId := BinaryDecoder D_uint32 in
       let* sequenceNumber := BinaryDecoder D_uint32 in
       let* uptime := BinaryDecoder D_uint32 in
       let* samplesCount := BinaryDecoder D_uint32 in
       ret (subAgentId, sequenceNumber, uptime, samplesCount)) in
  if 1000 <? samplesCount then fail (DecoderError (Errorf "too many samples" [samplesCount]))
  else
    makeslice samplesCount ;;;
    let* samples := forM (Z.to_nat samplesCount) 0 decodeSampleAt in
    ret {| Version := version; IPVersion := ipVersion; AgentIP := ip; SubAgentId := subAgentId;
           SequenceNumber := sequenceNumber; Uptime := uptime; SamplesCount := samplesCount;
           Samples := samples |}.

Definition DecodeMessageVersion : M Packet :=
  let* version := errctx (fun e => DecoderError (Wrap "version" [] e)) (BinaryDecoder D_uint32) in
  if negb (version =? 5) then fail (DecoderError (Errorf "unknown version" [version]))
  else DecodeMessage version.
