(* ===== verification/SflowEncode.v ===== *)
(** * decoders/sflow: the sFlow v5 encoder (encode.go, xdr.go)

    Every case of the Go type switches comes twice, for a value and for a pointer, with the
    same body; a nil pointer panics when its first field is read. *)
From S2P Require Import Prelude DecodersUtils SflowTypes SflowDecode.

(** ** XDR *)

Definition writeXDRPadding (length : Z) : M unit :=
  let padding := xdr_padding length in
  if padding =? 0 then ret tt else Write (replicate (Z.to_nat padding) 0).

Definition writeXDROpaque (data : bytes) : M unit :=
  WriteU32 (to_uint 32 (len data)) ;;;
  Write data ;;;
  writeXDRPadding (to_uint 32 (len data)).

Definition writeXDRString (value : bytes) : M unit := writeXDROpaque value.

(** ** Addresses and vectors *)

Definition encodeIP_checked (ipVersion : Z) (ip : bytes) : M unit :=
  if ((ipVersion =? 1) && negb (len ip =? 4)) || ((ipVersion =? 2) && negb (len ip =? 16)) then
    fail (Errorf "sflow: IP length does not match ip-version" [len ip; ipVersion])
  else
    WriteU32 ipVersion ;;;
    Write ip.

Definition encodeIP (ipVersion : Z) (ip : bytes) : M unit :=
  if ipVersion =? 0 then
    if len ip =? 0 then WriteU32 0
    else if len ip =? 4 then encodeIP_checked 1 ip
    else if len ip =? 16 then encodeIP_checked 2 ip
    else fail (Errorf "sflow: invalid IP length" [len ip])
  else encodeIP_checked ipVersion ip.

Definition writeU32Vector (values : list Z) : M unit :=
  WriteU32 (to_uint 32 (len values)) ;;;
  rangeM values WriteU32.

(** ** Flow records *)

Definition encodeSampledHeader (data : SampledHeader) : M unit :=
  WriteU32 (shProtocol data) ;;;
  WriteU32 (shFrameLength data) ;;;
  WriteU32 (shStripped data) ;;;
  WriteU32 (shOriginalLength data) ;;;
  Write (shHeaderData data) ;;;
  writeXDRPadding (shOriginalLength data).

Definition encodeSampledEthernet (data : SampledEthernet) : M unit :=
  if negb (len (seSrcMac data) =? 6) || negb (len (seDstMac data) =? 6) then
    fail (Errorf "sflow: ethernet MAC length must be 6" [])
  else
    WriteU32 (seLength data) ;;;
    Write (seSrcMac data) ;;;
    WriteU16 0 ;;;
    Write (seDstMac data) ;;;
    WriteU16 0 ;;;
    WriteU32 (seEthType data).

Definition encodeSampledIPBase (data : SampledIPBase) : M unit :=
  WriteU32 (ipLength data) ;;;
  WriteU32 (ipProtocol data) ;;;
  Write (ipSrcIP data) ;;;
  Write (ipDstIP data) ;;;
  WriteU32 (ipSrcPort data) ;;;
  WriteU32 (ipDstPort data) ;;;
  WriteU32 (ipTcpFlags data).

Definition encodeSampledIPv4 (data : SampledIPv4) : M unit :=
  if negb (len (ipSrcIP (v4Base data)) =? 4) || negb (len (ipDstIP (v4Base data)) =? 4) then
    fail (Errorf "sflow: IPv4 length must be 4" [])
  else
    encodeSampledIPBase (v4Base data) ;;;
    WriteU32 (v4Tos data).

Definition encodeSampledIPv6 (data : SampledIPv6) : M unit :=
  if negb (len (ipSrcIP (v6Base data)) =? 16) || negb (len (ipDstIP (v6Base data)) =? 16) then
    fail (Errorf "sflow: IPv6 length must be 16" [])
  else
    encodeSampledIPBase (v6Base data) ;;;
    WriteU32 (v6Priority data).

Definition encodeExtendedSwitch (data : ExtendedSwitch) : M unit :=
  WriteU32 (SrcVlan data) ;;;
  WriteU32 (SrcPriority data) ;;;
  WriteU32 (DstVlan data) ;;;
  WriteU32 (DstPriority data).

Definition encodeExtendedRouter (data : ExtendedRouter) : M unit :=
  encodeIP (rNextHopIPVersion data) (rNextHop data) ;;;
  WriteU32 (SrcMaskLen data) ;;;
  WriteU32 (DstMaskLen data).

(** The AS path block: one segment, or nothing. *)
Definition encodeASPath (data : ExtendedGateway) : M unit :=
  let asPathLen := if (ASPathLength data =? 0) && (0 <? len (ASPath data))
                   then to_uint 32 (len (ASPath data)) else ASPathLength data in
  if 0 <? asPathLen then
    if negb (asPathLen =? len (ASPath data)) then
      fail (Errorf "sflow: AS path length mismatch" [asPathLen; len (ASPath data)])
    else
      WriteU32 (ASPathType data) ;;;
      WriteU32 asPathLen ;;;
      rangeM (ASPath data) WriteU32
  else ret tt.

Definition encodeCommunities (data : ExtendedGateway) : M unit :=
  let commLen := if (CommunitiesLength data =? 0) && (0 <? len (Communities data))
                 then to_uint 32 (len (Communities data)) else CommunitiesLength data in
  if negb (commLen =? len (Communities data)) then
    fail (Errorf "sflow: communities length mismatch" [commLen; len (Communities data)])
  else
    WriteU32 commLen ;;;
    rangeM (Communities data) WriteU32.

Definition encodeExtendedGateway (data : ExtendedGateway) : M unit :=
  encodeIP (gNextHopIPVersion data) (gNextHop data) ;;;
  WriteU32 (AS_ data) ;;;
  WriteU32 (gSrcAS data) ;;;
  WriteU32 (gSrcPeerAS data) ;;;
  WriteU32 (ASDestinations data) ;;;
  encodeASPath data ;;;
  encodeCommunities data ;;;
  WriteU32 (LocalPref data).

Definition encodeExtendedMPLS (data : ExtendedMPLS) : M unit :=
  encodeIP (mNextHopIPVersion data) (mNextHop data) ;;;
  writeU32Vector (InLabelStack data) ;;;
  writeU32Vector (OutLabelStack data).

Definition encodeExtendedNAT (data : ExtendedNAT) : M unit :=
  encodeIP (SrcAddressIPVersion data) (SrcAddress data) ;;;
  encodeIP (DstAddressIPVersion data) (DstAddress data).

Definition encodeExtendedMPLSTunnel (data : ExtendedMPLSTunnel) : M unit :=
  writeXDRString (TunnelLSPName data) ;;;
  WriteU32 (TunnelID data) ;;;
  WriteU32 (TunnelCOS data).

Definition encodeExtendedMPLSVC (data : ExtendedMPLSVC) : M unit :=
  writeXDRString (VCInstanceName data) ;;;
  WriteU32 (VLLVCID data) ;;;
  WriteU32 (VCLabelCOS data).

Definition encodeExtendedMPLSFTN (data : ExtendedMPLSFTN) : M unit :=
  writeXDRString (MPLSFTNDescr data) ;;;
  WriteU32 (MPLSFTNMask data).

Definition encodeExtendedACL (data : ExtendedACL) : M unit :=
  WriteU32 (aclNumber data) ;;;
  writeXDRString (aclName data) ;;;
  WriteU32 (aclDirection data).

(** The payload of a flow record, by the type of its data. *)
Definition encodeFlowValue (data : flow_value) : M unit :=
  match data with
  | FV_SampledHeader d => encodeSampledHeader d
  | FV_SampledEthernet d => encodeSampledEthernet d
  | FV_SampledIPv4 d => encodeSampledIPv4 d
  | FV_SampledIPv6 d => encodeSampledIPv6 d
  | FV_ExtendedSwitch d => encodeExtendedSwitch d
  | FV_ExtendedRouter d => encodeExtendedRouter d
  | FV_ExtendedGateway d => encodeExtendedGateway d
  | FV_ExtendedMPLS d => encodeExtendedMPLS d
  | FV_ExtendedNAT d => encodeExtendedNAT d
  | FV_ExtendedMPLSTunnel d => encodeExtendedMPLSTunnel d
  | FV_ExtendedMPLSVC d => encodeExtendedMPLSVC d
  | FV_ExtendedMPLSFTN d => encodeExtendedMPLSFTN d
  | FV_ExtendedMPLSLDPFEC d => WriteU32 (MPLSFecAddrPrefixLength d)
  | FV_EgressQueue d => WriteU32 (Queue d)
  | FV_ExtendedACL d => encodeExtendedACL d
  | FV_ExtendedFunction d => writeXDRString (Symbol d)
  | FV_RawRecord d => Write (rawData d)
  end.

(** The data format of a record whose header leaves it unset (a raw record has none). *)
Definition flowValueFormat (data : flow_value) : Z :=
  match data with
  | FV_SampledHeader _ => FLOW_TYPE_RAW
  | FV_SampledEthernet _ => FLOW_TYPE_ETH
  | FV_SampledIPv4 _ => FLOW_TYPE_IPV4
  | FV_SampledIPv6 _ => FLOW_TYPE_IPV6
  | FV_ExtendedSwitch _ => FLOW_TYPE_EXT_SWITCH
  | FV_ExtendedRouter _ => FLOW_TYPE_EXT_ROUTER
  | FV_ExtendedGateway _ => FLOW_TYPE_EXT_GATEWAY
  | FV_ExtendedMPLS _ => FLOW_TYPE_EXT_MPLS
  | FV_ExtendedNAT _ => FLOW_TYPE_EXT_NAT
  | FV_ExtendedMPLSTunnel _ => FLOW_TYPE_EXT_MPLS_TUNNEL
  | FV_ExtendedMPLSVC _ => FLOW_TYPE_EXT_MPLS_VC
  | FV_ExtendedMPLSFTN _ => FLOW_TYPE_EXT_MPLS_FEC
  | FV_ExtendedMPLSLDPFEC _ => FLOW_TYPE_EXT_MPLS_LVP_FEC
  | FV_EgressQueue _ => FLOW_TYPE_EGRESS_QUEUE
  | FV_ExtendedACL _ => FLOW_TYPE_EXT_ACL
  | FV_ExtendedFunction _ => FLOW_TYPE_EXT_FUNCTION
  | FV_RawRecord _ => 0
  end.

(** Write the data format, the length and the payload of a record; [what] is the kind of
    record in the messages. *)
Definition encodeRecord {V} (what : string) (format : V -> Z) (encode : V -> M unit)
    (record : record V) : M unit :=
  match rData record with
  | None => fail (Errorf ("sflow: unsupported " ++ what ++ " record type") [])
  | Some b =>
      match unbox b with
      | None => panic "nil pointer dereference"
      | Some data =>
          let dataFormat := if DataFormat (rHeader record) =? 0 then format data
                            else DataFormat (rHeader record) in
          let* payload := lift (written (encode data)) in
          if dataFormat =? 0 then
            fail (Errorf ("sflow: " ++ what ++ " record data-format is not set") [])
          else
            WriteU32 dataFormat ;;;
            WriteU32 (to_uint 32 (len payload)) ;;;
            Write payload
      end
  end.

Definition encodeFlowRecord (record : FlowRecord) : M unit :=
  encodeRecord "flow" flowValueFormat encodeFlowValue record.

(** ** Counter records *)

Definition encodeIfCounters (data : IfCounters) : M unit :=
  WriteU32 (IfIndex data) ;;;
  WriteU32 (IfType data) ;;;
  WriteU64 (IfSpeed data) ;;;
  WriteU32 (IfDirection data) ;;;
  WriteU32 (IfStatus data) ;;;
  WriteU64 (IfInOctets data) ;;;
  WriteU32 (IfInUcastPkts data) ;;;
  WriteU32 (IfInMulticastPkts data) ;;;
  WriteU32 (IfInBroadcastPkts data) ;;;
  WriteU32 (IfInDiscards data) ;;;
  WriteU32 (IfInErrors data) ;;;
  WriteU32 (IfInUnknownProtos data) ;;;
  WriteU64 (IfOutOctets data) ;;;
  WriteU32 (IfOutUcastPkts data) ;;;
  WriteU32 (IfOutMulticastPkts data) ;;;
  WriteU32 (IfOutBroadcastPkts data) ;;;
  WriteU32 (IfOutDiscards data) ;;;
  WriteU32 (IfOutErrors data) ;;;
  WriteU32 (IfPromiscuousMode data).

Definition encodeEthernetCounters (data : EthernetCounters) : M unit :=
  WriteU32 (Dot3StatsAlignmentErrors data) ;;;
  WriteU32 (Dot3StatsFCSErrors data) ;;;
  WriteU32 (Dot3StatsSingleCollisionFrames data) ;;;
  WriteU32 (Dot3StatsMultipleCollisionFrames data) ;;;
  WriteU32 (Dot3StatsSQETestErrors data) ;;;
  WriteU32 (Dot3StatsDeferredTransmissions data) ;;;
  WriteU32 (Dot3StatsLateCollisions data) ;;;
  WriteU32 (Dot3StatsExcessiveCollisions data) ;;;
  WriteU32 (Dot3StatsInternalMacTransmitErrors data) ;;;
  WriteU32 (Dot3StatsCarrierSenseErrors data) ;;;
  WriteU32 (Dot3StatsFrameTooLongs data) ;;;
  WriteU32 (Dot3StatsInternalMacReceiveErrors data) ;;;
  WriteU32 (Dot3StatsSymbolErrors data).

Definition encodeCounterValue (data : counter_value) : M unit :=
  match data with
  | CV_IfCounters d => encodeIfCounters d
  | CV_EthernetCounters d => encodeEthernetCounters d
  | CV_RawRecord d => Write (rawData d)
  end.

Definition counterValueFormat (data : counter_value) : Z :=
  match data with
  | CV_IfCounters _ => COUNTER_TYPE_IF
  | CV_EthernetCounters _ => COUNTER_TYPE_ETH
  | CV_RawRecord _ => 0
  end.

Definition encodeCounterRecord (record : CounterRecord) : M unit :=
  encodeRecord "counter" counterValueFormat encodeCounterValue record.

(** ** Samples *)

Definition encodeSampleHeader (header : SampleHeader) (format : Z) : M unit :=
  WriteU32 (SampleSequenceNumber header) ;;;
  if (format =? SAMPLE_FORMAT_FLOW) || (format =? SAMPLE_FORMAT_COUNTER) then
    WriteU32 (Z.lor (to_uint 32 (Z.shiftl (SourceIdType header) 24))
                    (Z.land (SourceIdValue header) 0x00ffffff))
  else if (format =? SAMPLE_FORMAT_EXPANDED_FLOW) || (format =? SAMPLE_FORMAT_EXPANDED_COUNTER)
          || (format =? SAMPLE_FORMAT_DROP) then
    WriteU32 (SourceIdType header) ;;;
    WriteU32 (SourceIdValue header)
  else fail (Errorf "sflow: unknown sample format" [format]).

(** The count of the records (that of the header, or the actual one when it is unset and a
    mismatch otherwise), then the records. *)
Definition encodeRecords {A} (what : string) (count : Z) (records : list A) (encode : A -> M unit)
    : M unit :=
  let recordsCount := if count =? 0 then to_uint 32 (len records) else count in
  if negb (recordsCount =? len records) then
    fail (Errorf ("sflow: " ++ what ++ " records-count mismatch") [recordsCount; len records])
  else
    WriteU32 recordsCount ;;;
    rangeM records encode.

Definition encodeFlowSample (sample : FlowSample) (format : Z) : res bytes :=
  if negb (format =? SAMPLE_FORMAT_FLOW) then
    Err (Errorf "sflow: invalid flow sample format" [format])
  else
    written
      (encodeSampleHeader (fsHeader sample) format ;;;
       WriteU32 (fsSamplingRate sample) ;;;
       WriteU32 (fsSamplePool sample) ;;;
       WriteU32 (fsDrops sample) ;;;
       WriteU32 (fsInput sample) ;;;
       WriteU32 (fsOutput sample) ;;;
       encodeRecords "flow" (fsFlowRecordsCount sample) (fsRecords sample) encodeFlowRecord).

Definition encodeExpandedFlowSample (sample : ExpandedFlowSample) (format : Z) : res bytes :=
  if negb (format =? SAMPLE_FORMAT_EXPANDED_FLOW) then
    Err (Errorf "sflow: invalid expanded flow sample format" [format])
  else
    written
      (encodeSampleHeader (esHeader sample) format ;;;
       WriteU32 (esSamplingRate sample) ;;;
       WriteU32 (esSamplePool sample) ;;;
       WriteU32 (esDrops sample) ;;;
       WriteU32 (InputIfFormat sample) ;;;
       WriteU32 (InputIfValue sample) ;;;
       WriteU32 (OutputIfFormat sample) ;;;
       WriteU32 (OutputIfValue sample) ;;;
       encodeRecords "expanded flow" (esFlowRecordsCount sample) (esRecords sample)
         encodeFlowRecord).

Definition encodeDropSample (sample : DropSample) (format : Z) : res bytes :=
  if negb (format =? SAMPLE_FORMAT_DROP) then
    Err (Errorf "sflow: invalid drop sample format" [format])
  else
    written
      (encodeSampleHeader (dsHeader sample) format ;;;
       WriteU32 (dsDrops sample) ;;;
       WriteU32 (dsInput sample) ;;;
       WriteU32 (dsOutput sample) ;;;
       WriteU32 (Reason sample) ;;;
       encodeRecords "drop" (dsFlowRecordsCount sample) (dsRecords sample) encodeFlowRecord).

Definition encodeCounterSample (sample : CounterSample) (format : Z) : res bytes :=
  if negb (format =? SAMPLE_FORMAT_COUNTER) && negb (format =? SAMPLE_FORMAT_EXPANDED_COUNTER) then
    Err (Errorf "sflow: invalid counter sample format" [format])
  else
    written
      (encodeSampleHeader (csHeader sample) format ;;;
       encodeRecords "counter" (CounterRecordsCount sample) (csRecords sample)
         encodeCounterRecord).

(** The format of the header, or that of the type when it is unset. *)
Definition sampleFormat (header : SampleHeader) (default : Z) : Z :=
  if Format header =? 0 then default else Format header.

Definition encodeSampleValue (s : sample_value) : res (bytes * Z) :=
  match s with
  | SV_FlowSample s =>
      let format := sampleFormat (fsHeader s) SAMPLE_FORMAT_FLOW in
      rbind (encodeFlowSample s format) (fun payload => Ok (payload, format))
  | SV_CounterSample s =>
      let format := sampleFormat (csHeader s) SAMPLE_FORMAT_COUNTER in
      rbind (encodeCounterSample s format) (fun payload => Ok (payload, format))
  | SV_ExpandedFlowSample s =>
      let format := sampleFormat (esHeader s) SAMPLE_FORMAT_EXPANDED_FLOW in
      rbind (encodeExpandedFlowSample s format) (fun payload => Ok (payload, format))
  | SV_DropSample s =>
      let format := sampleFormat (dsHeader s) SAMPLE_FORMAT_DROP in
      rbind (encodeDropSample s format) (fun payload => Ok (payload, format))
  | SV_RawSample s =>
      if Format (rsHeader s) =? 0 then Err (Errorf "sflow: raw sample format is not set" [])
      else Ok (rsData s, Format (rsHeader s))
  end.

Definition encodeSample (s : sample) : res (bytes * Z) :=
  match s with
  | None => Err (Errorf "sflow: unsupported sample type" [])
  | Some b =>
      match unbox b with
      | None => Panic "nil pointer dereference"
      | Some v => encodeSampleValue v
      end
  end.

(** ** Datagrams *)

(** One iteration of the sample loop of [EncodeMessage]. *)
Definition encodeSampleAt (s : sample) : M unit :=
  let* (payload, format) := lift (encodeSample s) in
  WriteU32 format ;;;
  WriteU32 (to_uint 32 (len payload)) ;;;
  Write payload.

Definition encodeDatagram (packet : Packet) (version ipVersion : Z) : res bytes :=
  let agentIP := AgentIP packet in
  if ((ipVersion =? 1) && negb (len agentIP =? 4)) || ((ipVersion =? 2) && negb (len agentIP =? 16))
  then Err (Errorf "sflow: agent IP length does not match ip-version" [len agentIP; ipVersion])
  else
    let samplesCount := if SamplesCount packet =? 0 then to_uint 32 (len (Samples packet))
                        else SamplesCount packet in
    if negb (samplesCount =? len (Samples packet)) then
      Err (Errorf "sflow: samples-count mismatch" [samplesCount; len (Samples packet)])
    else
      written
        (WriteU32 version ;;;
         WriteU32 ipVersion ;;;
         Write agentIP ;;;
         WriteU32 (SubAgentId packet) ;;;
         WriteU32 (SequenceNumber packet) ;;;
         WriteU32 (Uptime packet) ;;;
         WriteU32 samplesCount ;;;
         rangeM (Samples packet) encodeSampleAt).

Definition EncodeMessage (packet : option Packet) : res bytes :=
  match packet with
  | None => Err (Errorf "sflow: nil packet" [])
  | Some packet =>
      let version := if Version packet =? 0 then 5 else Version packet in
      if negb (version =? 5) then Err (Errorf "sflow: unsupported version" [version])
      else if IPVersion packet =? 0 then
        if len (AgentIP packet) =? 4 then encodeDatagram packet version 1
        else if len (AgentIP packet) =? 16 then encodeDatagram packet version 2
        else Err (Errorf "sflow: invalid agent IP length" [len (AgentIP packet)])
      else encodeDatagram packet version (IPVersion packet)
  end.

Definition MarshalBinary (p : option Packet) : res bytes := EncodeMessage p.
