(* ===== verification/SflowRoundtrip.v ===== *)
(** * decoders/sflow: decoding inverts encoding

    Wire layout of addresses, XDR opaques, records, samples and datagrams.  The encoder fills
    in what a packet leaves unset (versions, formats, lengths, counts); [complete_*] is that
    filled-in form, and it is what the decoder reads back. *)
From S2P Require Import Prelude DecodersUtils SflowTypes SflowDecode SflowEncode.

(** ** Reads that look at the length of the buffer *)

Lemma reads_Len {A} (k : Z -> M A) bs a :
  (forall n, len bs <= n -> reads (k n) bs a) -> reads (bind Len k) bs a.
Proof.
  intros H rest. unfold bind, Len. apply H. rewrite len_app. pose proof (len_nonneg rest). lia.
Qed.

(** ** XDR opaques *)

Definition pad_bytes (n : Z) : bytes := replicate (Z.to_nat (xdr_padding n)) 0.
Definition xdr_bytes (s : bytes) : bytes := be_put 4 (len s) ++ s ++ pad_bytes (len s).
Definition xdr_ok (s : bytes) : Prop := is_bytes s /\ len s < 2 ^ 32.

Lemma xdr_padding_bounds n : 0 <= xdr_padding n < 4.
Proof. apply Z.mod_pos_bound. lia. Qed.

(** Opaques are padded to a multiple of four bytes. *)
Lemma xdr_padding_mod n : 0 <= n -> (n + xdr_padding n) mod 4 = 0.
Proof.
  intros Hn. unfold xdr_padding. pose proof (Z.mod_pos_bound n 4 ltac:(lia)).
  rewrite to_uint_small by (split; lia). rewrite Zplus_mod_idemp_r.
  pose proof (Z.div_mod n 4 ltac:(lia)).
  replace (n + (4 - n mod 4)) with ((n / 4 + 1) * 4) by lia. by rewrite Z.mod_mul.
Qed.

Lemma xdr_padding_zero n : 0 <= n -> n mod 4 = 0 -> xdr_padding n = 0.
Proof. intros Hn H. unfold xdr_padding. by rewrite H. Qed.

Lemma len_pad_bytes n : len (pad_bytes n) = xdr_padding n.
Proof. unfold pad_bytes. rewrite len_replicate. pose proof (xdr_padding_bounds n). lia. Qed.

Lemma writes_writeXDRPadding n : writes (writeXDRPadding n) (pad_bytes n).
Proof.
  unfold writeXDRPadding, pad_bytes. destruct (Z.eqb_spec (xdr_padding n) 0) as [->|_].
  - apply writes_ret.
  - apply writes_Write.
Qed.
#[export] Hint Resolve writes_writeXDRPadding : writes.

Lemma writes_writeXDRString s : len s < 2 ^ 32 -> writes (writeXDRString s) (xdr_bytes s).
Proof.
  intros Hl. unfold writeXDRString, writeXDROpaque, xdr_bytes.
  pose proof (len_nonneg s). rewrite to_uint_small by (split; lia).
  write_steps. apply writes_writeXDRPadding.
Qed.

Lemma reads_readXDROpaqueWithLength s :
  reads (readXDROpaqueWithLength (len s)) (s ++ pad_bytes (len s)) s.
Proof.
  unfold readXDROpaqueWithLength. apply reads_Len. intros n Hn. pose proof (len_nonneg s).
  rewrite len_app, len_pad_bytes in Hn. pose proof (xdr_padding_bounds (len s)).
  destruct (Z.ltb_spec n (len s)); [lia|]. eapply reads_bind; [by apply reads_Next|]. cbv zeta.
  destruct (Z.eqb_spec (xdr_padding (len s)) 0) as [Hp|_]; cbn [negb].
  - unfold pad_bytes. rewrite Hp. apply reads_ret.
  - apply reads_Len. rewrite len_pad_bytes. intros m Hm.
    destruct (Z.ltb_spec m (xdr_padding (len s))); [lia|]. rewrite <- (app_nil_r (pad_bytes _)).
    eapply reads_bind; [apply reads_Next, len_pad_bytes|]. apply reads_ret.
Qed.

Lemma reads_readXDRString s : len s < 2 ^ 32 -> reads readXDRString (xdr_bytes s) s.
Proof.
  intros Hl. pose proof (len_nonneg s). unfold readXDRString, readXDROpaque, xdr_bytes.
  eapply reads_bind; [apply reads_u32; split; lia|]. apply reads_readXDROpaqueWithLength.
Qed.
#[export] Hint Resolve writes_writeXDRString reads_readXDRString : writes reads.

(** ** Addresses *)

Definition ip_version (ip : bytes) : Z :=
  if len ip =? 4 then 1 else if len ip =? 16 then 2 else 0.
Definition ip_bytes (ip : bytes) : bytes := be_put 4 (ip_version ip) ++ ip.

(** An IPv4 or IPv6 address whose version is right or left unset, or no address. *)
Definition ip_ok (v : Z) (ip : bytes) : Prop :=
  is_bytes ip /\ (len ip = 0 \/ len ip = 4 \/ len ip = 16) /\ (v = 0 \/ v = ip_version ip).

Lemma writes_encodeIP v ip : ip_ok v ip -> writes (encodeIP v ip) (ip_bytes ip).
Proof.
  intros (_ & Hl & Hv). unfold encodeIP, encodeIP_checked, ip_bytes.
  assert (writes (WriteU32 (ip_version ip) ;;; Write ip) (be_put 4 (ip_version ip) ++ ip)) as Hw
    by (write_steps; apply writes_Write).
  unfold ip_version in *. destruct Hl as [Hl|[Hl|Hl]]; rewrite Hl in *; cbn in Hw, Hv |- *.
  - destruct ip; [|unfold len in Hl; cbn in Hl; lia]. destruct Hv as [-> | ->]; apply writes_u32.
  - destruct Hv as [-> | ->]; exact Hw.
  - destruct Hv as [-> | ->]; exact Hw.
Qed.

Lemma reads_DecodeIP v ip : ip_ok v ip -> reads DecodeIP (ip_bytes ip) (ip_version ip, ip).
Proof.
  intros (Hb & Hl & _). unfold DecodeIP, ip_bytes.
  assert (u32 (ip_version ip)) by (unfold ip_version; destruct (len ip =? 4), (len ip =? 16); done).
  read_step.
  assert (forall n, len ip = Z.of_nat (S n) ->
    reads (DecodeIP_rest (ip_version ip) (Z.of_nat (S n))) ip (ip_version ip, ip)) as Hrest.
  { intros n Hn. unfold DecodeIP_rest. apply reads_makeslice; [lia|]. apply reads_Len. intros m Hm.
    destruct (Z.leb_spec (Z.of_nat (S n)) m); [|lia]. rewrite Nat2Z.id. apply reads_app_nil.
    eapply reads_bind; [apply reads_errctx, reads_bytes; [done|unfold len in Hn; lia]|apply reads_ret]. }
  unfold ip_version in *. destruct Hl as [Hl|[Hl|Hl]]; rewrite Hl in *; cbn [Z.eqb Pos.eqb] in *.
  - destruct ip; [apply reads_ret|unfold len in Hl; cbn in Hl; lia].
  - by apply (Hrest 3%nat).
  - by apply (Hrest 15%nat).
Qed.
#[export] Hint Resolve writes_encodeIP reads_DecodeIP : writes reads.

(** ** Vectors *)

Definition u32s_ok (l : list Z) : Prop := Forall u32 l /\ len l <= 1000.
Definition u32s_bytes (l : list Z) : bytes := flat_map (be_put 4) l.
Definition vec_bytes (l : list Z) : bytes := be_put 4 (len l) ++ u32s_bytes l.

Lemma len_u32s_bytes l : len (u32s_bytes l) = 4 * len l.
Proof. apply flat_map_len_const. intros. apply len_be_put. Qed.

Lemma len_u32 {A} (l : list A) : len l <= 1000 -> u32 (len l).
Proof. intros. pose proof (len_nonneg l). split; lia. Qed.

Lemma writes_u32s l : writes (rangeM l WriteU32) (u32s_bytes l).
Proof. apply writes_rangeM. intros. apply writes_u32. Qed.
#[export] Hint Resolve writes_u32s : writes.

Lemma reads_readU32s l : u32s_ok l -> reads (readU32s (len l)) (u32s_bytes l) l.
Proof.
  intros [Hu _]. unfold readU32s. apply reads_makeslice; [apply len_nonneg|].
  destruct l as [|x l]; [apply reads_ret|]. rewrite len_cons. pose proof (len_nonneg l).
  destruct (Z.ltb_spec 0 (len l + 1)); [|lia].
  replace (Z.to_nat (len l + 1)) with (S (length l)) by (unfold len; lia). by apply reads_u32s.
Qed.
#[export] Hint Resolve reads_readU32s : reads.

Lemma quot4_enough n k : 0 <= k -> 4 * k <= n -> (Z.quot n 4 <? k) = false.
Proof.
  intros Hk Hn. apply Z.ltb_ge. rewrite Z.quot_div_nonneg by lia. apply Z.div_le_lower_bound; lia.
Qed.

Lemma writes_writeU32Vector l : u32s_ok l -> writes (writeU32Vector l) (vec_bytes l).
Proof.
  intros [_ Hl]. unfold writeU32Vector, vec_bytes. rewrite to_uint_small by by apply len_u32.
  write_steps. apply writes_u32s.
Qed.

Lemma reads_decodeU32Vector name l : u32s_ok l -> reads (decodeU32Vector name) (vec_bytes l) l.
Proof.
  intros Hok. pose proof Hok as [_ Hl]. pose proof (len_u32 l Hl). pose proof (len_nonneg l).
  unfold decodeU32Vector, vec_bytes. read_step. destruct (Z.ltb_spec 1000 (len l)); [lia|].
  apply reads_Len. intros n Hn. rewrite len_u32s_bytes in Hn. rewrite quot4_enough by lia.
  by apply reads_readU32s.
Qed.
#[export] Hint Resolve writes_writeU32Vector reads_decodeU32Vector : writes reads.

(** ** Flow values *)

(** The values the encoder represents faithfully. *)
Definition flow_value_ok (v : flow_value) : Prop :=
  match v with
  | FV_SampledHeader d =>
      u32 (shProtocol d) /\ u32 (shFrameLength d) /\ u32 (shStripped d) /\
      u32 (shOriginalLength d) /\ is_bytes (shHeaderData d) /\
      (len (shHeaderData d) = shOriginalLength d \/
       len (shHeaderData d) < shOriginalLength d /\ shOriginalLength d mod 4 = 0)
  | FV_SampledEthernet d =>
      u32 (seLength d) /\ is_bytes (seSrcMac d) /\ length (seSrcMac d) = 6%nat /\
      is_bytes (seDstMac d) /\ length (seDstMac d) = 6%nat /\ u32 (seEthType d)
  | FV_SampledIPv4 {| v4Base := b; v4Tos := t |} =>
      u32 (ipLength b) /\ u32 (ipProtocol b) /\ is_bytes (ipSrcIP b) /\
      length (ipSrcIP b) = 4%nat /\ is_bytes (ipDstIP b) /\ length (ipDstIP b) = 4%nat /\
      u32 (ipSrcPort b) /\ u32 (ipDstPort b) /\ u32 (ipTcpFlags b) /\ u32 t
  | FV_SampledIPv6 {| v6Base := b; v6Priority := t |} =>
      u32 (ipLength b) /\ u32 (ipProtocol b) /\ is_bytes (ipSrcIP b) /\
      length (ipSrcIP b) = 16%nat /\ is_bytes (ipDstIP b) /\ length (ipDstIP b) = 16%nat /\
      u32 (ipSrcPort b) /\ u32 (ipDstPort b) /\ u32 (ipTcpFlags b) /\ u32 t
  | FV_ExtendedSwitch d =>
      u32 (SrcVlan d) /\ u32 (SrcPriority d) /\ u32 (DstVlan d) /\ u32 (DstPriority d)
  | FV_ExtendedRouter d =>
      ip_ok (rNextHopIPVersion d) (rNextHop d) /\ u32 (SrcMaskLen d) /\ u32 (DstMaskLen d)
  | FV_ExtendedGateway d =>
      ip_ok (gNextHopIPVersion d) (gNextHop d) /\ u32 (AS_ d) /\ u32 (gSrcAS d) /\
      u32 (gSrcPeerAS d) /\ u32s_ok (ASPath d) /\ u32 (ASPathType d) /\
      (ASPathLength d = 0 \/ ASPathLength d = len (ASPath d)) /\
      (ASDestinations d = 1 /\ ASPath d <> [] \/
       ASDestinations d = 0 /\ ASPath d = [] /\ ASPathType d = 0) /\
      u32s_ok (Communities d) /\
      (CommunitiesLength d = 0 \/ CommunitiesLength d = len (Communities d)) /\ u32 (LocalPref d)
  | FV_ExtendedMPLS d =>
      ip_ok (mNextHopIPVersion d) (mNextHop d) /\ u32s_ok (InLabelStack d) /\
      u32s_ok (OutLabelStack d)
  | FV_ExtendedNAT d =>
      ip_ok (SrcAddressIPVersion d) (SrcAddress d) /\ ip_ok (DstAddressIPVersion d) (DstAddress d)
  | FV_ExtendedMPLSTunnel d => xdr_ok (TunnelLSPName d) /\ u32 (TunnelID d) /\ u32 (TunnelCOS d)
  | FV_ExtendedMPLSVC d => xdr_ok (VCInstanceName d) /\ u32 (VLLVCID d) /\ u32 (VCLabelCOS d)
  | FV_ExtendedMPLSFTN d => xdr_ok (MPLSFTNDescr d) /\ u32 (MPLSFTNMask d)
  | FV_ExtendedMPLSLDPFEC d => u32 (MPLSFecAddrPrefixLength d)
  | FV_EgressQueue d => u32 (Queue d)
  | FV_ExtendedACL d => u32 (aclNumber d) /\ xdr_ok (aclName d) /\ u32 (aclDirection d)
  | FV_ExtendedFunction d => xdr_ok (Symbol d)
  | FV_RawRecord d => is_bytes (rawData d)
  end.

(** The value with unset versions and lengths filled in; the segments of an AS path are those
    of the wire. *)
Definition complete_flow_value (v : flow_value) : flow_value :=
  match v with
  | FV_ExtendedRouter d =>
      FV_ExtendedRouter {| rNextHopIPVersion := ip_version (rNextHop d); rNextHop := rNextHop d;
        SrcMaskLen := SrcMaskLen d; DstMaskLen := DstMaskLen d |}
  | FV_ExtendedGateway d =>
      FV_ExtendedGateway {| gNextHopIPVersion := ip_version (gNextHop d); gNextHop := gNextHop d;
        AS_ := AS_ d; gSrcAS := gSrcAS d; gSrcPeerAS := gSrcPeerAS d;
        ASDestinations := ASDestinations d; ASPathType := ASPathType d;
        ASPathLength := len (ASPath d); ASPath := ASPath d;
        DstASPath := match ASPath d with
                     | [] => []
                     | _ => [{| segType := ASPathType d; segPath := ASPath d |}]
                     end;
        CommunitiesLength := len (Communities d); Communities := Communities d;
        LocalPref := LocalPref d |}
  | FV_ExtendedMPLS d =>
      FV_ExtendedMPLS {| mNextHopIPVersion := ip_version (mNextHop d); mNextHop := mNextHop d;
        InLabelStack := InLabelStack d; OutLabelStack := OutLabelStack d |}
  | FV_ExtendedNAT d =>
      FV_ExtendedNAT {| SrcAddressIPVersion := ip_version (SrcAddress d); SrcAddress := SrcAddress d;
        DstAddressIPVersion := ip_version (DstAddress d); DstAddress := DstAddress d |}
  | _ => v
  end.

(** Writers with lemmas of their own are not unfolded into their steps. *)
#[local] Opaque writeU32Vector writeXDRString.

(** [codec w r]: the bytes [w] writes and [r] reads to the value. *)
Definition codec {A} (w : M unit) (r : M A) (a : A) : Prop :=
  exists bs, writes w bs /\ reads r bs a.

Ltac codec_done := first [apply reads_ret | apply reads_app_nil; read_step; apply reads_ret].
Ltac codec_steps := eexists; split; [write_steps; solve [eauto with writes]|read_steps; codec_done].

Lemma codec_ethernet d : flow_value_ok (FV_SampledEthernet d) ->
  codec (encodeSampledEthernet d) decodeSampledEthernet (FV_SampledEthernet d).
Proof.
  intros (? & ? & Hs & ? & Hd & ?). unfold encodeSampledEthernet, decodeSampledEthernet, len, codec.
  assert (u16 0) by by split.
  rewrite Hs, Hd. cbn [Z.of_nat Pos.of_succ_nat Pos.succ Z.eqb Pos.eqb negb orb].
  destruct d. codec_steps.
Qed.

Lemma codec_ip_base n b :
  u32 (ipLength b) /\ u32 (ipProtocol b) /\ is_bytes (ipSrcIP b) /\
  length (ipSrcIP b) = S n /\ is_bytes (ipDstIP b) /\ length (ipDstIP b) = S n /\
  u32 (ipSrcPort b) /\ u32 (ipDstPort b) /\ u32 (ipTcpFlags b) ->
  codec (encodeSampledIPBase b) (decodeSampledIPBase (S n)) b.
Proof.
  intros (? & ? & ? & ? & ? & ? & ? & ? & ?). unfold encodeSampledIPBase, decodeSampledIPBase, codec.
  destruct b. codec_steps.
Qed.

Lemma codec_ipv4 d : flow_value_ok (FV_SampledIPv4 d) ->
  codec (encodeSampledIPv4 d) decodeSampledIPv4 (FV_SampledIPv4 d).
Proof.
  destruct d as [b t]. intros (? & ? & ? & Hs & ? & Hd & ? & ? & ? & ?).
  destruct (codec_ip_base 3 b) as (bs & ? & ?); [splits; done|].
  unfold encodeSampledIPv4, decodeSampledIPv4, len, codec. cbn [v4Base v4Tos]. rewrite Hs, Hd.
  cbn [Z.of_nat Pos.of_succ_nat Pos.succ Z.eqb Pos.eqb negb orb]. codec_steps.
Qed.

Lemma codec_ipv6 d : flow_value_ok (FV_SampledIPv6 d) ->
  codec (encodeSampledIPv6 d) decodeSampledIPv6 (FV_SampledIPv6 d).
Proof.
  destruct d as [b t]. intros (? & ? & ? & Hs & ? & Hd & ? & ? & ? & ?).
  destruct (codec_ip_base 15 b) as (bs & ? & ?); [splits; done|].
  unfold encodeSampledIPv6, decodeSampledIPv6, len, codec. cbn [v6Base v6Priority]. rewrite Hs, Hd.
  cbn [Z.of_nat Pos.of_succ_nat Pos.succ Z.eqb Pos.eqb negb orb]. codec_steps.
Qed.

Lemma codec_switch d : flow_value_ok (FV_ExtendedSwitch d) ->
  codec (encodeExtendedSwitch d) decodeExtendedSwitch (FV_ExtendedSwitch d).
Proof.
  intros (? & ? & ? & ?). unfold encodeExtendedSwitch, decodeExtendedSwitch, codec. destruct d. codec_steps.
Qed.

Lemma codec_router d : flow_value_ok (FV_ExtendedRouter d) ->
  codec (encodeExtendedRouter d) decodeExtendedRouter (complete_flow_value (FV_ExtendedRouter d)).
Proof.
  intros (? & ? & ?). unfold encodeExtendedRouter, decodeExtendedRouter, codec. codec_steps.
Qed.

Lemma codec_mpls d : flow_value_ok (FV_ExtendedMPLS d) ->
  codec (encodeExtendedMPLS d) decodeExtendedMPLS (complete_flow_value (FV_ExtendedMPLS d)).
Proof. intros (? & ? & ?). unfold encodeExtendedMPLS, decodeExtendedMPLS, codec. codec_steps. Qed.

Lemma codec_nat d : flow_value_ok (FV_ExtendedNAT d) ->
  codec (encodeExtendedNAT d) decodeExtendedNAT (complete_flow_value (FV_ExtendedNAT d)).
Proof. intros (? & ?). unfold encodeExtendedNAT, decodeExtendedNAT, codec. codec_steps. Qed.

Lemma codec_tunnel d : flow_value_ok (FV_ExtendedMPLSTunnel d) ->
  codec (encodeExtendedMPLSTunnel d) decodeExtendedMPLSTunnel (FV_ExtendedMPLSTunnel d).
Proof.
  intros ([? ?] & ? & ?). unfold encodeExtendedMPLSTunnel, decodeExtendedMPLSTunnel, codec.
  destruct d. codec_steps.
Qed.

Lemma codec_vc d : flow_value_ok (FV_ExtendedMPLSVC d) ->
  codec (encodeExtendedMPLSVC d) decodeExtendedMPLSVC (FV_ExtendedMPLSVC d).
Proof.
  intros ([? ?] & ? & ?). unfold encodeExtendedMPLSVC, decodeExtendedMPLSVC, codec. destruct d. codec_steps.
Qed.

Lemma codec_ftn d : flow_value_ok (FV_ExtendedMPLSFTN d) ->
  codec (encodeExtendedMPLSFTN d) decodeExtendedMPLSFTN (FV_ExtendedMPLSFTN d).
Proof.
  intros ([? ?] & ?). unfold encodeExtendedMPLSFTN, decodeExtendedMPLSFTN, codec. destruct d. codec_steps.
Qed.

Lemma codec_acl d : flow_value_ok (FV_ExtendedACL d) ->
  codec (encodeExtendedACL d) decodeExtendedACL (FV_ExtendedACL d).
Proof.
  intros (? & [? ?] & ?). unfold encodeExtendedACL, decodeExtendedACL, codec. destruct d. codec_steps.
Qed.

Lemma codec_fec d : u32 (MPLSFecAddrPrefixLength d) ->
  codec (WriteU32 (MPLSFecAddrPrefixLength d)) decodeExtendedMPLSLDPFEC (FV_ExtendedMPLSLDPFEC d).
Proof. intros ?. unfold decodeExtendedMPLSLDPFEC, codec. destruct d. codec_steps. Qed.

Lemma codec_queue d : u32 (Queue d) -> codec (WriteU32 (Queue d)) decodeEgressQueue (FV_EgressQueue d).
Proof. intros ?. unfold decodeEgressQueue, codec. destruct d. codec_steps. Qed.

Lemma codec_function d : xdr_ok (Symbol d) ->
  codec (writeXDRString (Symbol d)) decodeExtendedFunction (FV_ExtendedFunction d).
Proof. intros [? ?]. unfold decodeExtendedFunction, codec. destruct d. codec_steps. Qed.

(** ** BGP gateways *)

Definition as_path_bytes (d : ExtendedGateway) : bytes :=
  match ASPath d with
  | [] => []
  | _ => be_put 4 (ASPathType d) ++ vec_bytes (ASPath d)
  end.

Lemma writes_encodeASPath d :
  flow_value_ok (FV_ExtendedGateway d) -> writes (encodeASPath d) (as_path_bytes d).
Proof.
  intros (_ & _ & _ & _ & [_ Hp] & _ & Hl & _). unfold encodeASPath, as_path_bytes.
  pose proof (len_u32 _ Hp). destruct (ASPath d) as [|x l] eqn:Heq.
  - cbn [len] in *. destruct Hl as [-> | ->]; apply writes_ret.
  - assert (0 < len (x :: l)) by (rewrite len_cons; pose proof (len_nonneg l); lia).
    set (p := x :: l) in *.
    assert ((if (ASPathLength d =? 0) && (0 <? len p) then to_uint 32 (len p) else ASPathLength d)
            = len p) as ->.
    { rewrite to_uint_small by done. destruct (Z.ltb_spec 0 (len p)); [|lia].
      destruct Hl as [-> | ->]; [done|]. destruct (Z.eqb_spec (len p) 0); done. }
    cbv zeta. destruct (Z.ltb_spec 0 (len p)); [|lia]. rewrite Z.eqb_refl. cbn [negb].
    unfold vec_bytes. write_steps. apply writes_u32s.
Qed.

Lemma writes_encodeCommunities d :
  flow_value_ok (FV_ExtendedGateway d) -> writes (encodeCommunities d) (vec_bytes (Communities d)).
Proof.
  intros (_ & _ & _ & _ & _ & _ & _ & _ & [_ Hc] & Hl & _). unfold encodeCommunities, vec_bytes.
  pose proof (len_u32 _ Hc). pose proof (len_nonneg (Communities d)).
  assert ((if (CommunitiesLength d =? 0) && (0 <? len (Communities d))
           then to_uint 32 (len (Communities d)) else CommunitiesLength d) = len (Communities d)) as ->.
  { rewrite to_uint_small by done. destruct Hl as [-> | ->].
    - destruct (Z.ltb_spec 0 (len (Communities d))); cbn [Z.eqb andb]; lia.
    - destruct (Z.eqb_spec (len (Communities d)) 0) as [->|]; done. }
  cbv zeta. rewrite Z.eqb_refl. cbn [negb]. write_steps. apply writes_u32s.
Qed.

Lemma reads_decodeASPathSegment ty p :
  u32 ty -> u32s_ok p ->
  reads decodeASPathSegment (be_put 4 ty ++ vec_bytes p) {| segType := ty; segPath := p |}.
Proof.
  intros Hty Hp. pose proof Hp as [_ Hl]. pose proof (len_u32 p Hl). pose proof (len_nonneg p).
  unfold decodeASPathSegment, vec_bytes. do 2 read_step. destruct (Z.ltb_spec 1000 (len p)); [lia|].
  apply reads_Len. intros n Hn. rewrite len_u32s_bytes in Hn. rewrite quot4_enough by lia.
  apply reads_app_nil. read_step. apply reads_ret.
Qed.

(** The segments announced by [ASDestinations] are those written. *)
Lemma reads_as_path d :
  flow_value_ok (FV_ExtendedGateway d) ->
  reads (forM (Z.to_nat (ASDestinations d)) 0 (fun _ => decodeASPathSegment)) (as_path_bytes d)
    match ASPath d with [] => [] | _ => [{| segType := ASPathType d; segPath := ASPath d |}] end.
Proof.
  intros (_ & _ & _ & _ & Hp & Hty & _ & Hd & _). unfold as_path_bytes.
  destruct Hd as [[-> Hne]|(-> & -> & _)]; [|apply reads_ret].
  destruct (ASPath d) as [|x l]; [done|]. cbn [Z.to_nat Pos.to_nat Pos.iter_op forM].
  apply reads_app_nil. eapply reads_bind; [by apply reads_decodeASPathSegment|].
  apply reads_app_nil. eapply reads_bind; apply reads_ret.
Qed.

Lemma codec_gateway d : flow_value_ok (FV_ExtendedGateway d) ->
  codec (encodeExtendedGateway d) decodeExtendedGateway (complete_flow_value (FV_ExtendedGateway d)).
Proof.
  intros Hok. pose proof (writes_encodeASPath d Hok). pose proof (writes_encodeCommunities d Hok).
  pose proof (reads_as_path d Hok) as Hpath. pose proof Hok as (Hip & ? & ? & ? & [_ Hpl] & ? & _ & Hd & Hc & _ & ?).
  pose proof Hc as [_ Hcl]. pose proof (len_u32 _ Hcl). pose proof (len_nonneg (Communities d)).
  assert (u32 (ASDestinations d) /\ 0 <= ASDestinations d <= 1) as [? Hdest] by
    (destruct Hd as [[-> _]|[-> _]]; split; try split; lia).
  unfold encodeExtendedGateway, decodeExtendedGateway, codec. eexists. split; [write_steps; apply writes_u32|].
  do 5 read_step. destruct (Z.ltb_spec 1000 (ASDestinations d)); [lia|].
  apply reads_makeslice; [lia|]. eapply reads_bind; [exact Hpath|]. cbv beta zeta.
  unfold vec_bytes. rewrite <- app_assoc. read_step.
  destruct (Z.ltb_spec 1000 (len (Communities d))); [lia|].
  apply reads_Len. intros n Hn. rewrite len_app, len_u32s_bytes, len_be_put in Hn.
  rewrite quot4_enough by lia. read_step. apply reads_app_nil. read_step.
  unfold complete_flow_value. pose proof (len_u32 _ Hpl) as Hu.
  destruct Hd as [[-> Hne]|(-> & -> & ->)]; [|apply reads_ret]. cbn [Z.eqb Pos.eqb].
  destruct (ASPath d) as [|x l]; [done|]. cbn [nth_error segPath segType]. rewrite to_uint_small by done.
  apply reads_ret.
Qed.

(** ** Sampled headers *)

(** [fits w r a]: what [w] writes is a whole buffer that [r] reads to [a]. *)
Definition fits {A} (w : M unit) (r : M A) (a : A) : Prop :=
  exists bs rest, writes w bs /\ r bs = (Ok a, rest).

Lemma codec_fits {A} w (r : M A) a : codec w r a -> fits w r a.
Proof.
  intros (bs & Hw & Hr). exists bs, []. split; [done|]. specialize (Hr []). by rewrite app_nil_r in Hr.
Qed.

(** The header bytes are there in full, or they were truncated by the exporter. *)
Lemma fits_sampled_header d : flow_value_ok (FV_SampledHeader d) ->
  fits (encodeSampledHeader d) decodeSampledHeader (FV_SampledHeader d).
Proof.
  intros (? & ? & ? & Hu & Hb & Hl). destruct Hu as [Hu Hu']. unfold encodeSampledHeader, fits.
  assert (u32 (shOriginalLength d)) by by split. pose proof (len_nonneg (shHeaderData d)).
  eexists _, []. split; [write_steps; apply writes_writeXDRPadding|].
  set (tl := shHeaderData d ++ pad_bytes (shOriginalLength d)).
  assert ((let* n := Len in
           let* headerData :=
             (if n <? shOriginalLength d then let* data := Bytes in let* _ := Next n in ret data
              else readXDROpaqueWithLength (shOriginalLength d)) in
           ret (FV_SampledHeader {| shProtocol := shProtocol d; shFrameLength := shFrameLength d;
             shStripped := shStripped d; shOriginalLength := shOriginalLength d;
             shHeaderData := headerData |})) tl = (Ok (FV_SampledHeader d), [])) as Htl.
  { destruct d as [p f s o h]; cbn [shOriginalLength shHeaderData shProtocol shFrameLength shStripped] in *.
    unfold bind at 1, Len at 1. destruct Hl as [<-|[Hlt Hmod]].
    - pose proof (xdr_padding_bounds (len h)).
      assert (len tl = len h + xdr_padding (len h)) as -> by (unfold tl; by rewrite len_app, len_pad_bytes).
      destruct (Z.ltb_spec (len h + xdr_padding (len h)) (len h)); [lia|].
      unfold bind at 1. pose proof (reads_readXDROpaqueWithLength h []) as Hx. rewrite app_nil_r in Hx.
      unfold tl. by rewrite Hx.
    - assert (tl = h) as -> by (unfold tl, pad_bytes; rewrite xdr_padding_zero by lia; apply app_nil_r).
      destruct (Z.ltb_spec (len h) o); [|lia]. unfold bind, Bytes. by rewrite Next_all. }
  rewrite <- Htl. unfold decodeSampledHeader, bind at 1. rewrite (reads_u32 (shProtocol d)) by done.
  unfold bind at 1. rewrite (reads_u32 (shFrameLength d)) by done.
  unfold bind at 1. rewrite (reads_u32 (shStripped d)) by done.
  unfold bind at 1. rewrite (reads_u32 (shOriginalLength d)) by done. reflexivity.
Qed.

(** ** Counters *)

Definition counter_value_ok (v : counter_value) : Prop :=
  match v with
  | CV_IfCounters d =>
      u32 (IfIndex d) /\ u32 (IfType d) /\ u64 (IfSpeed d) /\ u32 (IfDirection d) /\
      u32 (IfStatus d) /\ u64 (IfInOctets d) /\ u32 (IfInUcastPkts d) /\
      u32 (IfInMulticastPkts d) /\ u32 (IfInBroadcastPkts d) /\ u32 (IfInDiscards d) /\
      u32 (IfInErrors d) /\ u32 (IfInUnknownProtos d) /\ u64 (IfOutOctets d) /\
      u32 (IfOutUcastPkts d) /\ u32 (IfOutMulticastPkts d) /\ u32 (IfOutBroadcastPkts d) /\
      u32 (IfOutDiscards d) /\ u32 (IfOutErrors d) /\ u32 (IfPromiscuousMode d)
  | CV_EthernetCounters d =>
      u32 (Dot3StatsAlignmentErrors d) /\ u32 (Dot3StatsFCSErrors d) /\
      u32 (Dot3StatsSingleCollisionFrames d) /\ u32 (Dot3StatsMultipleCollisionFrames d) /\
      u32 (Dot3StatsSQETestErrors d) /\ u32 (Dot3StatsDeferredTransmissions d) /\
      u32 (Dot3StatsLateCollisions d) /\ u32 (Dot3StatsExcessiveCollisions d) /\
      u32 (Dot3StatsInternalMacTransmitErrors d) /\ u32 (Dot3StatsCarrierSenseErrors d) /\
      u32 (Dot3StatsFrameTooLongs d) /\ u32 (Dot3StatsInternalMacReceiveErrors d) /\
      u32 (Dot3StatsSymbolErrors d)
  | CV_RawRecord d => is_bytes (rawData d)
  end.

Lemma codec_if_counters d : counter_value_ok (CV_IfCounters d) ->
  codec (encodeIfCounters d) decodeIfCounters (CV_IfCounters d).
Proof.
  intros H. cbn [counter_value_ok] in H. decompose [and] H.
  unfold encodeIfCounters, decodeIfCounters, codec. destruct d. codec_steps.
Qed.

Lemma codec_ethernet_counters d : counter_value_ok (CV_EthernetCounters d) ->
  codec (encodeEthernetCounters d) decodeEthernetCounters (CV_EthernetCounters d).
Proof.
  intros H. cbn [counter_value_ok] in H. decompose [and] H.
  unfold encodeEthernetCounters, decodeEthernetCounters, codec. destruct d. codec_steps.
Qed.

(** ** Records *)

(** A kind of record: its encoder and decoder, the values and data formats the encoder
    represents faithfully, and the law that the decoder completes what was encoded. *)
Class RecordKind (V : Type) : Type := {
  kind_name : string;
  value_format : V -> Z;
  encode_value : V -> M unit;
  decode_record : RecordHeader -> M (record V);
  value_ok : V -> Prop;
  format_ok : V -> Z -> Prop;
  complete_value : V -> V;
  format_ok_nonzero v df : format_ok v df -> u32 df /\ df <> 0;
  kind_fits v df l : value_ok v -> format_ok v df ->
    fits (encode_value v) (decode_record {| DataFormat := df; rhLength := l |})
      {| rHeader := {| DataFormat := df; rhLength := l |}; rData := Some (Val (complete_value v)) |}
}.

(** A raw record is kept raw under the formats the decoder does not know. *)
Definition known_flow_formats : list Z :=
  [FLOW_TYPE_RAW; FLOW_TYPE_ETH; FLOW_TYPE_IPV4; FLOW_TYPE_IPV6; FLOW_TYPE_EXT_SWITCH;
   FLOW_TYPE_EXT_ROUTER; FLOW_TYPE_EXT_GATEWAY; FLOW_TYPE_EXT_MPLS; FLOW_TYPE_EXT_NAT;
   FLOW_TYPE_EXT_MPLS_TUNNEL; FLOW_TYPE_EXT_MPLS_VC; FLOW_TYPE_EXT_MPLS_FEC;
   FLOW_TYPE_EXT_MPLS_LVP_FEC; FLOW_TYPE_EGRESS_QUEUE; FLOW_TYPE_EXT_ACL; FLOW_TYPE_EXT_FUNCTION].
Definition known_counter_formats : list Z := [COUNTER_TYPE_IF; COUNTER_TYPE_ETH].

Definition unknown_format (known : list Z) (df : Z) : Prop :=
  DataFormatEnterprise df <> 0 \/ DataFormatFormat df ∉ known.

Definition flow_format_ok (v : flow_value) (df : Z) : Prop :=
  match v with
  | FV_RawRecord _ => u32 df /\ df <> 0 /\ unknown_format known_flow_formats df
  | _ => df = flowValueFormat v
  end.

Definition counter_format_ok (v : counter_value) (df : Z) : Prop :=
  match v with
  | CV_RawRecord _ => u32 df /\ df <> 0 /\ unknown_format known_counter_formats df
  | _ => df = counterValueFormat v
  end.

Lemma flow_switch_raw format :
  format ∉ known_flow_formats ->
  DecodeFlowRecord_switch format = bind decodeRawRecord (fun raw => ret (FV_RawRecord raw)).
Proof.
  intros H. unfold DecodeFlowRecord_switch.
  repeat match goal with
  | |- context [format =? ?x] =>
      destruct (Z.eqb_spec format x) as [->|_]; [exfalso; apply H; unfold known_flow_formats; set_solver|]
  end. done.
Qed.

Lemma counter_switch_raw format :
  format ∉ known_counter_formats ->
  DecodeCounterRecord_switch format = bind decodeRawRecord (fun raw => ret (CV_RawRecord raw)).
Proof.
  intros H. unfold DecodeCounterRecord_switch.
  repeat match goal with
  | |- context [format =? ?x] =>
      destruct (Z.eqb_spec format x) as [->|_]; [exfalso; apply H; unfold known_counter_formats; set_solver|]
  end. done.
Qed.

(** A record of an unknown format is kept as its bytes, and they are not consumed. *)
Lemma decode_flow_unknown header b :
  unknown_format known_flow_formats (DataFormat header) ->
  DecodeFlowRecord header b =
    (Ok {| rHeader := header; rData := Some (Val (FV_RawRecord {| rawData := b |})) |}, b).
Proof.
  intros H. unfold DecodeFlowRecord. destruct (Z.eqb_spec (DataFormatEnterprise (DataFormat header)) 0) as [He|]; [|done].
  destruct H as [|H]; [done|]. cbn [negb]. by rewrite flow_switch_raw.
Qed.

Lemma decode_counter_unknown header b :
  unknown_format known_counter_formats (DataFormat header) ->
  DecodeCounterRecord header b =
    (Ok {| rHeader := header; rData := Some (Val (CV_RawRecord {| rawData := b |})) |}, b).
Proof.
  intros H. unfold DecodeCounterRecord. destruct (Z.eqb_spec (DataFormatEnterprise (DataFormat header)) 0) as [He|]; [|done].
  destruct H as [|H]; [done|]. cbn [negb]. by rewrite counter_switch_raw.
Qed.

Lemma flow_value_fits v :
  flow_value_ok v -> (forall d, v <> FV_RawRecord d) ->
  fits (encodeFlowValue v) (DecodeFlowRecord_switch (flowValueFormat v)) (complete_flow_value v).
Proof.
  intros Hok Hraw. destruct v; cbn [encodeFlowValue flowValueFormat complete_flow_value].
  - by apply fits_sampled_header.
  - by apply codec_fits, codec_ethernet.
  - by apply codec_fits, codec_ipv4.
  - by apply codec_fits, codec_ipv6.
  - by apply codec_fits, codec_switch.
  - by apply codec_fits, codec_router.
  - by apply codec_fits, codec_gateway.
  - by apply codec_fits, codec_mpls.
  - by apply codec_fits, codec_nat.
  - by apply codec_fits, codec_tunnel.
  - by apply codec_fits, codec_vc.
  - by apply codec_fits, codec_ftn.
  - by apply codec_fits, codec_fec.
  - by apply codec_fits, codec_queue.
  - by apply codec_fits, codec_acl.
  - by apply codec_fits, codec_function.
  - by destruct (Hraw d).
Qed.

#[export] Program Instance flow_kind : RecordKind flow_value := {
  kind_name := "flow";
  value_format := flowValueFormat;
  encode_value := encodeFlowValue;
  decode_record := DecodeFlowRecord;
  value_ok := flow_value_ok;
  format_ok := flow_format_ok;
  complete_value := complete_flow_value
}.
Next Obligation. intros [] df H; cbn in H; try (subst df; by split); by destruct H as (? & ? & _). Qed.
Next Obligation.
  intros v df l Hok Hf. assert ((exists d, v = FV_RawRecord d) \/ (forall d, v <> FV_RawRecord d)) as [[d ->]|Hne]
    by (destruct v; eauto; by right).
  { destruct Hf as (_ & _ & Hf). exists (rawData d), (rawData d). split; [apply writes_Write|].
    rewrite decode_flow_unknown by done. by destruct d. }
  destruct (flow_value_fits v Hok Hne) as (bs & rest & Hw & Hr). exists bs, rest. split; [done|].
  assert (df = flowValueFormat v) as -> by (destruct v; try exact Hf; by destruct (Hne d)).
  assert (DataFormatEnterprise (flowValueFormat v) = 0 /\
          DataFormatFormat (flowValueFormat v) = flowValueFormat v) as [He Hff] by by destruct v.
  unfold DecodeFlowRecord. cbn [DataFormat]. rewrite He, Hff. cbn [Z.eqb negb].
  unfold bind, errctx. by rewrite Hr.
Qed.

#[export] Program Instance counter_kind : RecordKind counter_value := {
  kind_name := "counter";
  value_format := counterValueFormat;
  encode_value := encodeCounterValue;
  decode_record := DecodeCounterRecord;
  value_ok := counter_value_ok;
  format_ok := counter_format_ok;
  complete_value v := v
}.
Next Obligation. intros [] df H; cbn in H; try (subst df; by split); by destruct H as (? & ? & _). Qed.
Next Obligation.
  intros v df l Hok Hf. destruct v as [d|d|d].
  - destruct (codec_fits _ _ _ (codec_if_counters d Hok)) as (bs & rest & Hw & Hr).
    exists bs, rest. split; [done|]. rewrite Hf. unfold DecodeCounterRecord.
    change (negb _) with false. change (DecodeCounterRecord_switch _) with decodeIfCounters.
    unfold bind, errctx. by rewrite Hr.
  - destruct (codec_fits _ _ _ (codec_ethernet_counters d Hok)) as (bs & rest & Hw & Hr).
    exists bs, rest. split; [done|]. rewrite Hf. unfold DecodeCounterRecord.
    change (negb _) with false. change (DecodeCounterRecord_switch _) with decodeEthernetCounters.
    unfold bind, errctx. by rewrite Hr.
  - destruct Hf as (_ & _ & Hf). exists (rawData d), (rawData d). split; [apply writes_Write|].
    rewrite decode_counter_unknown by done. by destruct d.
Qed.

Section records.
Context {V : Type} `{RecordKind V}.

Definition record_format (r : record V) (v : V) : Z :=
  if DataFormat (rHeader r) =? 0 then value_format v else DataFormat (rHeader r).

(** The payload of a value the encoder accepts. *)
Definition value_bytes (v : V) : bytes :=
  match written (encode_value v) with Ok bs => bs | _ => [] end.

Definition record_ok (r : record V) : Prop :=
  exists b v, rData r = Some b /\ unbox b = Some v /\ value_ok v /\
    format_ok v (record_format r v) /\ len (value_bytes v) < 2 ^ 32.

Definition complete_record (r : record V) : record V :=
  match rData r ≫= unbox with
  | Some v => {| rHeader := {| DataFormat := record_format r v; rhLength := len (value_bytes v) |};
                 rData := Some (Val (complete_value v)) |}
  | None => r
  end.

Definition record_bytes (r : record V) : bytes :=
  match rData r ≫= unbox with
  | Some v => be_put 4 (record_format r v) ++ be_put 4 (len (value_bytes v)) ++ value_bytes v
  | None => []
  end.

Lemma writes_sflow_record what r :
  record_ok r -> writes (encodeRecord what value_format encode_value r) (record_bytes r).
Proof.
  intros (b & v & Hd & Hb & Hok & Hf & Hl). unfold encodeRecord, record_bytes.
  rewrite Hd. cbn [mbind option_bind]. rewrite Hb. fold (record_format r v).
  destruct (kind_fits v (record_format r v) 0 Hok Hf) as (bs & _ & Hw & _).
  pose proof (written_writes _ _ Hw) as Hwr. unfold value_bytes in *. rewrite Hwr in *.
  apply writes_lift. destruct (format_ok_nonzero _ _ Hf) as [_ Hnz].
  destruct (Z.eqb_spec (record_format r v) 0); [done|]. pose proof (len_nonneg bs).
  rewrite to_uint_small by (split; lia). write_steps. apply writes_Write.
Qed.

Lemma reads_decodeRecordAt format seq typ r :
  record_ok r ->
  reads (decodeRecordAt format seq typ decode_record) (record_bytes r) (Some (complete_record r)).
Proof.
  intros (b & v & Hd & Hb & Hok & Hf & Hl). unfold decodeRecordAt, record_bytes, complete_record.
  rewrite Hd. cbn [mbind option_bind]. rewrite Hb.
  destruct (kind_fits v (record_format r v) (len (value_bytes v)) Hok Hf) as (bs & rest & Hw & Hr).
  pose proof (written_writes _ _ Hw) as Hwr. unfold value_bytes in *. rewrite Hwr in *.
  destruct (format_ok_nonzero _ _ Hf) as [Hu _]. pose proof (len_nonneg bs).
  assert (u32 (len bs)) by (split; lia). rewrite app_assoc. eapply reads_bind.
  { apply reads_errctx. rewrite <- (app_nil_r (be_put 4 (len bs))). read_steps. apply reads_ret. }
  cbn beta iota. apply reads_Len. intros n Hn. destruct (Z.ltb_spec n (len bs)); [lia|].
  apply reads_app_nil. eapply reads_bind; [by apply reads_Next|].
  intros tl. unfold bind, errctx, on_buffer. by rewrite Hr.
Qed.

Lemma len_sflow_record_bytes r : record_ok r -> 8 <= len (record_bytes r).
Proof.
  intros (b & v & Hd & Hb & _). unfold record_bytes. rewrite Hd. cbn [mbind option_bind].
  rewrite Hb. golen.
Qed.

Definition records_ok (count : Z) (rs : list (record V)) : Prop :=
  Forall record_ok rs /\ len rs <= 1000 /\ (count = 0 \/ count = len rs).

Lemma records_count_kept count (rs : list (record V)) :
  records_ok count rs -> (if count =? 0 then to_uint 32 (len rs) else count) = len rs.
Proof.
  intros (_ & Hl & Hc). rewrite to_uint_small by by apply len_u32.
  destruct Hc as [-> | ->]; [done|]. destruct (Z.eqb_spec (len rs) 0) as [->|]; done.
Qed.

Lemma writes_encodeRecords what what' count rs :
  records_ok count rs ->
  writes (encodeRecords what count rs (encodeRecord what' value_format encode_value))
    (be_put 4 (len rs) ++ flat_map record_bytes rs).
Proof.
  intros Hok. unfold encodeRecords. rewrite records_count_kept by done. cbv zeta. rewrite Z.eqb_refl.
  cbn [negb]. write_steps. apply writes_rangeM. intros r Hr. apply writes_sflow_record.
  by apply (proj1 (Forall_forall _ _) (proj1 Hok)).
Qed.

Lemma reads_decodeRecords format seq typ count rs :
  records_ok count rs ->
  reads (decodeRecords format seq (len rs) typ decode_record) (flat_map record_bytes rs)
    (map complete_record rs).
Proof.
  intros (Hr & _). unfold decodeRecords. unfold len. rewrite Nat2Z.id.
  assert (forall r, r ∈ rs -> record_ok r) as Hok by by apply Forall_forall.
  apply reads_app_nil. eapply reads_bind.
  { apply (reads_forWhileM rs 0 more_records _ record_bytes complete_record).
    - intros r rest Hin. apply Z.leb_le. rewrite len_app. pose proof (len_nonneg rest).
      pose proof (len_sflow_record_bytes r (Hok r Hin)). lia.
    - intros _ r Hin. by apply reads_decodeRecordAt, Hok. }
  unfold fill. rewrite length_map, Nat.sub_diag. cbn [replicate]. rewrite app_nil_r. apply reads_ret.
Qed.
End records.

(** ** Samples *)

Definition interlaced (format : Z) : bool :=
  (format =? SAMPLE_FORMAT_FLOW) || (format =? SAMPLE_FORMAT_COUNTER).

(** The data source fits its encoding: 8 and 24 bits when interlaced. *)
Definition source_ok (format : Z) (h : SampleHeader) : Prop :=
  u32 (SampleSequenceNumber h) /\
  if interlaced format then uint 8 (SourceIdType h) /\ uint 24 (SourceIdValue h)
  else u32 (SourceIdType h) /\ u32 (SourceIdValue h).

Definition source_bytes (format : Z) (h : SampleHeader) : bytes :=
  be_put 4 (SampleSequenceNumber h) ++
  if interlaced format then be_put 4 (SourceIdType h * 2 ^ 24 + SourceIdValue h)
  else be_put 4 (SourceIdType h) ++ be_put 4 (SourceIdValue h).

Definition sample_format (s : sample_value) : Z :=
  match s with
  | SV_FlowSample s => sampleFormat (fsHeader s) SAMPLE_FORMAT_FLOW
  | SV_CounterSample s => sampleFormat (csHeader s) SAMPLE_FORMAT_COUNTER
  | SV_ExpandedFlowSample s => sampleFormat (esHeader s) SAMPLE_FORMAT_EXPANDED_FLOW
  | SV_DropSample s => sampleFormat (dsHeader s) SAMPLE_FORMAT_DROP
  | SV_RawSample s => Format (rsHeader s)
  end.

Definition records_bytes {V} `{RecordKind V} (rs : list (record V)) : bytes :=
  be_put 4 (len rs) ++ flat_map record_bytes rs.

Definition sample_payload (v : sample_value) : bytes :=
  match v with
  | SV_FlowSample s =>
      source_bytes (sample_format v) (fsHeader s) ++
      be_put 4 (fsSamplingRate s) ++ be_put 4 (fsSamplePool s) ++ be_put 4 (fsDrops s) ++
      be_put 4 (fsInput s) ++ be_put 4 (fsOutput s) ++ records_bytes (fsRecords s)
  | SV_CounterSample s =>
      source_bytes (sample_format v) (csHeader s) ++ records_bytes (csRecords s)
  | SV_ExpandedFlowSample s =>
      source_bytes (sample_format v) (esHeader s) ++
      be_put 4 (esSamplingRate s) ++ be_put 4 (esSamplePool s) ++ be_put 4 (esDrops s) ++
      be_put 4 (InputIfFormat s) ++ be_put 4 (InputIfValue s) ++
      be_put 4 (OutputIfFormat s) ++ be_put 4 (OutputIfValue s) ++ records_bytes (esRecords s)
  | SV_DropSample s =>
      source_bytes (sample_format v) (dsHeader s) ++
      be_put 4 (dsDrops s) ++ be_put 4 (dsInput s) ++ be_put 4 (dsOutput s) ++
      be_put 4 (Reason s) ++ records_bytes (dsRecords s)
  | SV_RawSample s => rsData s
  end.

(** The samples the encoder represents faithfully. *)
Definition sample_ok (v : sample_value) : Prop :=
  len (sample_payload v) < 2 ^ 32 /\
  match v with
  | SV_FlowSample s =>
      sample_format v = SAMPLE_FORMAT_FLOW /\ source_ok SAMPLE_FORMAT_FLOW (fsHeader s) /\
      u32 (fsSamplingRate s) /\ u32 (fsSamplePool s) /\ u32 (fsDrops s) /\ u32 (fsInput s) /\
      u32 (fsOutput s) /\ records_ok (fsFlowRecordsCount s) (fsRecords s)
  | SV_CounterSample s =>
      (sample_format v = SAMPLE_FORMAT_COUNTER \/ sample_format v = SAMPLE_FORMAT_EXPANDED_COUNTER) /\
      source_ok (sample_format v) (csHeader s) /\ records_ok (CounterRecordsCount s) (csRecords s)
  | SV_ExpandedFlowSample s =>
      sample_format v = SAMPLE_FORMAT_EXPANDED_FLOW /\
      source_ok SAMPLE_FORMAT_EXPANDED_FLOW (esHeader s) /\
      u32 (esSamplingRate s) /\ u32 (esSamplePool s) /\ u32 (esDrops s) /\
      u32 (InputIfFormat s) /\ u32 (InputIfValue s) /\ u32 (OutputIfFormat s) /\
      u32 (OutputIfValue s) /\ records_ok (esFlowRecordsCount s) (esRecords s)
  | SV_DropSample s =>
      sample_format v = SAMPLE_FORMAT_DROP /\ source_ok SAMPLE_FORMAT_DROP (dsHeader s) /\
      u32 (dsDrops s) /\ u32 (dsInput s) /\ u32 (dsOutput s) /\ u32 (Reason s) /\
      records_ok (dsFlowRecordsCount s) (dsRecords s)
  | SV_RawSample s =>
      is_bytes (rsData s) /\ u32 (sample_format v) /\ sample_format v <> 0 /\
      (DataFormatEnterprise (sample_format v) <> 0 \/
       isKnownSampleFormat (DataFormatFormat (sample_format v)) = false)
  end.

Definition complete_header (v : sample_value) (h : SampleHeader) : SampleHeader :=
  {| Format := sample_format v; sLength := len (sample_payload v);
     SampleSequenceNumber := SampleSequenceNumber h; SourceIdType := SourceIdType h;
     SourceIdValue := SourceIdValue h |}.

Definition complete_sample (v : sample_value) : sample_value :=
  match v with
  | SV_FlowSample s => SV_FlowSample {| fsHeader := complete_header v (fsHeader s);
      fsSamplingRate := fsSamplingRate s; fsSamplePool := fsSamplePool s; fsDrops := fsDrops s;
      fsInput := fsInput s; fsOutput := fsOutput s; fsFlowRecordsCount := len (fsRecords s);
      fsRecords := map complete_record (fsRecords s) |}
  | SV_CounterSample s => SV_CounterSample {| csHeader := complete_header v (csHeader s);
      CounterRecordsCount := len (csRecords s); csRecords := map complete_record (csRecords s) |}
  | SV_ExpandedFlowSample s => SV_ExpandedFlowSample {| esHeader := complete_header v (esHeader s);
      esSamplingRate := esSamplingRate s; esSamplePool := esSamplePool s; esDrops := esDrops s;
      InputIfFormat := InputIfFormat s; InputIfValue := InputIfValue s;
      OutputIfFormat := OutputIfFormat s; OutputIfValue := OutputIfValue s;
      esFlowRecordsCount := len (esRecords s); esRecords := map complete_record (esRecords s) |}
  | SV_DropSample s => SV_DropSample {| dsHeader := complete_header v (dsHeader s);
      dsDrops := dsDrops s; dsInput := dsInput s; dsOutput := dsOutput s; Reason := Reason s;
      dsFlowRecordsCount := len (dsRecords s); dsRecords := map complete_record (dsRecords s) |}
  | SV_RawSample s => SV_RawSample {|
      rsHeader := {| Format := sample_format v; sLength := len (sample_payload v);
                     SampleSequenceNumber := 0; SourceIdType := 0; SourceIdValue := 0 |};
      rsData := rsData s |}
  end.

Lemma sourceId_pack t v :
  uint 8 t -> uint 24 v ->
  Z.lor (to_uint 32 (Z.shiftl t 24)) (Z.land v 0x00ffffff) = t * 2 ^ 24 + v /\
  u32 (t * 2 ^ 24 + v) /\
  Z.shiftr (t * 2 ^ 24 + v) 24 = t /\ Z.land (t * 2 ^ 24 + v) 0x00ffffff = v.
Proof.
  intros [Ht Ht'] [Hv Hv']. change 0x00ffffff with (Z.ones 24). rewrite !land_ones_mod by lia.
  rewrite (Z.mod_small v) by lia. rewrite to_uint_small by (rewrite Z.shiftl_mul_pow2 by lia; split; lia).
  rewrite lor_shiftl_low by lia. splits; [done|split; lia| |].
  - rewrite shiftr_div by lia. rewrite Z.div_add_l, Z.div_small; lia.
  - rewrite Z.add_comm, Z.mod_add, Z.mod_small; lia.
Qed.

Definition sample_formats : list Z :=
  [SAMPLE_FORMAT_FLOW; SAMPLE_FORMAT_COUNTER; SAMPLE_FORMAT_EXPANDED_FLOW;
   SAMPLE_FORMAT_EXPANDED_COUNTER; SAMPLE_FORMAT_DROP].

Lemma writes_encodeSampleHeader format h :
  format ∈ sample_formats -> source_ok format h ->
  writes (encodeSampleHeader h format) (source_bytes format h).
Proof.
  intros Hf [? Hs]. unfold encodeSampleHeader, source_bytes. fold (interlaced format).
  destruct (interlaced format) eqn:Hi.
  - destruct Hs as [Ht Hv]. destruct (sourceId_pack _ _ Ht Hv) as (-> & _). write_steps. apply writes_u32.
  - write_step. assert ((format =? SAMPLE_FORMAT_EXPANDED_FLOW) || (format =? SAMPLE_FORMAT_EXPANDED_COUNTER)
      || (format =? SAMPLE_FORMAT_DROP) = true) as ->.
    { repeat apply elem_of_cons in Hf as [->|Hf]; try done. by apply elem_of_nil in Hf. }
    write_steps. apply writes_u32.
Qed.

Lemma reads_source format h {A} (k : Z -> Z -> Z -> M A) bs a g :
  format ∈ sample_formats -> source_ok format h ->
  reads (k (SampleSequenceNumber h) (SourceIdType h) (SourceIdValue h)) bs a ->
  reads (let* seq := errctx g (BinaryDecoder D_uint32) in
         let* (t, v) := decodeSampleSource format seq in k seq t v)
    (source_bytes format h ++ bs) a.
Proof.
  intros Hf [Hseq Hs] Hk. unfold source_bytes. rewrite <- app_assoc.
  eapply reads_bind; [by apply reads_errctx, reads_u32|].
  apply (reads_bind _ _ _ _ (SourceIdType h, SourceIdValue h)); [|exact Hk].
  unfold decodeSampleSource. fold (interlaced format). destruct (interlaced format) eqn:Hi.
  - destruct Hs as [Ht Hv]. destruct (sourceId_pack _ _ Ht Hv) as (_ & Hu & H1 & H2).
    apply reads_app_nil. eapply reads_bind; [by apply reads_errctx, reads_u32|].
    rewrite H1, H2. apply reads_ret.
  - assert ((format =? SAMPLE_FORMAT_EXPANDED_FLOW) || (format =? SAMPLE_FORMAT_EXPANDED_COUNTER)
      || (format =? SAMPLE_FORMAT_DROP) = true) as ->.
    { repeat apply elem_of_cons in Hf as [->|Hf]; try done. by apply elem_of_nil in Hf. }
    destruct Hs as [Ht Hv]. apply reads_errctx. read_step. apply reads_app_nil. read_step. apply reads_ret.
Qed.

(** Reading the records of a sample after their count. *)
Lemma reads_counted {V} `{RecordKind V} format seq typ count rs {A} (k : list (record V) -> M A) a bs :
  records_ok count rs -> reads (k (map complete_record rs)) bs a ->
  reads (checkRecordsCount format seq (len rs) ;;;
         let* records := decodeRecords format seq (len rs) typ decode_record in k records)
    (flat_map record_bytes rs ++ bs) a.
Proof.
  intros Hok Hk. unfold checkRecordsCount. pose proof Hok as (_ & Hl & _).
  destruct (Z.ltb_spec 1000 (len rs)); [lia|]. apply reads_makeslice; [apply len_nonneg|].
  eapply reads_bind; [by eapply reads_decodeRecords|exact Hk].
Qed.

#[local] Opaque encodeSampleHeader encodeRecords decodeRecords checkRecordsCount.

Lemma encodeSampleValue_ok v :
  sample_ok v -> encodeSampleValue v = Ok (sample_payload v, sample_format v).
Proof.
  intros [_ Hok]. destruct v as [s|s|s|s|s]; cbn [encodeSampleValue sample_format] in *;
    [set (f := sampleFormat _ _) in *..|].
  - destruct Hok as (Hf & Hs & _ & _ & _ & _ & _ & Hr). unfold encodeFlowSample.
    cbn [sample_payload sample_format]. fold f. rewrite Hf. cbn [Z.eqb Pos.eqb negb SAMPLE_FORMAT_FLOW].
    erewrite written_writes; [reflexivity|]. eapply writes_bind; [apply writes_encodeSampleHeader; [set_solver|done]|].
    write_steps. exact (writes_encodeRecords (V := flow_value) "flow" "flow" _ _ Hr).
  - destruct Hok as (Hf & Hs & Hr). unfold encodeCounterSample.
    assert (negb (f =? SAMPLE_FORMAT_COUNTER) && negb (f =? SAMPLE_FORMAT_EXPANDED_COUNTER) = false) as ->
      by (destruct Hf as [-> | ->]; done).
    cbn [sample_payload sample_format]. fold f.
    erewrite written_writes; [reflexivity|]. eapply writes_bind.
    + apply writes_encodeSampleHeader; [|done]. unfold sample_formats. destruct Hf as [-> | ->]; set_solver.
    + exact (writes_encodeRecords (V := counter_value) "counter" "counter" _ _ Hr).
  - destruct Hok as (Hf & Hs & _ & _ & _ & _ & _ & _ & _ & Hr). unfold encodeExpandedFlowSample.
    cbn [sample_payload sample_format]. fold f. rewrite Hf. cbn [Z.eqb Pos.eqb negb SAMPLE_FORMAT_EXPANDED_FLOW].
    erewrite written_writes; [reflexivity|]. eapply writes_bind; [apply writes_encodeSampleHeader; [set_solver|done]|].
    write_steps. exact (writes_encodeRecords (V := flow_value) "expanded flow" "flow" _ _ Hr).
  - destruct Hok as (Hf & Hs & _ & _ & _ & _ & Hr). unfold encodeDropSample.
    cbn [sample_payload sample_format]. fold f. rewrite Hf. cbn [Z.eqb Pos.eqb negb SAMPLE_FORMAT_DROP].
    erewrite written_writes; [reflexivity|]. eapply writes_bind; [apply writes_encodeSampleHeader; [set_solver|done]|].
    write_steps. exact (writes_encodeRecords (V := flow_value) "drop" "flow" _ _ Hr).
  - destruct Hok as (_ & _ & Hf & _). destruct (Z.eqb_spec (Format (rsHeader s)) 0); done.
Qed.

(** The header of a sample as the datagram loop passes it. *)
Definition sample_header (v : sample_value) : SampleHeader :=
  {| Format := sample_format v; sLength := len (sample_payload v); SampleSequenceNumber := 0;
     SourceIdType := 0; SourceIdValue := 0 |}.

Lemma reads_DecodeSample v :
  sample_ok v -> (forall s, v <> SV_RawSample s) ->
  reads (DecodeSample (sample_header v)) (sample_payload v) (complete_sample v).
Proof.
  intros [_ Hok] Hraw. unfold DecodeSample. cbn [sample_header Format sLength].
  destruct v as [s|s|s|s|s]; [..|by destruct (Hraw s)]; clear Hraw; cbn [complete_sample];
    unfold complete_header; match goal with |- context [len (sample_payload ?v)] => generalize (len (sample_payload v)) end;
    intros n; cbn [sample_payload].
  - destruct Hok as (Hf & Hs & ? & ? & ? & ? & ? & Hr). rewrite Hf.
    pose proof Hr as (_ & Hl & _). pose proof (len_u32 _ Hl).
    eapply reads_source; [set_solver|done|]. cbn [Z.eqb Pos.eqb SAMPLE_FORMAT_FLOW].
    unfold decodeFlowSample, records_bytes. rewrite !app_assoc. eapply reads_bind.
    { apply reads_errctx. rewrite <- !app_assoc. read_steps. apply reads_app_nil. read_step. apply reads_ret. }
    cbn beta iota. apply reads_app_nil. change DecodeFlowRecord with (decode_record (V := flow_value)).
    eapply reads_counted; [done|]. apply reads_ret.
  - destruct Hok as (Hf & Hs & Hr). pose proof Hr as (_ & Hl & _). pose proof (len_u32 _ Hl).
    eapply reads_source; [|done|].
    { unfold sample_formats. destruct Hf as [-> | ->]; set_solver. }
    assert (sample_format (SV_CounterSample s) =? SAMPLE_FORMAT_FLOW = false) as ->
      by (destruct Hf as [-> | ->]; done).
    assert ((sample_format (SV_CounterSample s) =? SAMPLE_FORMAT_COUNTER) ||
            (sample_format (SV_CounterSample s) =? SAMPLE_FORMAT_EXPANDED_COUNTER) = true) as ->
      by (destruct Hf as [-> | ->]; done).
    unfold decodeCounterSample, records_bytes. eapply reads_bind; [by apply reads_errctx, reads_u32|].
    apply reads_app_nil. change DecodeCounterRecord with (decode_record (V := counter_value)).
    eapply reads_counted; [done|]. apply reads_ret.
  - destruct Hok as (Hf & Hs & ? & ? & ? & ? & ? & ? & ? & Hr). rewrite Hf.
    pose proof Hr as (_ & Hl & _). pose proof (len_u32 _ Hl).
    eapply reads_source; [set_solver|done|]. cbn [Z.eqb Pos.eqb SAMPLE_FORMAT_EXPANDED_FLOW orb].
    unfold decodeExpandedFlowSample, records_bytes. rewrite !app_assoc. eapply reads_bind.
    { apply reads_errctx. rewrite <- !app_assoc. read_steps. apply reads_app_nil. read_step. apply reads_ret. }
    cbn beta iota. apply reads_app_nil. change DecodeFlowRecord with (decode_record (V := flow_value)).
    eapply reads_counted; [done|]. apply reads_ret.
  - destruct Hok as (Hf & Hs & ? & ? & ? & ? & Hr). rewrite Hf.
    pose proof Hr as (_ & Hl & _). pose proof (len_u32 _ Hl).
    eapply reads_source; [set_solver|done|]. cbn [Z.eqb Pos.eqb SAMPLE_FORMAT_DROP orb].
    unfold decodeDropSample, records_bytes. rewrite !app_assoc. eapply reads_bind.
    { apply reads_errctx. rewrite <- !app_assoc. read_steps. apply reads_app_nil. read_step. apply reads_ret. }
    cbn beta iota. apply reads_app_nil. change DecodeFlowRecord with (decode_record (V := flow_value)).
    eapply reads_counted; [done|]. apply reads_ret.
Qed.

(** ** Datagrams *)

Definition element_ok (s : sample) : Prop :=
  exists b v, s = Some b /\ unbox b = Some v /\ sample_ok v.

Definition complete_element (s : sample) : sample :=
  match s ≫= unbox with Some v => Some (Val (complete_sample v)) | None => s end.

Definition element_bytes (s : sample) : bytes :=
  match s ≫= unbox with
  | Some v => be_put 4 (sample_format v) ++ be_put 4 (len (sample_payload v)) ++ sample_payload v
  | None => []
  end.

Lemma sample_format_u32 v : sample_ok v -> u32 (sample_format v).
Proof.
  intros [_ Hok]. destruct v; [..|apply Hok].
  - by destruct Hok as [-> _].
  - by destruct Hok as [[-> | ->] _].
  - by destruct Hok as [-> _].
  - by destruct Hok as [-> _].
Qed.

Lemma writes_encodeSampleAt s : element_ok s -> writes (encodeSampleAt s) (element_bytes s).
Proof.
  intros (b & v & -> & Hb & Hok). unfold encodeSampleAt, encodeSample, element_bytes.
  cbn [mbind option_bind]. rewrite Hb, encodeSampleValue_ok by done. apply writes_lift.
  destruct Hok as [Hl _]. pose proof (len_nonneg (sample_payload v)).
  rewrite to_uint_small by (split; lia). write_steps. apply writes_Write.
Qed.

Lemma reads_decodeSampleAt i s :
  element_ok s -> reads (decodeSampleAt i) (element_bytes s) (complete_element s).
Proof.
  intros (b & v & -> & Hb & Hok). unfold decodeSampleAt, element_bytes, complete_element.
  cbn [mbind option_bind]. rewrite Hb. pose proof (sample_format_u32 v Hok).
  pose proof (len_nonneg (sample_payload v)). pose proof (proj1 Hok).
  assert (u32 (len (sample_payload v))) by (split; lia).
  apply reads_Len. intros n Hn. rewrite !len_app, !len_be_put in Hn.
  destruct (Z.ltb_spec n 8); [lia|]. rewrite app_assoc. eapply reads_bind.
  { apply reads_errctx. read_step. apply reads_app_nil. read_step. apply reads_ret. }
  cbn beta iota. apply reads_Len. intros m Hm. destruct (Z.ltb_spec m (len (sample_payload v))); [lia|].
  cbv zeta. apply reads_app_nil. eapply reads_bind; [by apply reads_Next|].
  assert ((exists r, v = SV_RawSample r) \/ (forall r, v <> SV_RawSample r)) as [[r ->]|Hraw]
    by (destruct v; eauto; by right).
  - destruct Hok as (_ & _ & _ & _ & Hraw).
    assert (negb (DataFormatEnterprise (sample_format (SV_RawSample r)) =? 0) ||
            negb (isKnownSampleFormat (DataFormatFormat (sample_format (SV_RawSample r)))) = true) as ->.
    { destruct Hraw as [He | ->]; [|apply orb_true_r]. by apply Z.eqb_neq in He as ->. }
    apply reads_ret.
  - assert (negb (DataFormatEnterprise (sample_format v) =? 0) ||
            negb (isKnownSampleFormat (DataFormatFormat (sample_format v))) = false) as ->.
    { destruct Hok as [_ Hok]. destruct v; [..|by destruct (Hraw s)].
      - by destruct Hok as [-> _].
      - by destruct Hok as [[-> | ->] _].
      - by destruct Hok as [-> _].
      - by destruct Hok as [-> _]. }
    intros tl. unfold bind, errctx, on_buffer. fold (sample_header v).
    pose proof (reads_DecodeSample v Hok Hraw []) as Hr. rewrite app_nil_r in Hr. by rewrite Hr.
Qed.

(** The packets the encoder represents faithfully. *)
Definition packet_ok (p : Packet) : Prop :=
  (Version p = 0 \/ Version p = 5) /\ is_bytes (AgentIP p) /\
  (len (AgentIP p) = 4 \/ len (AgentIP p) = 16) /\
  (IPVersion p = 0 \/ IPVersion p = ip_version (AgentIP p)) /\
  u32 (SubAgentId p) /\ u32 (SequenceNumber p) /\ u32 (Uptime p) /\
  (SamplesCount p = 0 \/ SamplesCount p = len (Samples p)) /\ len (Samples p) <= 1000 /\
  Forall element_ok (Samples p).

Definition complete_packet (p : Packet) : Packet :=
  {| Version := 5; IPVersion := ip_version (AgentIP p); AgentIP := AgentIP p;
     SubAgentId := SubAgentId p; SequenceNumber := SequenceNumber p; Uptime := Uptime p;
     SamplesCount := len (Samples p); Samples := map complete_element (Samples p) |}.

Definition packet_bytes (p : Packet) : bytes :=
  be_put 4 5 ++ be_put 4 (ip_version (AgentIP p)) ++ AgentIP p ++ be_put 4 (SubAgentId p) ++
  be_put 4 (SequenceNumber p) ++ be_put 4 (Uptime p) ++ be_put 4 (len (Samples p)) ++
  flat_map element_bytes (Samples p).

Lemma EncodeMessage_ok p : packet_ok p -> EncodeMessage (Some p) = Ok (packet_bytes p).
Proof.
  intros (Hv & _ & Hip & Hiv & _ & _ & _ & Hc & Hl & Hs). unfold EncodeMessage.
  assert ((if Version p =? 0 then 5 else Version p) = 5) as -> by (destruct Hv as [-> | ->]; done).
  cbn [Z.eqb Pos.eqb negb].
  assert (encodeDatagram p 5 (ip_version (AgentIP p)) = Ok (packet_bytes p)) as Heq.
  { unfold encodeDatagram.
    assert ((ip_version (AgentIP p) =? 1) && negb (len (AgentIP p) =? 4)
         || (ip_version (AgentIP p) =? 2) && negb (len (AgentIP p) =? 16) = false) as ->.
    { unfold ip_version. destruct Hip as [-> | ->]; done. }
    assert ((if SamplesCount p =? 0 then to_uint 32 (len (Samples p)) else SamplesCount p)
            = len (Samples p)) as ->.
    { rewrite to_uint_small by by apply len_u32. destruct Hc as [-> | ->]; [done|].
      destruct (Z.eqb_spec (len (Samples p)) 0) as [->|]; done. }
    rewrite Z.eqb_refl. cbn [negb]. apply written_writes. unfold packet_bytes. write_steps.
    apply writes_rangeM. intros s Hin. apply writes_encodeSampleAt.
    by apply (proj1 (Forall_forall _ _) Hs). }
  destruct Hiv as [-> | ->].
  - cbn [Z.eqb]. unfold ip_version in Heq. destruct Hip as [Hip | Hip]; rewrite Hip in *; exact Heq.
  - assert (ip_version (AgentIP p) =? 0 = false) as ->; [|exact Heq].
    unfold ip_version. destruct Hip as [-> | ->]; done.
Qed.

Lemma reads_DecodeMessageVersion p :
  packet_ok p -> reads DecodeMessageVersion (packet_bytes p) (complete_packet p).
Proof.
  intros (_ & Hb & Hip & _ & ? & ? & ? & _ & Hl & Hs). pose proof (len_u32 _ Hl).
  assert (forall s, s ∈ Samples p -> element_ok s) as Hel by by apply Forall_forall.
  unfold DecodeMessageVersion, packet_bytes. eapply reads_bind; [by apply reads_errctx, reads_u32|].
  cbn [Z.eqb Pos.eqb negb]. unfold DecodeMessage.
  assert (u32 (ip_version (AgentIP p))) by (unfold ip_version; destruct Hip as [-> | ->]; done).
  eapply reads_bind; [by apply reads_errctx, reads_u32|].
  eapply reads_bind.
  { unfold decodeAgentIP, ip_version. destruct Hip as [Hip|Hip]; rewrite Hip; cbn [Z.eqb Pos.eqb];
      (apply reads_errctx, reads_bytes; [done|unfold len in Hip; lia]). }
  rewrite !app_assoc. eapply reads_bind.
  { apply reads_errctx. rewrite <- !app_assoc. read_steps. apply reads_app_nil. read_step. apply reads_ret. }
  cbn beta iota. destruct (Z.ltb_spec 1000 (len (Samples p))); [lia|].
  apply reads_makeslice; [apply len_nonneg|]. unfold len at 1. rewrite Nat2Z.id.
  apply reads_app_nil. eapply reads_bind.
  { apply (reads_forM _ _ _ element_bytes complete_element). intros j s Hin.
    by apply reads_decodeSampleAt, Hel. }
  apply reads_ret.
Qed.
