(* ===== verification/SflowSafety.v ===== *)
(** * decoders/sflow: decoding any datagram

    On any bytes the decoder returns a packet or an error, without panics; a packet it returns
    is well-typed: counts are the actual ones and bounded, addresses have the length of their
    version, and the type of the data of every record is the one of its data format. *)
From S2P Require Import Prelude DecodersUtils SflowTypes SflowDecode SflowEncode SflowRoundtrip.

(** ** Parts of records *)

Lemma yields_readXDROpaqueWithLength n :
  0 <= n -> yields (readXDROpaqueWithLength n) (fun s => is_bytes s /\ len s <= n).
Proof.
  intros Hn. unfold readXDROpaqueWithLength. yield_step. destruct (_ <? _); [apply yields_fail|].
  eapply yields_bind; [by apply yields_Next|]. intros s Hs. cbv zeta.
  destruct (negb _); [|by apply yields_ret]. yield_step. destruct (_ <? _); [apply yields_fail|].
  eapply yields_bind; [apply yields_Next, xdr_padding_bounds|]. intros _ _. by apply yields_ret.
Qed.

Lemma yields_readXDRString : yields readXDRString xdr_ok.
Proof.
  unfold readXDRString, readXDROpaque. eapply yields_bind; [eauto with yields|]. intros n [? ?].
  eapply yields_mono; [by apply yields_readXDROpaqueWithLength|]. intros s [? ?]. split; [done|lia].
Qed.

Lemma yields_DecodeIP : yields DecodeIP (fun '(v, ip) => ip_ok v ip /\ v = ip_version ip).
Proof.
  unfold DecodeIP. eapply yields_bind; [apply yields_errctx; eauto with yields|]. intros v Hv.
  assert (forall n, (S n = 4%nat /\ v = 1) \/ (S n = 16%nat /\ v = 2) ->
    yields (DecodeIP_rest v (Z.of_nat (S n))) (fun '(v, ip) => ip_ok v ip /\ v = ip_version ip)) as Hrest.
  { intros n Hn. unfold DecodeIP_rest. apply yields_makeslice; [lia|]. yield_step.
    destruct (_ <=? _); [|apply yields_fail]. rewrite Nat2Z.id.
    eapply yields_bind; [apply yields_errctx; apply (yields_BinaryDecoder (D_uint8s (S n))); done|].
    intros ip [Hb Hl]. cbn [dest_ok] in *. apply yields_ret. rewrite <- Hl in Hn.
    assert (v = ip_version ip /\ (len ip = 4 \/ len ip = 16)) as [-> Hlen].
    { unfold ip_version, len. destruct Hn as [[-> ->]|[-> ->]]; split; auto. }
    split; [|done]. unfold ip_ok. auto. }
  destruct (Z.eqb_spec v 0) as [->|].
  { apply yields_ret. split; [|done]. unfold ip_ok. splits; [constructor|by left|by left]. }
  destruct (Z.eqb_spec v 1) as [->|]; [apply (Hrest 3%nat); auto|].
  destruct (Z.eqb_spec v 2) as [->|]; [apply (Hrest 15%nat); auto|apply yields_fail].
Qed.

Lemma yields_readU32s n :
  0 <= n <= 1000 -> yields (readU32s n) (fun l => u32s_ok l /\ len l = n).
Proof.
  intros Hn. unfold readU32s. apply yields_makeslice; [lia|]. destruct (Z.ltb_spec 0 n).
  - destruct (Z.to_nat n) as [|k] eqn:Hk; [lia|].
    eapply yields_mono; [by apply (yields_BinaryDecoder (D_uint32s (S k)))|].
    intros l [Hl Hlen]. cbn [dest_ok] in *. unfold u32s_ok, len. splits; [done|lia|lia].
  - apply yields_ret. split; [split; [constructor|done]|]. unfold len; simpl; lia.
Qed.

Lemma yields_decodeU32Vector name : yields (decodeU32Vector name) u32s_ok.
Proof.
  unfold decodeU32Vector. eapply yields_bind; [eauto with yields|]. intros n Hn; cbn [dest_ok] in Hn.
  destruct (Z.ltb_spec 1000 n); [apply yields_fail|]. yield_step. destruct (_ <? _); [apply yields_fail|].
  eapply yields_mono; [apply yields_readU32s; destruct Hn; lia|]. by intros l [? _].
Qed.
#[local] Hint Resolve yields_readXDRString yields_DecodeIP yields_decodeU32Vector : yields.

(** ** Flow values *)

Definition segment_ok (s : ASPathSegment) : Prop := u32 (segType s) /\ u32s_ok (segPath s).

(** What the decoder returns: as in [flow_value_ok], except that a sampled header may be
    shorter than announced and that a gateway may have any number of segments, the first being
    repeated in [ASPath] when there is exactly one. *)
Definition flow_value_decoded (v : flow_value) : Prop :=
  match v with
  | FV_SampledHeader d =>
      u32 (shProtocol d) /\ u32 (shFrameLength d) /\ u32 (shStripped d) /\
      u32 (shOriginalLength d) /\ is_bytes (shHeaderData d) /\
      len (shHeaderData d) <= shOriginalLength d
  | FV_ExtendedGateway d =>
      ip_ok (gNextHopIPVersion d) (gNextHop d) /\ gNextHopIPVersion d = ip_version (gNextHop d) /\
      u32 (AS_ d) /\ u32 (gSrcAS d) /\ u32 (gSrcPeerAS d) /\
      ASDestinations d = len (DstASPath d) /\ len (DstASPath d) <= 1000 /\
      Forall segment_ok (DstASPath d) /\ ASPathLength d = len (ASPath d) /\
      match DstASPath d with
      | [s] => ASPathType d = segType s /\ ASPath d = segPath s
      | _ => ASPathType d = 0 /\ ASPath d = []
      end /\
      u32s_ok (Communities d) /\ CommunitiesLength d = len (Communities d) /\ u32 (LocalPref d)
  | _ => flow_value_ok v /\ complete_flow_value v = v
  end.

Definition decodes_as (format : Z) (v : flow_value) : Prop :=
  flow_value_decoded v /\ flowValueFormat v = format.

Lemma yields_sampled_header : yields decodeSampledHeader (decodes_as FLOW_TYPE_RAW).
Proof.
  unfold decodeSampledHeader. do 4 yield_step. rename a2 into n, H2 into Hn. destruct Hn as [Hn Hn'].
  intros b Hb. unfold bind at 1, Len at 1. unfold wp at 1. cbv beta iota.
  apply (wp_bind (A := bytes)).
  eapply (wp_mono _ (fun data b' => (is_bytes data /\ len data <= n) /\ is_bytes b') _ (fun _ _ => True)).
  - destruct (Z.ltb_spec (len b) n) as [Hlt|].
    + unfold wp, bind, Bytes, ret. rewrite Next_all. cbn beta iota. splits; [done|lia|constructor].
    + by apply yields_readXDROpaqueWithLength.
  - intros data b' [[? ?] ?]. apply wp_ret. split; [|done].
    split; [cbn; splits; done|reflexivity].
  - done.
Qed.

Lemma yields_ip_base n :
  yields (decodeSampledIPBase (S n)) (fun b =>
    u32 (ipLength b) /\ u32 (ipProtocol b) /\ is_bytes (ipSrcIP b) /\
    length (ipSrcIP b) = S n /\ is_bytes (ipDstIP b) /\ length (ipDstIP b) = S n /\
    u32 (ipSrcPort b) /\ u32 (ipDstPort b) /\ u32 (ipTcpFlags b)).
Proof.
  unfold decodeSampledIPBase. do 2 yield_step.
  do 2 (eapply yields_bind; [by apply (yields_BinaryDecoder (D_uint8s (S n)))|]; intros ? [? ?]).
  yield_steps. cbn. splits; done.
Qed.
#[local] Hint Resolve yields_ip_base : yields.

Lemma yields_segment : yields decodeASPathSegment segment_ok.
Proof.
  unfold decodeASPathSegment. yield_step. eapply yields_bind; [eauto with yields|]. intros n Hn.
  cbn [dest_ok] in Hn. destruct (Z.ltb_spec 1000 n); [apply yields_fail|]. yield_step.
  destruct (_ <? _); [apply yields_fail|].
  eapply yields_bind; [apply yields_readU32s; destruct Hn; lia|]. intros l [? ?]. by apply yields_ret.
Qed.

Lemma yields_gateway : yields decodeExtendedGateway (decodes_as FLOW_TYPE_EXT_GATEWAY).
Proof.
  unfold decodeExtendedGateway. eapply yields_bind; [apply yields_DecodeIP|]. intros [v ip] [Hip Hv].
  do 3 yield_step. eapply yields_bind; [eauto with yields|]. intros n [Hn _].
  destruct (Z.ltb_spec 1000 n); [apply yields_fail|]. apply yields_makeslice; [done|].
  eapply yields_bind; [apply yields_forM; intros; apply yields_segment|]. intros segs [Hlen Hsegs].
  cbv zeta. eapply yields_bind; [eauto with yields|]. intros m [Hm _].
  destruct (Z.ltb_spec 1000 m); [apply yields_fail|]. yield_step. destruct (_ <? _); [apply yields_fail|].
  eapply yields_bind; [by apply yields_readU32s|]. intros l [Hl Hlm]. yield_step. apply yields_ret.
  assert (len segs = n) as Hsn by (unfold len; lia).
  split; [|reflexivity]. unfold flow_value_decoded. cbn [ASPath ASPathLength DstASPath gNextHopIPVersion gNextHop AS_ gSrcAS
    gSrcPeerAS ASDestinations ASPathType CommunitiesLength Communities LocalPref].
  splits; try done; try lia.
  - destruct (Z.eqb_spec n 1); [|done]. destruct segs as [|s segs]; [done|]. cbn [nth_error].
    inversion Hsegs as [|? ? [_ [_ Hp]] _]; subst. rewrite to_uint_small; [done|by apply len_u32].
  - destruct segs as [|s [|s' segs]]; rewrite <- Hsn; cbn [len length]; [done|done|].
    unfold len. destruct (Z.eqb_spec (Z.of_nat (length (s :: s' :: segs))) 1) as [E|]; [simpl in E; lia|done].
Qed.

(** The decoders that read a fixed sequence of fields. *)
Ltac decoded :=
  yield_steps; repeat match goal with H : _ /\ _ |- _ => destruct H end; subst;
  split; [cbn; splits; done|reflexivity].

Lemma yields_ethernet : yields decodeSampledEthernet (decodes_as FLOW_TYPE_ETH).
Proof. unfold decodeSampledEthernet. decoded. Qed.
Lemma yields_ipv4 : yields decodeSampledIPv4 (decodes_as FLOW_TYPE_IPV4).
Proof. unfold decodeSampledIPv4. decoded. Qed.
Lemma yields_ipv6 : yields decodeSampledIPv6 (decodes_as FLOW_TYPE_IPV6).
Proof. unfold decodeSampledIPv6. decoded. Qed.
Lemma yields_switch : yields decodeExtendedSwitch (decodes_as FLOW_TYPE_EXT_SWITCH).
Proof. unfold decodeExtendedSwitch. decoded. Qed.
Lemma yields_router : yields decodeExtendedRouter (decodes_as FLOW_TYPE_EXT_ROUTER).
Proof. unfold decodeExtendedRouter. decoded. Qed.
Lemma yields_mpls : yields decodeExtendedMPLS (decodes_as FLOW_TYPE_EXT_MPLS).
Proof. unfold decodeExtendedMPLS. decoded. Qed.
Lemma yields_nat : yields decodeExtendedNAT (decodes_as FLOW_TYPE_EXT_NAT).
Proof. unfold decodeExtendedNAT. decoded. Qed.
Lemma yields_tunnel : yields decodeExtendedMPLSTunnel (decodes_as FLOW_TYPE_EXT_MPLS_TUNNEL).
Proof. unfold decodeExtendedMPLSTunnel. decoded. Qed.
Lemma yields_vc : yields decodeExtendedMPLSVC (decodes_as FLOW_TYPE_EXT_MPLS_VC).
Proof. unfold decodeExtendedMPLSVC. decoded. Qed.
Lemma yields_ftn : yields decodeExtendedMPLSFTN (decodes_as FLOW_TYPE_EXT_MPLS_FEC).
Proof. unfold decodeExtendedMPLSFTN. decoded. Qed.
Lemma yields_fec : yields decodeExtendedMPLSLDPFEC (decodes_as FLOW_TYPE_EXT_MPLS_LVP_FEC).
Proof. unfold decodeExtendedMPLSLDPFEC. decoded. Qed.
Lemma yields_queue : yields decodeEgressQueue (decodes_as FLOW_TYPE_EGRESS_QUEUE).
Proof. unfold decodeEgressQueue. decoded. Qed.
Lemma yields_acl : yields decodeExtendedACL (decodes_as FLOW_TYPE_EXT_ACL).
Proof. unfold decodeExtendedACL. decoded. Qed.
Lemma yields_function : yields decodeExtendedFunction (decodes_as FLOW_TYPE_EXT_FUNCTION).
Proof. unfold decodeExtendedFunction. decoded. Qed.

(** ** Records *)

Lemma format_enterprise_zero d : u32 d -> DataFormatEnterprise d = 0 -> DataFormatFormat d = d.
Proof.
  intros Hd He. destruct (dataFormat_split d Hd) as (_ & He' & ->). rewrite He' in He.
  apply Z.mod_small. destruct Hd. apply Z.div_small_iff in He; lia.
Qed.

(** The type of the data is the one of the data format. *)
Definition flow_matches (df : Z) (v : flow_value) : Prop :=
  flow_value_decoded v /\
  match v with
  | FV_RawRecord _ => unknown_format known_flow_formats df
  | _ => flowValueFormat v = df
  end.

Definition counter_matches (df : Z) (v : counter_value) : Prop :=
  counter_value_ok v /\
  match v with
  | CV_RawRecord _ => unknown_format known_counter_formats df
  | _ => counterValueFormat v = df
  end.

(** A record of a decoded sample: decoded data, or zero past the end of the sample. *)
Definition record_decoded {V} (matches : Z -> V -> Prop) (r : record V) : Prop :=
  r = zero_record \/
  u32 (DataFormat (rHeader r)) /\ u32 (rhLength (rHeader r)) /\
  exists v, rData r = Some (Val v) /\ matches (DataFormat (rHeader r)) v.

Lemma yields_flow_switch df :
  u32 df -> DataFormatEnterprise df = 0 -> yields (DecodeFlowRecord_switch df) (flow_matches df).
Proof.
  intros Hu He. pose proof (format_enterprise_zero df Hu He) as Hfmt.
  assert (forall m f, yields m (decodes_as f) -> df = f -> f <> 0 -> yields m (flow_matches df)) as Hcase.
  { intros m f Hm -> Hf. eapply yields_mono; [exact Hm|]. intros v [Hv Hvf]. split; [done|].
    destruct v; try exact Hvf. cbn in Hvf. congruence. }
  unfold DecodeFlowRecord_switch.
  destruct (Z.eqb_spec df FLOW_TYPE_RAW); [by eapply Hcase; [apply yields_sampled_header|..]|].
  destruct (Z.eqb_spec df FLOW_TYPE_ETH); [by eapply Hcase; [apply yields_ethernet|..]|].
  destruct (Z.eqb_spec df FLOW_TYPE_IPV4); [by eapply Hcase; [apply yields_ipv4|..]|].
  destruct (Z.eqb_spec df FLOW_TYPE_IPV6); [by eapply Hcase; [apply yields_ipv6|..]|].
  destruct (Z.eqb_spec df FLOW_TYPE_EXT_SWITCH); [by eapply Hcase; [apply yields_switch|..]|].
  destruct (Z.eqb_spec df FLOW_TYPE_EXT_ROUTER); [by eapply Hcase; [apply yields_router|..]|].
  destruct (Z.eqb_spec df FLOW_TYPE_EXT_GATEWAY); [by eapply Hcase; [apply yields_gateway|..]|].
  destruct (Z.eqb_spec df FLOW_TYPE_EXT_MPLS); [by eapply Hcase; [apply yields_mpls|..]|].
  destruct (Z.eqb_spec df FLOW_TYPE_EXT_NAT); [by eapply Hcase; [apply yields_nat|..]|].
  destruct (Z.eqb_spec df FLOW_TYPE_EXT_MPLS_TUNNEL); [by eapply Hcase; [apply yields_tunnel|..]|].
  destruct (Z.eqb_spec df FLOW_TYPE_EXT_MPLS_VC); [by eapply Hcase; [apply yields_vc|..]|].
  destruct (Z.eqb_spec df FLOW_TYPE_EXT_MPLS_FEC); [by eapply Hcase; [apply yields_ftn|..]|].
  destruct (Z.eqb_spec df FLOW_TYPE_EXT_MPLS_LVP_FEC); [by eapply Hcase; [apply yields_fec|..]|].
  destruct (Z.eqb_spec df FLOW_TYPE_EGRESS_QUEUE); [by eapply Hcase; [apply yields_queue|..]|].
  destruct (Z.eqb_spec df FLOW_TYPE_EXT_ACL); [by eapply Hcase; [apply yields_acl|..]|].
  destruct (Z.eqb_spec df FLOW_TYPE_EXT_FUNCTION); [by eapply Hcase; [apply yields_function|..]|].
  unfold decodeRawRecord. eapply yields_bind.
  { eapply yields_bind; [apply yields_Bytes|]. intros d Hd.
    by apply (yields_ret _ (fun r => is_bytes (rawData r))). }
  intros r Hr. apply yields_ret. split; [by split|]. right. rewrite Hfmt.
  unfold known_flow_formats. set_solver.
Qed.

Lemma yields_DecodeFlowRecord h :
  u32 (DataFormat h) -> u32 (rhLength h) ->
  yields (DecodeFlowRecord h) (record_decoded flow_matches).
Proof.
  intros Hu Hl. unfold DecodeFlowRecord.
  destruct (Z.eqb_spec (DataFormatEnterprise (DataFormat h)) 0) as [He|He]; cbn [negb].
  - eapply yields_bind.
    { apply yields_errctx. rewrite (format_enterprise_zero _ Hu He). by apply yields_flow_switch. }
    intros v Hv. apply yields_ret. right. eauto.
  - unfold decodeRawRecord. eapply yields_bind.
    { eapply yields_bind; [apply yields_Bytes|]. intros d Hd.
      by apply (yields_ret _ (fun r => is_bytes (rawData r))). }
    intros r Hr. apply yields_ret. right. splits; [done|done|]. eexists. split; [done|].
    split; [by split|]. by left.
Qed.

Lemma yields_if_counters :
  yields decodeIfCounters (fun v => counter_value_ok v /\ counterValueFormat v = COUNTER_TYPE_IF).
Proof. unfold decodeIfCounters. yield_steps. split; [cbn; splits; done|done]. Qed.

Lemma yields_ethernet_counters :
  yields decodeEthernetCounters (fun v => counter_value_ok v /\ counterValueFormat v = COUNTER_TYPE_ETH).
Proof. unfold decodeEthernetCounters. yield_steps. split; [cbn; splits; done|done]. Qed.

Lemma yields_DecodeCounterRecord h :
  u32 (DataFormat h) -> u32 (rhLength h) ->
  yields (DecodeCounterRecord h) (record_decoded counter_matches).
Proof.
  intros Hu Hl. unfold DecodeCounterRecord.
  assert (yields decodeRawRecord (fun r => is_bytes (rawData r))) as Hraw.
  { eapply yields_bind; [apply yields_Bytes|]. intros d Hd. by apply yields_ret. }
  destruct (Z.eqb_spec (DataFormatEnterprise (DataFormat h)) 0) as [He|He]; cbn [negb].
  - eapply (yields_bind _ _ (counter_matches (DataFormat h))).
    2:{ intros v Hv. apply yields_ret. right. eauto. }
    apply yields_errctx. pose proof (format_enterprise_zero _ Hu He) as Hf. rewrite Hf.
    unfold DecodeCounterRecord_switch.
    destruct (Z.eqb_spec (DataFormat h) COUNTER_TYPE_IF) as [E|].
    { rewrite E. eapply yields_mono; [apply yields_if_counters|]. intros v [Hv Hvf]. split; [done|]. by destruct v. }
    destruct (Z.eqb_spec (DataFormat h) COUNTER_TYPE_ETH) as [E|].
    { rewrite E. eapply yields_mono; [apply yields_ethernet_counters|]. intros v [Hv Hvf]. split; [done|]. by destruct v. }
    eapply yields_bind; [exact Hraw|]. intros r Hr. apply yields_ret. split; [done|]. right. rewrite Hf.
    unfold known_counter_formats. set_solver.
  - eapply yields_bind; [exact Hraw|]. intros r Hr. apply yields_ret. right. splits; [done|done|].
    eexists. split; [done|]. split; [done|]. by left.
Qed.

(** ** Samples *)

Definition records_decoded {V} (matches : Z -> V -> Prop) (count : Z) (rs : list (record V)) : Prop :=
  len rs = count /\ 0 <= count <= 1000 /\ Forall (record_decoded matches) rs.

Lemma yields_decodeRecordAt {V} format seq typ (decode : RecordHeader -> M (record V)) P :
  (forall h, u32 (DataFormat h) -> u32 (rhLength h) -> yields (decode h) P) ->
  yields (decodeRecordAt format seq typ decode) (fun o => match o with Some a => P a | None => True end).
Proof.
  intros Hdec. unfold decodeRecordAt. eapply (yields_bind _ _ (fun '(d, l) => u32 d /\ u32 l)).
  { apply yields_errctx. yield_steps. done. }
  intros [d l] [Hd Hl]. yield_step. destruct (_ <? _); [by apply yields_ret|].
  eapply yields_bind; [apply yields_Next; apply Hl|]. intros data [Hb _].
  eapply yields_bind; [apply yields_errctx, yields_on_buffer; [done|by apply Hdec]|].
  intros r Hr. by apply yields_ret.
Qed.

(** Checking the count and reading the records. *)
Lemma yields_records {V} format seq count typ (decode : RecordHeader -> M (record V)) matches
    {A} (k : list (record V) -> M A) P :
  u32 count ->
  (forall h, u32 (DataFormat h) -> u32 (rhLength h) -> yields (decode h) (record_decoded matches)) ->
  (forall rs, records_decoded matches count rs -> yields (k rs) P) ->
  yields (checkRecordsCount format seq count ;;;
          let* records := decodeRecords format seq count typ decode in k records) P.
Proof.
  intros [Hc _] Hdec Hk. unfold checkRecordsCount. destruct (Z.ltb_spec 1000 count).
  { eapply (yields_bind _ _ (fun _ => False)); [apply yields_fail|done]. }
  apply yields_makeslice; [done|]. unfold decodeRecords.
  eapply (yields_bind _ _ (records_decoded matches count)); [|exact Hk].
  eapply yields_bind; [apply yields_forWhileM; intros j; by apply yields_decodeRecordAt|].
  intros rs [Hl Hrs]. apply yields_ret. unfold records_decoded, fill, len. splits; [|done|done|].
  - rewrite length_app, length_replicate. lia.
  - apply Forall_app. split; [done|]. apply Forall_replicate. by left.
Qed.

(** The data source of a sample header, of the width of its encoding. *)
Definition header_decoded (formats : list Z) (h : SampleHeader) : Prop :=
  Format h ∈ formats /\ source_ok (Format h) h.

Definition sample_decoded (s : sample_value) : Prop :=
  match s with
  | SV_FlowSample s =>
      header_decoded [SAMPLE_FORMAT_FLOW] (fsHeader s) /\
      u32 (fsSamplingRate s) /\ u32 (fsSamplePool s) /\ u32 (fsDrops s) /\ u32 (fsInput s) /\
      u32 (fsOutput s) /\ records_decoded flow_matches (fsFlowRecordsCount s) (fsRecords s)
  | SV_CounterSample s =>
      header_decoded [SAMPLE_FORMAT_COUNTER; SAMPLE_FORMAT_EXPANDED_COUNTER] (csHeader s) /\
      records_decoded counter_matches (CounterRecordsCount s) (csRecords s)
  | SV_ExpandedFlowSample s =>
      header_decoded [SAMPLE_FORMAT_EXPANDED_FLOW] (esHeader s) /\
      u32 (esSamplingRate s) /\ u32 (esSamplePool s) /\ u32 (esDrops s) /\
      u32 (InputIfFormat s) /\ u32 (InputIfValue s) /\ u32 (OutputIfFormat s) /\
      u32 (OutputIfValue s) /\ records_decoded flow_matches (esFlowRecordsCount s) (esRecords s)
  | SV_DropSample s =>
      header_decoded [SAMPLE_FORMAT_DROP] (dsHeader s) /\
      u32 (dsDrops s) /\ u32 (dsInput s) /\ u32 (dsOutput s) /\ u32 (Reason s) /\
      records_decoded flow_matches (dsFlowRecordsCount s) (dsRecords s)
  | SV_RawSample s =>
      unknown_format sample_formats (Format (rsHeader s)) /\ is_bytes (rsData s) /\
      len (rsData s) = sLength (rsHeader s)
  end.

Lemma yields_decodeSampleSource format seq :
  yields (decodeSampleSource format seq) (fun '(t, v) =>
    format ∈ sample_formats /\
    if interlaced format then uint 8 t /\ uint 24 v else u32 t /\ u32 v).
Proof.
  unfold decodeSampleSource. fold (interlaced format). destruct (interlaced format) eqn:Hi.
  - eapply yields_bind; [apply yields_errctx; eauto with yields|]. intros d [Hd Hd'].
    apply yields_ret. splits.
    + unfold interlaced in Hi. apply orb_prop in Hi as [->%Z.eqb_eq | ->%Z.eqb_eq];
        unfold sample_formats; set_solver.
    + rewrite shiftr_div by lia. split; [apply Z.div_pos; lia|apply Z.div_lt_upper_bound; lia].
    + change 0x00ffffff with (Z.ones 24). rewrite land_ones_mod by lia. apply Z.mod_pos_bound. lia.
  - destruct (_ || _) eqn:Hf; [|apply yields_fail]. apply yields_errctx. yield_steps. splits; [|done|done].
    apply orb_prop in Hf as [[->%Z.eqb_eq | ->%Z.eqb_eq]%orb_prop | ->%Z.eqb_eq];
      unfold sample_formats; set_solver.
Qed.

Lemma yields_DecodeSample h : yields (DecodeSample h) sample_decoded.
Proof.
  unfold DecodeSample. eapply yields_bind; [apply yields_errctx; eauto with yields|]. intros seq Hseq.
  eapply yields_bind; [apply yields_decodeSampleSource|]. intros [t v] [Hf Hs].
  cbn [dest_ok] in Hseq. cbv zeta. set (hdr := {| Format := Format h |}).
  assert (source_ok (Format h) hdr) as Hsrc by done.
  destruct (Z.eqb_spec (Format h) SAMPLE_FORMAT_FLOW) as [E|N1].
  { unfold decodeFlowSample. eapply (yields_bind _ _ (fun '(a, b, c, d, e, n) =>
      u32 a /\ u32 b /\ u32 c /\ u32 d /\ u32 e /\ u32 n)).
    { apply yields_errctx. yield_steps. splits; done. }
    intros [[[[[a b] c] d] e] n] (? & ? & ? & ? & ? & ?).
    apply (yields_records _ _ _ _ _ flow_matches); [done|apply yields_DecodeFlowRecord|].
    intros rs Hrs. apply yields_ret. cbn. splits; try done. split; [|done]. cbn. rewrite E. set_solver. }
  destruct (_ || _) eqn:Hc.
  { unfold decodeCounterSample. eapply yields_bind; [apply yields_errctx; eauto with yields|].
    intros n Hn. apply (yields_records _ _ _ _ _ counter_matches); [done|apply yields_DecodeCounterRecord|].
    intros rs Hrs. apply yields_ret. cbn. splits; try done. split; [|done]. cbn.
    apply orb_prop in Hc as [->%Z.eqb_eq | ->%Z.eqb_eq]; set_solver. }
  apply orb_false_iff in Hc as [N2%Z.eqb_neq N4%Z.eqb_neq].
  destruct (Z.eqb_spec (Format h) SAMPLE_FORMAT_EXPANDED_FLOW) as [E|N3].
  { unfold decodeExpandedFlowSample. eapply (yields_bind _ _ (fun '(a, b, c, (d, e, f, g), n) =>
      u32 a /\ u32 b /\ u32 c /\ u32 d /\ u32 e /\ u32 f /\ u32 g /\ u32 n)).
    { apply yields_errctx. yield_steps. splits; done. }
    intros [[[[a b] c] [[[d e] f] g]] n] (? & ? & ? & ? & ? & ? & ? & ?).
    apply (yields_records _ _ _ _ _ flow_matches); [done|apply yields_DecodeFlowRecord|].
    intros rs Hrs. apply yields_ret. cbn. splits; try done. split; [|done]. cbn. rewrite E. set_solver. }
  unfold decodeDropSample. eapply (yields_bind _ _ (fun '(a, b, c, d, n) =>
    u32 a /\ u32 b /\ u32 c /\ u32 d /\ u32 n)).
  { apply yields_errctx. yield_steps. splits; done. }
  intros [[[[a b] c] d] n] (? & ? & ? & ? & ?).
  apply (yields_records _ _ _ _ _ flow_matches); [done|apply yields_DecodeFlowRecord|].
  intros rs Hrs. apply yields_ret. cbn. splits; try done. split; [|done]. cbn.
  unfold sample_formats in Hf. set_solver.
Qed.

(** ** Datagrams *)

Definition element_decoded (s : sample) : Prop :=
  exists v, s = Some (Val v) /\ sample_decoded v.

Definition packet_decoded (p : Packet) : Prop :=
  Version p = 5 /\ ip_ok (IPVersion p) (AgentIP p) /\ IPVersion p = ip_version (AgentIP p) /\
  u32 (SubAgentId p) /\ u32 (SequenceNumber p) /\ u32 (Uptime p) /\
  len (Samples p) = SamplesCount p /\ 0 <= SamplesCount p <= 1000 /\
  Forall element_decoded (Samples p).

Lemma unknown_sample_format format :
  u32 format ->
  negb (DataFormatEnterprise format =? 0) || negb (isKnownSampleFormat (DataFormatFormat format)) = true ->
  unknown_format sample_formats format.
Proof.
  intros Hu [He|Hk]%orb_prop.
  - left. by apply negb_true_iff, Z.eqb_neq in He.
  - right. intros Hin. apply negb_true_iff in Hk.
    repeat (apply elem_of_cons in Hin as [Hin|Hin]; [by rewrite Hin in Hk|]).
    by apply elem_of_nil in Hin.
Qed.

Lemma yields_decodeSampleAt i : yields (decodeSampleAt i) element_decoded.
Proof.
  unfold decodeSampleAt. yield_step. destruct (_ <? _); [apply yields_fail|].
  eapply (yields_bind _ _ (fun '(f, l) => u32 f /\ u32 l)).
  { apply yields_errctx. yield_steps. done. }
  intros [format length] [Hf [Hl _]]. intros b Hb. unfold bind at 1, Len at 1. unfold wp at 1.
  cbv beta iota. destruct (Z.ltb_spec (len b) length) as [|Hle]; [apply wp_fail; done|]. cbv zeta.
  apply wp_bind, wp_Next; [done|]. intros data b' -> Hlen. apply is_bytes_app in Hb as [Hd Hb'].
  rewrite Z.min_l in Hlen by lia.
  match goal with |- context [if ?c then _ else _] => destruct c eqn:Hc end.
  - apply wp_ret. split; [|done]. eexists. split; [done|]. cbn.
    splits; [by apply unknown_sample_format|done|done].
  - revert b' Hb' Hle. intros b' Hb' _. apply (yields_bind _ _ sample_decoded); [| |done].
    + apply yields_errctx, yields_on_buffer; [done|apply yields_DecodeSample].
    + intros v Hv. apply yields_ret. by exists v.
Qed.

Lemma yields_DecodeMessageVersion : yields DecodeMessageVersion packet_decoded.
Proof.
  unfold DecodeMessageVersion. eapply yields_bind; [apply yields_errctx; eauto with yields|].
  intros version _. destruct (Z.eqb_spec version 5) as [->|]; [|apply yields_fail]. cbn [negb].
  unfold DecodeMessage. eapply yields_bind; [apply yields_errctx; eauto with yields|]. intros v _.
  eapply (yields_bind _ _ (fun ip => ip_ok v ip /\ v = ip_version ip)).
  { unfold decodeAgentIP.
    assert (forall n, (S n = 4%nat /\ v = 1) \/ (S n = 16%nat /\ v = 2) ->
      yields (BinaryDecoder (D_uint8s (S n))) (fun ip => ip_ok v ip /\ v = ip_version ip)) as Hip.
    { intros n Hn. eapply yields_mono; [by apply (yields_BinaryDecoder (D_uint8s (S n)))|].
      intros ip [Hb Hl]. cbn [dest_ok] in *. rewrite <- Hl in Hn. unfold ip_ok, ip_version, len.
      destruct Hn as [[-> ->]|[-> ->]]; splits; auto. }
    destruct (Z.eqb_spec v 0) as [->|].
    { apply yields_ret. unfold ip_ok. splits; [constructor|by left|by left|done]. }
    destruct (Z.eqb_spec v 1) as [->|]; [apply yields_errctx, (Hip 3%nat); auto|].
    destruct (Z.eqb_spec v 2) as [->|]; [apply yields_errctx, (Hip 15%nat); auto|apply yields_fail]. }
  intros ip [Hip Hv]. eapply (yields_bind _ _ (fun '(a, b, c, n) => u32 a /\ u32 b /\ u32 c /\ u32 n)).
  { apply yields_errctx. yield_steps. splits; done. }
  intros [[[a b] c] n] (? & ? & ? & [Hn _]). destruct (Z.ltb_spec 1000 n); [apply yields_fail|].
  apply yields_makeslice; [done|].
  eapply yields_bind; [apply yields_forM; intros j; apply yields_decodeSampleAt|].
  intros ss [Hl Hss]. apply yields_ret. unfold packet_decoded. cbn.
  splits; try done. unfold len. lia.
Qed.

(** C40: decoding any datagram as sFlow v5 returns a packet or an error: no panic, whatever the
    lengths and counts in the datagram say.  A packet it returns is well-typed: the counts of
    samples and of records are those of its slices and at most 1000, the agent address and the
    addresses of the records have the length of their version, the data of every record that
    is present has the type of its data format with in-range fields, and the source of every
    sample fits its encoding. *)
Theorem sflow_decode_safe (b : bytes) :
  is_bytes b ->
  match DecodeMessageVersion b with
  | (Ok p, b') => packet_decoded p /\ is_bytes b'
  | (Err _, _) => True
  | _ => False
  end.
Proof. intros Hb. apply (yields_DecodeMessageVersion b Hb). Qed.

(** A datagram with an empty flow sample that announces 2000 records. *)
Definition oversized_datagram : bytes :=
  be_put 4 5 ++ be_put 4 1 ++ [198;51;100;7] ++ be_put 4 0 ++ be_put 4 1 ++ be_put 4 2 ++
  be_put 4 1 ++ be_put 4 1 ++ be_put 4 32 ++ replicate 28 0 ++ be_put 4 2000.

Lemma sflow_decode_safe_witness :
  match DecodeMessageVersion oversized_datagram with
  | (Ok p, b') => packet_decoded p /\ is_bytes b'
  | (Err _, _) => True
  | _ => False
  end.
Proof. apply (sflow_decode_safe oversized_datagram). by apply is_bytes_by_test. Defined.
