(* ===== verification/SflowEncodeSafety.v ===== *)
(** * decoders/sflow: the encoder ends with bytes or an error

    It panics on nothing but nil pointers to samples, records or their data. *)
From S2P Require Import Prelude DecodersUtils SflowTypes SflowDecode SflowEncode.

(** ** Values and records *)

Lemma quiet_writeXDRString s : quiet (writeXDRString s).
Proof. unfold writeXDRString, writeXDROpaque, writeXDRPadding. quiet_steps. Qed.
Lemma quiet_encodeIP v ip : quiet (encodeIP v ip).
Proof. unfold encodeIP, encodeIP_checked. quiet_steps. Qed.
Lemma quiet_writeU32Vector l : quiet (writeU32Vector l).
Proof. unfold writeU32Vector. quiet_steps. Qed.
#[export] Hint Resolve quiet_writeXDRString quiet_encodeIP quiet_writeU32Vector : quiet.

Lemma quiet_encodeFlowValue v : quiet (encodeFlowValue v).
Proof.
  destruct v; cbn [encodeFlowValue]; unfold encodeSampledHeader, writeXDRPadding, encodeSampledEthernet, encodeSampledIPv4, encodeSampledIPv6,
    encodeSampledIPBase, encodeExtendedSwitch, encodeExtendedRouter, encodeExtendedGateway, encodeASPath, encodeCommunities, encodeExtendedMPLS,
    encodeExtendedNAT, encodeExtendedMPLSTunnel, encodeExtendedMPLSVC, encodeExtendedMPLSFTN, encodeExtendedACL; quiet_steps.
Qed.
Lemma quiet_encodeCounterValue v : quiet (encodeCounterValue v).
Proof. destruct v; cbn [encodeCounterValue]; unfold encodeIfCounters, encodeEthernetCounters; quiet_steps. Qed.

(** The data of a record, if there is any, is not a nil pointer. *)
Definition record_set {V} (r : record V) : Prop := match rData r with Some b => is_Some (unbox b) | None => True end.

Lemma quiet_encodeRecord {V} what format (encode : V -> M unit) r : (forall v, quiet (encode v)) -> record_set r -> quiet (encodeRecord what format encode r).
Proof.
  intros He Hr. unfold encodeRecord, record_set in *. destruct (rData r) as [b|]; [|apply quiet_fail].
  destruct Hr as [v ->]. apply quiet_bind; [apply quiet_lift, ends_written, He|]. intros payload. quiet_steps.
Qed.

(** ** Samples and packets *)

Definition sample_set (s : sample) : Prop :=
  match s with
  | None => True
  | Some b =>
      match unbox b with
      | None => False
      | Some (SV_FlowSample s) => Forall record_set (fsRecords s)
      | Some (SV_CounterSample s) => Forall record_set (csRecords s)
      | Some (SV_ExpandedFlowSample s) => Forall record_set (esRecords s)
      | Some (SV_DropSample s) => Forall record_set (dsRecords s)
      | Some (SV_RawSample _) => True
      end
  end.

Lemma quiet_encodeRecords {V} what count (rs : list (record V)) encode :
  (forall r, record_set r -> quiet (encode r)) -> Forall record_set rs -> quiet (encodeRecords what count rs encode).
Proof.
  intros He Hrs. unfold encodeRecords. quiet_steps. apply He. by apply (proj1 (Forall_forall _ _) Hrs).
Qed.

Lemma quiet_flow_records what count rs : Forall record_set rs -> quiet (encodeRecords what count rs encodeFlowRecord).
Proof. apply quiet_encodeRecords. intros r. apply quiet_encodeRecord, quiet_encodeFlowValue. Qed.
Lemma quiet_counter_records what count rs : Forall record_set rs -> quiet (encodeRecords what count rs encodeCounterRecord).
Proof. apply quiet_encodeRecords. intros r. apply quiet_encodeRecord, quiet_encodeCounterValue. Qed.

Lemma quiet_encodeSampleHeader h format : quiet (encodeSampleHeader h format).
Proof. unfold encodeSampleHeader. quiet_steps. Qed.
#[export] Hint Resolve quiet_flow_records quiet_counter_records quiet_encodeSampleHeader : quiet.

Lemma ends_encodeSample s : sample_set s -> ends (encodeSample s).
Proof.
  intros Hs. unfold encodeSample, sample_set in *. destruct s as [b|]; [|done]. destruct (unbox b) as [v|]; [|done].
  destruct v; cbn [encodeSampleValue]; try (apply ends_rbind; [|done]);
    unfold encodeFlowSample, encodeExpandedFlowSample, encodeDropSample, encodeCounterSample;
    try match goal with |- ends (if ?b then _ else _) => destruct b end; try done; apply ends_written; quiet_steps.
Qed.

Lemma EncodeMessage_ends p : Forall sample_set (Samples p) -> ends (EncodeMessage (Some p)).
Proof.
  intros Hs. assert (Hd : forall v iv, ends (encodeDatagram p v iv)).
  { intros v iv. unfold encodeDatagram. cbv zeta. destruct (_ || _); [done|]. destruct (negb _); [done|]. apply ends_written. quiet_steps.
    apply quiet_lift, ends_encodeSample. by apply (proj1 (Forall_forall _ _) Hs). }
  unfold EncodeMessage. cbv zeta. destruct (negb _); [done|]. destruct (_ =? 0); [|apply Hd]. destruct (_ =? 4); [apply Hd|].
  destruct (_ =? 16); [apply Hd|done].
Qed.
