(* ===== verification/SflowProps.v ===== *)
(** * decoders/sflow: properties of the sFlow v5 codec

    Round trip of whole datagrams, records and samples of unknown formats, and two gaps between
    the encoder and the decoder. *)
From S2P Require Import Prelude DecodersUtils SflowTypes SflowDecode SflowEncode SflowRoundtrip.

(** ** Round trip *)


(** ** A sample datagram *)

Definition unset_header : RecordHeader := {| DataFormat := 0; rhLength := 0 |}.
Definition flow_record (v : flow_value) : FlowRecord :=
  {| rHeader := unset_header; rData := Some (Val v) |}.
Definition flow_record_ptr (v : flow_value) : FlowRecord :=
  {| rHeader := unset_header; rData := Some (Ptr (Some v)) |}.

Definition sample_gateway : ExtendedGateway :=
  {| gNextHopIPVersion := 0; gNextHop := [192;0;2;1]; AS_ := 65000; gSrcAS := 65001;
     gSrcPeerAS := 65002; ASDestinations := 1; ASPathType := 2; ASPathLength := 0;
     ASPath := [65003; 65004]; DstASPath := []; CommunitiesLength := 0; Communities := [7];
     LocalPref := 100 |}.

Definition unset_source : SampleHeader :=
  {| Format := 0; sLength := 0; SampleSequenceNumber := 3; SourceIdType := 1; SourceIdValue := 42 |}.

(** A flow sample with a sampled header, a gateway behind a pointer and a function symbol, a
    counter sample with a vendor record, and a vendor sample. *)
Definition sample_packet : Packet :=
  {| Version := 0; IPVersion := 0; AgentIP := [198;51;100;7]; SubAgentId := 1;
     SequenceNumber := 2; Uptime := 3; SamplesCount := 0;
     Samples :=
       [Some (Val (SV_FlowSample {| fsHeader := unset_source; fsSamplingRate := 512;
          fsSamplePool := 1024; fsDrops := 0; fsInput := 1; fsOutput := 2; fsFlowRecordsCount := 0;
          fsRecords :=
            [flow_record (FV_SampledHeader {| shProtocol := 1; shFrameLength := 70; shStripped := 4;
               shOriginalLength := 5; shHeaderData := [1;2;3;4;5] |});
             flow_record_ptr (FV_ExtendedGateway sample_gateway);
             flow_record (FV_ExtendedFunction {| Symbol := [100;114;111;112;95] |})] |}));
        Some (Ptr (Some (SV_CounterSample {| csHeader := unset_source; CounterRecordsCount := 1;
          csRecords := [{| rHeader := {| DataFormat := 8800 * 4096 + 1; rhLength := 0 |};
                           rData := Some (Val (CV_RawRecord {| rawData := [9;9;9] |})) |}] |})));
        Some (Val (SV_RawSample {| rsHeader := {| Format := 8800 * 4096 + 5; sLength := 0;
          SampleSequenceNumber := 0; SourceIdType := 0; SourceIdValue := 0 |};
          rsData := [1;2;3;4] |}))] |}.

Ltac sflow_cond :=
  lazymatch goal with
  | |- u32 _ => split; [done|reflexivity]
  | |- uint _ _ => split; [done|reflexivity]
  | |- is_bytes _ => by apply is_bytes_by_test
  | |- _ /\ _ => split; sflow_cond
  | |- ip_ok _ _ => unfold ip_ok; sflow_cond
  | |- xdr_ok _ => unfold xdr_ok; sflow_cond
  | |- u32s_ok _ => split;
      [repeat first [apply Forall_nil_2 | apply Forall_cons_2; [split; [done|reflexivity]|]]
      |vm_compute; congruence]
  | |- Forall _ [] => apply Forall_nil_2
  | |- Forall _ (_ :: _) => apply Forall_cons_2; sflow_cond
  | |- records_ok _ _ => unfold records_ok; cbn [fsRecords csRecords]; sflow_cond
  | |- record_ok _ => unfold record_ok; do 2 eexists; split; [reflexivity|split; [reflexivity|]];
                      cbn [value_ok flow_kind counter_kind format_ok flow_value_ok counter_value_ok]; sflow_cond
  | |- element_ok _ => unfold element_ok; do 2 eexists; split; [reflexivity|split; [reflexivity|]]; sflow_cond
  | |- sample_ok _ => unfold sample_ok; sflow_cond
  | |- source_ok _ _ => repeat split; first [done | reflexivity]
  | |- counter_format_ok _ _ => split; [split; [done|reflexivity]|split; [done|left; done]]
  | |- _ \/ _ => first [left; sflow_cond; fail | right; sflow_cond]
  | |- _ => vm_compute; try congruence
  end.

Lemma sample_datagram_ok : packet_ok sample_packet.
Proof. unfold packet_ok. cbn [Samples sample_packet]. sflow_cond.
Qed.


(** ** Unknown formats *)

(** What the decoder does not know is kept.  A record of an enterprise or of an unknown
    format is returned raw with all the bytes of the record; a sample of an enterprise or an
    unknown format is returned raw with its bytes, and decoding goes on right after it. *)
Theorem sflow_unknown_kept (header : RecordHeader) (b : bytes) (i format : Z) (data rest : bytes) :
  (unknown_format known_flow_formats (DataFormat header) ->
     DecodeFlowRecord header b =
       (Ok {| rHeader := header; rData := Some (Val (FV_RawRecord {| rawData := b |})) |}, b)) /\
  (unknown_format known_counter_formats (DataFormat header) ->
     DecodeCounterRecord header b =
       (Ok {| rHeader := header; rData := Some (Val (CV_RawRecord {| rawData := b |})) |}, b)) /\
  (u32 format -> len data < 2 ^ 32 -> unknown_format sample_formats format ->
     decodeSampleAt i (be_put 4 format ++ be_put 4 (len data) ++ data ++ rest) =
       (Ok (Some (Val (SV_RawSample {|
          rsHeader := {| Format := format; sLength := len data; SampleSequenceNumber := 0;
                         SourceIdType := 0; SourceIdValue := 0 |};
          rsData := data |}))), rest)).
Proof.
  splits; [apply decode_flow_unknown|apply decode_counter_unknown|].
  intros Hu Hl Hf. pose proof (len_nonneg data). assert (u32 (len data)) by (split; lia).
  assert (isKnownSampleFormat (DataFormatFormat format) = false \/ DataFormatEnterprise format <> 0) as Hk.
  { destruct Hf as [|Hf]; [by right|left]. unfold isKnownSampleFormat.
    repeat match goal with |- context [?a =? ?b] =>
      destruct (Z.eqb_spec a b) as [E|_]; [exfalso; apply Hf; rewrite E; unfold sample_formats; set_solver|] end.
    done. }
  set (raw := Some (Val (SV_RawSample _))).
  assert (reads (decodeSampleAt i) (be_put 4 format ++ be_put 4 (len data) ++ data) raw) as Hr.
  { unfold decodeSampleAt. apply reads_Len. intros n Hn. rewrite !len_app, !len_be_put in Hn.
    destruct (Z.ltb_spec n 8); [lia|]. rewrite app_assoc. eapply reads_bind.
    { apply reads_errctx. read_step. apply reads_app_nil. read_step. apply reads_ret. }
    cbn beta iota. apply reads_Len. intros m Hm. destruct (Z.ltb_spec m (len data)); [lia|]. cbv zeta.
    apply reads_app_nil. eapply reads_bind; [by apply reads_Next|].
    assert (negb (DataFormatEnterprise format =? 0) ||
            negb (isKnownSampleFormat (DataFormatFormat format)) = true) as ->; [|apply reads_ret].
    destruct Hk as [-> | Hk]; [apply orb_true_r|]. by apply Z.eqb_neq in Hk as ->. }
  specialize (Hr rest). by rewrite <- !app_assoc in Hr.
Qed.

Lemma sflow_unknown_kept_witness :
  DecodeFlowRecord {| DataFormat := 1004; rhLength := 4 |} [1;2;3;4] =
    (Ok {| rHeader := {| DataFormat := 1004; rhLength := 4 |};
           rData := Some (Val (FV_RawRecord {| rawData := [1;2;3;4] |})) |}, [1;2;3;4]) /\
  decodeSampleAt 0 (be_put 4 6 ++ be_put 4 2 ++ [1;2] ++ [3]) =
    (Ok (Some (Val (SV_RawSample {|
       rsHeader := {| Format := 6; sLength := 2; SampleSequenceNumber := 0; SourceIdType := 0;
                      SourceIdValue := 0 |};
       rsData := [1;2] |}))), [3]).
Proof.
  split.
  - apply (sflow_unknown_kept {| DataFormat := 1004; rhLength := 4 |} [1;2;3;4] 0 6 [] []).
    right. vm_compute. intros H. repeat (apply elem_of_cons in H as [H|H]; [discriminate|]).
    by apply elem_of_nil in H.
  - apply (sflow_unknown_kept {| DataFormat := 1004; rhLength := 4 |} [] 0 6 [1;2] [3]).
    + by split.
    + reflexivity.
    + right. vm_compute. intros H. repeat (apply elem_of_cons in H as [H|H]; [discriminate|]).
      by apply elem_of_nil in H.
Defined.

(** ** What the encoder does not represent *)

(** A gateway record as the decoder returns it for two AS path segments. *)
Definition two_segments : flow_value := FV_ExtendedGateway
  {| gNextHopIPVersion := 1; gNextHop := [192;0;2;1]; AS_ := 65000; gSrcAS := 65001;
     gSrcPeerAS := 65002; ASDestinations := 2; ASPathType := 0; ASPathLength := 0; ASPath := [];
     DstASPath := [{| segType := 2; segPath := [65003] |}; {| segType := 1; segPath := [65004] |}];
     CommunitiesLength := 0; Communities := []; LocalPref := 100 |}.

Definition two_segments_wire : bytes :=
  ip_bytes [192;0;2;1] ++ be_put 4 65000 ++ be_put 4 65001 ++ be_put 4 65002 ++ be_put 4 2 ++
  be_put 4 2 ++ vec_bytes [65003] ++ be_put 4 1 ++ vec_bytes [65004] ++ vec_bytes [] ++ be_put 4 100.

(** A BGP gateway record with several AS path segments does not survive re-encoding: it is
    decoded with all its segments, but the encoder writes the number of segments and none of
    them, and the result does not decode. *)
Theorem sflow_gateway_segments_lost :
  run (DecodeFlowRecord_switch FLOW_TYPE_EXT_GATEWAY) two_segments_wire = Ok two_segments /\
  exists bs e, written (encodeFlowValue two_segments) = Ok bs /\
    run (DecodeFlowRecord_switch FLOW_TYPE_EXT_GATEWAY) bs = Err e.
Proof.
  split; [vm_compute; reflexivity|].
  exists (value_bytes two_segments). eexists. split; vm_compute; reflexivity.
Qed.

(** Agent addresses.  A datagram without agent address (version 0) is decoded, but such a
    packet is refused by the encoder; a packet with an address version the decoder refuses is
    encoded. *)
Theorem sflow_agent_address_gap :
  let p v ip := {| Version := 5; IPVersion := v; AgentIP := ip; SubAgentId := 0;
                   SequenceNumber := 0; Uptime := 0; SamplesCount := 0; Samples := [] |} in
  run DecodeMessageVersion (be_put 4 5 ++ replicate 20 0) = Ok (p 0 []) /\
  (exists e, EncodeMessage (Some (p 0 [])) = Err e) /\
  exists bs e, EncodeMessage (Some (p 3 [1;2;3])) = Ok bs /\ run DecodeMessageVersion bs = Err e.
Proof.
  intros p. splits; [vm_compute; reflexivity|eexists; vm_compute; reflexivity|].
  exists (be_put 4 5 ++ be_put 4 3 ++ [1;2;3] ++ replicate 16 0). eexists.
  split; vm_compute; reflexivity.
Qed.
