(* ===== verification/FlowStore.v ===== *)
(** * pkg/flowstore: the store with TTLs, hooks and FIFO eviction

    [pkg/flowstore/store.go] and [flow_values.go].  The map and the insertion-order list
    share their [*entry] objects, so the model keeps them in a heap: [entries] maps a key
    to a pointer, [order] lists the pointers, [heap] holds the structs.  A [time.Time] is
    a number of nanoseconds whose zero is Go's zero time; [s.now()] is the argument [now]
    of each operation.  A method body runs between [mu.Lock] and [mu.Unlock] as a
    computation on the store and the local [events]; [fireHooks] runs after it and leaves
    the calls it makes in [calls]. *)
From S2P Require Import Prelude.

(** ** Value contracts *)

(** What [any(dst).(Addable[V])], [Settable] and [Copyable] find on [*V]: a method takes
    the receiver's contents and returns them changed, with its error. *)
Class Value (V : Type) : Type := {
  zero : V;
  Addable : option (V -> V -> bool -> V * option error);
  Settable : option (V -> V -> bool -> V * option error);
  Copyable : option (V -> V -> V)
}.

Inductive DeleteReason : Type :=
  | DeleteReasonExplicit
  | DeleteReasonExpired
  | DeleteReasonEvicted
  | DeleteReasonFlushed.

Record entryOptions : Type := { ttlSet : bool; ttl : Z; noExpiration : bool }.

Definition EntryOption : Type := entryOptions -> entryOptions.
Definition WithTTL (d : Z) : EntryOption := fun o =>
  {| ttlSet := true; ttl := d; noExpiration := noExpiration o |}.
Definition WithoutExpiration : EntryOption := fun o =>
  {| ttlSet := true; ttl := 0; noExpiration := true |}.
Definition applyEntryOptions (opts : list EntryOption) : entryOptions :=
  fold_left (fun o opt => opt o) opts {| ttlSet := false; ttl := 0; noExpiration := false |}.

Section store.
Context {K V : Type} `{Countable K} `{Value V}.

(** ** Data *)

Inductive hookEvent : Type :=
  | hookEventSet (k : K) (v : V) (existed : bool)
  | hookEventDelete (k : K) (v : V) (reason : DeleteReason)
  | hookEventGet (k : K) (v : V).

(** [OnSetMutate] rewrites the value under the lock; of the three others the model keeps
    whether they are set. *)
Record Hooks : Type := {
  OnSetMutate : option (K -> V -> bool -> V);
  OnSet : bool;
  OnDelete : bool;
  OnGet : bool
}.

(** A [chan struct{}]: how many sends succeed without blocking (free buffer slots and
    waiting receivers), and how many signals went through. *)
Record notifier : Type := { room : nat; signals : nat }.

Definition ptr : Type := positive.

Record entry : Type := { key : K; value : V; expiresAt : Z; elem : bool }.

(** The mutable objects of a store: [heap] holds every [entry] allocated so far. *)
Record memory : Type := {
  entries : gmap K ptr;
  order : list ptr;
  heap : gmap ptr entry
}.

(** The fields of [Store] set by its options. *)
Record Settings : Type := {
  onExpire : option (K -> V -> bool * Z);
  defaultTTL : Z;
  refreshTTL : bool;
  refreshTTLOnRead : bool;
  maxSize : Z;
  hooks : Hooks
}.

(** [sweepers]: the sweeper goroutines still running, by the number they were started
    under; [calls]: the hook calls made so far. *)
Record Store : Type := {
  settings : Settings;
  mem : memory;
  changeNotify : option notifier;
  stopSweeper : option nat;
  sweepers : list nat;
  started : nat;
  calls : list hookEvent
}.

Definition set_settings (c : Settings) (s : Store) : Store :=
  {| settings := c; mem := mem s; changeNotify := changeNotify s; stopSweeper := stopSweeper s;
     sweepers := sweepers s; started := started s; calls := calls s |}.
Definition set_mem (m : memory) (s : Store) : Store :=
  {| settings := settings s; mem := m; changeNotify := changeNotify s; stopSweeper := stopSweeper s;
     sweepers := sweepers s; started := started s; calls := calls s |}.
Definition set_notify (n : option notifier) (s : Store) : Store :=
  {| settings := settings s; mem := mem s; changeNotify := n; stopSweeper := stopSweeper s;
     sweepers := sweepers s; started := started s; calls := calls s |}.
Definition set_sweepers (stop : option nat) (l : list nat) (n : nat) (s : Store) : Store :=
  {| settings := settings s; mem := mem s; changeNotify := changeNotify s; stopSweeper := stop;
     sweepers := l; started := n; calls := calls s |}.
Definition set_calls (l : list hookEvent) (s : Store) : Store :=
  {| settings := settings s; mem := mem s; changeNotify := changeNotify s; stopSweeper := stopSweeper s;
     sweepers := sweepers s; started := started s; calls := l |}.

(** ** Options *)

Definition StoreOption : Type := Store -> Store.

Definition map_settings (f : Settings -> Settings) : StoreOption := fun s =>
  set_settings (f (settings s)) s.
Definition WithDefaultTTL (d : Z) : StoreOption := map_settings (fun c =>
  {| onExpire := onExpire c; defaultTTL := d; refreshTTL := refreshTTL c;
     refreshTTLOnRead := refreshTTLOnRead c; maxSize := maxSize c; hooks := hooks c |}).
Definition WithRefreshTTLOnWrite : StoreOption := map_settings (fun c =>
  {| onExpire := onExpire c; defaultTTL := defaultTTL c; refreshTTL := true;
     refreshTTLOnRead := refreshTTLOnRead c; maxSize := maxSize c; hooks := hooks c |}).
Definition WithRefreshTTLOnRead : StoreOption := map_settings (fun c =>
  {| onExpire := onExpire c; defaultTTL := defaultTTL c; refreshTTL := refreshTTL c;
     refreshTTLOnRead := true; maxSize := maxSize c; hooks := hooks c |}).
Definition WithChangeNotifier (ch : option notifier) : StoreOption := set_notify ch.
Definition WithHooks (h : Hooks) : StoreOption := map_settings (fun c =>
  {| onExpire := onExpire c; defaultTTL := defaultTTL c; refreshTTL := refreshTTL c;
     refreshTTLOnRead := refreshTTLOnRead c; maxSize := maxSize c; hooks := h |}).
Definition WithMaxSize (max : Z) : StoreOption := map_settings (fun c =>
  {| onExpire := onExpire c; defaultTTL := defaultTTL c; refreshTTL := refreshTTL c;
     refreshTTLOnRead := refreshTTLOnRead c; maxSize := max; hooks := hooks c |}).
Definition WithExpireHook (hook : option (K -> V -> bool * Z)) : StoreOption := map_settings (fun c =>
  {| onExpire := hook; defaultTTL := defaultTTL c; refreshTTL := refreshTTL c;
     refreshTTLOnRead := refreshTTLOnRead c; maxSize := maxSize c; hooks := hooks c |}).

Definition no_hooks : Hooks :=
  {| OnSetMutate := None; OnSet := false; OnDelete := false; OnGet := false |}.

Definition NewStore (opts : list StoreOption) : Store :=
  fold_left (fun s opt => opt s) opts
    {| settings := {| onExpire := None; defaultTTL := 0; refreshTTL := false;
                      refreshTTLOnRead := false; maxSize := 0; hooks := no_hooks |};
       mem := {| entries := ∅; order := []; heap := ∅ |};
       changeNotify := None; stopSweeper := None; sweepers := []; started := 0; calls := [] |}.

(** ** Critical sections *)

(** What a method body works on: the store and the local [events]. *)
Record locked : Type := { st : Store; events : list hookEvent }.

Definition gets {A} (f : Store -> A) : ST locked A := fun l => (Ok (f (st l)), l).
Definition modify (f : Store -> Store) : ST locked unit := fun l =>
  (Ok tt, {| st := f (st l); events := events l |}).
Definition record (e : hookEvent) : ST locked unit := fun l =>
  (Ok tt, {| st := st l; events := events l ++ [e] |}).

(** Dereferencing a [*entry] and assigning through it. *)
Definition deref (p : ptr) : ST locked entry := fun l =>
  match heap (mem (st l)) !! p with
  | Some e => (Ok e, l)
  | None => (Panic "nil pointer dereference", l)
  end.
Definition assign (p : ptr) (e : entry) : ST locked unit :=
  modify (fun s => set_mem {| entries := entries (mem s); order := order (mem s);
                              heap := <[p := e]> (heap (mem s)) |} s).
Definition set_value (p : ptr) (v : V) : ST locked unit :=
  let* e := deref p in
  assign p {| key := key e; value := v; expiresAt := expiresAt e; elem := elem e |}.
Definition set_expiresAt (p : ptr) (t : Z) : ST locked unit :=
  let* e := deref p in
  assign p {| key := key e; value := value e; expiresAt := t; elem := elem e |}.

(** [fireHooks], after the unlock. *)
Definition hook_set (h : Hooks) (e : hookEvent) : bool :=
  match e with
  | hookEventSet _ _ _ => OnSet h
  | hookEventDelete _ _ _ => OnDelete h
  | hookEventGet _ _ => OnGet h
  end.
Definition fireHooks (es : list hookEvent) (s : Store) : Store :=
  set_calls (calls s ++ List.filter (hook_set (hooks (settings s))) es) s.

(** [s.mu.Lock(); events := ...; defer func() { s.mu.Unlock(); if fire { fireHooks } }]. *)
Definition with_lock {A} (fire : bool) (body : ST locked A) : ST Store A := fun s =>
  let '(r, l) := body {| st := s; events := [] |} in
  (r, if fire then fireHooks (events l) (st l) else st l).

(** ** Locked helpers *)

Definition recordSet (k : K) (v : V) (existed : bool) : ST locked unit :=
  let* h := gets (fun s => hooks (settings s)) in
  if OnSet h then record (hookEventSet k v existed) else ret tt.
Definition recordDelete (e : entry) (reason : DeleteReason) : ST locked unit :=
  let* h := gets (fun s => hooks (settings s)) in
  if OnDelete h then record (hookEventDelete (key e) (value e) reason) else ret tt.
Definition recordGet (e : entry) : ST locked unit :=
  let* h := gets (fun s => hooks (settings s)) in
  if OnGet h then record (hookEventGet (key e) (value e)) else ret tt.

(** A non-blocking send. *)
Definition notifyChange (s : Store) : Store :=
  match changeNotify s with
  | None => s
  | Some ch =>
      match room ch with
      | O => s
      | S n => set_notify (Some {| room := n; signals := S (signals ch) |}) s
      end
  end.
Definition notifyChangeLocked : ST locked unit := modify notifyChange.

(** [dst] is the address of a variable or of a field, never nil. *)
Definition addValue (dst delta : V) (existed : bool) : V * option error :=
  match Addable with
  | None => (dst, Some ErrAddNotSupported)
  | Some add => add dst delta existed
  end.
Definition setValue (dst val : V) (existed : bool) : V * (bool * option error) :=
  match Settable with
  | Some set => let '(v, e) := set dst val existed in (v, (true, e))
  | None => (val, (false, None))
  end.
Definition copyValue (dst src : V) : V :=
  match Copyable with
  | Some copy => copy dst src
  | None => match Settable with
            | Some set => fst (set dst src true)
            | None => src
            end
  end.
(** [dest] may be nil. *)
Definition copyValueLocked (dest : option V) (e : entry) : bool * option V :=
  match dest with
  | None => (false, None)
  | Some d => (true, Some (copyValue d (value e)))
  end.

Definition expiresAtFor (c : Settings) (now : Z) (opts : entryOptions) (existing : bool) : Z :=
  if noExpiration opts || (ttlSet opts && (ttl opts <=? 0)) then 0
  else if ttlSet opts then now + ttl opts
  else if negb existing && (0 <? defaultTTL c) then now + defaultTTL c
  else 0.

(** [new(entry)] and [PushBack]. *)
Definition insertLocked (k : K) (v : V) : ST locked ptr := fun l =>
  let m := mem (st l) in
  let p : ptr := fresh (dom (heap m)) in
  let e := {| key := k; value := v; expiresAt := 0; elem := true |} in
  (Ok p, {| st := set_mem {| entries := <[k := p]> (entries m); order := order m ++ [p];
                             heap := <[p := e]> (heap m) |} (st l);
            events := events l |}).

Definition deleteLocked (p : ptr) : ST locked unit :=
  let* e := deref p in
  modify (fun s => set_mem {| entries := delete (key e) (entries (mem s));
                              order := order (mem s); heap := heap (mem s) |} s) ;;;
  if elem e then
    modify (fun s => set_mem {| entries := entries (mem s);
                                order := List.filter (fun q => negb (bool_decide (q = p))) (order (mem s));
                                heap := heap (mem s) |} s) ;;;
    assign p {| key := key e; value := value e; expiresAt := expiresAt e; elem := false |}
  else ret tt.

(** The zero time never expires. *)
Definition expired_at (t now : Z) : bool := negb (t =? 0) && negb (now <? t).
Definition expiredLocked (e : entry) (now : Z) : bool := expired_at (expiresAt e) now.

(** What [onExpire] makes of an expired entry: its new [expiresAt], or no extension. *)
Definition extended (c : Settings) (k : K) (v : V) (now : Z) : option Z :=
  match onExpire c with
  | None => None
  | Some hook =>
      let '(extend, d) := hook k v in
      if negb extend then None
      else if d <=? 0 then
        if defaultTTL c <=? 0 then Some 0 else Some (now + defaultTTL c)
      else Some (now + d)
  end.
Definition maybeExtendLocked (p : ptr) (now : Z) : ST locked bool :=
  let* e := deref p in
  let* c := gets settings in
  match extended c (key e) (value e) now with
  | None => ret false
  | Some t => set_expiresAt p t ;;; ret true
  end.

(** [expireBeforeLocked]: the next node is read before the current one is unlinked, so
    the loop visits the nodes of the list it started with. *)
Fixpoint expireLoop (nodes : list ptr) (now : Z) (removed : Z) : ST locked Z :=
  match nodes with
  | [] => ret removed
  | p :: next =>
      let* e := deref p in
      if expiredLocked e now then
        let* ext := maybeExtendLocked p now in
        if ext then expireLoop next now removed
        else
          recordDelete e DeleteReasonExpired ;;;
          deleteLocked p ;;;
          notifyChangeLocked ;;;
          expireLoop next now (removed + 1)
      else expireLoop next now removed
  end.
Definition expireBeforeLocked (now : Z) : ST locked Z :=
  let* nodes := gets (fun s => order (mem s)) in
  expireLoop nodes now 0.

Fixpoint evictLoop (fuel : nat) (max : Z) : ST locked unit :=
  match fuel with
  | O => fun l => (Hang, l)
  | Datatypes.S fuel' =>
      let* m := gets mem in
      if Z.of_nat (size (entries m)) <=? max then ret tt
      else match order m with
           | [] => ret tt
           | p :: _ =>
               let* e := deref p in
               recordDelete e DeleteReasonEvicted ;;;
               deleteLocked p ;;;
               notifyChangeLocked ;;;
               evictLoop fuel' max
           end
  end.
Definition enforceMaxSizeLocked : ST locked unit :=
  let* s := gets (fun s => s) in
  if maxSize (settings s) <=? 0 then ret tt
  else evictLoop (Datatypes.S (size (entries (mem s)))) (maxSize (settings s)).

(** ** Operations *)

(** [if s.expiredLocked(ent, now) && !s.maybeExtendLocked(ent, now) { ...; ent = nil }]:
    whether the entry was dropped. *)
Definition dropExpired (p : ptr) (now : Z) : ST locked bool :=
  let* e := deref p in
  if expiredLocked e now then
    let* ext := maybeExtendLocked p now in
    if ext then ret false
    else
      recordDelete e DeleteReasonExpired ;;;
      deleteLocked p ;;;
      ret true
  else ret false.

(** The TTL update of an existing entry in [Add] and [Set]. *)
Definition refreshOnWrite (p : ptr) (now : Z) (eopts : entryOptions) : ST locked unit :=
  let* c := gets settings in
  if ttlSet eopts then set_expiresAt p (expiresAtFor c now eopts true)
  else if refreshTTL c && (0 <? defaultTTL c) then set_expiresAt p (now + defaultTTL c)
  else ret tt.

(** [if s.hooks.OnSetMutate != nil { s.hooks.OnSetMutate(key, &ent.value, existed) }]. *)
Definition runOnSetMutate (p : ptr) (k : K) (existed : bool) : ST locked unit :=
  let* h := gets (fun s => hooks (settings s)) in
  match OnSetMutate h with
  | None => ret tt
  | Some f => let* e := deref p in set_value p (f k (value e) existed)
  end.

(** The end of the insertion path of [Add] and [Set]. *)
Definition insertNew (now : Z) (eopts : entryOptions) (k : K) (v : V) : ST locked unit :=
  let* p := insertLocked k v in
  runOnSetMutate p k false ;;;
  let* c := gets settings in
  set_expiresAt p (expiresAtFor c now eopts false) ;;;
  enforceMaxSizeLocked ;;;
  notifyChangeLocked ;;;
  recordSet k v false.

(** The end of the update path. *)
Definition finishUpdate (p : ptr) (k : K) : ST locked unit :=
  runOnSetMutate p k true ;;;
  notifyChangeLocked ;;;
  let* e := deref p in
  recordSet k (value e) true.

(** The existing entry under [k] once an expired one was dropped. *)
Definition liveEntry (k : K) (now : Z) : ST locked (option ptr) :=
  let* m := gets mem in
  match entries m !! k with
  | None => ret None
  | Some p => let* gone := dropExpired p now in ret (if gone : bool then None else Some p)
  end.

Definition Add (now : Z) (k : K) (delta : V) (opts : list EntryOption) : ST Store (option error) :=
  let eopts := applyEntryOptions opts in
  with_lock true (
    let* ent := liveEntry k now in
    match ent with
    | Some p =>
        refreshOnWrite p now eopts ;;;
        let* e := deref p in
        let '(v, err) := addValue (value e) delta true in
        set_value p v ;;;
        match err with
        | Some err => ret (Some err)
        | None => finishUpdate p k ;;; ret None
        end
    | None =>
        let '(val, err) := addValue zero delta false in
        match err with
        | Some err => ret (Some err)
        | None => insertNew now eopts k val ;;; ret None
        end
    end).

(** [Set]: whether the key existed, and the error. *)
Definition Set_ (now : Z) (k : K) (val : V) (opts : list EntryOption)
    : ST Store (bool * option error) :=
  let eopts := applyEntryOptions opts in
  with_lock true (
    let* ent := liveEntry k now in
    match ent with
    | Some p =>
        refreshOnWrite p now eopts ;;;
        let* e := deref p in
        let '(v, (usedSet, err)) := setValue (value e) val true in
        set_value p v ;;;
        match err with
        | Some err => ret (true, Some err)
        | None =>
            (if negb usedSet then set_value p val else ret tt) ;;;
            finishUpdate p k ;;;
            ret (true, None)
        end
    | None =>
        let '(v, (usedSet, err)) := setValue zero val false in
        match err with
        | Some err => ret (false, Some err)
        | None =>
            insertNew now eopts k (if negb usedSet then val else v) ;;;
            ret (false, None)
        end
    end).

(** [get]: whether the key was found, and the contents of [dest] afterwards. *)
Definition get (now : Z) (k : K) (dest : option V) (withHooks : bool) : ST Store (bool * option V) :=
  with_lock withHooks (
    let* m := gets mem in
    match entries m !! k with
    | None => ret (false, dest)
    | Some p =>
        let* e := deref p in
        if expiredLocked e now then
          let* ext := maybeExtendLocked p now in
          if ext then ret (copyValueLocked dest e)
          else
            recordDelete e DeleteReasonExpired ;;;
            deleteLocked p ;;;
            notifyChangeLocked ;;;
            ret (false, dest)
        else
          let* c := gets settings in
          (if withHooks && refreshTTLOnRead c && (0 <? defaultTTL c)
           then set_expiresAt p (now + defaultTTL c) else ret tt) ;;;
          (if withHooks then recordGet e else ret tt) ;;;
          ret (copyValueLocked dest e)
    end).
Definition Get (now : Z) (k : K) (dest : option V) : ST Store (bool * option V) :=
  get now k dest true.
Definition GetQuiet (now : Z) (k : K) (dest : option V) : ST Store (bool * option V) :=
  get now k dest false.

Definition Delete (k : K) : ST Store bool :=
  with_lock true (
    let* m := gets mem in
    match entries m !! k with
    | None => ret false
    | Some p =>
        let* e := deref p in
        recordDelete e DeleteReasonExplicit ;;;
        deleteLocked p ;;;
        notifyChangeLocked ;;;
        ret true
    end).

Definition Len : ST Store Z := fun s => (Ok (Z.of_nat (size (entries (mem s)))), s).

(** The loop of [Range] that collects [items]. *)
Fixpoint collect (nodes : list ptr) : ST locked (list (K * V)) :=
  match nodes with
  | [] => ret []
  | p :: next =>
      let* e := deref p in
      let* items := collect next in
      ret ((key e, copyValue zero (value e)) :: items)
  end.

(** The items [fn] is called on: it stops the iteration by returning false. *)
Fixpoint visit (fn : K -> V -> bool) (items : list (K * V)) : list (K * V) :=
  match items with
  | [] => []
  | (k, v) :: rest => (k, v) :: if fn k v then visit fn rest else []
  end.
Definition Range (now : Z) (fn : K -> V -> bool) : ST Store (list (K * V)) :=
  let* items := with_lock true (
    expireBeforeLocked now ;;;
    let* nodes := gets (fun s => order (mem s)) in
    collect nodes) in
  ret (visit fn items).

Definition ExpireStale (now : Z) : ST Store Z := with_lock true (expireBeforeLocked now).

(** [it] is the order in which [range s.entries] yields the keys, which Go leaves open. *)
Fixpoint flushLoop (it : list K) : ST locked unit :=
  match it with
  | [] => ret tt
  | k :: rest =>
      let* m := gets mem in
      match entries m !! k with
      | None => flushLoop rest
      | Some p =>
          let* e := deref p in
          recordDelete e DeleteReasonFlushed ;;;
          deleteLocked p ;;;
          flushLoop rest
      end
  end.
Definition Flush (it : list K) : ST Store unit :=
  with_lock true (flushLoop it ;;; notifyChangeLocked).

Definition SetHooks (h : Hooks) : ST Store unit := fun s => (Ok tt, WithHooks h s).

(** ** Sweepers *)

(** The number of the goroutine the returned function stops, if one was started. *)
Definition StartSweeper (interval : Z) : ST Store (option nat) := fun s =>
  if interval <=? 0 then (Ok None, s)
  else (Ok (Some (started s)),
        set_sweepers (stopSweeper s) (sweepers s ++ [started s]) (Datatypes.S (started s)) s).

(** Calling what [StartSweeper] returned: a second [close] of the channel panics. *)
Definition stop (handle : option nat) : ST Store unit := fun s =>
  match handle with
  | None => (Ok tt, s)
  | Some n =>
      if existsb (Nat.eqb n) (sweepers s)
      then (Ok tt, set_sweepers (stopSweeper s)
                     (List.filter (fun i => negb (Nat.eqb n i)) (sweepers s)) (started s) s)
      else (Panic "close of closed channel", s)
  end.

Definition Start (sweepInterval : Z) : ST Store unit :=
  if sweepInterval <=? 0 then ret tt
  else fun s =>
    match stopSweeper s with
    | Some _ => (Ok tt, s)
    | None =>
        (let* h := StartSweeper sweepInterval in
         fun s' => (Ok tt, set_sweepers h (sweepers s') (started s') s')) s
    end.

Definition Stop : ST Store unit := fun s =>
  stop (stopSweeper s) (set_sweepers None (sweepers s) (started s) s).

Definition Close (it : list K) : ST Store unit := Stop ;;; Flush it.
End store.

#[global] Arguments Hooks : clear implicits.
#[global] Arguments Settings : clear implicits.
#[global] Arguments Store K V {_ _}.
#[global] Arguments hookEvent : clear implicits.
#[global] Arguments memory K V {_ _}.
#[global] Arguments locked K V {_ _}.
#[global] Arguments entry : clear implicits.

(** ** flow_values.go *)

(** [FlowCounters]: nil or the int64 pointed to. *)
Record FlowCounters : Type := { Bytes : option Z; Packets : option Z }.

Definition int64_add (a b : Z) : Z := to_int 64 (a + b).
Definition counter_add (c delta : option Z) : option Z :=
  match delta with
  | None => c
  | Some d => Some (int64_add (default 0 c) d)
  end.
Definition FlowCounters_Add (c delta : FlowCounters) (_ : bool) : FlowCounters * option error :=
  ({| Bytes := counter_add (Bytes c) (Bytes delta);
      Packets := counter_add (Packets c) (Packets delta) |}, None).
Definition FlowCounters_Set (c val : FlowCounters) (_ : bool) : FlowCounters * option error :=
  ({| Bytes := match Bytes val with Some b => Some b | None => None end;
      Packets := match Packets val with Some p => Some p | None => None end |}, None).
Definition FlowCounters_CopyFrom (c src : FlowCounters) : FlowCounters :=
  fst (FlowCounters_Set c src true).
#[export] Instance FlowCounters_Value : Value FlowCounters := {
  zero := {| Bytes := None; Packets := None |};
  Addable := Some FlowCounters_Add;
  Settable := Some FlowCounters_Set;
  Copyable := Some FlowCounters_CopyFrom
}.

Record FlowTimestamp : Type := { tsStart : Z; tsEnd : Z }.

Definition FlowTimestamp_Add (t delta : FlowTimestamp) (_ : bool) : FlowTimestamp * option error :=
  (if tsEnd t <? tsEnd delta then {| tsStart := tsStart t; tsEnd := tsEnd delta |} else t, None).
Definition FlowTimestamp_Set (t val : FlowTimestamp) (existed : bool) : FlowTimestamp * option error :=
  ({| tsStart := if negb existed then tsStart val else tsStart t; tsEnd := tsEnd val |}, None).
Definition FlowTimestamp_CopyFrom (t src : FlowTimestamp) : FlowTimestamp :=
  {| tsStart := tsStart src; tsEnd := tsEnd src |}.
#[export] Instance FlowTimestamp_Value : Value FlowTimestamp := {
  zero := {| tsStart := 0; tsEnd := 0 |};
  Addable := Some FlowTimestamp_Add;
  Settable := Some FlowTimestamp_Set;
  Copyable := Some FlowTimestamp_CopyFrom
}.

(** A type without methods on its pointer ([uint32], [interface{}]). *)
Definition plain_Value {V} (z : V) : Value V :=
  {| zero := z; Addable := None; Settable := None; Copyable := None |}.
