(* ===== verification/FlowStoreSpec.v ===== *)
(** * The flow store as a list of entries, and the refinement

    The abstract store is the list of its entries (key, value, expiry) in insertion order.
    Every operation is a function on that list; [op_refines] shows that the pointer
    structure of [FlowStore] implements it, and that no operation dereferences a stale
    pointer or loops for ever. *)
From S2P Require Import Prelude FlowStore.

Section spec.
Context {K V : Type} `{Countable K} `{Value V}.
Implicit Types (k : K) (v : V) (now t : Z) (l : list (K * V * Z)) (c : Settings K V).

(** ** The abstract store *)

Abbreviation item := (K * V * Z)%type.

Fixpoint find k l : option (V * Z) :=
  match l with
  | [] => None
  | (k', v, t) :: l' => if decide (k' = k) then Some (v, t) else find k l'
  end.
Definition upd k v t l : list item :=
  map (fun i : item => if decide (i.1.1 = k) then (k, v, t) else i) l.
Definition rem k l : list item :=
  List.filter (fun i : item => negb (bool_decide (i.1.1 = k))) l.
Definition keys l : list K := map (fun i : item => i.1.1) l.
Definition removal (reason : DeleteReason) (i : item) : hookEvent K V :=
  hookEventDelete i.1.1 i.1.2 reason.

(** The events whose hook is set. *)
Definition seen c (es : list (hookEvent K V)) : list (hookEvent K V) :=
  List.filter (hook_set (hooks c)) es.

(** The expiry check of [k]'s entry. *)
Definition prune1 c now k l : list item * list (hookEvent K V) :=
  match find k l with
  | Some (v, t) =>
      if expired_at t now then
        match extended c k v now with
        | Some t' => (upd k v t' l, [])
        | None => (rem k l, [hookEventDelete k v DeleteReasonExpired])
        end
      else (l, [])
  | None => (l, [])
  end.

(** The expiry check of every entry. *)
Definition lapsed c now (i : item) : bool :=
  expired_at i.2 now && match extended c i.1.1 i.1.2 now with None => true | Some _ => false end.
Definition renew c now (i : item) : item :=
  if expired_at i.2 now
  then (i.1, default i.2 (extended c i.1.1 i.1.2 now)) else i.
Definition prune c now l : list item * list (hookEvent K V) :=
  (map (renew c now) (List.filter (fun i => negb (lapsed c now i)) l),
   map (removal DeleteReasonExpired) (List.filter (lapsed c now) l)).

(** FIFO eviction down to [maxSize]. *)
Definition surplus c l : nat :=
  if maxSize c <=? 0 then O else (length l - Z.to_nat (maxSize c))%nat.
Definition evict c l : list item * list (hookEvent K V) :=
  (drop (surplus c l) l, map (removal DeleteReasonEvicted) (take (surplus c l) l)).

Definition mutate c k v (existed : bool) : V :=
  match OnSetMutate (hooks c) with None => v | Some f => f k v existed end.
Definition refreshed c now (eopts : entryOptions) t : Z :=
  if ttlSet eopts then expiresAtFor c now eopts true
  else if refreshTTL c && (0 <? defaultTTL c) then now + defaultTTL c
  else t.
Definition insert c now (eopts : entryOptions) k v l : list item * list (hookEvent K V) :=
  let '(l', es) := evict c (l ++ [(k, mutate c k v false, expiresAtFor c now eopts false)]) in
  (l', es ++ [hookEventSet k v false]).

Definition spec_add c now k (delta : V) eopts l : list item * list (hookEvent K V) * option error :=
  let '(l1, es) := prune1 c now k l in
  match find k l1 with
  | Some (v, t) =>
      let '(v1, err) := addValue v delta true in
      match err with
      | Some e => (upd k v1 (refreshed c now eopts t) l1, es, Some e)
      | None =>
          let v2 := mutate c k v1 true in
          (upd k v2 (refreshed c now eopts t) l1, es ++ [hookEventSet k v2 true], None)
      end
  | None =>
      let '(v1, err) := addValue zero delta false in
      match err with
      | Some e => (l1, es, Some e)
      | None => let '(l2, es2) := insert c now eopts k v1 l1 in (l2, es ++ es2, None)
      end
  end.

Definition spec_set c now k (val : V) eopts l
    : list item * list (hookEvent K V) * (bool * option error) :=
  let '(l1, es) := prune1 c now k l in
  match find k l1 with
  | Some (v, t) =>
      let '(v1, (_, err)) := setValue v val true in
      match err with
      | Some e => (upd k v1 (refreshed c now eopts t) l1, es, (true, Some e))
      | None =>
          let v2 := mutate c k v1 true in
          (upd k v2 (refreshed c now eopts t) l1, es ++ [hookEventSet k v2 true], (true, None))
      end
  | None =>
      let '(v1, (_, err)) := setValue zero val false in
      match err with
      | Some e => (l1, es, (false, Some e))
      | None => let '(l2, es2) := insert c now eopts k v1 l1 in (l2, es ++ es2, (false, None))
      end
  end.

Definition copied (dest : option V) v : bool * option V :=
  match dest with None => (false, None) | Some d => (true, Some (copyValue d v)) end.

(** [GetQuiet] ([quiet]) fires no hook, so its events are dropped. *)
Definition spec_get c now k (dest : option V) (withHooks : bool) l
    : list item * list (hookEvent K V) * (bool * option V) :=
  match find k l with
  | None => (l, [], (false, dest))
  | Some (v, t) =>
      if expired_at t now then
        match extended c k v now with
        | Some t' => (upd k v t' l, [], copied dest v)
        | None => (rem k l, if withHooks then [hookEventDelete k v DeleteReasonExpired] else [],
                   (false, dest))
        end
      else if withHooks
      then (if refreshTTLOnRead c && (0 <? defaultTTL c) then upd k v (now + defaultTTL c) l else l,
            [hookEventGet k v], copied dest v)
      else (l, [], copied dest v)
  end.

Definition spec_delete k l : list item * list (hookEvent K V) * bool :=
  match find k l with
  | None => (l, [], false)
  | Some (v, _) => (rem k l, [hookEventDelete k v DeleteReasonExplicit], true)
  end.

Definition spec_range c now (fn : K -> V -> bool) l
    : list item * list (hookEvent K V) * list (K * V) :=
  let '(l1, es) := prune c now l in
  (l1, es, visit fn (map (fun i : item => (i.1.1, copyValue zero i.1.2)) l1)).

Definition spec_expire c now l : list item * list (hookEvent K V) * Z :=
  let '(l1, es) := prune c now l in (l1, es, len es).

Definition spec_flush (it : list K) l : list item * list (hookEvent K V) * unit :=
  ([], omap (fun k => match find k l with
                      | Some (v, _) => Some (hookEventDelete k v DeleteReasonFlushed)
                      | None => None
                      end) it, tt).

(** ** Operations and their abstract counterparts *)

Inductive op : Type :=
  | OpAdd now k (delta : V) (opts : list EntryOption)
  | OpSet now k (val : V) (opts : list EntryOption)
  | OpGet now k (dest : option V)
  | OpGetQuiet now k (dest : option V)
  | OpDelete k
  | OpLen
  | OpRange now (fn : K -> V -> bool)
  | OpExpireStale now
  | OpFlush (it : list K).

Inductive result : Type :=
  | R_err (e : option error)
  | R_set (existed : bool) (e : option error)
  | R_get (found : bool) (dest : option V)
  | R_bool (b : bool)
  | R_int (n : Z)
  | R_items (xs : list (K * V))
  | R_unit.

Definition exec (o : op) : ST (Store K V) result :=
  match o with
  | OpAdd now k d opts => let* e := Add now k d opts in ret (R_err e)
  | OpSet now k v opts => let* r := Set_ now k v opts in ret (R_set r.1 r.2)
  | OpGet now k dest => let* r := Get now k dest in ret (R_get r.1 r.2)
  | OpGetQuiet now k dest => let* r := GetQuiet now k dest in ret (R_get r.1 r.2)
  | OpDelete k => let* b := Delete k in ret (R_bool b)
  | OpLen => let* n := Len in ret (R_int n)
  | OpRange now fn => let* xs := Range now fn in ret (R_items xs)
  | OpExpireStale now => let* n := ExpireStale now in ret (R_int n)
  | OpFlush it => Flush it ;;; ret R_unit
  end.

Definition spec c (o : op) l : list item * list (hookEvent K V) * result :=
  match o with
  | OpAdd now k d opts =>
      let '(l', es, r) := spec_add c now k d (applyEntryOptions opts) l in (l', es, R_err r)
  | OpSet now k v opts =>
      let '(l', es, r) := spec_set c now k v (applyEntryOptions opts) l in (l', es, R_set r.1 r.2)
  | OpGet now k dest =>
      let '(l', es, r) := spec_get c now k dest true l in (l', es, R_get r.1 r.2)
  | OpGetQuiet now k dest =>
      let '(l', es, r) := spec_get c now k dest false l in (l', es, R_get r.1 r.2)
  | OpDelete k => let '(l', es, r) := spec_delete k l in (l', es, R_bool r)
  | OpLen => (l, [], R_int (len l))
  | OpRange now fn => let '(l', es, r) := spec_range c now fn l in (l', es, R_items r)
  | OpExpireStale now => let '(l', es, r) := spec_expire c now l in (l', es, R_int r)
  | OpFlush it => let '(l', es, _) := spec_flush it l in (l', es, R_unit)
  end.

(** Go may yield the keys of a map in any order, each once. *)
Definition admissible (o : op) l : Prop :=
  match o with OpFlush it => it ≡ₚ keys l | _ => True end.

(** ** The abstraction *)

Definition item_of (h : gmap ptr (entry K V)) (p : ptr) : option item :=
  e ← h !! p; Some (key e, value e, expiresAt e).
Definition contents (m : memory K V) : list item := omap (item_of (heap m)) (order m).

(** The map and the list hold the same live entries, each once. *)
Record Inv (m : memory K V) : Prop := {
  inv_nodup : NoDup (order m);
  inv_order p : p ∈ order m ->
    exists e, heap m !! p = Some e /\ elem e = true /\ entries m !! key e = Some p;
  inv_entries k p : entries m !! k = Some p ->
    p ∈ order m /\ exists e, heap m !! p = Some e /\ key e = k
}.

(** ** Lists of items *)

Lemma find_app k l1 l2 :
  find k (l1 ++ l2) = match find k l1 with Some x => Some x | None => find k l2 end.
Proof. induction l1 as [|[[k' v] t] l1 IH]; simpl; [done|]. by case_decide. Qed.

Lemma find_None k l : find k l = None <-> k ∉ keys l.
Proof.
  induction l as [|[[k' v] t] l IH]; simpl; [set_solver|].
  case_decide as Hk; [set_solver|]. rewrite IH. set_solver.
Qed.

Lemma find_Some_elem k v t l : find k l = Some (v, t) -> (k, v, t) ∈ l.
Proof.
  induction l as [|[[k' v'] t'] l IH]; simpl; [done|].
  case_decide; [|set_solver]. intros [= -> ->]. subst. set_solver.
Qed.

Lemma elem_keys k v t l : (k, v, t) ∈ l -> k ∈ keys l.
Proof. intros Hi. apply list_elem_of_fmap. by exists (k, v, t). Qed.

Lemma elem_find_Some k v t l : NoDup (keys l) -> (k, v, t) ∈ l -> find k l = Some (v, t).
Proof.
  induction l as [|[[k' v'] t'] l IH]; simpl; [set_solver|].
  intros [Hk Hnd]%NoDup_cons [Heq|Hin]%elem_of_cons.
  - injection Heq as <- <- <-. by rewrite decide_True.
  - rewrite decide_False; [by apply IH|]. intros ->. apply Hk.
    by apply elem_keys in Hin.
Qed.

Lemma keys_upd k v t l : keys (upd k v t l) = keys l.
Proof.
  unfold keys, upd. rewrite map_map. apply map_ext. intros [[k' ?] ?]; simpl. by case_decide.
Qed.

Lemma keys_app l1 l2 : keys (l1 ++ l2) = keys l1 ++ keys l2.
Proof. apply map_app. Qed.

Lemma find_upd k v t l : find k l <> None -> find k (upd k v t l) = Some (v, t).
Proof.
  induction l as [|[[k' v'] t'] l IH]; simpl; [done|].
  case_decide; simpl; [by rewrite decide_True|]. by rewrite decide_False.
Qed.

Lemma find_upd_ne k k' v t l : k' <> k -> find k' (upd k v t l) = find k' l.
Proof.
  intros Hk. induction l as [|[[j v'] t'] l IH]; simpl; [done|].
  destruct (decide (j = k)) as [->|Hj]; simpl.
  - by rewrite !decide_False by congruence.
  - by rewrite IH.
Qed.

Lemma upd_id k v t l : NoDup (keys l) -> find k l = Some (v, t) -> upd k v t l = l.
Proof.
  intros Hnd Hk. unfold upd. apply map_id_ext. intros [[k' v'] t'] Hin. simpl.
  case_decide as Hd; [|done]. subst. apply elem_find_Some in Hin; [|done]. congruence.
Qed.

Lemma upd_upd k v t v' t' l : upd k v t (upd k v' t' l) = upd k v t l.
Proof.
  unfold upd. rewrite map_map. apply map_ext. intros [[j ?] ?]; simpl.
  destruct (decide (j = k)); simpl; [by rewrite decide_True|by rewrite decide_False].
Qed.

Lemma find_rem k l : find k (rem k l) = None.
Proof.
  induction l as [|[[j v] t] l IH]; simpl; [done|].
  case_bool_decide; simpl; [done|]. by rewrite decide_False.
Qed.

Lemma find_rem_ne k k' l : k' <> k -> find k' (rem k l) = find k' l.
Proof.
  intros Hk. induction l as [|[[j v] t] l IH]; simpl; [done|].
  case_bool_decide; simpl; [by rewrite decide_False by congruence|]. by rewrite IH.
Qed.

Lemma filter_sublist {A} (f : A -> bool) (s : list A) : List.filter f s `sublist_of` s.
Proof. induction s; simpl; [constructor|]. destruct (f a); by constructor. Qed.

Lemma keys_sublist l1 l2 : l1 `sublist_of` l2 -> keys l1 `sublist_of` keys l2.
Proof. induction 1; simpl; by constructor. Qed.

Lemma rem_sublist k l : rem k l `sublist_of` l.
Proof. apply filter_sublist. Qed.

Lemma length_upd k v t l : length (upd k v t l) = length l.
Proof. apply length_map. Qed.

(** ** The abstraction under the primitive steps *)

Lemma inv_lookup m k p q : Inv m -> entries m !! k = Some p -> q ∈ order m ->
  exists e, heap m !! q = Some e /\ (key e = k <-> q = p).
Proof.
  intros Hm Hk Hq. destruct (inv_order m Hm q Hq) as (e & He & _ & Hent). exists e. split; [done|].
  split; [intros <-; congruence|]. intros ->. destruct (inv_entries m Hm k p Hk) as (_ & e' & ? & ?).
  congruence.
Qed.

Lemma inv_at m k p : Inv m -> entries m !! k = Some p ->
  exists e, heap m !! p = Some e /\ key e = k /\ elem e = true.
Proof.
  intros Hm Hk. destruct (inv_entries m Hm k p Hk) as (Hin & e & He & Hke).
  destruct (inv_order m Hm p Hin) as (e' & He' & Helem & _). exists e. splits; congruence.
Qed.

Lemma contents_elem m i : Inv m -> i ∈ contents m ->
  exists p e, entries m !! i.1.1 = Some p /\ heap m !! p = Some e /\ i = (key e, value e, expiresAt e).
Proof.
  intros Hm (p & Hp & Hi)%list_elem_of_omap. destruct (inv_order m Hm p Hp) as (e & He & _ & Hent).
  unfold item_of in Hi. rewrite He in Hi. simpl in Hi. injection Hi as <-. eauto.
Qed.

Lemma contents_in m p e : Inv m -> p ∈ order m -> heap m !! p = Some e ->
  (key e, value e, expiresAt e) ∈ contents m.
Proof. intros Hm Hp He. apply list_elem_of_omap. exists p. unfold item_of. by rewrite He. Qed.

Lemma inv_keys_nodup m : Inv m -> NoDup (keys (contents m)).
Proof.
  intros Hm. unfold contents, keys. pose proof (inv_nodup m Hm) as Hnd.
  assert (Hord : forall p, p ∈ order m -> exists e, heap m !! p = Some e /\ entries m !! key e = Some p).
  { intros p Hp. destruct (inv_order m Hm p Hp) as (e & ? & _ & ?). eauto. }
  revert Hnd Hord. generalize (order m). induction l as [|p o IH]; intros Hnd Hord; simpl; [constructor|].
  apply NoDup_cons in Hnd as [Hp Hnd]. destruct (Hord p) as (e & He & Hent); [set_solver|].
  unfold item_of at 1. rewrite He. simpl. constructor; [|apply IH; [done|intros; apply Hord; set_solver]].
  intros (i & Hi & (q & Hq & Hqi)%list_elem_of_omap)%list_elem_of_fmap.
  destruct (Hord q) as (e' & He' & Hent'); [set_solver|].
  unfold item_of in Hqi. rewrite He' in Hqi. simpl in Hqi. injection Hqi as <-. simpl in Hi.
  rewrite Hi in Hent. congruence.
Qed.

(** A key is in the map exactly when it is in the list, with the entry the map gives. *)
Lemma contents_find m k p e : Inv m -> entries m !! k = Some p -> heap m !! p = Some e ->
  find k (contents m) = Some (value e, expiresAt e).
Proof.
  intros Hm Hk He. destruct (inv_at m k p Hm Hk) as (e' & He' & Hke & _).
  assert (e' = e) as -> by congruence. subst.
  apply elem_find_Some; [by apply inv_keys_nodup|].
  apply (contents_in m p); [done| |done]. by apply (inv_entries m Hm (key e) p).
Qed.

Lemma contents_find_None m k : Inv m -> entries m !! k = None -> find k (contents m) = None.
Proof.
  intros Hm Hk. apply find_None. intros (i & -> & Hi)%list_elem_of_fmap.
  destruct (contents_elem m i Hm Hi) as (p & e & Hent & _). congruence.
Qed.

Lemma contents_size m : Inv m -> size (entries m) = length (contents m).
Proof.
  intros Hm. rewrite <- (length_map (fun i : item => i.1.1)). change (map _ (contents m)) with (keys (contents m)).
  rewrite <- (size_list_to_set (C := gset K)) by (by apply inv_keys_nodup). rewrite <- size_dom.
  f_equal. apply set_eq. intros k. rewrite elem_of_dom, elem_of_list_to_set. split.
  - intros [p Hk]. destruct (inv_at m k p Hm Hk) as (e & He & <- & _).
    apply (elem_keys _ (value e) (expiresAt e)).
    apply (contents_in m p); [done| |done]. by apply (inv_entries m Hm (key e) p).
  - intros (i & -> & Hi)%list_elem_of_fmap. destruct (contents_elem m i Hm Hi) as (p & e & ? & _). eauto.
Qed.

Definition assigned (p : ptr) (e : entry K V) (m : memory K V) : memory K V :=
  {| entries := entries m; order := order m; heap := <[p := e]> (heap m) |}.

Lemma assign_inv m k p v t : Inv m -> entries m !! k = Some p ->
  let m' := assigned p {| key := k; value := v; expiresAt := t; elem := true |} m in
  Inv m' /\ contents m' = upd k v t (contents m).
Proof.
  intros Hm Hk m'. destruct (inv_at m k p Hm Hk) as (e0 & He0 & Hke0 & _). unfold m'. splits.
  - constructor; simpl; [apply Hm| |].
    + intros q Hq. destruct (decide (q = p)) as [->|Hne].
      * eexists. rewrite lookup_insert_eq. splits; done.
      * rewrite lookup_insert_ne by done. by apply Hm.
    + intros j q Hq. destruct (inv_entries m Hm j q Hq) as (Hin & e & He & Hke). split; [done|].
      destruct (decide (q = p)) as [->|Hne].
      * eexists. rewrite lookup_insert_eq. split; [done|]. simpl. congruence.
      * rewrite lookup_insert_ne by done. eauto.
  - apply omap_map_ext. intros q Hq. destruct (inv_lookup m k p q Hm Hk Hq) as (e & He & Hiff).
    unfold item_of. simpl. rewrite He. destruct (decide (q = p)) as [->|Hne].
    + rewrite lookup_insert_eq. simpl. by rewrite decide_True by (by apply Hiff).
    + rewrite lookup_insert_ne, He by done. simpl. by rewrite decide_False by (by rewrite Hiff).
Qed.

(** [deleteLocked]'s effect. *)
Definition unlinked (k : K) (p : ptr) (e : entry K V) (m : memory K V) : memory K V :=
  {| entries := delete k (entries m);
     order := List.filter (fun q => negb (bool_decide (q = p))) (order m);
     heap := <[p := e]> (heap m) |}.

Lemma elem_unlinked k p e m q : q ∈ order (unlinked k p e m) <-> q ∈ order m /\ q <> p.
Proof.
  simpl. rewrite !list_elem_of_In, filter_In. rewrite negb_true_iff, bool_decide_eq_false. done.
Qed.

Lemma unlink_inv m k p e : Inv m -> entries m !! k = Some p ->
  Inv (unlinked k p e m) /\ contents (unlinked k p e m) = rem k (contents m).
Proof.
  intros Hm Hk. splits.
  - constructor.
    + simpl. eapply sublist_NoDup; [apply Hm|]. apply filter_sublist.
    + intros q [Hq Hne]%elem_unlinked. destruct (inv_order m Hm q Hq) as (e' & He' & Hel & Hent).
      exists e'. simpl. rewrite lookup_insert_ne by done. splits; [done|done|].
      rewrite lookup_delete_ne; [done|]. intros Hkk. congruence.
    + intros j q Hq. simpl in Hq. apply lookup_delete_Some in Hq as [Hne Hq].
      destruct (inv_entries m Hm j q Hq) as (Hin & e' & He' & Hke).
      assert (q <> p). { intros ->. destruct (inv_at m k p Hm Hk) as (? & ? & ? & _). congruence. }
      split; [by apply elem_unlinked|]. exists e'. simpl. rewrite lookup_insert_ne by done. done.
  - apply omap_filter_ext. intros q Hq. destruct (inv_lookup m k p q Hm Hk Hq) as (e' & He' & Hiff).
    unfold item_of at 1. rewrite He'. eexists. splits; [done| |].
    + simpl. f_equal. by apply bool_decide_ext.
    + intros Hne%negb_true_iff%bool_decide_eq_false. unfold item_of. simpl.
      by rewrite lookup_insert_ne, He' by done.
Qed.

Definition linked (k : K) (v : V) (m : memory K V) : memory K V :=
  let p : ptr := fresh (dom (heap m)) in
  {| entries := <[k := p]> (entries m); order := order m ++ [p];
     heap := <[p := {| key := k; value := v; expiresAt := 0; elem := true |}]> (heap m) |}.

Lemma link_inv m k v : Inv m -> entries m !! k = None ->
  Inv (linked k v m) /\ contents (linked k v m) = contents m ++ [(k, v, 0)] /\
  entries (linked k v m) !! k = Some (fresh (dom (heap m))).
Proof.
  intros Hm Hk. set (p := fresh (dom (heap m)) : ptr).
  assert (Hp : heap m !! p = None) by (apply not_elem_of_dom, is_fresh).
  assert (Hord : p ∉ order m). { intros Hin. destruct (inv_order m Hm p Hin) as (? & ? & _). congruence. }
  assert (Hne : forall q, q ∈ order m -> q <> p) by (intros; congruence).
  splits.
  - constructor; unfold linked; fold p; simpl.
    + apply NoDup_app. splits; [apply Hm|set_solver|apply NoDup_singleton].
    + intros q [Hq| ->%list_elem_of_singleton]%elem_of_app.
      * destruct (inv_order m Hm q Hq) as (e & He & Hel & Hent). exists e.
        rewrite lookup_insert_ne by (intros ->; by apply (Hne q)). splits; [done|done|].
        rewrite lookup_insert_ne; [done|]. intros ->. congruence.
      * eexists. rewrite lookup_insert_eq. splits; [done|done|]. simpl. by rewrite lookup_insert_eq.
    + intros j q [[-> <-]|[Hjk Hq]]%lookup_insert_Some.
      * split; [set_solver|]. eexists. by rewrite lookup_insert_eq.
      * destruct (inv_entries m Hm j q Hq) as (Hin & e & He & Hke). split; [set_solver|].
        exists e. rewrite lookup_insert_ne by (intros ->; by apply (Hne q)). done.
  - unfold contents, linked. fold p. simpl. rewrite omap_app. simpl. unfold item_of at 2.
    rewrite lookup_insert_eq. simpl. f_equal.
    rewrite <- (map_id (omap (item_of (heap m)) (order m))). apply omap_map_ext.
    intros q Hq. unfold item_of. simpl. rewrite lookup_insert_ne by (intros ->; by apply (Hne q)).
    by destruct (heap m !! q).
  - unfold linked. simpl. by rewrite lookup_insert_eq.
Qed.
End spec.
