(* ===== verification/FlowStoreRefine.v ===== *)
(** * The flow store refines the list of its entries

    [op_refines]: every operation of [FlowStore], from a store whose structures agree,
    terminates without a stale pointer and does what [FlowStoreSpec.spec] says. *)
From S2P Require Import Prelude FlowStore FlowStoreSpec.

(** [step H]: run the first computation of a sequence, whose result [H] gives. *)
Lemma bind_ok {S A B} (m : ST S A) (k : A -> ST S B) s a s' :
  m s = (Ok a, s') -> bind m k s = k a s'.
Proof. intros Hm. unfold bind. by rewrite Hm. Qed.

Ltac step E := rewrite (bind_ok _ _ _ _ _ E); cbv beta.

Section refine.
Context {K V : Type} `{Countable K} `{Value V}.
Implicit Types (k : K) (v : V) (now t : Z) (its : list (K * V * Z)) (c : Settings K V).
Implicit Types (l : locked K V) (es : list (hookEvent K V)).

(** Inside an operation that started on [s0]: the entries are [its], the events so far
    [es], and nothing else has changed but the notifier. *)
Record holds (s0 : Store K V) its es l : Prop := {
  h_inv : Inv (mem (st l));
  h_items : contents (mem (st l)) = its;
  h_events : events l = seen (settings s0) es;
  h_settings : settings (st l) = settings s0;
  h_calls : calls (st l) = calls s0;
  h_sweep : stopSweeper (st l) = stopSweeper s0 /\ sweepers (st l) = sweepers s0 /\
            started (st l) = started s0
}.

(** [p] is the live entry under [k], with value [v] and expiry [t]. *)
Definition live l k p v t : Prop :=
  entries (mem (st l)) !! k = Some p /\
  heap (mem (st l)) !! p = Some {| key := k; value := v; expiresAt := t; elem := true |}.

Lemma holds_nodup s0 its es l : holds s0 its es l -> NoDup (keys its).
Proof. intros Hl. rewrite <- (h_items _ _ _ _ Hl). by apply inv_keys_nodup, Hl. Qed.

Lemma live_find s0 its es l k p v t : holds s0 its es l -> live l k p v t -> find k its = Some (v, t).
Proof.
  intros Hl [Hk Hp]. rewrite <- (h_items _ _ _ _ Hl).
  by rewrite (contents_find _ k p _ (h_inv _ _ _ _ Hl) Hk Hp).
Qed.

Lemma holds_lookup s0 its es l k : holds s0 its es l ->
  match find k its with
  | Some (v, t) => exists p, live l k p v t
  | None => entries (mem (st l)) !! k = None
  end.
Proof.
  intros Hl. pose proof (h_inv _ _ _ _ Hl) as HI. rewrite <- (h_items _ _ _ _ Hl).
  destruct (entries (mem (st l)) !! k) as [p|] eqn:Hk.
  - destruct (inv_at _ k p HI Hk) as ([k' v t el] & He & Hke & Hel). simpl in *. subst.
    rewrite (contents_find _ k p _ HI Hk He). simpl. by exists p.
  - by rewrite contents_find_None.
Qed.

(** ** Primitive steps *)

Lemma deref_ok l k p v t : live l k p v t ->
  deref p l = (Ok {| key := k; value := v; expiresAt := t; elem := true |}, l).
Proof. intros [_ Hp]. unfold deref. by rewrite Hp. Qed.

Lemma seen_app c es1 es2 : seen c (es1 ++ es2) = seen c es1 ++ seen c es2.
Proof. apply List.filter_app. Qed.

Lemma holds_mem s0 its es l m its' : holds s0 its es l -> Inv m -> contents m = its' ->
  holds s0 its' es {| st := set_mem m (st l); events := events l |}.
Proof. intros [] Hm Hc. by constructor. Qed.

Lemma assign_ok s0 its es l k p v t v' t' :
  holds s0 its es l -> live l k p v t ->
  exists l', assign p {| key := k; value := v'; expiresAt := t'; elem := true |} l = (Ok tt, l') /\
    holds s0 (upd k v' t' its) es l' /\ live l' k p v' t' /\ order (mem (st l')) = order (mem (st l)).
Proof.
  intros Hl [Hk Hp]. destruct (assign_inv (mem (st l)) k p v' t' (h_inv _ _ _ _ Hl) Hk) as [HI Hc].
  eexists. splits; [reflexivity| | |].
  - apply (holds_mem _ its); [done|done|]. unfold assigned in Hc. by rewrite Hc, (h_items _ _ _ _ Hl).
  - split; simpl; [done|]. by rewrite lookup_insert_eq.
  - done.
Qed.

Lemma set_value_ok s0 its es l k p v t v' :
  holds s0 its es l -> live l k p v t ->
  exists l', set_value p v' l = (Ok tt, l') /\ holds s0 (upd k v' t its) es l' /\ live l' k p v' t.
Proof.
  intros Hl Hp. unfold set_value. step (deref_ok _ _ _ _ _ Hp).
  destruct (assign_ok s0 its es l k p v t v' t Hl Hp) as (l' & E & ? & ? & _). by exists l'.
Qed.

Lemma set_expiresAt_ok s0 its es l k p v t t' :
  holds s0 its es l -> live l k p v t ->
  exists l', set_expiresAt p t' l = (Ok tt, l') /\ holds s0 (upd k v t' its) es l' /\ live l' k p v t' /\
    order (mem (st l')) = order (mem (st l)).
Proof.
  intros Hl Hp. unfold set_expiresAt. step (deref_ok _ _ _ _ _ Hp). by apply (assign_ok s0 its es l k p v t).
Qed.

Lemma insertLocked_ok s0 its es l k v : holds s0 its es l -> find k its = None ->
  exists p l', insertLocked k v l = (Ok p, l') /\ holds s0 (its ++ [(k, v, 0)]) es l' /\ live l' k p v 0.
Proof.
  intros Hl Hk. pose proof (holds_lookup _ _ _ _ k Hl) as Hl'. rewrite Hk in Hl'.
  destruct (link_inv (mem (st l)) k v (h_inv _ _ _ _ Hl) Hl') as (HI & Hc & He).
  do 2 eexists. splits; [reflexivity| |].
  - apply (holds_mem _ its); [done|done|]. unfold linked in Hc. by rewrite Hc, (h_items _ _ _ _ Hl).
  - split; [done|]. simpl. by rewrite lookup_insert_eq.
Qed.

Lemma deleteLocked_ok s0 its es l k p v t : holds s0 its es l -> live l k p v t ->
  exists l', deleteLocked p l = (Ok tt, l') /\ holds s0 (rem k its) es l' /\
    order (mem (st l')) = List.filter (fun q => negb (bool_decide (q = p))) (order (mem (st l))).
Proof.
  intros Hl Hp. unfold deleteLocked. step (deref_ok _ _ _ _ _ Hp). destruct Hp as [Hk Hp].
  destruct (unlink_inv (mem (st l)) k p {| key := k; value := v; expiresAt := t; elem := false |}
              (h_inv _ _ _ _ Hl) Hk) as [HI Hc].
  rewrite (h_items _ _ _ _ Hl) in Hc. eexists.
  split; [reflexivity|]. split; [exact (holds_mem s0 its es l _ _ Hl HI Hc)|done].
Qed.

(** Each [record] function appends its event when its hook is set. *)
Lemma record_ok s0 its es l e : holds s0 its es l ->
  exists l', (if hook_set (hooks (settings (st l))) e then record e else ret tt) l = (Ok tt, l') /\
    holds s0 its (es ++ [e]) l' /\ mem (st l') = mem (st l).
Proof.
  intros Hl. rewrite (h_settings _ _ _ _ Hl).
  destruct (hook_set _ e) eqn:He; eexists; (splits; [reflexivity| |done]).
  - destruct Hl as [? ? Hev ? ? ?]. constructor; try done. simpl.
    rewrite seen_app, Hev. unfold seen at 3. simpl. by rewrite He.
  - destruct Hl as [? ? Hev ? ? ?]. constructor; try done. simpl.
    rewrite seen_app, Hev. unfold seen at 3. simpl. by rewrite He, app_nil_r.
Qed.

Lemma recordSet_ok s0 its es l k v b : holds s0 its es l ->
  exists l', recordSet k v b l = (Ok tt, l') /\ holds s0 its (es ++ [hookEventSet k v b]) l'.
Proof.
  intros Hl. destruct (record_ok s0 its es l (hookEventSet k v b) Hl) as (l' & E & Hl' & _). by exists l'.
Qed.

Lemma recordDelete_ok s0 its es l k p v t reason : holds s0 its es l -> live l k p v t ->
  exists l', recordDelete {| key := k; value := v; expiresAt := t; elem := true |} reason l = (Ok tt, l') /\
    holds s0 its (es ++ [hookEventDelete k v reason]) l' /\ mem (st l') = mem (st l).
Proof.
  intros Hl Hp. destruct (record_ok s0 its es l (hookEventDelete k v reason) Hl) as (l' & E & Hl' & Hm).
  by exists l'.
Qed.

Lemma recordGet_ok s0 its es l k v t b : holds s0 its es l ->
  exists l', recordGet {| key := k; value := v; expiresAt := t; elem := b |} l = (Ok tt, l') /\
    holds s0 its (es ++ [hookEventGet k v]) l'.
Proof.
  intros Hl. destruct (record_ok s0 its es l (hookEventGet k v) Hl) as (l' & E & Hl' & _). by exists l'.
Qed.

Lemma notify_ok s0 its es l : holds s0 its es l ->
  exists l', notifyChangeLocked l = (Ok tt, l') /\ holds s0 its es l' /\ mem (st l') = mem (st l).
Proof.
  intros []. eexists. splits; [reflexivity| |]; unfold notifyChange; destruct (changeNotify (st l)) as [[[|n] g]|]; by try constructor.
Qed.

Lemma gets_ok {A} (f : Store K V -> A) l : gets f l = (Ok (f (st l)), l).
Proof. done. Qed.

(** ** Helpers *)

Lemma maybeExtend_ok s0 its es l k p v t now : holds s0 its es l -> live l k p v t ->
  match extended (settings s0) k v now with
  | Some t' => exists l', maybeExtendLocked p now l = (Ok true, l') /\
                 holds s0 (upd k v t' its) es l' /\ live l' k p v t' /\
                 order (mem (st l')) = order (mem (st l))
  | None => maybeExtendLocked p now l = (Ok false, l)
  end.
Proof.
  intros Hl Hp. unfold maybeExtendLocked. step (deref_ok _ _ _ _ _ Hp). step (gets_ok settings l).
  rewrite (h_settings _ _ _ _ Hl). simpl. destruct (extended _ k v now) as [t'|]; [|done].
  destruct (set_expiresAt_ok s0 its es l k p v t t' Hl Hp) as (l' & E & Hl' & Hp' & Ho).
  step E. eauto 6.
Qed.

(** Dropping an entry with its event. *)
Lemma drop_ok {A} s0 its es l k p v t reason (rest : ST (locked K V) A) :
  holds s0 its es l -> live l k p v t ->
  exists l', (recordDelete {| key := k; value := v; expiresAt := t; elem := true |} reason ;;;
              deleteLocked p ;;; rest) l = rest l' /\
    holds s0 (rem k its) (es ++ [hookEventDelete k v reason]) l' /\
    order (mem (st l')) = List.filter (fun q => negb (bool_decide (q = p))) (order (mem (st l))).
Proof.
  intros Hl Hp. destruct (recordDelete_ok _ _ _ _ k p v t reason Hl Hp) as (l1 & E1 & Hl1 & Hm1). step E1.
  assert (Hp1 : live l1 k p v t) by (unfold live; by rewrite Hm1).
  destruct (deleteLocked_ok _ _ _ _ _ _ _ _ Hl1 Hp1) as (l2 & E2 & Hl2 & Ho). step E2.
  rewrite Hm1 in Ho. eauto.
Qed.

Lemma drop_notify_ok {A} s0 its es l k p v t reason (rest : ST (locked K V) A) :
  holds s0 its es l -> live l k p v t ->
  exists l', (recordDelete {| key := k; value := v; expiresAt := t; elem := true |} reason ;;;
              deleteLocked p ;;; notifyChangeLocked ;;; rest) l = rest l' /\
    holds s0 (rem k its) (es ++ [hookEventDelete k v reason]) l' /\
    order (mem (st l')) = List.filter (fun q => negb (bool_decide (q = p))) (order (mem (st l))).
Proof.
  intros Hl Hp.
  destruct (drop_ok _ _ _ _ _ _ _ _ reason (notifyChangeLocked ;;; rest) Hl Hp) as (l1 & E1 & Hl1 & Ho).
  destruct (notify_ok _ _ _ _ Hl1) as (l2 & E2 & Hl2 & Hm). exists l2. splits; [|done|by rewrite Hm].
  rewrite E1. by step E2.
Qed.

Lemma dropExpired_ok s0 its l k p v t now : holds s0 its [] l -> live l k p v t ->
  let '(its1, es1) := prune1 (settings s0) now k its in
  exists gone l', dropExpired p now l = (Ok gone, l') /\ holds s0 its1 es1 l' /\
    if gone then find k its1 = None
    else exists v' t', find k its1 = Some (v', t') /\ live l' k p v' t'.
Proof.
  intros Hl Hp. pose proof (live_find _ _ _ _ _ _ _ _ Hl Hp) as Hf. unfold prune1. rewrite Hf.
  unfold dropExpired. step (deref_ok _ _ _ _ _ Hp). unfold expiredLocked. cbn [expiresAt].
  destruct (expired_at t now) eqn:Hexp; [|do 2 eexists; splits; [reflexivity|done|by exists v, t]].
  pose proof (maybeExtend_ok s0 its [] l k p v t now Hl Hp) as Hext.
  destruct (extended (settings s0) k v now) as [t'|].
  - destruct Hext as (l1 & E1 & Hl1 & Hp1 & _). step E1. do 2 eexists. splits; [reflexivity|done|].
    simpl. do 2 eexists. split; [|done]. apply find_upd. congruence.
  - step Hext. cbv iota. destruct (drop_ok _ _ _ _ _ _ _ _ DeleteReasonExpired (ret true) Hl Hp) as (l1 & E1 & Hl1 & _).
    rewrite E1. do 2 eexists. splits; [reflexivity|done|]. simpl. apply find_rem.
Qed.

Lemma liveEntry_ok s0 its l k now : holds s0 its [] l ->
  let '(its1, es1) := prune1 (settings s0) now k its in
  exists o l', liveEntry k now l = (Ok o, l') /\ holds s0 its1 es1 l' /\
    match find k its1 with
    | Some (v, t) => exists p, o = Some p /\ live l' k p v t
    | None => o = None
    end.
Proof.
  intros Hl. unfold liveEntry. step (gets_ok mem l).
  pose proof (holds_lookup _ _ _ _ k Hl) as Hk. destruct (find k its) as [[v t]|] eqn:Hf.
  - destruct Hk as [p Hp]. rewrite (proj1 Hp).
    pose proof (dropExpired_ok s0 its l k p v t now Hl Hp) as Hd.
    destruct (prune1 (settings s0) now k its) as [its1 es1].
    destruct Hd as ([|] & l1 & E1 & Hl1 & Hg); step E1; do 2 eexists; (splits; [reflexivity|done|]).
    + by rewrite Hg.
    + destruct Hg as (v' & t' & -> & Hp'). eauto.
  - unfold prune1. rewrite Hk, Hf. do 2 eexists. splits; [reflexivity|done|]. by rewrite Hf.
Qed.

Lemma refreshOnWrite_ok s0 its es l k p v t now eopts : holds s0 its es l -> live l k p v t ->
  exists l', refreshOnWrite p now eopts l = (Ok tt, l') /\
    holds s0 (upd k v (refreshed (settings s0) now eopts t) its) es l' /\
    live l' k p v (refreshed (settings s0) now eopts t).
Proof.
  intros Hl Hp. unfold refreshOnWrite, refreshed. step (gets_ok settings l).
  rewrite (h_settings _ _ _ _ Hl).
  assert (Hset : forall t', exists l', set_expiresAt p t' l = (Ok tt, l') /\
    holds s0 (upd k v t' its) es l' /\ live l' k p v t').
  { intros t'. destruct (set_expiresAt_ok s0 its es l k p v t t' Hl Hp) as (l' & ? & ? & ? & _). by exists l'. }
  destruct (ttlSet eopts); [apply Hset|]. destruct (refreshTTL _ && _); [apply Hset|].
  rewrite upd_id; [|by eapply holds_nodup|by eapply live_find]. eauto.
Qed.

Lemma runOnSetMutate_ok s0 its es l k p v t b : holds s0 its es l -> live l k p v t ->
  exists l', runOnSetMutate p k b l = (Ok tt, l') /\
    holds s0 (upd k (mutate (settings s0) k v b) t its) es l' /\
    live l' k p (mutate (settings s0) k v b) t.
Proof.
  intros Hl Hp. unfold runOnSetMutate, mutate. step (gets_ok (fun s => hooks (settings s)) l).
  rewrite (h_settings _ _ _ _ Hl). destruct (OnSetMutate _) as [f|].
  - step (deref_ok _ _ _ _ _ Hp). by apply (set_value_ok s0 its es l k p v t).
  - rewrite upd_id; [|by eapply holds_nodup|by eapply live_find]. eauto.
Qed.

Lemma finishUpdate_ok s0 its es l k p v t : holds s0 its es l -> live l k p v t ->
  let v' := mutate (settings s0) k v true in
  exists l', finishUpdate p k l = (Ok tt, l') /\
    holds s0 (upd k v' t its) (es ++ [hookEventSet k v' true]) l'.
Proof.
  intros Hl Hp v'. unfold finishUpdate.
  destruct (runOnSetMutate_ok _ _ _ _ _ _ _ _ true Hl Hp) as (l1 & E1 & Hl1 & Hp1). step E1.
  destruct (notify_ok _ _ _ _ Hl1) as (l2 & E2 & Hl2 & Hm2). step E2.
  assert (Hp2 : live l2 k p v' t) by (unfold live; by rewrite Hm2).
  step (deref_ok _ _ _ _ _ Hp2). simpl. by apply recordSet_ok.
Qed.

(** ** Loops *)

Lemma item_of_live l p k v t : live l k p v t -> item_of (heap (mem (st l))) p = Some (k, v, t).
Proof. intros [_ Hp]. unfold item_of. by rewrite Hp. Qed.

Lemma order_live s0 its es l p : holds s0 its es l -> p ∈ order (mem (st l)) ->
  exists k v t, live l k p v t.
Proof.
  intros Hl Hp. destruct (inv_order _ (h_inv _ _ _ _ Hl) p Hp) as ([k v t el] & He & Hel & Hk).
  simpl in *. subst. by exists k, v, t.
Qed.

(** A suffix of the order list and the items it stands for. *)
Lemma order_split s0 done todo es l pre p next :
  holds s0 (done ++ todo) es l -> order (mem (st l)) = pre ++ p :: next -> length pre = length done ->
  exists k v t todo', todo = (k, v, t) :: todo' /\ live l k p v t.
Proof.
  intros Hl Ho Hlen. destruct (order_live _ _ _ l p Hl) as (k & v & t & Hp); [rewrite Ho; set_solver|].
  pose proof (h_items _ _ _ _ Hl) as Hc. unfold contents in Hc. rewrite Ho, omap_app in Hc.
  assert (Hpre : length (omap (item_of (heap (mem (st l)))) pre) = length done).
  { rewrite <- Hlen. assert (Hin : forall q, q ∈ pre -> q ∈ order (mem (st l))) by (rewrite Ho; set_solver).
    clear -Hl Hin. induction pre as [|q pre IH]; [done|].
    destruct (order_live _ _ _ l q Hl) as (k & v & t & Hq); [set_solver|]. simpl.
    rewrite (item_of_live _ _ _ _ _ Hq). simpl. f_equal. apply IH. set_solver. }
  apply app_inj_1 in Hc as [_ Hc]; [|done]. simpl in Hc. rewrite (item_of_live _ _ _ _ _ Hp) in Hc.
  do 4 eexists. split; [symmetry; exact Hc|done].
Qed.

Lemma upd_split k v t v' t' done todo : NoDup (keys (done ++ (k, v, t) :: todo)) ->
  upd k v' t' (done ++ (k, v, t) :: todo) = done ++ (k, v', t') :: todo.
Proof.
  rewrite keys_app. intros (_ & Hd & Ht)%NoDup_app. unfold upd. rewrite map_app. simpl.
  rewrite decide_True by done. simpl in Ht. apply NoDup_cons in Ht as [Hk _].
  f_equal; [|f_equal]; apply map_id_ext; intros [[j ?] ?] Hj%elem_keys; simpl; rewrite decide_False; try done.
  - intros ->. apply (Hd k Hj). simpl. set_solver.
  - intros ->. done.
Qed.

Lemma filter_all {A} (f : A -> bool) (s : list A) : (forall x, x ∈ s -> f x = true) -> List.filter f s = s.
Proof. induction s as [|x s IH]; intros Hf; simpl; [done|]. rewrite Hf by set_solver. f_equal. apply IH. set_solver. Qed.

Lemma rem_split k v t done todo : NoDup (keys (done ++ (k, v, t) :: todo)) ->
  rem k (done ++ (k, v, t) :: todo) = done ++ todo.
Proof.
  rewrite keys_app. intros (_ & Hd & Ht)%NoDup_app. unfold rem. rewrite List.filter_app. simpl.
  rewrite bool_decide_true by done. simpl in *. apply NoDup_cons in Ht as [Hk _].
  f_equal; apply filter_all; intros [[j ?] ?] Hj%elem_keys; simpl; rewrite bool_decide_false; try done.
  - intros ->. apply (Hd k Hj). set_solver.
  - intros ->. done.
Qed.

Lemma unlink_split (p : ptr) pre next : NoDup (pre ++ p :: next) ->
  List.filter (fun q => negb (bool_decide (q = p))) (pre ++ p :: next) = pre ++ next.
Proof.
  intros (_ & Hd & [Hp _]%NoDup_cons)%NoDup_app. rewrite List.filter_app. simpl.
  rewrite bool_decide_true by done. simpl.
  f_equal; apply filter_all; intros q Hq; rewrite bool_decide_false; try done.
  - intros ->. apply (Hd p Hq). set_solver.
  - intros ->. done.
Qed.

Lemma prune_cons c now i its :
  prune c now (i :: its) =
    let '(kept, evs) := prune c now its in
    if lapsed c now i then (kept, removal DeleteReasonExpired i :: evs) else (renew c now i :: kept, evs).
Proof. unfold prune. simpl. by destruct (lapsed c now i). Qed.

Lemma expireLoop_ok s0 now nodes : forall removed l done todo pre es,
  holds s0 (done ++ todo) es l -> order (mem (st l)) = pre ++ nodes -> length pre = length done ->
  length nodes = length todo ->
  let '(kept, evs) := prune (settings s0) now todo in
  exists l', expireLoop nodes now removed l = (Ok (removed + len evs), l') /\
    holds s0 (done ++ kept) (es ++ evs) l'.
Proof.
  induction nodes as [|p next IH]; intros removed l done todo pre es Hl Ho Hlen Hlen'.
  { destruct todo; [|discriminate]. simpl. exists l. rewrite Z.add_0_r, !app_nil_r in *. by split. }
  destruct (order_split _ _ _ _ _ _ _ _ Hl Ho Hlen) as (k & v & t & todo' & -> & Hp).
  rewrite prune_cons. unfold lapsed, renew. cbn [fst snd].
  simpl expireLoop. step (deref_ok _ _ _ _ _ Hp). unfold expiredLocked. cbn [expiresAt].
  pose proof (holds_nodup _ _ _ _ Hl) as Hnd. simpl in Hlen'. injection Hlen' as Hlen'.
  assert (Hnext : forall removed l1 i es1, holds s0 (done ++ i :: todo') es1 l1 ->
    order (mem (st l1)) = order (mem (st l)) ->
    let '(kept, evs) := prune (settings s0) now todo' in
    exists l', expireLoop next now removed l1 = (Ok (removed + len evs), l') /\
      holds s0 (done ++ i :: kept) (es1 ++ evs) l').
  { intros r l1 i es1 Hl1 Ho1.
    specialize (IH r l1 (done ++ [i]) todo' (pre ++ [p]) es1).
    destruct (prune (settings s0) now todo') as [kept evs].
    rewrite <- !app_assoc in IH. apply IH; [done|by rewrite Ho1|by rewrite !length_app, Hlen|done]. }
  destruct (expired_at t now) eqn:Hexp; cbn [andb].
  - pose proof (maybeExtend_ok s0 _ es l k p v t now Hl Hp) as Hext.
    destruct (extended (settings s0) k v now) as [t'|] eqn:Et.
    + destruct Hext as (l1 & E1 & Hl1 & _ & Ho1). rewrite upd_split in Hl1 by done.
      specialize (Hnext removed l1 _ _ Hl1 Ho1). destruct (prune (settings s0) now todo') as [kept evs].
      step E1. exact Hnext.
    + destruct (drop_notify_ok _ _ _ _ _ _ _ _ DeleteReasonExpired (expireLoop next now (removed + 1)) Hl Hp)
        as (l1 & E1 & Hl1 & Ho1).
      rewrite rem_split in Hl1 by done.
      rewrite Ho, unlink_split in Ho1 by (rewrite <- Ho; apply inv_nodup, Hl).
      specialize (IH (removed + 1) l1 done todo' pre _ Hl1 Ho1 Hlen Hlen').
      destruct (prune (settings s0) now todo') as [kept evs].
      step Hext. cbv iota. rewrite E1. destruct IH as (l' & E' & Hl').
      exists l'. rewrite E', <- app_assoc in *. split; [|done]. do 2 f_equal. golen.
  - specialize (Hnext removed l (k, v, t) es Hl eq_refl).
    destruct (prune (settings s0) now todo') as [kept evs]. exact Hnext.
Qed.

Lemma expireBefore_ok s0 its es l now : holds s0 its es l ->
  let '(kept, evs) := prune (settings s0) now its in
  exists l', expireBeforeLocked now l = (Ok (len evs), l') /\ holds s0 kept (es ++ evs) l'.
Proof.
  intros Hl. unfold expireBeforeLocked. step (gets_ok (fun s => order (mem s)) l).
  apply (expireLoop_ok s0 now _ 0 l [] its []); [done|done|done|].
  rewrite <- (h_items _ _ _ _ Hl). unfold contents.
  assert (Hin : forall q, q ∈ order (mem (st l)) -> q ∈ order (mem (st l))) by done. revert Hin.
  generalize (order (mem (st l))) at 1 3 4. induction l0 as [|q o IH]; intros Hin; [done|].
  destruct (order_live _ _ _ l q Hl) as (k & v & t & Hq); [set_solver|].
  simpl. rewrite (item_of_live _ _ _ _ _ Hq). simpl. f_equal. apply IH. set_solver.
Qed.

Lemma evict_nil c its : surplus c its = O -> evict c its = (its, []).
Proof. intros Hs. unfold evict. by rewrite Hs. Qed.

Lemma evictLoop_ok s0 its : forall fuel es l, holds s0 its es l -> (length its < fuel)%nat ->
  0 < maxSize (settings s0) ->
  let '(kept, evs) := evict (settings s0) its in
  exists l', evictLoop fuel (maxSize (settings s0)) l = (Ok tt, l') /\ holds s0 kept (es ++ evs) l'.
Proof.
  induction its as [|[[k v] t] its IH]; intros [|fuel] es l Hl Hf Hmax; simpl in Hf; try lia.
  - rewrite evict_nil by (unfold surplus; simpl; by case_match). simpl evictLoop. step (gets_ok mem l).
    rewrite contents_size, (h_items _ _ _ _ Hl) by apply Hl. simpl.
    rewrite (proj2 (Z.leb_le _ _)) by lia. exists l. by rewrite app_nil_r.
  - simpl evictLoop. step (gets_ok mem l). rewrite contents_size, (h_items _ _ _ _ Hl) by apply Hl.
    unfold evict. destruct (Z.leb_spec (Z.of_nat (length ((k, v, t) :: its))) (maxSize (settings s0))) as [Hle|Hgt].
    { assert (Hs : surplus (settings s0) ((k, v, t) :: its) = O).
      { unfold surplus. destruct (Z.leb_spec (maxSize (settings s0)) 0); lia. }
      rewrite Hs. simpl. exists l. by rewrite app_nil_r. }
    assert (Hs : surplus (settings s0) ((k, v, t) :: its) = S (surplus (settings s0) its)).
    { unfold surplus. destruct (Z.leb_spec (maxSize (settings s0)) 0); simpl in *; lia. }
    rewrite Hs. simpl. destruct (order (mem (st l))) as [|p o] eqn:Ho.
    { pose proof (h_items _ _ _ _ Hl) as Hc. unfold contents in Hc. by rewrite Ho in Hc. }
    destruct (order_split s0 [] ((k, v, t) :: its) es l [] p o Hl Ho eq_refl) as (? & ? & ? & ? & [= <- <- <- <-] & Hp).
    step (deref_ok _ _ _ _ _ Hp).
    destruct (drop_notify_ok _ _ _ _ _ _ _ _ DeleteReasonEvicted (evictLoop fuel (maxSize (settings s0))) Hl Hp)
      as (l1 & E1 & Hl1 & _).
    pose proof (rem_split k v t [] its (holds_nodup _ _ _ _ Hl)) as Hrem. simpl app in Hrem. rewrite Hrem in Hl1.
    destruct (IH fuel _ _ Hl1 ltac:(lia) Hmax) as (l' & E' & Hl').
    exists l'. rewrite E1, E'. split; [done|]. by rewrite <- app_assoc in Hl'.
Qed.

Lemma enforceMaxSize_ok s0 its es l : holds s0 its es l ->
  let '(kept, evs) := evict (settings s0) its in
  exists l', enforceMaxSizeLocked l = (Ok tt, l') /\ holds s0 kept (es ++ evs) l'.
Proof.
  intros Hl. unfold enforceMaxSizeLocked. step (gets_ok (fun s => s) l).
  rewrite (h_settings _ _ _ _ Hl), contents_size, (h_items _ _ _ _ Hl) by apply Hl.
  destruct (Z.leb_spec (maxSize (settings s0)) 0) as [Hle|Hgt].
  - rewrite evict_nil by (unfold surplus; by rewrite (proj2 (Z.leb_le _ _))).
    exists l. by rewrite app_nil_r.
  - apply evictLoop_ok; [done|lia|done].
Qed.

Lemma insertNew_ok s0 its es l now eopts k v : holds s0 its es l -> find k its = None ->
  let '(kept, evs) := insert (settings s0) now eopts k v its in
  exists l', insertNew now eopts k v l = (Ok tt, l') /\ holds s0 kept (es ++ evs) l'.
Proof.
  intros Hl Hk. unfold insertNew, insert.
  destruct (insertLocked_ok _ _ _ _ k v Hl Hk) as (p & l1 & E1 & Hl1 & Hp1). step E1.
  destruct (runOnSetMutate_ok _ _ _ _ _ _ _ _ false Hl1 Hp1) as (l2 & E2 & Hl2 & Hp2). step E2.
  step (gets_ok settings l2). rewrite (h_settings _ _ _ _ Hl2).
  destruct (set_expiresAt_ok _ _ _ _ _ _ _ _ (expiresAtFor (settings s0) now eopts false) Hl2 Hp2)
    as (l3 & E3 & Hl3 & _). step E3.
  rewrite upd_upd, upd_split in Hl3 by apply (holds_nodup _ _ _ _ Hl1).
  pose proof (enforceMaxSize_ok _ _ _ _ Hl3) as He. destruct (evict _ _) as [kept evs].
  destruct He as (l4 & E4 & Hl4). step E4.
  destruct (notify_ok _ _ _ _ Hl4) as (l5 & E5 & Hl5 & _). step E5.
  rewrite app_assoc. by apply recordSet_ok.
Qed.

Lemma flushLoop_ok s0 : forall it its es l, holds s0 its es l -> NoDup it ->
  exists l', flushLoop it l = (Ok tt, l') /\
    holds s0 (foldl (fun its k => rem k its) its it) (es ++ (spec_flush it its).1.2) l'.
Proof.
  induction it as [|k it IH]; intros its es l Hl Hnd.
  { exists l. simpl. by rewrite app_nil_r. }
  apply NoDup_cons in Hnd as [Hk Hnd]. simpl flushLoop. step (gets_ok mem l).
  pose proof (holds_lookup _ _ _ _ k Hl) as Hf. simpl.
  assert (Hrest : (spec_flush it (rem k its)).1.2 = (spec_flush it its).1.2).
  { simpl. clear -Hk. induction it as [|j it IH]; [done|]. simpl. rewrite find_rem_ne by set_solver.
    destruct (find j its) as [[? ?]|]; simpl; [f_equal|]; apply IH; set_solver. }
  destruct (find k its) as [[v t]|] eqn:Hfk.
  - destruct Hf as [p Hp]. rewrite (proj1 Hp). step (deref_ok _ _ _ _ _ Hp).
    destruct (drop_ok _ _ _ _ _ _ _ _ DeleteReasonFlushed (flushLoop it) Hl Hp) as (l1 & E1 & Hl1 & _).
    destruct (IH _ _ _ Hl1 Hnd) as (l' & E' & Hl'). exists l'. rewrite E1, E'. split; [done|].
    rewrite Hrest, <- app_assoc in Hl'. exact Hl'.
  - rewrite Hf. destruct (IH its es l Hl Hnd) as (l' & E' & Hl'). exists l'. split; [exact E'|].
    assert (Hr : rem k its = its).
    { apply filter_all. intros [[j w] u] Hj%elem_keys. simpl. rewrite bool_decide_false; [done|].
      intros ->. by apply find_None in Hfk. }
    rewrite Hr. exact Hl'.
Qed.

Lemma foldl_rem_nil it : forall its, keys its ⊆ it -> foldl (fun its k => rem k its) its it = [].
Proof.
  induction it as [|k it IH]; intros its Hsub; simpl.
  - destruct its as [|[[k v] t] its]; [done|]. exfalso. specialize (Hsub k). set_solver.
  - apply IH. intros j (i & -> & Hi)%list_elem_of_fmap. unfold rem in Hi.
    apply list_elem_of_In, filter_In in Hi as [Hi Hne%negb_true_iff%bool_decide_eq_false].
    assert (Hin : i.1.1 ∈ k :: it) by (apply Hsub, list_elem_of_fmap; exists i; split; [done|by apply list_elem_of_In]).
    set_solver.
Qed.

Lemma collect_ok s0 its es l : holds s0 its es l ->
  collect (order (mem (st l))) l = (Ok (map (fun i : K * V * Z => (i.1.1, copyValue zero i.1.2)) its), l).
Proof.
  intros Hl. rewrite <- (h_items _ _ _ _ Hl). unfold contents.
  assert (Hin : forall q, q ∈ order (mem (st l)) -> q ∈ order (mem (st l))) by done. revert Hin.
  generalize (order (mem (st l))) at 1 3 4. intros o. induction o as [|q o IH]; intros Hin; [done|].
  destruct (order_live _ _ _ l q Hl) as (k & v & t & Hq); [set_solver|]. simpl.
  step (deref_ok _ _ _ _ _ Hq). rewrite (item_of_live _ _ _ _ _ Hq). simpl in IH |- *.
  assert (E := IH ltac:(set_solver)). step E. done.
Qed.

(** ** Operations *)

(** From [s], an operation reached [s'] with entries [its] after the events [es]. *)
Record refined (s : Store K V) its es (s' : Store K V) : Prop := {
  r_inv : Inv (mem s');
  r_items : contents (mem s') = its;
  r_settings : settings s' = settings s;
  r_calls : calls s' = calls s ++ seen (settings s) es;
  r_sweep : stopSweeper s' = stopSweeper s /\ sweepers s' = sweepers s /\ started s' = started s
}.

Lemma seen_seen c es : seen c (seen c es) = seen c es.
Proof.
  apply filter_all. intros e He. apply list_elem_of_In, filter_In in He. apply He.
Qed.

Lemma holds_start s : Inv (mem s) -> holds s (contents (mem s)) [] {| st := s; events := [] |}.
Proof. by constructor. Qed.

Lemma with_lock_ok {A} (body : ST (locked K V) A) s a its es l' :
  body {| st := s; events := [] |} = (Ok a, l') -> holds s its es l' ->
  exists s', with_lock true body s = (Ok a, s') /\ refined s its es s'.
Proof.
  intros E [? ? Hev Hset Hcalls ?]. unfold with_lock. rewrite E. eexists. split; [reflexivity|].
  constructor; try done. simpl. rewrite Hcalls, Hset, Hev. f_equal. apply seen_seen.
Qed.

Lemma with_lock_quiet_ok {A} (body : ST (locked K V) A) s a its es l' :
  body {| st := s; events := [] |} = (Ok a, l') -> holds s its es l' ->
  exists s', with_lock false body s = (Ok a, s') /\ refined s its [] s'.
Proof.
  intros E [? ? Hev Hset Hcalls ?]. unfold with_lock. rewrite E. eexists. split; [reflexivity|].
  constructor; try done. simpl. by rewrite app_nil_r.
Qed.

(** What an operation promises, as [op_refines] states it for all of them. *)
Definition does {A} (m : ST (Store K V) A) s (x : list (K * V * Z) * list (hookEvent K V) * A) : Prop :=
  exists s', m s = (Ok x.2, s') /\ refined s x.1.1 x.1.2 s'.

Lemma does_lock {A} (body : ST (locked K V) A) s x :
  (exists l', body {| st := s; events := [] |} = (Ok x.2, l') /\ holds s x.1.1 x.1.2 l') ->
  does (with_lock true body) s x.
Proof. intros (l' & E & Hl'). by eapply with_lock_ok. Qed.

Lemma does_map {A B} (m : ST (Store K V) A) (f : A -> B) s its es a :
  does m s (its, es, a) -> does (let* x := m in ret (f x)) s (its, es, f a).
Proof. intros (s' & E & Hs'). exists s'. split; [by step E|done]. Qed.

Lemma Add_ok s now k delta opts : Inv (mem s) ->
  does (Add now k delta opts) s (spec_add (settings s) now k delta (applyEntryOptions opts) (contents (mem s))).
Proof.
  intros Hs. apply does_lock. pose proof (liveEntry_ok s _ _ k now (holds_start s Hs)) as Hk.
  unfold spec_add. destruct (prune1 _ now k _) as [its1 es1].
  destruct Hk as (o & l1 & E1 & Hl1 & Hf). step E1.
  destruct (find k its1) as [[v t]|] eqn:Hfk.
  - destruct Hf as (p & -> & Hp).
    destruct (refreshOnWrite_ok _ _ _ _ _ _ _ _ now (applyEntryOptions opts) Hl1 Hp) as (l2 & E2 & Hl2 & Hp2).
    step E2. step (deref_ok _ _ _ _ _ Hp2). cbn [value].
    destruct (addValue v delta true) as [v1 err].
    destruct (set_value_ok _ _ _ _ _ _ _ _ v1 Hl2 Hp2) as (l3 & E3 & Hl3 & Hp3). step E3.
    rewrite upd_upd in Hl3. destruct err as [e|]; [by exists l3|].
    destruct (finishUpdate_ok _ _ _ _ _ _ _ _ Hl3 Hp3) as (l4 & E4 & Hl4). step E4.
    rewrite upd_upd in Hl4. by exists l4.
  - subst o. destruct (addValue zero delta false) as [v1 [e|]]; [by exists l1|].
    pose proof (insertNew_ok s its1 es1 l1 now (applyEntryOptions opts) k v1 Hl1 Hfk) as Hi.
    destruct (insert _ _ _ _ _ _) as [its2 es2]. destruct Hi as (l2 & E2 & Hl2). step E2. by exists l2.
Qed.

Lemma Set_ok s now k val opts : Inv (mem s) ->
  does (Set_ now k val opts) s (spec_set (settings s) now k val (applyEntryOptions opts) (contents (mem s))).
Proof.
  intros Hs. apply does_lock. pose proof (liveEntry_ok s _ _ k now (holds_start s Hs)) as Hk.
  unfold spec_set. destruct (prune1 _ now k _) as [its1 es1].
  destruct Hk as (o & l1 & E1 & Hl1 & Hf). step E1.
  destruct (find k its1) as [[v t]|] eqn:Hfk.
  - destruct Hf as (p & -> & Hp).
    destruct (refreshOnWrite_ok _ _ _ _ _ _ _ _ now (applyEntryOptions opts) Hl1 Hp) as (l2 & E2 & Hl2 & Hp2).
    step E2. step (deref_ok _ _ _ _ _ Hp2). cbn [value].
    destruct (setValue v val true) as [v1 [used err]] eqn:Hv.
    destruct (set_value_ok _ _ _ _ _ _ _ _ v1 Hl2 Hp2) as (l3 & E3 & Hl3 & Hp3). step E3.
    rewrite upd_upd in Hl3. destruct err as [e|]; [by exists l3|].
    assert (Hu : exists l', (if negb used then set_value p val else ret tt) l3 = (Ok tt, l') /\
      holds s (upd k v1 (refreshed (settings s) now (applyEntryOptions opts) t) its1) es1 l' /\
      live l' k p v1 (refreshed (settings s) now (applyEntryOptions opts) t)).
    { destruct used; [by exists l3|]. cbn [negb].
      assert (v1 = val) as -> by (unfold setValue in Hv; repeat case_match; congruence).
      destruct (set_value_ok _ _ _ _ _ _ _ _ val Hl3 Hp3) as (l4 & E4 & Hl4 & Hp4).
      rewrite upd_upd in Hl4. by exists l4. }
    destruct Hu as (l4 & E4 & Hl4 & Hp4). step E4.
    destruct (finishUpdate_ok _ _ _ _ _ _ _ _ Hl4 Hp4) as (l5 & E5 & Hl5). step E5.
    rewrite upd_upd in Hl5. by exists l5.
  - subst o. destruct (setValue zero val false) as [v1 [used err]] eqn:Hv.
    destruct err as [e|]; [by exists l1|].
    assert ((if negb used then val else v1) = v1) as ->
      by (unfold setValue in Hv; repeat case_match; simplify_eq; done).
    pose proof (insertNew_ok s its1 es1 l1 now (applyEntryOptions opts) k v1 Hl1 Hfk) as Hi.
    destruct (insert _ _ _ _ _ _) as [its2 es2]. destruct Hi as (l2 & E2 & Hl2). step E2. by exists l2.
Qed.

(** The body of [get], with the events it would fire. *)
Lemma get_body_ok s now k dest withHooks : Inv (mem s) ->
  exists s', get now k dest withHooks s =
      (Ok (spec_get (settings s) now k dest withHooks (contents (mem s))).2, s') /\
    refined s (spec_get (settings s) now k dest withHooks (contents (mem s))).1.1
              (spec_get (settings s) now k dest withHooks (contents (mem s))).1.2 s'.
Proof.
  intros Hs. pose proof (holds_start s Hs) as Hl.
  assert (Hfin : forall (body : ST (locked K V) (bool * option V)) a its es l',
    body {| st := s; events := [] |} = (Ok a, l') -> holds s its es l' ->
    exists s', with_lock withHooks body s = (Ok a, s') /\ refined s its (if withHooks then es else []) s').
  { intros. destruct withHooks; [by eapply with_lock_ok|by eapply with_lock_quiet_ok]. }
  assert (Hnil : (if withHooks then [] else []) = @nil (hookEvent K V)) by by destruct withHooks.
  pose proof (holds_lookup _ _ _ _ k Hl) as Hk. unfold spec_get, get.
  destruct (find k (contents (mem s))) as [[v t]|] eqn:Hf.
  2:{ rewrite <- Hnil. eapply Hfin; [|exact Hl]. step (gets_ok mem {| st := s; events := [] |}). by rewrite Hk. }
  destruct Hk as [p Hp]. destruct (expired_at t now) eqn:Hexp.
  - pose proof (maybeExtend_ok s _ [] _ k p v t now Hl Hp) as Hext.
    destruct (extended (settings s) k v now) as [t'|].
    + destruct Hext as (l1 & E1 & Hl1 & _). simpl fst. simpl snd. rewrite <- Hnil. eapply Hfin; [|exact Hl1].
      step (gets_ok mem {| st := s; events := [] |}). rewrite (proj1 Hp). step (deref_ok _ _ _ _ _ Hp).
      unfold expiredLocked. cbn [expiresAt]. rewrite Hexp. by step E1.
    + destruct (drop_notify_ok _ _ _ _ _ _ _ _ DeleteReasonExpired (ret (false, dest)) Hl Hp) as (l1 & E1 & Hl1 & _).
      eapply Hfin; [|exact Hl1].
      step (gets_ok mem {| st := s; events := [] |}). rewrite (proj1 Hp). step (deref_ok _ _ _ _ _ Hp).
      unfold expiredLocked. cbn [expiresAt]. rewrite Hexp. step Hext. cbv iota. by rewrite E1.
  - assert (Hstart : forall body r, (let* c := gets settings in body c) {| st := s; events := [] |} = r ->
      (let* e := deref p in if expiredLocked e now then
         (let* ext := maybeExtendLocked p now in if ext then ret (copyValueLocked dest e)
          else recordDelete e DeleteReasonExpired ;;; deleteLocked p ;;; notifyChangeLocked ;;; ret (false, dest))
       else (let* c := gets settings in body c)) {| st := s; events := [] |} = r).
    { intros body r Hr. step (deref_ok _ _ _ _ _ Hp). unfold expiredLocked. cbn [expiresAt]. by rewrite Hexp. }
    destruct withHooks.
    + assert (Hr : exists l', (if refreshTTLOnRead (settings s) && (0 <? defaultTTL (settings s))
          then set_expiresAt p (now + defaultTTL (settings s)) else ret tt) {| st := s; events := [] |} = (Ok tt, l') /\
        holds s (if refreshTTLOnRead (settings s) && (0 <? defaultTTL (settings s))
                 then upd k v (now + defaultTTL (settings s)) (contents (mem s)) else contents (mem s)) [] l').
      { destruct (refreshTTLOnRead _ && _); [|by eexists].
        destruct (set_expiresAt_ok _ _ _ _ _ _ _ _ (now + defaultTTL (settings s)) Hl Hp) as (l1 & E1 & Hl1 & _).
        by exists l1. }
      destruct Hr as (l1 & E1 & Hl1). destruct (recordGet_ok _ _ _ _ k v t true Hl1) as (l2 & E2 & Hl2).
      apply (with_lock_ok _ s _ _ _ l2); [|exact Hl2].
      step (gets_ok mem {| st := s; events := [] |}). rewrite (proj1 Hp). step (deref_ok _ _ _ _ _ Hp).
      unfold expiredLocked. cbn [expiresAt]. rewrite Hexp. step (gets_ok settings {| st := s; events := [] |}).
      cbn [andb]. step E1. step E2. done.
    + apply (with_lock_quiet_ok _ s _ _ [] {| st := s; events := [] |}); [|exact Hl].
      step (gets_ok mem {| st := s; events := [] |}). rewrite (proj1 Hp). step (deref_ok _ _ _ _ _ Hp).
      unfold expiredLocked. cbn [expiresAt]. rewrite Hexp. done.
Qed.

Lemma Delete_ok s k : Inv (mem s) -> does (Delete k) s (spec_delete k (contents (mem s))).
Proof.
  intros Hs. pose proof (holds_start s Hs) as Hl. apply does_lock.
  step (gets_ok mem {| st := s; events := [] |}). pose proof (holds_lookup _ _ _ _ k Hl) as Hk.
  unfold spec_delete. destruct (find k (contents (mem s))) as [[v t]|]; [|rewrite Hk; by eexists].
  destruct Hk as [p Hp]. rewrite (proj1 Hp). step (deref_ok _ _ _ _ _ Hp).
  destruct (drop_notify_ok _ _ _ _ _ _ _ _ DeleteReasonExplicit (ret true) Hl Hp) as (l1 & E1 & Hl1 & _).
  rewrite E1. by exists l1.
Qed.

Lemma Len_ok s : Inv (mem s) -> does Len s (contents (mem s), [], len (contents (mem s))).
Proof.
  intros Hs. exists s. split; [unfold Len; by rewrite contents_size|].
  constructor; try done. simpl. by rewrite app_nil_r.
Qed.

Lemma Range_ok s now fn : Inv (mem s) -> does (Range now fn) s (spec_range (settings s) now fn (contents (mem s))).
Proof.
  intros Hs. unfold Range, spec_range.
  pose proof (expireBefore_ok s _ _ _ now (holds_start s Hs)) as He.
  destruct (prune _ now _) as [its es]. destruct He as (l1 & E1 & Hl1).
  apply does_map, does_lock. step E1. step (gets_ok (fun s => order (mem s)) l1).
  exists l1. split; [|exact Hl1]. by rewrite (collect_ok _ _ _ _ Hl1).
Qed.

Lemma ExpireStale_ok s now : Inv (mem s) -> does (ExpireStale now) s (spec_expire (settings s) now (contents (mem s))).
Proof.
  intros Hs. unfold ExpireStale, spec_expire.
  pose proof (expireBefore_ok s _ _ _ now (holds_start s Hs)) as He.
  destruct (prune _ now _) as [its es]. apply does_lock. exact He.
Qed.

Lemma Flush_ok s it : Inv (mem s) -> it ≡ₚ keys (contents (mem s)) ->
  does (Flush it) s (spec_flush it (contents (mem s))).
Proof.
  intros Hs Hit. apply does_lock.
  destruct (flushLoop_ok s it _ [] _ (holds_start s Hs)) as (l1 & E1 & Hl1).
  { rewrite Hit. by apply inv_keys_nodup. }
  rewrite foldl_rem_nil in Hl1 by (rewrite Hit; done). step E1.
  destruct (notify_ok _ _ _ _ Hl1) as (l2 & E2 & Hl2 & _). rewrite E2. by exists l2.
Qed.

(** Every operation implements its abstract counterpart. *)
Lemma op_refines s o : Inv (mem s) -> admissible o (contents (mem s)) ->
  does (exec o) s (spec (settings s) o (contents (mem s))).
Proof.
  intros Hs Ho. destruct o; cbn [exec spec admissible] in *.
  - pose proof (Add_ok s now k delta opts Hs) as Hd. destruct (spec_add _ _ _ _ _ _) as [[? ?] ?]. by apply does_map.
  - pose proof (Set_ok s now k val opts Hs) as Hd. destruct (spec_set _ _ _ _ _ _) as [[? ?] ?].
    by apply (does_map _ (fun r => R_set r.1 r.2)).
  - pose proof (get_body_ok s now k dest true Hs) as Hd. destruct (spec_get _ _ _ _ _ _) as [[? ?] ?].
    by apply (does_map _ (fun r => R_get r.1 r.2)).
  - pose proof (get_body_ok s now k dest false Hs) as Hd. destruct (spec_get _ _ _ _ _ _) as [[? ?] ?].
    by apply (does_map _ (fun r => R_get r.1 r.2)).
  - pose proof (Delete_ok s k Hs) as Hd. destruct (spec_delete _ _) as [[? ?] ?]. by apply does_map.
  - apply (does_map _ R_int), Len_ok, Hs.
  - pose proof (Range_ok s now fn Hs) as Hd. destruct (spec_range _ _ _ _) as [[? ?] ?]. by apply does_map.
  - pose proof (ExpireStale_ok s now Hs) as Hd. destruct (spec_expire _ _ _) as [[? ?] ?]. by apply does_map.
  - pose proof (Flush_ok s it Hs Ho) as Hd. by apply (does_map _ (fun _ : unit => R_unit) s _ _ tt).
Qed.
End refine.
