(* ===== verification/FlowStoreProps.v ===== *)
(** * Properties of the flow store

    Histories of operations on a new store: refinement, the size bound, what the hooks
    report, TTLs, the life of the sweeper, and the counters that [Add] accumulates. *)
From S2P Require Import Prelude FlowStore FlowStoreSpec FlowStoreRefine.

Section histories.
Context {K V : Type} `{Countable K} `{Value V}.
Implicit Types (k : K) (v : V) (now t : Z) (its : list (K * V * Z)) (c : Settings K V).
Implicit Types (es : list (hookEvent K V)) (s : Store K V) (o : op (K := K) (V := V)).

(** ** Definitions *)

(** The options of the package. *)
Inductive standard : StoreOption (K := K) (V := V) -> Prop :=
  | standard_ttl d : standard (WithDefaultTTL d)
  | standard_write : standard WithRefreshTTLOnWrite
  | standard_read : standard WithRefreshTTLOnRead
  | standard_notify ch : standard (WithChangeNotifier ch)
  | standard_hooks h : standard (WithHooks h)
  | standard_max n : standard (WithMaxSize n)
  | standard_expire h : standard (WithExpireHook h).

Fixpoint exec_all (ops : list op) : ST (Store K V) (list result) :=
  match ops with
  | [] => ret []
  | o :: ops' => let* r := exec o in let* rs := exec_all ops' in ret (r :: rs)
  end.
Fixpoint spec_all c (ops : list op) its : list (K * V * Z) * list (hookEvent K V) * list result :=
  match ops with
  | [] => (its, [], [])
  | o :: ops' =>
      let '(its1, es1, r) := spec c o its in
      let '(its2, es2, rs) := spec_all c ops' its1 in
      (its2, es1 ++ es2, r :: rs)
  end.
Fixpoint admissible_all c (ops : list op) its : Prop :=
  match ops with
  | [] => True
  | o :: ops' => admissible o its /\ admissible_all c ops' (spec c o its).1.1
  end.

(** A listener that rebuilds the entries from the [OnSet] and [OnDelete] calls. *)
Definition listen (m : list (K * V)) (e : hookEvent K V) : list (K * V) :=
  match e with
  | hookEventSet k v true => map (fun i : K * V => if decide (i.1 = k) then (k, v) else i) m
  | hookEventSet k v false => m ++ [(k, v)]
  | hookEventDelete k _ _ => List.filter (fun i : K * V => negb (bool_decide (i.1 = k))) m
  | hookEventGet _ _ => m
  end.
Definition replay (es : list (hookEvent K V)) : list (K * V) := foldl listen [] es.

(** Errors of the value's own [Add] and [Set] leave it as it was. *)
Definition atomic_values : Prop :=
  (forall v d b v' e, addValue v d b = (v', Some e) -> v' = v) /\
  (forall v d b v' u e, setValue v d b = (v', (u, Some e)) -> v' = v).

(** The values the hooks report are the stored ones. *)
Definition exact_hooks c : Prop := OnSetMutate (hooks c) = None /\ atomic_values.

Definition is_quiet (o : op (K := K) (V := V)) : bool :=
  match o with OpGetQuiet _ _ _ => true | _ => false end.

(** The life of a store: its sweeper and its operations. *)
Inductive life : Type :=
  | LStart (interval : Z)
  | LStop
  | LClose (it : list K)
  | LOp o.
Definition run_life (a : life) : ST (Store K V) unit :=
  match a with
  | LStart i => Start i
  | LStop => Stop
  | LClose it => Close it
  | LOp o => exec o ;;; ret tt
  end.
Definition life_admissible (a : life) its : Prop :=
  match a with
  | LClose it => it ≡ₚ keys its
  | LOp o => admissible o its
  | _ => True
  end.

Inductive reachable : Store K V -> Prop :=
  | reachable_new opts : Forall standard opts -> reachable (NewStore opts)
  | reachable_step s a r s' :
      reachable s -> life_admissible a (contents (mem s)) -> run_life a s = (r, s') -> reachable s'.

(** ** Histories *)

Lemma standard_opts opts s : Forall standard opts ->
  mem s = {| entries := ∅; order := []; heap := ∅ |} -> calls s = [] -> sweepers s = [] -> stopSweeper s = None ->
  let s' := fold_left (fun s opt => opt s) opts s in
  mem s' = {| entries := ∅; order := []; heap := ∅ |} /\ calls s' = [] /\ sweepers s' = [] /\ stopSweeper s' = None.
Proof.
  intros Ho. revert s. induction Ho as [|f opts Hf Ho IH]; intros s Hm Hc Hs Hst; simpl; [done|].
  apply IH; destruct Hf; done.
Qed.

Lemma new_store opts : Forall standard opts ->
  let s := NewStore opts in
  Inv (mem s) /\ contents (mem s) = [] /\ calls s = [] /\ sweepers s = [] /\ stopSweeper s = None.
Proof.
  intros Ho s. destruct (standard_opts opts {| settings := {| onExpire := None; defaultTTL := 0;
    refreshTTL := false; refreshTTLOnRead := false; maxSize := 0; hooks := no_hooks |};
    mem := {| entries := ∅; order := []; heap := ∅ |}; changeNotify := None; stopSweeper := None;
    sweepers := []; started := 0; calls := [] |} Ho) as (Hm & Hc & Hs & Hst); try done.
  fold (NewStore opts) in Hm, Hc, Hs, Hst. splits; try done; unfold s; rewrite Hm; [|done].
  constructor; simpl; [constructor|set_solver|]. intros k p Hk. by rewrite lookup_empty in Hk.
Qed.

Lemma exec_all_ok ops : forall s, Inv (mem s) -> admissible_all (settings s) ops (contents (mem s)) ->
  does (exec_all ops) s (spec_all (settings s) ops (contents (mem s))).
Proof.
  induction ops as [|o ops IH]; intros s Hs Ha; simpl in *.
  { exists s. split; [done|]. constructor; try done. simpl. by rewrite app_nil_r. }
  destruct Ha as [Ho Ha]. destruct (op_refines s o Hs Ho) as (s1 & E1 & R1).
  destruct (spec (settings s) o (contents (mem s))) as [[its1 es1] r]. simpl in *.
  destruct R1 as [HI1 Hc1 Hset1 Hcalls1 Hsw1]. specialize (IH s1 HI1).
  rewrite Hset1, Hc1 in IH. destruct (IH Ha) as (s2 & E2 & R2).
  destruct (spec_all (settings s) ops its1) as [[its2 es2] rs]. simpl in *.
  exists s2. split; [step E1; step E2; done|]. destruct R2 as [? ? Hset2 Hcalls2 Hsw2].
  constructor; try done; simpl.
  - congruence.
  - rewrite Hcalls2, Hcalls1, Hset1, seen_app, app_assoc. done.
  - destruct Hsw1 as (? & ? & ?), Hsw2 as (? & ? & ?). splits; congruence.
Qed.

(** A property of the entries that every operation keeps holds after any history. *)
Lemma spec_all_invariant c (P : list (K * V * Z) -> Prop) ops its :
  (forall o l, P l -> admissible o l -> P (spec c o l).1.1) ->
  P its -> admissible_all c ops its -> P (spec_all c ops its).1.1.
Proof.
  intros HP. revert its. induction ops as [|o ops IH]; intros its Hi Ha; simpl in *; [done|].
  destruct Ha as [Ho Ha]. specialize (HP o its Hi Ho).
  destruct (spec c o its) as [[its1 es1] r]. simpl in *. specialize (IH its1 HP Ha).
  by destruct (spec_all c ops its1) as [[its2 es2] rs].
Qed.

(** ** The size bound *)

Lemma length_prune c now its : (length (prune c now its).1 <= length its)%nat.
Proof. unfold prune. simpl. rewrite length_map. apply sublist_length, filter_sublist. Qed.

Lemma length_prune1 c now k its : (length (prune1 c now k its).1 <= length its)%nat.
Proof.
  unfold prune1. repeat case_match; simpl; rewrite ?length_upd; try lia.
  apply sublist_length, rem_sublist.
Qed.

Lemma length_rem k its : (length (rem k its) <= length its)%nat.
Proof. apply sublist_length, rem_sublist. Qed.

Lemma length_get c now k dest b its : (length (spec_get c now k dest b its).1.1 <= length its)%nat.
Proof.
  unfold spec_get. pose proof (length_rem k its). destruct (find k its) as [[v t]|]; simpl; [|done].
  destruct (expired_at t now), (extended c k v now), b, (refreshTTLOnRead c && (0 <? defaultTTL c)); simpl;
    rewrite ?length_upd; lia.
Qed.

Lemma length_insert c now eopts k v its : 0 < maxSize c ->
  Z.of_nat (length (insert c now eopts k v its).1) <= maxSize c.
Proof.
  intros Hmax. unfold insert, evict. simpl. rewrite length_drop. unfold surplus.
  destruct (Z.leb_spec (maxSize c) 0); lia.
Qed.

Lemma spec_bounded c o its : 0 < maxSize c -> Z.of_nat (length its) <= maxSize c ->
  Z.of_nat (length (spec c o its).1.1) <= maxSize c.
Proof.
  intros Hmax Hlen. destruct o; cbn [spec].
  - unfold spec_add. pose proof (length_prune1 c now k its) as Hp.
    destruct (prune1 c now k its) as [l1 es1]. simpl in Hp.
    destruct (find k l1) as [[v t]|].
    + destruct (addValue v delta true) as [v1 [e|]]; simpl; rewrite length_upd; lia.
    + destruct (addValue zero delta false) as [v1 [e|]]; [simpl; lia|].
      pose proof (length_insert c now (applyEntryOptions opts) k v1 l1 Hmax) as Hi.
      by destruct (insert _ _ _ _ _ _) as [l2 es2].
  - unfold spec_set. pose proof (length_prune1 c now k its) as Hp.
    destruct (prune1 c now k its) as [l1 es1]. simpl in Hp.
    destruct (find k l1) as [[v t]|].
    + destruct (setValue v val true) as [v1 [u [e|]]]; simpl; rewrite length_upd; lia.
    + destruct (setValue zero val false) as [v1 [u [e|]]]; [simpl; lia|].
      pose proof (length_insert c now (applyEntryOptions opts) k v1 l1 Hmax) as Hi.
      by destruct (insert _ _ _ _ _ _) as [l2 es2].
  - pose proof (length_get c now k dest true its) as Hg. destruct (spec_get _ _ _ _ _ _) as [[? ?] ?]. simpl in *. lia.
  - pose proof (length_get c now k dest false its) as Hg. destruct (spec_get _ _ _ _ _ _) as [[? ?] ?]. simpl in *. lia.
  - unfold spec_delete. pose proof (length_rem k its). destruct (find k its) as [[v t]|]; simpl; lia.
  - done.
  - unfold spec_range. pose proof (length_prune c now its). destruct (prune c now its). simpl in *. lia.
  - unfold spec_expire. pose proof (length_prune c now its). destruct (prune c now its). simpl in *. lia.
  - simpl. lia.
Qed.

(** ** What a listener sees *)

Definition pairs its : list (K * V) := map (fun i : K * V * Z => i.1) its.

(** [agree exact its m]: the listener's [m] has the keys of [its] in their order, and
    their values too when [exact]. *)
Definition agree (exact : Prop) its (m : list (K * V)) : Prop :=
  map fst m = keys its /\ (exact -> m = pairs its).

Lemma pairs_upd k v t its :
  pairs (upd k v t its) = map (fun i : K * V => if decide (i.1 = k) then (k, v) else i) (pairs its).
Proof.
  unfold pairs, upd. rewrite !map_map. apply map_ext. intros [[j w] u]; simpl. by case_decide.
Qed.

Lemma keys_rem k its :
  keys (rem k its) = List.filter (fun j => negb (bool_decide (j = k))) (keys its).
Proof.
  unfold rem, keys. induction its as [|[[j w] u] its IH]; simpl; [done|].
  destruct (bool_decide_reflect (j = k)); simpl; [done|]. by rewrite IH.
Qed.

Lemma pairs_rem k its :
  pairs (rem k its) = List.filter (fun i : K * V => negb (bool_decide (i.1 = k))) (pairs its).
Proof.
  unfold rem, pairs. induction its as [|[[j w] u] its IH]; simpl; [done|].
  destruct (bool_decide_reflect (j = k)); simpl; [done|]. by rewrite IH.
Qed.

Lemma agree_rem E k v r its m :
  agree E its m -> agree E (rem k its) (listen m (hookEventDelete k v r)).
Proof.
  intros [Hk Hv]. split.
  - simpl. rewrite keys_rem, <- Hk. clear. induction m as [|[j w] m IH]; simpl; [done|].
    destruct (bool_decide_reflect (j = k)); simpl; [done|]. by rewrite IH.
  - intros HE. simpl. by rewrite (Hv HE), pairs_rem.
Qed.

Lemma agree_upd_set E k v t its m :
  agree E its m -> agree E (upd k v t its) (listen m (hookEventSet k v true)).
Proof.
  intros [Hk Hv]. split.
  - rewrite keys_upd, <- Hk. simpl. rewrite map_map. apply map_ext. intros [j w]; simpl. by case_decide.
  - intros HE. simpl. by rewrite (Hv HE), pairs_upd.
Qed.

(** An update that changes the expiry only, or whose value is not to be tracked. *)
Lemma agree_upd E k v t its m :
  agree E its m -> (E -> NoDup (keys its) /\ exists t0, find k its = Some (v, t0)) ->
  agree E (upd k v t its) m.
Proof.
  intros [Hk Hv] HE. split; [by rewrite keys_upd|]. intros HE'. destruct (HE HE') as (Hnd & t0 & Hf).
  rewrite (Hv HE'), pairs_upd. symmetry. apply map_id_ext. intros [j w] Hj. simpl.
  case_decide as Hd; [subst|done]. apply list_elem_of_fmap in Hj as ([[j' w'] u] & [= -> ->] & Hj).
  apply elem_find_Some in Hj; [|done]. congruence.
Qed.

Lemma agree_removals E reason dn todo m :
  NoDup (keys (dn ++ todo)) -> agree E (dn ++ todo) m ->
  forall gone : K * V * Z -> bool,
  agree E (dn ++ List.filter (fun i => negb (gone i)) todo)
    (foldl listen m (map (removal reason) (List.filter gone todo))).
Proof.
  revert dn m. induction todo as [|[[k v] t] todo IH]; intros dn m Hnd Hm gone; simpl; [done|].
  destruct (gone (k, v, t)); simpl.
  - apply IH.
    + rewrite <- (rem_split k v t) by done. eapply sublist_NoDup; [exact Hnd|].
      apply keys_sublist, rem_sublist.
    + rewrite <- (rem_split k v t) by done. by apply (agree_rem E k v reason).
  - specialize (IH (dn ++ [(k, v, t)]) m). rewrite <- !app_assoc in IH.
    specialize (IH Hnd Hm gone). rewrite <- app_assoc in IH. exact IH.
Qed.

Lemma keys_renew c now its : keys (map (renew c now) its) = keys its.
Proof.
  unfold keys. rewrite map_map. apply map_ext. intros [[k v] t]. unfold renew. by case_match.
Qed.

Lemma pairs_renew c now its : pairs (map (renew c now) its) = pairs its.
Proof.
  unfold pairs. rewrite map_map. apply map_ext. intros [[k v] t]. unfold renew. by case_match.
Qed.

Lemma agree_prune E c now its m : NoDup (keys its) -> agree E its m ->
  agree E (prune c now its).1 (foldl listen m (prune c now its).2).
Proof.
  intros Hnd Hm. pose proof (agree_removals E DeleteReasonExpired [] its m Hnd Hm (lapsed c now)) as [Hk Hv].
  unfold prune. split; simpl.
  - by rewrite keys_renew.
  - intros HE. rewrite pairs_renew. by apply Hv.
Qed.

Lemma keys_prune1 c now k its : NoDup (keys its) -> NoDup (keys (prune1 c now k its).1).
Proof.
  intros Hnd. unfold prune1. destruct (find k its) as [[v t]|]; [|done].
  destruct (expired_at t now); [|done]. destruct (extended c k v now); simpl; [by rewrite keys_upd|].
  eapply sublist_NoDup; [exact Hnd|]. apply keys_sublist, rem_sublist.
Qed.

Lemma agree_prune1 E c now k its m : NoDup (keys its) -> agree E its m ->
  agree E (prune1 c now k its).1 (foldl listen m (prune1 c now k its).2).
Proof.
  intros Hnd Hm. unfold prune1. destruct (find k its) as [[v t]|] eqn:Hf; [|done].
  destruct (expired_at t now); [|done]. destruct (extended c k v now); simpl.
  - apply agree_upd; eauto.
  - by apply (agree_rem E k v DeleteReasonExpired).
Qed.

Lemma agree_take E its m n : NoDup (keys its) -> agree E its m ->
  agree E (drop n its) (foldl listen m (map (removal DeleteReasonEvicted) (take n its))).
Proof.
  revert m n. induction its as [|[[k v] t] its IH]; intros m [|n] Hnd Hm; try done.
  assert (Hr : rem k ((k, v, t) :: its) = its) by exact (rem_split k v t [] its Hnd).
  pose proof (agree_rem E k v DeleteReasonEvicted _ m Hm) as Hm'. rewrite Hr in Hm'.
  apply NoDup_cons in Hnd as [_ Hnd]. exact (IH _ n Hnd Hm').
Qed.

Lemma agree_insert c now eopts k v its m : NoDup (keys its) -> find k its = None ->
  agree (exact_hooks c) its m ->
  agree (exact_hooks c) (insert c now eopts k v its).1
    (foldl listen m (insert c now eopts k v its).2).
Proof.
  intros Hnd Hf Hm. unfold insert, evict.
  set (x := (k, mutate c k v false, expiresAtFor c now eopts false)).
  set (n := surplus c (its ++ [x])).
  assert (Hn : (n <= length its)%nat).
  { unfold n, surplus. destruct (Z.leb_spec (maxSize c) 0); [lia|]. rewrite length_app. simpl. lia. }
  rewrite drop_app_le, take_app_le by done. simpl. rewrite foldl_app. simpl.
  destruct (agree_take _ its m n Hnd Hm) as [Hk Hv]. split.
  - rewrite map_app, keys_app, Hk. done.
  - intros HE. rewrite (Hv HE). unfold pairs. rewrite map_app. simpl. unfold mutate.
    by rewrite (proj1 HE).
Qed.

Lemma agree_value E k v v1 t t1 its m : NoDup (keys its) -> agree E its m ->
  find k its = Some (v, t) -> (E -> v1 = v) -> agree E (upd k v1 t1 its) m.
Proof.
  intros Hnd Hm Hf Hv. destruct (agree_upd E k v t1 its m Hm) as [Hk Hp]; [eauto|]. split.
  - by rewrite Hk, !keys_upd.
  - intros HE. by rewrite (Hv HE), (Hp HE).
Qed.

Lemma agree_flush E it its m : it ≡ₚ keys its -> agree E its m ->
  agree E [] (foldl listen m (spec_flush it its).1.2).
Proof.
  intros Hit [Hk _]. assert (Hnil : foldl listen m (spec_flush it its).1.2 = []); [|by rewrite Hnil].
  assert (Hsub : map fst m ⊆ it) by (rewrite Hk, Hit; done).
  assert (Hsub' : it ⊆ keys its) by (rewrite Hit; done). clear Hk Hit. simpl.
  revert m Hsub. induction it as [|k it IH]; intros m Hsub; simpl.
  - destruct m as [|[k v] m]; [done|]. exfalso. specialize (Hsub k). set_solver.
  - destruct (find k its) as [[v t]|] eqn:Hf.
    + simpl. apply IH; [set_solver|]. intros j (i & -> & Hi)%list_elem_of_fmap.
      apply list_elem_of_In, filter_In in Hi as [Hi Hne%negb_true_iff%bool_decide_eq_false].
      assert (Hin : i.1 ∈ k :: it) by (apply Hsub, list_elem_of_fmap; exists i; split; [done|by apply list_elem_of_In]).
      set_solver.
    + exfalso. apply find_None in Hf. apply Hf, Hsub'. set_solver.
Qed.

(** One operation other than [GetQuiet], as a listener with both hooks sees it. *)
Lemma spec_agree c o its m : is_quiet o = false -> admissible o its -> NoDup (keys its) ->
  agree (exact_hooks c) its m ->
  agree (exact_hooks c) (spec c o its).1.1
    (foldl listen m (spec c o its).1.2).
Proof.
  intros Hq Hadm Hnd Hm. destruct o; cbn [spec]; try done.
  - unfold spec_add. pose proof (agree_prune1 _ c now k its m Hnd Hm) as Hp.
    pose proof (keys_prune1 c now k its Hnd) as Hnd1.
    destruct (prune1 c now k its) as [l1 es1]. simpl in Hp, Hnd1.
    destruct (find k l1) as [[v t]|] eqn:Hf.
    + destruct (addValue v delta true) as [v1 [e|]] eqn:Ha; simpl.
      * apply (agree_value _ k v v1 t); [done..|]. intros [_ [Hat _]]. eapply Hat, Ha.
      * rewrite foldl_app. simpl. by apply agree_upd_set.
    + destruct (addValue zero delta false) as [v1 [e|]]; [done|].
      pose proof (agree_insert c now (applyEntryOptions opts) k v1 l1 _ Hnd1 Hf Hp) as Hi.
      destruct (insert _ _ _ _ _ _) as [l2 es2]. simpl in *. by rewrite foldl_app.
  - unfold spec_set. pose proof (agree_prune1 (exact_hooks c) c now k its m Hnd Hm) as Hp.
    pose proof (keys_prune1 c now k its Hnd) as Hnd1.
    destruct (prune1 c now k its) as [l1 es1]. simpl in Hp, Hnd1.
    destruct (find k l1) as [[v t]|] eqn:Hf.
    + destruct (setValue v val true) as [v1 [u [e|]]] eqn:Ha; simpl.
      * apply (agree_value _ k v v1 t); [done..|]. intros [_ [_ Hat]]. eapply Hat, Ha.
      * rewrite foldl_app. simpl. by apply agree_upd_set.
    + destruct (setValue zero val false) as [v1 [u [e|]]]; [done|].
      pose proof (agree_insert c now (applyEntryOptions opts) k v1 l1 _ Hnd1 Hf Hp) as Hi.
      destruct (insert _ _ _ _ _ _) as [l2 es2]. simpl in *. by rewrite foldl_app.
  - unfold spec_get. destruct (find k its) as [[v t]|] eqn:Hf; [|done].
    destruct (expired_at t now).
    + destruct (extended c k v now); simpl; [apply agree_upd; eauto|].
      by apply (agree_rem _ k v DeleteReasonExpired).
    + simpl. destruct (_ && _); [apply agree_upd; eauto|done].
  - unfold spec_delete. destruct (find k its) as [[v t]|]; [|done].
    by apply (agree_rem _ k v DeleteReasonExplicit).
  - unfold spec_range. pose proof (agree_prune (exact_hooks c) c now its m Hnd Hm).
    by destruct (prune c now its) as [l1 es1].
  - unfold spec_expire. pose proof (agree_prune (exact_hooks c) c now its m Hnd Hm).
    by destruct (prune c now its) as [l1 es1].
  - by apply agree_flush.
Qed.

Lemma listen_seen c es m : OnSet (hooks c) = true -> OnDelete (hooks c) = true ->
  foldl listen m (seen c es) = foldl listen m es.
Proof.
  intros Hs Hd. revert m. induction es as [|[k v b|k v r|k v] es IH]; intros m; unfold seen; simpl; [done|..].
  - rewrite Hs. simpl. apply IH.
  - rewrite Hd. simpl. apply IH.
  - destruct (OnGet (hooks c)); simpl; apply IH.
Qed.

Lemma spec_all_agree ops : forall s m, Inv (mem s) ->
  admissible_all (settings s) ops (contents (mem s)) -> existsb is_quiet ops = false ->
  agree (exact_hooks (settings s)) (contents (mem s)) m ->
  agree (exact_hooks (settings s)) (spec_all (settings s) ops (contents (mem s))).1.1
    (foldl listen m (spec_all (settings s) ops (contents (mem s))).1.2).
Proof.
  induction ops as [|o ops IH]; intros s m Hs Ha Hq Hm; simpl in *; [done|].
  apply orb_false_iff in Hq as [Hqo Hq]. destruct Ha as [Ho Ha].
  pose proof (spec_agree (settings s) o _ m Hqo Ho (inv_keys_nodup _ Hs) Hm) as Hm1.
  destruct (op_refines s o Hs Ho) as (s1 & _ & [HI1 Hc1 Hset1 _ _]).
  destruct (spec (settings s) o (contents (mem s))) as [[its1 es1] r]. simpl in *.
  specialize (IH s1 (foldl listen m es1) HI1). rewrite Hset1, Hc1 in IH. specialize (IH Ha Hq Hm1).
  destruct (spec_all (settings s) ops its1) as [[its2 es2] rs]. simpl in *. by rewrite foldl_app.
Qed.

(** C30: the store refines the list of its entries.  Any sequence of operations on a store
    built with the package's options runs without a stale pointer, an endless loop or a
    panic; its results, its final entries (in FIFO order) and the hook calls it makes are
    those of [spec_all], which works on a plain list. *)
Theorem flowstore_refines opts ops :
  Forall standard opts -> let c := settings (NewStore opts) in
  admissible_all c ops [] ->
  exists s, exec_all ops (NewStore opts) = (Ok (spec_all c ops []).2, s) /\
    Inv (mem s) /\ contents (mem s) = (spec_all c ops []).1.1 /\
    calls s = seen c (spec_all c ops []).1.2.
Proof.
  cbv zeta. intros Ho Ha. destruct (new_store opts Ho) as (HI & Hc & Hcalls & _).
  destruct (exec_all_ok ops (NewStore opts) HI) as (s & E & [? Hcs ? Hcls _]); [by rewrite Hc|].
  rewrite Hc in *. exists s. splits; [done|done|done|]. by rewrite Hcls, Hcalls.
Qed.

(** With [WithMaxSize(n)] no history leaves more than [n] entries: [Len] reports at
    most [n]. *)
Theorem flowstore_bounded opts ops n :
  Forall standard opts -> 0 < n -> maxSize (settings (NewStore opts)) = n ->
  admissible_all (settings (NewStore opts)) ops [] ->
  exists rs s m, exec_all ops (NewStore opts) = (Ok rs, s) /\ Len s = (Ok m, s) /\ 0 <= m <= n.
Proof.
  intros Ho Hn Hmax Ha. destruct (new_store opts Ho) as (HI & Hc & _).
  destruct (exec_all_ok ops (NewStore opts) HI) as (s & E & [HIs Hcs _ _ _]); [by rewrite Hc|].
  do 3 eexists. splits; [exact E|reflexivity|lia|]. rewrite contents_size, Hcs, Hc by done.
  rewrite <- Hmax. apply (spec_all_invariant _ (fun l => Z.of_nat (length l) <= _)); [|simpl; lia|done].
  intros o l Hl _. apply spec_bounded; [lia|done].
Qed.

(** A listener that follows [OnSet] and [OnDelete] ends every history without
    [GetQuiet] with exactly the keys of the store, in its order; with their values too if
    [OnSetMutate] is not used and failing value methods leave the value alone. *)
Theorem flowstore_hooks_mirror opts ops :
  Forall standard opts -> let c := settings (NewStore opts) in
  OnSet (hooks c) = true -> OnDelete (hooks c) = true ->
  admissible_all c ops [] -> existsb is_quiet ops = false ->
  exists rs s, exec_all ops (NewStore opts) = (Ok rs, s) /\
    map fst (replay (calls s)) = keys (contents (mem s)) /\
    (OnSetMutate (hooks c) = None -> atomic_values -> replay (calls s) = pairs (contents (mem s))).
Proof.
  cbv zeta. intros Ho Hset Hdel Ha Hq. destruct (new_store opts Ho) as (HI & Hc & Hcalls & _).
  pose proof (spec_all_agree ops (NewStore opts) [] HI) as Hagree. rewrite Hc in Hagree.
  destruct (Hagree Ha Hq) as [Hk Hv]; [done|].
  destruct (exec_all_ok ops (NewStore opts) HI) as (s & E & [_ Hcs _ Hcls _]); [by rewrite Hc|].
  rewrite Hc in *. do 2 eexists. split; [exact E|].
  assert (Hr : replay (calls s) = foldl listen [] (spec_all (settings (NewStore opts)) ops []).1.2).
  { unfold replay. rewrite Hcls, Hcalls. by apply listen_seen. }
  rewrite Hr, Hcs. split; [done|]. intros. by apply Hv.
Qed.

(** A [GetQuiet] that meets an expired entry removes it without any [OnDelete] call,
    whereas [Get] removes it and reports [DeleteReasonExpired]. *)
Theorem flowstore_quiet_expiry s now k v t dest :
  Inv (mem s) -> onExpire (settings s) = None -> OnDelete (hooks (settings s)) = true ->
  find k (contents (mem s)) = Some (v, t) -> expired_at t now = true ->
  (exists s1, GetQuiet now k dest s = (Ok (false, dest), s1) /\
     contents (mem s1) = rem k (contents (mem s)) /\ calls s1 = calls s) /\
  (exists s2, Get now k dest s = (Ok (false, dest), s2) /\
     contents (mem s2) = rem k (contents (mem s)) /\
     calls s2 = calls s ++ [hookEventDelete k v DeleteReasonExpired]).
Proof.
  intros Hs Hx Hdel Hf Hexp.
  assert (He : extended (settings s) k v now = None) by (unfold extended; by rewrite Hx).
  split.
  - destruct (get_body_ok s now k dest false Hs) as (s1 & E & [_ Hc _ Hcls _]).
    unfold spec_get in E, Hc, Hcls. rewrite Hf, Hexp, He in E, Hc, Hcls. exists s1.
    splits; [exact E|exact Hc|]. rewrite Hcls. apply app_nil_r.
  - destruct (get_body_ok s now k dest true Hs) as (s1 & E & [_ Hc _ Hcls _]).
    unfold spec_get in E, Hc, Hcls. rewrite Hf, Hexp, He in E, Hc, Hcls. exists s1.
    splits; [exact E|exact Hc|]. rewrite Hcls. unfold seen. simpl. by rewrite Hdel.
Qed.

(** When [Set] inserts a key, [OnSet] is called with the value from before
    [OnSetMutate], not with the value that was stored. *)
Theorem flowstore_onset_insert s now k v f opts :
  Inv (mem s) -> OnSetMutate (hooks (settings s)) = Some f -> OnSet (hooks (settings s)) = true ->
  maxSize (settings s) <= 0 -> Settable = None -> find k (contents (mem s)) = None ->
  exists s1 t, Set_ now k v opts s = (Ok (false, None), s1) /\
    contents (mem s1) = contents (mem s) ++ [(k, f k v false, t)] /\
    calls s1 = calls s ++ [hookEventSet k v false].
Proof.
  intros Hs Hf Hon Hmax Hset Hk. destruct (Set_ok s now k v opts Hs) as (s1 & E & [_ Hc _ Hcls _]).
  unfold spec_set, prune1, setValue, insert in E, Hc, Hcls. rewrite Hk, Hset in E, Hc, Hcls.
  unfold mutate in E, Hc, Hcls. rewrite Hf in E, Hc, Hcls. rewrite Hk in E, Hc, Hcls.
  rewrite evict_nil in E, Hc, Hcls by (unfold surplus; by rewrite (proj2 (Z.leb_le _ _))).
  do 2 eexists. splits; [exact E|exact Hc|]. rewrite Hcls. unfold seen. simpl. by rewrite Hon.
Qed.

(** ** TTLs *)

Lemma find_insert c now eopts k v its : find k its = None ->
  find k (insert c now eopts k v its).1 = Some (mutate c k v false, expiresAtFor c now eopts false).
Proof.
  intros Hk. unfold insert, evict. simpl.
  set (x := (k, mutate c k v false, expiresAtFor c now eopts false)).
  assert (Hn : (surplus c (its ++ [x]) <= length its)%nat).
  { unfold surplus. destruct (Z.leb_spec (maxSize c) 0); [lia|]. rewrite length_app. simpl. lia. }
  rewrite drop_app_le, find_app by done.
  assert (Hd : find k (drop (surplus c (its ++ [x])) its) = None).
  { apply find_None. apply find_None in Hk. intros Hin. apply Hk.
    apply list_elem_of_fmap in Hin as (i & -> & Hi). apply list_elem_of_fmap. exists i. split; [done|].
    rewrite <- (take_drop (surplus c (its ++ [x])) its). apply elem_of_app. by right. }
  rewrite Hd. simpl. by rewrite decide_True.
Qed.

(** A successful [Set] of a plain value leaves it under the key with a fresh deadline. *)
Lemma find_set c now k v eopts its t : Settable = None -> OnSetMutate (hooks c) = None ->
  expiresAtFor c now eopts false = t -> (forall t0, refreshed c now eopts t0 = t) ->
  exists b, (spec_set c now k v eopts its).2 = (b, None) /\
    find k (spec_set c now k v eopts its).1.1 = Some (v, t).
Proof.
  intros Hset Hmut Hi Hr. unfold spec_set, setValue, mutate. rewrite Hset, Hmut.
  destruct (prune1 c now k its) as [l1 es1]. destruct (find k l1) as [[v0 t0]|] eqn:Hf.
  - exists true. simpl. split; [done|]. rewrite Hr. apply find_upd. congruence.
  - pose proof (find_insert c now eopts k v l1 Hf) as Hins. unfold mutate in Hins. rewrite Hmut in Hins.
    destruct (insert _ _ _ _ _ _) as [l2 es2]. exists false. split; [done|]. simpl in *. congruence.
Qed.

Lemma get_hit s now k v t dest : Inv (mem s) -> Settable = None -> Copyable = None ->
  find k (contents (mem s)) = Some (v, t) -> expired_at t now = false ->
  exists s', Get now k (Some dest) s = (Ok (true, Some v), s').
Proof.
  intros Hs Hset Hcopy Hf Hexp. destruct (get_body_ok s now k (Some dest) true Hs) as (s' & E & _).
  exists s'. unfold Get. rewrite E. unfold spec_get, copied, copyValue. rewrite Hf, Hexp, Hset, Hcopy. done.
Qed.

Lemma get_expired s now k v t dest : Inv (mem s) -> onExpire (settings s) = None ->
  find k (contents (mem s)) = Some (v, t) -> expired_at t now = true ->
  exists s', Get now k dest s = (Ok (false, dest), s') /\ find k (contents (mem s')) = None.
Proof.
  intros Hs Hx Hf Hexp. destruct (get_body_ok s now k dest true Hs) as (s' & E & [_ Hc _ _ _]).
  unfold spec_get, extended in E, Hc. rewrite Hf, Hexp, Hx in E, Hc.
  exists s'. split; [exact E|]. rewrite Hc. apply find_rem.
Qed.

(** A value set at [now] with a TTL of [d] (given explicitly, or the default one of a
    store that refreshes on writes) is returned by every later [Get] before [now + d] and
    by none from then on; the expired entry is gone. *)
Theorem flowstore_ttl s now k v d opts :
  Inv (mem s) -> onExpire (settings s) = None -> OnSetMutate (hooks (settings s)) = None ->
  Settable = None -> Copyable = None -> 0 <= now -> 0 < d ->
  opts = [WithTTL d] \/ (opts = [] /\ refreshTTL (settings s) = true /\ defaultTTL (settings s) = d) ->
  exists b s1, Set_ now k v opts s = (Ok (b, None), s1) /\
    forall now' dest,
      (now' < now + d -> exists s2, Get now' k (Some dest) s1 = (Ok (true, Some v), s2)) /\
      (now + d <= now' -> exists s2, Get now' k (Some dest) s1 = (Ok (false, Some dest), s2) /\
                            find k (contents (mem s2)) = None).
Proof.
  intros Hs Hx Hmut Hset Hcopy Hnow Hd Hopts.
  destruct (find_set (settings s) now k v (applyEntryOptions opts) (contents (mem s)) (now + d) Hset Hmut)
    as (b & Hr & Hf).
  - destruct Hopts as [->|(-> & _ & Hdef)]; unfold expiresAtFor; simpl.
    + destruct (Z.leb_spec d 0); [lia|done].
    + rewrite Hdef. destruct (Z.ltb_spec 0 d); [done|lia].
  - intros t0. destruct Hopts as [->|(-> & Href & Hdef)]; unfold refreshed, expiresAtFor; simpl.
    + destruct (Z.leb_spec d 0); [lia|done].
    + rewrite Href, Hdef. destruct (Z.ltb_spec 0 d); [done|lia].
  - destruct (Set_ok s now k v opts Hs) as (s1 & E & [HI1 Hc1 Hset1 _ _]).
    rewrite Hr in E. rewrite <- Hc1 in Hf. exists b, s1. split; [done|]. intros now' dest. split; intros Ht.
    + apply (get_hit s1 now' k v (now + d)); [done..|]. unfold expired_at.
      rewrite (proj2 (Z.ltb_lt now' (now + d))) by lia. apply andb_false_r.
    + apply (get_expired s1 now' k v (now + d)); [done|congruence|done|]. unfold expired_at.
      rewrite (proj2 (Z.ltb_ge now' (now + d))), (proj2 (Z.eqb_neq (now + d) 0)) by lia. done.
Qed.

(** ** The life of a store *)

(** Sweepers started through [Start] are the store's own, at most one at a time. *)
Definition one_sweeper s : Prop :=
  Inv (mem s) /\ sweepers s = match stopSweeper s with Some n => [n] | None => [] end.

Lemma Stop_ok s : one_sweeper s ->
  exists s', Stop s = (Ok tt, s') /\ one_sweeper s' /\ stopSweeper s' = None /\
    mem s' = mem s /\ settings s' = settings s /\ calls s' = calls s.
Proof.
  intros [HI Hs]. unfold Stop, stop. destruct (stopSweeper s) as [n|]; simpl.
  - rewrite Hs. simpl. rewrite Nat.eqb_refl. simpl. eexists. by splits.
  - eexists. splits; [reflexivity|by split|done..].
Qed.

Lemma Start_ok s i : one_sweeper s ->
  exists s', Start i s = (Ok tt, s') /\ one_sweeper s' /\ mem s' = mem s /\
    settings s' = settings s /\ calls s' = calls s.
Proof.
  intros [HI Hs]. unfold Start, StartSweeper, bind. destruct (i <=? 0) eqn:Hi; [by exists s|].
  destruct (stopSweeper s) as [n|] eqn:Hst; [exists s; splits; try done; split; [done|by rewrite Hst]|].
  eexists. splits; [reflexivity| |done..]. split; [done|]. simpl. by rewrite Hs.
Qed.

Lemma run_life_ok s a : one_sweeper s -> life_admissible a (contents (mem s)) ->
  exists s', run_life a s = (Ok tt, s') /\ one_sweeper s'.
Proof.
  intros Hs Ha. destruct a as [i| |it|o]; simpl in *.
  - destruct (Start_ok s i Hs) as (s' & ? & ? & _). eauto.
  - destruct (Stop_ok s Hs) as (s' & ? & ? & _). eauto.
  - destruct (Stop_ok s Hs) as (s1 & E1 & [HI1 Hs1] & Hst & Hm & _). unfold Close. step E1.
    destruct (Flush_ok s1 it HI1) as (s2 & E2 & [HI2 _ _ _ (Ha1 & Ha2 & _)]); [by rewrite Hm|].
    exists s2. split; [done|]. split; [done|]. by rewrite Ha1, Ha2.
  - destruct Hs as [HI Hs]. destruct (op_refines s o HI Ha) as (s1 & E1 & [HI1 _ _ _ (Ha1 & Ha2 & _)]).
    exists s1. step E1. split; [done|]. split; [done|]. by rewrite Ha1, Ha2.
Qed.

Lemma reachable_one_sweeper s : reachable s -> one_sweeper s.
Proof.
  induction 1 as [opts Ho|s a r s' _ IH Ha E].
  - destruct (new_store opts Ho) as (HI & _ & _ & Hs & Hst). split; [done|]. by rewrite Hs, Hst.
  - destruct (run_life_ok s a IH Ha) as (s1 & E1 & Hs1). congruence.
Qed.

(** In every state reached by [Start], [Stop], [Close] and operations, at most one
    sweeper of the store's own runs and nothing panics (no channel is closed twice);
    [Stop] ends it and keeps the entries, [Close] also flushes them all and reports each. *)
Theorem flowstore_lifecycle s : reachable s ->
  (length (sweepers s) <= 1)%nat /\
  (forall a, life_admissible a (contents (mem s)) -> exists s', run_life a s = (Ok tt, s')) /\
  (exists s', Stop s = (Ok tt, s') /\ sweepers s' = [] /\
     contents (mem s') = contents (mem s) /\ calls s' = calls s) /\
  (forall it, it ≡ₚ keys (contents (mem s)) ->
     exists s', Close it s = (Ok tt, s') /\ sweepers s' = [] /\ contents (mem s') = [] /\
       calls s' = calls s ++ seen (settings s) (spec_flush it (contents (mem s))).1.2).
Proof.
  intros Hr. pose proof (reachable_one_sweeper s Hr) as Hone. splits.
  - destruct Hone as [_ ->]. destruct (stopSweeper s); simpl; lia.
  - intros a Ha. destruct (run_life_ok s a Hone Ha) as (s' & E & _). eauto.
  - destruct (Stop_ok s Hone) as (s' & E & [_ Hsw] & Hst & Hm & _ & Hc). exists s'.
    rewrite Hst in Hsw. rewrite Hm. done.
  - intros it Hit. destruct (Stop_ok s Hone) as (s1 & E1 & [HI1 Hsw1] & Hst & Hm & Hset & Hc).
    destruct (Flush_ok s1 it HI1) as (s2 & E2 & [_ Hc2 _ Hcls2 (Ha1 & Ha2 & _)]); [by rewrite Hm|].
    exists s2. unfold Close. step E1. rewrite Hst in Hsw1. rewrite Ha2, Hsw1, Hc2, Hcls2, Hc, Hm, Hset. done.
Qed.
End histories.

(** ** Counters *)

Section counters.
Context {K : Type} `{Countable K}.
Implicit Types (k : K) (s : Store K FlowCounters).

(** The sum of the deltas that carry the counter, at width 64; nil when none does. *)
Definition counter_total (ds : list (option Z)) : option Z :=
  match omap (fun d => d) ds with
  | [] => None
  | xs => Some (to_int 64 (foldl Z.add 0 xs))
  end.

Lemma counter_total_snoc ds d : counter_add (counter_total ds) d = counter_total (ds ++ [d]).
Proof.
  unfold counter_total. rewrite omap_app. destruct d as [d|]; simpl.
  2:{ by rewrite app_nil_r. }
  destruct (omap (fun d => d) ds) as [|x xs]; simpl; [unfold int64_add; by rewrite Z.add_0_l|].
  rewrite foldl_app. simpl. unfold int64_add. f_equal. apply (to_int_add 64). lia.
Qed.

(** The counters after the deltas [ds]. *)
Definition total (ds : list FlowCounters) : FlowCounters :=
  {| Bytes := counter_total (map Bytes ds); Packets := counter_total (map Packets ds) |}.

Lemma total_snoc ds d : fst (FlowCounters_Add (total ds) d true) = total (ds ++ [d]).
Proof. unfold total, FlowCounters_Add. simpl. by rewrite !counter_total_snoc, !map_app. Qed.

Lemma Add_counters s k now d ds :
  Inv (mem s) -> onExpire (settings s) = None -> OnSetMutate (hooks (settings s)) = None ->
  defaultTTL (settings s) <= 0 ->
  (find k (contents (mem s)) = match ds with [] => None | _ => Some (total ds, 0) end) ->
  exists s', Add now k d [] s = (Ok None, s') /\ Inv (mem s') /\ settings s' = settings s /\
    find k (contents (mem s')) = Some (total (ds ++ [d]), 0).
Proof.
  intros Hs Hx Hmut Hdef Hf. destruct (Add_ok s now k d [] Hs) as (s' & E & [HI Hc Hset _ _]).
  assert (Hd : (0 <? defaultTTL (settings s)) = false) by (apply Z.ltb_ge; lia).
  assert (Hp : prune1 (settings s) now k (contents (mem s)) = (contents (mem s), [])).
  { unfold prune1. rewrite Hf. by destruct ds. }
  unfold spec_add in E, Hc. rewrite Hp, Hf in E, Hc. destruct ds as [|d0 ds].
  - cbn [addValue Addable FlowCounters_Value FlowCounters_Add] in E, Hc.
    match type of Hc with context [insert ?c ?n ?o ?k ?v ?l] =>
      pose proof (find_insert c n o k v l ltac:(done)) as Hfi; destruct (insert c n o k v l) as [l2 es2] end.
    exists s'. splits; [exact E|done|done|]. rewrite Hc. simpl in Hfi |- *. rewrite Hfi. unfold mutate, expiresAtFor.
    rewrite Hmut. simpl. rewrite Hd. f_equal. f_equal.
    unfold total, counter_total. simpl. destruct d as [[?|] [?|]]; done.
  - cbn [addValue Addable FlowCounters_Value] in E, Hc.
    assert (Ha : FlowCounters_Add (total (d0 :: ds)) d true = (total ((d0 :: ds) ++ [d]), None)).
    { rewrite <- total_snoc. done. }
    rewrite Ha in E, Hc. exists s'. splits; [exact E|done|done|]. rewrite Hc. simpl fst.
    rewrite find_upd by congruence. unfold mutate, refreshed. rewrite Hmut, Hd, andb_false_r. done.
Qed.

(** [Add]s of [FlowCounters] under one key accumulate: a later [Get] returns for each
    counter the sum of the deltas that carried it, wrapped at 64 bits, and nil if none did. *)
Theorem flow_counters_accumulate s k (ds : list (Z * FlowCounters)) :
  Inv (mem s) -> onExpire (settings s) = None -> OnSetMutate (hooks (settings s)) = None ->
  defaultTTL (settings s) <= 0 -> find k (contents (mem s)) = None -> ds <> [] ->
  exists rs s', exec_all (map (fun x => OpAdd x.1 k x.2 []) ds) s = (Ok rs, s') /\
    Forall (fun r => r = R_err None) rs /\
    forall now dest, exists s'', Get now k (Some dest) s' = (Ok (true, Some (total (map snd ds))), s'').
Proof.
  intros Hs Hx Hmut Hdef Hf Hne.
  assert (Hgen : forall dn s, Inv (mem s) -> onExpire (settings s) = None ->
    OnSetMutate (hooks (settings s)) = None -> defaultTTL (settings s) <= 0 ->
    find k (contents (mem s)) = match dn with [] => None | _ => Some (total dn, 0) end ->
    exists rs s', exec_all (map (fun x => OpAdd x.1 k x.2 []) ds) s = (Ok rs, s') /\
      Forall (fun r => r = R_err None) rs /\ Inv (mem s') /\
      find k (contents (mem s')) =
        match dn ++ map snd ds with [] => None | _ => Some (total (dn ++ map snd ds), 0) end).
  { clear. induction ds as [|[now d] ds IH]; intros dn s Hs Hx Hmut Hdef Hf; simpl.
    { exists [], s. rewrite app_nil_r. by splits. }
    destruct (Add_counters s k now d dn Hs Hx Hmut Hdef Hf) as (s1 & E1 & HI1 & Hset1 & Hf1).
    destruct (IH (dn ++ [d]) s1) as (rs & s2 & E2 & Hrs & HI2 & Hf2); [done|by rewrite Hset1..| |].
    { rewrite Hf1. by destruct dn. }
    exists (R_err (K := K) None :: rs), s2. rewrite <- app_assoc in Hf2. splits; [|by constructor|done|done].
    assert (E3 : exec (OpAdd now k d []) s = (Ok (R_err None), s1)) by (simpl; by step E1).
    step E3. by step E2. }
  destruct (Hgen [] s) as (rs & s1 & E & Hrs & HI1 & Hf1); [done..|]. simpl in Hf1.
  exists rs, s1. splits; [done|done|]. intros now dest.
  destruct (map snd ds) as [|d0 ds0] eqn:Hds; [by destruct ds|].
  destruct (get_body_ok s1 now k (Some dest) true HI1) as (s2 & E2 & _).
  exists s2. unfold Get. rewrite E2. unfold spec_get. rewrite Hf1. simpl. do 4 f_equal.
  unfold copyValue. simpl. unfold FlowCounters_CopyFrom, FlowCounters_Set, total. simpl. by do 2 case_match.
Qed.
End counters.

(** ** Witnesses *)

#[local] Instance Z_Value : Value Z := plain_Value 0.

Definition all_hooks : Hooks Z Z := {| OnSetMutate := None; OnSet := true; OnDelete := true; OnGet := true |}.
Definition demo_opts : list (StoreOption (K := Z) (V := Z)) := [WithMaxSize 2; WithDefaultTTL 10; WithHooks all_hooks].
Definition demo_history : list (op (K := Z) (V := Z)) :=
  [OpSet 100 1 11 []; OpSet 101 2 22 [WithTTL 3]; OpSet 102 3 33 []; OpGet 103 2 (Some 0);
   OpGet 104 2 (Some 0); OpDelete 7; OpExpireStale 112; OpSet 113 4 44 [WithoutExpiration]; OpFlush [4]].

Lemma demo_standard : Forall standard demo_opts.
Proof. repeat constructor. Qed.

Lemma demo_admissible : admissible_all (settings (NewStore demo_opts)) demo_history [].
Proof. vm_compute. repeat split. reflexivity. Qed.

Lemma flowstore_refines_witness :
  exists s, exec_all demo_history (NewStore demo_opts) =
    (Ok [R_set false None; R_set false None; R_set false None; R_get true (Some 22); R_get false (Some 0);
         R_bool false; R_int 1; R_set false None; R_unit], s) /\ contents (mem s) = [].
Proof.
  destruct (flowstore_refines demo_opts demo_history demo_standard demo_admissible) as (s & E & _ & Hc & _).
  exists s. split; [rewrite E; vm_compute; reflexivity|rewrite Hc; vm_compute; reflexivity].
Defined.

Lemma flowstore_bounded_witness :
  exists rs s m, exec_all demo_history (NewStore demo_opts) = (Ok rs, s) /\ Len s = (Ok m, s) /\ 0 <= m <= 2.
Proof. apply (flowstore_bounded demo_opts demo_history 2 demo_standard); [lia|reflexivity|exact demo_admissible]. Defined.

Lemma flowstore_hooks_mirror_witness :
  exists rs s, exec_all demo_history (NewStore demo_opts) = (Ok rs, s) /\
    replay (calls s) = pairs (contents (mem s)).
Proof.
  destruct (flowstore_hooks_mirror demo_opts demo_history demo_standard) as (rs & s & E & _ & Hp);
    [reflexivity|reflexivity|exact demo_admissible|reflexivity|].
  exists rs, s. split; [exact E|]. apply Hp; [reflexivity|].
  split; intros; [unfold addValue in *|unfold setValue in *]; simpl in *; congruence.
Defined.

Lemma flowstore_quiet_expiry_witness :
  exists s s1, GetQuiet 200 1 None s = (Ok (false, None), s1) /\ find 1 (contents (mem s)) = Some (11, 110) /\
    contents (mem s1) = [] /\ calls s1 = calls s.
Proof.
  destruct (new_store demo_opts demo_standard) as (HI & _).
  destruct (Set_ok (NewStore demo_opts) 100 1 11 [] HI) as (s & _ & [HIs Hc Hset _ _]).
  assert (Hf : find 1 (contents (mem s)) = Some (11, 110)) by (rewrite Hc; vm_compute; reflexivity).
  destruct (flowstore_quiet_expiry s 200 1 11 110 None HIs) as ((s1 & E1 & Hc1 & Hcl1) & _);
    [by rewrite Hset|by rewrite Hset|exact Hf|reflexivity|].
  exists s, s1. rewrite Hc1, Hcl1. split; [exact E1|]. split; [exact Hf|]. split; [|reflexivity].
  rewrite Hc. vm_compute. reflexivity.
Defined.

Definition demo_mutating : list (StoreOption (K := Z) (V := Z)) :=
  [WithHooks {| OnSetMutate := Some (fun (_ : Z) (v : Z) _ => v + 1); OnSet := true; OnDelete := true; OnGet := true |}].

Lemma flowstore_onset_insert_witness :
  exists s1 t, Set_ 100 1 11 [] (NewStore demo_mutating) = (Ok (false, None), s1) /\
    contents (mem s1) = [(1, 12, t)] /\ calls s1 = [hookEventSet 1 11 false].
Proof.
  destruct (new_store demo_mutating) as (HI & _); [repeat constructor|].
  apply (flowstore_onset_insert (NewStore demo_mutating) 100 1 11 (fun _ v _ => v + 1) []);
    [exact HI|reflexivity|reflexivity|vm_compute; congruence|reflexivity|reflexivity].
Defined.

Lemma flowstore_ttl_witness :
  exists b s1, Set_ 100 1 11 [WithTTL 5] (NewStore demo_opts) = (Ok (b, None), s1) /\
    (exists s2, Get 104 1 (Some 0) s1 = (Ok (true, Some 11), s2)) /\
    (exists s2, Get 105 1 (Some 0) s1 = (Ok (false, Some 0), s2)).
Proof.
  destruct (new_store demo_opts demo_standard) as (HI & _).
  destruct (flowstore_ttl (NewStore demo_opts) 100 1 11 5 [WithTTL 5] HI) as (b & s1 & E & Hg);
    [reflexivity|reflexivity|reflexivity|reflexivity|lia|lia|left; reflexivity|].
  exists b, s1. split; [exact E|]. split; [apply (Hg 104); lia|].
  destruct (proj2 (Hg 105 0) ltac:(lia)) as (s2 & E2 & _). exists s2. exact E2.
Defined.

Lemma flowstore_lifecycle_witness :
  sweepers (snd (Start 60 (NewStore demo_opts))) = [0%nat] /\
  exists s', Stop (snd (Start 60 (NewStore demo_opts))) = (Ok tt, s') /\ sweepers s' = [].
Proof.
  split; [reflexivity|].
  assert (Hr : reachable (snd (Start 60 (NewStore demo_opts)))).
  { eapply (reachable_step (NewStore demo_opts) (LStart 60)); [constructor; exact demo_standard|exact I|reflexivity]. }
  destruct (flowstore_lifecycle _ Hr) as (_ & _ & (s' & E & Hs & _) & _). exists s'. split; [exact E|exact Hs].
Defined.

Lemma flow_counters_accumulate_witness :
  exists rs s', exec_all [OpAdd 1 7 {| Bytes := Some (2 ^ 63 - 1); Packets := None |} [];
                          OpAdd 2 7 {| Bytes := Some 1; Packets := None |} []]
                  (NewStore (K := Z) []) = (Ok rs, s') /\
    exists s'', Get 3 7 (Some zero) s' = (Ok (true, Some {| Bytes := Some (- 2 ^ 63); Packets := None |}), s'').
Proof.
  destruct (new_store (K := Z) (V := FlowCounters) []) as (HI & _); [constructor|].
  destruct (flow_counters_accumulate (NewStore (K := Z) []) 7
    [(1, {| Bytes := Some (2 ^ 63 - 1); Packets := None |}); (2, {| Bytes := Some 1; Packets := None |})] HI)
    as (rs & s' & E & _ & Hg); [reflexivity|reflexivity|vm_compute; congruence|reflexivity|congruence|].
  exists rs, s'. split; [exact E|]. exact (Hg 3 zero).
Defined.
