(* ===== verification/FlowStoreView.v ===== *)
(** * A plain flow store as a map with deadlines

    What the template and sampling-rate stores use of [FlowStore]: values without methods,
    no size limit, an expiry hook that never extends.  Read at an instant, such a store is
    a finite map; the lemmas say what each operation does to it. *)
From S2P Require Import Prelude FlowStore FlowStoreSpec FlowStoreRefine FlowStoreProps.

Section view.
Context {K V : Type} `{Countable K} `{HV : Value V}.
Implicit Types (k : K) (v : V) (now t : Z) (its : list (K * V * Z)) (c : Settings K V).
Implicit Types (s : Store K V).

(** The value a read at [now] finds under [k]. *)
Definition view now its k : option V :=
  match find k its with
  | Some (v, t) => if expired_at t now then None else Some v
  | None => None
  end.

Definition never_extends c : Prop := forall k v now, extended c k v now = None.

(** The configuration of a plain store, and the agreement of its structures. *)
Record plain s : Prop := {
  plain_inv : Inv (mem s);
  plain_methods : Addable (V := V) = None /\ Settable (V := V) = None /\ Copyable (V := V) = None;
  plain_expire : never_extends (settings s);
  plain_size : maxSize (settings s) <= 0;
  plain_mutate : OnSetMutate (hooks (settings s)) = None
}.

(** ** Lemmas *)

Lemma view_upd now its k j v t : find k its <> None ->
  view now (upd k v t its) j =
    if decide (j = k) then (if expired_at t now then None else Some v) else view now its j.
Proof.
  intros Hk. unfold view. destruct (decide (j = k)) as [->|Hj]; [by rewrite find_upd|by rewrite find_upd_ne].
Qed.

Lemma view_rem now its k j : view now (rem k its) j = if decide (j = k) then None else view now its j.
Proof.
  unfold view. destruct (decide (j = k)) as [->|Hj]; [by rewrite find_rem|by rewrite find_rem_ne].
Qed.

(** The expiry check of [k]'s entry leaves a live one. *)
Lemma view_prune1 c now k its : never_extends c ->
  (forall j, view now (prune1 c now k its).1 j = view now its j) /\
  match find k (prune1 c now k its).1 with
  | Some (v, t) => expired_at t now = false /\ view now its k = Some v
  | None => view now its k = None
  end.
Proof.
  intros Hx. unfold prune1. destruct (find k its) as [[v t]|] eqn:Hf.
  - destruct (expired_at t now) eqn:Hexp.
    + rewrite Hx. simpl. split.
      * intros j. rewrite view_rem. destruct (decide (j = k)) as [->|]; [|done]. unfold view. by rewrite Hf, Hexp.
      * rewrite find_rem. unfold view. by rewrite Hf, Hexp.
    + simpl. rewrite Hf. split; [done|]. unfold view. by rewrite Hf, Hexp.
  - simpl. rewrite Hf. split; [done|]. unfold view. by rewrite Hf.
Qed.

Lemma plain_refined s its es s' : plain s -> refined s its es s' -> plain s'.
Proof. intros [] [? ? Hset ? ?]. constructor; by rewrite ?Hset. Qed.

Lemma deadline_alive c now t0 : expired_at t0 now = false ->
  expired_at (refreshed c now (applyEntryOptions []) t0) now = false.
Proof.
  intros Ht. unfold refreshed. simpl. destruct (refreshTTL c && (0 <? defaultTTL c)) eqn:Hr; [|done].
  apply andb_prop in Hr as [_ Hr%Z.ltb_lt]. unfold expired_at.
  rewrite (proj2 (Z.ltb_lt now (now + defaultTTL c))) by lia. apply andb_false_r.
Qed.

Lemma initial_alive c now : expired_at (expiresAtFor c now (applyEntryOptions []) false) now = false.
Proof.
  unfold expiresAtFor. simpl. destruct (Z.ltb_spec 0 (defaultTTL c)); [|done]. unfold expired_at.
  rewrite (proj2 (Z.ltb_lt now (now + defaultTTL c))) by lia. apply andb_false_r.
Qed.

(** [Set] without options: the key is bound, every other one is as before. *)
Lemma plain_Set s now k v : plain s ->
  exists s', Set_ now k v [] s =
      (Ok (match view now (contents (mem s)) k with Some _ => true | None => false end, None), s') /\
    plain s' /\ settings s' = settings s /\
    forall j, view now (contents (mem s')) j = if decide (j = k) then Some v else view now (contents (mem s)) j.
Proof.
  intros Hs. pose proof Hs as [HI (_ & Hset & _) Hx Hmax Hmut].
  destruct (Set_ok s now k v [] HI) as (s' & E & R). exists s'.
  pose proof R as [_ Hc Hst _ _]. unfold spec_set, setValue in E, Hc. rewrite Hset in E, Hc.
  destruct (view_prune1 (settings s) now k (contents (mem s)) Hx) as [Hv Hk].
  destruct (prune1 (settings s) now k (contents (mem s))) as [l1 es1]. simpl in Hv, Hk.
  destruct (find k l1) as [[v0 t0]|] eqn:Hf.
  - destruct Hk as [Ht Hk]. rewrite Hk. splits; [exact E|by eapply plain_refined|done|].
    intros j. rewrite Hc. simpl. rewrite view_upd by congruence.
    rewrite deadline_alive by done. unfold mutate. rewrite Hmut. by rewrite Hv.
  - rewrite Hk. unfold insert, mutate in E, Hc. rewrite Hmut in E, Hc.
    rewrite evict_nil in E, Hc by (unfold surplus; by rewrite (proj2 (Z.leb_le _ _))).
    splits; [exact E|by eapply plain_refined|done|].
    intros j. rewrite Hc. simpl. rewrite <- Hv. unfold view. rewrite find_app.
    destruct (decide (j = k)) as [->|Hj].
    + rewrite Hf. simpl. rewrite decide_True by done. by rewrite initial_alive.
    + destruct (find j l1) as [[? ?]|]; [done|]. simpl. by rewrite decide_False by congruence.
Qed.

(** Both reads return what the map holds and leave the map as it is. *)
Lemma plain_get s now k dest withHooks : plain s ->
  exists s', get now k (Some dest) withHooks s =
      (Ok (match view now (contents (mem s)) k with
           | Some v => (true, Some v)
           | None => (false, Some dest)
           end), s') /\
    plain s' /\ settings s' = settings s /\
    forall j, view now (contents (mem s')) j = view now (contents (mem s)) j.
Proof.
  intros Hs. pose proof Hs as [HI (_ & Hset & Hcopy) Hx Hmax Hmut].
  destruct (get_body_ok s now k (Some dest) withHooks HI) as (s' & E & R). exists s'.
  pose proof R as [_ Hc Hst _ _]. unfold spec_get, copied, copyValue in E, Hc. rewrite Hset, Hcopy in E, Hc.
  unfold view at 1. destruct (find k (contents (mem s))) as [[v t]|] eqn:Hf.
  2:{ simpl in E, Hc. splits; [exact E|by eapply plain_refined|done|]. intros j. by rewrite Hc. }
  destruct (expired_at t now) eqn:Hexp; rewrite ?Hx in E, Hc; simpl in E, Hc.
  - splits; [exact E|by eapply plain_refined|done|]. intros j. rewrite Hc, view_rem.
    destruct (decide (j = k)) as [->|]; [|done]. unfold view. by rewrite Hf, Hexp.
  - destruct withHooks; simpl in E, Hc; (splits; [exact E|by eapply plain_refined|done|]); intros j; rewrite Hc; [|done].
    destruct (refreshTTLOnRead (settings s) && (0 <? defaultTTL (settings s))) eqn:Hr; [|done].
    apply andb_prop in Hr as [_ Hr%Z.ltb_lt]. rewrite view_upd by congruence.
    destruct (decide (j = k)) as [->|]; [|done]. unfold view, expired_at at 1.
    rewrite (proj2 (Z.ltb_lt now (now + defaultTTL (settings s)))) by lia. rewrite andb_false_r. by rewrite Hf, Hexp.
Qed.

(** [Delete] also finds an entry that has expired. *)
Lemma plain_Delete s now k : plain s ->
  exists b s', Delete k s = (Ok b, s') /\ plain s' /\ settings s' = settings s /\
    (view now (contents (mem s)) k <> None -> b = true) /\
    forall j, view now (contents (mem s')) j = if decide (j = k) then None else view now (contents (mem s)) j.
Proof.
  intros Hs. destruct (Delete_ok s k (plain_inv s Hs)) as (s' & E & R). do 2 eexists.
  pose proof R as [_ Hc Hst _ _]. splits; [exact E|by eapply plain_refined|done| |]; unfold spec_delete in *.
  - unfold view. destruct (find k (contents (mem s))) as [[v t]|]; done.
  - intros j. rewrite Hc. destruct (find k (contents (mem s))) as [[v t]|] eqn:Hf; simpl.
    + change (view now (rem k (contents (mem s))) j = if decide (j = k) then None else view now (contents (mem s)) j).
      apply view_rem.
    + change (view now (contents (mem s)) j = if decide (j = k) then None else view now (contents (mem s)) j).
      destruct (decide (j = k)) as [->|]; [|done]. unfold view. by rewrite Hf.
Qed.

(** [Range] with a callback that never stops it visits the live entries in order. *)
Lemma visit_all its : visit (fun (_ : K) (_ : V) => true) (pairs its) = pairs its.
Proof. induction its as [|[[k v] t] its IH]; simpl; [done|]. by rewrite IH. Qed.

Definition unexpired now its : list (K * V * Z) :=
  List.filter (fun i : K * V * Z => negb (expired_at i.2 now)) its.

Lemma prune_plain c now its : never_extends c -> (prune c now its).1 = unexpired now its.
Proof.
  intros Hx. unfold prune, unexpired. simpl. induction its as [|[[k v] t] its IH]; simpl; [done|].
  unfold lapsed at 1. simpl. rewrite Hx, andb_true_r.
  destruct (expired_at t now) eqn:Hexp; simpl; [exact IH|]. rewrite IH. unfold renew. simpl. by rewrite Hexp.
Qed.

Lemma view_unexpired now its k : NoDup (keys its) -> view now (unexpired now its) k = view now its k.
Proof.
  unfold view, unexpired. induction its as [|[[j v] t] its IH]; simpl; [done|]. intros [Hk Hnd]%NoDup_cons.
  destruct (expired_at t now) eqn:Hexp; simpl.
  - rewrite IH by done. case_decide as Hd; [|done]. subst. rewrite Hexp.
    by rewrite (proj2 (find_None k its)) by done.
  - case_decide as Hd; [by rewrite Hexp|]. by apply IH.
Qed.

(** What a read at [now] finds is what the unexpired items hold. *)
Lemma view_elem now its k v : NoDup (keys its) ->
  view now its k = Some v <-> (k, v) ∈ pairs (unexpired now its).
Proof.
  intros Hnd. unfold view. split.
  - destruct (find k its) as [[v' t]|] eqn:Hf; [|done]. destruct (expired_at t now) eqn:Hexp; [done|].
    intros [= ->]. apply list_elem_of_fmap. exists (k, v, t). split; [done|].
    apply list_elem_of_In, filter_In. split; [by apply list_elem_of_In, find_Some_elem|]. simpl. by rewrite Hexp.
  - intros ([[k' v'] t] & [= <- <-] & Hi)%list_elem_of_fmap.
    apply list_elem_of_In, filter_In in Hi as [Hi Hexp%negb_true_iff]. apply list_elem_of_In in Hi. simpl in Hexp.
    rewrite (elem_find_Some k v t) by done. by rewrite Hexp.
Qed.

Lemma plain_Range s now : plain s ->
  exists s', Range now (fun _ _ => true) s = (Ok (pairs (unexpired now (contents (mem s)))), s') /\
    plain s' /\ settings s' = settings s /\
    forall j, view now (contents (mem s')) j = view now (contents (mem s)) j.
Proof.
  intros Hs. pose proof Hs as [HI (_ & Hset & Hcopy) Hx Hmax Hmut].
  destruct (Range_ok s now (fun _ _ => true) HI) as (s' & E & R). exists s'.
  pose proof R as [_ Hc Hst _ _]. unfold spec_range in E, Hc. rewrite (surjective_pairing (prune _ _ _)) in E, Hc.
  cbn [fst snd] in E, Hc. rewrite prune_plain in E, Hc by done.
  splits; [|by eapply plain_refined|done|].
  - rewrite E, <- (visit_all (unexpired now (contents (mem s)))). unfold pairs.
    erewrite map_ext; [reflexivity|].
    intros [[k v] t]. unfold copyValue. by rewrite Hset, Hcopy.
  - intros j. rewrite Hc. by apply view_unexpired, inv_keys_nodup.
Qed.
End view.
