(* ===== verification/TemplateStore.v ===== *)
(** * utils/store/templates: the TTL-backed template store

    [TemplateFlowStore] of [store.go] over [FlowStore], its hooks, its snapshot keys, and
    the proof that it keeps the [TemplateStore] contract the decoder relies on. *)
From S2P Require Import Prelude NetflowTypes FlowStore FlowStoreSpec FlowStoreRefine FlowStoreProps FlowStoreView.

(** ** Keys *)

Record flowStoreTemplateKey : Type := {
  tkRouterKey : string; tkVersion : Z; tkObsDomainID : Z; tkTemplateID : Z
}.

#[export] Instance flowStoreTemplateKey_eq_dec : EqDecision flowStoreTemplateKey.
Proof. solve_decision. Defined.
#[export] Instance flowStoreTemplateKey_countable : Countable flowStoreTemplateKey.
Proof.
  refine (inj_countable' (fun k => (tkRouterKey k, tkVersion k, tkObsDomainID k, tkTemplateID k))
    (fun '(r, v, d, t) => {| tkRouterKey := r; tkVersion := v; tkObsDomainID := d; tkTemplateID := t |}) _).
  by intros [].
Defined.

(** An [interface{}] has no methods on its address; its zero value, nil, is one of the
    values the decoder does not know. *)
#[export] Instance template_Value : Value template := plain_Value T_other.

(** The snapshot of one router's templates, by packed key. *)
Abbreviation FlowBaseTemplateSet := (gmap Z template).

(** ** Hooks *)

Section hooks.
Context {E : Type}.

(** A hook is what calling it does: the effects [E] it has, in order. *)
Record TemplateHooks : Type := {
  OnAdd : option (flowStoreTemplateKey -> template -> bool -> list E);
  OnAccess : option (flowStoreTemplateKey -> template -> list E);
  OnRemove : option (flowStoreTemplateKey -> template -> list E)
}.

Definition no_template_hooks : TemplateHooks := {| OnAdd := None; OnAccess := None; OnRemove := None |}.

(** [ComposeHooks]: one hook set after those combined so far. *)
Definition compose_one (combined hookSet : TemplateHooks) : TemplateHooks := {|
  OnAdd := match OnAdd hookSet with
           | None => OnAdd combined
           | Some next => Some (fun k t u =>
               match OnAdd combined with Some prev => prev k t u | None => [] end ++ next k t u)
           end;
  OnAccess := match OnAccess hookSet with
              | None => OnAccess combined
              | Some next => Some (fun k t =>
                  match OnAccess combined with Some prev => prev k t | None => [] end ++ next k t)
              end;
  OnRemove := match OnRemove hookSet with
              | None => OnRemove combined
              | Some next => Some (fun k t =>
                  match OnRemove combined with Some prev => prev k t | None => [] end ++ next k t)
              end
|}.
Definition ComposeHooks (hs : list TemplateHooks) : TemplateHooks := fold_left compose_one hs no_template_hooks.

Definition is_set {A} (h : option A) : bool := match h with Some _ => true | None => false end.

(** [buildStoreHooks]: which of the store's hooks are set, and what a call of one does. *)
Definition buildStoreHooks (h : TemplateHooks) : Hooks flowStoreTemplateKey template :=
  {| OnSetMutate := None; OnSet := is_set (OnAdd h); OnDelete := is_set (OnRemove h); OnGet := is_set (OnAccess h) |}.
Definition dispatch (h : TemplateHooks) (e : hookEvent flowStoreTemplateKey template) : list E :=
  match e with
  | hookEventSet k t existed => match OnAdd h with Some f => f k t existed | None => [] end
  | hookEventGet k t => match OnAccess h with Some f => f k t | None => [] end
  | hookEventDelete k t _ => match OnRemove h with Some f => f k t | None => [] end
  end.

(** ** The store *)

(** [now]: what [s.now()] reads while a method runs.  The effects of the hooks of
    [WithCloseHook] are kept apart, in [closed]. *)
Record TemplateFlowStore : Type := {
  store : Store flowStoreTemplateKey template;
  tttl : Z;
  extendOnAccess : bool;
  sweepInterval : Z;
  now : Z;
  closeOnce : bool;
  startOnce : bool;
  thooks : TemplateHooks;
  closeHooks : list E;
  closed : list E
}.

Definition set_store (st : Store flowStoreTemplateKey template) (s : TemplateFlowStore) : TemplateFlowStore :=
  {| store := st; tttl := tttl s; extendOnAccess := extendOnAccess s; sweepInterval := sweepInterval s;
     now := now s; closeOnce := closeOnce s; startOnce := startOnce s; thooks := thooks s;
     closeHooks := closeHooks s; closed := closed s |}.
Definition set_config (ttl : Z) (extend : bool) (sweep : Z) (h : TemplateHooks) (ch : list E)
    (s : TemplateFlowStore) : TemplateFlowStore :=
  {| store := store s; tttl := ttl; extendOnAccess := extend; sweepInterval := sweep;
     now := now s; closeOnce := closeOnce s; startOnce := startOnce s; thooks := h;
     closeHooks := ch; closed := closed s |}.

(** The clock moves to [t]. *)
Definition at_time (t : Z) (s : TemplateFlowStore) : TemplateFlowStore :=
  {| store := store s; tttl := tttl s; extendOnAccess := extendOnAccess s; sweepInterval := sweepInterval s;
     now := t; closeOnce := closeOnce s; startOnce := startOnce s; thooks := thooks s;
     closeHooks := closeHooks s; closed := closed s |}.

Definition FlowStoreOption : Type := TemplateFlowStore -> TemplateFlowStore.
Definition WithTTL (d : Z) : FlowStoreOption := fun s =>
  set_config d (extendOnAccess s) (sweepInterval s) (thooks s) (closeHooks s) s.
Definition WithExtendOnAccess (enable : bool) : FlowStoreOption := fun s =>
  set_config (tttl s) enable (sweepInterval s) (thooks s) (closeHooks s) s.
Definition WithSweepInterval (i : Z) : FlowStoreOption := fun s =>
  set_config (tttl s) (extendOnAccess s) i (thooks s) (closeHooks s) s.
Definition WithHooks (h : TemplateHooks) : FlowStoreOption := fun s =>
  set_config (tttl s) (extendOnAccess s) (sweepInterval s) (ComposeHooks [thooks s; h]) (closeHooks s) s.
Definition WithCloseHook (hook : option E) : FlowStoreOption := fun s =>
  match hook with
  | None => s
  | Some e => set_config (tttl s) (extendOnAccess s) (sweepInterval s) (thooks s) (closeHooks s ++ [e]) s
  end.

(** [time.Minute], in nanoseconds. *)
Definition minute : Z := 60000000000.

Definition NewTemplateFlowStore (clock : Z) (opts : list (option FlowStoreOption)) : TemplateFlowStore :=
  let s := fold_left (fun s opt => match opt with Some f => f s | None => s end) opts
    {| store := NewStore []; tttl := 0; extendOnAccess := false; sweepInterval := minute; now := clock;
       closeOnce := false; startOnce := false; thooks := no_template_hooks; closeHooks := []; closed := [] |} in
  set_store (NewStore (
    [WithRefreshTTLOnWrite; WithExpireHook (Some (fun _ _ => (false, 0)))] ++
    (if extendOnAccess s then [WithRefreshTTLOnRead] else []) ++
    (if 0 <? tttl s then [WithDefaultTTL (tttl s)] else []) ++
    [FlowStore.WithHooks (buildStoreHooks (thooks s))])) s.

(** A method of the wrapped store. *)
Definition on_store {A} (m : ST (Store flowStoreTemplateKey template) A) : ST TemplateFlowStore A := fun s =>
  let '(r, st) := m (store s) in (r, set_store st s).
Definition clock : ST TemplateFlowStore Z := fun s => (Ok (now s), s).

Definition Start : ST TemplateFlowStore unit := fun s =>
  if startOnce s then (Ok tt, s)
  else on_store (FlowStore.Start (sweepInterval s))
    {| store := store s; tttl := tttl s; extendOnAccess := extendOnAccess s; sweepInterval := sweepInterval s;
       now := now s; closeOnce := closeOnce s; startOnce := true; thooks := thooks s;
       closeHooks := closeHooks s; closed := closed s |}.
Definition Close : ST TemplateFlowStore unit := fun s =>
  if closeOnce s then (Ok tt, s)
  else on_store FlowStore.Stop
    {| store := store s; tttl := tttl s; extendOnAccess := extendOnAccess s; sweepInterval := sweepInterval s;
       now := now s; closeOnce := true; startOnce := startOnce s; thooks := thooks s;
       closeHooks := closeHooks s; closed := closed s ++ closeHooks s |}.

Definition key_of (ctx : FlowContext) (version obsDomainId templateId : Z) : flowStoreTemplateKey :=
  {| tkRouterKey := RouterKey ctx; tkVersion := version; tkObsDomainID := obsDomainId; tkTemplateID := templateId |}.

Definition AddTemplate_ (ctx : FlowContext) (version obsDomainId templateId : Z) (tpl : template)
    : ST TemplateFlowStore TemplateStatus :=
  let key := key_of ctx version obsDomainId templateId in
  let* now := clock in
  let* existing := on_store (GetQuiet now key (Some zero)) in
  let* now := clock in
  let* r := on_store (Set_ now key tpl []) in
  match r.2 with
  | Some err => fail (Wrap "flowstore templates add" [version; obsDomainId; templateId] err)
  | None => ret (if existing.1 then TemplateUpdated else TemplateAdded)
  end.

Definition GetTemplate_ (ctx : FlowContext) (version obsDomainId templateId : Z) : ST TemplateFlowStore template :=
  let key := key_of ctx version obsDomainId templateId in
  let* now := clock in
  let* r := on_store (Get now key (Some zero)) in
  match r with
  | (true, Some tpl) => ret tpl
  | _ => fail ErrorTemplateNotFound
  end.

(** The template and [true], or the error. *)
Definition RemoveTemplate (ctx : FlowContext) (version obsDomainId templateId : Z)
    : ST TemplateFlowStore (template * bool) :=
  let key := key_of ctx version obsDomainId templateId in
  let* now := clock in
  let* r := on_store (GetQuiet now key (Some zero)) in
  match r with
  | (true, Some tpl) =>
      let* deleted := on_store (Delete key) in
      if deleted then ret (tpl, true) else fail ErrorTemplateNotFound
  | _ => fail ErrorTemplateNotFound
  end.

(** ** Snapshots *)

Definition composeTemplateKey (version obsDomainId templateId : Z) : Z :=
  Z.lor (Z.lor (Z.shiftl version 48) (Z.shiftl obsDomainId 16)) templateId.
Definition decodeTemplateKey (key : Z) : Z * Z * Z :=
  (to_uint 16 (Z.shiftr key 48), to_uint 32 (Z.land (Z.shiftr key 16) 0xFFFFFFFF), to_uint 16 (Z.land key 0xFFFF)).

Definition snapshot_add (ret : gmap string FlowBaseTemplateSet) (i : flowStoreTemplateKey * template)
    : gmap string FlowBaseTemplateSet :=
  let router := tkRouterKey i.1 in
  let bucket := default ∅ (ret !! router) in
  <[router := <[composeTemplateKey (tkVersion i.1) (tkObsDomainID i.1) (tkTemplateID i.1) := i.2]> bucket]> ret.
Definition GetAll : ST TemplateFlowStore (gmap string FlowBaseTemplateSet) :=
  let* now := clock in
  let* items := on_store (Range now (fun _ _ => true)) in
  ret (foldl snapshot_add ∅ items).

(** ** The contract *)

(** What the hooks have done so far. *)
Definition effects (s : TemplateFlowStore) : list E := flat_map (dispatch (thooks s)) (calls (store s)).

(** What [NewTemplateFlowStore] sets up and every method keeps. *)
Record ok (s : TemplateFlowStore) : Prop := {
  ok_plain : plain (store s);
  ok_refresh : refreshTTL (settings (store s)) = true;
  ok_hooks : hooks (settings (store s)) = buildStoreHooks (thooks s)
}.

Definition template_lookup (s : TemplateFlowStore) (ctx : FlowContext) (v d t : Z) : option template :=
  view (now s) (contents (mem (store s))) (key_of ctx v d t).

(** [s'] is [s] with another wrapped store of the same settings. *)
Definition same_config (s s' : TemplateFlowStore) : Prop :=
  now s' = now s /\ thooks s' = thooks s /\ settings (store s') = settings (store s).

Definition key_ok (k : flowStoreTemplateKey) : Prop :=
  u16 (tkVersion k) /\ u32 (tkObsDomainID k) /\ u16 (tkTemplateID k).

(** ** Lemmas *)

Lemma compose_one_dispatch h1 h2 e : dispatch (compose_one h1 h2) e = dispatch h1 e ++ dispatch h2 e.
Proof.
  destruct e; simpl.
  - destruct (OnAdd h2); [done|]. by rewrite app_nil_r.
  - destruct (OnRemove h2); [done|]. by rewrite app_nil_r.
  - destruct (OnAccess h2); [done|]. by rewrite app_nil_r.
Qed.

Lemma ok_set_store s st : ok s -> plain st -> settings st = settings (store s) -> ok (set_store st s).
Proof. intros [] Hp Hs. constructor; simpl; [done|by rewrite Hs..]. Qed.

Lemma lookup_key s s' : now s' = now s ->
  (forall j, view (now s) (contents (mem (store s'))) j = view (now s) (contents (mem (store s))) j) ->
  forall ctx v d t, template_lookup s' ctx v d t = template_lookup s ctx v d t.
Proof. intros Hn Hv ctx v d t. unfold template_lookup. by rewrite Hn. Qed.

Lemma key_of_inj ctx v d t ctx' v' d' t' :
  key_of ctx' v' d' t' = key_of ctx v d t <-> (ctx', v', d', t') = (ctx, v, d, t).
Proof.
  destruct ctx as [r], ctx' as [r']. unfold key_of. simpl. split; [by intros [= -> -> -> ->]|by intros [= -> -> -> ->]].
Qed.

Lemma AddTemplate_ok s ctx v d t tpl : ok s ->
  exists s', AddTemplate_ ctx v d t tpl s =
      (Ok (match template_lookup s ctx v d t with Some _ => TemplateUpdated | None => TemplateAdded end), s') /\
    ok s' /\ same_config s s' /\
    forall ctx' v' d' t', template_lookup s' ctx' v' d' t' =
      if decide ((ctx', v', d', t') = (ctx, v, d, t)) then Some tpl else template_lookup s ctx' v' d' t'.
Proof.
  intros Hs. unfold AddTemplate_, clock, on_store, bind. cbv beta iota.
  destruct (plain_get (store s) (now s) (key_of ctx v d t) zero false (ok_plain s Hs)) as (s1 & E1 & P1 & S1 & V1).
  unfold GetQuiet. rewrite E1.
  change (now (set_store s1 s)) with (now s). change (store (set_store s1 s)) with s1.
  destruct (plain_Set s1 (now s) (key_of ctx v d t) tpl P1) as (s2 & E2 & P2 & S2 & V2).
  rewrite E2. cbn [fst snd]. exists (set_store s2 (set_store s1 s)). splits.
  - unfold template_lookup. by destruct (view _ _ _).
  - apply ok_set_store; [by apply ok_set_store|done|done].
  - unfold same_config. splits; [done|done|]. simpl. by rewrite S2.
  - intros ctx' v' d' t'. unfold template_lookup. simpl. rewrite V2, V1.
    destruct (decide (key_of ctx' v' d' t' = key_of ctx v d t)) as [Hk|Hk].
    + by rewrite decide_True by (by apply key_of_inj).
    + by rewrite decide_False by (by rewrite <- key_of_inj).
Qed.

Lemma GetTemplate_ok s ctx v d t : ok s ->
  exists s', GetTemplate_ ctx v d t s =
      (match template_lookup s ctx v d t with Some tpl => Ok tpl | None => Err ErrorTemplateNotFound end, s') /\
    ok s' /\ same_config s s' /\
    forall ctx' v' d' t', template_lookup s' ctx' v' d' t' = template_lookup s ctx' v' d' t'.
Proof.
  intros Hs. unfold GetTemplate_, clock, on_store, bind. cbv beta iota.
  destruct (plain_get (store s) (now s) (key_of ctx v d t) zero true (ok_plain s Hs)) as (s1 & E1 & P1 & S1 & V1).
  unfold Get. rewrite E1. exists (set_store s1 s). splits.
  - unfold template_lookup. by destruct (view _ _ _).
  - by apply ok_set_store.
  - done.
  - by apply lookup_key.
Qed.

Lemma RemoveTemplate_ok s ctx v d t : ok s ->
  exists s', RemoveTemplate ctx v d t s =
      (match template_lookup s ctx v d t with Some tpl => Ok (tpl, true) | None => Err ErrorTemplateNotFound end, s') /\
    ok s' /\ same_config s s' /\
    forall ctx' v' d' t', template_lookup s' ctx' v' d' t' =
      if decide ((ctx', v', d', t') = (ctx, v, d, t)) then None else template_lookup s ctx' v' d' t'.
Proof.
  intros Hs. unfold RemoveTemplate, clock, on_store, bind. cbv beta iota.
  destruct (plain_get (store s) (now s) (key_of ctx v d t) zero false (ok_plain s Hs)) as (s1 & E1 & P1 & S1 & V1).
  unfold GetQuiet. rewrite E1. change (store (set_store s1 s)) with s1. unfold template_lookup at 1.
  assert (Hdec : forall A ctx' v' d' t' (x y : A),
    (if decide ((ctx', v', d', t') = (ctx, v, d, t)) then x else y) =
    (if decide (key_of ctx' v' d' t' = key_of ctx v d t) then x else y)).
  { intros. apply decide_ext. symmetry. apply key_of_inj. }
  destruct (view (now s) (contents (mem (store s))) (key_of ctx v d t)) as [tpl|] eqn:Hv.
  - destruct (plain_Delete s1 (now s) (key_of ctx v d t) P1) as (b & s2 & E2 & P2 & S2 & B2 & V2).
    unfold ret. cbv beta iota. change (store (set_store s1 s)) with s1. rewrite E2. assert (b = true) as -> by (apply B2; by rewrite V1, Hv).
    exists (set_store s2 (set_store s1 s)). splits; [done| | |].
    + apply ok_set_store; [by apply ok_set_store|done|done].
    + unfold same_config. splits; [done|done|]. simpl. by rewrite S2.
    + intros ctx' v' d' t'. rewrite Hdec. unfold template_lookup. simpl. by rewrite V2, V1.
  - exists (set_store s1 s). splits; [done|by apply ok_set_store|done|].
    intros ctx' v' d' t'. rewrite Hdec. unfold template_lookup. simpl. rewrite V1.
    destruct (decide _) as [->|]; [by rewrite Hv|done].
Qed.

Lemma new_ok time opts : ok (NewTemplateFlowStore time opts) /\
  forall ctx v d t, template_lookup (NewTemplateFlowStore time opts) ctx v d t = None.
Proof.
  unfold NewTemplateFlowStore. cbv zeta.
  match goal with |- context [set_store (NewStore ?l) ?x] => generalize x end.
  intros s. match goal with |- context [set_store (NewStore ?l) s] => set (l0 := l) end.
  assert (Hstd : Forall standard l0).
  { unfold l0. repeat apply Forall_app_2; repeat constructor; by case_match; repeat constructor. }
  destruct (new_store l0 Hstd) as (HI & Hc & _). split.
  - assert (Hx : settings (NewStore l0) = {| onExpire := Some (fun _ _ => (false, 0));
      defaultTTL := (if 0 <? tttl s then tttl s else 0); refreshTTL := true;
      refreshTTLOnRead := extendOnAccess s; maxSize := 0; hooks := buildStoreHooks (thooks s) |}).
    { unfold l0. by destruct (extendOnAccess s), (0 <? tttl s). }
    constructor; simpl; [constructor|..]; try done; by rewrite Hx.
  - intros ctx v d t. unfold template_lookup, view. simpl. by rewrite Hc.
Qed.

(** ** As a [TemplateStore] *)

(** The stores the package builds, as the decoder sees them. *)
Definition ManagedStore : Type := { s : TemplateFlowStore | ok s }.

Definition managed {A} (m : ST TemplateFlowStore A) (Hm : forall s, ok s -> ok (snd (m s))) : ST ManagedStore A :=
  fun s => (fst (m (proj1_sig s)), exist _ (snd (m (proj1_sig s))) (Hm _ (proj2_sig s))).

Lemma AddTemplate_keeps ctx v d t tpl s : ok s -> ok (snd (AddTemplate_ ctx v d t tpl s)).
Proof. intros Hs. destruct (AddTemplate_ok s ctx v d t tpl Hs) as (s' & -> & ? & _). done. Qed.
Lemma GetTemplate_keeps ctx v d t s : ok s -> ok (snd (GetTemplate_ ctx v d t s)).
Proof. intros Hs. destruct (GetTemplate_ok s ctx v d t Hs) as (s' & -> & ? & _). done. Qed.

Definition new_managed (time : Z) (opts : list (option FlowStoreOption)) : ManagedStore :=
  exist _ (NewTemplateFlowStore time opts) (proj1 (new_ok time opts)).
End hooks.

#[global] Arguments TemplateHooks : clear implicits.
#[global] Arguments TemplateFlowStore : clear implicits.
#[global] Arguments ManagedStore : clear implicits.

#[export] Instance ManagedStore_TemplateStore {E} : TemplateStore (ManagedStore E) := {
  AddTemplate ctx v d t tpl := managed (AddTemplate_ ctx v d t tpl) (AddTemplate_keeps ctx v d t tpl);
  GetTemplate ctx v d t := managed (GetTemplate_ ctx v d t) (GetTemplate_keeps ctx v d t)
}.

#[export] Program Instance ManagedStore_Spec {E} : TemplateStoreSpec (ManagedStore E) := {
  template_view s ctx v d t := template_lookup (proj1_sig s) ctx v d t
}.
Next Obligation.
  intros E [s Hs] ctx v d t tpl. do 2 eexists. unfold AddTemplate. simpl. unfold managed. simpl.
  destruct (AddTemplate_ok s ctx v d t tpl Hs) as (s' & Heq & _ & _ & Hv). splits.
  - apply pair_equal_spec. split; [by rewrite Heq|reflexivity].
  - simpl. rewrite Heq. simpl. rewrite Hv. by rewrite decide_True.
  - intros ctx' v' d' t' Hne. simpl. rewrite Heq. simpl. rewrite Hv. by rewrite decide_False.
Qed.
Next Obligation.
  intros E [s Hs] ctx v d t tpl Hv. simpl in *. unfold managed. simpl.
  destruct (GetTemplate_ok s ctx v d t Hs) as (s' & Heq & _ & _ & Hv'). eexists. split.
  - apply pair_equal_spec. split; [by rewrite Heq, Hv|reflexivity].
  - intros. simpl. rewrite Heq. apply Hv'.
Qed.
Next Obligation.
  intros E [s Hs] ctx v d t Hv. simpl in *. unfold managed. simpl.
  destruct (GetTemplate_ok s ctx v d t Hs) as (s' & Heq & _ & _ & Hv'). eexists. split.
  - apply pair_equal_spec. split; [by rewrite Heq, Hv|reflexivity].
  - intros. simpl. rewrite Heq. apply Hv'.
Qed.
