(* ===== verification/TemplateStoreProps.v ===== *)
(** * Properties of the template store *)
From S2P Require Import Prelude NetflowTypes FlowStore FlowStoreSpec FlowStoreRefine FlowStoreProps FlowStoreView TemplateStore.

(** ** Snapshot keys *)

Lemma composeTemplateKey_sum v d t : u32 d -> u16 t ->
  composeTemplateKey v d t = v * 2 ^ 48 + d * 2 ^ 16 + t.
Proof.
  intros Hd Ht. unfold composeTemplateKey.
  replace (Z.shiftl v 48) with (Z.shiftl (Z.shiftl v 32) 16) by (by rewrite Z.shiftl_shiftl).
  rewrite <- Z.shiftl_lor, (lor_shiftl_low _ 16 t) by (done || lia).
  rewrite lor_shiftl_low by (done || lia). lia.
Qed.

Lemma decode_compose v d t : u16 v -> u32 d -> u16 t ->
  decodeTemplateKey (composeTemplateKey v d t) = (v, d, t).
Proof.
  intros Hv Hd Ht. rewrite composeTemplateKey_sum by done. unfold decodeTemplateKey, to_uint.
  change 0xFFFFFFFF with (Z.ones 32). change 0xFFFF with (Z.ones 16).
  rewrite !Z.land_ones, !Z.shiftr_div_pow2 by lia. unfold uint in *.
  assert (H48 : (v * 2 ^ 48 + d * 2 ^ 16 + t) / 2 ^ 48 = v).
  { symmetry. apply (Z.div_unique _ _ _ (d * 2 ^ 16 + t)); lia. }
  assert (H16 : (v * 2 ^ 48 + d * 2 ^ 16 + t) / 2 ^ 16 = v * 2 ^ 32 + d).
  { symmetry. apply (Z.div_unique _ _ _ t); lia. }
  rewrite H48, H16. f_equal; [f_equal|].
  - apply Z.mod_small. lia.
  - rewrite Z.mod_mod by lia. symmetry. apply (Z.mod_unique _ _ v); lia.
  - rewrite Z.mod_mod by lia. symmetry. apply (Z.mod_unique _ _ (v * 2 ^ 32 + d)); lia.
Qed.

Definition pack (k : flowStoreTemplateKey) : Z := composeTemplateKey (tkVersion k) (tkObsDomainID k) (tkTemplateID k).

Lemma pack_inj k k' : key_ok k -> key_ok k' -> tkRouterKey k = tkRouterKey k' -> pack k = pack k' -> k = k'.
Proof.
  destruct k as [r v d t], k' as [r' v' d' t']. intros (? & ? & ?) (? & ? & ?) Hr Hp. simpl in *. subst.
  unfold pack in Hp. simpl in Hp. assert (Heq : (v, d, t) = (v', d', t')); [|congruence].
  by rewrite <- (decode_compose v d t), <- (decode_compose v' d' t'), Hp.
Qed.

(** ** Snapshots *)

Definition snapshot_lookup (m : gmap string FlowBaseTemplateSet) (k : flowStoreTemplateKey) : option template :=
  m !! tkRouterKey k ≫= fun b => b !! pack k.

Lemma snapshot_add_lookup m i k : key_ok i.1 -> key_ok k ->
  snapshot_lookup (snapshot_add m i) k = if decide (i.1 = k) then Some i.2 else snapshot_lookup m k.
Proof.
  intros Hi Hk. unfold snapshot_lookup, snapshot_add. fold (pack i.1).
  destruct (decide (tkRouterKey i.1 = tkRouterKey k)) as [Hr|Hr].
  - rewrite Hr, lookup_insert_eq. simpl. destruct (decide (i.1 = k)) as [<-|Hne]; [by rewrite lookup_insert_eq|].
    rewrite lookup_insert_ne by (intros Hp; by apply Hne, pack_inj).
    by destruct (m !! tkRouterKey k).
  - rewrite lookup_insert_ne by done. rewrite decide_False; [done|]. intros Hik. apply Hr. by rewrite Hik.
Qed.

Lemma snapshot_lookup_foldl l : forall m k, Forall (fun i => key_ok i.1) l -> key_ok k -> NoDup (map fst l) ->
  (forall t, (k, t) ∈ l -> snapshot_lookup (foldl snapshot_add m l) k = Some t) /\
  (k ∉ map fst l -> snapshot_lookup (foldl snapshot_add m l) k = snapshot_lookup m k).
Proof.
  induction l as [|[j x] l IH]; intros m k Hl Hk Hnd; simpl; [set_solver|].
  apply Forall_cons in Hl as [Hj Hl]. apply NoDup_cons in Hnd as [Hjl Hnd].
  destruct (IH (snapshot_add m (j, x)) k Hl Hk Hnd) as [IH1 IH2]. split.
  - intros t [[= -> ->]|Hin]%elem_of_cons; [|by apply IH1].
    rewrite IH2 by done. rewrite snapshot_add_lookup by done. by rewrite decide_True.
  - intros Hnin. rewrite IH2 by set_solver. rewrite snapshot_add_lookup by done.
    rewrite decide_False; [done|]. simpl. set_solver.
Qed.

(** ** Deadlines *)

Section deadlines.
Context {E : Type}.
Implicit Types s : TemplateFlowStore E.

(** [AddTemplate] gives its key a full TTL. *)
Lemma AddTemplate_deadline s ctx v d id tpl : ok s -> 0 < defaultTTL (settings (store s)) ->
  exists st s1, AddTemplate_ ctx v d id tpl s = (Ok st, s1) /\ ok s1 /\ same_config s s1 /\
    find (key_of ctx v d id) (contents (mem (store s1))) = Some (tpl, now s + defaultTTL (settings (store s))).
Proof.
  intros Hs Hd. unfold AddTemplate_, clock, on_store, bind. cbv beta iota.
  destruct (plain_get (store s) (now s) (key_of ctx v d id) zero false (ok_plain s Hs)) as (s1 & E1 & P1 & S1 & _).
  unfold GetQuiet. rewrite E1.
  change (now (set_store s1 s)) with (now s). change (store (set_store s1 s)) with s1.
  pose proof P1 as [HI1 (_ & Hset & _) _ _ Hmut].
  destruct (find_set (settings s1) (now s) (key_of ctx v d id) tpl (applyEntryOptions []) (contents (mem s1))
    (now s + defaultTTL (settings (store s))) Hset Hmut) as (b & Hr & Hf).
  { unfold expiresAtFor. simpl. rewrite S1. by rewrite (proj2 (Z.ltb_lt _ _)). }
  { intros t0. unfold refreshed. simpl. rewrite S1, (ok_refresh s Hs). by rewrite (proj2 (Z.ltb_lt _ _)). }
  destruct (Set_ok s1 (now s) (key_of ctx v d id) tpl [] HI1) as (s2 & E2 & R2).
  rewrite Hr in E2. rewrite E2. cbn [fst snd]. do 2 eexists. split; [reflexivity|].
  pose proof R2 as [_ Hc2 S2 _ _]. splits.
  - apply ok_set_store; [by apply ok_set_store|by eapply plain_refined|done].
  - unfold same_config. splits; [done|done|]. simpl. by rewrite S2.
  - simpl. by rewrite Hc2.
Qed.

(** A read at [t] of a template with deadline [D]. *)
Lemma GetTemplate_deadline s ctx v d id tpl t D : ok s -> D <> 0 ->
  find (key_of ctx v d id) (contents (mem (store s))) = Some (tpl, D) ->
  exists s', GetTemplate_ ctx v d id (at_time t s) =
      (if t <? D then Ok tpl else Err ErrorTemplateNotFound, s') /\
    ok s' /\ settings (store s') = settings (store s) /\
    (t < D -> find (key_of ctx v d id) (contents (mem (store s'))) =
       Some (tpl, if refreshTTLOnRead (settings (store s)) && (0 <? defaultTTL (settings (store s)))
                  then t + defaultTTL (settings (store s)) else D)).
Proof.
  intros Hs HD Hf. unfold GetTemplate_, clock, on_store, bind. cbv beta iota.
  change (now (at_time t s)) with t. change (store (at_time t s)) with (store s).
  pose proof (ok_plain s Hs) as Hp. pose proof Hp as [HI (_ & Hset & Hcopy) Hx _ _].
  destruct (get_body_ok (store s) t (key_of ctx v d id) (Some zero) true HI) as (s1 & E1 & R1).
  pose proof R1 as [_ Hc1 S1 _ _]. unfold Get. rewrite E1. exists (set_store s1 (at_time t s)).
  assert (Hexp : expired_at D t = negb (t <? D)).
  { unfold expired_at. by rewrite (proj2 (Z.eqb_neq D 0)). }
  unfold spec_get, copied, copyValue in Hc1 |- *. rewrite Hf, Hset, Hcopy, Hexp, Hx in Hc1 |- *. splits.
  - by destruct (t <? D).
  - apply ok_set_store; [|by eapply plain_refined|done]. destruct Hs. by constructor.
  - done.
  - intros Ht. simpl. rewrite Hc1, (proj2 (Z.ltb_lt t D)) by done. cbn [negb].
    destruct (refreshTTLOnRead _ && _); simpl; [|done]. apply find_upd. congruence.
Qed.
End deadlines.

(** ** Properties *)

(** C38: read at an instant, a template store is a map from router, version, domain and
    template id to templates.  A new store is empty; [AddTemplate] binds one key and says
    whether it was bound, [GetTemplate] reads it or answers [ErrorTemplateNotFound],
    [RemoveTemplate] unbinds it and returns what it held; no other key changes. *)
Theorem template_store_contract {E} time (opts : list (option (FlowStoreOption (E := E)))) :
  (ok (NewTemplateFlowStore time opts) /\
   forall ctx v d id, template_lookup (NewTemplateFlowStore time opts) ctx v d id = None) /\
  forall (s : TemplateFlowStore E) ctx v d id, ok s ->
  (forall tpl, exists s', AddTemplate_ ctx v d id tpl s =
       (Ok (match template_lookup s ctx v d id with Some _ => TemplateUpdated | None => TemplateAdded end), s') /\
     ok s' /\ forall ctx' v' d' id', template_lookup s' ctx' v' d' id' =
       if decide ((ctx', v', d', id') = (ctx, v, d, id)) then Some tpl else template_lookup s ctx' v' d' id') /\
  (exists s', GetTemplate_ ctx v d id s =
       (match template_lookup s ctx v d id with Some tpl => Ok tpl | None => Err ErrorTemplateNotFound end, s') /\
     ok s' /\ forall ctx' v' d' id', template_lookup s' ctx' v' d' id' = template_lookup s ctx' v' d' id') /\
  (exists s', RemoveTemplate ctx v d id s =
       (match template_lookup s ctx v d id with Some tpl => Ok (tpl, true) | None => Err ErrorTemplateNotFound end, s') /\
     ok s' /\ forall ctx' v' d' id', template_lookup s' ctx' v' d' id' =
       if decide ((ctx', v', d', id') = (ctx, v, d, id)) then None else template_lookup s ctx' v' d' id').
Proof.
  split; [apply new_ok|]. intros s ctx v d id Hs. splits.
  - intros tpl. destruct (AddTemplate_ok s ctx v d id tpl Hs) as (s' & ? & ? & _ & ?). eauto.
  - destruct (GetTemplate_ok s ctx v d id Hs) as (s' & ? & ? & _ & ?). eauto.
  - destruct (RemoveTemplate_ok s ctx v d id Hs) as (s' & ? & ? & _ & ?). eauto.
Qed.

(** With a TTL, a template is found until the TTL has passed since it was added and
    never after; a hit starts a new TTL exactly when the store extends on access. *)
Theorem template_ttl {E} (s : TemplateFlowStore E) ctx v d id tpl ttl :
  ok s -> defaultTTL (settings (store s)) = ttl -> 0 < ttl -> 0 <= now s ->
  exists st s1, AddTemplate_ ctx v d id tpl s = (Ok st, s1) /\
    forall t, 0 <= t ->
    (now s + ttl <= t -> fst (GetTemplate_ ctx v d id (at_time t s1)) = Err ErrorTemplateNotFound) /\
    (t < now s + ttl -> exists s2, GetTemplate_ ctx v d id (at_time t s1) = (Ok tpl, s2) /\
       forall t2, fst (GetTemplate_ ctx v d id (at_time t2 s2)) =
         if t2 <? (if refreshTTLOnRead (settings (store s)) then t else now s) + ttl
         then Ok tpl else Err ErrorTemplateNotFound).
Proof.
  intros Hs Hd Httl Hnow.
  destruct (AddTemplate_deadline s ctx v d id tpl Hs) as (st & s1 & E1 & Hs1 & (_ & _ & S1) & Hf1); [lia|].
  exists st, s1. split; [done|]. intros t Ht. rewrite Hd in Hf1.
  destruct (GetTemplate_deadline s1 ctx v d id tpl t (now s + ttl) Hs1 ltac:(lia) Hf1) as (s2 & E2 & Hs2 & S2 & Hf2).
  split; intros Hlt; rewrite E2.
  - by rewrite (proj2 (Z.ltb_ge _ _)).
  - rewrite (proj2 (Z.ltb_lt _ _)) by done. exists s2. split; [done|]. intros t2. specialize (Hf2 Hlt).
    rewrite S1, Hd, (proj2 (Z.ltb_lt 0 ttl)), andb_true_r in Hf2 by done.
    destruct (GetTemplate_deadline s2 ctx v d id tpl t2
      ((if refreshTTLOnRead (settings (store s)) then t else now s) + ttl) Hs2) as (s3 & E3 & _).
    + destruct (refreshTTLOnRead _); lia.
    + rewrite Hf2. by destruct (refreshTTLOnRead _).
    + by rewrite E3.
Qed.

(** The 64-bit snapshot key holds version, domain and template id: it decodes to them,
    two keys agree only when all three do, and it is the key the decoder's own template
    sets use. *)
Theorem template_key_roundtrip v d t v' d' t' : u16 v -> u32 d -> u16 t -> u16 v' -> u32 d' -> u16 t' ->
  decodeTemplateKey (composeTemplateKey v d t) = (v, d, t) /\
  u64 (composeTemplateKey v d t) /\
  (composeTemplateKey v d t = composeTemplateKey v' d' t' -> (v, d, t) = (v', d', t')) /\
  composeTemplateKey v d t = templateKey v d t.
Proof.
  intros. splits.
  - by apply decode_compose.
  - rewrite composeTemplateKey_sum by done. unfold uint in *. lia.
  - intros Hc. by rewrite <- (decode_compose v d t), <- (decode_compose v' d' t'), Hc.
  - done.
Qed.

(** [GetAll] is the whole store: under a router and a packed key the snapshot holds
    what a lookup finds, nothing when it finds nothing, and taking it changes no lookup. *)
Theorem template_getall {E} (s : TemplateFlowStore E) :
  ok s -> Forall key_ok (keys (contents (mem (store s)))) ->
  exists ret s', GetAll s = (Ok ret, s') /\ ok s' /\
    (forall ctx v d id, template_lookup s' ctx v d id = template_lookup s ctx v d id) /\
    forall ctx v d id, u16 v -> u32 d -> u16 id ->
      (ret !! RouterKey ctx ≫= fun b => b !! composeTemplateKey v d id) = template_lookup s ctx v d id.
Proof.
  intros Hs Hk. unfold GetAll, clock, on_store, bind. cbv beta iota.
  destruct (plain_Range (store s) (now s) (ok_plain s Hs)) as (s1 & E1 & P1 & S1 & V1). rewrite E1.
  pose proof (inv_keys_nodup _ (plain_inv _ (ok_plain s Hs))) as Hnd.
  do 2 eexists. splits; [reflexivity|by apply ok_set_store|by apply lookup_key|].
  intros ctx v d id Hv Hd Hid. set (its := contents (mem (store s))) in *.
  assert (Hsub : unexpired (now s) its `sublist_of` its) by apply filter_sublist.
  assert (Hmap : forall l : list (flowStoreTemplateKey * template * Z), map fst (pairs l) = keys l).
  { intros l. unfold pairs, keys. by rewrite map_map. }
  destruct (snapshot_lookup_foldl (pairs (unexpired (now s) its)) ∅ (key_of ctx v d id)) as [H1 H2].
  - apply Forall_forall. intros i Hi. apply (proj1 (Forall_forall _ _) Hk). apply list_elem_of_fmap in Hi as (x & -> & Hi).
    apply list_elem_of_fmap. exists x. split; [done|]. apply list_elem_of_In. unfold unexpired in Hi.
    apply list_elem_of_In, filter_In in Hi. apply Hi.
  - done.
  - rewrite Hmap. eapply sublist_NoDup; [exact Hnd|]. by apply keys_sublist.
  - unfold template_lookup. fold its.
    change (snapshot_lookup (foldl snapshot_add ∅ (pairs (unexpired (now s) its))) (key_of ctx v d id)
            = view (now s) its (key_of ctx v d id)).
    destruct (view (now s) its (key_of ctx v d id)) as [tpl|] eqn:Hview.
    + apply H1. by apply view_elem.
    + rewrite H2; [unfold snapshot_lookup; by rewrite lookup_empty|].
      intros ([k x] & Hkx & Hin)%list_elem_of_fmap. simpl in Hkx. subst k. apply view_elem in Hin; [|done]. congruence.
Qed.

(** When [RemoveTemplate] meets an expired template, the template goes away but
    [OnRemove] is not called; the sweeper's [ExpireStale] does call it. *)
Theorem template_remove_expired_silent {E} (s : TemplateFlowStore E) ctx v d id tpl t f :
  ok s -> OnRemove (thooks s) = Some f ->
  find (key_of ctx v d id) (contents (mem (store s))) = Some (tpl, t) -> expired_at t (now s) = true ->
  (exists s', RemoveTemplate ctx v d id s = (Err ErrorTemplateNotFound, s') /\
     find (key_of ctx v d id) (contents (mem (store s'))) = None /\ effects s' = effects s) /\
  (exists n s' pre post, on_store (ExpireStale (now s)) s = (Ok n, s') /\
     find (key_of ctx v d id) (contents (mem (store s'))) = None /\
     effects s' = effects s ++ pre ++ f (key_of ctx v d id) tpl ++ post).
Proof.
  intros Hs Hrm Hf Hexp. pose proof (ok_plain s Hs) as Hp. pose proof Hp as [HI _ Hx _ _]. split.
  - unfold RemoveTemplate, clock, on_store, bind. cbv beta iota.
    destruct (get_body_ok (store s) (now s) (key_of ctx v d id) (Some zero) false HI) as (s1 & E1 & [_ Hc1 _ Hcls1 _]).
    unfold GetQuiet. rewrite E1. unfold spec_get in Hc1, Hcls1 |- *. rewrite Hf, Hexp, Hx in Hc1, Hcls1 |- *.
    exists (set_store s1 s). splits; [done| |].
    + simpl. rewrite Hc1. apply find_rem.
    + unfold effects. simpl. by rewrite Hcls1, app_nil_r.
  - destruct (ExpireStale_ok (store s) (now s) HI) as (s1 & E1 & [_ Hc1 _ Hcls1 _]).
    unfold spec_expire in E1, Hc1, Hcls1. rewrite (surjective_pairing (prune _ _ _)) in E1, Hc1, Hcls1.
    cbn [fst snd] in E1, Hc1, Hcls1. rewrite prune_plain in Hc1 by done.
    pose proof (find_Some_elem _ _ _ _ Hf) as Hin.
    assert (Hl : (key_of ctx v d id, tpl, t) ∈ List.filter (lapsed (settings (store s)) (now s)) (contents (mem (store s)))).
    { apply list_elem_of_In, filter_In. split; [by apply list_elem_of_In|]. unfold lapsed. simpl. by rewrite Hexp, Hx. }
    apply list_elem_of_split in Hl as (l1 & l2 & Hl).
    assert (Hseen : seen (settings (store s)) (prune (settings (store s)) (now s) (contents (mem (store s)))).2
                    = (prune (settings (store s)) (now s) (contents (mem (store s)))).2).
    { apply filter_all. intros e He. unfold prune in He. simpl in He.
      apply list_elem_of_fmap in He as (i & -> & _). simpl. rewrite (ok_hooks s Hs). simpl. by rewrite Hrm. }
    rewrite Hseen in Hcls1. unfold prune in Hcls1. cbn [snd] in Hcls1. rewrite Hl, map_app in Hcls1.
    exists (len (prune (settings (store s)) (now s) (contents (mem (store s)))).2), (set_store s1 s).
    exists (flat_map (dispatch (thooks s)) (map (removal DeleteReasonExpired) l1)).
    exists (flat_map (dispatch (thooks s)) (map (removal DeleteReasonExpired) l2)). splits.
    + unfold on_store. by rewrite E1.
    + simpl. rewrite Hc1. apply find_None. intros (i & Hi & Hu)%list_elem_of_fmap.
      apply list_elem_of_In, filter_In in Hu as [Hu Hne%negb_true_iff]. apply list_elem_of_In in Hu.
      destruct i as [[k x] u]. simpl in Hi, Hne. subst k. apply elem_find_Some in Hu; [|by apply inv_keys_nodup]. congruence.
    + unfold effects. simpl. rewrite Hcls1, !flat_map_app. simpl. by rewrite Hrm.
Qed.

(** [ComposeHooks] runs the hooks of each set that has them, in the order given, and
    nothing else. *)
Lemma compose_hooks_order {E} (hs : list (TemplateHooks E)) e :
  dispatch (ComposeHooks hs) e = flat_map (fun h => dispatch h e) hs.
Proof.
  unfold ComposeHooks.
  assert (Hgen : forall h0, dispatch (fold_left compose_one hs h0) e = dispatch h0 e ++ flat_map (fun h => dispatch h e) hs).
  { induction hs as [|h hs IH]; intros h0; simpl; [by rewrite app_nil_r|]. by rewrite IH, compose_one_dispatch, <- app_assoc. }
  rewrite Hgen. by destruct e.
Qed.

(** ** Witnesses *)

Definition demo_router : FlowContext := {| RouterKey := "192.0.2.1" |}.
Definition demo_template : template :=
  T_Template {| TemplateId := 256; FieldCount := 1; Fields := [{| PenProvided := false; Type_ := 8; Length := 4; Pen := 0 |}] |}.
(** Each hook call leaves the template id of the key, shifted by the kind of call. *)
Definition demo_hooks : TemplateHooks Z := {|
  OnAdd := Some (fun k _ _ => [tkTemplateID k]);
  OnAccess := None;
  OnRemove := Some (fun k _ => [tkTemplateID k + 100000])
|}.
Definition demo_options : list (option (FlowStoreOption (E := Z))) :=
  [Some (TemplateStore.WithTTL 50); None; Some (WithExtendOnAccess true); Some (TemplateStore.WithHooks demo_hooks)].
Definition demo_store : TemplateFlowStore Z := NewTemplateFlowStore 1000 demo_options.
Definition demo_filled : TemplateFlowStore Z := snd (AddTemplate_ demo_router 9 7 256 demo_template demo_store).

Lemma demo_ok : ok demo_store.
Proof. apply new_ok. Qed.
Lemma demo_filled_ok : ok demo_filled.
Proof. apply AddTemplate_keeps, demo_ok. Qed.
Lemma demo_late_ok : ok (at_time 2000 demo_filled).
Proof. destruct demo_filled_ok. by constructor. Qed.

Lemma template_store_contract_witness :
  exists s', AddTemplate_ demo_router 9 7 256 demo_template demo_store = (Ok TemplateAdded, s') /\
    template_lookup s' demo_router 9 7 256 = Some demo_template.
Proof.
  destruct (template_store_contract 1000 demo_options) as [_ Hc].
  destruct (Hc demo_store demo_router 9 7 256 demo_ok) as [Ha _].
  destruct (Ha demo_template) as (s' & E & _ & Hv). exists s'. split; [exact E|].
  rewrite Hv. reflexivity.
Defined.

Lemma template_ttl_witness :
  exists st s1 s2, AddTemplate_ demo_router 9 7 256 demo_template demo_store = (Ok st, s1) /\
    GetTemplate_ demo_router 9 7 256 (at_time 1040 s1) = (Ok demo_template, s2) /\
    fst (GetTemplate_ demo_router 9 7 256 (at_time 1089 s2)) = Ok demo_template /\
    fst (GetTemplate_ demo_router 9 7 256 (at_time 1090 s2)) = Err ErrorTemplateNotFound.
Proof.
  destruct (template_ttl demo_store demo_router 9 7 256 demo_template 50 demo_ok) as (st & s1 & E1 & Ht);
    [reflexivity|lia|vm_compute; congruence|].
  destruct (proj2 (Ht 1040 ltac:(lia)) ltac:(vm_compute; reflexivity)) as (s2 & E2 & Hg).
  exists st, s1, s2. split; [exact E1|]. split; [exact E2|]. split; rewrite Hg; reflexivity.
Defined.

Lemma template_key_roundtrip_witness :
  decodeTemplateKey (composeTemplateKey 10 4294967295 256) = (10, 4294967295, 256).
Proof. apply (template_key_roundtrip 10 4294967295 256 9 0 0); unfold uint; lia. Defined.

Lemma template_getall_witness :
  exists ret s', GetAll demo_filled = (Ok ret, s') /\
    (ret !! "192.0.2.1" ≫= fun b => b !! composeTemplateKey 9 7 256) = Some demo_template.
Proof.
  destruct (template_getall demo_filled demo_filled_ok) as (ret & s' & E & _ & _ & Hl).
  - assert (Hk : keys (contents (mem (store demo_filled))) = [key_of demo_router 9 7 256]) by (vm_compute; reflexivity).
    rewrite Hk. apply Forall_singleton. unfold key_ok, uint. simpl. lia.
  - exists ret, s'. split; [exact E|]. specialize (Hl demo_router 9 7 256). simpl RouterKey in Hl.
    rewrite Hl; [vm_compute; reflexivity|..]; unfold uint; lia.
Defined.

Lemma template_remove_expired_silent_witness :
  exists s', RemoveTemplate demo_router 9 7 256 (at_time 2000 demo_filled) = (Err ErrorTemplateNotFound, s') /\
    effects s' = [256].
Proof.
  destruct (template_remove_expired_silent (at_time 2000 demo_filled) demo_router 9 7 256 demo_template 1050
    (fun k _ => [tkTemplateID k + 100000]) demo_late_ok) as ((s' & E & _ & He) & _);
    [reflexivity|vm_compute; reflexivity|reflexivity|].
  exists s'. split; [exact E|]. rewrite He. vm_compute. reflexivity.
Defined.
