(* ===== verification/SamplingRate.v ===== *)
(** * utils/store/samplingrate: the TTL-backed sampling-rate store

    [SamplingRateFlowStore] of [store.go] over [FlowStore]: a map from router, version and
    observation domain to a rate, its hooks and its snapshot keys. *)
From S2P Require Import Prelude NetflowTypes FlowStore FlowStoreSpec FlowStoreRefine FlowStoreProps FlowStoreView.

Record flowStoreSamplingRateKey : Type := { skRouterKey : string; skVersion : Z; skObsDomainID : Z }.

#[export] Instance flowStoreSamplingRateKey_eq_dec : EqDecision flowStoreSamplingRateKey.
Proof. solve_decision. Defined.
#[export] Instance flowStoreSamplingRateKey_countable : Countable flowStoreSamplingRateKey.
Proof.
  refine (inj_countable' (fun k => (skRouterKey k, skVersion k, skObsDomainID k))
    (fun '(r, v, d) => {| skRouterKey := r; skVersion := v; skObsDomainID := d |}) _).
  by intros [].
Defined.

(** A [uint32]. *)
Definition rate_Value : Value Z := plain_Value 0.
#[local] Existing Instance rate_Value.

Section sampling.
Context {E : Type}.

(** ** Hooks *)

Record SamplingHooks : Type := {
  OnSet : option (flowStoreSamplingRateKey -> Z -> bool -> list E);
  OnAccess : option (flowStoreSamplingRateKey -> Z -> list E);
  OnRemove : option (flowStoreSamplingRateKey -> Z -> list E)
}.
Definition no_sampling_hooks : SamplingHooks := {| OnSet := None; OnAccess := None; OnRemove := None |}.

(** [ComposeHooks]: one hook set after those combined so far. *)
Definition compose_one (combined hookSet : SamplingHooks) : SamplingHooks := {|
  OnSet := match OnSet hookSet with
           | None => OnSet combined
           | Some next => Some (fun k r b =>
               match OnSet combined with Some prev => prev k r b | None => [] end ++ next k r b)
           end;
  OnAccess := match OnAccess hookSet with
              | None => OnAccess combined
              | Some next => Some (fun k r =>
                  match OnAccess combined with Some prev => prev k r | None => [] end ++ next k r)
              end;
  OnRemove := match OnRemove hookSet with
              | None => OnRemove combined
              | Some next => Some (fun k r =>
                  match OnRemove combined with Some prev => prev k r | None => [] end ++ next k r)
              end
|}.
Definition ComposeHooks (hs : list SamplingHooks) : SamplingHooks := fold_left compose_one hs no_sampling_hooks.

Definition hook_given {A} (h : option A) : bool := match h with Some _ => true | None => false end.
Definition buildStoreHooks (h : SamplingHooks) : Hooks flowStoreSamplingRateKey Z :=
  {| OnSetMutate := None; FlowStore.OnSet := hook_given (OnSet h); OnDelete := hook_given (OnRemove h);
     OnGet := hook_given (OnAccess h) |}.
Definition dispatch (h : SamplingHooks) (e : hookEvent flowStoreSamplingRateKey Z) : list E :=
  match e with
  | hookEventSet k r existed => match OnSet h with Some f => f k r existed | None => [] end
  | hookEventGet k r => match OnAccess h with Some f => f k r | None => [] end
  | hookEventDelete k r _ => match OnRemove h with Some f => f k r | None => [] end
  end.

(** ** The store *)

Record SamplingRateFlowStore : Type := {
  store : Store flowStoreSamplingRateKey Z;
  sttl : Z;
  extendOnAccess : bool;
  sweepInterval : Z;
  now : Z;
  closeOnce : bool;
  startOnce : bool;
  shooks : SamplingHooks;
  closeHooks : list E;
  closed : list E
}.

Definition set_store (st : Store flowStoreSamplingRateKey Z) (s : SamplingRateFlowStore) : SamplingRateFlowStore :=
  {| store := st; sttl := sttl s; extendOnAccess := extendOnAccess s; sweepInterval := sweepInterval s;
     now := now s; closeOnce := closeOnce s; startOnce := startOnce s; shooks := shooks s;
     closeHooks := closeHooks s; closed := closed s |}.
Definition set_config (ttl : Z) (extend : bool) (sweep : Z) (h : SamplingHooks) (ch : list E)
    (s : SamplingRateFlowStore) : SamplingRateFlowStore :=
  {| store := store s; sttl := ttl; extendOnAccess := extend; sweepInterval := sweep;
     now := now s; closeOnce := closeOnce s; startOnce := startOnce s; shooks := h;
     closeHooks := ch; closed := closed s |}.
Definition set_once (close start : bool) (done : list E) (s : SamplingRateFlowStore) : SamplingRateFlowStore :=
  {| store := store s; sttl := sttl s; extendOnAccess := extendOnAccess s; sweepInterval := sweepInterval s;
     now := now s; closeOnce := close; startOnce := start; shooks := shooks s;
     closeHooks := closeHooks s; closed := closed s ++ done |}.

Definition FlowStoreOption : Type := SamplingRateFlowStore -> SamplingRateFlowStore.
Definition WithTTL (d : Z) : FlowStoreOption := fun s =>
  set_config d (extendOnAccess s) (sweepInterval s) (shooks s) (closeHooks s) s.
Definition WithExtendOnAccess (enable : bool) : FlowStoreOption := fun s =>
  set_config (sttl s) enable (sweepInterval s) (shooks s) (closeHooks s) s.
Definition WithSweepInterval (i : Z) : FlowStoreOption := fun s =>
  set_config (sttl s) (extendOnAccess s) i (shooks s) (closeHooks s) s.
Definition WithHooks (h : SamplingHooks) : FlowStoreOption := fun s =>
  set_config (sttl s) (extendOnAccess s) (sweepInterval s) (ComposeHooks [shooks s; h]) (closeHooks s) s.
Definition WithCloseHook (hook : option E) : FlowStoreOption := fun s =>
  match hook with
  | None => s
  | Some e => set_config (sttl s) (extendOnAccess s) (sweepInterval s) (shooks s) (closeHooks s ++ [e]) s
  end.

Definition minute : Z := 60000000000.

Definition NewSamplingRateFlowStore (clock : Z) (opts : list (option FlowStoreOption)) : SamplingRateFlowStore :=
  let s := fold_left (fun s opt => match opt with Some f => f s | None => s end) opts
    {| store := NewStore []; sttl := 0; extendOnAccess := false; sweepInterval := minute; now := clock;
       closeOnce := false; startOnce := false; shooks := no_sampling_hooks; closeHooks := []; closed := [] |} in
  set_store (NewStore (
    [WithRefreshTTLOnWrite; WithExpireHook (Some (fun _ _ => (false, 0)))] ++
    (if extendOnAccess s then [WithRefreshTTLOnRead] else []) ++
    (if 0 <? sttl s then [WithDefaultTTL (sttl s)] else []) ++
    [FlowStore.WithHooks (buildStoreHooks (shooks s))])) s.

Definition on_store {A} (m : ST (Store flowStoreSamplingRateKey Z) A) : ST SamplingRateFlowStore A := fun s =>
  let '(r, st) := m (store s) in (r, set_store st s).
Definition clock : ST SamplingRateFlowStore Z := fun s => (Ok (now s), s).

Definition Start : ST SamplingRateFlowStore unit := fun s =>
  if startOnce s then (Ok tt, s)
  else on_store (FlowStore.Start (sweepInterval s)) (set_once (closeOnce s) true [] s).
Definition Close : ST SamplingRateFlowStore unit := fun s =>
  if closeOnce s then (Ok tt, s)
  else on_store FlowStore.Stop (set_once true (startOnce s) (closeHooks s) s).

Definition buildKey (ctx : FlowContext) (version obsDomainId : Z) : flowStoreSamplingRateKey :=
  {| skRouterKey := RouterKey ctx; skVersion := version; skObsDomainID := obsDomainId |}.

Definition SetRate (ctx : FlowContext) (version obsDomainId rate : Z) : ST SamplingRateFlowStore unit :=
  let* now := clock in
  let* r := on_store (Set_ now (buildKey ctx version obsDomainId) rate []) in
  match r.2 with
  | Some err => fail (Wrap "sampling rate set" [version; obsDomainId] err)
  | None => ret tt
  end.

(** The rate and whether it was found; the error is always nil. *)
Definition GetRate (ctx : FlowContext) (version obsDomainId : Z) : ST SamplingRateFlowStore (Z * bool) :=
  let* now := clock in
  let* r := on_store (Get now (buildKey ctx version obsDomainId) (Some 0)) in
  match r with
  | (true, Some rate) => ret (rate, true)
  | _ => ret (0, false)
  end.

Definition RemoveRate (ctx : FlowContext) (version obsDomainId : Z) : ST SamplingRateFlowStore (Z * bool) :=
  let key := buildKey ctx version obsDomainId in
  let* now := clock in
  let* r := on_store (GetQuiet now key (Some 0)) in
  match r with
  | (true, Some rate) =>
      let* deleted := on_store (Delete key) in
      if deleted then ret (rate, true) else fail ErrNotFound
  | _ => fail ErrNotFound
  end.

Definition composeSamplingKey (version obsDomainId : Z) : Z := Z.lor (Z.shiftl version 32) obsDomainId.
Definition decodeSamplingKey (key : Z) : Z * Z :=
  (to_uint 16 (Z.shiftr key 32), to_uint 32 (Z.land key 0xFFFFFFFF)).

Definition snapshot_rate (ret : gmap string (gmap Z Z)) (i : flowStoreSamplingRateKey * Z) : gmap string (gmap Z Z) :=
  let router := skRouterKey i.1 in
  let bucket := default ∅ (ret !! router) in
  <[router := <[composeSamplingKey (skVersion i.1) (skObsDomainID i.1) := i.2]> bucket]> ret.
Definition GetAll : ST SamplingRateFlowStore (gmap string (gmap Z Z)) :=
  let* now := clock in
  let* items := on_store (Range now (fun _ _ => true)) in
  ret (foldl snapshot_rate ∅ items).

(** ** The contract *)

Definition rate_lookup (s : SamplingRateFlowStore) (ctx : FlowContext) (v d : Z) : option Z :=
  view (now s) (contents (mem (store s))) (buildKey ctx v d).

(** [buildKey] is injective. *)
Lemma buildKey_inj ctx v d ctx' v' d' :
  buildKey ctx' v' d' = buildKey ctx v d <-> (ctx', v', d') = (ctx, v, d).
Proof.
  destruct ctx as [r], ctx' as [r']. unfold buildKey. simpl. split; [by intros [= -> -> ->]|by intros [= -> -> ->]].
Qed.

Lemma new_plain time opts : plain (store (NewSamplingRateFlowStore time opts)) /\
  forall ctx v d, rate_lookup (NewSamplingRateFlowStore time opts) ctx v d = None.
Proof.
  unfold NewSamplingRateFlowStore. cbv zeta.
  match goal with |- context [set_store (NewStore ?l) ?x] => generalize x end.
  intros s. match goal with |- context [set_store (NewStore ?l) s] => set (l0 := l) end.
  assert (Hstd : Forall standard l0).
  { unfold l0. repeat apply Forall_app_2; repeat constructor; by case_match; repeat constructor. }
  destruct (new_store l0 Hstd) as (HI & Hc & _). split.
  - assert (Hx : settings (NewStore l0) = {| onExpire := Some (fun _ _ => (false, 0));
      defaultTTL := (if 0 <? sttl s then sttl s else 0); refreshTTL := true;
      refreshTTLOnRead := extendOnAccess s; maxSize := 0; hooks := buildStoreHooks (shooks s) |}).
    { unfold l0. by destruct (extendOnAccess s), (0 <? sttl s). }
    simpl. constructor; try done; by rewrite Hx.
  - intros ctx v d. unfold rate_lookup, view. simpl. by rewrite Hc.
Qed.

(** Read at an instant, a sampling-rate store is a map from router, version and domain
    to rates: [Set] binds one key, [Get] returns the rate or [(0, false)], [Remove] unbinds
    the key and returns its rate or [ErrNotFound]; no other key changes. *)
Lemma sampling_store_contract (s : SamplingRateFlowStore) ctx v d : plain (store s) ->
  (forall rate, exists s', SetRate ctx v d rate s = (Ok tt, s') /\ plain (store s') /\
     forall ctx' v' d', rate_lookup s' ctx' v' d' =
       if decide ((ctx', v', d') = (ctx, v, d)) then Some rate else rate_lookup s ctx' v' d') /\
  (exists s', GetRate ctx v d s =
       (Ok (match rate_lookup s ctx v d with Some rate => (rate, true) | None => (0, false) end), s') /\
     plain (store s') /\ forall ctx' v' d', rate_lookup s' ctx' v' d' = rate_lookup s ctx' v' d') /\
  (exists s', RemoveRate ctx v d s =
       (match rate_lookup s ctx v d with Some rate => Ok (rate, true) | None => Err ErrNotFound end, s') /\
     plain (store s') /\ forall ctx' v' d', rate_lookup s' ctx' v' d' =
       if decide ((ctx', v', d') = (ctx, v, d)) then None else rate_lookup s ctx' v' d').
Proof.
  intros Hs. assert (Hdec : forall A ctx' v' d' (x y : A),
    (if decide ((ctx', v', d') = (ctx, v, d)) then x else y) =
    (if decide (buildKey ctx' v' d' = buildKey ctx v d) then x else y)).
  { intros. apply decide_ext. symmetry. apply buildKey_inj. }
  splits.
  - intros rate. unfold SetRate, clock, on_store, bind. cbv beta iota.
    destruct (plain_Set (store s) (now s) (buildKey ctx v d) rate Hs) as (s1 & E1 & P1 & _ & V1). rewrite E1.
    exists (set_store s1 s). splits; [done|done|]. intros ctx' v' d'. rewrite Hdec. apply V1.
  - unfold GetRate, clock, on_store, bind. cbv beta iota.
    destruct (plain_get (store s) (now s) (buildKey ctx v d) 0 true Hs) as (s1 & E1 & P1 & _ & V1).
    unfold Get. rewrite E1. exists (set_store s1 s). splits; [|done|intros; apply V1].
    unfold rate_lookup. by destruct (view _ _ _).
  - unfold RemoveRate, clock, on_store, bind. cbv beta iota.
    destruct (plain_get (store s) (now s) (buildKey ctx v d) 0 false Hs) as (s1 & E1 & P1 & _ & V1).
    unfold GetQuiet. rewrite E1. change (store (set_store s1 s)) with s1. unfold rate_lookup at 1.
    destruct (view (now s) (contents (mem (store s))) (buildKey ctx v d)) as [rate|] eqn:Hv.
    + destruct (plain_Delete s1 (now s) (buildKey ctx v d) P1) as (b & s2 & E2 & P2 & _ & B2 & V2).
      unfold ret. cbv beta iota. change (store (set_store s1 s)) with s1. rewrite E2.
      assert (b = true) as -> by (apply B2; by rewrite V1, Hv).
      exists (set_store s2 (set_store s1 s)). splits; [done|done|].
      intros ctx' v' d'. rewrite Hdec. unfold rate_lookup. simpl. by rewrite V2, V1.
    + exists (set_store s1 s). splits; [done|done|].
      intros ctx' v' d'. rewrite Hdec. unfold rate_lookup. simpl. rewrite V1.
      destruct (decide _) as [->|]; [by rewrite Hv|done].
Qed.
End sampling.

#[global] Arguments SamplingHooks : clear implicits.
#[global] Arguments SamplingRateFlowStore : clear implicits.

(** The snapshot key holds version and domain, and fits 64 bits. *)
Lemma sampling_key_roundtrip v d : u16 v -> u32 d ->
  decodeSamplingKey (composeSamplingKey v d) = (v, d) /\ u64 (composeSamplingKey v d).
Proof.
  intros Hv Hd. unfold composeSamplingKey. rewrite lor_shiftl_low by (done || lia). unfold uint in *. split; [|lia].
  unfold decodeSamplingKey, to_uint. change 0xFFFFFFFF with (Z.ones 32).
  rewrite Z.land_ones, Z.shiftr_div_pow2 by lia.
  assert (Hq : (v * 2 ^ 32 + d) / 2 ^ 32 = v) by (symmetry; apply (Z.div_unique _ _ _ d); lia).
  rewrite Hq. f_equal; [apply Z.mod_small; lia|]. rewrite Z.mod_mod by lia.
  symmetry. apply (Z.mod_unique _ _ v); lia.
Qed.

(** ** An example store *)

Definition demo_rates : SamplingRateFlowStore unit := NewSamplingRateFlowStore 5 [Some (WithTTL 60)].
