(* ===== verification/SamplingInterface.v ===== *)
(** * utils/store/samplingrate: the [Store] interface

    What the producers call, as a class; its contract; and [SamplingRateFlowStore] as an
    instance of both.  [Set] and [Get] return their error as a value. *)
From S2P Require Import Prelude NetflowTypes FlowStore FlowStoreSpec FlowStoreRefine FlowStoreProps FlowStoreView SamplingRate.

Class SamplingStore (S : Type) : Type := {
  RateSet : FlowContext -> Z -> Z -> Z -> ST S (option error);
  RateGet : FlowContext -> Z -> Z -> ST S (Z * bool * option error)
}.

(** Read at an instant, a store is a map from router, version and domain to rates. *)
Class SamplingStoreSpec (S : Type) `{SamplingStore S} : Type := {
  rate_valid : S -> Prop;
  rate_view : S -> FlowContext -> Z -> Z -> option Z;
  RateSet_spec s ctx v d rate : rate_valid s ->
    exists s', RateSet ctx v d rate s = (Ok None, s') /\ rate_valid s' /\
      forall ctx' v' d', rate_view s' ctx' v' d' =
        if decide ((ctx', v', d') = (ctx, v, d)) then Some rate else rate_view s ctx' v' d';
  RateGet_spec s ctx v d : rate_valid s ->
    exists s', RateGet ctx v d s =
        (Ok (match rate_view s ctx v d with Some rate => (rate, true, None) | None => (0, false, None) end), s') /\
      rate_valid s' /\ forall ctx' v' d', rate_view s' ctx' v' d' = rate_view s ctx' v' d'
}.

#[local] Existing Instance rate_Value.

(** An error as a value; a panic is still one. *)
Definition as_value {S A B} (f : A + error -> B) (m : ST S A) : ST S B := fun s =>
  match m s with
  | (Ok a, s') => (Ok (f (inl a)), s')
  | (Err e, s') => (Ok (f (inr e)), s')
  | (Panic w, s') => (Panic w, s')
  | (Hang, s') => (Hang, s')
  end.

#[export] Instance flow_SamplingStore {E} : SamplingStore (SamplingRateFlowStore E) := {
  RateSet ctx v d rate :=
    as_value (fun r => match r with inl _ => None | inr e => Some e end) (SetRate ctx v d rate);
  RateGet ctx v d :=
    as_value (fun r => match r with inl (x, ok) => (x, ok, None) | inr e => (0, false, Some e) end) (GetRate ctx v d)
}.

#[export] Program Instance flow_SamplingStoreSpec {E} : SamplingStoreSpec (SamplingRateFlowStore E) := {
  rate_valid s := plain (store s);
  rate_view := rate_lookup
}.
Next Obligation.
  intros E s ctx v d rate Hs. destruct (sampling_store_contract s ctx v d Hs) as (Hset & _).
  destruct (Hset rate) as (s' & E1 & H1 & H2). exists s'. split; [|done]. simpl. unfold as_value. by rewrite E1.
Qed.
Next Obligation.
  intros E s ctx v d Hs. destruct (sampling_store_contract s ctx v d Hs) as (_ & Hget & _).
  destruct Hget as (s' & E1 & H1 & H2). exists s'. split; [|done]. simpl. unfold as_value. rewrite E1.
  by destruct (rate_lookup s ctx v d).
Qed.

(** A new store is valid and knows no rate. *)
Lemma new_store_valid {E} time opts (s := NewSamplingRateFlowStore (E := E) time opts) :
  rate_valid s /\ forall ctx v d, rate_view s ctx v d = None.
Proof. apply new_plain. Qed.

