(* ===== verification/NetflowStores.v ===== *)
(** * The decoder depends on its template store through the contract only

    Two stores that answer alike, whatever their types, give the same packets, errors and
    remaining payload, and still answer alike afterwards.  With [ManagedStore_Spec] this
    relates decoding over the TTL-backed store to decoding over a plain map. *)
From S2P Require Import FlowStore TemplateStore TemplateStoreProps Prelude DecodersUtils NetflowTypes NetflowDecode NetflowEncode NetflowRoundtrip NetflowProps.

Section stores.
Context {S1 S2 : Type} `{TemplateStoreSpec S1} `{TemplateStoreSpec S2}.

(** The stores hold the same templates. *)
Definition answers_alike (s1 : S1) (s2 : S2) : Prop :=
  forall ctx v d t, template_view s1 ctx v d t = template_view s2 ctx v d t.

Definition alike (x1 : DState S1) (x2 : DState S2) : Prop :=
  payload x1 = payload x2 /\
  match NetflowDecode.store x1, NetflowDecode.store x2 with
  | None, None => True
  | Some s1, Some s2 => answers_alike s1 s2
  | _, _ => False
  end.

(** Computations with the same result on alike states, which they keep alike. *)
Definition agrees {A} (m1 : ST (DState S1) A) (m2 : ST (DState S2) A) : Prop :=
  forall x1 x2, alike x1 x2 -> fst (m1 x1) = fst (m2 x2) /\ alike (snd (m1 x1)) (snd (m2 x2)).

(** ** Lemmas *)

Lemma agrees_ret {A} (a : A) : agrees (ret a) (ret a).
Proof. by split. Qed.

Lemma agrees_fail {A} e : agrees (fail (A := A) e) (fail e).
Proof. by split. Qed.

Lemma agrees_bind {A B} (m1 : ST (DState S1) A) m2 (k1 : A -> ST (DState S1) B) k2 :
  agrees m1 m2 -> (forall a, agrees (k1 a) (k2 a)) -> agrees (bind m1 k1) (bind m2 k2).
Proof.
  intros Hm Hk x1 x2 Hx. unfold bind. specialize (Hm x1 x2 Hx).
  destruct (m1 x1) as [r1 y1], (m2 x2) as [r2 y2]. simpl in Hm. destruct Hm as [<- Hy].
  destruct r1; simpl; [by apply Hk|done..].
Qed.

Lemma agrees_errctx {A} f (m1 : ST (DState S1) A) m2 : agrees m1 m2 -> agrees (errctx f m1) (errctx f m2).
Proof.
  intros Hm x1 x2 Hx. unfold errctx. specialize (Hm x1 x2 Hx).
  destruct (m1 x1) as [r1 y1], (m2 x2) as [r2 y2]. simpl in Hm. destruct Hm as [<- Hy]. by destruct r1.
Qed.

Lemma agrees_attempt {A} (m1 : ST (DState S1) A) m2 : agrees m1 m2 -> agrees (attempt m1) (attempt m2).
Proof.
  intros Hm x1 x2 Hx. unfold attempt. specialize (Hm x1 x2 Hx).
  destruct (m1 x1) as [r1 y1], (m2 x2) as [r2 y2]. simpl in Hm. destruct Hm as [<- Hy]. by destruct r1.
Qed.

Lemma agrees_payload {A} (m : M A) : agrees (on_payload m) (on_payload m).
Proof.
  intros x1 x2 [Hp Hs]. unfold on_payload. rewrite Hp. destruct (m (payload x2)) as [r b]. by split.
Qed.

Lemma agrees_buffer {A} b (m : M A) : agrees (on_buffer b m) (on_buffer b m).
Proof. by intros x1 x2 Hx. Qed.

(** Looking whether the store is nil. *)
Lemma agrees_store {A} (n1 y1 : ST (DState S1) A) (n2 y2 : ST (DState S2) A) :
  agrees n1 n2 -> agrees y1 y2 ->
  agrees (let* s := Prelude.get in match NetflowDecode.store s with None => n1 | Some _ => y1 end)
         (let* s := Prelude.get in match NetflowDecode.store s with None => n2 | Some _ => y2 end).
Proof.
  intros Hn Hy x1 x2 Hx. unfold bind, Prelude.get. pose proof (proj2 Hx) as Hs.
  destruct (NetflowDecode.store x1), (NetflowDecode.store x2); try done; [by apply Hy|by apply Hn].
Qed.

Lemma agrees_rangeM {A} (l : list A) (f1 : A -> ST (DState S1) unit) f2 :
  (forall a, agrees (f1 a) (f2 a)) -> agrees (rangeM l f1) (rangeM l f2).
Proof.
  intros Hf. induction l as [|a l IH]; simpl; [apply agrees_ret|]. by apply agrees_bind; [apply Hf|intros []].
Qed.

Lemma agrees_add ctx v d t tpl :
  agrees (let* _ := on_store (AddTemplate ctx v d t tpl) in ret tt)
         (let* _ := on_store (AddTemplate ctx v d t tpl) in ret tt).
Proof.
  intros [b1 o1] [b2 o2] [Hp Hs]. unfold bind, on_store. simpl in *. destruct o1 as [s1|], o2 as [s2|]; try done.
  destruct (AddTemplate_spec s1 ctx v d t tpl) as (st1 & s1' & -> & Hv1 & Ho1).
  destruct (AddTemplate_spec s2 ctx v d t tpl) as (st2 & s2' & -> & Hv2 & Ho2).
  simpl. split; [done|]. split; [done|]. intros ctx' v' d' t'. simpl.
  destruct (decide ((ctx', v', d', t') = (ctx, v, d, t))) as [[= -> -> -> ->]|Hne].
  - by rewrite Hv1, Hv2.
  - rewrite Ho1, Ho2 by done. apply Hs.
Qed.

Lemma agrees_get ctx v d t : agrees (on_store (GetTemplate ctx v d t)) (on_store (GetTemplate ctx v d t)).
Proof.
  intros [b1 o1] [b2 o2] [Hp Hs]. unfold on_store. simpl in *. destruct o1 as [s1|], o2 as [s2|]; try done.
  destruct (template_view s1 ctx v d t) as [tpl|] eqn:Hv.
  - destruct (GetTemplate_found s1 ctx v d t tpl Hv) as (s1' & -> & Hk1).
    rewrite Hs in Hv. destruct (GetTemplate_found s2 ctx v d t tpl Hv) as (s2' & -> & Hk2).
    split; [done|]. split; [done|]. intros ctx' v' d' t'. simpl. rewrite Hk1, Hk2. apply Hs.
  - destruct (GetTemplate_missing s1 ctx v d t Hv) as (s1' & -> & Hk1).
    rewrite Hs in Hv. destruct (GetTemplate_missing s2 ctx v d t Hv) as (s2' & -> & Hk2).
    split; [done|]. split; [done|]. intros ctx' v' d' t'. simpl. rewrite Hk1, Hk2. apply Hs.
Qed.

Create HintDb agrees discriminated.
#[local] Hint Resolve agrees_ret agrees_fail agrees_errctx agrees_attempt agrees_payload agrees_buffer agrees_add
  agrees_get agrees_store : agrees.

(** [agree_steps]: follow a computation that both sides share. *)
Ltac agree_steps := repeat first
  [ solve [eauto with agrees] | apply agrees_store | apply agrees_bind | apply agrees_errctx | apply agrees_attempt
  | apply agrees_rangeM
  | lazymatch goal with |- forall _, agrees _ _ => intros ? end
  | lazymatch goal with |- agrees (match ?x with _ => _ end) _ => destruct x end ].

Lemma agrees_addTemplates ctx v d fsid typ records :
  agrees (addTemplates ctx v d fsid typ records) (addTemplates ctx v d fsid typ records).
Proof. unfold addTemplates. agree_steps. Qed.
#[local] Hint Resolve agrees_addTemplates : agrees.

Lemma agrees_decodeTemplates {A} ctx v d h n t1 t2 (dec : M (list A * option error)) mk key :
  agrees (decodeTemplates ctx v d h n t1 t2 dec mk key) (decodeTemplates ctx v d h n t1 t2 dec mk key).
Proof. unfold decodeTemplates. agree_steps. Qed.

Lemma agrees_decodeRecords {A} v d h raw data typ (dec : M (list A * option error)) mk :
  agrees (decodeRecords v d h raw data typ dec mk) (decodeRecords v d h raw data typ dec mk).
Proof. unfold decodeRecords. agree_steps. Qed.
#[local] Hint Resolve agrees_decodeTemplates agrees_decodeRecords : agrees.

Lemma agrees_decodeData ctx v d h n : agrees (decodeData ctx v d h n) (decodeData ctx v d h n).
Proof. unfold decodeData. agree_steps. Qed.
#[local] Hint Resolve agrees_decodeData : agrees.

Lemma agrees_flowset ctx d v : agrees (DecodeMessageCommonFlowSet ctx d v) (DecodeMessageCommonFlowSet ctx d v).
Proof. unfold DecodeMessageCommonFlowSet. agree_steps. Qed.

Lemma agrees_commonLoop fuel ctx d size v start : forall read fs err,
  agrees (commonLoop fuel ctx d size v start read fs err) (commonLoop fuel ctx d size v start read fs err).
Proof.
  induction fuel as [|fuel IH]; intros read fs err x1 x2 Hx; simpl; [done|].
  rewrite (proj1 Hx). destruct (_ && _); [|done].
  pose proof (agrees_flowset ctx d v x1 x2 Hx) as Hf.
  destruct (DecodeMessageCommonFlowSet ctx d v x1) as [r1 y1], (DecodeMessageCommonFlowSet ctx d v x2) as [r2 y2].
  simpl in Hf. destruct Hf as [<- Hy]. destruct r1 as [[f [e|]]|e|w|]; try done; [destruct (errors_Is_TemplateNotFound e); [|done]|];
    rewrite (proj1 Hy); by apply IH.
Qed.

Lemma agrees_common ctx d size v : agrees (DecodeMessageCommon ctx d size v) (DecodeMessageCommon ctx d size v).
Proof. intros x1 x2 Hx. unfold DecodeMessageCommon. rewrite (proj1 Hx). by apply agrees_commonLoop. Qed.
#[local] Hint Resolve agrees_common : agrees.

(** Decoding depends on the template store only through the templates it holds: with
    two stores, of any two types that keep the contract, that answer every lookup alike, a
    message gives the same packet, the same errors and the same unread payload, and the
    stores still answer alike. *)
Theorem nf_decode_store_independent ctx b (s1 : S1) (s2 : S2) :
  (forall ctx v d t, template_view s1 ctx v d t = template_view s2 ctx v d t) ->
  let r1 := DecodeMessageVersion ctx {| payload := b; NetflowDecode.store := Some s1 |} in
  let r2 := DecodeMessageVersion ctx {| payload := b; NetflowDecode.store := Some s2 |} in
  fst r1 = fst r2 /\ alike (snd r1) (snd r2).
Proof.
  intros Hs r1 r2.
  assert (Hag : agrees (DecodeMessageVersion ctx) (DecodeMessageVersion ctx)).
  { unfold DecodeMessageVersion, DecodeMessageNetFlow, DecodeMessageIPFIX. agree_steps. }
  by apply Hag.
Qed.
End stores.

(** ** Witness: the TTL-backed store against a plain map *)

Definition sample_bytes : bytes :=
  match EncodeMessage (P_NFv9 (Val sample_v9)) with Ok b => b | _ => [] end.

Lemma nf_decode_store_independent_witness :
  fst (DecodeMessageVersion demo_router
         {| payload := sample_bytes; NetflowDecode.store := Some (new_managed 1000 demo_options) |})
    = Ok (inl sample_v9, None).
Proof.
  destruct (nf_decode_store_independent demo_router sample_bytes (new_managed 1000 demo_options) (∅ : RefStore))
    as [E _].
  - intros ctx v d t. simpl. rewrite (proj2 (new_ok 1000 demo_options)). by rewrite lookup_empty.
  - etransitivity; [exact E|]. vm_compute. reflexivity.
Defined.
