(* ===== verification/Text.v ===== *)
(** * Decimal numbers in strings

    [itoa] is [strconv.Itoa] and [fmt]'s [%d]; the lemmas split keys such as ["tcp-dst-80"] or
    ["s3:abc"] back into the parts they were printed from. *)
From Stdlib Require Import Ascii.
From stdpp Require Import pretty.
From S2P Require Import Prelude.

Definition itoa (z : Z) : string := pretty z.

#[export] Instance itoa_inj : Inj (=) (=) itoa.
Proof. unfold itoa. apply _. Qed.

(** ** Characters of a string *)

Fixpoint all_chars (f : Ascii.ascii -> bool) (s : string) : bool :=
  match s with EmptyString => true | String c s' => f c && all_chars f s' end.

Definition is_digit (c : Ascii.ascii) : bool :=
  let n := Ascii.nat_of_ascii c in ((48 <=? n) && (n <=? 57))%nat.

Lemma all_chars_app f s1 s2 : all_chars f (s1 +:+ s2) = all_chars f s1 && all_chars f s2.
Proof. induction s1 as [|c s1 IH]; simpl; [done|]. by rewrite IH, andb_assoc. Qed.

Lemma all_chars_pretty_go x s : all_chars is_digit s = true -> all_chars is_digit (pretty_N_go x s) = true.
Proof.
  revert s. induction (N.lt_wf_0 x) as [x _ IH]; intros s Hs.
  destruct (decide (0 < x)%N).
  - rewrite pretty_N_go_step by done. apply IH; [by apply N.div_lt|]. simpl. rewrite Hs, andb_true_r.
    unfold pretty_N_char. by repeat case_match.
  - replace x with 0%N by lia. by rewrite pretty_N_go_0.
Qed.

Lemma itoa_digits z : 0 <= z -> all_chars is_digit (itoa z) = true.
Proof.
  intros Hz. destruct z as [|p|p]; [done| |lia]. unfold itoa, pretty, pretty_Z, pretty, pretty_N.
  by apply all_chars_pretty_go.
Qed.

(** ** Unique splitting *)

Lemma string_app_length s1 s2 : String.length (s1 +:+ s2) = (String.length s1 + String.length s2)%nat.
Proof. induction s1 as [|c s1 IH]; simpl; [done|]. by rewrite IH. Qed.

Lemma string_app_nil_r s : s +:+ "" = s.
Proof. induction s as [|c s IH]; [done|]. exact (f_equal (String c) IH). Qed.

Lemma string_app_inj a1 a2 b1 b2 :
  String.length a1 = String.length a2 -> a1 +:+ b1 = a2 +:+ b2 -> a1 = a2 /\ b1 = b2.
Proof.
  revert a2. induction a1 as [|c a1 IH]; intros [|c2 a2]; simpl; intros Hl E; try done.
  injection E as -> E. apply IH in E as [-> ->]; [done|lia].
Qed.

Lemma string_app_inj_r a1 a2 b1 b2 :
  String.length b1 = String.length b2 -> a1 +:+ b1 = a2 +:+ b2 -> a1 = a2 /\ b1 = b2.
Proof.
  intros Hl E. apply string_app_inj; [|done].
  apply (f_equal String.length) in E. rewrite !string_app_length in E. lia.
Qed.

(** Characters of a kind, which end at the first character that is not of it. *)
Lemma chars_split f d1 d2 c1 c2 r1 r2 :
  all_chars f d1 = true -> all_chars f d2 = true -> f c1 = false -> f c2 = false ->
  d1 +:+ String c1 r1 = d2 +:+ String c2 r2 -> d1 = d2 /\ c1 = c2 /\ r1 = r2.
Proof.
  revert d2. induction d1 as [|x d1 IH]; intros [|y d2]; simpl; intros H1 H2 Hc1 Hc2 E.
  - by injection E as -> ->.
  - injection E as -> _. by rewrite Hc1 in H2.
  - injection E as -> _. by rewrite Hc2 in H1.
  - injection E as -> E. apply andb_prop in H1 as [_ H1]. apply andb_prop in H2 as [_ H2].
    destruct (IH d2 H1 H2 Hc1 Hc2 E) as (-> & -> & ->). done.
Qed.

(** Digits that end at the first character that is not a digit. *)
Lemma digits_split d1 d2 c1 c2 r1 r2 :
  all_chars is_digit d1 = true -> all_chars is_digit d2 = true ->
  is_digit c1 = false -> is_digit c2 = false ->
  d1 +:+ String c1 r1 = d2 +:+ String c2 r2 -> d1 = d2 /\ c1 = c2 /\ r1 = r2.
Proof. apply chars_split. Qed.

(** The part after the last dash. *)
Lemma dash_split a1 a2 b1 b2 :
  all_chars is_digit b1 = true -> all_chars is_digit b2 = true ->
  a1 +:+ String "-"%char b1 = a2 +:+ String "-"%char b2 -> a1 = a2 /\ b1 = b2.
Proof.
  revert a2. induction a1 as [|c a1 IH]; intros [|c2 a2]; simpl; intros H1 H2 E.
  - by injection E as ->.
  - injection E as <- ->. rewrite all_chars_app in H1. simpl in H1. by rewrite andb_false_r in H1.
  - injection E as -> <-. rewrite all_chars_app in H2. simpl in H2. by rewrite andb_false_r in H2.
  - injection E as -> E. destruct (IH a2 H1 H2 E) as [-> ->]. done.
Qed.

Lemma string_app_assoc s1 s2 s3 : (s1 +:+ s2) +:+ s3 = s1 +:+ (s2 +:+ s3).
Proof. induction s1 as [|c s1 IH]; [done|]. exact (f_equal (String c) IH). Qed.

(** ["a-dir-80"]: the parts around two dashes, when the middle parts are as long. *)
Lemma dashes_inj a1 a2 d1 d2 n1 n2 :
  String.length d1 = String.length d2 -> 0 <= n1 -> 0 <= n2 ->
  a1 +:+ "-" +:+ d1 +:+ "-" +:+ itoa n1 = a2 +:+ "-" +:+ d2 +:+ "-" +:+ itoa n2 ->
  a1 = a2 /\ d1 = d2 /\ n1 = n2.
Proof.
  intros Hd H1 H2 E. rewrite <- !string_app_assoc in E.
  rewrite !(string_app_assoc _ "-" (itoa _)) in E.
  apply dash_split in E as [E En]; [|by apply itoa_digits|by apply itoa_digits].
  apply string_app_inj_r in E as [E ->]; [|done].
  apply string_app_inj_r in E as [-> _]; [|done]. apply itoa_inj in En as ->. done.
Qed.
