(* ===== verification/FlowMessage.v ===== *)
(** * The common flow message (pb/flow.pb.go, producer/proto/messages.go)

    The fields of [FlowMessage] are addressed by name, as the converters do: they pass
    [&flowMessage.F] to a decoder, or look [F] up by reflection.  A message is a function
    from the names of each kind of field to its value; [Reset] is [zero_message]. *)
From S2P Require Import Prelude.

(** ** Fields *)

(** The [uint32] and [uint64] fields. *)
Inductive numField : Type :=
  | F_TimeReceivedNs | F_SequenceNum | F_SamplingRate | F_TimeFlowStartNs | F_TimeFlowEndNs
  | F_Bytes | F_Packets | F_Etype | F_Proto | F_SrcPort | F_DstPort | F_InIf | F_OutIf
  | F_SrcMac | F_DstMac | F_SrcVlan | F_DstVlan | F_VlanId | F_IpTos | F_ForwardingStatus
  | F_IpTtl | F_IpFlags | F_TcpFlags | F_IcmpType | F_IcmpCode | F_Ipv6FlowLabel
  | F_FragmentId | F_FragmentOffset | F_SrcAs | F_DstAs | F_NextHopAs | F_SrcNet | F_DstNet
  | F_ObservationDomainId | F_ObservationPointId | F_Ipv6RoutingHeaderSegLeft.

(** The [[]byte] fields. *)
Inductive bytesField : Type :=
  | F_SamplerAddress | F_SrcAddr | F_DstAddr | F_NextHop | F_BgpNextHop.

(** The [[]uint32] fields. *)
Inductive numsField : Type :=
  | F_BgpCommunities | F_AsPath | F_MplsTtl | F_MplsLabel | F_LayerSize.

(** The [[][]byte] fields. *)
Inductive bytesListField : Type := F_MplsIp | F_Ipv6RoutingHeaderAddresses.

#[export] Instance numField_eq_dec : EqDecision numField.
Proof. solve_decision. Defined.
#[export] Instance bytesField_eq_dec : EqDecision bytesField.
Proof. solve_decision. Defined.
#[export] Instance numsField_eq_dec : EqDecision numsField.
Proof. solve_decision. Defined.
#[export] Instance bytesListField_eq_dec : EqDecision bytesListField.
Proof. solve_decision. Defined.

(** The bits of the Go type of a field. *)
Definition width (f : numField) : Z :=
  match f with
  | F_TimeReceivedNs | F_SamplingRate | F_TimeFlowStartNs | F_TimeFlowEndNs | F_Bytes
  | F_Packets | F_SrcMac | F_DstMac => 64
  | _ => 32
  end.

(** A field appended to the unknown fields of the message. *)
Inductive wireValue : Type := W_Varint (v : Z) | W_Bytes (b : bytes).

(** [Type] and [LayerStack] hold numbers of the enums below. *)
Record FlowMessage : Type := {
  Type_ : Z;
  num : numField -> Z;
  byt : bytesField -> bytes;
  nums : numsField -> list Z;
  bytess : bytesListField -> list bytes;
  LayerStack : list Z;
  unknown : list (Z * wireValue)
}.

Definition zero_message : FlowMessage :=
  {| Type_ := 0; num := fun _ => 0; byt := fun _ => []; nums := fun _ => [];
     bytess := fun _ => []; LayerStack := []; unknown := [] |}.

(** ** Assignment *)

(** [m.F = z], converted to the type of the field. *)
Definition set_num (f : numField) (z : Z) (m : FlowMessage) : FlowMessage :=
  {| Type_ := Type_ m; num := fun g => if decide (g = f) then to_uint (width f) z else num m g;
     byt := byt m; nums := nums m; bytess := bytess m; LayerStack := LayerStack m;
     unknown := unknown m |}.

Definition set_byt (f : bytesField) (b : bytes) (m : FlowMessage) : FlowMessage :=
  {| Type_ := Type_ m; num := num m; byt := fun g => if decide (g = f) then b else byt m g;
     nums := nums m; bytess := bytess m; LayerStack := LayerStack m; unknown := unknown m |}.

Definition set_nums (f : numsField) (l : list Z) (m : FlowMessage) : FlowMessage :=
  {| Type_ := Type_ m; num := num m; byt := byt m;
     nums := fun g => if decide (g = f) then map (to_uint 32) l else nums m g;
     bytess := bytess m; LayerStack := LayerStack m; unknown := unknown m |}.

Definition set_bytess (f : bytesListField) (l : list bytes) (m : FlowMessage) : FlowMessage :=
  {| Type_ := Type_ m; num := num m; byt := byt m; nums := nums m;
     bytess := fun g => if decide (g = f) then l else bytess m g;
     LayerStack := LayerStack m; unknown := unknown m |}.

Definition set_Type (t : Z) (m : FlowMessage) : FlowMessage :=
  {| Type_ := t; num := num m; byt := byt m; nums := nums m; bytess := bytess m;
     LayerStack := LayerStack m; unknown := unknown m |}.

Definition set_LayerStack (l : list Z) (m : FlowMessage) : FlowMessage :=
  {| Type_ := Type_ m; num := num m; byt := byt m; nums := nums m; bytess := bytess m;
     LayerStack := l; unknown := unknown m |}.

(** [fmr.SetUnknown(append(unk, ...))]. *)
Definition add_unknown (idx : Z) (v : wireValue) (m : FlowMessage) : FlowMessage :=
  {| Type_ := Type_ m; num := num m; byt := byt m; nums := nums m; bytess := bytess m;
     LayerStack := LayerStack m; unknown := unknown m ++ [(idx, v)] |}.

(** ** Enums *)

Definition FLOWUNKNOWN : Z := 0.
Definition SFLOW_5 : Z := 1.
Definition NETFLOW_V5 : Z := 2.
Definition NETFLOW_V9 : Z := 3.
Definition IPFIX : Z := 4.

(** [FlowMessage_LayerStack_value]. *)
Definition LayerStack_value : gmap string Z := list_to_map
  [("Ethernet"%string, 0); ("IPv4"%string, 1); ("IPv6"%string, 2); ("TCP"%string, 3);
   ("UDP"%string, 4); ("MPLS"%string, 5); ("Dot1Q"%string, 6); ("ICMP"%string, 7);
   ("ICMPv6"%string, 8); ("GRE"%string, 9); ("IPv6HeaderRouting"%string, 10);
   ("IPv6HeaderFragment"%string, 11); ("Geneve"%string, 12); ("Teredo"%string, 13);
   ("Custom"%string, 99)].

(** [m.AddLayer(name)]: an unknown name adds the zero value of the enum. *)
Definition AddLayer (name : string) (m : FlowMessage) : FlowMessage :=
  set_LayerStack (LayerStack m ++ [default 0 (LayerStack_value !! name)]) m.

(** ** Lookup by name

    What [FieldByName] finds on [ProtoProducerMessage]; [D_Inert] are fields of a kind that
    [MapCustom] leaves alone, [D_Unexported] the unexported ones whose address or contents
    reflection refuses (it panics). *)
Inductive destination : Type :=
  | D_Type
  | D_Num (f : numField)
  | D_Bytes (f : bytesField)
  | D_Nums (f : numsField)
  | D_BytesList (f : bytesListField)
  | D_LayerStack
  | D_Inert
  | D_Unexported.

Definition FieldByName (name : string) : option destination :=
  (list_to_map
  [("Type", D_Type); ("TimeReceivedNs", D_Num F_TimeReceivedNs);
   ("SequenceNum", D_Num F_SequenceNum); ("SamplingRate", D_Num F_SamplingRate);
   ("SamplerAddress", D_Bytes F_SamplerAddress);
   ("TimeFlowStartNs", D_Num F_TimeFlowStartNs); ("TimeFlowEndNs", D_Num F_TimeFlowEndNs);
   ("Bytes", D_Num F_Bytes); ("Packets", D_Num F_Packets);
   ("SrcAddr", D_Bytes F_SrcAddr); ("DstAddr", D_Bytes F_DstAddr);
   ("Etype", D_Num F_Etype); ("Proto", D_Num F_Proto);
   ("SrcPort", D_Num F_SrcPort); ("DstPort", D_Num F_DstPort);
   ("InIf", D_Num F_InIf); ("OutIf", D_Num F_OutIf);
   ("SrcMac", D_Num F_SrcMac); ("DstMac", D_Num F_DstMac);
   ("SrcVlan", D_Num F_SrcVlan); ("DstVlan", D_Num F_DstVlan); ("VlanId", D_Num F_VlanId);
   ("IpTos", D_Num F_IpTos); ("ForwardingStatus", D_Num F_ForwardingStatus);
   ("IpTtl", D_Num F_IpTtl); ("IpFlags", D_Num F_IpFlags); ("TcpFlags", D_Num F_TcpFlags);
   ("IcmpType", D_Num F_IcmpType); ("IcmpCode", D_Num F_IcmpCode);
   ("Ipv6FlowLabel", D_Num F_Ipv6FlowLabel);
   ("FragmentId", D_Num F_FragmentId); ("FragmentOffset", D_Num F_FragmentOffset);
   ("SrcAs", D_Num F_SrcAs); ("DstAs", D_Num F_DstAs);
   ("NextHop", D_Bytes F_NextHop); ("NextHopAs", D_Num F_NextHopAs);
   ("SrcNet", D_Num F_SrcNet); ("DstNet", D_Num F_DstNet);
   ("BgpNextHop", D_Bytes F_BgpNextHop);
   ("BgpCommunities", D_Nums F_BgpCommunities); ("AsPath", D_Nums F_AsPath);
   ("MplsTtl", D_Nums F_MplsTtl); ("MplsLabel", D_Nums F_MplsLabel);
   ("MplsIp", D_BytesList F_MplsIp);
   ("ObservationDomainId", D_Num F_ObservationDomainId);
   ("ObservationPointId", D_Num F_ObservationPointId);
   ("LayerStack", D_LayerStack); ("LayerSize", D_Nums F_LayerSize);
   ("Ipv6RoutingHeaderAddresses", D_BytesList F_Ipv6RoutingHeaderAddresses);
   ("Ipv6RoutingHeaderSegLeft", D_Num F_Ipv6RoutingHeaderSegLeft);
   ("FlowMessage", D_Inert); ("state", D_Inert); ("formatter", D_Inert);
   ("skipDelimiter", D_Inert);
   ("unknownFields", D_Unexported); ("sizeCache", D_Unexported)] : gmap string destination)%string
  !! name.

(** ** Well-formed messages: every field is in the range of its Go type *)

Record message_ok (m : FlowMessage) : Prop := {
  ok_num f : uint (width f) (num m f);
  ok_byt f : is_bytes (byt m f);
  ok_nums f : Forall u32 (nums m f);
  ok_bytess f : Forall is_bytes (bytess m f)
}.

Lemma width_pos f : 0 <= width f.
Proof. destruct f; simpl; lia. Qed.

Lemma message_ok_zero : message_ok zero_message.
Proof. split; intros []; simpl; try done; apply Forall_nil_2. Qed.

Lemma message_ok_num f z m : message_ok m -> message_ok (set_num f z m).
Proof.
  intros []; split; simpl; try done. intros g. destruct (decide (g = f)) as [->|]; [|done].
  apply to_uint_uint, width_pos.
Qed.

Lemma message_ok_byt f b m : is_bytes b -> message_ok m -> message_ok (set_byt f b m).
Proof. intros Hb []; split; simpl; try done. intros g. by destruct (decide (g = f)). Qed.

Lemma message_ok_nums f l m : message_ok m -> message_ok (set_nums f l m).
Proof.
  intros []; split; simpl; try done. intros g. destruct (decide (g = f)) as [->|]; [|done].
  apply Forall_map, Forall_forall. intros x _. by apply to_uint_uint.
Qed.

Lemma message_ok_bytess f l m : Forall is_bytes l -> message_ok m -> message_ok (set_bytess f l m).
Proof. intros Hb []; split; simpl; try done. intros g. by destruct (decide (g = f)). Qed.

Lemma message_ok_Type t m : message_ok m -> message_ok (set_Type t m).
Proof. by intros []; split. Qed.

Lemma message_ok_LayerStack l m : message_ok m -> message_ok (set_LayerStack l m).
Proof. by intros []; split. Qed.

Lemma message_ok_AddLayer name m : message_ok m -> message_ok (AddLayer name m).
Proof. apply message_ok_LayerStack. Qed.

Lemma message_ok_unknown i v m : message_ok m -> message_ok (add_unknown i v m).
Proof. by intros []; split. Qed.

Create HintDb msg discriminated.
#[export] Hint Resolve message_ok_zero message_ok_num message_ok_byt message_ok_nums
  message_ok_bytess message_ok_Type message_ok_LayerStack message_ok_AddLayer
  message_ok_unknown : msg.

(** ** Reading after writing *)

Lemma num_set_eq f z m : num (set_num f z m) f = to_uint (width f) z.
Proof. simpl. by rewrite decide_True. Qed.

Lemma num_set_ne f g z m : g <> f -> num (set_num f z m) g = num m g.
Proof. intros. simpl. by rewrite decide_False. Qed.

Lemma byt_set_eq f b m : byt (set_byt f b m) f = b.
Proof. simpl. by rewrite decide_True. Qed.

Lemma byt_set_ne f g b m : g <> f -> byt (set_byt f b m) g = byt m g.
Proof. intros. simpl. by rewrite decide_False. Qed.

(** Projections of assignments, one step at a time. *)
Section projections.
Context (m : FlowMessage).

Lemma num_set_num f z g : num (set_num f z m) g = if decide (g = f) then to_uint (width f) z else num m g.
Proof. done. Qed.
Lemma num_set_byt f b g : num (set_byt f b m) g = num m g.
Proof. done. Qed.
Lemma num_set_nums f l g : num (set_nums f l m) g = num m g.
Proof. done. Qed.
Lemma num_set_bytess f l g : num (set_bytess f l m) g = num m g.
Proof. done. Qed.
Lemma num_set_Type t g : num (set_Type t m) g = num m g.
Proof. done. Qed.
Lemma num_AddLayer n g : num (AddLayer n m) g = num m g.
Proof. done. Qed.
Lemma byt_set_num f z g : byt (set_num f z m) g = byt m g.
Proof. done. Qed.
Lemma byt_set_byt f b g : byt (set_byt f b m) g = if decide (g = f) then b else byt m g.
Proof. done. Qed.
Lemma byt_set_nums f l g : byt (set_nums f l m) g = byt m g.
Proof. done. Qed.
Lemma byt_set_bytess f l g : byt (set_bytess f l m) g = byt m g.
Proof. done. Qed.
Lemma byt_set_Type t g : byt (set_Type t m) g = byt m g.
Proof. done. Qed.
Lemma byt_AddLayer n g : byt (AddLayer n m) g = byt m g.
Proof. done. Qed.
Lemma nums_set_num f z g : nums (set_num f z m) g = nums m g.
Proof. done. Qed.
Lemma nums_set_byt f b g : nums (set_byt f b m) g = nums m g.
Proof. done. Qed.
Lemma nums_set_nums f l g : nums (set_nums f l m) g = if decide (g = f) then map (to_uint 32) l else nums m g.
Proof. done. Qed.
Lemma nums_set_bytess f l g : nums (set_bytess f l m) g = nums m g.
Proof. done. Qed.
Lemma nums_set_Type t g : nums (set_Type t m) g = nums m g.
Proof. done. Qed.
Lemma nums_AddLayer n g : nums (AddLayer n m) g = nums m g.
Proof. done. Qed.
Lemma LayerStack_set_num f z : LayerStack (set_num f z m) = LayerStack m.
Proof. done. Qed.
Lemma LayerStack_set_byt f b : LayerStack (set_byt f b m) = LayerStack m.
Proof. done. Qed.
Lemma LayerStack_set_nums f l : LayerStack (set_nums f l m) = LayerStack m.
Proof. done. Qed.
Lemma LayerStack_AddLayer n : LayerStack (AddLayer n m) = LayerStack m ++ [default 0 (LayerStack_value !! n)].
Proof. done. Qed.
Lemma Type_set_num f z : Type_ (set_num f z m) = Type_ m.
Proof. done. Qed.
Lemma Type_set_byt f b : Type_ (set_byt f b m) = Type_ m.
Proof. done. Qed.
Lemma Type_set_nums f l : Type_ (set_nums f l m) = Type_ m.
Proof. done. Qed.
Lemma Type_set_Type t : Type_ (set_Type t m) = t.
Proof. done. Qed.
End projections.

Create HintDb flow discriminated.
#[export] Hint Rewrite num_set_num num_set_byt num_set_nums num_set_bytess num_set_Type num_AddLayer
  byt_set_num byt_set_byt byt_set_nums byt_set_bytess byt_set_Type byt_AddLayer
  nums_set_num nums_set_byt nums_set_nums nums_set_bytess nums_set_Type nums_AddLayer
  LayerStack_set_num LayerStack_set_byt LayerStack_set_nums LayerStack_AddLayer
  Type_set_num Type_set_byt Type_set_nums Type_set_Type : flow.

(** [fields]: read a field of a message that is a sequence of assignments. *)
Ltac fields :=
  autorewrite with flow; repeat (rewrite decide_True by done || rewrite decide_False by discriminate).

(** Two messages with the same fields. *)
Definition same_message (m1 m2 : FlowMessage) : Prop :=
  Type_ m1 = Type_ m2 /\ (forall f, num m1 f = num m2 f) /\ (forall f, byt m1 f = byt m2 f) /\
  (forall f, nums m1 f = nums m2 f) /\ (forall f, bytess m1 f = bytess m2 f) /\
  LayerStack m1 = LayerStack m2 /\ unknown m1 = unknown m2.

#[export] Instance same_message_equivalence : Equivalence same_message.
Proof.
  unfold same_message. split.
  - intros m. by splits.
  - intros x y (?&?&?&?&?&?&?). by splits.
  - intros x y z (?&E1&E2&E3&E4&?&?) (?&?&?&?&?&?&?).
    splits; try congruence; intros f; by rewrite ?E1, ?E2, ?E3, ?E4.
Qed.

#[export] Instance set_num_proper f z : Proper (same_message ==> same_message) (set_num f z).
Proof. unfold same_message. intros m1 m2 (?&E&?&?&?&?&?). splits; try done. intros g. simpl. by rewrite E. Qed.

#[export] Instance set_byt_proper f b : Proper (same_message ==> same_message) (set_byt f b).
Proof. unfold same_message. intros m1 m2 (?&?&E&?&?&?&?). splits; try done. intros g. simpl. by rewrite E. Qed.

#[export] Instance num_proper : Proper (same_message ==> eq ==> eq) num.
Proof. unfold same_message. intros m1 m2 (?&E&?) f ? <-. apply E. Qed.

#[export] Instance byt_proper : Proper (same_message ==> eq ==> eq) byt.
Proof. unfold same_message. intros m1 m2 (?&?&E&?) f ? <-. apply E. Qed.
