(* ===== verification/ProtoReflect.v ===== *)
(** * producer/proto: numbers, bit ranges and custom fields

    The number decoders of producer_nf.go, [GetBytes] and [MapCustom] of reflect.go, and the
    configuration types they read (config.go, config_impl.go). *)
From S2P Require Import Prelude Text DecodersUtils NetflowTypes FlowMessage.

(** ** Slices: [d[a:b]] and [d[i]], which panic out of range *)

Definition slice {S} (d : bytes) (a b : Z) : ST S bytes :=
  if (a <? 0) || (b <? a) || (len d <? b) then panic "slice bounds out of range"
  else ret (take (Z.to_nat (b - a)) (drop (Z.to_nat a) d)).

Definition index {S} (d : bytes) (i : Z) : ST S Z :=
  match (if i <? 0 then None else d !! Z.to_nat i) with
  | Some x => ret x
  | None => panic "index out of range"
  end.

(** In range, both give their value. *)
Lemma slice_eq {S} d a b (s : S) :
  0 <= a <= b -> b <= len d ->
  slice d a b s = (Ok (take (Z.to_nat (b - a)) (drop (Z.to_nat a) d)), s).
Proof.
  intros Ha Hb. unfold slice.
  destruct (Z.ltb_spec a 0), (Z.ltb_spec b a), (Z.ltb_spec (len d) b); try lia. done.
Qed.

Lemma index_eq {S} d i x (s : S) : 0 <= i -> d !! Z.to_nat i = Some x -> index d i s = (Ok x, s).
Proof. intros Hi Hx. unfold index. destruct (Z.ltb_spec i 0); [lia|]. by rewrite Hx. Qed.

(** ** Numbers *)

(** The [out interface{}] of the decoders: a pointer to an integer type, or anything else. *)
Inductive out : Type := O_uint (w : Z) | O_int (w : Z) | O_other.

Definition known_width (w : Z) : bool := (w =? 8) || (w =? 16) || (w =? 32) || (w =? 64).

(** The value that [*out] receives. *)
Definition WriteUDecoded (o : Z) (t : out) : res Z :=
  match t with
  | O_uint w =>
      if known_width w then Ok (to_uint w o)
      else Err (Errorf "the parameter is not a pointer to a byte/uint16/uint32/uint64 structure" [])
  | _ => Err (Errorf "the parameter is not a pointer to a byte/uint16/uint32/uint64 structure" [])
  end.

Definition WriteDecoded (o : Z) (t : out) : res Z :=
  match t with
  | O_int w =>
      if known_width w then Ok (to_int w o)
      else Err (Errorf "the parameter is not a pointer to a int8/int16/int32/int64 structure" [])
  | _ => Err (Errorf "the parameter is not a pointer to a int8/int16/int32/int64 structure" [])
  end.

(** [for i := range b { o |= uint64(b[i]) << uint(8*(l-iter-1)); iter++ }]. *)
Fixpoint or_be (l iter o : Z) (b : bytes) : Z :=
  match b with
  | [] => o
  | x :: b' => or_be l (iter + 1) (Z.lor o (Z.shiftl x (8 * (l - iter - 1)))) b'
  end.

(** [for i := range b { o |= uint64(b[i]) << uint(8*iter); iter++ }]. *)
Fixpoint or_le (iter o : Z) (b : bytes) : Z :=
  match b with
  | [] => o
  | x :: b' => or_le (iter + 1) (Z.lor o (Z.shiftl x (8 * iter))) b'
  end.

Definition non_regular (l : Z) : error := Errorf "non-regular number of bytes for a number:" [l].

Definition DecodeUNumber (b : bytes) (t : out) : res Z :=
  let l := len b in
  if (l =? 1) || (l =? 2) || (l =? 4) || (l =? 8) then WriteUDecoded (order_get BigEndian b) t
  else if l <? 8 then WriteUDecoded (or_be l 0 0 b) t
  else Err (non_regular l).

Definition DecodeUNumberLE (b : bytes) (t : out) : res Z :=
  let l := len b in
  if (l =? 1) || (l =? 2) || (l =? 4) || (l =? 8) then WriteUDecoded (order_get LittleEndian b) t
  else if l <? 8 then WriteUDecoded (or_le 0 0 b) t
  else Err (non_regular l).

Definition DecodeNumber (b : bytes) (t : out) : res Z :=
  let l := len b in
  if (l =? 1) || (l =? 2) || (l =? 4) || (l =? 8) then
    WriteDecoded (to_int (8 * l) (order_get BigEndian b)) t
  else if l <? 8 then WriteDecoded (or_be l 0 0 b) t
  else Err (non_regular l).

Definition DecodeNumberLE (b : bytes) (t : out) : res Z :=
  let l := len b in
  if (l =? 1) || (l =? 2) || (l =? 4) || (l =? 8) then
    WriteDecoded (to_int (8 * l) (order_get LittleEndian b)) t
  else if l <? 8 then WriteDecoded (or_le 0 0 b) t
  else Err (non_regular l).

(** ** Bit ranges *)

(** The first pass over [dFinal]: every byte from two neighbours of [dUsed]. *)
Fixpoint first_pass (n : nat) (shiftSize : Z) (dUsed : bytes) : bytes :=
  match n, dUsed with
  | O, _ => []
  | Datatypes.S _, [] => replicate n 0
  | Datatypes.S n', [x] => to_uint 8 (Z.shiftl x shiftSize) :: replicate n' 0
  | Datatypes.S n', x :: ((y :: _) as d') =>
      Z.lor (to_uint 8 (Z.shiftl x shiftSize)) (Z.shiftr y (8 - shiftSize)) :: first_pass n' shiftSize d'
  end.

(** [dFinal[len(dFinal)-1] = f(dFinal[len(dFinal)-1])]. *)
Definition update_last (f : Z -> Z) (d : bytes) : bytes := removelast d ++ [f (List.last d 0)].

(** A negative shift count panics; [/] and [%] truncate towards zero. *)
Definition GetBytes {S} (d : bytes) (offset length : Z) (shift : bool) : ST S bytes :=
  if len d * 8 <? offset then ret []
  else if length =? 0 then ret []
  else
    let shiftSize := Z.rem offset 8 in
    let shiftRightSize := Z.rem length 8 in
    let start := Z.quot offset 8 in
    let end0 := Z.quot (offset + length) 8 + (if 0 <? Z.rem (offset + length) 8 then 1 else 0) in
    let lengthB := Z.quot length 8 + (if 0 <? shiftRightSize then 1 else 0) in
    let missing := end0 - len d in
    let end_ := if 0 <? missing then len d else end0 in
    let* dUsed := slice d start end_ in
    if (shiftSize =? 0) && (Z.rem length 8 =? 0) then
      if 0 <? missing then
        makeslice lengthB ;;;
        ret (fill (Z.to_nat lengthB) 0 (take (Z.to_nat lengthB) dUsed))
      else ret dUsed
    else
      makeslice lengthB ;;;
      if (shiftSize <? 0) && (0 <? lengthB) && (0 <? len dUsed) then panic "negative shift amount"
      else if lengthB =? 0 then panic "index out of range"
      else
        let dFinal := first_pass (Z.to_nat lengthB) shiftSize dUsed in
        let n := Z.rem (8 - shiftRightSize) 8 in
        ret (update_last (if shift then fun b => Z.shiftr b n
                          else fun b => Z.land b (to_uint 8 (Z.shiftl 0xFF n))) dFinal).

(** ** Custom fields *)

(** What the methods of [MappableField] return. *)
Record MapConfigBase : Type := {
  Destination : string; Endianness : string; ProtoIndex : Z; ProtoType : string; ProtoArray : bool
}.

Definition BigEndian_ : string := "big".
Definition LittleEndian_ : string := "little".
Definition ProtoString : string := "string".
Definition ProtoVarint : string := "varint".

Record DataMapLayer : Type := {
  mapBase : MapConfigBase; Offset : Z; MapLength : Z; MapEncapsulated : bool
}.

Definition is_little (cfg : MapConfigBase) : bool := String.eqb (Endianness cfg) LittleEndian_.

(** [destLabel]. *)
Definition dest_label (cfg : MapConfigBase) : string :=
  if String.eqb (Destination cfg) "" then "proto index " ++ itoa (ProtoIndex cfg) else Destination cfg.

(** ["map custom %s: " + what] around a decoder. *)
Definition map_err (cfg : MapConfigBase) (what : string) (r : res Z) : ST FlowMessage Z :=
  errctx (Wrap ("map custom " ++ dest_label cfg ++ ": " ++ what) []) (fun m => (r, m)).

(** The unsigned and the signed decoder that the endianness selects. *)
Definition decode_uint (cfg : MapConfigBase) (what : string) (v : bytes) (t : out) : ST FlowMessage Z :=
  if is_little cfg then map_err cfg ("decode " ++ what ++ " (LE)") (DecodeUNumberLE v t)
  else map_err cfg ("decode " ++ what) (DecodeUNumber v t).
Definition decode_int (cfg : MapConfigBase) (v : bytes) (t : out) : ST FlowMessage Z :=
  if is_little cfg then map_err cfg "decode int (LE)" (DecodeNumberLE v t)
  else map_err cfg "decode int" (DecodeNumber v t).

(** [m.F = ...] in a computation on the message. *)
Definition modify (f : FlowMessage -> FlowMessage) : ST FlowMessage unit := fun m => (Ok tt, f m).

(** The destination is a field found by name, or an unknown field with an index.  The enum
    fields are signed 32-bit integers of a named type, which [WriteDecoded] does not accept;
    an element of a [[][]byte] is appended empty.  The scan over the unknown fields, when the
    field is not an array, changes nothing. *)
Definition MapCustom (v : bytes) (cfg : MapConfigBase) : ST FlowMessage unit :=
  match FieldByName (Destination cfg) with
  | Some (D_Bytes f) => modify (set_byt f v)
  | Some (D_Nums f) =>
      let* x := decode_uint cfg "uint" v (O_uint 32) in
      modify (fun m => set_nums f (nums m f ++ [x]) m)
  | Some D_LayerStack =>
      let* x := decode_int cfg v O_other in
      modify (fun m => set_LayerStack (LayerStack m ++ [x]) m)
  | Some (D_BytesList f) => modify (fun m => set_bytess f (bytess m f ++ [[]]) m)
  | Some (D_Num f) =>
      let* x := decode_uint cfg "uint" v (O_uint (width f)) in modify (set_num f x)
  | Some D_Type => let* x := decode_int cfg v O_other in modify (set_Type x)
  | Some D_Inert => ret tt
  | Some D_Unexported => panic "reflect: use of unexported field"
  | None =>
      if 0 <? ProtoIndex cfg then
        if String.eqb (ProtoType cfg) ProtoVarint then
          let* x := decode_uint cfg "varint" v (O_uint 64) in
          modify (add_unknown (ProtoIndex cfg) (W_Varint x))
        else if String.eqb (ProtoType cfg) ProtoString then
          modify (add_unknown (ProtoIndex cfg) (W_Bytes v))
        else fail (Errorf ("map custom " ++ dest_label cfg ++ ": could not insert into protobuf unknown") [])
      else ret tt
  end.

(** ** Mapping tables *)

Definition NetFlowMapper : Type := gmap string MapConfigBase.

Definition mapKey (penProvided : bool) (pen type : Z) : string :=
  (if penProvided then "true" else "false") ++ "-" ++ itoa pen ++ "-" ++ itoa type.

(** [TemplateMapper.Map]; [None] is a nil mapper. *)
Definition NetFlowMapper_Map (m : option NetFlowMapper) (field : DataField) : option MapConfigBase :=
  match m with
  | None => None
  | Some data => data !! mapKey (dPenProvided field) (dPen field) (dType field)
  end.

Definition MapCustomNetFlow (df : DataField) (mapper : option NetFlowMapper) : ST FlowMessage unit :=
  match NetFlowMapper_Map mapper df with
  | None => ret tt
  | Some mapped =>
      match dValue df with
      | VBytes v => errctx (Wrap "map custom netflow field" [dType df]) (MapCustom v mapped)
      | _ => panic "interface conversion: not []byte"
      end
  end.
