(* ===== verification/ProtoReflectProps.v ===== *)
(** * Properties of numbers, bit ranges and custom fields *)
From S2P Require Import Prelude DecodersUtils NetflowTypes FlowMessage ProtoReflect.

(** ** Bits of byte strings, the first byte and its highest bit first *)

Definition bit_at (d : bytes) (j : Z) : bool := Z.testbit (nth (Z.to_nat (j / 8)) d 0) (7 - j mod 8).

Lemma bit_at_byte d i b : 0 <= i -> 0 <= b < 8 -> bit_at d (8 * i + b) = Z.testbit (nth (Z.to_nat i) d 0) (7 - b).
Proof.
  intros Hi Hb. unfold bit_at. rewrite Z.mul_comm, Z.div_add_l, Z.div_small by lia.
  rewrite Z.add_0_r, Z.add_comm, Z.mod_add, Z.mod_small by lia. done.
Qed.

Lemma u8_high x i : u8 x -> 8 <= i -> Z.testbit x i = false.
Proof.
  intros [H0 H1] Hi. destruct (Z.eq_dec x 0) as [->|]; [apply Z.bits_0|].
  apply Z.bits_above_log2; [done|]. enough (Z.log2 x < 8) by lia. apply Z.log2_lt_pow2; lia.
Qed.

Lemma is_bytes_nth d i : is_bytes d -> u8 (nth i d 0).
Proof.
  intros Hd. destruct (nth_in_or_default i d 0) as [Hin| ->]; [|split; lia].
  unfold is_bytes in Hd. rewrite Forall_forall in Hd. apply Hd. by apply list_elem_of_In.
Qed.

Lemma nth_replicate_zero n i : nth i (replicate n 0) 0 = 0.
Proof. rewrite nth_lookup. destruct (_ !! i) eqn:E; [|done]. by apply lookup_replicate in E as [-> _]. Qed.

(** [bits d P n r]: the first [n] bits of [r] are the bits of [d] that follow position [p]. *)
Definition bits (d : bytes) (p n : Z) (r : bytes) : Prop :=
  forall j, 0 <= j < n -> bit_at r j = bit_at d (p + j).

Lemma bit_at_slice d a n p :
  0 <= a -> 0 <= n -> 0 <= p -> (8 * n <= p -> bit_at d (8 * a + p) = false) ->
  bit_at (take (Z.to_nat n) (drop (Z.to_nat a) d)) p = bit_at d (8 * a + p).
Proof.
  intros Ha Hn Hp Hend. unfold bit_at. rewrite nth_firstn, nth_skipn.
  replace (8 * a + p) with (p + a * 8) in * by lia.
  destruct (Nat.ltb_spec (Z.to_nat (p / 8)) (Z.to_nat n)) as [Hlt|Hge].
  - rewrite Z.div_add, Z.mod_add by lia. do 2 f_equal. pose proof (Z.div_pos p 8). lia.
  - rewrite Z.bits_0. symmetry. apply Hend. pose proof (Z.div_mod p 8). pose proof (Z.mod_pos_bound p 8). lia.
Qed.

(** ** The two passes of [GetBytes] *)

Lemma nth_first_pass n s d i :
  (i < n)%nat -> 0 <= s < 8 ->
  nth i (first_pass n s d) 0 =
    Z.lor (to_uint 8 (Z.shiftl (nth i d 0) s)) (Z.shiftr (nth (Datatypes.S i) d 0) (8 - s)).
Proof.
  revert i d. induction n as [|n IH]; intros i d Hi Hs; [lia|].
  destruct d as [|x [|y d]].
  - change (first_pass (Datatypes.S n) s []) with (replicate (Datatypes.S n) 0).
    rewrite nth_replicate_zero. destruct i; simpl; by rewrite Z.shiftl_0_l, Z.shiftr_0_l.
  - simpl. destruct i as [|i].
    + by rewrite Z.shiftr_0_l, Z.lor_0_r.
    + rewrite nth_replicate_zero. destruct i; simpl; by rewrite Z.shiftl_0_l, Z.shiftr_0_l.
  - change (first_pass (Datatypes.S n) s (x :: y :: d)) with
      (Z.lor (to_uint 8 (Z.shiftl x s)) (Z.shiftr y (8 - s)) :: first_pass n s (y :: d)).
    destruct i as [|i]; [done|]. cbn [nth]. apply IH; lia.
Qed.

Lemma length_first_pass n s d : length (first_pass n s d) = n.
Proof.
  revert d. induction n as [|n IH]; intros [|x [|y d]]; try done; simpl.
  - by rewrite length_replicate.
  - by rewrite length_replicate.
  - f_equal. apply (IH (y :: d)).
Qed.

(** A byte made of the low bits of [x] and the high bits of [y]. *)
Lemma testbit_two x y s b :
  u8 y -> 0 <= s < 8 -> 0 <= b < 8 ->
  Z.testbit (Z.lor (to_uint 8 (Z.shiftl x s)) (Z.shiftr y (8 - s))) (7 - b) =
    if b + s <? 8 then Z.testbit x (7 - (b + s)) else Z.testbit y (7 - (b + s - 8)).
Proof.
  intros Hy Hs Hb. rewrite Z.lor_spec. unfold to_uint. rewrite Z.mod_pow2_bits_low by lia.
  rewrite Z.shiftl_spec, Z.shiftr_spec by lia. destruct (Z.ltb_spec (b + s) 8).
  - rewrite (u8_high y) by (done || lia). rewrite orb_false_r. f_equal. lia.
  - rewrite Z.testbit_neg_r by lia. simpl. f_equal. lia.
Qed.

Lemma bits_first_pass n s d :
  is_bytes d -> 0 <= s < 8 -> bits d s (8 * Z.of_nat n) (first_pass n s d).
Proof.
  intros Hd Hs j Hj. pose proof (Z.div_mod j 8 ltac:(lia)) as Hdm.
  pose proof (Z.mod_pos_bound j 8 ltac:(lia)) as Hm.
  assert (0 <= j / 8) by (apply Z.div_pos; lia).
  set (i := j / 8) in *. set (b := j mod 8) in *. rewrite Hdm.
  rewrite bit_at_byte by lia. rewrite nth_first_pass by lia.
  rewrite testbit_two; [|by apply is_bytes_nth|lia|lia].
  destruct (Z.ltb_spec (b + s) 8).
  - replace (s + (8 * i + b)) with (8 * i + (b + s)) by lia. by rewrite bit_at_byte by lia.
  - replace (s + (8 * i + b)) with (8 * (i + 1) + (b + s - 8)) by lia.
    rewrite bit_at_byte by lia. do 2 f_equal. lia.
Qed.

Lemma is_bytes_first_pass n s d : is_bytes d -> 0 <= s < 8 -> is_bytes (first_pass n s d).
Proof.
  intros Hd Hs. apply Forall_forall. intros x Hx. apply list_elem_of_lookup in Hx as [i Hi].
  pose proof (lookup_lt_Some _ _ _ Hi) as Hlt. rewrite length_first_pass in Hlt.
  rewrite <- (nth_lookup_Some _ _ 0 _ Hi), nth_first_pass by lia.
  pose proof (is_bytes_nth d (Datatypes.S i) Hd) as Hy. set (y := nth _ d 0) in *.
  assert (0 <= to_uint 8 (Z.shiftl (nth i d 0) s)) by (apply to_uint_uint; lia).
  assert (0 <= Z.shiftr y (8 - s)) by (apply Z.shiftr_nonneg, Hy).
  assert (Hnn : 0 <= Z.lor (to_uint 8 (Z.shiftl (nth i d 0) s)) (Z.shiftr y (8 - s))) by by apply Z.lor_nonneg.
  split; [done|]. apply Z.log2_lt_cancel. rewrite Z.log2_pow2 by lia.
  rewrite Z.log2_lor by done. apply Z.max_lub_lt.
  - pose proof (to_uint_uint 8 (Z.shiftl (nth i d 0) s) ltac:(lia)) as Hu.
    destruct (Z.eq_dec (to_uint 8 (Z.shiftl (nth i d 0) s)) 0) as [->|]; [done|].
    apply Z.log2_lt_pow2; [lia|apply Hu].
  - destruct (Z.eq_dec (Z.shiftr y (8 - s)) 0) as [->|]; [done|].
    apply Z.log2_lt_pow2; [lia|]. rewrite Z.shiftr_div_pow2 by lia.
    apply Z.le_lt_trans with y; [|apply Hy]. apply Z.div_le_upper_bound; [lia|].
    assert (1 <= 2 ^ (8 - s)) by (apply (Z.pow_le_mono_r 2 0); lia). destruct Hy. nia.
Qed.

(** ** Bits of numbers *)

Lemma testbit_be_get r i :
  is_bytes r -> 0 <= i < 8 * len r -> Z.testbit (be_get r) i = bit_at r (8 * len r - 1 - i).
Proof.
  revert i. induction r as [|x r IH] using rev_ind; intros i Hr Hi; [unfold len in Hi; simpl in Hi; lia|].
  apply is_bytes_app in Hr as [Hr Hx]. apply Forall_inv in Hx.
  unfold be_get. rewrite be_get_from_app. fold (be_get r). cbn [be_get_from].
  rewrite len_app in *. change (len [x]) with 1 in *. rewrite Z.lor_spec.
  destruct (Z.ltb_spec i 8).
  - rewrite Z.shiftl_spec_low by lia. simpl.
    replace (8 * (len r + 1) - 1 - i) with (8 * len r + (7 - i)) by lia.
    rewrite bit_at_byte by (pose proof (len_nonneg r); lia).
    rewrite app_nth2 by (unfold len; lia). unfold len. rewrite Nat2Z.id, Nat.sub_diag. simpl.
    f_equal. lia.
  - rewrite Z.shiftl_spec by lia. rewrite (u8_high x), orb_false_r by done.
    rewrite IH by (done || lia). unfold bit_at.
    replace (8 * (len r + 1) - 1 - i) with (8 * len r - 1 - (i - 8)) by lia.
    rewrite app_nth1; [done|]. unfold len in *.
    assert ((8 * Z.of_nat (length r) - 1 - (i - 8)) / 8 < Z.of_nat (length r))
      by (apply Z.div_lt_upper_bound; lia). lia.
Qed.

Lemma bit_at_past d p : 8 * len d <= p -> bit_at d p = false.
Proof.
  intros Hp. unfold bit_at. rewrite nth_overflow, Z.bits_0; [done|].
  assert (len d <= p / 8) by (apply Z.div_le_lower_bound; lia). unfold len in *. lia.
Qed.

(** The [n] bits of [d] from bit [off] on, as a number; bits past the end are zero. *)
Definition bit_field (d : bytes) (off n : Z) : Z :=
  Z.shiftr (Z.shiftl (be_get d) n) (8 * len d - off) mod 2 ^ n.

Lemma be_get_nonneg d : is_bytes d -> 0 <= be_get d.
Proof. intros Hd. apply (be_get_uint d Hd). Qed.

Lemma testbit_bit_field d off n i :
  is_bytes d -> 0 <= off <= 8 * len d -> 0 <= i < n ->
  Z.testbit (bit_field d off n) i = bit_at d (off + n - 1 - i).
Proof.
  intros Hd Ho Hi. unfold bit_field. rewrite Z.mod_pow2_bits_low by lia.
  rewrite Z.shiftr_spec, Z.shiftl_spec by lia.
  destruct (Z.ltb_spec (i + (8 * len d - off) - n) 0).
  - rewrite Z.testbit_neg_r by lia. rewrite bit_at_past by lia. done.
  - rewrite testbit_be_get by (done || lia). f_equal. lia.
Qed.

(** ** GetBytes *)

Ltac zdiv := Z.to_euclidean_division_equations; lia.

(** What the passes start from: the bytes that hold the range, as many as there are. *)
Definition used (d : bytes) (off n : Z) : bytes :=
  take (Z.to_nat (Z.min (len d) ((off + n + 7) / 8) - off / 8)) (drop (Z.to_nat (off / 8)) d).

Lemma len_used d off n :
  0 <= off <= 8 * len d -> 0 < n -> len (used d off n) = Z.min (len d) ((off + n + 7) / 8) - off / 8.
Proof.
  intros Ho Hn. unfold used. assert (0 <= off / 8 <= len d) by zdiv.
  assert (off / 8 <= (off + n + 7) / 8) by zdiv.
  unfold len in *. rewrite length_take, length_drop. lia.
Qed.

Lemma is_bytes_used d off n : is_bytes d -> is_bytes (used d off n).
Proof. intros. by apply Forall_take, Forall_drop. Qed.

Lemma bits_used d off n j :
  0 <= off <= 8 * len d -> 0 <= j < n ->
  bit_at (used d off n) (off mod 8 + j) = bit_at d (off + j).
Proof.
  intros Ho Hj. unfold used. rewrite bit_at_slice; [f_equal; zdiv|zdiv|zdiv|zdiv|].
  intros Hp. destruct (Z.leb_spec (len d) ((off + n + 7) / 8)).
  - apply bit_at_past. rewrite Z.min_l in Hp by done. zdiv.
  - rewrite Z.min_r in Hp by lia. zdiv.
Qed.

(** The result before the last byte is adjusted: [(n + 7) / 8] bytes that start with the range. *)
Definition raw_range (d : bytes) (off n : Z) : bytes :=
  if (off mod 8 =? 0) && (n mod 8 =? 0) then fill (Z.to_nat (n / 8)) 0 (used d off n)
  else first_pass (Z.to_nat ((n + 7) / 8)) (off mod 8) (used d off n).

Lemma update_last_id f d : d <> [] -> f (List.last d 0) = List.last d 0 -> update_last f d = d.
Proof. intros Hd Hf. unfold update_last. rewrite Hf. symmetry. by apply app_removelast_last. Qed.

Lemma is_bytes_last d : is_bytes d -> u8 (List.last d 0).
Proof.
  intros Hd. destruct d as [|x d] using rev_ind; [done|]. rewrite last_last.
  apply is_bytes_app in Hd as [_ Hx]. by apply Forall_inv in Hx.
Qed.

Lemma land_0xFF x : u8 x -> Z.land x 255 = x.
Proof. intros Hx. change 255 with (Z.ones 8). rewrite Z.land_ones by lia. by apply Z.mod_small. Qed.

Lemma GetBytes_raw {S} d off n shift (s : S) :
  is_bytes d -> 0 <= off <= 8 * len d -> 0 < n ->
  GetBytes d off n shift s = (Ok (if n mod 8 =? 0 then raw_range d off n
    else update_last (if shift then fun b => Z.shiftr b (8 - n mod 8)
                      else fun b => Z.land b (to_uint 8 (Z.shiftl 0xFF (8 - n mod 8))))
           (raw_range d off n)), s).
Proof.
  intros Hd Ho Hn. unfold GetBytes. destruct (Z.ltb_spec (len d * 8) off); [lia|].
  destruct (Z.eqb_spec n 0); [lia|]. cbv zeta.
  rewrite !Z.rem_mod_nonneg, !Z.quot_div_nonneg by lia.
  replace ((off + n) / 8 + (if 0 <? (off + n) mod 8 then 1 else 0)) with ((off + n + 7) / 8)
    by (destruct (Z.ltb_spec 0 ((off + n) mod 8)); zdiv).
  replace (n / 8 + (if 0 <? n mod 8 then 1 else 0)) with ((n + 7) / 8)
    by (destruct (Z.ltb_spec 0 (n mod 8)); zdiv).
  replace (if 0 <? (off + n + 7) / 8 - len d then len d else (off + n + 7) / 8)
    with (Z.min (len d) ((off + n + 7) / 8)) by (destruct (Z.ltb_spec 0 ((off + n + 7) / 8 - len d)); lia).
  try rewrite (Z.rem_mod_nonneg (8 - n mod 8)) by zdiv.
  pose proof (len_used d off n Ho Hn) as Hlen.
  unfold bind at 1. unfold slice at 1.
  destruct (Z.ltb_spec (off / 8) 0); [zdiv|].
  destruct (Z.ltb_spec (Z.min (len d) ((off + n + 7) / 8)) (off / 8)); [zdiv|].
  destruct (Z.ltb_spec (len d) (Z.min (len d) ((off + n + 7) / 8))); [lia|]. cbn [orb ret].
  fold (used d off n). unfold raw_range.
  assert (Hms : makeslice (S := S) ((n + 7) / 8) = ret tt).
  { unfold makeslice. destruct (Z.ltb_spec ((n + 7) / 8) 0); [zdiv|done]. }
  rewrite Hms. destruct (Z.eqb_spec (off mod 8) 0) as [Ho0|Ho0], (Z.eqb_spec (n mod 8) 0) as [Hn0|Hn0]; cbn [andb].
  - replace ((n + 7) / 8) with (n / 8) by zdiv.
    destruct (Z.ltb_spec 0 ((off + n + 7) / 8 - len d)).
    + unfold bind, ret. cbv beta iota. do 3 f_equal. apply take_ge. unfold len in *. zdiv.
    + unfold ret, fill. do 2 f_equal.
      replace (Z.to_nat (n / 8) - length (used d off n))%nat with 0%nat; [by rewrite app_nil_r|].
      unfold len in *. zdiv.
  - destruct (Z.ltb_spec (off mod 8) 0); [zdiv|]. cbn [andb]. unfold bind, ret. cbv beta iota.
    destruct (Z.eqb_spec ((n + 7) / 8) 0); [zdiv|]. rewrite (Z.mod_small (8 - n mod 8)) by zdiv. done.
  - destruct (Z.ltb_spec (off mod 8) 0); [zdiv|]. cbn [andb]. unfold bind, ret. cbv beta iota.
    destruct (Z.eqb_spec ((n + 7) / 8) 0); [zdiv|]. rewrite Hn0. change ((8 - 0) mod 8) with 0.
    do 2 f_equal. apply update_last_id.
    + intros E. apply (f_equal length) in E. rewrite length_first_pass in E. simpl in E. zdiv.
    + destruct shift; [by rewrite Z.shiftr_0_r|]. rewrite Z.shiftl_0_r. apply land_0xFF, is_bytes_last.
      apply is_bytes_first_pass; [by apply is_bytes_used|zdiv].
  - destruct (Z.ltb_spec (off mod 8) 0); [zdiv|]. cbn [andb]. unfold bind, ret. cbv beta iota.
    destruct (Z.eqb_spec ((n + 7) / 8) 0); [zdiv|]. rewrite (Z.mod_small (8 - n mod 8)) by zdiv. done.
Qed.

Lemma bits_raw_range d off n :
  is_bytes d -> 0 <= off <= 8 * len d -> 0 < n -> bits d off n (raw_range d off n).
Proof.
  intros Hd Ho Hn j Hj. unfold raw_range.
  rewrite <- (bits_used d off n j) by done.
  destruct (Z.eqb_spec (off mod 8) 0) as [Ho0|Ho0], (Z.eqb_spec (n mod 8) 0) as [Hn0|Hn0]; cbn [andb];
    try (apply bits_first_pass; [by apply is_bytes_used|zdiv|zdiv]).
  rewrite Ho0, Z.add_0_l. unfold bit_at, fill. f_equal.
  destruct (Nat.ltb_spec (Z.to_nat (j / 8)) (length (used d off n))).
  - by rewrite app_nth1.
  - rewrite app_nth2, nth_replicate_zero by lia. by rewrite nth_overflow.
Qed.

Lemma len_raw_range d off n :
  is_bytes d -> 0 <= off <= 8 * len d -> 0 < n -> len (raw_range d off n) = (n + 7) / 8.
Proof.
  intros Hd Ho Hn. unfold raw_range. pose proof (len_used d off n Ho Hn) as Hl.
  destruct (Z.eqb_spec (off mod 8) 0) as [Ho0|Ho0], (Z.eqb_spec (n mod 8) 0) as [Hn0|Hn0]; cbn [andb];
    try (unfold len; rewrite length_first_pass; zdiv).
  unfold fill. rewrite len_app, len_replicate. unfold len in *. zdiv.
Qed.

Lemma is_bytes_raw_range d off n :
  is_bytes d -> is_bytes (raw_range d off n).
Proof.
  intros Hd. unfold raw_range. destruct (_ && _).
  - apply is_bytes_app. split; [by apply is_bytes_used|]. apply Forall_replicate. done.
  - apply is_bytes_first_pass; [by apply is_bytes_used|]. apply Z.mod_pos_bound. lia.
Qed.

Lemma uint_high w x i : 0 <= w -> uint w x -> w <= i -> Z.testbit x i = false.
Proof. intros Hw Hx Hi. rewrite <- (Z.mod_small x (2 ^ w)) by apply Hx. by apply Z.mod_pow2_bits_high. Qed.

(** The range is the high [n] bits of the raw bytes. *)
Lemma raw_range_field d off n :
  is_bytes d -> 0 <= off <= 8 * len d -> 0 < n ->
  be_get (raw_range d off n) / 2 ^ (8 * ((n + 7) / 8) - n) = bit_field d off n.
Proof.
  intros Hd Ho Hn. pose proof (is_bytes_raw_range d off n Hd) as Hr.
  pose proof (be_get_uint _ Hr) as Hu. pose proof (len_raw_range d off n Hd Ho Hn) as Hl.
  set (R := be_get (raw_range d off n)) in *. set (k := (n + 7) / 8) in *.
  assert (0 <= 8 * k - n) by (subst k; zdiv).
  apply Z.bits_inj'. intros i Hi. rewrite Z.div_pow2_bits by lia.
  destruct (Z.ltb_spec i n).
  - rewrite testbit_bit_field by (done || lia). unfold R. rewrite testbit_be_get by (done || lia).
    rewrite Hl. replace (8 * k - 1 - (i + (8 * k - n))) with (n - 1 - i) by lia.
    rewrite (bits_raw_range d off n) by (done || lia). f_equal. lia.
  - rewrite (uint_high (8 * k) R) by (done || lia || by rewrite <- Hl).
    unfold bit_field. by rewrite Z.mod_pow2_bits_high by lia.
Qed.

Lemma be_get_snoc r x : u8 x -> be_get (r ++ [x]) = be_get r * 256 + x.
Proof.
  intros Hx. unfold be_get. rewrite be_get_from_app. cbn [be_get_from].
  rewrite lor_shiftl_low; [done|lia|exact Hx].
Qed.

Lemma be_get_update_last f r :
  is_bytes r -> r <> [] -> u8 (f (List.last r 0)) ->
  be_get (update_last f r) = be_get r / 256 * 256 + f (be_get r mod 256) /\
  is_bytes (update_last f r) /\ len (update_last f r) = len r.
Proof.
  intros Hr Hne Hf. destruct r as [|x r _] using rev_ind; [done|]. unfold update_last in *.
  rewrite removelast_last, last_last in *. apply is_bytes_app in Hr as [Hr Hx].
  apply Forall_inv in Hx. rewrite !be_get_snoc by done. splits.
  - assert (0 <= x < 256) by exact Hx.
    rewrite Z.div_add_l, Z.div_small, Z.add_0_r by lia.
    rewrite Z.add_comm, (Z.add_comm _ x), Z.mod_add, Z.mod_small by lia. lia.
  - apply is_bytes_app. split; [done|by constructor].
  - by rewrite !len_app.
Qed.

(** What [GetBytes] returns as a number, when it aligns the last byte to the right. *)
Lemma GetBytes_number {S} d off n (s : S) :
  is_bytes d -> 0 <= off <= 8 * len d -> 0 < n ->
  exists r, GetBytes d off n true s = (Ok r, s) /\ is_bytes r /\ len r = (n + 7) / 8 /\
    be_get r = if n mod 8 =? 0 then bit_field d off n
               else bit_field d off n / 2 ^ (n mod 8) * 2 ^ 8 + bit_field d off n mod 2 ^ (n mod 8).
Proof.
  intros Hd Ho Hn. rewrite GetBytes_raw by done. eexists. split; [done|].
  pose proof (is_bytes_raw_range d off n Hd) as Hr. pose proof (len_raw_range d off n Hd Ho Hn) as Hl.
  pose proof (raw_range_field d off n Hd Ho Hn) as Hf.
  destruct (Z.eqb_spec (n mod 8) 0) as [H0|H0].
  - splits; [done|done|]. rewrite <- Hf. replace (8 * ((n + 7) / 8) - n) with 0 by zdiv. by rewrite Z.div_1_r.
  - replace (8 * ((n + 7) / 8) - n) with (8 - n mod 8) in Hf by zdiv.
    pose proof (Z.mod_pos_bound n 8 ltac:(lia)) as Hm. set (p := n mod 8) in *.
    destruct (be_get_update_last (fun b => Z.shiftr b (8 - p)) (raw_range d off n)) as (E & Hb & Hlen); [done| | |].
    + intros E. rewrite E in Hl. change (len []) with 0 in Hl. zdiv.
    + pose proof (is_bytes_last _ Hr) as [? Hlt]. rewrite Z.shiftr_div_pow2 by lia.
      split; [apply Z.div_pos; lia|]. apply Z.div_lt_upper_bound; [lia|].
      assert (1 <= 2 ^ (8 - p)) by (apply (Z.pow_le_mono_r 2 0); lia). nia.
    + splits; [done|congruence|]. rewrite E, Z.shiftr_div_pow2 by lia. rewrite <- Hf.
      set (R := be_get (raw_range d off n)). change 256 with (2 ^ 8).
      assert (H8 : 2 ^ 8 = 2 ^ (8 - p) * 2 ^ p) by (rewrite <- Z.pow_add_r by lia; f_equal; lia).
      rewrite Z.div_div, <- H8 by lia. f_equal.
      rewrite H8, Z.rem_mul_r by lia. rewrite (Z.mul_comm (2 ^ (8 - p))), Z.div_add by lia.
      rewrite (Z.div_small (R mod _)) by (apply Z.mod_pos_bound; lia). lia.
Qed.

(** Custom mappings read bit ranges of a packet with [GetBytes].  For any range that starts
    inside the packet it returns the bytes that hold the range, zero past the end; as a
    big-endian number they are the range when its length is below 8 or a multiple of 8, and
    otherwise the range with its low [n mod 8] bits moved to a byte of their own. *)
Theorem get_bytes_range (d : bytes) (off n : Z) (m : FlowMessage) :
  is_bytes d -> 0 <= off -> 0 < n ->
  (8 * len d < off -> GetBytes d off n true m = (Ok [], m)) /\
  (off <= 8 * len d -> exists r, GetBytes d off n true m = (Ok r, m) /\ is_bytes r /\
     len r = (n + 7) / 8 /\
     (n < 8 \/ n mod 8 = 0 -> be_get r = bit_field d off n) /\
     (n mod 8 <> 0 -> be_get r =
        bit_field d off n / 2 ^ (n mod 8) * 2 ^ 8 + bit_field d off n mod 2 ^ (n mod 8))).
Proof.
  intros Hd Ho Hn. split.
  - intros Hoff. unfold GetBytes. destruct (Z.ltb_spec (len d * 8) off); [done|lia].
  - intros Hoff. destruct (GetBytes_number d off n m Hd (conj Ho Hoff) Hn) as (r & Hr & Hb & Hl & E).
    exists r. splits; [done|done|done| |].
    + rewrite E. intros [Hlt| ->]; [|done]. rewrite Z.mod_small by lia.
      destruct (Z.eqb_spec n 0); [done|].
      assert (0 <= bit_field d off n < 2 ^ n) by (apply Z.mod_pos_bound; lia).
      rewrite Z.div_small, Z.mod_small by done. lia.
    + intros Hm. rewrite E. by destruct (Z.eqb_spec (n mod 8) 0).
Qed.

Lemma get_bytes_range_witness :
  GetBytes [0x12; 0x34; 0x56] 0 12 true zero_message = (Ok [0x12; 0x03], zero_message) /\
  exists r, GetBytes [0x12; 0x34; 0x56] 12 16 true zero_message = (Ok r, zero_message) /\ is_bytes r /\
     len r = (16 + 7) / 8 /\
     (16 < 8 \/ 16 mod 8 = 0 -> be_get r = bit_field [0x12; 0x34; 0x56] 12 16) /\
     (16 mod 8 <> 0 -> be_get r = bit_field [0x12; 0x34; 0x56] 12 16 / 2 ^ (16 mod 8) * 2 ^ 8
                                  + bit_field [0x12; 0x34; 0x56] 12 16 mod 2 ^ (16 mod 8)).
Proof.
  split; [reflexivity|].
  apply (get_bytes_range [0x12; 0x34; 0x56] 12 16 zero_message); [|lia|lia|unfold len; simpl; lia].
  by apply is_bytes_by_test.
Defined.

(** ** Numbers *)

Lemma or_be_eq l iter a b :
  l = iter + len b -> or_be l iter (Z.shiftl a (8 * len b)) b = be_get_from a b.
Proof.
  revert iter a. induction b as [|x b IH]; intros iter a Hl; simpl.
  { change (len []) with 0. by rewrite Z.mul_0_r, Z.shiftl_0_r. }
  rewrite len_cons in Hl. rewrite <- (IH (iter + 1)) by lia. f_equal.
  replace (8 * (l - iter - 1)) with (8 * len b) by lia. pose proof (len_nonneg b).
  rewrite Z.shiftl_lor, Z.shiftl_shiftl by lia. f_equal. rewrite len_cons. f_equal. lia.
Qed.

Lemma or_be_get b : or_be (len b) 0 0 b = be_get b.
Proof.
  pose proof (or_be_eq (len b) 0 0 b ltac:(lia)) as H. by rewrite Z.shiftl_0_l in H.
Qed.

Lemma or_le_eq iter o b :
  is_bytes b -> 0 <= iter -> 0 <= o < 2 ^ (8 * iter) ->
  or_le iter o b = be_get (rev b) * 2 ^ (8 * iter) + o.
Proof.
  revert iter o. induction b as [|x b IH]; intros iter o Hb Hi Ho; simpl; [done|].
  apply Forall_cons in Hb as [Hx Hb].
  rewrite Z.lor_comm, lor_shiftl_low by (done || lia).
  assert (H8 : 2 ^ (8 * (iter + 1)) = 2 ^ (8 * iter) * 256)
    by (change 256 with (2 ^ 8); rewrite <- Z.pow_add_r by lia; f_equal; lia).
  rewrite IH, H8, be_get_snoc; [lia|done|done|lia|]. rewrite H8. destruct Hx as [Hx0 Hx1].
  change (2 ^ 8) with 256 in Hx1. nia.
Qed.

Lemma or_le_get b : is_bytes b -> or_le 0 0 b = be_get (rev b).
Proof. intros Hb. rewrite or_le_eq by (done || lia). simpl. lia. Qed.

(** The lengths that the decoders treat alike: as many bytes as a register, or fewer. *)
Definition register_length (l : Z) : bool := (l =? 1) || (l =? 2) || (l =? 4) || (l =? 8).

Lemma DecodeUNumber_eq b t :
  DecodeUNumber b t = if len b <=? 8 then WriteUDecoded (be_get b) t else Err (non_regular (len b)).
Proof.
  unfold DecodeUNumber. rewrite or_be_get. cbn [order_get].
  destruct (Z.eqb_spec (len b) 1), (Z.eqb_spec (len b) 2), (Z.eqb_spec (len b) 4),
    (Z.eqb_spec (len b) 8), (Z.ltb_spec (len b) 8), (Z.leb_spec (len b) 8); try lia; done.
Qed.

Lemma DecodeUNumberLE_eq b t :
  is_bytes b ->
  DecodeUNumberLE b t = if len b <=? 8 then WriteUDecoded (be_get (rev b)) t else Err (non_regular (len b)).
Proof.
  intros Hb. unfold DecodeUNumberLE. rewrite or_le_get by done. cbn [order_get].
  destruct (Z.eqb_spec (len b) 1), (Z.eqb_spec (len b) 2), (Z.eqb_spec (len b) 4),
    (Z.eqb_spec (len b) 8), (Z.ltb_spec (len b) 8), (Z.leb_spec (len b) 8); try lia; done.
Qed.

Lemma DecodeNumber_eq b t :
  DecodeNumber b t =
    if len b <=? 8 then
      WriteDecoded (if register_length (len b) then to_int (8 * len b) (be_get b) else be_get b) t
    else Err (non_regular (len b)).
Proof.
  unfold DecodeNumber. rewrite or_be_get. cbn [order_get]. unfold register_length.
  destruct (Z.eqb_spec (len b) 1), (Z.eqb_spec (len b) 2), (Z.eqb_spec (len b) 4),
    (Z.eqb_spec (len b) 8), (Z.ltb_spec (len b) 8), (Z.leb_spec (len b) 8); try lia; done.
Qed.

Lemma known_width_uint w z : known_width w = true -> uint w z -> WriteUDecoded z (O_uint w) = Ok z.
Proof. intros Hw Hz. unfold WriteUDecoded. by rewrite Hw, to_uint_small. Qed.

(** Numbers of any length.  An unsigned number of up to eight bytes, in either byte order,
    is stored modulo the width of its destination; longer ones are an error.  A number written
    with [be_put] in a reduced size is read back exactly.  Signed numbers are sign-extended
    only when their length is 1, 2, 4 or 8. *)
Theorem decode_numbers (b : bytes) (w : Z) :
  is_bytes b -> known_width w = true ->
  DecodeUNumber b (O_uint w) = (if len b <=? 8 then Ok (be_get b mod 2 ^ w) else Err (non_regular (len b))) /\
  DecodeUNumberLE b (O_uint w) = DecodeUNumber (rev b) (O_uint w) /\
  (forall n v, (n <= 8)%nat -> 8 * Z.of_nat n <= w -> uint (8 * Z.of_nat n) v ->
     DecodeUNumber (be_put n v) (O_uint w) = Ok v /\ DecodeUNumberLE (rev (be_put n v)) (O_uint w) = Ok v) /\
  DecodeNumber b (O_int w) =
    (if len b <=? 8 then
       Ok (to_int w (if register_length (len b) then to_int (8 * len b) (be_get b) else be_get b))
     else Err (non_regular (len b))).
Proof.
  intros Hb Hw.
  assert (Hrev : forall b', is_bytes b' -> DecodeUNumberLE b' (O_uint w) = DecodeUNumber (rev b') (O_uint w)).
  { intros b' Hb'. rewrite DecodeUNumberLE_eq, DecodeUNumber_eq by done. unfold len. by rewrite length_rev. }
  splits.
  - rewrite DecodeUNumber_eq. simpl. by rewrite Hw.
  - by apply Hrev.
  - intros n v Hn Hnw Hv.
    assert (DecodeUNumber (be_put n v) (O_uint w) = Ok v) as E.
    { rewrite DecodeUNumber_eq, len_be_put. destruct (Z.leb_spec (Z.of_nat n) 8); [|lia].
      rewrite be_get_put by done. apply known_width_uint; [done|]. destruct Hv as [? Hlt]. split; [done|].
      apply Z.lt_le_trans with (1 := Hlt). apply Z.pow_le_mono_r; lia. }
    split; [done|]. rewrite Hrev, rev_involutive; [done|].
    apply Forall_rev, is_bytes_be_put.
  - rewrite DecodeNumber_eq. simpl. by rewrite Hw.
Qed.

Lemma decode_numbers_witness :
  DecodeNumber [0xff; 0xff] (O_int 64) = Ok (-1) /\ DecodeNumber [0xff; 0xff; 0xff] (O_int 64) = Ok 16777215 /\
  DecodeUNumber [1; 2; 3] (O_uint 32) = Ok 0x010203.
Proof.
  splits; [reflexivity|reflexivity|].
  rewrite (proj1 (decode_numbers [1; 2; 3] 32 ltac:(by apply is_bytes_by_test) eq_refl)). reflexivity.
Defined.

(** ** Custom fields *)

(** A destination that reflection accepts. *)
Definition destination_ok (cfg : MapConfigBase) : Prop := FieldByName (Destination cfg) <> Some D_Unexported.

Lemma wp_decode_uint cfg what v t (Q : Z -> FlowMessage -> Prop) (E : error -> FlowMessage -> Prop) m :
  (forall x, Q x m) -> (forall e, E e m) -> wp (decode_uint cfg what v t) Q E m.
Proof.
  intros HQ HE. unfold decode_uint, map_err.
  assert (forall r : res Z, (exists x, r = Ok x) \/ (exists e, r = Err e) ->
    forall f, wp (errctx f (fun m => (r, m))) Q E m) as H.
  { intros r [[x ->]|[e ->]] f; [apply HQ|apply HE]. }
  assert (forall z, (exists x, WriteUDecoded z t = Ok x) \/ exists e, WriteUDecoded z t = Err e).
  { intros z. unfold WriteUDecoded. destruct t; try (right; by eexists). destruct (known_width w); eauto. }
  destruct (is_little cfg); apply H.
  - unfold DecodeUNumberLE. repeat case_match; eauto.
  - unfold DecodeUNumber. repeat case_match; eauto.
Qed.

Lemma wp_decode_int cfg v t (Q : Z -> FlowMessage -> Prop) (E : error -> FlowMessage -> Prop) m :
  (forall x, Q x m) -> (forall e, E e m) -> wp (decode_int cfg v t) Q E m.
Proof.
  intros HQ HE. unfold decode_int, map_err.
  assert (forall r : res Z, (exists x, r = Ok x) \/ (exists e, r = Err e) ->
    forall f, wp (errctx f (fun m => (r, m))) Q E m) as H.
  { intros r [[x ->]|[e ->]] f; [apply HQ|apply HE]. }
  assert (forall z, (exists x, WriteDecoded z t = Ok x) \/ exists e, WriteDecoded z t = Err e).
  { intros z. unfold WriteDecoded. destruct t; try (right; by eexists). destruct (known_width w); eauto. }
  destruct (is_little cfg); apply H.
  - unfold DecodeNumberLE. repeat case_match; eauto.
  - unfold DecodeNumber. repeat case_match; eauto.
Qed.

(** Custom fields keep a message well-formed, whatever the bytes. *)
Lemma wp_MapCustom v cfg m :
  destination_ok cfg -> is_bytes v -> message_ok m ->
  wp (MapCustom v cfg) (fun _ => message_ok) (fun _ => message_ok) m.
Proof.
  intros Hd Hv Hm. unfold MapCustom. unfold destination_ok in Hd.
  assert (forall f, message_ok (f m) -> wp (modify f) (fun _ => message_ok) (fun _ => message_ok) m) as Hmod by done.
  destruct (FieldByName (Destination cfg)) as [[]|]; try done;
    try (apply wp_bind; first [apply wp_decode_uint|apply wp_decode_int]; [intros x|done];
         by apply Hmod; auto with msg).
  - by apply Hmod; auto with msg.
  - apply Hmod. apply message_ok_bytess; [|done]. apply Forall_app. split; [apply Hm|repeat constructor].
  - destruct (0 <? ProtoIndex cfg); [|done]. destruct (String.eqb _ _).
    + apply wp_bind, wp_decode_uint; [intros x|done]. by apply Hmod; auto with msg.
    + destruct (String.eqb _ _); [|done]. by apply Hmod; auto with msg.
Qed.

Lemma is_bytes_GetBytes {S} d off n (s : S) (Q : bytes -> S -> Prop) E :
  is_bytes d -> 0 <= off -> 0 <= n -> (forall r, is_bytes r -> Q r s) ->
  wp (GetBytes d off n true) Q E s.
Proof.
  intros Hd Ho Hn HQ. destruct (Z.ltb_spec (8 * len d) off).
  - unfold GetBytes. destruct (Z.ltb_spec (len d * 8) off); [|lia]. by apply HQ, Forall_nil_2.
  - destruct (Z.eq_dec n 0) as [->|].
    + unfold GetBytes. destruct (Z.ltb_spec (len d * 8) off); [lia|]. by apply HQ, Forall_nil_2.
    + destruct (GetBytes_number d off n s) as (r & Hr & Hb & _); [done|lia|lia|].
      unfold wp. rewrite Hr. by apply HQ.
Qed.
