(* ===== verification/PacketParser.v ===== *)
(** * producer/proto: the packet-header parser (producer_packet.go)

    A frame is parsed layer by layer: each parser writes into the flow message and names the
    next parser.  The parsers of the package are the constructors of [Parser], the function
    values that the environment stores and returns; [call] runs them. *)
From S2P Require Import Prelude Text DecodersUtils NetflowTypes FlowMessage ProtoReflect.

(** ** Parser descriptions *)

Inductive Parser : Type :=
  | P_Ethernet | P_8021Q | P_MPLS | P_IPv4 | P_IPv6 | P_IPv6HeaderRouting
  | P_IPv6HeaderFragment | P_TCP | P_UDP | P_ICMP | P_ICMPv6 | P_GRE | P_TeredoDst | P_Geneve.

#[export] Instance Parser_eq_dec : EqDecision Parser.
Proof. solve_decision. Defined.

Record ParserInfo : Type := {
  Parser_ : option Parser; Name : string; ConfigKeyList : list string;
  LayerIndex : Z; ParserIndex : Z; EncapSkip : bool
}.

Definition zero_ParserInfo : ParserInfo :=
  {| Parser_ := None; Name := ""; ConfigKeyList := []; LayerIndex := 0; ParserIndex := 0;
     EncapSkip := false |}.

Definition info (p : option Parser) (name : string) (keys : list string) (layer parser : Z)
    (skip : bool) : ParserInfo :=
  {| Parser_ := p; Name := name; ConfigKeyList := keys; LayerIndex := layer;
     ParserIndex := parser; EncapSkip := skip |}.

(** The package variables, as [init] leaves them. *)
Definition parserNone := info None "none" [] 100 9999 false.
Definition parserEthernet := info (Some P_Ethernet) "ethernet" ["ethernet"; "2"] 20 1 false.
Definition parser8021Q := info (Some P_8021Q) "dot1q" ["dot1q"] 25 2 true.
Definition parserMPLS := info (Some P_MPLS) "mpls" ["mpls"] 25 3 true.
Definition parserIPv4 := info (Some P_IPv4) "ipv4" ["ipv4"; "ip"; "3"] 30 4 false.
Definition parserIPv6 := info (Some P_IPv6) "ipv6" ["ipv6"; "ip"; "3"] 30 5 false.
Definition parserIPv6HeaderRouting :=
  info (Some P_IPv6HeaderRouting) "ipv6-route" ["ipv6eh_routing"; "ipv6-route"; "ipv6eh"] 35 7 false.
Definition parserIPv6HeaderFragment :=
  info (Some P_IPv6HeaderFragment) "ipv6-frag" ["ipv6eh_fragment"; "ipv6-frag"; "ipv6eh"] 35 6 true.
Definition parserTCP := info (Some P_TCP) "tcp" ["tcp"; "4"] 40 8 false.
Definition parserUDP := info (Some P_UDP) "udp" ["udp"; "4"] 40 9 false.
Definition parserICMP := info (Some P_ICMP) "icmp" ["icmp"] 70 10 false.
Definition parserICMPv6 := info (Some P_ICMPv6) "ipv6-icmp" ["icmpv6"; "ipv6-icmp"] 70 11 false.
Definition parserGRE := info (Some P_GRE) "gre" ["gre"] 40 12 false.
Definition parserTeredoDst := info (Some P_TeredoDst) "teredo-dst" ["teredo-dst"; "teredo"] 40 13 false.
Definition parserGeneve := info (Some P_Geneve) "geneve" ["geneve"] 40 14 false.

(** [append(info.ConfigKeyList, keys...)]. *)
Definition add_keys (keys : list string) (i : ParserInfo) : ParserInfo :=
  info (Parser_ i) (Name i) (ConfigKeyList i ++ keys) (LayerIndex i) (ParserIndex i) (EncapSkip i).

(** ** The environment *)

Record BaseParserEnvironment : Type := {
  nameToParser : gmap string ParserInfo;
  customEtype : gmap Z ParserInfo;
  customProto : gmap Z ParserInfo;
  customPort : gmap string ParserInfo
}.

Definition base_parsers : list ParserInfo :=
  [parserEthernet; parser8021Q; parserMPLS; parserIPv4; parserIPv6; parserIPv6HeaderRouting;
   parserIPv6HeaderFragment; parserTCP; parserUDP; parserICMP; parserICMPv6; parserGRE;
   parserTeredoDst; parserGeneve].

Definition NewBaseParserEnvironment : BaseParserEnvironment :=
  {| nameToParser := fold_left (fun m p => <[Name p := p]> m) base_parsers ∅;
     customEtype := ∅; customProto := ∅; customPort := ∅ |}.

Definition DefaultEnvironment : BaseParserEnvironment := NewBaseParserEnvironment.

Definition GetParser (e : BaseParserEnvironment) (name : string) : option ParserInfo :=
  nameToParser e !! name.

Definition errParserEmpty : error := Errorf "parser is nil" [].

Definition RegisterEtype (eType : Z) (parser : ParserInfo) (e : BaseParserEnvironment)
    : res BaseParserEnvironment :=
  match Parser_ parser with
  | None => Err errParserEmpty
  | Some _ => Ok {| nameToParser := nameToParser e; customEtype := <[eType := parser]> (customEtype e);
                    customProto := customProto e; customPort := customPort e |}
  end.

Definition RegisterProto (proto : Z) (parser : ParserInfo) (e : BaseParserEnvironment)
    : res BaseParserEnvironment :=
  match Parser_ parser with
  | None => Err errParserEmpty
  | Some _ => Ok {| nameToParser := nameToParser e; customEtype := customEtype e;
                    customProto := <[proto := parser]> (customProto e); customPort := customPort e |}
  end.

(** ["%s-src-%d"], ["%s-dst-%d"]. *)
Definition port_key (proto dir : string) (port : Z) : string := proto ++ "-" ++ dir ++ "-" ++ itoa port.

Definition store_port (key : string) (parser : ParserInfo) (e : BaseParserEnvironment) : BaseParserEnvironment :=
  {| nameToParser := nameToParser e; customEtype := customEtype e; customProto := customProto e;
     customPort := <[key := parser]> (customPort e) |}.

Definition RegisterPort (proto dir : string) (port : Z) (parser : ParserInfo)
    (e : BaseParserEnvironment) : res BaseParserEnvironment :=
  match Parser_ parser with
  | None => Err errParserEmpty
  | Some _ =>
      if String.eqb dir "both" then
        Ok (store_port (port_key proto "dst" port) parser (store_port (port_key proto "src" port) parser e))
      else if String.eqb dir "src" then Ok (store_port (port_key proto "src" port) parser e)
      else if String.eqb dir "dst" then Ok (store_port (port_key proto "dst" port) parser e)
      else Err (Errorf ("unknown direction " ++ dir) [])
  end.

(** Four hexadecimal digits: ["%.4x"] of a [uint16]. *)
Definition hex_digit (n : Z) : string :=
  nth (Z.to_nat n) ["0"; "1"; "2"; "3"; "4"; "5"; "6"; "7"; "8"; "9"; "a"; "b"; "c"; "d"; "e"; "f"]%string "".
Definition hex4 (n : Z) : string :=
  hex_digit (n / 4096 mod 16) ++ hex_digit (n / 256 mod 16) ++ hex_digit (n / 16 mod 16) ++ hex_digit (n mod 16).

Definition innerNextParserEtype (e : BaseParserEnvironment) (etherType : bytes)
    : ParserInfo * option error :=
  match etherType with
  | [b0; b1] =>
      let eType := Z.lor (Z.shiftl b0 8) b1 in
      match customEtype e !! eType with
      | Some cParser => (cParser, None)
      | None =>
          if eType =? 0x199e then (parserEthernet, None)
          else if eType =? 0x6558 then (parserEthernet, None)
          else if eType =? 0x8847 then (parserMPLS, None)
          else if eType =? 0x8100 then (parser8021Q, None)
          else if eType =? 0x0800 then (parserIPv4, None)
          else if eType =? 0x86dd then (parserIPv6, None)
          else (parserNone, None)
      end
  | _ => (parserNone, Some (Errorf "wrong ether type" []))
  end.

Definition NextParserEtype {S} (e : BaseParserEnvironment) (etherType : bytes) : ST S ParserInfo :=
  let '(i, err) := innerNextParserEtype e etherType in
  let* b0 := index etherType 0 in
  let* b1 := index etherType 1 in
  let etypeNum := Z.lor (Z.shiftl b0 8) b1 in
  match err with
  | Some er => fail (Wrap "NextParserEtype" [] er)
  | None => ret (add_keys ["etype" +:+ itoa etypeNum; "etype0x" +:+ hex4 etypeNum] i)
  end.

Definition innerNextParserProto (e : BaseParserEnvironment) (proto : Z) : ParserInfo :=
  match customProto e !! proto with
  | Some cParser => cParser
  | None =>
      if proto =? 1 then parserICMP
      else if proto =? 4 then parserIPv4
      else if proto =? 6 then parserTCP
      else if proto =? 17 then parserUDP
      else if proto =? 41 then parserIPv6
      else if proto =? 43 then parserIPv6HeaderRouting
      else if proto =? 44 then parserIPv6HeaderFragment
      else if proto =? 47 then parserGRE
      else if proto =? 58 then parserICMPv6
      else parserNone
  end.

(** The error of this lookup and of the next is always nil. *)
Definition NextParserProto {S} (e : BaseParserEnvironment) (proto : Z) : ST S ParserInfo :=
  ret (add_keys ["proto" +:+ itoa proto] (innerNextParserProto e proto)).

Definition innerNextParserPort (e : BaseParserEnvironment) (proto : string) (srcPort dstPort : Z)
    : Z * ParserInfo :=
  match customPort e !! port_key proto "dst" dstPort with
  | Some cParser => (1, cParser)
  | None =>
      match customPort e !! port_key proto "src" srcPort with
      | Some cParser => (2, cParser)
      | None => (0, parserNone)
      end
  end.

Definition NextParserPort {S} (e : BaseParserEnvironment) (proto : string) (srcPort dstPort : Z)
    : ST S ParserInfo :=
  let '(dir, i) := innerNextParserPort e proto srcPort dstPort in
  ret (if dir =? 1 then add_keys [proto +:+ itoa dstPort] i
       else if dir =? 2 then add_keys [proto +:+ itoa srcPort] i else i).

(** ** Parsers *)

Record ParseConfig : Type := {
  Environment : option BaseParserEnvironment; Layer : Z; Calls : Z; LayerCall : Z; Encapsulated : bool
}.

Definition BaseLayer (c : ParseConfig) : bool := negb (Encapsulated c).

Record ParseResult : Type := { NextParser : ParserInfo; Size : Z }.

Abbreviation P := (ST FlowMessage).

(** [res], before the next parser is known. *)
Definition sized (n : Z) : ParseResult := {| NextParser := zero_ParserInfo; Size := n |}.

(** [if len(data) < n { return res, nil }]. *)
Definition at_least (data : bytes) (n : Z) (k : P ParseResult) : P ParseResult :=
  if len data <? n then ret (sized 0) else k.

(** [if pc.BaseLayer() { ... }]. *)
Definition on_base (pc : ParseConfig) (k : P unit) : P unit := if BaseLayer pc then k else ret tt.

(** [if pc.Environment == nil { return res, nil }; res.NextParser, err = ...; return res, err]. *)
Definition next (pc : ParseConfig) (fn : string) (size : Z) (k : BaseParserEnvironment -> P ParserInfo)
    : P ParseResult :=
  match Environment pc with
  | None => ret (sized size)
  | Some e => let* i := errctx (Wrap fn []) (k e) in ret {| NextParser := i; Size := size |}
  end.

(** [binary.BigEndian.UintN(data[a:b])]. *)
Definition be_at (data : bytes) (a b : Z) : P Z := let* s := slice data a b in ret (be_get s).

Definition ParseEthernet (data : bytes) (pc : ParseConfig) : P ParseResult :=
  at_least data 14 (
    modify (AddLayer "Ethernet") ;;;
    let* d := slice data 0 6 in
    let dstMac := be_get (0 :: 0 :: d) in
    let* s := slice data 6 12 in
    let srcMac := be_get (0 :: 0 :: s) in
    let* eType := slice data 12 14 in
    on_base pc (
      modify (set_num F_SrcMac srcMac) ;;;
      modify (set_num F_DstMac dstMac) ;;;
      modify (set_num F_Etype (be_get eType))) ;;;
    next pc "ParseEthernet" 14 (fun e => NextParserEtype e eType)).

Definition Parse8021Q (data : bytes) (pc : ParseConfig) : P ParseResult :=
  at_least data 4 (
    modify (AddLayer "Dot1Q") ;;;
    let* eType := slice data 2 4 in
    on_base pc (
      let* vlan := be_at data 0 2 in
      modify (set_num F_VlanId vlan) ;;;
      modify (set_num F_Etype (be_get eType))) ;;;
    next pc "Parse8021Q" 4 (fun e => NextParserEtype e eType)).

(** The label stack: the labels and TTLs read, the offset behind them, and the ether type
    guessed from the byte that follows the bottom of the stack. *)
Fixpoint mpls_loop (fuel : nat) (data : bytes) (offset : Z) (mplsLabel mplsTtl : list Z)
    : P (list Z * list Z * Z * bytes) :=
  match fuel with
  | O => fun m => (Hang, m)
  | Datatypes.S fuel' =>
      if len data <? offset + 4 then ret (mplsLabel, mplsTtl, offset, [])
      else
        let* d := slice data offset (offset + 3) in
        let label := Z.shiftr (be_get (0 :: d)) 4 in
        let* b2 := index data (offset + 2) in
        let bottom := Z.land b2 1 in
        let* ttl := index data (offset + 3) in
        let offset' := offset + 4 in
        let labels := mplsLabel ++ [label] in
        let ttls := mplsTtl ++ [ttl] in
        if (bottom =? 1) || (label <=? 15) || (len data <? offset') then
          if offset' <? len data then
            let* b := index data offset' in
            let v := Z.shiftr b 4 in
            ret (labels, ttls, offset',
                 if v =? 4 then [0x8; 0x0] else if v =? 6 then [0x86; 0xdd] else [])
          else ret (labels, ttls, offset', [])
        else mpls_loop fuel' data offset' labels ttls
  end.

Definition ParseMPLS (data : bytes) (pc : ParseConfig) : P ParseResult :=
  at_least data 4 (
    modify (AddLayer "MPLS") ;;;
    let* (labels, ttls, offset, eType) := mpls_loop (Datatypes.S (length data)) data 0 [] [] in
    on_base pc (
      (if len eType =? 2 then modify (set_num F_Etype (be_get eType)) else ret tt) ;;;
      modify (set_nums F_MplsLabel labels) ;;;
      modify (set_nums F_MplsTtl ttls)) ;;;
    if len eType =? 2 then next pc "ParseMPLS" offset (fun e => NextParserEtype e eType)
    else ret (sized offset)).

Definition ParseIPv4 (data : bytes) (pc : ParseConfig) : P ParseResult :=
  at_least data 20 (
    modify (AddLayer "IPv4") ;;;
    let* nextHeader := index data 9 in
    on_base pc (
      let* src := slice data 12 16 in
      modify (set_byt F_SrcAddr src) ;;;
      let* dst := slice data 16 20 in
      modify (set_byt F_DstAddr dst) ;;;
      let* tos := index data 1 in
      let* ttl := index data 8 in
      modify (set_num F_IpTos tos) ;;;
      modify (set_num F_IpTtl ttl) ;;;
      let* identification := be_at data 4 6 in
      let* fragOffset := be_at data 6 8 in
      modify (set_num F_FragmentId identification) ;;;
      modify (set_num F_FragmentOffset (Z.land fragOffset 8191)) ;;;
      modify (set_num F_IpFlags (Z.shiftr fragOffset 13)) ;;;
      modify (set_num F_Proto nextHeader)) ;;;
    next pc "ParseIPv4" 20 (fun e => NextParserProto e nextHeader)).

Definition ParseIPv6 (data : bytes) (pc : ParseConfig) : P ParseResult :=
  at_least data 40 (
    modify (AddLayer "IPv6") ;;;
    let* nextHeader := index data 6 in
    on_base pc (
      let* src := slice data 8 24 in
      modify (set_byt F_SrcAddr src) ;;;
      let* dst := slice data 24 40 in
      modify (set_byt F_DstAddr dst) ;;;
      let* tostmp := be_at data 0 2 in
      let tos := to_uint 8 (Z.shiftr (Z.land tostmp 0x0ff0) 4) in
      let* ttl := index data 7 in
      modify (set_num F_IpTos tos) ;;;
      modify (set_num F_IpTtl ttl) ;;;
      let* flowLabel := be_at data 0 4 in
      modify (set_num F_Ipv6FlowLabel (Z.land flowLabel 0xFFFFF)) ;;;
      modify (set_num F_Proto nextHeader)) ;;;
    next pc "ParseIPv6" 40 (fun e => NextParserProto e nextHeader)).

Definition ParseIPv6HeaderFragment (data : bytes) (pc : ParseConfig) : P ParseResult :=
  at_least data 8 (
    modify (AddLayer "IPv6HeaderFragment") ;;;
    let* nextHeader := index data 0 in
    on_base pc (
      let* fragOffset := be_at data 2 4 in
      let* identification := be_at data 4 8 in
      modify (set_num F_FragmentId identification) ;;;
      modify (set_num F_FragmentOffset (Z.shiftr fragOffset 3)) ;;;
      modify (set_num F_IpFlags (Z.land fragOffset 7))) ;;;
    next pc "ParseIPv6HeaderFragment" 8 (fun e => NextParserProto e nextHeader)).

(** The segment list of a segment-routing header. *)
Fixpoint segments_loop (fuel : nat) (data : bytes) (size lastEntry offset entry : Z) : P unit :=
  match fuel with
  | O => fun m => (Hang, m)
  | Datatypes.S fuel' =>
      if (8 + offset <? size) && (8 + offset + 16 <=? len data) && (entry <=? lastEntry) then
        let* addr := slice data (8 + offset) (8 + offset + 16) in
        modify (fun m => set_bytess F_Ipv6RoutingHeaderAddresses
                           (bytess m F_Ipv6RoutingHeaderAddresses ++ [addr]) m) ;;;
        segments_loop fuel' data size lastEntry (offset + 16) (entry + 1)
      else ret tt
  end.

Definition ParseIPv6HeaderRouting (data : bytes) (pc : ParseConfig) : P ParseResult :=
  at_least data 8 (
    let* nextHeader := index data 0 in
    let* length_ := index data 1 in
    let size := 8 + 8 * length_ in
    modify (AddLayer "IPv6HeaderRouting") ;;;
    on_base pc (
      let* routingType := index data 2 in
      let* segLeft := index data 3 in
      modify (set_num F_Ipv6RoutingHeaderSegLeft segLeft) ;;;
      if routingType =? 4 then
        let* lastEntry := index data 4 in
        segments_loop (Datatypes.S (length data)) data size lastEntry 0 0
      else ret tt) ;;;
    next pc "ParseIPv6HeaderRouting" size (fun e => NextParserProto e nextHeader)).

(** The ports at the front of TCP and UDP headers. *)
Definition ParseTCP (data : bytes) (pc : ParseConfig) : P ParseResult :=
  at_least data 20 (
    let* b12 := index data 12 in
    let size := Z.shiftr b12 4 * 4 in
    modify (AddLayer "TCP") ;;;
    let* srcPort := be_at data 0 2 in
    let* dstPort := be_at data 2 4 in
    on_base pc (
      modify (set_num F_SrcPort srcPort) ;;;
      modify (set_num F_DstPort dstPort) ;;;
      let* tcpflags := index data 13 in
      modify (set_num F_TcpFlags tcpflags)) ;;;
    next pc "ParseTCP" size (fun e => NextParserPort e "tcp" srcPort dstPort)).

Definition ParseUDP (data : bytes) (pc : ParseConfig) : P ParseResult :=
  at_least data 8 (
    modify (AddLayer "UDP") ;;;
    let* srcPort := be_at data 0 2 in
    let* dstPort := be_at data 2 4 in
    on_base pc (
      modify (set_num F_SrcPort srcPort) ;;;
      modify (set_num F_DstPort dstPort)) ;;;
    next pc "ParseUDP" 8 (fun e => NextParserPort e "udp" srcPort dstPort)).

Definition ParseGRE (data : bytes) (pc : ParseConfig) : P ParseResult :=
  at_least data 4 (
    modify (AddLayer "GRE") ;;;
    let* eType := slice data 2 4 in
    next pc "ParseGRE" 4 (fun e => NextParserEtype e eType)).

Definition ParseTeredoDst (data : bytes) (pc : ParseConfig) : P ParseResult :=
  modify (AddLayer "Teredo") ;;; ret {| NextParser := parserIPv6; Size := 0 |}.

Definition ParseGeneve (data : bytes) (pc : ParseConfig) : P ParseResult :=
  at_least data 8 (
    let* b0 := index data 0 in
    let size := Z.land b0 0x3f * 4 + 8 in
    modify (AddLayer "Geneve") ;;;
    let* eType := slice data 2 4 in
    next pc "ParseGeneve" size (fun e => NextParserEtype e eType)).

Definition parse_icmp (layer : string) (data : bytes) (pc : ParseConfig) : P ParseResult :=
  at_least data 2 (
    modify (AddLayer layer) ;;;
    (if Calls pc =? 0 then
       let* t := index data 0 in
       let* c := index data 1 in
       modify (set_num F_IcmpType t) ;;;
       modify (set_num F_IcmpCode c)
     else ret tt) ;;;
    ret (sized 8)).
Definition ParseICMP : bytes -> ParseConfig -> P ParseResult := parse_icmp "ICMP".
Definition ParseICMPv6 : bytes -> ParseConfig -> P ParseResult := parse_icmp "ICMPv6".

Definition call (p : Parser) : bytes -> ParseConfig -> P ParseResult :=
  match p with
  | P_Ethernet => ParseEthernet
  | P_8021Q => Parse8021Q
  | P_MPLS => ParseMPLS
  | P_IPv4 => ParseIPv4
  | P_IPv6 => ParseIPv6
  | P_IPv6HeaderRouting => ParseIPv6HeaderRouting
  | P_IPv6HeaderFragment => ParseIPv6HeaderFragment
  | P_TCP => ParseTCP
  | P_UDP => ParseUDP
  | P_ICMP => ParseICMP
  | P_ICMPv6 => ParseICMPv6
  | P_GRE => ParseGRE
  | P_TeredoDst => ParseTeredoDst
  | P_Geneve => ParseGeneve
  end.

(** ** The parser chain *)

(** [strings.ToLower] on ASCII. *)
Definition lower (c : Ascii.ascii) : Ascii.ascii :=
  let n := Ascii.nat_of_ascii c in
  if ((65 <=? n) && (n <=? 90))%nat then Ascii.ascii_of_nat (n + 32) else c.
Definition ToLower (s : string) : string :=
  String.string_of_list_ascii (map lower (String.list_ascii_of_string s)).

Record SFlowMapper : Type := {
  layers : gmap string (list DataMapLayer); parserEnvironment : option BaseParserEnvironment
}.

(** [SFlowMapper.Map]: what its iterator yields. *)
Definition SFlowMapper_Map (m : option SFlowMapper) (layer : string) : list DataMapLayer :=
  match m with None => [] | Some c => default [] (layers c !! ToLower layer) end.

Definition incr (i : Z) (m : gmap Z Z) : gmap Z Z := <[i := default 0 (m !! i) + 1]> m.

(** The custom fields of the layer at [offset]. *)
Definition map_layer (data : bytes) (config : option SFlowMapper) (name : string) (encap : bool)
    (offset : Z) (key : string) : P unit :=
  rangeM (SFlowMapper_Map config key) (fun configLayer =>
    if Bool.eqb (MapEncapsulated configLayer) encap then
      let* extracted := GetBytes data (offset * 8 + Offset configLayer) (MapLength configLayer) true in
      errctx (Wrap ("map custom " ++ name) []) (MapCustom extracted (mapBase configLayer))
    else ret tt).

Fixpoint parse_loop (fuel : nat) (data : bytes) (config : option SFlowMapper)
    (env : BaseParserEnvironment) (calls callsLayer : gmap Z Z) (layer : Z) (encap : bool)
    (nextParser : ParserInfo) (offset : Z) : P unit :=
  match fuel with
  | O => fun m => (Hang, m)
  | Datatypes.S fuel' =>
      match Parser_ nextParser with
      | None => ret tt
      | Some p =>
          if len data <? offset then ret tt
          else
            let parseConfig :=
              {| Environment := Some env; Layer := layer;
                 Calls := default 0 (calls !! ParserIndex nextParser);
                 LayerCall := default 0 (callsLayer !! LayerIndex nextParser);
                 Encapsulated := encap |} in
            let* rest := slice data offset (len data) in
            let* res := errctx (Wrap ("parse " +:+ Name nextParser) []) (call p rest parseConfig) in
            rangeM (ConfigKeyList nextParser)
              (map_layer data config (Name nextParser) encap offset) ;;;
            modify (fun m => set_nums F_LayerSize (nums m F_LayerSize ++ [to_uint 32 (Size res)]) m) ;;;
            let encap' := encap || (negb (EncapSkip (NextParser res)) &&
                                    (LayerIndex (NextParser res) <=? LayerIndex nextParser)) in
            parse_loop fuel' data config env (incr (ParserIndex nextParser) calls)
              (incr (LayerIndex nextParser) callsLayer) (layer + 1) encap'
              (NextParser res) (offset + Size res)
      end
  end.

(** At most two layers without a byte (TCP with no header length, Teredo) lie between two
    layers that consume some. *)
Definition parse_fuel (data : bytes) : nat := 3 * (length data + 1) + 4.

(** [ParsePacket(flowMessage, data, config, pe)]; [None] is a nil interface. *)
Definition ParsePacket (data : bytes) (config : option SFlowMapper)
    (pe : option BaseParserEnvironment) : P unit :=
  parse_loop (parse_fuel data) data config (default DefaultEnvironment pe) ∅ ∅ 0 false parserEthernet 0.

(** The two implementations of [PacketMapper]: an environment, and a (possibly nil) mapper. *)
Inductive PacketMapper : Type :=
  | PM_Env (e : BaseParserEnvironment)
  | PM_SFlow (m : option SFlowMapper).

Definition PacketMapper_ParsePacket (p : PacketMapper) (data : bytes) : P unit :=
  match p with
  | PM_Env e => ParsePacket data None (Some e)
  | PM_SFlow None => ParsePacket data None (Some DefaultEnvironment)
  | PM_SFlow (Some m) => ParsePacket data (Some m) (parserEnvironment m)
  end.
