(* ===== verification/ProducerConfig.v ===== *)
(** * producer/proto: compiling the configuration (config_impl.go)

    [mapConfig] turns the YAML structs into lookup tables.  The table of the array fields is
    one package variable that every compiled configuration shares and writes to: it is the
    state of the computation.  A Go map that is ranged over with an order that can matter is
    the list of its entries in that order. *)
From S2P Require Import Prelude Text DecodersUtils NetflowTypes FlowMessage ProtoReflect PacketParser.

(** ** Configuration *)

Record NetFlowMapField : Type := {
  nfPenProvided : bool; nfType : Z; nfPen : Z; nfDestination : string; nfEndian : string
}.

Record SFlowMapField : Type := {
  sfLayer : string; sfEncapsulated : bool; sfOffset : Z; sfLength : Z;
  sfDestination : string; sfEndian : string
}.

Record SFlowProtocolParse : Type := {
  ppProto : string; ppDir : string; ppPort : Z; ppParser : string
}.

Record SFlowProducerConfig : Type := {
  sfMapping : list SFlowMapField; sfPorts : list SFlowProtocolParse
}.

Record ProtobufFormatterConfig : Type := {
  pbName : string; pbIndex : Z; pbType : string; pbArray : bool
}.

Record FormatterConfig : Type := {
  fcFields : list string; fcKey : list string; fcRender : list (string * string);
  fcRename : gmap string string; fcProtobuf : list ProtobufFormatterConfig
}.

Record ProducerConfig : Type := {
  cfgFormatter : FormatterConfig; cfgIPFIX : list NetFlowMapField;
  cfgNetFlowV9 : list NetFlowMapField; cfgSFlow : SFlowProducerConfig
}.

(** ** Compiled tables *)

Record FormatterConfigMapper : Type := {
  fields : list string; key : list string; reMap : gmap string string;
  rename : gmap string string; render : gmap string string;
  pbMap : gmap string ProtobufFormatterConfig; numToPb : gmap Z ProtobufFormatterConfig
}.

Record producerConfigMapped : Type := {
  Formatter : FormatterConfigMapper; IPFIX_ : option NetFlowMapper; NetFlowV9 : option NetFlowMapper;
  SFlow : option SFlowMapper
}.

(** [isSliceMap] as the package initialises it. *)
Definition isSliceMap : gmap string bool := list_to_map
  [("BgpCommunities"%string, true); ("AsPath"%string, true); ("MplsIp"%string, true);
   ("MplsLabel"%string, true); ("MplsTtl"%string, true); ("LayerStack"%string, true);
   ("LayerSize"%string, true); ("Ipv6RoutingHeaderAddresses"%string, true)].

Abbreviation G := (ST (gmap string bool)).

(** [f.isSlice[name]]: the shared table at the time of the call. *)
Definition IsArray (isSlice : gmap string bool) (name : string) : bool := default false (isSlice !! name).

(** ** Mappers *)

Definition base_config (dest endian : string) : MapConfigBase :=
  {| Destination := dest; Endianness := endian; ProtoIndex := 0; ProtoType := ""; ProtoArray := false |}.

Definition mapFieldsSFlow (fields : list SFlowMapField) : gmap string (list DataMapLayer) :=
  fold_left (fun ret field =>
    let entry := {| mapBase := base_config (sfDestination field) (sfEndian field);
                    Offset := sfOffset field; MapLength := sfLength field;
                    MapEncapsulated := sfEncapsulated field |} in
    <[sfLayer field := default [] (ret !! sfLayer field) ++ [entry]]> ret) fields ∅.

Fixpoint mapPorts_loop (ports : list SFlowProtocolParse) (e : BaseParserEnvironment)
    : res BaseParserEnvironment :=
  match ports with
  | [] => Ok e
  | port :: ports' =>
      match GetParser e (ppParser port) with
      | None => Err (Errorf ("parser " ++ ppParser port ++ " not found") [])
      | Some parser =>
          match RegisterPort (ppProto port) (ppDir port) (ppPort port) parser e with
          | Ok e' => mapPorts_loop ports' e'
          | Err er => Err (Wrap ("register port " ++ ppProto port ++ "/" ++ ppDir port ++ "/") [ppPort port] er)
          | Panic w => Panic w
          | Hang => Hang
          end
      end
  end.
Definition mapPortsSFlow (ports : list SFlowProtocolParse) : res BaseParserEnvironment :=
  mapPorts_loop ports NewBaseParserEnvironment.

Definition mapFieldsNetFlow (fields : list NetFlowMapField) : NetFlowMapper :=
  fold_left (fun ret field =>
    <[mapKey (nfPenProvided field) (nfPen field) (nfType field)
        := base_config (nfDestination field) (nfEndian field)]> ret) fields ∅.

(** ** Protobuf destinations *)

Definition ProtoTypeMap : gmap string string := list_to_map
  [(ProtoString, ProtoString); (ProtoVarint, ProtoVarint); ("bytes"%string, ProtoString)].

Definition finalizemapDest (f : FormatterConfigMapper) (v : MapConfigBase) : res MapConfigBase :=
  match pbMap f !! Destination v with
  | None => Ok v
  | Some vv =>
      match ProtoTypeMap !! pbType vv with
      | Some pt => Ok {| Destination := Destination v; Endianness := Endianness v;
                         ProtoIndex := pbIndex vv; ProtoType := pt; ProtoArray := pbArray vv |}
      | None => Err (Errorf ("could not map " ++ pbType vv ++ " to a ProtoType") [])
      end
  end.

Fixpoint res_list {A B} (f : A -> res B) (l : list A) : res (list B) :=
  match l with
  | [] => Ok []
  | x :: l' => rbind (f x) (fun y => rbind (res_list f l') (fun ys => Ok (y :: ys)))
  end.

Definition res_wrap {A} (what : string) (r : res A) : res A :=
  match r with Err e => Err (Wrap what [] e) | _ => r end.

Definition finalizeLayer (f : FormatterConfigMapper) (v : DataMapLayer) : res DataMapLayer :=
  rbind (finalizemapDest f (mapBase v)) (fun b =>
    Ok {| mapBase := b; Offset := Offset v; MapLength := MapLength v; MapEncapsulated := MapEncapsulated v |}).

Definition finalizeSFlowMapper (f : FormatterConfigMapper) (m : option SFlowMapper) : res (option SFlowMapper) :=
  match m with
  | None => Ok None
  | Some c =>
      rbind (res_list (fun '(k, vlist) =>
               res_wrap ("finalize sflow mapper " ++ k)
                 (rbind (res_list (finalizeLayer f) vlist) (fun l => Ok (k, l))))
             (map_to_list (layers c)))
        (fun l => Ok (Some {| layers := list_to_map l; parserEnvironment := parserEnvironment c |}))
  end.

Definition finalizeNetFlowMapper (f : FormatterConfigMapper) (m : option NetFlowMapper) : res (option NetFlowMapper) :=
  match m with
  | None => Ok None
  | Some data =>
      rbind (res_list (fun '(k, v) =>
               res_wrap ("finalize netflow mapper " ++ k)
                 (rbind (finalizemapDest f v) (fun b => Ok (k, b))))
             (map_to_list data))
        (fun l => Ok (Some (list_to_map l)))
  end.

Definition finalize (c : producerConfigMapped) : res producerConfigMapped :=
  rbind (res_wrap "finalize ipfix mapper" (finalizeNetFlowMapper (Formatter c) (IPFIX_ c))) (fun ipfix =>
  rbind (res_wrap "finalize netflow v9 mapper" (finalizeNetFlowMapper (Formatter c) (NetFlowV9 c))) (fun v9 =>
  rbind (res_wrap "finalize sflow mapper" (finalizeSFlowMapper (Formatter c) (SFlow c))) (fun sf =>
  Ok {| Formatter := Formatter c; IPFIX_ := ipfix; NetFlowV9 := v9; SFlow := sf |}))).

(** ** The formatter *)

(** The exported fields of the message with their JSON names, in order. *)
Definition json_fields : list (string * string) :=
  [("type", "Type"); ("time_received_ns", "TimeReceivedNs"); ("sequence_num", "SequenceNum");
   ("sampling_rate", "SamplingRate"); ("sampler_address", "SamplerAddress");
   ("time_flow_start_ns", "TimeFlowStartNs"); ("time_flow_end_ns", "TimeFlowEndNs");
   ("bytes", "Bytes"); ("packets", "Packets"); ("src_addr", "SrcAddr"); ("dst_addr", "DstAddr");
   ("etype", "Etype"); ("proto", "Proto"); ("src_port", "SrcPort"); ("dst_port", "DstPort");
   ("in_if", "InIf"); ("out_if", "OutIf"); ("src_mac", "SrcMac"); ("dst_mac", "DstMac");
   ("src_vlan", "SrcVlan"); ("dst_vlan", "DstVlan"); ("vlan_id", "VlanId"); ("ip_tos", "IpTos");
   ("forwarding_status", "ForwardingStatus"); ("ip_ttl", "IpTtl"); ("ip_flags", "IpFlags");
   ("tcp_flags", "TcpFlags"); ("icmp_type", "IcmpType"); ("icmp_code", "IcmpCode");
   ("ipv6_flow_label", "Ipv6FlowLabel"); ("fragment_id", "FragmentId");
   ("fragment_offset", "FragmentOffset"); ("src_as", "SrcAs"); ("dst_as", "DstAs");
   ("next_hop", "NextHop"); ("next_hop_as", "NextHopAs"); ("src_net", "SrcNet");
   ("dst_net", "DstNet"); ("bgp_next_hop", "BgpNextHop"); ("bgp_communities", "BgpCommunities");
   ("as_path", "AsPath"); ("mpls_ttl", "MplsTtl"); ("mpls_label", "MplsLabel");
   ("mpls_ip", "MplsIp"); ("observation_domain_id", "ObservationDomainId");
   ("observation_point_id", "ObservationPointId"); ("layer_stack", "LayerStack");
   ("layer_size", "LayerSize"); ("ipv6_routing_header_addresses", "Ipv6RoutingHeaderAddresses");
   ("ipv6_routing_header_seg_left", "Ipv6RoutingHeaderSegLeft")]%string.

(** [defaultRenderers] and [renderers] of render.go: the names of the functions. *)
Definition defaultRenderers : gmap string string := list_to_map
  [("SrcMac", "MacRenderer"); ("DstMac", "MacRenderer"); ("SrcAddr", "IPRenderer");
   ("DstAddr", "IPRenderer"); ("SamplerAddress", "IPRenderer"); ("NextHop", "IPRenderer");
   ("BgpNextHop", "IPRenderer"); ("MplsLabelIp", "IPRenderer"); ("MplsIp", "IPRenderer");
   ("Etype", "EtypeRenderer"); ("Proto", "ProtoRenderer"); ("SrcNet", "NetworkRenderer");
   ("DstNet", "NetworkRenderer"); ("icmp_name", "ICMPRenderer");
   ("Ipv6RoutingHeaderAddresses", "IPRenderer")]%string.

Definition renderers : gmap string string := list_to_map
  [("none", "NilRenderer"); ("ip", "IPRenderer"); ("mac", "MacRenderer"); ("etype", "EtypeRenderer");
   ("proto", "ProtoRenderer"); ("datetime", "DateTimeRenderer");
   ("datetimenano", "DateTimeNanoRenderer"); ("string", "StringRenderer")]%string.

(** The loop over [cfgFormatter.Protobuf]; the array flag goes to the shared table. *)
Definition add_protobuf (pb : list ProtobufFormatterConfig) (f : FormatterConfigMapper) : G FormatterConfigMapper :=
  fun g =>
    (Ok {| fields := fields f; key := key f;
           reMap := fold_left (fun m p => <[pbName p := ""%string]> m) pb (reMap f);
           rename := rename f; render := render f;
           pbMap := fold_left (fun m p => <[pbName p := p]> m) pb (pbMap f);
           numToPb := fold_left (fun m p => <[pbIndex p := p]> m) pb (numToPb f) |},
     fold_left (fun m p => <[pbName p := pbArray p]> m) pb g).

Fixpoint add_renders (l : list (string * string)) (f : FormatterConfigMapper) : G (gmap string string) :=
  match l with
  | [] => ret (render f)
  | (k, v) :: l' =>
      let k' := match reMap f !! k with
                | Some kk => if String.eqb kk "" then k else kk
                | None => k
                end in
      match renderers !! v with
      | None => fail (Errorf ("field " ++ v ++ " is not a renderer") [])
      | Some r =>
          add_renders l' {| fields := fields f; key := key f; reMap := reMap f; rename := rename f;
                            render := <[k' := r]> (render f); pbMap := pbMap f; numToPb := numToPb f |}
      end
  end.

Definition known_in {A} (m : gmap string A) (k : string) : bool :=
  match m !! k with Some _ => true | None => false end.

(** [mapFormat]; [None] is a nil configuration. *)
Definition mapFormat (cfg : option FormatterConfig) : G FormatterConfigMapper :=
  let f0 := {| fields := []; key := []; reMap := list_to_map json_fields; rename := ∅;
               render := defaultRenderers; pbMap := ∅; numToPb := ∅ |} in
  match cfg with
  | None => ret {| fields := map fst json_fields; key := []; reMap := reMap f0; rename := ∅;
                   render := render f0; pbMap := ∅; numToPb := ∅ |}
  | Some c =>
      let* f := add_protobuf (fcProtobuf c) f0 in
      rangeM (fcKey c) (fun v =>
        if known_in (reMap f) v then ret tt
        else fail (Errorf ("key field " ++ v ++ " does not exist") [])) ;;;
      let* rend := add_renders (fcRender c) f in
      rangeM (fcFields c) (fun field =>
        if known_in (reMap f) field || known_in rend field then ret tt
        else fail (Errorf ("field " ++ field ++ " in config not found in protobuf") [])) ;;;
      ret {| fields := match fcFields c with [] => map fst json_fields | l => l end;
             key := fcKey c; reMap := reMap f; rename := fcRename c; render := rend;
             pbMap := pbMap f; numToPb := numToPb f |}
  end.

(** [mapConfig] ([Compile]); what it returns next to an error is dropped. *)
Definition mapConfig (cfg : option ProducerConfig) : G producerConfigMapped :=
  let* sflow :=
    match cfg with
    | None => ret None
    | Some c =>
        let* e := errctx (Wrap "map sflow ports" []) (fun g => (mapPortsSFlow (sfPorts (cfgSFlow c)), g)) in
        ret (Some {| layers := mapFieldsSFlow (sfMapping (cfgSFlow c)); parserEnvironment := Some e |})
    end in
  let* f := errctx (Wrap "map formatter" []) (mapFormat (cfgFormatter <$> cfg)) in
  errctx (Wrap "finalize config" []) (fun g =>
    (finalize {| Formatter := f;
                 IPFIX_ := (fun c => mapFieldsNetFlow (cfgIPFIX c)) <$> cfg;
                 NetFlowV9 := (fun c => mapFieldsNetFlow (cfgNetFlowV9 c)) <$> cfg;
                 SFlow := sflow |}, g)).
