(* ===== verification/PacketParserSafety.v ===== *)
(** * The packet parser on any bytes

    Postconditions of every parser, progress of the chain, and the consequences: termination
    without a panic, fields of the outer layers that inner layers leave alone. *)
From S2P Require Import Prelude Text DecodersUtils FlowMessage ProtoReflect ProtoReflectProps PacketParser ProducerConfig.

(** ** Rules for the primitive steps *)

Lemma wp_slice {S} d a b (Q : bytes -> S -> Prop) E s :
  0 <= a <= b -> b <= len d ->
  (forall x, x = take (Z.to_nat (b - a)) (drop (Z.to_nat a) d) -> len x = b - a ->
             (is_bytes d -> is_bytes x) -> Q x s) ->
  wp (slice d a b) Q E s.
Proof.
  intros Ha Hb HQ. unfold slice.
  destruct (Z.ltb_spec a 0), (Z.ltb_spec b a), (Z.ltb_spec (len d) b); try lia. simpl.
  apply wp_ret, HQ; [done| |].
  - unfold len in *. rewrite length_take, length_drop. lia.
  - intros Hd. by apply Forall_take, Forall_drop.
Qed.

Lemma wp_index {S} d i (Q : Z -> S -> Prop) E s :
  0 <= i < len d -> (forall x, d !! Z.to_nat i = Some x -> (is_bytes d -> u8 x) -> Q x s) ->
  wp (index d i) Q E s.
Proof.
  intros Hi HQ. unfold index. destruct (Z.ltb_spec i 0); [lia|].
  destruct (lookup_lt_is_Some_2 d (Z.to_nat i)) as [x Hx]; [unfold len in Hi; lia|].
  rewrite Hx. apply wp_ret, HQ; [done|]. intros Hd. eapply Forall_lookup_1; eauto.
Qed.

Lemma wp_modify f (Q : unit -> FlowMessage -> Prop) E m : Q tt (f m) -> wp (modify f) Q E m.
Proof. done. Qed.

Lemma wp_be_at d a b (Q : Z -> FlowMessage -> Prop) E m :
  0 <= a <= b -> b <= len d -> (forall x, (is_bytes d -> 0 <= x) -> Q x m) -> wp (be_at d a b) Q E m.
Proof.
  intros Ha Hb HQ. apply wp_bind, wp_slice; [done|done|]. intros x _ _ Hx. apply wp_ret, HQ.
  intros Hd. by apply be_get_nonneg, Hx.
Qed.

(** ** What a parser may change *)

Definition icmp_field (f : numField) : bool :=
  match f with F_IcmpType | F_IcmpCode => true | _ => false end.

(** [frozen m m']: the flow is the same, up to the ICMP fields and the layer stack. *)
Record frozen (m m' : FlowMessage) : Prop := {
  fz_Type : Type_ m' = Type_ m;
  fz_num f : icmp_field f = false -> num m' f = num m f;
  fz_byt f : byt m' f = byt m f;
  fz_nums f : f <> F_LayerSize -> nums m' f = nums m f;
  fz_bytess f : bytess m' f = bytess m f;
  fz_unknown : unknown m' = unknown m
}.

#[export] Instance frozen_preorder : PreOrder frozen.
Proof.
  split; [by intros m; split|]. intros m1 m2 m3 [] []. split; intros; try congruence.
  - rewrite <- fz_num0 by done. auto.
  - rewrite <- fz_nums0 by done. auto.
Qed.

(** ** The postcondition of the parsers *)

Definition acyclic (e : BaseParserEnvironment) : Prop :=
  forall srcPort dstPort, 0 <= srcPort -> 0 <= dstPort ->
    Parser_ (snd (innerNextParserPort e "tcp" srcPort dstPort)) <> Some P_TCP.

Record parsed (p : Parser) (pc : ParseConfig) (m : FlowMessage) (r : ParseResult) (m' : FlowMessage) : Prop := {
  pd_ok : message_ok m -> message_ok m';
  pd_size : 0 <= Size r;
  pd_progress : Parser_ (NextParser r) = None \/ 0 < Size r \/
    p = P_TeredoDst /\ NextParser r = parserIPv6 \/
    p = P_TCP /\ (forall e, Environment pc = Some e -> acyclic e -> Parser_ (NextParser r) <> Some P_TCP);
  pd_stack : (r = sized 0 /\ m' = m) \/ exists x, LayerStack m' = LayerStack m ++ [x];
  pd_sizes : nums m' F_LayerSize = nums m F_LayerSize;
  pd_frozen : Encapsulated pc = true -> frozen m m'
}.

Definition no_error (e : error) (m : FlowMessage) : Prop := False.

Lemma parsed_short p pc m : parsed p pc m (sized 0) m.
Proof. split; try done; [by left|by left]. Qed.

Lemma wp_at_least data n k p pc m :
  (n <= len data -> wp k (parsed p pc m) no_error m) ->
  wp (at_least data n k) (parsed p pc m) no_error m.
Proof.
  intros Hk. unfold at_least. destruct (Z.ltb_spec (len data) n); [|by apply Hk].
  apply wp_ret, parsed_short.
Qed.

(** A step of the base layer keeps the message well-formed, the layer stack and the sizes. *)
Record base_step (m m' : FlowMessage) : Prop := {
  bs_ok : message_ok m -> message_ok m';
  bs_stack : LayerStack m' = LayerStack m;
  bs_sizes : nums m' F_LayerSize = nums m F_LayerSize
}.

#[export] Instance base_step_preorder : PreOrder base_step.
Proof. split; [by intros m; split|]. intros m1 m2 m3 [] []. split; [auto|congruence|congruence]. Qed.

Lemma base_num f z m : base_step m (set_num f z m).
Proof. split; [apply message_ok_num|done|done]. Qed.
Lemma base_byt f b m : is_bytes b -> base_step m (set_byt f b m).
Proof. split; [by apply message_ok_byt|done|done]. Qed.
Lemma base_nums f l m : f <> F_LayerSize -> base_step m (set_nums f l m).
Proof. split; [apply message_ok_nums|done|]. simpl. by rewrite decide_False. Qed.
Lemma base_bytess f x m :
  is_bytes x -> base_step m (set_bytess f (bytess m f ++ [x]) m).
Proof.
  split; [|done|done]. intros Hm. apply message_ok_bytess; [|done].
  apply Forall_app. split; [apply Hm|by constructor].
Qed.
#[export] Hint Resolve base_num base_byt base_nums base_bytess : msg.
#[export] Hint Extern 1 (_ <> _) => discriminate : msg.

Lemma wp_on_base pc k (Q : unit -> FlowMessage -> Prop) E m :
  wp k (fun _ => base_step m) E m ->
  (forall m', base_step m m' -> (Encapsulated pc = true -> m' = m) -> Q tt m') ->
  wp (on_base pc k) Q E m.
Proof.
  intros Hk HQ. unfold on_base, BaseLayer. destruct (Encapsulated pc) eqn:He; simpl.
  - apply wp_ret, HQ; [done|done].
  - eapply wp_mono; [apply Hk| |done]. intros [] m' Hm'. by apply HQ.
Qed.

(** [base_steps]: run the assignments of a base layer. *)
Ltac base_step :=
  match goal with
  | |- wp (bind _ _) _ _ _ => apply wp_bind
  | |- wp (modify _) _ _ _ => apply wp_modify
  | |- wp (ret _) _ _ _ => apply wp_ret
  | |- wp (slice _ _ _) _ _ _ => apply wp_slice; [lia|lia|intros ? -> ? ?]
  | |- wp (index _ _) _ _ _ => apply wp_index; [lia|intros ? _ ?]
  | |- wp (be_at _ _ _) _ _ _ => apply wp_be_at; [lia|lia|intros ? ?]
  | |- wp (if ?b then _ else _) _ _ _ => destruct b
  end; cbv beta zeta.
Ltac base_steps :=
  repeat base_step;
  repeat first [reflexivity | (etransitivity; [|solve [eauto with msg]])].

(** ** The next parser *)

Lemma NextParserEtype_ok {S} e b (s : S) :
  len b = 2 -> exists i, NextParserEtype e b s = (Ok i, s).
Proof.
  intros Hb. destruct b as [|b0 [|b1 [|]]]; try (unfold len in Hb; simpl in Hb; lia).
  unfold NextParserEtype. destruct (innerNextParserEtype e [b0; b1]) as [i err] eqn:Hi.
  simpl in Hi. assert (err = None) as -> by (repeat case_match; congruence).
  by eexists.
Qed.

Lemma parsed_after p pc m m1 m2 r :
  (exists name, m1 = AddLayer name m) -> base_step m1 m2 ->
  (Encapsulated pc = true -> m2 = m1) ->
  0 <= Size r ->
  Parser_ (NextParser r) = None \/ 0 < Size r \/
    p = P_TeredoDst /\ NextParser r = parserIPv6 \/
    p = P_TCP /\ (forall e, Environment pc = Some e -> acyclic e -> Parser_ (NextParser r) <> Some P_TCP) ->
  parsed p pc m r m2.
Proof.
  intros [name ->] [Hok Hst Hsz] He Hr Hp. split; auto.
  - intros Hm. apply Hok. eauto with msg.
  - right. rewrite Hst. simpl. eauto.
  - intros Hpc. rewrite He by done. by split.
Qed.

(** After its assignments a parser asks for the next one. *)
Lemma wp_next pc p fn size (k : BaseParserEnvironment -> P ParserInfo) m m1 m2 :
  (exists name, m1 = AddLayer name m) -> base_step m1 m2 -> (Encapsulated pc = true -> m2 = m1) ->
  0 <= size ->
  (forall e, exists i, k e m2 = (Ok i, m2) /\
     (0 < size \/ p = P_TCP /\ (acyclic e -> Parser_ i <> Some P_TCP))) ->
  wp (next pc fn size k) (parsed p pc m) no_error m2.
Proof.
  intros H1 H2 H3 Hsize Hk. unfold next. destruct (Environment pc) as [e|] eqn:He.
  - destruct (Hk e) as (i & Hi & Hp). unfold wp, bind, errctx. rewrite Hi. simpl.
    eapply parsed_after; eauto. simpl. right. destruct Hp as [|[-> Hp]]; [by left|].
    right. right. split; [done|]. intros e' He'. rewrite He in He'. by injection He' as <-.
  - apply wp_ret. eapply parsed_after; eauto.
Qed.

(** ** The parsers *)

Ltac next_etype := intros ?; edestruct @NextParserEtype_ok as [? ->]; [lia|eexists; split; [done|left; lia]].
Ltac next_proto := intros ?; eexists; split; [done|left; lia].
Ltac layer := apply wp_bind, wp_modify.

Section parsers.
#[local] Set Default Proof Using "Type*".
Context (data : bytes) (pc : ParseConfig) (m : FlowMessage) (Hdata : is_bytes data).

Lemma wp_ParseEthernet : wp (ParseEthernet data pc) (parsed P_Ethernet pc m) no_error m.
Proof.
  apply wp_at_least. intros Hlen. layer.
  apply wp_bind, wp_slice; [lia|lia|]. intros d -> _ _.
  apply wp_bind, wp_slice; [lia|lia|]. intros s -> _ _.
  apply wp_bind, wp_slice; [lia|lia|]. intros t Ht Ht2 _. clear Ht.
  apply wp_bind, wp_on_base; [base_steps|]. intros m' Hm' He.
  eapply wp_next; [by eexists|eassumption|eassumption|lia|]. next_etype.
Qed.

Lemma wp_Parse8021Q : wp (Parse8021Q data pc) (parsed P_8021Q pc m) no_error m.
Proof.
  apply wp_at_least. intros Hlen. layer.
  apply wp_bind, wp_slice; [lia|lia|]. intros t Ht Ht2 _. clear Ht.
  apply wp_bind, wp_on_base; [base_steps|]. intros m' Hm' He.
  eapply wp_next; [by eexists|eassumption|eassumption|lia|]. next_etype.
Qed.

Lemma wp_mpls_loop fuel offset ls ts (Q : _ -> FlowMessage -> Prop) m' :
  0 <= offset <= len data -> len data - offset < Z.of_nat fuel ->
  (forall ls' ts' off' et, offset <= off' -> (off' = offset -> len data < offset + 4) ->
     (et = [] \/ len et = 2) -> Q (ls', ts', off', et) m') ->
  wp (mpls_loop fuel data offset ls ts) Q no_error m'.
Proof.
  revert offset ls ts. induction fuel as [|fuel IH]; intros offset ls ts Ho Hf HQ; [lia|].
  cbn [mpls_loop]. destruct (Z.ltb_spec (len data) (offset + 4)).
  { apply wp_ret, HQ; [lia|lia|by left]. }
  apply wp_bind, wp_slice; [lia|lia|]. intros d _ _ _. cbv beta zeta.
  apply wp_bind, wp_index; [lia|]. intros b2 _ _. cbv beta.
  apply wp_bind, wp_index; [lia|]. intros ttl _ _. cbv beta.
  destruct (_ || _ || _).
  - destruct (Z.ltb_spec (offset + 4) (len data)).
    + apply wp_bind, wp_index; [lia|]. intros b _ _. cbv beta. apply wp_ret, HQ; [lia|lia|].
      repeat case_match; auto.
    + apply wp_ret, HQ; [lia|lia|by left].
  - apply IH; [lia|lia|]. intros. apply HQ; [lia|lia|done].
Qed.

Lemma wp_ParseMPLS : wp (ParseMPLS data pc) (parsed P_MPLS pc m) no_error m.
Proof.
  apply wp_at_least. intros Hlen. layer.
  apply wp_bind, wp_mpls_loop; [lia|unfold len; lia|]. intros ls ts off et Hoff Hpos Het.
  cbv beta iota. apply wp_bind, wp_on_base; [base_steps|].
  intros m' Hm' He. assert (0 < off) by (destruct (Z.eq_dec off 0); lia).
  destruct (Z.eqb_spec (len et) 2).
  - eapply wp_next; [by eexists|eassumption|eassumption|lia|]. next_etype.
  - apply wp_ret. eapply parsed_after; [by eexists|eassumption|eassumption|simpl; lia|simpl; auto].
Qed.

Lemma wp_ParseIPv4 : wp (ParseIPv4 data pc) (parsed P_IPv4 pc m) no_error m.
Proof.
  apply wp_at_least. intros Hlen. layer.
  apply wp_bind, wp_index; [lia|]. intros nh _ _.
  apply wp_bind, wp_on_base; [base_steps|]. intros m' Hm' He.
  eapply wp_next; [by eexists|eassumption|eassumption|lia|]. next_proto.
Qed.

Lemma wp_ParseIPv6 : wp (ParseIPv6 data pc) (parsed P_IPv6 pc m) no_error m.
Proof.
  apply wp_at_least. intros Hlen. layer.
  apply wp_bind, wp_index; [lia|]. intros nh _ _.
  apply wp_bind, wp_on_base; [base_steps|]. intros m' Hm' He.
  eapply wp_next; [by eexists|eassumption|eassumption|lia|]. next_proto.
Qed.

Lemma wp_ParseIPv6HeaderFragment :
  wp (ParseIPv6HeaderFragment data pc) (parsed P_IPv6HeaderFragment pc m) no_error m.
Proof.
  apply wp_at_least. intros Hlen. layer.
  apply wp_bind, wp_index; [lia|]. intros nh _ _.
  apply wp_bind, wp_on_base; [base_steps|]. intros m' Hm' He.
  eapply wp_next; [by eexists|eassumption|eassumption|lia|]. next_proto.
Qed.

Lemma wp_segments_loop fuel size last offset entry m' :
  0 <= offset -> Z.max 0 (len data - offset) < Z.of_nat fuel ->
  wp (segments_loop fuel data size last offset entry) (fun _ => base_step m') no_error m'.
Proof.
  assert (forall m1, base_step m' m1 -> 0 <= offset -> Z.max 0 (len data - offset) < Z.of_nat fuel ->
    wp (segments_loop fuel data size last offset entry) (fun _ => base_step m') no_error m1) as H;
    [|intros; by apply H].
  revert offset entry. induction fuel as [|fuel IH]; intros offset entry m1 Hm1 Ho Hf.
  { simpl in Hf. lia. }
  cbn [segments_loop].
  destruct (Z.ltb_spec (8 + offset) size), (Z.leb_spec (8 + offset + 16) (len data)), (entry <=? last);
    try by apply wp_ret.
  apply wp_bind, wp_slice; [lia|lia|]. intros a _ _ Ha. apply wp_bind, wp_modify.
  apply IH; [|lia|lia]. etransitivity; [exact Hm1|]. by apply base_bytess, Ha.
Qed.

Lemma wp_ParseIPv6HeaderRouting :
  wp (ParseIPv6HeaderRouting data pc) (parsed P_IPv6HeaderRouting pc m) no_error m.
Proof.
  apply wp_at_least. intros Hlen.
  apply wp_bind, wp_index; [lia|]. intros nh _ _.
  apply wp_bind, wp_index; [lia|]. intros n _ Hn. specialize (Hn Hdata). cbv beta zeta. layer.
  apply wp_bind, wp_on_base.
  { do 2 base_step. do 4 base_step. base_step; [base_step; base_step|].
    - eapply wp_mono; [apply wp_segments_loop; [lia|unfold len; lia]| |done].
      intros [] m' Hm'. etransitivity; [|exact Hm']. auto with msg.
    - base_steps. }
  intros m' Hm' He. assert (0 <= n) by apply Hn. eapply wp_next; [by eexists|eassumption|eassumption|lia|]. next_proto.
Qed.

Lemma wp_ParseTCP : wp (ParseTCP data pc) (parsed P_TCP pc m) no_error m.
Proof.
  apply wp_at_least. intros Hlen.
  apply wp_bind, wp_index; [lia|]. intros n _ Hn. specialize (Hn Hdata). cbv beta zeta. layer.
  apply wp_bind, wp_be_at; [lia|lia|]. intros sp Hsp.
  apply wp_bind, wp_be_at; [lia|lia|]. intros dp Hdp.
  apply wp_bind, wp_on_base; [base_steps|]. intros m' Hm' He.
  assert (0 <= Z.shiftr n 4) by (apply Z.shiftr_nonneg, Hn).
  eapply wp_next; [by eexists|eassumption|eassumption|lia|]. intros e. unfold NextParserPort.
  pose proof (fun H : acyclic e => H sp dp (Hsp Hdata) (Hdp Hdata)) as Hac.
  destruct (innerNextParserPort e "tcp" sp dp) as [dir i]. eexists. split; [done|].
  right. split; [done|]. intros Hacy. specialize (Hac Hacy). simpl in Hac.
  by destruct (dir =? 1), (dir =? 2).
Qed.

Lemma wp_ParseUDP : wp (ParseUDP data pc) (parsed P_UDP pc m) no_error m.
Proof.
  apply wp_at_least. intros Hlen. layer.
  apply wp_bind, wp_be_at; [lia|lia|]. intros sp Hsp.
  apply wp_bind, wp_be_at; [lia|lia|]. intros dp Hdp.
  apply wp_bind, wp_on_base; [base_steps|]. intros m' Hm' He.
  eapply wp_next; [by eexists|eassumption|eassumption|lia|]. intros e. unfold NextParserPort.
  destruct (innerNextParserPort e "udp" sp dp) as [dir i]. eexists. split; [done|left; lia].
Qed.

Lemma wp_ParseGRE : wp (ParseGRE data pc) (parsed P_GRE pc m) no_error m.
Proof.
  apply wp_at_least. intros Hlen. layer.
  apply wp_bind, wp_slice; [lia|lia|]. intros t Ht Ht2 _. clear Ht.
  eapply wp_next; [by eexists|reflexivity|done|lia|]. next_etype.
Qed.

Lemma wp_ParseTeredoDst : wp (ParseTeredoDst data pc) (parsed P_TeredoDst pc m) no_error m.
Proof.
  layer. apply wp_ret. eapply parsed_after; [by eexists|reflexivity|done|done|]. simpl. auto.
Qed.

Lemma wp_ParseGeneve : wp (ParseGeneve data pc) (parsed P_Geneve pc m) no_error m.
Proof.
  apply wp_at_least. intros Hlen.
  apply wp_bind, wp_index; [lia|]. intros n _ _. cbv beta zeta. layer.
  assert (0 <= Z.land n 0x3f) by (apply Z.land_nonneg; by right).
  apply wp_bind, wp_slice; [lia|lia|]. intros t Ht Ht2 _. clear Ht.
  eapply wp_next; [by eexists|reflexivity|done|lia|]. next_etype.
Qed.

(** The ICMP fields are taken from the first ICMP header, encapsulated or not. *)
Lemma wp_parse_icmp p name : wp (parse_icmp name data pc) (parsed p pc m) no_error m.
Proof.
  apply wp_at_least. intros Hlen. layer.
  set (m1 := AddLayer name m).
  apply wp_bind, wp_mono with (Q := fun _ m' => base_step m1 m' /\ frozen m1 m') (E := no_error); [| |done].
  - destruct (Calls pc =? 0); [|by apply wp_ret]. do 6 base_step. split.
    + etransitivity; auto with msg.
    + split; intros; simpl; try done. destruct f; simpl in *; done.
  - intros [] m' [[Hok Hst Hsz] Hfz]. apply wp_ret. split; try done.
    + intros Hm. apply Hok. by apply message_ok_AddLayer.
    + by left.
    + right. rewrite Hst. simpl. eauto.
    + intros _. etransitivity; [|exact Hfz]. by split.
Qed.

Lemma wp_call p : wp (call p data pc) (parsed p pc m) no_error m.
Proof.
  destruct p; simpl;
    auto using wp_ParseEthernet, wp_Parse8021Q, wp_ParseMPLS, wp_ParseIPv4, wp_ParseIPv6,
      wp_ParseIPv6HeaderRouting, wp_ParseIPv6HeaderFragment, wp_ParseTCP, wp_ParseUDP,
      wp_parse_icmp, wp_ParseGRE, wp_ParseTeredoDst, wp_ParseGeneve;
    apply wp_parse_icmp.
Qed.
End parsers.

(** ** The chain *)

(** A custom mapping the configuration can use: ranges that are not negative and destinations
    that are exported fields. *)
Definition config_ok (config : option SFlowMapper) : Prop :=
  forall key l, l ∈ SFlowMapper_Map config key ->
    0 <= Offset l /\ 0 <= MapLength l /\ destination_ok (mapBase l).

Lemma wp_map_layer data config name encap offset key m :
  is_bytes data -> config_ok config -> 0 <= offset -> message_ok m ->
  wp (map_layer data config name encap offset key) (fun _ => message_ok) (fun _ => message_ok) m.
Proof.
  intros Hd Hc Ho Hm. unfold map_layer. apply wp_rangeM; [done|]. intros l m1 Hl Hm1.
  destruct (Hc key l Hl) as (Hoff & Hlen & Hdest). destruct (Bool.eqb _ _); [|by apply wp_ret].
  apply wp_bind, is_bytes_GetBytes; [done|lia|done|]. intros r Hr.
  by apply wp_errctx, wp_MapCustom.
Qed.

(** Rounds left: three for every byte that is left, and those of the parsers that may consume
    nothing. *)
Definition rank (p : Parser) : Z :=
  match p with P_TCP => 2 | P_TeredoDst => 1 | _ => 0 end.
Definition rounds (data : bytes) (i : ParserInfo) (offset : Z) : Z :=
  match Parser_ i with
  | None => 1
  | Some p => if len data <? offset then 1 else 3 * (len data - offset) + rank p + 2
  end.

Lemma rank_bound p : 0 <= rank p <= 2.
Proof. destruct p; simpl; lia. Qed.

Lemma rounds_decrease data env pc p m r m' i offset :
  parsed p pc m r m' -> acyclic env -> Environment pc = Some env ->
  Parser_ i = Some p -> offset <= len data ->
  rounds data (NextParser r) (offset + Size r) + 1 <= rounds data i offset.
Proof.
  intros Hp Hac He Hi Hle. unfold rounds. rewrite Hi. destruct (Z.ltb_spec (len data) offset); [lia|].
  pose proof (rank_bound p). destruct (pd_progress _ _ _ _ _ Hp) as [Hn|[Hs|[[-> Hn]|[-> Hn]]]].
  - rewrite Hn. lia.
  - destruct (Parser_ (NextParser r)) as [q|]; [|lia]. pose proof (rank_bound q).
    destruct (Z.ltb_spec (len data) (offset + Size r)); lia.
  - pose proof (pd_size _ _ _ _ _ Hp). rewrite Hn. simpl.
    destruct (Z.ltb_spec (len data) (offset + Size r)); lia.
  - pose proof (pd_size _ _ _ _ _ Hp). specialize (Hn env He Hac).
    destruct (Parser_ (NextParser r)) as [q|]; [|lia].
    assert (rank q <= 1) by (destruct q; simpl; try lia; congruence).
    destruct (Z.ltb_spec (len data) (offset + Size r)); simpl; lia.
Qed.

Lemma wp_parse_loop data config env : is_bytes data -> config_ok config -> acyclic env ->
  forall fuel calls callsLayer layer encap i offset m,
  0 <= offset -> message_ok m -> rounds data i offset <= Z.of_nat fuel ->
  wp (parse_loop fuel data config env calls callsLayer layer encap i offset)
     (fun _ => message_ok) (fun _ => message_ok) m.
Proof.
  intros Hd Hc Hac. induction fuel as [|fuel IH]; intros calls callsLayer layer encap i offset m Ho Hm Hf.
  { unfold rounds in Hf. destruct (Parser_ i); [|lia].
    destruct (Z.ltb_spec (len data) offset); [lia|]. pose proof (rank_bound p). lia. }
  cbn [parse_loop]. destruct (Parser_ i) as [p|] eqn:Hi; [|by apply wp_ret].
  destruct (Z.ltb_spec (len data) offset); [by apply wp_ret|]. cbv zeta.
  apply wp_bind, wp_slice; [lia|lia|]. intros rest _ _ Hrest. cbv beta.
  apply wp_bind, wp_errctx. eapply wp_mono; [apply wp_call; auto| |by intros ? ? []].
  intros r m1 Hp. cbv beta. pose proof (pd_ok _ _ _ _ _ Hp Hm) as Hm1. pose proof (pd_size _ _ _ _ _ Hp).
  apply wp_bind. eapply wp_mono;
    [apply (wp_rangeM _ _ message_ok (fun _ => message_ok)); [done|intros; by apply wp_map_layer]| |done].
  intros [] m2 Hm2. apply wp_bind, wp_modify. apply IH; [lia|by auto with msg|].
  assert (rounds data (NextParser r) (offset + Size r) + 1 <= rounds data i offset); [|lia].
  by eapply rounds_decrease.
Qed.

Lemma wp_ParsePacket data config pe m :
  is_bytes data -> config_ok config -> acyclic (default DefaultEnvironment pe) -> message_ok m ->
  wp (ParsePacket data config pe) (fun _ => message_ok) (fun _ => message_ok) m.
Proof.
  intros Hd Hc Hac Hm. apply wp_parse_loop; [done|done|done|lia|done|].
  unfold rounds, parse_fuel. simpl. destruct (Z.ltb_spec (len data) 0); unfold len; lia.
Qed.
