(* ===== verification/PacketParserProps.v ===== *)
(** * Properties of the packet parser

    Termination and safety for compiled configurations, a configuration on which it does not
    terminate, frames whose headers are read back, and encapsulated layers. *)
From S2P Require Import Prelude Text DecodersUtils NetflowTypes FlowMessage ProtoReflect ProtoReflectProps PacketParser ProducerConfig PacketParserSafety.

(** ** Environments of a configuration *)

Definition is_dir (d : string) : Prop := d = "src"%string \/ d = "dst"%string.

Lemma port_key_inj p1 p2 d1 d2 n1 n2 :
  is_dir d1 -> is_dir d2 -> 0 <= n1 -> 0 <= n2 ->
  port_key p1 d1 n1 = port_key p2 d2 n2 -> p1 = p2 /\ d1 = d2 /\ n1 = n2.
Proof. intros H1 H2. apply dashes_inj. by destruct H1 as [->| ->], H2 as [->| ->]. Qed.

(** No TCP port leads back to the TCP parser. *)
Definition no_tcp_loop (e : BaseParserEnvironment) : Prop :=
  forall d n i, is_dir d -> 0 <= n -> customPort e !! port_key "tcp" d n = Some i -> Parser_ i <> Some P_TCP.

Lemma no_tcp_loop_acyclic e : no_tcp_loop e -> acyclic e.
Proof.
  intros He sp dp Hsp Hdp. unfold innerNextParserPort.
  destruct (customPort e !! port_key "tcp" "dst" dp) as [i|] eqn:H1.
  { simpl. eapply He; [by right|exact Hdp|exact H1]. }
  destruct (customPort e !! port_key "tcp" "src" sp) as [i|] eqn:H2; [|done].
  simpl. eapply He; [by left|exact Hsp|exact H2].
Qed.

Lemma no_tcp_loop_default : no_tcp_loop DefaultEnvironment.
Proof. intros d n i _ _ Hi. simpl in Hi. by rewrite lookup_empty in Hi. Qed.

Lemma GetParser_tcp name i :
  GetParser NewBaseParserEnvironment name = Some i -> Parser_ i = Some P_TCP -> name = "tcp"%string.
Proof.
  unfold GetParser. intros Hi Hp. apply elem_of_map_to_list in Hi.
  assert (forallb (fun '(k, j) => match Parser_ j with Some P_TCP => String.eqb k "tcp" | _ => true end)
    (map_to_list (nameToParser NewBaseParserEnvironment)) = true) as H by (vm_compute; done).
  rewrite forallb_forall in H. apply list_elem_of_In, H in Hi. rewrite Hp in Hi. by apply String.eqb_eq.
Qed.

Lemma store_port_no_loop p d n i e :
  is_dir d -> 0 <= n -> (p = "tcp"%string -> Parser_ i <> Some P_TCP) ->
  no_tcp_loop e -> no_tcp_loop (store_port (port_key p d n) i e).
Proof.
  intros Hd Hn Hp He d' n' i' Hd' Hn' H. simpl in H.
  apply lookup_insert_Some in H as [[E <-]|[_ H]]; [|by eapply He].
  apply port_key_inj in E as (-> & _ & _); auto.
Qed.

(** What a configuration must respect: bit ranges that are not negative, destinations that are
    exported fields, and no TCP port parsed as TCP again. *)
Definition ports_ok (ports : list SFlowProtocolParse) : Prop :=
  Forall (fun p => 0 <= ppPort p /\ ~ (ppProto p = "tcp" /\ ppParser p = "tcp")%string) ports.

Definition mapping_ok (l : list SFlowMapField) : Prop :=
  Forall (fun f => 0 <= sfOffset f /\ 0 <= sfLength f /\
                   FieldByName (sfDestination f) <> Some D_Unexported) l.

Lemma RegisterPort_ok p d n i e e' :
  RegisterPort p d n i e = Ok e' -> 0 <= n -> (p = "tcp"%string -> Parser_ i <> Some P_TCP) ->
  no_tcp_loop e -> no_tcp_loop e' /\ nameToParser e' = nameToParser e.
Proof.
  unfold RegisterPort. intros Hr Hn Hp He. destruct (Parser_ i) as [q|] eqn:Hq; [|done].
  assert (p = "tcp"%string -> Parser_ i <> Some P_TCP) by by rewrite Hq.
  repeat case_match; simplify_eq; (split; [|done]); repeat apply store_port_no_loop; auto; by (left + right).
Qed.

Lemma mapPorts_loop_ok ports e e' :
  ports_ok ports -> no_tcp_loop e -> nameToParser e = nameToParser NewBaseParserEnvironment ->
  mapPorts_loop ports e = Ok e' -> no_tcp_loop e'.
Proof.
  revert e. induction ports as [|p ports IH]; intros e Hok He Hn Hm; simpl in Hm; [by injection Hm as <-|].
  apply Forall_cons in Hok as [[Hport Hp] Hok].
  destruct (GetParser e (ppParser p)) as [i|] eqn:Hi; [|done].
  destruct (RegisterPort _ _ _ _ _) as [e1| | |] eqn:Hr; try done.
  apply RegisterPort_ok in Hr as [He1 Hn1]; [|done| |done].
  - eapply IH; [done|exact He1|congruence|done].
  - intros Htcp Hpi. apply Hp. split; [done|]. unfold GetParser in Hi. rewrite Hn in Hi.
    by eapply GetParser_tcp.
Qed.

(** ** Mappers of a configuration *)

Lemma mapFieldsSFlow_ok l key x :
  mapping_ok l -> x ∈ default [] (mapFieldsSFlow l !! key) ->
  0 <= Offset x /\ 0 <= MapLength x /\ destination_ok (mapBase x).
Proof.
  unfold mapFieldsSFlow. intros Hl.
  assert (forall (m : gmap string (list DataMapLayer)),
    (forall k y, y ∈ default [] (m !! k) -> 0 <= Offset y /\ 0 <= MapLength y /\ destination_ok (mapBase y)) ->
    forall k y, y ∈ default [] (fold_left (fun ret field =>
      <[sfLayer field := default [] (ret !! sfLayer field) ++
          [{| mapBase := base_config (sfDestination field) (sfEndian field); Offset := sfOffset field;
              MapLength := sfLength field; MapEncapsulated := sfEncapsulated field |}]]> ret) l m !! k) ->
    0 <= Offset y /\ 0 <= MapLength y /\ destination_ok (mapBase y)) as H.
  { induction Hl as [|f l Hf Hl IH]; intros m Hm k y Hy; simpl in Hy; [eauto|].
    eapply IH; [|exact Hy]. intros k' y' Hy'.
    destruct (decide (k' = sfLayer f)) as [->|Hne].
    - rewrite lookup_insert_eq in Hy'. simpl in Hy'.
      apply elem_of_app in Hy' as [Hy'|Hy']; [eauto|].
      apply list_elem_of_singleton in Hy' as ->. exact Hf.
    - rewrite lookup_insert_ne in Hy' by done. eauto. }
  apply H. intros k y Hy. rewrite lookup_empty in Hy. by apply elem_of_nil in Hy.
Qed.

Lemma res_list_in {A B} (f : A -> res B) l r y :
  res_list f l = Ok r -> y ∈ r -> exists x, x ∈ l /\ f x = Ok y.
Proof.
  revert r. induction l as [|x l IH]; intros r Hr Hy; simpl in Hr.
  { injection Hr as <-. by apply elem_of_nil in Hy. }
  destruct (f x) as [z| | |] eqn:Hz; try done. simpl in Hr.
  destruct (res_list f l) as [zs| | |]; try done. simpl in Hr. injection Hr as <-.
  apply elem_of_cons in Hy as [->|Hy]; [exists x; split; [by left|done]|].
  destruct (IH zs eq_refl Hy) as (x' & Hx' & E). exists x'. split; [by right|done].
Qed.

Lemma finalizemapDest_dest f v v' : finalizemapDest f v = Ok v' -> Destination v' = Destination v.
Proof. unfold finalizemapDest. repeat case_match; intros; simplify_eq; done. Qed.

Lemma finalizeSFlow_ok f m m' :
  finalizeSFlowMapper f (Some m) = Ok m' ->
  exists m1, m' = Some m1 /\ parserEnvironment m1 = parserEnvironment m /\
    forall key y, y ∈ default [] (layers m1 !! key) ->
      exists x k, x ∈ default [] (layers m !! k) /\ Offset y = Offset x /\ MapLength y = MapLength x /\
        Destination (mapBase y) = Destination (mapBase x).
Proof.
  simpl. intros H. destruct (res_list _ _) as [l| | |] eqn:Hl; try done. simpl in H.
  injection H as <-. eexists. splits; [done|done|]. simpl. intros key y Hy.
  destruct (list_to_map l !! key) as [ys|] eqn:Hys; [|by apply elem_of_nil in Hy].
  apply elem_of_list_to_map_2 in Hys. destruct (res_list_in _ _ _ _ Hl Hys) as ([k vlist] & Hin & Hf).
  apply elem_of_map_to_list in Hin. simpl in Hf.
  destruct (res_list (finalizeLayer f) vlist) as [l'| | |] eqn:Hl'; try done. simpl in Hf.
  injection Hf as -> ->. simpl in Hy.
  destruct (res_list_in _ _ _ _ Hl' Hy) as (x & Hx & Hfx). exists x, key. rewrite Hin. split; [done|].
  unfold finalizeLayer in Hfx. destruct (finalizemapDest f (mapBase x)) as [b| | |] eqn:Hb; try done.
  simpl in Hfx. injection Hfx as <-. splits; [done|done|]. by eapply finalizemapDest_dest.
Qed.

(** The packet mapper of a compiled configuration. *)
Lemma mapConfig_SFlow cfg g c g' :
  ports_ok (sfPorts (cfgSFlow cfg)) -> mapping_ok (sfMapping (cfgSFlow cfg)) ->
  mapConfig (Some cfg) g = (Ok c, g') ->
  exists m e, SFlow c = Some m /\ config_ok (Some m) /\ parserEnvironment m = Some e /\ acyclic e.
Proof.
  intros Hp Hl H. unfold mapConfig, bind, errctx in H. cbn [fmap option_fmap option_map] in H.
  unfold mapPortsSFlow in H.
  destruct (mapPorts_loop _ _) as [e| | |] eqn:He; try done. unfold ret in H.
  apply mapPorts_loop_ok in He; [|done|apply no_tcp_loop_default|done].
  destruct (mapFormat _ g) as [[f| | |] g1]; try done.
  unfold finalize in H. cbn [Formatter IPFIX_ NetFlowV9 SFlow] in H.
  destruct (finalizeNetFlowMapper f (Some (mapFieldsNetFlow (cfgIPFIX cfg)))) as [m1| | |]; try done.
  cbn [res_wrap rbind] in H.
  destruct (finalizeNetFlowMapper f (Some (mapFieldsNetFlow (cfgNetFlowV9 cfg)))) as [m2| | |]; try done.
  cbn [res_wrap rbind] in H.
  destruct (finalizeSFlowMapper f _) as [m3| | |] eqn:Hs; try done.
  cbn [res_wrap rbind] in H. injection H as <- <-.
  apply finalizeSFlow_ok in Hs as (m & -> & Hpe & Hm). exists m, e. splits; [done| |done|by apply no_tcp_loop_acyclic].
  intros key y Hy. destruct (Hm _ _ Hy) as (x & k & Hx & -> & -> & Hd).
  unfold destination_ok. rewrite Hd. by eapply mapFieldsSFlow_ok.
Qed.

(** ** Termination and safety *)

(** C28: the packet parser on any bytes.  With the packet mapper of a compiled configuration, a
    nil mapper or the default environment, [ParsePacket] ends (the fuel, linear in the packet,
    is enough), never panics, and leaves every field in the range of its Go type, whether it
    returns an error or not.  A configuration must not map TCP ports back to the TCP parser. *)
Theorem packet_parser_total cfg g c g' data m :
  ports_ok (sfPorts (cfgSFlow cfg)) -> mapping_ok (sfMapping (cfgSFlow cfg)) ->
  mapConfig (Some cfg) g = (Ok c, g') -> is_bytes data -> message_ok m ->
  Forall (fun p => wp (PacketMapper_ParsePacket p data) (fun _ => message_ok) (fun _ => message_ok) m)
    [PM_SFlow (SFlow c); PM_SFlow None; PM_Env DefaultEnvironment].
Proof.
  intros Hp Hl Hc Hd Hm. destruct (mapConfig_SFlow _ _ _ _ Hp Hl Hc) as (s & e & -> & Hok & He & Hac).
  assert (config_ok None) by (intros k l H; by apply elem_of_nil in H).
  assert (acyclic DefaultEnvironment) by apply no_tcp_loop_acyclic, no_tcp_loop_default.
  rewrite !Forall_cons, Forall_nil. splits; try done; simpl; apply wp_ParsePacket; try done.
  by rewrite He.
Qed.

Definition demo_sflow : SFlowProducerConfig :=
  {| sfMapping := [{| sfLayer := "udp"; sfEncapsulated := false; sfOffset := 48; sfLength := 16;
                      sfDestination := "FragmentId"; sfEndian := "" |}];
     sfPorts := [{| ppProto := "udp"; ppDir := "dst"; ppPort := 6081; ppParser := "geneve" |}] |}.
Definition demo_config : ProducerConfig :=
  {| cfgFormatter := {| fcFields := []; fcKey := []; fcRender := []; fcRename := ∅; fcProtobuf := [] |};
     cfgIPFIX := []; cfgNetFlowV9 := []; cfgSFlow := demo_sflow |}.

Lemma packet_parser_total_witness :
  exists c g', mapConfig (Some demo_config) isSliceMap = (Ok c, g') /\
  Forall (fun p => wp (PacketMapper_ParsePacket p [1; 2; 3]) (fun _ => message_ok) (fun _ => message_ok) zero_message)
    [PM_SFlow (SFlow c); PM_SFlow None; PM_Env DefaultEnvironment].
Proof.
  assert (match fst (mapConfig (Some demo_config) isSliceMap) with Ok _ => true | _ => false end = true) as Hok
    by (vm_compute; reflexivity).
  destruct (mapConfig (Some demo_config) isSliceMap) as [[c| | |] g'] eqn:E; try discriminate Hok.
  exists c, g'. split; [reflexivity|].
  apply (packet_parser_total demo_config isSliceMap c g').
  - apply Forall_singleton. simpl. split; [lia|]. intros [? ?]; congruence.
  - apply Forall_singleton. simpl. splits; [lia|lia|vm_compute; congruence].
  - exact E.
  - by apply is_bytes_by_test.
  - apply message_ok_zero.
Defined.

(** A configuration that parses TCP port 80 as TCP, and a segment to that port with a header
    length of zero. *)
Definition loop_ports : list SFlowProtocolParse :=
  [{| ppProto := "tcp"; ppDir := "dst"; ppPort := 80; ppParser := "tcp" |}].
Definition loop_segment : bytes :=
  [0; 1; 0; 80; 0; 0; 0; 0; 0; 0; 0; 0; 0; 2; 0; 0; 0; 0; 0; 0].
Definition loop_frame : bytes :=
  [1; 2; 3; 4; 5; 6; 1; 2; 3; 4; 5; 7; 8; 0] ++
  [0x45; 0; 0; 40; 0; 0; 0; 0; 64; 6; 0; 0; 10; 0; 0; 1; 10; 0; 0; 2] ++ loop_segment.
Definition loop_env : BaseParserEnvironment :=
  match mapPortsSFlow loop_ports with Ok e => e | _ => DefaultEnvironment end.
Definition loop_info : ParserInfo := add_keys ["tcp80"%string] parserTCP.

Lemma loop_step pc m :
  Environment pc = Some loop_env ->
  exists m', call P_TCP loop_segment pc m = (Ok {| NextParser := loop_info; Size := 0 |}, m').
Proof.
  intros He. destruct pc as [env layer calls lc []]; simpl in He; subst env; eexists; vm_compute; reflexivity.
Qed.

(** One round of the chain, without custom mappings. *)
Lemma map_layer_none data name encap offset keys m :
  rangeM keys (map_layer data None name encap offset) m = (Ok tt, m).
Proof. induction keys as [|k keys IH]; [done|]. exact IH. Qed.

Lemma parse_loop_step fuel data env calls callsLayer layer encap i offset p r m m1 :
  Parser_ i = Some p -> 0 <= offset <= len data ->
  call p (drop (Z.to_nat offset) data)
    {| Environment := Some env; Layer := layer; Calls := default 0 (calls !! ParserIndex i);
       LayerCall := default 0 (callsLayer !! LayerIndex i); Encapsulated := encap |} m = (Ok r, m1) ->
  parse_loop (Datatypes.S fuel) data None env calls callsLayer layer encap i offset m =
  parse_loop fuel data None env (incr (ParserIndex i) calls) (incr (LayerIndex i) callsLayer) (layer + 1)
    (encap || (negb (EncapSkip (NextParser r)) && (LayerIndex (NextParser r) <=? LayerIndex i)))
    (NextParser r) (offset + Size r)
    (set_nums F_LayerSize (nums m1 F_LayerSize ++ [to_uint 32 (Size r)]) m1).
Proof.
  intros Hi Ho Hc. cbn [parse_loop]. rewrite Hi. destruct (Z.ltb_spec (len data) offset); [lia|]. cbv zeta.
  unfold slice. destruct (Z.ltb_spec offset 0); [lia|]. destruct (Z.ltb_spec (len data) offset); [lia|].
  destruct (Z.ltb_spec (len data) (len data)); [lia|]. cbn [orb].
  rewrite take_ge by (unfold len; rewrite length_drop; lia).
  unfold bind at 1. cbn [ret]. unfold bind at 1, errctx at 1. rewrite Hc.
  unfold bind at 1. rewrite map_layer_none. reflexivity.
Qed.

Lemma parse_loop_end fuel data config env calls callsLayer layer encap i offset m :
  Parser_ i = None ->
  parse_loop (Datatypes.S fuel) data config env calls callsLayer layer encap i offset m = (Ok tt, m).
Proof. intros Hi. cbn [parse_loop]. by rewrite Hi. Qed.

Lemma parse_loop_tcp fuel calls callsLayer layer encap m :
  fst (parse_loop fuel loop_frame None loop_env calls callsLayer layer encap loop_info 34 m) = Hang.
Proof.
  revert calls callsLayer layer encap m. induction fuel as [|fuel IH]; intros calls callsLayer layer encap m; [done|].
  edestruct (loop_step {| Environment := Some loop_env; Layer := layer;
    Calls := default 0 (calls !! ParserIndex loop_info);
    LayerCall := default 0 (callsLayer !! LayerIndex loop_info); Encapsulated := encap |} m eq_refl) as [m' E].
  assert (0 <= 34 <= len loop_frame) as Hlen by (split; vm_compute; discriminate).
  rewrite (parse_loop_step fuel loop_frame loop_env _ _ _ _ loop_info 34 P_TCP _ m m' eq_refl Hlen E). apply IH.
Qed.

(** A round that leads to a chain without end. *)
Lemma parse_loop_hang fuel data env calls callsLayer layer encap i offset p i' n m :
  Parser_ i = Some p -> 0 <= offset <= len data ->
  (forall pc, Environment pc = Some env -> exists m1,
     call p (drop (Z.to_nat offset) data) pc m = (Ok {| NextParser := i'; Size := n |}, m1)) ->
  (forall calls callsLayer layer encap m,
     fst (parse_loop fuel data None env calls callsLayer layer encap i' (offset + n) m) = Hang) ->
  fst (parse_loop (Datatypes.S fuel) data None env calls callsLayer layer encap i offset m) = Hang.
Proof.
  intros Hi Ho Hc Hh.
  edestruct (Hc {| Environment := Some env; Layer := layer; Calls := default 0 (calls !! ParserIndex i);
                   LayerCall := default 0 (callsLayer !! LayerIndex i); Encapsulated := encap |} eq_refl) as [m1 E].
  rewrite (parse_loop_step fuel data env _ _ _ _ i offset p _ m m1 Hi Ho E). apply Hh.
Qed.

Ltac concrete_call := intros [env0 layer0 calls0 lc0 []] He; simpl in He; subst env0; eexists; vm_compute; reflexivity.

(** Without that restriction the parser can run forever.  The configuration [loop_ports] is
    accepted; on the 54 bytes of [loop_frame] the parser, with any fuel, does not finish: a TCP
    header length of zero makes it parse the same bytes as TCP again and again. *)
Theorem packet_parser_tcp_loop (fuel : nat) (m : FlowMessage) :
  mapPortsSFlow loop_ports = Ok loop_env /\
  fst (parse_loop fuel loop_frame None loop_env ∅ ∅ 0 false parserEthernet 0 m) = Hang.
Proof.
  split; [vm_compute; reflexivity|]. destruct fuel as [|fuel]; [done|].
  apply (parse_loop_hang _ _ _ _ _ _ _ _ _ P_Ethernet
    (add_keys ["etype2048"; "etype0x0800"]%string parserIPv4) 14); [done|done|concrete_call|].
  intros calls callsLayer layer encap m1. destruct fuel as [|fuel]; [done|].
  apply (parse_loop_hang _ _ _ _ _ _ _ _ _ P_IPv4 (add_keys ["proto6"]%string parserTCP) 20);
    [done|done|concrete_call|].
  clear calls callsLayer layer encap m1. intros calls callsLayer layer encap m1. destruct fuel as [|fuel]; [done|].
  apply (parse_loop_hang _ _ _ _ _ _ _ _ _ P_TCP loop_info 0); [done|done|concrete_call|].
  intros. apply parse_loop_tcp.
Qed.

(** ** Layers *)

(** A call of a parser on bytes, as an equation. *)
Lemma call_parsed p data pc m :
  is_bytes data -> exists r m1, call p data pc m = (Ok r, m1) /\ parsed p pc m r m1.
Proof.
  intros Hd. pose proof (wp_call data pc m Hd p) as H. unfold wp in H.
  destruct (call p data pc m) as [[r|e|w|] m1]; try done. by exists r, m1.
Qed.

Lemma loop_layers fuel data env : is_bytes data -> forall calls callsLayer layer encap i offset m m',
  0 <= offset -> Forall u32 (nums m F_LayerSize) ->
  parse_loop fuel data None env calls callsLayer layer encap i offset m = (Ok tt, m') ->
  (exists stack sizes, LayerStack m' = LayerStack m ++ stack /\
     nums m' F_LayerSize = nums m F_LayerSize ++ sizes /\ Forall u32 sizes /\
     (length stack <= length sizes <= length stack + 1)%nat) /\
  (encap = true -> frozen m m').
Proof.
  intros Hd. induction fuel as [|fuel IH]; intros calls callsLayer layer encap i offset m m' Ho Hu H; [done|].
  assert (Hstop : (Ok tt, m) = (Ok tt, m') ->
    (exists stack sizes, LayerStack m' = LayerStack m ++ stack /\
       nums m' F_LayerSize = nums m F_LayerSize ++ sizes /\ Forall u32 sizes /\
       (length stack <= length sizes <= length stack + 1)%nat) /\ (encap = true -> frozen m m')).
  { intros [= <-]. split; [|done]. exists [], []. rewrite !app_nil_r. splits; try done; simpl; lia. }
  destruct (Parser_ i) as [p|] eqn:Hi.
  2:{ rewrite parse_loop_end in H by done. auto. }
  destruct (Z.ltb_spec (len data) offset) as [Hlt|Hge].
  { cbn [parse_loop] in H. rewrite Hi in H. destruct (Z.ltb_spec (len data) offset); [auto|lia]. }
  edestruct (call_parsed p (drop (Z.to_nat offset) data)) as (r & m1 & Hc & Hp); [by apply Forall_drop|].
  rewrite (parse_loop_step _ _ _ _ _ _ _ _ _ p r m m1 Hi (conj Ho Hge) Hc) in H.
  pose proof (pd_sizes _ _ _ _ _ Hp) as Hsz. pose proof (pd_size _ _ _ _ _ Hp).
  assert (Hnum : forall m2, m2 = set_nums F_LayerSize (nums m1 F_LayerSize ++ [to_uint 32 (Size r)]) m1 ->
    nums m2 F_LayerSize = nums m F_LayerSize ++ [to_uint 32 (Size r)]).
  { intros m2 ->. simpl. rewrite Hsz, map_app. f_equal.
    - apply map_id_ext. intros x Hx. apply to_uint_small. by eapply Forall_forall in Hx.
    - simpl. f_equal. apply to_uint_small, to_uint_uint. lia. }
  set (m2 := set_nums F_LayerSize _ m1) in *. specialize (Hnum m2 eq_refl).
  assert (Hu32 : u32 (to_uint 32 (Size r))) by (apply to_uint_uint; lia).
  assert (Hfz : encap = true -> frozen m m2).
  { intros ->. etransitivity; [by apply (pd_frozen _ _ _ _ _ Hp)|].
    split; try done. intros f Hf. simpl. by rewrite decide_False. }
  destruct (pd_stack _ _ _ _ _ Hp) as [[-> ->]|[x Hx]].
  - destruct fuel as [|fuel]; [done|]. rewrite parse_loop_end in H by done. injection H as <-.
    split; [|done]. exists [], [to_uint 32 0]. rewrite app_nil_r.
    splits; [done|done|by constructor|simpl; lia|simpl; lia].
  - apply IH in H as [(stack & sizes & H1 & H2 & H3 & H4) H5]; [|lia|].
    + split.
      * exists (x :: stack), (to_uint 32 (Size r) :: sizes). rewrite H1, H2, Hnum.
        change (LayerStack m2) with (LayerStack m1). rewrite Hx, <- !app_assoc.
        splits; [done|done|by constructor|simpl; lia|simpl; lia].
      * intros He. etransitivity; [by apply Hfz|]. apply H5. by rewrite He.
    + rewrite Hnum. apply Forall_app. split; [done|by constructor].
Qed.

(** Layers.  Without custom mappings, [ParsePacket] appends one name to the layer stack for
    each header it reads and one size for each parser it runs; only the last parser can have
    found too few bytes, so the two lists differ by at most one entry.  From the moment a
    header encloses another network (an encapsulation), no later header changes the addresses,
    ports or any other field of the flow except those of ICMP. *)
Theorem packet_layers (data : bytes) (pe : option BaseParserEnvironment) (m m' : FlowMessage) :
  is_bytes data -> message_ok m -> ParsePacket data None pe m = (Ok tt, m') ->
  (exists stack sizes, LayerStack m' = LayerStack m ++ stack /\
     nums m' F_LayerSize = nums m F_LayerSize ++ sizes /\ Forall u32 sizes /\
     (length stack <= length sizes <= length stack + 1)%nat) /\
  (forall fuel calls callsLayer layer i offset m1 m2,
     0 <= offset -> message_ok m1 ->
     parse_loop fuel data None (default DefaultEnvironment pe) calls callsLayer layer true i offset m1 = (Ok tt, m2) ->
     frozen m1 m2).
Proof.
  intros Hd Hm H. split.
  - by eapply loop_layers in H as [H _]; [|done|lia|apply Hm].
  - intros fuel calls callsLayer layer i offset m1 m2 Ho Hm1 H1.
    eapply loop_layers in H1 as [_ H1]; [by apply H1|done|done|apply Hm1].
Qed.

(** Ethernet, then a truncated IPv4 header. *)
Lemma packet_layers_witness :
  exists m', ParsePacket ([1; 2; 3; 4; 5; 6; 1; 2; 3; 4; 5; 7; 8; 0] ++ [0x45]) None None zero_message = (Ok tt, m') /\
  LayerStack m' = [0] /\ nums m' F_LayerSize = [14; 0] /\
  (exists stack sizes, LayerStack m' = [] ++ stack /\
     nums m' F_LayerSize = [] ++ sizes /\ Forall u32 sizes /\
     (length stack <= length sizes <= length stack + 1)%nat) /\
  (forall fuel calls callsLayer layer i offset m1 m2,
     0 <= offset -> message_ok m1 ->
     parse_loop fuel ([1; 2; 3; 4; 5; 6; 1; 2; 3; 4; 5; 7; 8; 0] ++ [0x45]) None DefaultEnvironment
       calls callsLayer layer true i offset m1 = (Ok tt, m2) -> frozen m1 m2).
Proof.
  destruct (ParsePacket ([1; 2; 3; 4; 5; 6; 1; 2; 3; 4; 5; 7; 8; 0] ++ [0x45]) None None zero_message) as [r m'] eqn:E.
  assert (fst (ParsePacket ([1; 2; 3; 4; 5; 6; 1; 2; 3; 4; 5; 7; 8; 0] ++ [0x45]) None None zero_message) = Ok tt
    /\ LayerStack (snd (ParsePacket ([1; 2; 3; 4; 5; 6; 1; 2; 3; 4; 5; 7; 8; 0] ++ [0x45]) None None zero_message)) = [0]
    /\ nums (snd (ParsePacket ([1; 2; 3; 4; 5; 6; 1; 2; 3; 4; 5; 7; 8; 0] ++ [0x45]) None None zero_message)) F_LayerSize = [14; 0])
    as (H1 & H2 & H3) by (split_and!; vm_compute; reflexivity).
  rewrite E in H1, H2, H3. simpl in H1, H2, H3. subst r. exists m'. split; [done|]. split; [done|]. split; [done|].
  apply (packet_layers _ None zero_message m'); [by apply is_bytes_by_test|apply message_ok_zero|exact E].
Defined.
