(* ===== verification/PacketFrames.v ===== *)
(** * Parsing what was framed

    Ethernet frames with an optional VLAN tag, an IPv4 or IPv6 header and a TCP, UDP or ICMP
    header, written from their fields; the packet parser reads the fields back. *)
From S2P Require Import Prelude Text DecodersUtils FlowMessage ProtoReflect ProtoReflectProps PacketParser PacketParserSafety PacketParserProps.

(** ** Frames *)

Record ip4_header : Type := {
  v4_tos : Z; v4_length : Z; v4_id : Z; v4_flags : Z; v4_offset : Z; v4_ttl : Z; v4_sum : Z;
  v4_src : Z; v4_dst : Z
}.

Record ip6_header : Type := {
  v6_class : Z; v6_label : Z; v6_length : Z; v6_hops : Z; v6_src : Z; v6_dst : Z
}.

Record tcp_header : Type := {
  t_src : Z; t_dst : Z; t_seq : Z; t_ack : Z; t_words : Z; t_flags : Z; t_window : Z; t_sum : Z;
  t_urgent : Z; t_rest : bytes
}.

Inductive transport : Type :=
  | T_TCP (h : tcp_header)
  | T_UDP (src dst length sum : Z) (payload : bytes)
  | T_ICMP (type code : Z) (rest : bytes).

Inductive network : Type := N_IPv4 (h : ip4_header) | N_IPv6 (h : ip6_header).

Record frame : Type := {
  fr_dst : Z; fr_src : Z; fr_vlan : option Z; fr_net : network; fr_transport : transport
}.

(** ** Their bytes *)

Definition transport_bytes (t : transport) : bytes :=
  match t with
  | T_TCP h => be_put 2 (t_src h) ++ be_put 2 (t_dst h) ++ be_put 4 (t_seq h) ++ be_put 4 (t_ack h) ++
               [t_words h * 16; t_flags h] ++ be_put 2 (t_window h) ++ be_put 2 (t_sum h) ++
               be_put 2 (t_urgent h) ++ t_rest h
  | T_UDP s d l c p => be_put 2 s ++ be_put 2 d ++ be_put 2 l ++ be_put 2 c ++ p
  | T_ICMP t c r => [t; c] ++ r
  end.

(** The protocol number; ICMP for IPv6 has its own. *)
Definition proto_of (n : network) (t : transport) : Z :=
  match t, n with
  | T_TCP _, _ => 6
  | T_UDP _ _ _ _ _, _ => 17
  | T_ICMP _ _ _, N_IPv4 _ => 1
  | T_ICMP _ _ _, N_IPv6 _ => 58
  end.

Definition network_bytes (n : network) (proto : Z) : bytes :=
  match n with
  | N_IPv4 h => [0x45; v4_tos h] ++ be_put 2 (v4_length h) ++ be_put 2 (v4_id h) ++
                be_put 2 (v4_flags h * 2 ^ 13 + v4_offset h) ++ [v4_ttl h; proto] ++
                be_put 2 (v4_sum h) ++ be_put 4 (v4_src h) ++ be_put 4 (v4_dst h)
  | N_IPv6 h => be_put 4 (6 * 2 ^ 28 + v6_class h * 2 ^ 20 + v6_label h) ++ be_put 2 (v6_length h) ++
                [proto; v6_hops h] ++ be_put 16 (v6_src h) ++ be_put 16 (v6_dst h)
  end.

Definition etype_of (n : network) : Z := match n with N_IPv4 _ => 0x0800 | N_IPv6 _ => 0x86dd end.

Definition frame_bytes (f : frame) : bytes :=
  be_put 6 (fr_dst f) ++ be_put 6 (fr_src f) ++
  match fr_vlan f with
  | None => be_put 2 (etype_of (fr_net f))
  | Some tag => be_put 2 0x8100 ++ be_put 2 tag ++ be_put 2 (etype_of (fr_net f))
  end ++
  network_bytes (fr_net f) (proto_of (fr_net f) (fr_transport f)) ++ transport_bytes (fr_transport f).

(** ** Field ranges *)

Definition transport_ok (t : transport) : Prop :=
  match t with
  | T_TCP h => u16 (t_src h) /\ u16 (t_dst h) /\ u32 (t_seq h) /\ u32 (t_ack h) /\
               0 <= t_words h < 16 /\ u8 (t_flags h) /\ u16 (t_window h) /\ u16 (t_sum h) /\
               u16 (t_urgent h) /\ is_bytes (t_rest h)
  | T_UDP s d l c p => u16 s /\ u16 d /\ u16 l /\ u16 c /\ is_bytes p
  | T_ICMP t c r => u8 t /\ u8 c /\ is_bytes r
  end.

Definition network_ok (n : network) : Prop :=
  match n with
  | N_IPv4 h => u8 (v4_tos h) /\ u16 (v4_length h) /\ u16 (v4_id h) /\ 0 <= v4_flags h < 2 ^ 3 /\
                0 <= v4_offset h < 2 ^ 13 /\ u8 (v4_ttl h) /\ u16 (v4_sum h) /\ u32 (v4_src h) /\ u32 (v4_dst h)
  | N_IPv6 h => u8 (v6_class h) /\ 0 <= v6_label h < 2 ^ 20 /\ u16 (v6_length h) /\ u8 (v6_hops h) /\
                uint 128 (v6_src h) /\ uint 128 (v6_dst h)
  end.

Definition frame_ok (f : frame) : Prop :=
  uint 48 (fr_dst f) /\ uint 48 (fr_src f) /\ match fr_vlan f with None => True | Some t => u16 t end /\
  network_ok (fr_net f) /\ transport_ok (fr_transport f).

(** ** Evaluation of slices of a header whose bytes are written out *)

Lemma be_at_eq d a b m :
  0 <= a <= b -> b <= len d ->
  be_at d a b m = (Ok (be_get (take (Z.to_nat (b - a)) (drop (Z.to_nat a) d))), m).
Proof. intros Ha Hb. unfold be_at, bind. by rewrite slice_eq. Qed.

Lemma at_least_eq data n k m : n <= len data -> at_least data n k m = k m.
Proof. intros Hn. unfold at_least. destruct (Z.ltb_spec (len data) n); [lia|done]. Qed.

Ltac evaluate :=
  repeat first
    [ progress unfold modify, ret
    | match goal with |- context [bind ?m ?k ?s] => unfold bind at 1 end
    | rewrite slice_eq by (golen) | rewrite be_at_eq by (golen)
    | erewrite index_eq by (first [lia|reflexivity])
    | progress cbv beta iota zeta ].

(** The first call of a parser outside an encapsulation. *)
Definition base_pc (env : BaseParserEnvironment) (layer lc : Z) : ParseConfig :=
  {| Environment := Some env; Layer := layer; Calls := 0; LayerCall := lc; Encapsulated := false |}.

Ltac parser := rewrite at_least_eq by golen; evaluate; unfold on_base; cbn [BaseLayer base_pc Encapsulated negb];
  evaluate.

Lemma parse_eth dst src et rest env layer lc m :
  ParseEthernet (be_put 6 dst ++ be_put 6 src ++ be_put 2 et ++ rest) (base_pc env layer lc) m =
  next (base_pc env layer lc) "ParseEthernet" 14 (fun e => NextParserEtype e (be_put 2 et))
     (set_num F_Etype (be_get (be_put 2 et)) (set_num F_DstMac (be_get (0 :: 0 :: be_put 6 dst))
        (set_num F_SrcMac (be_get (0 :: 0 :: be_put 6 src)) (AddLayer "Ethernet" m)))).
Proof. unfold ParseEthernet. parser. reflexivity. Qed.

Lemma parse_vlan tag et rest env layer lc m :
  Parse8021Q (be_put 2 tag ++ be_put 2 et ++ rest) (base_pc env layer lc) m =
  next (base_pc env layer lc) "Parse8021Q" 4 (fun e => NextParserEtype e (be_put 2 et))
     (set_num F_Etype (be_get (be_put 2 et)) (set_num F_VlanId (be_get (be_put 2 tag)) (AddLayer "Dot1Q" m))).
Proof. unfold Parse8021Q. parser. reflexivity. Qed.

Lemma parse_ip4 h proto rest env layer lc m :
  ParseIPv4 (network_bytes (N_IPv4 h) proto ++ rest) (base_pc env layer lc) m =
  next (base_pc env layer lc) "ParseIPv4" 20 (fun e => NextParserProto e proto)
     (set_num F_Proto proto
       (set_num F_IpFlags (Z.shiftr (be_get (be_put 2 (v4_flags h * 2 ^ 13 + v4_offset h))) 13)
       (set_num F_FragmentOffset (Z.land (be_get (be_put 2 (v4_flags h * 2 ^ 13 + v4_offset h))) 8191)
       (set_num F_FragmentId (be_get (be_put 2 (v4_id h)))
       (set_num F_IpTtl (v4_ttl h) (set_num F_IpTos (v4_tos h)
       (set_byt F_DstAddr (be_put 4 (v4_dst h)) (set_byt F_SrcAddr (be_put 4 (v4_src h)) (AddLayer "IPv4" m))))))))).
Proof.
  unfold ParseIPv4, network_bytes. rewrite <- !app_assoc. parser. reflexivity.
Qed.

Lemma parse_ip6 h proto rest env layer lc m :
  ParseIPv6 (network_bytes (N_IPv6 h) proto ++ rest) (base_pc env layer lc) m =
  let first := be_put 4 (6 * 2 ^ 28 + v6_class h * 2 ^ 20 + v6_label h) in
  next (base_pc env layer lc) "ParseIPv6" 40 (fun e => NextParserProto e proto)
     (set_num F_Proto proto (set_num F_Ipv6FlowLabel (Z.land (be_get first) 0xFFFFF)
       (set_num F_IpTtl (v6_hops h)
       (set_num F_IpTos (to_uint 8 (Z.shiftr (Z.land (be_get (take 2 first)) 0x0ff0) 4))
       (set_byt F_DstAddr (be_put 16 (v6_dst h)) (set_byt F_SrcAddr (be_put 16 (v6_src h)) (AddLayer "IPv6" m))))))).
Proof.
  unfold ParseIPv6, network_bytes. rewrite <- !app_assoc. parser. reflexivity.
Qed.

(** ** The message of a frame *)

Definition with_size (n : Z) (m : FlowMessage) : FlowMessage :=
  set_nums F_LayerSize (nums m F_LayerSize ++ [to_uint 32 n]) m.

Definition eth_fields (dst src et : Z) (m : FlowMessage) : FlowMessage :=
  set_num F_Etype et (set_num F_DstMac dst (set_num F_SrcMac src (AddLayer "Ethernet" m))).

Definition vlan_fields (tag et : Z) (m : FlowMessage) : FlowMessage :=
  set_num F_Etype et (set_num F_VlanId tag (AddLayer "Dot1Q" m)).

Definition net_fields (n : network) (proto : Z) (m : FlowMessage) : FlowMessage :=
  match n with
  | N_IPv4 h => set_num F_Proto proto (set_num F_IpFlags (v4_flags h)
      (set_num F_FragmentOffset (v4_offset h) (set_num F_FragmentId (v4_id h)
      (set_num F_IpTtl (v4_ttl h) (set_num F_IpTos (v4_tos h)
      (set_byt F_DstAddr (be_put 4 (v4_dst h)) (set_byt F_SrcAddr (be_put 4 (v4_src h)) (AddLayer "IPv4" m))))))))
  | N_IPv6 h => set_num F_Proto proto (set_num F_Ipv6FlowLabel (v6_label h)
      (set_num F_IpTtl (v6_hops h) (set_num F_IpTos (v6_class h)
      (set_byt F_DstAddr (be_put 16 (v6_dst h)) (set_byt F_SrcAddr (be_put 16 (v6_src h)) (AddLayer "IPv6" m))))))
  end.

Definition transport_fields (n : network) (t : transport) (m : FlowMessage) : FlowMessage :=
  match t with
  | T_TCP h => set_num F_TcpFlags (t_flags h) (set_num F_DstPort (t_dst h)
      (set_num F_SrcPort (t_src h) (AddLayer "TCP" m)))
  | T_UDP s d _ _ _ => set_num F_DstPort d (set_num F_SrcPort s (AddLayer "UDP" m))
  | T_ICMP t c _ => set_num F_IcmpCode c (set_num F_IcmpType t
      (AddLayer (match n with N_IPv4 _ => "ICMP" | N_IPv6 _ => "ICMPv6" end) m))
  end.

Definition net_size (n : network) : Z := match n with N_IPv4 _ => 20 | N_IPv6 _ => 40 end.
Definition transport_size (t : transport) : Z := match t with T_TCP h => t_words h * 4 | _ => 8 end.

Definition frame_message (f : frame) (m : FlowMessage) : FlowMessage :=
  let et := etype_of (fr_net f) in
  let m1 := with_size 14 (eth_fields (fr_dst f) (fr_src f)
              (match fr_vlan f with None => et | Some _ => 0x8100 end) m) in
  let m2 := match fr_vlan f with None => m1 | Some tag => with_size 4 (vlan_fields tag et m1) end in
  let m3 := with_size (net_size (fr_net f)) (net_fields (fr_net f) (proto_of (fr_net f) (fr_transport f)) m2) in
  with_size (transport_size (fr_transport f)) (transport_fields (fr_net f) (fr_transport f) m3).

(** ** Bit fields of the network headers *)

Lemma ip4_fragment fl off :
  0 <= fl < 2 ^ 3 -> 0 <= off < 2 ^ 13 ->
  let w := be_get (be_put 2 (fl * 2 ^ 13 + off)) in
  Z.shiftr w 13 = fl /\ Z.land w 8191 = off.
Proof.
  intros Hf Ho. cbv zeta. rewrite be_get_put by (split; simpl; lia).
  change 8191 with (Z.ones 13). rewrite Z.land_ones, Z.shiftr_div_pow2 by lia.
  split; [rewrite Z.div_add_l, Z.div_small by lia; lia|].
  rewrite Z.add_comm, Z.mod_add, Z.mod_small by lia. done.
Qed.

Lemma ip6_first cls label :
  u8 cls -> 0 <= label < 2 ^ 20 ->
  let first := be_put 4 (6 * 2 ^ 28 + cls * 2 ^ 20 + label) in
  to_uint 8 (Z.shiftr (Z.land (be_get (take 2 first)) 0x0ff0) 4) = cls /\
  Z.land (be_get first) 0xFFFFF = label.
Proof.
  intros [Hc0 Hc1] Hl. cbv zeta. split.
  - set (v := 6 * 2 ^ 28 + cls * 2 ^ 20 + label).
    assert (Hv : take 2 (be_put 4 v) = be_put 2 (v / 2 ^ 16)).
    { rewrite <- Z.shiftr_div_pow2 by lia. cbv [be_put take]. rewrite !Z.shiftr_shiftr by lia. reflexivity. }
    rewrite Hv, be_get_put.
    2:{ subst v. split; [apply Z.div_pos; lia|apply Z.div_lt_upper_bound; simpl; lia]. }
    change 0x0ff0 with (Z.shiftl (Z.ones 8) 4).
    rewrite Z.shiftr_land, Z.shiftr_shiftl_l by lia. change (4 - 4) with 0. rewrite Z.shiftl_0_r.
    rewrite Z.land_ones by lia. unfold to_uint. rewrite Z.mod_mod by lia.
    rewrite Z.shiftr_div_pow2, Z.div_div by lia. change (2 ^ 16 * 2 ^ 4) with (2 ^ 20).
    replace v with (label + (6 * 2 ^ 8 + cls) * 2 ^ 20) by (subst v; lia).
    rewrite Z.div_add, Z.div_small by lia. rewrite Z.add_0_l, Z.add_comm, Z.mod_add by lia.
    by apply Z.mod_small.
  - rewrite be_get_put by (split; simpl; lia). change 0xFFFFF with (Z.ones 20). rewrite Z.land_ones by lia.
    replace (6 * 2 ^ 28 + cls * 2 ^ 20 + label) with (label + (6 * 2 ^ 8 + cls) * 2 ^ 20) by lia.
    rewrite Z.mod_add by lia. by apply Z.mod_small.
Qed.

Lemma be_get_mac v : uint 48 v -> be_get (0 :: 0 :: be_put 6 v) = v.
Proof. intros Hv. change (be_get (0 :: 0 :: be_put 6 v)) with (be_get (be_put 6 v)). by apply be_get_put. Qed.

(** ** The calls *)

Definition proto_info (proto : Z) : ParserInfo :=
  add_keys ["proto" +:+ itoa proto] (innerNextParserProto DefaultEnvironment proto).

Definition etype_info (et : Z) : ParserInfo :=
  match NextParserEtype DefaultEnvironment (be_put 2 et) tt with (Ok i, _) => i | _ => parserNone end.

Definition known_etype (et : Z) : Prop := et = 0x0800 \/ et = 0x86dd \/ et = 0x8100.

Lemma next_etype et fn size layer lc m :
  known_etype et ->
  next (base_pc DefaultEnvironment layer lc) fn size (fun e => NextParserEtype e (be_put 2 et)) m =
  (Ok {| NextParser := etype_info et; Size := size |}, m).
Proof. intros [-> |[-> | ->]]; reflexivity. Qed.

Lemma known_etype_u16 et : known_etype et -> u16 et.
Proof. intros [-> |[-> | ->]]; split; lia. Qed.

Lemma call_eth dst src et rest layer lc m :
  uint 48 dst -> uint 48 src -> known_etype et ->
  call P_Ethernet (be_put 6 dst ++ be_put 6 src ++ be_put 2 et ++ rest) (base_pc DefaultEnvironment layer lc) m =
  (Ok {| NextParser := etype_info et; Size := 14 |}, eth_fields dst src et m).
Proof.
  intros Hd Hs He. pose proof (known_etype_u16 et He).
  etransitivity; [apply parse_eth|]. rewrite !be_get_mac, be_get_put by done. by apply next_etype.
Qed.

Lemma call_vlan tag et rest layer lc m :
  u16 tag -> known_etype et ->
  call P_8021Q (be_put 2 tag ++ be_put 2 et ++ rest) (base_pc DefaultEnvironment layer lc) m =
  (Ok {| NextParser := etype_info et; Size := 4 |}, vlan_fields tag et m).
Proof.
  intros Ht He. pose proof (known_etype_u16 et He).
  etransitivity; [apply parse_vlan|]. rewrite !be_get_put by done. by apply next_etype.
Qed.

Definition net_parser (n : network) : Parser := match n with N_IPv4 _ => P_IPv4 | N_IPv6 _ => P_IPv6 end.

Lemma call_net n proto rest layer lc m :
  network_ok n ->
  call (net_parser n) (network_bytes n proto ++ rest) (base_pc DefaultEnvironment layer lc) m =
  (Ok {| NextParser := proto_info proto; Size := net_size n |}, net_fields n proto m).
Proof.
  destruct n as [h|h].
  - intros (Ht & Hl & Hi & Hf & Ho & _). etransitivity; [apply parse_ip4|].
    destruct (ip4_fragment _ _ Hf Ho) as [-> ->]. rewrite be_get_put by done. reflexivity.
  - intros (Hc & Hl & _). etransitivity; [apply parse_ip6|]. cbv zeta.
    destruct (ip6_first _ _ Hc Hl) as [-> ->]. reflexivity.
Qed.

Definition transport_parser (n : network) (t : transport) : Parser :=
  match t, n with
  | T_TCP _, _ => P_TCP
  | T_UDP _ _ _ _ _, _ => P_UDP
  | T_ICMP _ _ _, N_IPv4 _ => P_ICMP
  | T_ICMP _ _ _, N_IPv6 _ => P_ICMPv6
  end.

Lemma NextParserPort_default {S} proto s d (x : S) : NextParserPort DefaultEnvironment proto s d x = (Ok parserNone, x).
Proof.
  unfold NextParserPort, innerNextParserPort. simpl. rewrite !lookup_empty. reflexivity.
Qed.

Lemma parse_tcp h env layer lc m :
  ParseTCP (transport_bytes (T_TCP h)) (base_pc env layer lc) m =
  next (base_pc env layer lc) "ParseTCP" (Z.shiftr (t_words h * 16) 4 * 4)
    (fun e => NextParserPort e "tcp" (be_get (be_put 2 (t_src h))) (be_get (be_put 2 (t_dst h))))
    (set_num F_TcpFlags (t_flags h) (set_num F_DstPort (be_get (be_put 2 (t_dst h)))
      (set_num F_SrcPort (be_get (be_put 2 (t_src h))) (AddLayer "TCP" m)))).
Proof. unfold ParseTCP, transport_bytes. parser. reflexivity. Qed.

Lemma parse_udp s d l c p env layer lc m :
  ParseUDP (transport_bytes (T_UDP s d l c p)) (base_pc env layer lc) m =
  next (base_pc env layer lc) "ParseUDP" 8
    (fun e => NextParserPort e "udp" (be_get (be_put 2 s)) (be_get (be_put 2 d)))
    (set_num F_DstPort (be_get (be_put 2 d)) (set_num F_SrcPort (be_get (be_put 2 s)) (AddLayer "UDP" m))).
Proof. unfold ParseUDP, transport_bytes. parser. reflexivity. Qed.

Lemma next_port proto fn s d size layer lc m :
  next (base_pc DefaultEnvironment layer lc) fn size (fun e => NextParserPort e proto s d) m =
  (Ok {| NextParser := parserNone; Size := size |}, m).
Proof. unfold next. cbn [Environment base_pc]. unfold bind, errctx. by rewrite NextParserPort_default. Qed.

(** The last parser: nothing follows it. *)
Definition transport_next (t : transport) : ParserInfo :=
  match t with T_ICMP _ _ _ => zero_ParserInfo | _ => parserNone end.

Lemma call_transport n t layer lc m :
  transport_ok t ->
  call (transport_parser n t) (transport_bytes t) (base_pc DefaultEnvironment layer lc) m =
  (Ok {| NextParser := transport_next t; Size := transport_size t |}, transport_fields n t m).
Proof.
  destruct t as [h|s d l c p|t c r].
  - intros (Hs & Hd & _ & _ & Hw & _).
    etransitivity; [apply parse_tcp|]. rewrite !be_get_put by done. rewrite next_port.
    rewrite Z.shiftr_div_pow2 by lia. change (2 ^ 4) with 16. by rewrite Z.div_mul by lia.
  - intros (Hs & Hd & _).
    etransitivity; [apply parse_udp|]. rewrite !be_get_put by done. apply next_port.
  - intros (Ht & Hc & Hr).
    destruct n; simpl call; unfold ParseICMP, ParseICMPv6, parse_icmp, transport_bytes; cbn [app];
      rewrite at_least_eq by golen; evaluate; reflexivity.
Qed.

(** ** The chain *)

Section chain.
Context (data : bytes).
Abbreviation loop fuel calls cl layer := (parse_loop fuel data None DefaultEnvironment calls cl layer).

Lemma bytes_left offset bs : drop (Z.to_nat offset) data = bs -> bs <> [] -> offset <= len data.
Proof.
  intros Hd Hne. destruct (Z.leb_spec offset (len data)) as [|Hlt]; [done|]. exfalso. apply Hne.
  rewrite <- Hd. apply drop_ge. unfold len in Hlt. lia.
Qed.

(** A round inside the outer network, and the last round. *)
Lemma round_eq fuel calls cl layer offset i p bs i' n m m1 :
  Parser_ i = Some p -> 0 <= offset -> drop (Z.to_nat offset) data = bs -> bs <> [] ->
  calls !! ParserIndex i = None ->
  (forall lc, call p bs (base_pc DefaultEnvironment layer lc) m = (Ok {| NextParser := i'; Size := n |}, m1)) ->
  EncapSkip i' || (LayerIndex i <? LayerIndex i') = true ->
  loop (Datatypes.S fuel) calls cl layer false i offset m =
  loop fuel (incr (ParserIndex i) calls) (incr (LayerIndex i) cl) (layer + 1) false i' (offset + n) (with_size n m1).
Proof.
  intros Hi Ho Hd Hne Hc Hcall He. pose proof (bytes_left _ _ Hd Hne) as Hle.
  rewrite (parse_loop_step fuel data _ _ _ _ _ i offset p {| NextParser := i'; Size := n |} m m1 Hi (conj Ho Hle)).
  - cbn [NextParser Size]. f_equal. destruct (EncapSkip i'); [done|]. simpl in He. simpl.
    apply Z.leb_gt. by apply Z.ltb_lt.
  - rewrite Hd, Hc. apply Hcall.
Qed.

Lemma round_last fuel calls cl layer offset i p bs i' n m m1 :
  Parser_ i = Some p -> 0 <= offset -> drop (Z.to_nat offset) data = bs -> bs <> [] ->
  calls !! ParserIndex i = None ->
  (forall lc, call p bs (base_pc DefaultEnvironment layer lc) m = (Ok {| NextParser := i'; Size := n |}, m1)) ->
  Parser_ i' = None ->
  loop (Datatypes.S (Datatypes.S fuel)) calls cl layer false i offset m = (Ok tt, with_size n m1).
Proof.
  intros Hi Ho Hd Hne Hc Hcall He. pose proof (bytes_left _ _ Hd Hne) as Hle.
  rewrite (parse_loop_step _ data _ _ _ _ _ i offset p {| NextParser := i'; Size := n |} m m1 Hi (conj Ho Hle)).
  - cbn [NextParser Size]. by rewrite parse_loop_end.
  - rewrite Hd, Hc. apply Hcall.
Qed.

(** The network header and the transport header. *)
Lemma run_net fuel calls cl layer offset i n t m :
  i = etype_info (etype_of n) -> 0 <= offset ->
  drop (Z.to_nat offset) data = network_bytes n (proto_of n t) ++ transport_bytes t ->
  network_ok n -> transport_ok t -> (forall k, 2 < k -> calls !! k = None) ->
  loop (Datatypes.S (Datatypes.S (Datatypes.S fuel))) calls cl layer false i offset m =
  (Ok tt, with_size (transport_size t) (transport_fields n t
            (with_size (net_size n) (net_fields n (proto_of n t) m)))).
Proof.
  intros -> Ho Hd Hn Ht Hc.
  rewrite (round_eq _ calls cl layer offset (etype_info (etype_of n)) (net_parser n)
             (network_bytes n (proto_of n t) ++ transport_bytes t) (proto_info (proto_of n t)) (net_size n)
             m (net_fields n (proto_of n t) m));
    [|by destruct n|exact Ho|exact Hd|by destruct n|apply Hc; by destruct n|intros lc; by apply call_net|by destruct n, t].
  apply (round_last _ _ _ _ _ _ (transport_parser n t) (transport_bytes t) (transport_next t)).
  - by destruct n, t.
  - destruct n; simpl; lia.
  - rewrite Z2Nat.inj_add, <- drop_drop, Hd by (destruct n; simpl; lia).
    replace (Z.to_nat (net_size n)) with (length (network_bytes n (proto_of n t))) by by destruct n.
    apply drop_app_length.
  - by destruct t.
  - unfold incr. rewrite lookup_insert_ne; [apply Hc; by destruct n, t|by destruct n, t].
  - intros lc. by apply call_transport.
  - by destruct t.
Qed.
End chain.

Lemma parse_frame f m :
  frame_ok f -> ParsePacket (frame_bytes f) None None m = (Ok tt, frame_message f m).
Proof.
  intros (Hd & Hs & Hv & Hn & Ht). unfold ParsePacket, parse_fuel. cbn [default].
  replace (3 * (length (frame_bytes f) + 1) + 4)%nat
    with (Datatypes.S (Datatypes.S (Datatypes.S (Datatypes.S (Datatypes.S (3 * length (frame_bytes f) + 2)))))) by lia.
  unfold frame_bytes. set (data := be_put 6 _ ++ _).
  set (tl := network_bytes (fr_net f) (proto_of (fr_net f) (fr_transport f)) ++ transport_bytes (fr_transport f)).
  assert (Hk : known_etype (etype_of (fr_net f))) by (destruct (fr_net f); [by left|by right; left]).
  unfold frame_message. destruct (fr_vlan f) as [tag|] eqn:Hvl.
  - rewrite (round_eq data _ _ _ 0 0 parserEthernet P_Ethernet data (etype_info 0x8100) 14 m
               (eth_fields (fr_dst f) (fr_src f) 0x8100 m));
      [|done..|intros lc; apply call_eth; [done|done|by right; right]|done].
    rewrite (round_eq data _ _ _ _ _ (etype_info 0x8100) P_8021Q (be_put 2 tag ++ be_put 2 (etype_of (fr_net f)) ++ tl)
               (etype_info (etype_of (fr_net f))) 4 _
               (vlan_fields tag (etype_of (fr_net f)) (with_size 14 (eth_fields (fr_dst f) (fr_src f) 0x8100 m))));
      [|done|lia|reflexivity|done|done|intros lc; by apply call_vlan|by destruct (fr_net f)].
    apply run_net; [done|lia|reflexivity|done|done|].
    intros k Hk2. unfold incr. change (ParserIndex (etype_info 0x8100)) with 2.
    change (ParserIndex parserEthernet) with 1. rewrite !lookup_insert_ne by lia. apply lookup_empty.
  - rewrite (round_eq data _ _ _ 0 0 parserEthernet P_Ethernet data (etype_info (etype_of (fr_net f))) 14 m
               (eth_fields (fr_dst f) (fr_src f) (etype_of (fr_net f)) m));
      [|done..|intros lc; by apply call_eth|by destruct (fr_net f)].
    apply run_net; [done|lia|reflexivity|done|done|].
    intros k Hk2. unfold incr. change (ParserIndex parserEthernet) with 1.
    rewrite lookup_insert_ne by lia. apply lookup_empty.
Qed.

#[local] Arguments to_uint : simpl never.

Lemma to_uint_in w z : (0 <=? z) && (z <? 2 ^ w) = true -> to_uint w z = z.
Proof. intros H. apply andb_prop in H as [H1 H2]. apply to_uint_small. split; lia. Qed.

Definition net_fields_of (g : numField) : bool :=
  match g with F_Proto | F_IpFlags | F_FragmentOffset | F_FragmentId | F_IpTtl | F_IpTos | F_Ipv6FlowLabel => true | _ => false end.

Definition transport_fields_of (g : numField) : bool :=
  match g with F_TcpFlags | F_DstPort | F_SrcPort | F_IcmpCode | F_IcmpType => true | _ => false end.

(** The later headers leave the fields of the earlier ones. *)
Lemma transport_keeps n t m g :
  transport_fields_of g = false -> num (transport_fields n t m) g = num m g.
Proof. by destruct t, g. Qed.

Lemma net_keeps n p m g : net_fields_of g = false -> num (net_fields n p m) g = num m g.
Proof. by destruct n, g. Qed.

Lemma transport_byt n t m g : byt (transport_fields n t m) g = byt m g.
Proof. by destruct t. Qed.

Lemma link_fields dst src et tag m :
  uint 48 dst -> uint 48 src -> u16 et -> u16 tag ->
  let e := eth_fields dst src et m in
  (num e F_SrcMac = src /\ num e F_DstMac = dst /\ num e F_Etype = et /\ num e F_VlanId = num m F_VlanId) /\
  let v := vlan_fields tag et m in
  num v F_SrcMac = num m F_SrcMac /\ num v F_DstMac = num m F_DstMac /\ num v F_Etype = et /\ num v F_VlanId = tag.
Proof.
  intros Hd Hs He Ht. unfold eth_fields, vlan_fields. cbv zeta. unfold uint in *.
  splits; fields; try reflexivity; apply to_uint_small; unfold uint; simpl width; lia.
Qed.

Lemma net_fields_read n p m :
  network_ok n -> u8 p ->
  num (net_fields n p m) F_Proto = p /\
  match n with
  | N_IPv4 h => let m' := net_fields n p m in
      byt m' F_SrcAddr = be_put 4 (v4_src h) /\ byt m' F_DstAddr = be_put 4 (v4_dst h) /\
      num m' F_IpTos = v4_tos h /\ num m' F_IpTtl = v4_ttl h /\ num m' F_FragmentId = v4_id h /\
      num m' F_FragmentOffset = v4_offset h /\ num m' F_IpFlags = v4_flags h
  | N_IPv6 h => let m' := net_fields n p m in
      byt m' F_SrcAddr = be_put 16 (v6_src h) /\ byt m' F_DstAddr = be_put 16 (v6_dst h) /\
      num m' F_IpTos = v6_class h /\ num m' F_IpTtl = v6_hops h /\ num m' F_Ipv6FlowLabel = v6_label h
  end.
Proof.
  intros Hn Hp. unfold u8, uint in Hp.
  destruct n as [h|h]; simpl in Hn; unfold uint in Hn; cbv zeta; unfold net_fields; splits; fields; try reflexivity;
    apply to_uint_small; unfold uint; simpl width; lia.
Qed.

Lemma transport_fields_read n t m :
  transport_ok t ->
  match t with
  | T_TCP h => let m' := transport_fields n t m in
      num m' F_SrcPort = t_src h /\ num m' F_DstPort = t_dst h /\ num m' F_TcpFlags = t_flags h
  | T_UDP s d _ _ _ => let m' := transport_fields n t m in num m' F_SrcPort = s /\ num m' F_DstPort = d
  | T_ICMP ty c _ => let m' := transport_fields n t m in num m' F_IcmpType = ty /\ num m' F_IcmpCode = c
  end.
Proof.
  intros Ht.
  destruct t as [h|s d l c p|ty c r]; simpl in Ht; unfold uint in Ht; cbv zeta; unfold transport_fields; splits; fields;
    apply to_uint_small; unfold uint; simpl width; lia.
Qed.

Lemma with_size_num k m g : num (with_size k m) g = num m g.
Proof. done. Qed.
Lemma with_size_byt k m g : byt (with_size k m) g = byt m g.
Proof. done. Qed.
#[local] Hint Rewrite with_size_num with_size_byt : flow.

Lemma frame_stack f m :
  LayerStack (frame_message f m) = LayerStack m ++
    [0] ++ (if fr_vlan f then [6] else []) ++ [match fr_net f with N_IPv4 _ => 1 | N_IPv6 _ => 2 end] ++
    [match fr_transport f, fr_net f with
     | T_TCP _, _ => 3 | T_UDP _ _ _ _ _, _ => 4 | T_ICMP _ _ _, N_IPv4 _ => 7 | T_ICMP _ _ _, N_IPv6 _ => 8 end].
Proof. destruct f as [dst src [tag|] [h|h] [k|s d l c p|ty co r]]; cbn [fr_vlan fr_net fr_transport];
  rewrite ?app_nil_l, ?app_assoc; reflexivity. Qed.

Lemma map_to_uint l : Forall u32 l -> map (to_uint 32) l = l.
Proof. induction 1; [done|]. simpl map. by rewrite to_uint_small, IHForall. Qed.

Lemma layer_sizes (l : list Z) m k : nums m F_LayerSize = l -> Forall u32 l -> u32 k ->
  nums (with_size k m) F_LayerSize = l ++ [k].
Proof.
  intros <- Hl Hk. unfold with_size. fields. rewrite (to_uint_small 32 k) by done.
  by rewrite map_app, (map_to_uint _ Hl), (map_to_uint [k]) by auto.
Qed.

Lemma transport_sizes n t m : nums (transport_fields n t m) F_LayerSize = nums m F_LayerSize.
Proof. by destruct t. Qed.
Lemma net_sizes n p m : nums (net_fields n p m) F_LayerSize = nums m F_LayerSize.
Proof. by destruct n. Qed.

Lemma frame_sizes f :
  frame_ok f ->
  nums (frame_message f zero_message) F_LayerSize =
  [14] ++ (if fr_vlan f then [4] else []) ++ [net_size (fr_net f)] ++ [transport_size (fr_transport f)].
Proof.
  intros (_ & _ & _ & _ & Ht).
  assert (Hk : u32 (transport_size (fr_transport f))).
  { unfold uint. destruct (fr_transport f); simpl in *; lia. }
  assert (Hn : u32 (net_size (fr_net f))) by (unfold uint; destruct (fr_net f); simpl; lia).
  assert (u32 14 /\ u32 4) as [H14 H4] by (unfold uint; lia).
  unfold frame_message. set (et := match fr_vlan f with None => etype_of (fr_net f) | Some _ => 0x8100 end).
  assert (H1 : nums (with_size 14 (eth_fields (fr_dst f) (fr_src f) et zero_message)) F_LayerSize = [14])
    by (by apply (layer_sizes [])).
  set (l1 := if fr_vlan f then [14; 4] else [14]).
  set (m2 := match fr_vlan f with None => _ | Some _ => _ end).
  assert (nums m2 F_LayerSize = l1 /\ Forall u32 l1) as [H2 Hl1].
  { subst m2 l1. destruct (fr_vlan f) as [tag|]; [|by auto]. split; [|by auto]. apply (layer_sizes [14]); [exact H1|by auto..]. }
  rewrite (layer_sizes (l1 ++ [net_size (fr_net f)]));
    [|rewrite transport_sizes; apply layer_sizes; [by rewrite net_sizes|done|done]|by (apply Forall_app; auto)|done].
  subst l1. by destruct (fr_vlan f).
Qed.

(** What a message tells about a frame. *)
Definition carries (f : frame) (m : FlowMessage) : Prop :=
  num m F_SrcMac = fr_src f /\ num m F_DstMac = fr_dst f /\
  num m F_Etype = etype_of (fr_net f) /\ num m F_VlanId = default 0 (fr_vlan f) /\
  num m F_Proto = proto_of (fr_net f) (fr_transport f) /\
  match fr_net f with
  | N_IPv4 h => byt m F_SrcAddr = be_put 4 (v4_src h) /\ byt m F_DstAddr = be_put 4 (v4_dst h) /\
      num m F_IpTos = v4_tos h /\ num m F_IpTtl = v4_ttl h /\ num m F_FragmentId = v4_id h /\
      num m F_FragmentOffset = v4_offset h /\ num m F_IpFlags = v4_flags h
  | N_IPv6 h => byt m F_SrcAddr = be_put 16 (v6_src h) /\ byt m F_DstAddr = be_put 16 (v6_dst h) /\
      num m F_IpTos = v6_class h /\ num m F_IpTtl = v6_hops h /\ num m F_Ipv6FlowLabel = v6_label h
  end /\
  match fr_transport f with
  | T_TCP h => num m F_SrcPort = t_src h /\ num m F_DstPort = t_dst h /\ num m F_TcpFlags = t_flags h
  | T_UDP s d _ _ _ => num m F_SrcPort = s /\ num m F_DstPort = d
  | T_ICMP t c _ => num m F_IcmpType = t /\ num m F_IcmpCode = c
  end.

Lemma frame_carries f m0 : frame_ok f -> num m0 F_VlanId = 0 -> carries f (frame_message f m0).
Proof.
  intros (Hd & Hs & Hv & Hn & Ht) Hvlan. unfold carries, frame_message.
  set (et := etype_of (fr_net f)). set (p := proto_of _ _).
  set (m1 := with_size 14 _). set (m2 := match fr_vlan f with None => _ | Some _ => _ end).
  assert (Hp : u8 p) by (unfold uint; subst p; destruct (fr_net f), (fr_transport f); simpl; lia).
  assert (Het : u16 et) by (unfold uint; subst et; destruct (fr_net f); simpl; lia).
  assert (Hlink : num m2 F_SrcMac = fr_src f /\ num m2 F_DstMac = fr_dst f /\ num m2 F_Etype = et /\
                  num m2 F_VlanId = default 0 (fr_vlan f)).
  { assert (u16 0x8100) by (unfold uint; lia). assert (u16 0) by (unfold uint; lia).
    subst m2 m1. destruct (fr_vlan f) as [tag|]; rewrite !with_size_num.
    - destruct (link_fields _ _ et tag (with_size 14 (eth_fields (fr_dst f) (fr_src f) 0x8100 m0)) Hd Hs)
        as [_ (-> & -> & -> & ->)]; try done.
      rewrite !with_size_num. by destruct (link_fields _ _ 0x8100 0 m0 Hd Hs) as [(-> & -> & _) _].
    - by destruct (link_fields _ _ et 0 m0 Hd Hs) as [(-> & -> & -> & ->) _]. }
  clearbody m2. clear m1.
  set (m3 := net_fields (fr_net f) p m2).
  pose proof (net_fields_read (fr_net f) p m2 Hn Hp) as [Hproto Hnet]. fold m3 in Hproto, Hnet.
  pose proof (transport_fields_read (fr_net f) (fr_transport f) (with_size (net_size (fr_net f)) m3) Ht) as Htr.
  rewrite !with_size_num, !transport_keeps, !with_size_num by done.
  destruct Hlink as (<- & <- & <- & <-). subst m3.
  splits; try (rewrite net_keeps by done; reflexivity); try done.
  destruct (fr_net f); cbv zeta in Hnet; rewrite ?with_size_num, ?with_size_byt, ?transport_keeps, ?transport_byt,
    ?with_size_num, ?with_size_byt by done; exact Hnet.
Qed.

(** Other fields are left alone. *)
Definition frame_fields_of (g : numField) : bool :=
  match g with
  | F_SrcMac | F_DstMac | F_Etype | F_VlanId => true
  | _ => net_fields_of g || transport_fields_of g
  end.

Lemma frame_keeps f m g : frame_fields_of g = false -> num (frame_message f m) g = num m g.
Proof. by destruct f as [dst src [tag|] [h|h] [k|s d l c p|ty co r]], g. Qed.


Definition demo_frame : frame :=
  {| fr_dst := 0xa0b0c0d0e0f; fr_src := 0x112233445566; fr_vlan := Some 100;
     fr_net := N_IPv4 {| v4_tos := 8; v4_length := 44; v4_id := 0x1234; v4_flags := 2; v4_offset := 5;
                         v4_ttl := 64; v4_sum := 0xbeef; v4_src := 0x0a000001; v4_dst := 0xc0a80102 |};
     fr_transport := T_TCP {| t_src := 443; t_dst := 51000; t_seq := 7; t_ack := 9; t_words := 5; t_flags := 18;
                              t_window := 512; t_sum := 1; t_urgent := 0; t_rest := [1; 2; 3; 4] |} |}.

