(* ===== verification/ProducerNetflow.v ===== *)
(** * producer/proto: NetFlow v9 and IPFIX records to flow messages

    [producer_nf.go]: the conversion of a data record, the sampling rate found in option
    records or kept in the store, and the messages of a packet.  A function that returns
    messages and an error returns both: the messages made before an error are kept. *)
From S2P Require Import Prelude DecodersUtils NetflowTypes FlowMessage ProtoReflect PacketParser ProducerConfig SamplingInterface.

(** ** Elements *)

Definition NFV9_FIELD_IN_BYTES : Z := 1.
Definition NFV9_FIELD_IN_PKTS : Z := 2.
Definition NFV9_FIELD_PROTOCOL : Z := 4.
Definition NFV9_FIELD_SRC_TOS : Z := 5.
Definition NFV9_FIELD_TCP_FLAGS : Z := 6.
Definition NFV9_FIELD_L4_SRC_PORT : Z := 7.
Definition NFV9_FIELD_IPV4_SRC_ADDR : Z := 8.
Definition NFV9_FIELD_SRC_MASK : Z := 9.
Definition NFV9_FIELD_INPUT_SNMP : Z := 10.
Definition NFV9_FIELD_L4_DST_PORT : Z := 11.
Definition NFV9_FIELD_IPV4_DST_ADDR : Z := 12.
Definition NFV9_FIELD_DST_MASK : Z := 13.
Definition NFV9_FIELD_OUTPUT_SNMP : Z := 14.
Definition NFV9_FIELD_IPV4_NEXT_HOP : Z := 15.
Definition NFV9_FIELD_SRC_AS : Z := 16.
Definition NFV9_FIELD_DST_AS : Z := 17.
Definition NFV9_FIELD_BGP_IPV4_NEXT_HOP : Z := 18.
Definition NFV9_FIELD_LAST_SWITCHED : Z := 21.
Definition NFV9_FIELD_FIRST_SWITCHED : Z := 22.
Definition NFV9_FIELD_OUT_BYTES : Z := 23.
Definition NFV9_FIELD_OUT_PKTS : Z := 24.
Definition NFV9_FIELD_IPV6_SRC_ADDR : Z := 27.
Definition NFV9_FIELD_IPV6_DST_ADDR : Z := 28.
Definition NFV9_FIELD_IPV6_SRC_MASK : Z := 29.
Definition NFV9_FIELD_IPV6_DST_MASK : Z := 30.
Definition NFV9_FIELD_IPV6_FLOW_LABEL : Z := 31.
Definition NFV9_FIELD_ICMP_TYPE : Z := 32.
Definition NFV9_FIELD_MIN_TTL : Z := 52.
Definition NFV9_FIELD_IPV4_IDENT : Z := 54.
Definition NFV9_FIELD_IN_SRC_MAC : Z := 56.
Definition NFV9_FIELD_OUT_DST_MAC : Z := 57.
Definition NFV9_FIELD_SRC_VLAN : Z := 58.
Definition NFV9_FIELD_DST_VLAN : Z := 59.
Definition NFV9_FIELD_IP_PROTOCOL_VERSION : Z := 60.
Definition NFV9_FIELD_IPV6_NEXT_HOP : Z := 62.
Definition NFV9_FIELD_BGP_IPV6_NEXT_HOP : Z := 63.
Definition NFV9_FIELD_IN_DST_MAC : Z := 80.
Definition NFV9_FIELD_OUT_SRC_MAC : Z := 81.
Definition NFV9_FIELD_FRAGMENT_OFFSET : Z := 88.
Definition NFV9_FIELD_FORWARDING_STATUS : Z := 89.
Definition IPFIX_FIELD_mplsTopLabelIPv4Address : Z := 47.
Definition IPFIX_FIELD_mplsTopLabelStackSection : Z := 70.
Definition IPFIX_FIELD_mplsLabelStackSection2 : Z := 71.
Definition IPFIX_FIELD_mplsLabelStackSection3 : Z := 72.
Definition IPFIX_FIELD_observationPointId : Z := 138.
Definition IPFIX_FIELD_icmpTypeCodeIPv6 : Z := 139.
Definition IPFIX_FIELD_mplsTopLabelIPv6Address : Z := 140.
Definition IPFIX_FIELD_flowStartSeconds : Z := 150.
Definition IPFIX_FIELD_flowEndSeconds : Z := 151.
Definition IPFIX_FIELD_flowStartMilliseconds : Z := 152.
Definition IPFIX_FIELD_flowEndMilliseconds : Z := 153.
Definition IPFIX_FIELD_flowStartMicroseconds : Z := 154.
Definition IPFIX_FIELD_flowEndMicroseconds : Z := 155.
Definition IPFIX_FIELD_flowStartNanoseconds : Z := 156.
Definition IPFIX_FIELD_flowEndNanoseconds : Z := 157.
Definition IPFIX_FIELD_flowStartDeltaMicroseconds : Z := 158.
Definition IPFIX_FIELD_flowEndDeltaMicroseconds : Z := 159.
Definition IPFIX_FIELD_icmpTypeIPv4 : Z := 176.
Definition IPFIX_FIELD_icmpCodeIPv4 : Z := 177.
Definition IPFIX_FIELD_icmpTypeIPv6 : Z := 178.
Definition IPFIX_FIELD_icmpCodeIPv6 : Z := 179.
Definition IPFIX_FIELD_fragmentFlags : Z := 197.
Definition IPFIX_FIELD_dataLinkFrameSize : Z := 312.
Definition IPFIX_FIELD_dataLinkFrameSection : Z := 315.

(** ** Lookup in a record *)

(** [NetFlowLookFor]: the first standard element of the type. *)
Definition NetFlowLookFor (dataFields : list DataField) (typeId : Z) : bool * value :=
  match find (fun df => negb (dPenProvided df) && (dType df =? typeId)) dataFields with
  | Some df => (true, dValue df)
  | None => (false, VNil)
  end.

(** The destinations of [NetFlowPopulate]: a [*time.Time], of which the model keeps the Unix
    seconds, or a destination of [BinaryRead]. *)
Inductive addr : Type -> Type :=
  | A_Time : addr Z
  | A_dest {A} (d : dest A) : addr A.

Definition populate_err (typeId : Z) (e : error) : error := Wrap "netflow populate type" [typeId] e.

(** Whether the element exists, and what was stored through [addr], if anything. *)
Definition NetFlowPopulate {A} (dataFields : list DataField) (typeId : Z) (a : addr A) : res (bool * option A) :=
  match NetFlowLookFor dataFields typeId with
  | (true, VBytes b) =>
      match (match a in addr A return res A with
             | A_Time => rbind (run (BinaryRead BigEndian D_uint64) b) (fun t => Ok (to_int 64 (t / 1000)))
             | A_dest d => run (BinaryRead BigEndian d) b
             end) with
      | Ok x => Ok (true, Some x)
      | Err e => Err (populate_err typeId e)
      | Panic w => Panic w
      | Hang => Hang
      end
  | (exists_, _) => Ok (exists_, None)
  end.

(** ** Addresses and clocks *)

Definition allZeroes (v : bytes) : bool := forallb (fun b => b =? 0) v.

Definition addrReplaceCheck (f : bytesField) (v : bytes) (ipv6 : bool) (m : FlowMessage) : FlowMessage :=
  if ((len (byt m f) =? 0) && (0 <? len v)) || (negb (len (byt m f) =? 0) && (0 <? len v) && negb (allZeroes v))
  then set_num F_Etype (if ipv6 then 0x86dd else 0x800) (set_byt f v m)
  else m.

(** [float64(n)] for an integer: 53 significant bits, to the nearest, ties to even. *)
Definition float64_of (n : Z) : Z :=
  let k := Z.max 0 (Z.log2 n - 52) in
  let q := Z.shiftr n k in
  let r := Z.land n (Z.ones k) in
  let half := Z.shiftl 1 (k - 1) in
  let up := (half <? r) || ((half =? r) && Z.odd q) in
  Z.shiftl (if (0 <? k) && up then q + 1 else q) k.

(** The product is rounded to a float64, the division by 2^32 only moves the exponent, and the
    conversion truncates. *)
Definition ConvertNTPEpoch (ntpTime : Z) : Z :=
  let seconds := to_uint 64 (Z.shiftr ntpTime 32 - 2208988800) in
  let fraction := float64_of (float64_of (Z.land ntpTime 0xffffffff) * 1000000000) in
  to_uint 64 (to_uint 64 (seconds * 1000000000) + Z.shiftr fraction 32).

(** ** The cases of the switch *)

(** What the body of a case does with the value. *)
Inductive field_case : Type :=
  | C_Number (f : numField)                    (* DecodeUNumber into the field *)
  | C_Two (f g : numField)                     (* the same into two fields *)
  | C_Version                                  (* the EtherType of an IP version *)
  | C_Address (f : bytesField) (ipv6 : bool)   (* addrReplaceCheck *)
  | C_Bytes (f : bytesField)                   (* the value itself *)
  | C_TypeCode                                 (* ICMP type and code in 16 bits *)
  | C_Flags                                    (* the fragment flags *)
  | C_Label (i : nat)                          (* an entry of the MPLS stack *)
  | C_LabelIp
  | C_Switched (f : numField)                  (* milliseconds of uptime *)
  | C_Time (f : numField) (unit_ : Z)          (* a Unix time *)
  | C_NTP (f : numField)                       (* an NTP time *)
  | C_Delta (f : numField)                     (* microseconds before the export *)
  | C_FrameSize
  | C_FrameSection.

(** The cases of the outer switch. *)
Definition common_cases : list (Z * field_case) :=
  [(IPFIX_FIELD_observationPointId, C_Number F_ObservationPointId);
   (NFV9_FIELD_IN_BYTES, C_Number F_Bytes); (NFV9_FIELD_IN_PKTS, C_Number F_Packets);
   (NFV9_FIELD_OUT_BYTES, C_Number F_Bytes); (NFV9_FIELD_OUT_PKTS, C_Number F_Packets);
   (NFV9_FIELD_L4_SRC_PORT, C_Number F_SrcPort); (NFV9_FIELD_L4_DST_PORT, C_Number F_DstPort);
   (NFV9_FIELD_PROTOCOL, C_Number F_Proto);
   (NFV9_FIELD_SRC_AS, C_Number F_SrcAs); (NFV9_FIELD_DST_AS, C_Number F_DstAs);
   (NFV9_FIELD_INPUT_SNMP, C_Number F_InIf); (NFV9_FIELD_OUTPUT_SNMP, C_Number F_OutIf);
   (NFV9_FIELD_FORWARDING_STATUS, C_Number F_ForwardingStatus); (NFV9_FIELD_SRC_TOS, C_Number F_IpTos);
   (NFV9_FIELD_TCP_FLAGS, C_Number F_TcpFlags); (NFV9_FIELD_MIN_TTL, C_Number F_IpTtl);
   (NFV9_FIELD_IP_PROTOCOL_VERSION, C_Version);
   (NFV9_FIELD_IPV4_SRC_ADDR, C_Address F_SrcAddr false); (NFV9_FIELD_IPV4_DST_ADDR, C_Address F_DstAddr false);
   (NFV9_FIELD_SRC_MASK, C_Number F_SrcNet); (NFV9_FIELD_DST_MASK, C_Number F_DstNet);
   (NFV9_FIELD_IPV6_SRC_ADDR, C_Address F_SrcAddr true); (NFV9_FIELD_IPV6_DST_ADDR, C_Address F_DstAddr true);
   (NFV9_FIELD_IPV6_SRC_MASK, C_Number F_SrcNet); (NFV9_FIELD_IPV6_DST_MASK, C_Number F_DstNet);
   (NFV9_FIELD_IPV4_NEXT_HOP, C_Bytes F_NextHop); (NFV9_FIELD_BGP_IPV4_NEXT_HOP, C_Bytes F_BgpNextHop);
   (NFV9_FIELD_IPV6_NEXT_HOP, C_Bytes F_NextHop); (NFV9_FIELD_BGP_IPV6_NEXT_HOP, C_Bytes F_BgpNextHop);
   (NFV9_FIELD_ICMP_TYPE, C_TypeCode); (IPFIX_FIELD_icmpTypeCodeIPv6, C_TypeCode);
   (IPFIX_FIELD_icmpTypeIPv4, C_Number F_IcmpType); (IPFIX_FIELD_icmpTypeIPv6, C_Number F_IcmpType);
   (IPFIX_FIELD_icmpCodeIPv4, C_Number F_IcmpCode); (IPFIX_FIELD_icmpCodeIPv6, C_Number F_IcmpCode);
   (NFV9_FIELD_IN_SRC_MAC, C_Number F_SrcMac); (NFV9_FIELD_IN_DST_MAC, C_Number F_DstMac);
   (NFV9_FIELD_OUT_SRC_MAC, C_Number F_SrcMac); (NFV9_FIELD_OUT_DST_MAC, C_Number F_DstMac);
   (NFV9_FIELD_SRC_VLAN, C_Two F_VlanId F_SrcVlan); (NFV9_FIELD_DST_VLAN, C_Number F_DstVlan);
   (NFV9_FIELD_IPV4_IDENT, C_Number F_FragmentId); (NFV9_FIELD_FRAGMENT_OFFSET, C_Number F_FragmentOffset);
   (IPFIX_FIELD_fragmentFlags, C_Flags); (NFV9_FIELD_IPV6_FLOW_LABEL, C_Number F_Ipv6FlowLabel);
   (IPFIX_FIELD_mplsTopLabelStackSection, C_Label 0); (IPFIX_FIELD_mplsLabelStackSection2, C_Label 1);
   (IPFIX_FIELD_mplsLabelStackSection3, C_Label 2);
   (IPFIX_FIELD_mplsTopLabelIPv4Address, C_LabelIp); (IPFIX_FIELD_mplsTopLabelIPv6Address, C_LabelIp)].

(** The inner switches, reached when no case of the outer one applies. *)
Definition v9_cases : list (Z * field_case) :=
  [(NFV9_FIELD_FIRST_SWITCHED, C_Switched F_TimeFlowStartNs); (NFV9_FIELD_LAST_SWITCHED, C_Switched F_TimeFlowEndNs)].

Definition ipfix_cases : list (Z * field_case) :=
  [(IPFIX_FIELD_flowStartSeconds, C_Time F_TimeFlowStartNs 1000000000);
   (IPFIX_FIELD_flowStartMilliseconds, C_Time F_TimeFlowStartNs 1000000);
   (IPFIX_FIELD_flowStartMicroseconds, C_NTP F_TimeFlowStartNs);
   (IPFIX_FIELD_flowStartNanoseconds, C_NTP F_TimeFlowStartNs);
   (IPFIX_FIELD_flowEndSeconds, C_Time F_TimeFlowEndNs 1000000000);
   (IPFIX_FIELD_flowEndMilliseconds, C_Time F_TimeFlowEndNs 1000000);
   (IPFIX_FIELD_flowEndMicroseconds, C_NTP F_TimeFlowEndNs);
   (IPFIX_FIELD_flowEndNanoseconds, C_NTP F_TimeFlowEndNs);
   (IPFIX_FIELD_flowStartDeltaMicroseconds, C_Delta F_TimeFlowStartNs);
   (IPFIX_FIELD_flowEndDeltaMicroseconds, C_Delta F_TimeFlowEndNs);
   (IPFIX_FIELD_dataLinkFrameSize, C_FrameSize); (IPFIX_FIELD_dataLinkFrameSection, C_FrameSection)].

Fixpoint assoc (t : Z) (l : list (Z * field_case)) : option field_case :=
  match l with
  | [] => None
  | (k, c) :: l' => if t =? k then Some c else assoc t l'
  end.

Definition case_of (version t : Z) : option field_case :=
  match assoc t common_cases with
  | Some c => Some c
  | None => if version =? 9 then assoc t v9_cases else if version =? 10 then assoc t ipfix_cases else None
  end.

(** [DecodeUNumber(v, &x)] for an unsigned [x] of [w] bits. *)
Definition number (v : bytes) (w : Z) : P Z := lift_res (DecodeUNumber v (O_uint w)).

(** [MplsLabel], grown to [i + 1] entries, with the entry [i] replaced. *)
Definition put_label (i : nat) (x : Z) (l : list Z) : list Z :=
  <[i := x]> (if (length l <? Datatypes.S i)%nat then fill (Datatypes.S i) 0 l else l).

Section convert.
Context (baseTimeNs uptime : Z) (mapperSFlow : option PacketMapper).

Definition run_case (v : bytes) (c : field_case) : P unit :=
  match c with
  | C_Number f => let* x := number v (width f) in modify (set_num f x)
  | C_Two f g =>
      let* x := number v (width f) in modify (set_num f x) ;;;
      let* y := number v (width g) in modify (set_num g y)
  | C_Version =>
      match v with
      | 4 :: _ => modify (set_num F_Etype 0x800)
      | 6 :: _ => modify (set_num F_Etype 0x86dd)
      | _ => ret tt
      end
  | C_Address f ipv6 => modify (addrReplaceCheck f v ipv6)
  | C_Bytes f => modify (set_byt f v)
  | C_TypeCode =>
      let* icmpTypeCode := number v 16 in
      modify (fun m => set_num F_IcmpCode (Z.land icmpTypeCode 0xff)
                         (set_num F_IcmpType (Z.shiftr icmpTypeCode 8) m))
  | C_Flags => let* ipFlags := number v 32 in modify (set_num F_IpFlags (Z.shiftr ipFlags 5))
  | C_Label i =>
      let* mplsLabel := number v 32 in
      modify (fun m => set_nums F_MplsLabel (put_label i (Z.shiftr mplsLabel 4) (nums m F_MplsLabel)) m)
  | C_LabelIp => modify (fun m => set_bytess F_MplsIp (bytess m F_MplsIp ++ [v]) m)
  | C_Switched f =>
      let* switched := number v 32 in
      let uptimeNs := to_uint 64 (uptime * 1000000) in
      let timeDiff := to_uint 64 (uptimeNs - to_uint 64 (switched * 1000000)) in
      modify (set_num f (baseTimeNs - timeDiff))
  | C_Time f unit_ => let* time := number v 64 in modify (set_num f (time * unit_))
  | C_NTP f => let* time := number v 64 in modify (set_num f (ConvertNTPEpoch time))
  | C_Delta f =>
      let* time := number v 64 in modify (set_num f (baseTimeNs - to_uint 64 (time * 1000)))
  | C_FrameSize =>
      let* x := number v (width F_Bytes) in
      modify (fun m => set_num F_Packets 1 (set_num F_Bytes x m))
  | C_FrameSection =>
      match mapperSFlow with
      | None => panic "nil pointer dereference"
      | Some mapper =>
          PacketMapper_ParsePacket mapper v ;;;
          modify (fun m => let m1 := set_num F_Packets 1 m in
                           if num m1 F_Bytes =? 0 then set_num F_Bytes (len v) m1 else m1)
      end
  end.

(** One round of the loop over the record. *)
Definition convert_field (version : Z) (mapperNetFlow : option NetFlowMapper) (df : DataField) : P unit :=
  match dValue df with
  | VBytes v =>
      errctx (Wrap "netflow field" [dType df])
        (MapCustomNetFlow df mapperNetFlow ;;;
         if dPenProvided df then ret tt
         else match case_of version (dType df) with Some c => run_case v c | None => ret tt end)
  | _ => ret tt
  end.
End convert.

Definition ConvertNetFlowDataSet (version baseTime uptime : Z) (record : list DataField)
    (mapperNetFlow : option NetFlowMapper) (mapperSFlow : option PacketMapper) : P unit :=
  let baseTimeNs := baseTime * 1000000000 in
  modify (fun m => set_num F_TimeFlowEndNs baseTimeNs (set_num F_TimeFlowStartNs baseTimeNs m)) ;;;
  (if version =? 9 then modify (set_Type NETFLOW_V9)
   else if version =? 10 then modify (set_Type IPFIX) else ret tt) ;;;
  rangeM record (convert_field baseTimeNs uptime mapperSFlow version mapperNetFlow).

(** ** The messages of data sets *)

(** [fmsg.Reset()], and the conversion: a message of the pool holds nothing of its past. *)
Definition convert_new (m : P unit) : res FlowMessage :=
  let '(r, msg) := m zero_message in rbind r (fun _ => Ok msg).

(** The loops over records, samples and sets: the messages made so far are returned with the
    first error, and a panic is one. *)
Fixpoint collect {A B} (f : A -> res B) (wrap : error -> error) (l : list A) : res (list B * option error) :=
  match l with
  | [] => Ok ([], None)
  | x :: l' =>
      match f x with
      | Ok b => rbind (collect f wrap l') (fun '(bs, e) => Ok (b :: bs, e))
      | Err e => Ok ([], Some (wrap e))
      | Panic w => Panic w
      | Hang => Hang
      end
  end.

Section sets.
Context (version baseTime uptime : Z) (mapperNetFlow : option NetFlowMapper) (mapperSFlow : option PacketMapper).

Definition SearchNetFlowDataSetsRecords (dataRecords : list DataRecord) : res (list FlowMessage * option error) :=
  collect (fun record => convert_new
             (ConvertNetFlowDataSet version baseTime uptime (Values record) mapperNetFlow mapperSFlow))
    (Wrap "netflow data record" []) dataRecords.

(** A set whose conversion fails contributes nothing; those before it do. *)
Definition search_set (s : DataFlowSet) : res (list FlowMessage) :=
  rbind (SearchNetFlowDataSetsRecords (Records s)) (fun '(fmsg, err) =>
    match err with None => Ok fmsg | Some e => Err e end).
Definition SearchNetFlowDataSets (dataFlowSet : list DataFlowSet) : res (list FlowMessage * option error) :=
  rbind (collect search_set (Wrap "netflow data set" []) dataFlowSet) (fun '(l, err) => Ok (concat l, err)).
End sets.

(** ** The sampling rate of option records *)

(** One of the three lookups: the rate when the element exists. *)
Definition search_option (record : OptionsDataRecord) (typeId : Z) : res (option Z) :=
  match NetFlowPopulate (OptionsValues record) typeId (A_dest D_uint32) with
  | Ok (true, x) => Ok (Some (default 0 x))
  | Ok (false, _) => Ok None
  | Err e => Err (Wrap "netflow options field" [typeId] e)
  | Panic w => Panic w
  | Hang => Hang
  end.

Definition or_else {A} (r : res (option A)) (k : res (option A)) : res (option A) :=
  rbind r (fun o => match o with Some x => Ok (Some x) | None => k end).

Definition search_option_record (record : OptionsDataRecord) : res (option Z) :=
  or_else (search_option record 305) (or_else (search_option record 50) (search_option record 34)).

Fixpoint search_records (l : list OptionsDataRecord) : res (option Z) :=
  match l with [] => Ok None | r :: l' => or_else (search_option_record r) (search_records l') end.

(** The rate and whether one was found; the variable still holds 0 when none was. *)
Definition SearchNetFlowOptionDataSets (dataFlowSet : list OptionsDataFlowSet) : res (Z * bool) :=
  rbind (search_records (flat_map Records dataFlowSet)) (fun o =>
    Ok (match o with Some rate => (rate, true) | None => (0, false) end)).

(** ** Splitting a packet *)

(** The type switches take the struct types, not pointers to them. *)
Definition value_of {A} (x : boxed A) : option A := match x with Val a => Some a | Ptr _ => None end.

Definition data_of (fs : flowset) : option DataFlowSet :=
  match fs with FS_Data x => value_of x | _ => None end.
Definition options_data_of (fs : flowset) : option OptionsDataFlowSet :=
  match fs with FS_OptionsData x => value_of x | _ => None end.
Definition template_of (fs : flowset) : option TemplateFlowSet :=
  match fs with FS_Template x => value_of x | _ => None end.
Definition v9_options_of (fs : flowset) : option NFv9OptionsTemplateFlowSet :=
  match fs with FS_NFv9OptionsTemplate x => value_of x | _ => None end.
Definition ipfix_options_of (fs : flowset) : option IPFIXOptionsTemplateFlowSet :=
  match fs with FS_IPFIXOptionsTemplate x => value_of x | _ => None end.

Definition SplitNetFlowSets (p : NFv9Packet) :=
  (omap data_of (v9FlowSets p), omap template_of (v9FlowSets p), omap v9_options_of (v9FlowSets p),
   omap options_data_of (v9FlowSets p)).
Definition SplitIPFIXSets (p : IPFIXPacket) :=
  (omap data_of (ipfixFlowSets p), omap template_of (ipfixFlowSets p), omap ipfix_options_of (ipfixFlowSets p),
   omap options_data_of (ipfixFlowSets p)).

(** ** The messages of a packet *)

Section process.
Context {S : Type} `{SamplingStore S}.

(** The store is consulted only when the packet announces no rate; errors are ignored.
    [None] is a nil store. *)
Definition sampling_rate (ctx : FlowContext) (version dom rate : Z) (found : bool) : ST (option S) Z :=
  fun st => match st with
  | None => (Ok rate, None)
  | Some s =>
      let '(r, s') :=
        (if found then let* _ := RateSet ctx version dom rate in ret rate
         else let* (stored, ok, _) := RateGet ctx version dom in ret (if ok then stored else rate)) s in
      (r, Some s')
  end.

Definition finish (seqnum rate dom : Z) (m : FlowMessage) : FlowMessage :=
  set_num F_ObservationDomainId dom (set_num F_SamplingRate rate (set_num F_SequenceNum seqnum m)).

(** The common shape of the two functions below. *)
Definition process_sets (what : string) (version seqnum dom : Z) (ctx : FlowContext)
    (data : res (list FlowMessage * option error)) (options : list OptionsDataFlowSet)
    : ST (option S) (list FlowMessage * option error) :=
  let* (msgs, err) := lift_res data in
  match err with
  | Some e => ret (msgs, Some (Wrap (what ++ " data sets") [] e))
  | None =>
      match SearchNetFlowOptionDataSets options with
      | Err e => ret (msgs, Some (Wrap (what ++ " option data sets") [] e))
      | Ok (rate, found) =>
          let* rate' := sampling_rate ctx version dom rate found in
          ret (map (finish seqnum rate' dom) msgs, None)
      | Panic w => panic w
      | Hang => lift_res Hang
      end
  end.

Definition ProcessMessageIPFIXConfig (packet : IPFIXPacket) (ctx : FlowContext) (config : option producerConfigMapped)
    : ST (option S) (list FlowMessage * option error) :=
  let '(dataFlowSet, _, _, optionDataFlowSet) := SplitIPFIXSets packet in
  let cfgIpfix := match config with Some c => IPFIX_ c | None => None end in
  let cfgSflow := match config with Some c => Some (PM_SFlow (SFlow c)) | None => None end in
  process_sets "ipfix" 10 (ipfixSequenceNumber packet) (ObservationDomainId packet) ctx
    (SearchNetFlowDataSets 10 (ExportTime packet) 0 cfgIpfix cfgSflow dataFlowSet) optionDataFlowSet.

Definition ProcessMessageNetFlowV9Config (packet : NFv9Packet) (ctx : FlowContext) (config : option producerConfigMapped)
    : ST (option S) (list FlowMessage * option error) :=
  let '(dataFlowSet, _, _, optionDataFlowSet) := SplitNetFlowSets packet in
  let cfgNetFlow := match config with Some c => NetFlowV9 c | None => None end in
  process_sets "netflow v9" 9 (v9SequenceNumber packet) (SourceId packet) ctx
    (SearchNetFlowDataSets 9 (UnixSeconds packet) (SystemUptime packet) cfgNetFlow None dataFlowSet) optionDataFlowSet.
End process.

(** A property of every case of a switch. *)
Lemma assoc_forall (p : field_case -> bool) t l c :
  forallb (fun x => p x.2) l = true -> assoc t l = Some c -> p c = true.
Proof.
  induction l as [|[k d] l IH]; [done|]. simpl. intros Hl Hc. apply andb_prop in Hl as [Hd Hl].
  destruct (t =? k); [by injection Hc as <-|auto].
Qed.
