(* ===== verification/Pipe.v ===== *)
(** * utils: the decoding pipes and the error mute

    [pipe.go]: the dispatch of a datagram to a decoder, and the hand-over of the decoded
    packet to the producer, the formatter and the transport, which are interfaces of the
    program: here any functions on a state [W] of theirs.  [mute.go]: [BatchMute]. *)
From S2P Require Import Prelude DecodersUtils NetflowLegacy NetflowTypes NetflowDecode NetflowEncode NetflowSafety NetflowRoundtrip SflowTypes SflowDecode SflowEncode SflowRoundtrip SflowSafety.

(** ** Messages *)

(** A [netip.AddrPort]: the bytes of the address, and the port. *)
Record AddrPort : Type := { Addr : bytes; Port : Z }.

Record Message : Type := { Src : AddrPort; Dst : AddrPort; Payload : bytes; Received : Z }.

(** The [interface{}] a pipe is given. *)
Inductive any : Type := A_Message (m : Message) | A_other.

(** What a producer is given; a pipe gives one of the first four. *)
Inductive packet : Type :=
  | PK_v5 (p : PacketNetFlowV5)
  | PK_v9 (p : NFv9Packet)
  | PK_ipfix (p : IPFIXPacket)
  | PK_sflow (p : SflowTypes.Packet)
  | PK_other.

Record ProduceArgs : Type := {
  argSrc : AddrPort; argDst : AddrPort; SamplerAddress : bytes; TimeReceived : Z;
  argFlowContext : option FlowContext
}.

Section pipe.
Context {S W Msg : Type} `{TemplateStore S}.

(** [AddrPort.String]. *)
Variable AddrPort_String : AddrPort -> string.

(** [Produce] returns its messages and its error; [Commit] takes the messages back. *)
Record ProducerInterface : Type := {
  Produce : packet -> ProduceArgs -> ST W (list Msg * option error);
  Commit : list Msg -> W -> W
}.

(** The interface values of a pipe; [None] is nil. *)
Record PipeConfig : Type := {
  Format : option (Msg -> ST W (bytes * bytes));
  Transport : option (bytes -> bytes -> ST W unit);
  Producer : option ProducerInterface
}.

Record flowpipe : Type := { templateStore : S; world : W }.

Definition on_world {A} (m : ST W A) : ST flowpipe A := fun s =>
  let '(r, w) := m (world s) in (r, {| templateStore := templateStore s; world := w |}).

(** ** The hand-over *)

Definition formatSend (cfg : PipeConfig) (msgs : list Msg) : ST W unit :=
  rangeM msgs (fun msg =>
    match Format cfg with
    | None => ret tt
    | Some format =>
        let* (key, data) := errctx (Wrap "format message" []) (format msg) in
        match Transport cfg with
        | None => ret tt
        | Some send => errctx (Wrap "send message" []) (send key data)
        end
    end).

Definition PipeMessageError (e : error) : error := Wrap "message from" [] e.

(** [flowMessageSet, err := Produce(...); defer Commit(flowMessageSet); ...]. *)
Definition produce (cfg : PipeConfig) (what : string) (p : packet) (args : ProduceArgs) : ST flowpipe unit :=
  match Producer cfg with
  | None => ret tt
  | Some pr => on_world (fun w =>
      match Produce pr p args w with
      | (Ok (msgs, err), w1) =>
          let '(r, w2) :=
            match err with
            | Some e => (Err (PipeMessageError (Wrap (what ++ " produce") [] e)), w1)
            | None => errctx (fun e => PipeMessageError (Wrap (what ++ " format/send") [] e)) (formatSend cfg msgs) w1
            end in
          (r, Commit pr msgs w2)
      | (Err e, w1) => (Err e, w1)
      | (Panic why, w1) => (Panic why, w1)
      | (Hang, w1) => (Hang, w1)
      end)
  end.

(** ** The pipes *)

Definition SFlowPipe_DecodeFlow (cfg : PipeConfig) (msg : any) : ST flowpipe unit :=
  match msg with
  | A_other => fail (Errorf "flow is not *Message" [])
  | A_Message pkt =>
      let* p := errctx (fun e => PipeMessageError (Wrap "sflow decode" [] e))
        (on_buffer (Payload pkt) SflowDecode.DecodeMessageVersion) in
      produce cfg "sflow" (PK_sflow p)
        {| argSrc := Src pkt; argDst := Dst pkt; SamplerAddress := Addr (Src pkt); TimeReceived := Received pkt;
           argFlowContext := Some {| RouterKey := AddrPort_String (Src pkt) |} |}
  end.

(** A decoder of [NetflowDecode] on the rest of the payload and the pipe's templates; the
    packet is dropped when the decoder also returns an error. *)
Definition on_templates {A} (b : bytes) (m : ST (DState S) (A * option error)) : ST flowpipe A := fun s =>
  let '(r, d) := m {| payload := b; NetflowDecode.store := Some (templateStore s) |} in
  let s' := {| templateStore := match NetflowDecode.store d with Some t => t | None => templateStore s end;
               world := world s |} in
  (match r with
   | Ok (a, None) => Ok a
   | Ok (_, Some e) => Err e
   | Err e => Err e
   | Panic w => Panic w
   | Hang => Hang
   end, s').

Definition NetFlowPipe_DecodeFlow (cfg : PipeConfig) (msg : any) : ST flowpipe unit :=
  match msg with
  | A_other => fail (Errorf "flow is not *Message" [])
  | A_Message pkt =>
      let ctx := {| RouterKey := AddrPort_String (Src pkt) |} in
      let args := {| argSrc := Src pkt; argDst := Dst pkt; SamplerAddress := Addr (Src pkt);
                     TimeReceived := Received pkt; argFlowContext := None |} in
      let* (version, buf) := errctx (fun e => PipeMessageError (Wrap "netflow version" [] e))
        (on_buffer (Payload pkt) (let* v := BinaryDecoder D_uint16 in let* b := get in ret (v, b))) in
      if version =? 5 then
        let* p := errctx (fun e => PipeMessageError (Wrap "netflow v5 decode" [] e))
          (on_buffer buf (NetflowLegacy.DecodeMessage 5)) in
        produce cfg "netflow" (PK_v5 p) args
      else if version =? 9 then
        let* p := errctx (fun e => PipeMessageError (Wrap "netflow v9 decode" [] e))
          (on_templates buf (DecodeMessageNetFlow ctx)) in
        produce cfg "netflow" (PK_v9 p) args
      else if version =? 10 then
        let* p := errctx (fun e => PipeMessageError (Wrap "ipfix decode" [] e))
          (on_templates buf (DecodeMessageIPFIX ctx)) in
        produce cfg "netflow" (PK_ipfix p) args
      else fail (PipeMessageError (Errorf "not a NetFlow packet" []))
  end.

Definition AutoFlowPipe_DecodeFlow (cfg : PipeConfig) (msg : any) : ST flowpipe unit :=
  match msg with
  | A_other => fail (Errorf "flow is not *Message" [])
  | A_Message pkt =>
      let* proto := errctx (fun e => PipeMessageError (Wrap "protocol detect" [] e))
        (on_buffer (Payload pkt) (BinaryDecoder D_uint32)) in
      let protoNetFlow := Z.shiftr (Z.land proto 0xFFFF0000) 16 in
      if proto =? 5 then SFlowPipe_DecodeFlow cfg msg
      else if (protoNetFlow =? 5) || (protoNetFlow =? 9) || (protoNetFlow =? 10) then NetFlowPipe_DecodeFlow cfg msg
      else fail (Errorf "could not identify protocol" [proto])
  end.
End pipe.

(** ** mute.go *)

Record BatchMute : Type := { batchTime : Z; resetInterval : Z; ctr : Z; max : Z }.

Definition NewBatchMute (now interval max : Z) : BatchMute :=
  {| batchTime := now; resetInterval := interval; ctr := 0; max := max |}.

(** [increment]: whether the event is muted, and how many were skipped. *)
Definition increment (b : BatchMute) (val t : Z) : (bool * Z) * BatchMute :=
  if (max b =? 0) || (resetInterval b =? 0) then ((false, 0), b)
  else
    let skipped := if max b <=? ctr b then ctr b - max b else 0 in
    let b1 := if resetInterval b <? t - batchTime b
              then {| batchTime := t; resetInterval := resetInterval b; ctr := 0; max := max b |} else b in
    let b2 := {| batchTime := batchTime b1; resetInterval := resetInterval b1; ctr := ctr b1 + val; max := max b1 |} in
    (((0 <? max b2) && (max b2 <? ctr b2), skipped), b2).
Definition Increment (b : BatchMute) (now : Z) : (bool * Z) * BatchMute := increment b 1 now.
