(* ===== verification/PipeProps.v ===== *)
(** * Properties of the pipes and of the error mute *)
From S2P Require Import Prelude DecodersUtils NetflowLegacy NetflowTypes NetflowDecode NetflowEncode NetflowSafety NetflowRoundtrip SflowTypes SflowDecode SflowEncode SflowRoundtrip SflowSafety NetflowProps SflowProps Pipe.

(** ** The first bytes of a datagram *)

Lemma be_put_split v c : u16 v -> u16 c -> be_put 4 (v * 2 ^ 16 + c) = be_put 2 v ++ be_put 2 c.
Proof.
  intros Hv Hc. assert (Hb : is_bytes (be_put 2 v ++ be_put 2 c)) by (apply is_bytes_app; split; apply is_bytes_be_put).
  rewrite <- (be_put_get _ Hb). f_equal. unfold be_get. rewrite be_get_from_app, be_get_from_eq by apply is_bytes_be_put.
  change (be_get_from 0 (be_put 2 v)) with (be_get (be_put 2 v)). rewrite !be_get_put by done.
  rewrite len_be_put. done.
Qed.

Lemma be_put_halves x : u32 x -> be_put 4 x = be_put 2 (x / 2 ^ 16) ++ be_put 2 (x mod 2 ^ 16).
Proof.
  intros Hx. unfold uint in Hx. pose proof (Z.div_mod x (2 ^ 16) ltac:(lia)).
  rewrite <- be_put_split; [f_equal; lia|..]; unfold uint.
  - split; [apply Z.div_pos; lia|]. apply Z.div_lt_upper_bound; lia.
  - apply Z.mod_pos_bound. lia.
Qed.

(** [(proto & 0xFFFF0000) >> 16]. *)
Lemma proto_high x : u32 x -> Z.shiftr (Z.land x 0xFFFF0000) 16 = x / 2 ^ 16.
Proof.
  intros Hx. rewrite Z.shiftr_land. change (Z.shiftr 0xFFFF0000 16) with (Z.ones 16).
  rewrite Z.land_ones, Z.shiftr_div_pow2 by lia. apply Z.mod_small. unfold uint in Hx.
  split; [apply Z.div_pos; lia|]. apply Z.div_lt_upper_bound; lia.
Qed.

Section pipe.
Context {S W Msg : Type} `{HS : TemplateStore S} `{HSpec : !TemplateStoreSpec S}.
Variable AddrPort_String : AddrPort -> string.
Implicit Types (cfg : PipeConfig (W := W) (Msg := Msg)) (m : Message) (s : flowpipe (S := S) (W := W)).

Abbreviation Auto := (AutoFlowPipe_DecodeFlow (S := S) AddrPort_String).
Abbreviation NetFlow := (NetFlowPipe_DecodeFlow (S := S) AddrPort_String).
Abbreviation SFlow := (SFlowPipe_DecodeFlow (S := S) AddrPort_String).

(** The arguments a producer gets for a message. *)
Definition args_of (fc : option FlowContext) (m : Message) : ProduceArgs :=
  {| argSrc := Src m; argDst := Dst m; SamplerAddress := Addr (Src m); TimeReceived := Received m; argFlowContext := fc |}.
Definition context_of (m : Message) : FlowContext := {| RouterKey := AddrPort_String (Src m) |}.

(** ** Dispatch *)

Lemma auto_netflow cfg m v c rest s : Payload m = be_put 2 v ++ be_put 2 c ++ rest -> u16 v -> u16 c ->
  v = 5 \/ v = 9 \/ v = 10 -> Auto cfg (A_Message m) s = NetFlow cfg (A_Message m) s.
Proof.
  intros Hp Hv Hc Hcase. unfold AutoFlowPipe_DecodeFlow. unfold bind at 1, errctx, on_buffer. rewrite Hp at 1.
  rewrite app_assoc, <- be_put_split by done.
  assert (Hu : u32 (v * 2 ^ 16 + c)) by (unfold uint in *; lia).
  rewrite (reads_u32 _ Hu). cbn [fst]. rewrite proto_high by done.
  assert (Hq : (v * 2 ^ 16 + c) / 2 ^ 16 = v) by (symmetry; apply (Z.div_unique _ _ _ c); unfold uint in *; lia).
  rewrite Hq. destruct (Z.eqb_spec (v * 2 ^ 16 + c) 5) as [Heq|_]; [unfold uint in *; lia|].
  assert (((v =? 5) || (v =? 9) || (v =? 10)) = true) as ->; [|done].
  destruct Hcase as [->|[->| ->]]; done.
Qed.

Lemma auto_sflow cfg m rest s : Payload m = be_put 4 5 ++ rest ->
  Auto cfg (A_Message m) s = SFlow cfg (A_Message m) s.
Proof.
  intros Hp. unfold AutoFlowPipe_DecodeFlow. unfold bind at 1, errctx, on_buffer. rewrite Hp at 1.
  rewrite reads_u32 by (unfold uint; lia). done.
Qed.

Lemma netflow_version cfg m v rest s : Payload m = be_put 2 v ++ rest -> u16 v ->
  NetFlow cfg (A_Message m) s =
    (if v =? 5 then
       let* p := errctx (fun e => PipeMessageError (Wrap "netflow v5 decode" [] e))
         (on_buffer rest (NetflowLegacy.DecodeMessage 5)) in
       produce cfg "netflow" (PK_v5 p) (args_of None m)
     else if v =? 9 then
       let* p := errctx (fun e => PipeMessageError (Wrap "netflow v9 decode" [] e))
         (on_templates rest (DecodeMessageNetFlow (context_of m))) in
       produce cfg "netflow" (PK_v9 p) (args_of None m)
     else if v =? 10 then
       let* p := errctx (fun e => PipeMessageError (Wrap "ipfix decode" [] e))
         (on_templates rest (DecodeMessageIPFIX (context_of m))) in
       produce cfg "netflow" (PK_ipfix p) (args_of None m)
     else fail (PipeMessageError (Errorf "not a NetFlow packet" []))) s.
Proof.
  intros Hp Hv. unfold NetFlowPipe_DecodeFlow. unfold bind at 1, errctx at 1, on_buffer at 1. rewrite Hp.
  unfold bind at 1. by rewrite (reads_u16 v Hv).
Qed.

(** ** The decoders behind the version number *)

Lemma version_v9 ctx rest (st : option S) :
  NetflowDecode.DecodeMessageVersion ctx {| payload := be_put 2 9 ++ rest; NetflowDecode.store := st |} =
  (let* (p, err) := errctx (NetflowDecode.DecoderError "NetFlowV9") (DecodeMessageNetFlow ctx) in
   ret (inl p, option_map (NetflowDecode.DecoderError "NetFlowV9") err))
    {| payload := rest; NetflowDecode.store := st |}.
Proof. unfold NetflowDecode.DecodeMessageVersion. unfold bind at 1. by rewrite read_version by (unfold uint; lia). Qed.

Lemma version_ipfix ctx rest (st : option S) :
  NetflowDecode.DecodeMessageVersion ctx {| payload := be_put 2 10 ++ rest; NetflowDecode.store := st |} =
  (let* (p, err) := errctx (NetflowDecode.DecoderError "IPFIX") (DecodeMessageIPFIX ctx) in
   ret (inr p, option_map (NetflowDecode.DecoderError "IPFIX") err))
    {| payload := rest; NetflowDecode.store := st |}.
Proof. unfold NetflowDecode.DecodeMessageVersion. unfold bind at 1. by rewrite read_version by (unfold uint; lia). Qed.

(** A packet decoded without error under its version is what the pipe decodes. *)
Lemma templates_v9 ctx rest p d s :
  NetflowDecode.DecodeMessageVersion ctx {| payload := be_put 2 9 ++ rest; NetflowDecode.store := Some (templateStore s) |}
    = (Ok (inl p, None), d) ->
  exists st, on_templates rest (DecodeMessageNetFlow ctx) s = (Ok p, {| templateStore := st; world := world s |}).
Proof.
  rewrite version_v9. unfold on_templates, bind, errctx.
  destruct (DecodeMessageNetFlow ctx _) as [[[q [e|]]|e|w|] d']; simpl; intros [=]; subst. eauto.
Qed.

Lemma templates_ipfix ctx rest p d s :
  NetflowDecode.DecodeMessageVersion ctx {| payload := be_put 2 10 ++ rest; NetflowDecode.store := Some (templateStore s) |}
    = (Ok (inr p, None), d) ->
  exists st, on_templates rest (DecodeMessageIPFIX ctx) s = (Ok p, {| templateStore := st; world := world s |}).
Proof.
  rewrite version_ipfix. unfold on_templates, bind, errctx.
  destruct (DecodeMessageIPFIX ctx _) as [[[q [e|]]|e|w|] d']; simpl; intros [=]; subst. eauto.
Qed.

(** Delivery.  The automatic pipe routes every datagram the encoders produce to its
    decoder, and the producer is run on exactly the encoded packet (with unset fields filled
    in), once, with the arguments of the message; only the templates change before that. *)
Theorem pipe_delivers cfg m s :
  (forall p bs, v9packet_ok p -> NetflowEncode.EncodeMessage (P_NFv9 (Val p)) = Ok bs -> Payload m = bs ->
     exists st, Auto cfg (A_Message m) s =
       produce cfg "netflow" (PK_v9 p) (args_of None m) {| templateStore := st; world := world s |}) /\
  (forall p bs rest, ipfixpacket_ok p -> NetflowEncode.EncodeMessage (P_IPFIX (Val p)) = Ok bs -> Payload m = bs ++ rest ->
     exists st, Auto cfg (A_Message m) s =
       produce cfg "netflow" (PK_ipfix p) (args_of None m) {| templateStore := st; world := world s |}) /\
  (forall p bs rest, NetflowLegacy.packet_ok p -> encodable p -> NetflowLegacy.EncodeMessage (Some p) = Ok bs ->
     Payload m = bs ++ rest ->
     Auto cfg (A_Message m) s = produce cfg "netflow" (PK_v5 (completed p)) (args_of None m) s) /\
  (forall p bs rest, SflowRoundtrip.packet_ok p -> SflowEncode.EncodeMessage (Some p) = Ok bs -> Payload m = bs ++ rest ->
     Auto cfg (A_Message m) s =
       produce cfg "sflow" (PK_sflow (complete_packet p)) (args_of (Some (context_of m)) m) s).
Proof using Type HSpec.
  splits.
  - intros p bs Hp He Hm.
    assert (He' : NetflowEncode.EncodeMessage (P_NFv9 (Val p)) = Ok (v9packet_bytes p)) by (by apply encodeNFv9Packet_ok).
    rewrite He' in He. injection He as <-.
    destruct (decode_v9packet_ok (context_of m) p (templateStore s) Hp) as (st' & Hd & _).
    destruct Hp as (_ & Hc & _). unfold v9packet_bytes in Hm, Hd.
    destruct (templates_v9 _ _ _ _ s Hd) as (st & Ht). exists st.
    rewrite (auto_netflow cfg m _ _ _ s Hm), (netflow_version cfg m _ _ s Hm) by (auto; unfold uint; lia).
    cbn [Z.eqb Pos.eqb]. unfold bind, errctx. by rewrite Ht.
  - intros p bs rest Hp He Hm.
    assert (He' : NetflowEncode.EncodeMessage (P_IPFIX (Val p)) = Ok (ipfixpacket_bytes p)) by (by apply encodeIPFIXPacket_ok).
    rewrite He' in He. injection He as <-.
    destruct (decode_ipfixpacket_ok (context_of m) p (templateStore s) rest Hp) as (st' & Hd & _).
    assert (Hl : u16 (ipfixLength p)).
    { destruct Hp as (_ & Hl & Hmax & _). pose proof (len_nonneg (sets_bytes 10 ∅ (ipfixFlowSets p))). unfold uint. lia. }
    unfold ipfixpacket_bytes in Hm, Hd. rewrite <- !app_assoc in Hm, Hd.
    destruct (templates_ipfix _ _ _ _ s Hd) as (st & Ht). exists st.
    rewrite (auto_netflow cfg m _ _ _ s Hm), (netflow_version cfg m _ _ s Hm) by (auto; unfold uint; lia).
    cbn [Z.eqb Pos.eqb]. unfold bind, errctx. by rewrite Ht.
  - intros p bs rest Hp Henc He Hm. rewrite NetflowLegacy.EncodeMessage_encodable in He by done. injection He as <-.
    assert (Hlen : len (NetflowLegacy.Records p) < 2 ^ 16).
    { destruct Henc as [_ [<- | [_ ?]]]; [|done]. by apply Hp. }
    pose proof (len_nonneg (NetflowLegacy.Records p)) as Hnn.
    pose proof (NetflowLegacy.reads_DecodeMessage p Hp Hlen rest) as Hd.
    unfold NetflowLegacy.packet_bytes in Hm. rewrite <- app_assoc in Hm.
    pose proof Hm as Hm'. unfold header_bytes in Hm'. rewrite <- !app_assoc in Hm'.
    rewrite (auto_netflow cfg m _ _ _ s Hm') by (auto; unfold uint; lia).
    rewrite (netflow_version cfg m _ _ s Hm) by (unfold uint; lia).
    cbn [Z.eqb Pos.eqb]. unfold bind, errctx, on_buffer. by rewrite Hd.
  - intros p bs rest Hp He Hm. rewrite EncodeMessage_ok in He by done. injection He as <-.
    pose proof (reads_DecodeMessageVersion p Hp rest) as Hd. rewrite <- Hm in Hd.
    unfold SflowRoundtrip.packet_bytes in Hm. rewrite <- !app_assoc in Hm.
    rewrite (auto_sflow cfg m _ s Hm). unfold SFlowPipe_DecodeFlow, bind, errctx, on_buffer. by rewrite Hd.
Qed.

(** ** Safety *)

Definition returns {A} (r : res A) : Prop := match r with Ok _ | Err _ => True | _ => False end.

(** What the decoders hand over. *)
Definition packet_typed (p : packet) : Prop :=
  match p with
  | PK_v5 _ => True
  | PK_v9 p => Forall flowset_typed (v9FlowSets p)
  | PK_ipfix p => Forall flowset_typed (ipfixFlowSets p)
  | PK_sflow p => packet_decoded p
  | PK_other => True
  end.

(** A computation that returns and keeps an invariant of the state. *)
Definition safe {A} (I : W -> Prop) (m : ST W A) : Prop :=
  forall w, I w -> returns (fst (m w)) /\ I (snd (m w)).

Lemma safe_ret {A} I (a : A) : safe I (ret a).
Proof. by intros w Hw. Qed.

Lemma safe_errctx {A} I f (m : ST W A) : safe I m -> safe I (errctx f m).
Proof. intros Hm w Hw. specialize (Hm w Hw). unfold errctx. by destruct (m w) as [[]]. Qed.

Lemma safe_bind {A B} I (m : ST W A) (k : A -> ST W B) : safe I m -> (forall a, safe I (k a)) -> safe I (bind m k).
Proof.
  intros Hm Hk w Hw. specialize (Hm w Hw). unfold bind. destruct (m w) as [[a|e|e|] w1]; try done.
  apply Hk, Hm.
Qed.

Lemma safe_rangeM {A} I (l : list A) (f : A -> ST W unit) : (forall x, safe I (f x)) -> safe I (rangeM l f).
Proof. intros Hf. induction l; cbn [rangeM]; [apply safe_ret|]. by apply safe_bind. Qed.

(** The collaborators of a pipe are safe. *)
Record cfg_safe (I : W -> Prop) cfg : Prop := {
  safe_format f msg : Format cfg = Some f -> safe I (f msg);
  safe_send f k d : Transport cfg = Some f -> safe I (f k d);
  safe_produce pr p args : Producer cfg = Some pr -> packet_typed p -> safe I (Produce pr p args);
  safe_commit pr msgs w : Producer cfg = Some pr -> I w -> I (Commit pr msgs w)
}.

Lemma formatSend_safe I cfg msgs : cfg_safe I cfg -> safe I (formatSend cfg msgs).
Proof.
  intros Hc. apply safe_rangeM. intros msg. destruct (Format cfg) as [f|] eqn:Hf; [|apply safe_ret].
  apply safe_bind; [by apply safe_errctx, (safe_format _ _ Hc)|]. intros [k d].
  destruct (Transport cfg) as [g|] eqn:Hg; [|apply safe_ret]. by apply safe_errctx, (safe_send _ _ Hc).
Qed.

Lemma produce_safe I cfg what p args s : cfg_safe I cfg -> packet_typed p -> I (world s) ->
  let x := produce cfg what p args s in
  returns (fst x) /\ templateStore (snd x) = templateStore s /\ I (world (snd x)).
Proof.
  intros Hc Hp Hw. unfold produce. destruct (Producer cfg) as [pr|] eqn:Hpr; [|done]. unfold on_world.
  destruct (safe_produce _ _ Hc pr p args Hpr Hp (world s) Hw) as [Hr Hi].
  destruct (Produce pr p args (world s)) as [[[msgs [e|]]|e|e|] w1]; simpl in Hi |- *; try done.
  - splits; [done|done|]. by apply (safe_commit _ _ Hc).
  - unfold errctx. destruct (formatSend_safe I cfg msgs Hc w1 Hi) as [Hr' Hi'].
    destruct (formatSend cfg msgs w1) as [[]]; simpl in *; splits; try done; by apply (safe_commit _ _ Hc).
Qed.

(** What a step of a pipe promises. *)
Definition pipe_step I m (s : flowpipe (S := S) (W := W)) (x : res unit * flowpipe (S := S) (W := W)) : Prop :=
  returns (fst x) /\ I (world (snd x)) /\
  exists v d, store_step (context_of m) v d (Some (templateStore s)) (Some (templateStore (snd x))).

Lemma pipe_step_refl I m s (r : res unit) : returns r -> I (world s) -> pipe_step I m s (r, s).
Proof. intros Hr Hi. split; [done|]. split; [done|]. exists 0, 0. cbn [snd templateStore]. reflexivity. Qed.

Lemma produce_step I cfg what p args m s s1 v d : cfg_safe I cfg -> packet_typed p -> I (world s1) ->
  store_step (context_of m) v d (Some (templateStore s)) (Some (templateStore s1)) ->
  pipe_step I m s (produce cfg what p args s1).
Proof.
  intros Hc Hp Hi Hs. destruct (produce_safe I cfg what p args s1 Hc Hp Hi) as (Hr & Ht & Hi').
  split; [done|]. split; [done|]. exists v, d. by rewrite Ht.
Qed.

(** The NetFlow decoders behind the pipe. *)
Lemma templates_step {A} (tag : A -> NFv9Packet + IPFIXPacket) name ctx v rest (dec : ST (DState S) (A * option error)) s :
  u16 v -> is_bytes rest -> store_typed (templateStore s) ->
  (forall st, NetflowDecode.DecodeMessageVersion ctx {| payload := be_put 2 v ++ rest; NetflowDecode.store := st |} =
     (let* (p, err) := errctx (NetflowDecode.DecoderError name) dec in
      ret (tag p, option_map (NetflowDecode.DecoderError name) err))
       {| payload := rest; NetflowDecode.store := st |}) ->
  let x := on_templates rest dec s in
  match fst x with Ok p => nf_typed (tag p) | Err _ => True | _ => False end /\ world (snd x) = world s /\
  exists v d, store_step ctx v d (Some (templateStore s)) (Some (templateStore (snd x))).
Proof.
  intros Hv Hb Hst Heq.
  pose proof (wp_DecodeMessageVersion_nf ctx {| payload := be_put 2 v ++ rest; NetflowDecode.store := Some (templateStore s) |}) as Hw.
  unfold wp in Hw. rewrite Heq in Hw. unfold bind, errctx in Hw. unfold on_templates.
  assert (Hok : state_ok {| payload := be_put 2 v ++ rest; NetflowDecode.store := Some (templateStore s) |}).
  { split; [apply is_bytes_app; split; [apply is_bytes_be_put|done]|]. by intros st [= <-]. }
  specialize (Hw Hok). destruct (dec _) as [[[a err]|e|w|] d]; simpl in Hw |- *; try done.
  - destruct Hw as ((_ & v' & d' & Hstep) & Ht). split; [by destruct err|]. split; [done|]. exists v', d'.
    by destruct (NetflowDecode.store d).
  - destruct Hw as (_ & v' & d' & Hstep). split; [done|]. split; [done|]. exists v', d'.
    by destruct (NetflowDecode.store d).
Qed.

Lemma pipe_safe_step (I : W -> Prop) cfg m s :
  is_bytes (Payload m) -> store_typed (templateStore s) -> cfg_safe I cfg -> I (world s) ->
  pipe_step I m s (Auto cfg (A_Message m) s).
Proof.
  intros Hb Hst Hc Hi.
  assert (Hw : wp (BinaryDecoder D_uint32) (fun v b => Payload m = be_put 4 v ++ b /\ u32 v /\ is_bytes b)
     (fun _ _ => True) (Payload m)).
  { apply wp_BinaryDecoder; [done|done|done|done]. }
  unfold wp in Hw. unfold AutoFlowPipe_DecodeFlow. unfold bind at 1, errctx at 1, on_buffer at 1.
  destruct (BinaryDecoder D_uint32 (Payload m)) as [[proto|e|e|] b]; [|by apply pipe_step_refl|done|done].
  destruct Hw as (Hp & Hv & Hb'). cbn [fst]. rewrite proto_high by done.
  destruct (Z.eqb_spec proto 5) as [->|Hne].
  - unfold SFlowPipe_DecodeFlow. unfold bind at 1, errctx at 1, on_buffer at 1.
    pose proof (yields_DecodeMessageVersion (Payload m) Hb) as Hy. unfold wp in Hy.
    destruct (SflowDecode.DecodeMessageVersion (Payload m)) as [[p|e|e|] b2]; [|by apply pipe_step_refl|done|done].
    apply (produce_step I _ _ _ _ _ _ _ 0 0); [done|apply Hy|done|reflexivity].
  - destruct (_ || _); [|by apply pipe_step_refl].
    rewrite be_put_halves, <- app_assoc in Hp by done.
    assert (Hu : u16 (proto / 2 ^ 16)).
    { unfold uint in *. split; [apply Z.div_pos; lia|]. apply Z.div_lt_upper_bound; lia. }
    rewrite (netflow_version cfg m _ _ _ Hp Hu).
    assert (Hrest : is_bytes (be_put 2 (proto mod 2 ^ 16) ++ b)) by (apply is_bytes_app; split; [apply is_bytes_be_put|done]).
    destruct (Z.eqb_spec (proto / 2 ^ 16) 5) as [H5|_]; [|destruct (Z.eqb_spec (proto / 2 ^ 16) 9) as [H9|_];
      [|destruct (Z.eqb_spec (proto / 2 ^ 16) 10) as [H10|_]; [|by apply pipe_step_refl]]].
    + unfold bind at 1, errctx at 1, on_buffer at 1.
      pose proof (NetflowLegacy.wp_DecodeMessageVersion (Payload m) Hb) as Hy. unfold wp in Hy.
      rewrite Hp, H5 in Hy. unfold NetflowLegacy.DecodeMessageVersion in Hy. unfold bind at 1, errctx at 1 in Hy.
      rewrite reads_u16 in Hy by (unfold uint; lia). cbn [Z.eqb Pos.eqb negb] in Hy.
      destruct (NetflowLegacy.DecodeMessage 5 _) as [[p|e|e|] b2]; [|by apply pipe_step_refl|done|done].
      apply (produce_step I _ _ _ _ _ _ _ 0 0); [done|done|done|reflexivity].
    + unfold bind at 1, errctx at 1.
      pose proof (templates_step inl "NetFlowV9" (context_of m) 9 _ (DecodeMessageNetFlow (context_of m))
        s ltac:(unfold uint; lia) Hrest Hst (version_v9 _ _)) as (Hr & Hwd & v & d & Hs).
      destruct (on_templates _ _ _) as [[p|e|e|] s2]; simpl in Hr, Hwd; [| |done|done].
      * apply (produce_step I _ _ _ _ _ _ _ v d); [done|done|by rewrite Hwd|done].
      * split; [done|]. split; [by simpl; rewrite Hwd|]. by exists v, d.
    + unfold bind at 1, errctx at 1.
      pose proof (templates_step inr "IPFIX" (context_of m) 10 _ (DecodeMessageIPFIX (context_of m))
        s ltac:(unfold uint; lia) Hrest Hst (version_ipfix _ _)) as (Hr & Hwd & v & d & Hs).
      destruct (on_templates _ _ _) as [[p|e|e|] s2]; simpl in Hr, Hwd; [| |done|done].
      * apply (produce_step I _ _ _ _ _ _ _ v d); [done|done|by rewrite Hwd|done].
      * split; [done|]. split; [by simpl; rewrite Hwd|]. by exists v, d.
Qed.


(** A NetFlow v9 or IPFIX message whose decoder returns a packet together with an error
    (such as a data set of an unknown template) is not produced at all: the pipe keeps the
    templates it brought, returns the error, and drops the packet with its decoded sets. *)
Theorem pipe_partial_dropped cfg m s rest e :
  let s1 := {| payload := rest; NetflowDecode.store := Some (templateStore s) |} in
  (forall p d, Payload m = be_put 2 9 ++ rest -> DecodeMessageNetFlow (context_of m) s1 = (Ok (p, Some e), d) ->
     exists st, NetFlow cfg (A_Message m) s =
       (Err (PipeMessageError (Wrap "netflow v9 decode" [] e)), {| templateStore := st; world := world s |}) /\
       (NetflowDecode.store d = Some st \/ NetflowDecode.store d = None)) /\
  (forall p d, Payload m = be_put 2 10 ++ rest -> DecodeMessageIPFIX (context_of m) s1 = (Ok (p, Some e), d) ->
     exists st, NetFlow cfg (A_Message m) s =
       (Err (PipeMessageError (Wrap "ipfix decode" [] e)), {| templateStore := st; world := world s |}) /\
       (NetflowDecode.store d = Some st \/ NetflowDecode.store d = None)).
Proof.
  intros s1. split; intros p d Hm Hd; rewrite (netflow_version cfg m _ _ s Hm) by (unfold uint; lia);
    cbn [Z.eqb Pos.eqb]; unfold bind, errctx, on_templates; fold s1; rewrite Hd;
    eexists; (split; [reflexivity|]); destruct (NetflowDecode.store d); auto.
Qed.
End pipe.

(** ** The mute *)

(** A run of [Increment] at the given times. *)
Fixpoint increments (b : BatchMute) (ts : list Z) : list (bool * Z) * BatchMute :=
  match ts with
  | [] => ([], b)
  | t :: ts' => let '(r, b1) := Increment b t in let '(rs, b2) := increments b1 ts' in (r :: rs, b2)
  end.

Lemma Increment_within b t : 0 < max b -> resetInterval b <> 0 -> t - batchTime b <= resetInterval b ->
  exists skipped, Increment b t =
    ((max b <? ctr b + 1, skipped),
     {| batchTime := batchTime b; resetInterval := resetInterval b; ctr := ctr b + 1; max := max b |}).
Proof.
  intros Hm Hi Ht. unfold Increment, increment.
  rewrite (proj2 (Z.eqb_neq _ _)), (proj2 (Z.eqb_neq _ _)) by lia. simpl.
  rewrite (proj2 (Z.ltb_ge (resetInterval b) (t - batchTime b))) by lia. simpl. rewrite (proj2 (Z.ltb_lt 0 (max b))) by lia. eauto.
Qed.

Lemma increments_within b ts : 0 < max b -> resetInterval b <> 0 ->
  Forall (fun t => t - batchTime b <= resetInterval b) ts ->
  map fst (fst (increments b ts)) = map (fun i => max b <? ctr b + Z.of_nat i) (seq 1 (length ts)) /\
  snd (increments b ts) = {| batchTime := batchTime b; resetInterval := resetInterval b;
                             ctr := ctr b + len ts; max := max b |}.
Proof.
  intros Hm Hi. revert b Hm Hi. induction ts as [|t ts IH]; intros b Hm Hi Hts.
  { simpl. split; [done|]. rewrite len_nil, Z.add_0_r. by destruct b. }
  apply Forall_cons in Hts as [Ht Hts]. simpl. destruct (Increment_within b t Hm Hi Ht) as (sk & E).
  rewrite E. specialize (IH {| batchTime := batchTime b; resetInterval := resetInterval b; ctr := ctr b + 1; max := max b |}).
  simpl in IH. destruct (IH Hm Hi Hts) as [IH1 IH2].
  destruct (increments _ ts) as [rs b2]. simpl in IH1, IH2 |- *. split.
  - rewrite IH1. f_equal. rewrite <- (seq_shift _ 1), map_map. apply map_ext. intros i. f_equal. lia.
  - rewrite IH2. f_equal. golen.
Qed.

(** The mute lets at most [max] events of an interval through, the first ones, and mutes
    the others; the first event after the interval opens a new batch, passes, and reports how
    many were muted. *)
Theorem mute_batch b ts t :
  0 < max b -> resetInterval b <> 0 -> ctr b = 0 ->
  Forall (fun t => t - batchTime b <= resetInterval b) ts -> resetInterval b < t - batchTime b ->
  let '(rs, b1) := increments b ts in
  map fst rs = replicate (Nat.min (length ts) (Z.to_nat (max b))) false ++
               replicate (length ts - Z.to_nat (max b)) true /\
  Increment b1 t = ((false, Z.max 0 (len ts - max b)),
    {| batchTime := t; resetInterval := resetInterval b; ctr := 1; max := max b |}).
Proof.
  intros Hm Hi Hc Hts Ht. destruct (increments_within b ts Hm Hi Hts) as [H1 H2].
  destruct (increments b ts) as [rs b1]. simpl in H1, H2. subst b1. split.
  - rewrite H1, Hc. clear -Hm. apply list_eq. intros i. rewrite list_lookup_fmap.
    destruct (decide (i < length ts)%nat) as [Hlt|Hge].
    + rewrite lookup_seq_lt by done. simpl.
      destruct (decide (i < Z.to_nat (max b))%nat) as [Hlow|Hhigh].
      * rewrite lookup_app_l by (rewrite length_replicate; lia). rewrite lookup_replicate_2 by lia.
        f_equal. apply Z.ltb_ge. lia.
      * rewrite lookup_app_r by (rewrite length_replicate; lia). rewrite length_replicate, lookup_replicate_2 by lia.
        f_equal. apply Z.ltb_lt. lia.
    + rewrite lookup_seq_ge by lia. rewrite lookup_ge_None_2; [done|].
      rewrite length_app, !length_replicate. lia.
  - unfold Increment, increment. cbn [max resetInterval ctr batchTime]. rewrite Hc.
    rewrite (proj2 (Z.eqb_neq (max b) 0)), (proj2 (Z.eqb_neq (resetInterval b) 0)) by lia. cbn [orb].
    rewrite (proj2 (Z.ltb_lt _ _) Ht). cbn [max resetInterval ctr batchTime].
    rewrite (proj2 (Z.ltb_lt 0 (max b))) by lia. rewrite (proj2 (Z.ltb_ge (max b) (0 + 1))) by lia.
    f_equal. f_equal. destruct (Z.leb_spec (max b) (0 + len ts)); lia.
Qed.

(** ** Witnesses

    A producer that logs the packets it is given, and no formatter. *)
Definition log_config : PipeConfig (W := list packet) (Msg := packet) := {|
  Format := None; Transport := None;
  Producer := Some {| Produce := fun p _ w => (Ok ([p], None), w ++ [p]); Commit := fun _ w => w |}
|}.
Definition any_string (_ : AddrPort) : string := "192.0.2.1:2055".
Definition message_of (b : bytes) : Message :=
  {| Src := {| Addr := [192; 0; 2; 1]; Port := 2055 |}; Dst := {| Addr := [192; 0; 2; 2]; Port := 2055 |};
     Payload := b; Received := 0 |}.
Definition empty_pipe : flowpipe (S := RefStore) (W := list packet) := {| templateStore := ∅; world := [] |}.

Lemma pipe_delivers_witness :
  exists s, AutoFlowPipe_DecodeFlow any_string log_config (A_Message (message_of (v9packet_bytes sample_v9))) empty_pipe
    = (Ok tt, s) /\ world s = [PK_v9 sample_v9].
Proof.
  destruct (proj1 (pipe_delivers any_string log_config (message_of (v9packet_bytes sample_v9)) empty_pipe)
    sample_v9 (v9packet_bytes sample_v9) sample_v9_ok) as (st & E).
  - apply (encodeNFv9Packet_ok sample_v9), sample_v9_ok.
  - reflexivity.
  - rewrite E. exists {| templateStore := st; world := [PK_v9 sample_v9] |}. split; reflexivity.
Defined.


(** A message with a template, a data set of it, and a data set of an unknown template. *)
Definition partial_bytes : bytes :=
  be_put 2 3 ++ be_put 4 0 ++ be_put 4 0 ++ be_put 4 0 ++ be_put 4 1 ++
  be_put 2 0 ++ be_put 2 12 ++ be_put 2 256 ++ be_put 2 1 ++ be_put 2 8 ++ be_put 2 4 ++
  be_put 2 256 ++ be_put 2 8 ++ [192; 0; 2; 7] ++
  be_put 2 300 ++ be_put 2 8 ++ [1; 2; 3; 4].
Definition partial_message : Message := message_of (be_put 2 9 ++ partial_bytes).
Definition partial_result : res (NFv9Packet * option error) * DState RefStore :=
  DecodeMessageNetFlow (context_of any_string partial_message)
    {| payload := partial_bytes; NetflowDecode.store := Some (templateStore empty_pipe) |}.
#[local] Strategy expand [partial_result].
Definition partial_error : error :=
  match fst partial_result with Ok (_, Some e) => e | _ => ErrNotFound end.
Definition partial_packet : NFv9Packet :=
  match fst partial_result with Ok (p, _) => p | _ => sample_v9 end.

Lemma partial_split {A C} (x : res (A * option error) * C) dp de :
  match fst x with Ok (_, Some _) => true | _ => false end = true ->
  x = (Ok (match fst x with Ok (p, _) => p | _ => dp end,
           Some (match fst x with Ok (_, Some e) => e | _ => de end)), snd x).
Proof. by destruct x as [[[p [e|]]|e|w|] d]. Qed.

Lemma partial_decodes : partial_result = (Ok (partial_packet, Some partial_error), snd partial_result).
Proof.
  assert (Hr : match fst partial_result with Ok (_, Some _) => true | _ => false end = true) by (vm_compute; reflexivity).
  unfold partial_packet, partial_error. revert Hr. generalize partial_result. intros r. apply partial_split.
Qed.

Lemma pipe_partial_dropped_witness :
  length (v9FlowSets partial_packet) = 3%nat /\ errors_Is_TemplateNotFound partial_error = true /\
  exists s, NetFlowPipe_DecodeFlow any_string log_config (A_Message partial_message) empty_pipe =
    (Err (PipeMessageError (Wrap "netflow v9 decode" [] partial_error)), s) /\ world s = [].
Proof.
  split; [vm_compute; reflexivity|]. split; [vm_compute; reflexivity|].
  destruct (proj1 (pipe_partial_dropped any_string log_config partial_message empty_pipe partial_bytes partial_error)
    partial_packet (snd partial_result)) as (st & E & _).
  - reflexivity.
  - pose proof partial_decodes as H. unfold partial_result at 1 in H. exact H.
  - eexists. split; [exact E|reflexivity].
Defined.

Lemma mute_batch_witness :
  map fst (fst (increments (NewBatchMute 0 10 2) [1; 2; 3])) = [false; false; true] /\
  fst (Increment (snd (increments (NewBatchMute 0 10 2) [1; 2; 3])) 11) = (false, 1).
Proof.
  pose proof (mute_batch (NewBatchMute 0 10 2) [1; 2; 3] 11) as Hm.
  destruct Hm as [H1 H2]; [reflexivity|discriminate|reflexivity| |reflexivity|].
  - repeat constructor; discriminate.
  - split; [exact H1|]. exact (f_equal fst H2).
Defined.
