(* ===== verification/ProtoProducer.v ===== *)
(** * producer/proto: NetFlow v5, sFlow, and the producer

    [producer_nflegacy.go], [producer_sf.go] and [proto.go]: the messages of a NetFlow v5 or
    sFlow packet, and [Produce], which dispatches on the packet and enriches its messages. *)
From S2P Require Import Prelude DecodersUtils NetflowLegacy NetflowTypes SflowTypes FlowMessage ProtoReflect PacketParser ProducerConfig SamplingInterface ProducerNetflow Pipe.

(** ** producer_nflegacy.go *)

Definition ConvertNetFlowLegacyRecord (baseTime uptime : Z) (record : RecordsNetFlowV5) (m : FlowMessage) : FlowMessage :=
  let timeDiffFirst := to_uint 32 (uptime - First record) in
  let timeDiffLast := to_uint 32 (uptime - Last record) in
  let m := set_Type NETFLOW_V5 m in
  let m := set_num F_TimeFlowStartNs (baseTime - timeDiffFirst * 1000000) m in
  let m := set_num F_TimeFlowEndNs (baseTime - timeDiffLast * 1000000) m in
  let m := set_byt F_NextHop (be_put 4 (NextHop record)) m in
  let m := set_byt F_SrcAddr (be_put 4 (SrcAddr record)) m in
  let m := set_byt F_DstAddr (be_put 4 (DstAddr record)) m in
  let m := set_num F_Etype 0x800 m in
  let m := set_num F_SrcAs (SrcAS record) m in
  let m := set_num F_DstAs (DstAS record) m in
  let m := set_num F_SrcNet (SrcMask record) m in
  let m := set_num F_DstNet (DstMask record) m in
  let m := set_num F_Proto (Proto record) m in
  let m := set_num F_TcpFlags (TCPFlags record) m in
  let m := set_num F_IpTos (Tos record) m in
  let m := set_num F_InIf (Input record) m in
  let m := set_num F_OutIf (Output record) m in
  let m := set_num F_SrcPort (SrcPort record) m in
  let m := set_num F_DstPort (DstPort record) m in
  let m := set_num F_Packets (DPkts record) m in
  set_num F_Bytes (DOctets record) m.

Definition SearchNetFlowLegacyRecords (baseTime uptime : Z) (dataRecords : list RecordsNetFlowV5) : list FlowMessage :=
  map (fun record => ConvertNetFlowLegacyRecord baseTime uptime record zero_message) dataRecords.

Definition ProcessMessageNetFlowLegacy (packet : PacketNetFlowV5) : list FlowMessage :=
  let seqnum := FlowSequence packet in
  let samplingRate := Z.land (SamplingInterval packet) 0x3FFF in
  let baseTime := to_uint 64 (UnixSecs packet * 1000000000 + UnixNSecs packet) in
  map (fun m => set_num F_SamplingRate samplingRate (set_num F_SequenceNum seqnum m))
    (SearchNetFlowLegacyRecords baseTime (SysUptime packet) (NetflowLegacy.Records packet)).

(** ** producer_sf.go *)

(** The two kinds of samples that carry flow records. *)
Inductive flow_sample : Type := S_Flow (s : FlowSample) | S_Expanded (s : ExpandedFlowSample).

Definition flow_sample_of (s : sample) : option flow_sample :=
  match s with
  | Some (Val (SV_FlowSample s)) => Some (S_Flow s)
  | Some (Val (SV_ExpandedFlowSample s)) => Some (S_Expanded s)
  | _ => None
  end.
Definition GetSFlowFlowSamples (packet : Packet) : list flow_sample := omap flow_sample_of (Samples packet).

(** Only Ethernet headers are parsed. *)
Definition ParseSampledHeaderConfig (sampledHeader : SampledHeader) (config : option PacketMapper) : P unit :=
  if shProtocol sampledHeader =? 1 then
    errctx (Wrap "sflow sampled header" [])
      (PacketMapper_ParsePacket (default (PM_Env DefaultEnvironment) config) (shHeaderData sampledHeader))
  else ret tt.

Definition ParseSampledHeader (sampledHeader : SampledHeader) : P unit := ParseSampledHeaderConfig sampledHeader None.

Definition sampled_ip (etype tos : Z) (b : SampledIPBase) (m : FlowMessage) : FlowMessage :=
  let m := set_byt F_SrcAddr (ipSrcIP b) m in
  let m := set_byt F_DstAddr (ipDstIP b) m in
  let m := set_num F_Bytes (ipLength b) m in
  let m := set_num F_Proto (ipProtocol b) m in
  let m := set_num F_SrcPort (ipSrcPort b) m in
  let m := set_num F_DstPort (ipDstPort b) m in
  set_num F_Etype etype (set_num F_IpTos tos m).

Definition gateway (d : ExtendedGateway) (m : FlowMessage) : FlowMessage :=
  let m := set_byt F_BgpNextHop (gNextHop d) m in
  let m := set_nums F_BgpCommunities (Communities d) m in
  let m := set_nums F_AsPath (ASPath d) m in
  let m := match ASPath d with
           | [] => set_num F_DstAs (AS_ d) m
           | first :: _ => set_num F_NextHopAs first (set_num F_DstAs (List.last (ASPath d) 0) m)
           end in
  set_num F_SrcAs (if 0 <? gSrcAS d then gSrcAS d else AS_ d) m.

(** The body of the loop over the records of a sample. *)
Definition sample_record (config : option PacketMapper) (r : FlowRecord) : P unit :=
  match rData r with
  | Some (Val (FV_SampledHeader d)) =>
      modify (set_num F_Bytes (shFrameLength d)) ;;;
      errctx (Wrap "sflow sampled header" []) (ParseSampledHeaderConfig d config)
  | Some (Val (FV_SampledIPv4 d)) => modify (sampled_ip 0x800 (v4Tos d) (v4Base d))
  | Some (Val (FV_SampledIPv6 d)) => modify (sampled_ip 0x86dd (v6Priority d) (v6Base d))
  | Some (Val (FV_ExtendedRouter d)) =>
      modify (fun m => set_num F_DstNet (DstMaskLen d) (set_num F_SrcNet (SrcMaskLen d) (set_byt F_NextHop (rNextHop d) m)))
  | Some (Val (FV_ExtendedGateway d)) => modify (gateway d)
  | Some (Val (FV_ExtendedSwitch d)) =>
      modify (fun m => set_num F_DstVlan (SflowTypes.DstVlan d) (set_num F_SrcVlan (SflowTypes.SrcVlan d) m))
  | _ => ret tt
  end.

Definition sample_fields (rate inp outp : Z) (m : FlowMessage) : FlowMessage :=
  set_num F_OutIf outp (set_num F_InIf inp (set_num F_SamplingRate rate m)).

Definition SearchSFlowSampleConfig (flowSample : flow_sample) (config : option PacketMapper) : P unit :=
  modify (set_Type SFLOW_5) ;;;
  modify (match flowSample with
          | S_Flow s => sample_fields (fsSamplingRate s) (fsInput s) (fsOutput s)
          | S_Expanded s => sample_fields (esSamplingRate s) (InputIfValue s) (OutputIfValue s)
          end) ;;;
  modify (set_num F_Packets 1) ;;;
  rangeM (match flowSample with S_Flow s => fsRecords s | S_Expanded s => esRecords s end) (sample_record config).

(** No message is returned with an error. *)
Definition SearchSFlowSamplesConfig (samples : list flow_sample) (config : option PacketMapper)
    : res (list FlowMessage * option error) :=
  rbind (collect (fun s => convert_new (SearchSFlowSampleConfig s config)) (Wrap "sflow sample" []) samples)
    (fun '(l, err) => Ok (match err with None => l | Some _ => [] end, err)).

Definition ProcessMessageSFlowConfig (packet : Packet) (config : option producerConfigMapped)
    : res (list FlowMessage * option error) :=
  let cfgSFlow := match config with Some c => Some (PM_SFlow (SFlow c)) | None => None end in
  rbind (SearchSFlowSamplesConfig (GetSFlowFlowSamples packet) cfgSFlow) (fun '(msgs, err) =>
    match err with
    | Some e => Ok (msgs, Some (Wrap "sflow flow samples" [] e))
    | None => Ok (map (fun m => set_num F_SequenceNum (SequenceNumber packet)
                                  (set_byt F_SamplerAddress (AgentIP packet) m)) msgs, None)
    end).

(** ** proto.go *)

(** The message and the formatter it is given. *)
Record ProtoProducerMessage : Type := { flow : FlowMessage; formatter : FormatterConfigMapper }.

(** [Unmap] and [MarshalBinary] of an address without a zone: an IPv4 address mapped to IPv6
    becomes its four bytes. *)
Definition Unmap (a : bytes) : bytes :=
  if decide (length a = 16%nat /\ take 12 a = replicate 10 0 ++ [0xff; 0xff]) then drop 12 a else a.

Section producer.
Context {S : Type} `{SamplingStore S}.
Variable AddrPort_String : AddrPort -> string.

(** [cfg] may be nil; the store is not. *)
Record ProtoProducer : Type := { cfg : option producerConfigMapped; samplingStore : option S }.

(** The fields of the received packet. *)
Definition received (tr : Z) (sa : bytes) (m : FlowMessage) : FlowMessage :=
  set_byt F_SamplerAddress sa (set_num F_TimeReceivedNs tr m).
Definition received_sflow (tr : Z) (m : FlowMessage) : FlowMessage :=
  set_num F_TimeFlowEndNs tr (set_num F_TimeFlowStartNs tr (set_num F_TimeReceivedNs tr m)).

(** [p.cfg.GetFormatter()], evaluated once for every message. *)
Definition set_formatters (cfg : option producerConfigMapped) (msgs : list FlowMessage) : res (list ProtoProducerMessage) :=
  match cfg, msgs with
  | _, [] => Ok []
  | None, _ => Panic "nil pointer dereference"
  | Some c, _ => Ok (map (fun m => {| flow := m; formatter := Formatter c |}) msgs)
  end.

(** Which function makes the messages, and how they are enriched. *)
Definition process (cfg : option producerConfigMapped) (msg : packet) (ctx : FlowContext) (tr : Z) (sa : bytes)
    : ST (option S) (list FlowMessage * option error) :=
  match msg with
  | PK_v5 p => ret (map (received tr sa) (ProcessMessageNetFlowLegacy p), None)
  | PK_v9 p =>
      let* (msgs, err) := ProcessMessageNetFlowV9Config p ctx cfg in ret (map (received tr sa) msgs, err)
  | PK_ipfix p =>
      let* (msgs, err) := ProcessMessageIPFIXConfig p ctx cfg in ret (map (received tr sa) msgs, err)
  | PK_sflow p =>
      let* (msgs, err) := lift_res (ProcessMessageSFlowConfig p cfg) in ret (map (received_sflow tr) msgs, err)
  | PK_other => ret ([], Some (Errorf "flow not recognized" []))
  end.

(** An unknown packet returns at once, with the error as it is. *)
Definition recognized (msg : packet) : bool := match msg with PK_other => false | _ => true end.

Definition Produce (msg : packet) (args : ProduceArgs) : ST ProtoProducer (list ProtoProducerMessage * option error) :=
  fun p =>
  let tr := to_uint 64 (TimeReceived args) in
  let sa := Unmap (SamplerAddress args) in
  let ctx := match argFlowContext args with
             | Some c => c
             | None => {| RouterKey := AddrPort_String (argSrc args) |}
             end in
  let '(r, st) := process (cfg p) msg ctx tr sa (samplingStore p) in
  (rbind r (fun '(msgs, err) =>
     rbind (set_formatters (cfg p) msgs) (fun fmsgs =>
       Ok (fmsgs, match err with Some e => Some (if recognized msg then Wrap "proto producer" [] e else e) | None => None end))),
   {| cfg := cfg p; samplingStore := st |}).

(** [Commit] returns the messages to the pool, which hands out empty messages only. *)
Definition Commit (msgs : list ProtoProducerMessage) (p : ProtoProducer) : ProtoProducer := p.
End producer.
