(* ===== verification/ProducerSafety.v ===== *)
(** * Safety of the producer

    With the configuration that [mapConfig] compiles, the conversions return, whatever the
    bytes of the fields, and their messages are well-formed. *)
From S2P Require Import Prelude DecodersUtils NetflowTypes NetflowSafety SflowTypes SflowRoundtrip SflowSafety FlowMessage ProtoReflect ProtoReflectProps PacketParser ProducerConfig PacketParserSafety PacketParserProps SamplingInterface ProducerNetflow Pipe PipeProps ProtoProducer.

(** ** The mappers of a compiled configuration *)

Definition netflow_ok (m : option NetFlowMapper) : Prop :=
  forall df c, NetFlowMapper_Map m df = Some c -> destination_ok c.

Definition packet_mapper_ok (p : PacketMapper) : Prop :=
  match p with
  | PM_Env e => acyclic e
  | PM_SFlow None => True
  | PM_SFlow (Some m) => config_ok (Some m) /\ acyclic (default DefaultEnvironment (parserEnvironment m))
  end.

Definition mapped_ok (c : producerConfigMapped) : Prop :=
  netflow_ok (IPFIX_ c) /\ netflow_ok (NetFlowV9 c) /\ packet_mapper_ok (PM_SFlow (SFlow c)).

(** What a configuration must respect. *)
Definition fields_ok (l : list NetFlowMapField) : Prop :=
  Forall (fun f => FieldByName (nfDestination f) <> Some D_Unexported) l.
Definition producer_ok (cfg : option ProducerConfig) : Prop :=
  match cfg with
  | None => True
  | Some c => ports_ok (sfPorts (cfgSFlow c)) /\ mapping_ok (sfMapping (cfgSFlow c)) /\
              fields_ok (cfgIPFIX c) /\ fields_ok (cfgNetFlowV9 c)
  end.

Lemma mapFieldsNetFlow_ok l k c : fields_ok l -> mapFieldsNetFlow l !! k = Some c -> destination_ok c.
Proof.
  unfold mapFieldsNetFlow. intros Hl.
  assert (forall (m : gmap string MapConfigBase), (forall k c, m !! k = Some c -> destination_ok c) ->
    forall k c, fold_left (fun ret field =>
      <[mapKey (nfPenProvided field) (nfPen field) (nfType field)
          := base_config (nfDestination field) (nfEndian field)]> ret) l m !! k = Some c -> destination_ok c) as H.
  { induction Hl as [|f l Hf Hl IH]; intros m Hm k' c' Hc; simpl in Hc; [eauto|].
    eapply IH; [|exact Hc]. intros k2 c2 Hc2. apply lookup_insert_Some in Hc2 as [[_ <-]|[_ Hc2]]; eauto. }
  intros Hc. refine (H ∅ _ _ _ Hc). intros k' c' Hk. by rewrite lookup_empty in Hk.
Qed.

Lemma finalizeNetFlow_ok f l m :
  fields_ok l -> finalizeNetFlowMapper f (Some (mapFieldsNetFlow l)) = Ok m -> netflow_ok m.
Proof.
  intros Hl H. simpl in H. destruct (res_list _ _) as [r| | |] eqn:Hr; try done. simpl in H. injection H as <-.
  intros df c Hc. simpl in Hc. apply elem_of_list_to_map_2 in Hc.
  destruct (res_list_in _ _ _ _ Hr Hc) as ([k v] & Hin & Hf). apply elem_of_map_to_list in Hin. simpl in Hf.
  destruct (finalizemapDest f v) as [b| | |] eqn:Hb; try done. simpl in Hf. injection Hf as -> ->.
  unfold destination_ok. rewrite (finalizemapDest_dest _ _ _ Hb). by eapply mapFieldsNetFlow_ok.
Qed.

Lemma mapConfig_None g c g' : mapConfig None g = (Ok c, g') -> mapped_ok c.
Proof.
  unfold mapConfig, bind, errctx, ret. cbn [fmap option_fmap option_map].
  destruct (mapFormat None g) as [[f| | |] g1]; try done.
  unfold finalize. cbn [Formatter IPFIX_ NetFlowV9 SFlow finalizeNetFlowMapper finalizeSFlowMapper res_wrap rbind].
  intros [= <- <-]. by split.
Qed.

Lemma mapConfig_ok cfg g c g' : producer_ok cfg -> mapConfig cfg g = (Ok c, g') -> mapped_ok c.
Proof.
  destruct cfg as [cfg|]; [|intros _; apply mapConfig_None]. intros (Hp & Hl & H1 & H2) Hc.
  destruct (mapConfig_SFlow _ _ _ _ Hp Hl Hc) as (s & e & Hs & Hok & He & Hac).
  assert (packet_mapper_ok (PM_SFlow (SFlow c))) as Hpm by (rewrite Hs; simpl; by rewrite He).
  unfold mapConfig, bind, errctx in Hc. cbn [fmap option_fmap option_map] in Hc.
  destruct (mapPortsSFlow _) as [pe| | |]; try done. unfold ret in Hc.
  destruct (mapFormat _ g) as [[f| | |] g1]; try done.
  unfold finalize in Hc. cbn [Formatter IPFIX_ NetFlowV9 SFlow] in Hc.
  destruct (finalizeNetFlowMapper f (Some (mapFieldsNetFlow (cfgIPFIX cfg)))) as [m1| | |] eqn:E1; try done.
  cbn [res_wrap rbind] in Hc.
  destruct (finalizeNetFlowMapper f (Some (mapFieldsNetFlow (cfgNetFlowV9 cfg)))) as [m2| | |] eqn:E2; try done.
  cbn [res_wrap rbind] in Hc.
  destruct (finalizeSFlowMapper f _) as [m3| | |]; try done.
  cbn [res_wrap rbind] in Hc. injection Hc as <- <-.
  split; [exact (finalizeNetFlow_ok _ _ _ H1 E1)|]. split; [exact (finalizeNetFlow_ok _ _ _ H2 E2)|exact Hpm].
Qed.

(** ** Records *)

Abbreviation keeps m := (wp m (fun _ => message_ok) (fun _ => message_ok)).

Lemma wp_PacketMapper p data m :
  packet_mapper_ok p -> is_bytes data -> message_ok m -> keeps (PacketMapper_ParsePacket p data) m.
Proof.
  assert (config_ok None) by (intros k l H; by apply elem_of_nil in H).
  assert (acyclic DefaultEnvironment) by apply no_tcp_loop_acyclic, no_tcp_loop_default.
  intros Hp Hd Hm. destruct p as [e|[s|]]; simpl; apply wp_ParsePacket; try done; apply Hp.
Qed.

Lemma DecodeUNumber_returns b w : known_width w = true ->
  (exists x, DecodeUNumber b (O_uint w) = Ok x) \/ exists e, DecodeUNumber b (O_uint w) = Err e.
Proof. intros Hw. rewrite DecodeUNumber_eq. simpl. rewrite Hw. destruct (_ <=? _); eauto. Qed.

Lemma known_width_width f : known_width (width f) = true.
Proof. by destruct f. Qed.

(** A decoded number, then an assignment. *)
Lemma keeps_number v w (k : Z -> P unit) m : known_width w = true -> message_ok m ->
  (forall x, keeps (k x) m) -> keeps (bind (number v w) k) m.
Proof.
  intros Hw Hm Hk. apply wp_bind. unfold number, lift_res, wp at 1.
  destruct (DecodeUNumber_returns v w Hw) as [[x ->]|[e ->]]; [apply Hk|done].
Qed.

Lemma keeps_modify (f : FlowMessage -> FlowMessage) m : message_ok (f m) -> keeps (modify f) m.
Proof. done. Qed.

Lemma message_ok_addr f v b m : is_bytes v -> message_ok m -> message_ok (addrReplaceCheck f v b m).
Proof. intros Hv Hm. unfold addrReplaceCheck. case_match; auto with msg. Qed.

(** No case needs more than a packet mapper; those of NetFlow v9 do not need that. *)
Definition mapper_given (version : Z) (s : option PacketMapper) : Prop :=
  match s with Some p => packet_mapper_ok p | None => version = 9 end.

Lemma v9_no_section t : case_of 9 t <> Some C_FrameSection.
Proof.
  set (p := fun c => match c with C_FrameSection => false | _ => true end).
  unfold case_of. destruct (assoc t common_cases) as [c|] eqn:Ha; cbn [Z.eqb Pos.eqb]; intros Hc.
  - injection Hc as ->. by apply (assoc_forall p) in Ha.
  - by apply (assoc_forall p) in Hc.
Qed.

Lemma keeps_run_case version base uptime s v t c m :
  mapper_given version s -> case_of version t = Some c -> is_bytes v -> message_ok m ->
  keeps (run_case base uptime s v c) m.
Proof.
  intros Hs Hc Hv Hm. destruct c; simpl run_case;
    try (apply keeps_number; [done || apply known_width_width|done|intros x]);
    try (apply keeps_modify; auto with msg).
  - apply wp_bind. apply keeps_number; [apply known_width_width|by auto with msg|intros y].
    apply keeps_modify. auto with msg.
  - assert (keeps (ret tt) m) by done.
    assert (forall e, keeps (modify (set_num F_Etype e)) m) by (intros; apply keeps_modify; auto with msg).
    repeat case_match; done.
  - by apply message_ok_addr.
  - apply message_ok_bytess; [|done]. apply Forall_app. split; [apply Hm|by repeat constructor].
  - destruct s as [p|].
    + apply wp_bind. eapply wp_mono; [by apply wp_PacketMapper| |done]. intros ? m1 Hm1.
      apply keeps_modify. cbv zeta. destruct (_ =? 0); auto with msg.
    + simpl in Hs. subst version. by apply v9_no_section in Hc.
Qed.

Lemma keeps_convert_field version base uptime s mapper df m :
  mapper_given version s -> netflow_ok mapper -> value_typed df -> message_ok m ->
  keeps (convert_field base uptime s version mapper df) m.
Proof.
  intros Hs Hn Hv Hm. unfold convert_field, value_typed in *. destruct (dValue df) as [|v| |] eqn:Hdf; try done.
  apply wp_errctx, wp_bind. unfold MapCustomNetFlow.
  assert (forall m1, message_ok m1 -> keeps (if dPenProvided df then ret tt
     else match case_of version (dType df) with Some c => run_case base uptime s v c | None => ret tt end) m1) as Hk.
  { intros m1 Hm1. destruct (dPenProvided df); [done|].
    destruct (case_of version (dType df)) as [c|] eqn:Hc; [|done]. by eapply keeps_run_case. }
  destruct (NetFlowMapper_Map mapper df) as [c|] eqn:Hc; [|by apply Hk].
  rewrite Hdf. apply wp_errctx. eapply wp_mono; [apply wp_MapCustom; [by eapply Hn|done|done]| |done].
  intros ? m1. apply Hk.
Qed.

Lemma keeps_Convert version baseTime uptime record mapper s m :
  mapper_given version s -> netflow_ok mapper -> Forall value_typed record -> message_ok m ->
  keeps (ConvertNetFlowDataSet version baseTime uptime record mapper s) m.
Proof.
  intros Hs Hn Hr Hm. unfold ConvertNetFlowDataSet.
  assert (forall m1, message_ok m1 -> keeps (rangeM record (convert_field (baseTime * 1000000000) uptime s version mapper)) m1) as Hk.
  { intros m1 Hm1. apply wp_rangeM; [done|]. intros df m2 Hdf Hm2. rewrite Forall_forall in Hr.
    apply keeps_convert_field; auto. }
  apply wp_bind. unfold wp at 1, modify at 1. set (m1 := set_num _ _ _).
  assert (message_ok m1) by (subst m1; auto with msg). apply wp_bind.
  destruct (version =? 9); [|destruct (version =? 10)]; unfold wp at 1, modify, ret; apply Hk; auto with msg.
Qed.

(** ** Messages *)

(** Messages and an error, well-formed. *)
Definition made {A} (P : A -> Prop) (r : res (list A * option error)) : Prop :=
  match r with Ok (l, _) => Forall P l | _ => False end.

Lemma convert_new_ok (m : P unit) : keeps m zero_message ->
  match convert_new m with Ok x => message_ok x | Err _ => True | _ => False end.
Proof. unfold wp, convert_new. by destruct (m zero_message) as [[]]. Qed.

Lemma made_collect {A B} (f : A -> res B) wrap l (P : B -> Prop) :
  (forall x, x ∈ l -> match f x with Ok b => P b | Err _ => True | _ => False end) ->
  made P (collect f wrap l).
Proof.
  induction l as [|x l IH]; intros Hf; [constructor|]. simpl.
  pose proof (Hf x ltac:(by left)) as Hx. destruct (f x) as [b|e|w|]; try done; [|constructor].
  specialize (IH ltac:(intros; apply Hf; by right)). destruct (collect f wrap l) as [[bs e]| | |]; try done.
  simpl. by constructor.
Qed.

Lemma made_sets version baseTime uptime mapper s l :
  mapper_given version s -> netflow_ok mapper ->
  Forall (fun d : DataFlowSet => Forall (fun r => Forall value_typed (Values r)) (Records d)) l ->
  made message_ok (SearchNetFlowDataSets version baseTime uptime mapper s l).
Proof.
  intros Hs Hn Hl. rewrite Forall_forall in Hl.
  assert (Hset : forall d, d ∈ l -> match search_set version baseTime uptime mapper s d with
    Ok ms => Forall message_ok ms | Err _ => True | _ => False end).
  { intros d Hd. unfold search_set, SearchNetFlowDataSetsRecords. set (f := fun r : DataRecord => _).
    assert (Hm : made message_ok (collect f (Wrap "netflow data record" []) (Records d))).
    { apply made_collect. intros r Hr. apply convert_new_ok, keeps_Convert; [done|done| |apply message_ok_zero].
      specialize (Hl d Hd). rewrite Forall_forall in Hl. by apply Hl. }
    by destruct (collect f _ _) as [[ms [e|]]| | |]. }
  apply (made_collect _ (Wrap "netflow data set" [])) in Hset. unfold SearchNetFlowDataSets.
  destruct (collect _ _ _) as [[ms e]| | |]; try done. simpl. by apply Forall_concat.
Qed.

(** ** Sampling rates of options *)

Definition returns_or_fails {A} (r : res A) : Prop := match r with Ok _ | Err _ => True | _ => False end.

Lemma or_else_returns {A} (r k : res (option A)) :
  returns_or_fails r -> returns_or_fails k -> returns_or_fails (or_else r k).
Proof. by destruct r as [[]| | |]. Qed.

(** A rate is read from the first four bytes of a value, which must have them. *)
Lemma BinaryRead_u32 b :
  run (BinaryRead BigEndian D_uint32) b = if len b <? 4 then Err ErrUnexpectedEOF else Ok (be_get (take 4 b)).
Proof.
  assert (Hl : len (take (Z.to_nat (Z.min 4 (len b))) b) = Z.min 4 (len b)).
  { unfold len. rewrite length_take. lia. }
  unfold run, BinaryRead, bind, Next. change (intDataSize D_uint32) with 4.
  change (4 =? 0) with false. change (4 <? 0) with false. cbv beta iota zeta. rewrite Hl.
  destruct (Z.ltb_spec (len b) 4).
  - destruct (Z.ltb_spec (Z.min 4 (len b)) 4); [done|lia].
  - destruct (Z.ltb_spec (Z.min 4 (len b)) 4); [lia|]. rewrite Z.min_l by lia. done.
Qed.

Lemma search_option_returns record t : returns_or_fails (search_option record t).
Proof.
  unfold search_option, NetFlowPopulate. destruct (NetFlowLookFor _ t) as [[] v]; [|done].
  destruct v as [|b| |]; try done. rewrite BinaryRead_u32. by destruct (len b <? 4).
Qed.

Lemma search_options_returns l : returns_or_fails (SearchNetFlowOptionDataSets l).
Proof.
  unfold SearchNetFlowOptionDataSets.
  assert (H : forall rs, returns_or_fails (search_records rs)).
  { induction rs; simpl; [done|]. apply or_else_returns; [|done]. unfold search_option_record.
    repeat apply or_else_returns; apply search_option_returns. }
  specialize (H (flat_map Records l)). by destruct (search_records _).
Qed.

(** ** Packets *)

Lemma message_ok_map (f : FlowMessage -> FlowMessage) l :
  (forall m, message_ok m -> message_ok (f m)) -> Forall message_ok l -> Forall message_ok (map f l).
Proof. intros Hf Hl. apply Forall_map. by eapply Forall_impl. Qed.

Section packets.
Context {S : Type} `{SamplingStoreSpec S}.
Implicit Types (st : option S).

Definition store_valid st : Prop := match st with Some s => rate_valid s | None => True end.

(** The computation returns well-formed messages, and keeps the store valid. *)
Definition makes {A} (P : A -> Prop) (m : ST (option S) (list A * option error)) : Prop :=
  forall st, store_valid st -> made P (fst (m st)) /\ store_valid (snd (m st)).

Lemma sampling_rate_spec ctx v d rate found st : store_valid st ->
  exists st', sampling_rate ctx v d rate found st =
      (Ok (match st with
           | None => rate
           | Some s => if found : bool then rate else default rate (rate_view s ctx v d)
           end), st') /\ store_valid st' /\
    match st, st' with
    | None, None => True
    | Some s, Some s' => forall ctx' v' d', rate_view s' ctx' v' d' =
        if found then if decide ((ctx', v', d') = (ctx, v, d)) then Some rate else rate_view s ctx' v' d'
        else rate_view s ctx' v' d'
    | _, _ => False
    end.
Proof.
  intros Hst. destruct st as [s|]; [|by exists None]. simpl. destruct found.
  - destruct (RateSet_spec s ctx v d rate Hst) as (s' & E & Hv & Hview). unfold bind. rewrite E.
    exists (Some s'). by splits.
  - destruct (RateGet_spec s ctx v d Hst) as (s' & E & Hv & Hview). unfold bind. rewrite E.
    exists (Some s'). splits; [|done|done]. by destruct (rate_view s ctx v d).
Qed.

Lemma makes_process_sets what version seqnum dom ctx data options :
  made message_ok data -> makes message_ok (process_sets what version seqnum dom ctx data options).
Proof.
  intros Hd st Hst. unfold process_sets, bind, lift_res.
  destruct data as [[msgs [e|]]| | |]; try done.
  pose proof (search_options_returns options) as Ho.
  destruct (SearchNetFlowOptionDataSets options) as [[rate found]|e| |]; try done.
  destruct (sampling_rate_spec ctx version dom rate found st Hst) as (st' & E & Hv & _).
  rewrite E. simpl. split; [|done]. apply message_ok_map; [|done].
  intros m Hm. unfold finish. auto with msg.
Qed.

Lemma split_data l : Forall flowset_typed l ->
  Forall (fun d : DataFlowSet => Forall (fun r => Forall value_typed (Values r)) (Records d)) (omap data_of l).
Proof.
  induction 1 as [|fs l Hfs Hl IH]; [constructor|]. simpl.
  destruct fs as [| | |[d|]| | | |]; simpl; try done. by constructor.
Qed.

Lemma makes_v9 p ctx c :
  Forall flowset_typed (v9FlowSets p) -> mapped_ok c -> makes message_ok (ProcessMessageNetFlowV9Config p ctx (Some c)).
Proof.
  intros Hp (_ & Hc & _). unfold ProcessMessageNetFlowV9Config, SplitNetFlowSets.
  apply makes_process_sets, made_sets; [done|done|by apply split_data].
Qed.

Lemma makes_ipfix p ctx c :
  Forall flowset_typed (ipfixFlowSets p) -> mapped_ok c -> makes message_ok (ProcessMessageIPFIXConfig p ctx (Some c)).
Proof.
  intros Hp (Hc & _ & Hs). unfold ProcessMessageIPFIXConfig, SplitIPFIXSets.
  apply makes_process_sets, made_sets; [done|done|by apply split_data].
Qed.
End packets.

(** ** sFlow samples *)

Lemma ip_ok_bytes v ip : ip_ok v ip -> is_bytes ip.
Proof. unfold ip_ok. tauto. Qed.

Lemma message_ok_sampled_ip e t b m : is_bytes (ipSrcIP b) -> is_bytes (ipDstIP b) -> message_ok m ->
  message_ok (sampled_ip e t b m).
Proof. intros Hs Hd Hm. unfold sampled_ip. auto 12 with msg. Qed.

Lemma message_ok_gateway d m : is_bytes (gNextHop d) -> message_ok m -> message_ok (gateway d m).
Proof. intros Hd Hm. unfold gateway. destruct (ASPath d); auto 12 with msg. Qed.

Definition sflow_mapper_ok (p : option PacketMapper) : Prop :=
  match p with Some p => packet_mapper_ok p | None => True end.

Lemma keeps_sample_record config r m :
  sflow_mapper_ok config -> record_decoded flow_matches r -> message_ok m -> keeps (sample_record config r) m.
Proof.
  intros Hc [->|(_ & _ & v & Hv & [Hdec _])] Hm; [done|]. unfold sample_record. rewrite Hv.
  destruct v as [d|d|[b t]|[b t]|d|d|d|d|d|d|d|d|d|d|d|d|d]; try done.
  - apply wp_bind. unfold wp at 1, modify. apply wp_errctx. unfold ParseSampledHeaderConfig.
    assert (message_ok (set_num F_Bytes (shFrameLength d) m)) by auto with msg.
    destruct (_ =? _); [|done]. apply wp_errctx, wp_PacketMapper; [|apply Hdec|done].
    destruct config; [done|]. apply no_tcp_loop_acyclic, no_tcp_loop_default.
  - apply keeps_modify. destruct Hdec as [Hdec _]. simpl in Hdec. apply message_ok_sampled_ip; [apply Hdec|apply Hdec|done].
  - apply keeps_modify. destruct Hdec as [Hdec _]. simpl in Hdec. apply message_ok_sampled_ip; [apply Hdec|apply Hdec|done].
  - apply keeps_modify. auto with msg.
  - apply keeps_modify. destruct Hdec as ((Hip & _) & _). apply ip_ok_bytes in Hip. auto with msg.
  - apply keeps_modify. destruct Hdec as (Hip & _). apply message_ok_gateway; [|done]. by eapply ip_ok_bytes.
Qed.

Lemma made_sflow p c : packet_decoded p -> mapped_ok c -> made message_ok (ProcessMessageSFlowConfig p (Some c)).
Proof.
  intros (_ & Hip & _ & _ & _ & _ & _ & _ & Hs) (_ & _ & Hc). unfold ProcessMessageSFlowConfig, SearchSFlowSamplesConfig.
  set (f := fun s : flow_sample => _).
  assert (Hm : made message_ok (collect f (Wrap "sflow sample" []) (GetSFlowFlowSamples p))).
  { apply made_collect. intros s Hin. apply convert_new_ok. unfold SearchSFlowSampleConfig.
    apply wp_bind. unfold wp at 1, modify at 1. apply wp_bind. unfold wp at 1, modify at 1.
    apply wp_bind. unfold wp at 1, modify at 1. unfold GetSFlowFlowSamples in Hin.
    apply list_elem_of_omap in Hin as (x & Hx & Hsx). rewrite Forall_forall in Hs.
    destruct (Hs x Hx) as (v & -> & Hv).
    assert (Hr : Forall (record_decoded flow_matches) (match s with S_Flow s => fsRecords s | S_Expanded s => esRecords s end)).
    { destruct v; simpl in Hsx; try done; injection Hsx as <-; apply Hv. }
    apply wp_rangeM.
    - pose proof message_ok_zero. destruct s; unfold sample_fields; auto 8 with msg.
    - intros r m Hr' Hm. rewrite Forall_forall in Hr. apply keeps_sample_record; [done|by apply Hr|done]. }
  destruct (collect f _ _) as [[l [e|]]| | |]; try done; simpl; [constructor|].
  apply message_ok_map; [|done]. intros m Hmm. apply ip_ok_bytes in Hip. auto with msg.
Qed.
