(* ===== verification/ProducerNetflowProps.v ===== *)
(** * Properties of the NetFlow v9 and IPFIX conversion

    NTP times, which elements determine a field of the message, which have no effect, and the
    sampling rate over a sequence of packets. *)
From S2P Require Import Prelude FlowStore SamplingRate DecodersUtils NetflowTypes FlowMessage ProtoReflect ProtoReflectProps PacketParser ProducerConfig SamplingInterface ProducerNetflow.

(** ** NTP times *)

(** An integer with at most 53 significant bits is a float64. *)
Lemma float64_exact m k : 0 <= m < 2 ^ 53 -> 0 <= k -> float64_of (m * 2 ^ k) = m * 2 ^ k.
Proof.
  intros Hm Hk. unfold float64_of. set (n := m * 2 ^ k). set (e := Z.max 0 (Z.log2 n - 52)).
  assert (He : exists q, n = q * 2 ^ e).
  { destruct (Z.eq_dec m 0) as [->|Hne]; [by exists 0|].
    assert (e <= k).
    { subst e n. rewrite Z.log2_mul_pow2 by lia. pose proof (Z.log2_lt_pow2 m 53). lia. }
    exists (m * 2 ^ (k - e)). subst n. rewrite <- Z.mul_assoc, <- Z.pow_add_r by lia. f_equal. f_equal. lia. }
  destruct He as [q Hq]. assert (0 <= e) by lia.
  rewrite Z.land_ones, Z.shiftr_div_pow2, (Z.shiftl_mul_pow2 _ e) by lia.
  rewrite Hq, Z.mod_mul, Z.div_mul by lia.
  destruct (Z.ltb_spec 0 e) as [Hpos|]; [|done]. rewrite (Z.shiftl_mul_pow2 1) by lia. cbn [andb].
  assert (0 < 1 * 2 ^ (e - 1)) by lia.
  by rewrite (proj2 (Z.ltb_ge (1 * 2 ^ (e - 1)) 0)), (proj2 (Z.eqb_neq (1 * 2 ^ (e - 1)) 0)) by lia.
Qed.

(** [float64(x) * 1e9] is exact for 32-bit fractions: the product has nine trailing zero bits. *)
Lemma fraction_exact x : 0 <= x < 2 ^ 32 -> float64_of (float64_of x * 1000000000) = x * 1000000000.
Proof.
  intros Hx. replace (float64_of x) with x.
  - replace (x * 1000000000) with (x * 1953125 * 2 ^ 9) by lia. apply float64_exact; lia.
  - symmetry. replace x with (x * 2 ^ 0) by lia. apply float64_exact; lia.
Qed.

Lemma ConvertNTPEpoch_eq t : 0 <= t < 2 ^ 64 ->
  ConvertNTPEpoch t =
  ((t / 2 ^ 32 - 2208988800) * 1000000000 + t mod 2 ^ 32 * 1000000000 / 2 ^ 32) mod 2 ^ 64.
Proof.
  intros Ht. unfold ConvertNTPEpoch. change 0xffffffff with (Z.ones 32).
  rewrite Z.land_ones, !Z.shiftr_div_pow2 by lia.
  rewrite fraction_exact by (apply Z.mod_pos_bound; lia). unfold to_uint.
  rewrite Z.mul_mod_idemp_l, Z.add_mod_idemp_l by lia. done.
Qed.

(** NTP times.  The conversion of a 64-bit NTP time through a float64 loses nothing: it is
    the integer division, modulo 2^64.  A Unix time in nanoseconds before 2036, written as an
    NTP time rounded up, is converted back to itself. *)
Theorem ntp_epoch :
  (forall t, 0 <= t < 2 ^ 64 ->
     ConvertNTPEpoch t =
     ((t / 2 ^ 32 - 2208988800) * 1000000000 + t mod 2 ^ 32 * 1000000000 / 2 ^ 32) mod 2 ^ 64) /\
  (forall s ns, 0 <= s -> s + 2208988800 < 2 ^ 32 -> 0 <= ns < 1000000000 ->
     ConvertNTPEpoch ((s + 2208988800) * 2 ^ 32 + (ns * 2 ^ 32 + 999999999) / 1000000000) = s * 1000000000 + ns).
Proof.
  split; [exact ConvertNTPEpoch_eq|]. intros s ns Hs Hs2 Hns.
  set (f := (ns * 2 ^ 32 + 999999999) / 1000000000).
  assert (Hf : ns * 2 ^ 32 <= f * 1000000000 < ns * 2 ^ 32 + 1000000000).
  { pose proof (Z.div_mod (ns * 2 ^ 32 + 999999999) 1000000000 ltac:(lia)) as E. fold f in E.
    pose proof (Z.mod_pos_bound (ns * 2 ^ 32 + 999999999) 1000000000 ltac:(lia)). lia. }
  assert (Hf32 : 0 <= f < 2 ^ 32) by lia.
  rewrite ConvertNTPEpoch_eq by lia.
  assert (((s + 2208988800) * 2 ^ 32 + f) / 2 ^ 32 = s + 2208988800) as ->
    by (symmetry; apply (Z.div_unique _ _ _ f); lia).
  assert (((s + 2208988800) * 2 ^ 32 + f) mod 2 ^ 32 = f) as ->
    by (symmetry; apply (Z.mod_unique _ _ (s + 2208988800)); lia).
  assert (f * 1000000000 / 2 ^ 32 = ns) as ->
    by (symmetry; apply (Z.div_unique _ _ _ (f * 1000000000 - ns * 2 ^ 32)); lia).
  rewrite Z.mod_small by lia. lia.
Qed.

(** ** The conversion as a function of the elements

    Without custom fields, an element counts when it is not enterprise-specific, its value is
    bytes and its type has a case. *)
Definition element (version : Z) (df : DataField) : option (bytes * field_case) :=
  match dValue df with
  | VBytes v => if dPenProvided df then None else pair v <$> case_of version (dType df)
  | _ => None
  end.

(** The cases that decode a number: at most eight bytes. *)
Definition numeric (c : field_case) : bool :=
  match c with
  | C_Version | C_Address _ _ | C_Bytes _ | C_LabelIp | C_FrameSection => false
  | _ => true
  end.

Definition too_long (version : Z) (df : DataField) : bool :=
  match element version df with Some (v, c) => numeric c && (8 <? len v) | None => false end.

Definition is_section (c : field_case) : bool := match c with C_FrameSection => true | _ => false end.

Definition parses_frames (version : Z) (df : DataField) : bool :=
  match element version df with Some (_, c) => is_section c | None => false end.

Section effects.
Context (baseTimeNs uptime : Z).

(** What an element does to the message, its number [x] being that of its bytes. *)
Definition effect (v : bytes) (c : field_case) (m : FlowMessage) : FlowMessage :=
  let x w := be_get v mod 2 ^ w in
  match c with
  | C_Number f => set_num f (x (width f)) m
  | C_Two f g => set_num g (x (width g)) (set_num f (x (width f)) m)
  | C_Version => match v with 4 :: _ => set_num F_Etype 0x800 m | 6 :: _ => set_num F_Etype 0x86dd m | _ => m end
  | C_Address f ipv6 => addrReplaceCheck f v ipv6 m
  | C_Bytes f => set_byt f v m
  | C_TypeCode => set_num F_IcmpCode (Z.land (x 16) 0xff) (set_num F_IcmpType (Z.shiftr (x 16) 8) m)
  | C_Flags => set_num F_IpFlags (Z.shiftr (x 32) 5) m
  | C_Label i => set_nums F_MplsLabel (put_label i (Z.shiftr (x 32) 4) (nums m F_MplsLabel)) m
  | C_LabelIp => set_bytess F_MplsIp (bytess m F_MplsIp ++ [v]) m
  | C_Switched f =>
      set_num f (baseTimeNs - to_uint 64 (to_uint 64 (uptime * 1000000) - to_uint 64 (x 32 * 1000000))) m
  | C_Time f unit_ => set_num f (x 64 * unit_) m
  | C_NTP f => set_num f (ConvertNTPEpoch (x 64)) m
  | C_Delta f => set_num f (baseTimeNs - to_uint 64 (x 64 * 1000)) m
  | C_FrameSize => set_num F_Packets 1 (set_num F_Bytes (x 64) m)
  | C_FrameSection => m
  end.

Lemma number_eq v w (m : FlowMessage) : known_width w = true ->
  number v w m = (if 8 <? len v then Err (non_regular (len v)) else Ok (be_get v mod 2 ^ w), m).
Proof.
  intros Hw. unfold number, lift_res. rewrite DecodeUNumber_eq. unfold WriteUDecoded. rewrite Hw.
  destruct (Z.leb_spec (len v) 8), (Z.ltb_spec 8 (len v)); try lia; done.
Qed.

Lemma known_width_of f : known_width (width f) = true.
Proof. by destruct f. Qed.

Lemma run_case_effect s v c m : is_section c = false ->
  run_case baseTimeNs uptime s v c m =
  if numeric c && (8 <? len v) then (Err (non_regular (len v)), m) else (Ok tt, effect v c m).
Proof.
  intros Hc.
  assert (Hn : forall w (k : Z -> P unit), known_width w = true ->
    bind (number v w) k m = if 8 <? len v then (Err (non_regular (len v)), m) else k (be_get v mod 2 ^ w) m).
  { intros w k Hw. unfold bind. rewrite number_eq by done. by destruct (8 <? len v). }
  destruct c; try done; cbn [run_case numeric andb];
    try (rewrite Hn by (done || apply known_width_of); by destruct (8 <? len v)).
  - rewrite Hn by apply known_width_of. destruct (8 <? len v) eqn:Hl; [done|].
    unfold bind at 1, modify at 1. unfold bind. rewrite number_eq, Hl by apply known_width_of. done.
  - by repeat case_match.
Qed.

Definition apply_field (version : Z) (m : FlowMessage) (df : DataField) : FlowMessage :=
  match element version df with Some (v, c) => effect v c m | None => m end.

Lemma convert_field_eq version s df m : parses_frames version df = false ->
  convert_field baseTimeNs uptime s version None df m =
  if too_long version df
  then (Err (Wrap "netflow field" [dType df] (non_regular (len (match dValue df with VBytes v => v | _ => [] end)))), m)
  else (Ok tt, apply_field version m df).
Proof.
  unfold parses_frames, convert_field, too_long, apply_field, element, MapCustomNetFlow. simpl NetFlowMapper_Map.
  destruct (dValue df) as [|v| |]; try done. destruct (dPenProvided df); [done|].
  destruct (case_of version (dType df)) as [c|]; [|done]. simpl. intros Hc. unfold errctx, bind, ret.
  rewrite run_case_effect by done. by destruct (numeric c && (8 <? len v)).
Qed.

(** The error of the first number that is too long. *)
Definition too_long_error (df : DataField) : error :=
  Wrap "netflow field" [dType df] (non_regular (len (match dValue df with VBytes v => v | _ => [] end))).

Lemma convert_record version s record m :
  forallb (fun df => negb (parses_frames version df)) record = true ->
  let r := rangeM record (convert_field baseTimeNs uptime s version None) m in
  match find (too_long version) record with
  | Some df => fst r = Err (too_long_error df)
  | None => r = (Ok tt, fold_left (apply_field version) record m)
  end.
Proof.
  revert m. induction record as [|df record IH]; intros m Hp; [done|].
  simpl in Hp. apply andb_prop in Hp as [Hdf Hp]. apply negb_true_iff in Hdf.
  cbn [rangeM find fold_left]. unfold bind. rewrite convert_field_eq by done.
  destruct (too_long version df); [done|]. apply (IH _ Hp).
Qed.

(** ** The last writer of a field *)

(** The numeric fields an element may write. *)
Definition writes (c : field_case) (f : numField) : bool :=
  let at_ g := bool_decide (f = g) in
  match c with
  | C_Number g | C_Switched g | C_Time g _ | C_NTP g | C_Delta g => at_ g
  | C_Two g h => at_ g || at_ h
  | C_Version | C_Address _ _ => at_ F_Etype
  | C_TypeCode => at_ F_IcmpType || at_ F_IcmpCode
  | C_Flags => at_ F_IpFlags
  | C_FrameSize => at_ F_Bytes || at_ F_Packets
  | C_FrameSection => true
  | _ => false
  end.

Lemma effect_keeps v c f m : writes c f = false -> num (effect v c m) f = num m f.
Proof.
  destruct c; simpl writes; intros Hw; unfold effect;
    repeat match goal with
      | H : (_ || _) = false |- _ => apply orb_false_elim in H as [? ?]
      | H : bool_decide _ = false |- _ => apply bool_decide_eq_false in H
      end; try done; rewrite ?num_set_ne by done; try done.
  - repeat case_match; rewrite ?num_set_ne by done; done.
  - unfold addrReplaceCheck. case_match; [|done]. rewrite num_set_ne by done. done.
Qed.

(** What the cases that hold one number leave in their field. *)
Definition field_value (v : bytes) (c : field_case) : option (numField * Z) :=
  match c with
  | C_Number f => Some (f, be_get v)
  | C_Flags => Some (F_IpFlags, be_get v mod 2 ^ 32 / 2 ^ 5)
  | C_Switched f => Some (f, baseTimeNs - (uptime - be_get v mod 2 ^ 32) * 1000000)
  | C_Time f unit_ => Some (f, be_get v * unit_)
  | C_NTP f => Some (f, ConvertNTPEpoch (be_get v))
  | C_Delta f => Some (f, baseTimeNs - be_get v * 1000)
  | _ => None
  end.

Lemma effect_value v c f x m : is_bytes v -> len v <= 8 ->
  (forall f', c = C_Switched f' \/ c = C_Delta f' \/ c = C_NTP f' -> width f' = 64) ->
  field_value v c = Some (f, x) -> num (effect v c m) f = x mod 2 ^ width f.
Proof.
  intros Hv Hl Hw Hf.
  assert (H64 : be_get v mod 2 ^ 64 = be_get v).
  { pose proof (be_get_uint v Hv) as [? Hb]. apply Z.mod_small. split; [done|].
    apply Z.lt_le_trans with (1 := Hb). apply Z.pow_le_mono_r; lia. }
  assert (Hpos : forall g, 0 < 2 ^ width g) by (intros g; pose proof (width_pos g); lia).
  destruct c; simpl in Hf; try done; injection Hf as <- <-; unfold effect; rewrite num_set_eq; unfold to_uint.
  - pose proof (Hpos f0). by rewrite Z.mod_mod by lia.
  - by rewrite Z.shiftr_div_pow2 by lia.
  - rewrite (Hw f0) by auto. rewrite <- Zminus_mod, Zminus_mod_idemp_r, Z.mul_sub_distr_r. done.
  - by rewrite H64.
  - by rewrite H64.
  - rewrite (Hw f0) by auto. by rewrite Zminus_mod_idemp_r, H64.
Qed.

Lemma apply_keeps version l f m :
  Forall (fun df => forall v c, element version df = Some (v, c) -> writes c f = false) l ->
  num (fold_left (apply_field version) l m) f = num m f.
Proof.
  intros Hl. revert m. induction Hl as [|df l Hdf Hl IH]; intros m; [done|]. simpl. rewrite IH.
  unfold apply_field. destruct (element version df) as [[v c]|]; [|done]. apply effect_keeps. eauto.
Qed.
End effects.

(** The cases that hold a time write a 64-bit field. *)
Lemma case_width version t c : case_of version t = Some c ->
  forall f, c = C_Switched f \/ c = C_Delta f \/ c = C_NTP f -> width f = 64.
Proof.
  set (p := fun c => match c with C_Switched f | C_Delta f | C_NTP f => width f =? 64 | _ => true end).
  intros Hc. assert (p c = true) as Hp.
  { unfold case_of in Hc. destruct (assoc t common_cases) as [c'|] eqn:Ha.
    { injection Hc as <-. by apply (assoc_forall p) in Ha. }
    destruct (version =? 9); [by apply (assoc_forall p) in Hc|].
    destruct (version =? 10); [by apply (assoc_forall p) in Hc|done]. }
  intros f [->|[->| ->]]; by apply Z.eqb_eq.
Qed.

Lemma element_case version df v c : element version df = Some (v, c) -> case_of version (dType df) = Some c.
Proof.
  unfold element. destruct (dValue df); try done. destruct (dPenProvided df); [done|].
  by destruct (case_of version (dType df)); intros [= _ ->].
Qed.

(** The message before the first element. *)
Definition initial (version baseTime : Z) (m : FlowMessage) : FlowMessage :=
  let m1 := set_num F_TimeFlowEndNs (baseTime * 1000000000) (set_num F_TimeFlowStartNs (baseTime * 1000000000) m) in
  if version =? 9 then set_Type NETFLOW_V9 m1 else if version =? 10 then set_Type IPFIX m1 else m1.

Lemma Convert_eq version baseTime uptime record s m :
  ConvertNetFlowDataSet version baseTime uptime record None s m =
  rangeM record (convert_field (baseTime * 1000000000) uptime s version None) (initial version baseTime m).
Proof.
  unfold ConvertNetFlowDataSet, initial, bind, modify, ret.
  by destruct (version =? 9); [|destruct (version =? 10)].
Qed.


(** ** The sampling rate over a sequence of packets *)

Section sampling.
Context {S : Type} `{SamplingStoreSpec S}.
Context (config : option producerConfigMapped).

Inductive nf_packet : Type := N_v9 (p : NFv9Packet) | N_ipfix (p : IPFIXPacket).

Definition process_nf (x : FlowContext * nf_packet) : ST (option S) (list FlowMessage * option error) :=
  match x.2 with
  | N_v9 p => ProcessMessageNetFlowV9Config p x.1 config
  | N_ipfix p => ProcessMessageIPFIXConfig p x.1 config
  end.

(** Router, version and observation domain. *)
Definition rate_key (x : FlowContext * nf_packet) : FlowContext * Z * Z :=
  match x.2 with N_v9 p => (x.1, 9, SourceId p) | N_ipfix p => (x.1, 10, ObservationDomainId p) end.

(** The rate a packet announces: that of its option records, when its data were converted. *)
Definition announced_by (data : res (list FlowMessage * option error)) (options : list OptionsDataFlowSet) : option Z :=
  match data, SearchNetFlowOptionDataSets options with
  | Ok (_, None), Ok (rate, true) => Some rate
  | _, _ => None
  end.

Definition data_messages (x : FlowContext * nf_packet) : res (list FlowMessage * option error) :=
  match x.2 with
  | N_v9 p => SearchNetFlowDataSets 9 (UnixSeconds p) (SystemUptime p)
      (match config with Some c => NetFlowV9 c | None => None end) None (omap data_of (v9FlowSets p))
  | N_ipfix p => SearchNetFlowDataSets 10 (ExportTime p) 0
      (match config with Some c => IPFIX_ c | None => None end)
      (match config with Some c => Some (PM_SFlow (SFlow c)) | None => None end) (omap data_of (ipfixFlowSets p))
  end.

Definition announced (x : FlowContext * nf_packet) : option Z :=
  announced_by (data_messages x)
    (omap options_data_of (match x.2 with N_v9 p => v9FlowSets p | N_ipfix p => ipfixFlowSets p end)).

Definition view_at (s : S) (k : FlowContext * Z * Z) : option Z := rate_view s k.1.1 k.1.2 k.2.

Lemma process_sets_spec what version seqnum dom ctx data options (s : S) : rate_valid s ->
  exists r s', process_sets what version seqnum dom ctx data options (Some s) = (r, Some s') /\ rate_valid s' /\
    (forall k, view_at s' k = if decide (k = (ctx, version, dom))
                              then match announced_by data options with Some rate => Some rate | None => view_at s k end
                              else view_at s k) /\
    match r with
    | Ok (msgs, None) => Forall (fun m => num m F_SamplingRate = to_uint 64
        (match announced_by data options with
         | Some rate => rate | None => default 0 (rate_view s ctx version dom) end)) msgs
    | _ => True
    end.
Proof.
  intros Hs. unfold process_sets, announced_by, bind, lift_res.
  assert (Hsame : forall k, view_at s k = if decide (k = (ctx, version, dom)) then view_at s k else view_at s k)
    by (intros k; by case_decide).
  destruct data as [[msgs [e|]]|e|w|]; try (do 2 eexists; by splits).
  destruct (SearchNetFlowOptionDataSets options) as [[rate found]|e|w|] eqn:Ho; try (do 2 eexists; by splits).
  simpl. unfold bind. destruct found.
  - destruct (RateSet_spec s ctx version dom rate Hs) as (s' & E & Hv & Hview). rewrite E.
    do 2 eexists. splits; [reflexivity|done| |].
    + intros [[c v] d]. unfold view_at. simpl. apply Hview.
    + simpl. apply Forall_map, Forall_true. intros m. unfold finish. by fields.
  - destruct (RateGet_spec s ctx version dom Hs) as (s' & E & Hv & Hview). rewrite E.
    assert (rate = 0) as ->.
    { unfold SearchNetFlowOptionDataSets in Ho. destruct (search_records _) as [[x|]|e|w|]; simpl in Ho; congruence. }
    destruct (rate_view s ctx version dom) as [stored|] eqn:Hst; do 2 eexists; (splits; [reflexivity|done| |]);
      try (intros [[c v] d]; rewrite <- Hsame; apply Hview); simpl; apply Forall_map, Forall_true; intros m;
      unfold finish; by fields.
Qed.

Lemma process_nf_spec x (s : S) : rate_valid s ->
  exists r s', process_nf x (Some s) = (r, Some s') /\ rate_valid s' /\
    (forall k, view_at s' k = if decide (k = rate_key x)
                              then match announced x with Some rate => Some rate | None => view_at s k end
                              else view_at s k) /\
    match r with
    | Ok (msgs, None) => Forall (fun m => num m F_SamplingRate = to_uint 64
        (match announced x with Some rate => rate | None => default 0 (view_at s (rate_key x)) end)) msgs
    | _ => True
    end.
Proof. destruct x as [ctx [p|p]]; by apply process_sets_spec. Qed.

(** The packets in order, and what the producer returned for each. *)
Fixpoint process_all (xs : list (FlowContext * nf_packet)) (s : option S)
    : list (res (list FlowMessage * option error)) * option S :=
  match xs with
  | [] => ([], s)
  | x :: xs' =>
      let '(r, s1) := process_nf x s in
      let '(rs, s2) := process_all xs' s1 in (r :: rs, s2)
  end.

(** The last rate announced for a key. *)
Definition last_rate (xs : list (FlowContext * nf_packet)) (k : FlowContext * Z * Z) (r0 : option Z) : option Z :=
  fold_left (fun acc x => if decide (k = rate_key x) then match announced x with Some r => Some r | None => acc end
                          else acc) xs r0.

Lemma process_all_view xs (s : S) : rate_valid s ->
  exists rs s', process_all xs (Some s) = (rs, Some s') /\ rate_valid s' /\ length rs = length xs /\
    forall k, view_at s' k = last_rate xs k (view_at s k).
Proof.
  revert s. induction xs as [|x xs IH]; intros s Hs; [by exists [], s|].
  destruct (process_nf_spec x s Hs) as (r & s1 & E & Hs1 & Hv & _). simpl. rewrite E.
  destruct (IH s1 Hs1) as (rs & s2 & E2 & Hs2 & Hl & Hv2). rewrite E2.
  exists (r :: rs), s2. splits; [done|done|by simpl; f_equal|]. intros k. by rewrite Hv2, Hv.
Qed.

Lemma process_all_app xs1 xs2 s :
  process_all (xs1 ++ xs2) s =
  let '(rs1, s1) := process_all xs1 s in
  let '(rs2, s2) := process_all xs2 s1 in (rs1 ++ rs2, s2).
Proof.
  revert s. induction xs1 as [|x xs IH]; intros s; simpl; [by destruct (process_all xs2 s)|].
  destruct (process_nf x s) as [r s1]. rewrite IH. destruct (process_all xs s1) as [rs1 s2].
  by destruct (process_all xs2 s2).
Qed.

End sampling.

(** ** Witnesses *)

Definition std (t : Z) (v : bytes) : DataField :=
  {| dPenProvided := false; dType := t; dLength := 0; dPen := 0; dValue := VBytes v |}.

(** Two byte counts, an enterprise element of the same number, and a start time. *)
Definition demo_record : list DataField :=
  [std NFV9_FIELD_IN_BYTES [0; 0; 4; 0]; std NFV9_FIELD_IN_BYTES [1; 0];
   {| dPenProvided := true; dType := NFV9_FIELD_IN_BYTES; dLength := 0; dPen := 9; dValue := VBytes [9] |};
   std NFV9_FIELD_FIRST_SWITCHED [0; 0; 0; 100]].


(** An exporter announces 1024 once; another one does not. *)
Definition demo_packet (seq dom : Z) (sets : list flowset) : nf_packet :=
  N_v9 {| v9Version := 9; v9Count := 1; SystemUptime := 256; UnixSeconds := 512; v9SequenceNumber := seq;
          SourceId := dom; v9FlowSets := sets |}.
Definition demo_data : flowset :=
  FS_Data (Val {| Header := {| Id := 256; fsLength := 8 |}; Records := [{| Values := [std NFV9_FIELD_IN_BYTES [0; 80]] |}] |}).
Definition demo_options : flowset :=
  FS_OptionsData (Val {| Header := {| Id := 257; fsLength := 12 |};
    Records := [{| ScopesValues := []; OptionsValues := [std 34 [0; 0; 4; 0]] |}] |}).
Definition demo_exporter : FlowContext := {| RouterKey := "r1" |}.
Definition demo_history : list (FlowContext * nf_packet) :=
  [(demo_exporter, demo_packet 1 1 [demo_options]); (demo_exporter, demo_packet 2 2 [demo_data]);
   ({| RouterKey := "r2" |}, demo_packet 3 1 [demo_options])].

