(* ===== verification/CollectorProps.v ===== *)
(** * The collector: pipe, decoders and producer together

    [ProtoProducer] as the producer of a pipe; whatever datagrams arrive, in any order, every
    one of them is handled to the end. *)
From S2P Require Import Prelude DecodersUtils NetflowTypes NetflowDecode NetflowEncode NetflowSafety NetflowRoundtrip NetflowProps SflowTypes SflowRoundtrip SflowSafety FlowMessage ProtoReflect ProtoReflectProps PacketParser ProducerConfig PacketParserSafety PacketParserProps FlowStore SamplingRate SamplingInterface ProducerNetflow Pipe PipeProps ProtoProducer ProducerSafety.

Section produce.
Context {S : Type} `{SamplingStoreSpec S}.
Variable AddrPort_String : AddrPort -> string.

Lemma message_ok_v5 p : Forall message_ok (ProcessMessageNetFlowLegacy p).
Proof.
  unfold ProcessMessageNetFlowLegacy, SearchNetFlowLegacyRecords. rewrite map_map. apply Forall_map, Forall_true.
  intros r. apply message_ok_num, message_ok_num. unfold ConvertNetFlowLegacyRecord. cbv zeta.
  repeat apply message_ok_num. repeat (apply message_ok_byt; [apply is_bytes_be_put|]).
  repeat apply message_ok_num. apply message_ok_Type, message_ok_zero.
Qed.

(** The messages of a packet, once their addresses are bytes. *)
Lemma makes_process c msg ctx tr sa : mapped_ok c -> packet_typed msg ->
  makes (fun m => is_bytes sa -> message_ok m) (process (Some c) msg ctx tr sa).
Proof.
  intros Hc Hp st Hst.
  assert (Hrec : forall m, message_ok m -> is_bytes sa -> message_ok (received tr sa m)).
  { intros m Hm Hsa. unfold received. auto with msg. }
  assert (Hmap : forall l, Forall message_ok l -> Forall (fun m => is_bytes sa -> message_ok m) (map (received tr sa) l)).
  { intros l Hl. apply Forall_map. eapply Forall_impl; [exact Hl|]. auto. }
  destruct msg as [p|p|p|p|]; simpl process.
  - split; [|done]. by apply Hmap, message_ok_v5.
  - destruct (makes_v9 p ctx c Hp Hc st Hst) as [Hm Hs]. unfold bind.
    destruct (ProcessMessageNetFlowV9Config p ctx (Some c) st) as [[[l e]| | |] st']; try done. split; [by apply Hmap|done].
  - destruct (makes_ipfix p ctx c Hp Hc st Hst) as [Hm Hs]. unfold bind.
    destruct (ProcessMessageIPFIXConfig p ctx (Some c) st) as [[[l e]| | |] st']; try done. split; [by apply Hmap|done].
  - pose proof (made_sflow p c Hp Hc) as Hm. unfold bind, lift_res.
    destruct (ProcessMessageSFlowConfig p (Some c)) as [[l e]| | |]; try done. split; [|done].
    simpl. apply Forall_map. eapply Forall_impl; [exact Hm|]. intros m Hmm _. unfold received_sflow. auto with msg.
  - split; [constructor|done].
Qed.

Lemma produce_returns set g c g' msg args (st : option S) :
  producer_ok set -> mapConfig set g = (Ok c, g') -> packet_typed msg -> store_valid st ->
  exists msgs err p', Produce AddrPort_String msg args {| cfg := Some c; samplingStore := st |} = (Ok (msgs, err), p') /\
    cfg p' = Some c /\ store_valid (samplingStore p') /\
    Forall (fun x => formatter x = Formatter c /\ (is_bytes (SamplerAddress args) -> message_ok (flow x))) msgs.
Proof using Type.
  intros Hset Hc Hp Hst. pose proof (mapConfig_ok _ _ _ _ Hset Hc) as Hok.
  unfold Produce. cbn [cfg samplingStore]. set (ctx := match argFlowContext args with Some c => c | None => _ end).
  destruct (makes_process c msg ctx (to_uint 64 (TimeReceived args)) (Unmap (SamplerAddress args)) Hok Hp st Hst) as [Hm Hs].
  destruct (process _ _ _ _ _ st) as [[[l e]| | |] st']; try done. simpl in Hm, Hs.
  cbn [rbind set_formatters]. destruct l as [|m l].
  - do 3 eexists. splits; [reflexivity|done|done|constructor].
  - do 3 eexists. splits; [reflexivity|done|done|]. apply Forall_map. eapply Forall_impl; [exact Hm|].
    intros x Hx. split; [done|]. intros Hb. apply Hx. unfold Unmap. case_decide; [|done]. by apply Forall_drop.
Qed.

End produce.

(** ** The whole collector *)

Section collector.
Context {S1 S2 X : Type} `{TemplateStoreSpec S1} `{SamplingStoreSpec S2}.
Variable AddrPort_String : AddrPort -> string.
Variables (format : option (ProtoProducerMessage -> ST X (bytes * bytes))) (transport : option (bytes -> bytes -> ST X unit)).

(** The state around the templates: the producer, and whatever formats and transports keep. *)
Abbreviation W := (ProtoProducer (S := S2) * X)%type.

Definition on_producer {A} (m : ST (ProtoProducer (S := S2)) A) : ST W A := fun w =>
  let '(r, p) := m w.1 in (r, (p, w.2)).
Definition on_output {A} (m : ST X A) : ST W A := fun w => let '(r, x) := m w.2 in (r, (w.1, x)).

Definition collector : PipeConfig (W := W) (Msg := ProtoProducerMessage) := {|
  Format := (fun f m => on_output (f m)) <$> format;
  Transport := (fun f k d => on_output (f k d)) <$> transport;
  Producer := Some {| Pipe.Produce := fun p args => on_producer (Produce AddrPort_String p args);
                      Pipe.Commit := fun msgs w => (Commit msgs w.1, w.2) |}
|}.

(** The datagrams in the order of their arrival, and what the pipe returned for each. *)
Fixpoint deliver (ms : list Message) (s : flowpipe (S := S1) (W := W)) : list (res unit) * flowpipe :=
  match ms with
  | [] => ([], s)
  | m :: ms' =>
      let '(r, s1) := AutoFlowPipe_DecodeFlow AddrPort_String collector (A_Message m) s in
      let '(rs, s2) := deliver ms' s1 in (r :: rs, s2)
  end.

Context (J : X -> Prop) (c : producerConfigMapped).

Definition world_valid (w : W) : Prop := cfg w.1 = Some c /\ store_valid (samplingStore w.1) /\ J w.2.

Lemma safe_on_output {A} (m : ST X A) : safe J m -> safe world_valid (on_output m).
Proof.
  intros Hm w (Hc & Hs & Hj). specialize (Hm w.2 Hj). unfold on_output.
  destruct (m w.2) as [r x]. split; [apply Hm|]. split; [done|]. split; [done|apply Hm].
Qed.

Lemma collector_safe set g g' :
  producer_ok set -> mapConfig set g = (Ok c, g') ->
  (forall f m, format = Some f -> safe J (f m)) -> (forall f k d, transport = Some f -> safe J (f k d)) ->
  cfg_safe world_valid collector.
Proof using Type*.
  intros Hset Hc Hf Ht. split.
  - intros f m Hm. simpl in Hm. destruct format as [f0|]; [|done]. injection Hm as <-. by apply safe_on_output, Hf.
  - intros f k d Hm. simpl in Hm. destruct transport as [f0|]; [|done]. injection Hm as <-. by apply safe_on_output, Ht.
  - intros pr p args [= <-] Hp w (Hcw & Hs & Hj). cbn [Pipe.Produce]. unfold on_producer.
    destruct w as [[cf st] x]. simpl in Hcw, Hs, Hj. subst cf.
    destruct (produce_returns AddrPort_String set g c g' p args st Hset Hc Hp Hs) as (msgs & err & p' & E & Hc' & Hs' & _).
    cbn [fst snd]. rewrite E. split; [done|]. by split.
  - intros pr msgs w [= <-] Hw. done.
Qed.

(** C1: the collector.  With a configuration compiled from valid settings, working stores, and
    formatter and transport that return, every datagram of every sequence, whatever its bytes,
    is handled to the end: decoding, producing, formatting and sending neither panic nor loop
    for ever, and the stores stay valid for the next one. *)
Theorem collector_total set g g' ms (s : flowpipe (S := S1) (W := W)) :
  producer_ok set -> mapConfig set g = (Ok c, g') ->
  (forall f m, format = Some f -> safe J (f m)) -> (forall f k d, transport = Some f -> safe J (f k d)) ->
  Forall (fun m => is_bytes (Payload m)) ms -> store_typed (templateStore s) -> world_valid (world s) ->
  let '(rs, s') := deliver ms s in
  length rs = length ms /\ Forall returns rs /\ store_typed (templateStore s') /\ world_valid (world s').
Proof using Type*.
  intros Hset Hc Hf Ht Hms. pose proof (collector_safe set g g' Hset Hc Hf Ht) as Hsafe.
  revert s. induction Hms as [|m ms Hm Hms IH]; intros s Hty Hw; [by simpl|]. cbn [deliver].
  pose proof (pipe_safe_step AddrPort_String world_valid collector m s Hm Hty Hsafe Hw) as (Hr & Hw1 & v & d & Hstep).
  destruct (AutoFlowPipe_DecodeFlow _ _ _ s) as [r s1]. simpl in Hr, Hw1, Hstep.
  specialize (IH s1 (proj1 Hstep Hty) Hw1). destruct (deliver ms s1) as [rs s2].
  destruct IH as (Hl & Hrs & ?). split; [by simpl; f_equal|]. split; [by constructor|done].
Qed.
End collector.

(** ** Witnesses *)

Lemma demo_producer_ok : producer_ok (Some demo_config).
Proof.
  split; [|split; [|split; constructor]].
  - apply Forall_singleton. simpl. split; [lia|]. intros [? ?]; congruence.
  - apply Forall_singleton. simpl. splits; [lia|lia|vm_compute; congruence].
Qed.

Lemma demo_compiles : match fst (mapConfig (Some demo_config) isSliceMap) with Ok _ => true | _ => false end = true.
Proof. vm_compute. reflexivity. Qed.

Lemma sample_v9_typed : packet_typed (PK_v9 sample_v9).
Proof. repeat first [by apply is_bytes_by_test|constructor]. Qed.

Definition demo_args : ProduceArgs :=
  {| argSrc := {| Addr := [192; 0; 2; 1]; Port := 2055 |}; argDst := {| Addr := [192; 0; 2; 2]; Port := 2055 |};
     SamplerAddress := [192; 0; 2; 1]; TimeReceived := 7; argFlowContext := None |}.


(** A truncated datagram, a NetFlow v9 one and noise. *)
Definition demo_datagrams : list Message :=
  [message_of [0; 9; 0]; message_of (v9packet_bytes sample_v9); message_of [1; 2; 3; 4; 5]].

Definition demo_state (c : producerConfigMapped) :
    flowpipe (S := RefStore) (W := ProtoProducer (S := SamplingRateFlowStore unit) * nat) :=
  {| templateStore := ∅; world := ({| cfg := Some c; samplingStore := Some demo_rates |}, O) |}.

Lemma collector_total_witness :
  exists c g', mapConfig (Some demo_config) isSliceMap = (Ok c, g') /\
  let '(rs, s') := deliver any_string None None demo_datagrams (demo_state c) in
  length rs = 3%nat /\ Forall returns rs /\ store_typed (templateStore s') /\ world_valid (fun _ => True) c (world s').
Proof.
  pose proof demo_compiles as Hok. destruct (mapConfig (Some demo_config) isSliceMap) as [[c| | |] g'] eqn:E; try discriminate Hok.
  exists c, g'. split; [reflexivity|].
  apply (collector_total any_string None None (fun _ => True) c (Some demo_config) isSliceMap g' demo_datagrams (demo_state c)).
  - exact demo_producer_ok.
  - exact E.
  - intros; discriminate.
  - intros; discriminate.
  - repeat first [by apply is_bytes_by_test|constructor].
  - apply (empty_store_ok [] ltac:(constructor)). reflexivity.
  - split; [reflexivity|split; [|done]]. apply (new_store_valid (E := unit) 5 [Some (WithTTL 60)]).
Defined.
