(* ===== verification/ProducerProps.v ===== *)
(** * Properties of the NetFlow v5 and sFlow messages

    From the datagram of an encoder to the fields of the messages, and the clocks. *)
From S2P Require Import Prelude DecodersUtils NetflowLegacy NetflowTypes SflowTypes SflowDecode SflowEncode SflowRoundtrip SflowProps FlowMessage ProtoReflect PacketParser PacketParserProps PacketFrames ProducerConfig ProducerNetflow ProducerNetflowProps Pipe ProtoProducer.

(** ** NetFlow v5 *)

(** The flow of a record, as the message of a packet tells it.  An exporter whose clock of
    [uint32] milliseconds was [age] milliseconds behind at an event writes the difference
    modulo 2^32. *)
Record tells_v5 (p : PacketNetFlowV5) (r : RecordsNetFlowV5) (m : FlowMessage) : Prop := {
  v5_type : Type_ m = NETFLOW_V5;
  v5_addresses : byt m F_SrcAddr = be_put 4 (SrcAddr r) /\ byt m F_DstAddr = be_put 4 (DstAddr r) /\
    byt m F_NextHop = be_put 4 (NextHop r) /\ num m F_Etype = 0x800;
  v5_flow : num m F_Proto = Proto r /\ num m F_SrcPort = SrcPort r /\ num m F_DstPort = DstPort r /\
    num m F_TcpFlags = TCPFlags r /\ num m F_IpTos = Tos r;
  v5_routing : num m F_SrcAs = SrcAS r /\ num m F_DstAs = DstAS r /\ num m F_SrcNet = SrcMask r /\
    num m F_DstNet = DstMask r /\ num m F_InIf = Input r /\ num m F_OutIf = Output r;
  v5_counts : num m F_Packets = DPkts r /\ num m F_Bytes = DOctets r;
  v5_sampling : num m F_SamplingRate = SamplingInterval p mod 2 ^ 14 /\ num m F_SequenceNum = FlowSequence p;
  v5_start age : 0 <= age < 2 ^ 32 -> First r = (SysUptime p - age) mod 2 ^ 32 ->
    num m F_TimeFlowStartNs = (UnixSecs p * 1000000000 + UnixNSecs p - age * 1000000) mod 2 ^ 64;
  v5_end age : 0 <= age < 2 ^ 32 -> Last r = (SysUptime p - age) mod 2 ^ 32 ->
    num m F_TimeFlowEndNs = (UnixSecs p * 1000000000 + UnixNSecs p - age * 1000000) mod 2 ^ 64
}.

(** The difference of two readings of the clock is the age, although the clock wraps. *)
Lemma clock_age up age x : 0 <= age < 2 ^ 32 -> x = (up - age) mod 2 ^ 32 -> to_uint 32 (up - x) = age.
Proof.
  intros Ha ->. unfold to_uint. rewrite Zminus_mod_idemp_r. replace (up - (up - age)) with age by lia.
  by apply Z.mod_small.
Qed.

Lemma v5_message (p : PacketNetFlowV5) (r : RecordsNetFlowV5) : NetflowLegacy.packet_ok p -> NetflowLegacy.record_ok r ->
  tells_v5 p r
    (set_num F_SamplingRate (Z.land (SamplingInterval p) 0x3FFF) (set_num F_SequenceNum (FlowSequence p)
      (ConvertNetFlowLegacyRecord (to_uint 64 (UnixSecs p * 1000000000 + UnixNSecs p)) (SysUptime p) r zero_message))).
Proof.
  intros (_ & _ & Hup & Hs & Hns & Hseq & _ & _ & Hsam & _) Hr. unfold NetflowLegacy.record_ok, uint in *.
  change 0x3FFF with (Z.ones 14). rewrite Z.land_ones by lia.
  pose proof (Z.mod_pos_bound (SamplingInterval p) (2 ^ 14) ltac:(lia)).
  assert (Htime : forall x age, to_uint 32 (SysUptime p - x) = age ->
    to_uint 64 (to_uint 64 (UnixSecs p * 1000000000 + UnixNSecs p) - to_uint 32 (SysUptime p - x) * 1000000) =
    (UnixSecs p * 1000000000 + UnixNSecs p - age * 1000000) mod 2 ^ 64).
  { intros x age ->. unfold to_uint. by rewrite Zminus_mod_idemp_l. }
  unfold ConvertNetFlowLegacyRecord. cbv zeta.
  split; splits; intros; fields; try done; try (apply to_uint_small; unfold uint; simpl width; lia).
  - by apply Htime, clock_age.
  - by apply Htime, clock_age.
Qed.

(** C4: NetFlow v5, from the exporter to the messages.  The datagram of every packet that the
    encoder accepts is decoded, whatever follows it, and produced as one message per record,
    in order, with the fields of the record; the times are right although the exporter's
    millisecond clock wraps. *)
Theorem v5_end_to_end (p : PacketNetFlowV5) (bs rest : bytes) :
  NetflowLegacy.packet_ok p -> encodable p -> NetflowLegacy.EncodeMessage (Some p) = Ok bs ->
  exists p', NetflowLegacy.DecodeMessageVersion (bs ++ rest) = (Ok p', rest) /\
    Forall2 (tells_v5 p) (NetflowLegacy.Records p) (ProcessMessageNetFlowLegacy p').
Proof.
  intros Hp He Hb. rewrite EncodeMessage_encodable in Hb by done. injection Hb as <-.
  exists (completed p). split.
  - by apply (NetflowLegacy.reads_version p Hp He rest).
  - unfold ProcessMessageNetFlowLegacy, SearchNetFlowLegacyRecords. rewrite map_map. simpl.
    apply Forall2_fmap_r, Forall_Forall2_diag, Forall_forall. intros r Hr. apply (v5_message p r Hp).
    destruct Hp as (_ & _ & _ & _ & _ & _ & _ & _ & _ & Hall). rewrite Forall_forall in Hall. by apply Hall.
Qed.

(** A clock that wrapped 20 ms before the export: the first record started before the wrap. *)
Definition wrapped_packet : PacketNetFlowV5 :=
  {| NetflowLegacy.Version := 5; Count := 1; SysUptime := 20; UnixSecs := 1700000000; UnixNSecs := 0; FlowSequence := 42;
     EngineType := 1; EngineId := 2; SamplingInterval := 0x4064;
     NetflowLegacy.Records := [
       {| SrcAddr := 0x0a000001; DstAddr := 0x0a000002; NextHop := 0; Input := 1; Output := 2; DPkts := 3; DOctets := 1500;
          First := 4294967000; Last := 10; SrcPort := 443; DstPort := 65535; Pad1 := 0; TCPFlags := 27; Proto := 6;
          Tos := 0; SrcAS := 64512; DstAS := 13335; SrcMask := 24; DstMask := 32; Pad2 := 0 |}] |}.

Lemma v5_end_to_end_witness :
  exists bs p' m, NetflowLegacy.EncodeMessage (Some wrapped_packet) = Ok bs /\
    NetflowLegacy.DecodeMessageVersion (bs ++ [1]) = (Ok p', [1]) /\ ProcessMessageNetFlowLegacy p' = [m] /\
    byt m F_DstAddr = [10; 0; 0; 2] /\ num m F_SamplingRate = 100 /\
    num m F_TimeFlowStartNs = 1700000000 * 1000000000 - 316 * 1000000.
Proof.
  assert (NetflowLegacy.packet_ok wrapped_packet) as Hp.
  { unfold NetflowLegacy.packet_ok, uint; cbn [wrapped_packet NetflowLegacy.Version Count SysUptime UnixSecs UnixNSecs
      FlowSequence EngineType EngineId SamplingInterval NetflowLegacy.Records]. splits; try lia.
    repeat constructor; cbn; lia. }
  assert (encodable wrapped_packet) as He by (split; [by right|by left]).
  destruct (v5_end_to_end wrapped_packet _ [1] Hp He eq_refl) as (p' & Hd & Hm).
  do 2 eexists. inversion Hm as [|r m ? ms Ht Hrest Heq Hms]. inversion Hrest. subst.
  exists m. split; [reflexivity|]. split; [exact Hd|]. split; [done|].
  split; [apply Ht|]. split; [apply Ht|]. exact (v5_start _ _ _ Ht 316 ltac:(lia) eq_refl).
Defined.

(** ** NetFlow v9 clocks *)

(** The flow start of NetFlow v9 is computed without the wrap of the exporter's clock.  For
    an event [age] milliseconds before the export, written as the reading of a clock of 32-bit
    milliseconds, the start is right when the clock did not wrap in between, and otherwise 2^32
    milliseconds (over 49 days) too late. *)
Theorem v9_uptime_wrap (baseTime up age : Z) (s : option PacketMapper) :
  u32 up -> 0 <= age < 2 ^ 32 ->
  exists m, ConvertNetFlowDataSet 9 baseTime up [std NFV9_FIELD_FIRST_SWITCHED (be_put 4 ((up - age) mod 2 ^ 32))]
      None s zero_message = (Ok tt, m) /\
    num m F_TimeFlowStartNs =
      (baseTime * 1000000000 - age * 1000000 + (if up <? age then 2 ^ 32 * 1000000 else 0)) mod 2 ^ 64.
Proof.
  intros Hup Ha. set (x := (up - age) mod 2 ^ 32).
  assert (Hx : uint (8 * Z.of_nat 4) x) by (apply Z.mod_pos_bound; lia).
  rewrite Convert_eq. pose proof (convert_record (baseTime * 1000000000) up 9 s
    [std NFV9_FIELD_FIRST_SWITCHED (be_put 4 x)] (initial 9 baseTime zero_message) eq_refl) as Hr. cbv zeta in Hr.
  cbn [find] in Hr. unfold too_long in Hr.
  change (element 9 (std NFV9_FIELD_FIRST_SWITCHED (be_put 4 x)))
    with (Some (be_put 4 x, C_Switched F_TimeFlowStartNs)) in Hr.
  cbn [numeric andb] in Hr. rewrite len_be_put in Hr. change (8 <? Z.of_nat 4) with false in Hr.
  rewrite Hr. eexists. split; [reflexivity|]. cbn [fold_left]. unfold apply_field.
  change (element 9 (std NFV9_FIELD_FIRST_SWITCHED (be_put 4 x)))
    with (Some (be_put 4 x, C_Switched F_TimeFlowStartNs)). cbv iota.
  etransitivity;
    [apply (effect_value _ _ _ _ F_TimeFlowStartNs (baseTime * 1000000000 - (up - x) * 1000000));
      [apply is_bytes_be_put|rewrite len_be_put; lia| |]|].
  - by intros f [[= <-]|[[=]|[=]]].
  - simpl. rewrite be_get_put, Z.mod_small by exact Hx. done.
  - simpl width. f_equal. unfold uint in Hup. subst x. destruct (Z.ltb_spec up age).
    + assert ((up - age) mod 2 ^ 32 = up - age + 2 ^ 32) as ->; [|lia].
      symmetry. apply (Z.mod_unique _ _ (-1)); lia.
    + rewrite Z.mod_small by lia. lia.
Qed.

Lemma v9_uptime_wrap_witness :
  exists m, ConvertNetFlowDataSet 9 1700000000 20 [std NFV9_FIELD_FIRST_SWITCHED (be_put 4 4294967000)]
      None None zero_message = (Ok tt, m) /\
    num m F_TimeFlowStartNs = 1700000000 * 1000000000 - 316 * 1000000 + 2 ^ 32 * 1000000.
Proof. apply (v9_uptime_wrap 1700000000 20 316 None); [split; [lia|reflexivity]|lia]. Defined.

(** ** sFlow *)

(** A sample of one Ethernet frame, or of its first bytes. *)
Record sampled : Type := { sm_sample : FlowSample; sm_header : SampledHeader; sm_frame : frame }.

Definition sampled_ok (x : sampled) : Prop :=
  (exists h, fsRecords (sm_sample x) = [{| rHeader := h; rData := Some (Val (FV_SampledHeader (sm_header x))) |}]) /\
  shProtocol (sm_header x) = 1 /\ shHeaderData (sm_header x) = frame_bytes (sm_frame x) /\
  u32 (shFrameLength (sm_header x)) /\
  u32 (fsSamplingRate (sm_sample x)) /\ u32 (fsInput (sm_sample x)) /\ u32 (fsOutput (sm_sample x)) /\
  frame_ok (sm_frame x).

Record tells_sample (p : Packet) (x : sampled) (m : FlowMessage) : Prop := {
  sf_type : Type_ m = SFLOW_5;
  sf_frame : carries (sm_frame x) m;
  sf_counts : num m F_Packets = 1 /\ num m F_Bytes = shFrameLength (sm_header x);
  sf_sample : num m F_SamplingRate = fsSamplingRate (sm_sample x) /\ num m F_InIf = fsInput (sm_sample x) /\
              num m F_OutIf = fsOutput (sm_sample x);
  sf_agent : byt m F_SamplerAddress = AgentIP p /\ num m F_SequenceNum = SequenceNumber p
}.

(** The message of a sample before that of the packet. *)
Definition sample_message (x : sampled) : FlowMessage :=
  frame_message (sm_frame x) (set_num F_Bytes (shFrameLength (sm_header x)) (set_num F_Packets 1
    (sample_fields (fsSamplingRate (sm_sample x)) (fsInput (sm_sample x)) (fsOutput (sm_sample x))
      (set_Type SFLOW_5 zero_message)))).

Definition sample_of (x : sampled) : sample := Some (Val (SV_FlowSample (sm_sample x))).

Definition complete_flow (x : sampled) : FlowSample :=
  match complete_sample (SV_FlowSample (sm_sample x)) with SV_FlowSample s => s | _ => sm_sample x end.

Lemma convert_sample x s' : sampled_ok x ->
  fsRecords s' = map SflowRoundtrip.complete_record (fsRecords (sm_sample x)) ->
  fsSamplingRate s' = fsSamplingRate (sm_sample x) -> fsInput s' = fsInput (sm_sample x) ->
  fsOutput s' = fsOutput (sm_sample x) ->
  convert_new (SearchSFlowSampleConfig (S_Flow s') None) = Ok (sample_message x).
Proof.
  intros ((h & Hr) & Hp & Hd & _ & _ & _ & _ & Hf) Hrec H1 H2 H3.
  assert (sample_record None (complete_record {| rHeader := h; rData := Some (Val (FV_SampledHeader (sm_header x))) |}) =
    (modify (set_num F_Bytes (shFrameLength (sm_header x))) ;;;
     errctx (Wrap "sflow sampled header" []) (ParseSampledHeaderConfig (sm_header x) None))) as Hrecord by reflexivity.
  unfold convert_new, SearchSFlowSampleConfig. rewrite Hrec, Hr, H1, H2, H3. cbn [map rangeM]. rewrite Hrecord.
  unfold ParseSampledHeaderConfig. rewrite Hp, Hd.
  pose proof (parse_frame (sm_frame x) (set_num F_Bytes (shFrameLength (sm_header x)) (set_num F_Packets 1
    (sample_fields (fsSamplingRate (sm_sample x)) (fsInput (sm_sample x)) (fsOutput (sm_sample x))
      (set_Type SFLOW_5 zero_message)))) Hf) as Hparse.
  unfold bind, modify, errctx. cbn [Z.eqb Pos.eqb default PacketMapper_ParsePacket].
  change (ParsePacket (frame_bytes (sm_frame x)) None (Some DefaultEnvironment))
    with (ParsePacket (frame_bytes (sm_frame x)) None None).
  rewrite Hparse. done.
Qed.

Lemma frame_type f m : Type_ (frame_message f m) = Type_ m.
Proof. by destruct f as [dst src [tag|] [h|h] [k|s d l c p|ty co r]]. Qed.

Lemma sample_tells p x : u32 (SequenceNumber p) -> sampled_ok x ->
  tells_sample p x (set_num F_SequenceNum (SequenceNumber p) (set_byt F_SamplerAddress (AgentIP p) (sample_message x))).
Proof.
  intros Hseq (_ & _ & _ & Hl & Hr & Hi & Ho & Hf). unfold u32, uint in *.
  pose proof (frame_carries (sm_frame x) (set_num F_Bytes (shFrameLength (sm_header x)) (set_num F_Packets 1
    (sample_fields (fsSamplingRate (sm_sample x)) (fsInput (sm_sample x)) (fsOutput (sm_sample x))
      (set_Type SFLOW_5 zero_message)))) Hf eq_refl) as Hc. fold (sample_message x) in Hc.
  assert (Hk : forall g, frame_fields_of g = false -> g <> F_SequenceNum ->
    num (set_num F_SequenceNum (SequenceNumber p) (set_byt F_SamplerAddress (AgentIP p) (sample_message x))) g =
      num (set_num F_Bytes (shFrameLength (sm_header x)) (set_num F_Packets 1
    (sample_fields (fsSamplingRate (sm_sample x)) (fsInput (sm_sample x)) (fsOutput (sm_sample x))
      (set_Type SFLOW_5 zero_message)))) g).
  { intros g Hg Hne. etransitivity; [|by apply (frame_keeps (sm_frame x))].
    by rewrite num_set_ne. }
  split.
  - change (Type_ (sample_message x) = SFLOW_5). unfold sample_message. by rewrite frame_type.
  - exact Hc.
  - split; (rewrite Hk by done); fields; apply to_uint_small; unfold uint; simpl width; lia.
  - splits; (rewrite Hk by done); unfold sample_fields; fields; apply to_uint_small; unfold uint; simpl width; lia.
  - split; fields; [done|]. apply to_uint_small; unfold uint; simpl width; lia.
Qed.


(** The bytes of the frame of [PacketFrames], computed. *)
Definition demo_bytes : bytes := Eval vm_compute in frame_bytes demo_frame.

Definition demo_sample : sampled :=
  {| sm_sample := {| fsHeader := {| SflowTypes.Format := 0; sLength := 0; SampleSequenceNumber := 5; SourceIdType := 0;
         SourceIdValue := 3 |};
       fsSamplingRate := 512; fsSamplePool := 1024; fsDrops := 0; fsInput := 1; fsOutput := 2; fsFlowRecordsCount := 0;
       fsRecords := [{| rHeader := {| DataFormat := 0; rhLength := 0 |};
         rData := Some (Val (FV_SampledHeader {| shProtocol := 1; shFrameLength := 1514; shStripped := 4;
           shOriginalLength := 62; shHeaderData := demo_bytes |})) |}] |};
     sm_header := {| shProtocol := 1; shFrameLength := 1514; shStripped := 4; shOriginalLength := 62;
       shHeaderData := demo_bytes |};
     sm_frame := demo_frame |}.

Definition demo_packet : Packet := Eval cbv [sample_of demo_sample sm_sample] in
  {| Version := 0; IPVersion := 0; AgentIP := [198;51;100;7]; SubAgentId := 1; SequenceNumber := 2; Uptime := 3;
     SamplesCount := 0; Samples := [sample_of demo_sample] |}.

