(* ===== verification/ReflowEvent.v ===== *)
(** * pkg/reflow/event: the events of the ReFlow pipeline

    [event.go]: the parts of an [Event] that the decoder, the processor and the aggregation
    read or write (metadata that they only pass on is left out), and the packet models of
    [packet_model.go].  A value of type [any] is a value of [any] below, with a constructor
    for each dynamic type that pkg/reflow makes or distinguishes; [other_internal] are the
    values of [Internal] that no modelled code but the processor reads. *)
From Stdlib Require Import Ascii.
From stdpp Require Import sorting.
From S2P Require Import Prelude Text NetflowTypes SflowTypes.

(** ** Values *)

Inductive ikind : Type :=
  | K_uint64 | K_uint | K_uint32 | K_uint16 | K_uint8
  | K_int64 | K_int32 | K_int16 | K_int8 | K_int.

#[export] Instance ikind_eq_dec : EqDecision ikind.
Proof. solve_decision. Defined.

(** A [float64] or [float32] is its bit pattern; a nested map is the list of its entries,
    with distinct keys; [A_other] is a value of any other type.  The last six are the
    accumulator types of aggregate.go. *)
Inductive any : Type :=
  | A_nil
  | A_string (s : string)
  | A_int (k : ikind) (z : Z)
  | A_float64 (b : Z)
  | A_float32 (b : Z)
  | A_number (s : string)
  | A_bool (b : bool)
  | A_map (m : list (string * any))
  | A_maps (l : list (list (string * any)))
  | A_list (l : list any)
  | A_bytes (b : bytes)
  | A_strings (l : list string)
  | A_uint32s (l : list Z)
  | A_other (n : Z)
  | A_sum (v : any) | A_first (v : any) | A_current (v : any) | A_min (v : any) | A_max (v : any) | A_and (v : any).

(** The [string] of some bytes, and back. *)
Definition go_string (b : bytes) : string := String.string_of_list_ascii (map (fun z => ascii_of_N (Z.to_N z)) b).
Definition string_bytes (s : string) : bytes := map (fun c => Z.of_N (N_of_ascii c)) (String.list_ascii_of_string s).

Abbreviation fields := (gmap string any).

(** ** The standard library

    [netip.ParseAddr] gives an IPv4 or an IPv6 address (with its zone). *)
Inductive addr : Type := Addr4 (b : bytes) | Addr6 (b : bytes) (zone : string).
Definition Is4 (a : addr) : bool := match a with Addr4 _ => true | _ => false end.
Definition Is6 (a : addr) : bool := match a with Addr6 _ _ => true | _ => false end.

(** What the code takes from strconv, encoding/json, net/netip, fmt and the float conversions of
    the compiler.  [Sscan_uint64] is [fmt.Sscan] into a [uint64]; [Sscanf_MAC] is [fmt.Sscanf]
    of six two-digit hexadecimal numbers between colons. *)
Class GoLib : Type := {
  FormatFloat64 : Z -> string;
  FormatFloat32 : Z -> string;
  json_Marshal : any -> option string;
  ParseAddr : string -> option addr;
  Addr_String : addr -> string;
  Sprint : value -> string;
  SprintAny : any -> string;
  Sscan_uint64 : string -> option Z;
  Sscanf_MAC : string -> option bytes;
  float64_to_int64 : Z -> Z;
  float64_to_uint32 : Z -> Z;
  float64_to_uint64 : Z -> Z
}.

(** Format ['g'] writes digits, signs, a point, an exponent, [Inf] or [NaN]; the text of a
    [json.Number] is a JSON number. *)
Definition is_number_char (c : ascii) : bool :=
  is_digit c || existsb (Ascii.eqb c) ["+"; "-"; "."; "e"; "E"; "I"; "n"; "f"; "N"; "a"]%char.

Class GoLibSpec `{GoLib} : Prop := {
  FormatFloat64_chars b : all_chars is_number_char (FormatFloat64 b) = true;
  FormatFloat32_chars b : all_chars is_number_char (FormatFloat32 b) = true;
  float64_to_int64_range b : - 2 ^ 63 <= float64_to_int64 b < 2 ^ 63
}.

(** [strconv.Atoi], for what callers keep of it: [None] is an error. *)
Fixpoint digits_value (acc : Z) (s : string) : option Z :=
  match s with
  | EmptyString => Some acc
  | String c s' =>
      if is_digit c then digits_value (acc * 10 + (Z.of_nat (nat_of_ascii c) - 48)) s' else None
  end.
Definition Atoi (s : string) : option Z :=
  let '(neg, d) := match s with
                   | String "+" s' => (false, s')
                   | String "-" s' => (true, s')
                   | _ => (false, s)
                   end in
  match d with
  | EmptyString => None
  | _ => match digits_value 0 d with
         | Some n => let z := if neg then - n else n in
                     if (- 2 ^ 63 <=? z) && (z <? 2 ^ 63) then Some z else None
         | None => None
         end
  end.

(** [strconv.ParseInt(s, 10, 64)] without its error: 0 for bad syntax, the bound it passed for
    a number out of range. *)
Definition ParseInt (s : string) : Z :=
  let '(neg, d) := match s with
                   | String "+" s' => (false, s')
                   | String "-" s' => (true, s')
                   | _ => (false, s)
                   end in
  match d with
  | EmptyString => 0
  | _ => match digits_value 0 d with
         | Some n => Z.max (- 2 ^ 63) (Z.min (2 ^ 63 - 1) (if neg then - n else n))
         | None => 0
         end
  end.

(** [v < 0] for a [float64]: the sign bit is set, and it is neither a zero nor no number. *)
Definition float64_negative (b : Z) : bool := (2 ^ 63 <? b) && (b <=? 0xFFF0000000000000).

(** [if v < 0 { return 0 }; return uintw(v)]. *)
Definition nonneg (w v : Z) : Z := if v <? 0 then 0 else to_uint w v.

(** [strings.Split(s, ".")]. *)
Fixpoint split_dots (s : string) : list string :=
  match s with
  | EmptyString => [""]
  | String c s' =>
      if (c =? ".")%char then "" :: split_dots s'
      else match split_dots s' with
           | p :: ps => String c p :: ps
           | [] => [String c ""]
           end
  end%string.

(** [sort.Strings]. *)
Definition string_le (a b : string) : Prop := String.leb a b = true.
#[export] Instance string_le_dec : RelDecision string_le.
Proof. intros a b. unfold string_le. apply _. Defined.
Definition sort_Strings (l : list string) : list string := merge_sort string_le l.

(** ** event.go *)

Record SamplingMetadata : Type := { Rate : Z; smSamplePool : Z; smDrops : Z }.

Record SourceMetadata : Type := {
  srcAddress : string; srcRemote : string; Type_ : string; CaptureInterfaceIndex : Z; JSONFlavor : string; srcAgentIP : string; srcSourceID : Z; SourceIDSet : bool; Sampling : option SamplingMetadata
}.

(** The data of a raw sample, and raw records. *)
Record SFlowRawRecord : Type := { rwEnterprise : Z; rwFormat : Z; rwDataFormat : Z; rwData : bytes }.
Record SFlowSampleMetadata : Type := {
  smEnterprise : Z; smFormat : Z; smDataFormat : Z; smData : bytes; RawFlowRecords : list SFlowRawRecord; RawCounterRecords : list SFlowRawRecord
}.

Record SFlowMetadata : Type := {
  sfAgentIP : string; sfSubAgentID : Z; sfSequenceNumber : Z; sfUptime : Z; sfSourceID : Z; sfSamplingRate : Z; sfSamplePool : Z; sfDrops : Z;
  sfSamples : list SFlowSampleMetadata
}.

Record ControlMetadata : Type := { cType : string; cStream : string }.

Record AggregationMetadata : Type := { Key : string; FirstSeenUnix : Z; LastSeenUnix : Z }.

Record SchemaField : Type := { sRole : string; sName : string; sValue : any }.

(** [Match] may be nil. *)
Record AggregationSchema : Type := {
  asStream : string; FieldNames : list string; asFields : list SchemaField;
  asKeyFields : list string; SumFields : list string; FirstFields : list string; CurrentFields : list string;
  MinFields : list string; MaxFields : list string; AndFields : list string;
  asMatch : option (gmap string string); asStaticFields : fields; BaseTemplateID : Z
}.

Record SourceInit : Type := {
  siStream : string; siAgentIP : string; siSourceID : Z; siObservationDomainID : Z; siSamplingRate : Z; siSamplePool : Z; siDrops : Z;
  siInputIf : Z; siOutputIf : Z
}.

(** What [Payload] holds; structs and pointers to them are not told apart. *)
Inductive payload : Type :=
  | PL_nil
  | PL_bytes (b : bytes)
  | PL_schema (s : AggregationSchema)
  | PL_source_init (s : SourceInit)
  | PL_template (r : TemplateRecord)
  | PL_v9_options_template (r : NFv9OptionsTemplateRecord)
  | PL_ipfix_options_template (r : IPFIXOptionsTemplateRecord)
  | PL_options_data (r : OptionsDataRecord)
  | PL_other.

(** The three keys of [Internal] that the decoder uses; the other keys hold values like those
    of fields. *)
Record internal : Type := {
  sflow_flow_records : list FlowRecord; sflow_sample : option RawSample; sflow_counter_records : list CounterRecord;
  other_internal : fields
}.
Definition no_internal : internal :=
  {| sflow_flow_records := []; sflow_sample := None; sflow_counter_records := []; other_internal := ∅ |}.

(** *** packet_model.go *)

Record EthernetLayer : Type := { ethSrcMAC : string; ethDstMAC : string; ethEtherType : Z }.
Record VLANLayer : Type := { vlanID : Z; PCP : Z; DEI : bool; TPID : Z }.
Record MPLSLabel : Type := { Label : Z; TC : Z; BOS : bool; labelTTL : Z }.
Record IPv4Layer : Type := {
  ip4Src : addr; ip4Dst : addr; Protocol : Z; ip4TTL : Z; DSCP : Z; ECN : Z; Identification : Z; ip4Flags : Z; FragmentOffset : Z
}.
Record IPv6Layer : Type := { ip6Src : addr; ip6Dst : addr; NextHeader : Z; HopLimit : Z; TrafficClass : Z; FlowLabel : Z }.
Record GRELayer : Type := { greProtocol : Z; Checksum : bool; greKey : bool; Sequence : bool }.
Record VXLANLayer : Type := { vxlanVNI : Z }.
Record GeneveLayer : Type := { geneveVNI : Z; geneveProtocol : Z }.
Record PPPoELayer : Type := { SessionID : Z; pppProtocol : Z }.
Record TCPLayer : Type := { tcpSrcPort : Z; tcpDstPort : Z; tcpFlags : Z; Seq : Z; Ack : Z; Window : Z }.
Record UDPLayer : Type := { udpSrcPort : Z; udpDstPort : Z }.
Record ICMPLayer : Type := { icmpType : Z; icmpCode : Z }.
Record PayloadLayer : Type := { payloadLength : Z; Pattern : string }.

(** The kinds of values that the code makes; [Feat_other] stands for the others. *)
Inductive FeatureValue : Type :=
  | Feat_String (s : string) | Feat_Uint64 (n : Z) | Feat_List (l : list FeatureValue) | Feat_other (n : Z).

(** The pointers of a [LayerSpec], of which one is set or none. *)
Inductive layer_data : Type :=
  | D_none
  | D_Ethernet (l : EthernetLayer) | D_VLAN (l : VLANLayer) | D_MPLS (l : MPLSLabel) | D_IPv4 (l : IPv4Layer) | D_IPv6 (l : IPv6Layer)
  | D_GRE (l : GRELayer) | D_VXLAN (l : VXLANLayer) | D_Geneve (l : GeneveLayer) | D_PPPoE (l : PPPoELayer) | D_TCP (l : TCPLayer)
  | D_UDP (l : UDPLayer) | D_ICMP (l : ICMPLayer) | D_Payload (l : PayloadLayer).

Record LayerSpec : Type := { lKind : string; lLength : Z; lData : layer_data; lFeatures : gmap string FeatureValue }.
Record PacketModel : Type := { pmLayers : list LayerSpec; pmFeatures : gmap string FeatureValue }.

(** [Fields] may be a nil map. *)
Record Event : Type := {
  ReceivedAt : Z; Kind : string; Stream : string; Source : SourceMetadata;
  Control : option ControlMetadata; Fields : option fields; evtMessage : bytes; evtPacket : option PacketModel; SFlow : option SFlowMetadata;
  Aggregation : option AggregationMetadata; Payload : payload; Internal : internal
}.

Definition zero_source : SourceMetadata :=
  {| srcAddress := ""; srcRemote := ""; Type_ := ""; CaptureInterfaceIndex := 0; JSONFlavor := ""; srcAgentIP := ""; srcSourceID := 0; SourceIDSet := false;
     Sampling := None |}.

Definition zero_event : Event :=
  {| ReceivedAt := 0; Kind := ""; Stream := ""; Source := zero_source; Control := None; Fields := None; evtMessage := []; evtPacket := None;
     SFlow := None; Aggregation := None; Payload := PL_nil; Internal := no_internal |}.

(** Six pairs of lower-case hexadecimal digits between colons. *)
Definition hex_value (c : ascii) : option Z :=
  let n := Z.of_nat (nat_of_ascii c) in
  if (48 <=? n) && (n <=? 57) then Some (n - 48) else if (97 <=? n) && (n <=? 102) then Some (n - 87) else None.
Fixpoint scan_pairs (n : nat) (s : string) : option bytes :=
  match n, s with
  | S n', String a (String b s') =>
      match hex_value a, hex_value b with
      | Some x, Some y =>
          match n', s' with
          | O, EmptyString => Some [x * 16 + y]
          | S _, String ":" s'' => cons (x * 16 + y) <$> scan_pairs n' s''
          | _, _ => None
          end
      | _, _ => None
      end
  | _, _ => None
  end.
Definition scan_mac (s : string) : option bytes := scan_pairs 6 s.

(** A library with simple answers, for concrete examples: floats print as their bit pattern. *)
Definition simple_lib : GoLib := {|
  FormatFloat64 := itoa; FormatFloat32 := itoa; json_Marshal v := Some "{}"%string; ParseAddr s := None;
  Addr_String a := ""%string; Sprint v := ""%string; SprintAny v := ""%string; Sscan_uint64 s := None;
  Sscanf_MAC := scan_mac; float64_to_int64 b := 0; float64_to_uint32 b := 0; float64_to_uint64 b := 0
|}.
