(* ===== verification/Aggregate.v ===== *)
(** * pkg/reflow/aggregate: keyed aggregation of events

    [aggregate.go]: the key of an event, the record it adds to its bucket, the merge, the
    timers that export and erase buckets, and the schema.  [Stateful] is the state; each of
    its methods holds the mutex from its first to its last access.  The clock is an argument;
    [flushAt] and [Close] take the order in which Go iterates over the map. *)
From Stdlib Require Import Ascii.
From S2P Require Import Prelude Text ReflowEvent.

(** ** Configuration (config.go) *)

Record AggregatorField : Type := { Role : string; Name : string; Value : any }.

Record AggregatorWindowConfig : Type := { IdleFlushAfter : Z; MaxFlushAfter : Z; IdleEraseAfter : Z }.

Record AggregatorPeriodicConfig : Type := { Every : Z; ResetBuckets : bool }.

(** The fields that aggregation uses. *)
Record AggregatorConfig : Type := {
  cfgStream : string; Passthrough : bool; EmitAs : string;
  Window : AggregatorWindowConfig; Periodic : AggregatorPeriodicConfig;
  cfgFields : list AggregatorField; FieldsConfigured : bool;
  KeyFields : list string; Sum : list string; First : list string; Current : list string;
  Min : list string; Max : list string; And : list string;
  Match : gmap string string; TemplateID : Z; StaticFields : fields; AggregateMissing : bool
}.

Definition with_fields (cfg : AggregatorConfig) (l : list AggregatorField) : AggregatorConfig :=
  {| cfgStream := cfgStream cfg; Passthrough := Passthrough cfg; EmitAs := EmitAs cfg; Window := Window cfg;
     Periodic := Periodic cfg; cfgFields := l; FieldsConfigured := FieldsConfigured cfg; KeyFields := KeyFields cfg;
     Sum := Sum cfg; First := First cfg; Current := Current cfg; Min := Min cfg; Max := Max cfg; And := And cfg;
     Match := Match cfg; TemplateID := TemplateID cfg; StaticFields := StaticFields cfg;
     AggregateMissing := AggregateMissing cfg |}.

(** Keys of a map, in the order of [sort.Strings]. *)
Definition sorted_keys (m : fields) : list string := sort_Strings (map fst (map_to_list m)).

Definition role_fields (role : string) (names : list string) : list AggregatorField :=
  map (fun n => {| Role := role; Name := n; Value := A_nil |}) names.

Definition effectiveAggregatorFields (cfg : AggregatorConfig) : list AggregatorField :=
  match cfgFields cfg with
  | [] =>
      role_fields "key" (KeyFields cfg) ++ role_fields "sum" (Sum cfg) ++ role_fields "first" (First cfg) ++
      role_fields "current" (Current cfg) ++ role_fields "min" (Min cfg) ++ role_fields "max" (Max cfg) ++
      role_fields "and" (And cfg) ++
      map (fun n => {| Role := "static"; Name := n; Value := default A_nil (StaticFields cfg !! n) |})
        (sorted_keys (StaticFields cfg))
  | l => l
  end.

Definition aggregatorFieldsByRole (l : list AggregatorField) (role : string) : list AggregatorField :=
  List.filter (fun f => String.eqb (Role f) role) l.

(** ** Numbers and timestamps *)

Section aggregate.
Context `{GoLib}.

Definition int64FromAny (val : any) : Z :=
  match val with
  | A_int K_int64 v => v
  | A_int K_uint64 v => to_int 64 v
  | A_int K_uint32 v => v
  | A_int K_int v => v
  | A_float64 b => float64_to_int64 b
  | _ => 0
  end.

Definition uint32FromAny (val : any) : Z :=
  match val with
  | A_int K_uint32 v => v
  | A_int K_uint64 v => to_uint 32 v
  | A_int K_int v => to_uint 32 v
  | A_int K_int64 v => to_uint 32 v
  | A_float64 b => float64_to_uint32 b
  | _ => 0
  end.

Definition minTimestamp (a b : Z) : Z := if a =? 0 then b else if (b =? 0) || (a <=? b) then a else b.
Definition maxTimestamp (a b : Z) : Z := if a =? 0 then b else if (b =? 0) || (b <=? a) then a else b.

(** [t.UnixMilli()]. *)
Definition UnixMilli (t : Z) : Z := t / 1000000.

Definition timestampFieldOrNow (m : fields) (key : string) (now : Z) : Z :=
  match m !! key with
  | Some val => let ts := int64FromAny val in if ts =? 0 then UnixMilli now else ts
  | None => UnixMilli now
  end.

Definition seedTimestamps (dst src : fields) (now : Z) : fields :=
  let start := timestampFieldOrNow src "start_time_unix" now in
  let end_ := timestampFieldOrNow src "end_time_unix" now in
  <["end_time_unix" := A_int K_int64 end_]> (<["start_time_unix" := A_int K_int64 start]> dst).

(** ** The value of a field of an event *)

Definition pathIndex (part : string) (length : Z) : option Z :=
  match Atoi part with
  | Some index => if (index <? 0) || (length <=? index) then None else Some index
  | None => None
  end.

Fixpoint assoc_any (k : string) (m : list (string * any)) : option any :=
  match m with
  | [] => None
  | (k', v) :: m' => if String.eqb k k' then Some v else assoc_any k m'
  end.

Definition nestedFieldValue (current : any) (part : string) : option any :=
  match current with
  | A_map m => assoc_any part m
  | A_maps l =>
      match pathIndex part (len l) with Some i => A_map <$> (l !! Z.to_nat i) | None => None end
  | A_list l => match pathIndex part (len l) with Some i => l !! Z.to_nat i | None => None end
  | _ => None
  end.

Fixpoint follow (current : any) (parts : list string) : option any :=
  match parts with
  | [] => Some current
  | p :: ps => match nestedFieldValue current p with Some v => follow v ps | None => None end
  end.

(** A flat name first, then a dotted path; the first part is looked up in [fields] itself. *)
Definition fieldValue (m : option fields) (key : string) : option any :=
  match m with
  | None => None
  | Some m =>
      match m !! key with
      | Some val => Some val
      | None =>
          match split_dots key with
          | first :: ((_ :: _) as rest) => match m !! first with Some v => follow v rest | None => None end
          | _ => None
          end
      end
  end.

Definition metadataAgentIP (evt : Event) : option string :=
  match SFlow evt with
  | Some sf => if negb (String.eqb (sfAgentIP sf) "") then Some (sfAgentIP sf)
               else if negb (String.eqb (srcAgentIP (Source evt)) "") then Some (srcAgentIP (Source evt)) else None
  | None => if negb (String.eqb (srcAgentIP (Source evt)) "") then Some (srcAgentIP (Source evt)) else None
  end.

(** IPv4 or unparsable on the left, IPv6 on the right. *)
Definition agentIPByFamily (raw : string) : string * string :=
  if String.eqb raw "" then ("", "")
  else match ParseAddr raw with
       | None => (raw, "")
       | Some a => if Is4 a then (raw, "") else ("", raw)
       end%string.

(** A counter of the sample, else one of the source, else the field. *)
Definition metadata_number (evt : Event) (of_sflow : SFlowMetadata -> Z) (of_source : option Z) (key : string) : option any :=
  match SFlow evt with
  | Some sf => if negb (of_sflow sf =? 0) then Some (A_int K_uint32 (of_sflow sf))
               else match of_source with Some v => Some (A_int K_uint32 v) | None => fieldValue (Fields evt) key end
  | None => match of_source with Some v => Some (A_int K_uint32 v) | None => fieldValue (Fields evt) key end
  end.

Definition eventFieldValue (evt : option Event) (key : string) : option any :=
  match evt with
  | None => None
  | Some evt =>
      let sampling := Sampling (Source evt) in
      if String.eqb key "agent_ip" then
        match metadataAgentIP evt with
        | Some ip => let (v4, _) := agentIPByFamily ip in
                     if negb (String.eqb v4 "") then Some (A_string v4) else None
        | None => fieldValue (Fields evt) key
        end
      else if String.eqb key "agent_ipv6" then
        match metadataAgentIP evt with
        | Some ip => let (_, v6) := agentIPByFamily ip in
                     if negb (String.eqb v6 "") then Some (A_string v6) else None
        | None => fieldValue (Fields evt) key
        end
      else if String.eqb key "source_id" then
        metadata_number evt sfSourceID
          (if SourceIDSet (Source evt) || negb (srcSourceID (Source evt) =? 0) then Some (srcSourceID (Source evt)) else None) key
      else if String.eqb key "sampling_rate" then metadata_number evt sfSamplingRate (Rate <$> sampling) key
      else if String.eqb key "sample_pool" then metadata_number evt sfSamplePool (smSamplePool <$> sampling) key
      else if String.eqb key "drops" then metadata_number evt sfDrops (smDrops <$> sampling) key
      else fieldValue (Fields evt) key
  end.

Definition ipFamilyModifier (value : any) : string :=
  match value with
  | A_string f => if existsb (String.eqb f) ["ip4"; "ip6"; "ip4in6"]%string then f else ""
  | _ => ""
  end.

Definition aggregatorFieldFamily (field : AggregatorField) : string :=
  if String.eqb (Role field) "static" then "" else ipFamilyModifier (Value field).

Definition applyFieldFamily (val : any) (family : string) : option any :=
  if String.eqb family "" then Some val
  else match val with
       | A_string ip =>
           match ParseAddr ip with
           | None => None
           | Some a =>
               if String.eqb family "ip4" then if Is4 a then Some (A_string (Addr_String a)) else None
               else if String.eqb family "ip6" then if Is6 a then Some (A_string (Addr_String a)) else None
               else if String.eqb family "ip4in6" then
                 match a with
                 | Addr6 _ _ => Some (A_string (Addr_String a))
                 | Addr4 raw => Some (A_string (Addr_String (Addr6 (replicate 10 0 ++ [0xff; 0xff] ++ raw) "")))
                 end
               else None
           end
       | _ => None
       end.

Definition eventFieldValueForSpec (evt : option Event) (field : AggregatorField) : option any :=
  match eventFieldValue evt (Name field) with
  | Some val => applyFieldFamily val (aggregatorFieldFamily field)
  | None => None
  end.

Definition int64EventFieldForSpec (evt : option Event) (field : AggregatorField) : Z :=
  match eventFieldValueForSpec evt field with Some val => int64FromAny val | None => 0 end.

(** ** The key of an event *)

Definition FormatBool (b : bool) : string := if b then "true" else "false".

Definition writeKeyValue (val : any) : res string :=
  match val with
  | A_nil => Ok "nil"
  | A_string v => Ok ("s" +:+ itoa (Z.of_nat (String.length v)) +:+ ":" +:+ v)
  | A_int _ v => Ok (itoa v)
  | A_float64 b => Ok (FormatFloat64 b)
  | A_float32 b => Ok (FormatFloat32 b)
  | A_number v => Ok v
  | A_bool b => Ok (FormatBool b)
  | _ =>
      match json_Marshal val with
      | None => Err (Errorf "json" [])
      | Some encoded => Ok ("j" +:+ itoa (Z.of_nat (String.length encoded)) +:+ ":" +:+ encoded)
      end
  end%string.

Definition missingAggregationKeyError (key : string) : error := Errorf ("missing aggregation key field " +:+ key) [].

(** The loop of [buildKey] from its [i]-th field on. *)
Fixpoint build_loop (evt : option Event) (aggregateMissing : bool) (i : nat) (keyFields : list AggregatorField) : res string :=
  match keyFields with
  | [] => Ok ""%string
  | field :: rest =>
      rbind (match eventFieldValueForSpec evt field with
             | Some val => Ok val
             | None => if aggregateMissing then Ok A_nil else Err (missingAggregationKeyError (Name field))
             end) (fun val =>
      match writeKeyValue val with
      | Err e => Err (Wrap ("aggregation key field " +:+ Name field) [] e)
      | Ok w => rbind (build_loop evt aggregateMissing (Datatypes.S i) rest)
                  (fun ws => Ok ((if (0 <? i)%nat then "|" else "") +:+ w +:+ ws)%string)
      | Panic w => Panic w
      | Hang => Hang
      end)
  end.

Definition buildKey (evt : option Event) (l : list AggregatorField) (aggregateMissing : bool) : res string :=
  match aggregatorFieldsByRole l "key" with
  | [] => Ok "__global__"%string
  | keyFields => build_loop evt aggregateMissing 0 keyFields
  end.

Definition MissingRequiredKeyField (cfg : AggregatorConfig) (evt : option Event) : string :=
  if AggregateMissing cfg then ""
  else match find (fun f => match eventFieldValueForSpec evt f with None => true | Some _ => false end)
               (aggregatorFieldsByRole (effectiveAggregatorFields cfg) "key") with
       | Some f => Name f
       | None => ""
       end.

Definition EventHasRequiredKeyFields (cfg : AggregatorConfig) (evt : option Event) : bool :=
  String.eqb (MissingRequiredKeyField cfg evt) "".

(** ** Records and their merge *)

Record aggregateRecord : Type := { rFields : fields; FirstSeen : Z; LastSeen : Z; Dirty : bool }.

Definition sumValueOf (val : any) : Z :=
  match val with A_sum v => int64FromAny v | _ => int64FromAny val end.

Definition minAny (current incoming : any) : any :=
  match current with
  | A_min v => if int64FromAny incoming <? int64FromAny v then incoming else v
  | _ => if int64FromAny incoming <? int64FromAny current then incoming else current
  end.

Definition maxAny (current incoming : any) : any :=
  match current with
  | A_max v => if int64FromAny v <? int64FromAny incoming then incoming else v
  | _ => if int64FromAny current <? int64FromAny incoming then incoming else current
  end.

Definition andAny (current incoming : any) : any :=
  match current with
  | A_and v => A_int K_uint32 (Z.land (uint32FromAny v) (uint32FromAny incoming))
  | _ => A_int K_uint32 (Z.land (uint32FromAny current) (uint32FromAny incoming))
  end.

(** The new value of a key of [dst], from its old one, if any, and the one of [src]. *)
Definition merge_value (key : string) (old : option any) (val : any) : any :=
  if String.eqb key "start_time_unix" then
    A_int K_int64 (minTimestamp (int64FromAny (default A_nil old)) (int64FromAny val))
  else if String.eqb key "end_time_unix" then
    A_int K_int64 (maxTimestamp (int64FromAny (default A_nil old)) (int64FromAny val))
  else match old with
       | None => val
       | Some cur =>
           match val with
           | A_sum v => A_sum (A_int K_int64 (to_int 64 (sumValueOf cur + int64FromAny v)))
           | A_first _ => cur
           | A_current _ => val
           | A_min v => A_min (minAny cur v)
           | A_max v => A_max (maxAny cur v)
           | A_and v => A_and (andAny cur v)
           | _ => val
           end
       end.

Definition mergeFields (dst src : fields) : fields :=
  map_fold (fun key val d => <[key := merge_value key (d !! key) val]> d) dst src.

(** [current] is the zero record when the key is new. *)
Definition Add (r : option aggregateRecord) (delta : aggregateRecord) : aggregateRecord :=
  match r with
  | None => {| rFields := rFields delta; FirstSeen := FirstSeen delta; LastSeen := LastSeen delta; Dirty := true |}
  | Some r =>
      {| rFields := mergeFields (rFields r) (rFields delta);
         FirstSeen := if FirstSeen delta <? FirstSeen r then FirstSeen delta else FirstSeen r;
         LastSeen := if LastSeen r <? LastSeen delta then LastSeen delta else LastSeen r;
         Dirty := true |}
  end.

(** What one field of the configuration puts into the record of an event. *)
Definition field_value (evt : option Event) (field : AggregatorField) : option any :=
  let val := eventFieldValueForSpec evt field in
  if String.eqb (Role field) "key" then val
  else if String.eqb (Role field) "sum" then Some (A_sum (A_int K_int64 (int64EventFieldForSpec evt field)))
  else if String.eqb (Role field) "first" then A_first <$> val
  else if String.eqb (Role field) "current" then A_current <$> val
  else if String.eqb (Role field) "min" then A_min <$> val
  else if String.eqb (Role field) "max" then A_max <$> val
  else if String.eqb (Role field) "and" then A_and <$> val
  else None.

Definition put_field (evt : option Event) (m : fields) (field : AggregatorField) : fields :=
  match field_value evt field with Some v => <[Name field := v]> m | None => m end.

Definition aggregateFromEvent (cfg : AggregatorConfig) (evt : option Event) (now : Z) : res (string * aggregateRecord) :=
  match evt with
  | None => Panic "nil pointer dereference"
  | Some e =>
      match Fields e with
      | None => Err (Errorf "event fields are empty" [])
      | Some src =>
          rbind (buildKey evt (cfgFields cfg) (AggregateMissing cfg)) (fun key =>
            let recordFields := fold_left (put_field evt) (cfgFields cfg) (StaticFields cfg) in
            Ok (key, {| rFields := seedTimestamps recordFields src now; FirstSeen := now; LastSeen := now; Dirty := false |}))
      end
  end.

(** ** The stateful aggregator *)

Record Stateful : Type := {
  aCfg : AggregatorConfig; state : gmap string aggregateRecord; startedAt : Z; lastPeriodicRun : Z
}.

Definition NewStateful (cfg : AggregatorConfig) (now : Z) : Stateful :=
  {| aCfg := with_fields cfg (effectiveAggregatorFields cfg); state := ∅; startedAt := now; lastPeriodicRun := 0 |}.

Definition with_state (m : gmap string aggregateRecord) (a : Stateful) : Stateful :=
  {| aCfg := aCfg a; state := m; startedAt := startedAt a; lastPeriodicRun := lastPeriodicRun a |}.

Definition is_control (evt : option Event) : bool :=
  match evt with Some e => String.eqb (Kind e) "control" | None => false end.

Definition Process (now : Z) (evt : option Event) : ST Stateful (list (option Event)) :=
  if is_control evt then ret [evt]
  else fun a =>
    match aggregateFromEvent (aCfg a) evt now with
    | Ok (key, record) => (Ok [], with_state (<[key := Add (state a !! key) record]> (state a)) a)
    | Err e => (Err e, a)
    | Panic w => (Panic w, a)
    | Hang => (Hang, a)
    end.

Definition unwrap (val : any) : any :=
  match val with
  | A_sum v | A_first v | A_current v | A_min v | A_max v | A_and v => v
  | _ => val
  end.
Definition cloneFields (m : fields) : fields := unwrap <$> m.

(** [received] is the clock when the event is built. *)
Definition buildAggregatedEvent (received : Z) (stream key : string) (record : aggregateRecord) : Event :=
  {| ReceivedAt := received; Kind := ""; Stream := stream;
     Source := {| srcAddress := ""; srcRemote := ""; Type_ := "aggregated_flow"; CaptureInterfaceIndex := 0; JSONFlavor := ""; srcAgentIP := ""; srcSourceID := 0; SourceIDSet := false; Sampling := None |};
     Control := None; Fields := Some (cloneFields (rFields record)); evtMessage := []; evtPacket := None; SFlow := None;
     Aggregation := Some {| Key := key; FirstSeenUnix := UnixMilli (FirstSeen record);
                            LastSeenUnix := UnixMilli (LastSeen record) |};
     Payload := PL_nil; Internal := no_internal |}.

(** [now.Sub(t)] saturates; milliseconds as a [time.Duration] wrap. *)
Definition Sub (now t : Z) : Z := Z.max (- 2 ^ 63) (Z.min (2 ^ 63 - 1) (now - t)).
Definition Millisecond (ms : Z) : Z := to_int 64 (ms * 1000000).

Definition elapsed (ms now t : Z) : bool := (0 <? ms) && (Millisecond ms <=? Sub now t).

Definition shouldFlushIdle (a : Stateful) (record : aggregateRecord) (now : Z) : bool :=
  elapsed (IdleFlushAfter (Window (aCfg a))) now (LastSeen record).
Definition shouldFlushMax (a : Stateful) (record : aggregateRecord) (now : Z) : bool :=
  elapsed (MaxFlushAfter (Window (aCfg a))) now (FirstSeen record).
Definition shouldEmitPeriodic (record : aggregateRecord) : bool := Dirty record.
Definition shouldEraseIdle (a : Stateful) (record : aggregateRecord) (now : Z) : bool :=
  elapsed (IdleEraseAfter (Window (aCfg a))) now (LastSeen record).
Definition periodicDue (a : Stateful) (now : Z) : bool :=
  elapsed (Every (Periodic (aCfg a))) now (if lastPeriodicRun a =? 0 then startedAt a else lastPeriodicRun a).

Definition clean (r : aggregateRecord) : aggregateRecord :=
  {| rFields := rFields r; FirstSeen := FirstSeen r; LastSeen := LastSeen r; Dirty := false |}.

(** One round of the loop over the buckets: [None] deletes the entry; the flag tells whether
    the bucket is exported. *)
Definition flush_bucket (a : Stateful) (now : Z) (closing due : bool) (record : aggregateRecord)
    : bool * option aggregateRecord :=
  if closing then (true, Some record)
  else if shouldFlushIdle a record now || shouldFlushMax a record now then (true, None)
  else if due && shouldEmitPeriodic record then
    (true, if ResetBuckets (Periodic (aCfg a)) then None else Some (clean record))
  else (false, if shouldEraseIdle a record now then None else Some record).

Definition set_bucket (key : string) (r : option aggregateRecord) (m : gmap string aggregateRecord) : gmap string aggregateRecord :=
  match r with Some r => <[key := r]> m | None => delete key m end.

Fixpoint flush_loop (a : Stateful) (now : Z) (received : string -> Z) (closing due : bool) (order : list string)
    (m : gmap string aggregateRecord) : list Event * gmap string aggregateRecord :=
  match order with
  | [] => ([], m)
  | key :: order' =>
      match m !! key with
      | None => flush_loop a now received closing due order' m
      | Some record =>
          let '(emit, r) := flush_bucket a now closing due record in
          let '(out, m') := flush_loop a now received closing due order' (set_bucket key r m) in
          ((if emit then [buildAggregatedEvent (received key) (cfgStream (aCfg a)) key record] else []) ++ out, m')
      end
  end.

Definition flushAt (now : Z) (received : string -> Z) (closing : bool) (order : list string) (a : Stateful) : list Event * Stateful :=
  let due := periodicDue a now in
  let '(out, m) := flush_loop a now received closing due order (state a) in
  (out, {| aCfg := aCfg a; state := m; startedAt := startedAt a;
           lastPeriodicRun := if due then now else lastPeriodicRun a |}).

Definition Flush (now : Z) (received : string -> Z) (order : list string) : ST Stateful (list (option Event)) := fun a =>
  let '(out, a') := flushAt now received false order a in (Ok (map Some out), a').

Definition Close (received : string -> Z) (order : list string) : ST Stateful (list (option Event)) := fun a =>
  (Ok (map Some (omap (fun key => buildAggregatedEvent (received key) (cfgStream (aCfg a)) key <$> state a !! key) order)), a).

Definition min_interval (acc ms : Z) : Z :=
  if ms <=? 0 then acc else let d := Millisecond ms in if (acc =? 0) || (d <? acc) then d else acc.
Definition Interval (a : Stateful) : Z :=
  fold_left min_interval [IdleFlushAfter (Window (aCfg a)); MaxFlushAfter (Window (aCfg a));
    IdleEraseAfter (Window (aCfg a)); Every (Periodic (aCfg a))] 0.

(** ** The schema *)

(** The loops that skip empty and repeated names. *)
Fixpoint fresh_names (seen : list string) (l : list string) : list string :=
  match l with
  | [] => []
  | n :: l' => if String.eqb n "" || existsb (String.eqb n) seen then fresh_names seen l'
               else n :: fresh_names (n :: seen) l'
  end.
Fixpoint fresh_fields (seen : list string) (l : list AggregatorField) : list AggregatorField :=
  match l with
  | [] => []
  | f :: l' => if String.eqb (Name f) "" || existsb (String.eqb (Name f)) seen then fresh_fields seen l'
               else f :: fresh_fields (Name f :: seen) l'
  end.

Definition orderedSchemaFields (cfg : AggregatorConfig) : list string :=
  if FieldsConfigured cfg then fresh_names [] (map Name (cfgFields cfg))
  else fresh_names [] (KeyFields cfg ++ Sum cfg ++ First cfg ++ Current cfg ++ Min cfg ++ Max cfg ++ And cfg ++
         ["start_time_unix"; "end_time_unix"]%string ++ sorted_keys (StaticFields cfg)).

(** [roleByName], the role of the last list that names the field. *)
Definition roleByName (cfg : AggregatorConfig) (name : string) : string :=
  let has l := existsb (String.eqb name) l in
  if has (And cfg) then "and" else if has (Max cfg) then "max" else if has (Min cfg) then "min"
  else if has (Current cfg) then "current" else if has (First cfg) then "first" else if has (Sum cfg) then "sum"
  else if has (KeyFields cfg) then "key" else "".

Definition schemaFields (cfg : AggregatorConfig) : list SchemaField :=
  if FieldsConfigured cfg then
    map (fun f => {| sRole := Role f; sName := Name f; sValue := Value f |}) (fresh_fields [] (cfgFields cfg))
  else
    map (fun name =>
           let role := match StaticFields cfg !! name with
                       | Some _ => "static"%string
                       | None => let r := roleByName cfg name in if String.eqb r "" then "current"%string else r
                       end in
           {| sRole := role; sName := name; sValue := default A_nil (StaticFields cfg !! name) |})
      (orderedSchemaFields cfg).

Definition cloneStringMap (m : gmap string string) : option (gmap string string) :=
  if decide (m = ∅) then None else Some m.

Definition schemaInitEvents (now : Z) (cfg : AggregatorConfig) : list Event :=
  match orderedSchemaFields cfg with
  | [] => []
  | fieldNames =>
      [{| ReceivedAt := now; Kind := "control"; Stream := cfgStream cfg;
          Source := {| srcAddress := ""; srcRemote := ""; Type_ := "aggregator"; CaptureInterfaceIndex := 0; JSONFlavor := ""; srcAgentIP := ""; srcSourceID := 0; SourceIDSet := false; Sampling := None |};
          Control := Some {| cType := "schema"; cStream := cfgStream cfg |}; Fields := None; evtMessage := []; evtPacket := None; SFlow := None;
          Aggregation := None;
          Payload := PL_schema {| asStream := cfgStream cfg; FieldNames := fieldNames; asFields := schemaFields cfg;
            asKeyFields := KeyFields cfg; SumFields := Sum cfg; FirstFields := First cfg; CurrentFields := Current cfg;
            MinFields := Min cfg; MaxFields := Max cfg; AndFields := And cfg; asMatch := cloneStringMap (Match cfg);
            asStaticFields := cloneFields (StaticFields cfg); BaseTemplateID := TemplateID cfg |}; Internal := no_internal |}]
  end.

Definition InitEvents (now : Z) (a : Stateful) : list Event := schemaInitEvents now (aCfg a).

(** ** Passthrough *)

Definition schemaPassthrough_Process (cfg : AggregatorConfig) (evt : option Event) : list (option Event) :=
  match evt with
  | None => [evt]
  | Some e =>
      if bool_decide (StaticFields cfg = ∅) && String.eqb (EmitAs cfg) "" &&
         (String.eqb (Stream e) (cfgStream cfg) || String.eqb (cfgStream cfg) "") then [evt]
      else
        let data := String.eqb (EmitAs cfg) "data" in
        [Some {| ReceivedAt := ReceivedAt e; Kind := if data then "data" else Kind e;
                 Stream := if negb (String.eqb (cfgStream cfg) "") then cfgStream cfg else Stream e;
                 Source := Source e; Control := if data then None else Control e;
                 Fields := Some (StaticFields cfg ∪ cloneFields (default ∅ (Fields e))); evtMessage := evtMessage e; evtPacket := evtPacket e; SFlow := SFlow e;
                 Aggregation := Aggregation e; Payload := Payload e; Internal := Internal e |}]
  end.

(** [New]: a passthrough or a stateful stage. *)
Inductive Aggregator : Type := AG_Passthrough (cfg : AggregatorConfig) | AG_Stateful (a : Stateful).
Definition New (cfg : AggregatorConfig) (now : Z) : Aggregator :=
  let cfg := with_fields cfg (effectiveAggregatorFields cfg) in
  if Passthrough cfg then AG_Passthrough cfg else AG_Stateful (NewStateful cfg now).
End aggregate.
