(* ===== verification/AggregateKeys.v ===== *)
(** * Bucket keys

    [buildKey] writes the key fields of an event one after the other.  What is written can be
    read back: two events share a bucket exactly when their key fields agree. *)
From Stdlib Require Import Ascii.
From S2P Require Import Prelude Text ReflowEvent Aggregate.

(** ** What the text of a value identifies *)

Inductive token : Type :=
  | T_text (s : string)      (* nil, numbers and booleans, as they are printed *)
  | T_string (s : string)
  | T_json (s : string).

Definition text_char (c : ascii) : bool := negb (c =? "|")%char.

(** Text without the separator, that does not look like one of the other two. *)
Definition text_ok (s : string) : bool :=
  all_chars text_char s &&
  match s with String c _ => negb ((c =? "s") || (c =? "j"))%char | EmptyString => true end.

Definition write_token (t : token) : string :=
  match t with
  | T_text s => s
  | T_string s => "s" +:+ itoa (Z.of_nat (String.length s)) +:+ ":" +:+ s
  | T_json s => "j" +:+ itoa (Z.of_nat (String.length s)) +:+ ":" +:+ s
  end%string.

Definition token_ok (t : token) : Prop := match t with T_text s => text_ok s = true | _ => True end.

(** What can follow a token. *)
Definition tail_ok (r : string) : Prop := r = ""%string \/ exists r', r = String "|" r'.

Lemma text_split s1 s2 r1 r2 :
  all_chars text_char s1 = true -> all_chars text_char s2 = true -> tail_ok r1 -> tail_ok r2 ->
  s1 +:+ r1 = s2 +:+ r2 -> s1 = s2 /\ r1 = r2.
Proof.
  assert (Hbar : forall c s r, text_char c && all_chars text_char s = true -> tail_ok r -> "" +:+ r = String c s -> False).
  { intros c s r Hc [->|[r' ->]] E; [done|]. injection E as <- _. done. }
  revert s2. induction s1 as [|c s1 IH]; intros [|c2 s2] H1 H2 Hr1 Hr2 E; [done|..].
  - exfalso. destruct Hr1 as [->|[r' ->]]; [done|]. injection E as <- _. done.
  - exfalso. destruct Hr2 as [->|[r' ->]]; [done|]. injection E as -> _. done.
  - injection E as -> E. simpl in H1, H2. apply andb_prop in H1 as [_ H1]. apply andb_prop in H2 as [_ H2].
    destruct (IH s2 H1 H2 Hr1 Hr2 E) as [-> ->]. done.
Qed.

(** The length makes a prefixed value self-delimiting. *)
Lemma prefixed_split s1 s2 r1 r2 :
  (itoa (Z.of_nat (String.length s1)) +:+ ":" +:+ s1) +:+ r1 = (itoa (Z.of_nat (String.length s2)) +:+ ":" +:+ s2) +:+ r2 ->
  s1 = s2 /\ r1 = r2.
Proof.
  intros E. rewrite !string_app_assoc in E.
  apply digits_split in E as (Hl & _ & E); [|by apply itoa_digits; lia|by apply itoa_digits; lia|done|done].
  apply itoa_inj, Nat2Z.inj in Hl. by apply string_app_inj.
Qed.

Lemma text_not_prefixed c s r s' : text_ok s = true -> tail_ok r -> (c =? "s")%char || (c =? "j")%char = true ->
  s +:+ r = String c s' -> False.
Proof.
  intros Hs Hr Hc E. destruct s as [|c0 s].
  - destruct Hr as [->|[r' ->]]; [done|]. injection E as <- _. done.
  - injection E as -> _. apply andb_prop in Hs as [_ Hs]. by rewrite Hc in Hs.
Qed.

Lemma token_split t1 t2 r1 r2 : token_ok t1 -> token_ok t2 -> tail_ok r1 -> tail_ok r2 ->
  write_token t1 +:+ r1 = write_token t2 +:+ r2 -> t1 = t2 /\ r1 = r2.
Proof.
  intros H1 H2 Hr1 Hr2 E. destruct t1 as [s1|s1|s1], t2 as [s2|s2|s2]; cbn [write_token] in E.
  - apply andb_prop in H1 as [H1 _]. apply andb_prop in H2 as [H2 _].
    destruct (text_split _ _ _ _ H1 H2 Hr1 Hr2 E) as [-> ->]. done.
  - by eapply text_not_prefixed in E.
  - by eapply text_not_prefixed in E.
  - symmetry in E. by eapply text_not_prefixed in E.
  - injection E as E. apply prefixed_split in E as [-> ->]. done.
  - done.
  - symmetry in E. by eapply text_not_prefixed in E.
  - done.
  - injection E as E. apply prefixed_split in E as [-> ->]. done.
Qed.

(** ** Values as tokens *)

Section tokens.
Context `{GoLib}.

Definition token_of (val : any) : option token :=
  match val with
  | A_nil => Some (T_text "nil")
  | A_string s => Some (T_string s)
  | A_int _ z => Some (T_text (itoa z))
  | A_float64 b => Some (T_text (FormatFloat64 b))
  | A_float32 b => Some (T_text (FormatFloat32 b))
  | A_number s => Some (T_text s)
  | A_bool b => Some (T_text (FormatBool b))
  | _ => T_json <$> json_Marshal val
  end.

(** The text of a [json.Number] is a number. *)
Definition key_value_ok (val : any) : Prop :=
  match val with A_number s => all_chars is_number_char s = true | _ => True end.

Lemma write_token_of val :
  writeKeyValue val = match token_of val with Some t => Ok (write_token t) | None => Err (Errorf "json" []) end.
Proof. destruct val; try reflexivity; unfold writeKeyValue, token_of; by destruct (json_Marshal _). Qed.

(** The values of the key fields of an event: [None] when one is missing and may not be. *)
Definition key_values (evt : option Event) (aggregateMissing : bool) (l : list AggregatorField) : option (list any) :=
  mapM (fun f => match eventFieldValueForSpec evt f with
                 | Some v => Some v
                 | None => if aggregateMissing then Some A_nil else None
                 end) l.

Definition key_tokens (evt : option Event) (aggregateMissing : bool) (l : list AggregatorField) : option (list token) :=
  key_values evt aggregateMissing l ≫= mapM token_of.

Fixpoint write_tokens (i : nat) (ts : list token) : string :=
  match ts with
  | [] => ""
  | t :: ts' => (if (0 <? i)%nat then "|" else "") +:+ write_token t +:+ write_tokens (Datatypes.S i) ts'
  end%string.

Definition is_ok {A} (r : res A) : bool := match r with Ok _ => true | _ => false end.

Lemma key_tokens_cons evt am f l :
  key_tokens evt am (f :: l) =
  match (match eventFieldValueForSpec evt f with Some v => Some v | None => if am then Some A_nil else None end) ≫= token_of with
  | Some t => cons t <$> key_tokens evt am l
  | None => None
  end.
Proof.
  unfold key_tokens, key_values. cbn [mapM]. destruct (match eventFieldValueForSpec evt f with Some v => Some v | None => _ end);
    [|done]. cbn [mbind option_bind]. destruct (mapM _ l) as [vs|]; simpl; [by destruct (token_of a)|by destruct (token_of a)].
Qed.

Lemma build_loop_tokens evt am i l :
  match key_tokens evt am l with
  | Some ts => build_loop evt am i l = Ok (write_tokens i ts)
  | None => is_ok (build_loop evt am i l) = false
  end.
Proof.
  revert i. induction l as [|f l IH]; intros i; [done|]. rewrite key_tokens_cons. cbn [build_loop].
  assert (Hv : forall v, match token_of v with
    | Some t => match cons t <$> key_tokens evt am l with
                | Some ts => (match writeKeyValue v with
                              | Err e => Err (Wrap ("aggregation key field " +:+ Name f) [] e)
                              | Ok w => rbind (build_loop evt am (Datatypes.S i) l)
                                          (fun ws => Ok ((if (0 <? i)%nat then "|" else "") +:+ w +:+ ws)%string)
                              | Panic w => Panic w | Hang => Hang end) = Ok (write_tokens i ts)
                | None => is_ok (rbind (build_loop evt am (Datatypes.S i) l)
                                   (fun ws => Ok ((if (0 <? i)%nat then "|" else "") +:+ write_token t +:+ ws)%string)) = false
                end
    | None => True end).
  { intros v. rewrite write_token_of. destruct (token_of v) as [t|]; [|done]. specialize (IH (Datatypes.S i)).
    destruct (key_tokens evt am l); simpl; [by rewrite IH|by destruct (build_loop _ _ _ _)]. }
  destruct (eventFieldValueForSpec evt f) as [v|]; [|destruct am; [|done]]; cbn [rbind mbind option_bind];
    [specialize (Hv v)|specialize (Hv A_nil)]; rewrite write_token_of in Hv |- *;
    (destruct (token_of _) as [t|]; [|done]); by destruct (cons t <$> key_tokens evt _ l).
Qed.
End tokens.

Section keys.
Context `{HG : GoLib} {HS : GoLibSpec}.

Lemma all_chars_impl (f g : ascii -> bool) s :
  (forall c, f c = true -> g c = true) -> all_chars f s = true -> all_chars g s = true.
Proof.
  intros Hfg. induction s as [|c s IH]; [done|]. simpl. intros Hs. apply andb_prop in Hs as [Hc Hs].
  by rewrite Hfg, IH.
Qed.

Lemma number_char_text c : is_number_char c = true -> negb ((c =? "|") || ((c =? "s") || (c =? "j")))%char = true.
Proof. destruct c as [[] [] [] [] [] [] [] []]; vm_compute; congruence. Qed.

Lemma number_text_ok s : all_chars is_number_char s = true -> text_ok s = true.
Proof.
  intros Hs. unfold text_ok. rewrite (all_chars_impl is_number_char text_char); [|intros c Hc|done].
  - destruct s as [|c s]; [done|]. simpl in Hs. apply andb_prop in Hs as [Hc _]. apply number_char_text in Hc.
    by destruct (c =? "|")%char.
  - apply number_char_text in Hc. unfold text_char. by destruct (c =? "|")%char.
Qed.

Lemma itoa_number z : all_chars is_number_char (itoa z) = true.
Proof.
  assert (Hpos : forall z, 0 <= z -> all_chars is_number_char (itoa z) = true).
  { intros y Hy. apply (all_chars_impl is_digit); [|by apply itoa_digits]. intros c Hc. unfold is_number_char. by rewrite Hc. }
  destruct (Z.le_gt_cases 0 z); [by apply Hpos|]. destruct z as [|p|p]; [lia..|].
  change (itoa (Z.neg p)) with ("-" +:+ itoa (Z.pos p))%string. rewrite all_chars_app, Hpos by lia. done.
Qed.

Lemma token_of_ok val t : key_value_ok val -> token_of val = Some t -> token_ok t.
Proof using HS.
  intros Hv. destruct val; simpl; intros E;
    try (destruct (json_Marshal _); [injection E as <-|]; done); injection E as <-; simpl; try done.
  - apply number_text_ok, itoa_number.
  - apply number_text_ok, FormatFloat64_chars.
  - apply number_text_ok, FormatFloat32_chars.
  - by apply number_text_ok.
  - by destruct b.
Qed.


Lemma write_tokens_tail i ts : (0 < i)%nat -> tail_ok (write_tokens i ts).
Proof.
  intros Hi. destruct ts as [|t ts]; [by left|]. right. simpl. destruct (Nat.ltb_spec 0 i); [|lia]. by eexists.
Qed.

Lemma write_tokens_inj i ts1 ts2 : length ts1 = length ts2 -> Forall token_ok ts1 -> Forall token_ok ts2 ->
  write_tokens i ts1 = write_tokens i ts2 -> ts1 = ts2.
Proof.
  revert i ts2. induction ts1 as [|t1 ts1 IH]; intros i [|t2 ts2]; try done.
  intros [= Hl] H1 H2 E. apply Forall_cons in H1 as [Ht1 H1]. apply Forall_cons in H2 as [Ht2 H2].
  cbn [write_tokens] in E. apply string_app_inj in E as [_ E]; [|done].
  apply token_split in E as [-> E]; [|done|done|apply write_tokens_tail; lia|apply write_tokens_tail; lia].
  f_equal. by apply (IH (Datatypes.S i)).
Qed.

(** The key fields of an event hold JSON numbers where they hold a [json.Number]. *)
Definition keys_ok (evt : option Event) (l : list AggregatorField) : Prop :=
  forall f v, f ∈ aggregatorFieldsByRole l "key" -> eventFieldValueForSpec evt f = Some v -> key_value_ok v.

Lemma key_tokens_ok evt am l ts :
  (forall f v, f ∈ l -> eventFieldValueForSpec evt f = Some v -> key_value_ok v) -> key_tokens evt am l = Some ts ->
  length ts = length l /\ Forall token_ok ts.
Proof using HS.
  revert ts. induction l as [|f l IH]; intros ts Hok E; [by injection E as <-|].
  rewrite key_tokens_cons in E.
  destruct ((match eventFieldValueForSpec evt f with Some v => Some v | None => _ end) ≫= token_of) as [t|] eqn:Et; [|done].
  destruct (key_tokens evt am l) as [ts0|] eqn:E0; [|done]. injection E as <-.
  destruct (IH ts0) as [Hl Hts]; [intros f0 v Hf; apply Hok; by right|done|]. split; [by simpl; rewrite Hl|].
  constructor; [|done].
  destruct (eventFieldValueForSpec evt f) as [v|] eqn:Ev.
  - eapply token_of_ok; [|exact Et]. apply (Hok f); [by left|done].
  - destruct am; [|done]. by injection Et as <-.
Qed.

(** C36: buckets are told apart by the values of the key fields.  Two events get the same key
    exactly when each key field has the same text in both (numbers and booleans), the same
    string, or the same JSON; a delimiter or the word nil inside a string changes nothing, and
    a missing field is no string.  Without a key for an event there is an error. *)
Theorem build_key_injective (l : list AggregatorField) (am : bool) (e1 e2 : option Event) :
  keys_ok e1 l -> keys_ok e2 l ->
  let ts e := key_tokens e am (aggregatorFieldsByRole l "key") in
  (forall e, is_ok (buildKey e l am) = bool_decide (is_Some (ts e))) /\
  forall k1 k2, buildKey e1 l am = Ok k1 -> buildKey e2 l am = Ok k2 -> (k1 = k2 <-> ts e1 = ts e2).
Proof using HS.
  intros H1 H2. unfold keys_ok in *. cbv zeta. unfold buildKey.
  destruct (aggregatorFieldsByRole l "key") as [|f fs]; [split; [done|]; by intros k1 k2 [= <-] [= <-]|].
  split.
  - intros e. pose proof (build_loop_tokens e am 0 (f :: fs)) as H. destruct (key_tokens e am (f :: fs)); by rewrite H.
  - intros k1 k2 E1 E2. pose proof (build_loop_tokens e1 am 0 (f :: fs)) as T1. pose proof (build_loop_tokens e2 am 0 (f :: fs)) as T2.
    destruct (key_tokens e1 am (f :: fs)) as [ts1|] eqn:K1; [|by rewrite E1 in T1].
    destruct (key_tokens e2 am (f :: fs)) as [ts2|] eqn:K2; [|by rewrite E2 in T2].
    rewrite E1 in T1. rewrite E2 in T2. injection T1 as ->. injection T2 as ->.
    destruct (key_tokens_ok e1 am _ ts1 H1 K1) as [L1 O1]. destruct (key_tokens_ok e2 am _ ts2 H2 K2) as [L2 O2].
    split; [|congruence]. intros E. f_equal. apply (write_tokens_inj 0); [congruence|done..].
Qed.
End keys.

(** ** Witness *)

Lemma simple_lib_spec : GoLibSpec (H := simple_lib).
Proof. split; intros; simpl; [apply itoa_number|apply itoa_number|lia]. Qed.

(** A delimiter in a value, and the same text split elsewhere. *)
Definition key_event (src dst : string) : option Event :=
  Some {| ReceivedAt := 0; Kind := ""; Stream := ""; Source := zero_source; Control := None;
          Fields := Some (<["src" := A_string src]> (<["dst" := A_string dst]> ∅))%string;
          evtMessage := []; evtPacket := None; SFlow := None; Aggregation := None; Payload := PL_nil; Internal := no_internal |}.
Definition key_spec : list AggregatorField :=
  [{| Role := "key"; Name := "src"; Value := A_nil |}; {| Role := "key"; Name := "dst"; Value := A_nil |}].

Lemma build_key_injective_witness :
  buildKey (H := simple_lib) (key_event "a|s1:b" "c") key_spec false = Ok "s6:a|s1:b|s1:c"%string /\
  buildKey (H := simple_lib) (key_event "a" "b|s1:c") key_spec false = Ok "s1:a|s6:b|s1:c"%string /\
  "s6:a|s1:b|s1:c"%string <> "s1:a|s6:b|s1:c"%string.
Proof.
  assert (Hok : forall s d, keys_ok (HG := simple_lib) (key_event s d) key_spec).
  { intros s d f v Hf Hv. change (f ∈ key_spec) in Hf. apply elem_of_cons in Hf as [->|Hf]; [vm_compute in Hv; by injection Hv as <-|].
    apply list_elem_of_singleton in Hf as ->. vm_compute in Hv. by injection Hv as <-. }
  destruct (build_key_injective (HG := simple_lib) (HS := simple_lib_spec) key_spec false
    (key_event "a|s1:b" "c") (key_event "a" "b|s1:c") (Hok _ _) (Hok _ _)) as [_ Hkeys].
  split; [vm_compute; reflexivity|]. split; [vm_compute; reflexivity|]. intros E.
  apply (Hkeys _ _) in E; [vm_compute in E; done|vm_compute; reflexivity|vm_compute; reflexivity].
Defined.
