(* ===== verification/AggregateProps.v ===== *)
(** * What a bucket holds

    The record of a bucket, field by field, as a function of the events that entered it. *)
From S2P Require Import Prelude Text ReflowEvent Aggregate.

(** ** 64-bit sums *)

Definition total (l : list Z) : Z := fold_right Z.add 0 l.

Lemma total_app l1 l2 : total (l1 ++ l2) = total l1 + total l2.
Proof. unfold total. induction l1 as [|x l1 IH]; simpl in *; lia. Qed.

Section bucket.
Context `{GoLib}.

(** ** The merge, key by key *)

Lemma mergeFields_lookup dst src k :
  mergeFields dst src !! k =
  match src !! k with Some v => Some (merge_value k (dst !! k) v) | None => dst !! k end.
Proof.
  unfold mergeFields. revert k. apply (map_fold_weak_ind (fun d (m : fields) => forall k, d !! k =
    match m !! k with Some v => Some (merge_value k (dst !! k) v) | None => dst !! k end)).
  - intros k. by rewrite lookup_empty.
  - intros i x m d Hi IH k. destruct (decide (k = i)) as [->|Hne].
    + rewrite !lookup_insert_eq. specialize (IH i). rewrite Hi in IH. by rewrite IH.
    + by rewrite !lookup_insert_ne by done.
Qed.

(** Whether the name is one of the two timestamps, which are merged in their own way. *)
Definition timestamp_name (k : string) : bool := String.eqb k "start_time_unix" || String.eqb k "end_time_unix".

Definition merge_opt (k : string) (old : option any) (val : option any) : option any :=
  match val with Some v => Some (merge_value k old v) | None => old end.

Lemma Add_lookup r delta k : timestamp_name k = false ->
  rFields (Add r delta) !! k = merge_opt k (r ≫= fun r => rFields r !! k) (rFields delta !! k).
Proof.
  intros Hk. apply orb_false_elim in Hk as [H1 H2]. destruct r as [r|]; simpl.
  - rewrite mergeFields_lookup. by destruct (rFields delta !! k).
  - destruct (rFields delta !! k); [|done]. unfold merge_opt, merge_value. by rewrite H1, H2.
Qed.

(** ** The record of an event *)

(** A configuration whose field names are distinct, and differ from those the aggregator
    fills in itself. *)
Definition fields_ok (cfg : AggregatorConfig) : Prop :=
  NoDup (map Name (cfgFields cfg)) /\
  Forall (fun f => timestamp_name (Name f) = false /\ (StaticFields cfg : fields) !! Name f = None) (cfgFields cfg).

Lemma put_fields_other evt l m k : k ∉ map Name l -> fold_left (put_field evt) l m !! k = m !! k.
Proof.
  revert m. induction l as [|f l IH]; intros m Hk; [done|]. simpl. apply not_elem_of_cons in Hk as [Hne Hk].
  rewrite IH by done. unfold put_field. destruct (field_value evt f); [|done]. by rewrite lookup_insert_ne.
Qed.

Lemma put_fields_lookup evt l m f : NoDup (map Name l) -> f ∈ l -> m !! Name f = None ->
  fold_left (put_field evt) l m !! Name f = field_value evt f.
Proof.
  revert m. induction l as [|f0 l IH]; intros m Hnd Hf Hm; [by apply elem_of_nil in Hf|].
  simpl. apply NoDup_cons in Hnd as [H0 Hnd]. apply elem_of_cons in Hf as [->|Hf].
  - rewrite put_fields_other by done. unfold put_field. destruct (field_value evt f0); [|done]. by rewrite lookup_insert_eq.
  - apply IH; [done|done|]. unfold put_field. destruct (field_value evt f0); [|done].
    rewrite lookup_insert_ne; [done|]. intros E. apply H0. rewrite E. apply list_elem_of_fmap. eauto.
Qed.

Lemma record_lookup cfg evt now k r f : fields_ok cfg -> f ∈ cfgFields cfg ->
  aggregateFromEvent cfg evt now = Ok (k, r) -> rFields r !! Name f = field_value evt f.
Proof.
  intros [Hnd Hall] Hf E. unfold aggregateFromEvent in E. destruct evt as [e|]; [|done].
  destruct (Fields e) as [src|]; [|done]. destruct (buildKey _ _ _); try done. injection E as <- <-.
  destruct (proj1 (Forall_forall _ _) Hall f Hf) as [Ht Hs]. apply orb_false_elim in Ht as [H1 H2].
  apply String.eqb_neq in H1, H2. simpl. unfold seedTimestamps.
  rewrite !lookup_insert_ne by congruence. by apply put_fields_lookup.
Qed.

(** ** The bucket of a key after a sequence of events *)

Definition process_all (xs : list (Z * option Event)) (a : Stateful) : Stateful :=
  fold_left (fun a x => snd (Process x.1 x.2 a)) xs a.

(** The event and record of each element of a sequence that enters the bucket [k]. *)
Definition enters (cfg : AggregatorConfig) (k : string) (x : Z * option Event) : option (option Event * aggregateRecord) :=
  if is_control x.2 then None
  else match aggregateFromEvent cfg x.2 x.1 with
       | Ok (k', r) => if String.eqb k' k then Some (x.2, r) else None
       | _ => None
       end.

Lemma Process_cfg now evt a : aCfg (snd (Process now evt a)) = aCfg a.
Proof. unfold Process. destruct (is_control evt); [done|]. by destruct (aggregateFromEvent _ _ _) as [[]| | |]. Qed.

Lemma Process_lookup now evt a k :
  state (snd (Process now evt a)) !! k =
  match enters (aCfg a) k (now, evt) with Some (_, r) => Some (Add (state a !! k) r) | None => state a !! k end.
Proof.
  unfold Process, enters. simpl. destruct (is_control evt); [done|].
  destruct (aggregateFromEvent (aCfg a) evt now) as [[k' r]| | |]; [|done..]. simpl.
  destruct (String.eqb_spec k' k) as [->|Hne]; [by rewrite lookup_insert_eq|by rewrite lookup_insert_ne].
Qed.

Lemma process_all_lookup xs a k :
  state (process_all xs a) !! k =
  fold_left (fun o x => Some (Add o x.2)) (omap (enters (aCfg a) k) xs) (state a !! k).
Proof.
  unfold process_all. revert a. induction xs as [|[now evt] xs IH]; intros a; [done|]. simpl fold_left.
  rewrite IH, Process_cfg, Process_lookup. change (omap (enters (aCfg a) k) ((now, evt) :: xs))
    with (match enters (aCfg a) k (now, evt) with Some y => y :: omap (enters (aCfg a) k) xs
                                                | None => omap (enters (aCfg a) k) xs end).
  by destruct (enters (aCfg a) k (now, evt)) as [[]|].
Qed.

Lemma bucket_fold_lookup (l : list (option Event * aggregateRecord)) (o : option aggregateRecord) k :
  timestamp_name k = false ->
  (fold_left (fun o x => Some (Add o x.2)) l o ≫= fun r => rFields r !! k) =
  fold_left (merge_opt k) (map (fun x => rFields x.2 !! k) l) (o ≫= fun r => rFields r !! k).
Proof.
  intros Hk. revert o. induction l as [|x l IH]; intros o; [done|]. simpl. rewrite IH. f_equal. simpl. by apply Add_lookup.
Qed.

(** ** The reference: one field over the values of the events *)

(** [x] is the first of the values of least measure. *)
Definition first_least (measure : any -> Z) (vs : list any) (x : any) : Prop :=
  exists pre post, vs = pre ++ x :: post /\ Forall (fun w => measure x < measure w) pre /\
    Forall (fun w => measure x <= measure w) post.

(** What a policy makes of the values of a field, [None] where an event lacks it. *)
Definition reduced (role : string) (vals : list (option any)) (r : option any) : Prop :=
  let vs := omap id vals in
  if String.eqb role "sum" then r = Some (A_int K_int64 (to_int 64 (total (map int64FromAny vs))))
  else match vs with
       | [] => r = None
       | v :: ws =>
           if String.eqb role "first" then r = Some v
           else if String.eqb role "current" || String.eqb role "key" then r = Some (List.last vs A_nil)
           else if String.eqb role "min" then exists x, r = Some x /\ first_least int64FromAny vs x
           else if String.eqb role "max" then exists x, r = Some x /\ first_least (fun v => - int64FromAny v) vs x
           else if String.eqb role "and" then
             r = Some (match ws with
                       | [] => v
                       | _ => A_int K_uint32 (fold_left Z.land (map uint32FromAny ws) (uint32FromAny v))
                       end)
           else r = None
       end.

(** The numbers of the events are in the range of their types. *)
Definition int64_ok (v : any) : Prop := - 2 ^ 63 <= int64FromAny v < 2 ^ 63.

(** Merging wrapped values, for a name that is no timestamp. *)
Definition merge_with (f : any -> any -> any) (wrap : any -> any) (o : option any) (v : any) : option any :=
  Some (match o with None => wrap v | Some c => wrap (f c v) end).

Section roles.
Context (k : string) (Hk : timestamp_name k = false).

Lemma merge_value_new v : merge_value k None v = v.
Proof using Hk. apply orb_false_elim in Hk as [H1 H2]. unfold merge_value. by rewrite H1, H2. Qed.

Lemma merge_value_old c v : merge_value k (Some c) v =
  match v with
  | A_sum v => A_sum (A_int K_int64 (to_int 64 (sumValueOf c + int64FromAny v)))
  | A_first _ => c | A_current _ => v
  | A_min v => A_min (minAny c v) | A_max v => A_max (maxAny c v) | A_and v => A_and (andAny c v)
  | _ => v
  end.
Proof using Hk. apply orb_false_elim in Hk as [H1 H2]. unfold merge_value. by rewrite H1, H2. Qed.

(** The fold over the events is one over the values that are there. *)
Lemma fold_present (g : any -> any) (vals : list (option any)) o :
  fold_left (merge_opt k) (map (fun v => g <$> v) vals) o =
  fold_left (fun o v => Some (merge_value k o (g v))) (omap id vals) o.
Proof.
  revert o. induction vals as [|[v|] vals IH]; intros o; [done| |]; simpl; apply IH.
Qed.

Lemma fold_sum (zs : list Z) o : Forall (fun z => - 2 ^ 63 <= z < 2 ^ 63) zs -> zs <> [] \/ is_Some o ->
  (forall c, o = Some c -> exists z, c = A_sum (A_int K_int64 z) /\ to_int 64 z = z) ->
  fold_left (merge_opt k) (map (fun z => Some (A_sum (A_int K_int64 z))) zs) o =
  Some (A_sum (A_int K_int64 (to_int 64 (match o with Some c => sumValueOf c | None => 0 end + total zs)))).
Proof using Hk.
  revert o. induction zs as [|z zs IH]; intros o Hz Hne Ho.
  - destruct Hne as [|[c ->]]; [done|]. destruct (Ho c eq_refl) as (z & -> & Hz'). simpl. by rewrite Z.add_0_r, Hz'.
  - apply Forall_cons in Hz as [Hz Hzs]. simpl fold_left. rewrite IH; [|done|by right; eexists|].
    + do 3 f_equal. unfold total. simpl. fold (total zs). destruct o as [c|].
      * rewrite merge_value_old. simpl. by rewrite to_int_add, Z.add_assoc by lia.
      * by rewrite merge_value_new.
    + intros c [= <-]. destruct o as [c|].
      * rewrite merge_value_old. eexists. split; [done|]. apply to_int_eq. by apply to_int_mod.
      * rewrite merge_value_new. exists z. split; [done|]. by apply to_int64_small.
Qed.

Lemma fold_kept (vs : list any) c :
  fold_left (fun o v => Some (merge_value k o (A_first v))) vs (Some c) = Some c.
Proof using Hk. induction vs as [|v vs IH]; [done|]. simpl. by rewrite merge_value_old. Qed.

(** The last value wins. *)
Lemma fold_last (g : any -> any) (vs : list any) o :
  Forall (fun v => forall c, merge_value k (Some c) (g v) = g v) vs ->
  fold_left (fun o v => Some (merge_value k o (g v))) vs o =
  match vs with [] => o | _ => Some (g (List.last vs A_nil)) end.
Proof using Hk.
  intros Hg. destruct vs as [|v vs] using rev_ind; [done|]. apply Forall_app in Hg as [_ Hg].
  apply Forall_cons in Hg as [Hg _]. rewrite fold_left_app. simpl.
  rewrite List.last_last. destruct (vs ++ [v]) eqn:E; [by destruct vs|].
  destruct (fold_left _ vs o); by rewrite ?Hg, ?merge_value_new.
Qed.

(** The incoming value wins when it is smaller. *)
Lemma fold_least (m : any -> Z) (g : any -> any) v vs :
  (forall c w, merge_value k (Some (g c)) (g w) = g (if m w <? m c then w else c)) ->
  exists x, fold_left (fun o v => Some (merge_value k o (g v))) (v :: vs) None = Some (g x) /\ first_least m (v :: vs) x.
Proof using Hk.
  intros Hg. induction vs as [|w vs IH] using rev_ind.
  - exists v. simpl. rewrite merge_value_new. split; [done|]. by exists [], [].
  - destruct IH as (x & E & pre & post & Hl & Hpre & Hpost). rewrite app_comm_cons, fold_left_app, E.
    cbn [fold_left]. rewrite Hg, Hl, <- app_assoc. destruct (Z.ltb_spec (m w) (m x)).
    + exists w. split; [done|]. exists (pre ++ x :: post), []. rewrite <- app_assoc. split; [done|]. split; [|constructor].
      apply Forall_app. split; [|constructor; [done|]]; (eapply Forall_impl; [eassumption|]; cbn beta; lia).
    + exists x. split; [done|]. exists pre, (post ++ [w]). split; [done|]. split; [done|].
      apply Forall_app. by split; [|constructor].
Qed.

Lemma fold_and v vs :
  fold_left (fun o v => Some (merge_value k o (A_and v))) (v :: vs) None =
  Some (A_and (match vs with
               | [] => v
               | _ => A_int K_uint32 (fold_left Z.land (map uint32FromAny vs) (uint32FromAny v))
               end)).
Proof using Hk.
  induction vs as [|w vs IH] using rev_ind; [simpl; by rewrite merge_value_new|].
  rewrite app_comm_cons, fold_left_app, IH. cbn [fold_left]. rewrite merge_value_old. unfold andAny.
  rewrite map_app, fold_left_app. cbn [map fold_left]. destruct vs; [done|]. by destruct (_ ++ [w]) eqn:E.
Qed.
End roles.

(** A value that is no accumulator, with its number in the range of [int64]. *)
Definition plain (v : any) : Prop := unwrap v = v.
Definition value_ok (v : any) : Prop := plain v /\ int64_ok v.

Fixpoint depth (v : any) : nat :=
  match v with A_sum v | A_first v | A_current v | A_min v | A_max v | A_and v => Datatypes.S (depth v) | _ => 0%nat end.

Lemma merge_plain k c v : timestamp_name k = false -> plain v -> merge_value k (Some c) v = v.
Proof.
  intros Hk Hv. rewrite merge_value_old by done. unfold plain in Hv.
  destruct v; try done; by apply (f_equal depth), Nat.neq_succ_diag_r in Hv.
Qed.

Lemma total_present (vals : list (option any)) :
  total (map (fun v => match v with Some v => int64FromAny v | None => 0 end) vals) =
  total (map int64FromAny (omap id vals)).
Proof.
  induction vals as [|[v|] vals IH]; [done| |]; [change (omap id (Some v :: vals)) with (v :: omap id vals)|exact IH].
  unfold total in *. cbn [map fold_right]. by rewrite IH.
Qed.

Lemma last_elem_of {A} (l : list A) d : l <> [] -> List.last l d ∈ l.
Proof.
  destruct l as [|x l] using rev_ind; [done|]. intros _. rewrite List.last_last. apply elem_of_app. right. by left.
Qed.

(** One field of the fold over the events of a bucket. *)
Lemma field_reduced (f : AggregatorField) (evts : list (option Event)) :
  timestamp_name (Name f) = false -> evts <> [] ->
  Forall (fun e => forall v, eventFieldValueForSpec e f = Some v -> value_ok v) evts ->
  reduced (Role f) (map (fun e => eventFieldValueForSpec e f) evts)
    (unwrap <$> fold_left (merge_opt (Name f)) (map (fun e => field_value e f) evts) None).
Proof.
  intros Hk Hne Hok. unfold reduced. set (vals := map (fun e => eventFieldValueForSpec e f) evts).
  assert (Hpresent : Forall value_ok (omap id vals)).
  { subst vals. clear Hne. induction Hok as [|e evts He _ IH]; [constructor|]. simpl.
    destruct (eventFieldValueForSpec e f) as [v|]; simpl; [constructor; [by apply He|done]|done]. }
  assert (Hwrap : forall g, (forall e, field_value e f = g <$> eventFieldValueForSpec e f) ->
    fold_left (merge_opt (Name f)) (map (fun e => field_value e f) evts) None =
    fold_left (fun o v => Some (merge_value (Name f) o (g v))) (omap id vals) None).
  { intros g Hg. rewrite <- fold_present. subst vals. rewrite map_map. f_equal. by apply map_ext. }
  unfold field_value in Hwrap |- *.
  destruct (String.eqb_spec (Role f) "sum") as [E|Hsum].
  { rewrite E. cbn [String.eqb Ascii.eqb Bool.eqb andb].
    rewrite <- (map_map (fun e => int64EventFieldForSpec e f) (fun z => Some (A_sum (A_int K_int64 z)))).
    rewrite fold_sum; [|done| |left; by destruct evts|done].
    - simpl. subst vals. rewrite <- total_present, map_map. done.
    - apply Forall_map. eapply Forall_impl; [exact Hok|]. intros e He. cbn beta. unfold int64EventFieldForSpec.
      destruct (eventFieldValueForSpec e f) as [v|] eqn:Ev; [apply (He v Ev)|lia]. }
  repeat match goal with
  | |- context [String.eqb (Role f) ?r] => let E := fresh "E" in destruct (String.eqb_spec (Role f) r) as [E|?]
  end; try congruence; cbn [orb] in Hwrap |- *.
  - rewrite (Hwrap id) by (intros; by destruct (eventFieldValueForSpec e f)). destruct (omap id vals) as [|v ws]; [done|].
    rewrite (fold_last _ Hk) by (eapply Forall_impl; [exact Hpresent|]; intros v0 [? _] c; by apply merge_plain).
    cbn [fmap option_fmap option_map]. f_equal.
    by apply (proj1 (Forall_forall _ _) Hpresent), last_elem_of.
  - rewrite (Hwrap A_first) by done. destruct (omap id vals) as [|v ws]; [done|].
    cbn [fold_left]. by rewrite merge_value_new, fold_kept.
  - rewrite (Hwrap A_current) by done. destruct (omap id vals) as [|v ws]; [done|].
    rewrite (fold_last _ Hk); [done|]. apply Forall_true. intros v0 c. by rewrite merge_value_old.
  - rewrite (Hwrap A_min) by done. destruct (omap id vals) as [|v ws]; [done|].
    destruct (fold_least (Name f) Hk int64FromAny A_min v ws) as (x & -> & Hx); [|by exists x].
    intros c w. by rewrite merge_value_old.
  - rewrite (Hwrap A_max) by done. destruct (omap id vals) as [|v ws]; [done|].
    destruct (fold_least (Name f) Hk (fun v => - int64FromAny v) A_max v ws) as (x & -> & Hx); [|by exists x].
    intros c w. rewrite merge_value_old by done. simpl.
    destruct (Z.ltb_spec (int64FromAny c) (int64FromAny w)), (Z.ltb_spec (- int64FromAny w) (- int64FromAny c)); done || lia.
  - rewrite (Hwrap A_and) by done. destruct (omap id vals) as [|v ws]; [done|]. by rewrite fold_and.
  - assert (fold_left (merge_opt (Name f)) (map (fun _ => None) evts) None = None) as ->
      by (clear; induction evts; [done|exact IHevts]). by destruct (omap id vals).
Qed.

(** ** Times *)

(** A number of the record that each merge takes from one of the two, by a preference. *)
Lemma fold_extreme (rel : Z -> Z -> Prop) (get : aggregateRecord -> Z) (good : aggregateRecord -> Prop)
    (l : list (option Event * aggregateRecord)) :
  Reflexive rel -> Transitive rel ->
  (forall d, good d -> good (Add None d) /\ get (Add None d) = get d) ->
  (forall r d, good r -> good d -> good (Add (Some r) d) /\
     (get (Add (Some r) d) = get r /\ rel (get r) (get d) \/ get (Add (Some r) d) = get d /\ rel (get d) (get r))) ->
  l <> [] -> Forall (fun x => good x.2) l ->
  exists r, fold_left (fun o x => Some (Add o x.2)) l None = Some r /\ good r /\
    get r ∈ map (fun x => get x.2) l /\ Forall (fun x => rel (get r) (get x.2)) l.
Proof.
  intros Hrefl Htrans Hnew Hold. induction l as [|x l IH] using rev_ind; [done|]. intros _ Hg.
  apply Forall_app in Hg as [Hg Hx]. apply Forall_cons in Hx as [Hx _]. rewrite fold_left_app, map_app. cbn [fold_left map].
  destruct l as [|y l'] eqn:El; rewrite <- ?El in *.
  - subst l. destruct (Hnew x.2 Hx) as [Hgd Eq]. exists (Add None x.2). split; [done|]. split; [done|]. rewrite Eq.
    split; [by left|by constructor].
  - destruct IH as (r & -> & Hr & Hin & Hall); [by subst|done|]. destruct (Hold r x.2 Hr Hx) as [Hgr Hcase].
    exists (Add (Some r) x.2). split; [done|]. split; [done|]. destruct Hcase as [[-> Hrel]|[-> Hrel]].
    + split; [apply elem_of_app; by left|]. apply Forall_app. by split; [|constructor].
    + split; [apply elem_of_app; right; by left|]. apply Forall_app. split; [|by constructor].
      eapply Forall_impl; [exact Hall|]. intros y0 Hy0. by transitivity (get r).
Qed.

(** A timestamp of a record. *)
Definition stamp (name : string) (r : aggregateRecord) : Z := int64FromAny (default A_nil (rFields r !! name)).
Definition stamped (name : string) (r : aggregateRecord) : Prop :=
  exists z, rFields r !! name = Some (A_int K_int64 z) /\ z <> 0.

Lemma stamped_stamp name r : stamped name r -> rFields r !! name = Some (A_int K_int64 (stamp name r)) /\ stamp name r <> 0.
Proof. intros (z & E & Hz). unfold stamp. by rewrite E. Qed.

Lemma Add_stamp name f (Hf : forall a b, a <> 0 -> b <> 0 -> f a b = a \/ f a b = b) :
  (forall old val, merge_value name old val = A_int K_int64 (f (int64FromAny (default A_nil old)) (int64FromAny val))) ->
  forall r d, stamped name r -> stamped name d -> stamped name (Add (Some r) d) /\
    stamp name (Add (Some r) d) = f (stamp name r) (stamp name d).
Proof.
  intros Hm r d (a & Ea & Ha) (b & Eb & Hb).
  assert (rFields (Add (Some r) d) !! name = Some (A_int K_int64 (f a b))) as E.
  { simpl. rewrite mergeFields_lookup, Eb, Ea, Hm. done. }
  split; [exists (f a b); split; [done|]; by destruct (Hf a b Ha Hb) as [-> | ->]|].
  unfold stamp. by rewrite E, Ea, Eb.
Qed.

Lemma bucket_start (l : list (option Event * aggregateRecord)) : l <> [] -> Forall (fun x => stamped "start_time_unix" x.2) l ->
  exists r, fold_left (fun o x => Some (Add o x.2)) l None = Some r /\ stamped "start_time_unix" r /\
    stamp "start_time_unix" r ∈ map (fun x => stamp "start_time_unix" x.2) l /\
    Forall (fun x => stamp "start_time_unix" r <= stamp "start_time_unix" x.2) l.
Proof.
  apply (fold_extreme Z.le); [intros ?; lia|intros ? ? ?; lia|done|]. intros r d Hr Hd.
  assert (Hf : forall a b, a <> 0 -> b <> 0 -> minTimestamp a b = a /\ a <= b \/ minTimestamp a b = b /\ b <= a).
  { intros a b Ha Hb. unfold minTimestamp. destruct (Z.eqb_spec a 0), (Z.eqb_spec b 0); try done. simpl.
    destruct (Z.leb_spec a b); [by left|right; split; [done|lia]]. }
  destruct (Add_stamp "start_time_unix" minTimestamp) with (r := r) (d := d) as [Hs ->]; [|done..|].
  { intros a b Ha Hb. destruct (Hf a b Ha Hb) as [[-> _]|[-> _]]; auto. }
  split; [done|]. apply Hf; by apply stamped_stamp.
Qed.

Lemma bucket_end (l : list (option Event * aggregateRecord)) : l <> [] -> Forall (fun x => stamped "end_time_unix" x.2) l ->
  exists r, fold_left (fun o x => Some (Add o x.2)) l None = Some r /\ stamped "end_time_unix" r /\
    stamp "end_time_unix" r ∈ map (fun x => stamp "end_time_unix" x.2) l /\
    Forall (fun x => stamp "end_time_unix" x.2 <= stamp "end_time_unix" r) l.
Proof.
  apply (fold_extreme (fun a b => b <= a)); [intros ?; lia|intros ? ? ?; lia|done|]. intros r d Hr Hd.
  assert (Hf : forall a b, a <> 0 -> b <> 0 -> maxTimestamp a b = a /\ b <= a \/ maxTimestamp a b = b /\ a <= b).
  { intros a b Ha Hb. unfold maxTimestamp. destruct (Z.eqb_spec a 0), (Z.eqb_spec b 0); try done. simpl.
    destruct (Z.leb_spec b a); [by left|right; split; [done|lia]]. }
  destruct (Add_stamp "end_time_unix" maxTimestamp) with (r := r) (d := d) as [Hs ->]; [|done..|].
  { intros a b Ha Hb. destruct (Hf a b Ha Hb) as [[-> _]|[-> _]]; auto. }
  split; [done|]. apply Hf; by apply stamped_stamp.
Qed.

Lemma bucket_seen (l : list (option Event * aggregateRecord)) : l <> [] ->
  exists r, fold_left (fun o x => Some (Add o x.2)) l None = Some r /\ Dirty r = true /\
    Forall (fun x => FirstSeen r <= FirstSeen x.2 /\ LastSeen x.2 <= LastSeen r) l.
Proof.
  intros Hl. destruct (fold_extreme Z.le FirstSeen (fun _ => True) l) as (r & E & _ & _ & H1);
    [intros ?; lia|intros ? ? ?; lia|done| |done|by apply Forall_true|].
  { intros r d _ _. split; [done|]. simpl. destruct (Z.ltb_spec (FirstSeen d) (FirstSeen r)); [right|left]; lia. }
  destruct (fold_extreme (fun a b => b <= a) LastSeen (fun _ => True) l) as (r' & E' & _ & _ & H2);
    [intros ?; lia|intros ? ? ?; lia|done| |done|by apply Forall_true|].
  { intros r' d _ _. split; [done|]. simpl. destruct (Z.ltb_spec (LastSeen r') (LastSeen d)); [right|left]; lia. }
  rewrite E in E'. injection E' as <-. exists r. split; [done|]. split; [|by apply Forall_and].
  destruct l as [|x l] using rev_ind; [done|]. rewrite fold_left_app in E. injection E as <-.
  by destruct (fold_left _ l None).
Qed.

(** ** The contents of a bucket *)

Definition is_time (e : option Event * aggregateRecord) : Prop :=
  stamped "start_time_unix" e.2 /\ stamped "end_time_unix" e.2.

(** What the bucket of a key holds after the events [l] that entered it. *)
Record holds (cfg : AggregatorConfig) (l : list (option Event * aggregateRecord)) (r : aggregateRecord) : Prop := {
  holds_field f : f ∈ cfgFields cfg ->
    Forall (fun e => forall v, eventFieldValueForSpec e f = Some v -> value_ok v) (map fst l) ->
    reduced (Role f) (map (fun e => eventFieldValueForSpec e f) (map fst l)) (cloneFields (rFields r) !! Name f);
  holds_times : Forall is_time l ->
    stamp "start_time_unix" r ∈ map (fun x => stamp "start_time_unix" x.2) l /\
    stamp "end_time_unix" r ∈ map (fun x => stamp "end_time_unix" x.2) l /\
    Forall (fun x => stamp "start_time_unix" r <= stamp "start_time_unix" x.2 /\
                     stamp "end_time_unix" x.2 <= stamp "end_time_unix" r) l;
  holds_seen : Forall (fun x => FirstSeen r <= FirstSeen x.2 /\ LastSeen x.2 <= LastSeen r) l;
  holds_dirty : Dirty r = true
}.

Lemma enters_record cfg k x e r f : fields_ok cfg -> f ∈ cfgFields cfg -> enters cfg k x = Some (e, r) ->
  rFields r !! Name f = field_value e f.
Proof.
  intros Hok Hf E. unfold enters in E. destruct (is_control x.2); [done|].
  destruct (aggregateFromEvent cfg x.2 x.1) as [[k' r']| | |] eqn:Er; try done.
  destruct (String.eqb k' k); [|done]. injection E as <- <-. by apply (record_lookup _ _ _ _ _ _ Hok Hf Er).
Qed.

End bucket.

(** ** Witness *)

Definition field (role name : string) : AggregatorField := {| Role := role; Name := name; Value := A_nil |}.

Definition demo_cfg : AggregatorConfig :=
  {| cfgStream := "flows"; Passthrough := false; EmitAs := "";
     Window := {| IdleFlushAfter := 1000; MaxFlushAfter := 60000; IdleEraseAfter := 0 |};
     Periodic := {| Every := 0; ResetBuckets := false |};
     cfgFields := [field "key" "src_addr"; field "sum" "bytes"; field "max" "ttl"]; FieldsConfigured := true;
     KeyFields := []; Sum := []; First := []; Current := []; Min := []; Max := []; And := []; Match := ∅;
     TemplateID := 256; StaticFields := ∅; AggregateMissing := false |}.

Definition demo_event (src : string) (bytes ttl : Z) : option Event :=
  Some {| ReceivedAt := 0; Kind := ""; Stream := ""; Source := zero_source; Control := None;
          Fields := Some (<["src_addr" := A_string src]> (<["bytes" := A_int K_uint64 bytes]>
                      (<["ttl" := A_int K_uint32 ttl]> ∅)))%string;
          evtMessage := []; evtPacket := None; SFlow := None; Aggregation := None; Payload := PL_nil; Internal := no_internal |}.

Definition demo_stage : Stateful :=
  {| aCfg := demo_cfg; state := ∅; startedAt := 0; lastPeriodicRun := 0 |}.

Definition demo_events : list (Z * option Event) :=
  [(5000000, demo_event "10.0.0.1" 1500 64); (6000000, demo_event "10.0.0.2" 40 64);
   (7000000, demo_event "10.0.0.1" 100 128)]%string.

Lemma demo_fields_ok : fields_ok demo_cfg.
Proof. split; [by apply (bool_decide_unpack _); vm_compute|]. repeat constructor. Qed.

