(* ===== verification/AggregateFlush.v ===== *)
(** * When buckets leave

    The flush over all buckets, histories of events and flushes, what they conserve, and
    when a bucket must have been exported. *)
From S2P Require Import Prelude Text ReflowEvent Aggregate AggregateProps.

Section flush.
Context `{GoLib}.

(** ** One flush *)

Definition emits (a : Stateful) (now : Z) (due : bool) (r : aggregateRecord) : bool := (flush_bucket a now false due r).1.
Definition keeps (a : Stateful) (now : Z) (due : bool) (r : aggregateRecord) : option aggregateRecord :=
  (flush_bucket a now false due r).2.

(** The event of a bucket in a flush. *)
Definition flush_event (a : Stateful) (now : Z) (received : string -> Z) (due : bool) (m : gmap string aggregateRecord)
    (key : string) : option Event :=
  match m !! key with
  | Some r => if emits a now due r then Some (buildAggregatedEvent (received key) (cfgStream (aCfg a)) key r) else None
  | None => None
  end.

Lemma set_bucket_other key r m k : k <> key -> set_bucket key r m !! k = m !! k.
Proof. intros Hne. destruct r; simpl; [by rewrite lookup_insert_ne|by rewrite lookup_delete_ne]. Qed.

Lemma set_bucket_same key r m : set_bucket key r m !! key = r.
Proof. destruct r; simpl; [by rewrite lookup_insert_eq|by rewrite lookup_delete_eq]. Qed.

Lemma flush_loop_cons a now received due key order m :
  flush_loop a now received false due (key :: order) m =
  let m1 := match m !! key with Some r => set_bucket key (keeps a now due r) m | None => m end in
  let '(out, m') := flush_loop a now received false due order m1 in
  (match flush_event a now received due m key with Some e => [e] | None => [] end ++ out, m').
Proof.
  cbn [flush_loop]. unfold flush_event, emits, keeps. destruct (m !! key) as [r|]; [|by destruct (flush_loop _ _ _ _ _ _ m)].
  destruct (flush_bucket a now false due r) as [emit r']. cbn [fst snd].
  destruct (flush_loop _ _ _ _ _ _ (set_bucket key r' m)). by destruct emit.
Qed.

(** No bucket influences another one. *)
Lemma flush_loop_eq a now received due order m : NoDup order ->
  flush_loop a now received false due order m =
  (omap (flush_event a now received due m) order, (flush_loop a now received false due order m).2) /\
  forall k, (flush_loop a now received false due order m).2 !! k =
    if decide (k ∈ order) then m !! k ≫= keeps a now due else m !! k.
Proof.
  revert m. induction order as [|key order IH]; intros m Hnd.
  { split; [done|]. intros k. case_decide as Hk; [by apply elem_of_nil in Hk|done]. }
  apply NoDup_cons in Hnd as [Hkey Hnd]. rewrite flush_loop_cons. cbv zeta.
  set (m1 := match m !! key with Some r => _ | None => m end). destruct (IH m1 Hnd) as [E Hlook].
  destruct (flush_loop a now received false due order m1) as [out m'] eqn:Eloop. cbn [snd] in *.
  assert (Hother : forall k, k <> key -> m1 !! k = m !! k).
  { intros k Hne. subst m1. destruct (m !! key); [by apply set_bucket_other|done]. }
  split.
  - injection E as ->. f_equal. cbn [omap list_omap].
    assert (omap (flush_event a now received due m1) order = omap (flush_event a now received due m) order) as ->.
    { apply list_omap_ext, Forall_Forall2_diag, Forall_forall. intros k Hk. unfold flush_event. rewrite Hother; [done|]. by intros ->. }
    by destruct (flush_event a now received due m key).
  - intros k. rewrite Hlook. destruct (decide (k = key)) as [->|Hne].
    + rewrite decide_False by done. rewrite decide_True by by left. subst m1.
      destruct (m !! key) as [r|] eqn:Em; [apply set_bucket_same|done].
    + rewrite Hother by done. apply decide_ext. by rewrite elem_of_cons; intuition.
Qed.

(** An order in which Go may iterate over a map. *)
Definition iterates (order : list string) (m : gmap string aggregateRecord) : Prop :=
  NoDup order /\ forall k, k ∈ order <-> is_Some (m !! k).

(** One flush.  Whatever the order in which Go visits the map, each bucket is treated on its
    own: it is exported, once and as it is, when it was idle or old enough or the periodic
    export is due and it changed; it then goes away, except that a periodic export keeps it,
    unchanged but clean, unless buckets are reset.  A bucket goes unexported only when it was
    idle for the erase time.  No bucket that stays has an elapsed window or, when the periodic
    export was due, an unexported change. *)
Theorem flush_policy now received order a : iterates order (state a) ->
  let '(out, a') := flushAt now received false order a in
  let due := periodicDue a now in
  let leaves r := shouldFlushIdle a r now || shouldFlushMax a r now in
  out = omap (fun key => match state a !! key with
                         | Some r => if leaves r || (due && Dirty r)
                                     then Some (buildAggregatedEvent (received key) (cfgStream (aCfg a)) key r) else None
                         | None => None
                         end) order /\
  (forall k, state a' !! k = state a !! k ≫= fun r =>
     if leaves r then None
     else if due && Dirty r then if ResetBuckets (Periodic (aCfg a)) then None else Some (clean r)
     else if shouldEraseIdle a r now then None else Some r) /\
  (forall k r, state a' !! k = Some r -> leaves r = false /\ (due = true -> Dirty r = false)).
Proof.
  intros [Hnd Hiter]. unfold flushAt. set (due := periodicDue a now).
  destruct (flush_loop_eq a now received due order (state a) Hnd) as [E Hlook].
  destruct (flush_loop a now received false due order (state a)) as [out m'] eqn:El. cbn [snd] in *.
  injection E as ->.
  assert (Hm' : forall k, m' !! k = state a !! k ≫= keeps a now due).
  { intros k. rewrite Hlook. case_decide as Hk; [done|]. destruct (state a !! k) eqn:Es; [|done].
    destruct Hk. apply Hiter. by rewrite Es. }
  cbv zeta. cbn [state]. split; [|split].
  - apply list_omap_ext, Forall_Forall2_diag, Forall_true. intros key. unfold flush_event, emits, flush_bucket, shouldEmitPeriodic.
    destruct (state a !! key) as [r|]; [|done]. destruct (shouldFlushIdle a r now || shouldFlushMax a r now); [done|].
    by destruct (due && Dirty r).
  - intros k. rewrite Hm'. destruct (state a !! k) as [r|]; [|done]. cbn [mbind option_bind].
    unfold keeps, flush_bucket, shouldEmitPeriodic. repeat case_match; done.
  - intros k r'. rewrite Hm'. destruct (state a !! k) as [r|]; [|done]. cbn [mbind option_bind].
    unfold keeps, flush_bucket, shouldEmitPeriodic.
    destruct (shouldFlushIdle a r now || shouldFlushMax a r now) eqn:Ew; [done|].
    destruct (due && Dirty r) eqn:Ed.
    + destruct (ResetBuckets _); [done|]. intros [= <-]. done.
    + destruct (shouldEraseIdle a r now); [done|]. intros [= <-]. split; [done|]. intros Hdue. by rewrite Hdue in Ed.
Qed.

(** ** Histories *)

Inductive op : Type :=
  | O_event (now : Z) (evt : option Event)
  | O_flush (now : Z) (received : string -> Z) (order : list string).

(** The aggregates that an operation exports. *)
Definition apply_op (o : op) (a : Stateful) : list Event * Stateful :=
  match o with
  | O_event now evt => ([], snd (Process now evt a))
  | O_flush now received order => flushAt now received false order a
  end.

Fixpoint run (ops : list op) (a : Stateful) : list Event * Stateful :=
  match ops with
  | [] => ([], a)
  | o :: ops' => let '(out, a1) := apply_op o a in let '(outs, a2) := run ops' a1 in (out ++ outs, a2)
  end.

Lemma run_app ops1 ops2 a :
  run (ops1 ++ ops2) a =
  let '(out1, a1) := run ops1 a in let '(out2, a2) := run ops2 a1 in (out1 ++ out2, a2).
Proof.
  revert a. induction ops1 as [|o ops1 IH]; intros a; simpl; [by destruct (run ops2 a)|].
  destruct (apply_op o a) as [out a1]. rewrite IH. destruct (run ops1 a1) as [out1 a2].
  destruct (run ops2 a2) as [out2 a3]. by rewrite app_assoc.
Qed.

Lemma apply_op_cfg o a : aCfg (apply_op o a).2 = aCfg a.
Proof.
  destruct o as [now evt|now received order]; simpl; [apply Process_cfg|].
  unfold flushAt. by destruct (flush_loop _ _ _ _ _ _ _).
Qed.

(** ** Conservation of a summed field *)

(** Equality of 64-bit sums. *)
Definition same64 (x y : Z) : Prop := exists q, x = y + q * 2 ^ 64.

Lemma same64_to_int x : same64 (to_int 64 x) x.
Proof.
  unfold same64, to_int. pose proof (Z.div_mod x (2 ^ 64) ltac:(lia)).
  destruct (x mod 2 ^ 64 <? 2 ^ (64 - 1)); [exists (- (x / 2 ^ 64))|exists (- (x / 2 ^ 64) - 1)]; lia.
Qed.

Lemma same64_mod x y : same64 x y -> x mod 2 ^ 64 = y mod 2 ^ 64.
Proof. intros [q ->]. apply Z_mod_plus_full. Qed.

Section conservation.
Context (cfg : AggregatorConfig) (f : AggregatorField).
Context (Hcfg : fields_ok cfg) (Hf : f ∈ cfgFields cfg) (Hsum : Role f = "sum"%string).
Context (Herase : IdleEraseAfter (Window cfg) <= 0) (Hreset : Every (Periodic cfg) <= 0 \/ ResetBuckets (Periodic cfg) = true).

(** The number of the field in a bucket, in an exported event, and in an event that comes in. *)
Definition bucket_value (r : aggregateRecord) : Z := sumValueOf (default A_nil (rFields r !! Name f)).
Definition event_value (e : Event) : Z := int64FromAny (default A_nil (default ∅ (Fields e) !! Name f)).
Definition accepted (o : op) : Z :=
  match o with
  | O_event now evt =>
      if is_control evt then 0
      else match aggregateFromEvent cfg evt now with Ok _ => int64EventFieldForSpec evt f | _ => 0 end
  | O_flush _ _ _ => 0
  end.

Definition held (m : gmap string aggregateRecord) : Z := map_fold (fun _ r acc => bucket_value r + acc) 0 m.

Definition summed (r : aggregateRecord) : Prop := exists z, rFields r !! Name f = Some (A_sum (A_int K_int64 z)).

Lemma held_insert k r m : m !! k = None -> held (<[k := r]> m) = bucket_value r + held m.
Proof. intros Hk. unfold held. rewrite map_fold_insert_L; [done|intros; lia|done]. Qed.

Lemma held_split k m : held m = match m !! k with Some r => bucket_value r | None => 0 end + held (delete k m).
Proof.
  destruct (m !! k) as [r|] eqn:E; [|by rewrite delete_id].
  rewrite <- (insert_delete_id m k r E) at 1. rewrite held_insert; [done|]. by rewrite lookup_delete_eq.
Qed.

Lemma held_set k r m : held (set_bucket k r m) = match r with Some r => bucket_value r | None => 0 end + held (delete k m).
Proof. destruct r; simpl; [|done]. rewrite <- insert_delete_eq. rewrite held_insert; [done|]. by rewrite lookup_delete_eq. Qed.

Lemma summed_values r received stream key : summed r ->
  event_value (buildAggregatedEvent received stream key r) = bucket_value r.
Proof. intros [z E]. unfold event_value, bucket_value, buildAggregatedEvent, cloneFields. simpl. by rewrite lookup_fmap, E. Qed.

(** A record enters a bucket. *)
Lemma Add_summed o now evt k r : aggregateFromEvent cfg evt now = Ok (k, r) -> (forall r0, o = Some r0 -> summed r0) ->
  summed (Add o r) /\
  same64 (bucket_value (Add o r)) (match o with Some r0 => bucket_value r0 | None => 0 end + int64EventFieldForSpec evt f).
Proof using Hcfg Hf Hsum.
  intros E Ho. pose proof (record_lookup cfg evt now k r f Hcfg Hf E) as Hr.
  unfold field_value in Hr. rewrite Hsum in Hr. cbn [String.eqb Ascii.eqb Bool.eqb] in Hr.
  destruct (proj1 (Forall_forall _ _) (proj2 Hcfg) f Hf) as [Hk _].
  assert (Hl : rFields (Add o r) !! Name f = merge_opt (Name f) (o ≫= fun r => rFields r !! Name f)
    (Some (A_sum (A_int K_int64 (int64EventFieldForSpec evt f))))) by (rewrite <- Hr; by apply Add_lookup).
  unfold summed, bucket_value. rewrite Hl. destruct o as [r0|]; simpl.
  - destruct (Ho r0 eq_refl) as [z Ez]. rewrite Ez, merge_value_old by done. simpl. split; [by eexists|]. apply same64_to_int.
  - rewrite merge_value_new by done. simpl. split; [by eexists|]. by exists 0; lia.
Qed.

Definition stage_ok (a : Stateful) : Prop := aCfg a = cfg /\ map_Forall (fun _ => summed) (state a).

Lemma event_conserved now evt a : stage_ok a ->
  stage_ok (snd (Process now evt a)) /\
  same64 (held (state (snd (Process now evt a)))) (held (state a) + accepted (O_event now evt)).
Proof using Hcfg Hf Hsum.
  intros [Ha Hs]. unfold Process, accepted. assert (same64 (held (state a)) (held (state a) + 0)) as H0 by (exists 0; lia).
  destruct (is_control evt); [by split|]. rewrite Ha.
  destruct (aggregateFromEvent cfg evt now) as [[k r]| | |] eqn:E; [|by split..]. simpl.
  destruct (Add_summed (state a !! k) now evt k r E) as [Hr Hv]; [intros r0 Hr0; by apply (Hs k)|].
  split.
  - split; [done|]. simpl. by apply map_Forall_insert_2.
  - change (<[k := ?x]> ?m) with (set_bucket k (Some x) m). rewrite held_set, (held_split k (state a)).
    destruct Hv as [q ->]. exists q. lia.
Qed.

(** A flush only moves sums from the buckets to the exported events. *)
Lemma flush_loop_conserved a now received due order m : aCfg a = cfg ->
  (due = true -> ResetBuckets (Periodic cfg) = true) -> map_Forall (fun _ => summed) m ->
  let '(out, m') := flush_loop a now received false due order m in
  map_Forall (fun _ => summed) m' /\ total (map event_value out) + held m' = held m.
Proof using Herase.
  intros Ha Hdue. revert m. induction order as [|key order IH]; intros m Hm; [by split|].
  cbn [flush_loop]. destruct (m !! key) as [r|] eqn:Er; [|by apply IH].
  assert (Hcase : flush_bucket a now false due r = (true, None) \/ flush_bucket a now false due r = (false, Some r)).
  { unfold flush_bucket. destruct (_ || _); [by left|]. destruct (due && _) eqn:Ed.
    - apply andb_prop in Ed as [Ed _]. rewrite Ha, (Hdue Ed). by left.
    - unfold shouldEraseIdle, elapsed. rewrite Ha. destruct (Z.ltb_spec 0 (IdleEraseAfter (Window cfg))); [lia|]. by right. }
  destruct Hcase as [-> | ->]; cbn [set_bucket].
  - specialize (IH (delete key m) (map_Forall_delete _ _ _ Hm)). destruct (flush_loop _ _ _ _ _ _ (delete key m)) as [out m'].
    destruct IH as [Hm' Hv]. split; [done|]. simpl. rewrite summed_values by by apply (Hm key).
    rewrite (held_split key m), Er. unfold total in *. lia.
  - rewrite insert_id by done. specialize (IH m Hm). by destruct (flush_loop _ _ _ _ _ _ m) as [out m'].
Qed.

Lemma run_conserved ops a : stage_ok a ->
  let '(out, a') := run ops a in
  stage_ok a' /\ same64 (total (map event_value out) + held (state a')) (held (state a) + total (map accepted ops)).
Proof using Hcfg Hf Hsum Herase Hreset.
  revert a. induction ops as [|o ops IH]; intros a Ha; simpl; [split; [done|exists 0; unfold total; simpl; lia]|].
  assert (Hone : let '(out, a') := apply_op o a in
    stage_ok a' /\ same64 (total (map event_value out) + held (state a')) (held (state a) + accepted o)).
  { destruct o as [now evt|now received order]; cbn [apply_op fst snd].
    - destruct (event_conserved now evt a Ha) as [H1 H2]. by split.
    - destruct Ha as [Ha Hs]. unfold flushAt.
      pose proof (flush_loop_conserved a now received (periodicDue a now) order (state a) Ha) as Hl.
      destruct (flush_loop _ _ _ _ _ _ _) as [out m']. destruct Hl as [Hm Hv]; [|done|].
      + unfold periodicDue, elapsed. rewrite Ha. destruct (Z.ltb_spec 0 (Every (Periodic cfg))); [|done]. intros _.
        destruct Hreset; [lia|done].
      + split; [by split|]. simpl. exists 0. lia. }
  destruct (apply_op o a) as [out a1]. destruct Hone as [Ha1 [q1 Hv1]]. specialize (IH a1 Ha1).
  destruct (run ops a1) as [outs a2]. destruct IH as [Ha2 [q2 Hv2]]. split; [done|].
  rewrite map_app, total_app. exists (q1 + q2). unfold total in *. simpl in *. lia.
Qed.

Lemma close_exports received order m stream : iterates order m -> map_Forall (fun _ => summed) m ->
  total (map event_value (omap (fun key => buildAggregatedEvent (received key) stream key <$> m !! key) order)) = held m.
Proof.
  intros [Hnd Hiter] Hm. revert m Hiter Hm. induction Hnd as [|key order Hkey Hnd IH]; intros m Hiter Hm.
  - assert (m = ∅) as ->; [|done]. apply map_empty. intros k. destruct (m !! k) eqn:E; [|done].
    assert (k ∈ []) as Hk by (apply Hiter; by rewrite E). by apply elem_of_nil in Hk.
  - destruct (proj1 (Hiter key) ltac:(by left)) as [r Er]. cbn [omap list_omap]. rewrite Er. cbn [fmap option_fmap option_map map].
    rewrite (held_split key m), Er, <- (IH (delete key m)).
    + unfold total at 1. cbn [fold_right]. rewrite summed_values by by apply (Hm key). f_equal. unfold total. do 2 f_equal.
      apply list_omap_ext, Forall_Forall2_diag, Forall_forall. intros k Hk. rewrite lookup_delete_ne; [done|]. by intros ->.
    + intros k. destruct (decide (k = key)) as [->|Hne].
      * rewrite lookup_delete_eq. by split; [|intros [? ?]].
      * rewrite lookup_delete_ne, <- Hiter, elem_of_cons by done. split; [by right|by intros [?|?]].
    + by apply map_Forall_delete.
Qed.
End conservation.


(** ** Nothing stays for ever *)

(** An export of the bucket [k] that was open at time [t]. *)
Definition exports (k : string) (t : Z) (e : Event) : Prop :=
  exists m, Aggregation e = Some m /\ Key m = k /\ FirstSeenUnix m <= UnixMilli t.

Definition waiting (k : string) (t : Z) (m : gmap string aggregateRecord) : Prop :=
  exists r, m !! k = Some r /\ FirstSeen r <= t.

Lemma exports_bucket received stream k t r : FirstSeen r <= t -> exports k t (buildAggregatedEvent received stream k r).
Proof. intros Ht. eexists. split; [reflexivity|]. split; [done|]. by apply Z.div_le_mono. Qed.

Lemma flush_loop_waiting a now received due order m k t : IdleEraseAfter (Window (aCfg a)) <= 0 -> waiting k t m ->
  let '(out, m') := flush_loop a now received false due order m in Exists (exports k t) out \/ waiting k t m'.
Proof.
  intros He. revert m. induction order as [|key order IH]; intros m Hw; [by right|].
  rewrite flush_loop_cons. cbv zeta. set (m1 := match m !! key with Some r => _ | None => m end).
  assert (Hcase : match flush_event a now received due m key with Some e => exports k t e | None => False end \/ waiting k t m1).
  { destruct Hw as (r & Er & Hr). destruct (decide (key = k)) as [->|Hne].
    - subst m1. unfold flush_event. rewrite Er. unfold emits, keeps, flush_bucket, shouldEraseIdle, elapsed.
      destruct (_ || _); [left; by apply exports_bucket|]. destruct (due && _); [left; by apply exports_bucket|].
      destruct (Z.ltb_spec 0 (IdleEraseAfter (Window (aCfg a)))); [lia|]. right. exists r. by simpl; rewrite lookup_insert_eq.
    - right. exists r. split; [|done]. subst m1. destruct (m !! key); [by rewrite set_bucket_other|done]. }
  destruct Hcase as [Hex|Hw1].
  - destruct (flush_loop _ _ _ _ _ _ m1) as [out m']. left. apply Exists_app. left.
    destruct (flush_event _ _ _ _ _ _); [by constructor|done].
  - specialize (IH m1 Hw1). destruct (flush_loop _ _ _ _ _ _ m1) as [out m']. destruct IH as [IH|IH]; [|by right].
    left. apply Exists_app. by right.
Qed.

Lemma run_waiting ops a k t : IdleEraseAfter (Window (aCfg a)) <= 0 -> waiting k t (state a) ->
  let '(out, a') := run ops a in aCfg a' = aCfg a /\ (Exists (exports k t) out \/ waiting k t (state a')).
Proof.
  revert a. induction ops as [|o ops IH]; intros a He Hw; simpl; [split; [done|by right]|].
  assert (Hone : Exists (exports k t) (apply_op o a).1 \/ waiting k t (state (apply_op o a).2)).
  { destruct o as [now evt|now received order]; cbn [apply_op fst snd].
    - right. destruct Hw as (r & Er & Hr). unfold waiting. rewrite Process_lookup, Er.
      destruct (enters _ _ _) as [[e d]|]; [|by exists r]. eexists. split; [reflexivity|]. simpl.
      destruct (Z.ltb_spec (FirstSeen d) (FirstSeen r)); lia.
    - unfold flushAt. pose proof (flush_loop_waiting a now received (periodicDue a now) order (state a) k t He Hw) as Hl.
      by destruct (flush_loop _ _ _ _ _ _ _). }
  pose proof (apply_op_cfg o a) as Hc. destruct (apply_op o a) as [out1 a1]. cbn [fst snd] in *.
  destruct Hone as [Hex|Hw1].
  - assert (aCfg (run ops a1).2 = aCfg a1) as Hc2.
    { clear. revert a1. induction ops as [|o ops IH]; intros a1; [done|]. simpl. pose proof (apply_op_cfg o a1) as Hc.
      destruct (apply_op o a1) as [out a2]. simpl in Hc. specialize (IH a2). destruct (run ops a2). simpl in *. congruence. }
    destruct (run ops a1) as [out2 a2]. simpl in Hc2. split; [congruence|]. left. apply Exists_app. by left.
  - specialize (IH a1 ltac:(by rewrite Hc) Hw1). destruct (run ops a1) as [out2 a2]. destruct IH as [Hc2 Hex].
    split; [congruence|]. destruct Hex; [left; apply Exists_app; by right|by right].
Qed.

End flush.

(** ** Witnesses *)

#[local] Existing Instance simple_lib.

Definition demo_open : Stateful := process_all demo_events demo_stage.
Definition demo_order : list string := ["s8:10.0.0.2"; "s8:10.0.0.1"]%string.

Lemma iterates_by_test order (m : gmap string aggregateRecord) :
  bool_decide (NoDup order) && bool_decide (Forall (fun k => is_Some (m !! k)) order) && (length order =? size m)%nat = true ->
  iterates order m.
Proof.
  intros E. apply andb_prop in E as [E Hl]. apply andb_prop in E as [Hnd Hall].
  apply bool_decide_eq_true in Hnd, Hall. apply Nat.eqb_eq in Hl. split; [done|]. rewrite Forall_forall in Hall.
  intros k. split; [by apply Hall|]. intros [r Er].
  assert (Hsub : (list_to_set order : gset string) ⊆ dom m).
  { intros x Hx. apply elem_of_list_to_set in Hx. by apply elem_of_dom, Hall. }
  assert (dom m ⊆ (list_to_set order : gset string)) as Hsup; [|apply (elem_of_list_to_set (C := gset string)), Hsup, elem_of_dom; by eexists].
  apply set_subseteq_size_equiv in Hsub as Heq; [set_solver|]. rewrite size_dom, size_list_to_set by done. lia.
Qed.

Lemma flush_policy_witness :
  let '(out, a') := flushAt 1006000000 (fun _ => 0) false demo_order demo_open in
  map Aggregation out = [Some {| Key := "s8:10.0.0.2"; FirstSeenUnix := 6; LastSeenUnix := 6 |}]%string /\
  state a' !! "s8:10.0.0.2"%string = None /\ is_Some (state a' !! "s8:10.0.0.1"%string).
Proof.
  assert (iterates demo_order (state demo_open)) as Hi by (apply iterates_by_test; vm_compute; reflexivity).
  pose proof (flush_policy 1006000000 (fun _ => 0) demo_order demo_open Hi) as Hp.
  destruct (flushAt 1006000000 (fun _ => 0) false demo_order demo_open) as [out a']. destruct Hp as (-> & Hs & _).
  split; [vm_compute; reflexivity|]. rewrite !Hs. split; [vm_compute; reflexivity|]. vm_compute. by eexists.
Defined.

(** Two events of one key, a flush that leaves the bucket alone, another event. *)
Definition demo_ops : list op :=
  [O_event 5000000 (demo_event "10.0.0.1" 1500 64); O_flush 6000000 (fun _ => 0) ["s8:10.0.0.1"];
   O_event 7000000 (demo_event "10.0.0.1" 100 64)]%string.


