(* ===== verification/UDP.v ===== *)
(** * utils/udp.go: the UDP receiver

    Sockets read datagrams into pooled buffers and dispatch them over a channel to workers,
    which decode them.  The goroutines and calls run concurrently; the model is a step
    relation on the state they share, one constructor for each action between two
    synchronisations.  [decodeFunc] is not nil; what it does is in [Pipe].  Without a queue a
    worker that is back in its loop may not have reached the channel yet, so that a receiver
    drops a packet even then. *)
From S2P Require Import Prelude Pipe ProtoProducer.

(** ** Configuration *)

(** [Unmap] of [ProtoProducer] is the method of [netip.Addr]. *)
Definition normalizeAddrPort (a : AddrPort) : AddrPort := {| Addr := Unmap (Addr a); Port := Port a |}.

Record UDPReceiverConfig : Type := { Workers : Z; Sockets : Z; Blocking : bool; QueueSize : Z }.

(** The settings of a receiver. *)
Record settings : Type := { sockets : nat; workers : nat; blocking : bool; dispatchSize : nat }.

(** [make(chan, n)] panics on a negative size. *)
Definition NewUDPReceiver (cfg : option UDPReceiverConfig) : res settings :=
  match cfg with
  | None => Ok {| sockets := 2; workers := 2; blocking := false; dispatchSize := Z.to_nat 1000000 |}
  | Some cfg =>
      let s := if Sockets cfg <=? 0 then 1 else Sockets cfg in
      let w := if Workers cfg <=? 0 then s else Workers cfg in
      if QueueSize cfg <? 0 then Panic "makechan: size out of range"
      else Ok {| sockets := Z.to_nat s; workers := Z.to_nat w; blocking := Blocking cfg;
                 dispatchSize := Z.to_nat (QueueSize cfg) |}
  end.

(** ** State *)

Record udpPacket : Type := { src : AddrPort; dst : AddrPort; payload : bytes; received : Z }.

(** The size of the buffers of the pool: a longer datagram is cut. *)
Definition buffer_size : nat := Z.to_nat 9000.

Definition message_of (p : udpPacket) : Message :=
  {| Src := normalizeAddrPort (src p); Dst := normalizeAddrPort (dst p); Payload := payload p; Received := received p |}.

(** A receiver is reading, or in the select with a buffer, or has returned. *)
Inductive rstate : Type := R_reading | R_sending (b : nat) | R_returned.
Definition is_running (r : rstate) : bool := match r with R_returned => false | _ => true end.
(** A worker waits on the channel, or decodes a buffer, or has returned. *)
Inductive wstate : Type := W_waiting | W_decoding (b : nat) | W_done.
(** A call of [Stop] waits for the receivers, or for the workers. *)
Inductive pstate : Type := P_receivers | P_workers.

(** [ready], [stopCh] and [closed] tell whether the channels [ready], [stopCh] and [dispatch]
    are closed.  [heap] holds the contents of the buffers that were ever allocated, [pool]
    those in [packetPool].  [starting] is the number of sockets that a running [Start] has
    still to open.  The last five fields are histories: the messages in the order in which
    they were read, sent to the channel, taken from it, and decoded; dropped with a
    callback; given up by a receiver that stops. *)
Record UDPReceiver : Type := {
  ready : bool; stopCh : bool; dispatch : list nat; closed : bool;
  receivers : list rstate; decoders : list wstate; starting : option nat; stoppers : list pstate;
  heap : gmap nat udpPacket; pool : list nat; panicked : bool;
  got : list Message; sent : list Message; taken : list Message; decoded : list Message;
  dropped : list Message; lost : list Message
}.

Definition new_receiver : UDPReceiver := {|
  ready := true; stopCh := false; dispatch := []; closed := false; receivers := []; decoders := [];
  starting := None; stoppers := []; heap := ∅; pool := []; panicked := false;
  got := []; sent := []; taken := []; decoded := []; dropped := []; lost := []
|}.

(** The message in a buffer. *)
Definition buffered (s : UDPReceiver) (b : nat) : option Message := message_of <$> heap s !! b.

(** ** Updates *)

Definition with_control (r st cl : bool) (q : list nat) (rs : list rstate) (ws : list wstate) (sn : option nat)
    (ps : list pstate) (s : UDPReceiver) : UDPReceiver := {|
  ready := r; stopCh := st; dispatch := q; closed := cl; receivers := rs; decoders := ws; starting := sn; stoppers := ps;
  heap := heap s; pool := pool s; panicked := panicked s; got := got s; sent := sent s; taken := taken s;
  decoded := decoded s; dropped := dropped s; lost := lost s |}.

Definition with_threads (q : list nat) (rs : list rstate) (ws : list wstate) (s : UDPReceiver) : UDPReceiver :=
  with_control (ready s) (stopCh s) (closed s) q rs ws (starting s) (stoppers s) s.

Definition with_buffers (h : gmap nat udpPacket) (p : list nat) (s : UDPReceiver) : UDPReceiver := {|
  ready := ready s; stopCh := stopCh s; dispatch := dispatch s; closed := closed s; receivers := receivers s;
  decoders := decoders s; starting := starting s; stoppers := stoppers s; heap := h; pool := p; panicked := panicked s;
  got := got s; sent := sent s; taken := taken s; decoded := decoded s; dropped := dropped s; lost := lost s |}.

(** Append to the histories. *)
Definition log (g se t de dr lo : list Message) (s : UDPReceiver) : UDPReceiver := {|
  ready := ready s; stopCh := stopCh s; dispatch := dispatch s; closed := closed s; receivers := receivers s;
  decoders := decoders s; starting := starting s; stoppers := stoppers s; heap := heap s; pool := pool s;
  panicked := panicked s; got := got s ++ g; sent := sent s ++ se; taken := taken s ++ t; decoded := decoded s ++ de;
  dropped := dropped s ++ dr; lost := lost s ++ lo |}.

Definition crash (s : UDPReceiver) : UDPReceiver := {|
  ready := ready s; stopCh := stopCh s; dispatch := dispatch s; closed := closed s; receivers := receivers s;
  decoders := decoders s; starting := starting s; stoppers := stoppers s; heap := heap s; pool := pool s;
  panicked := true; got := got s; sent := sent s; taken := taken s; decoded := decoded s; dropped := dropped s; lost := lost s |}.

(** ** Steps *)

Section steps.
Context (c : settings).

(** What the user calls, the arrival of a datagram, and everything else. *)
Inductive label : Type := L_start | L_stop | L_datagram | L_internal.

(** [sync.Pool.Get] gives a buffer of the pool, or a new one. *)
Inductive pool_get (s : UDPReceiver) : nat -> list nat -> Prop :=
  | get_pooled b l1 l2 : pool s = l1 ++ b :: l2 -> pool_get s b (l1 ++ l2)
  | get_new b : heap s !! b = None -> pool_get s b (pool s).

Inductive step : label -> UDPReceiver -> UDPReceiver -> Prop :=
  (* Start: the workers, then one socket after the other *)
  | S_start s : panicked s = false -> ready s = true ->
      step L_start s (with_control false (stopCh s) (closed s) (dispatch s) (receivers s)
        (decoders s ++ replicate (workers c) W_waiting) (Some (sockets c)) (stoppers s) s)
  | S_start_error s : panicked s = false -> ready s = false -> step L_start s s
  | S_socket s n : panicked s = false -> starting s = Some (Datatypes.S n) ->
      step L_internal s (with_control (ready s) (stopCh s) (closed s) (dispatch s) (receivers s ++ [R_reading])
        (decoders s) (Some n) (stoppers s) s)
  | S_socket_error s n : panicked s = false -> starting s = Some (Datatypes.S n) ->
      step L_internal s (with_control (ready s) true (closed s) (dispatch s) (receivers s)
        (decoders s) None (stoppers s ++ [P_receivers]) s)
  | S_started s : panicked s = false -> starting s = Some 0%nat ->
      step L_internal s (with_control (ready s) (stopCh s) (closed s) (dispatch s) (receivers s)
        (decoders s) None (stoppers s) s)
  (* Stop *)
  | S_stop s : panicked s = false -> ready s = false ->
      step L_stop s (with_control (ready s) true (closed s) (dispatch s) (receivers s)
        (decoders s) (starting s) (stoppers s ++ [P_receivers]) s)
  | S_stop_error s : panicked s = false -> ready s = true -> step L_stop s s
  | S_close s i : panicked s = false -> stoppers s !! i = Some P_receivers -> Forall (eq R_returned) (receivers s) ->
      step L_internal s
        (if closed s then crash s
         else with_control (ready s) (stopCh s) true (dispatch s) (receivers s) (decoders s) (starting s)
                (<[i := P_workers]> (stoppers s)) s)
  | S_reinit s i : panicked s = false -> stoppers s !! i = Some P_workers -> Forall (eq W_done) (decoders s) ->
      step L_internal s (with_control true false false [] (List.filter is_running (receivers s)) [] (starting s) (delete i (stoppers s)) s)
  (* a receiver *)
  | S_read s i b p pk : panicked s = false -> receivers s !! i = Some R_reading -> pool_get s b p ->
      payload pk <> [] -> (length (payload pk) <= buffer_size)%nat ->
      step L_datagram s (log [message_of pk] [] [] [] [] []
        (with_buffers (<[b := pk]> (heap s)) p (with_threads (dispatch s) (<[i := R_sending b]> (receivers s)) (decoders s) s)))
  | S_read_empty s i b p pk : panicked s = false -> receivers s !! i = Some R_reading -> pool_get s b p ->
      payload pk = [] ->
      step L_datagram s (with_buffers (<[b := pk]> (heap s)) p s)
  | S_read_error s i b p pk : panicked s = false -> receivers s !! i = Some R_reading -> pool_get s b p ->
      step L_internal s (with_buffers (<[b := pk]> (heap s)) (p ++ [b])
        (with_threads (dispatch s) (<[i := R_returned]> (receivers s)) (decoders s) s))
  | S_send s i b m : panicked s = false -> receivers s !! i = Some (R_sending b) -> buffered s b = Some m ->
      closed s = false -> (length (dispatch s) < dispatchSize c)%nat ->
      step L_internal s (log [] [m] [] [] [] []
        (with_threads (dispatch s ++ [b]) (<[i := R_reading]> (receivers s)) (decoders s) s))
  | S_handoff s i j b m : panicked s = false -> receivers s !! i = Some (R_sending b) -> buffered s b = Some m ->
      closed s = false -> dispatchSize c = 0%nat -> decoders s !! j = Some W_waiting ->
      step L_internal s (log [] [m] [m] [] [] []
        (with_threads (dispatch s) (<[i := R_reading]> (receivers s)) (<[j := W_decoding b]> (decoders s)) s))
  | S_send_closed s i b : panicked s = false -> receivers s !! i = Some (R_sending b) -> closed s = true ->
      step L_internal s (crash s)
  | S_drop s i b m : panicked s = false -> receivers s !! i = Some (R_sending b) -> buffered s b = Some m ->
      blocking c = false -> closed s = false -> (dispatchSize c <= length (dispatch s))%nat -> stopCh s = false ->
      step L_internal s (log [] [] [] [] [m] []
        (with_buffers (heap s) (pool s ++ [b]) (with_threads (dispatch s) (<[i := R_reading]> (receivers s)) (decoders s) s)))
  | S_abandon s i b m : panicked s = false -> receivers s !! i = Some (R_sending b) -> buffered s b = Some m ->
      stopCh s = true ->
      step L_internal s (log [] [] [] [] [] [m]
        (with_threads (dispatch s) (<[i := R_returned]> (receivers s)) (decoders s) s))
  (* a worker *)
  | S_take s j b q m : panicked s = false -> decoders s !! j = Some W_waiting -> dispatch s = b :: q ->
      buffered s b = Some m ->
      step L_internal s (log [] [] [m] [] [] []
        (with_threads q (receivers s) (<[j := W_decoding b]> (decoders s)) s))
  | S_finish s j : panicked s = false -> decoders s !! j = Some W_waiting -> dispatch s = [] -> closed s = true ->
      step L_internal s (with_threads (dispatch s) (receivers s) (<[j := W_done]> (decoders s)) s)
  | S_decode s j b m : panicked s = false -> decoders s !! j = Some (W_decoding b) -> buffered s b = Some m ->
      step L_internal s (log [] [] [] [m] [] []
        (with_buffers (heap s) (pool s ++ [b]) (with_threads (dispatch s) (receivers s) (<[j := W_waiting]> (decoders s)) s))).

(** No call of [Start] or [Stop] is running. *)
Definition calm (s : UDPReceiver) : Prop := starting s = None /\ stoppers s = [].

(** [Start] and [Stop] are called one at a time. *)
Definition allowed (l : label) (s : UDPReceiver) : Prop := match l with L_start | L_stop => calm s | _ => True end.
Definition dstep (s s' : UDPReceiver) : Prop := exists l, step l s s' /\ allowed l s.

Inductive reachable : UDPReceiver -> Prop :=
  | reach_new : reachable new_receiver
  | reach_step s s' : reachable s -> dstep s s' -> reachable s'.

(** Without that discipline. *)
Inductive reachable_any : UDPReceiver -> Prop :=
  | any_new : reachable_any new_receiver
  | any_step l s s' : reachable_any s -> step l s s' -> reachable_any s'.
End steps.
