(* ===== verification/UDPInvariant.v ===== *)
(** * Invariants of the UDP receiver

    Its phases, its capacities, the owner of each buffer and the place of each message, over
    every interleaving of its goroutines. *)
From S2P Require Import Prelude Pipe ProtoProducer UDP.

(** ** Buffers in use *)

Definition sending (r : rstate) : option nat := match r with R_sending b => Some b | _ => None end.
Definition decoding (w : wstate) : option nat := match w with W_decoding b => Some b | _ => None end.

(** The buffers in the channel, in the hands of receivers, and in those of workers. *)
Definition in_flight (s : UDPReceiver) : list nat :=
  dispatch s ++ omap sending (receivers s) ++ omap decoding (decoders s).

Definition msgs (s : UDPReceiver) (l : list nat) : list Message := omap (buffered s) l.

Lemma split_insert {A} (l : list A) i x : l !! i = Some x ->
  exists l1 l2, l = l1 ++ x :: l2 /\ forall y, <[i := y]> l = l1 ++ y :: l2.
Proof.
  intros Hi. apply list_elem_of_split_length in Hi as (l1 & l2 & -> & ->). exists l1, l2. split; [done|].
  intros y. by rewrite insert_app_r_alt, Nat.sub_diag by lia.
Qed.

Lemma msgs_app s l1 l2 : msgs s (l1 ++ l2) = msgs s l1 ++ msgs s l2.
Proof. apply omap_app. Qed.

Lemma msgs_cons s b l m : buffered s b = Some m -> msgs s (b :: l) = m :: msgs s l.
Proof. intros E. unfold msgs. cbn [omap list_omap]. by rewrite E. Qed.

Lemma msgs_ext s s' l : Forall (fun b => heap s' !! b = heap s !! b) l -> msgs s' l = msgs s l.
Proof.
  intros Hl. unfold msgs. apply list_omap_ext, Forall_Forall2_diag. eapply Forall_impl; [exact Hl|].
  intros b Hb. unfold buffered. by rewrite Hb.
Qed.

(** ** Every buffer has one owner, every message one place *)

Record buffers_ok (s : UDPReceiver) : Prop := {
  bo_nodup : NoDup (pool s ++ in_flight s);
  bo_heap : Forall (fun b => is_Some (heap s !! b)) (pool s ++ in_flight s);
  bo_msgs : got s ≡ₚ decoded s ++ dropped s ++ lost s ++ msgs s (in_flight s);
  bo_sent : sent s = taken s ++ msgs s (dispatch s);
  bo_taken : taken s ≡ₚ decoded s ++ msgs s (omap decoding (decoders s))
}.

(** Fields of an updated state. *)
Ltac fields_of_state :=
  unfold in_flight, log, with_buffers, with_threads, with_control, crash, new_receiver;
  cbn [ready stopCh dispatch closed receivers decoders starting stoppers heap pool panicked got sent taken decoded dropped lost].

(** Name the neighbours of the thread that moves. *)
Ltac split_threads :=
  repeat match goal with
  | H : receivers ?s !! _ = Some _ |- _ =>
      let l1 := fresh "rl" in let l2 := fresh "rr" in let E := fresh "Er" in let U := fresh "Ur" in
      destruct (split_insert _ _ _ H) as (l1 & l2 & E & U); clear H
  | H : decoders ?s !! _ = Some _ |- _ =>
      let l1 := fresh "wl" in let l2 := fresh "wr" in let E := fresh "Ew" in let U := fresh "Uw" in
      destruct (split_insert _ _ _ H) as (l1 & l2 & E & U); clear H
  end.

Lemma omap_mid {A B} (f : A -> option B) l1 x l2 :
  omap f (l1 ++ x :: l2) = omap f l1 ++ match f x with Some y => [y] | None => [] end ++ omap f l2.
Proof. rewrite omap_app. cbn [omap list_omap]. by destruct (f x). Qed.

Lemma owners_shrink (h : gmap nat udpPacket) (l l' : list nat) : l' ⊆+ l -> NoDup l -> Forall (fun b => is_Some (h !! b)) l ->
  NoDup l' /\ Forall (fun b => is_Some (h !! b)) l'.
Proof.
  intros [k ->]%submseteq_Permutation Hnd [Hh _]%Forall_app. by apply NoDup_app in Hnd as [? _].
Qed.

(** A step that moves buffers between the channel, the receivers, the workers and the pool,
    or gives them up. *)
Lemma buffers_move s s' : buffers_ok s -> heap s' = heap s ->
  pool s' ++ in_flight s' ⊆+ pool s ++ in_flight s ->
  got s' = got s ->
  decoded s' ++ dropped s' ++ lost s' ++ msgs s (in_flight s') ≡ₚ decoded s ++ dropped s ++ lost s ++ msgs s (in_flight s) ->
  sent s' = taken s' ++ msgs s (dispatch s') ->
  taken s' ≡ₚ decoded s' ++ msgs s (omap decoding (decoders s')) ->
  buffers_ok s'.
Proof.
  intros [Hnd Hheap Hg _ _] Hh Hsub Hgot Hm Hs Ht. destruct (owners_shrink _ _ _ Hsub Hnd Hheap).
  assert (Heq : forall l, msgs s' l = msgs s l) by (intros l; apply msgs_ext, Forall_true; intros; by rewrite Hh).
  split; rewrite ?Hh, ?Heq; [done|done| |done|done]. by rewrite Hgot, Hm, Hg.
Qed.

(** A buffer of the pool, or a new one, belongs to nobody. *)
Lemma pool_fetch s b p pk : buffers_ok s -> pool_get s b p ->
  b ∉ in_flight s /\ NoDup (b :: p ++ in_flight s) /\
  Forall (fun x => is_Some (<[b := pk]> (heap s) !! x)) (b :: p ++ in_flight s).
Proof.
  intros [Hnd Hheap _ _ _] Hget.
  assert (H : NoDup (b :: p ++ in_flight s) /\ Forall (fun x => x = b \/ is_Some (heap s !! x)) (b :: p ++ in_flight s)).
  { inversion Hget as [b' l1 l2 Hp|b' Hp]; subst.
    - rewrite Hp in Hnd, Hheap. assert (b :: (l1 ++ l2) ++ in_flight s ≡ₚ (l1 ++ b :: l2) ++ in_flight s) as -> by solve_Permutation.
      split; [done|]. eapply Forall_impl; [exact Hheap|]. auto.
    - split; [constructor; [|done]|constructor; [by left|eapply Forall_impl; [exact Hheap|]; auto]].
      rewrite Forall_forall in Hheap. intros [? E]%Hheap. congruence. }
  destruct H as [H1 H2]. split; [|split; [done|]].
  - apply NoDup_cons in H1 as [Hb _]. intros Hin. apply Hb, elem_of_app. by right.
  - eapply Forall_impl; [exact H2|]. intros x [->|Hx]; [by rewrite lookup_insert_eq|].
    destruct (decide (x = b)) as [->|]; [by rewrite lookup_insert_eq|by rewrite lookup_insert_ne].
Qed.

(** A step that fills such a buffer with [pk], and keeps it in the buffers [l] or not. *)
Lemma buffers_fetch s s' b p pk l g : buffers_ok s -> pool_get s b p -> heap s' = <[b := pk]> (heap s) ->
  pool s' ++ in_flight s' ⊆+ b :: p ++ in_flight s ->
  in_flight s' ≡ₚ l ++ in_flight s -> got s' = got s ++ g -> msgs s' l = g ->
  dispatch s' = dispatch s -> decoders s' = decoders s -> sent s' = sent s -> taken s' = taken s ->
  decoded s' = decoded s -> dropped s' = dropped s -> lost s' = lost s ->
  buffers_ok s'.
Proof.
  intros Hb Hget Hh Hsub Hfl Hg Hl Hq Hw Es Et Ed Edr El. destruct (pool_fetch s b p pk Hb Hget) as (Hnew & Hnd & Hheap).
  destruct Hb as [_ _ Hgot Hs Ht]. destruct (owners_shrink _ _ _ Hsub Hnd Hheap).
  assert (Heq : forall k, k ⊆ in_flight s -> msgs s' k = msgs s k).
  { intros k Hk. apply msgs_ext, Forall_forall. intros x Hx. rewrite Hh. apply lookup_insert_ne. intros ->. by apply Hnew, Hk. }
  split; rewrite ?Hh, ?Hq, ?Hw, ?Es, ?Et, ?Ed, ?Edr, ?El; [done|done|..].
  - rewrite Hg, Hgot. unfold msgs in *. rewrite Hfl, omap_app, Hl, (Heq (in_flight s)) by done. solve_Permutation.
  - rewrite Heq; [done|]. unfold in_flight. set_solver.
  - rewrite Heq; [done|]. unfold in_flight. set_solver.
Qed.

(** ** The phases of a receiver *)

Inductive phase (s : UDPReceiver) : Prop :=
  | ph_idle : ready s = true -> stopCh s = false -> closed s = false -> dispatch s = [] -> receivers s = [] ->
      decoders s = [] -> starting s = None -> stoppers s = [] -> phase s
  | ph_running : ready s = false -> stopCh s = false -> closed s = false -> stoppers s = [] ->
      decoders s <> [] -> W_done ∉ decoders s -> phase s
  | ph_draining : ready s = false -> stopCh s = true -> closed s = false -> starting s = None -> stoppers s = [P_receivers] ->
      decoders s <> [] -> W_done ∉ decoders s -> phase s
  | ph_closing : ready s = false -> stopCh s = true -> closed s = true -> starting s = None -> stoppers s = [P_workers] ->
      decoders s <> [] -> Forall (eq R_returned) (receivers s) -> (W_done ∈ decoders s -> dispatch s = []) -> phase s.

Lemma started_workers n l : (0 < n)%nat -> W_done ∉ l -> l ++ replicate n W_waiting <> [] /\ W_done ∉ l ++ replicate n W_waiting.
Proof.
  intros Hn Hl. split; [destruct l, n; (lia || done)|]. rewrite elem_of_app. intros [?|Hr]; [done|].
  by apply elem_of_replicate in Hr as [? _].
Qed.

Lemma all_returned i s x : Forall (eq R_returned) (receivers s) -> receivers s !! i = Some x -> x = R_returned.
Proof. intros Hf Hi. symmetry. by apply (Forall_lookup_1 _ _ _ _ Hf Hi). Qed.

Lemma all_done l : Forall (eq W_done) l -> l <> [] -> W_done ∈ l.
Proof. intros [|? ? -> _] ?; [done|by left]. Qed.

Lemma no_running l : Forall (eq R_returned) l -> List.filter is_running l = [].
Proof. by induction 1 as [|? ? <-]. Qed.

Lemma keep_done (l : list wstate) j x y : l !! j = Some x ->
  (l <> [] -> <[j := y]> l <> []) /\ (y <> W_done -> W_done ∉ l -> W_done ∉ <[j := y]> l) /\
  (x <> W_done -> W_done ∈ <[j := y]> l -> y = W_done \/ W_done ∈ l).
Proof.
  intros Hj. destruct (split_insert _ _ _ Hj) as (l1 & l2 & -> & ->). split; [intros _; by destruct l1|]. set_solver.
Qed.

Definition same_control (s s' : UDPReceiver) : Prop :=
  ready s' = ready s /\ stopCh s' = stopCh s /\ closed s' = closed s /\ starting s' = starting s /\ stoppers s' = stoppers s.

(** A receiver that has not returned moves on; a worker may take its packet. *)
Lemma phase_receiver s s' i x : phase s -> receivers s !! i = Some x -> x <> R_returned -> same_control s s' ->
  (decoders s <> [] -> decoders s' <> []) -> (W_done ∉ decoders s -> W_done ∉ decoders s') -> phase s'.
Proof.
  intros [? ? ? ? Er|?|?|? ? ? ? ? ? Hr] Hi Hx (? & ? & ? & ? & ?) ? ?.
  - by rewrite Er in Hi.
  - apply ph_running; try congruence; auto.
  - apply ph_draining; try congruence; auto.
  - by apply all_returned in Hi.
Qed.

(** A worker that has not returned moves on. *)
Lemma phase_worker s s' j x y : phase s -> decoders s !! j = Some x -> x <> W_done -> same_control s s' ->
  receivers s' = receivers s -> decoders s' = <[j := y]> (decoders s) ->
  (y = W_done -> closed s = true /\ dispatch s' = []) -> (dispatch s = [] -> dispatch s' = []) -> phase s'.
Proof.
  intros Hp Hj Hx (? & ? & ? & ? & ?) Er Hd Hy Hq. destruct (keep_done _ _ _ y Hj) as (K1 & K2 & K3). rewrite <- Hd in *.
  assert (closed s = false -> y <> W_done) by (intros Ec ->; destruct (Hy eq_refl); congruence).
  destruct Hp as [? ? ? ? ? Ed|?|?|?].
  - by rewrite Ed in Hj.
  - apply ph_running; try congruence; auto.
  - apply ph_draining; try congruence; auto.
  - apply ph_closing; try congruence; auto. intros Hin. destruct (K3 Hx Hin); [by apply Hy|auto].
Qed.

Lemma phase_start s n k : phase s -> ready s = true -> (0 < n)%nat ->
  phase (with_control false (stopCh s) (closed s) (dispatch s) (receivers s) (decoders s ++ replicate n W_waiting) (Some k) (stoppers s) s).
Proof.
  intros [? ? ? ? ? Ed|?|?|?] Hr Hn; try congruence.
  apply ph_running; fields_of_state; try done; rewrite Ed; apply started_workers; (done || apply not_elem_of_nil).
Qed.

Lemma phase_stop s : phase s -> ready s = false -> stoppers s = [] ->
  phase (with_control (ready s) true (closed s) (dispatch s) (receivers s) (decoders s) None (stoppers s ++ [P_receivers]) s).
Proof.
  intros [?|? ? ? Es|?|?] Hr Hs; try congruence. apply ph_draining; fields_of_state; try done. by rewrite Es.
Qed.

Lemma phase_close s i : phase s -> stoppers s !! i = Some P_receivers -> Forall (eq R_returned) (receivers s) ->
  closed s = false /\ starting s = None /\
  phase (with_control (ready s) (stopCh s) true (dispatch s) (receivers s) (decoders s) (starting s) (<[i := P_workers]> (stoppers s)) s).
Proof.
  intros [? ? ? ? ? ? ? Es|? ? ? Es|? ? ? ? Es|? ? ? ? Es] Hi Hr; rewrite Es in Hi |- *; try done;
    apply list_lookup_singleton_Some in Hi as [-> ?]; [|done].
  split; [done|]. split; [done|]. apply ph_closing; fields_of_state; done.
Qed.

(** When the last worker has returned, the channel is empty and the receiver idle again. *)
Lemma phase_reinit s i : phase s -> stoppers s !! i = Some P_workers -> Forall (eq W_done) (decoders s) ->
  dispatch s = [] /\ Forall (eq R_returned) (receivers s) /\
  phase (with_control true false false [] (List.filter is_running (receivers s)) [] (starting s) (delete i (stoppers s)) s).
Proof.
  intros [? ? ? ? ? ? ? Es|? ? ? Es|? ? ? ? Es|? ? ? ? Es ? Hr Hd] Hi Hw; rewrite Es in Hi |- *; try done;
    apply list_lookup_singleton_Some in Hi as [-> ?]; [done|].
  split; [by apply Hd, all_done|]. split; [done|]. apply ph_idle; fields_of_state; try done. by apply no_running.
Qed.

Lemma phase_step c l s s' : (0 < workers c)%nat -> step c l s s' -> allowed l s ->
  phase s -> panicked s = false -> phase s' /\ panicked s' = false.
Proof.
  intros Hw Hstep Hl Hp _.
  assert (Hsk : forall n, starting s = Some n -> ready s = false /\ stoppers s = []) by (intros n ?; destruct Hp; split; congruence).
  destruct Hstep; try (split; [|by fields_of_state]); try done.
  - by apply phase_start.
  - destruct Hp; try congruence. by apply ph_running.
  - edestruct Hsk; [done|]. by apply phase_stop.
  - destruct Hp; try congruence. by apply ph_running.
  - destruct Hl as [Hs ?]. rewrite Hs. by apply phase_stop.
  - edestruct phase_close as (-> & ? & ?); done.
  - by apply phase_reinit.
  - by eapply phase_receiver.
  - by eapply phase_receiver.
  - by eapply phase_receiver.
  - by eapply phase_receiver.
  - destruct (keep_done _ _ _ (W_decoding b) H4) as (? & K & _). eapply phase_receiver; try done. by apply K.
  - destruct Hp; try congruence. by eapply all_returned in H0.
  - by eapply phase_receiver.
  - by eapply phase_receiver.
  - eapply phase_worker; try done. intros ?; congruence.
  - eapply phase_worker; done.
  - eapply phase_worker; done.
Qed.

(** ** Buffers over a step *)

(** The messages of the buffers that move. *)
Ltac known_buffers :=
  repeat match goal with
  | H : buffered ?s ?b = Some ?m |- context [msgs ?s (?b :: ?l)] => rewrite (msgs_cons s b l m H)
  end.

Ltac use_threads :=
  repeat match goal with
  | U : forall y, <[_ := y]> _ = _ |- _ => rewrite U; clear U
  | E : receivers ?s = _ |- _ => rewrite E; clear E
  | E : decoders ?s = _ |- _ => rewrite E; clear E
  | E : dispatch ?s = _ :: _ |- _ => rewrite E; clear E
  end.

Ltac moves :=
  fields_of_state; use_threads; rewrite ?omap_mid, ?omap_app, ?msgs_app; cbn [sending decoding app]; known_buffers; cbn [app];
  rewrite ?app_nil_r.

Lemma omap_none {A B} (f : A -> option B) l x : Forall (eq x) l -> f x = None -> omap f l = [].
Proof. intros Hl Hx. induction Hl as [|? ? <- _ IH]; [done|]. cbn [omap list_omap]. by rewrite Hx. Qed.

(** ** Capacities *)

Record bounds_ok (c : settings) (s : UDPReceiver) : Prop := {
  bd_queue : (length (dispatch s) <= dispatchSize c)%nat;
  bd_receivers : (length (receivers s) + default 0 (starting s) <= sockets c)%nat;
  bd_workers : (length (decoders s) <= workers c)%nat;
  bd_blocking : blocking c = true -> dropped s = []
}.

Lemma bounds_step c l s s' : step c l s s' -> phase s -> bounds_ok c s -> bounds_ok c s'.
Proof.
  intros Hstep Hp [Hq Hr Hw Hb].
  destruct Hstep; try done; try (destruct (closed s); [done|]); split; fields_of_state;
    rewrite ?length_insert, ?length_app, ?length_replicate, ?app_nil_r; cbn [length default id]; try done; try lia.
  - destruct Hp as [? ? ? ? -> _|?|?|?]; (congruence || cbn; lia).
  - destruct Hp as [? ? ? ? _ ->|?|?|?]; (congruence || cbn; lia).
  - rewrite H0 in Hr. cbn in Hr. lia.
  - pose proof (filter_length_le is_running (receivers s)). lia.
  - congruence.
  - rewrite H1 in Hq. cbn in Hq. lia.
Qed.

(** Without a queue nothing is queued. *)
Lemma unqueued c s : bounds_ok c s -> dispatchSize c = 0%nat -> dispatch s = [].
Proof. intros [Hq _ _ _] E. apply nil_length_inv. lia. Qed.

(** The goals about lists of buffers and messages. *)
Ltac by_lists := moves; (done || solve_submseteq || solve_Permutation).

Lemma buffers_step c l s s' : step c l s s' -> phase s -> bounds_ok c s -> buffers_ok s -> buffers_ok s'.
Proof.
  intros Hstep Hp Hbd Hb. pose proof Hb as [_ _ Hg Hs Ht].
  destruct Hstep as [| | | | | | |s i|s i|s i b p pk ? Hi Hget|s i b p pk ? Hi Hget|s i b p pk ? Hi Hget| | | | | | | |];
    try done; try match goal with |- buffers_ok (if ?b then _ else _) => destruct b end.
  8: { destruct (phase_reinit s i) as (Hq & Hr & _); [done..|].
    apply (buffers_move s); [done|done|..]; fields_of_state; rewrite ?(no_running _ Hr), ?Hq, ?(omap_none _ _ _ Hr), ?(omap_none decoding (decoders s) W_done) by done;
      cbn [app omap list_omap] in *; [solve_submseteq|done|done| |]; rewrite ?Hs, ?Ht, ?Hq, ?(omap_none decoding (decoders s) W_done) by done; done. }
  8: { split_threads; apply (buffers_fetch s _ b p pk [b] [message_of pk]); try done; try by_lists.
    unfold msgs, buffered. cbn. by rewrite lookup_insert_eq. }
  8: { apply (buffers_fetch s _ b p pk [] []); try done; try by_lists. }
  8: { split_threads; apply (buffers_fetch s _ b p pk [] []); try done; try by_lists. }
  all: split_threads; apply (buffers_move s); [done|done|..]; fields_of_state; rewrite ?Hs, ?Ht; moves;
    try (done || solve_submseteq || solve_Permutation).
  1-3: rewrite (omap_none decoding (replicate _ _) W_waiting), ?app_nil_r by (done || by apply Forall_replicate); done.
  - by rewrite <- app_assoc.
  - by rewrite (unqueued c s), !app_nil_r by done.
  - by rewrite <- app_assoc.
Qed.

(** ** Reachable states *)

Lemma settings_workers cfg c : NewUDPReceiver cfg = Ok c -> (0 < workers c)%nat /\ (0 < sockets c)%nat.
Proof.
  destruct cfg as [cfg|]; [|by intros [= <-]; cbn; lia]. unfold NewUDPReceiver.
  destruct (QueueSize cfg <? 0); [done|]. intros [= <-]. cbn.
  destruct (Sockets cfg <=? 0) eqn:E1, (Workers cfg <=? 0) eqn:E2; lia.
Qed.

Record receiver_ok (c : settings) (s : UDPReceiver) : Prop := {
  ok_phase : phase s;
  ok_panic : panicked s = false;
  ok_bounds : bounds_ok c s;
  ok_buffers : buffers_ok s
}.

Lemma receiver_ok_step c l s s' : (0 < workers c)%nat -> step c l s s' -> allowed l s -> receiver_ok c s -> receiver_ok c s'.
Proof.
  intros Hw Hstep Hl [Hp Hn Hb Hm]. destruct (phase_step c l s s') as [? ?]; try done.
  split; [done|done|by eapply bounds_step|by eapply buffers_step].
Qed.

Lemma reachable_ok cfg c s : NewUDPReceiver cfg = Ok c -> reachable c s -> receiver_ok c s.
Proof.
  intros [Hw _]%settings_workers. induction 1 as [|s s' _ IH (l & Hstep & Hl)]; [|by eapply receiver_ok_step].
  split; [by apply ph_idle|done|split; cbn; lia || done|split; by (constructor || reflexivity)].
Qed.
