(* ===== verification/UDPProps.v ===== *)
(** * Properties of the UDP receiver

    Over every interleaving of its goroutines: no panic while [Start] and [Stop] are called
    one at a time, the place of every datagram, the order, the end of [Stop]. *)
From S2P Require Import Prelude Pipe ProtoProducer UDP UDPInvariant.

(** ** Order *)

Definition hands (s : UDPReceiver) : list Message := msgs s (omap sending (receivers s)).

Lemma only_one {A} (l : list A) i x : l !! i = Some x -> (length l <= 1)%nat -> l = [x] /\ i = 0%nat.
Proof. destruct l as [|y [|z l]]; cbn; [done| |lia]. intros [[] ?]%list_lookup_singleton_Some _. by subst. Qed.

(** With one socket the packets are queued in the order of their arrival. *)
Lemma sent_in_order c l s s' : step c l s s' -> sockets c = 1%nat -> phase s -> bounds_ok c s ->
  sublist (sent s ++ hands s) (got s) -> sublist (sent s' ++ hands s') (got s').
Proof.
  intros Hstep Hone Hp [_ Hr _ _] Hsub. unfold hands, msgs in *.
  assert (Hlen : (length (receivers s) <= 1)%nat) by lia.
  destruct Hstep; try done; try match goal with |- context [if ?b then _ else _] => destruct b end; try done.
  all: try match goal with H : receivers ?s !! _ = Some _ |- _ => destruct (only_one _ _ _ H Hlen) as [Er ->] end.
  all: unfold buffered in *; fields_of_state; rewrite ?Er in *; cbn [omap list_omap sending insert list_insert list_alter alter app] in *.
  all: rewrite ?H1, ?app_nil_r in *; rewrite ?lookup_insert_eq; cbn; try done.
  - assert (Er0 : receivers s = []) by (apply nil_length_inv; rewrite H0 in Hr; cbn in Hr; lia). by rewrite Er0 in *.
  - destruct (phase_reinit s i) as (_ & Hret & _); [done..|]. rewrite (no_running _ Hret), (omap_none _ _ _ Hret) in * by done. done.
  - by apply sublist_app.
  - etrans; [|exact Hsub]. by apply sublist_inserts_r.
  - etrans; [|exact Hsub]. by apply sublist_inserts_r.
Qed.

(** Reading into a buffer of the pool leaves the packets of the workers alone. *)
Lemma decoding_kept s b p pk : buffers_ok s -> pool_get s b p ->
  omap (fun x => message_of <$> <[b := pk]> (heap s) !! x) (omap decoding (decoders s)) = msgs s (omap decoding (decoders s)).
Proof.
  intros Hb Hget. destruct (pool_fetch s b p pk Hb Hget) as (Hnew & _ & _).
  apply list_omap_ext, Forall_Forall2_diag, Forall_forall. intros x Hx. unfold buffered.
  rewrite lookup_insert_ne; [done|]. intros ->. apply Hnew. unfold in_flight. set_solver.
Qed.

(** With one worker they are decoded in the order in which they were queued. *)
Lemma decoded_in_order c l s s' : step c l s s' -> workers c = 1%nat -> phase s -> bounds_ok c s -> buffers_ok s ->
  taken s = decoded s ++ msgs s (omap decoding (decoders s)) -> 
  taken s' = decoded s' ++ msgs s' (omap decoding (decoders s')).
Proof.
  intros Hstep Hone Hp [_ _ Hw _] Hb Ht. rewrite Hone in Hw. unfold msgs in *.
  destruct Hstep; try done; try match goal with |- context [if ?b then _ else _] => destruct b end; try done.
  all: try match goal with H : decoders ?s !! _ = Some _ |- _ => destruct (only_one _ _ _ H Hw) as [Er ->] end.
  all: unfold buffered in *; fields_of_state; rewrite ?Er in *; cbn [omap list_omap decoding insert list_insert list_alter alter app] in *.
  all: rewrite ?H1, ?H2, ?app_nil_r in *; rewrite ?lookup_insert_eq; cbn; try done.
  - rewrite omap_app, (omap_none decoding (replicate _ _) W_waiting), app_nil_r by (done || by apply Forall_replicate). done.
  - rewrite (omap_none decoding (decoders s) W_done) in Ht by done. by rewrite app_nil_r in Ht.
  - rewrite Ht. f_equal. symmetry. apply (decoding_kept s b p pk); done.
  - rewrite Ht. f_equal. symmetry. apply (decoding_kept s b p pk); done.
  - rewrite Ht. f_equal. symmetry. apply (decoding_kept s b p pk); done.
  - by rewrite Ht.
  - by rewrite Ht.
Qed.

Lemma order_reachable cfg c s : NewUDPReceiver cfg = Ok c -> reachable c s ->
  (sockets c = 1%nat -> sublist (sent s ++ hands s) (got s)) /\
  (workers c = 1%nat -> taken s = decoded s ++ msgs s (omap decoding (decoders s))).
Proof.
  intros Hc. induction 1 as [|s s' Hs [IH1 IH2] (l & Hstep & _)]; [split; intros _; [constructor|done]|].
  destruct (reachable_ok cfg c s Hc Hs) as [Hp _ Hbd Hb]. split; intros E.
  - eapply sent_in_order; eauto.
  - eapply decoded_in_order; eauto.
Qed.

(** ** The end of a call of [Stop] *)

Definition receiver_weight (r : rstate) : nat := match r with R_reading => 1 | R_sending _ => 4 | R_returned => 0 end.
Definition worker_weight (w : wstate) : nat := match w with W_waiting => 1 | W_decoding _ => 2 | W_done => 0 end.
Definition stopper_weight (p : pstate) : nat := match p with P_receivers => 2 | P_workers => 1 end.

(** A bound on the number of steps until the receiver is idle. *)
Definition stop_measure (s : UDPReceiver) : nat :=
  2 * length (dispatch s) + sum_list_with receiver_weight (receivers s) + sum_list_with worker_weight (decoders s)
  + sum_list_with stopper_weight (stoppers s).

Lemma weight_mid {A} (f : A -> nat) l1 x l2 : sum_list_with f (l1 ++ x :: l2) = (sum_list_with f l1 + f x + sum_list_with f l2)%nat.
Proof. rewrite sum_list_with_app. cbn. lia. Qed.

Definition stopping (s : UDPReceiver) : Prop := ready s = true \/ stoppers s <> [].

Ltac weigh :=
  split_threads; fields_of_state; use_threads; rewrite ?weight_mid, ?length_app;
  cbn [receiver_weight worker_weight length]; (split; [lia|done]).

Lemma stop_decreases c s s' : step c L_internal s s' -> phase s -> stopping s ->
  (stop_measure s' < stop_measure s)%nat /\ stopping s'.
Proof.
  intros Hstep Hp Hs. unfold stop_measure, stopping in *.
  assert (Hn : starting s = None) by (destruct Hp; try done; destruct Hs; congruence).
  remember L_internal as l eqn:El. destruct Hstep as [| | | | | | |s i ? Hi Hr|s i ? Hi Hw| | | | | |s i b ? Hi Hc| | | | |]; try congruence; try done.
  - destruct (phase_close s i) as (-> & _ & _); try done. destruct (split_insert _ _ _ Hi) as (l1 & l2 & E & U).
    fields_of_state. rewrite U, E, !weight_mid. cbn [stopper_weight]. split; [lia|right; by destruct l1].
  - destruct (phase_reinit s i) as (-> & Hr & Hp'); try done. destruct (split_insert _ _ _ Hi) as (l1 & l2 & E & U).
    fields_of_state. rewrite (no_running _ Hr). destruct Hp' as [? ? ? ? ? ? ? Es|?|?|?]; try done. cbn in Es. rewrite Es, E, weight_mid.
    cbn. split; [lia|by left].
  - weigh.
  - weigh.
  - weigh.
  - destruct Hp; try congruence. by eapply all_returned in Hi.
  - weigh.
  - weigh.
  - weigh.
  - weigh.
  - weigh.
Qed.

#[export] Instance rstate_eq_dec : EqDecision rstate.
Proof. solve_decision. Defined.
#[export] Instance wstate_eq_dec : EqDecision wstate.
Proof. solve_decision. Defined.

(** An internal step is possible until the receiver is idle. *)
Lemma stop_progress c s : receiver_ok c s -> stopping s -> ready s = true \/ exists s', step c L_internal s s'.
Proof.
  intros [Hp Hn _ Hb] Hs.
  assert (Hmsg : forall b, b ∈ in_flight s -> exists m, buffered s b = Some m).
  { intros b Hin. pose proof (bo_heap s Hb) as Hh. rewrite Forall_app, (Forall_forall _ (in_flight s)) in Hh.
    destruct (proj2 Hh b Hin) as [pk E]. exists (message_of pk). unfold buffered. by rewrite E. }
  destruct Hp as [|? ? ? E|? ? ? ? E _ _|? ? ? ? E _ _ Hd]; [by left|by destruct Hs; congruence|right..].
  - destruct (decide (Forall (eq R_returned) (receivers s))) as [Hr|Hr].
    + eexists. apply (S_close c s 0); [done|by rewrite E|done].
    + apply not_Forall_Exists, Exists_exists in Hr as (r & [i Hi]%list_elem_of_lookup & Hr); [|intros; apply _].
      destruct r as [|b|]; [| |done].
      * eexists. apply (S_read_error c s i (fresh (dom (heap s))) (pool s) {| src := {| Addr := []; Port := 0 |}; dst := {| Addr := []; Port := 0 |}; payload := []; received := 0 |}); [done|done|].
        constructor. apply not_elem_of_dom, is_fresh.
      * destruct (Hmsg b) as [m Hm]; [|eexists; by eapply S_abandon].
        unfold in_flight. rewrite !elem_of_app, !list_elem_of_omap. right. left. exists (R_sending b). split; [|done]. by eapply list_elem_of_lookup_2.
  - destruct (decide (Forall (eq W_done) (decoders s))) as [Hr|Hr].
    + eexists. apply (S_reinit c s 0); [done|by rewrite E|done].
    + apply not_Forall_Exists, Exists_exists in Hr as (r & [j Hj]%list_elem_of_lookup & Hr); [|intros; apply _].
      destruct r as [|b|]; [| |done].
      * destruct (dispatch s) as [|b q] eqn:Eq; [eexists; by eapply S_finish|].
        destruct (Hmsg b) as [m Hm]; [unfold in_flight; rewrite Eq; by left|]. eexists. by eapply S_take.
      * destruct (Hmsg b) as [m Hm]; [|eexists; by eapply S_decode].
        unfold in_flight. rewrite !elem_of_app, !list_elem_of_omap. right. right. exists (W_decoding b). split; [|done]. by eapply list_elem_of_lookup_2.
Qed.

Lemma stopping_idle s : phase s -> stopping s -> ready s = true ->
  receivers s = [] /\ decoders s = [] /\ dispatch s = [] /\ stoppers s = [].
Proof. intros [?|?|?|?] _ ?; (congruence || done). Qed.

Lemma internal_got c s s' : step c L_internal s s' -> got s' = got s.
Proof.
  remember L_internal as l eqn:El. destruct 1; try done; [by destruct (closed s)|..]; cbn; by rewrite app_nil_r.
Qed.

Lemma stop_run c n s s' : (0 < workers c)%nat -> receiver_ok c s -> stopping s -> nsteps (step c L_internal) n s s' ->
  (n <= stop_measure s)%nat /\ receiver_ok c s' /\ stopping s' /\ got s' = got s.
Proof.
  intros Hw Hok Hs Hrun. revert Hok Hs. induction Hrun as [s|n s t s' Hstep _ IH]; intros Hok Hs; [split; [lia|done]|].
  destruct (stop_decreases c s t) as [Hlt Ht]; [done|apply Hok|done|].
  destruct IH as (Hn & ? & ? & ->); [by eapply receiver_ok_step|done|]. split; [lia|]. split; [done|]. split; [done|]. by eapply internal_got.
Qed.

Lemma weight_bound {A} (f : A -> nat) k l : (forall x, f x <= k)%nat -> (sum_list_with f l <= k * length l)%nat.
Proof. intros Hf. induction l as [|x l IH]; cbn; [lia|]. specialize (Hf x). lia. Qed.

Lemma stop_measure_bound c s : receiver_ok c s ->
  (stop_measure s <= 2 * dispatchSize c + 4 * sockets c + 2 * workers c + 2)%nat.
Proof.
  intros [Hp _ [Hq Hr Hw _] _]. unfold stop_measure.
  pose proof (weight_bound receiver_weight 4 (receivers s)) as H1. pose proof (weight_bound worker_weight 2 (decoders s)) as H2.
  assert (sum_list_with stopper_weight (stoppers s) <= 2)%nat
    by (destruct Hp as [? ? ? ? ? ? ? ->|? ? ? ->|? ? ? ? ->|? ? ? ? ->]; cbn; lia).
  specialize (H1 ltac:(by intros []; cbn; lia)). specialize (H2 ltac:(by intros []; cbn; lia)). lia.
Qed.

Lemma owned_length s :
  (length (in_flight s) <= length (dispatch s) + length (receivers s) + length (decoders s))%nat.
Proof.
  unfold in_flight. rewrite !length_app.
  assert (H : forall {A B} (f : A -> option B) l, (length (omap f l) <= length l)%nat).
  { intros A B f l. induction l as [|x l IH]; cbn [omap list_omap length]; [lia|]. destruct (f x); cbn [length]; lia. }
  pose proof (H _ _ sending (receivers s)). pose proof (H _ _ decoding (decoders s)). lia.
Qed.

(** ** Theorems *)

(** C35: while [Start] and [Stop] are called one at a time, whatever the interleaving of the
    sockets and the workers, nothing is sent on a closed [dispatch] and [dispatch] is never
    closed twice: the receiver does not panic.  The packet of every receiver that is sending
    and of every worker that is decoding is in its buffer, and no buffer is at two places. *)
Theorem udp_no_panic cfg c s : NewUDPReceiver cfg = Ok c -> reachable c s ->
  panicked s = false /\ NoDup (pool s ++ in_flight s) /\
  (closed s = true -> Forall (eq R_returned) (receivers s)) /\
  Forall (fun b => is_Some (buffered s b)) (in_flight s).
Proof.
  intros Hc Hr. destruct (reachable_ok cfg c s Hc Hr) as [Hp ? _ Hb]. split; [done|]. split; [apply Hb|]. split.
  - intros Hcl. destruct Hp; (congruence || done).
  - pose proof (bo_heap s Hb) as [_ Hh]%Forall_app. eapply Forall_impl; [exact Hh|]. intros b [pk E]. unfold buffered. rewrite E. by eexists.
Qed.

(** C10: every datagram that was read is at one place, with its bytes and addresses: it was
    decoded, or dropped with a callback because the queue was full, or given up by a receiver
    that stops, or is in flight.  The queue is first in, first out.  A blocking receiver drops
    nothing.  The packets in flight are bounded by the queue, the sockets and the workers.
    Once [Stop] has returned, none is in flight. *)
Theorem udp_accounting cfg c s : NewUDPReceiver cfg = Ok c -> reachable c s ->
  got s ≡ₚ decoded s ++ dropped s ++ lost s ++ msgs s (in_flight s) /\
  sent s = taken s ++ msgs s (dispatch s) /\
  (blocking c = true -> dropped s = []) /\
  (length (dispatch s) <= dispatchSize c)%nat /\
  (length (in_flight s) <= dispatchSize c + sockets c + workers c)%nat /\
  (ready s = true -> got s ≡ₚ decoded s ++ dropped s ++ lost s).
Proof.
  intros Hc Hr. destruct (reachable_ok cfg c s Hc Hr) as [Hp _ [Hq Hs Hw Hbl] Hb]. pose proof (owned_length s).
  destruct Hb as [_ _ Hg Hsent _]. split; [done|]. split; [done|]. split; [done|]. split; [done|]. split; [lia|].
  intros Hready. destruct (stopping_idle s Hp) as (Er & Ed & Eq & _); [by left|done|].
  unfold in_flight in Hg. rewrite Er, Ed, Eq in Hg. cbn in Hg. by rewrite app_nil_r in Hg.
Qed.

(** With one socket and one worker the datagrams are decoded in the order in which they
    arrived, each at most once; only dropped ones are missing from the sequence. *)
Theorem udp_order cfg c s : NewUDPReceiver cfg = Ok c -> reachable c s -> sockets c = 1%nat -> workers c = 1%nat ->
  decoded s `prefix_of` sent s /\ sublist (decoded s) (got s).
Proof.
  intros Hc Hr H1 H2. destruct (order_reachable cfg c s Hc Hr) as [Ho Ht]. specialize (Ho H1). specialize (Ht H2).
  destruct (reachable_ok cfg c s Hc Hr) as [_ _ _ [_ _ _ Hs _]].
  assert (Hpre : decoded s `prefix_of` sent s) by (rewrite Hs, Ht; eexists; by rewrite <- app_assoc).
  split; [done|]. etrans; [|exact Ho]. apply sublist_inserts_r. destruct Hpre as [k ->]. by apply sublist_inserts_r.
Qed.

(** C37: a call of [Stop] returns.  Once it has closed [stopCh], and no more datagrams
    arrive, every run of the receiver's goroutines takes at most [2 * queue + 4 * sockets +
    2 * workers + 2] steps; it goes on until the receiver can be started again, and then
    every datagram that was read was decoded, dropped or given up. *)
Theorem udp_stop_terminates cfg c s n s' : NewUDPReceiver cfg = Ok c -> reachable c s -> stoppers s <> [] ->
  nsteps (step c L_internal) n s s' ->
  (n <= 2 * dispatchSize c + 4 * sockets c + 2 * workers c + 2)%nat /\
  ((exists t, step c L_internal s' t) \/
   (ready s' = true /\ stoppers s' = [] /\ got s' = got s /\ got s ≡ₚ decoded s' ++ dropped s' ++ lost s')).
Proof.
  intros Hc Hr Hs Hrun. pose proof (reachable_ok cfg c s Hc Hr) as Hok. pose proof (settings_workers cfg c Hc) as [Hw _].
  pose proof (stop_measure_bound c s Hok).
  destruct (stop_run c n s s') as (Hn & Hok' & Hs' & Hg); [done|done|by right|done|]. split; [lia|].
  destruct (stop_progress c s' Hok' Hs') as [Hready|]; [|by left]. right.
  destruct Hok' as [Hp _ _ [_ _ Hgot _ _]]. destruct (stopping_idle s' Hp Hs' Hready) as (Er & Ed & Eq & Es).
  split; [done|]. split; [done|]. split; [done|]. rewrite <- Hg, Hgot. unfold in_flight. rewrite Er, Ed, Eq. cbn. by rewrite app_nil_r.
Qed.

(** ** Runs *)

Lemma reach_by c l s s' : reachable c s -> allowed l s -> step c l s s' -> reachable c s'.
Proof. intros Hr Hl Hs. eapply reach_step; [exact Hr|]. by exists l. Qed.

Definition sample_config : UDPReceiverConfig := {| Workers := 0; Sockets := 1; Blocking := false; QueueSize := 1 |}.
Definition sample_settings : settings := {| sockets := 1; workers := 1; blocking := false; dispatchSize := 1 |}.
(** Write out the state that a run has reached. *)
Ltac write_state H :=
  lazy beta iota delta [log with_buffers with_threads with_control crash new_receiver ready stopCh dispatch closed receivers decoders
    starting stoppers heap pool panicked got sent taken decoded dropped lost sockets workers sample_settings replicate app
    insert list_insert] in H.

Definition sample_packet (p : bytes) : udpPacket :=
  {| src := {| Addr := [10; 0; 0; 1]; Port := 2055 |}; dst := {| Addr := [127; 0; 0; 1]; Port := 2055 |};
     payload := p; received := 5 |}.

Lemma sample_size x : (length (payload (sample_packet [x])) <= buffer_size)%nat.
Proof. unfold buffer_size. cbn [length payload sample_packet]. lia. Qed.

(** Two datagrams arrive; the first one is decoded, the second one waits for the channel when
    [Stop] is called. *)
Lemma sample_run : exists s, reachable sample_settings s /\ stoppers s = [P_receivers] /\
  decoded s = [message_of (sample_packet [5])] /\
  got s = [message_of (sample_packet [5]); message_of (sample_packet [9])].
Proof.
  pose proof (reach_new sample_settings) as H.
  eapply (reach_by _ L_start) in H; [|by split|by apply S_start]. cbn in H.
  eapply (reach_by _ L_internal) in H; [|done|by apply (S_socket _ _ 0)]. cbn in H.
  eapply (reach_by _ L_internal) in H; [|done|by apply S_started]. cbn in H.
  eapply (reach_by _ L_datagram) in H; [|done|eapply (S_read _ _ 0 0 _ (sample_packet [5])); try done; [by apply get_new|apply sample_size]]. write_state H.
  eapply (reach_by _ L_internal) in H; [|done|by eapply (S_send _ _ 0 0); try done; cbn; lia]. write_state H.
  eapply (reach_by _ L_internal) in H; [|done|by eapply (S_take _ _ 0 0)]. write_state H.
  eapply (reach_by _ L_datagram) in H; [|done|eapply (S_read _ _ 0 1 _ (sample_packet [9])); try done; [by apply get_new|apply sample_size]]. write_state H.
  eapply (reach_by _ L_internal) in H; [|done|by eapply (S_decode _ _ 0 0)]. write_state H.
  eapply (reach_by _ L_stop) in H; [|by split|by apply S_stop]. write_state H.
  eexists. split; [exact H|done].
Qed.

Lemma udp_no_panic_witness : exists s, got s <> [] /\ panicked s = false.
Proof.
  destruct sample_run as (s & Hr & _ & _ & Hg). exists s. split; [by rewrite Hg|].
  apply (udp_no_panic (Some sample_config) sample_settings s eq_refl Hr).
Defined.

Lemma udp_accounting_witness : exists s, got s <> [] /\ NoDup (in_flight s) /\
  got s ≡ₚ decoded s ++ dropped s ++ lost s ++ msgs s (in_flight s).
Proof.
  destruct sample_run as (s & Hr & _ & _ & Hg). exists s. split; [by rewrite Hg|]. split.
  - destruct (reachable_ok (Some sample_config) sample_settings s eq_refl Hr) as [_ _ _ [Hn _ _ _ _]].
    by apply NoDup_app in Hn as (_ & _ & ?).
  - apply (udp_accounting (Some sample_config) sample_settings s eq_refl Hr).
Defined.

Lemma udp_order_witness : exists s, decoded s = [message_of (sample_packet [5])] /\ decoded s `prefix_of` sent s.
Proof.
  destruct sample_run as (s & Hr & _ & Hd & _). exists s. split; [done|].
  apply (udp_order (Some sample_config) sample_settings s eq_refl Hr eq_refl eq_refl).
Defined.

Lemma udp_stop_terminates_witness : exists s, stoppers s = [P_receivers] /\
  ((exists t, step sample_settings L_internal s t) \/ ready s = true).
Proof.
  destruct sample_run as (s & Hr & Hs & _). exists s. split; [done|].
  destruct (udp_stop_terminates (Some sample_config) sample_settings s 0 s eq_refl Hr) as (_ & [?|[? _]]);
    [by rewrite Hs|constructor|by left|by right].
Defined.

(** [stopOnce] guards [stopCh] only: when [Stop] is called twice at the same time, both
    calls wait for the receivers and both close [dispatch], which panics. *)
Theorem udp_concurrent_stop : exists s, reachable_any sample_settings s /\ starting s = None /\ panicked s = true.
Proof.
  pose proof (any_new sample_settings) as H.
  eapply any_step in H; [|by apply S_start]. write_state H.
  eapply any_step in H; [|by apply (S_socket _ _ 0)]. write_state H.
  eapply any_step in H; [|by apply S_started]. write_state H.
  eapply any_step in H; [|by apply S_stop]. write_state H.
  eapply any_step in H; [|by apply S_stop]. write_state H.
  eapply any_step in H; [|by eapply (S_read_error _ _ 0 0 _ (sample_packet [])); [| |apply get_new]]. write_state H.
  eapply any_step in H; [|by apply (S_close _ _ 0); [| |repeat constructor]]. write_state H.
  eapply any_step in H; [|by apply (S_close _ _ 1); [| |repeat constructor]]. write_state H.
  eexists. split; [exact H|done].
Qed.
