(* ===== verification/ReflowDecode.v ===== *)
(** * pkg/reflow/decode: from flow datagrams to events

    [decode.go], [flow.go], [netflow.go], [sflow.go], [catalog.go], [helpers.go] and
    [protocol.go]: a datagram is identified and decoded by the decoders of this repository,
    and each record or sample becomes an event with a map of fields.  An event that Go
    updates in place is a new value here: every caller of [cloneEvent] owns its copy. *)
From Stdlib Require Import Ascii.
From S2P Require Import Prelude Text DecodersUtils NetflowTypes NetflowDecode NetflowLegacy SflowTypes SflowDecode SamplingInterface ProducerNetflow ReflowEvent.

(** ** Values (helpers.go) *)

(** A value of a data field as a value of an event. *)
Definition any_of (v : value) : any :=
  match v with VNil => A_nil | VBytes b => A_bytes b | VString s => A_string (go_string s) | VOther => A_other 0 end.

Definition u32_field (z : Z) : any := A_int K_uint32 z.

(** [fields[k1] = v1; fields[k2] = v2; ...]. *)
Definition put_fields (l : list (string * any)) (m : fields) : fields :=
  fold_left (fun m kv => <[kv.1 := kv.2]> m) l m.

(** Big-endian, wrapping at 64 bits. *)
Definition decodeUint64 (val : any) : Z :=
  match val with
  | A_bytes v =>
      if existsb (Z.eqb (len v)) [1; 2; 4; 8] then be_get v
      else fold_left (fun out b => Z.lor (to_uint 64 (Z.shiftl out 8)) b) v 0
  | A_int K_uint64 v | A_int K_uint32 v => v
  | _ => 0
  end.

Definition decodeUint32 (val : any) : Z :=
  match val with
  | A_bytes _ => to_uint 32 (decodeUint64 val)
  | A_int K_uint32 v => v
  | A_int K_uint64 v => to_uint 32 v
  | _ => 0
  end.

Definition fieldUint32 (m : fields) (key : string) : Z :=
  match m !! key with Some val => decodeUint32 val | None => 0 end.

(** [netip.AddrFromSlice], [Addr.IsUnspecified]. *)
Definition AddrFromSlice (raw : bytes) : option addr :=
  if len raw =? 4 then Some (Addr4 raw) else if len raw =? 16 then Some (Addr6 raw "") else None.
Definition IsUnspecified (a : addr) : bool :=
  match a with
  | Addr4 b => forallb (Z.eqb 0) b
  | Addr6 b zone => forallb (Z.eqb 0) b && String.eqb zone ""
  end.

Definition flowTimeFromV5 (unixSecs unixNSecs sysUptime switched : Z) : Z :=
  let exportMs := unixSecs * 1000 + unixNSecs / 1000000 in
  exportMs - (sysUptime - switched).

Definition flowTimeFromV9 (sysUptime unixSeconds switched : Z) : Z := unixSeconds * 1000 - (sysUptime - switched).

(** [IPAddress.String] of decoders/netflowlegacy. *)
Definition IPAddress_String (s : Z) : string :=
  (itoa (Z.shiftr s 24) +:+ "." +:+ itoa (Z.land (Z.shiftr s 16) 0xFF) +:+ "." +:+
   itoa (Z.land (Z.shiftr s 8) 0xFF) +:+ "." +:+ itoa (Z.land s 0xFF))%string.

Definition ipProtocolName (proto : Z) : string :=
  match find (fun p => p.1 =? proto)
    [(1, "icmp"); (2, "igmp"); (6, "tcp"); (17, "udp"); (41, "ipv6"); (47, "gre"); (50, "esp"); (51, "ah");
     (58, "icmpv6"); (132, "sctp")]%string with
  | Some p => p.2
  | None => ""
  end.

(** [HardwareAddr.String]. *)
Definition hex_digit (n : Z) : ascii := ascii_of_N (Z.to_N (if n <? 10 then n + 48 else n + 87)).
Definition hex_byte (b : Z) : string := String (hex_digit (b / 16)) (String (hex_digit (b mod 16)) "").
Definition HardwareAddr_String (raw : bytes) : string := String.concat ":" (map hex_byte raw).

(** [base64.StdEncoding.EncodeToString]. *)
Definition base64_char (n : Z) : ascii :=
  ascii_of_N (Z.to_N (if n <? 26 then n + 65 else if n <? 52 then n + 71 else if n <? 62 then n - 4 else if n =? 62 then 43 else 47)).
Fixpoint base64 (b : bytes) : string :=
  match b with
  | x :: y :: z :: rest =>
      String (base64_char (x / 4)) (String (base64_char (x mod 4 * 16 + y / 16))
        (String (base64_char (y mod 16 * 4 + z / 64)) (String (base64_char (z mod 64)) (base64 rest))))
  | [x; y] => String (base64_char (x / 4)) (String (base64_char (x mod 4 * 16 + y / 16)) (String (base64_char (y mod 16 * 4)) "="))
  | [x] => String (base64_char (x / 4)) (String (base64_char (x mod 4 * 16)) "==")
  | [] => ""
  end.

(** ** Events *)

(** [routerKey]; [Source] metadata is kept, control data and [Internal] are not. *)
Definition routerKey (evt : Event) : string :=
  if String.eqb (srcRemote (Source evt)) "" then srcAddress (Source evt) else srcRemote (Source evt).

Definition cloneEvent (evt : Event) : Event :=
  {| ReceivedAt := ReceivedAt evt; Kind := ""; Stream := ""; Source := Source evt; Control := None;
     ReflowEvent.Fields := ReflowEvent.Fields evt; evtMessage := evtMessage evt; evtPacket := evtPacket evt; SFlow := SFlow evt; Aggregation := Aggregation evt;
     Payload := Payload evt; Internal := no_internal |}.

(** [ensureFields]. *)
Definition ensureFields (evt : Event) : fields := default ∅ (ReflowEvent.Fields evt).

(** A clone of [evt] with the given fields, payload, sFlow metadata and internal data. *)
Definition with_data (evt : Event) (m : fields) (p : payload) (sf : option SFlowMetadata) (i : internal) : Event :=
  let c := cloneEvent evt in
  {| ReceivedAt := ReceivedAt c; Kind := Kind c; Stream := Stream c; Source := Source c; Control := Control c;
     ReflowEvent.Fields := Some m; evtMessage := evtMessage c; evtPacket := evtPacket c; SFlow := sf; Aggregation := Aggregation c; Payload := p; Internal := i |}.
Definition with_fields (evt : Event) (m : fields) : Event := with_data evt m (Payload evt) (SFlow evt) no_internal.
Definition with_payload (evt : Event) (m : fields) (p : payload) : Event := with_data evt m p (SFlow evt) no_internal.

(** ** The field catalog (catalog.go, config.go) *)

Record IPFIXFieldDefinition : Type := {
  defName : string; defID : Z; PEN : Z; defLength : Z; defType : string; defFormat : string; EnterpriseScoped : bool
}.

Record decodeCatalogField : Type := { fkey : string; def : IPFIXFieldDefinition }.

(** A [decodeCatalogIPFIXKey] is its enterprise flag, id and enterprise number. *)
Definition decodeCatalogIPFIXKey : Type := bool * Z * Z.

Record decodeCatalog : Type := {
  ipfix : gmap decodeCatalogIPFIXKey decodeCatalogField;
  netflowV9 : gmap Z decodeCatalogField;
  netflowV9Scopes : gmap Z decodeCatalogField
}.

Definition decodeCatalogIPFIXKeys (name : string) (d : IPFIXFieldDefinition) : list decodeCatalogIPFIXKey :=
  if defID d =? 0 then []
  else
    let scoped := EnterpriseScoped d || negb (PEN d =? 0) in
    (scoped, defID d, if scoped then PEN d else 0) ::
    (if String.eqb name "src_addr" then [(false, 27, 0)]
     else if String.eqb name "dst_addr" then [(false, 28, 0)] else []).

Definition decodeCatalogNetFlowV9IDs (name : string) (d : IPFIXFieldDefinition) : list Z :=
  (if negb (defID d =? 0) && (PEN d =? 0) && negb (EnterpriseScoped d) then [defID d] else []) ++
  (if String.eqb name "src_addr" then [27]
   else if String.eqb name "dst_addr" then [28]
   else if String.eqb name "start_time_unix" then [NFV9_FIELD_FIRST_SWITCHED]
   else if String.eqb name "end_time_unix" then [NFV9_FIELD_LAST_SWITCHED] else []).

Definition defaultNetFlowV9ScopeID (name : string) : Z :=
  if String.eqb name "observation_domain_id" || String.eqb name "source_id" then 1
  else if String.eqb name "if_index" || String.eqb name "input_if" then 2 else 0.

Definition decodeCatalogNetFlowV9ScopeIDs (name : string) (d : IPFIXFieldDefinition) : list Z :=
  let id := defaultNetFlowV9ScopeID name in if id =? 0 then [] else [id].

(** [for _, k := range keys { m[k] = field }]. *)
Definition put_keys {K} `{Countable K} (field : decodeCatalogField) (keys : list K) (m : gmap K decodeCatalogField) :=
  fold_left (fun m k => <[k := field]> m) keys m.

Definition catalog_add (c : decodeCatalog) (entry : string * IPFIXFieldDefinition) : decodeCatalog :=
  let '(key, d) := entry in
  let field := {| fkey := key; def := d |} in
  {| ipfix := put_keys field (decodeCatalogIPFIXKeys key d) (ipfix c);
     netflowV9 := put_keys field (decodeCatalogNetFlowV9IDs key d) (netflowV9 c);
     netflowV9Scopes := put_keys field (decodeCatalogNetFlowV9ScopeIDs key d) (netflowV9Scopes c) |}.

Definition empty_catalog : decodeCatalog := {| ipfix := ∅; netflowV9 := ∅; netflowV9Scopes := ∅ |}.

(** [catalog] lists the entries of the map in the order in which Go visits them. *)
Definition newDecodeCatalog (catalog : list (string * IPFIXFieldDefinition)) : decodeCatalog :=
  fold_left catalog_add catalog empty_catalog.

Definition catalog_empty (c : decodeCatalog) : bool :=
  bool_decide (ipfix c = ∅) && bool_decide (netflowV9 c = ∅) && bool_decide (netflowV9Scopes c = ∅).

Definition lookup (c : decodeCatalog) (field : DataField) (v9 : bool) : option decodeCatalogField :=
  if v9 then netflowV9 c !! dType field
  else ipfix c !! (dPenProvided field, dType field, if dPenProvided field then dPen field else 0).

Definition lookupOptions (c : decodeCatalog) (field : DataField) (v9 scope : bool) : option decodeCatalogField :=
  if v9 && scope then netflowV9Scopes c !! dType field else lookup c field v9.

Definition lookupTemplateField (c : decodeCatalog) (field : Field) (v9 scope : bool) : option decodeCatalogField :=
  lookupOptions c {| dPenProvided := PenProvided field; dType := NetflowTypes.Type_ field;
                     dLength := NetflowTypes.Length field; dPen := Pen field; dValue := VNil |} v9 scope.

(** [validateTemplatedDecodeCatalog] of config.go, with the keys of its own. *)
Definition ipfixDecodeKeys (name : string) (d : IPFIXFieldDefinition) : list (Z * Z) :=
  if defID d =? 0 then []
  else (defID d, if EnterpriseScoped d || negb (PEN d =? 0) then PEN d else 0) ::
       (if String.eqb name "src_addr" then [(27, 0)] else if String.eqb name "dst_addr" then [(28, 0)] else []).

Definition netflowV9DecodeIDs (name : string) (d : IPFIXFieldDefinition) : list Z :=
  (if negb (defID d =? 0) && (PEN d =? 0) && negb (EnterpriseScoped d) then [defID d] else []) ++
  (if String.eqb name "src_addr" then [27]
   else if String.eqb name "dst_addr" then [28]
   else if String.eqb name "start_time_unix" then [21]
   else if String.eqb name "end_time_unix" then [22] else []).

(** The two inner loops: [None] is the error of a duplicate. *)
Fixpoint claim {K} `{Countable K} (name : string) (keys : list K) (m : gmap K string) : option (gmap K string) :=
  match keys with
  | [] => Some m
  | k :: keys' =>
      match m !! k with
      | Some existing => if String.eqb existing name then claim name keys' (<[k := name]> m) else None
      | None => claim name keys' (<[k := name]> m)
      end
  end.

Fixpoint validate_loop (catalog : list (string * IPFIXFieldDefinition)) (i : gmap (Z * Z) string) (v : gmap Z string) : bool :=
  match catalog with
  | [] => true
  | (name, d) :: rest =>
      match claim name (ipfixDecodeKeys name d) i with
      | None => false
      | Some i' => match claim name (netflowV9DecodeIDs name d) v with None => false | Some v' => validate_loop rest i' v' end
      end
  end.
Definition validateTemplatedDecodeCatalog (catalog : list (string * IPFIXFieldDefinition)) : bool :=
  validate_loop catalog ∅ ∅.

(** ** Field values *)

Section decode.
Context `{GoLib}.

Definition decodeIPString (val : value) : string :=
  match val with
  | VBytes raw => match AddrFromSlice raw with Some a => Addr_String a | None => "" end
  | _ => Sprint val
  end.

Definition ipSliceString (raw : bytes) : string :=
  match AddrFromSlice raw with Some a => Addr_String a | None => "" end.

Definition base64RawValue (val : value) : string :=
  match val with
  | VBytes v => base64 v
  | VString v => base64 v
  | _ => base64 (string_bytes (Sprint val))
  end.

Definition decodeMACString (val : value) : any :=
  match val with
  | VBytes raw => A_string (match raw with [] => "" | _ => HardwareAddr_String raw end)
  | _ => any_of val
  end.

Definition decodeSigned64 (val : value) (length : Z) : Z :=
  match val with
  | VBytes v =>
      let u := decodeUint64 (A_bytes v) in
      let bits := if length * 8 =? 0 then len v * 8 else length * 8 in
      if (bits =? 0) || (64 <=? bits) then to_int 64 u
      else
        let sign := Z.shiftl 1 (bits - 1) in
        if Z.land u sign =? 0 then to_int 64 u
        else to_int 64 (Z.lor u (to_uint 64 (Z.shiftl (2 ^ 64 - 1) bits)))
  | _ => 0
  end.

Definition decodeCatalogValue (d : IPFIXFieldDefinition) (val : value) : any :=
  let typ := String.eqb (defType d) in
  if typ "ipv4Address" || typ "ipv6Address" then A_string (decodeIPString val)
  else if typ "string" then A_string (match val with VBytes v => go_string v | VString v => go_string v | _ => Sprint val end)
  else if typ "unsigned8" || typ "unsigned16" || typ "unsigned32" then A_int K_uint32 (decodeUint32 (any_of val))
  else if typ "unsigned64" then A_int K_uint64 (decodeUint64 (any_of val))
  else if typ "signed8" || typ "signed16" || typ "signed32" then A_int K_int32 (to_int 32 (decodeSigned64 val (defLength d)))
  else if typ "signed64" then A_int K_int64 (decodeSigned64 val (defLength d))
  else if typ "bytes" then any_of val
  else if typ "macAddress" then decodeMACString val
  else if typ "boolean" then A_bool (negb (decodeUint32 (any_of val) =? 0))
  else A_string (base64RawValue val).

(** An unspecified address does not overwrite a known one. *)
Definition setDecodedIPField (key : string) (val : value) (m : fields) : fields :=
  let ip := decodeIPString val in
  if String.eqb ip "" then m
  else
    let unspecified := match ParseAddr ip with Some a => IsUnspecified a | None => false end in
    match m !! key with
    | Some (A_string existing) => if unspecified && negb (String.eqb existing "") then m else <[key := A_string ip]> m
    | _ => <[key := A_string ip]> m
    end.

Definition put_proto (val : value) (m : fields) : fields :=
  let proto := decodeUint32 (any_of val) in
  put_fields [("proto", u32_field proto); ("proto_name", A_string (ipProtocolName proto))]%string m.

Definition applyCatalogDataField (field : DataField) (catalogField : decodeCatalogField) (sysUptime unixSeconds : Z)
    (v9 : bool) (m : fields) : fields :=
  let key := fkey catalogField in
  let val := dValue field in
  let number := A_int K_int64 (to_int 64 (decodeUint64 (any_of val))) in
  let switched := A_int K_int64 (flowTimeFromV9 sysUptime unixSeconds (decodeUint32 (any_of val))) in
  if String.eqb key "proto" then put_proto val m
  else if String.eqb key "bytes" || String.eqb key "packets" then <[key := number]> m
  else if String.eqb key "start_time_unix" then
    <[key := if v9 && (dType field =? NFV9_FIELD_FIRST_SWITCHED) then switched else number]> m
  else if String.eqb key "end_time_unix" then
    <[key := if v9 && (dType field =? NFV9_FIELD_LAST_SWITCHED) then switched else number]> m
  else if existsb (String.eqb key) ["src_addr"; "dst_addr"; "nat_src_addr"; "nat_dst_addr"]%string then
    setDecodedIPField key val m
  else <[key := decodeCatalogValue (def catalogField) val]> m.

(** ** NetFlow v5 *)

Definition v5_fields (packet : PacketNetFlowV5) (record : RecordsNetFlowV5) : list (string * any) :=
  let time s := A_int K_int64 (flowTimeFromV5 (UnixSecs packet) (UnixNSecs packet) (SysUptime packet) s) in
  [("flow_type", A_string "netflowv5"); ("flow_version", A_int K_uint16 (NetflowLegacy.Version packet));
   ("record_kind", A_string "packet"); ("flow_sequence", u32_field (FlowSequence packet));
   ("engine_type", u32_field (EngineType packet)); ("engine_id", u32_field (EngineId packet));
   ("sampling_rate", u32_field (SamplingInterval packet));
   ("src_addr", A_string (IPAddress_String (SrcAddr record)));
   ("dst_addr", A_string (IPAddress_String (DstAddr record)));
   ("next_hop", A_string (IPAddress_String (NextHop record)));
   ("src_port", u32_field (SrcPort record)); ("dst_port", u32_field (DstPort record));
   ("proto", u32_field (Proto record)); ("proto_name", A_string (ipProtocolName (Proto record)));
   ("tcp_flags", u32_field (TCPFlags record)); ("tos", u32_field (Tos record));
   ("bytes", A_int K_int64 (DOctets record)); ("packets", A_int K_int64 (DPkts record));
   ("input_if", u32_field (Input record)); ("output_if", u32_field (Output record));
   ("src_as", u32_field (SrcAS record)); ("dst_as", u32_field (DstAS record));
   ("src_mask", u32_field (SrcMask record)); ("dst_mask", u32_field (DstMask record));
   ("start_time_unix", time (First record)); ("end_time_unix", time (Last record))]%string.

Definition v5_event (evt : Event) (packet : PacketNetFlowV5) (record : RecordsNetFlowV5) : Event :=
  with_fields evt (put_fields (v5_fields packet record) (ensureFields evt)).

Definition decodeNetFlowV5 {S} (evt : Event) (payload : bytes) : ST S (list Event) :=
  let* packet := errctx (Wrap "decode netflow v5" []) (on_buffer payload NetflowLegacy.DecodeMessageVersion) in
  ret (map (v5_event evt packet) (NetflowLegacy.Records packet)).
End decode.

(** ** NetFlow v9 and IPFIX *)

Section netflow.
Context `{GoLib}.

(** The mapping without a catalog: the keys that [mapDataFields] returns are dropped by its
    callers. *)
Definition map_field (field : DataField) (sysUptime unixSeconds : Z) (m : fields) : fields :=
  let val := dValue field in
  let u32 := u32_field (decodeUint32 (any_of val)) in
  let i64 := A_int K_int64 (to_int 64 (decodeUint64 (any_of val))) in
  let switched := A_int K_int64 (flowTimeFromV9 sysUptime unixSeconds (decodeUint32 (any_of val))) in
  let typ := Z.eqb (dType field) in
  if typ 4 then put_proto val m
  else if typ NFV9_FIELD_TCP_FLAGS then <["tcp_flags"%string := u32]> m
  else if typ 7 then <["src_port"%string := u32]> m
  else if typ 11 then <["dst_port"%string := u32]> m
  else if typ 8 || typ 27 then setDecodedIPField "src_addr" val m
  else if typ 12 || typ 28 then setDecodedIPField "dst_addr" val m
  else if typ 1 then <["bytes"%string := i64]> m
  else if typ 2 then <["packets"%string := i64]> m
  else if typ 10 then <["input_if"%string := u32]> m
  else if typ 14 then <["output_if"%string := u32]> m
  else if typ 34 then <["sampling_rate"%string := u32]> m
  else if typ NFV9_FIELD_FIRST_SWITCHED then <["start_time_unix"%string := switched]> m
  else if typ NFV9_FIELD_LAST_SWITCHED then <["end_time_unix"%string := switched]> m
  else if typ IPFIX_FIELD_flowStartMilliseconds then <["start_time_unix"%string := i64]> m
  else if typ IPFIX_FIELD_flowEndMilliseconds then <["end_time_unix"%string := i64]> m
  else m.

Definition mapDataFields (c : decodeCatalog) (values : list DataField) (sysUptime unixSeconds : Z) (v9 : bool) (m : fields) : fields :=
  fold_left (fun m field =>
    if negb (catalog_empty c) then
      match lookup c field v9 with
      | Some cf => applyCatalogDataField field cf sysUptime unixSeconds v9 m
      | None => m
      end
    else map_field field sysUptime unixSeconds m) values m.

(** [decodeOptionFallback] copies bytes. *)
Definition decodeOptionFallback (val : value) : any := any_of val.

(** One round of the loop of [mapOptionsFields]. *)
Definition scope_field (c : decodeCatalog) (v9 scope : bool) (prefix : string) (s : fields * list string) (field : DataField)
    : fields * list string :=
  let '(m, keys) := s in
  match lookupOptions c field v9 scope with
  | Some cf => (applyCatalogDataField field cf 0 0 v9 m, keys ++ [fkey cf])
  | None =>
      let key := (prefix +:+ "_" +:+ itoa (dType field))%string in
      (<[key := decodeOptionFallback (dValue field)]> m, keys ++ [key])
  end.

Definition mapOptionsFields (c : decodeCatalog) (values : list DataField) (v9 scope : bool) (prefix : string) (m : fields)
    : fields * list string :=
  fold_left (scope_field c v9 scope prefix) values (m, []).

Definition option_field (c : decodeCatalog) (v9 : bool) (m : fields) (field : DataField) : fields :=
  let fallback := <[("option_" +:+ itoa (dType field))%string := decodeOptionFallback (dValue field)]> m in
  match lookupOptions c field v9 false with
  | Some cf => applyCatalogDataField field cf 0 0 v9 m
  | None =>
      if dPenProvided field then fallback
      else if existsb (Z.eqb (dType field)) [34; 50; 305] then
        <["sampling_rate"%string := u32_field (decodeUint32 (any_of (dValue field)))]> m
      else fallback
  end.

Definition catalogFieldName (cf : decodeCatalogField) : string :=
  if String.eqb (defName (def cf)) "" then fkey cf else defName (def cf).

Definition templateFieldSpec (c : decodeCatalog) (v9 scope : bool) (field : Field) : list (string * any) :=
  let optional k v := if String.eqb v "" then [] else [(k, A_string v)] in
  [("id", u32_field (NetflowTypes.Type_ field)); ("length", u32_field (NetflowTypes.Length field));
   ("pen", u32_field (Pen field)); ("pen_provided", A_bool (PenProvided field))]%string ++
  match lookupTemplateField c field v9 scope with
  | None => []
  | Some cf => [("name"%string, A_string (catalogFieldName cf))] ++ optional "key"%string (fkey cf) ++
               optional "data_type"%string (defType (def cf)) ++ optional "format"%string (defFormat (def cf))
  end.
Definition templateFieldSpecs (c : decodeCatalog) (l : list Field) (v9 scope : bool) : any :=
  A_maps (map (templateFieldSpec c v9 scope) l).

(** *** Events *)

Definition header_fields (flow_type : string) (version : Z) (record_kind : string) : list (string * any) :=
  [("flow_type", A_string flow_type); ("flow_version", A_int K_uint16 version); ("record_kind", A_string record_kind)]%string.

(** The two functions [templateEventsFromV9] and [templateEventsFromIPFIX] share these. *)
Definition template_event (c : decodeCatalog) (embed : bool) (base : Event) (flow_type : string) (version : Z) (v9 : bool)
    (record : TemplateRecord) : Event :=
  with_payload base
    (put_fields (header_fields flow_type version "template" ++
       [("template_id", u32_field (TemplateId record)); ("field_count", u32_field (FieldCount record))]%string ++
       if embed then [("tflow.fields"%string, templateFieldSpecs c (NetflowTypes.Fields record) v9 false)] else [])
      (ensureFields base))
    (PL_template record).

Definition options_template_event (c : decodeCatalog) (embed : bool) (base : Event) (flow_type : string) (version : Z) (v9 : bool)
    (tid nscopes noptions : Z) (scopes options : list Field) (p : payload) : Event :=
  with_payload base
    (put_fields (header_fields flow_type version "options_template" ++
       [("tflow_record_type", A_string "options"); ("template_id", u32_field tid);
        ("scope_field_count", u32_field nscopes); ("option_field_count", u32_field noptions)]%string ++
       if embed then [("tflow.scopes", templateFieldSpecs c scopes v9 true); ("tflow.options", templateFieldSpecs c options v9 false)]%string
       else [])
      (ensureFields base)) p.

Definition templateEventsFromV9 (c : decodeCatalog) (embed : bool) (base : Event) (packet : NFv9Packet)
    (templatesSets : list TemplateFlowSet) (optionsSets : list NFv9OptionsTemplateFlowSet) : list Event :=
  flat_map (fun set => map (template_event c embed base "netflowv9_template" (v9Version packet) true) (NetflowTypes.Records set)) templatesSets ++
  flat_map (fun set => map (fun r =>
    options_template_event c embed base "netflowv9_options_template" (v9Version packet) true
      (v9TemplateId r) (to_uint 32 (len (v9Scopes r))) (to_uint 32 (len (v9Options r))) (v9Scopes r) (v9Options r)
      (PL_v9_options_template r)) (NetflowTypes.Records set)) optionsSets.

Definition templateEventsFromIPFIX (c : decodeCatalog) (embed : bool) (base : Event) (packet : IPFIXPacket)
    (templatesSets : list TemplateFlowSet) (optionsSets : list IPFIXOptionsTemplateFlowSet) : list Event :=
  flat_map (fun set => map (template_event c embed base "ipfix_template" (ipfixVersion packet) false) (NetflowTypes.Records set)) templatesSets ++
  flat_map (fun set => map (fun r =>
    options_template_event c embed base "ipfix_options_template" (ipfixVersion packet) false
      (ipfixTemplateId r) (ScopeFieldCount r) (to_uint 32 (ipfixFieldCount r - ScopeFieldCount r)) (ipfixScopes r) (ipfixOptions r)
      (PL_ipfix_options_template r)) (NetflowTypes.Records set)) optionsSets.

Definition options_event (c : decodeCatalog) (base : Event) (flowType : string) (version : Z) (v9 : bool) (tid : Z)
    (record : OptionsDataRecord) : Event :=
  let m := put_fields (header_fields flowType version "options_data" ++
             [("tflow_record_type", A_string "options"); ("template_id", u32_field tid)]%string) (ensureFields base) in
  let '(m, scopeKeys) := mapOptionsFields c (ScopesValues record) v9 true "scope" m in
  let m := match scopeKeys with [] => m | _ => <["tflow.scope"%string := A_strings scopeKeys]> m end in
  with_payload base (fold_left (option_field c v9) (OptionsValues record) m) (PL_options_data record).

Definition optionsEvents (c : decodeCatalog) (base : Event) (flowType : string) (version : Z)
    (optionsSets : list OptionsDataFlowSet) (v9 : bool) : list Event :=
  flat_map (fun set => map (options_event c base flowType version v9 (Id (Header set))) (NetflowTypes.Records set)) optionsSets.

Definition data_event (c : decodeCatalog) (evt : Event) (flow_type : string) (version sysUptime unixSeconds : Z) (v9 : bool)
    (samplingRate : Z) (record : DataRecord) : Event :=
  let m := mapDataFields c (Values record) sysUptime unixSeconds v9
             (put_fields (header_fields flow_type version "packet") (ensureFields evt)) in
  with_fields evt (if (fieldUint32 m "sampling_rate" =? 0) && negb (samplingRate =? 0)
                   then <["sampling_rate"%string := u32_field samplingRate]> m else m).

(** *** Sampling rates *)

Definition netFlowPopulate (l : list DataField) (typeID : Z) : option Z :=
  match find (fun f => negb (dPenProvided f || negb (dType f =? typeID))) l with
  | Some f => Some (decodeUint32 (any_of (dValue f)))
  | None => None
  end.

(** The rate of a record: the first of the three elements it has. *)
Definition record_rate (record : OptionsDataRecord) : option Z :=
  match netFlowPopulate (OptionsValues record) 305 with
  | Some r => Some r
  | None => match netFlowPopulate (OptionsValues record) 50 with
            | Some r => Some r
            | None => netFlowPopulate (OptionsValues record) 34
            end
  end.

Definition searchNetFlowOptionDataSets (l : list OptionsDataFlowSet) : Z * bool :=
  match omap record_rate (flat_map NetflowTypes.Records l) with r :: _ => (r, true) | [] => (0, false) end.
End netflow.

(** *** Packets *)

Record builtIn (T R : Type) : Type := {
  templates : T; sampling : option R; catalog : decodeCatalog; embedTemplateFields : bool
}.
Arguments templates {T R} _.
Arguments sampling {T R} _.
Arguments catalog {T R} _.
Arguments embedTemplateFields {T R} _.

Section packets.
Context `{GoLib} {T R : Type} `{TemplateStore T} `{SamplingStore R}.
Implicit Type d : builtIn T R.

Definition with_templates (t : T) (d : builtIn T R) : builtIn T R :=
  {| templates := t; sampling := sampling d; catalog := catalog d; embedTemplateFields := embedTemplateFields d |}.
Definition with_sampling (r : option R) (d : builtIn T R) : builtIn T R :=
  {| templates := templates d; sampling := r; catalog := catalog d; embedTemplateFields := embedTemplateFields d |}.

(** [netflow.DecodeMessageVersion] with the decoder's templates: a packet that comes with an
    error is dropped. *)
Definition decode_message (ctx : FlowContext) (b : bytes) : ST (builtIn T R) (NFv9Packet + IPFIXPacket) := fun d =>
  let '(r, s) := NetflowDecode.DecodeMessageVersion ctx {| NetflowDecode.payload := b; NetflowDecode.store := Some (templates d) |} in
  (match r with
   | Ok (p, None) => Ok p
   | Ok (_, Some e) => Err e
   | Err e => Err e
   | Panic w => Panic w
   | Hang => Hang
   end, match NetflowDecode.store s with Some t => with_templates t d | None => d end).

(** The rate of the packet's options, or the stored one: the statements are those of
    [ProducerNetflow.sampling_rate]. *)
Definition packet_rate (ctx : FlowContext) (version dom : Z) (sets : list OptionsDataFlowSet) : ST (builtIn T R) Z := fun d =>
  let '(rate, found) := searchNetFlowOptionDataSets sets in
  let '(r, s) := sampling_rate ctx version dom rate found (sampling d) in (r, with_sampling s d).

Definition decodeNetFlowV9 (evt : Event) (payload : bytes) : ST (builtIn T R) (list Event) :=
  let ctx := {| RouterKey := routerKey evt |} in
  let* p := errctx (Wrap "decode netflow v9" []) (decode_message ctx payload) in
  match p with
  | inr _ => panic "nil pointer dereference"
  | inl packet =>
      let '(dataSets, templatesFlowSet, optionsTemplatesFlowSet, optionsDataFlowSet) := SplitNetFlowSets packet in
      let* samplingRate := packet_rate ctx (v9Version packet) (SourceId packet) optionsDataFlowSet in
      let* d := get in
      let c := catalog d in
      ret (templateEventsFromV9 c (embedTemplateFields d) evt packet templatesFlowSet optionsTemplatesFlowSet ++
           optionsEvents c evt "netflowv9_options_data" (v9Version packet) optionsDataFlowSet true ++
           flat_map (fun set => map (data_event c evt "netflowv9" (v9Version packet) (SystemUptime packet)
             (UnixSeconds packet) true samplingRate) (NetflowTypes.Records set)) dataSets)
  end.

Definition decodeIPFIX (evt : Event) (payload : bytes) : ST (builtIn T R) (list Event) :=
  let ctx := {| RouterKey := routerKey evt |} in
  let* p := errctx (Wrap "decode ipfix" []) (decode_message ctx payload) in
  match p with
  | inl _ => panic "nil pointer dereference"
  | inr packet =>
      let '(dataSets, templatesFlowSet, optionsTemplatesFlowSet, optionsDataFlowSet) := SplitIPFIXSets packet in
      let* samplingRate := packet_rate ctx (ipfixVersion packet) (ObservationDomainId packet) optionsDataFlowSet in
      let* d := get in
      let c := catalog d in
      ret (templateEventsFromIPFIX c (embedTemplateFields d) evt packet templatesFlowSet optionsTemplatesFlowSet ++
           optionsEvents c evt "ipfix_options_data" (ipfixVersion packet) optionsDataFlowSet false ++
           flat_map (fun set => map (data_event c evt "ipfix" (ipfixVersion packet) 0 0 false samplingRate)
             (NetflowTypes.Records set)) dataSets)
  end.
End packets.

(** ** sFlow *)

Section sflow.
Context `{GoLib}.

(** [mplsLabelValueFromStackEntry], [mplsLabelStackSectionFromEntry]. *)
Definition mplsLabelValueFromStackEntry (entry : Z) : Z := Z.land (Z.shiftr entry 12) 0xfffff.
Definition mplsLabelStackSectionFromEntry (entry : Z) : bytes :=
  [to_uint 8 (Z.shiftr entry 24); to_uint 8 (Z.shiftr entry 16); to_uint 8 (Z.shiftr entry 8)].

Definition put_ip (key : string) (ip : bytes) (m : fields) : fields :=
  let s := ipSliceString ip in if String.eqb s "" then m else <[key := A_string s]> m.

Definition applySFlowExtendedNATFields (d : ExtendedNAT) (m : fields) : fields :=
  put_ip "nat_dst_addr" (DstAddress d) (put_ip "nat_src_addr" (SrcAddress d) m).

(** The loop over the labels from the [i]-th on. *)
Fixpoint mpls_labels (i : Z) (labels : list Z) (m : fields) : fields :=
  match labels with
  | [] => m
  | entry :: rest =>
      mpls_labels (i + 1) rest
        (put_fields [("mpls_label_" +:+ itoa i, u32_field (mplsLabelValueFromStackEntry entry));
                     ("mpls_label_stack_section_" +:+ itoa i, A_bytes (mplsLabelStackSectionFromEntry entry))]%string m)
  end.

Definition applySFlowExtendedMPLSFields (d : ExtendedMPLS) (m : fields) : fields :=
  mpls_labels 1 (InLabelStack d)
    (put_fields [("mpls_in_label_stack", A_uint32s (InLabelStack d)); ("mpls_out_label_stack", A_uint32s (OutLabelStack d))]%string
      (put_ip "mpls_next_hop_addr" (mNextHop d) m)).

Definition applySFlowExtendedRecordFields (data : flow_value) (m : fields) : fields :=
  match data with
  | FV_ExtendedNAT d => applySFlowExtendedNATFields d m
  | FV_ExtendedMPLS d => applySFlowExtendedMPLSFields d m
  | FV_ExtendedMPLSTunnel d =>
      put_fields [("mpls_tunnel_lsp_name", A_string (go_string (TunnelLSPName d)));
                  ("mpls_tunnel_id", u32_field (TunnelID d)); ("mpls_tunnel_cos", u32_field (TunnelCOS d))]%string m
  | FV_ExtendedMPLSVC d =>
      put_fields [("mpls_vc_instance_name", A_string (go_string (VCInstanceName d)));
                  ("mpls_vll_vc_id", u32_field (VLLVCID d)); ("mpls_vc_label_cos", u32_field (VCLabelCOS d))]%string m
  | FV_ExtendedMPLSFTN d =>
      put_fields [("mpls_ftn_descr", A_string (go_string (MPLSFTNDescr d))); ("mpls_ftn_mask", u32_field (MPLSFTNMask d))]%string m
  | FV_ExtendedMPLSLDPFEC d => <["mpls_fec_addr_prefix_length"%string := u32_field (MPLSFecAddrPrefixLength d)]> m
  | _ => m
  end.

Definition sampled_header_fields (d : SampledHeader) : list (string * any) :=
  [("protocol", u32_field (shProtocol d)); ("frame_length", u32_field (shFrameLength d));
   ("stripped", u32_field (shStripped d)); ("original_length", u32_field (shOriginalLength d));
   ("record_kind", A_string "packet"); ("header_data", A_bytes (shHeaderData d));
   ("bytes", A_int K_int64 (shFrameLength d))]%string.

(** The addresses are the raw bytes of the record as a string. *)
Definition sampled_ip_fields (d : SampledIPBase) : list (string * any) :=
  [("src_addr", A_string (go_string (ipSrcIP d))); ("dst_addr", A_string (go_string (ipDstIP d)));
   ("src_port", u32_field (ipSrcPort d)); ("dst_port", u32_field (ipDstPort d)); ("proto", u32_field (ipProtocol d));
   ("proto_name", A_string (ipProtocolName (ipProtocol d))); ("bytes", A_int K_int64 (ipLength d))]%string.

(** The type switches look for values, not pointers. *)
Definition data_of_record {V} (r : record V) : option V := match rData r with Some (Val v) => Some v | _ => None end.

Definition shouldPreserveSFlowFlowRecord (r : FlowRecord) : bool :=
  match data_of_record r with
  | Some (FV_SampledHeader _) | Some (FV_SampledEthernet _) | Some (FV_SampledIPv4 _) | Some (FV_SampledIPv6 _) => false
  | _ => true
  end.

Definition flow_record_fields (m : fields) (r : FlowRecord) : fields :=
  match data_of_record r with
  | Some (FV_SampledHeader d) => put_fields (sampled_header_fields d) m
  | Some (FV_SampledIPv4 d) => put_fields (sampled_ip_fields (v4Base d)) m
  | Some (FV_SampledIPv6 d) => put_fields (sampled_ip_fields (v6Base d)) m
  | Some d => applySFlowExtendedRecordFields d m
  | None => m
  end.

Definition expanded_record_fields (m : fields) (r : FlowRecord) : fields :=
  match data_of_record r with
  | Some (FV_SampledHeader d) => put_fields (sampled_header_fields d) m
  | Some d => applySFlowExtendedRecordFields d m
  | None => m
  end.
End sflow.

Section samples.
Context `{GoLib}.

Definition sflow_metadata (packet : Packet) (source rate pool drops : Z) : SFlowMetadata :=
  {| sfAgentIP := ipSliceString (AgentIP packet); sfSubAgentID := SubAgentId packet;
     sfSequenceNumber := SequenceNumber packet; sfUptime := Uptime packet; sfSourceID := source;
     sfSamplingRate := rate; sfSamplePool := pool; sfDrops := drops; sfSamples := [] |}.

(** The fields every event of a packet starts with. *)
Definition packet_fields (packet : Packet) : list (string * any) :=
  [("flow_type", A_string "sflow"); ("flow_version", u32_field (SflowTypes.Version packet))]%string.
Definition agent_fields (packet : Packet) : list (string * any) :=
  [("agent_ip", A_string (ipSliceString (AgentIP packet))); ("sub_agent_id", u32_field (SubAgentId packet))]%string.

Definition sample_fields (packet : Packet) (source rate pool drops input output : Z) : list (string * any) :=
  packet_fields packet ++ agent_fields packet ++
  [("source_id", u32_field source); ("sampling_rate", u32_field rate); ("sample_pool", u32_field pool);
   ("drops", u32_field drops); ("input_if", u32_field input); ("output_if", u32_field output);
   ("packets", A_int K_int64 1)]%string.

Definition preserved (records : list FlowRecord) : internal :=
  {| sflow_flow_records := List.filter shouldPreserveSFlowFlowRecord records; sflow_sample := None; sflow_counter_records := []; other_internal := ∅ |}.

Definition eventFromSFlowSample (base : Event) (packet : Packet) (s : FlowSample) : Event :=
  let source := SourceIdValue (fsHeader s) in
  with_data base
    (fold_left flow_record_fields (fsRecords s)
      (put_fields (sample_fields packet source (fsSamplingRate s) (fsSamplePool s) (fsDrops s) (fsInput s) (fsOutput s))
        (ensureFields base)))
    (Payload base) (Some (sflow_metadata packet source (fsSamplingRate s) (fsSamplePool s) (fsDrops s)))
    (preserved (fsRecords s)).

Definition eventFromExpandedSFlowSample (base : Event) (packet : Packet) (s : ExpandedFlowSample) : Event :=
  let source := SourceIdValue (esHeader s) in
  with_data base
    (fold_left expanded_record_fields (esRecords s)
      (put_fields (sample_fields packet source (esSamplingRate s) (esSamplePool s) (esDrops s) (InputIfValue s) (OutputIfValue s))
        (ensureFields base)))
    (Payload base) (Some (sflow_metadata packet source (esSamplingRate s) (esSamplePool s) (esDrops s)))
    (preserved (esRecords s)).

Definition eventFromRawSFlowSample (base : Event) (packet : Packet) (s : RawSample) : Event :=
  with_data base
    (put_fields (packet_fields packet ++ agent_fields packet ++ [("record_kind"%string, A_string "sflow_raw_sample")]) (ensureFields base))
    (Payload base) (Some (sflow_metadata packet 0 0 0 0))
    {| sflow_flow_records := []; sflow_sample := Some s; sflow_counter_records := []; other_internal := ∅ |}.

Definition applySFlowIfCounterFields (d : IfCounters) : list (string * any) :=
  let u64 z := A_int K_uint64 z in
  [("if_index", u32_field (IfIndex d)); ("if_type", u32_field (IfType d)); ("if_speed", u64 (IfSpeed d));
   ("if_direction", u32_field (IfDirection d)); ("if_status", u32_field (IfStatus d)); ("if_in_octets", u64 (IfInOctets d));
   ("if_in_ucast_pkts", u32_field (IfInUcastPkts d)); ("if_in_multicast_pkts", u32_field (IfInMulticastPkts d));
   ("if_in_broadcast_pkts", u32_field (IfInBroadcastPkts d)); ("if_in_discards", u32_field (IfInDiscards d));
   ("if_in_errors", u32_field (IfInErrors d)); ("if_in_unknown_protos", u32_field (IfInUnknownProtos d));
   ("if_out_octets", u64 (IfOutOctets d)); ("if_out_ucast_pkts", u32_field (IfOutUcastPkts d));
   ("if_out_multicast_pkts", u32_field (IfOutMulticastPkts d)); ("if_out_broadcast_pkts", u32_field (IfOutBroadcastPkts d));
   ("if_out_discards", u32_field (IfOutDiscards d)); ("if_out_errors", u32_field (IfOutErrors d));
   ("if_promiscuous_mode", u32_field (IfPromiscuousMode d))]%string.

Definition applySFlowEthernetCounterFields (d : EthernetCounters) : list (string * any) :=
  [("dot3_stats_alignment_errors", u32_field (Dot3StatsAlignmentErrors d)); ("dot3_stats_fcs_errors", u32_field (Dot3StatsFCSErrors d));
   ("dot3_stats_single_collision_frames", u32_field (Dot3StatsSingleCollisionFrames d));
   ("dot3_stats_multiple_collision_frames", u32_field (Dot3StatsMultipleCollisionFrames d));
   ("dot3_stats_sqe_test_errors", u32_field (Dot3StatsSQETestErrors d));
   ("dot3_stats_deferred_transmissions", u32_field (Dot3StatsDeferredTransmissions d));
   ("dot3_stats_late_collisions", u32_field (Dot3StatsLateCollisions d));
   ("dot3_stats_excessive_collisions", u32_field (Dot3StatsExcessiveCollisions d));
   ("dot3_stats_internal_mac_transmit_errors", u32_field (Dot3StatsInternalMacTransmitErrors d));
   ("dot3_stats_carrier_sense_errors", u32_field (Dot3StatsCarrierSenseErrors d));
   ("dot3_stats_frame_too_longs", u32_field (Dot3StatsFrameTooLongs d));
   ("dot3_stats_internal_mac_receive_errors", u32_field (Dot3StatsInternalMacReceiveErrors d));
   ("dot3_stats_symbol_errors", u32_field (Dot3StatsSymbolErrors d))]%string.

(** [applySFlowCounterRecordFields]; the flag tells whether the record is preserved. *)
Definition counter_record_fields (r : CounterRecord) : list (string * any) * bool :=
  match data_of_record r with
  | Some (CV_IfCounters d) => (("record_kind"%string, A_string "interface_counter") :: applySFlowIfCounterFields d, false)
  | Some (CV_EthernetCounters d) => (("record_kind"%string, A_string "ethernet_counter") :: applySFlowEthernetCounterFields d, false)
  | _ => ([("record_kind"%string, A_string "counter_record")], true)
  end.

Definition counter_event (base : Event) (packet : Packet) (s : CounterSample) (r : CounterRecord) : Event :=
  let '(l, keep) := counter_record_fields r in
  with_data base
    (put_fields (packet_fields packet ++
      [("counter_type", A_string "sflow"); ("sflow_version", u32_field (SflowTypes.Version packet))]%string ++ agent_fields packet ++
      [("source_id_type", u32_field (SourceIdType (csHeader s))); ("source_id", u32_field (SourceIdValue (csHeader s)));
       ("counter_record_format", u32_field (DataFormat (rHeader r)))]%string ++
      (if Format (csHeader s) =? SAMPLE_FORMAT_EXPANDED_COUNTER then [("counter_format"%string, A_string "expanded")] else []) ++ l)
      (ensureFields base))
    (Payload base) (Some (sflow_metadata packet (SourceIdValue (csHeader s)) 0 0 0))
    {| sflow_flow_records := []; sflow_sample := None; sflow_counter_records := if keep then [r] else []; other_internal := ∅ |}.

Definition eventsFromSFlowCounterSample (base : Event) (packet : Packet) (s : CounterSample) : list Event :=
  map (counter_event base packet s) (csRecords s).

(** The events of a sample; a drop sample has none. *)
Definition sample_events (base : Event) (packet : Packet) (s : sample_value) : list Event :=
  match s with
  | SV_FlowSample s => [eventFromSFlowSample base packet s]
  | SV_ExpandedFlowSample s => [eventFromExpandedSFlowSample base packet s]
  | SV_CounterSample s => eventsFromSFlowCounterSample base packet s
  | SV_RawSample s => [eventFromRawSFlowSample base packet s]
  | SV_DropSample _ => []
  end.

(** The samples of a decoded packet are values; a nil pointer would panic. *)
Definition sample_value_of (s : sample) : option sample_value := match s with Some b => unbox b | None => None end.

Definition ensureSFlowDecodedFields (version : Z) (evt : Event) : Event :=
  let m := ensureFields evt in
  let m := match m !! "flow_type"%string with Some _ => m | None => <["flow_type"%string := A_string "sflow"]> m end in
  let m := match m !! "flow_version"%string with Some _ => m | None => <["flow_version"%string := u32_field version]> m end in
  {| ReceivedAt := ReceivedAt evt; Kind := Kind evt; Stream := Stream evt; Source := Source evt; Control := Control evt;
     ReflowEvent.Fields := Some m; evtMessage := evtMessage evt; evtPacket := evtPacket evt; SFlow := SFlow evt; Aggregation := Aggregation evt; Payload := Payload evt; Internal := Internal evt |}.

Definition decodeSFlow {S} (evt : Event) (payload : bytes) (version : Z) : ST S (list Event) :=
  let* packet := errctx (Wrap "decode sflow" []) (on_buffer payload SflowDecode.DecodeMessageVersion) in
  match flat_map (sample_events evt packet) (omap sample_value_of (Samples packet)) with
  | [] => ret [with_fields evt (put_fields [("flow_type", A_string "sflow"); ("flow_version", u32_field version)]%string (ensureFields evt))]
  | out => ret (map (ensureSFlowDecodedFields (SflowTypes.Version packet)) out)
  end.
End samples.

(** ** Dispatch (flow.go, decode.go) *)

Inductive flow_type : Type := FT_sflow | FT_netflowv5 | FT_netflowv9 | FT_ipfix.

Definition identifyFlow (b : bytes) : res (flow_type * Z) :=
  if len b <? 4 then Err (Errorf "identify flow: payload too short" [])
  else if be_get (take 4 b) =? 5 then Ok (FT_sflow, 5)
  else
    let version := be_get (take 2 b) in
    if version =? 5 then Ok (FT_netflowv5, version)
    else if version =? 9 then Ok (FT_netflowv9, version)
    else if version =? 10 then Ok (FT_ipfix, version)
    else Err (Errorf "identify flow: unsupported version" [version]).

Section dispatch.
Context `{GoLib} {T R : Type} `{TemplateStore T} `{SamplingStore R}.

Definition decodeFlow (evt : Event) : ST (builtIn T R) (list Event) :=
  match Payload evt with
  | PL_bytes ((_ :: _) as b) =>
      match identifyFlow b with
      | Ok (FT_sflow, version) => decodeSFlow evt b version
      | Ok (FT_netflowv5, _) => decodeNetFlowV5 evt b
      | Ok (FT_netflowv9, _) => decodeNetFlowV9 evt b
      | Ok (FT_ipfix, _) => decodeIPFIX evt b
      | Err e => fail e
      | Panic w => panic w
      | Hang => fun s => (Hang, s)
      end
  | _ => fail (Errorf "decode flow: missing payload bytes" [])
  end.

(** The event itself, with a map of fields. *)
Definition decodeBytes (evt : Event) : ST (builtIn T R) (list Event) :=
  match Payload evt with
  | PL_bytes (_ :: _) =>
      ret [{| ReceivedAt := ReceivedAt evt; Kind := Kind evt; Stream := Stream evt; Source := Source evt; Control := Control evt;
              ReflowEvent.Fields := Some (ensureFields evt); evtMessage := evtMessage evt; evtPacket := evtPacket evt; SFlow := SFlow evt; Aggregation := Aggregation evt;
              Payload := Payload evt; Internal := Internal evt |}]
  | _ => fail (Errorf "decode bytes: missing payload bytes" [])
  end.

Definition Decode (evt : option Event) : ST (builtIn T R) (list (option Event)) :=
  match evt with
  | None => panic "nil pointer dereference"
  | Some e =>
      if String.eqb (Kind e) "control" then ret [evt]
      else if String.eqb (ReflowEvent.Type_ (Source e)) "flow" then let* l := decodeFlow e in ret (map Some l)
      else if String.eqb (ReflowEvent.Type_ (Source e)) "bytes" then let* l := decodeBytes e in ret (map Some l)
      else ret [evt]
  end.
End dispatch.

(** ** Several fields at once *)

Lemma lookup_put_fields_other k l m : k ∉ l.*1 -> put_fields l m !! k = m !! k.
Proof.
  unfold put_fields. revert m. induction l as [|[k' v'] l IH]; intros m Hk; [done|].
  apply not_elem_of_cons in Hk as [Hne Hk]. cbn [fold_left]. rewrite IH by done. by apply lookup_insert_ne.
Qed.

Lemma lookup_put_fields k v l m : NoDup l.*1 -> (k, v) ∈ l -> put_fields l m !! k = Some v.
Proof.
  unfold put_fields. revert m. induction l as [|[k' v'] l IH]; intros m Hnd Hin; [by apply elem_of_nil in Hin|].
  apply NoDup_cons in Hnd as [Hk Hnd]. cbn [fold_left]. apply elem_of_cons in Hin as [[= -> ->]|Hin]; [|by apply IH].
  change (put_fields l (<[k' := v']> m) !! k' = Some v'). rewrite lookup_put_fields_other by done. apply lookup_insert_eq.
Qed.
