(* ===== verification/ReflowDecodeProps.v ===== *)
(** * Properties of the ReFlow decoder

    Safety for any datagram, the events of NetFlow v5, the fields of NetFlow records, and the
    catalog of fields. *)
From S2P Require Import Prelude Text DecodersUtils NetflowTypes NetflowDecode NetflowSafety NetflowRoundtrip NetflowProps NetflowLegacy SflowTypes SflowDecode SflowSafety FlowStore SamplingRate SamplingInterface ProducerNetflow ProducerSafety ReflowEvent ReflowDecode.

(** ** Maps of fields only grow *)

Definition has (k : string) (m : fields) : Prop := is_Some (m !! k).

Lemma has_insert k k' v m : has k m -> has k (<[k' := v]> m).
Proof. unfold has. intros Hm. destruct (decide (k = k')) as [->|]; [rewrite lookup_insert_eq; by eexists|by rewrite lookup_insert_ne]. Qed.
Lemma has_new k v m : has k (<[k := v]> m).
Proof. unfold has. rewrite lookup_insert_eq. by eexists. Qed.
Lemma has_put_fields k l m : has k m -> has k (put_fields l m).
Proof. unfold put_fields. revert m. induction l as [|kv l IH]; intros m Hm; [done|]. by apply IH, has_insert. Qed.
Lemma has_put_new k v l m : (k, v) ∈ l -> has k (put_fields l m).
Proof.
  unfold put_fields. revert m. induction l as [|kv l IH]; intros m Hin; [by apply elem_of_nil in Hin|].
  apply elem_of_cons in Hin as [<-|Hin]; [|by apply IH].
  change (has k (put_fields l (<[k := v]> m))). apply has_put_fields, has_new.
Qed.
Lemma has_fold {A} k (f : fields -> A -> fields) l m : (forall m x, has k m -> has k (f m x)) -> has k m -> has k (fold_left f l m).
Proof. intros Hf. revert m. induction l as [|x l IH]; intros m Hm; [done|]. apply IH, Hf, Hm. Qed.

#[export] Hint Resolve has_insert has_new has_put_fields : fields.

Section grow.
Context `{GoLib} (k : string).

Lemma has_setDecodedIPField key val m : has k m -> has k (setDecodedIPField key val m).
Proof. intros Hm. unfold setDecodedIPField. repeat case_match; auto with fields. Qed.
Lemma has_put_proto val m : has k m -> has k (put_proto val m).
Proof. intros Hm. unfold put_proto. auto with fields. Qed.
#[local] Hint Resolve has_setDecodedIPField has_put_proto : fields.
Lemma has_applyCatalogDataField field cf up secs v9 m : has k m -> has k (applyCatalogDataField field cf up secs v9 m).
Proof. intros Hm. unfold applyCatalogDataField. repeat case_match; auto with fields. Qed.
#[local] Hint Resolve has_applyCatalogDataField : fields.
Lemma has_map_field field up secs m : has k m -> has k (map_field field up secs m).
Proof.
  intros Hm. unfold map_field. repeat match goal with |- has k (if ?b then _ else _) => destruct b; [auto with fields|] end. done.
Qed.
#[local] Hint Resolve has_map_field : fields.
Lemma has_mapDataFields c values up secs v9 m : has k m -> has k (mapDataFields c values up secs v9 m).
Proof. intros Hm. apply has_fold; [|done]. intros m' f Hm'. repeat case_match; auto with fields. Qed.
Lemma has_option_field c v9 m f : has k m -> has k (option_field c v9 m f).
Proof. intros Hm. unfold option_field. repeat case_match; auto with fields. Qed.
Lemma has_mapOptionsFields c values v9 scope prefix m : has k m -> has k (mapOptionsFields c values v9 scope prefix m).1.
Proof.
  unfold mapOptionsFields. generalize (@nil string). revert m.
  induction values as [|f values IH]; intros m keys Hm; [done|]. cbn [fold_left]. unfold scope_field at 2.
  destruct (lookupOptions c f v9 scope); apply IH; auto with fields.
Qed.
Lemma has_put_ip key ip m : has k m -> has k (put_ip key ip m).
Proof. intros Hm. unfold put_ip. case_match; auto with fields. Qed.
#[local] Hint Resolve has_put_ip : fields.
Lemma has_mpls_labels i l m : has k m -> has k (mpls_labels i l m).
Proof. revert i m. induction l as [|x l IH]; intros i m Hm; [done|]. apply IH. auto with fields. Qed.
#[local] Hint Resolve has_mpls_labels : fields.
Lemma has_extended data m : has k m -> has k (applySFlowExtendedRecordFields data m).
Proof.
  intros Hm. destruct data; simpl; unfold applySFlowExtendedNATFields, applySFlowExtendedMPLSFields; auto 10 with fields.
Qed.
#[local] Hint Resolve has_extended : fields.
Lemma has_flow_record_fields m r : has k m -> has k (flow_record_fields m r).
Proof. intros Hm. unfold flow_record_fields. repeat case_match; auto with fields. Qed.
Lemma has_expanded_record_fields m r : has k m -> has k (expanded_record_fields m r).
Proof. intros Hm. unfold expanded_record_fields. repeat case_match; auto with fields. Qed.
End grow.
#[export] Hint Resolve has_setDecodedIPField has_put_proto has_applyCatalogDataField has_map_field has_mapDataFields
  has_option_field has_mapOptionsFields has_put_ip has_mpls_labels has_extended has_flow_record_fields
  has_expanded_record_fields : fields.

(** ** Events of a datagram *)

(** What the later stages rely on: the time and the source of the datagram, a flow type and
    a version. *)
Definition flow_event (evt e : Event) : Prop :=
  ReceivedAt e = ReceivedAt evt /\ Source e = Source evt /\ Control e = None /\ Kind e = ""%string /\
  has "flow_type" (ensureFields e) /\ has "flow_version" (ensureFields e).

Section events.
Context `{GoLib}.
Implicit Types (evt e : Event) (l : list (string * any)).

Lemma with_data_flow evt m p sf i : has "flow_type" m -> has "flow_version" m -> flow_event evt (with_data evt m p sf i).
Proof. done. Qed.

Lemma header_fields_has t v rk l m :
  has "flow_type" (put_fields (header_fields t v rk ++ l) m) /\ has "flow_version" (put_fields (header_fields t v rk ++ l) m).
Proof.
  split; [apply (has_put_new _ (A_string t))|apply (has_put_new _ (A_int K_uint16 v))]; apply elem_of_app; left;
    unfold header_fields; rewrite !elem_of_cons; tauto.
Qed.

Lemma packet_fields_has p l m :
  has "flow_type" (put_fields (packet_fields p ++ l) m) /\ has "flow_version" (put_fields (packet_fields p ++ l) m).
Proof.
  split; [apply (has_put_new _ (A_string "sflow"))|apply (has_put_new _ (u32_field (SflowTypes.Version p)))]; apply elem_of_app; left;
    unfold packet_fields; rewrite !elem_of_cons; tauto.
Qed.

Lemma v5_event_flow evt p r : flow_event evt (v5_event evt p r).
Proof. apply with_data_flow; (eapply has_put_new; unfold v5_fields; rewrite !elem_of_cons; tauto). Qed.

Lemma template_event_flow c embed evt t v v9 r : flow_event evt (template_event c embed evt t v v9 r).
Proof. apply with_data_flow; apply header_fields_has. Qed.

Lemma options_template_event_flow c embed evt t v v9 tid a b sc op p :
  flow_event evt (options_template_event c embed evt t v v9 tid a b sc op p).
Proof. apply with_data_flow; apply header_fields_has. Qed.

Lemma options_event_flow c evt t v v9 tid r : flow_event evt (options_event c evt t v v9 tid r).
Proof.
  unfold options_event. destruct (header_fields_has t v "options_data" [("tflow_record_type", A_string "options"); ("template_id", u32_field tid)]%string
    (ensureFields evt)) as [H1 H2].
  apply (has_mapOptionsFields _ c (ScopesValues r) v9 true "scope") in H1.
  apply (has_mapOptionsFields _ c (ScopesValues r) v9 true "scope") in H2.
  destruct (mapOptionsFields _ _ _ _ _ _) as [m keys]. cbn [fst] in *. 
  apply with_data_flow; (apply has_fold; [intros; by apply has_option_field|destruct keys; auto with fields]).
Qed.

Lemma data_event_flow c evt t v up secs v9 rate r : flow_event evt (data_event c evt t v up secs v9 rate r).
Proof.
  unfold data_event. destruct (header_fields_has t v "packet" [] (ensureFields evt)) as [H1 H2]. rewrite app_nil_r in H1, H2.
  apply with_data_flow; case_match; auto with fields.
Qed.

Lemma sample_events_flow evt p s : Forall (flow_event evt) (sample_events evt p s).
Proof.
  destruct s as [s|s|s|s|s]; simpl; try solve [constructor]; try (constructor; [|constructor]).
  - apply with_data_flow; (apply has_fold; [intros; by apply has_flow_record_fields|]); unfold sample_fields; apply packet_fields_has.
  - apply Forall_map, Forall_true. intros r. unfold compose, counter_event. destruct (counter_record_fields r) as [l keep].
    apply with_data_flow; apply packet_fields_has.
  - apply with_data_flow; (apply has_fold; [intros; by apply has_expanded_record_fields|]); unfold sample_fields; apply packet_fields_has.
  - apply with_data_flow; apply packet_fields_has.
Qed.

Lemma ensure_flow evt v e : flow_event evt e -> flow_event evt (ensureSFlowDecodedFields v e).
Proof.
  intros (? & ? & ? & ? & [x1 H1] & [x2 H2]). unfold ensureSFlowDecodedFields. cbv zeta. rewrite H1, H2. repeat (split; [done|]). unfold has. eauto.
Qed.

Lemma v5_events_flow evt p (l : list RecordsNetFlowV5) : Forall (flow_event evt) (map (v5_event evt p) l).
Proof. apply Forall_map, Forall_true. intros r. apply v5_event_flow. Qed.

Lemma sflow_events_flow evt v (l : list sample_value) p : Forall (flow_event evt) (map (ensureSFlowDecodedFields v) (flat_map (sample_events evt p) l)).
Proof.
  apply Forall_map. induction l as [|s l IH]; [constructor|]. apply Forall_app. split; [|done].
  eapply Forall_impl; [apply sample_events_flow|]. intros e. apply ensure_flow.
Qed.

Lemma sets_flow {A} evt (f : A -> list Event) (l : list A) : (forall x, Forall (flow_event evt) (f x)) -> Forall (flow_event evt) (flat_map f l).
Proof. intros Hf. induction l as [|x l IH]; [constructor|]. by apply Forall_app. Qed.

Lemma records_flow {A} evt (f : A -> Event) (l : list A) : (forall x, flow_event evt (f x)) -> Forall (flow_event evt) (map f l).
Proof. intros Hf. by apply Forall_map, Forall_true. Qed.
End events.

#[export] Hint Resolve template_event_flow options_template_event_flow options_event_flow data_event_flow : flow_event.

(** ** Safety *)

Section safety.
Context `{GoLib} {T R : Type} `{TemplateStoreSpec T} `{SamplingStoreSpec R}.
Implicit Types (d : builtIn T R) (evt e : Event) (b : bytes).

(** A datagram changes only templates of its router, of one version and domain. *)
Definition decoder_step (ctx : FlowContext) d d' : Prop :=
  (exists v o, store_step ctx v o (Some (templates d)) (Some (templates d'))) /\
  store_valid (sampling d') /\ catalog d' = catalog d /\ embedTemplateFields d' = embedTemplateFields d.

Lemma decoder_step_refl ctx d : store_valid (sampling d) -> decoder_step ctx d d.
Proof. intros Hv. unfold decoder_step. splits; [|done..]. exists 0, 0. reflexivity. Qed.

(** The version in front of the bytes decides the kind of packet. *)
Lemma decoded_version ctx b (st : option T) : is_bytes b ->
  match NetflowDecode.DecodeMessageVersion ctx {| NetflowDecode.payload := b; NetflowDecode.store := st |} with
  | (Ok (inl _, _), _) => be_get (take 2 b) = 9
  | (Ok (inr _, _), _) => be_get (take 2 b) = 10
  | _ => True
  end.
Proof.
  intros Hb. unfold NetflowDecode.DecodeMessageVersion.
  assert (Hw : wp (BinaryDecoder D_uint16) (fun v b' => b = be_put 2 v ++ b' /\ u16 v) (fun _ _ => True) b).
  { apply wp_BinaryDecoder; [done|done| |done]. intros v b' -> Hv _. done. }
  unfold wp in Hw. unfold bind at 1, errctx at 1, on_payload at 1.
  cbn [NetflowDecode.payload NetflowDecode.store].
  destruct (BinaryDecoder D_uint16 b) as [[v|e|w|] b']; try done. destruct Hw as [-> Hv].
  rewrite (take_app_length' (be_put 2 v)) by (by rewrite length_be_put). rewrite be_get_put by done.
  destruct (Z.eqb_spec v 9) as [->|_]; [|destruct (Z.eqb_spec v 10) as [->|_]; [|done]].
  - unfold bind, errctx. by destruct (DecodeMessageNetFlow _ _) as [[[p err]|e|w|] s].
  - unfold bind, errctx. by destruct (DecodeMessageIPFIX _ _) as [[[p err]|e|w|] s].
Qed.

Lemma decode_message_safe ctx b d : is_bytes b -> store_typed (templates d) -> store_valid (sampling d) ->
  wp (decode_message ctx b)
    (fun p d' => decoder_step ctx d d' /\ be_get (take 2 b) = match p with inl _ => 9 | inr _ => 10 end)
    (fun _ d' => decoder_step ctx d d') d.
Proof.
  intros Hb Ht Hv. unfold wp, decode_message.
  pose proof (decoded_version ctx b (Some (templates d)) Hb) as Hver.
  pose proof (wp_DecodeMessageVersion_nf ctx {| NetflowDecode.payload := b; NetflowDecode.store := Some (templates d) |}) as Hw.
  unfold wp in Hw. specialize (Hw ltac:(split; [done|by intros st [= <-]])).
  assert (Hstep : forall s, (state_ok s /\ exists v o, store_step ctx v o (Some (templates d)) (NetflowDecode.store s)) ->
    decoder_step ctx d match NetflowDecode.store s with Some t => with_templates t d | None => d end).
  { intros s (_ & v & o & Hs). destruct (NetflowDecode.store s) as [t|]; [|done]. unfold decoder_step. splits; [by exists v, o|done..]. }
  destruct (NetflowDecode.DecodeMessageVersion _ _) as [[[p [e|]]|e|w|] s]; cbn [fst NetflowDecode.store] in *; try done.
  - apply Hstep, Hw.
  - split; [apply Hstep, Hw|]. by destruct p.
  - by apply Hstep.
Qed.

Lemma packet_rate_safe ctx v o sets d : store_valid (sampling d) ->
  wp (packet_rate ctx v o sets) (fun _ d' => exists st, d' = with_sampling st d /\ store_valid st) (fun _ _ => False) d.
Proof.
  intros Hv. unfold wp, packet_rate. destruct (searchNetFlowOptionDataSets sets) as [rate found].
  destruct (sampling_rate_spec ctx v o rate found (sampling d) Hv) as (st & -> & Hst & _). by exists st.
Qed.

(** What the decoder of a datagram gives. *)
Definition events_ok evt ctx d (l : list Event) d' : Prop := decoder_step ctx d d' /\ Forall (flow_event evt) l.

Lemma events_ok_rate evt ctx d d1 st l : decoder_step ctx d d1 -> store_valid st -> Forall (flow_event evt) l ->
  events_ok evt ctx d l (with_sampling st d1).
Proof. intros (Ht & _ & Hc & He) Hst Hl. split; [|done]. unfold decoder_step. by splits. Qed.

Lemma decodeNetFlowV9_safe evt b d : is_bytes b -> store_typed (templates d) -> store_valid (sampling d) -> be_get (take 2 b) = 9 ->
  wp (decodeNetFlowV9 evt b) (events_ok evt {| RouterKey := routerKey evt |} d) (fun _ => decoder_step {| RouterKey := routerKey evt |} d) d.
Proof.
  intros Hb Ht Hv H9. unfold decodeNetFlowV9. apply wp_bind, wp_errctx.
  eapply wp_mono; [by apply decode_message_safe| |done]. cbn beta. intros [p|p] d1 [Hs Hver]; [|lia].
  unfold SplitNetFlowSets. cbn beta iota. apply wp_bind.
  eapply wp_mono; [apply packet_rate_safe, Hs| |done]. cbn beta. intros rate d2 (st & -> & Hst).
  apply wp_bind, wp_get, wp_ret. apply events_ok_rate; [done|done|].
  unfold templateEventsFromV9, optionsEvents. rewrite !Forall_app.
  splits; apply sets_flow; intros x; apply records_flow; auto with flow_event.
Qed.

Lemma decodeIPFIX_safe evt b d : is_bytes b -> store_typed (templates d) -> store_valid (sampling d) -> be_get (take 2 b) = 10 ->
  wp (decodeIPFIX evt b) (events_ok evt {| RouterKey := routerKey evt |} d) (fun _ => decoder_step {| RouterKey := routerKey evt |} d) d.
Proof.
  intros Hb Ht Hv H10. unfold decodeIPFIX. apply wp_bind, wp_errctx.
  eapply wp_mono; [by apply decode_message_safe| |done]. cbn beta. intros [p|p] d1 [Hs Hver]; [lia|].
  unfold SplitIPFIXSets. cbn beta iota. apply wp_bind.
  eapply wp_mono; [apply packet_rate_safe, Hs| |done]. cbn beta. intros rate d2 (st & -> & Hst).
  apply wp_bind, wp_get, wp_ret. apply events_ok_rate; [done|done|].
  unfold templateEventsFromIPFIX, optionsEvents. rewrite !Forall_app.
  splits; apply sets_flow; intros x; apply records_flow; auto with flow_event.
Qed.

Lemma decodeNetFlowV5_safe evt b d : is_bytes b -> store_valid (sampling d) ->
  wp (decodeNetFlowV5 evt b) (events_ok evt {| RouterKey := routerKey evt |} d) (fun _ => decoder_step {| RouterKey := routerKey evt |} d) d.
Proof.
  intros Hb Hv. unfold decodeNetFlowV5. apply wp_bind, wp_errctx, wp_on_buffer.
  eapply wp_mono; [by apply NetflowLegacy.wp_DecodeMessageVersion| |].
  - intros p b' _. apply wp_ret. split; [by apply decoder_step_refl|apply v5_events_flow].
  - intros e b' _. by apply decoder_step_refl.
Qed.

Lemma decodeSFlow_safe evt b v d : is_bytes b -> store_valid (sampling d) ->
  wp (decodeSFlow evt b v) (events_ok evt {| RouterKey := routerKey evt |} d) (fun _ => decoder_step {| RouterKey := routerKey evt |} d) d.
Proof.
  intros Hb Hv. unfold decodeSFlow. apply wp_bind, wp_errctx, wp_on_buffer.
  eapply wp_mono; [by apply yields_DecodeMessageVersion| |].
  - intros p b' _. pose proof (sflow_events_flow evt (SflowTypes.Version p) (omap sample_value_of (Samples p)) p) as Hl.
    destruct (flat_map _ _) as [|e l]; apply wp_ret; (split; [by apply decoder_step_refl|]); [|done].
    constructor; [|constructor]. apply with_data_flow; eauto with fields.
    + apply (has_put_new _ (A_string "sflow")). by left.
    + apply (has_put_new _ (u32_field v)). right; by left.
  - intros e b' _. by apply decoder_step_refl.
Qed.

(** Every case of [identifyFlow]. *)
Lemma identifyFlow_spec b :
  match identifyFlow b with
  | Ok (FT_netflowv5, v) => v = 5 /\ be_get (take 2 b) = v
  | Ok (FT_netflowv9, v) => v = 9 /\ be_get (take 2 b) = v
  | Ok (FT_ipfix, v) => v = 10 /\ be_get (take 2 b) = v
  | Ok (FT_sflow, v) => v = 5 /\ be_get (take 4 b) = v
  | Err _ => True
  | _ => False
  end.
Proof.
  unfold identifyFlow. destruct (len b <? 4); [done|]. destruct (Z.eqb_spec (be_get (take 4 b)) 5); [done|].
  repeat match goal with |- context [be_get (take 2 b) =? ?k] => destruct (Z.eqb_spec (be_get (take 2 b)) k) end; done.
Qed.

(** C11: safety of the ReFlow decoder.  Whatever the bytes of an event, the decoder returns:
    no panic, no endless loop.  The templates and rates stay well formed, only templates of
    the router of the event change, for one version and observation domain, and the catalog
    stays.  Every event that comes from a flow datagram has the source and the time of the
    datagram, is no control event, and has a flow type and a version. *)
Theorem reflow_decode_safe d e :
  (forall b, Payload e = PL_bytes b -> is_bytes b) -> store_typed (templates d) -> store_valid (sampling d) ->
  match Decode (Some e) d with
  | (Ok l, d') =>
      decoder_step {| RouterKey := routerKey e |} d d' /\
      (Kind e <> "control"%string -> ReflowEvent.Type_ (Source e) = "flow"%string ->
       Forall (fun o => exists e', o = Some e' /\ flow_event e e') l)
  | (Err _, d') => decoder_step {| RouterKey := routerKey e |} d d'
  | _ => False
  end.
Proof.
  intros Hb Ht Hv. pose proof (decoder_step_refl {| RouterKey := routerKey e |} d Hv) as Hrefl.
  assert (Hflow : wp (decodeFlow e) (events_ok e {| RouterKey := routerKey e |} d) (fun _ => decoder_step {| RouterKey := routerKey e |} d) d).
  { unfold decodeFlow. destruct (Payload e) as [|[|x b]| | | | | | |]; try (by apply wp_fail). set (bs := x :: b) in *.
    specialize (Hb bs eq_refl). pose proof (identifyFlow_spec bs) as Hi.
    destruct (identifyFlow bs) as [[[] v]|err|w|]; [..|by apply wp_fail|done|done].
    - by apply decodeSFlow_safe.
    - by apply decodeNetFlowV5_safe.
    - destruct Hi as [-> Hi]. by apply decodeNetFlowV9_safe.
    - destruct Hi as [-> Hi]. by apply decodeIPFIX_safe. }
  unfold Decode. destruct (String.eqb_spec (Kind e) "control"); [done|].
  destruct (String.eqb_spec (ReflowEvent.Type_ (Source e)) "flow") as [Hty|Hty].
  - unfold wp in Hflow. unfold bind. destruct (decodeFlow e d) as [[l|err|w|] d']; try done.
    destruct Hflow as [Hs Hl]. split; [done|]. intros _ _. apply Forall_map. eapply Forall_impl; [done|]. eauto.
  - destruct (String.eqb_spec (ReflowEvent.Type_ (Source e)) "bytes"); [|done].
    unfold bind, decodeBytes. by destruct (Payload e) as [|[|x b]| | | | | | |].
Qed.
End safety.

(** ** NetFlow v5 *)

Definition dotted (a b c d : Z) : string := (itoa a +:+ "." +:+ itoa b +:+ "." +:+ itoa c +:+ "." +:+ itoa d)%string.

Lemma be_get_4 a b c d : u8 a -> u8 b -> u8 c -> u8 d -> be_get [a; b; c; d] = ((a * 256 + b) * 256 + c) * 256 + d.
Proof.
  intros Ha Hb Hc Hd. unfold uint in *. unfold be_get. cbn [be_get_from]. rewrite !lor_shiftl_low by lia. lia.
Qed.

Lemma IPAddress_String_dotted a b c d : u8 a -> u8 b -> u8 c -> u8 d ->
  IPAddress_String (be_get [a; b; c; d]) = dotted a b c d.
Proof.
  intros Ha Hb Hc Hd. rewrite be_get_4 by done. unfold uint in *. unfold IPAddress_String, dotted.
  change 0xFF with (Z.ones 8). rewrite !Z.land_ones, !Z.shiftr_div_pow2 by lia.
  replace (_ / 2 ^ 24) with a by (Z.to_euclidean_division_equations; lia).
  replace (_ / 2 ^ 16 mod 2 ^ 8) with b by (Z.to_euclidean_division_equations; lia).
  replace (_ / 2 ^ 8 mod 2 ^ 8) with c by (Z.to_euclidean_division_equations; lia).
  by replace (_ mod 2 ^ 8) with d by (Z.to_euclidean_division_equations; lia).
Qed.

Lemma identifyFlow_v5 x y l : u8 x -> u8 y -> identifyFlow (0 :: 5 :: x :: y :: l) = Ok (FT_netflowv5, 5).
Proof.
  intros Hx Hy. unfold identifyFlow. destruct (Z.ltb_spec (len (0 :: 5 :: x :: y :: l)) 4); [pose proof (len_nonneg l); rewrite !len_cons in *; lia|].
  cbn [take]. rewrite be_get_4 by (done || (unfold uint; lia)). unfold uint in *.
  destruct (Z.eqb_spec (((0 * 256 + 5) * 256 + x) * 256 + y) 5); [lia|done].
Qed.

(** A field of an event. *)
Definition field_of (e : Event) (key : string) : option any := ensureFields e !! key.

(** The 26 fields of an event from a record, of which the input event may hold others. *)
Definition v5_keys : list string :=
  ["flow_type"; "flow_version"; "record_kind"; "flow_sequence"; "engine_type"; "engine_id"; "sampling_rate"; "src_addr";
   "dst_addr"; "next_hop"; "src_port"; "dst_port"; "proto"; "proto_name"; "tcp_flags"; "tos"; "bytes"; "packets";
   "input_if"; "output_if"; "src_as"; "dst_as"; "src_mask"; "dst_mask"; "start_time_unix"; "end_time_unix"]%string.

(** The milliseconds of an instant [age] before the export, from a reading of the exporter's
    32-bit clock: 2^32 too many when the clock wrapped in between. *)
Definition v5_clock (p : PacketNetFlowV5) (age : Z) : Z :=
  UnixSecs p * 1000 + UnixNSecs p / 1000000 - age + (if SysUptime p <? age then 2 ^ 32 else 0).

(** What an event says of a record of a packet. *)
Record tells_v5_event (evt : Event) (p : PacketNetFlowV5) (r : RecordsNetFlowV5) (e : Event) : Prop := {
  te_base : flow_event evt e /\ Payload e = Payload evt /\ SFlow e = SFlow evt /\ Aggregation e = Aggregation evt;
  te_kind : field_of e "flow_type" = Some (A_string "netflowv5") /\ field_of e "flow_version" = Some (A_int K_uint16 5);
  te_src a b c d : u8 a -> u8 b -> u8 c -> u8 d -> SrcAddr r = be_get [a; b; c; d] ->
    field_of e "src_addr" = Some (A_string (dotted a b c d));
  te_dst a b c d : u8 a -> u8 b -> u8 c -> u8 d -> DstAddr r = be_get [a; b; c; d] ->
    field_of e "dst_addr" = Some (A_string (dotted a b c d));
  te_hop a b c d : u8 a -> u8 b -> u8 c -> u8 d -> NextHop r = be_get [a; b; c; d] ->
    field_of e "next_hop" = Some (A_string (dotted a b c d));
  te_count : field_of e "bytes" = Some (A_int K_int64 (DOctets r)) /\ field_of e "packets" = Some (A_int K_int64 (DPkts r));
  te_num k v : (k, v) ∈ [("flow_sequence", FlowSequence p); ("engine_type", EngineType p); ("engine_id", EngineId p);
      ("sampling_rate", SamplingInterval p); ("src_port", SrcPort r); ("dst_port", DstPort r); ("proto", Proto r);
      ("tcp_flags", TCPFlags r); ("tos", Tos r); ("input_if", Input r); ("output_if", Output r); ("src_as", SrcAS r);
      ("dst_as", DstAS r); ("src_mask", SrcMask r); ("dst_mask", DstMask r)]%string ->
    field_of e k = Some (u32_field v);
  te_start age : 0 <= age < 2 ^ 32 -> First r = (SysUptime p - age) mod 2 ^ 32 ->
    field_of e "start_time_unix" = Some (A_int K_int64 (v5_clock p age));
  te_end age : 0 <= age < 2 ^ 32 -> Last r = (SysUptime p - age) mod 2 ^ 32 ->
    field_of e "end_time_unix" = Some (A_int K_int64 (v5_clock p age));
  te_rest k : k ∉ v5_keys -> field_of e k = field_of evt k
}.

Section v5.
Context `{GoLib} {T R : Type} `{TemplateStore T} `{SamplingStore R}.
Implicit Types (d : builtIn T R) (e evt : Event).

Lemma v5_keys_distinct : NoDup v5_keys.
Proof. refine (bool_decide_unpack (NoDup v5_keys) _). vm_compute. exact I. Qed.

Lemma v5_event_field evt p r k v : (k, v) ∈ v5_fields p r -> field_of (v5_event evt p r) k = Some v.
Proof. intros Hin. apply lookup_put_fields; [|done]. exact v5_keys_distinct. Qed.

Lemma v5_clock_age p age : u32 (SysUptime p) -> 0 <= age < 2 ^ 32 ->
  flowTimeFromV5 (UnixSecs p) (UnixNSecs p) (SysUptime p) ((SysUptime p - age) mod 2 ^ 32) = v5_clock p age.
Proof.
  intros Hu Ha. unfold uint in Hu. unfold flowTimeFromV5, v5_clock. destruct (Z.ltb_spec (SysUptime p) age).
  - rewrite <- (Z.mod_unique (SysUptime p - age) (2 ^ 32) (-1) (SysUptime p - age + 2 ^ 32)); lia.
  - rewrite Z.mod_small; lia.
Qed.

Lemma v5_event_tells evt p r : packet_ok p -> tells_v5_event evt p r (v5_event evt (completed p) r).
Proof.
  intros Hp. assert (Hu : u32 (SysUptime p)) by apply Hp.
  assert (Hf : forall k v, (k, v) ∈ v5_fields (completed p) r -> field_of (v5_event evt (completed p) r) k = Some v) by apply v5_event_field.
  unfold v5_fields in Hf. cbn [completed NetflowLegacy.Version UnixSecs UnixNSecs SysUptime FlowSequence EngineType EngineId SamplingInterval] in Hf.
  split.
  - split; [apply v5_event_flow|done].
  - split; apply Hf; rewrite !elem_of_cons; tauto.
  - intros a b c d Ha Hb Hc Hd E. rewrite <- IPAddress_String_dotted, <- E by done. apply Hf. rewrite !elem_of_cons. tauto.
  - intros a b c d Ha Hb Hc Hd E. rewrite <- IPAddress_String_dotted, <- E by done. apply Hf. rewrite !elem_of_cons. tauto.
  - intros a b c d Ha Hb Hc Hd E. rewrite <- IPAddress_String_dotted, <- E by done. apply Hf. rewrite !elem_of_cons. tauto.
  - split; apply Hf; rewrite !elem_of_cons; tauto.
  - intros k v Hin. apply Hf. rewrite !elem_of_cons, elem_of_nil in Hin. rewrite !elem_of_cons.
    repeat destruct Hin as [[= -> ->]|Hin]; [tauto..|done].
  - intros age Ha E. rewrite <- v5_clock_age, <- E by done. apply Hf. rewrite !elem_of_cons. tauto.
  - intros age Ha E. rewrite <- v5_clock_age, <- E by done. apply Hf. rewrite !elem_of_cons. tauto.
  - intros k Hk. unfold field_of. by apply lookup_put_fields_other.
Qed.

Lemma Decode_v5 d evt p rest : packet_ok p -> encodable p ->
  Kind evt <> "control"%string -> ReflowEvent.Type_ (Source evt) = "flow"%string -> Payload evt = PL_bytes (packet_bytes p ++ rest) ->
  Decode (Some evt) d = (Ok (map Some (map (v5_event evt (completed p)) (NetflowLegacy.Records p))), d).
Proof.
  intros Hp He Hk Hty Hpl. pose proof (NetflowLegacy.reads_version p Hp He rest) as Hd.
  unfold Decode. destruct (String.eqb_spec (Kind evt) "control"); [done|]. rewrite Hty. cbn [String.eqb Ascii.eqb Bool.eqb].
  unfold bind at 1, decodeFlow. rewrite Hpl.
  assert (identifyFlow (packet_bytes p ++ rest) = Ok (FT_netflowv5, 5)) as Hi.
  { unfold packet_bytes, header_bytes. cbn [be_put app]. apply identifyFlow_v5; apply Z.mod_pos_bound; lia. }
  destruct (packet_bytes p ++ rest) eqn:Eb; [done|]. rewrite <- Eb in *. rewrite Hi.
  unfold decodeNetFlowV5, bind, errctx, on_buffer. rewrite Hd. done.
Qed.

(** C34: NetFlow v5, from the exporter to the events of ReFlow.  The datagram of every packet
    that the encoder accepts, whatever follows it, becomes one event per record, in order,
    with the addresses in dotted form, the ports, counters and interfaces of the record, and
    the metadata and other fields of the input event; the decoder's state stays.  The times
    are right when the exporter's millisecond clock did not wrap between the flow and the
    export; otherwise they are 2^32 milliseconds too late. *)
Theorem reflow_v5_events d evt p bs rest :
  packet_ok p -> encodable p -> NetflowLegacy.EncodeMessage (Some p) = Ok bs ->
  Kind evt <> "control"%string -> ReflowEvent.Type_ (Source evt) = "flow"%string -> Payload evt = PL_bytes (bs ++ rest) ->
  exists l, Decode (Some evt) d = (Ok (map Some l), d) /\ Forall2 (tells_v5_event evt p) (NetflowLegacy.Records p) l.
Proof.
  intros Hp He Hb Hk Hty Hpl. rewrite EncodeMessage_encodable in Hb by done. injection Hb as <-.
  eexists. split; [by apply (Decode_v5 d evt p rest)|].
  apply Forall2_fmap_r, Forall_Forall2_diag, Forall_true. intros r. by apply v5_event_tells.
Qed.
End v5.

(** ** Witnesses *)

#[local] Existing Instance simple_lib.

Definition demo_decoder : builtIn RefStore (SamplingRateFlowStore unit) :=
  {| templates := ∅; sampling := Some (NewSamplingRateFlowStore 5 [Some (WithTTL 60)]); catalog := empty_catalog;
     embedTemplateFields := true |}.

Definition flow_source : SourceMetadata :=
  {| srcAddress := "192.0.2.1:2055"; srcRemote := "192.0.2.1:2055"; Type_ := "flow"; CaptureInterfaceIndex := 0; JSONFlavor := ""; srcAgentIP := ""; srcSourceID := 0;
     SourceIDSet := false; Sampling := None |}%string.

(** The event of a datagram. *)
Definition datagram_event (b : bytes) : Event :=
  {| ReceivedAt := 1700000000000000000; Kind := ""; Stream := ""; Source := flow_source; Control := None;
     ReflowEvent.Fields := Some {["tag"%string := A_string "edge"]}; evtMessage := []; evtPacket := None; SFlow := None; Aggregation := None;
     Payload := PL_bytes b; Internal := no_internal |}.

Definition demo_flow : Event := datagram_event (v9packet_bytes sample_v9).

Lemma reflow_decode_safe_witness :
  match Decode (Some demo_flow) demo_decoder with
  | (Ok l, d') =>
      decoder_step {| RouterKey := routerKey demo_flow |} demo_decoder d' /\
      (Kind demo_flow <> "control"%string -> ReflowEvent.Type_ (Source demo_flow) = "flow"%string ->
       Forall (fun o => exists e', o = Some e' /\ flow_event demo_flow e') l)
  | (Err _, d') => decoder_step {| RouterKey := routerKey demo_flow |} demo_decoder d'
  | _ => False
  end.
Proof.
  apply (reflow_decode_safe demo_decoder demo_flow).
  - intros b [= <-]. by apply is_bytes_by_test.
  - apply (empty_store_ok [] ltac:(constructor)). reflexivity.
  - apply (new_store_valid (E := unit) 5 [Some (WithTTL 60)]).
Defined.

(** The clock of [sample_packet] is at 1000 ms; its first record started at 100 ms, and ended
    1001 ms before the export, on the other side of the wrap. *)
Lemma reflow_v5_events_witness :
  exists e1 e2, Decode (Some (datagram_event (packet_bytes sample_packet ++ [7]))) demo_decoder = (Ok [Some e1; Some e2], demo_decoder) /\
    field_of e1 "src_addr" = Some (A_string "10.0.0.1") /\ field_of e1 "tag" = Some (A_string "edge") /\
    field_of e1 "start_time_unix" = Some (A_int K_int64 1699999999100) /\
    field_of e1 "end_time_unix" = Some (A_int K_int64 (1699999998999 + 2 ^ 32)).
Proof.
  destruct (reflow_v5_events demo_decoder (datagram_event (packet_bytes sample_packet ++ [7])) sample_packet
    (packet_bytes sample_packet) [7] sample_packet_ok) as (l & E & Ht).
  - split; [by left|]. right. done.
  - apply EncodeMessage_encodable. split; [by left|]. right. done.
  - done.
  - reflexivity.
  - reflexivity.
  - inversion Ht as [|r1 e1 rs1 l1 H1 H1' Ha Hb]. subst. inversion H1' as [|r2 e2 rs2 l2 H2 H2' Ha Hb]. subst. inversion H2'. subst.
    exists e1, e2. split; [exact E|]. splits.
    + apply (te_src _ _ _ _ H1 10 0 0 1); unfold uint; (lia || reflexivity).
    + rewrite (te_rest _ _ _ _ H1 "tag" ltac:(apply (bool_decide_unpack _); vm_compute; exact I)). reflexivity.
    + apply (te_start _ _ _ _ H1 900); [lia|reflexivity].
    + apply (te_end _ _ _ _ H1 1001); [lia|reflexivity].
Defined.
