(* ===== verification/ReflowCatalog.v ===== *)
(** * pkg/reflow/decode: the field catalog

    When the maps of [newDecodeCatalog] depend on the order in which Go visits the configured
    catalog, and what [validateTemplatedDecodeCatalog] guarantees about it; from an element of
    a record to the field of an event. *)
From S2P Require Import Prelude Text DecodersUtils NetflowTypes ProducerNetflow ReflowEvent ReflowDecode ReflowDecodeProps.

(** ** Maps built by insertion *)

Section assoc.
Context {K V : Type} `{Countable K}.
Implicit Types (l : list (K * V)) (m : gmap K V).

Definition put_all l m : gmap K V := fold_left (fun m kv => <[kv.1 := kv.2]> m) l m.

(** Each key has one value. *)
Definition single_valued l : Prop := forall k v v', (k, v) ∈ l -> (k, v') ∈ l -> v = v'.

Lemma put_all_app l l' m : put_all (l ++ l') m = put_all l' (put_all l m).
Proof. apply fold_left_app. Qed.

Lemma put_all_lookup l m k : 
  put_all l m !! k = match list_find (fun kv => kv.1 = k) (reverse l) with Some (_, kv) => Some kv.2 | None => m !! k end.
Proof.
  induction l as [|[k' v'] l IH] using rev_ind; [done|]. rewrite put_all_app, reverse_snoc. cbn [put_all fold_left].
  cbn [list_find]. case_decide as Hk; cbn [fst snd] in *; [by rewrite Hk, lookup_insert_eq|].
  rewrite lookup_insert_ne, IH by done. by destruct (list_find _ (reverse l)) as [[]|].
Qed.

Lemma put_all_single l k v : single_valued l -> put_all l ∅ !! k = Some v <-> (k, v) ∈ l.
Proof.
  intros Hl. rewrite put_all_lookup. destruct (list_find _ _) as [[i [k' v']]|] eqn:E.
  - apply list_find_Some in E as (Hi & Hk & _). cbn [fst snd] in *. subst k'.
    apply list_elem_of_lookup_2 in Hi. rewrite elem_of_reverse in Hi.
    split; [intros [= <-]; done|]. intros Hv. f_equal. by eapply Hl.
  - apply list_find_None in E. rewrite lookup_empty. split; [done|]. intros Hin.
    rewrite Forall_forall in E. destruct (E (k, v)); [|done]. by apply elem_of_reverse.
Qed.

(** The order of the insertions does not matter. *)
Lemma put_all_perm l l' : l ≡ₚ l' -> single_valued l -> put_all l ∅ = put_all l' ∅.
Proof.
  intros Hp Hl. apply map_eq. intros k. apply option_eq. intros v.
  rewrite !put_all_single; [by rewrite Hp|intros k' v1 v2; rewrite <- !Hp; apply Hl|done].
Qed.
End assoc.

(** ** The three maps of a catalog *)

Abbreviation entry := (string * IPFIXFieldDefinition)%type.

Definition field_of_entry (e : entry) : decodeCatalogField := {| fkey := e.1; def := e.2 |}.

(** The pairs that the entries put into a map, for the keys [f] gives an entry. *)
Definition catalog_pairs {K} (f : string -> IPFIXFieldDefinition -> list K) (l : list entry) : list (K * decodeCatalogField) :=
  flat_map (fun e => map (fun k => (k, field_of_entry e)) (f e.1 e.2)) l.

Lemma put_keys_all {K} `{Countable K} field (keys : list K) m :
  put_keys field keys m = put_all (map (fun k => (k, field)) keys) m.
Proof. unfold put_keys, put_all. revert m. induction keys as [|k keys IH]; intros m; [done|]. apply IH. Qed.

Lemma catalog_fold l c :
  fold_left catalog_add l c =
  {| ipfix := put_all (catalog_pairs decodeCatalogIPFIXKeys l) (ipfix c);
     netflowV9 := put_all (catalog_pairs decodeCatalogNetFlowV9IDs l) (netflowV9 c);
     netflowV9Scopes := put_all (catalog_pairs decodeCatalogNetFlowV9ScopeIDs l) (netflowV9Scopes c) |}.
Proof.
  revert c. induction l as [|[n d] l IH]; intros c; [by destruct c|].
  cbn [fold_left]. rewrite IH. unfold catalog_pairs. cbn [flat_map fst snd catalog_add ipfix netflowV9 netflowV9Scopes].
  by rewrite !put_all_app, !put_keys_all.
Qed.

Lemma newDecodeCatalog_eq l :
  newDecodeCatalog l =
  {| ipfix := put_all (catalog_pairs decodeCatalogIPFIXKeys l) ∅;
     netflowV9 := put_all (catalog_pairs decodeCatalogNetFlowV9IDs l) ∅;
     netflowV9Scopes := put_all (catalog_pairs decodeCatalogNetFlowV9ScopeIDs l) ∅ |}.
Proof. apply catalog_fold. Qed.

Section pairs.
Context {K : Type} (f : string -> IPFIXFieldDefinition -> list K).

Lemma elem_of_pairs (l : list entry) k x : (k, x) ∈ catalog_pairs f l <-> exists e, e ∈ l /\ x = field_of_entry e /\ k ∈ f e.1 e.2.
Proof.
  unfold catalog_pairs. rewrite list_elem_of_In, in_flat_map. setoid_rewrite in_map_iff. setoid_rewrite <- list_elem_of_In.
  split.
  - intros (e & He & k' & E & Hk). injection E as <- <-. by exists e.
  - intros (e & He & -> & Hk). exists e. split; [done|]. by exists k.
Qed.

(** No key belongs to two names. *)
Definition keys_unique (l : list entry) : Prop :=
  forall e e' k, e ∈ l -> e' ∈ l -> k ∈ f e.1 e.2 -> k ∈ f e'.1 e'.2 -> e.1 = e'.1.

Lemma unique_name (l : list entry) e e' : NoDup l.*1 -> e ∈ l -> e' ∈ l -> e.1 = e'.1 -> e = e'.
Proof.
  intros Hnd He He' Hn. apply list_elem_of_lookup in He as [i Hi]. apply list_elem_of_lookup in He' as [j Hj].
  assert (i = j) as <- by (eapply (NoDup_lookup _ _ _ _ Hnd); rewrite list_lookup_fmap; [rewrite Hi|rewrite Hj]; cbn; by f_equal).
  congruence.
Qed.

Lemma pairs_single (l : list entry) : NoDup l.*1 -> keys_unique l -> single_valued (catalog_pairs f l).
Proof.
  intros Hnd Hu k x x' Hx Hx'. apply elem_of_pairs in Hx as (e & He & -> & Hk). apply elem_of_pairs in Hx' as (e' & He' & -> & Hk').
  f_equal. eapply unique_name; [done..|]. by eapply Hu.
Qed.

Lemma pairs_perm (l l' : list entry) : l ≡ₚ l' -> catalog_pairs f l ≡ₚ catalog_pairs f l'.
Proof. intros Hp. unfold catalog_pairs. by rewrite Hp. Qed.
End pairs.

(** ** What validation guarantees *)

Section claims.
Context {K : Type} `{Countable K} (f : string -> IPFIXFieldDefinition -> list K).

Lemma claim_spec name (keys : list K) m m' : claim name keys m = Some m' ->
  (forall k, k ∈ keys -> m' !! k = Some name) /\ (forall k x, m !! k = Some x -> m' !! k = Some x).
Proof.
  revert m. induction keys as [|k keys IH]; intros m; cbn [claim].
  { intros [= <-]. split; [intros k Hk; by apply elem_of_nil in Hk|done]. }
  intros E.
  assert (m !! k = None \/ m !! k = Some name) as Hm.
  { destruct (m !! k) as [x|]; [|by left]. right. destruct (String.eqb_spec x name); [by subst|done]. }
  assert (claim name keys (<[k := name]> m) = Some m') as E'.
  { destruct (m !! k) as [x|]; [|done]. by destruct (String.eqb x name). }
  apply IH in E' as [H1 H2]. split.
  - intros k' Hk'. apply elem_of_cons in Hk' as [->|Hk']; [|by apply H1]. apply H2, lookup_insert_eq.
  - intros k' x Hx. apply H2. destruct (decide (k = k')) as [<-|]; [|by rewrite lookup_insert_ne].
    rewrite lookup_insert_eq. destruct Hm; congruence.
Qed.
End claims.

Lemma validate_loop_spec l i v : validate_loop l i v = true ->
  exists (i' : gmap (Z * Z) string) (v' : gmap Z string),
    (forall k x, i !! k = Some x -> i' !! k = Some x) /\ (forall k x, v !! k = Some x -> v' !! k = Some x) /\
    Forall (fun e : entry => (forall k, k ∈ ipfixDecodeKeys e.1 e.2 -> i' !! k = Some e.1) /\
                             (forall k, k ∈ netflowV9DecodeIDs e.1 e.2 -> v' !! k = Some e.1)) l.
Proof.
  revert i v. induction l as [|[n d] l IH]; intros i v E; [by exists i, v|]. cbn [validate_loop] in E.
  destruct (claim n (ipfixDecodeKeys n d) i) as [i1|] eqn:E1; [|done].
  destruct (claim n (netflowV9DecodeIDs n d) v) as [v1|] eqn:E2; [|done].
  apply claim_spec in E1 as [Hi1 Hi2]. apply claim_spec in E2 as [Hv1 Hv2].
  apply IH in E as (i' & v' & Hi & Hv & Hl). exists i', v'. splits; [intros k x Hk; by apply Hi, Hi2|intros k x Hk; by apply Hv, Hv2|].
  constructor; [|done]. cbn [fst snd]. split; intros k Hk; [by apply Hi, Hi1|by apply Hv, Hv1].
Qed.

Lemma validated_unique l : validateTemplatedDecodeCatalog l = true ->
  keys_unique ipfixDecodeKeys l /\ keys_unique netflowV9DecodeIDs l.
Proof.
  intros E. apply validate_loop_spec in E as (i & v & _ & _ & Hl). rewrite Forall_forall in Hl.
  split; intros e e' k He He' Hk Hk'; apply Hl in He as [H1 H2]; apply Hl in He' as [H3 H4].
  - apply H1 in Hk. apply H3 in Hk'. congruence.
  - apply H2 in Hk. apply H4 in Hk'. congruence.
Qed.

(** The decoder's keys are the validated ones, but for the two NetFlow v9 clocks, which the
    validation has the other way around. *)
Lemma ipfix_key_validated n d s i p : (s, i, p) ∈ decodeCatalogIPFIXKeys n d -> (i, p) ∈ ipfixDecodeKeys n d.
Proof.
  unfold decodeCatalogIPFIXKeys, ipfixDecodeKeys. destruct (defID d =? 0); [intros Hk; by apply elem_of_nil in Hk|]. rewrite !elem_of_cons.
  intros [[= -> -> ->]|Hin]; [by left|right].
  destruct (String.eqb n "src_addr"); [|destruct (String.eqb n "dst_addr"); [|by apply elem_of_nil in Hin]];
    apply list_elem_of_singleton in Hin as [= -> -> ->]; by left.
Qed.

(** Elements 21 and 22 are used by no field but the two times. *)
Definition clocks_free (l : list entry) : Prop :=
  forall e, e ∈ l -> (defID e.2 = 22 -> e.1 = "start_time_unix"%string) /\ (defID e.2 = 21 -> e.1 = "end_time_unix"%string).

Lemma v9_id_validated e k (l : list entry) : clocks_free l -> e ∈ l -> k ∈ decodeCatalogNetFlowV9IDs e.1 e.2 ->
  k ∈ netflowV9DecodeIDs e.1 e.2 /\ k <> 21 /\ k <> 22 \/
  k = 22 /\ e.1 = "start_time_unix"%string \/ k = 21 /\ e.1 = "end_time_unix"%string.
Proof.
  intros Hf He Hk. destruct (Hf e He) as [H22 H21]. destruct e as [n d]. cbn [fst snd] in *.
  unfold decodeCatalogNetFlowV9IDs, netflowV9DecodeIDs in *. apply elem_of_app in Hk as [Hk|Hk].
  - assert (k = defID d) as -> by (case_match; [by apply list_elem_of_singleton in Hk|by apply elem_of_nil in Hk]).
    destruct (decide (defID d = 22)) as [E|]; [right; left; auto|]. destruct (decide (defID d = 21)) as [E|]; [right; right; auto|].
    left. splits; [|done..]. apply elem_of_app. by left.
  - destruct (String.eqb_spec n "src_addr"); [apply list_elem_of_singleton in Hk as ->; left; splits; [|done..]; apply elem_of_app; right; by left|].
    destruct (String.eqb_spec n "dst_addr"); [apply list_elem_of_singleton in Hk as ->; left; splits; [|done..]; apply elem_of_app; right; by left|].
    destruct (String.eqb_spec n "start_time_unix"); [apply list_elem_of_singleton in Hk as ->; right; by left|].
    destruct (String.eqb_spec n "end_time_unix"); [apply list_elem_of_singleton in Hk as ->; right; by right|].
    by apply elem_of_nil in Hk.
Qed.

Lemma ipfix_unique l : validateTemplatedDecodeCatalog l = true -> keys_unique decodeCatalogIPFIXKeys l.
Proof.
  intros E. destruct (validated_unique l E) as [Hi _]. intros e e' [[s i] p] He He' Hk Hk'.
  apply ipfix_key_validated in Hk, Hk'. by eapply Hi.
Qed.

Lemma v9_unique l : validateTemplatedDecodeCatalog l = true -> clocks_free l -> keys_unique decodeCatalogNetFlowV9IDs l.
Proof.
  intros E Hf. destruct (validated_unique l E) as [_ Hv]. intros e e' k He He' Hk Hk'.
  apply (v9_id_validated e k l Hf He) in Hk. apply (v9_id_validated e' k l Hf He') in Hk'.
  destruct Hk as [(Hk & ? & ?)|[[-> ->]|[-> ->]]], Hk' as [(Hk' & ? & ?)|[[? ->]|[? ->]]]; try done.
  by eapply Hv.
Qed.

(** At most one field of the catalog for each NetFlow v9 scope. *)
Definition scopes_free (l : list entry) : Prop :=
  forall e e', e ∈ l -> e' ∈ l -> defaultNetFlowV9ScopeID e.1 <> 0 ->
    defaultNetFlowV9ScopeID e.1 = defaultNetFlowV9ScopeID e'.1 -> e.1 = e'.1.

Lemma scopes_unique l : scopes_free l -> keys_unique decodeCatalogNetFlowV9ScopeIDs l.
Proof.
  intros Hf e e' k He He' Hk Hk'. unfold decodeCatalogNetFlowV9ScopeIDs in *.
  destruct (Z.eqb_spec (defaultNetFlowV9ScopeID e.1) 0); [by apply elem_of_nil in Hk|].
  destruct (Z.eqb_spec (defaultNetFlowV9ScopeID e'.1) 0); [by apply elem_of_nil in Hk'|].
  apply list_elem_of_singleton in Hk, Hk'. apply Hf; congruence.
Qed.

Lemma catalog_maps_perm (l l' : list entry) :
  NoDup l.*1 -> l ≡ₚ l' -> validateTemplatedDecodeCatalog l = true ->
  ipfix (newDecodeCatalog l') = ipfix (newDecodeCatalog l) /\
  (clocks_free l -> netflowV9 (newDecodeCatalog l') = netflowV9 (newDecodeCatalog l)) /\
  (scopes_free l -> netflowV9Scopes (newDecodeCatalog l') = netflowV9Scopes (newDecodeCatalog l)).
Proof.
  intros Hnd Hp Hv. rewrite !newDecodeCatalog_eq. cbn [ipfix netflowV9 netflowV9Scopes].
  splits; [|intros Hf..]; symmetry; (apply put_all_perm; [by apply pairs_perm|apply pairs_single; [done|]]).
  - by apply ipfix_unique.
  - by apply v9_unique.
  - by apply scopes_unique.
Qed.

(** What validation promises the decoder.  For a catalog that [config.go] accepts, the
    IPFIX map of the decoder does not depend on the order in which Go visits the catalog; nor
    does the NetFlow v9 map, when only the two times use the elements 21 and 22; nor the map of
    scopes, when no two names stand for one scope. *)
Theorem catalog_order_free (l l' : list entry) :
  NoDup l.*1 -> l ≡ₚ l' -> validateTemplatedDecodeCatalog l = true ->
  ipfix (newDecodeCatalog l') = ipfix (newDecodeCatalog l) /\
  (clocks_free l -> netflowV9 (newDecodeCatalog l') = netflowV9 (newDecodeCatalog l)) /\
  (scopes_free l -> netflowV9Scopes (newDecodeCatalog l') = netflowV9Scopes (newDecodeCatalog l)).
Proof. apply catalog_maps_perm. Qed.

(** ** Elements of a record *)

Section elements.
Context `{GoLib}.
Implicit Types (l : list entry) (d : IPFIXFieldDefinition) (m : fields).

Definition plain d : bool := (PEN d =? 0) && negb (EnterpriseScoped d).

(** The element of a record is the one of a definition. *)
Definition element_of (v9 : bool) d (f : DataField) : Prop :=
  dType f = defID d /\
  if v9 then plain d = true
  else dPenProvided f = negb (plain d) /\ (plain d = false -> dPen f = PEN d).

Lemma lookup_entry l n d f v9 : NoDup l.*1 -> validateTemplatedDecodeCatalog l = true -> clocks_free l ->
  (n, d) ∈ l -> defID d <> 0 -> element_of v9 d f ->
  lookup (newDecodeCatalog l) f v9 = Some {| fkey := n; def := d |}.
Proof.
  intros Hnd Hv Hf Hin Hid [Hty Hel]. rewrite newDecodeCatalog_eq. unfold lookup. cbn [ipfix netflowV9].
  change {| fkey := n; def := d |} with (field_of_entry (n, d)). unfold plain in Hel. destruct v9.
  - rewrite put_all_single by (apply pairs_single; [done|by apply v9_unique]). apply elem_of_pairs. exists (n, d). splits; [done..|].
    cbn [fst snd]. unfold decodeCatalogNetFlowV9IDs. rewrite Hty. destruct (Z.eqb_spec (defID d) 0); [done|].
    apply andb_prop in Hel as [-> ->]. by left.
  - rewrite put_all_single by (apply pairs_single; [done|by apply ipfix_unique]). apply elem_of_pairs. exists (n, d). splits; [done..|].
    cbn [fst snd]. unfold decodeCatalogIPFIXKeys. destruct (Z.eqb_spec (defID d) 0); [done|]. rewrite Hty.
    destruct Hel as [Hp Hpen]. rewrite Hp. apply elem_of_cons. left.
    destruct (PEN d =? 0), (EnterpriseScoped d); simpl in *; try rewrite Hpen by done; done.
Qed.

(** Names that [applyCatalogDataField] gives another meaning, or another element writes. *)
Definition special : list string :=
  ["proto"; "proto_name"; "bytes"; "packets"; "start_time_unix"; "end_time_unix"; "src_addr"; "dst_addr"; "nat_src_addr";
   "nat_dst_addr"; "sampling_rate"]%string.

Lemma apply_ordinary f n d up secs v9 m : n ∉ special ->
  applyCatalogDataField f {| fkey := n; def := d |} up secs v9 m = <[n := decodeCatalogValue d (dValue f)]> m.
Proof.
  intros Hn. unfold special in Hn. rewrite !not_elem_of_cons in Hn.
  destruct Hn as (?&?&?&?&?&?&?&?&?&?&?&_). unfold applyCatalogDataField. cbn [fkey def].
  repeat match goal with |- context [String.eqb n ?k] => rewrite (proj2 (String.eqb_neq n k)) by done end.
  cbn [existsb]. repeat match goal with |- context [String.eqb n ?k] => rewrite (proj2 (String.eqb_neq n k)) by done end. done.
Qed.

Lemma apply_other f cf up secs v9 m n : n ∉ special -> fkey cf <> n ->
  applyCatalogDataField f cf up secs v9 m !! n = m !! n.
Proof.
  intros Hn Hk. unfold special in Hn. rewrite !not_elem_of_cons in Hn.
  destruct Hn as (?&?&?&?&?&?&?&?&?&?&?&_). unfold applyCatalogDataField, put_proto, setDecodedIPField.
  repeat case_match; try (by rewrite lookup_insert_ne); try done;
    (rewrite lookup_put_fields_other; [done|]; cbn [fmap list_fmap fst]; rewrite !not_elem_of_cons; splits; [done..|apply not_elem_of_nil]).
Qed.

Lemma map_fields_other c fs up secs v9 m n : n ∉ special -> catalog_empty c = false ->
  Forall (fun f => forall cf, lookup c f v9 = Some cf -> fkey cf <> n) fs ->
  mapDataFields c fs up secs v9 m !! n = m !! n.
Proof.
  intros Hn Hc Hfs. unfold mapDataFields. rewrite Hc. cbn [negb]. revert m.
  induction Hfs as [|f fs Hf Hfs IH]; intros m; [done|]. cbn [fold_left]. rewrite IH.
  destruct (lookup c f v9) as [cf|]; [|done]. apply apply_other; auto.
Qed.

Lemma mapDataFields_split c fs f fs' cf up secs v9 m : catalog_empty c = false -> lookup c f v9 = Some cf ->
  mapDataFields c (fs ++ f :: fs') up secs v9 m =
  mapDataFields c fs' up secs v9 (applyCatalogDataField f cf up secs v9 (mapDataFields c fs up secs v9 m)).
Proof. intros Hc Hl. unfold mapDataFields. rewrite Hc, fold_left_app. cbn [fold_left negb]. by rewrite Hl. Qed.
End elements.

(** ** Values on the wire *)

Lemma decodeUint64_put k v : (k <= 8)%nat -> uint (8 * Z.of_nat k) v -> decodeUint64 (A_bytes (be_put k v)) = v.
Proof.
  intros Hk Hv. unfold decodeUint64. assert (Hget : be_get (be_put k v) = v) by by apply be_get_put.
  destruct (existsb _ _); [done|]. rewrite <- Hget at 2.
  pose proof (is_bytes_be_put k v) as Hb. assert (Hl : (length (be_put k v) <= 8)%nat) by by rewrite length_be_put.
  revert Hb Hl. generalize (be_put k v) as b. clear. intros b Hb Hl.
  change (be_get b) with (be_get_from 0 b).
  assert (forall acc, 0 <= acc < 2 ^ (8 * Z.of_nat (8 - length b)) ->
    fold_left (fun out b => Z.lor (to_uint 64 (Z.shiftl out 8)) b) b acc = be_get_from acc b) as Hacc; [|apply Hacc].
  - induction Hb as [|x b Hx Hb IH]; intros acc Hacc; [done|]. cbn [fold_left be_get_from length] in *.
    assert (to_uint 64 (Z.shiftl acc 8) = Z.shiftl acc 8) as E.
    { apply to_uint_small. rewrite Z.shiftl_mul_pow2 by lia.
      assert (2 ^ (8 * Z.of_nat (8 - S (length b))) <= 2 ^ 56) by (apply Z.pow_le_mono_r; lia). unfold uint. lia. }
    rewrite E. apply IH; [lia|]. rewrite lor_shiftl_low by (unfold uint in Hx; lia).
    replace (8 * Z.of_nat (8 - length b)) with (8 * Z.of_nat (8 - S (length b)) + 8) by lia.
    rewrite Z.pow_add_r by lia. unfold uint in Hx. nia.
  - split; [lia|]. apply Z.pow_pos_nonneg; lia.
Qed.

Definition sint (bits v : Z) : Prop := - 2 ^ (bits - 1) <= v < 2 ^ (bits - 1).

Lemma testbit_sign w v : 0 < w -> 0 <= v < 2 ^ w -> (Z.land v (Z.shiftl 1 (w - 1)) =? 0) = (v <? 2 ^ (w - 1)).
Proof.
  intros Hw Hv. rewrite Z.shiftl_1_l.
  assert (Hp : 2 ^ w = 2 * 2 ^ (w - 1)) by (rewrite <- Z.pow_succ_r by lia; f_equal; lia).
  assert (Htest : Z.testbit v (w - 1) = negb (v <? 2 ^ (w - 1))).
  { rewrite Z.testbit_eqb by lia. destruct (Z.ltb_spec v (2 ^ (w - 1))).
    - rewrite Z.div_small by lia. done.
    - rewrite <- (Z.div_unique v (2 ^ (w - 1)) 1 (v - 2 ^ (w - 1))); [done|lia..]. }
  destruct (Z.ltb_spec v (2 ^ (w - 1))) as [Hlt|Hge]; cbn [negb] in Htest.
  - apply Z.eqb_eq. apply Z.bits_inj'. intros i Hi. rewrite Z.land_spec, Z.pow2_bits_eqb, Z.bits_0 by lia.
    destruct (Z.eqb_spec (w - 1) i) as [<-|]; [by rewrite Htest|by rewrite andb_false_r].
  - apply Z.eqb_neq. intros E. apply (f_equal (fun x => Z.testbit x (w - 1))) in E.
    rewrite Z.land_spec, Htest, Z.pow2_bits_true, Z.bits_0 in E by lia. done.
Qed.

Lemma sign_extend w u : 0 < w < 64 -> 0 <= u < 2 ^ w ->
  Z.lor u (to_uint 64 (Z.shiftl (2 ^ 64 - 1) w)) = u + 2 ^ 64 - 2 ^ w.
Proof.
  intros Hw Hu. assert (Hp : 2 ^ 64 = 2 ^ (64 - w) * 2 ^ w) by (rewrite <- Z.pow_add_r by lia; f_equal; lia).
  assert (Hpos : 0 < 2 ^ (64 - w)) by (apply Z.pow_pos_nonneg; lia).
  assert (to_uint 64 (Z.shiftl (2 ^ 64 - 1) w) = Z.shiftl (2 ^ (64 - w) - 1) w) as ->.
  { unfold to_uint. rewrite !Z.shiftl_mul_pow2 by lia. symmetry. apply Z.mod_unique with (q := 2 ^ w - 1); [left; nia|].
    rewrite Hp. ring. }
  rewrite Z.lor_comm, lor_shiftl_low by lia. rewrite Hp. ring.
Qed.

(** The residue of a signed number. *)
Lemma sint_residue w v : 0 < w -> sint w v ->
  0 <= v mod 2 ^ w < 2 ^ w /\ v mod 2 ^ w = (if v <? 0 then v + 2 ^ w else v) /\ (v mod 2 ^ w <? 2 ^ (w - 1)) = negb (v <? 0).
Proof.
  intros Hw Hv. unfold sint in Hv.
  assert (Hp : 2 ^ w = 2 * 2 ^ (w - 1)) by (rewrite <- Z.pow_succ_r by lia; f_equal; lia).
  pose proof (Z.pow_pos_nonneg 2 (w - 1) ltac:(lia) ltac:(lia)).
  split; [apply Z.mod_pos_bound; lia|]. destruct (Z.ltb_spec v 0).
  - rewrite <- (Z.mod_unique v (2 ^ w) (-1) (v + 2 ^ w)) by lia. split; [done|]. apply Z.ltb_ge. lia.
  - rewrite Z.mod_small by lia. split; [done|]. apply Z.ltb_lt. lia.
Qed.

Lemma sign_bit w v : 0 < w < 64 -> sint w v ->
  (if Z.land (v mod 2 ^ w) (Z.shiftl 1 (w - 1)) =? 0 then to_int 64 (v mod 2 ^ w)
   else to_int 64 (Z.lor (v mod 2 ^ w) (to_uint 64 (Z.shiftl (2 ^ 64 - 1) w)))) = v.
Proof.
  intros Hw Hv. destruct (sint_residue w v) as (Hu & E & Hsgn); [lia|done|].
  assert (2 ^ (w - 1) <= 2 ^ 63) by (apply Z.pow_le_mono_r; lia). unfold sint in Hv.
  rewrite testbit_sign, Hsgn by lia. destruct (Z.ltb_spec v 0); cbn [negb].
  - rewrite sign_extend by done. rewrite E. apply to_int64_of; [|lia].
    replace (v + 2 ^ w + 2 ^ 64 - 2 ^ w) with (v + 1 * 2 ^ 64) by lia. apply Z_mod_plus_full.
  - rewrite E. apply to_int64_of; [done|lia].
Qed.

Lemma sign_clear bits u : 0 < bits -> 0 <= u < 2 ^ (bits - 1) -> u < 2 ^ 63 ->
  (if Z.land u (Z.shiftl 1 (bits - 1)) =? 0 then to_int 64 u else to_int 64 (Z.lor u (to_uint 64 (Z.shiftl (2 ^ 64 - 1) bits)))) = u.
Proof.
  intros Hb Hu H63. assert (Hp : 2 ^ bits = 2 * 2 ^ (bits - 1)) by (rewrite <- Z.pow_succ_r by lia; f_equal; lia).
  rewrite testbit_sign by lia. rewrite (proj2 (Z.ltb_lt _ _)) by lia. apply to_int64_of; [done|lia].
Qed.

Lemma signed_value (k : nat) (length v : Z) :
  (1 <= k <= 8)%nat -> sint (8 * Z.of_nat k) v -> length = 0 \/ Z.of_nat k <= length ->
  decodeSigned64 (VBytes (be_put k (v mod 2 ^ (8 * Z.of_nat k)))) length =
    if (length =? 0) || (length =? Z.of_nat k) || (k =? 8)%nat then v else v mod 2 ^ (8 * Z.of_nat k).
Proof.
  intros Hk Hv Hlen. set (w := 8 * Z.of_nat k) in *. destruct (sint_residue w v) as (Hu & E & _); [lia|done|].
  unfold decodeSigned64. rewrite decodeUint64_put by (lia || done). rewrite len_be_put. cbv zeta.
  replace (Z.of_nat k * 8) with w by lia.
  destruct (Nat.eqb_spec k 8) as [->|Hk8].
  - rewrite orb_true_r. destruct (Z.eqb_spec (length * 8) 0); cbn [Z.eqb];
      rewrite (proj2 (Z.leb_le 64 _)), orb_true_r by lia; (apply to_int64_of; [apply Z.mod_mod; done|exact Hv]).
  - rewrite orb_false_r. assert (Hw : 0 < w <= 56) by lia.
    assert (2 ^ w <= 2 ^ 56) by (apply Z.pow_le_mono_r; lia).
    destruct (Z.eqb_spec length 0) as [->|Hl0]; [|destruct (Z.eqb_spec length (Z.of_nat k)) as [->|Hlk]].
    + change (0 * 8 =? 0) with true. cbn iota. destruct (Z.eqb_spec w 0); [lia|]. destruct (Z.leb_spec 64 w); [lia|]. cbn [orb].
      apply sign_bit; [lia|done].
    + replace (Z.of_nat k * 8) with w by lia. destruct (Z.eqb_spec w 0); [lia|]. cbn iota.
      destruct (Z.eqb_spec w 0); [lia|]. destruct (Z.leb_spec 64 w); [lia|]. cbn [orb]. apply sign_bit; [lia|done].
    + destruct (Z.eqb_spec (length * 8) 0); [lia|]. cbn iota. destruct (Z.eqb_spec (length * 8) 0); [lia|]. cbn [orb].
      destruct (Z.leb_spec 64 (length * 8)); [apply to_int64_of; [done|lia]|].
      assert (2 ^ w <= 2 ^ (length * 8 - 1)) by (apply Z.pow_le_mono_r; lia).
      apply sign_clear; lia.
Qed.

(** Signed elements.  The bytes of a signed number of [k] bytes are read back to it when
    the catalog gives no length or that length.  When the catalog's length is larger, as for
    the reduced-size encoding of IPFIX, the sign is looked for in the wrong place: a negative
    number comes out as its unsigned residue. *)
Theorem signed_decoding (k : nat) (length v : Z) :
  (1 <= k <= 8)%nat -> sint (8 * Z.of_nat k) v -> length = 0 \/ Z.of_nat k <= length ->
  decodeSigned64 (VBytes (be_put k (v mod 2 ^ (8 * Z.of_nat k)))) length =
    if (length =? 0) || (length =? Z.of_nat k) || (k =? 8)%nat then v else v mod 2 ^ (8 * Z.of_nat k).
Proof. apply signed_value. Qed.

(** ** From an element to a field *)

Section fields.
Context `{GoLib}.
Implicit Types (l : list entry) (d : IPFIXFieldDefinition) (m : fields).

(** [encodes d b x]: the bytes [b] of an element defined by [d] stand for [x]. *)
Inductive encodes (d : IPFIXFieldDefinition) : bytes -> any -> Prop :=
  | E_unsigned k v : defType d ∈ ["unsigned8"; "unsigned16"; "unsigned32"]%string -> (k <= 4)%nat -> uint (8 * Z.of_nat k) v ->
      encodes d (be_put k v) (A_int K_uint32 v)
  | E_unsigned64 k v : defType d = "unsigned64"%string -> (k <= 8)%nat -> uint (8 * Z.of_nat k) v ->
      encodes d (be_put k v) (A_int K_uint64 v)
  | E_signed k v : defType d ∈ ["signed8"; "signed16"; "signed32"]%string -> (1 <= k <= 4)%nat -> sint (8 * Z.of_nat k) v ->
      defLength d = 0 \/ defLength d = Z.of_nat k ->
      encodes d (be_put k (v mod 2 ^ (8 * Z.of_nat k))) (A_int K_int32 v)
  | E_signed64 k v : defType d = "signed64"%string -> (1 <= k <= 8)%nat -> sint (8 * Z.of_nat k) v ->
      defLength d = 0 \/ defLength d = Z.of_nat k ->
      encodes d (be_put k (v mod 2 ^ (8 * Z.of_nat k))) (A_int K_int64 v)
  | E_boolean k v : defType d = "boolean"%string -> (k <= 4)%nat -> uint (8 * Z.of_nat k) v ->
      encodes d (be_put k v) (A_bool (negb (v =? 0)))
  | E_string b : defType d = "string"%string -> encodes d b (A_string (go_string b))
  | E_bytes b : defType d = "bytes"%string -> encodes d b (A_bytes b)
  | E_ipv4 b : defType d = "ipv4Address"%string -> length b = 4%nat -> encodes d b (A_string (Addr_String (Addr4 b)))
  | E_ipv6 b : defType d = "ipv6Address"%string -> length b = 16%nat -> encodes d b (A_string (Addr_String (Addr6 b ""))).

Lemma to_int32_small v : - 2 ^ 31 <= v < 2 ^ 31 -> to_int 32 v = v.
Proof.
  intros Hv. unfold to_int. change (2 ^ (32 - 1)) with (2 ^ 31). destruct (decide (0 <= v)).
  - rewrite Z.mod_small by lia. destruct (Z.ltb_spec v (2 ^ 31)); lia.
  - rewrite <- (Z.mod_unique v (2 ^ 32) (-1) (v + 2 ^ 32)) by lia. destruct (Z.ltb_spec (v + 2 ^ 32) (2 ^ 31)); lia.
Qed.

Lemma decodeUint32_put k v : (k <= 4)%nat -> uint (8 * Z.of_nat k) v -> decodeUint32 (A_bytes (be_put k v)) = v.
Proof.
  intros Hk Hv. unfold decodeUint32. rewrite decodeUint64_put by (lia || done). apply to_uint_small.
  assert (2 ^ (8 * Z.of_nat k) <= 2 ^ 32) by (apply Z.pow_le_mono_r; lia). unfold uint in *. lia.
Qed.

Lemma decode_encoded d b x : encodes d b x -> decodeCatalogValue d (VBytes b) = x.
Proof.
  assert (Hs : forall k v, (1 <= k <= 8)%nat -> sint (8 * Z.of_nat k) v -> defLength d = 0 \/ defLength d = Z.of_nat k ->
    decodeSigned64 (VBytes (be_put k (v mod 2 ^ (8 * Z.of_nat k)))) (defLength d) = v).
  { intros k v Hk Hv Hl. rewrite signed_value by (done || lia). destruct Hl as [->|E]; [done|]. by rewrite E, Z.eqb_refl, orb_true_r. }
  unfold decodeCatalogValue. intros He. destruct He as [k v Hty|k v Hty|k v Hty Hk Hv|k v Hty|k v Hty|b Hty|b Hty|b Hty Hlen|b Hty Hlen];
    try (rewrite !elem_of_cons, elem_of_nil in Hty; destruct Hty as [Hty|[Hty|[Hty|[]]]]);
    rewrite Hty; cbn [String.eqb Ascii.eqb Bool.eqb orb any_of];
    rewrite ?decodeUint32_put, ?decodeUint64_put, ?Hs by (done || lia); try done.
  1-3: rewrite to_int32_small; [done|]; assert (2 ^ (8 * Z.of_nat k - 1) <= 2 ^ 31) by (apply Z.pow_le_mono_r; lia); unfold sint in Hv; lia.
  all: unfold decodeIPString, AddrFromSlice, len; by rewrite Hlen.
Qed.

End fields.

(** ** Catalogs on which the order shows *)

Definition demo_def (id length : Z) (typ : string) : IPFIXFieldDefinition :=
  {| defName := ""; defID := id; PEN := 0; defLength := length; defType := typ; defFormat := ""; EnterpriseScoped := false |}.

(** Two entries of default-fields.yaml that stand for the scope of the system. *)
Definition two_systems : list entry :=
  [("source_id", demo_def 138 8 "unsigned64"); ("observation_domain_id", demo_def 149 4 "unsigned32")]%string.

(** The start time, and a field of the element that the decoder takes for it. *)
Definition two_clocks : list entry :=
  [("start_time_unix", demo_def 152 8 "unsigned64"); ("first_switched", demo_def 22 4 "unsigned32")]%string.

(** The two conditions of the theorem above are needed.  The default catalog has two names
    for the system scope of NetFlow v9: which of them the decoder uses depends on the order in
    which Go visits the map.  And the validation, which has elements 21 and 22 the other way
    around, accepts a field of element 22 beside the start time, so that the order decides which
    of the two an element 22 becomes. *)
Theorem catalog_order_matters :
  (exists l l', NoDup l.*1 /\ l ≡ₚ l' /\ validateTemplatedDecodeCatalog l = true /\
     option_map fkey (netflowV9Scopes (newDecodeCatalog l) !! 1) = Some "observation_domain_id"%string /\
     option_map fkey (netflowV9Scopes (newDecodeCatalog l') !! 1) = Some "source_id"%string) /\
  (exists l l', NoDup l.*1 /\ l ≡ₚ l' /\ validateTemplatedDecodeCatalog l = true /\
     option_map fkey (netflowV9 (newDecodeCatalog l) !! NFV9_FIELD_FIRST_SWITCHED) = Some "first_switched"%string /\
     option_map fkey (netflowV9 (newDecodeCatalog l') !! NFV9_FIELD_FIRST_SWITCHED) = Some "start_time_unix"%string).
Proof.
  split; [exists two_systems, (reverse two_systems)|exists two_clocks, (reverse two_clocks)];
    (splits; [refine (bool_decide_unpack _ _); vm_compute; exact I|symmetry; apply reverse_Permutation|vm_compute; reflexivity..]).
Qed.

(** ** Witnesses *)

Definition demo_catalog : list entry :=
  [("start_time_unix", demo_def 152 8 "unsigned64"); ("src_port", demo_def 7 2 "unsigned16");
   ("temperature", demo_def 300 0 "signed16"); ("source_id", demo_def 138 8 "unsigned64")]%string.

Lemma demo_catalog_free : clocks_free demo_catalog /\ scopes_free demo_catalog.
Proof.
  split.
  - intros e He. unfold demo_catalog in He. rewrite !elem_of_cons, elem_of_nil in He.
    repeat destruct He as [->|He]; [..|done]; split; intros E; vm_compute in E; discriminate E.
  - intros e e' He He'. unfold demo_catalog in *. rewrite !elem_of_cons, elem_of_nil in *.
    repeat destruct He as [->|He]; [..|done]; repeat destruct He' as [->|He']; try done; intros H1 H2; vm_compute in H1, H2; done.
Qed.

Lemma demo_catalog_distinct : NoDup demo_catalog.*1.
Proof. refine (bool_decide_unpack _ _). vm_compute. exact I. Qed.

Lemma catalog_order_free_witness :
  ipfix (newDecodeCatalog (reverse demo_catalog)) = ipfix (newDecodeCatalog demo_catalog) /\
  netflowV9 (newDecodeCatalog (reverse demo_catalog)) = netflowV9 (newDecodeCatalog demo_catalog) /\
  netflowV9Scopes (newDecodeCatalog (reverse demo_catalog)) = netflowV9Scopes (newDecodeCatalog demo_catalog).
Proof.
  destruct demo_catalog_free as [Hc Hs].
  destruct (catalog_order_free demo_catalog (reverse demo_catalog) demo_catalog_distinct) as (H1 & H2 & H3).
  - symmetry. apply reverse_Permutation.
  - vm_compute. reflexivity.
  - auto.
Defined.

(** -1 in two bytes: right for a catalog that says 2 bytes, wrong for one that says 4. *)
Lemma signed_decoding_witness :
  decodeSigned64 (VBytes [255; 255]) 2 = -1 /\ decodeSigned64 (VBytes [255; 255]) 4 = 65535.
Proof.
  split.
  - exact (signed_decoding 2 2 (-1) ltac:(lia) ltac:(unfold sint; simpl; lia) ltac:(right; lia)).
  - exact (signed_decoding 2 4 (-1) ltac:(lia) ltac:(unfold sint; simpl; lia) ltac:(right; lia)).
Defined.

#[local] Existing Instance simple_lib.

Definition demo_element (typ : Z) (b : bytes) : DataField :=
  {| dPenProvided := false; dType := typ; dLength := len b; dPen := 0; dValue := VBytes b |}.

