(* ===== verification/ReflowSflow.v ===== *)
(** * pkg/reflow/decode: the events of sFlow

    From the samples of an exporter to the fields of the events, and what gets lost. *)
From S2P Require Import Prelude Text DecodersUtils NetflowTypes SflowTypes SflowDecode SflowEncode SflowRoundtrip SflowProps SflowSafety SamplingInterface ReflowEvent ReflowDecode ReflowDecodeProps.

(** ** Which record writes which field *)

(** The names the extended records write start with [nat_] or [mpls_]. *)
Definition own (k : string) : bool := negb (String.prefix "mpls_" k || String.prefix "nat_" k).

(** The fields of a sample, which none of its records changes. *)
Definition sample_keys : list string :=
  ["flow_type"; "flow_version"; "agent_ip"; "sub_agent_id"; "source_id"; "sampling_rate"; "sample_pool"; "drops";
   "input_if"; "output_if"; "packets"]%string.

(** The data of a record, of whichever shape. *)
Definition carries {V} (r : record V) (v : V) : Prop := rData r ≫= unbox = Some v.

(** A record that does not describe the packet itself. *)
Definition extended (r : FlowRecord) : Prop :=
  forall v, carries r v -> match v with FV_SampledHeader _ | FV_SampledIPv4 _ | FV_SampledIPv6 _ => False | _ => True end.

Section fields.
Context `{GoLib}.
Implicit Types (m : fields) (k : string).

Lemma own_not k k' : own k = true -> own k' = false -> k' <> k.
Proof. congruence. Qed.

Lemma insert_own k k' v m : own k = true -> own k' = false -> <[k' := v]> m !! k = m !! k.
Proof. intros H1 H2. apply lookup_insert_ne. by apply own_not. Qed.

Lemma put_fields_own k l m : own k = true -> forallb (fun kv => negb (own kv.1)) l = true -> put_fields l m !! k = m !! k.
Proof.
  unfold put_fields. intros Hk. revert m. induction l as [|[k' v] l IH]; intros m Hl; [done|].
  cbn [forallb fst] in Hl. apply andb_prop in Hl as [H1 H2]. cbn [fold_left]. rewrite IH by done.
  apply insert_own; [done|]. by apply negb_true_iff in H1.
Qed.

Lemma put_ip_own k k' ip m : own k = true -> own k' = false -> put_ip k' ip m !! k = m !! k.
Proof. intros H1 H2. unfold put_ip. destruct (String.eqb _ _); [done|]. by apply insert_own. Qed.

Lemma mpls_labels_own k i l m : own k = true -> mpls_labels i l m !! k = m !! k.
Proof.
  intros Hk. revert i m. induction l as [|x l IH]; intros i m; [done|]. cbn [mpls_labels]. rewrite IH.
  by apply put_fields_own.
Qed.

Lemma extended_own k data m : own k = true -> applySFlowExtendedRecordFields data m !! k = m !! k.
Proof.
  intros Hk. destruct data; cbn [applySFlowExtendedRecordFields]; try done.
  - unfold applySFlowExtendedMPLSFields. rewrite mpls_labels_own, put_fields_own by done. by apply put_ip_own.
  - unfold applySFlowExtendedNATFields. rewrite !put_ip_own by done. done.
  - by apply put_fields_own.
  - by apply put_fields_own.
  - by apply put_fields_own.
  - by apply insert_own.
Qed.

Lemma sample_key_own k : k ∈ sample_keys -> own k = true.
Proof. intros Hk. assert (forallb own sample_keys = true) as Hall by reflexivity. rewrite forallb_forall in Hall. apply Hall. by apply list_elem_of_In. Qed.

(** No sampled packet has a field of the sample. *)
Lemma put_fields_key k (l : list (string * any)) m : k ∈ sample_keys ->
  forallb (fun kv => negb (existsb (String.eqb kv.1) sample_keys)) l = true -> put_fields l m !! k = m !! k.
Proof.
  intros Hk Hl. apply lookup_put_fields_other. intros Hin. apply list_elem_of_fmap in Hin as ([k' v] & -> & Hin).
  rewrite forallb_forall in Hl. apply list_elem_of_In, Hl, negb_true_iff in Hin. cbn [fst] in *.
  assert (existsb (String.eqb k') sample_keys = true) as E; [|congruence].
  apply existsb_exists. exists k'. split; [by apply list_elem_of_In|apply String.eqb_refl].
Qed.

Lemma flow_record_keys k r m : k ∈ sample_keys -> flow_record_fields m r !! k = m !! k.
Proof.
  intros Hk. unfold flow_record_fields. pose proof (sample_key_own k Hk) as Ho.
  destruct (data_of_record r) as [[]|]; try done; try (by apply extended_own); by apply put_fields_key.
Qed.

Lemma expanded_record_keys k r m : k ∈ sample_keys -> expanded_record_fields m r !! k = m !! k.
Proof.
  intros Hk. unfold expanded_record_fields. pose proof (sample_key_own k Hk) as Ho.
  destruct (data_of_record r) as [[]|]; try done; try (by apply extended_own); by apply put_fields_key.
Qed.
End fields.

(** ** What the events tell *)

Record tells_sample (evt : Event) (agent : string) (sub source rate pool drops input output : Z) (e : Event) : Prop := {
  ts_base : flow_event evt e /\ Payload e = Payload evt;
  ts_agent : field_of e "flow_type" = Some (A_string "sflow") /\ field_of e "agent_ip" = Some (A_string agent);
  ts_packets : field_of e "packets" = Some (A_int K_int64 1);
  ts_num k v : (k, v) ∈ [("flow_version", 5); ("sub_agent_id", sub); ("source_id", source); ("sampling_rate", rate);
      ("sample_pool", pool); ("drops", drops); ("input_if", input); ("output_if", output)]%string ->
    field_of e k = Some (u32_field v)
}.

(** The last sampled header among the records describes the packet. *)
Definition tells_packet (records : list FlowRecord) (e : Event) : Prop :=
  forall rs1 r h rs2, records = rs1 ++ r :: rs2 -> carries r (FV_SampledHeader h) -> Forall extended rs2 ->
    field_of e "bytes" = Some (A_int K_int64 (shFrameLength h)) /\
    field_of e "header_data" = Some (A_bytes (shHeaderData h)) /\
    field_of e "frame_length" = Some (u32_field (shFrameLength h)) /\ field_of e "protocol" = Some (u32_field (shProtocol h)).

(** An interface's counters; a record that the decoder does not know is kept. *)
Record tells_counter (evt : Event) (source : Z) (r : CounterRecord) (e : Event) : Prop := {
  tc_base : flow_event evt e /\ Payload e = Payload evt;
  tc_source : field_of e "source_id" = Some (u32_field source);
  tc_if d : carries r (CV_IfCounters d) ->
    field_of e "record_kind" = Some (A_string "interface_counter") /\
    field_of e "if_index" = Some (u32_field (IfIndex d)) /\
    field_of e "if_in_octets" = Some (A_int K_uint64 (IfInOctets d)) /\
    field_of e "if_out_octets" = Some (A_int K_uint64 (IfOutOctets d)) /\
    field_of e "if_in_ucast_pkts" = Some (u32_field (IfInUcastPkts d)) /\
    field_of e "if_out_ucast_pkts" = Some (u32_field (IfOutUcastPkts d)) /\ Internal e = no_internal;
  tc_raw d : carries r (CV_RawRecord d) ->
    field_of e "record_kind" = Some (A_string "counter_record") /\
    exists r', Internal e = {| sflow_flow_records := []; sflow_sample := None; sflow_counter_records := [r']; other_internal := ∅ |} /\
      carries r' (CV_RawRecord d)
}.

Section sflow.
Context `{GoLib}.
Implicit Types (m : fields) (evt e : Event).

(** The events of a sample. *)
Definition tells_value evt (p : Packet) (v : sample_value) (l : list Event) : Prop :=
  let tells := tells_sample evt (ipSliceString (AgentIP p)) (SubAgentId p) in
  match v with
  | SV_FlowSample s => exists e, l = [e] /\ tells_packet (fsRecords s) e /\
      tells (SourceIdValue (fsHeader s)) (fsSamplingRate s) (fsSamplePool s) (fsDrops s) (fsInput s) (fsOutput s) e
  | SV_ExpandedFlowSample s => exists e, l = [e] /\ tells_packet (esRecords s) e /\
      tells (SourceIdValue (esHeader s)) (esSamplingRate s) (esSamplePool s) (esDrops s) (InputIfValue s) (OutputIfValue s) e
  | SV_CounterSample s => Forall2 (tells_counter evt (SourceIdValue (csHeader s))) (csRecords s) l
  | SV_RawSample s => exists e raw, l = [e] /\ flow_event evt e /\ sflow_sample (Internal e) = Some raw /\ rsData raw = rsData s
  | SV_DropSample _ => l = []
  end.

Lemma carries_complete (r : FlowRecord) v : carries r v -> data_of_record (complete_record r) = Some (complete_flow_value v).
Proof. unfold carries, complete_record. by intros ->. Qed.

Lemma complete_extended (r : FlowRecord) : extended r ->
  match data_of_record (complete_record r) with
  | Some (FV_SampledHeader _) | Some (FV_SampledIPv4 _) | Some (FV_SampledIPv6 _) => False
  | _ => True
  end.
Proof.
  intros Hr. unfold complete_record. destruct (rData r ≫= unbox) as [v|] eqn:E.
  - specialize (Hr v E). unfold data_of_record. cbn [rData]. by destruct v.
  - unfold data_of_record. destruct (rData r) as [[v|]|]; [discriminate E|done..].
Qed.

Lemma fold_keeps {A} (f : fields -> A -> fields) k l m : (forall m x, f m x !! k = m !! k) -> fold_left f l m !! k = m !! k.
Proof. intros Hf. revert m. induction l as [|x l IH]; intros m; [done|]. cbn [fold_left]. by rewrite IH. Qed.

Lemma fold_extended k (f : fields -> FlowRecord -> fields) rs m : own k = true ->
  (forall m r, (match data_of_record r with
                | Some (FV_SampledHeader _) | Some (FV_SampledIPv4 _) | Some (FV_SampledIPv6 _) => False | _ => True end) ->
     f m r = match data_of_record r with Some d => applySFlowExtendedRecordFields d m | None => m end) ->
  Forall extended rs -> fold_left f (map complete_record rs) m !! k = m !! k.
Proof.
  intros Hk Hf Hrs. revert m. induction Hrs as [|r rs Hr Hrs IH]; intros m; [done|]. cbn [map fold_left].
  rewrite IH, Hf by (by apply complete_extended). destruct (data_of_record _); [by apply extended_own|done].
Qed.

Lemma header_tells (f : fields -> FlowRecord -> fields) records base p sf i evt :
  (forall m r h, data_of_record r = Some (FV_SampledHeader h) -> f m r = put_fields (sampled_header_fields h) m) ->
  (forall m r, (match data_of_record r with
                | Some (FV_SampledHeader _) | Some (FV_SampledIPv4 _) | Some (FV_SampledIPv6 _) => False | _ => True end) ->
     f m r = match data_of_record r with Some d => applySFlowExtendedRecordFields d m | None => m end) ->
  tells_packet records (with_data evt (fold_left f (map complete_record records) base) p sf i).
Proof.
  intros Hh Hx rs1 r h rs2 -> Hr Hrs2. apply carries_complete in Hr.
  assert (forall k x, own k = true -> (k, x) ∈ sampled_header_fields h -> 
    field_of (with_data evt (fold_left f (map complete_record (rs1 ++ r :: rs2)) base) p sf i) k = Some x) as Hf.
  { intros k x Hk Hin. unfold field_of. change (ensureFields (with_data evt ?m p sf i)) with m.
    rewrite map_app, fold_left_app. cbn [map fold_left]. rewrite fold_extended by done. rewrite (Hh _ _ h) by done.
    apply lookup_put_fields; [|done]. refine (bool_decide_unpack (NoDup _) _). vm_compute. exact I. }
  splits; apply Hf; try done; unfold sampled_header_fields; rewrite !elem_of_cons; tauto.
Qed.

Lemma flow_sample_tells (f : fields -> FlowRecord -> fields) records evt (p : Packet) source rate pool drops input output pl sf i :
  Version p = 5 -> pl = Payload evt -> (forall k m r, k ∈ sample_keys -> f m r !! k = m !! k) ->
  tells_sample evt (ipSliceString (AgentIP p)) (SubAgentId p) source rate pool drops input output
    (with_data evt (fold_left f records (put_fields (sample_fields p source rate pool drops input output) (ensureFields evt))) pl sf i).
Proof.
  intros Hv -> Hf.
  set (e := with_data _ _ _ _ _).
  assert (Hfield : forall k x, k ∈ sample_keys -> (k, x) ∈ sample_fields p source rate pool drops input output -> field_of e k = Some x).
  { intros k x Hk Hin. unfold field_of. change (ensureFields e) with (fold_left f records (put_fields (sample_fields p source rate pool drops input output) (ensureFields evt))).
    rewrite fold_keeps by (intros; by apply Hf). apply lookup_put_fields; [|done].
    refine (bool_decide_unpack (NoDup _) _). vm_compute. exact I. }
  unfold sample_fields, packet_fields, agent_fields, sample_keys in Hfield. cbn [app] in Hfield. rewrite Hv in Hfield.
  split.
  - split; [|done]. apply with_data_flow.
    + exists (A_string "sflow"). apply (Hfield "flow_type"%string); rewrite !elem_of_cons; tauto.
    + exists (u32_field 5). apply (Hfield "flow_version"%string); rewrite !elem_of_cons; tauto.
  - split; apply Hfield; rewrite !elem_of_cons; tauto.
  - apply Hfield; rewrite !elem_of_cons; tauto.
  - intros k v Hin. rewrite !elem_of_cons, elem_of_nil in Hin.
    repeat destruct Hin as [[= -> ->]|Hin]; [..|done]; apply Hfield; rewrite !elem_of_cons; tauto.
Qed.

Lemma counter_tells evt (p : Packet) (c : CounterSample) (r : CounterRecord) :
  tells_counter evt (SourceIdValue (csHeader c)) r (counter_event evt p c (complete_record r)).
Proof.
  unfold counter_event. destruct (counter_record_fields (complete_record r)) as [l keep] eqn:E.
  set (sf := Some _).
  match goal with |- context [put_fields ?a _] => set (all := a) end.
  assert (Hin_l : forall kx, kx ∈ l -> kx ∈ all) by (intros kx Hin; subst all; rewrite !elem_of_app; tauto).
  assert (Hbase : forall i, flow_event evt (with_data evt (put_fields all (ensureFields evt)) (Payload evt) sf i)).
  { intros i. apply with_data_flow; apply packet_fields_has. }
  assert (Hl : NoDup all.*1 -> forall i k x, (k, x) ∈ all ->
    field_of (with_data evt (put_fields all (ensureFields evt)) (Payload evt) sf i) k = Some x).
  { intros Hnd i k x Hin. by apply lookup_put_fields. }
  assert (Hcase : (exists d, carries r (CV_IfCounters d) /\ l = ("record_kind"%string, A_string "interface_counter") :: applySFlowIfCounterFields d /\ keep = false) \/
    (exists d, carries r (CV_EthernetCounters d) /\ l = ("record_kind"%string, A_string "ethernet_counter") :: applySFlowEthernetCounterFields d /\ keep = false) \/
    ((forall d, ~ carries r (CV_IfCounters d)) /\ (forall d, ~ carries r (CV_EthernetCounters d)) /\
     l = [("record_kind"%string, A_string "counter_record")] /\ keep = true /\ forall d, carries r (CV_RawRecord d) -> carries (complete_record r) (CV_RawRecord d))).
  { unfold counter_record_fields, complete_record, carries in *. destruct (rData r ≫= unbox) as [v|] eqn:Ev.
    - unfold data_of_record in E. cbn [rData] in E. destruct v as [d|d|d]; injection E as <- <-; [left|right; left|right; right]; eauto.
    - right; right. unfold data_of_record in E. destruct (rData r) as [[v|]|]; [discriminate Ev|..]; injection E as <- <-; splits; done. }
  assert (Hnd : NoDup all.*1).
  { destruct Hcase as [(d & _ & -> & _)|[(d & _ & -> & _)|(_ & _ & -> & _)]]; subst all;
      destruct (Format (csHeader c) =? SAMPLE_FORMAT_EXPANDED_COUNTER); refine (bool_decide_unpack (NoDup _) _); vm_compute; exact I. }
  specialize (Hl Hnd). split.
  - by split.
  - apply Hl. subst all. rewrite !elem_of_app, !elem_of_cons. tauto.
  - intros d Hd. destruct Hcase as [(d' & Hd' & -> & ->)|[(d' & Hd' & _)|(Hno & _)]];
      [|unfold carries in *; congruence|by destruct (Hno d)].
    assert (d' = d) as -> by (unfold carries in *; congruence).
    splits; try (apply Hl, Hin_l; unfold applySFlowIfCounterFields; rewrite !elem_of_cons; tauto). done.
  - intros d Hd. destruct Hcase as [(d' & Hd' & _)|[(d' & Hd' & _)|(_ & _ & -> & -> & Hraw)]]; [unfold carries in *; congruence..|].
    split; [apply Hl, Hin_l; by left|]. exists (complete_record r). split; [done|by apply Hraw].
Qed.

Lemma value_tells evt (p : Packet) v : Version p = 5 -> tells_value evt p v (sample_events evt p (complete_sample v)).
Proof.
  intros Hv. destruct v as [s|s|s|s|s]; cbn [complete_sample sample_events tells_value].
  - eexists. split; [reflexivity|]. unfold eventFromSFlowSample. cbn [fsHeader fsSamplingRate fsSamplePool fsDrops fsInput fsOutput fsRecords complete_header SourceIdValue].
    split.
    + apply header_tells; intros m r; unfold flow_record_fields; [by intros h ->|].
      destruct (data_of_record r) as [[]|]; done.
    + apply flow_sample_tells; [done|done|]. intros k m r Hk. by apply flow_record_keys.
  - unfold eventsFromSFlowCounterSample. cbn [csRecords]. rewrite map_map. apply Forall2_fmap_r, Forall_Forall2_diag, Forall_true.
    intros r. apply (counter_tells evt p {| csHeader := complete_header (SV_CounterSample s) (csHeader s);
      CounterRecordsCount := len (csRecords s); csRecords := map complete_record (csRecords s) |} r).
  - eexists. split; [reflexivity|]. unfold eventFromExpandedSFlowSample.
    cbn [esHeader esSamplingRate esSamplePool esDrops InputIfValue OutputIfValue esRecords complete_header SourceIdValue].
    split.
    + apply header_tells; intros m r; unfold expanded_record_fields; [by intros h ->|].
      destruct (data_of_record r) as [[]|]; done.
    + apply flow_sample_tells; [done|done|]. intros k m r Hk. by apply expanded_record_keys.
  - done.
  - eexists _, _. split; [reflexivity|]. split; [|by split]. apply with_data_flow; apply packet_fields_has.
Qed.
End sflow.

(** ** sFlow, from the exporter to the events *)

Section events.
Context `{GoLib} {T R : Type} `{TemplateStore T} `{SamplingStore R}.
Implicit Types (d : builtIn T R) (e evt : Event).

(** The values of the samples of a packet. *)
Definition sample_values (p : Packet) : list sample_value := omap (fun s => s ≫= unbox) (Samples p).

Lemma decoded_values (p : Packet) : omap sample_value_of (Samples (complete_packet p)) = map complete_sample (sample_values p).
Proof.
  unfold sample_values. cbn [complete_packet Samples]. induction (Samples p) as [|s l IH]; [done|]. cbn [map omap list_omap].
  rewrite IH. unfold complete_element, sample_value_of. destruct s as [b|]; [|done]. cbn [mbind option_bind].
  destruct (unbox b) as [v|] eqn:E; [done|]. by rewrite E.
Qed.

(** The last pass over the events of a packet changes nothing. *)
Lemma ensure_id v e m : ReflowEvent.Fields e = Some m -> has "flow_type" m -> has "flow_version" m -> ensureSFlowDecodedFields v e = e.
Proof.
  intros Hf [x1 Hx1] [x2 Hx2]. unfold ensureSFlowDecodedFields, ensureFields. rewrite Hf. cbn [default from_option id]. cbv zeta.
  rewrite Hx1, Hx2. destruct e. cbn in *. by subst.
Qed.

Lemma ensured v evt (p : Packet) (l : list sample_value) :
  map (ensureSFlowDecodedFields v) (flat_map (sample_events evt p) l) = flat_map (sample_events evt p) l.
Proof.
  rewrite <- (map_id (flat_map _ _)) at 2. apply map_ext_in. intros e He. apply in_flat_map in He as (s & _ & He).
  pose proof (sample_events_flow evt p s) as Hf. rewrite Forall_forall in Hf. apply list_elem_of_In in He.
  specialize (Hf e He). destruct Hf as (_ & _ & _ & _ & Hh1 & Hh2).
  assert (exists m, ReflowEvent.Fields e = Some m) as [m Hm].
  { destruct s as [s|s|s|s|s]; cbn [sample_events] in He; try (apply list_elem_of_singleton in He as ->; by eexists).
    - apply list_elem_of_In, in_map_iff in He as (r & <- & _). unfold counter_event. destruct (counter_record_fields r). by eexists.
    - by apply elem_of_nil in He. }
  unfold ensureFields in *. rewrite Hm in *. by eapply ensure_id.
Qed.

Lemma packet_version (p : Packet) rest : packet_ok p -> be_get (take 4 (packet_bytes p ++ rest)) = 5 /\ 4 <= len (packet_bytes p ++ rest).
Proof.
  intros Hp. unfold packet_bytes. rewrite <- !app_assoc. rewrite (take_app_length' (be_put 4 5)) by (by rewrite length_be_put).
  split; [done|]. rewrite len_app, len_be_put. pose proof (len_nonneg (A := Z)) as Hn. match goal with |- _ <= _ + len ?b => specialize (Hn b) end. lia.
Qed.

(** What the events of a datagram with the samples of [p] are. *)
Definition tells_packet_events evt (p : Packet) (l : list Event) : Prop :=
  exists ls, Forall2 (tells_value evt p) (sample_values p) ls /\
    match concat ls with [] => exists e, l = [e] /\ flow_event evt e | _ => l = concat ls end.

Lemma Decode_sflow d evt (p : Packet) rest :
  packet_ok p -> Kind evt <> "control"%string -> ReflowEvent.Type_ (Source evt) = "flow"%string -> Payload evt = PL_bytes (packet_bytes p ++ rest) ->
  exists l, Decode (Some evt) d = (Ok (map Some l), d) /\ tells_packet_events evt p l.
Proof.
  intros Hp Hk Hty Hpl.
  destruct (packet_version p rest Hp) as [Hver Hlen]. pose proof (reads_DecodeMessageVersion p Hp rest) as Hd.
  set (vs := sample_values p). set (ls := map (fun v => sample_events evt (complete_packet p) (complete_sample v)) vs).
  assert (Hls : concat ls = flat_map (sample_events evt (complete_packet p)) (omap sample_value_of (Samples (complete_packet p)))).
  { subst ls. rewrite decoded_values, !flat_map_concat_map, map_map. done. }
  set (out := match concat ls with
              | [] => [with_fields evt (put_fields [("flow_type", A_string "sflow"); ("flow_version", u32_field 5)]%string (ensureFields evt))]
              | l => l end).
  exists out. split; [|exists ls; split].
  - unfold Decode. destruct (String.eqb_spec (Kind evt) "control"); [done|]. rewrite Hty. cbn [String.eqb Ascii.eqb Bool.eqb].
    unfold bind at 1, decodeFlow. rewrite Hpl.
    assert (identifyFlow (packet_bytes p ++ rest) = Ok (FT_sflow, 5)) as Hi.
    { unfold identifyFlow. rewrite Hver. by rewrite (proj2 (Z.ltb_ge _ _) Hlen). }
    destruct (packet_bytes p ++ rest) eqn:Eb; [by rewrite len_nil in Hlen|]. rewrite <- Eb in *. rewrite Hi.
    unfold decodeSFlow, bind, errctx, on_buffer. rewrite Hd. cbn [fst]. rewrite <- Hls. subst out.
    destruct (concat ls) as [|e0 l0] eqn:E; [done|].
    by rewrite Hls, ensured.
  - subst ls. apply Forall2_fmap_r, Forall_Forall2_diag, Forall_true. intros v.
    apply (value_tells evt (complete_packet p)). done.
  - subst out. destruct (concat ls); [|done]. eexists. split; [reflexivity|].
    apply with_data_flow; [apply (has_put_new _ (A_string "sflow")); by left|apply (has_put_new _ (u32_field 5)); right; by left].
Qed.


(** ** What is lost *)

Definition lost (lose : flow_value -> bool) (r : FlowRecord) : Prop := exists v, data_of_record r = Some v /\ lose v = true.
Definition is_ethernet (v : flow_value) : bool := match v with FV_SampledEthernet _ => true | _ => false end.
Definition is_packet (v : flow_value) : bool :=
  match v with FV_SampledEthernet _ | FV_SampledIPv4 _ | FV_SampledIPv6 _ => true | _ => false end.

Lemma lost_records (lose : flow_value -> bool) (f : fields -> FlowRecord -> fields) rs base p sf evt k :
  (forall m r v, data_of_record r = Some v -> lose v = true -> f m r = m /\ shouldPreserveSFlowFlowRecord r = false) ->
  Forall (lost lose) rs ->
  let e := with_data evt (fold_left f rs base) p sf (preserved rs) in
  field_of e k = base !! k /\ Internal e = no_internal.
Proof.
  intros Hf Hrs. cbv zeta. unfold field_of, preserved. cbn. induction Hrs as [|r rs (v & Hr & Hv) Hrs IH]; [done|].
  destruct (Hf base r v Hr Hv) as [E1 E2]. cbn [fold_left List.filter]. by rewrite E1, E2.
Qed.

(** What the decoder loses.  A record of a sampled Ethernet frame leaves no trace: no
    field, and not among the records kept for the sFlow encoder; in an expanded sample neither
    does a record of a sampled IPv4 or IPv6 packet.  In a flow sample the addresses of such a
    record become strings of raw bytes. *)
Theorem reflow_sflow_lost evt (p : Packet) (s : FlowSample) (x : ExpandedFlowSample) k :
  k ∉ sample_keys ->
  (Forall (lost is_ethernet) (fsRecords s) ->
     field_of (eventFromSFlowSample evt p s) k = field_of evt k /\ Internal (eventFromSFlowSample evt p s) = no_internal) /\
  (Forall (lost is_packet) (esRecords x) ->
     field_of (eventFromExpandedSFlowSample evt p x) k = field_of evt k /\ Internal (eventFromExpandedSFlowSample evt p x) = no_internal) /\
  (forall rs r q, fsRecords s = rs ++ [r] -> data_of_record r = Some (FV_SampledIPv4 q) ->
     field_of (eventFromSFlowSample evt p s) "src_addr" = Some (A_string (go_string (ipSrcIP (v4Base q))))).
Proof.
  intros Hk. splits.
  - intros Hrs. unfold eventFromSFlowSample.
    edestruct (lost_records is_ethernet flow_record_fields (fsRecords s)) as [E1 E2]; [|done|split; [|exact E2]].
    + intros m r v Hr Hv. unfold flow_record_fields, shouldPreserveSFlowFlowRecord. rewrite Hr. by destruct v.
    + rewrite E1. apply lookup_put_fields_other. done.
  - intros Hrs. unfold eventFromExpandedSFlowSample.
    edestruct (lost_records is_packet expanded_record_fields (esRecords x)) as [E1 E2]; [|done|split; [|exact E2]].
    + intros m r v Hr Hv. unfold expanded_record_fields, shouldPreserveSFlowFlowRecord. rewrite Hr. by destruct v.
    + rewrite E1. apply lookup_put_fields_other. done.
  - intros rs r q Hrs Hr. unfold eventFromSFlowSample, field_of. rewrite Hrs, fold_left_app. cbn [fold_left].
    unfold flow_record_fields at 1. rewrite Hr. apply lookup_put_fields; [refine (bool_decide_unpack (NoDup _) _); vm_compute; exact I|by left].
Qed.
End events.

(** ** Witnesses *)

#[local] Existing Instance simple_lib.

(** What the samples of [sample_packet] hold. *)
Lemma demo_samples : exists a b c r1 r2,
  sample_values SflowProps.sample_packet = [SV_FlowSample a; SV_CounterSample b; SV_RawSample c] /\
  fsRecords a = [] ++ r1 :: r2 /\ fsSamplingRate a = 512 /\
  carries r1 (FV_SampledHeader {| shProtocol := 1; shFrameLength := 70; shStripped := 4; shOriginalLength := 5; shHeaderData := [1; 2; 3; 4; 5] |}) /\
  Forall extended r2 /\ (exists r, csRecords b = [r]) /\ SourceIdValue (csHeader b) = 42 /\ rsData c = [1; 2; 3; 4].
Proof.
  do 5 eexists. split; [reflexivity|]. split; [reflexivity|]. split; [reflexivity|]. split; [reflexivity|].
  split; [|split; [by eexists|split; reflexivity]].
  constructor; [intros v [= <-]; exact I|]. constructor; [intros v [= <-]; exact I|]. constructor.
Qed.


Definition ethernet_sample : FlowSample :=
  {| fsHeader := SflowProps.unset_source; fsSamplingRate := 512; fsSamplePool := 0; fsDrops := 0; fsInput := 1; fsOutput := 2;
     fsFlowRecordsCount := 1;
     fsRecords := [{| rHeader := {| DataFormat := FLOW_TYPE_ETH; rhLength := 20 |};
       rData := Some (Val (FV_SampledEthernet {| seLength := 64; seSrcMac := [1; 2; 3; 4; 5; 6]; seDstMac := [6; 5; 4; 3; 2; 1]; seEthType := 0x0800 |})) |}] |}.

Definition ipv4_sample : ExpandedFlowSample :=
  {| esHeader := SflowProps.unset_source; esSamplingRate := 512; esSamplePool := 0; esDrops := 0; InputIfFormat := 0; InputIfValue := 1;
     OutputIfFormat := 0; OutputIfValue := 2; esFlowRecordsCount := 1;
     esRecords := [{| rHeader := {| DataFormat := FLOW_TYPE_IPV4; rhLength := 32 |};
       rData := Some (Val (FV_SampledIPv4 {| v4Base := {| ipLength := 1500; ipProtocol := 6; ipSrcIP := [10; 0; 0; 1]; ipDstIP := [10; 0; 0; 2];
         ipSrcPort := 443; ipDstPort := 55555; ipTcpFlags := 16 |}; v4Tos := 0 |})) |}] |}.

Definition ipv4_flow : FlowSample :=
  {| fsHeader := SflowProps.unset_source; fsSamplingRate := 512; fsSamplePool := 0; fsDrops := 0; fsInput := 1; fsOutput := 2;
     fsFlowRecordsCount := 1; fsRecords := esRecords ipv4_sample |}.

Lemma reflow_sflow_lost_witness :
  field_of (eventFromSFlowSample zero_event SflowProps.sample_packet ethernet_sample) "bytes" = None /\
  field_of (eventFromExpandedSFlowSample zero_event SflowProps.sample_packet ipv4_sample) "bytes" = None /\
  field_of (eventFromSFlowSample zero_event SflowProps.sample_packet ipv4_flow) "src_addr" = Some (A_string (go_string [10; 0; 0; 1])).
Proof.
  assert (Hk : "bytes"%string ∉ sample_keys) by (refine (bool_decide_unpack _ _); vm_compute; exact I).
  splits.
  - apply (reflow_sflow_lost zero_event SflowProps.sample_packet ethernet_sample ipv4_sample "bytes" Hk).
    constructor; [|constructor]. eexists. split; reflexivity.
  - apply (reflow_sflow_lost zero_event SflowProps.sample_packet ethernet_sample ipv4_sample "bytes" Hk).
    constructor; [|constructor]. eexists. split; reflexivity.
  - refine (proj2 (proj2 (reflow_sflow_lost zero_event SflowProps.sample_packet ipv4_flow ipv4_sample "bytes" Hk)) [] _ _ eq_refl eq_refl).
Defined.
