(* ===== verification/ReflowPacket.v ===== *)
(** * pkg/reflow/packet: from packet bytes to a packet model

    The parsers of [normalize.go].  A parser is a computation on the [packetView] that Go
    passes by pointer; the offset and the EtherType of the loop are passed on explicitly. *)
From S2P Require Import Prelude Text DecodersUtils ProtoReflect ReflowEvent ReflowDecode.

(** ** The view *)

Record packetTuple : Type := {
  tSrc : addr; tDst : addr; tProto : Z; tSrcPort : Z; tDstPort : Z; TCPFlags : Z
}.

Record packetView : Type := {
  vLayers : list string; vSrcMAC : string; vDstMAC : string; vEtherType : Z; VLANIDs : list Z; MPLSLabels : list Z;
  Tuples : list packetTuple; Model : option PacketModel
}.

Definition empty_model : PacketModel := {| pmLayers := []; pmFeatures := ∅ |}.
Definition zero_view : packetView :=
  {| vLayers := []; vSrcMAC := ""; vDstMAC := ""; vEtherType := 0; VLANIDs := []; MPLSLabels := []; Tuples := [];
     Model := None |}.

Definition set_model (m : PacketModel) (v : packetView) : packetView :=
  {| vLayers := vLayers v; vSrcMAC := vSrcMAC v; vDstMAC := vDstMAC v; vEtherType := vEtherType v; VLANIDs := VLANIDs v;
     MPLSLabels := MPLSLabels v; Tuples := Tuples v; Model := Some m |}.
Definition set_layers (l : list string) (v : packetView) : packetView :=
  {| vLayers := l; vSrcMAC := vSrcMAC v; vDstMAC := vDstMAC v; vEtherType := vEtherType v; VLANIDs := VLANIDs v;
     MPLSLabels := MPLSLabels v; Tuples := Tuples v; Model := Model v |}.
Definition set_macs (src dst : string) (v : packetView) : packetView :=
  {| vLayers := vLayers v; vSrcMAC := src; vDstMAC := dst; vEtherType := vEtherType v; VLANIDs := VLANIDs v;
     MPLSLabels := MPLSLabels v; Tuples := Tuples v; Model := Model v |}.
Definition set_etype (t : Z) (v : packetView) : packetView :=
  {| vLayers := vLayers v; vSrcMAC := vSrcMAC v; vDstMAC := vDstMAC v; vEtherType := t; VLANIDs := VLANIDs v;
     MPLSLabels := MPLSLabels v; Tuples := Tuples v; Model := Model v |}.
Definition add_vlan (x : Z) (v : packetView) : packetView :=
  {| vLayers := vLayers v; vSrcMAC := vSrcMAC v; vDstMAC := vDstMAC v; vEtherType := vEtherType v; VLANIDs := VLANIDs v ++ [x];
     MPLSLabels := MPLSLabels v; Tuples := Tuples v; Model := Model v |}.
Definition add_label (x : Z) (v : packetView) : packetView :=
  {| vLayers := vLayers v; vSrcMAC := vSrcMAC v; vDstMAC := vDstMAC v; vEtherType := vEtherType v; VLANIDs := VLANIDs v;
     MPLSLabels := MPLSLabels v ++ [x]; Tuples := Tuples v; Model := Model v |}.
Definition set_tuples (l : list packetTuple) (v : packetView) : packetView :=
  {| vLayers := vLayers v; vSrcMAC := vSrcMAC v; vDstMAC := vDstMAC v; vEtherType := vEtherType v; VLANIDs := VLANIDs v;
     MPLSLabels := MPLSLabels v; Tuples := l; Model := Model v |}.

(** ** Layers *)

Definition layer (kind : string) (length : Z) (d : layer_data) : LayerSpec :=
  {| lKind := kind; lLength := length; lData := d; lFeatures := ∅ |}.
Definition layer_with (kind : string) (length : Z) (features : list (string * Z)) : LayerSpec :=
  {| lKind := kind; lLength := length; lData := D_none;
     lFeatures := fold_left (fun m kv => <[kv.1 := Feat_Uint64 kv.2]> m) features ∅ |}.

Definition defaultLayerLength (l : LayerSpec) : Z :=
  let kind := String.eqb (lKind l) in
  if kind "ethernet" then 14
  else if kind "dot1q" || kind "mpls" then 4
  else if kind "ipv4" then 20
  else if kind "ipv6" then 40
  else if kind "gre" then
    4 + match lData l with
        | D_GRE g => (if Checksum g then 4 else 0) + (if greKey g then 4 else 0) + (if Sequence g then 4 else 0)
        | _ => 0
        end
  else if existsb kind ["vxlan"; "geneve"; "pppoe"; "udp"; "icmp"; "icmpv6"]%string then 8
  else if kind "tcp" then 20
  else if kind "sctp" then 12
  else if kind "payload" then match lData l with D_Payload p => payloadLength p | _ => 0 end
  else 0.

Definition ensureLayerLength (l : LayerSpec) : LayerSpec :=
  if lLength l =? 0 then {| lKind := lKind l; lLength := defaultLayerLength l; lData := lData l; lFeatures := lFeatures l |} else l.

Definition ensurePacketModelLayerLengths (m : PacketModel) : PacketModel :=
  {| pmLayers := map ensureLayerLength (pmLayers m); pmFeatures := pmFeatures m |}.

Definition append_layer (l : LayerSpec) (v : packetView) : packetView :=
  let l := ensureLayerLength l in
  let m := default empty_model (Model v) in
  set_model {| pmLayers := pmLayers m ++ [l]; pmFeatures := pmFeatures m |} (set_layers (vLayers v ++ [lKind l]) v).

(** ** Parsers *)

Record DecodeOptions : Type := {
  Configured : bool; DecodeBeyondL4 : bool; DecodeGRE : bool; DecodeIPIP : bool; DecodeVXLAN : bool; VXLANPorts : list Z;
  DecodeGeneve : bool; GenevePorts : list Z; DecodeL2TP : bool; L2TPPorts : list Z; DecodeGTPU : bool; GTPUPorts : list Z;
  DecodePPPoE : bool
}.

Definition defaultDecodeOptions : DecodeOptions :=
  {| Configured := true; DecodeBeyondL4 := true; DecodeGRE := true; DecodeIPIP := true; DecodeVXLAN := true; VXLANPorts := [];
     DecodeGeneve := true; GenevePorts := []; DecodeL2TP := true; L2TPPorts := []; DecodeGTPU := true; GTPUPorts := [];
     DecodePPPoE := true |}.
Definition withDefaults (opts : DecodeOptions) : DecodeOptions := if Configured opts then opts else defaultDecodeOptions.

Abbreviation V := (ST packetView).

Definition upd (f : packetView -> packetView) : V unit := fun v => (Ok tt, f v).
Definition appendLayer (l : LayerSpec) : V unit := upd (append_layer l).

(** [if err != nil { h }]. *)
Definition try_ {A B} (m : V A) (k : A -> V B) (h : V B) : V B := fun v =>
  match m v with
  | (Ok a, v') => k a v'
  | (Err _, v') => h v'
  | (Panic w, v') => (Panic w, v')
  | (Hang, v') => (Hang, v')
  end.

Section pure.
Context {S : Type}.

(** [data[offset:]], [data[i:j]] as a big-endian number. *)
Definition slice_from (data : bytes) (offset : Z) : ST S bytes := slice data offset (len data).
Definition number_at (data : bytes) (i j : Z) : ST S Z := let* b := slice data i j in ret (be_get b).

Definition truncated (what : string) {A} : ST S A := fail (Errorf what []).

(** [if len(data) < n { return error }]. *)
Definition require {A} (data : bytes) (n : Z) (what : string) (k : ST S A) : ST S A :=
  if len data <? n then truncated what else k.
End pure.

Definition formatMAC (data : bytes) : string := if len data =? 6 then HardwareAddr_String data else "".

(** The loop over the VLAN tags. *)
Fixpoint vlan_loop (fuel : nat) (data : bytes) (offset etherType : Z) : V (Z * Z) :=
  if (etherType =? 0x8100) || (etherType =? 0x88a8) then
    match fuel with
    | O => fun v => (Hang, v)
    | Datatypes.S fuel' =>
        require data (offset + 4) "truncated vlan header" (
          let* tci := number_at data offset (offset + 2) in
          upd (add_vlan (Z.land tci 0x0fff)) ;;;
          appendLayer (layer "dot1q" 0 (D_VLAN {| vlanID := Z.land tci 0x0fff; PCP := Z.land (Z.shiftr tci 13) 7;
            DEI := Z.land (Z.shiftr tci 12) 1 =? 1; TPID := etherType |})) ;;;
          let* next := number_at data (offset + 2) (offset + 4) in
          vlan_loop fuel' data (offset + 4) next)
    end
  else ret (offset, etherType).

Definition parseEthernet (data : bytes) (captureMAC : bool) : V (Z * Z) :=
  require data 14 "truncated ethernet header" (
    let* dst := slice data 0 6 in
    let* src := slice data 6 12 in
    let '(srcMAC, dstMAC) := if captureMAC then (formatMAC src, formatMAC dst) else ("", "")%string in
    (if captureMAC then upd (set_macs srcMAC dstMAC) else ret tt) ;;;
    let* etherType := number_at data 12 14 in
    appendLayer (layer "ethernet" 0 (D_Ethernet {| ethSrcMAC := srcMAC; ethDstMAC := dstMAC; ethEtherType := etherType |})) ;;;
    let* (offset, etherType) := vlan_loop (length data) data 14 etherType in
    upd (fun v => if vEtherType v =? 0 then set_etype etherType v else v) ;;;
    ret (offset, etherType)).

Definition shouldParseEthernetPayload (etherType : Z) : bool := etherType =? 0x6558.
Definition canContinueEtherType (etherType : Z) : bool := existsb (Z.eqb etherType) [0x0800; 0x86dd; 0x8847; 0x8848; 0x8864].

Definition ipInIPInnerEtherType (protocol : Z) (opts : DecodeOptions) : option Z :=
  if negb (DecodeBeyondL4 opts) || negb (DecodeIPIP opts) then None
  else if protocol =? 4 then Some 0x0800 else if protocol =? 41 then Some 0x86dd else None.

Section tuples.
Context {S : Type}.

Definition from_slice (b : bytes) (what : string) : ST S addr :=
  match AddrFromSlice b with Some a => ret a | None => truncated what end.

(** The ports and TCP flags behind the network header, as far as the data goes. *)
Definition transport_tuple (data : bytes) (offset : Z) (src dst : addr) (proto : Z) : ST S packetTuple :=
  let* (sport, dport) :=
    (if (offset + 4 <=? len data) && ((proto =? 6) || (proto =? 17)) then
       let* a := number_at data offset (offset + 2) in let* b := number_at data (offset + 2) (offset + 4) in ret (a, b)
     else ret (0, 0)) in
  let* flags := (if (offset + 14 <=? len data) && (proto =? 6) then index data (offset + 13) else ret 0) in
  ret {| tSrc := src; tDst := dst; tProto := proto; tSrcPort := sport; tDstPort := dport; TCPFlags := flags |}.

Definition parseIPv4Tuple (data : bytes) : ST S (Z * packetTuple * Z) :=
  require data 20 "truncated ipv4 header" (
    let* b0 := index data 0 in
    let ihl := Z.land b0 0x0f * 4 in
    if (ihl <? 20) || (len data <? ihl) then truncated "invalid ipv4 header length"
    else
      let* s := slice data 12 16 in let* src := from_slice s "invalid ipv4 source address" in
      let* d := slice data 16 20 in let* dst := from_slice d "invalid ipv4 destination address" in
      let* proto := index data 9 in
      let* tuple := transport_tuple data ihl src dst proto in
      ret (ihl, tuple, tProto tuple)).

Definition isIPv6ExtensionHeader (nextHeader : Z) : bool := existsb (Z.eqb nextHeader) [0; 43; 44; 50; 51; 60; 135; 139; 140].

(** The loop over the extension headers: the next header, its offset and the layers. *)
Fixpoint extension_loop (fuel : nat) (data : bytes) (offset nextHeader : Z) (layers : list LayerSpec)
    : ST S (Z * Z * list LayerSpec) :=
  if isIPv6ExtensionHeader nextHeader then
    match fuel with
    | O => fun s => (Hang, s)
    | Datatypes.S fuel' =>
        require data (offset + 2) "truncated ipv6 extension header" (
          if nextHeader =? 44 then
            require data (offset + 8) "truncated ipv6 fragment header" (
              let* next := index data offset in
              extension_loop fuel' data (offset + 8) next (layers ++ [layer_with "ipv6_fragment" 8 [("next_header", next)]%string]))
          else if nextHeader =? 51 then
            let* n := index data (offset + 1) in
            let hdrLen := (n + 2) * 4 in
            require data (offset + hdrLen) "truncated ipv6 authentication header" (
              let* next := index data offset in
              extension_loop fuel' data (offset + hdrLen) next
                (layers ++ [layer_with "ipv6_authentication" hdrLen [("next_header", next)]%string]))
          else
            let* n := index data (offset + 1) in
            let hdrLen := (n + 1) * 8 in
            require data (offset + hdrLen) "truncated ipv6 extension header" (
              let* next := index data offset in
              let* l := (if nextHeader =? 43 then
                           let* kind := index data (offset + 2) in
                           ret (layer_with "ipv6_routing" hdrLen [("next_header", next); ("routing_type", kind)]%string)
                         else ret (layer_with "ipv6_extension" hdrLen [("header", nextHeader); ("next_header", next)]%string)) in
              extension_loop fuel' data (offset + hdrLen) next (layers ++ [l])))
    end
  else ret (nextHeader, offset, layers).

Definition parseIPv6Tuple (data : bytes) : ST S (Z * packetTuple * Z * list LayerSpec) :=
  require data 40 "truncated ipv6 header" (
    let* s := slice data 8 24 in let* src := from_slice s "invalid ipv6 source address" in
    let* d := slice data 24 40 in let* dst := from_slice d "invalid ipv6 destination address" in
    let* nextHeader := index data 6 in
    let* (next, offset, layers) := extension_loop (length data) data 40 nextHeader [] in
    let* tuple := transport_tuple data offset src dst next in
    ret (offset, tuple, tProto tuple, layers)).
End tuples.

(** ** Tunnels *)

Definition set_bit (flags b : Z) : bool := negb (Z.land flags b =? 0).

Definition parseGRE (data : bytes) : V (Z * Z) :=
  require data 4 "truncated gre header" (
    let* flags := number_at data 0 2 in
    let* proto := number_at data 2 4 in
    let offset := 4 + (if set_bit flags 0x8000 then 4 else 0) + (if set_bit flags 0x2000 then 4 else 0)
                    + (if set_bit flags 0x1000 then 4 else 0) in
    require data offset "truncated gre optional fields" (
      appendLayer (layer "gre" offset (D_GRE {| greProtocol := proto; Checksum := set_bit flags 0x8000;
        greKey := set_bit flags 0x2000; Sequence := set_bit flags 0x1000 |})) ;;;
      ret (offset, proto))).

Definition portMatches (tuple : packetTuple) (ports : list Z) (defaultPort : Z) : bool :=
  let matches port := (tDstPort tuple =? port) || (tSrcPort tuple =? port) in
  match ports with
  | [] => matches defaultPort
  | _ => existsb (fun port => negb (port =? 0) && matches port) ports
  end.

Definition parseL2TP (data : bytes) : V (Z * Z) :=
  require data 14 "truncated l2tp header" (
    let* flags := number_at data 8 10 in
    let version := Z.land flags 0x000f in
    if negb (version =? 2) then truncated "unsupported l2tp version"
    else
      let offset := 10 in
      let* offset := (if set_bit flags 0x4000 then require data (offset + 2) "truncated l2tp length" (ret (offset + 2)) else ret offset) in
      require data (offset + 4) "truncated l2tp session" (
        let* tunnelID := number_at data offset (offset + 2) in
        let* sessionID := number_at data (offset + 2) (offset + 4) in
        let offset := offset + 4 in
        let* offset := (if set_bit flags 0x0800 then require data (offset + 4) "truncated l2tp sequence" (ret (offset + 4)) else ret offset) in
        let* offset := (if set_bit flags 0x0200 then
                          require data (offset + 2) "truncated l2tp offset size" (
                            let* offsetSize := number_at data offset (offset + 2) in ret (offset + 2 + offsetSize))
                        else ret offset) in
        require data (offset + 2) "truncated l2tp payload" (
          let* offset := (if offset + 4 <=? len data then
                            let* a := index data offset in let* b := index data (offset + 1) in
                            ret (if (a =? 0xff) && (b =? 0x03) then offset + 2 else offset)
                          else ret offset) in
          let* proto := number_at data offset (offset + 2) in
          let offset := offset + 2 in
          appendLayer (layer_with "l2tp" (to_uint 32 (offset - 8))
            [("tunnel_id", tunnelID); ("session_id", sessionID); ("version", version)]%string) ;;;
          if proto =? 0x0021 then ret (offset, 0x0800)
          else if proto =? 0x0057 then ret (offset, 0x86dd)
          else truncated "unsupported l2tp ppp payload"))).

(** The loop over the extension headers of GTP-U. *)
Fixpoint gtpu_loop (fuel : nat) (data : bytes) (offset nextExt : Z) : V Z :=
  if nextExt =? 0 then ret offset
  else
    match fuel with
    | O => fun v => (Hang, v)
    | Datatypes.S fuel' =>
        require data (offset + 2) "truncated gtpu extension" (
          let* n := index data (offset + 1) in
          let extLen := n * 4 in
          if (extLen =? 0) || (len data <? offset + 2 + extLen) then truncated "truncated gtpu extension payload"
          else let* next := index data (offset + 1 + extLen) in gtpu_loop fuel' data (offset + 2 + extLen) next)
    end.

(** The IP version that the first byte of a payload shows. *)
Definition ip_version (data : bytes) (offset : Z) (what : string) : V (Z * Z) :=
  let* b := index data offset in
  let v := Z.shiftr b 4 in
  if v =? 4 then ret (offset, 0x0800) else if v =? 6 then ret (offset, 0x86dd) else truncated what.

Definition parseGTPU (data : bytes) : V (Z * Z) :=
  require data 16 "truncated gtpu header" (
    let* flags := index data 8 in
    let* messageType := index data 9 in
    if negb (Z.shiftr flags 5 =? 1) || negb (messageType =? 0xff) then truncated "unsupported gtpu message"
    else
      let* teid := number_at data 12 16 in
      let offset := 16 in
      let* offset := (if set_bit flags 0x07 then
                        require data (offset + 4) "truncated gtpu optional fields" (
                          let* nextExt := index data (offset + 3) in gtpu_loop (length data) data (offset + 4) nextExt)
                      else ret offset) in
      if len data <=? offset then truncated "missing gtpu payload"
      else
        appendLayer (layer_with "gtpu" (to_uint 32 (offset - 8)) [("teid", teid); ("message_type", messageType)]%string) ;;;
        ip_version data offset "unsupported gtpu payload").

Definition parseUDPTunnel (data : bytes) (tuple : packetTuple) (opts : DecodeOptions) : V (Z * Z) :=
  require data 8 "truncated udp header" (
    if DecodeVXLAN opts && portMatches tuple (VXLANPorts opts) 4789 then
      require data 16 "truncated vxlan header" (
        let* vni := number_at data 12 15 in
        appendLayer (layer "vxlan" 8 (D_VXLAN {| vxlanVNI := vni |})) ;;;
        ret (16, 0x6558))
    else if DecodeGeneve opts && portMatches tuple (GenevePorts opts) 6081 then
      require data 16 "truncated geneve header" (
        let* b := index data 8 in
        let optLen := Z.land b 0x3f * 4 in
        let* proto := number_at data 10 12 in
        let offset := 8 + 8 + optLen in
        require data offset "truncated geneve options" (
          let* vni := number_at data 12 15 in
          appendLayer (layer "geneve" (8 + optLen) (D_Geneve {| geneveVNI := vni; geneveProtocol := proto |})) ;;;
          ret (offset, proto)))
    else if DecodeL2TP opts && portMatches tuple (L2TPPorts opts) 1701 then parseL2TP data
    else if DecodeGTPU opts && portMatches tuple (GTPUPorts opts) 2152 then parseGTPU data
    else truncated "not a supported udp tunnel").

(** The loop over the label stack: the offset behind it. *)
Fixpoint mpls_loop (fuel : nat) (data : bytes) (offset : Z) : V Z :=
  match fuel with
  | O => fun v => (Hang, v)
  | Datatypes.S fuel' =>
      require data (offset + 4) "truncated mpls label stack" (
        let* label := number_at data offset (offset + 4) in
        let labelValue := Z.shiftr label 12 in
        upd (add_label labelValue) ;;;
        appendLayer (layer "mpls" 0 (D_MPLS {| Label := labelValue; TC := Z.land (Z.shiftr label 9) 0x7;
          BOS := Z.land (Z.shiftr label 8) 1 =? 1; labelTTL := Z.land label 0xff |})) ;;;
        if set_bit label 0x100 then ret (offset + 4) else mpls_loop fuel' data (offset + 4))
  end.

Definition parseMPLS (data : bytes) : V (Z * Z) :=
  require data 4 "truncated mpls header" (
    let* offset := mpls_loop (length data) data 0 in
    if len data <=? offset then truncated "missing mpls payload" else ip_version data offset "unsupported mpls payload").

Definition parsePPPoE (data : bytes) : V (Z * Z) :=
  require data 8 "truncated pppoe session header" (
    let* proto := number_at data 6 8 in
    let* session := number_at data 2 4 in
    appendLayer (layer "pppoe" 0 (D_PPPoE {| SessionID := session; pppProtocol := proto |})) ;;;
    if proto =? 0x0021 then ret (8, 0x0800)
    else if proto =? 0x0057 then ret (8, 0x86dd)
    else if (proto =? 0x0281) || (proto =? 0x0283) then ret (8, 0x8847)
    else truncated "unsupported ppp payload").

(** ** Transport *)

Definition tcpHeaderLength (data : bytes) : Z :=
  if len data <? 13 then 20 else Z.max 20 (Z.shiftr (default 0 (data !! 12%nat)) 4 * 4).

Definition appendTransportLayer (proto : Z) (data : bytes) : V unit := fun v =>
  let tuple := last (Tuples v) in
  let port p := to_uint 16 p in
  (if proto =? 6 then
     appendLayer (layer "tcp" (tcpHeaderLength data)
       match tuple with
       | Some t => D_TCP {| tcpSrcPort := port (tSrcPort t); tcpDstPort := port (tDstPort t); tcpFlags := to_uint 8 (TCPFlags t);
                            Seq := 0; Ack := 0; Window := 0 |}
       | None => D_none
       end)
   else if proto =? 17 then
     appendLayer (layer "udp" 8
       match tuple with
       | Some t => D_UDP {| udpSrcPort := port (tSrcPort t); udpDstPort := port (tDstPort t) |}
       | None => D_none
       end)
   else if proto =? 132 then
     appendLayer {| lKind := "sctp"; lLength := 12; lData := D_none; lFeatures := {["transport"%string := Feat_String "sctp"]} |}
   else if proto =? 1 then appendLayer (layer "icmp" 8 (D_ICMP {| icmpType := 0; icmpCode := 0 |}))
   else if proto =? 58 then appendLayer (layer "icmpv6" 8 (D_ICMP {| icmpType := 0; icmpCode := 0 |}))
   else ret tt) v.

Definition is_ip (l : LayerSpec) : bool := match lData l with D_IPv4 _ | D_IPv6 _ => true | _ => false end.
Definition packetIPDepth (m : PacketModel) : Z := len (filter (fun l => is_ip l = true) (pmLayers m)).

Definition finalizePacketView (v : packetView) : packetView :=
  match Model v with
  | None => v
  | Some m =>
      let m := ensurePacketModelLayerLengths m in
      let features := <["ip_depth"%string := Feat_Uint64 (packetIPDepth m)]>
                        (<["layer_kinds"%string := Feat_List (map Feat_String (vLayers v))]> (pmFeatures m)) in
      set_model {| pmLayers := pmLayers m;
                   pmFeatures := if 1 <? len (Tuples v)
                                 then <["encap_depth"%string := Feat_Uint64 (len (Tuples v) - 1)]> features else features |} v
  end.

(** ** The loop over the layers

    A turn ends the parse or goes on with the next offset and EtherType. *)
Inductive turn : Type := T_return | T_continue (offset etherType : Z).

Definition return_final : V turn := upd finalizePacketView ;;; ret T_return.

(** The Ethernet frame inside a tunnel. *)
Definition ethernet_payload (data : bytes) (offset : Z) : V turn :=
  let* d := slice_from data offset in
  try_ (parseEthernet d false) (fun '(nextOffset, nextEtherType) => ret (T_continue (offset + nextOffset) nextEtherType)) (ret T_return).

Definition transport_part (data : bytes) (offset nextOffset : Z) (tuple : packetTuple) : V turn :=
  let* d := slice_from data (offset + nextOffset) in
  appendTransportLayer (tProto tuple) d ;;; return_final.

Definition udp_part (data : bytes) (offset nextOffset : Z) (tuple : packetTuple) (opts : DecodeOptions) : V turn :=
  if DecodeBeyondL4 opts && (tProto tuple =? 17) then
    let* d := slice_from data (offset + nextOffset) in
    try_ (parseUDPTunnel d tuple opts)
      (fun '(innerOffset, innerEtherType) =>
         let offset := offset + (nextOffset + innerOffset) in
         if shouldParseEthernetPayload innerEtherType then ethernet_payload data offset
         else if canContinueEtherType innerEtherType then ret (T_continue offset innerEtherType)
         else transport_part data offset nextOffset tuple)
      (transport_part data offset nextOffset tuple)
  else transport_part data offset nextOffset tuple.

(** What follows an IP header, the same for both versions. *)
Definition after_ip (data : bytes) (offset nextOffset : Z) (tuple : packetTuple) (opts : DecodeOptions) : V turn :=
  match ipInIPInnerEtherType (tProto tuple) opts with
  | Some innerEtherType => ret (T_continue (offset + nextOffset) innerEtherType)
  | None =>
      if DecodeGRE opts && (tProto tuple =? 47) then
        let* d := slice_from data (offset + nextOffset) in
        try_ (parseGRE d)
          (fun '(innerOffset, innerProto) =>
             if negb (DecodeBeyondL4 opts) then return_final
             else
               let offset := offset + (nextOffset + innerOffset) in
               if shouldParseEthernetPayload innerProto then ethernet_payload data offset
               else if canContinueEtherType innerProto then ret (T_continue offset innerProto)
               else udp_part data offset nextOffset tuple opts)
          (ret T_return)
      else udp_part data offset nextOffset tuple opts
  end.

Definition add_tuple (t : packetTuple) (v : packetView) : packetView := set_tuples (Tuples v ++ [t]) v.

Definition ipv4_turn (data : bytes) (offset : Z) (opts : DecodeOptions) : V turn :=
  let* d := slice_from data offset in
  let* (nextOffset, tuple, nextProto) := parseIPv4Tuple d in
  let* ttl := index data (offset + 8) in
  let* tos := index data (offset + 1) in
  let* id := number_at data (offset + 4) (offset + 6) in
  let* frag := number_at data (offset + 6) (offset + 8) in
  appendLayer (layer "ipv4" nextOffset (D_IPv4 {| ip4Src := tSrc tuple; ip4Dst := tDst tuple; Protocol := to_uint 8 (tProto tuple);
    ip4TTL := ttl; DSCP := Z.shiftr tos 2; ECN := Z.land tos 0x03; Identification := id; ip4Flags := Z.shiftr frag 13;
    FragmentOffset := Z.land frag 0x1fff |})) ;;;
  upd (add_tuple tuple) ;;;
  after_ip data offset nextOffset tuple opts.

Definition ipv6_turn (data : bytes) (offset : Z) (opts : DecodeOptions) : V turn :=
  let* d := slice_from data offset in
  let* (nextOffset, tuple, nextProto, extensionLayers) := parseIPv6Tuple d in
  let* hop := index data (offset + 7) in
  let* b0 := index data offset in
  let* b1 := index data (offset + 1) in
  let* b2 := index data (offset + 2) in
  let* b3 := index data (offset + 3) in
  appendLayer (layer "ipv6" 40 (D_IPv6 {| ip6Src := tSrc tuple; ip6Dst := tDst tuple; NextHeader := to_uint 8 (tProto tuple);
    HopLimit := hop; TrafficClass := Z.lor (Z.shiftl (Z.land b0 0x0f) 4) (Z.shiftr b1 4);
    FlowLabel := Z.lor (Z.lor (Z.shiftl (Z.land b1 0x0f) 16) (Z.shiftl b2 8)) b3 |})) ;;;
  rangeM extensionLayers appendLayer ;;;
  upd (add_tuple tuple) ;;;
  after_ip data offset nextOffset tuple opts.

(** The two layers that nest without an address. *)
Definition mpls_turn (data : bytes) (offset : Z) (opts : DecodeOptions) : V turn :=
  let* d := slice_from data offset in
  try_ (parseMPLS d)
    (fun '(innerOffset, innerProto) =>
       if negb (DecodeBeyondL4 opts) then return_final else ret (T_continue (offset + innerOffset) innerProto))
    (ret T_return).

Definition pppoe_turn (data : bytes) (offset : Z) (opts : DecodeOptions) : V turn :=
  if negb (DecodePPPoE opts) then return_final
  else
    let* d := slice_from data offset in
    try_ (parsePPPoE d)
      (fun '(innerOffset, innerProto) =>
         if negb (DecodeBeyondL4 opts) then return_final else ret (T_continue (offset + innerOffset) innerProto))
      (ret T_return).

(** [directIP && data[offset]>>4 == version]. *)
Definition direct_version (data : bytes) (offset : Z) (directIP : bool) (version : Z) : V bool :=
  if directIP then let* b := index data offset in ret (Z.shiftr b 4 =? version) else ret false.

(** One turn, with the [directIP] flag that it leaves. *)
Definition packet_turn (data : bytes) (opts : DecodeOptions) (offset etherType : Z) (directIP : bool) : V (turn * bool) :=
  let* direct4 := (if etherType =? 0x0800 then ret true else direct_version data offset directIP 4) in
  if direct4 : bool then let* t := ipv4_turn data offset opts in ret (t, false)
  else
    let* direct6 := (if etherType =? 0x86dd then ret true else direct_version data offset directIP 6) in
    if direct6 : bool then let* t := ipv6_turn data offset opts in ret (t, false)
    else if (etherType =? 0x8847) || (etherType =? 0x8848) then let* t := mpls_turn data offset opts in ret (t, directIP)
    else if etherType =? 0x8864 then let* t := pppoe_turn data offset opts in ret (t, directIP)
    else truncated "unsupported ip version".

Fixpoint packet_loop (fuel : nat) (data : bytes) (opts : DecodeOptions) (offset etherType : Z) (directIP : bool) : V unit :=
  match fuel with
  | O => fun v => (Hang, v)
  | Datatypes.S fuel' =>
      let* (t, directIP) := packet_turn data opts offset etherType directIP in
      match t with
      | T_return => ret tt
      | T_continue offset etherType => packet_loop fuel' data opts offset etherType directIP
      end
  end.

(** The first offset and EtherType, and whether the data starts with an IP header. *)
Definition packet_start (data : bytes) (protocol : Z) : V (Z * Z * bool) :=
  if protocol =? 1 then let* (offset, etherType) := parseEthernet data true in ret (offset, etherType, false)
  else if protocol =? 11 then ret (0, 0x0800, true)
  else if protocol =? 12 then ret (0, 0x86dd, true)
  else if 14 <=? len data then let* (offset, etherType) := parseEthernet data true in ret (offset, etherType, false)
  else
    let* b := index data 0 in
    if (Z.shiftr b 4 =? 4) || (Z.shiftr b 4 =? 6) then ret (0, 0, true) else truncated "truncated packet header".

Definition parse_packet (data : bytes) (protocol : Z) (opts : DecodeOptions) : V unit :=
  if len data =? 0 then truncated "empty packet header"
  else
    let* (offset, etherType, directIP) := packet_start data protocol in
    if len data <=? offset then truncated "truncated packet header"
    else packet_loop (Datatypes.S (length data)) data opts offset etherType directIP.

Definition parsePacketViewWithOptions (data : bytes) (protocol : Z) (opts : DecodeOptions) : res packetView :=
  match parse_packet data protocol opts (set_model empty_model zero_view) with
  | (Ok tt, v) => Ok v
  | (Err e, _) => Err e
  | (Panic w, _) => Panic w
  | (Hang, _) => Hang
  end.
