(* ===== verification/ReflowPacketSafety.v ===== *)
(** * pkg/reflow/packet: the parser ends, and when it panics

    Every parser of ReflowPacket.v is run with a postcondition on its result that does not
    depend on the view; a proposition says when a panic is possible. *)
From S2P Require Import Prelude Text DecodersUtils ProtoReflect ReflowEvent ReflowDecode ReflowPacket.

(** [m] never runs out of fuel, panics only if [P], and its results satisfy [Q]. *)
Definition safely (P : Prop) {S A} (m : ST S A) (Q : A -> Prop) : Prop := forall s,
  match m s with
  | (Ok a, _) => Q a
  | (Err _, _) => True
  | (Panic _, _) => P
  | (Hang, _) => False
  end.

Create HintDb safely.

Section rules.
Context {S : Type} (P : Prop).

Lemma safely_mono {A} (m : ST S A) (Q Q' : A -> Prop) : safely P m Q -> (forall a, Q a -> Q' a) -> safely P m Q'.
Proof. intros Hm HQ s. specialize (Hm s). destruct (m s) as [[] ?]; auto. Qed.

Lemma safely_ret {A} (a : A) (Q : A -> Prop) : Q a -> safely P (@ret S _ a) Q.
Proof. intros H s. done. Qed.

Lemma safely_fail {A} e (Q : A -> Prop) : safely P (@fail S _ e) Q.
Proof. intros s. done. Qed.

Lemma safely_truncated {A} what (Q : A -> Prop) : safely P (@truncated S what A) Q.
Proof. apply safely_fail. Qed.

Lemma safely_bind {A B} (m : ST S A) (k : A -> ST S B) R Q :
  safely P m R -> (forall a, R a -> safely P (k a) Q) -> safely P (bind m k) Q.
Proof.
  intros Hm Hk s. specialize (Hm s). unfold bind. destruct (m s) as [[] s']; try done. by apply Hk.
Qed.

Lemma safely_require {A} data n what (k : ST S A) Q :
  (n <= len data -> safely P k Q) -> safely P (require data n what k) Q.
Proof. intros H. unfold require. destruct (Z.ltb_spec (len data) n); [apply safely_truncated|by apply H]. Qed.

Lemma safely_slice data a b Q :
  is_bytes data -> 0 <= a -> a <= b -> b <= len data ->
  (forall d, is_bytes d -> len d = b - a -> Q d) -> safely P (@slice S data a b) Q.
Proof.
  intros Hd Ha Hb Hl HQ s. unfold slice.
  destruct (Z.ltb_spec a 0); [lia|]. destruct (Z.ltb_spec b a); [lia|]. destruct (Z.ltb_spec (len data) b); [lia|]. cbn.
  apply HQ.
  - unfold is_bytes. by apply Forall_take, Forall_drop.
  - unfold len in *. rewrite length_take, length_drop. lia.
Qed.

(** A slice whose bounds may be wrong, where a panic is allowed. *)
Lemma safely_slice_panic data a b : is_bytes data -> P -> safely P (@slice S data a b) is_bytes.
Proof.
  intros Hd HP s. unfold slice. destruct (_ || _); [done|]. unfold is_bytes in *. by apply Forall_take, Forall_drop.
Qed.

Lemma safely_index data i Q :
  is_bytes data -> 0 <= i < len data -> (forall z, u8 z -> Q z) -> safely P (@index S data i) Q.
Proof.
  intros Hd Hi HQ s. unfold index.
  destruct (Z.ltb_spec i 0); [lia|]. cbn.
  destruct (data !! Z.to_nat i) as [z|] eqn:E.
  - apply HQ. exact (Forall_lookup_1 _ _ _ _ Hd E).
  - apply lookup_ge_None in E. unfold len in *. lia.
Qed.

Lemma safely_number_at data i j Q :
  is_bytes data -> 0 <= i -> i <= j -> j <= len data -> (forall z, 0 <= z < 2 ^ (8 * (j - i)) -> Q z) ->
  safely P (@number_at S data i j) Q.
Proof.
  intros Hd Hi Hj Hl HQ. unfold number_at. eapply safely_bind.
  { apply (safely_slice _ _ _ (fun d => is_bytes d /\ len d = j - i)); auto. }
  intros d [Hb Hlen]. apply safely_ret, HQ. pose proof (be_get_uint d Hb) as H. by rewrite Hlen in H.
Qed.

Lemma safely_if {A} (c : bool) (m1 m2 : ST S A) Q :
  (c = true -> safely P m1 Q) -> (c = false -> safely P m2 Q) -> safely P (if c then m1 else m2) Q.
Proof. destruct c; auto. Qed.

Lemma safely_rangeM {A} (l : list A) (f : A -> ST S unit) :
  (forall a, safely P (f a) (fun _ => True)) -> safely P (rangeM l f) (fun _ => True).
Proof.
  intros Hf. induction l as [|a l IH]; cbn [rangeM]; [by apply safely_ret|]. eapply safely_bind; [apply Hf|]. auto.
Qed.
End rules.

Lemma safely_upd P f : safely P (upd f) (fun _ => True).
Proof. intros s. done. Qed.
Lemma safely_appendLayer P l : safely P (appendLayer l) (fun _ => True).
Proof. apply safely_upd. Qed.

Lemma safely_try_ P {A B} (m : V A) (k : A -> V B) (h : V B) R Q :
  safely P m R -> (forall a, R a -> safely P (k a) Q) -> safely P h Q -> safely P (try_ m k h) Q.
Proof.
  intros Hm Hk Hh s. specialize (Hm s). unfold try_. destruct (m s) as [[] s']; try done; [by apply Hk|apply Hh].
Qed.

(** ** Tactics: one step of the code *)

Ltac width_lia := unfold uint in *; lia.
Ltac safe_step :=
  lazymatch goal with
  | |- safely _ (if _ then _ else _) _ => apply safely_if; intros ?
  | |- safely _ (require _ _ _ _) _ => apply safely_require; intros ?
  | |- safely _ (bind (slice _ _ _) _) _ =>
      eapply safely_bind; [apply safely_slice; [done|width_lia|width_lia|width_lia|let H1 := fresh in let H2 := fresh in intros ? H1 H2; exact (conj H1 H2)]|cbv beta; intros ? [? ?]]
  | |- safely _ (bind (index _ _) _) _ =>
      eapply safely_bind; [apply safely_index; [done|width_lia|let H := fresh in intros ? H; exact H]|cbv beta; intros ? ?]
  | |- safely _ (bind (number_at _ _ _) _) _ =>
      eapply safely_bind; [apply safely_number_at; [done|width_lia|width_lia|width_lia|let H := fresh in intros ? H; exact H]|cbv beta; intros ? ?]
  | |- safely _ (bind (appendLayer _) _) _ => eapply safely_bind; [apply safely_appendLayer|intros ? _]
  | |- safely _ (bind (upd _) _) _ => eapply safely_bind; [apply safely_upd|intros ? _]
  | |- safely _ (truncated _) _ => apply safely_truncated
  | |- safely _ (fail _) _ => apply safely_fail
  | |- safely _ (ret _) _ => apply safely_ret
  end.
Ltac safe_steps := repeat (safe_step; cbv beta iota zeta).

(** ** The parsers *)

Section parsers.
#[local] Set Default Proof Using "Type*".
Context (P : Prop) (data : bytes) (Hd : is_bytes data).
Local Definition fuel_for (fuel : nat) (offset : Z) : Prop := 0 <= offset <= len data /\ len data - offset < Z.of_nat fuel.

Lemma safely_vlan_loop fuel offset t :
  fuel_for fuel offset -> safely P (vlan_loop fuel data offset t) (fun '(n, _) => offset <= n <= len data).
Proof.
  unfold fuel_for. revert offset t. induction fuel as [|fuel IH]; intros offset t Hf; cbn [vlan_loop]; safe_steps; try lia.
  eapply safely_mono; [apply IH; lia|]. intros [n ?] ?. lia.
Qed.

Lemma safely_parseEthernet capture : safely P (parseEthernet data capture) (fun '(n, _) => 14 <= n <= len data).
Proof.
  unfold parseEthernet. safe_steps.
  destruct (if capture then _ else _) as [srcMAC dstMAC].
  eapply safely_bind; [destruct capture; [apply safely_upd|by apply safely_ret]|intros ? _]. safe_steps.
  eapply safely_bind; [apply safely_vlan_loop; unfold fuel_for, len in *; lia|]. intros [n t] ?. safe_steps. lia.
Qed.

Lemma safely_from_slice {S} b what : safely P (@from_slice S b what) (fun _ => True).
Proof. unfold from_slice. destruct (AddrFromSlice b); [by apply safely_ret|apply safely_truncated]. Qed.

Lemma safely_transport_tuple {S} offset src dst proto :
  0 <= offset -> u8 proto -> safely P (@transport_tuple S data offset src dst proto) (fun t => u8 (tProto t)).
Proof.
  intros Ho Hp. unfold transport_tuple.
  eapply (safely_bind _ _ _ (fun _ => True)).
  { apply safely_if; intros E; safe_steps; try done. }
  intros [sp dp] _. eapply (safely_bind _ _ _ (fun _ => True)).
  { apply safely_if; intros E; [apply safely_index; [done|lia|done]|by apply safely_ret]. }
  intros flags _. by apply safely_ret.
Qed.

Lemma safely_parseIPv4Tuple {S} : safely P (@parseIPv4Tuple S data) (fun '(n, t, _) => 20 <= n <= len data /\ u8 (tProto t)).
Proof.
  unfold parseIPv4Tuple. safe_steps.
  eapply safely_bind; [apply safely_from_slice|intros src _]. safe_steps.
  eapply safely_bind; [apply safely_from_slice|intros dst _]. safe_steps.
  eapply safely_bind; [apply safely_transport_tuple; [lia|done]|]. intros t Ht. safe_steps. split; [lia|done].
Qed.

Lemma safely_extension_loop {S} fuel offset next layers :
  fuel_for fuel offset -> u8 next ->
  safely P (@extension_loop S fuel data offset next layers) (fun '(n, o, _) => u8 n /\ offset <= o <= len data).
Proof.
  unfold fuel_for. revert offset next layers. induction fuel as [|fuel IH]; intros offset next layers Hf Hn; cbn [extension_loop];
    safe_steps; try (split; [done|lia]); try lia.
  all: unfold uint in *.
  3: eapply (safely_bind _ _ _ (fun _ => True)); [safe_steps; done|]; intros l _.
  all: eapply safely_mono; [apply IH; unfold uint; lia|]; intros [[n o] ?] [? ?]; split; [done|lia].
Qed.

Lemma safely_parseIPv6Tuple {S} :
  safely P (@parseIPv6Tuple S data) (fun '(n, t, _, _) => 40 <= n <= len data /\ u8 (tProto t)).
Proof.
  unfold parseIPv6Tuple. safe_steps.
  eapply safely_bind; [apply safely_from_slice|intros src _]. safe_steps.
  eapply safely_bind; [apply safely_from_slice|intros dst _]. safe_steps.
  eapply safely_bind; [apply safely_extension_loop; [unfold fuel_for, len in *; lia|done]|].
  intros [[n o] ls] [Hn Ho].
  eapply safely_bind; [apply safely_transport_tuple; [lia|done]|]. intros t Ht. safe_steps. split; [lia|done].
Qed.

Lemma safely_parseGRE : safely P (parseGRE data) (fun '(n, _) => 4 <= n <= len data).
Proof.
  unfold parseGRE. safe_steps.
  assert (4 <= 4 + (if set_bit a 32768 then 4 else 0) + (if set_bit a 8192 then 4 else 0) + (if set_bit a 4096 then 4 else 0))
    by (repeat case_match; lia). lia.
Qed.

(** What a tunnel gives: an offset, and a type that the loop goes on with. *)
Definition inner_known (t : Z) : bool := shouldParseEthernetPayload t || canContinueEtherType t.

Lemma safely_ip_version offset what :
  0 <= offset < len data -> safely P (ip_version data offset what) (fun '(n, t) => n = offset /\ inner_known t = true).
Proof. intros Ho. unfold ip_version. safe_steps; done. Qed.

Lemma safely_parseL2TP : safely P (parseL2TP data) (fun '(n, t) => 8 <= n <= len data /\ inner_known t = true).
Proof.
  unfold parseL2TP. safe_steps.
  eapply (safely_bind _ _ _ (fun o => 10 <= o)); [safe_steps; lia|intros o Ho]. safe_steps.
  eapply (safely_bind _ _ _ (fun o' => o + 4 <= o')); [safe_steps; lia|intros o' Ho']. safe_steps.
  eapply (safely_bind _ _ _ (fun o'' => o' <= o'')); [safe_steps; lia|intros o'' Ho'']. safe_steps.
  eapply (safely_bind _ _ _ (fun p => o'' <= p /\ p + 2 <= len data)); [safe_steps; repeat case_match; lia|intros p Hp]. safe_steps; split; done || lia.
Qed.

Lemma safely_gtpu_loop fuel offset next :
  fuel_for fuel offset -> u8 next -> safely P (gtpu_loop fuel data offset next) (fun o => offset <= o).
Proof.
  unfold fuel_for. revert offset next. induction fuel as [|fuel IH]; intros offset next Hf Hn; cbn [gtpu_loop]; safe_steps; try lia.
  unfold uint in *. eapply safely_mono; [apply IH; unfold uint; lia|]. intros o ?; cbn in *. lia.
Qed.

Lemma safely_parseGTPU : safely P (parseGTPU data) (fun '(n, t) => 8 <= n <= len data /\ inner_known t = true).
Proof.
  unfold parseGTPU. safe_steps.
  eapply (safely_bind _ _ _ (fun o => 16 <= o)).
  { safe_steps; [|lia]. eapply safely_mono; [apply safely_gtpu_loop; [unfold fuel_for, len in *; lia|done]|]. intros; cbn in *; lia. }
  intros o Ho. safe_steps. eapply safely_mono; [apply safely_ip_version; lia|]. intros [n t] [-> ?]. split; [lia|done].
Qed.

Lemma safely_parseUDPTunnel tuple opts :
  safely P (parseUDPTunnel data tuple opts)
    (fun '(n, t) => 8 <= n <= len data /\ (inner_known t = true \/ DecodeGeneve opts = true)).
Proof.
  unfold parseUDPTunnel. safe_steps.
  - split; [lia|by left].
  - assert (0 <= Z.land a 63) by (apply Z.land_nonneg; lia).
    split; [lia|right]. by apply andb_true_iff in H1 as [? _].
  - eapply safely_mono; [apply safely_parseL2TP|]. intros [n t] [? ?]. auto.
  - eapply safely_mono; [apply safely_parseGTPU|]. intros [n t] [? ?]. auto.
Qed.

Lemma safely_mpls_loop fuel offset :
  0 <= offset <= len data -> len data - offset < Z.of_nat fuel * 4 -> safely P (mpls_loop fuel data offset) (fun o => offset + 4 <= o).
Proof.
  revert offset. induction fuel as [|fuel IH]; intros offset Ho Hf; cbn [mpls_loop]; [lia|]. safe_steps; [lia|].
  eapply safely_mono; [apply IH; lia|]. cbn. intros; lia.
Qed.

Lemma safely_parseMPLS : safely P (parseMPLS data) (fun '(n, _) => 4 <= n <= len data).
Proof.
  unfold parseMPLS. safe_steps.
  eapply safely_bind; [apply safely_mpls_loop; unfold len in *; lia|]. cbn. intros o Ho. safe_steps.
  eapply safely_mono; [apply safely_ip_version; lia|]. intros [n t] [-> ?]. lia.
Qed.

Lemma safely_parsePPPoE : safely P (parsePPPoE data) (fun '(n, _) => n = 8 /\ 8 <= len data).
Proof. unfold parsePPPoE. safe_steps; split; done || lia. Qed.
End parsers.

(** ** The turns

    A tunnel may leave the loop with a type that it does not go on with; then the transport
    header is cut behind the payload of the tunnel. *)

Definition tunnels_on (opts : DecodeOptions) : Prop :=
  DecodeBeyondL4 opts = true /\ (DecodeGRE opts = true \/ DecodeGeneve opts = true).

Section turns.
#[local] Set Default Proof Using "Type*".
Context (P : Prop) (data : bytes) (Hd : is_bytes data) (opts : DecodeOptions) (HP : tunnels_on opts -> P).

(** A turn that goes on has moved forward, within the data. *)
Definition advances (offset : Z) (t : turn) : Prop :=
  match t with T_return => True | T_continue o _ => offset < o <= len data end.

Lemma safely_appendTransportLayer proto d : safely P (appendTransportLayer proto d) (fun _ => True).
Proof.
  intros v. unfold appendTransportLayer. repeat (destruct (_ =? _); [apply safely_appendLayer|]). by apply safely_ret.
Qed.

Lemma safely_return_final offset : safely P return_final (advances offset).
Proof. unfold return_final. eapply safely_bind; [apply safely_upd|intros ? _]. by apply safely_ret. Qed.

Lemma safely_slice_from {S} offset :
  0 <= offset <= len data -> safely P (@slice_from S data offset) (fun d => is_bytes d /\ len d = len data - offset).
Proof. intros Ho. unfold slice_from. apply safely_slice; [done|lia..|done]. Qed.

Lemma safely_ethernet_payload offset start :
  start <= offset -> 0 <= offset <= len data -> safely P (ethernet_payload data offset) (advances start).
Proof.
  intros Hs Ho. unfold ethernet_payload. eapply safely_bind; [by apply safely_slice_from|]. intros d [Hdb Hdl].
  eapply safely_try_; [by apply safely_parseEthernet| |by apply safely_ret].
  intros [n t] ?; cbv beta in *. apply safely_ret. cbn. lia.
Qed.

Lemma safely_transport_part offset n t start :
  0 <= offset + n -> (offset + n <= len data \/ P) -> safely P (transport_part data offset n t) (advances start).
Proof.
  intros Hn Ho. unfold transport_part. eapply (safely_bind _ _ _ (fun _ => True)).
  - destruct Ho as [Ho|Hp].
    + eapply safely_mono; [apply safely_slice_from; lia|done].
    + unfold slice_from. eapply safely_mono; [by apply safely_slice_panic|done].
  - intros d _. eapply safely_bind; [apply safely_appendTransportLayer|intros ? _]. apply safely_return_final.
Qed.

Lemma safely_udp_part offset n t start :
  0 <= offset -> 0 <= n -> start <= offset -> (offset + n <= len data \/ P /\ tProto t =? 17 = false) ->
  safely P (udp_part data offset n t opts) (advances start).
Proof.
  intros Ho Hn Hs Hl. unfold udp_part. apply safely_if; intros Hc.
  - apply andb_true_iff in Hc as [Hb H17]. destruct Hl as [Hl|[_ H]]; [|congruence].
    eapply safely_bind; [apply safely_slice_from; lia|]. intros d [Hdb Hdl].
    eapply safely_try_; [by apply safely_parseUDPTunnel| |apply safely_transport_part; [lia|by left]].
    intros [m e] [Hm He]. cbv beta in *. apply safely_if; intros H1; [apply safely_ethernet_payload; lia|].
    apply safely_if; intros H2; [apply safely_ret; cbn; lia|].
    apply safely_transport_part; [lia|right]. apply HP. destruct He as [He|He]; [|by unfold tunnels_on; auto].
    unfold inner_known in He. by rewrite H1, H2 in He.
  - apply safely_transport_part; [lia|]. destruct Hl as [?|[? ?]]; auto.
Qed.

Lemma safely_after_ip offset n t :
  0 <= offset -> 0 < n -> offset + n <= len data -> safely P (after_ip data offset n t opts) (advances offset).
Proof.
  intros Ho Hn Hl. unfold after_ip. destruct (ipInIPInnerEtherType _ _); [apply safely_ret; cbn; lia|].
  apply safely_if; intros Hc; [|apply safely_udp_part; auto; lia].
  apply andb_true_iff in Hc as [Hg H47].
  eapply safely_bind; [apply safely_slice_from; lia|]. intros d [Hdb Hdl].
  eapply safely_try_; [by apply safely_parseGRE| |by apply safely_ret].
  intros [m e] Hm. cbv beta in *. apply safely_if; intros Hb; [apply safely_return_final|].
  apply safely_if; intros H1; [apply safely_ethernet_payload; lia|].
  apply safely_if; intros H2; [apply safely_ret; cbn; lia|].
  apply safely_udp_part; [lia..|right]. split; [|lia].
  apply HP. split; [by destruct (DecodeBeyondL4 opts)|by left].
Qed.

Lemma safely_ipv4_turn offset : 0 <= offset <= len data -> safely P (ipv4_turn data offset opts) (advances offset).
Proof.
  intros Ho. unfold ipv4_turn. eapply safely_bind; [by apply safely_slice_from|]. intros d [Hdb Hdl].
  eapply safely_bind; [by apply safely_parseIPv4Tuple|]. intros [[n t] p] [Hn Ht]. safe_steps. apply safely_after_ip; lia.
Qed.

Lemma safely_ipv6_turn offset : 0 <= offset <= len data -> safely P (ipv6_turn data offset opts) (advances offset).
Proof.
  intros Ho. unfold ipv6_turn. eapply safely_bind; [by apply safely_slice_from|]. intros d [Hdb Hdl].
  eapply safely_bind; [by apply safely_parseIPv6Tuple|]. intros [[[n t] p] ls] [Hn Ht]. safe_steps.
  eapply safely_bind; [apply safely_rangeM, safely_appendLayer|intros ? _]. safe_steps. apply safely_after_ip; lia.
Qed.

Lemma safely_mpls_turn offset : 0 <= offset <= len data -> safely P (mpls_turn data offset opts) (advances offset).
Proof.
  intros Ho. unfold mpls_turn. eapply safely_bind; [by apply safely_slice_from|]. intros d [Hdb Hdl].
  eapply safely_try_; [by apply safely_parseMPLS| |by apply safely_ret].
  intros [m e] Hm; cbv beta in *. apply safely_if; intros H; [apply safely_return_final|apply safely_ret; cbn; lia].
Qed.

Lemma safely_pppoe_turn offset : 0 <= offset <= len data -> safely P (pppoe_turn data offset opts) (advances offset).
Proof.
  intros Ho. unfold pppoe_turn. apply safely_if; intros Hp; [apply safely_return_final|].
  eapply safely_bind; [by apply safely_slice_from|]. intros d [Hdb Hdl].
  eapply safely_try_; [by apply safely_parsePPPoE| |by apply safely_ret].
  intros [m e] Hm; cbv beta in *. apply safely_if; intros H; [apply safely_return_final|apply safely_ret; cbn; lia].
Qed.

(** [directIP] is set only before the first turn, with an IP header in front. *)
Definition direct_ok (offset etherType : Z) (directIP : bool) : Prop :=
  directIP = true -> offset < len data /\ existsb (Z.eqb etherType) [0x8847; 0x8848; 0x8864] = false.

Lemma safely_direct_version offset t directIP v :
  0 <= offset -> direct_ok offset t directIP -> safely P (direct_version data offset directIP v) (fun _ => True).
Proof. intros Ho H. unfold direct_version. apply safely_if; intros E; [|by apply safely_ret]. destruct (H E). safe_steps. done. Qed.

Lemma safely_packet_turn offset t directIP :
  0 <= offset <= len data -> direct_ok offset t directIP ->
  safely P (packet_turn data opts offset t directIP) (fun '(r, direct) => advances offset r /\ direct = false).
Proof.
  intros Ho Hdir. unfold packet_turn.
  assert (Hb : forall (m : V turn) direct, safely P m (advances offset) -> direct = false ->
    safely P (let* r := m in ret (r, direct)) (fun '(r, direct) => advances offset r /\ direct = false)).
  { intros m direct Hm ->. eapply safely_bind; [exact Hm|]. intros r Hr. by apply safely_ret. }
  eapply (safely_bind _ _ _ (fun _ => True)).
  { apply safely_if; intros E; [by apply safely_ret|]. eapply safely_direct_version; [lia|done]. }
  intros [] _; [apply Hb; [by apply safely_ipv4_turn|done]|].
  eapply (safely_bind _ _ _ (fun _ => True)).
  { apply safely_if; intros E; [by apply safely_ret|]. eapply safely_direct_version; [lia|done]. }
  intros [] _; [apply Hb; [by apply safely_ipv6_turn|done]|].
  assert (Hnd : existsb (Z.eqb t) [0x8847; 0x8848; 0x8864] = true -> directIP = false).
  { intros E. destruct directIP; [|done]. destruct (Hdir eq_refl). congruence. }
  cbn [existsb] in Hnd. apply safely_if; intros E1; [apply Hb; [by apply safely_mpls_turn|apply Hnd; lia]|].
  apply safely_if; intros E2; [apply Hb; [by apply safely_pppoe_turn|apply Hnd; lia]|]. apply safely_truncated.
Qed.

Lemma safely_packet_loop fuel offset t directIP :
  0 <= offset <= len data -> len data - offset < Z.of_nat fuel -> direct_ok offset t directIP ->
  safely P (packet_loop fuel data opts offset t directIP) (fun _ => True).
Proof.
  revert offset t directIP. induction fuel as [|fuel IH]; intros offset t directIP Ho Hf Hdir; cbn [packet_loop]; [lia|].
  eapply safely_bind; [by apply safely_packet_turn|]. intros [r direct] [Hr ->]. destruct r as [|o t']; [by apply safely_ret|].
  cbn in Hr. apply IH; [lia..|done].
Qed.

Lemma safely_packet_start protocol :
  0 < len data ->
  safely P (packet_start data protocol)
    (fun '(o, t, direct) => 0 <= o <= len data /\ (direct = true -> existsb (Z.eqb t) [0x8847; 0x8848; 0x8864] = false)).
Proof.
  intros Hl. unfold packet_start.
  assert (He : safely P (let* (o, t) := parseEthernet data true in ret (o, t, false))
    (fun '(o, t, direct) => 0 <= o <= len data /\ (direct = true -> existsb (Z.eqb t) [0x8847; 0x8848; 0x8864] = false))).
  { eapply safely_bind; [by apply safely_parseEthernet|]. intros [o t] ?; cbv beta in *. apply safely_ret. split; [lia|done]. }
  apply safely_if; intros H1; [done|]. apply safely_if; intros H11; [apply safely_ret; split; [lia|done]|].
  apply safely_if; intros H12; [apply safely_ret; split; [lia|done]|]. apply safely_if; intros H14; [done|].
  safe_steps; split; [lia|done].
Qed.

Lemma safely_parse_packet protocol : safely P (parse_packet data protocol opts) (fun _ => True).
Proof.
  unfold parse_packet. apply safely_if; intros H0; [apply safely_truncated|].
  pose proof (len_nonneg data).
  eapply safely_bind; [apply safely_packet_start; lia|]. intros [[o t] direct] [Ho Hdir].
  apply safely_if; intros Hle; [apply safely_truncated|].
  apply safely_packet_loop; [lia|unfold len in *; lia|]. intros E. split; [lia|by apply Hdir].
Qed.
End turns.

(** C15: for every packet, link type and choice of tunnels the parser of the ReFlow
    packet normaliser ends with a view or an error; it never runs past its fuel.  The one
    panic it can have needs decoding beyond layer 4 and GRE or Geneve switched on; with either
    off it has none. *)
Theorem packet_parser_ends (data : bytes) (protocol : Z) (opts : DecodeOptions) :
  is_bytes data ->
  match parsePacketViewWithOptions data protocol opts with
  | Ok _ | Err _ => True
  | Panic _ => DecodeBeyondL4 opts = true /\ (DecodeGRE opts = true \/ DecodeGeneve opts = true)
  | Hang => False
  end.
Proof.
  intros Hd. unfold parsePacketViewWithOptions.
  pose proof (safely_parse_packet (tunnels_on opts) data Hd opts (fun H => H) protocol (set_model empty_model zero_view)) as H.
  by destruct (parse_packet _ _ _ _) as [[[]|e|w|] v].
Qed.

(** A truncated packet, with and without the tunnels. *)
Lemma packet_parser_ends_witness :
  match parsePacketViewWithOptions [0x45; 0; 0; 24; 0; 0] 11 (Build_DecodeOptions true false true true true [] true [] true [] true [] true) with
  | Ok _ | Err _ => True
  | Panic _ => false = true
  | Hang => False
  end.
Proof.
  assert (Hb : is_bytes [0x45; 0; 0; 24; 0; 0]) by by apply is_bytes_by_test.
  pose proof (packet_parser_ends _ 11 (Build_DecodeOptions true false true true true [] true [] true [] true [] true) Hb) as H.
  destruct (parsePacketViewWithOptions _ _ _); [exact H|exact H|exact (proj1 H)|exact H].
Defined.
