(* ===== verification/ReflowPacketEncode.v ===== *)
(** * pkg/reflow/packet: from a packet model to packet bytes

    The encoder of [normalize.go] ([encodePacketModel] and the [prepend] functions) and
    [BuildPseudoHeader], which makes a model from the fields of a flow when it has none. *)
From S2P Require Import Prelude Text DecodersUtils ProtoReflect ReflowEvent ReflowDecode ReflowPacket.

(** ** Pieces *)

(** [copy(out[i:j], src)] into zeros. *)
Definition copy_zeros (n : nat) (src : bytes) : bytes := take n src ++ replicate (n - length src) 0.

Definition AsSlice (a : addr) : bytes := match a with Addr4 b => b | Addr6 b _ => b end.

Definition inferEtherType (explicit : Z) (payload : bytes) : Z :=
  if negb (explicit =? 0) then explicit
  else
    match payload with
    | [] => 0x0800
    | b :: _ => if Z.shiftr b 4 =? 4 then 0x0800 else if Z.shiftr b 4 =? 6 then 0x86dd else 0x6558
    end.

(** The next layer is [None] behind the last one, where Go passes a zero [LayerSpec]. *)
Definition inferLayerEtherType (explicit : Z) (next : option LayerSpec) (payload : bytes) : Z :=
  if negb (explicit =? 0) then explicit
  else
    let kind := String.eqb (match next with Some l => lKind l | None => "" end) in
    if kind "dot1q" then
      match next with
      | Some {| lData := D_VLAN v |} => if TPID v =? 0 then 0x8100 else TPID v
      | _ => 0x8100
      end
    else if kind "mpls" then 0x8847
    else if kind "pppoe" then 0x8864
    else if kind "ipv4" then 0x0800
    else if kind "ipv6" then 0x86dd
    else if kind "arp" then 0x0806
    else inferEtherType 0 payload.

(** ** One function per kind of layer; [None] is a nil pointer *)

Section prepend.
Context `{GoLib}.

Definition parseMACOrZero (raw : string) : bytes :=
  if String.eqb raw "" then replicate 6 0
  else match Sscanf_MAC raw with Some vals => vals | None => replicate 6 0 end.

Definition prependEthernet (l : option EthernetLayer) (payload : bytes) (next : option LayerSpec) : bytes :=
  let l := default {| ethSrcMAC := ""; ethDstMAC := ""; ethEtherType := 0 |} l in
  copy_zeros 6 (parseMACOrZero (ethDstMAC l)) ++ copy_zeros 6 (parseMACOrZero (ethSrcMAC l)) ++
  be_put 2 (to_uint 16 (inferLayerEtherType (ethEtherType l) next payload)) ++ payload.

Definition prependVLAN (l : option VLANLayer) (payload : bytes) (next : option LayerSpec) : bytes :=
  let l := default {| vlanID := 0; PCP := 0; DEI := false; TPID := 0x8100 |} l in
  let tci := Z.lor (Z.land (vlanID l) 0x0fff) (Z.shiftl (Z.land (PCP l) 0x7) 13) in
  be_put 2 (if DEI l then Z.lor tci (2 ^ 12) else tci) ++ be_put 2 (to_uint 16 (inferLayerEtherType 0 next payload)) ++ payload.

Definition prependMPLS (l : option MPLSLabel) (payload : bytes) : bytes :=
  let l := default {| Label := 0; TC := 0; BOS := true; labelTTL := 64 |} l in
  let label := Z.lor (Z.shiftl (Z.land (Label l) 0xfffff) 12) (Z.shiftl (Z.land (TC l) 0x7) 9) in
  let label := if BOS l then Z.lor label (2 ^ 8) else label in
  be_put 4 (Z.lor label (labelTTL l)) ++ payload.

Definition prependPPPoE (l : option PPPoELayer) (payload : bytes) : bytes :=
  let l := default {| SessionID := 0; pppProtocol := 0x0021 |} l in
  [0x11; 0x00] ++ be_put 2 (SessionID l) ++ be_put 2 (to_uint 16 (len payload + 2)) ++ be_put 2 (pppProtocol l) ++ payload.

Definition prependIPv4 (l : option IPv4Layer) (payload : bytes) : res bytes :=
  match l with
  | None => Err (Errorf "missing ipv4 layer" [])
  | Some l =>
      Ok ([0x45; Z.lor (to_uint 8 (Z.shiftl (DSCP l) 2)) (Z.land (ECN l) 0x3)] ++ be_put 2 (to_uint 16 (20 + len payload)) ++
          be_put 2 (Identification l) ++
          be_put 2 (Z.lor (Z.shiftl (Z.land (ip4Flags l) 0x7) 13) (Z.land (FragmentOffset l) 0x1fff)) ++
          [if ip4TTL l =? 0 then 64 else ip4TTL l; Protocol l; 0; 0] ++
          copy_zeros 4 (AsSlice (ip4Src l)) ++ copy_zeros 4 (AsSlice (ip4Dst l)) ++ payload)
  end.

Definition prependIPv6 (l : option IPv6Layer) (payload : bytes) : res bytes :=
  match l with
  | None => Err (Errorf "missing ipv6 layer" [])
  | Some l =>
      Ok ([Z.lor 0x60 (Z.shiftr (TrafficClass l) 4);
           Z.lor (to_uint 8 (Z.shiftl (TrafficClass l) 4)) (Z.land (Z.shiftr (FlowLabel l) 16) 0x0f);
           to_uint 8 (Z.shiftr (FlowLabel l) 8); to_uint 8 (FlowLabel l)] ++
          be_put 2 (to_uint 16 (len payload)) ++ [NextHeader l; if HopLimit l =? 0 then 64 else HopLimit l] ++
          copy_zeros 16 (AsSlice (ip6Src l)) ++ copy_zeros 16 (AsSlice (ip6Dst l)) ++ payload)
  end.

Definition prependGRE (l : option GRELayer) (payload : bytes) : bytes :=
  let l := default {| greProtocol := to_uint 16 (inferEtherType 0 payload); Checksum := false; greKey := false; Sequence := false |} l in
  let flag (b : bool) f := if b then f else 0 in
  be_put 2 (Z.lor (Z.lor (flag (Checksum l) 0x8000) (flag (greKey l) 0x2000)) (flag (Sequence l) 0x1000)) ++
  be_put 2 (greProtocol l) ++
  replicate (Z.to_nat (flag (Checksum l) 4 + flag (greKey l) 4 + flag (Sequence l) 4)) 0 ++ payload.

Definition prependUDP (l : option UDPLayer) (payload : bytes) : bytes :=
  let l := default {| udpSrcPort := 0; udpDstPort := 0 |} l in
  be_put 2 (udpSrcPort l) ++ be_put 2 (udpDstPort l) ++ be_put 2 (to_uint 16 (8 + len payload)) ++ [0; 0] ++ payload.

Definition prependTCP (l : option TCPLayer) (payload : bytes) : bytes :=
  let l := default {| tcpSrcPort := 0; tcpDstPort := 0; tcpFlags := 0x02; Seq := 0; Ack := 0; Window := 65535 |} l in
  be_put 2 (tcpSrcPort l) ++ be_put 2 (tcpDstPort l) ++ be_put 4 (Seq l) ++ be_put 4 (Ack l) ++ [0x50; tcpFlags l] ++
  be_put 2 (if Window l =? 0 then 65535 else Window l) ++ [0; 0; 0; 0] ++ payload.

Definition prependVXLAN (l : option VXLANLayer) (payload : bytes) : bytes :=
  let vni := match l with Some l => vxlanVNI l | None => 0 end in
  [0x08; 0; 0; 0] ++ be_put 3 vni ++ [0] ++ payload.

Definition prependGeneve (l : option GeneveLayer) (payload : bytes) : bytes :=
  let l := default {| geneveVNI := 0; geneveProtocol := to_uint 16 (inferEtherType 0 payload) |} l in
  [0; 0] ++ be_put 2 (geneveProtocol l) ++ be_put 3 (geneveVNI l) ++ [0] ++ payload.

Definition prependICMP (l : option ICMPLayer) (payload : bytes) : bytes :=
  let l := default {| icmpType := 0; icmpCode := 0 |} l in
  [icmpType l; icmpCode l; 0; 0; 0; 0; 0; 0] ++ payload.

Definition prependPayload (l : option PayloadLayer) (payload : bytes) : bytes :=
  match l with
  | None => payload
  | Some l =>
      if (payloadLength l =? 0) || (payloadLength l <=? len payload) then payload
      else replicate (Z.to_nat (payloadLength l - len payload)) (if String.eqb (Pattern l) "repeat" then 0xaa else 0) ++ payload
  end.

Definition prependLayer (l : LayerSpec) (payload : bytes) (next : option LayerSpec) : res bytes :=
  let kind := String.eqb (lKind l) in
  if kind "ethernet" then Ok (prependEthernet (match lData l with D_Ethernet e => Some e | _ => None end) payload next)
  else if kind "dot1q" then Ok (prependVLAN (match lData l with D_VLAN e => Some e | _ => None end) payload next)
  else if kind "mpls" then Ok (prependMPLS (match lData l with D_MPLS e => Some e | _ => None end) payload)
  else if kind "pppoe" then Ok (prependPPPoE (match lData l with D_PPPoE e => Some e | _ => None end) payload)
  else if kind "ipv4" then prependIPv4 (match lData l with D_IPv4 e => Some e | _ => None end) payload
  else if kind "ipv6" then prependIPv6 (match lData l with D_IPv6 e => Some e | _ => None end) payload
  else if kind "gre" then Ok (prependGRE (match lData l with D_GRE e => Some e | _ => None end) payload)
  else if kind "udp" then Ok (prependUDP (match lData l with D_UDP e => Some e | _ => None end) payload)
  else if kind "tcp" then Ok (prependTCP (match lData l with D_TCP e => Some e | _ => None end) payload)
  else if kind "vxlan" then Ok (prependVXLAN (match lData l with D_VXLAN e => Some e | _ => None end) payload)
  else if kind "geneve" then Ok (prependGeneve (match lData l with D_Geneve e => Some e | _ => None end) payload)
  else if kind "icmp" || kind "icmpv6" then Ok (prependICMP (match lData l with D_ICMP e => Some e | _ => None end) payload)
  else if kind "payload" then Ok (prependPayload (match lData l with D_Payload e => Some e | _ => None end) payload)
  else Ok payload.

(** The layers from the last to the first. *)
Fixpoint encode_layers (ls : list LayerSpec) : res bytes :=
  match ls with
  | [] => Ok []
  | l :: ls' => rbind (encode_layers ls') (fun payload => prependLayer l payload (head ls'))
  end.

Definition encodePacketModel (m : PacketModel) : res bytes :=
  match pmLayers m with
  | [] => Err (Errorf "empty packet model" [])
  | ls => encode_layers ls
  end.
End prepend.
