(* ===== verification/ReflowPacketRoundtrip.v ===== *)
(** * pkg/reflow/packet: the parser reads back what the encoder wrote

    The models that the parser can give back are the layer stacks of [stack]: a derivation
    follows the EtherTypes and protocol numbers from layer to layer, through any number of
    tags, labels and tunnels.  By induction on it the parse of the encoding has the same
    layers. *)
From S2P Require Import Prelude Text DecodersUtils ProtoReflect ReflowEvent ReflowDecode ReflowPacket ReflowPacketEncode.

(** ** Reading behind a prefix *)

Section reading.
Context {S : Type}.
Implicit Types s : S.

Lemma bind_Ok {A B} (m : ST S A) (k : A -> ST S B) a s s' : m s = (Ok a, s') -> bind m k s = k a s'.
Proof. intros E. unfold bind. by rewrite E. Qed.

Lemma require_ok {A} data n what (k : ST S A) : n <= len data -> require data n what k = k.
Proof. intros H. unfold require. by destruct (Z.ltb_spec (len data) n); [lia|]. Qed.

Lemma number_at_eq d a b s :
  0 <= a <= b -> b <= len d ->
  number_at d a b s = (Ok (be_get (take (Z.to_nat (b - a)) (drop (Z.to_nat a) d))), s).
Proof. intros Ha Hb. unfold number_at. erewrite bind_Ok by by apply slice_eq. done. Qed.

Lemma drop_len_app {A} (pre b : list A) i : 0 <= i -> drop (Z.to_nat (len pre + i)) (pre ++ b) = drop (Z.to_nat i) b.
Proof.
  intros Hi. unfold len. rewrite Z2Nat.inj_add, Nat2Z.id by lia. by rewrite <- drop_drop, drop_app_length.
Qed.

Lemma slice_from_pre pre b s : slice_from (pre ++ b) (len pre) s = (Ok b, s).
Proof.
  unfold slice_from. rewrite slice_eq by golen. pose proof (drop_len_app pre b 0 ltac:(lia)) as E.
  rewrite Z.add_0_r in E. rewrite E. cbn [drop Z.to_nat]. rewrite len_app.
  replace (Z.to_nat (len pre + len b - len pre)) with (length b) by (unfold len; lia). by rewrite firstn_all.
Qed.

Lemma index_pre pre b i s : 0 <= i -> index (pre ++ b) (len pre + i) s = index b i s.
Proof.
  intros Hi. unfold index. pose proof (len_nonneg pre). destruct (Z.ltb_spec (len pre + i) 0), (Z.ltb_spec i 0); try lia.
  replace (Z.to_nat (len pre + i)) with (length pre + Z.to_nat i)%nat by (unfold len; lia). by rewrite lookup_app_r, Nat.add_sub' by lia.
Qed.

Lemma index_pre0 pre b s : index (pre ++ b) (len pre) s = index b 0 s.
Proof. rewrite <- (index_pre pre b 0) by lia. by rewrite Z.add_0_r. Qed.

Lemma number_at_pre pre b i j s : 0 <= i <= j -> j <= len b -> number_at (pre ++ b) (len pre + i) (len pre + j) s = number_at b i j s.
Proof.
  intros Hi Hj. rewrite !number_at_eq by golen. rewrite drop_len_app by lia. do 4 f_equal. lia.
Qed.

Lemma number_at_pre0 pre b j s : 0 <= j <= len b -> number_at (pre ++ b) (len pre) (len pre + j) s = number_at b 0 j s.
Proof. intros Hj. rewrite <- (number_at_pre pre b 0 j) by lia. by rewrite Z.add_0_r. Qed.

(** A number that was written, at the front and behind a field. *)
Lemma number_at_front n x b s : uint (8 * Z.of_nat n) x -> number_at (be_put n x ++ b) 0 (Z.of_nat n) s = (Ok x, s).
Proof.
  intros Hx. rewrite number_at_eq by (rewrite ?len_app, ?len_be_put; golen). change (drop (Z.to_nat 0) (be_put n x ++ b)) with (be_put n x ++ b). rewrite Z.sub_0_r, Nat2Z.id.
  rewrite take_app_length' by by rewrite length_be_put. by rewrite be_get_put.
Qed.

Lemma number_at_second a n x b i j s :
  len a = i -> j = i + Z.of_nat n -> uint (8 * Z.of_nat n) x -> number_at (a ++ be_put n x ++ b) i j s = (Ok x, s).
Proof.
  intros <- -> Hx. rewrite number_at_pre0 by (rewrite ?len_app, ?len_be_put; golen). by apply number_at_front.
Qed.
End reading.

(** [evaluate]: run a computation on a list whose head is written out. *)
Ltac evaluate :=
  repeat first
    [ rewrite require_ok by golen
    | erewrite bind_Ok by (first [apply slice_eq; golen | apply number_at_eq; golen | apply index_eq; [lia|reflexivity] | reflexivity])
    | progress cbv beta iota zeta ].

(** ** Layers of a view *)

Definition layers_of (v : packetView) : list LayerSpec := match Model v with Some m => pmLayers m | None => [] end.

Lemma layers_append l v : layers_of (append_layer l v) = layers_of v ++ [ensureLayerLength l].
Proof. unfold layers_of, append_layer. by destruct (Model v). Qed.

Lemma layers_finalize v : layers_of (finalizePacketView v) = map ensureLayerLength (layers_of v).
Proof. unfold layers_of, finalizePacketView. destruct (Model v) eqn:E; [done|]. by rewrite E. Qed.

(** ** Masks *)

Lemma land_mask n m x : 0 <= n -> m = Z.ones n -> Z.land x m = x mod 2 ^ n.
Proof. intros Hn ->. by apply Z.land_ones. Qed.

Lemma lor_low hi lo n : 0 <= n -> 0 <= lo < 2 ^ n -> Z.lor (Z.shiftl hi n) lo = hi * 2 ^ n + lo.
Proof. apply lor_shiftl_low. Qed.

Lemma lor_three a b c :
  0 <= b < 256 -> 0 <= c < 256 -> Z.lor (Z.lor (Z.shiftl a 16) (Z.shiftl b 8)) c = a * 65536 + b * 256 + c.
Proof.
  intros Hb Hc. replace (Z.shiftl a 16) with (Z.shiftl (Z.shiftl a 8) 8) by by rewrite Z.shiftl_shiftl by lia.
  rewrite <- Z.shiftl_lor, !lor_low by (lia || (cbn; lia)). lia.
Qed.

Ltac masks :=
  repeat first
    [ rewrite (land_mask 1 1) by (lia || reflexivity) | rewrite (land_mask 2 3) by (lia || reflexivity)
    | rewrite (land_mask 3 7) by (lia || reflexivity) | rewrite (land_mask 4 15) by (lia || reflexivity)
    | rewrite (land_mask 8 255) by (lia || reflexivity) | rewrite (land_mask 12 4095) by (lia || reflexivity)
    | rewrite (land_mask 13 8191) by (lia || reflexivity) | rewrite (land_mask 20 1048575) by (lia || reflexivity)
    | rewrite Z.shiftr_div_pow2 by lia ].

(** Both sides as arithmetic on numbers of a known range. *)
Ltac euclid := unfold to_uint, uint in *; cbn -[Z.mul Z.add Z.div Z.modulo] in *; Z.to_euclidean_division_equations; lia.

(** ** The ports that an IP header shows of its payload *)

Definition carried_tuple (src dst : addr) (proto : Z) (p : bytes) : packetTuple :=
  let ports := (4 <=? len p) && ((proto =? 6) || (proto =? 17)) in
  {| tSrc := src; tDst := dst; tProto := proto;
     tSrcPort := if ports then be_get (take 2 p) else 0; tDstPort := if ports then be_get (take 2 (drop 2 p)) else 0;
     TCPFlags := if (14 <=? len p) && (proto =? 6) then default 0 (p !! 13%nat) else 0 |}.

Lemma transport_tuple_eq {S} h p src dst proto (s : S) :
  transport_tuple (h ++ p) (len h) src dst proto s = (Ok (carried_tuple src dst proto p), s).
Proof.
  unfold transport_tuple, carried_tuple. rewrite len_app.
  replace (len h + 4 <=? len h + len p) with (4 <=? len p) by (destruct (Z.leb_spec 4 (len p)), (Z.leb_spec (len h + 4) (len h + len p)); lia).
  replace (len h + 14 <=? len h + len p) with (14 <=? len p) by (destruct (Z.leb_spec 14 (len p)), (Z.leb_spec (len h + 14) (len h + len p)); lia).
  assert (E2 : forall (a b : Z), 0 <= a -> a <= b -> b <= len p -> number_at (h ++ p) (len h + a) (len h + b) s =
    (Ok (be_get (take (Z.to_nat (b - a)) (drop (Z.to_nat a) p))), s)).
  { intros a b Ha Hb Hl. rewrite number_at_pre by lia. by apply number_at_eq. }
  destruct ((4 <=? len p) && _) eqn:E4.
  - apply andb_true_iff in E4 as [E4 _]. apply Z.leb_le in E4.
    pose proof (E2 0 2 ltac:(lia) ltac:(lia) ltac:(lia)) as Ha. rewrite Z.add_0_r in Ha.
    erewrite bind_Ok; [|erewrite bind_Ok by exact Ha; erewrite bind_Ok by (apply E2; lia); reflexivity]. cbv beta iota.
    destruct ((14 <=? len p) && _) eqn:E14; [|done]. apply andb_true_iff in E14 as [E14 _]. apply Z.leb_le in E14.
    erewrite bind_Ok; [done|]. rewrite index_pre by lia.
    destruct (lookup_lt_is_Some_2 p 13 ltac:(unfold len in *; lia)) as [x Hx]. erewrite index_eq by (done || exact Hx). by rewrite Hx.
  - erewrite bind_Ok by reflexivity. cbv beta iota.
    destruct ((14 <=? len p) && _) eqn:E14; [|done].
    apply andb_true_iff in E14 as [E14 E6]. rewrite E6 in E4. cbn in E4. apply Z.leb_le in E14. lia.
Qed.

(** ** IP headers *)

Definition ip4_ok (l : IPv4Layer) : Prop :=
  (exists s d, ip4Src l = Addr4 s /\ ip4Dst l = Addr4 d /\ length s = 4%nat /\ length d = 4%nat) /\
  u8 (Protocol l) /\ 0 < ip4TTL l < 256 /\ 0 <= DSCP l < 64 /\ 0 <= ECN l < 4 /\ u16 (Identification l) /\
  0 <= ip4Flags l < 8 /\ 0 <= FragmentOffset l < 2 ^ 13.

Definition ip6_ok (l : IPv6Layer) : Prop :=
  (exists s d, ip6Src l = Addr6 s "" /\ ip6Dst l = Addr6 d "" /\ length s = 16%nat /\ length d = 16%nat) /\
  u8 (NextHeader l) /\ isIPv6ExtensionHeader (NextHeader l) = false /\ 0 < HopLimit l < 256 /\ u8 (TrafficClass l) /\
  0 <= FlowLabel l < 2 ^ 20.

Lemma take_app_all {A} n (l k : list A) : length l = n -> take n (l ++ k) = l.
Proof. intros <-. apply take_app_length. Qed.

Lemma parseIPv4Tuple_eq {S} x1 x2 x3 x4 x5 x6 x7 x8 proto x10 x11 s0 s1 s2 s3 d0 d1 d2 d3 p (s : S) :
  parseIPv4Tuple ([0x45; x1; x2; x3; x4; x5; x6; x7; x8; proto; x10; x11; s0; s1; s2; s3; d0; d1; d2; d3] ++ p) s =
  (Ok (20, carried_tuple (Addr4 [s0; s1; s2; s3]) (Addr4 [d0; d1; d2; d3]) proto p, proto), s).
Proof.
  unfold parseIPv4Tuple. evaluate. change (Z.land 69 15 * 4) with 20.
  destruct (Z.ltb_spec (len ([0x45; x1; x2; x3; x4; x5; x6; x7; x8; proto; x10; x11; s0; s1; s2; s3; d0; d1; d2; d3] ++ p)) 20);
    [golen|]. cbn [orb Z.ltb Z.compare Pos.compare Pos.compare_cont]. evaluate.
  change 20 with (len [0x45; x1; x2; x3; x4; x5; x6; x7; x8; proto; x10; x11; s0; s1; s2; s3; d0; d1; d2; d3]) at 1.
  erewrite bind_Ok by apply transport_tuple_eq. done.
Qed.

Lemma from_slice_v6 {S} b what (s : S) : length b = 16%nat -> from_slice b what s = (Ok (Addr6 b ""), s).
Proof. intros Hb. unfold from_slice, AddrFromSlice, len. by rewrite Hb. Qed.

Lemma extension_loop_none {S} fuel data o n ls (s : S) :
  isIPv6ExtensionHeader n = false -> extension_loop fuel data o n ls s = (Ok (n, o, ls), s).
Proof. intros Hn. destruct fuel; cbn [extension_loop]; by rewrite Hn. Qed.

Lemma parseIPv6Tuple_eq {S} x0 x1 x2 x3 x4 x5 next hop src dst p (s : S) :
  length src = 16%nat -> length dst = 16%nat -> isIPv6ExtensionHeader next = false ->
  parseIPv6Tuple ([x0; x1; x2; x3; x4; x5; next; hop] ++ src ++ dst ++ p) s =
  (Ok (40, carried_tuple (Addr6 src "") (Addr6 dst "") next p, next, []), s).
Proof.
  intros Hs Hd Hn. assert (Ls : len src = 16) by (unfold len; lia). assert (Ld : len dst = 16) by (unfold len; lia).
  unfold parseIPv6Tuple. set (h := [x0; x1; x2; x3; x4; x5; next; hop]).
  assert (Hh : len h = 8) by done. rewrite require_ok by golen.
  erewrite bind_Ok by (apply slice_eq; golen). change (drop (Z.to_nat 8) (h ++ src ++ dst ++ p)) with (src ++ dst ++ p).
  rewrite (take_app_all (Z.to_nat (24 - 8))) by done. erewrite bind_Ok by by apply from_slice_v6.
  erewrite bind_Ok by (apply slice_eq; golen).
  replace (h ++ src ++ dst ++ p) with ((h ++ src) ++ dst ++ p) by by rewrite <- app_assoc.
  rewrite (drop_app_length' (h ++ src)) by (rewrite length_app, Hs; done).
  rewrite (take_app_all (Z.to_nat (40 - 24))) by done. erewrite bind_Ok by by apply from_slice_v6.
  erewrite bind_Ok by (apply index_eq; [lia|reflexivity]).
  erewrite bind_Ok by by apply extension_loop_none. cbv beta iota.
  replace ((h ++ src) ++ dst ++ p) with ((h ++ src ++ dst) ++ p) by by rewrite <- !app_assoc.
  replace 40 with (len (h ++ src ++ dst)) at 1 by golen.
  erewrite bind_Ok by apply transport_tuple_eq. done.
Qed.

Section turns.
Context (opts : DecodeOptions).

Lemma ipv4_turn_encoded l p b pre v :
  ip4_ok l -> prependIPv4 (Some l) p = Ok b ->
  exists h, b = h ++ p /\ len h = 20 /\ head h = Some 0x45 /\
  ipv4_turn (pre ++ b) (len pre) opts v =
    after_ip (pre ++ b) (len pre) 20 (carried_tuple (ip4Src l) (ip4Dst l) (Protocol l) p) opts
      (add_tuple (carried_tuple (ip4Src l) (ip4Dst l) (Protocol l) p) (append_layer (layer "ipv4" 20 (D_IPv4 l)) v)).
Proof.
  intros ((s & d & Hs & Hd & Ls & Ld) & Hp & Ht & Hds & He & Hi & Hf & Ho) E. destruct l as [? ? proto ttl dscp ecn id fl frag]. cbn in *. subst.
  destruct s as [|s0 [|s1 [|s2 [|s3 []]]]]; try discriminate Ls. destruct d as [|d0 [|d1 [|d2 [|d3 []]]]]; try discriminate Ld.
  injection E as <-.
  set (tos := Z.lor (to_uint 8 (Z.shiftl dscp 2)) (Z.land ecn 3)).
  set (ff := Z.lor (Z.shiftl (Z.land fl 7) 13) (Z.land frag 8191)).
  destruct (Z.eqb_spec ttl 0) as [->|_]; [lia|]. cbn [copy_zeros take replicate length Nat.sub app AsSlice].
  assert (Htos : tos = dscp * 4 + ecn).
  { unfold tos. masks. rewrite (Z.mod_small ecn) by lia. rewrite to_uint_small by (rewrite Z.shiftl_mul_pow2 by lia; unfold uint; lia).
    rewrite lor_low by lia. lia. }
  assert (Hff : ff = fl * 2 ^ 13 + frag).
  { unfold ff. masks. rewrite (Z.mod_small fl), (Z.mod_small frag) by lia. rewrite lor_low by lia. lia. }
  clearbody tos ff. subst tos ff.
  set (h := [69; dscp * 4 + ecn] ++ be_put 2 (to_uint 16 (20 + len p)) ++ be_put 2 id ++ be_put 2 (fl * 2 ^ 13 + frag) ++ [ttl; proto; 0; 0] ++
    [s0; s1; s2; s3] ++ [d0; d1; d2; d3]).
  exists h. split; [unfold h; by rewrite <- !app_assoc|]. split; [done|]. split; [done|].
  change (ipv4_turn (pre ++ h ++ p) (len pre) opts v =
    after_ip (pre ++ h ++ p) (len pre) 20 (carried_tuple (Addr4 [s0; s1; s2; s3]) (Addr4 [d0; d1; d2; d3]) proto p) opts
      (add_tuple (carried_tuple (Addr4 [s0; s1; s2; s3]) (Addr4 [d0; d1; d2; d3]) proto p) (append_layer (layer "ipv4" 20 (D_IPv4
        {| ip4Src := Addr4 [s0; s1; s2; s3]; ip4Dst := Addr4 [d0; d1; d2; d3]; Protocol := proto; ip4TTL := ttl; DSCP := dscp; ECN := ecn;
           Identification := id; ip4Flags := fl; FragmentOffset := frag |})) v))).
  unfold ipv4_turn. erewrite bind_Ok by apply slice_from_pre.
  erewrite bind_Ok by apply parseIPv4Tuple_eq. cbv beta iota.
  erewrite bind_Ok by (rewrite index_pre by lia; apply index_eq; [lia|reflexivity]).
  erewrite bind_Ok by (rewrite index_pre by lia; apply index_eq; [lia|reflexivity]).
  assert (Hh : len h = 20) by done.
  erewrite bind_Ok by (rewrite number_at_pre by golen; apply number_at_eq; golen).
  erewrite bind_Ok by (rewrite number_at_pre by golen; apply number_at_eq; golen).
  change (take (Z.to_nat (6 - 4)) (drop (Z.to_nat 4) (h ++ p))) with (be_put 2 id).
  change (take (Z.to_nat (8 - 6)) (drop (Z.to_nat 6) (h ++ p))) with (be_put 2 (fl * 2 ^ 13 + frag)).
  rewrite !be_get_put by (done || (unfold uint; cbn; lia)).
  rewrite to_uint_small by done. masks.
  replace ((dscp * 4 + ecn) / 2 ^ 2) with dscp by euclid. replace ((dscp * 4 + ecn) mod 2 ^ 2) with ecn by euclid.
  replace ((fl * 2 ^ 13 + frag) / 2 ^ 13) with fl by euclid. replace ((fl * 2 ^ 13 + frag) mod 2 ^ 13) with frag by euclid.
  done.
Qed.

Lemma ipv6_turn_encoded l p b pre v :
  ip6_ok l -> prependIPv6 (Some l) p = Ok b ->
  exists h, b = h ++ p /\ len h = 40 /\ (exists x, head h = Some x /\ Z.shiftr x 4 = 6) /\
  ipv6_turn (pre ++ b) (len pre) opts v =
    after_ip (pre ++ b) (len pre) 40 (carried_tuple (ip6Src l) (ip6Dst l) (NextHeader l) p) opts
      (add_tuple (carried_tuple (ip6Src l) (ip6Dst l) (NextHeader l) p) (append_layer (layer "ipv6" 40 (D_IPv6 l)) v)).
Proof.
  intros ((s & d & Hs & Hd & Ls & Ld) & Hp & Hext & Ht & Hc & Hf) E. destruct l as [? ? proto hop cls label]. cbn in *. subst.
  injection E as <-. destruct (Z.eqb_spec hop 0) as [->|_]; [lia|].
  unfold copy_zeros. cbn [AsSlice]. rewrite !(firstn_all2 s), !(firstn_all2 d) by lia. rewrite Ls, Ld. cbn [Nat.sub replicate]. rewrite !app_nil_r.
  assert (E0 : Z.lor 96 (Z.shiftr cls 4) = 96 + cls / 16).
  { rewrite Z.shiftr_div_pow2 by lia. change 96 with (Z.shiftl 6 4). rewrite lor_low by euclid. done. }
  assert (E1 : Z.lor (to_uint 8 (Z.shiftl cls 4)) (Z.land (Z.shiftr label 16) 15) = (cls mod 16) * 16 + label / 65536).
  { masks. rewrite (Z.mod_small (label / _)) by euclid.
    replace (to_uint 8 (Z.shiftl cls 4)) with (Z.shiftl (cls mod 16) 4) by (rewrite !Z.shiftl_mul_pow2 by lia; euclid).
    rewrite lor_low by euclid. done. }
  assert (E2 : to_uint 8 (Z.shiftr label 8) = label / 256 mod 256) by (masks; done).
  assert (E3 : to_uint 8 label = label mod 256) by done.
  rewrite E0, E1, E2, E3. clear E0 E1 E2 E3.
  set (h := ([96 + cls / 16; cls mod 16 * 16 + label / 65536; label / 256 mod 256; label mod 256] ++
     be_put 2 (to_uint 16 (len p)) ++ [proto; hop]) ++ s ++ d).
  assert (Hh : len h = 40) by (unfold h, len; rewrite !length_app, Ls, Ld; done).
  exists h. split; [unfold h; by rewrite <- !app_assoc|]. split; [done|].
  split; [exists (96 + cls / 16); split; [done|]; rewrite Z.shiftr_div_pow2 by lia; euclid|].
  match goal with |- context [pre ++ ?b] => replace b with (h ++ p) by (unfold h; by rewrite <- !app_assoc) end.
  unfold ipv6_turn. erewrite bind_Ok by apply slice_from_pre.
  erewrite bind_Ok. 2:{ unfold h. rewrite <- !app_assoc. by apply parseIPv6Tuple_eq. } cbv beta iota.
  erewrite bind_Ok by (rewrite index_pre by lia; apply index_eq; [lia|reflexivity]).
  erewrite bind_Ok by (rewrite index_pre0; apply index_eq; [lia|reflexivity]).
  do 3 (erewrite bind_Ok by (rewrite index_pre by lia; apply index_eq; [lia|reflexivity])).
  rewrite to_uint_small by done. masks.
  rewrite (lor_low (_ mod 2 ^ 4) (_ / 2 ^ 4)) by euclid. rewrite lor_three by euclid.
  replace ((96 + cls / 16) mod 2 ^ 4 * 2 ^ 4 + (cls mod 16 * 16 + label / 65536) / 2 ^ 4) with cls by euclid.
  replace ((cls mod 16 * 16 + label / 65536) mod 2 ^ 4 * 65536 + label / 256 mod 256 * 256 + label mod 256) with label by euclid.
  done.
Qed.
End turns.

(** ** Ethernet and its tags *)

Definition is_tag (t : Z) : bool := (t =? 0x8100) || (t =? 0x88a8).
Definition vlan_ok (x : VLANLayer) : Prop := 0 <= vlanID x < 4096 /\ 0 <= PCP x < 8 /\ is_tag (TPID x) = true.

Definition L_vlan (x : VLANLayer) : LayerSpec := layer "dot1q" 4 (D_VLAN x).
Definition L_eth (e : EthernetLayer) : LayerSpec := layer "ethernet" 14 (D_Ethernet e).

(** The type in front of some tags, and their bytes. *)
Definition next_type (xs : list VLANLayer) (t : Z) : Z := match xs with x :: _ => TPID x | [] => t end.
Definition tci (x : VLANLayer) : Z := PCP x * 2 ^ 13 + (if DEI x then 2 ^ 12 else 0) + vlanID x.
Fixpoint tags (xs : list VLANLayer) (t : Z) : bytes :=
  match xs with [] => [] | x :: xs' => be_put 2 (tci x) ++ be_put 2 (next_type xs' t) ++ tags xs' t end.

Lemma is_tag_u16 t : is_tag t = true -> u16 t.
Proof. unfold is_tag, uint. intros H. apply orb_true_iff in H as [H|H]; apply Z.eqb_eq in H; subst; cbn; lia. Qed.

Lemma next_type_u16 xs t : Forall vlan_ok xs -> u16 t -> u16 (next_type xs t).
Proof. intros Hxs Ht. destruct Hxs as [|x xs (_ & _ & Hx)]; [done|by apply is_tag_u16]. Qed.

Lemma tci_fields x : vlan_ok x ->
  u16 (tci x) /\ Z.land (tci x) 4095 = vlanID x /\ Z.land (Z.shiftr (tci x) 13) 7 = PCP x /\ (Z.land (Z.shiftr (tci x) 12) 1 =? 1) = DEI x.
Proof.
  intros (Hi & Hp & _). unfold tci. masks. destruct (DEI x); repeat split; euclid.
Qed.

Lemma prependVLAN_eq x p next : vlan_ok x ->
  prependVLAN (Some x) p next = be_put 2 (tci x) ++ be_put 2 (to_uint 16 (inferLayerEtherType 0 next p)) ++ p.
Proof.
  intros (Hi & Hp & _). unfold prependVLAN, tci. cbn [default id from_option]. do 2 f_equal. masks.
  rewrite (Z.mod_small (vlanID x)), (Z.mod_small (PCP x)) by lia.
  rewrite (Z.lor_comm (vlanID x)), <- Z.lor_assoc, (Z.lor_comm (vlanID x)).
  assert (E12 : Z.lor (2 ^ 12) (vlanID x) = 2 ^ 12 + vlanID x) by (change (2 ^ 12) with (Z.shiftl 1 12) at 1; rewrite lor_low by lia; lia).
  destruct (DEI x); [rewrite E12|]; rewrite lor_low by lia; lia.
Qed.

Lemma vlan_loop_tags xs t fuel pre p v :
  Forall vlan_ok xs -> u16 t -> is_tag t = false -> (length xs <= fuel)%nat ->
  exists v', vlan_loop fuel (pre ++ tags xs t ++ p) (len pre) (next_type xs t) v = (Ok (len pre + len (tags xs t), t), v') /\
    layers_of v' = layers_of v ++ map L_vlan xs.
Proof.
  intros Hxs Ht Hn. revert fuel pre v. induction Hxs as [|x xs Hx Hxs IH]; intros fuel pre v Hf.
  - exists v. cbn [tags next_type map]. rewrite Z.add_0_r, app_nil_r. split; [|done].
    unfold is_tag in Hn. destruct fuel; cbn [vlan_loop]; by rewrite Hn.
  - destruct fuel as [|fuel]; [cbn in Hf; lia|]. cbn [next_type vlan_loop].
    destruct (tci_fields x Hx) as (Htci & Eid & Epcp & Edei). destruct Hx as (Hid & Hpcp & Htag). unfold is_tag in Htag. rewrite Htag.
    set (b := tags (x :: xs) t ++ p).
    assert (Eb : b = be_put 2 (tci x) ++ be_put 2 (next_type xs t) ++ tags xs t ++ p) by (unfold b; cbn [tags]; by rewrite <- !app_assoc).
    assert (Lb : len b = 4 + len (tags xs t) + len p) by (rewrite Eb; rewrite !len_app, !len_be_put; lia).
    pose proof (len_nonneg (tags xs t)). pose proof (len_nonneg p).
    rewrite require_ok by (rewrite len_app; lia).
    erewrite bind_Ok by (rewrite number_at_pre0 by lia; rewrite Eb; by apply (number_at_front 2)).
    erewrite bind_Ok by reflexivity. erewrite bind_Ok by reflexivity.
    erewrite bind_Ok by (rewrite number_at_pre by lia; rewrite Eb; apply (number_at_second _ 2); [by rewrite len_be_put|lia|by apply next_type_u16]).
    replace (pre ++ b) with ((pre ++ be_put 2 (tci x) ++ be_put 2 (next_type xs t)) ++ tags xs t ++ p) by (rewrite Eb; by rewrite <- !app_assoc).
    replace (len pre + 4) with (len (pre ++ be_put 2 (tci x) ++ be_put 2 (next_type xs t))) by (rewrite !len_app, !len_be_put; lia).
    edestruct (IH fuel) as (v' & E & Hl); [cbn in Hf; lia|]. exists v'. rewrite E. split.
    + f_equal. f_equal. f_equal. cbn [tags]. rewrite !len_app, !len_be_put. lia.
    + rewrite Hl, layers_append, Eid, Epcp, Edei. cbn [map]. rewrite <- app_assoc. by destruct x.
Qed.

Lemma len_tags xs t : len (tags xs t) = 4 * len xs.
Proof. induction xs as [|x xs IH]; [done|]. cbn [tags]. rewrite !len_app, !len_be_put, IH, len_cons. lia. Qed.

Definition eth_layer (capture : bool) (d s : bytes) (t : Z) : EthernetLayer :=
  {| ethSrcMAC := if capture then formatMAC s else ""; ethDstMAC := if capture then formatMAC d else ""; ethEtherType := t |}.
Definition eth_bytes (d s : bytes) (xs : list VLANLayer) (t : Z) : bytes := d ++ s ++ be_put 2 (next_type xs t) ++ tags xs t.

Lemma parseEthernet_eq capture d s xs t p v :
  length d = 6%nat -> length s = 6%nat -> Forall vlan_ok xs -> u16 t -> is_tag t = false ->
  exists v', parseEthernet (eth_bytes d s xs t ++ p) capture v = (Ok (len (eth_bytes d s xs t), t), v') /\
    layers_of v' = layers_of v ++ L_eth (eth_layer capture d s (next_type xs t)) :: map L_vlan xs.
Proof.
  intros Hd Hs Hxs Ht Hn. pose proof (next_type_u16 xs t Hxs Ht) as Hnt.
  assert (Ld : len d = 6) by (unfold len; lia). assert (Ls : len s = 6) by (unfold len; lia).
  set (h := d ++ s ++ be_put 2 (next_type xs t)).
  assert (Lh : len h = 14) by (unfold h; rewrite !len_app, len_be_put; lia).
  assert (Eb : eth_bytes d s xs t ++ p = h ++ tags xs t ++ p) by (unfold eth_bytes, h; by rewrite <- !app_assoc).
  assert (Lb : len (eth_bytes d s xs t) = 14 + 4 * len xs) by (unfold eth_bytes; rewrite !len_app, len_be_put, len_tags; lia).
  rewrite Eb, Lb. pose proof (len_nonneg xs). pose proof (len_nonneg p).
  unfold parseEthernet. rewrite require_ok by (rewrite !len_app, len_tags; lia).
  erewrite bind_Ok by (apply slice_eq; rewrite ?len_app, ?len_tags; lia).
  replace (take (Z.to_nat (6 - 0)) (drop (Z.to_nat 0) (h ++ tags xs t ++ p))) with d.
  2:{ unfold h. rewrite <- !app_assoc. change (drop (Z.to_nat 0) ?l) with l. by rewrite take_app_length'. }
  erewrite bind_Ok by (apply slice_eq; rewrite ?len_app, ?len_tags; lia).
  replace (take (Z.to_nat (12 - 6)) (drop (Z.to_nat 6) (h ++ tags xs t ++ p))) with s.
  2:{ unfold h. rewrite <- !app_assoc. rewrite drop_app_length' by done. by rewrite take_app_length'. }
  assert (E14 : forall s0 : packetView, number_at (h ++ tags xs t ++ p) 12 14 s0 = (Ok (next_type xs t), s0)).
  { intros s0. unfold h. replace ((d ++ s ++ be_put 2 (next_type xs t)) ++ tags xs t ++ p) with ((d ++ s) ++ be_put 2 (next_type xs t) ++ tags xs t ++ p)
      by by rewrite <- !app_assoc. apply (number_at_second _ 2); [rewrite len_app; lia|lia|done]. }
  assert (Hloop : forall v1, exists v2, vlan_loop (length (h ++ tags xs t ++ p)) (h ++ tags xs t ++ p) 14 (next_type xs t) v1 = (Ok (14 + 4 * len xs, t), v2) /\
    layers_of v2 = layers_of v1 ++ map L_vlan xs).
  { intros v1. rewrite <- Lh, <- (len_tags xs t). apply vlan_loop_tags; try done.
    pose proof (len_tags xs t). unfold len in *. rewrite !length_app. lia. }
  destruct capture; cbv beta iota zeta.
  all: erewrite bind_Ok by reflexivity; erewrite bind_Ok by apply E14; erewrite bind_Ok by reflexivity.
  all: edestruct Hloop as (v2 & E & Hl); erewrite bind_Ok by exact E; cbv beta iota; eexists; split; [reflexivity|].
  all: match goal with |- layers_of (if ?c then _ else _) = _ => replace (layers_of (if c then set_etype t v2 else v2)) with (layers_of v2) by by destruct c end.
  all: rewrite Hl, layers_append, <- app_assoc; done.
Qed.

(** ** Labels *)

Definition label_ok (bos : bool) (l : MPLSLabel) : Prop := 0 <= Label l < 2 ^ 20 /\ 0 <= TC l < 8 /\ u8 (labelTTL l) /\ BOS l = bos.
Definition L_mpls (l : MPLSLabel) : LayerSpec := layer "mpls" 4 (D_MPLS l).
Definition word (l : MPLSLabel) : Z := Label l * 2 ^ 12 + TC l * 2 ^ 9 + (if BOS l then 2 ^ 8 else 0) + labelTTL l.

Lemma word_fields b l : label_ok b l ->
  u32 (word l) /\ Z.shiftr (word l) 12 = Label l /\ Z.land (Z.shiftr (word l) 9) 7 = TC l /\
  (Z.land (Z.shiftr (word l) 8) 1 =? 1) = b /\ Z.land (word l) 255 = labelTTL l /\ set_bit (word l) 256 = b.
Proof.
  intros (Hl & Ht & Httl & Hb). unfold word, set_bit. rewrite Hb.
  assert (E : forall x, Z.land x 256 = Z.land (Z.shiftr x 8) 1 * 2 ^ 8).
  { intros x. rewrite <- Z.shiftl_mul_pow2 by lia. change 256 with (Z.shiftl 1 8) at 1. apply Z.bits_inj'. intros n Hn.
    rewrite Z.land_spec. destruct (Z.ltb_spec n 8).
    - rewrite !Z.shiftl_spec_low by lia. by rewrite andb_false_r.
    - rewrite !Z.shiftl_spec, Z.land_spec, Z.shiftr_spec by lia. by replace (n - 8 + 8) with n by lia. }
  rewrite E. masks. destruct b; repeat split; euclid.
Qed.

Lemma prependMPLS_eq b l p : label_ok b l -> prependMPLS (Some l) p = be_put 4 (word l) ++ p.
Proof.
  intros (Hl & Ht & Httl & Hb). unfold prependMPLS, word. cbn [default id from_option]. f_equal. f_equal. masks.
  rewrite (Z.mod_small (Label l)), (Z.mod_small (TC l)) by lia.
  assert (E8 : Z.lor (2 ^ 8) (labelTTL l) = 2 ^ 8 + labelTTL l) by (change (2 ^ 8) with (Z.shiftl 1 8) at 1; rewrite lor_low by (unfold uint in *; lia); lia).
  destruct (BOS l); rewrite <- ?Z.lor_assoc, ?E8.
  all: rewrite (lor_low (TC l)), lor_low by (unfold uint in *; lia); lia.
Qed.

Fixpoint words (ls : list MPLSLabel) : bytes := match ls with [] => [] | l :: ls' => be_put 4 (word l) ++ words ls' end.

Lemma len_words ls : len (words ls) = 4 * len ls.
Proof. induction ls as [|l ls IH]; [done|]. cbn [words]. rewrite len_app, len_be_put, IH, len_cons. lia. Qed.

Lemma mpls_loop_words ls last fuel pre p v :
  Forall (label_ok false) ls -> label_ok true last -> (length ls < fuel)%nat ->
  exists v', mpls_loop fuel (pre ++ words (ls ++ [last]) ++ p) (len pre) v = (Ok (len pre + len (words (ls ++ [last]))), v') /\
    layers_of v' = layers_of v ++ map L_mpls (ls ++ [last]).
Proof.
  assert (Hstep : forall b l rest fuel pre p v, label_ok b l ->
    mpls_loop (S fuel) (pre ++ (be_put 4 (word l) ++ rest) ++ p) (len pre) v =
    (if b then ret (len pre + 4) else mpls_loop fuel (pre ++ (be_put 4 (word l) ++ rest) ++ p) (len pre + 4))
      (append_layer (L_mpls l) (add_label (Label l) v))).
  { intros b l rest f q r w Hl. destruct (word_fields b l Hl) as (Hw & E1 & E2 & E3 & E4 & E5). cbn [mpls_loop].
    pose proof (len_nonneg rest). pose proof (len_nonneg r).
    rewrite require_ok by (rewrite !len_app, len_be_put; lia).
    erewrite bind_Ok by (rewrite number_at_pre0 by (rewrite !len_app, len_be_put; lia); rewrite <- app_assoc; by apply (number_at_front 4)).
    erewrite bind_Ok by reflexivity. erewrite bind_Ok by reflexivity. rewrite E1, E2, E3, E4, E5.
    destruct Hl as (_ & _ & _ & <-). by destruct l as [? ? [] ?]. }
  intros Hls Hlast. revert fuel pre v. induction Hls as [|l ls Hl Hls IH]; intros [|fuel] pre v Hf; [lia| |lia|].
  - cbn [app words]. rewrite (Hstep true) by done. eexists. split; [reflexivity|]. by rewrite layers_append.
  - cbn [app words]. rewrite (Hstep false) by done.
    replace (pre ++ (be_put 4 (word l) ++ words (ls ++ [last])) ++ p) with ((pre ++ be_put 4 (word l)) ++ words (ls ++ [last]) ++ p) by by rewrite <- !app_assoc.
    replace (len pre + 4) with (len (pre ++ be_put 4 (word l))) by (rewrite len_app, len_be_put; lia).
    edestruct (IH fuel) as (v' & E & Hl'); [cbn in Hf; lia|]. exists v'. rewrite E. split.
    + f_equal. f_equal. rewrite !len_app, len_be_put. lia.
    + rewrite Hl', layers_append, <- app_assoc. done.
Qed.

Definition ip_type (t : Z) : bool := (t =? 0x0800) || (t =? 0x86dd).
(** The first byte of a payload of an IP type shows its version. *)
Definition shows (t : Z) (p : bytes) : Prop := exists x, head p = Some x /\ Z.shiftr x 4 = if t =? 0x0800 then 4 else 6.

Lemma ip_version_eq pre p t what v :
  ip_type t = true -> shows t p -> ip_version (pre ++ p) (len pre) what v = (Ok (len pre, t), v).
Proof.
  intros Ht (x & Hx & Hv). destruct p as [|y p]; [done|]. injection Hx as ->. unfold ip_version.
  erewrite bind_Ok by (rewrite index_pre0; apply index_eq; [lia|reflexivity]). cbv zeta. rewrite Hv.
  unfold ip_type in Ht. destruct (Z.eqb_spec t 0x0800) as [->|]; [done|]. cbn in Ht. apply Z.eqb_eq in Ht. by subst.
Qed.

Lemma parseMPLS_eq ls last p t v :
  Forall (label_ok false) ls -> label_ok true last -> ip_type t = true -> shows t p ->
  exists v', parseMPLS (words (ls ++ [last]) ++ p) v = (Ok (len (words (ls ++ [last])), t), v') /\
    layers_of v' = layers_of v ++ map L_mpls (ls ++ [last]).
Proof.
  intros Hls Hlast Ht Hp. pose proof (len_words (ls ++ [last])) as Lw. rewrite len_app, len_cons, len_nil in Lw. pose proof (len_nonneg ls).
  assert (0 < len p) by (destruct Hp as (x & Hx & _); destruct p; [done|]; rewrite len_cons; pose proof (len_nonneg p); lia).
  unfold parseMPLS. rewrite require_ok by (rewrite len_app; lia).
  edestruct (mpls_loop_words ls last (length (words (ls ++ [last]) ++ p)) [] p v) as (v' & E & Hl); [done|done| |].
  { unfold len in *. rewrite length_app. lia. }
  erewrite bind_Ok by exact E. cbv beta. change (len [] + len (words (ls ++ [last]))) with (len (words (ls ++ [last]))).
  exists v'. split; [|done]. destruct (Z.leb_spec (len (words (ls ++ [last]) ++ p)) (len (words (ls ++ [last])))) as [Hle|Hle]; [rewrite len_app in Hle; lia|].
  by apply ip_version_eq.
Qed.

(** ** PPPoE and GRE *)

Definition ppp_type (proto : Z) : option Z :=
  if proto =? 0x0021 then Some 0x0800 else if proto =? 0x0057 then Some 0x86dd
  else if (proto =? 0x0281) || (proto =? 0x0283) then Some 0x8847 else None.
Definition L_pppoe (l : PPPoELayer) : LayerSpec := layer "pppoe" 8 (D_PPPoE l).

Lemma parsePPPoE_eq l t p v :
  u16 (SessionID l) -> u16 (pppProtocol l) -> ppp_type (pppProtocol l) = Some t ->
  parsePPPoE (prependPPPoE (Some l) p) v = (Ok (8, t), append_layer (L_pppoe l) v).
Proof.
  intros Hs Hp Ht. unfold prependPPPoE. cbn [default id from_option]. unfold parsePPPoE. pose proof (len_nonneg p).
  rewrite require_ok by (rewrite !len_app, !len_be_put; change (len [17; 0]) with 2; lia).
  erewrite bind_Ok.
  2:{ rewrite !app_assoc. rewrite <- (app_assoc _ (be_put 2 (pppProtocol l)) p). apply (number_at_second _ 2); [|lia|done].
      rewrite !len_app, !len_be_put. done. }
  erewrite bind_Ok by (apply (number_at_second [17; 0] 2); [done|lia|done]).
  erewrite bind_Ok by reflexivity. unfold ppp_type in Ht. destruct l. cbn in *.
  repeat (case_match; [by simplify_eq|]). done.
Qed.

Definition L_gre (l : GRELayer) : LayerSpec :=
  layer "gre" (4 + (if Checksum l then 4 else 0) + (if greKey l then 4 else 0) + (if Sequence l then 4 else 0)) (D_GRE l).

Lemma parseGRE_eq l p v :
  u16 (greProtocol l) ->
  exists h, prependGRE (Some l) p = h ++ p /\ 4 <= len h /\
  parseGRE (h ++ p) v = (Ok (len h, greProtocol l), append_layer (L_gre l) v).
Proof.
  intros Hp. unfold prependGRE. cbn [default id from_option].
  set (flags := Z.lor _ _). set (n := Z.to_nat _).
  exists (be_put 2 flags ++ be_put 2 (greProtocol l) ++ replicate n 0). split; [by rewrite <- !app_assoc|].
  assert (Ln : Z.of_nat n = (if Checksum l then 4 else 0) + (if greKey l then 4 else 0) + (if Sequence l then 4 else 0)).
  { unfold n. rewrite Z2Nat.id by (repeat case_match; lia). done. }
  assert (Hf : u16 flags /\ set_bit flags 0x8000 = Checksum l /\ set_bit flags 0x2000 = greKey l /\ set_bit flags 0x1000 = Sequence l).
  { unfold flags. by destruct (Checksum l), (greKey l), (Sequence l). }
  clearbody n flags. destruct Hf as (Hf & E1 & E2 & E3).
  assert (Lh : len (be_put 2 flags ++ be_put 2 (greProtocol l) ++ replicate n 0) = 4 + Z.of_nat n) by (rewrite !len_app, !len_be_put, len_replicate; lia).
  split; [lia|]. pose proof (len_nonneg p). unfold parseGRE. rewrite require_ok by (rewrite len_app; lia).
  rewrite <- !app_assoc. erewrite bind_Ok by by apply (number_at_front 2).
  erewrite bind_Ok by (apply (number_at_second _ 2); [by rewrite len_be_put|lia|done]).
  cbv zeta. rewrite E1, E2, E3. rewrite require_ok by (rewrite !app_assoc, <- (app_assoc (be_put 2 flags)), len_app; lia).
  erewrite bind_Ok by reflexivity. rewrite Lh. unfold ret, L_gre. destruct l. cbn in *. do 3 f_equal. lia.
Qed.

(** ** Stacks *)

Definition tcp_ok (l : TCPLayer) : Prop :=
  u16 (tcpSrcPort l) /\ u16 (tcpDstPort l) /\ u8 (tcpFlags l) /\ Seq l = 0 /\ Ack l = 0 /\ Window l = 0.
(** A UDP header that is not taken for a tunnel. *)
Definition plain_port (p : Z) : Prop := u16 p /\ p ∉ [4789; 6081; 1701; 2152].

Definition no_icmp : ICMPLayer := {| icmpType := 0; icmpCode := 0 |}.
Definition L_sctp : LayerSpec :=
  {| lKind := "sctp"; lLength := 12; lData := D_none; lFeatures := {["transport"%string := Feat_String "sctp"]} |}.

(** Where a stack starts: at an Ethernet header inside a tunnel, behind an EtherType, or behind
    the protocol number of an IP header. *)
Inductive place : Type := P_ether | P_type (t : Z) | P_proto (p : Z).

Inductive stack : place -> list LayerSpec -> Prop :=
  | S_eth e vlans t ls :
      ethSrcMAC e = ""%string -> ethDstMAC e = ""%string -> Forall vlan_ok vlans -> ethEtherType e = next_type vlans t ->
      (vlans <> [] -> t <> 0x8848) -> stack (P_type t) ls -> stack P_ether (L_eth e :: map L_vlan vlans ++ ls)
  | S_ipv4 l ls : ip4_ok l -> stack (P_proto (Protocol l)) ls -> stack (P_type 0x0800) (layer "ipv4" 20 (D_IPv4 l) :: ls)
  | S_ipv6 l ls : ip6_ok l -> stack (P_proto (NextHeader l)) ls -> stack (P_type 0x86dd) (layer "ipv6" 40 (D_IPv6 l) :: ls)
  | S_mpls t labels last t' ls :
      t = 0x8847 \/ t = 0x8848 -> Forall (label_ok false) labels -> label_ok true last -> ip_type t' = true -> stack (P_type t') ls ->
      stack (P_type t) (map L_mpls (labels ++ [last]) ++ ls)
  | S_pppoe l t ls :
      u16 (SessionID l) -> u16 (pppProtocol l) -> ppp_type (pppProtocol l) = Some t -> stack (P_type t) ls ->
      stack (P_type 0x8864) (L_pppoe l :: ls)
  | S_ipip4 ls : stack (P_type 0x0800) ls -> stack (P_proto 4) ls
  | S_ipip6 ls : stack (P_type 0x86dd) ls -> stack (P_proto 41) ls
  | S_gre l ls : stack (P_type (greProtocol l)) ls -> stack (P_proto 47) (L_gre l :: ls)
  | S_gre_eth l ls : greProtocol l = 0x6558 -> stack P_ether ls -> stack (P_proto 47) (L_gre l :: ls)
  | S_tcp l : tcp_ok l -> stack (P_proto 6) [layer "tcp" 20 (D_TCP l)]
  | S_udp l : plain_port (udpSrcPort l) -> plain_port (udpDstPort l) -> stack (P_proto 17) [layer "udp" 8 (D_UDP l)]
  | S_icmp : stack (P_proto 1) [layer "icmp" 8 (D_ICMP no_icmp)]
  | S_icmpv6 : stack (P_proto 58) [layer "icmpv6" 8 (D_ICMP no_icmp)]
  | S_sctp : stack (P_proto 132) [L_sctp]
  | S_other p : p ∉ [1; 4; 6; 17; 41; 47; 58; 132] -> stack (P_proto p) [].

Lemma stack_type t ls : stack (P_type t) ls -> canContinueEtherType t = true.
Proof. inversion 1; subst; try done. by match goal with H : _ \/ _ |- _ => destruct H as [-> | ->] end. Qed.

Lemma known_type t : canContinueEtherType t = true -> u16 t /\ is_tag t = false /\ shouldParseEthernetPayload t = false.
Proof.
  unfold canContinueEtherType. cbn [existsb]. intros H. repeat (apply orb_true_iff in H as [H|H]; [apply Z.eqb_eq in H; subst; by vm_compute|]). done.
Qed.

(** An explicit type is written as it is. *)
Lemma explicit_type vlans t ls next p :
  Forall vlan_ok vlans -> stack (P_type t) ls ->
  to_uint 16 (inferLayerEtherType (next_type vlans t) next p) = next_type vlans t.
Proof.
  intros Hv Hls. pose proof (stack_type t ls Hls) as Hc. destruct (known_type t Hc) as (Hu & _).
  unfold inferLayerEtherType. destruct (Z.eqb_spec (next_type vlans t) 0) as [E0|_]; [exfalso|by apply to_uint_small, next_type_u16].
  destruct Hv as [|x xs (_ & _ & Hx)]; cbn in E0; [by rewrite E0 in Hc|by rewrite E0 in Hx].
Qed.

(** The type that the encoder infers from the layer behind a tag. *)
Lemma stack_infers t ls b : stack (P_type t) ls -> t <> 0x8848 -> inferLayerEtherType 0 (head ls) b = t.
Proof.
  intros H Ht. inversion H; subst; try done. match goal with H : _ \/ _ |- _ => destruct H as [-> | ->] end; [|done]. by destruct labels.
Qed.

(** ** The continuation of the loop *)

Definition goes (fuel : nat) (data : bytes) (m : V turn) : V unit :=
  let* t := m in match t with T_return => ret tt | T_continue o t => packet_loop fuel data defaultDecodeOptions o t false end.

Definition finishes (m : V unit) (v : packetView) (ls : list LayerSpec) : Prop :=
  exists v', m v = (Ok tt, v') /\ layers_of v' = map ensureLayerLength (layers_of v ++ ls).

Lemma goes_eq fuel data m v r v' : m v = (Ok r, v') ->
  goes fuel data m v = match r with T_return => (Ok tt, v') | T_continue o t => packet_loop fuel data defaultDecodeOptions o t false v' end.
Proof. intros E. unfold goes. erewrite bind_Ok by exact E. by destruct r. Qed.

Lemma goes_final fuel data m v v' ls :
  m v = return_final v' -> layers_of v' = layers_of v ++ ls -> finishes (goes fuel data m) v ls.
Proof.
  intros E Hl. exists (finalizePacketView v'). split; [|by rewrite layers_finalize, Hl].
  erewrite goes_eq; [|rewrite E; unfold return_final; by erewrite bind_Ok by reflexivity]. done.
Qed.

Lemma finishes_more m v v1 ls l ls' :
  layers_of v1 = layers_of v ++ l -> ls = l ++ ls' -> finishes m v1 ls' -> forall m', m' v = m v1 -> finishes m' v ls.
Proof. intros Hl -> (v' & E & H) m' Em. exists v'. rewrite Em, E, H, Hl. by rewrite app_assoc. Qed.

Lemma bind_assoc {S A B C} (m : ST S A) (k : A -> ST S B) (j : B -> ST S C) s :
  bind (bind m k) j s = bind m (fun a => bind (k a) j) s.
Proof. unfold bind. by destruct (m s) as [[] ?]. Qed.

Definition turn_of (t : Z) (data : bytes) (o : Z) : V turn :=
  if t =? 0x0800 then ipv4_turn data o defaultDecodeOptions
  else if t =? 0x86dd then ipv6_turn data o defaultDecodeOptions
  else if t =? 0x8864 then pppoe_turn data o defaultDecodeOptions
  else mpls_turn data o defaultDecodeOptions.

Lemma loop_turn fuel data o t v :
  canContinueEtherType t = true ->
  packet_loop (S fuel) data defaultDecodeOptions o t false v = goes fuel data (turn_of t data o) v.
Proof.
  intros Ht. unfold canContinueEtherType in Ht. cbn [existsb] in Ht. cbn [packet_loop]. unfold packet_turn, goes.
  repeat (apply orb_true_iff in Ht as [Ht|Ht]; [apply Z.eqb_eq in Ht; subst|]); [..|done].
  all: unfold turn_of; cbn [Z.eqb Pos.eqb orb direct_version]; unfold bind; cbn [ret].
  - by destruct (ipv4_turn _ _ _ v) as [[[]| | |] ?].
  - by destruct (ipv6_turn _ _ _ v) as [[[]| | |] ?].
  - by destruct (mpls_turn _ _ _ v) as [[[]| | |] ?].
  - by destruct (mpls_turn _ _ _ v) as [[[]| | |] ?].
  - by destruct (pppoe_turn _ _ _ v) as [[[]| | |] ?].
Qed.

Lemma finishes_turn fuel data o t v ls :
  canContinueEtherType t = true -> finishes (goes fuel data (turn_of t data o)) v ls ->
  finishes (packet_loop (S fuel) data defaultDecodeOptions o t false) v ls.
Proof. intros Ht. unfold finishes. by rewrite loop_turn. Qed.

(** ** The encoding of a stack is parsed back *)

Definition parses_at (pl : place) (b : bytes) (ls : list LayerSpec) : Prop :=
  match pl with
  | P_ether => forall pre fuel v, (length b < fuel)%nat -> finishes (goes fuel (pre ++ b) (ethernet_payload (pre ++ b) (len pre))) v ls
  | P_type t => (ip_type t = true -> shows t b) /\
      forall pre fuel v, (length b < fuel)%nat -> finishes (packet_loop fuel (pre ++ b) defaultDecodeOptions (len pre) t false) v ls
  | P_proto p => forall pre h src dst fuel v,
      (length b < fuel)%nat -> last (Tuples v) = Some (carried_tuple src dst p b) ->
      finishes (goes fuel (pre ++ h ++ b) (after_ip (pre ++ h ++ b) (len pre) (len h) (carried_tuple src dst p b) defaultDecodeOptions)) v ls
  end.

Section parses.
Context `{GoLib}.

Lemma slice_from_pre2 {S} pre h b (s : S) : slice_from (pre ++ h ++ b) (len pre + len h) s = (Ok b, s).
Proof. rewrite app_assoc, <- len_app. apply slice_from_pre. Qed.

Lemma try_ok {A B} (m : V A) (k : A -> V B) (g : V B) a v v' : m v = (Ok a, v') -> try_ m k g v = k a v'.
Proof. intros E. unfold try_. by rewrite E. Qed.

(** A turn that goes on behind a prefix that was read. *)
Lemma goes_on t b0 ls pre h fuel m v v' l :
  parses_at (P_type t) b0 ls -> (length b0 < fuel)%nat ->
  m v = (Ok (T_continue (len pre + len h) t), v') -> layers_of v' = layers_of v ++ l ->
  finishes (goes fuel (pre ++ h ++ b0) m) v (l ++ ls).
Proof.
  intros [_ Hp] Hf E Hl. eapply (finishes_more _ v v'); [exact Hl|done|apply (Hp (pre ++ h)); exact Hf|].
  erewrite goes_eq by exact E. by rewrite <- app_assoc, len_app.
Qed.

Lemma encode_vlans vlans t ls b :
  Forall vlan_ok vlans -> (vlans <> [] -> t <> 0x8848) -> stack (P_type t) ls -> encode_layers ls = Ok b ->
  encode_layers (map L_vlan vlans ++ ls) = Ok (tags vlans t ++ b).
Proof.
  intros Hv Ht Hls E. pose proof (known_type t (stack_type t ls Hls)) as (Hu & _ & _).
  induction Hv as [|x xs Hx Hxs IH]; [done|]. cbn [map app encode_layers tags].
  rewrite IH by (intros _; by apply Ht). cbn [rbind]. change (prependLayer (L_vlan x) ?p ?n) with (Ok (prependVLAN (Some x) p n)).
  rewrite prependVLAN_eq by done. rewrite <- !app_assoc. do 3 f_equal.
  assert (inferLayerEtherType 0 (head (map L_vlan xs ++ ls)) (tags xs t ++ b) = next_type xs t) as ->.
  2:{ rewrite to_uint_small; [done|]. by apply next_type_u16. }
  destruct Hxs as [|y ys (_ & _ & Hy)]; [apply stack_infers; [done|by apply Ht]|].
  cbn. by destruct (Z.eqb_spec (TPID y) 0) as [E0|]; [rewrite E0 in Hy|].
Qed.

Lemma encode_labels labels ls b :
  Forall (fun l => exists bos, label_ok bos l) labels -> encode_layers ls = Ok b ->
  encode_layers (map L_mpls labels ++ ls) = Ok (words labels ++ b).
Proof.
  intros Hl E. induction Hl as [|l labels [bos Hlb] Hls IH]; [done|]. cbn [map app encode_layers words].
  rewrite IH. cbn [rbind]. change (prependLayer (L_mpls l) ?p ?n) with (Ok (prependMPLS (Some l) p)).
  by rewrite (prependMPLS_eq bos), <- app_assoc by done.
Qed.

Lemma parses_eth e vlans t ls b :
  ethSrcMAC e = ""%string -> ethDstMAC e = ""%string -> Forall vlan_ok vlans -> ethEtherType e = next_type vlans t ->
  (vlans <> [] -> t <> 0x8848) -> stack (P_type t) ls -> encode_layers ls = Ok b -> parses_at (P_type t) b ls ->
  exists b', encode_layers (L_eth e :: map L_vlan vlans ++ ls) = Ok b' /\ parses_at P_ether b' (L_eth e :: map L_vlan vlans ++ ls).
Proof.
  intros Hs Hd Hv He Ht Hls E IH. destruct (known_type t (stack_type t ls Hls)) as (Hu & Htag & _).
  pose proof (next_type_u16 vlans t Hv Hu) as Hnt.
  set (z := replicate 6 0).
  assert (E' : encode_layers (L_eth e :: map L_vlan vlans ++ ls) = Ok (eth_bytes z z vlans t ++ b)).
  { cbn [encode_layers]. erewrite encode_vlans by done. cbn [rbind].
    change (prependLayer (L_eth e) ?p ?n) with (Ok (prependEthernet (Some e) p n)). unfold prependEthernet, parseMACOrZero.
    cbn [default id from_option]. rewrite Hs, Hd, He, (explicit_type vlans t ls) by done. unfold eth_bytes. by rewrite <- !app_assoc. }
  exists (eth_bytes z z vlans t ++ b). split; [done|]. intros pre fuel v Hf.
  destruct (parseEthernet_eq false z z vlans t b v) as (v' & Ep & Hl); [done..|].
  eapply (goes_on t b ls pre (eth_bytes z z vlans t) fuel _ v v' (L_eth e :: map L_vlan vlans)); [done| | |].
  - rewrite length_app in Hf. lia.
  - unfold ethernet_payload. erewrite bind_Ok by apply slice_from_pre. by erewrite try_ok by exact Ep.
  - rewrite Hl. f_equal. f_equal. destruct e. cbn in *. by subst.
Qed.

Lemma parses_ip (h p b : bytes) n kind l proto src dst t ls :
  b = h ++ p -> len h = n -> 0 < n -> canContinueEtherType t = true ->
  (ip_type t = true -> shows t b) -> ensureLayerLength (layer kind n l) = layer kind n l ->
  (forall pre v, turn_of t (pre ++ b) (len pre) v =
     after_ip (pre ++ b) (len pre) n (carried_tuple src dst proto p) defaultDecodeOptions
       (add_tuple (carried_tuple src dst proto p) (append_layer (layer kind n l) v))) ->
  parses_at (P_proto proto) p ls -> parses_at (P_type t) b (layer kind n l :: ls).
Proof.
  intros -> <- Hh Ht Hs He Hturn IH. split; [done|]. intros pre [|fuel] v Hf; [lia|]. apply finishes_turn; [done|].
  eapply (finishes_more _ v (add_tuple (carried_tuple src dst proto p) (append_layer (layer kind (len h) l) v)) _ [layer kind (len h) l]);
    [|done|apply (IH pre h src dst fuel)|].
  - change (layers_of (add_tuple ?t ?w)) with (layers_of w). by rewrite layers_append, He.
  - rewrite length_app in Hf. unfold len in Hh. lia.
  - unfold add_tuple. cbn [Tuples set_tuples]. by rewrite last_snoc.
  - unfold goes, bind. by rewrite Hturn.
Qed.

(** The packet ends with a transport header, or with none that has a layer. *)
Lemma parses_end proto b ls :
  proto ∉ [4; 41; 47] ->
  (proto = 17 -> forall src dst v, exists e, parseUDPTunnel b (carried_tuple src dst 17 b) defaultDecodeOptions v = (Err e, v)) ->
  (forall src dst v, last (Tuples v) = Some (carried_tuple src dst proto b) ->
     exists v', appendTransportLayer proto b v = (Ok tt, v') /\ layers_of v' = layers_of v ++ ls) ->
  parses_at (P_proto proto) b ls.
Proof.
  intros Hp Hudp Ha pre h src dst fuel v Hf Hlast. rewrite !not_elem_of_cons in Hp. destruct Hp as (H4 & H41 & H47 & _).
  destruct (Ha src dst v Hlast) as (v' & Ea & Hl). apply (goes_final _ _ _ v v'); [|done].
  unfold after_ip, ipInIPInnerEtherType. cbn [DecodeBeyondL4 DecodeIPIP DecodeGRE defaultDecodeOptions negb orb andb].
  cbn [tProto carried_tuple].
  destruct (Z.eqb_spec proto 4); [lia|]. destruct (Z.eqb_spec proto 41); [lia|]. destruct (Z.eqb_spec proto 47); [lia|].
  assert (Et : transport_part (pre ++ h ++ b) (len pre) (len h) (carried_tuple src dst proto b) v = return_final v').
  { unfold transport_part. erewrite bind_Ok by apply slice_from_pre2. cbn [tProto carried_tuple]. by erewrite bind_Ok by exact Ea. }
  unfold udp_part. cbn [DecodeBeyondL4 defaultDecodeOptions andb tProto carried_tuple].
  destruct (Z.eqb_spec proto 17) as [->|]; [|done].
  destruct (Hudp eq_refl src dst v) as (e & Ee).
  erewrite bind_Ok by apply slice_from_pre2. unfold try_. by rewrite Ee.
Qed.

Lemma parses_gre l ls b pl :
  u16 (greProtocol l) -> encode_layers ls = Ok b -> parses_at pl b ls ->
  (pl = P_type (greProtocol l) /\ canContinueEtherType (greProtocol l) = true) \/ (pl = P_ether /\ greProtocol l = 0x6558) ->
  exists b', encode_layers (L_gre l :: ls) = Ok b' /\ parses_at (P_proto 47) b' (L_gre l :: ls).
Proof.
  intros Hu E IH Hpl. destruct (parseGRE_eq l b zero_view Hu) as (g & Eg & Lg & _).
  exists (g ++ b). split.
  { cbn [encode_layers]. rewrite E. cbn [rbind]. change (prependLayer (L_gre l) ?p ?n) with (Ok (prependGRE (Some l) p)). by rewrite Eg. }
  intros pre h src dst fuel v Hf _. unfold after_ip.
  change (ipInIPInnerEtherType (tProto (carried_tuple src dst 47 (g ++ b))) defaultDecodeOptions) with (@None Z).
  change (DecodeGRE defaultDecodeOptions && (tProto (carried_tuple src dst 47 (g ++ b)) =? 47)) with true. cbv iota.
  assert (Epre : forall w, parseGRE (g ++ b) w = (Ok (len g, greProtocol l), append_layer (L_gre l) w)).
  { intros w. destruct (parseGRE_eq l b w Hu) as (g' & Eg' & _ & Ew). rewrite Eg in Eg'. apply app_inv_tail in Eg'. by subst. }
  assert (Hl : layers_of (append_layer (L_gre l) v) = layers_of v ++ [L_gre l]).
  { rewrite layers_append. do 2 f_equal. by destruct l as [? [] [] []]. }
  assert (Hfb : (length b < fuel)%nat) by (rewrite length_app in Hf; lia).
  set (rest := fun '(innerOffset, innerProto) => _).
  assert (Em : forall w, (let* d := slice_from (pre ++ h ++ g ++ b) (len pre + len h) in try_ (parseGRE d) rest (ret T_return)) w =
    rest (len g, greProtocol l) (append_layer (L_gre l) w)).
  { intros w. erewrite bind_Ok by apply slice_from_pre2. by rewrite (try_ok _ _ _ _ _ _ (Epre w)). }
  assert (Ed : pre ++ h ++ g ++ b = (pre ++ h ++ g) ++ b) by by rewrite <- !app_assoc.
  assert (Lo : len pre + (len h + len g) = len (pre ++ h ++ g)) by (rewrite !len_app; lia).
  destruct Hpl as [[-> Hc]|[-> He]].
  - destruct (known_type _ Hc) as (_ & _ & Hsh). destruct IH as [_ IH].
    eapply (finishes_more _ v (append_layer (L_gre l) v) _ [L_gre l]); [exact Hl|done|apply (IH (pre ++ h ++ g)); exact Hfb|].
    erewrite goes_eq; [|rewrite Em; unfold rest; cbn [negb DecodeBeyondL4 defaultDecodeOptions]; rewrite Hsh, Hc; reflexivity]. cbv beta iota. by rewrite Lo, Ed.
  - eapply (finishes_more _ v (append_layer (L_gre l) v) _ [L_gre l]); [exact Hl|done|apply (IH (pre ++ h ++ g)); exact Hfb|].
    unfold goes, bind at 1. rewrite Em. unfold rest. cbn [negb DecodeBeyondL4 defaultDecodeOptions]. rewrite He.
    change (shouldParseEthernetPayload 0x6558) with true. cbv iota. by rewrite Lo, Ed.
Qed.

Lemma parses_mpls t labels last t' ls b :
  t = 0x8847 \/ t = 0x8848 -> Forall (label_ok false) labels -> label_ok true last -> ip_type t' = true ->
  parses_at (P_type t') b ls -> parses_at (P_type t) (words (labels ++ [last]) ++ b) (map L_mpls (labels ++ [last]) ++ ls).
Proof.
  intros Ht Hls Hlast Ht' IH. split; [by destruct Ht as [-> | ->]|]. intros pre [|fuel] v Hf; [lia|].
  destruct (parseMPLS_eq labels last b t' v) as (v' & Ep & Hl); [done..|by apply IH|].
  assert (Hlen : (0 < length (words (labels ++ [last])))%nat).
  { pose proof (len_words (labels ++ [last])) as Lw. rewrite len_app, len_cons, len_nil in Lw. pose proof (len_nonneg labels).
    unfold len in *. lia. }
  apply finishes_turn; [by destruct Ht as [-> | ->]|].
  eapply (goes_on t' b ls pre (words (labels ++ [last])) fuel _ v v'); [done|rewrite length_app in Hf; lia| |exact Hl].
  assert (turn_of t = fun d o => mpls_turn d o defaultDecodeOptions) as -> by by destruct Ht as [-> | ->].
  unfold mpls_turn. erewrite bind_Ok by apply slice_from_pre. by erewrite try_ok by exact Ep.
Qed.

Lemma parses_pppoe l t ls b :
  u16 (SessionID l) -> u16 (pppProtocol l) -> ppp_type (pppProtocol l) = Some t -> parses_at (P_type t) b ls ->
  parses_at (P_type 0x8864) (prependPPPoE (Some l) b) (L_pppoe l :: ls).
Proof.
  intros Hs Hp Ht IH. split; [done|]. intros pre [|fuel] v Hf; [lia|].
  assert (Eh : exists h, prependPPPoE (Some l) b = h ++ b /\ len h = 8).
  { unfold prependPPPoE. cbn [default id from_option]. eexists ([0x11; 0x00] ++ be_put 2 (SessionID l) ++ be_put 2 _ ++ be_put 2 (pppProtocol l)).
    split; [by rewrite <- !app_assoc|done]. }
  destruct Eh as (h & Eh & Lh). pose proof (parsePPPoE_eq l t b v Hs Hp Ht) as Ep. rewrite Eh in *.
  apply finishes_turn; [done|]. eapply (goes_on t b ls pre h fuel _ v _ [L_pppoe l]); [done|rewrite length_app in Hf; unfold len in Lh; lia| |].
  - change (turn_of 0x8864 ?d ?o) with (pppoe_turn d o defaultDecodeOptions). unfold pppoe_turn. cbn [negb DecodePPPoE defaultDecodeOptions].
    erewrite bind_Ok by apply slice_from_pre. erewrite try_ok by exact Ep. cbn [negb DecodeBeyondL4]. by rewrite Lh.
  - by rewrite layers_append.
Qed.

Lemma parses_tcp l : tcp_ok l ->
  exists b, encode_layers [layer "tcp" 20 (D_TCP l)] = Ok b /\ parses_at (P_proto 6) b [layer "tcp" 20 (D_TCP l)].
Proof.
  intros (Hs & Hd & Hf & Eq1 & Eq2 & Eq3). destruct l as [sp dp fl sq ak wi]. cbn in *. subst.
  eexists. split; [reflexivity|]. set (b := prependTCP _ _).
  assert (Ep : forall src dst, carried_tuple src dst 6 b =
    {| tSrc := src; tDst := dst; tProto := 6; tSrcPort := sp; tDstPort := dp; TCPFlags := fl |}).
  { intros src dst. unfold carried_tuple. change (len b) with 20. change (take 2 b) with (be_put 2 sp).
    change (take 2 (drop 2 b)) with (be_put 2 dp). change (b !! 13%nat) with (Some fl). by rewrite !be_get_put by done. }
  apply parses_end; [refine (bool_decide_unpack _ _); by vm_compute|done|].
  intros src dst v Hlast. rewrite Ep in Hlast. eexists. split.
  { unfold appendTransportLayer. rewrite Hlast. reflexivity. }
  rewrite layers_append. cbn [tSrcPort tDstPort TCPFlags]. change (tcpHeaderLength b) with 20. by rewrite !to_uint_small by done.
Qed.

Lemma parses_udp l : plain_port (udpSrcPort l) -> plain_port (udpDstPort l) ->
  exists b, encode_layers [layer "udp" 8 (D_UDP l)] = Ok b /\ parses_at (P_proto 17) b [layer "udp" 8 (D_UDP l)].
Proof.
  destruct l as [sp dp]. cbn. intros [Hs Ns] [Hd Nd]. eexists. split; [reflexivity|].
  set (b := prependUDP _ _). assert (Ep : forall src dst, carried_tuple src dst 17 b =
    {| tSrc := src; tDst := dst; tProto := 17; tSrcPort := sp; tDstPort := dp; TCPFlags := 0 |}).
  { intros src dst. unfold carried_tuple. change (len b) with 8. change (take 2 b) with (be_put 2 sp). change (take 2 (drop 2 b)) with (be_put 2 dp).
    by rewrite !be_get_put by done. }
  apply parses_end; [refine (bool_decide_unpack _ _); by vm_compute| |].
  - intros _ src dst v. rewrite Ep. eexists. unfold parseUDPTunnel. rewrite require_ok by (change (len b) with 8; lia).
    rewrite !not_elem_of_cons in Ns, Nd. unfold portMatches. cbn [defaultDecodeOptions DecodeVXLAN DecodeGeneve DecodeL2TP DecodeGTPU
      VXLANPorts GenevePorts L2TPPorts GTPUPorts tDstPort tSrcPort andb].
    repeat match goal with |- context [(?x =? ?y)] => destruct (Z.eqb_spec x y); [exfalso; tauto|] end. reflexivity.
  - intros src dst v Hlast. rewrite Ep in Hlast. eexists. split.
    { unfold appendTransportLayer. rewrite Hlast. reflexivity. }
    rewrite layers_append. cbn [tSrcPort tDstPort]. by rewrite !to_uint_small by done.
Qed.

Ltac fixed_end := eexists; split; [reflexivity|]; apply parses_end;
  [refine (bool_decide_unpack _ _); by vm_compute|done|intros src dst v _; eexists; split; [reflexivity|by rewrite layers_append]].

Lemma stack_parses pl ls : stack pl ls -> exists b, encode_layers ls = Ok b /\ parses_at pl b ls.
Proof.
  induction 1 as [e vlans t ls Hs Hd Hv He Ht Hls (b & E & IH)|l ls Hl Hls (b & E & IH)|l ls Hl Hls (b & E & IH)
    |t labels last t' ls Ht Hlab Hlast Ht' Hls (b & E & IH)|l t ls Hs Hp Ht Hls (b & E & IH)|ls Hls (b & E & IH)|ls Hls (b & E & IH)
    |l ls Hls (b & E & IH)|l ls Hp Hls (b & E & IH)|l Hl|l Hs Hd| | | |p Hp].
  - by apply (parses_eth e vlans t ls b).
  - cbn [encode_layers]. rewrite E. cbn [rbind]. change (prependLayer (layer "ipv4" 20 (D_IPv4 l)) b ?n) with (prependIPv4 (Some l) b).
    eexists. split; [reflexivity|].
    destruct (ipv4_turn_encoded defaultDecodeOptions l b _ [] zero_view Hl eq_refl) as (h & Eh & Lh & Hx & _).
    eapply (parses_ip h b _ 20 "ipv4" (D_IPv4 l)); [exact Eh|exact Lh|lia|done| |done| |exact IH].
    + intros _. rewrite Eh. destruct h as [|x h]; [done|]. injection Hx as ->. by eexists.
    + intros pre v. change (turn_of 0x0800 ?d ?o) with (ipv4_turn d o defaultDecodeOptions). cbv beta.
      by destruct (ipv4_turn_encoded defaultDecodeOptions l b _ pre v Hl eq_refl) as (h' & _ & _ & _ & ->).
  - cbn [encode_layers]. rewrite E. cbn [rbind]. change (prependLayer (layer "ipv6" 40 (D_IPv6 l)) b ?n) with (prependIPv6 (Some l) b).
    eexists. split; [reflexivity|].
    destruct (ipv6_turn_encoded defaultDecodeOptions l b _ [] zero_view Hl eq_refl) as (h & Eh & Lh & (x & Hx & Hv) & _).
    eapply (parses_ip h b _ 40 "ipv6" (D_IPv6 l)); [exact Eh|exact Lh|lia|done| |done| |exact IH].
    + intros _. rewrite Eh. destruct h as [|y h]; [done|]. injection Hx as ->. by eexists.
    + intros pre v. change (turn_of 0x86dd ?d ?o) with (ipv6_turn d o defaultDecodeOptions). cbv beta.
      by destruct (ipv6_turn_encoded defaultDecodeOptions l b _ pre v Hl eq_refl) as (h' & _ & _ & _ & ->).
  - exists (words (labels ++ [last]) ++ b). split; [|by apply (parses_mpls t labels last t')].
    apply encode_labels; [|done]. apply Forall_app. split; [eapply Forall_impl; [exact Hlab|by eexists]|]. constructor; [by eexists|done].
  - cbn [encode_layers]. rewrite E. cbn [rbind]. change (prependLayer (L_pppoe l) b ?n) with (Ok (prependPPPoE (Some l) b)).
    eexists. split; [reflexivity|]. by apply (parses_pppoe l t).
  - exists b. split; [done|]. intros pre h src dst fuel v Hf _. by apply (goes_on 0x0800 b ls pre h fuel _ v v []); [| |reflexivity|rewrite app_nil_r].
  - exists b. split; [done|]. intros pre h src dst fuel v Hf _. by apply (goes_on 0x86dd b ls pre h fuel _ v v []); [| |reflexivity|rewrite app_nil_r].
  - pose proof (stack_type _ _ Hls) as Hc. destruct (known_type _ Hc) as (Hu & _ & _). apply (parses_gre l ls b (P_type (greProtocol l))); auto.
  - apply (parses_gre l ls b P_ether); auto. by rewrite Hp.
  - by apply parses_tcp.
  - by apply parses_udp.
  - fixed_end.
  - fixed_end.
  - fixed_end.
  - exists []. split; [done|]. rewrite !not_elem_of_cons in Hp. apply parses_end; [rewrite !not_elem_of_cons; split_and!; try tauto; apply not_elem_of_nil|tauto|].
    intros src dst v _. exists v. split; [|by rewrite app_nil_r]. unfold appendTransportLayer.
    repeat match goal with |- context [(p =? ?y)] => destruct (Z.eqb_spec p y); [exfalso; tauto|] end. done.
Qed.
End parses.

(** ** Packets *)

(** [fmt.Sscanf] reads back an address that [formatMAC] wrote. *)
Class ScansMAC `{GoLib} : Prop := Sscanf_formatMAC b : is_bytes b -> length b = 6%nat -> Sscanf_MAC (formatMAC b) = Some b.

(** What the parser gives for a packet of a link type: an IP stack, or one behind an Ethernet
    header with its addresses. *)
Inductive packet_stack : Z -> list LayerSpec -> Prop :=
  | K_ipv4 ls : stack (P_type 0x0800) ls -> packet_stack 11 ls
  | K_ipv6 ls : stack (P_type 0x86dd) ls -> packet_stack 12 ls
  | K_ethernet d s vlans t ls :
      is_bytes d -> is_bytes s -> length d = 6%nat -> length s = 6%nat -> Forall vlan_ok vlans ->
      (vlans <> [] -> t <> 0x8848) -> stack (P_type t) ls ->
      packet_stack 1 (L_eth {| ethSrcMAC := formatMAC s; ethDstMAC := formatMAC d; ethEtherType := next_type vlans t |} :: map L_vlan vlans ++ ls).

Lemma stack_ensured pl ls : stack pl ls -> map ensureLayerLength ls = ls.
Proof.
  assert (Hm : forall {A} (f : A -> LayerSpec) l, (forall x, ensureLayerLength (f x) = f x) -> map ensureLayerLength (map f l) = map f l).
  { intros A f l Hf. rewrite map_map. by apply map_ext. }
  induction 1; cbn [map]; rewrite ?map_app, ?Hm by done; try congruence; try done.
  - change (ensureLayerLength (L_eth e)) with (L_eth e). congruence.
  - change (ensureLayerLength (layer "ipv4" 20 (D_IPv4 l))) with (layer "ipv4" 20 (D_IPv4 l)). congruence.
  - change (ensureLayerLength (layer "ipv6" 40 (D_IPv6 l))) with (layer "ipv6" 40 (D_IPv6 l)). congruence.
  - change (ensureLayerLength (L_pppoe l)) with (L_pppoe l). congruence.
  - assert (ensureLayerLength (L_gre l) = L_gre l) by by destruct l as [? [] [] []]. congruence.
  - assert (ensureLayerLength (L_gre l) = L_gre l) by by destruct l as [? [] [] []]. congruence.
Qed.

Lemma parse_packet_layers data protocol v ls :
  parse_packet data protocol defaultDecodeOptions (set_model empty_model zero_view) = (Ok tt, v) ->
  layers_of v = map ensureLayerLength ls ->
  exists v, parsePacketViewWithOptions data protocol defaultDecodeOptions = Ok v /\ layers_of v = map ensureLayerLength ls.
Proof. intros E Hl. exists v. unfold parsePacketViewWithOptions. by rewrite E. Qed.

Lemma parse_ip_packet t b ls :
  ip_type t = true -> parses_at (P_type t) b ls ->
  exists v, parsePacketViewWithOptions b (if t =? 0x0800 then 11 else 12) defaultDecodeOptions = Ok v /\ layers_of v = map ensureLayerLength ls.
Proof.
  intros Ht [Hs Hp]. destruct (Hs Ht) as (x & Hx & Hv). destruct b as [|y b]; [done|]. injection Hx as ->.
  destruct (Hp [] (S (length (x :: b))) (set_model empty_model zero_view) ltac:(cbn; lia)) as (v & E & Hl). cbn [app len length] in E.
  apply (parse_packet_layers _ _ v ls); [|exact Hl]. unfold parse_packet.
  pose proof (len_nonneg b). assert (H0 : len (x :: b) =? 0 = false) by (apply Z.eqb_neq; rewrite len_cons; lia).
  assert (H1 : len (x :: b) <=? 0 = false) by (apply Z.leb_gt; rewrite len_cons; lia). rewrite H0.
  change (len []) with 0 in E. cbn [length] in *.
  unfold ip_type in Ht. destruct (Z.eqb_spec t 0x0800) as [->|]; [|apply Z.eqb_eq in Ht; subst].
  - unfold packet_start. cbn [Z.eqb Pos.eqb]. erewrite bind_Ok by reflexivity. cbv beta iota. rewrite H1.
    rewrite <- E. cbn [packet_loop]. unfold packet_turn. cbn [Z.eqb Pos.eqb]. reflexivity.
  - unfold packet_start. cbn [Z.eqb Pos.eqb]. erewrite bind_Ok by reflexivity. cbv beta iota. rewrite H1.
    rewrite <- E. cbn [packet_loop]. unfold packet_turn. cbn [Z.eqb Pos.eqb direct_version].
    rewrite !bind_assoc. erewrite bind_Ok by by apply index_eq. rewrite Hv. by erewrite (bind_Ok _ _ false) by reflexivity.
Qed.

Lemma encode_nonempty `{GoLib} t ls b : stack (P_type t) ls -> encode_layers ls = Ok b -> 0 < len b.
Proof.
  assert (Hr : forall (r : res bytes) (k : bytes -> res bytes) b, (forall p b, k p = Ok b -> 0 < len b) -> rbind r k = Ok b -> 0 < len b).
  { intros [] k b' Hk Hr; try done. by apply (Hk _ _ Hr). }
  assert (Hc : forall b : bytes, (exists x r, b = x :: r) -> 0 < len b).
  { intros b' (x & r & ->). rewrite len_cons. pose proof (len_nonneg r). lia. }
  intros Hs. inversion Hs; subst; try destruct labels; cbn [map app encode_layers]; apply Hr; intros q b' E; injection E as <-;
    apply Hc; do 2 eexists; reflexivity.
Qed.

Section packets.
#[local] Set Default Proof Using "Type*".
Context `{ScansMAC}.

Lemma parseMAC_formatMAC m : is_bytes m -> length m = 6%nat -> copy_zeros 6 (parseMACOrZero (formatMAC m)) = m.
Proof.
  intros Bm Lm. unfold parseMACOrZero. replace (String.eqb (formatMAC m) "") with false.
  2:{ destruct m as [|x1 [|x2 [|x3 [|x4 [|x5 [|x6 [|]]]]]]]; try done. }
  rewrite (Sscanf_formatMAC m) by done. unfold copy_zeros. rewrite firstn_all2 by lia. rewrite Lm. apply app_nil_r.
Qed.

(** An Ethernet header in front of a stack. *)
Section ethernet.
Context (d s : bytes) (vlans : list VLANLayer) (t : Z) (ls : list LayerSpec) (b : bytes).
Context (Bd : is_bytes d) (Bs : is_bytes s) (Ld : length d = 6%nat) (Ls : length s = 6%nat) (Hv : Forall vlan_ok vlans).
Context (Ht : vlans <> [] -> t <> 0x8848) (Hls : stack (P_type t) ls) (E : encode_layers ls = Ok b).
#[local] Set Default Proof Using "Type*".

Let top : list LayerSpec :=
  L_eth {| ethSrcMAC := formatMAC s; ethDstMAC := formatMAC d; ethEtherType := next_type vlans t |} :: map L_vlan vlans ++ ls.

Lemma encode_ethernet_packet : encode_layers top = Ok (eth_bytes d s vlans t ++ b).
Proof.
  unfold top. cbn [encode_layers]. rewrite (encode_vlans vlans t ls b) by done. cbn [rbind].
  change (prependLayer (L_eth ?e) ?p ?n) with (Ok (prependEthernet (Some e) p n)).
  unfold prependEthernet. cbn [default id from_option ethSrcMAC ethDstMAC ethEtherType].
  rewrite !parseMAC_formatMAC, (explicit_type vlans t ls) by done. unfold eth_bytes. by rewrite <- !app_assoc.
Qed.

Lemma parse_ethernet_packet :
  parses_at (P_type t) b ls ->
  exists v, parsePacketViewWithOptions (eth_bytes d s vlans t ++ b) 1 defaultDecodeOptions = Ok v /\ layers_of v = top.
Proof.
  intros [_ Hp]. destruct (known_type t (stack_type t ls Hls)) as (Hu & Htag & _).
  pose proof (encode_nonempty t ls b Hls E) as Hb.
  destruct (parseEthernet_eq true d s vlans t b (set_model empty_model zero_view)) as (v1 & Ep & Hl1); [done..|].
  destruct (Hp (eth_bytes d s vlans t) (S (length (eth_bytes d s vlans t ++ b))) v1) as (v & Ev & Hl); [rewrite length_app; lia|].
  exists v. split.
  - unfold parsePacketViewWithOptions, parse_packet.
    assert (Hlen : len (eth_bytes d s vlans t ++ b) = len (eth_bytes d s vlans t) + len b) by apply len_app. pose proof (len_nonneg (eth_bytes d s vlans t)).
    replace (len (eth_bytes d s vlans t ++ b) =? 0) with false by (symmetry; apply Z.eqb_neq; lia).
    unfold packet_start. cbn [Z.eqb Pos.eqb]. rewrite bind_assoc. erewrite bind_Ok by exact Ep. erewrite bind_Ok by reflexivity. cbv beta iota.
    replace (len (eth_bytes d s vlans t ++ b) <=? len (eth_bytes d s vlans t)) with false by (symmetry; apply Z.leb_gt; lia). by rewrite Ev.
  - rewrite Hl, Hl1. unfold top. cbn [layers_of set_model Model empty_model pmLayers app eth_layer].
    by rewrite map_cons, map_app, map_map, (stack_ensured _ _ Hls).
Qed.
End ethernet.
End packets.


(** The library of the examples scans addresses. *)
Lemma hex_value_digit n : 0 <= n < 16 -> hex_value (hex_digit n) = Some n.
Proof.
  intros Hn. assert (H : forallb (fun k => bool_decide (hex_value (hex_digit (Z.of_nat k)) = Some (Z.of_nat k))) (seq 0 16) = true) by by vm_compute.
  rewrite forallb_forall in H. specialize (H (Z.to_nat n)). rewrite Z2Nat.id in H by lia.
  apply (bool_decide_unpack _), Is_true_true, H, in_seq. lia.
Qed.

Lemma simple_lib_scans : @ScansMAC simple_lib.
Proof.
  intros b Hb Hl. destruct b as [|x1 [|x2 [|x3 [|x4 [|x5 [|x6 [|]]]]]]]; try done. clear Hl.
  assert (Hx : forall x, u8 x -> hex_value (hex_digit (x / 16)) = Some (x / 16) /\ hex_value (hex_digit (x mod 16)) = Some (x mod 16) /\ x / 16 * 16 + x mod 16 = x).
  { intros x [Hx1 Hx2]. rewrite !hex_value_digit by (Z.to_euclidean_division_equations; lia). split_and!; [done..|]. Z.to_euclidean_division_equations. lia. }
  unfold is_bytes in Hb. rewrite !Forall_cons in Hb. destruct Hb as (H1 & H2 & H3 & H4 & H5 & H6 & _).
  destruct (Hx x1 H1) as (A1 & B1 & C1), (Hx x2 H2) as (A2 & B2 & C2), (Hx x3 H3) as (A3 & B3 & C3).
  destruct (Hx x4 H4) as (A4 & B4 & C4), (Hx x5 H5) as (A5 & B5 & C5), (Hx x6 H6) as (A6 & B6 & C6).
  change (scan_pairs 6 (formatMAC [x1; x2; x3; x4; x5; x6]) = Some [x1; x2; x3; x4; x5; x6]).
  unfold formatMAC, HardwareAddr_String, hex_byte. change (len [x1; x2; x3; x4; x5; x6] =? 6) with true.
  cbn -[Z.div Z.modulo hex_digit hex_value]. cbv beta iota delta [String.append].
  cbn -[Z.div Z.modulo hex_digit hex_value]. rewrite A1, B1, A2, B2, A3, B3, A4, B4, A5, B5, A6, B6. cbn -[Z.div Z.modulo]. by rewrite C1, C2, C3, C4, C5, C6.
Qed.

(** A tagged frame with an MPLS label, and IPv6 with TCP in GRE in IPv4 behind it. *)
Definition sample_ip4 : IPv4Layer :=
  {| ip4Src := Addr4 [192; 0; 2; 1]; ip4Dst := Addr4 [192; 0; 2; 2]; Protocol := 47; ip4TTL := 64; DSCP := 46; ECN := 1;
     Identification := 4660; ip4Flags := 2; FragmentOffset := 0 |}.
Definition sample_ip6 : IPv6Layer :=
  {| ip6Src := Addr6 (repeat 1 16) ""; ip6Dst := Addr6 (repeat 2 16) ""; NextHeader := 6; HopLimit := 3; TrafficClass := 184; FlowLabel := 703710 |}.
Definition sample_gre : GRELayer := {| greProtocol := 0x86dd; Checksum := false; greKey := true; Sequence := true |}.
Definition sample_tcp : TCPLayer := {| tcpSrcPort := 443; tcpDstPort := 52000; tcpFlags := 18; Seq := 0; Ack := 0; Window := 0 |}.
Definition sample_vlan : VLANLayer := {| vlanID := 100; PCP := 5; DEI := true; TPID := 0x8100 |}.
Definition sample_label : MPLSLabel := {| Label := 16001; TC := 3; BOS := true; labelTTL := 255 |}.
Definition sample_inner : list LayerSpec :=
  map L_mpls ([] ++ [sample_label]) ++ [layer "ipv4" 20 (D_IPv4 sample_ip4); L_gre sample_gre; layer "ipv6" 40 (D_IPv6 sample_ip6); layer "tcp" 20 (D_TCP sample_tcp)].

Lemma sample_inner_stack : stack (P_type 0x8847) sample_inner.
Proof.
  unfold sample_inner. apply (S_mpls _ [] _ 0x0800); [by left|constructor|by repeat split|done|].
  apply (S_ipv4 sample_ip4); [split; [by exists [192; 0; 2; 1], [192; 0; 2; 2]|by repeat split]|].
  apply (S_gre sample_gre), (S_ipv6 sample_ip6); [split; [by exists (repeat 1 16), (repeat 2 16)|by repeat split]|].
  apply S_tcp. by repeat split.
Qed.

Definition sample_mac (x : Z) : bytes := [2; 0; 0; 0; 0; x].
Definition sample_packet : list LayerSpec :=
  L_eth {| ethSrcMAC := formatMAC (sample_mac 1); ethDstMAC := formatMAC (sample_mac 2); ethEtherType := next_type [sample_vlan] 0x8847 |} ::
  map L_vlan [sample_vlan] ++ sample_inner.

