(* ===== verification/ReflowPacketProps.v ===== *)
(** * pkg/reflow/packet: a tunnel that the parser cannot follow

    Behind a tunnel header with an unknown payload type the loop cuts the transport header of
    the outer packet at the wrong place: the offset has moved past the tunnel already. *)
From S2P Require Import Prelude Text DecodersUtils ProtoReflect ReflowEvent ReflowDecode ReflowPacket ReflowPacketEncode ReflowPacketRoundtrip.

(** [GRE] with a payload type that is neither Ethernet nor a type of the loop. *)
Definition unknown_payload (t : Z) : Prop := shouldParseEthernetPayload t = false /\ canContinueEtherType t = false.

Lemma slice_from_short {S} data offset (s : S) : len data < offset -> slice_from data offset s = (Panic "slice bounds out of range", s).
Proof. intros H. unfold slice_from, slice. replace (len data <? offset) with true by (symmetry; by apply Z.ltb_lt). by rewrite orb_true_r. Qed.

Lemma slice_from_long {S} data offset (s : S) : 0 <= offset <= len data -> exists d, slice_from data offset s = (Ok d, s).
Proof. intros H. unfold slice_from. rewrite slice_eq by lia. by eexists. Qed.

Lemma transport_part_outcome data offset n tuple v :
  0 <= offset + n ->
  match transport_part data offset n tuple v with
  | (Ok T_return, _) => offset + n <= len data
  | (Panic _, _) => len data < offset + n
  | _ => False
  end.
Proof.
  intros Hn. unfold transport_part. destruct (Z.lt_ge_cases (len data) (offset + n)) as [Hl|Hl].
  - unfold bind. by rewrite slice_from_short.
  - destruct (slice_from_long data (offset + n) v) as (d & E); [lia|]. erewrite bind_Ok by exact E.
    assert (Ha : exists v', appendTransportLayer (tProto tuple) d v = (Ok tt, v')).
    { unfold appendTransportLayer. repeat (destruct (_ =? _); [by eexists|]). by eexists. }
    destruct Ha as (v' & Ea). by erewrite bind_Ok by exact Ea.
Qed.

(** An IPv4 packet whose GRE header has a payload type that the parser does not know
    brings it down when fewer than twenty bytes follow the GRE header: it slices the data
    behind their end.  With twenty bytes or more it returns. *)
Lemma gre_unknown_payload (l : IPv4Layer) (g : GRELayer) (payload b : bytes) (opts : DecodeOptions) :
  ip4_ok l -> Protocol l = 47 -> u16 (greProtocol g) -> unknown_payload (greProtocol g) ->
  DecodeGRE opts = true -> DecodeBeyondL4 opts = true ->
  prependIPv4 (Some l) (prependGRE (Some g) payload) = Ok b ->
  match parsePacketViewWithOptions b 11 opts with
  | Ok _ => 20 <= len payload
  | Panic _ => len payload < 20
  | _ => False
  end.
Proof.
  intros Hl Hp Hu [He Hc] Hg H4 E. set (v := set_model empty_model zero_view).
  destruct (parseGRE_eq g payload v Hu) as (h & Eg & Lh & _). rewrite Eg in E.
  destruct (ipv4_turn_encoded opts l _ b [] v Hl E) as (ip & -> & Lip & _ & Eip). cbn [app] in Eip.
  change (len []) with 0 in Eip. rewrite Hp in Eip.
  set (data := ip ++ h ++ payload) in *. set (tuple := carried_tuple _ _ 47 _) in *. set (v1 := add_tuple _ _) in *.
  assert (Ld : len data = 20 + len h + len payload) by (unfold data; rewrite !len_app; lia). pose proof (len_nonneg payload).
  assert (Eafter : after_ip data 0 20 tuple opts v1 = transport_part data (20 + len h) 20 tuple (append_layer (L_gre g) v1)).
  { unfold after_ip. replace (ipInIPInnerEtherType (tProto tuple) opts) with (@None Z) by (unfold ipInIPInnerEtherType; cbn; by destruct (_ || _)).
    rewrite Hg. change (tProto tuple =? 47) with true. cbn [andb].
    erewrite bind_Ok by (rewrite <- Lip; apply slice_from_pre).
    destruct (parseGRE_eq g payload v1 Hu) as (h' & Eg' & _ & Er). rewrite Eg in Eg'. apply app_inv_tail in Eg'. subst h'.
    erewrite try_ok by exact Er. rewrite H4. cbn [negb]. rewrite He, Hc. unfold udp_part. rewrite H4. by change (tProto tuple =? 17) with false. }
  unfold parsePacketViewWithOptions, parse_packet. fold v.
  replace (len data =? 0) with false by (symmetry; apply Z.eqb_neq; lia).
  unfold packet_start. cbn [Z.eqb Pos.eqb]. erewrite bind_Ok by reflexivity. cbv beta iota.
  replace (len data <=? 0) with false by (symmetry; apply Z.leb_gt; lia).
  cbn [packet_loop]. unfold packet_turn. cbn [Z.eqb Pos.eqb]. rewrite bind_assoc. erewrite bind_Ok by reflexivity. cbv beta iota.
  rewrite bind_assoc. unfold bind. rewrite Eip, Eafter.
  pose proof (transport_part_outcome data (20 + len h) 20 tuple (append_layer (L_gre g) v1) ltac:(lia)) as Ho.
  destruct (transport_part _ _ _ _ _) as [[[]| | |] ?]; try done; cbn; lia.
Qed.

(** A GRE packet of four and twenty bytes with a payload type of its vendor. *)
Definition vendor_ip : IPv4Layer :=
  {| ip4Src := Addr4 [10; 0; 0; 1]; ip4Dst := Addr4 [10; 0; 0; 2]; Protocol := 47; ip4TTL := 64; DSCP := 0; ECN := 0; Identification := 0;
     ip4Flags := 0; FragmentOffset := 0 |}.
Definition vendor_gre : GRELayer := {| greProtocol := 0x880b; Checksum := false; greKey := false; Sequence := false |}.
Definition vendor_packet : bytes := [0x45; 0; 0; 24; 0; 0; 0; 0; 64; 47; 0; 0; 10; 0; 0; 1; 10; 0; 0; 2; 0; 0; 0x88; 0x0b].
