(* ===== verification/ReflowNormalize.v ===== *)
(** * pkg/reflow/packet: the normalisation of packet events

    [NormalizeEvent] of [normalize.go] fills in the fields of an event from its packet bytes;
    [BuildPseudoHeader] goes the other way for an event without them.  An event is passed by
    pointer: the computations here have it as their state. *)
From Stdlib Require Import Ascii.
From S2P Require Import Prelude Text DecodersUtils ProtoReflect ReflowEvent ReflowDecode ReflowPacket ReflowPacketEncode.

Record AggregationHelperOptions : Type := { helperMPLSLabels : Z; helperIPLayers : Z }.

(** A [FeatureExtractor]: its name, and what it makes of the model. *)
Record FeatureExtractor : Type := { exName : string; Extract : PacketModel -> bytes -> PacketModel * option error }.

Record NormalizeOptions : Type := {
  DisablePacketMapping : bool; TruncatePacketBytes : Z; UsePayloadAsPacket : bool; TruncatePayload : bool; HeaderProtocol : Z;
  Decode_ : DecodeOptions; AggregationHelpers : AggregationHelperOptions; Extractors : list (option FeatureExtractor)
}.

(** [time.Time{}]; instants are nanoseconds, and 0 is the zero time. *)
Definition zero_time : Z := 0.

(** ** Fields *)

Section fields.
Context `{GoLib}.

Definition fieldStringOrZero (m : fields) (key : string) : string :=
  match m !! key with
  | Some (A_string s) => s
  | Some v => SprintAny v
  | None => ""
  end.

(** [Atoi] gives what [json.Number.Int64] gives, [None] for an error. *)
Definition uint32FromAny (val : any) : Z :=
  match val with
  | A_int K_uint32 v => v
  | A_int K_uint64 v | A_int K_int v | A_int K_int64 v => to_uint 32 v
  | A_float64 b => float64_to_uint32 b
  | A_number s => match Atoi s with Some n => if n <? 0 then 0 else to_uint 32 n | None => 0 end
  | A_string s => match Sscan_uint64 s with Some n => to_uint 32 n | None => 0 end
  | _ => 0
  end.

Definition fieldUint32 (m : fields) (key : string) : Z := match m !! key with Some v => uint32FromAny v | None => 0 end.

(** A string is converted to the bytes it holds. *)
Definition bytesField (m : fields) (key : string) : bytes :=
  match m !! key with
  | Some (A_bytes v) => v
  | Some (A_string s) => string_bytes s
  | _ => []
  end.

Definition sampledHeaderProtocolName (proto : Z) : string :=
  if proto =? 1 then "ethernet" else if proto =? 11 then "ipv4" else if proto =? 12 then "ipv6" else "".

(** ** From a view to fields *)

Definition numbered (prefix : string) (n : Z) (suffix : string) : string := (prefix +:+ itoa n +:+ suffix)%string.
Definition str (s : string) : any := A_string s.

(** The body of a loop over the layers of one kind, with their number from 1. *)
Fixpoint over_layers {A} (pick : LayerSpec -> option A) (f : Z -> A -> fields -> fields) (n : Z) (ls : list LayerSpec) (m : fields) : fields :=
  match ls with
  | [] => m
  | l :: ls' => match pick l with Some a => over_layers pick f (n + 1) ls' (f (n + 1) a m) | None => over_layers pick f n ls' m end
  end.

Definition the_vlan (l : LayerSpec) : option VLANLayer :=
  if String.eqb (lKind l) "dot1q" then match lData l with D_VLAN v => Some v | _ => None end else None.
Definition the_label (l : LayerSpec) : option MPLSLabel :=
  if String.eqb (lKind l) "mpls" then match lData l with D_MPLS v => Some v | _ => None end else None.
Definition the_vxlan (l : LayerSpec) : option VXLANLayer :=
  if String.eqb (lKind l) "vxlan" then match lData l with D_VXLAN v => Some v | _ => None end else None.

Definition applyDot1QFields (m : fields) (model : PacketModel) : fields :=
  over_layers the_vlan (fun index v m =>
    let values := [("vlan_id", u32_field (vlanID v)); ("priority", u32_field (PCP v)); ("dei", A_bool (DEI v))]%string in
    let with_prefix p m := put_fields (map (fun kv => (String.append p kv.1, kv.2)) values) m in
    let m := with_prefix (numbered "dot1q_" index "_") m in
    if index =? 1 then with_prefix "dot1q_"%string m else if index =? 2 then with_prefix "dot1q_customer_"%string m else m)
    0 (pmLayers model) m.

Definition applyLayer2SegmentFields (m : fields) (model : PacketModel) : fields :=
  match head (omap the_vxlan (pmLayers model)) with
  | Some v =>
      let vni := Z.land (vxlanVNI v) 0x00ffffff in
      put_fields [("vxlan_vni", u32_field vni); ("layer2_segment_id", A_int K_uint64 (Z.lor (Z.shiftl 1 56) vni))]%string m
  | None => m
  end.

Definition mplsLabelStackSection (l : MPLSLabel) : bytes :=
  let raw := Z.lor (Z.shiftl (Z.land (Label l) 0xfffff) 4) (Z.shiftl (Z.land (TC l) 0x7) 1) in
  be_put 3 (if BOS l then Z.lor raw 1 else raw).

Definition applyMPLSLabelHelperFields (m : fields) (model : PacketModel) (limit : Z) : fields :=
  if limit <=? 0 then m
  else
    over_layers the_label (fun index l m =>
      if limit <? index then m
      else put_fields [(numbered "mpls_label_" index "", u32_field (Label l));
                       (numbered "mpls_label_stack_section_" index "", A_bytes (mplsLabelStackSection l))] m)
      0 (pmLayers model) m.

(** The six fields of a tuple, under names with a prefix. *)
Definition tuple_fields (prefix : string) (t : packetTuple) (m : fields) : fields :=
  put_fields (map (fun kv => (String.append prefix kv.1, kv.2))
    [("src_addr", str (Addr_String (tSrc t))); ("dst_addr", str (Addr_String (tDst t))); ("proto", u32_field (tProto t));
     ("proto_name", str (ipProtocolName (tProto t))); ("src_port", u32_field (tSrcPort t)); ("dst_port", u32_field (tDstPort t))]%string) m.

Fixpoint ip_layer_fields (i limit : Z) (tuples : list packetTuple) (m : fields) : fields :=
  match tuples with
  | [] => m
  | t :: ts => if limit <=? i then m else ip_layer_fields (i + 1) limit ts (tuple_fields (numbered "ip_" (i + 1) "_") t m)
  end.
Definition applyIPLayerHelperFields (m : fields) (tuples : list packetTuple) (limit : Z) : fields :=
  if limit <=? 0 then m else ip_layer_fields 0 limit tuples m.

Definition applyAggregationHelperFields (m : fields) (v : packetView) (helpers : AggregationHelperOptions) : fields :=
  match Model v with
  | None => m
  | Some model =>
      let m := if 0 <? helperMPLSLabels helpers then applyMPLSLabelHelperFields m model (helperMPLSLabels helpers) else m in
      if 0 <? helperIPLayers helpers then applyIPLayerHelperFields m (Tuples v) (helperIPLayers helpers) else m
  end.

Definition put_if (c : bool) (k : string) (val : any) (m : fields) : fields := if c then <[k := val]> m else m.

Fixpoint label_fields (i : Z) (labels : list Z) (m : fields) : fields :=
  match labels with
  | [] => m
  | l :: ls => if 3 <=? i then m else label_fields (i + 1) ls (<[numbered "mpls_label" (i + 1) "" := u32_field l]> m)
  end.

Definition applyPacketViewFields (m : fields) (v : packetView) (helpers : AggregationHelperOptions) : fields :=
  let m := put_if (negb (String.eqb (vSrcMAC v) "")) "src_mac" (str (vSrcMAC v)) m in
  let m := put_if (negb (String.eqb (vDstMAC v) "")) "dst_mac" (str (vDstMAC v)) m in
  let m := put_if (negb (vEtherType v =? 0)) "ether_type" (u32_field (vEtherType v)) m in
  let m := match Model v with
           | Some model =>
               applyLayer2SegmentFields
                 (applyDot1QFields (<["packet_ip_depth"%string := u32_field (to_uint 32 (packetIPDepth model))]> m) model) model
           | None => m
           end in
  let m := applyAggregationHelperFields m v helpers in
  let m := match VLANIDs v with
           | [] => m
           | id :: _ => <["vlan_id"%string := u32_field id]> (<["vlan_ids"%string := A_uint32s (VLANIDs v)]> m)
           end in
  let m := match MPLSLabels v with
           | [] => m
           | l :: _ => label_fields 0 (MPLSLabels v) (<["mpls_label"%string := u32_field l]> m)
           end in
  let m := match last (Tuples v) with
           | Some t =>
               let m := tuple_fields "" t m in
               let m := <["ip_family"%string := str (if Is6 (tSrc t) || Is6 (tDst t) then "ipv6" else "ipv4")]> m in
               put_if (tProto t =? 6) "tcp_flags" (u32_field (TCPFlags t)) m
           | None => m
           end in
  match Tuples v with
  | outer :: _ :: _ =>
      let m := tuple_fields "outer_" outer m in
      let m := put_if (tProto outer =? 6) "outer_tcp_flags" (u32_field (TCPFlags outer)) m in
      <["encap_depth"%string := u32_field (to_uint 32 (len (Tuples v) - 1))]> m
  | _ => m
  end.
End fields.

(** ** From a model to a view *)

Definition model_tuple (src dst : addr) (proto : Z) : packetTuple :=
  {| tSrc := src; tDst := dst; tProto := proto; tSrcPort := 0; tDstPort := 0; TCPFlags := 0 |}.

(** The last tuple takes the ports of the transport layer behind it. *)
Definition with_ports (t : packetTuple) (proto sport dport flags : Z) : packetTuple :=
  {| tSrc := tSrc t; tDst := tDst t; tProto := if tProto t =? 0 then proto else tProto t; tSrcPort := sport; tDstPort := dport;
     TCPFlags := flags |}.
Definition update_last (f : packetTuple -> packetTuple) (v : packetView) : packetView :=
  match last (Tuples v) with
  | Some t => set_tuples (removelast (Tuples v) ++ [f t]) v
  | None => v
  end.

Definition view_layer (v : packetView) (l : LayerSpec) : packetView :=
  let v := if String.eqb (lKind l) "" then v else set_layers (vLayers v ++ [lKind l]) v in
  let kind := String.eqb (lKind l) in
  match lData l with
  | D_Ethernet e => if kind "ethernet" then set_etype (ethEtherType e) (set_macs (ethSrcMAC e) (ethDstMAC e) v) else v
  | D_VLAN x => if kind "dot1q" then add_vlan (vlanID x) v else v
  | D_MPLS x => if kind "mpls" then add_label (Label x) v else v
  | D_IPv4 x => if kind "ipv4" then add_tuple (model_tuple (ip4Src x) (ip4Dst x) (Protocol x)) v else v
  | D_IPv6 x => if kind "ipv6" then add_tuple (model_tuple (ip6Src x) (ip6Dst x) (NextHeader x)) v else v
  | D_TCP x =>
      if kind "tcp" then update_last (fun t => with_ports t 6 (tcpSrcPort x) (tcpDstPort x) (tcpFlags x)) v else v
  | D_UDP x =>
      if kind "udp" then update_last (fun t => with_ports t 17 (udpSrcPort x) (udpDstPort x) (TCPFlags t)) v else v
  | _ => v
  end.

Definition packetViewFromModel (m : PacketModel) : packetView := fold_left view_layer (pmLayers m) (set_model m zero_view).

(** ** NormalizeEvent *)

Section normalize.
Context `{GoLib}.

Definition ApplyModelFieldsWithHelpers (m : fields) (model : option PacketModel) (helpers : AggregationHelperOptions) : fields :=
  match model with None => m | Some model => applyPacketViewFields m (packetViewFromModel model) helpers end.
Definition ApplyModelFields (m : fields) (model : option PacketModel) : fields :=
  ApplyModelFieldsWithHelpers m model {| helperMPLSLabels := 0; helperIPLayers := 0 |}.

(** [if _, ok := fields[k]; !ok { fields[k] = v }]. *)
Definition put_missing (k : string) (v : any) (m : fields) : fields := match m !! k with Some _ => m | None => <[k := v]> m end.
Definition put_zero (k : string) (z : Z) (m : fields) : fields := if fieldUint32 m k =? 0 then <[k := u32_field z]> m else m.

Definition setDefaultInterfaces (ifIndex : Z) (m : fields) : fields :=
  if negb (fieldUint32 m "input_if" =? 0) || negb (fieldUint32 m "output_if" =? 0) then m
  else if ifIndex <=? 0 then m
  else put_fields [("input_if", u32_field (to_uint 32 ifIndex)); ("output_if", u32_field (to_uint 32 ifIndex))]%string m.

(** [time.Time.UnixMilli]. *)
Definition UnixMilli (t : Z) : Z := t / 1000000.

Definition packet_defaults (header received HeaderProtocol ifIndex : Z) (m : fields) : fields :=
  let m := put_missing "record_kind" (str "packet") m in
  let m := put_zero "frame_length" (to_uint 32 header) m in
  let m := put_zero "original_length" (to_uint 32 header) m in
  let m := put_missing "bytes" (A_int K_int64 (fieldUint32 m "frame_length")) m in
  let m := put_missing "packets" (A_int K_int64 1) m in
  let m := put_missing "start_time_unix" (A_int K_int64 (UnixMilli received)) m in
  let m := put_missing "end_time_unix" (A_int K_int64 (UnixMilli received)) m in
  let m := if HeaderProtocol =? 0 then m else put_zero "protocol" HeaderProtocol m in
  let m := if HeaderProtocol =? 0 then m
           else put_missing "header_protocol_name" (str (sampledHeaderProtocolName HeaderProtocol)) m in
  setDefaultInterfaces ifIndex m.

Definition truncatePacketData (m : fields) (p : payload) (maxBytes : Z) (truncatePayload : bool) : fields * payload :=
  if maxBytes <=? 0 then (m, p)
  else
    let headerData := bytesField m "header_data" in
    let m := if maxBytes <? len headerData then <["header_data"%string := A_bytes (take (Z.to_nat maxBytes) headerData)]> m else m in
    (m, match p with
        | PL_bytes b => if truncatePayload && (maxBytes <? len b) then PL_bytes (take (Z.to_nat maxBytes) b) else p
        | _ => p
        end).

Definition set_event (received : Z) (m : fields) (packet : option PacketModel) (p : payload) (e : Event) : Event :=
  {| ReceivedAt := received; Kind := Kind e; Stream := Stream e; Source := Source e; Control := Control e; Fields := Some m;
     evtMessage := evtMessage e; evtPacket := packet; SFlow := SFlow e; Aggregation := Aggregation e; Payload := p; Internal := Internal e |}.

(** The extractors in order; each may change the model. *)
Fixpoint extract_all (l : list (option FeatureExtractor)) (model : option PacketModel) (header : bytes) : option PacketModel * option error :=
  match l, model with
  | Some x :: l', Some m =>
      match Extract x m header with
      | (m', None) => extract_all l' (Some m') header
      | (m', Some e) => (Some m', Some (Wrap "extract packet feature" [] e))
      end
  | _ :: l', _ => extract_all l' model header
  | [], _ => (model, None)
  end.

(** What is done with the packet bytes of the fields. *)
Definition normalize_header (now : Z) (opts : NormalizeOptions) (m : fields) : ST Event unit := fun e =>
  match bytesField m "header_data" with
  | [] => (Ok tt, set_event (ReceivedAt e) m (evtPacket e) (Payload e) e)
  | headerData =>
      let received := if ReceivedAt e =? zero_time then now else ReceivedAt e in
      let m := packet_defaults (len headerData) received (HeaderProtocol opts) (CaptureInterfaceIndex (Source e)) m in
      let finish packet m :=
        let '(m, p) := truncatePacketData m (Payload e) (TruncatePacketBytes opts) (TruncatePayload opts) in
        (Ok tt, set_event received m packet p e) in
      match parsePacketViewWithOptions headerData (HeaderProtocol opts) (withDefaults (Decode_ opts)) with
      | Panic w => (Panic w, set_event received m (evtPacket e) (Payload e) e)
      | Hang => (Hang, e)
      | Err _ => finish (evtPacket e) m
      | Ok view =>
          match extract_all (Extractors opts) (Model view) headerData with
          | (packet, Some err) => (Err err, set_event received m packet (Payload e) e)
          | (packet, None) =>
              let view := match packet with Some model => set_model model view | None => view end in
              finish packet (if DisablePacketMapping opts then m else applyPacketViewFields m view (AggregationHelpers opts))
          end
      end
  end.

Definition NormalizeEvent (now : Z) (opts : NormalizeOptions) : ST Event unit := fun e =>
  let m := ensureFields e in
  if UsePayloadAsPacket opts then
    match Payload e with
    | PL_bytes ((_ :: _) as p) => normalize_header now opts (<["header_data"%string := A_bytes p]> m) e
    | _ => (Err (Errorf "normalize packet event: missing payload bytes" []), set_event (ReceivedAt e) m (evtPacket e) (Payload e) e)
    end
  else normalize_header now opts m e.
End normalize.

(** ** BuildPseudoHeader *)

Section pseudo.
Context `{GoLib}.

(** A [pseudoIPLayer] that is [Valid]; its addresses are. *)
Record pseudoIPLayer : Type := { psSrc : addr; psDst : addr; psProto : Z; psSrcPort : Z; psDstPort : Z }.

Definition pseudoIPLayerFromFields (m : fields) (srcKey dstKey protoKey srcPortKey dstPortKey : string) : option pseudoIPLayer :=
  match ParseAddr (fieldStringOrZero m srcKey), ParseAddr (fieldStringOrZero m dstKey) with
  | Some src, Some dst =>
      Some {| psSrc := src; psDst := dst; psProto := fieldUint32 m protoKey; psSrcPort := fieldUint32 m srcPortKey;
              psDstPort := fieldUint32 m dstPortKey |}
  | _, _ => None
  end.

Definition spec (kind : string) (d : layer_data) : LayerSpec := layer kind 0 d.

Definition pseudoPacketHasLinkLayer (m : fields) : bool :=
  negb (String.eqb (fieldStringOrZero m "src_mac") "") || negb (String.eqb (fieldStringOrZero m "dst_mac") "") ||
  existsb (fun k => negb (fieldUint32 m k =? 0)) ["ether_type"; "vlan_id"; "mpls_label"; "pppoe_session_id"]%string ||
  match m !! "vlan_ids"%string with Some (A_uint32s (_ :: _)) => true | _ => false end.

Definition zero_mac : string := "00:00:00:00:00:00".
Definition pseudo_ethernet (m : fields) : LayerSpec :=
  let mac k := let s := fieldStringOrZero m k in if String.eqb s "" then zero_mac else s in
  spec "ethernet" (D_Ethernet {| ethSrcMAC := mac "src_mac"%string; ethDstMAC := mac "dst_mac"%string; ethEtherType := 0 |}).

Definition vlan_layer (id : Z) : LayerSpec :=
  spec "dot1q" (D_VLAN {| vlanID := to_uint 16 id; PCP := 0; DEI := false; TPID := 0x8100 |}).
Definition appendVLANLayers (m : fields) : list LayerSpec :=
  match m !! "vlan_ids"%string with
  | Some (A_uint32s ((_ :: _) as vals)) => map vlan_layer vals
  | _ => let id := fieldUint32 m "vlan_id" in if id =? 0 then [] else [vlan_layer id]
  end.

Definition mpls_layer (label : Z) : LayerSpec := spec "mpls" (D_MPLS {| Label := label; TC := 0; BOS := true; labelTTL := 64 |}).
Definition appendMPLSLayers (m : fields) : list LayerSpec :=
  match filter (fun l => l <> 0) (map (fun i => fieldUint32 m (numbered "mpls_label" i "")) [1; 2; 3]) with
  | [] => let label := fieldUint32 m "mpls_label" in if label =? 0 then [] else [mpls_layer label]
  | labels => map mpls_layer labels
  end.

(** [strings.Contains(s, ":")]. *)
Fixpoint has_colon (s : string) : bool :=
  match s with EmptyString => false | String c s' => Ascii.eqb c ":"%char || has_colon s' end.

Definition appendPPPoELayer (m : fields) : list LayerSpec :=
  let sessionID := fieldUint32 m "pppoe_session_id" in
  if sessionID =? 0 then []
  else [spec "pppoe" (D_PPPoE {| SessionID := to_uint 16 sessionID;
          pppProtocol := if has_colon (fieldStringOrZero m "src_addr") then 0x0057 else 0x0021 |})].

Definition pseudoInnerEtherType (src dst : addr) : Z := if Is6 src && Is6 dst then 0x86dd else 0x0800.

(** The kind of a tunnel, from the outer tuple. *)
Inductive tunnel_kind : Type := TK_gre | TK_vxlan | TK_geneve | TK_none.
Definition pseudoTunnelKind (outer : pseudoIPLayer) : tunnel_kind :=
  let port n := (psSrcPort outer =? n) || (psDstPort outer =? n) in
  if psProto outer =? 47 then TK_gre
  else if (psProto outer =? 17) && port 4789 then TK_vxlan
  else if (psProto outer =? 17) && port 6081 then TK_geneve
  else TK_none.

Definition appendPseudoTunnelLayers (outer inner : pseudoIPLayer) : list LayerSpec :=
  let udp := spec "udp" (D_UDP {| udpSrcPort := to_uint 16 (psSrcPort outer); udpDstPort := to_uint 16 (psDstPort outer) |}) in
  let ethernet := spec "ethernet" (D_Ethernet {| ethSrcMAC := zero_mac; ethDstMAC := zero_mac; ethEtherType := 0 |}) in
  let protocol := pseudoInnerEtherType (psSrc inner) (psDst inner) in
  match pseudoTunnelKind outer with
  | TK_gre => [spec "gre" (D_GRE {| greProtocol := protocol; Checksum := false; greKey := false; Sequence := false |})]
  | TK_vxlan => [udp; spec "vxlan" (D_VXLAN {| vxlanVNI := 0 |}); ethernet]
  | TK_geneve => [udp; spec "geneve" (D_Geneve {| geneveVNI := 0; geneveProtocol := protocol |}); ethernet]
  | TK_none => []
  end.

Definition appendPseudoIPLayer (l : pseudoIPLayer) : list LayerSpec :=
  if Is4 (psSrc l) && Is4 (psDst l) then
    [spec "ipv4" (D_IPv4 {| ip4Src := psSrc l; ip4Dst := psDst l; Protocol := to_uint 8 (psProto l); ip4TTL := 64; DSCP := 0; ECN := 0;
       Identification := 0; ip4Flags := 0; FragmentOffset := 0 |})]
  else if Is6 (psSrc l) && Is6 (psDst l) then
    [spec "ipv6" (D_IPv6 {| ip6Src := psSrc l; ip6Dst := psDst l; NextHeader := to_uint 8 (psProto l); HopLimit := 64;
       TrafficClass := 0; FlowLabel := 0 |})]
  else [].

Definition appendPseudoTransportLayer (l : pseudoIPLayer) : list LayerSpec :=
  let sport := to_uint 16 (psSrcPort l) in
  let dport := to_uint 16 (psDstPort l) in
  if psProto l =? 6 then
    [spec "tcp" (D_TCP {| tcpSrcPort := sport; tcpDstPort := dport; tcpFlags := 0x02; Seq := 0; Ack := 0; Window := 65535 |})]
  else if psProto l =? 17 then [spec "udp" (D_UDP {| udpSrcPort := sport; udpDstPort := dport |})]
  else if (psProto l =? 1) || (psProto l =? 58) then [spec "icmp" (D_ICMP {| icmpType := 0; icmpCode := 0 |})]
  else [].

Definition pseudoPacketModelFromFields (m : fields) : option PacketModel :=
  match pseudoIPLayerFromFields m "src_addr" "dst_addr" "proto" "src_port" "dst_port" with
  | None => None
  | Some inner =>
      let link := if pseudoPacketHasLinkLayer m
                  then pseudo_ethernet m :: appendVLANLayers m ++ appendMPLSLayers m ++ appendPPPoELayer m else [] in
      let outer :=
        match pseudoIPLayerFromFields m "outer_src_addr" "outer_dst_addr" "outer_proto" "outer_src_port" "outer_dst_port" with
        | Some outer => appendPseudoIPLayer outer ++ appendPseudoTunnelLayers outer inner
        | None => []
        end in
      let frameLen := fieldUint32 m "original_length" in
      Some {| pmLayers := link ++ outer ++ appendPseudoIPLayer inner ++ appendPseudoTransportLayer inner;
              pmFeatures := if frameLen =? 0 then ∅ else {["target_wire_length"%string := Feat_Uint64 frameLen]} |}
  end.

(** The bytes, and the model that [evt.Packet] then holds; [None] is [false].  A model of the
    event is given its lengths in place. *)
Definition BuildPseudoHeader (packet : option PacketModel) (m : fields) : option bytes * option PacketModel :=
  let own := match packet with Some p => match pmLayers p with [] => None | _ => Some p end | None => None end in
  match (match own with Some p => Some p | None => pseudoPacketModelFromFields m end) with
  | None => (None, packet)
  | Some model =>
      match pmLayers model with
      | [] => (None, packet)
      | _ =>
          let model := ensurePacketModelLayerLengths model in
          let packet' := match own with Some _ => Some model | None => packet end in
          match encodePacketModel model with
          | Ok ((_ :: _) as data) => (Some data, match packet with None => Some model | Some _ => packet' end)
          | _ => (None, packet')
          end
      end
  end.
End pseudo.
