(* ===== verification/ReflowProcessor.v ===== *)
(** * pkg/reflow/processor: from source events to canonical fields

    [processor.go]: the built-in processor.  Each of its functions changes the event that it is
    given and returns that event, so that a computation on the event stands for it; its result
    is [tt] for the one event, or the error.  The clock is an argument. *)
From Stdlib Require Import Ascii.
From S2P Require Import Prelude Text DecodersUtils ProtoReflect ReflowEvent ReflowDecode ReflowPacket ReflowPacketEncode ReflowNormalize.

(** ** Configuration (config.go) *)

Record TunnelDecoderConfig : Type := { Enabled : option bool; Ports : list Z }.

Record PacketDecoderConfig : Type := {
  cfgDecodeBeyondL4 : option bool; cfgGRE : option bool; cfgIPIP : option bool; cfgVXLAN : TunnelDecoderConfig; cfgGeneve : TunnelDecoderConfig;
  cfgL2TP : TunnelDecoderConfig; cfgGTPU : TunnelDecoderConfig; cfgPPPoE : option bool
}.

Record BuiltinProcessorConfig : Type := {
  cfgDisablePacketMapping : bool; cfgTruncatePacketBytes : Z; DropMessage : bool; DropPayload : bool;
  SwapPrePost : bool; cfgHelpers : AggregationHelperOptions; PacketDecoder : PacketDecoderConfig
}.

Definition packetDecodeOptions (cfg : PacketDecoderConfig) : DecodeOptions :=
  {| Configured := true; DecodeBeyondL4 := default true (cfgDecodeBeyondL4 cfg); DecodeGRE := default true (cfgGRE cfg);
     DecodeIPIP := default true (cfgIPIP cfg); DecodeVXLAN := default true (Enabled (cfgVXLAN cfg)); VXLANPorts := Ports (cfgVXLAN cfg);
     DecodeGeneve := default true (Enabled (cfgGeneve cfg)); GenevePorts := Ports (cfgGeneve cfg);
     DecodeL2TP := default true (Enabled (cfgL2TP cfg)); L2TPPorts := Ports (cfgL2TP cfg);
     DecodeGTPU := default true (Enabled (cfgGTPU cfg)); GTPUPorts := Ports (cfgGTPU cfg); DecodePPPoE := default true (cfgPPPoE cfg) |}.

(** ** The standard library *)

(** The record of [processJSONRawPacketHeader]. *)
Record rawPacketHeaderInput : Type := {
  inAgentIP : string; inSubAgentID : Z; inSourceID : Z; inSamplingRate : Z; inSamplePool : Z; inDrops : Z; inInputIf : Z; inOutputIf : Z;
  inProtocol : Z; inFrameLength : Z; inStripped : Z; inOriginalLength : Z; HeaderHex : string
}.

(** What the processor takes from strings, strconv, encoding/json, encoding/hex and
    encoding/base64.  [json_Decode] is a decoder with [UseNumber]; the [Unmarshal]s are
    [json.Unmarshal] into the type of the result; [None] is an error. *)
Class ProcessorLib : Type := {
  ToLower : string -> string;
  TrimSpace : string -> string;
  ParseFloat : string -> option Z;
  json_Decode : bytes -> option any;
  json_MarshalBytes : any -> option bytes;
  Unmarshal_header : bytes -> option rawPacketHeaderInput;
  Unmarshal_sflow : bytes -> option SFlowMetadata;
  Unmarshal_packet : bytes -> option PacketModel;
  Unmarshal_aggregation : bytes -> option AggregationMetadata;
  hex_DecodeString : string -> option bytes;
  base64_DecodeString : string -> option bytes
}.

Section processor.
Context `{GoLib} `{ProcessorLib}.

Definition int64FromString (s : string) : Z := ParseInt (TrimSpace s).

Definition uint32FromAny (val : any) : Z :=
  match val with
  | A_int K_uint32 v => v
  | A_int K_uint64 v => to_uint 32 v
  | A_int K_int v | A_int K_int64 v => nonneg 32 v
  | A_float64 b => if float64_negative b then 0 else float64_to_uint32 b
  | A_number s => nonneg 32 (ParseInt s)
  | A_string s => nonneg 32 (int64FromString s)
  | _ => 0
  end.

Definition uint64FromAny (val : any) : Z :=
  match val with
  | A_int K_uint64 v | A_int K_uint32 v => v
  | A_int K_int v | A_int K_int64 v => nonneg 64 v
  | A_float64 b => if float64_negative b then 0 else float64_to_uint64 b
  | A_number s => nonneg 64 (ParseInt s)
  | A_string s => nonneg 64 (int64FromString s)
  | _ => 0
  end.

Definition int64FromAny (val : any) : Z :=
  match val with
  | A_int K_int64 v | A_int K_uint32 v | A_int K_int v => v
  | A_int K_uint64 v => to_int 64 v
  | A_float64 b => float64_to_int64 b
  | A_number s => ParseInt s
  | A_string s => int64FromString s
  | _ => 0
  end.

(** A missing key reads as nil. *)
Definition value_of (m : fields) (key : string) : any := default A_nil (m !! key).
Definition fieldUint32 (m : fields) (key : string) : Z := uint32FromAny (value_of m key).
Definition fieldUint64 (m : fields) (key : string) : Z := uint64FromAny (value_of m key).

(** A [json.Number] is a [Stringer]. *)
Definition stringAlias (m : fields) (key : string) : string :=
  match m !! key with
  | Some (A_string s) | Some (A_number s) => s
  | Some v => SprintAny v
  | None => ""
  end.

Definition firstValue (primary fallback : fields) (key : string) : any :=
  match primary !! key with Some v => v | None => value_of fallback key end.

(** ** Packet times *)

Definition max_int64 : Z := 2 ^ 63 - 1.
Definition nanos : Z := 1000000000.

Definition packetTransmissionDurationNS (frameLength ifSpeed : Z) : Z :=
  if (frameLength =? 0) || (ifSpeed =? 0) then 0
  else
    let bits := frameLength * 8 in
    if max_int64 / nanos <? bits then max_int64
    else
      let bitNanos := bits * nanos in
      let durationNS := bitNanos / ifSpeed + (if bitNanos mod ifSpeed =? 0 then 0 else 1) in
      if max_int64 <? durationNS then max_int64 else durationNS.

Definition packetTimeWindowNS (startNS frameLength ifSpeed : Z) : Z * Z :=
  let durationNS := packetTransmissionDurationNS frameLength ifSpeed in
  if (0 <? durationNS) && (max_int64 - durationNS <? startNS) then (startNS, max_int64) else (startNS, startNS + durationNS).

(** ** Derived fields *)

Fixpoint family_from (raws : list string) (m : fields) : fields :=
  match raws with
  | [] => m
  | raw :: rest =>
      match (if String.eqb raw "" then None else ParseAddr raw) with
      | None => family_from rest m
      | Some a => <["ip_family"%string := str (if Is6 a then "ipv6" else "ipv4")]> m
      end
  end.
Definition setIPFamilyFromFields (m : fields) : fields :=
  if negb (String.eqb (fieldStringOrZero m "ip_family") "") then m
  else family_from [fieldStringOrZero m "src_addr"; fieldStringOrZero m "dst_addr"] m.
Definition refreshIPFamilyFromFields (m : fields) : fields := setIPFamilyFromFields (base.delete "ip_family"%string m).

Definition capture_is (names : list string) (m : fields) : bool :=
  existsb (String.eqb (ToLower (fieldStringOrZero m "capture_direction"))) names.
Definition isEgressCapture (m : fields) : bool := capture_is ["out"; "egress"; "output"]%string m.

Definition deriveFlowDirectionFromCapture (m : fields) : fields :=
  match m !! "flow_direction"%string with
  | Some _ => m
  | None =>
      if capture_is ["in"; "ingress"; "input"]%string m then <["flow_direction"%string := u32_field 0]> m
      else if isEgressCapture m then <["flow_direction"%string := u32_field 1]> m
      else m
  end.

Definition portsDiffer (a b : Z) : bool := negb (a =? 0) && negb (b =? 0) && negb (a =? b).

Definition deriveNATFieldsFromConntrack (m internal : fields) (swap : bool) : fields :=
  let either key := let s := stringAlias m key in if String.eqb s "" then stringAlias internal key else s in
  let originalSrc := stringAlias m "conntrack_original_src_addr" in
  let originalDst := stringAlias m "conntrack_original_dst_addr" in
  let replySrc := either "conntrack_reply_src_addr"%string in
  let replyDst := either "conntrack_reply_dst_addr"%string in
  if existsb (String.eqb "") [originalSrc; originalDst; replySrc; replyDst] then m
  else
    let originalSrcPort := uint32FromAny (value_of m "conntrack_original_src_port") in
    let originalDstPort := uint32FromAny (value_of m "conntrack_original_dst_port") in
    let replySrcPort := uint32FromAny (firstValue m internal "conntrack_reply_src_port") in
    let replyDstPort := uint32FromAny (firstValue m internal "conntrack_reply_dst_port") in
    let hasSNAT := negb (String.eqb originalSrc replyDst) || portsDiffer originalSrcPort replyDstPort in
    let hasDNAT := negb (String.eqb originalDst replySrc) || portsDiffer originalDstPort replySrcPort in
    let m := if hasSNAT then put_fields [("nat_src_addr", str replyDst); ("nat_src_port", u32_field replyDstPort)]%string m else m in
    let m := if hasDNAT then put_fields [("nat_dst_addr", str replySrc); ("nat_dst_port", u32_field replySrcPort)]%string m else m in
    if swap && isEgressCapture m && (hasSNAT || hasDNAT) then
      refreshIPFamilyFromFields (put_fields [("src_addr", str originalSrc); ("src_port", u32_field originalSrcPort);
        ("dst_addr", str originalDst); ("dst_port", u32_field originalDstPort)]%string m)
    else m.

(** [applyDerivedFieldMappings], without fields a no-op. *)
Definition applyDerivedFieldMappings (cfg : BuiltinProcessorConfig) (e : Event) : Event :=
  match ReflowEvent.Fields e with
  | None => e
  | Some m =>
      set_event (ReceivedAt e)
        (deriveNATFieldsFromConntrack (deriveFlowDirectionFromCapture m) (other_internal (Internal e)) (SwapPrePost cfg))
        (evtPacket e) (Payload e) e
  end.

(** ** Events *)

Definition modify (f : Event -> Event) : ST Event unit := fun e => (Ok tt, f e).
Definition set_message (b : bytes) (e : Event) : Event :=
  {| ReceivedAt := ReceivedAt e; Kind := Kind e; Stream := Stream e; Source := Source e; Control := Control e; ReflowEvent.Fields := ReflowEvent.Fields e;
     evtMessage := b; evtPacket := evtPacket e; SFlow := SFlow e; Aggregation := Aggregation e; Payload := Payload e; Internal := Internal e |}.
Definition set_fields (m : fields) (e : Event) : Event := set_event (ReceivedAt e) m (evtPacket e) (Payload e) e.
Definition set_payload (p : payload) (e : Event) : Event :=
  {| ReceivedAt := ReceivedAt e; Kind := Kind e; Stream := Stream e; Source := Source e; Control := Control e; ReflowEvent.Fields := ReflowEvent.Fields e;
     evtMessage := evtMessage e; evtPacket := evtPacket e; SFlow := SFlow e; Aggregation := Aggregation e; Payload := p; Internal := Internal e |}.
Definition set_sflow (s : SFlowMetadata) (e : Event) : Event :=
  {| ReceivedAt := ReceivedAt e; Kind := Kind e; Stream := Stream e; Source := Source e; Control := Control e; ReflowEvent.Fields := ReflowEvent.Fields e;
     evtMessage := evtMessage e; evtPacket := evtPacket e; SFlow := Some s; Aggregation := Aggregation e; Payload := Payload e; Internal := Internal e |}.
Definition set_packet (p : PacketModel) (e : Event) : Event := set_event (ReceivedAt e) (ensureFields e) (Some p) (Payload e) e.
Definition set_aggregation (a : AggregationMetadata) (e : Event) : Event :=
  {| ReceivedAt := ReceivedAt e; Kind := Kind e; Stream := Stream e; Source := Source e; Control := Control e; ReflowEvent.Fields := ReflowEvent.Fields e;
     evtMessage := evtMessage e; evtPacket := evtPacket e; SFlow := SFlow e; Aggregation := Some a; Payload := Payload e; Internal := Internal e |}.

Definition drop_message (cfg : BuiltinProcessorConfig) : ST Event unit := modify (fun e => if DropMessage cfg then set_message [] e else e).
Definition drop_payload (cfg : BuiltinProcessorConfig) : ST Event unit := modify (fun e => if DropPayload cfg then set_payload PL_nil e else e).

(** [err := f(evt)] where [f] changes only the fields. *)
Definition on_fields (f : fields -> fields) : ST Event unit := modify (fun e => set_fields (f (ensureFields e)) e).

Definition normalize_options (cfg : BuiltinProcessorConfig) (usePayload truncatePayload : bool) (protocol : Z) : NormalizeOptions :=
  {| DisablePacketMapping := cfgDisablePacketMapping cfg; TruncatePacketBytes := cfgTruncatePacketBytes cfg; UsePayloadAsPacket := usePayload;
     TruncatePayload := truncatePayload; HeaderProtocol := protocol; Decode_ := packetDecodeOptions (PacketDecoder cfg);
     AggregationHelpers := cfgHelpers cfg; Extractors := [] |}.

(** ** Raw packets and decoded flows *)

Definition bytes_fields (payload received : Z) (m : fields) : fields :=
  let wireLength := fieldUint32 m "wire_length" in
  let frameLength := if wireLength =? 0 then to_uint 32 payload else wireLength in
  let m := put_fields [("record_kind", str "packet"); ("frame_length", u32_field frameLength); ("original_length", u32_field (to_uint 32 payload));
                       ("bytes", A_int K_int64 frameLength); ("packets", A_int K_int64 1)]%string m in
  let '(startNS, endNS) := packetTimeWindowNS received frameLength (fieldUint64 m "if_speed") in
  put_missing "protocol" (u32_field 1)
    (put_fields [("time_flow_start_ns", A_int K_int64 startNS); ("time_flow_end_ns", A_int K_int64 endNS);
                 ("start_time_unix", A_int K_int64 (Z.quot startNS 1000000)); ("end_time_unix", A_int K_int64 (Z.quot endNS 1000000))]%string m).

Definition processBytes (cfg : BuiltinProcessorConfig) (now : Z) : ST Event unit := fun e =>
  match Payload e with
  | PL_bytes ((_ :: _) as payload) =>
      (let received := if ReceivedAt e =? zero_time then now else ReceivedAt e in
       modify (fun e => set_event received (bytes_fields (len payload) received (ensureFields e)) (evtPacket e) (Payload e) e) ;;;
       let* e := get in
       NormalizeEvent now (normalize_options cfg true true (fieldUint32 (ensureFields e) "header_protocol")) ;;;
       modify (applyDerivedFieldMappings cfg) ;;;
       drop_message cfg ;;; drop_payload cfg) e
  | _ => (Err (Errorf "decode bytes packet: missing payload bytes" []), e)
  end.

Definition packetHeaderProtocol (m : fields) : Z :=
  if negb (String.eqb (fieldStringOrZero m "flow_type") "sflow") || negb (String.eqb (fieldStringOrZero m "record_kind") "packet") then 0
  else fieldUint32 m "protocol".

Definition processFlow (cfg : BuiltinProcessorConfig) (now : Z) : ST Event unit :=
  on_fields (fun m => m) ;;;
  let* e := get in
  let m := ensureFields e in
  match m !! "flow_type"%string with
  | None => fail (Errorf "decoded flow event is missing flow_type" [])
  | Some _ =>
      (if (0 <? len (bytesField m "header_data")) || String.eqb (fieldStringOrZero m "record_kind") "packet"
       then NormalizeEvent now (normalize_options cfg false false (packetHeaderProtocol m)) else ret tt) ;;;
      on_fields setIPFamilyFromFields ;;;
      modify (applyDerivedFieldMappings cfg) ;;;
      drop_message cfg ;;; drop_payload cfg
  end.

(** ** JSON *)

Definition raw_header_fields (i : rawPacketHeaderInput) (headerData : bytes) (m : fields) : fields :=
  put_fields
    [("agent_ip", str (inAgentIP i)); ("sub_agent_id", u32_field (inSubAgentID i)); ("source_id", u32_field (inSourceID i));
     ("sampling_rate", u32_field (inSamplingRate i)); ("sample_pool", u32_field (inSamplePool i)); ("drops", u32_field (inDrops i));
     ("input_if", u32_field (inInputIf i)); ("output_if", u32_field (inOutputIf i)); ("protocol", u32_field (inProtocol i));
     ("header_protocol_name", str (sampledHeaderProtocolName (inProtocol i))); ("frame_length", u32_field (inFrameLength i));
     ("stripped", u32_field (inStripped i)); ("original_length", u32_field (inOriginalLength i)); ("header_data", A_bytes headerData);
     ("bytes", A_int K_int64 (inFrameLength i)); ("packets", A_int K_int64 1)]%string m.

(** The defaults of the rate and the two lengths. *)
Definition header_defaults (header : Z) (i : rawPacketHeaderInput) : rawPacketHeaderInput :=
  let original := if inOriginalLength i =? 0 then to_uint 32 header else inOriginalLength i in
  {| inAgentIP := inAgentIP i; inSubAgentID := inSubAgentID i; inSourceID := inSourceID i;
     inSamplingRate := if inSamplingRate i =? 0 then 1 else inSamplingRate i; inSamplePool := inSamplePool i; inDrops := inDrops i;
     inInputIf := inInputIf i; inOutputIf := inOutputIf i; inProtocol := inProtocol i;
     inFrameLength := if inFrameLength i =? 0 then original else inFrameLength i; inStripped := inStripped i; inOriginalLength := original;
     HeaderHex := HeaderHex i |}.

Definition processJSONRawPacketHeader (cfg : BuiltinProcessorConfig) (now : Z) : ST Event unit :=
  let* e := get in
  match Unmarshal_header (evtMessage e) with
  | None => fail (Errorf "decode json_raw_packet_header" [])
  | Some i =>
      match hex_DecodeString (HeaderHex i) with
      | None => fail (Errorf "decode header_hex" [])
      | Some headerData =>
          let i := header_defaults (len headerData) i in
          on_fields (raw_header_fields i headerData) ;;;
          NormalizeEvent now (normalize_options cfg false false (inProtocol i)) ;;;
          modify (applyDerivedFieldMappings cfg) ;;;
          drop_message cfg
      end
  end.

Definition processVendor (cfg : BuiltinProcessorConfig) (payload : any) : ST Event unit :=
  match payload with
  | A_map _ =>
      let* e := get in
      on_fields <["json_flavor"%string := str (JSONFlavor (Source e))]> ;;; drop_message cfg
  | _ => fail (Errorf "vendor expects a JSON object" [])
  end.

Definition reFlowSFlowEnvelopeHasSamples (value : any) : bool :=
  match value with
  | A_map m => match (list_to_map m : fields) !! "samples"%string with Some (A_list (_ :: _)) => true | _ => false end
  | _ => false
  end.

(** [json.Marshal] and [json.Unmarshal] of a value, and what is done with the result. *)
Definition remarshal {A} (what : string) (un : bytes -> option A) (value : any) (f : A -> Event -> Event) : ST Event unit :=
  match json_MarshalBytes value with
  | None => fail (Errorf (String.append "encode reflow " what) [])
  | Some raw => match un raw with Some a => modify (f a) | None => fail (Errorf (String.append "decode reflow " what) []) end
  end.
Definition applyReFlowSFlowEnvelope (value : any) : ST Event unit := remarshal "sflow envelope" Unmarshal_sflow value set_sflow.

Fixpoint normalizeReFlowJSONValue (value : any) : any :=
  match value with
  | A_number s =>
      match Atoi s with
      | Some n => A_int K_int64 n
      | None => match ParseFloat s with Some f => A_float64 f | None => value end
      end
  | A_list l => A_list (map normalizeReFlowJSONValue l)
  | A_map m => A_map (map (fun kv => (kv.1, normalizeReFlowJSONValue kv.2)) m)
  | _ => value
  end.

(** The body of the range over a record; Go takes the entries in any order. *)
Definition reflow_entry (cfg : BuiltinProcessorConfig) (kv : string * any) : ST Event unit :=
  let '(key, value) := kv in
  if String.eqb key "sflow" then
    if reFlowSFlowEnvelopeHasSamples value then applyReFlowSFlowEnvelope value else ret tt
  else if String.eqb key "packet" then
    remarshal "packet model" Unmarshal_packet value (fun model e =>
      set_fields (ApplyModelFieldsWithHelpers (ensureFields e) (Some model) (cfgHelpers cfg)) (set_packet model e))
  else if String.eqb key "aggregation" then remarshal "aggregation metadata" Unmarshal_aggregation value set_aggregation
  else on_fields <[key := normalizeReFlowJSONValue value]>.

Definition processReFlowFields (cfg : BuiltinProcessorConfig) (record : list (string * any)) : ST Event unit :=
  on_fields (fun m => m) ;;;
  rangeM record (reflow_entry cfg) ;;;
  on_fields setIPFamilyFromFields ;;;
  modify (applyDerivedFieldMappings cfg) ;;;
  drop_message cfg.

Definition canonicalEventFields (record : fields) : option (list (string * any)) :=
  match record !! "fields"%string with
  | Some (A_map m) =>
      if existsb (fun k => bool_decide (is_Some (record !! k)))
           ["received_at"; "kind"; "stream"; "source"; "control"; "message"; "packet"; "sflow"; "aggregation"]%string
      then Some m else None
  | _ => None
  end.

Definition processReFlowJSON (cfg : BuiltinProcessorConfig) (payload : any) : ST Event unit :=
  match payload with
  | A_map record =>
      let m : fields := list_to_map record in
      (match m !! "sflow"%string with
       | Some v => if reFlowSFlowEnvelopeHasSamples v then applyReFlowSFlowEnvelope v else ret tt
       | None => ret tt
       end) ;;;
      processReFlowFields cfg (default record (canonicalEventFields m))
  | _ => fail (Errorf "reflow expects a JSON object" [])
  end.

(** *** The JSON of goflow2 *)

Definition decodeMaybeBase64IP (val : string) : string :=
  if String.eqb val "" then ""
  else
    match ParseAddr val with
    | Some a => Addr_String a
    | None =>
        match base64_DecodeString val with
        | Some raw => match AddrFromSlice raw with Some a => Addr_String a | None => "" end
        | None => ""
        end
    end.

Definition set_ip (dstKey srcKey : string) (record m : fields) : fields :=
  let ip := decodeMaybeBase64IP (stringAlias record srcKey) in if String.eqb ip "" then m else <[dstKey := str ip]> m.
Definition setUint32Alias (dstKey srcKey : string) (record m : fields) : fields :=
  match record !! srcKey with Some v => <[dstKey := u32_field (uint32FromAny v)]> m | None => m end.
Definition setInt64Alias (dstKey srcKey : string) (record m : fields) : fields :=
  match record !! srcKey with Some v => <[dstKey := A_int K_int64 (int64FromAny v)]> m | None => m end.
Definition setTimeNSAlias (dstKey nsKey srcKey : string) (record m : fields) : fields :=
  match record !! srcKey with
  | Some v =>
      let ns := int64FromAny v in
      if ns =? 0 then m else <[nsKey := A_int K_int64 ns]> (<[dstKey := A_int K_int64 (Z.quot ns 1000000)]> m)
  | None => m
  end.

(** The values of [FlowMessage_FlowType]. *)
Definition flow_type_value (flowType : Z) : any :=
  if flowType =? 1 then str "sflow" else if flowType =? 2 then str "netflowv5" else if flowType =? 3 then str "netflowv9"
  else if flowType =? 4 then str "ipfix" else u32_field flowType.

Definition goflow2_fields (flavor : string) (record m : fields) : fields :=
  let m := set_ip "dst_addr" "dst_addr" record (set_ip "src_addr" "src_addr" record (set_ip "agent_ip" "sampler_address" record m)) in
  let m := fold_left (fun m k => setUint32Alias k k record m) ["src_port"; "dst_port"; "proto"; "tcp_flags"]%string m in
  let proto := fieldUint32 m "proto" in
  let m := if proto =? 0 then m else <["proto_name"%string := str (ipProtocolName proto)]> m in
  let m := fold_left (fun m k => setUint32Alias k.1 k.2 record m)
             [("sampling_rate", "sampling_rate"); ("input_if", "in_if"); ("output_if", "out_if")]%string m in
  let m := setInt64Alias "packets" "packets" record (setInt64Alias "bytes" "bytes" record m) in
  let m := setTimeNSAlias "end_time_unix" "time_flow_end_ns" "time_flow_end_ns" record
             (setTimeNSAlias "start_time_unix" "time_flow_start_ns" "time_flow_start_ns" record m) in
  let m := <["json_flavor"%string := str flavor]> m in
  match record !! "type"%string with Some v => <["flow_type"%string := flow_type_value (uint32FromAny v)]> m | None => m end.

Definition processGoFlow2V2 (cfg : BuiltinProcessorConfig) (payload : any) : ST Event unit :=
  match payload with
  | A_map record =>
      let* e := get in
      on_fields (goflow2_fields (JSONFlavor (Source e)) (list_to_map record)) ;;; drop_message cfg
  | _ => fail (Errorf "goflow2v2 expects a JSON object" [])
  end.

(** *** Dispatch *)

Definition processJSONFlavor (cfg : BuiltinProcessorConfig) (now : Z) : ST Event unit :=
  let* e := get in
  match json_Decode (evtMessage e) with
  | None => fail (Errorf "decode json flavor" [])
  | Some payload =>
      let flavor := String.eqb (JSONFlavor (Source e)) in
      if flavor "reflow" then processReFlowJSON cfg payload
      else if flavor "raw_packet_header" then
        match payload with
        | A_map _ =>
            match json_MarshalBytes payload with
            | None => fail (Errorf "encode raw_packet_header payload" [])
            | Some data => modify (set_message data) ;;; processJSONRawPacketHeader cfg now
            end
        | _ => fail (Errorf "raw_packet_header expects a JSON object" [])
        end
      else if flavor "vendor" then processVendor cfg payload
      else if flavor "goflow2v2" then processGoFlow2V2 cfg payload
      else fail (Errorf "unsupported source.json.flavor" [])
  end.

Definition Process (cfg : BuiltinProcessorConfig) (now : Z) : ST Event unit :=
  let* e := get in
  if String.eqb (Kind e) "control" then ret tt
  else if String.eqb (Type_ (Source e)) "bytes" then processBytes cfg now
  else if String.eqb (Type_ (Source e)) "json" then processJSONFlavor cfg now
  else if String.eqb (Type_ (Source e)) "flow" then processFlow cfg now
  else ret tt.
End processor.
