(* ===== verification/ReflowProcessorProps.v ===== *)
(** * pkg/reflow/processor: properties of the built-in processor

    It ends on every event, and panics only where the packet parser does; a sampled GRE packet
    that makes it panic; the times of a packet; what the order of a JSON object decides. *)
From S2P Require Import Prelude Text DecodersUtils ProtoReflect ReflowEvent ReflowDecode ReflowPacket ReflowPacketSafety ReflowPacketEncode ReflowPacketRoundtrip ReflowPacketProps ReflowNormalize ReflowProcessor.

(** ** Outcomes *)

(** A value or an error, a panic only if [P], never a loop. *)
Definition outcome (P : Prop) {A S} (r : res A * S) : Prop :=
  match r with (Ok _, _) | (Err _, _) => True | (Panic _, _) => P | (Hang, _) => False end.

Lemma outcome_bind (P : Prop) {A B S} (m : ST S A) (k : A -> ST S B) s :
  outcome P (m s) -> (forall a s', m s = (Ok a, s') -> outcome P (k a s')) -> outcome P (bind m k s).
Proof. intros Hm Hk. unfold bind. destruct (m s) as [[] s'] eqn:E; try done. by apply Hk. Qed.

Lemma bytesField_string m key : (forall b, m !! key = Some (A_bytes b) -> is_bytes b) -> is_bytes (bytesField m key).
Proof.
  intros Hb. unfold bytesField. destruct (m !! key) as [[]|]; try constructor; [|by apply Hb].
  apply Forall_map, Forall_true. intros c. unfold compose, uint. pose proof (Ascii.N_ascii_bounded c). cbn. lia.
Qed.

Section outcomes.
Context `{GoLib} `{ProcessorLib}.

Lemma normalize_header_outcome now opts m e :
  Extractors opts = [] -> is_bytes (bytesField m "header_data") ->
  outcome (tunnels_on (withDefaults (Decode_ opts))) (normalize_header now opts m e).
Proof.
  intros Hx Hm. unfold normalize_header. rewrite Hx. destruct (bytesField m "header_data") as [|x header]; [done|]. cbv zeta.
  pose proof (safely_parse_packet (tunnels_on (withDefaults (Decode_ opts))) (x :: header) Hm (withDefaults (Decode_ opts)) (fun H => H)
    (HeaderProtocol opts) (set_model empty_model zero_view)) as Hs.
  unfold parsePacketViewWithOptions. destruct (parse_packet _ _ _ _) as [[[]|e'|w|] v]; try done; [|by destruct (truncatePacketData _ _ _ _)].
  cbn [extract_all]. by destruct (truncatePacketData _ _ _ _).
Qed.

(** The bytes of an event: its payload and its packet. *)
Definition event_bytes_ok (e : Event) : Prop :=
  (forall p, Payload e = PL_bytes p -> is_bytes p) /\ (forall b, ensureFields e !! "header_data"%string = Some (A_bytes b) -> is_bytes b).

Lemma NormalizeEvent_outcome now opts e :
  Extractors opts = [] -> event_bytes_ok e -> outcome (tunnels_on (withDefaults (Decode_ opts))) (NormalizeEvent now opts e).
Proof.
  intros Hx [Hp Hh]. unfold NormalizeEvent. destruct (UsePayloadAsPacket opts).
  - destruct (Payload e) as [|p| | | | | | |] eqn:Ep; try done. destruct p as [|x p]; [done|]. apply normalize_header_outcome; [done|].
    apply bytesField_string. intros b. rewrite lookup_insert_eq. intros [= <-]. by apply Hp.
  - apply normalize_header_outcome; [done|]. by apply bytesField_string.
Qed.

Lemma put_missing_other k v m k' : k <> k' -> put_missing k v m !! k' = m !! k'.
Proof. intros Hk. unfold put_missing. destruct (m !! k); [done|]. by rewrite lookup_insert_ne. Qed.

(** ** The processor ends *)

Lemma modify_outcome P f e : outcome P (modify f e).
Proof. done. Qed.

Lemma drop_message_outcome P cfg e : outcome P (drop_message cfg e).
Proof. apply modify_outcome. Qed.
Lemma drop_payload_outcome P cfg e : outcome P (drop_payload cfg e).
Proof. apply modify_outcome. Qed.

Lemma remarshal_outcome P {A} what (un : bytes -> option A) value f e : outcome P (remarshal what un value f e).
Proof. unfold remarshal. destruct (json_MarshalBytes value) as [raw|]; [|done]. by destruct (un raw). Qed.

Lemma rangeM_outcome P {A} (l : list A) (f : A -> ST Event unit) e : (forall a e, outcome P (f a e)) -> outcome P (rangeM l f e).
Proof.
  intros Hf. revert e. induction l as [|a l IH]; intros e; cbn [rangeM]; [done|]. apply outcome_bind; [apply Hf|]. intros [] e' _. apply IH.
Qed.

Lemma reflow_entry_outcome P cfg kv e : outcome P (reflow_entry cfg kv e).
Proof.
  destruct kv as [key value]. unfold reflow_entry.
  destruct (String.eqb key "sflow"); [destruct (reFlowSFlowEnvelopeHasSamples value); [apply remarshal_outcome|done]|].
  destruct (String.eqb key "packet"); [apply remarshal_outcome|].
  destruct (String.eqb key "aggregation"); [apply remarshal_outcome|done].
Qed.

Lemma processReFlowJSON_outcome P cfg payload e : outcome P (processReFlowJSON cfg payload e).
Proof.
  unfold processReFlowJSON. destruct payload; try done. apply outcome_bind.
  { destruct (_ !! _) as [v|]; [|done]. destruct (reFlowSFlowEnvelopeHasSamples v); [apply remarshal_outcome|done]. }
  intros [] e1 _. unfold processReFlowFields. apply outcome_bind; [done|]. intros [] e2 _.
  apply outcome_bind; [apply rangeM_outcome; intros; apply reflow_entry_outcome|]. done.
Qed.

Definition parser_panics (cfg : BuiltinProcessorConfig) : Prop := tunnels_on (packetDecodeOptions (PacketDecoder cfg)).

(** What NormalizeEvent needs survives the changes in front of it. *)
Lemma normalize_tail cfg now use trunc protocol (k : unit -> ST Event unit) e :
  event_bytes_ok e -> (forall e', outcome (parser_panics cfg) (k tt e')) ->
  outcome (parser_panics cfg) (bind (NormalizeEvent now (normalize_options cfg use trunc protocol)) k e).
Proof.
  intros Hok Hk. apply outcome_bind; [by apply NormalizeEvent_outcome|]. intros [] e' _. apply Hk.
Qed.

Lemma processBytes_outcome cfg now e : event_bytes_ok e -> outcome (parser_panics cfg) (processBytes cfg now e).
Proof.
  intros [Hp Hh]. unfold processBytes. destruct (Payload e) as [|p| | | | | | |] eqn:Ep; try done. destruct p as [|x p]; [done|].
  cbv zeta. apply outcome_bind; [done|]. intros [] e1 [= <-]. apply outcome_bind; [done|]. intros e2 e3 [= <- <-].
  apply normalize_tail; [|done]. split; [cbn; intros q Eq; apply Hp; congruence|].
  cbn [ensureFields set_event ReflowEvent.Fields default id from_option]. unfold bytes_fields. destruct (packetTimeWindowNS _ _ _) as [s t].
  intros b. rewrite put_missing_other by done. rewrite !lookup_put_fields_other by (refine (bool_decide_unpack _ _); by vm_compute). apply Hh.
Qed.

Lemma processFlow_outcome cfg now e : event_bytes_ok e -> outcome (parser_panics cfg) (processFlow cfg now e).
Proof.
  intros [Hp Hh]. unfold processFlow. apply outcome_bind; [done|]. intros [] e1 [= <-]. apply outcome_bind; [done|]. intros e2 e3 [= <- <-].
  destruct (ensureFields _ !! "flow_type"%string); [|done]. cbv zeta. apply outcome_bind; [|intros [] e4 _; done].
  destruct (_ || _); [|done]. by apply NormalizeEvent_outcome.
Qed.

Class ProcessorLibSpec : Prop := { hex_Decode_bytes s b : hex_DecodeString s = Some b -> is_bytes b }.
Context `{!ProcessorLibSpec}.

Lemma processJSONRawPacketHeader_outcome cfg now e : event_bytes_ok e -> outcome (parser_panics cfg) (processJSONRawPacketHeader cfg now e).
Proof using Type*.
  intros [Hp Hh]. unfold processJSONRawPacketHeader. apply outcome_bind; [done|]. intros e1 e2 [= <- <-].
  destruct (Unmarshal_header _) as [i|]; [|done]. destruct (hex_DecodeString _) as [header|] eqn:Eh; [|done]. cbv zeta.
  apply outcome_bind; [done|]. intros [] e3 [= <-]. apply normalize_tail; [|done]. split; [done|].
  cbn [ensureFields set_fields set_event ReflowEvent.Fields default id from_option]. unfold raw_header_fields.
  intros b. erewrite lookup_put_fields; [|refine (bool_decide_unpack _ _); by vm_compute|].
  2:{ do 13 (apply list_elem_of_further). apply list_elem_of_here. }
  intros [= <-]. by eapply hex_Decode_bytes.
Qed.

Lemma processJSONFlavor_outcome cfg now e : event_bytes_ok e -> outcome (parser_panics cfg) (processJSONFlavor cfg now e).
Proof using Type*.
  intros Hok. unfold processJSONFlavor. apply outcome_bind; [done|]. intros e1 e2 [= <- <-].
  destruct (json_Decode _) as [payload|]; [|done]. cbv zeta.
  destruct (String.eqb _ "reflow"); [apply processReFlowJSON_outcome|].
  destruct (String.eqb _ "raw_packet_header").
  { destruct payload; try done. destruct (json_MarshalBytes _); [|done]. apply outcome_bind; [done|]. intros [] e3 [= <-].
    apply processJSONRawPacketHeader_outcome. destruct e. exact Hok. }
  destruct (String.eqb _ "vendor"); [by destruct payload|]. destruct (String.eqb _ "goflow2v2"); [by destruct payload|done].
Qed.
End outcomes.

(** C16: the ReFlow processor ends on every event of every source, whatever its packet bytes,
    payload or JSON: it gives the event or an error and never loops, and it panics only where
    the packet parser may, with GRE or Geneve decoding switched on beyond layer 4. *)
Theorem processor_ends `{GoLib} `{ProcessorLib} `{!ProcessorLibSpec} (cfg : BuiltinProcessorConfig) (now : Z) (e : Event) :
  event_bytes_ok e ->
  match Process cfg now e with
  | (Ok _, _) | (Err _, _) => True
  | (Panic _, _) =>
      let opts := packetDecodeOptions (PacketDecoder cfg) in
      DecodeBeyondL4 opts = true /\ (DecodeGRE opts = true \/ DecodeGeneve opts = true)
  | (Hang, _) => False
  end.
Proof.
  intros Hok. change (outcome (parser_panics cfg) (Process cfg now e)). unfold Process. apply outcome_bind; [done|]. intros e1 e2 [= <- <-].
  destruct (String.eqb (Kind e) "control"); [done|].
  destruct (String.eqb _ "bytes"); [by apply processBytes_outcome|].
  destruct (String.eqb _ "json"); [by apply processJSONFlavor_outcome|].
  destruct (String.eqb _ "flow"); [by apply processFlow_outcome|done].
Qed.

(** ** A sampled packet that stops the collector *)

(** A decoded sFlow sample of a bare IPv4 packet. *)
Definition sampled_ipv4 (e : Event) (b : bytes) : Prop :=
  Kind e <> "control"%string /\ Type_ (Source e) = "flow"%string /\
  exists m, ReflowEvent.Fields e = Some m /\ m !! "flow_type"%string = Some (A_string "sflow") /\ m !! "record_kind"%string = Some (A_string "packet") /\
    m !! "protocol"%string = Some (A_int K_uint32 11) /\ m !! "header_data"%string = Some (A_bytes b).

Lemma sampled_ipv4_process `{GoLib} `{ProcessorLib} cfg now e b :
  sampled_ipv4 e b -> b <> [] ->
  match fst (Process cfg now e), parsePacketViewWithOptions b 11 (packetDecodeOptions (PacketDecoder cfg)) with
  | Ok _, (Ok _ | Err _) | Panic _, Panic _ | Hang, Hang => True
  | _, _ => False
  end.
Proof.
  intros (Hk & Ht & m & Hm & Hflow & Hkind & Hproto & Hdata) Hb.
  assert (Em : ensureFields (set_fields m e) = m) by done.
  assert (Eh : bytesField m "header_data" = b) by (unfold bytesField; by rewrite Hdata).
  assert (Eproto : packetHeaderProtocol m = 11).
  { unfold packetHeaderProtocol, fieldStringOrZero, fieldUint32, value_of. by rewrite Hflow, Hkind, Hproto. }
  unfold Process. erewrite bind_Ok by reflexivity. destruct (String.eqb_spec (Kind e) "control"); [done|]. rewrite Ht. cbn [String.eqb Ascii.eqb Bool.eqb].
  unfold processFlow. erewrite bind_Ok by reflexivity. replace (ensureFields e) with m by (unfold ensureFields; by rewrite Hm).
  erewrite bind_Ok by reflexivity. rewrite Em, Hflow. cbv zeta. rewrite Eh.
  replace (0 <? len b) with true by (symmetry; apply Z.ltb_lt; destruct b as [|x b]; [done|]; rewrite len_cons; pose proof (len_nonneg b); lia).
  cbn [orb]. rewrite Eproto. unfold bind at 1. unfold NormalizeEvent. cbn [UsePayloadAsPacket normalize_options]. rewrite Em.
  unfold normalize_header. rewrite Eh. destruct b as [|x b']; [done|]. cbv zeta. cbn [HeaderProtocol normalize_options Decode_ Extractors].
  change (withDefaults (packetDecodeOptions (PacketDecoder cfg))) with (packetDecodeOptions (PacketDecoder cfg)).
  destruct (parsePacketViewWithOptions (x :: b') 11 (packetDecodeOptions (PacketDecoder cfg))) as [view|err|w|]; [| |done|done].
  - cbn [extract_all]. by destruct (truncatePacketData _ _ _ _).
  - by destruct (truncatePacketData _ _ _ _).
Qed.


(** ** A library for concrete examples: it reads lower-case hexadecimal, and every packet model
    as one of an IPv4 header. *)

Fixpoint hex_pairs (s : string) : option bytes :=
  match s with
  | EmptyString => Some []
  | String a (String b s') =>
      match hex_value a, hex_value b with Some x, Some y => cons (x * 16 + y) <$> hex_pairs s' | _, _ => None end
  | _ => None
  end.

Definition vendor_model : PacketModel := {| pmLayers := [layer "ipv4" 20 (D_IPv4 vendor_ip)]; pmFeatures := ∅ |}.

Definition simple_processor_lib : ProcessorLib := {|
  ToLower s := s; TrimSpace s := s; ParseFloat s := None; json_Decode b := None; json_MarshalBytes v := Some [];
  Unmarshal_header b := None; Unmarshal_sflow b := None; Unmarshal_packet b := Some vendor_model; Unmarshal_aggregation b := None;
  hex_DecodeString := hex_pairs; base64_DecodeString s := None
|}.

Lemma hex_value_range c x : hex_value c = Some x -> 0 <= x < 16.
Proof. unfold hex_value. intros E. repeat case_match; simplify_eq; lia. Qed.

Lemma simple_processor_spec : @ProcessorLibSpec simple_processor_lib.
Proof.
  constructor. cbn [hex_DecodeString simple_processor_lib].
  fix IH 1. intros [|a [|c s]] b; cbn [hex_pairs]; [intros [= <-]; constructor|done|].
  destruct (hex_value a) as [x|] eqn:Ea; [|done]. destruct (hex_value c) as [y|] eqn:Ec; [|done].
  destruct (hex_pairs s) as [r|] eqn:Es; [|done]. intros [= <-]. constructor; [|by apply (IH s)].
  apply hex_value_range in Ea, Ec. unfold uint. lia.
Qed.

(** The packet of twenty-four bytes, as a sampled header under the default configuration. *)
Definition vendor_event : Event :=
  {| ReceivedAt := 1700000000000000000; Kind := ""; Stream := "";
     Source := {| srcAddress := "192.0.2.1:6343"; srcRemote := "192.0.2.1:6343"; Type_ := "flow"; CaptureInterfaceIndex := 0; JSONFlavor := "";
                  srcAgentIP := ""; srcSourceID := 0; SourceIDSet := false; Sampling := None |};
     Control := None;
     ReflowEvent.Fields := Some (put_fields [("flow_type", A_string "sflow"); ("record_kind", A_string "packet"); ("protocol", A_int K_uint32 11);
       ("header_data", A_bytes vendor_packet)]%string ∅);
     evtMessage := []; evtPacket := None; SFlow := None; Aggregation := None; Payload := PL_nil; Internal := no_internal |}.

Definition default_tunnel : TunnelDecoderConfig := {| Enabled := None; Ports := [] |}.
Definition default_processor : BuiltinProcessorConfig :=
  {| cfgDisablePacketMapping := false; cfgTruncatePacketBytes := 0; DropMessage := false; DropPayload := false; SwapPrePost := false;
     cfgHelpers := {| helperMPLSLabels := 0; helperIPLayers := 0 |};
     PacketDecoder := {| cfgDecodeBeyondL4 := None; cfgGRE := None; cfgIPIP := None; cfgVXLAN := default_tunnel; cfgGeneve := default_tunnel;
                         cfgL2TP := default_tunnel; cfgGTPU := default_tunnel; cfgPPPoE := None |} |}.


Lemma processor_ends_witness :
  match @Process simple_lib simple_processor_lib default_processor 0 vendor_event with
  | (Ok _, _) | (Err _, _) => True
  | (Panic _, _) => True
  | (Hang, _) => False
  end.
Proof.
  assert (Hok : event_bytes_ok vendor_event).
  { split; [done|]. intros b. change (ensureFields vendor_event !! "header_data"%string) with (Some (A_bytes vendor_packet)).
    intros [= <-]. by apply is_bytes_by_test. }
  pose proof (@processor_ends simple_lib simple_processor_lib simple_processor_spec default_processor 0 vendor_event Hok) as H.
  destruct (Process _ _ _) as [[| | |] ?]; done.
Defined.

(** ** Packet times *)

(** The wire time of a packet in nanoseconds, rounded up. *)
Definition wire_time (frameLength ifSpeed : Z) : Z := (frameLength * 8 * nanos + ifSpeed - 1) / ifSpeed.

Lemma duration_wire_time f s : 0 < f -> 0 < s -> f * 8 <= max_int64 / nanos -> packetTransmissionDurationNS f s = Z.min max_int64 (wire_time f s).
Proof.
  intros Hf Hs Hb. unfold packetTransmissionDurationNS, wire_time.
  destruct (Z.eqb_spec f 0); [lia|]. destruct (Z.eqb_spec s 0); [lia|]. cbn [orb]. destruct (Z.ltb_spec (max_int64 / nanos) (f * 8)); [lia|].
  assert (E : f * 8 * nanos / s + (if f * 8 * nanos mod s =? 0 then 0 else 1) = (f * 8 * nanos + s - 1) / s).
  { set (w := f * 8 * nanos). pose proof (Z.div_mod w s ltac:(lia)) as Hd. pose proof (Z.mod_pos_bound w s Hs) as Hm.
    destruct (Z.eqb_spec (w mod s) 0) as [H0|H0]; [apply (Z.div_unique_pos _ _ _ (s - 1))|apply (Z.div_unique_pos _ _ _ (w mod s - 1))]; lia. }
  cbv zeta. rewrite E. destruct (Z.ltb_spec max_int64 ((f * 8 * nanos + s - 1) / s)); lia.
Qed.

(** C26: the time window of a packet: it starts when the packet was received, never ends before
    it and stays in the 64-bit range; up to 1152921504 bytes the end is the start plus the wire
    time at the interface speed, rounded up, or the largest time if that is past it. *)
Theorem packet_window (startNS frameLength ifSpeed : Z) :
  - 2 ^ 63 <= startNS <= max_int64 -> u32 frameLength -> u64 ifSpeed ->
  let '(s, e) := packetTimeWindowNS startNS frameLength ifSpeed in
  s = startNS /\ s <= e <= max_int64 /\
  (ifSpeed = 0 \/ frameLength = 0 -> e = s) /\
  (0 < ifSpeed -> 0 < frameLength <= 1152921504 -> wire_time frameLength ifSpeed <= max_int64 ->
     e = Z.min max_int64 (startNS + wire_time frameLength ifSpeed)).
Proof.
  intros Hs Hf Hv. unfold packetTimeWindowNS.
  assert (Hd : 0 <= packetTransmissionDurationNS frameLength ifSpeed <= max_int64).
  { unfold packetTransmissionDurationNS. destruct (Z.eqb_spec frameLength 0); [unfold max_int64; cbn; lia|].
    destruct (Z.eqb_spec ifSpeed 0); [unfold max_int64; cbn; lia|]. cbn [orb]. cbv zeta.
    destruct (_ <? _); [unfold max_int64; lia|].
    assert (0 <= frameLength * 8 * nanos / ifSpeed) by (apply Z.div_pos; unfold nanos, uint in *; lia).
    match goal with |- context [max_int64 <? ?x] => destruct (Z.ltb_spec max_int64 x); [unfold max_int64; lia|] end.
    split; [|lia]. destruct (_ =? 0); lia. }
  assert (Hz : ifSpeed = 0 \/ frameLength = 0 -> packetTransmissionDurationNS frameLength ifSpeed = 0).
  { intros [-> | ->]; unfold packetTransmissionDurationNS; [by rewrite orb_true_r|done]. }
  assert (Hw : 0 < ifSpeed -> 0 < frameLength <= 1152921504 -> wire_time frameLength ifSpeed <= max_int64 ->
    packetTransmissionDurationNS frameLength ifSpeed = wire_time frameLength ifSpeed).
  { intros H1 H2 H3. rewrite duration_wire_time by (lia || (change (max_int64 / nanos) with 9223372036; lia)). lia. }
  destruct (Z.ltb_spec 0 (packetTransmissionDurationNS frameLength ifSpeed)) as [H0|H0];
    destruct (Z.ltb_spec (max_int64 - packetTransmissionDurationNS frameLength ifSpeed) startNS) as [H1|H1]; cbn [andb].
  all: split; [done|]; split; [lia|]; split; [intros Hc; specialize (Hz Hc); lia|].
  all: intros A B C; specialize (Hw A B C); lia.
Qed.

Lemma packet_window_witness : packetTimeWindowNS 1700000000000000000 1500 1000000000 = (1700000000000000000, 1700000000000012000).
Proof.
  pose proof (packet_window 1700000000000000000 1500 1000000000 ltac:(unfold max_int64; lia) ltac:(split; lia) ltac:(split; lia)) as H.
  destruct (packetTimeWindowNS _ _ _) as [s e]. destruct H as (-> & _ & _ & He).
  rewrite He; [by vm_compute|lia|lia|]. change (12000 <= 2 ^ 63 - 1). lia.
Defined.

(** ** JSON objects *)

Lemma apply_view_src_addr `{GoLib} m v t helpers :
  last (Tuples v) = Some t -> applyPacketViewFields m v helpers !! "src_addr"%string = Some (str (Addr_String (tSrc t))).
Proof.
  intros Ht. unfold applyPacketViewFields. rewrite Ht. cbv zeta.
  match goal with |- context [put_if (tProto t =? 6) _ _ (<[_ := _]> (tuple_fields "" t ?x))] => generalize x; intros m' end.
  assert (E : put_if (tProto t =? 6) "tcp_flags" (u32_field (TCPFlags t)) (<["ip_family"%string := str (if Is6 (tSrc t) || Is6 (tDst t) then "ipv6" else "ipv4")]>
    (tuple_fields "" t m')) !! "src_addr"%string = Some (str (Addr_String (tSrc t)))).
  { unfold put_if. destruct (_ =? 6); rewrite ?(lookup_insert_ne _ "tcp_flags"%string), lookup_insert_ne by done.
    all: unfold tuple_fields; apply lookup_put_fields; [refine (bool_decide_unpack _ _); by vm_compute|by left]. }
  destruct (Tuples v) as [|outer [|t2 ts]]; [done|done|].
  rewrite lookup_insert_ne by done. unfold put_if at 1. destruct (tProto outer =? 6); rewrite ?(lookup_insert_ne _ "outer_tcp_flags"%string) by done.
  all: unfold tuple_fields at 1; rewrite lookup_put_fields_other by (refine (bool_decide_unpack _ _); by vm_compute); done.
Qed.

Section order.
Context `{GoLib} `{ProcessorLib}.

Lemma setIPFamily_other m k : k <> "ip_family"%string -> setIPFamilyFromFields m !! k = m !! k.
Proof.
  intros Hk. unfold setIPFamilyFromFields. destruct (negb _); [done|]. generalize [fieldStringOrZero m "src_addr"; fieldStringOrZero m "dst_addr"].
  intros raws. induction raws as [|raw raws IH]; cbn [family_from]; [done|].
  destruct (if String.eqb raw "" then None else ParseAddr raw); [by rewrite lookup_insert_ne|done].
Qed.

Lemma flow_direction_other m k : k <> "flow_direction"%string -> deriveFlowDirectionFromCapture m !! k = m !! k.
Proof. intros Hk. unfold deriveFlowDirectionFromCapture. repeat case_match; try done; by rewrite lookup_insert_ne. Qed.

Lemma nat_other m i k : k ∉ ["nat_src_addr"; "nat_src_port"; "nat_dst_addr"; "nat_dst_port"]%string -> deriveNATFieldsFromConntrack m i false !! k = m !! k.
Proof.
  intros Hk. assert (Hp : forall a b x y m', k ∉ [a; b] -> put_fields [(a, x); (b, y)] m' !! k = m' !! k) by (intros; by apply lookup_put_fields_other).
  rewrite !not_elem_of_cons in Hk. destruct Hk as (H1 & H2 & H3 & H4 & _).
  unfold deriveNATFieldsFromConntrack. destruct (existsb _ _); [done|]. cbv zeta. cbn [andb].
  repeat match goal with |- context [if ?c then put_fields _ _ else _] => destruct c end; rewrite ?Hp; try done.
  all: rewrite !not_elem_of_cons; split_and!; try done; apply not_elem_of_nil.
Qed.

(** What is left of a field behind the range over the record. *)
Lemma reflow_fields_left cfg record e e' k :
  SwapPrePost cfg = false -> k ∉ ["ip_family"; "flow_direction"; "nat_src_addr"; "nat_src_port"; "nat_dst_addr"; "nat_dst_port"]%string ->
  rangeM record (reflow_entry cfg) (set_fields (ensureFields e) e) = (Ok tt, e') ->
  exists e'', processReFlowFields cfg record e = (Ok tt, e'') /\ ensureFields e'' !! k = ensureFields e' !! k.
Proof.
  intros Hswap Hk E. unfold processReFlowFields. erewrite bind_Ok by reflexivity. erewrite bind_Ok by exact E.
  eexists. split; [reflexivity|]. rewrite !not_elem_of_cons in Hk. destruct Hk as (H1 & H2 & H3 & H4 & H5 & H6 & _).
  destruct (DropMessage cfg); unfold applyDerivedFieldMappings;
    cbn [ReflowEvent.Fields set_fields set_event set_message ensureFields default id from_option Internal]; rewrite Hswap;
    (rewrite nat_other by (rewrite !not_elem_of_cons; split_and!; try done; apply not_elem_of_nil)); by rewrite flow_direction_other, setIPFamily_other.
Qed.
End order.

(** C27: a JSON record with a packet model and a source address gives the address of the record
    or that of the innermost IP header of the packet, as Go's range over the map happens to
    take the packet first or last: two runs over one record can give different events. *)
Theorem reflow_json_order `{GoLib} `{ProcessorLib} (cfg : BuiltinProcessorConfig) (e : Event) (value : any) (raw : bytes) (model : PacketModel)
    (t : packetTuple) (s : string) :
  SwapPrePost cfg = false -> json_MarshalBytes value = Some raw -> Unmarshal_packet raw = Some model ->
  last (Tuples (packetViewFromModel model)) = Some t ->
  exists e1 e2,
    processReFlowFields cfg [("packet", value); ("src_addr", A_string s)]%string e = (Ok tt, e1) /\
    processReFlowFields cfg [("src_addr", A_string s); ("packet", value)]%string e = (Ok tt, e2) /\
    ensureFields e1 !! "src_addr"%string = Some (A_string s) /\
    ensureFields e2 !! "src_addr"%string = Some (A_string (Addr_String (tSrc t))).
Proof.
  intros Hswap Hm Hu Ht.
  assert (Ep : forall e, reflow_entry cfg ("packet"%string, value) e =
    (Ok tt, set_fields (applyPacketViewFields (ensureFields (set_packet model e)) (packetViewFromModel model) (cfgHelpers cfg)) (set_packet model e))).
  { intros e0. unfold reflow_entry, remarshal. cbn [String.eqb Ascii.eqb Bool.eqb]. by rewrite Hm, Hu. }
  assert (Es : forall e, reflow_entry cfg ("src_addr"%string, A_string s) e = (Ok tt, set_fields (<["src_addr"%string := A_string s]> (ensureFields e)) e)) by done.
  assert (Hk : "src_addr"%string ∉ ["ip_family"; "flow_direction"; "nat_src_addr"; "nat_src_port"; "nat_dst_addr"; "nat_dst_port"]%string)
    by (refine (bool_decide_unpack _ _); by vm_compute).
  edestruct (reflow_fields_left cfg [("packet", value); ("src_addr", A_string s)]%string e) as (e1 & E1 & L1); [done|exact Hk| |].
  { cbn [rangeM]. erewrite bind_Ok by apply Ep. erewrite bind_Ok by apply Es. reflexivity. }
  edestruct (reflow_fields_left cfg [("src_addr", A_string s); ("packet", value)]%string e) as (e2 & E2 & L2); [done|exact Hk| |].
  { cbn [rangeM]. erewrite bind_Ok by apply Es. erewrite bind_Ok by apply Ep. reflexivity. }
  exists e1, e2. split; [exact E1|]. split; [exact E2|]. rewrite L1, L2. split; [apply lookup_insert_eq|]. by apply apply_view_src_addr.
Qed.

Lemma reflow_json_order_witness :
  exists e1 e2,
    @processReFlowFields simple_lib simple_processor_lib default_processor [("packet", A_nil); ("src_addr", A_string "10.0.0.9")]%string zero_event = (Ok tt, e1) /\
    @processReFlowFields simple_lib simple_processor_lib default_processor [("src_addr", A_string "10.0.0.9"); ("packet", A_nil)]%string zero_event = (Ok tt, e2) /\
    ensureFields e1 !! "src_addr"%string = Some (A_string "10.0.0.9") /\ ensureFields e2 !! "src_addr"%string = Some (A_string "").
Proof.
  exact (@reflow_json_order simple_lib simple_processor_lib default_processor zero_event A_nil [] vendor_model
    (model_tuple (Addr4 [10; 0; 0; 1]) (Addr4 [10; 0; 0; 2]) 47) "10.0.0.9" eq_refl eq_refl eq_refl eq_refl).
Defined.
