(* ===== verification/ReflowPseudoProps.v ===== *)
(** * pkg/reflow/packet: the packet made for a flow

    [BuildPseudoHeader] gives the encoders that need packet bytes a packet for a flow that has
    only fields; the parser reads the flow back from it. *)
From S2P Require Import Prelude Text DecodersUtils ProtoReflect ReflowEvent ReflowDecode ReflowPacket ReflowPacketEncode ReflowPacketRoundtrip ReflowNormalize.

(** A flow between two addresses of one family: the tunnels that start at an IP header are left
    out, and the UDP ports of the others. *)
Definition flow_ok (l : pseudoIPLayer) : Prop :=
  ((exists s d, psSrc l = Addr4 s /\ psDst l = Addr4 d /\ length s = 4%nat /\ length d = 4%nat) \/
   (exists s d, psSrc l = Addr6 s "" /\ psDst l = Addr6 d "" /\ length s = 16%nat /\ length d = 16%nat /\ isIPv6ExtensionHeader (psProto l) = false)) /\
  u8 (psProto l) /\ psProto l ∉ [4; 41; 47] /\ u16 (psSrcPort l) /\ u16 (psDstPort l) /\
  (psProto l = 17 -> plain_port (psSrcPort l) /\ plain_port (psDstPort l)).

(** Its layers: the IP header and what the protocol puts behind it. *)
Definition flow_transport (l : pseudoIPLayer) : list LayerSpec :=
  let p := psProto l in
  if p =? 6 then [layer "tcp" 20 (D_TCP {| tcpSrcPort := psSrcPort l; tcpDstPort := psDstPort l; tcpFlags := 2; Seq := 0; Ack := 0; Window := 0 |})]
  else if p =? 17 then [layer "udp" 8 (D_UDP {| udpSrcPort := psSrcPort l; udpDstPort := psDstPort l |})]
  else if p =? 1 then [layer "icmp" 8 (D_ICMP no_icmp)]
  else if p =? 58 then [layer "icmpv6" 8 (D_ICMP no_icmp)]
  else if p =? 132 then [L_sctp]
  else [].
Definition flow_ip (l : pseudoIPLayer) : LayerSpec :=
  if Is4 (psSrc l) then
    layer "ipv4" 20 (D_IPv4 {| ip4Src := psSrc l; ip4Dst := psDst l; Protocol := psProto l; ip4TTL := 64; DSCP := 0; ECN := 0; Identification := 0;
                               ip4Flags := 0; FragmentOffset := 0 |})
  else layer "ipv6" 40 (D_IPv6 {| ip6Src := psSrc l; ip6Dst := psDst l; NextHeader := psProto l; HopLimit := 64; TrafficClass := 0; FlowLabel := 0 |}).
Definition flow_type (l : pseudoIPLayer) : Z := if Is4 (psSrc l) then 0x0800 else 0x86dd.

Lemma flow_transport_stack l : flow_ok l -> stack (P_proto (psProto l)) (flow_transport l).
Proof.
  intros (_ & Hp & Hn & Hs & Hd & Hudp). unfold flow_transport. cbv zeta.
  destruct (Z.eqb_spec (psProto l) 6) as [->|H6]; [apply S_tcp; repeat split; cbn; lia || apply Hs || apply Hd|].
  destruct (Z.eqb_spec (psProto l) 17) as [E|H17]; [destruct (Hudp E); rewrite E; by apply S_udp|].
  destruct (Z.eqb_spec (psProto l) 1) as [->|H1]; [apply S_icmp|]. destruct (Z.eqb_spec (psProto l) 58) as [->|H58]; [apply S_icmpv6|].
  destruct (Z.eqb_spec (psProto l) 132) as [->|H132]; [apply S_sctp|]. apply S_other.
  rewrite !not_elem_of_cons in *. destruct Hn as (? & ? & ? & _). split_and!; try done. apply not_elem_of_nil.
Qed.

Lemma flow_stack l : flow_ok l -> stack (P_type (flow_type l)) (flow_ip l :: flow_transport l).
Proof.
  intros Hl. pose proof (flow_transport_stack l Hl) as Ht. destruct Hl as ([(s & d & Es & Ed & Ls & Ld)|(s & d & Es & Ed & Ls & Ld & Hx)] & Hp & _).
  - unfold flow_type, flow_ip. rewrite Es, Ed. cbn [Is4]. apply S_ipv4; [|exact Ht]. split; [by exists s, d|]. cbn. repeat split; lia || apply Hp.
  - unfold flow_type, flow_ip. rewrite Es, Ed. cbn [Is4]. apply S_ipv6; [|exact Ht]. split; [by exists s, d|]. cbn. repeat split; lia || apply Hp || exact Hx.
Qed.

(** The layers that the code makes encode to the same bytes. *)
Lemma flow_encodes `{GoLib} l : flow_ok l ->
  encode_layers (map ensureLayerLength (appendPseudoIPLayer l ++ appendPseudoTransportLayer l)) = encode_layers (flow_ip l :: flow_transport l).
Proof.
  intros (Hip & Hp & Hn & Hs & Hd & _). rewrite map_app.
  assert (Ht : encode_layers (map ensureLayerLength (appendPseudoTransportLayer l)) = encode_layers (flow_transport l)).
  { unfold appendPseudoTransportLayer, flow_transport. rewrite !to_uint_small by done. cbv zeta.
    destruct (psProto l =? 6); [done|]. destruct (psProto l =? 17); [done|]. destruct (Z.eqb_spec (psProto l) 1); [done|].
    destruct (Z.eqb_spec (psProto l) 58); [done|]. by destruct (psProto l =? 132). }
  assert (Ei : map ensureLayerLength (appendPseudoIPLayer l) = [flow_ip l]).
  { unfold appendPseudoIPLayer, flow_ip. rewrite to_uint_small by done.
    destruct Hip as [(s & d & -> & -> & _)|(s & d & -> & -> & _)]; done. }
  rewrite Ei. cbn [app encode_layers]. rewrite Ht. destruct (encode_layers (flow_transport l)); [|done..]. cbn [rbind].
  unfold flow_ip. destruct (Is4 (psSrc l)); done.
Qed.


(** A UDP flow of IPv6, with a library that reads two addresses. *)
Definition two_addresses : GoLib := {|
  FormatFloat64 := itoa; FormatFloat32 := itoa; json_Marshal v := Some "{}"%string;
  ParseAddr s := if String.eqb s "2001:db8::1" then Some (Addr6 (repeat 1 16) "") else if String.eqb s "2001:db8::2" then Some (Addr6 (repeat 2 16) "") else None;
  Addr_String a := ""%string; Sprint v := ""%string; SprintAny v := ""%string; Sscan_uint64 s := None; Sscanf_MAC := scan_mac;
  float64_to_int64 b := 0; float64_to_uint32 b := 0; float64_to_uint64 b := 0
|}.
Definition udp_flow : pseudoIPLayer :=
  {| psSrc := Addr6 (repeat 1 16) ""; psDst := Addr6 (repeat 2 16) ""; psProto := 17; psSrcPort := 53; psDstPort := 40000 |}.
Definition udp_fields : fields :=
  put_fields [("src_addr", A_string "2001:db8::1"); ("dst_addr", A_string "2001:db8::2"); ("proto", A_int K_uint32 17); ("src_port", A_int K_uint32 53);
              ("dst_port", A_int K_uint32 40000)]%string ∅.


(** ** Packets that are not read back

    Two labels of one flow: the code marks each as the bottom of the stack, so that the second
    is taken for the payload of the first. *)
Definition labelled_fields : fields :=
  put_fields [("src_addr", A_string "2001:db8::1"); ("dst_addr", A_string "2001:db8::2"); ("proto", A_int K_uint32 17); ("src_port", A_int K_uint32 53);
              ("dst_port", A_int K_uint32 40000); ("ether_type", A_int K_uint32 0x8847); ("mpls_label1", A_int K_uint32 100);
              ("mpls_label2", A_int K_uint32 200)]%string ∅.

Lemma two_labels_lost :
  match @BuildPseudoHeader two_addresses None labelled_fields with
  | (Some data, _) => match parsePacketViewWithOptions data 1 defaultDecodeOptions with
                      | Ok v => MPLSLabels v = [100] /\ Tuples v = []
                      | _ => False
                      end
  | _ => False
  end.
Proof. by vm_compute. Qed.

(** A VXLAN packet, parsed and encoded again, has lost its UDP header. *)
Definition vxlan_packet : bytes :=
  [0x45; 0; 0; 78; 0; 0; 0; 0; 64; 17; 0; 0; 10; 0; 0; 1; 10; 0; 0; 2] ++ be_put 2 50000 ++ be_put 2 4789 ++ [0; 58; 0; 0] ++
  [8; 0; 0; 0; 0; 0; 7; 0] ++ replicate 12 0 ++ be_put 2 0x0800 ++ [0x45; 0; 0; 28; 0; 0; 0; 0; 64; 1; 0; 0; 10; 1; 0; 1; 10; 1; 0; 2] ++ replicate 8 0.

Lemma vxlan_loses_udp :
  match parsePacketViewWithOptions vxlan_packet 11 defaultDecodeOptions with
  | Ok v => map lKind (layers_of v) = ["ipv4"; "vxlan"; "ethernet"; "ipv4"; "icmp"]%string /\
            match @encode_layers simple_lib (layers_of v) with Ok b => len b = len vxlan_packet - 8 | _ => False end
  | _ => False
  end.
Proof. by vm_compute. Qed.

(** A GTP-U extension header of four bytes has its length in its first byte. *)
Definition gtpu_packet : bytes :=
  replicate 8 0 ++ [0x34; 0xff; 0; 28; 0; 0; 0; 1] ++ [0; 0; 0; 0x85] ++ [1; 16; 9; 0] ++ [0x45; 0; 0; 20; 0; 0; 0; 0; 64; 1; 0; 0; 10; 1; 0; 1; 10; 1; 0; 2].

Lemma gtpu_extension_refused : fst (parseGTPU gtpu_packet zero_view) = Err (Errorf "truncated gtpu extension payload" []).
Proof. by vm_compute. Qed.
