(* ===== verification/ReflowFields.v ===== *)
(** * pkg/reflow/encode: reading the fields and the metadata of an event

    [fields.go] and [metadata.go], the functions that the encoders share.  The fields of an
    event may be a nil map, which reads like an empty one. *)
From S2P Require Import Prelude Text ReflowEvent ReflowNormalize.

(** ** Batches (config.go) *)

Record BatchConfig : Type := { batchEnabled : option bool; MaxRecords : Z; MaxBytes : Z }.
Definition IsEnabled (c : BatchConfig) : bool := default false (batchEnabled c).

Definition fields_of (e : Event) : fields := default ∅ (ReflowEvent.Fields e).

Definition stringFieldOrZero (m : fields) (key : string) : string := match m !! key with Some (A_string s) => s | _ => ""%string end.

(** ** Numbers *)

Section numbers.
Context `{GoLib}.

Definition uint64FromAny (val : any) : Z :=
  match val with
  | A_int K_uint64 v | A_int K_uint32 v | A_int K_uint16 v | A_int K_uint8 v => v
  | A_int K_int64 v | A_int K_int v => nonneg 64 v
  | A_float64 b => if float64_negative b then 0 else float64_to_uint64 b
  | A_number s => nonneg 64 (ParseInt s)
  | _ => 0
  end.

Definition uint32_value (val : any) : Z :=
  match val with
  | A_int K_uint32 v => v
  | A_int K_uint64 v => to_uint 32 v
  | A_int K_int v | A_int K_int64 v => nonneg 32 v
  | A_float64 b => if float64_negative b then 0 else float64_to_uint32 b
  | A_number s => nonneg 32 (ParseInt s)
  | _ => 0
  end.
Definition int64_value (val : any) : Z :=
  match val with
  | A_int K_int64 v | A_int K_int v | A_int K_uint32 v => v
  | A_int K_uint64 v => to_int 64 v
  | A_float64 b => float64_to_int64 b
  | A_number s => ParseInt s
  | _ => 0
  end.

Definition uint32Field (m : fields) (key : string) : Z := match m !! key with Some v => uint32_value v | None => 0 end.
Definition uint64Field (m : fields) (key : string) : Z := match m !! key with Some v => uint64FromAny v | None => 0 end.
Definition int64Field (m : fields) (key : string) : Z := match m !! key with Some v => int64_value v | None => 0 end.
Definition uint16Field (m : fields) (key : string) : Z := to_uint 16 (uint32Field m key).

(** ** Times and addresses *)

Definition timeFlowNS (m : fields) (nsKey msKey : string) : Z :=
  let ns := int64Field m nsKey in
  let ms := int64Field m msKey in
  if 0 <? ns then ns else if 0 <? ms then to_int 64 (ms * 1000000) else 0.

Definition exportUnixMilliseconds (now receivedAt : Z) (m : fields) : Z :=
  let endMS := int64Field m "end_time_unix" in
  let startMS := int64Field m "start_time_unix" in
  if 0 <? endMS then endMS else if 0 <? startMS then startMS
  else if receivedAt =? zero_time then UnixMilli now else UnixMilli receivedAt.

(** [sysUptime], [first] and [last]. *)
Definition uptimeWindow (exportMS startMS endMS : Z) : Z * Z * Z :=
  let startMS := if startMS <=? 0 then exportMS else startMS in
  let endMS := if endMS <=? 0 then exportMS else endMS in
  let baseMS := exportMS in
  let baseMS := if startMS <? baseMS then startMS else baseMS in
  let baseMS := if endMS <? baseMS then endMS else baseMS in
  let baseMS := if exportMS <? baseMS then exportMS else baseMS in
  (to_uint 32 (exportMS - baseMS), to_uint 32 (startMS - baseMS), to_uint 32 (endMS - baseMS)).

Definition mustIPv4Address (m : fields) (key : string) : Z :=
  let ip := stringFieldOrZero m key in
  if String.eqb ip "" then 0
  else
    match ParseAddr ip with
    | Some (Addr4 [a; b; c; d]) => Z.lor (Z.lor (Z.lor (Z.shiftl a 24) (Z.shiftl b 16)) (Z.shiftl c 8)) d
    | _ => 0
    end.

(** The type of a flow in the JSON of goflow2. *)
Definition flowTypeField (m : fields) : any :=
  let val := stringFieldOrZero m "flow_type" in
  if String.eqb val "sflow" then A_int K_int 1 else if String.eqb val "netflowv5" then A_int K_int 2
  else if String.eqb val "netflowv9" then A_int K_int 3 else if String.eqb val "ipfix" then A_int K_int 4
  else if String.eqb val "" then A_int K_int 0 else A_string val.

(** ** Metadata of an event (metadata.go) *)

Definition of_sflow {A} (zero : A) (f : SFlowMetadata -> A) (e : Event) : A := match SFlow e with Some sf => f sf | None => zero end.
Definition of_sampling (f : SamplingMetadata -> Z) (e : Event) : Z := match Sampling (Source e) with Some s => f s | None => 0 end.

Definition first_string (l : list string) : string := default ""%string (head (filter (fun s => s <> ""%string) l)).

Definition eventAgentIP (e : Event) : string :=
  first_string [of_sflow ""%string sfAgentIP e; srcAgentIP (Source e);
                stringFieldOrZero (fields_of e) "agent_ipv6"; stringFieldOrZero (fields_of e) "agent_ip"].

(** The number of the sFlow metadata, or of the source when that is zero. *)
Definition event_number (sf : SFlowMetadata -> Z) (source : SamplingMetadata -> Z) (e : Event) : Z :=
  if of_sflow 0 sf e =? 0 then of_sampling source e else of_sflow 0 sf e.
Definition eventSamplingRate : Event -> Z := event_number sfSamplingRate Rate.
Definition eventSamplePool : Event -> Z := event_number sfSamplePool smSamplePool.
Definition eventDrops : Event -> Z := event_number sfDrops smDrops.

Definition eventSourceIDValue (e : Event) : option Z :=
  if negb (of_sflow 0 sfSourceID e =? 0) then Some (of_sflow 0 sfSourceID e)
  else if SourceIDSet (Source e) || negb (srcSourceID (Source e) =? 0) then Some (srcSourceID (Source e))
  else None.
Definition eventSourceID (e : Event) : Z := default 0 (eventSourceIDValue e).

(** [has_metadata f]: [hasSamplingMetadata] and its like. *)
Definition has_metadata (sf : SFlowMetadata -> Z) (e : Event) : bool :=
  negb (of_sflow 0 sf e =? 0) || match Sampling (Source e) with Some _ => true | None => false end.

Definition agentIPByFamily (raw : string) : string * string :=
  if String.eqb raw "" then (""%string, ""%string)
  else
    match ParseAddr raw with
    | Some a => if Is4 a then (raw, ""%string) else (""%string, raw)
    | None => (raw, ""%string)
    end.

(** The fields that the metadata gives, in the order in which they are written; [names] are the
    only ones to add, when given. *)
Definition metadata_fields (e : Event) : list (string * any) :=
  let '(agentIPv4, agentIPv6) := agentIPByFamily (eventAgentIP e) in
  let keep (b : bool) k v := if b then [(k, v)] else [] in
  keep (negb (String.eqb agentIPv4 "")) "agent_ip"%string (A_string agentIPv4) ++
  keep (negb (String.eqb agentIPv6 "")) "agent_ipv6"%string (A_string agentIPv6) ++
  match eventSourceIDValue e with Some id => [("source_id"%string, A_int K_uint32 id)] | None => [] end ++
  keep (has_metadata sfSamplingRate e) "sampling_rate"%string (A_int K_uint32 (eventSamplingRate e)) ++
  keep (has_metadata sfSamplePool e) "sample_pool"%string (A_int K_uint32 (eventSamplePool e)) ++
  keep (has_metadata sfDrops e) "drops"%string (A_int K_uint32 (eventDrops e)).

Definition addEventMetadataFields (m : fields) (e : Event) (names : option (list string)) : fields :=
  fold_left (fun m kv => match names with
                         | Some l => if bool_decide (kv.1 ∈ l) then <[kv.1 := kv.2]> m else m
                         | None => <[kv.1 := kv.2]> m
                         end) (metadata_fields e) m.

Definition eventFieldsWithMetadata (e : Event) : fields := addEventMetadataFields (fields_of e) e None.
Definition eventFieldsWithMetadataForSchema (e : Event) (schemaFields : list SchemaField) : fields :=
  addEventMetadataFields (fields_of e) e (Some (map sName schemaFields)).
End numbers.
