(* ===== verification/ReflowExportV5.v ===== *)
(** * pkg/reflow/encode: NetFlow v5 from events

    [netflowv5.go]: one event becomes one datagram with one record.  The state is the sequence
    number of the encoder; the clock is an argument. *)
From S2P Require Import Prelude Text DecodersUtils NetflowTypes NetflowLegacy NetflowStores SamplingRate SamplingInterface ReflowEvent ReflowDecode ReflowDecodeProps ReflowNormalize ReflowFields.

Section encoder.
Context `{GoLib}.

Definition any_field (m : fields) (key : string) : any := default A_nil (m !! key).

(** [uint16Field] and its like. *)
Definition field_width (w : Z) (m : fields) (key : string) : Z := to_uint w (uint32Field m key).

Definition v5_record (m : fields) (first last : Z) : RecordsNetFlowV5 :=
  {| SrcAddr := mustIPv4Address m "src_addr"; DstAddr := mustIPv4Address m "dst_addr"; NextHop := mustIPv4Address m "next_hop";
     Input := uint16Field m "input_if"; Output := uint16Field m "output_if";
     DPkts := to_uint 32 (uint64FromAny (any_field m "packets")); DOctets := to_uint 32 (uint64FromAny (any_field m "bytes"));
     First := first; Last := last; SrcPort := uint16Field m "src_port"; DstPort := uint16Field m "dst_port"; Pad1 := 0;
     TCPFlags := field_width 8 m "tcp_flags"; Proto := field_width 8 m "proto"; Tos := field_width 8 m "tos";
     SrcAS := uint16Field m "src_as"; DstAS := uint16Field m "dst_as";
     SrcMask := field_width 8 m "src_mask"; DstMask := field_width 8 m "dst_mask"; Pad2 := 0 |}.

Definition buildPacket (now : Z) (e : Event) : ST Z PacketNetFlowV5 := fun seq =>
  match ReflowEvent.Fields e with
  | None => (Err (Errorf "event fields are empty" []), seq)
  | Some m =>
      let exportMS := exportUnixMilliseconds now (ReceivedAt e) m in
      let '(sysUptime, first, last) := uptimeWindow exportMS (int64Field m "start_time_unix") (int64Field m "end_time_unix") in
      let seq := to_uint 32 (seq + 1) in
      (Ok {| Version := 5; Count := 1; SysUptime := sysUptime; UnixSecs := to_uint 32 (exportMS / 1000);
             UnixNSecs := exportMS mod 1000 * 1000000; FlowSequence := seq; EngineType := field_width 8 m "engine_type";
             EngineId := field_width 8 m "engine_id"; SamplingInterval := uint16Field m "sampling_rate";
             Records := [v5_record m first last] |}, seq)
  end.

(** [Encode]; [Flush] has nothing to give. *)
Definition Encode (now : Z) (e : Event) : ST Z (list bytes) :=
  if String.eqb (Kind e) "control" then ret []
  else
    let* packet := buildPacket now e in
    let* data := errctx (Wrap "encode netflow v5 packet" []) (lift_res (EncodeMessage (Some packet))) in
    ret [data].
Definition Flush : ST Z (list bytes) := ret [].
End encoder.

(** ** From an event to a datagram and back *)

(** The address that an export of [ip] is read back as. *)
Definition exported_address `{GoLib} (ip : string) : string :=
  if String.eqb ip "" then dotted 0 0 0 0
  else match ParseAddr ip with Some (Addr4 [a; b; c; d]) => dotted a b c d | _ => dotted 0 0 0 0 end.

(** Addresses are bytes. *)
Class ParsesBytes `{GoLib} : Prop := ParseAddr_bytes s b : ParseAddr s = Some (Addr4 b) -> is_bytes b.

Section roundtrip.
Set Default Proof Using "Type*".
Context `{ParsesBytes}.

Lemma mustIPv4Address_bytes m k : exists a b c d, u8 a /\ u8 b /\ u8 c /\ u8 d /\
  mustIPv4Address m k = be_get [a; b; c; d] /\ exported_address (stringFieldOrZero m k) = dotted a b c d.
Proof.
  assert (Hz : u8 0) by (unfold uint; lia).
  unfold mustIPv4Address, exported_address. destruct (String.eqb _ ""); [by exists 0, 0, 0, 0|].
  destruct (ParseAddr _) as [[l|l z]|] eqn:E; [|by exists 0, 0, 0, 0..].
  destruct l as [|a [|b [|c [|d [|x l]]]]]; try by exists 0, 0, 0, 0.
  apply ParseAddr_bytes in E. apply Forall_cons in E as [Ha E].
  apply Forall_cons in E as [Hb E]. apply Forall_cons in E as [Hc E]. apply Forall_cons in E as [Hd _].
  exists a, b, c, d. splits; try done. rewrite be_get_4 by done. unfold uint in *.
  rewrite <- !Z.lor_assoc, (lor_shiftl_low c 8 d), (lor_shiftl_low b 16), lor_shiftl_low by lia. lia.
Qed.

Lemma be_get_bounds a b c d : u8 a -> u8 b -> u8 c -> u8 d -> u32 (be_get [a; b; c; d]).
Proof. intros. rewrite be_get_4 by done. unfold uint in *. lia. Qed.

Lemma v5_record_ok m first last : u32 first -> u32 last -> record_ok (v5_record m first last).
Proof.
  intros Hf Hl. assert (Ha : forall k, u32 (mustIPv4Address m k)).
  { intros k. destruct (mustIPv4Address_bytes m k) as (a & b & c & d & ? & ? & ? & ? & -> & _). by apply be_get_bounds. }
  unfold record_ok, v5_record, uint16Field, field_width. cbn. splits; try apply Ha; try done; try (apply to_uint_uint; lia).
  all: unfold uint; lia.
Qed.

(** The time that a time field counts as: the export time when it is missing. *)
Definition time_of (export : Z) (m : fields) (key : string) : Z := if int64Field m key <=? 0 then export else int64Field m key.

Lemma uptimeWindow_ages export start last :
  let s := if start <=? 0 then export else start in
  let t := if last <=? 0 then export else last in
  - 2 ^ 32 < s - t < 2 ^ 32 -> s = export \/ t = export ->
  exists up, uptimeWindow export start last = (up, up - (export - s), up - (export - t)) /\
             u32 up /\ u32 (up - (export - s)) /\ u32 (up - (export - t)).
Proof.
  cbv zeta. unfold uptimeWindow. set (s := if start <=? 0 then export else start). set (t := if last <=? 0 then export else last).
  intros Hd Hor. cbv zeta.
  assert (Hbase : exists base, base = Z.min s t /\
    (let baseMS := if s <? export then s else export in let baseMS := if t <? baseMS then t else baseMS in
     if export <? baseMS then export else baseMS) = base).
  { eexists. split; [reflexivity|]. cbv zeta. destruct (Z.ltb_spec s export);
      (destruct (t <? _) eqn:E1; [apply Z.ltb_lt in E1|apply Z.ltb_ge in E1]);
      (destruct (export <? _) eqn:E2; [apply Z.ltb_lt in E2|apply Z.ltb_ge in E2]); lia. }
  cbv zeta in Hbase. destruct Hbase as (base & Hb & ->).
  exists (export - base). rewrite !to_uint_small by (unfold uint; lia). unfold uint. split; [|lia]. f_equal; [f_equal|]; lia.
Qed.

Lemma export_time now received m :
  let export := exportUnixMilliseconds now received m in
  time_of export m "start_time_unix" = export \/ time_of export m "end_time_unix" = export.
Proof.
  unfold exportUnixMilliseconds, time_of. cbv zeta.
  destruct (Z.ltb_spec 0 (int64Field m "end_time_unix")).
  - right. destruct (Z.leb_spec (int64Field m "end_time_unix") 0); lia.
  - right. destruct (Z.leb_spec (int64Field m "end_time_unix") 0); lia.
Qed.

Lemma flowTimeFromV5_age export up s : 0 <= export < 2 ^ 32 * 1000 ->
  flowTimeFromV5 (to_uint 32 (export / 1000)) (export mod 1000 * 1000000) up (up - (export - s)) = s.
Proof.
  intros He. unfold flowTimeFromV5. rewrite to_uint_small by (unfold uint; split; [apply Z.div_pos; lia|apply Z.div_lt_upper_bound; lia]).
  rewrite Z.div_mul by lia. pose proof (Z.div_mod export 1000 ltac:(lia)). lia.
Qed.

(** The numbers of a record that are kept modulo their width. *)
Definition v5_widths : list (string * Z) :=
  [("src_port", 16); ("dst_port", 16); ("input_if", 16); ("output_if", 16); ("src_as", 16); ("dst_as", 16); ("sampling_rate", 16);
   ("proto", 8); ("tcp_flags", 8); ("tos", 8); ("src_mask", 8); ("dst_mask", 8); ("engine_type", 8); ("engine_id", 8)]%string.

(** What an event keeps of the fields [m] behind an export and an import. *)
Record v5_kept (export : Z) (m : fields) (e : Event) : Prop := {
  vk_address k : k ∈ ["src_addr"; "dst_addr"; "next_hop"]%string ->
    field_of e k = Some (A_string (exported_address (stringFieldOrZero m k)));
  vk_number k w : (k, w) ∈ v5_widths -> field_of e k = Some (u32_field (to_uint w (uint32Field m k)));
  vk_counter k : k ∈ ["bytes"; "packets"]%string -> field_of e k = Some (A_int K_int64 (to_uint 32 (uint64FromAny (any_field m k))));
  vk_time k : k ∈ ["start_time_unix"; "end_time_unix"]%string -> field_of e k = Some (A_int K_int64 (time_of export m k))
}.

Section import.
Context {T R : Type} `{TemplateStore T} `{SamplingStore R}.

Lemma v5_event_kept export m evt p up : 0 <= export < 2 ^ 32 * 1000 ->
  UnixSecs p = to_uint 32 (export / 1000) -> UnixNSecs p = export mod 1000 * 1000000 -> SysUptime p = up ->
  EngineType p = field_width 8 m "engine_type" -> EngineId p = field_width 8 m "engine_id" -> SamplingInterval p = uint16Field m "sampling_rate" ->
  v5_kept export m (v5_event evt p (v5_record m (up - (export - time_of export m "start_time_unix")) (up - (export - time_of export m "end_time_unix")))).
Proof.
  intros He Es En Eu Et Ei Er.
  set (r := v5_record _ _ _). assert (Hf : forall k v, (k, v) ∈ v5_fields p r -> field_of (v5_event evt p r) k = Some v) by apply v5_event_field.
  unfold v5_fields in Hf. rewrite Es, En, Eu, Et, Ei, Er in Hf. unfold r in Hf. cbn [v5_record SrcAddr DstAddr NextHop Input Output DPkts DOctets First Last SrcPort DstPort
    Pad1 TCPFlags Proto Tos SrcAS DstAS SrcMask DstMask Pad2] in Hf. rewrite !flowTimeFromV5_age in Hf by done.
  assert (Ha : forall k, IPAddress_String (mustIPv4Address m k) = exported_address (stringFieldOrZero m k)).
  { intros k. destruct (mustIPv4Address_bytes m k) as (a & b & c & d & ? & ? & ? & ? & -> & ->). by apply IPAddress_String_dotted. }
  rewrite !Ha in Hf. unfold field_width, uint16Field in Hf. subst r. clear Es En Eu Et Ei Er. split.
  - intros k Hk. rewrite !elem_of_cons, elem_of_nil in Hk. repeat destruct Hk as [->|Hk]; try done; apply Hf; in_list.
  - intros k w Hk. unfold v5_widths in Hk. rewrite !elem_of_cons, elem_of_nil in Hk.
    repeat destruct Hk as [[= -> ->]|Hk]; try done; apply Hf; in_list.
  - intros k Hk. rewrite !elem_of_cons, elem_of_nil in Hk. repeat destruct Hk as [->|Hk]; try done; apply Hf; in_list.
  - intros k Hk. rewrite !elem_of_cons, elem_of_nil in Hk. repeat destruct Hk as [->|Hk]; try done; apply Hf; in_list.
Qed.

End import.
End roundtrip.

(** ** Witness *)

Definition one_address : GoLib := {|
  FormatFloat64 := FormatFloat64 (GoLib := simple_lib); FormatFloat32 := FormatFloat32 (GoLib := simple_lib);
  json_Marshal := json_Marshal (GoLib := simple_lib);
  ParseAddr s := if String.eqb s "10.0.0.1" then Some (Addr4 [10; 0; 0; 1]) else None; Addr_String a := ""%string;
  Sprint := Sprint (GoLib := simple_lib); SprintAny := SprintAny (GoLib := simple_lib); Sscan_uint64 s := None; Sscanf_MAC := scan_mac;
  float64_to_int64 b := 0; float64_to_uint32 b := 0; float64_to_uint64 b := 0
|}.

Lemma one_address_bytes : @ParsesBytes one_address.
Proof.
  intros s b. cbn. destruct (String.eqb s "10.0.0.1"); [|done]. intros [= <-]. repeat constructor; unfold uint; lia.
Qed.

Definition long_flow : fields :=
  put_fields [("src_addr", A_string "10.0.0.1"); ("dst_addr", A_string "10.0.0.2"); ("src_port", u32_field 443);
              ("bytes", A_int K_uint64 (2 ^ 32 + 5)); ("packets", A_int K_int64 3); ("input_if", u32_field 70000);
              ("start_time_unix", A_int K_int64 1699999990123); ("end_time_unix", A_int K_int64 1699999999456)]%string ∅.
Definition long_flow_event : Event :=
  {| ReceivedAt := 0; Kind := ""; Stream := ""; Source := zero_source; Control := None; ReflowEvent.Fields := Some long_flow; evtMessage := [];
     evtPacket := None; SFlow := None; Aggregation := None; Payload := PL_nil; Internal := no_internal |}.

