(* ===== verification/ReflowExportSflow.v ===== *)
(** * pkg/reflow/encode: sFlow datagrams from events

    [sflow.go]: an event becomes a flow sample, a counter sample or the raw sample it carries;
    samples are packed into datagrams up to a size limit, in batches or one by one.  The state
    is the encoder: its two sequence numbers and the events of the batch.  The error that says
    that a sample is too large is a value of [packed], since the callers look at it. *)
From S2P Require Import Prelude Text DecodersUtils SflowTypes SflowDecode SflowEncode ReflowEvent ReflowPacketEncode ReflowNormalize ReflowFields.

(** ** Configuration and state *)

Record SFlowBatchOverConfig : Type := {
  overAgentIP : option bool; overSubAgentID : option bool; overSequenceNumber : option bool; overUptime : option bool
}.

(** What the encoder keeps of its configuration ([NewSFlowEncoder]). *)
Record encoder_config : Type := {
  started : Z; maxDatagramBytes : Z; allowTruncate : bool; maxHeaderBytes : Z; batch : BatchConfig;
  cfgAgentIP : string; CounterFormat : string; EmitExtendedRecords : option bool; UseMetadataSequenceNumber : bool; BatchOver : SFlowBatchOverConfig
}.

Record SFlowEncoder : Type := { packetSeq : Z; sampleSeq : Z; events : list Event }.
Definition NewSFlowEncoder : SFlowEncoder := {| packetSeq := 0; sampleSeq := 0; events := [] |}.

Definition set_events (l : list Event) (s : SFlowEncoder) : SFlowEncoder :=
  {| packetSeq := packetSeq s; sampleSeq := sampleSeq s; events := l |}.

(** [e.packetSeq.Add(1)] and [e.sampleSeq.Add(1)]. *)
Definition next_packetSeq : ST SFlowEncoder Z := fun s =>
  let n := to_uint 32 (packetSeq s + 1) in (Ok n, {| packetSeq := n; sampleSeq := sampleSeq s; events := events s |}).
Definition sampleSequence : ST SFlowEncoder Z := fun s =>
  let n := to_uint 32 (sampleSeq s + 1) in (Ok n, {| packetSeq := packetSeq s; sampleSeq := n; events := events s |}).

Definition batchDatagramLimit (c : encoder_config) : Z :=
  let limit := maxDatagramBytes c in
  if IsEnabled (batch c) && (0 <? MaxBytes (batch c)) && ((limit <=? 0) || (MaxBytes (batch c) <? limit)) then MaxBytes (batch c) else limit.

(** ** Records that an event carries *)

Definition first_sample (e : Event) : option SFlowSampleMetadata := SFlow e ≫= fun sf => head (sfSamples sf).

Definition publicSFlowDataFormat (enterprise format dataFormat : Z) : option Z :=
  if negb (dataFormat =? 0) then Some dataFormat
  else if (enterprise =? 0) && (format =? 0) then None
  else Some (PackDataFormat enterprise format).

Definition raw_record {V} (mk : RawRecord -> V) (r : SFlowRawRecord) : option (record V) :=
  match publicSFlowDataFormat (rwEnterprise r) (rwFormat r) (rwDataFormat r) with
  | Some df => Some {| rHeader := {| DataFormat := df; rhLength := 0 |}; rData := Some (Val (mk {| rawData := rwData r |})) |}
  | None => None
  end.
Definition publicSFlowFlowRecords (e : Event) : list FlowRecord :=
  match first_sample e with Some s => omap (raw_record FV_RawRecord) (RawFlowRecords s) | None => [] end.
Definition publicSFlowCounterRecords (e : Event) : list CounterRecord :=
  match first_sample e with Some s => omap (raw_record CV_RawRecord) (RawCounterRecords s) | None => [] end.

Definition preservedSFlowFlowRecords (e : Event) : list FlowRecord := sflow_flow_records (Internal e).
Definition preservedSFlowCounterRecords (e : Event) : list CounterRecord := sflow_counter_records (Internal e).

(** The payload of a sample with a known format must decode without a rest. *)
Definition validPublicRawSamplePayload (dataFormat : Z) (data : bytes) : bool :=
  if negb (DataFormatEnterprise dataFormat =? 0) then true
  else if existsb (Z.eqb (DataFormatFormat dataFormat))
            [SAMPLE_FORMAT_FLOW; SAMPLE_FORMAT_COUNTER; SAMPLE_FORMAT_EXPANDED_FLOW; SAMPLE_FORMAT_EXPANDED_COUNTER; SAMPLE_FORMAT_DROP]
  then
    match DecodeSample {| Format := dataFormat; sLength := to_uint 32 (len data); SampleSequenceNumber := 0; SourceIdType := 0;
                          SourceIdValue := 0 |} data with
    | (Ok _, rest) => len rest =? 0
    | _ => false
    end
  else true.

Definition sample_header (format seq sourceIdType sourceIdValue : Z) : SampleHeader :=
  {| Format := format; sLength := 0; SampleSequenceNumber := seq; SourceIdType := sourceIdType; SourceIdValue := sourceIdValue |}.

Definition publicSFlowRawSample (e : Event) : option RawSample :=
  match first_sample e with
  | None => None
  | Some s =>
      if len (smData s) =? 0 then None
      else
        match publicSFlowDataFormat (smEnterprise s) (smFormat s) (smDataFormat s) with
        | None => None
        | Some df => if validPublicRawSamplePayload df (smData s) then Some {| rsHeader := sample_header df 0 0 0; rsData := smData s |} else None
        end
  end.

Definition flowRecordDataFormat (r : FlowRecord) : Z :=
  if negb (DataFormat (rHeader r) =? 0) then DataFormat (rHeader r)
  else
    match rData r with
    | Some b =>
        match unbox b with
        | Some (FV_ExtendedNAT _) => FLOW_TYPE_EXT_NAT
        | Some (FV_ExtendedMPLS _) => FLOW_TYPE_EXT_MPLS
        | Some (FV_ExtendedMPLSTunnel _) => FLOW_TYPE_EXT_MPLS_TUNNEL
        | Some (FV_ExtendedMPLSVC _) => FLOW_TYPE_EXT_MPLS_VC
        | Some (FV_ExtendedMPLSFTN _) => FLOW_TYPE_EXT_MPLS_FEC
        | Some (FV_ExtendedMPLSLDPFEC _) => FLOW_TYPE_EXT_MPLS_LVP_FEC
        | _ => 0
        end
    | None => 0
    end.

Definition hasStandardSFlowRecord (records : list FlowRecord) (format : Z) : bool :=
  existsb (fun r => let df := flowRecordDataFormat r in (DataFormatEnterprise df =? 0) && (DataFormatFormat df =? format)) records.

(** ** Records made from the fields *)

Section encoder.
Context `{GoLib}.

Definition record_of (v : flow_value) : FlowRecord := {| rHeader := {| DataFormat := 0; rhLength := 0 |}; rData := Some (Val v) |}.
Definition counter_of (v : counter_value) : CounterRecord := {| rHeader := {| DataFormat := 0; rhLength := 0 |}; rData := Some (Val v) |}.

Definition parseSFlowIP (value : string) : option bytes :=
  if String.eqb value "" then Some [] else match ParseAddr value with Some a => Some (AsSlice a) | None => None end.

Definition syntheticNATRecord (m : fields) : option flow_value :=
  let src := stringFieldOrZero m "nat_src_addr" in
  let dst := stringFieldOrZero m "nat_dst_addr" in
  if String.eqb src "" && String.eqb dst "" then None
  else
    let src := if String.eqb src "" then stringFieldOrZero m "src_addr" else src in
    let dst := if String.eqb dst "" then stringFieldOrZero m "dst_addr" else dst in
    match parseSFlowIP src, parseSFlowIP dst with
    | Some s, Some d => Some (FV_ExtendedNAT {| SrcAddressIPVersion := 0; SrcAddress := s; DstAddressIPVersion := 0; DstAddress := d |})
    | _, _ => None
    end.

Definition uint32SliceField (m : fields) (key : string) : list Z :=
  match m !! key with
  | Some (A_uint32s l) => l
  | Some (A_list l) => map (fun item => to_uint 32 (uint64FromAny item)) l
  | _ => []
  end.

(** The entry of the [i]th label, if there is one. *)
Definition mpls_entry (m : fields) (i : Z) : option Z :=
  match bytesField m (numbered "mpls_label_stack_section_" i "") with
  | a :: b :: c :: _ => Some (Z.lor (Z.lor (Z.shiftl a 24) (Z.shiftl b 16)) (Z.shiftl c 8))
  | _ =>
      let label := uint32Field m (numbered "mpls_label_" i "") in
      let label := if label =? 0 then uint32Field m (numbered "mpls_label" i "") else label in
      if label =? 0 then None else Some (Z.shiftl (Z.land label 0xfffff) 12)
  end.

(** The last entry is marked as the bottom of the stack. *)
Definition mplsStackFromHelperFields (m : fields) : list Z :=
  let entries := omap (fun i => mpls_entry m (Z.of_nat i)) (seq 1 16) in
  match last entries with Some e => removelast entries ++ [Z.lor e (2 ^ 8)] | None => [] end.

Definition syntheticMPLSRecord (m : fields) : option flow_value :=
  let inStack := uint32SliceField m "mpls_in_label_stack" in
  let outStack := uint32SliceField m "mpls_out_label_stack" in
  let inStack := if len inStack =? 0 then mplsStackFromHelperFields m else inStack in
  if (len inStack =? 0) && (len outStack =? 0) then None
  else Some (FV_ExtendedMPLS {| mNextHopIPVersion := 0; mNextHop := default [] (parseSFlowIP (stringFieldOrZero m "mpls_next_hop_addr"));
                               InLabelStack := inStack; OutLabelStack := outStack |}).

Definition syntheticMPLSTunnelRecord (m : fields) : option flow_value :=
  let name := stringFieldOrZero m "mpls_tunnel_lsp_name" in
  let id := uint32Field m "mpls_tunnel_id" in
  let cos := uint32Field m "mpls_tunnel_cos" in
  if String.eqb name "" && (id =? 0) && (cos =? 0) then None
  else Some (FV_ExtendedMPLSTunnel {| TunnelLSPName := string_bytes name; TunnelID := id; TunnelCOS := cos |}).

Definition syntheticMPLSVCRecord (m : fields) : option flow_value :=
  let name := stringFieldOrZero m "mpls_vc_instance_name" in
  let id := uint32Field m "mpls_vll_vc_id" in
  let cos := uint32Field m "mpls_vc_label_cos" in
  if String.eqb name "" && (id =? 0) && (cos =? 0) then None
  else Some (FV_ExtendedMPLSVC {| VCInstanceName := string_bytes name; VLLVCID := id; VCLabelCOS := cos |}).

Definition syntheticMPLSFTNRecord (m : fields) : option flow_value :=
  let descr := stringFieldOrZero m "mpls_ftn_descr" in
  let mask := uint32Field m "mpls_ftn_mask" in
  if String.eqb descr "" && (mask =? 0) then None
  else Some (FV_ExtendedMPLSFTN {| MPLSFTNDescr := string_bytes descr; MPLSFTNMask := mask |}).

Definition syntheticMPLSLDPFECRecord (m : fields) : option flow_value :=
  let prefixLength := uint32Field m "mpls_fec_addr_prefix_length" in
  if prefixLength =? 0 then None else Some (FV_ExtendedMPLSLDPFEC {| MPLSFecAddrPrefixLength := prefixLength |}).

(** Each synthetic record unless there is one of its format. *)
Definition syntheticExtendedRecords (m : fields) (existing : list FlowRecord) : list FlowRecord :=
  flat_map (fun '(format, synthetic) =>
      if hasStandardSFlowRecord existing format then [] else match synthetic m with Some v => [record_of v] | None => [] end)
    [(FLOW_TYPE_EXT_NAT, syntheticNATRecord); (FLOW_TYPE_EXT_MPLS, syntheticMPLSRecord); (FLOW_TYPE_EXT_MPLS_TUNNEL, syntheticMPLSTunnelRecord);
     (FLOW_TYPE_EXT_MPLS_VC, syntheticMPLSVCRecord); (FLOW_TYPE_EXT_MPLS_FEC, syntheticMPLSFTNRecord);
     (FLOW_TYPE_EXT_MPLS_LVP_FEC, syntheticMPLSLDPFECRecord)].

Variable cfg : encoder_config.

(** ** Flow samples *)

Definition sampledHeaderProtocolForPacket (packet : option PacketModel) (headerData : bytes) : Z :=
  match packet with
  | Some {| pmLayers := l :: _ |} => if String.eqb (lKind l) "ipv4" then 11 else if String.eqb (lKind l) "ipv6" then 12 else 1
  | _ =>
      match headerData with
      | x :: _ => if Z.shiftr x 4 =? 4 then 11 else if Z.shiftr x 4 =? 6 then 12 else 1
      | [] => 1
      end
  end.

(** Header bytes, protocol, frame length and original length; and the packet model that is made
    for an event without header bytes, which stays in the event. *)
Definition sampledHeaderFields (e : Event) (m : fields) : bytes * Z * Z * Z * option PacketModel :=
  let protocol := uint32Field m "protocol" in
  let frameLength := uint32Field m "frame_length" in
  let originalLength := uint32Field m "original_length" in
  let '(headerData, protocol, frameLength, originalLength, packet) :=
    match bytesField m "header_data" with
    | [] =>
        match BuildPseudoHeader (evtPacket e) m with
        | (Some pseudoHeader, packet) =>
            (pseudoHeader, if protocol =? 0 then sampledHeaderProtocolForPacket packet pseudoHeader else protocol,
             if frameLength =? 0 then to_uint 32 (len pseudoHeader) else frameLength,
             if originalLength =? 0 then to_uint 32 (len pseudoHeader) else originalLength, packet)
        | (None, packet) => ([], protocol, frameLength, originalLength, packet)
        end
    | headerData => (headerData, protocol, frameLength, originalLength, evtPacket e)
    end in
  let '(headerData, originalLength) :=
    if allowTruncate cfg && (0 <? maxHeaderBytes cfg) && (maxHeaderBytes cfg <? len headerData)
    then (take (Z.to_nat (maxHeaderBytes cfg)) headerData, to_uint 32 (maxHeaderBytes cfg)) else (headerData, originalLength) in
  let originalLength := if to_uint 32 (len headerData) =? originalLength then originalLength else to_uint 32 (len headerData) in
  (headerData, protocol, frameLength, originalLength, packet).

Definition set_packet (p : option PacketModel) (e : Event) : Event :=
  {| ReceivedAt := ReceivedAt e; Kind := Kind e; Stream := Stream e; Source := Source e; Control := Control e; ReflowEvent.Fields := ReflowEvent.Fields e;
     evtMessage := evtMessage e; evtPacket := p; SFlow := SFlow e; Aggregation := Aggregation e; Payload := Payload e; Internal := Internal e |}.

Definition emitExtendedRecords : bool := default true (EmitExtendedRecords cfg).

Definition flow_records (e : Event) (m : fields) (header : SampledHeader) : list FlowRecord :=
  let records := [record_of (FV_SampledHeader header)] ++ preservedSFlowFlowRecords e ++ publicSFlowFlowRecords e in
  if emitExtendedRecords then records ++ syntheticExtendedRecords m records else records.

Definition buildFlowSample (e : Event) : ST SFlowEncoder (FlowSample * Event) :=
  match ReflowEvent.Fields e with
  | None => fail (Errorf "event fields are empty" [])
  | Some m =>
      let '(headerData, protocol, frameLength, originalLength, packet) := sampledHeaderFields e m in
      let header := {| shProtocol := protocol; shFrameLength := frameLength; shStripped := uint32Field m "stripped";
                       shOriginalLength := originalLength; shHeaderData := headerData |} in
      let e := set_packet packet e in
      let records := flow_records e m header in
      let* n := sampleSequence in
      ret ({| fsHeader := sample_header SAMPLE_FORMAT_FLOW n 0 (eventSourceID e); fsSamplingRate := eventSamplingRate e;
              fsSamplePool := eventSamplePool e; fsDrops := eventDrops e; fsInput := uint32Field m "input_if";
              fsOutput := uint32Field m "output_if"; fsFlowRecordsCount := 0; fsRecords := records |}, e)
  end.

(** ** Counter samples *)

Definition isSFlowCounterEvent (e : Event) : bool :=
  negb (len (preservedSFlowCounterRecords e) =? 0) || negb (len (publicSFlowCounterRecords e) =? 0) ||
  existsb (String.eqb (stringFieldOrZero (fields_of e) "record_kind")) ["interface_counter"; "ethernet_counter"]%string.

Definition counterSampleFormat (m : fields) : Z * Z :=
  let expanded := (SAMPLE_FORMAT_EXPANDED_COUNTER, uint32Field m "source_id_type") in
  let format := stringFieldOrZero m "counter_format" in
  if String.eqb format "expanded" then expanded
  else if String.eqb format "standard" then (SAMPLE_FORMAT_COUNTER, 0)
  else if String.eqb (CounterFormat cfg) "expanded" then expanded
  else (SAMPLE_FORMAT_COUNTER, 0).

Definition interface_counters (m : fields) : IfCounters :=
  {| IfIndex := uint32Field m "if_index"; IfType := uint32Field m "if_type"; IfSpeed := uint64Field m "if_speed";
     IfDirection := uint32Field m "if_direction"; IfStatus := uint32Field m "if_status"; IfInOctets := uint64Field m "if_in_octets";
     IfInUcastPkts := uint32Field m "if_in_ucast_pkts"; IfInMulticastPkts := uint32Field m "if_in_multicast_pkts";
     IfInBroadcastPkts := uint32Field m "if_in_broadcast_pkts"; IfInDiscards := uint32Field m "if_in_discards";
     IfInErrors := uint32Field m "if_in_errors"; IfInUnknownProtos := uint32Field m "if_in_unknown_protos";
     IfOutOctets := uint64Field m "if_out_octets"; IfOutUcastPkts := uint32Field m "if_out_ucast_pkts";
     IfOutMulticastPkts := uint32Field m "if_out_multicast_pkts"; IfOutBroadcastPkts := uint32Field m "if_out_broadcast_pkts";
     IfOutDiscards := uint32Field m "if_out_discards"; IfOutErrors := uint32Field m "if_out_errors";
     IfPromiscuousMode := uint32Field m "if_promiscuous_mode" |}.

Definition ethernet_counters (m : fields) : EthernetCounters :=
  let dot3 k := uint32Field m (String.append "dot3_stats_" k) in
  {| Dot3StatsAlignmentErrors := dot3 "alignment_errors"; Dot3StatsFCSErrors := dot3 "fcs_errors";
     Dot3StatsSingleCollisionFrames := dot3 "single_collision_frames"; Dot3StatsMultipleCollisionFrames := dot3 "multiple_collision_frames";
     Dot3StatsSQETestErrors := dot3 "sqe_test_errors"; Dot3StatsDeferredTransmissions := dot3 "deferred_transmissions";
     Dot3StatsLateCollisions := dot3 "late_collisions"; Dot3StatsExcessiveCollisions := dot3 "excessive_collisions";
     Dot3StatsInternalMacTransmitErrors := dot3 "internal_mac_transmit_errors"; Dot3StatsCarrierSenseErrors := dot3 "carrier_sense_errors";
     Dot3StatsFrameTooLongs := dot3 "frame_too_longs"; Dot3StatsInternalMacReceiveErrors := dot3 "internal_mac_receive_errors";
     Dot3StatsSymbolErrors := dot3 "symbol_errors" |}%string.

Definition counterRecords (e : Event) (m : fields) : res (list CounterRecord) :=
  match preservedSFlowCounterRecords e with
  | (_ :: _) as records => Ok records
  | [] =>
      let publicRecords := publicSFlowCounterRecords e in
      let kind := stringFieldOrZero m "record_kind" in
      if (0 <? len publicRecords) && String.eqb kind "" then Ok publicRecords
      else if String.eqb kind "interface_counter" then Ok (counter_of (CV_IfCounters (interface_counters m)) :: publicRecords)
      else if String.eqb kind "ethernet_counter" then Ok (counter_of (CV_EthernetCounters (ethernet_counters m)) :: publicRecords)
      else Err (Errorf "unsupported sflow counter record_kind" [])
  end.

Definition counter_sample (e : Event) (m : fields) : ST SFlowEncoder CounterSample :=
  let '(format, sourceIDType) := counterSampleFormat m in
  let* records := lift_res (counterRecords e m) in
  let* n := sampleSequence in
  ret {| csHeader := sample_header format n sourceIDType (eventSourceID e); CounterRecordsCount := to_uint 32 (len records);
         csRecords := records |}.
Definition buildCounterSample (e : Event) : ST SFlowEncoder CounterSample :=
  match ReflowEvent.Fields e with
  | None =>
      if (len (publicSFlowCounterRecords e) =? 0) && (len (preservedSFlowCounterRecords e) =? 0)
      then fail (Errorf "event fields are empty" []) else counter_sample e ∅
  | Some m => counter_sample e m
  end.

(** The sample of an event, and the event with the packet model that was made for it. *)
Definition buildSample (e : Event) : ST SFlowEncoder (sample * Event) :=
  match sflow_sample (Internal e) with
  | Some s => ret (Some (Val (SV_RawSample s)), e)
  | None =>
      match publicSFlowRawSample e with
      | Some s => ret (Some (Val (SV_RawSample s)), e)
      | None =>
          if isSFlowCounterEvent e then let* s := buildCounterSample e in ret (Some (Val (SV_CounterSample s)), e)
          else let* (s, e) := buildFlowSample e in ret (Some (Val (SV_FlowSample s)), e)
      end
  end.

(** ** Top level of a datagram *)

Record sflowPacketTopLevel : Type := { topAgentIP : string; topSubAgentID : Z; topSequenceNumber : Z; topUptime : Z }.

Definition sflowAgentIP (e : Event) : string :=
  if negb (String.eqb (eventAgentIP e) "") then eventAgentIP e
  else if negb (String.eqb (cfgAgentIP cfg) "") then cfgAgentIP cfg else "127.0.0.1".

Definition sflowSubAgentID (e : Event) : Z :=
  if negb (of_sflow 0 sfSubAgentID e =? 0) then of_sflow 0 sfSubAgentID e else uint32Field (fields_of e) "sub_agent_id".

Definition packetTopLevel (e : Event) : res sflowPacketTopLevel :=
  if String.eqb (sflowAgentIP e) "" then Err (Errorf "missing field agent_ip" [])
  else Ok {| topAgentIP := sflowAgentIP e; topSubAgentID := sflowSubAgentID e;
             topSequenceNumber := if UseMetadataSequenceNumber cfg then of_sflow 0 sfSequenceNumber e else 0; topUptime := of_sflow 0 sfUptime e |}.

Definition batchOverEnabled (v : option bool) : bool := default true v.

Definition compatibleTopLevel (left right : Event) : bool :=
  match packetTopLevel left, packetTopLevel right with
  | Ok l, Ok r =>
      (batchOverEnabled (overAgentIP (BatchOver cfg)) || String.eqb (topAgentIP l) (topAgentIP r)) &&
      (batchOverEnabled (overSubAgentID (BatchOver cfg)) || (topSubAgentID l =? topSubAgentID r)) &&
      (batchOverEnabled (overSequenceNumber (BatchOver cfg)) || (topSequenceNumber l =? topSequenceNumber r)) &&
      (batchOverEnabled (overUptime (BatchOver cfg)) || (topUptime l =? topUptime r))
  | _, _ => false
  end.

(** ** Packing *)

Definition with_samples (p : Packet) (count : Z) (l : list sample) : Packet :=
  {| Version := Version p; IPVersion := IPVersion p; AgentIP := AgentIP p; SubAgentId := SubAgentId p; SequenceNumber := SequenceNumber p;
     Uptime := Uptime p; SamplesCount := count; Samples := l |}.

(** The size of the datagram with these samples. *)
Definition datagram_size (p : Packet) (l : list sample) : res Z := rbind (EncodeMessage (Some (with_samples p 0 l))) (fun data => Ok (len data)).

(** A flow sample with the header of its first record cut to [n] bytes. *)
Definition cut_header (h : SampledHeader) (n : Z) : SampledHeader :=
  {| shProtocol := shProtocol h; shFrameLength := shFrameLength h; shStripped := shStripped h; shOriginalLength := to_uint 32 n;
     shHeaderData := take (Z.to_nat n) (shHeaderData h) |}.
Definition cut_sample (s : FlowSample) (r : FlowRecord) (rs : list FlowRecord) (h : SampledHeader) (n : Z) : sample :=
  Some (Val (SV_FlowSample
    {| fsHeader := fsHeader s; fsSamplingRate := fsSamplingRate s; fsSamplePool := fsSamplePool s; fsDrops := fsDrops s;
       fsInput := fsInput s; fsOutput := fsOutput s; fsFlowRecordsCount := fsFlowRecordsCount s;
       fsRecords := {| rHeader := rHeader r; rData := Some (Val (FV_SampledHeader (cut_header h n))) |} :: rs |})).

(** The binary search for the longest header that fits; [best] is what was found. *)
Fixpoint search (fuel : nat) (size : Z -> res Z) (max low high : Z) (best : option Z) : res (option Z) :=
  match fuel with
  | O => Hang
  | S fuel =>
      if low <=? high then
        let mid := (low + high) / 2 in
        rbind (size mid) (fun n =>
          if n <=? max then search fuel size max (mid + 1) high (Some mid) else search fuel size max low (mid - 1) best)
      else Ok best
  end.

(** [None]: the sample cannot be cut, or not enough. *)
Definition truncateLastSampleToFit (p : Packet) (samples : list sample) (last : sample) : res (option sample) :=
  match last with
  | Some (Val (SV_FlowSample s)) =>
      match fsRecords s with
      | r :: rs =>
          match rData r with
          | Some (Val (FV_SampledHeader h)) =>
              let n := len (shHeaderData h) in
              if n =? 0 then Ok None
              else
                match search (S (S (length (shHeaderData h)))) (fun mid => datagram_size p (samples ++ [cut_sample s r rs h mid]))
                        (maxDatagramBytes cfg) 0 n None with
                | Ok best => Ok ((fun mid => cut_sample s r rs h mid) <$> best)
                | Err e => Err (Wrap "encode truncated sflow packet" [] e)
                | Panic w => Panic w
                | Hang => Hang
                end
          | _ => Ok None
          end
      | [] => Ok None
      end
  | _ => Ok None
  end.

Inductive packed : Type :=
  | Packed (samples : list sample) (rest : list Event)
  | TooLarge (max size : Z).

(** The loop of [buildPacketWithLimit] behind [samples]; [rest] are the events that it leaves. *)
Fixpoint pack (first : Event) (p : Packet) (samples : list sample) (l : list Event) : ST SFlowEncoder packed :=
  match l with
  | [] => ret (Packed samples [])
  | e :: l' =>
      if (0 <? len samples) && negb (compatibleTopLevel first e) then ret (Packed samples (e :: l'))
      else
        let* (s, e) := buildSample e in
        let limit := batchDatagramLimit cfg in
        if 0 <? limit then
          let* size := errctx (Wrap "encode sflow packet" []) (lift_res (datagram_size p (samples ++ [s]))) in
          if limit <? size then
            let* truncated := if allowTruncate cfg then lift_res (truncateLastSampleToFit p samples s) else ret None in
            match truncated with
            | Some s' => pack first p (samples ++ [s']) l'
            | None => if len samples =? 0 then ret (TooLarge limit size) else ret (Packed samples (e :: l'))
            end
          else pack first p (samples ++ [s]) l'
        else pack first p (samples ++ [s]) l'
  end.

Inductive datagram : Type :=
  | Datagram (p : Packet) (rest : list Event)
  | Oversized (max size : Z).

Definition buildPacketWithLimit (now : Z) (l : list Event) : ST SFlowEncoder datagram :=
  match l with
  | [] => fail (Errorf "empty sflow packet batch" [])
  | first :: _ =>
      let* top := lift_res (packetTopLevel first) in
      match ParseAddr (topAgentIP top) with
      | None => fail (Errorf "parse agent_ip" [])
      | Some addr =>
          let* packetSeq := if topSequenceNumber top =? 0 then next_packetSeq else ret (topSequenceNumber top) in
          let uptime := if topUptime top =? 0 then to_uint 32 (Z.quot (now - started cfg) 1000000) else topUptime top in
          let p := {| Version := 5; IPVersion := 0; AgentIP := AsSlice addr; SubAgentId := topSubAgentID top; SequenceNumber := packetSeq;
                      Uptime := uptime; SamplesCount := 0; Samples := [] |} in
          let* packed := pack first p [] l in
          match packed with
          | TooLarge max size => ret (Oversized max size)
          | Packed samples rest =>
              if len samples =? 0 then ret (Oversized (batchDatagramLimit cfg) 0)
              else ret (Datagram (with_samples p (to_uint 32 (len samples)) samples) rest)
          end
      end
  end.

Definition encodePacket (p : Packet) : ST SFlowEncoder bytes := errctx (Wrap "encode sflow packet" []) (lift_res (EncodeMessage (Some p))).

(** ** Encode and Flush *)

(** The loop of [Flush]; each turn takes events off [pending]. *)
Fixpoint flush_loop (fuel : nat) (now : Z) (pending : list Event) (payloads : list bytes) : ST SFlowEncoder (list bytes) :=
  match fuel with
  | O => fun s => (Hang, s)
  | S fuel =>
      match pending with
      | [] => ret payloads
      | _ :: pending' =>
          let* d := buildPacketWithLimit now pending in
          match d with
          | Oversized _ _ => flush_loop fuel now pending' payloads
          | Datagram p rest =>
              let* data := encodePacket p in
              flush_loop fuel now rest (payloads ++ [data])
          end
      end
  end.

Definition Flush (now : Z) : ST SFlowEncoder (list bytes) := fun s =>
  flush_loop (S (length (events s))) now (events s) [] (set_events [] s).

Definition shouldFlush (s : SFlowEncoder) : bool :=
  (0 <? len (events s)) && (0 <? MaxRecords (batch cfg)) && (MaxRecords (batch cfg) <=? len (events s)).

Definition appendEvent (e : Event) : ST SFlowEncoder unit := fun s => (Ok tt, set_events (events s ++ [e]) s).

Definition flush_if_full (now : Z) : ST SFlowEncoder (list bytes) := fun s => if shouldFlush s then Flush now s else ret [] s.

(** [Encode]; a nil event gives nothing. *)
Definition Encode (now : Z) (e : Event) : ST SFlowEncoder (list bytes) := fun s =>
  if String.eqb (Kind e) "control" then ret [] s
  else if negb (IsEnabled (batch cfg)) then
    (let* d := buildPacketWithLimit now [e] in
     match d with
     | Oversized _ _ => ret []
     | Datagram p [] => let* data := encodePacket p in ret [data]
     | Datagram p _ => fail (Errorf "sflow packet exceeds max_datagram_bytes" [maxDatagramBytes cfg])
     end) s
  else
    match events s with
    | first :: _ =>
        if compatibleTopLevel first e then (appendEvent e ;;; flush_if_full now) s
        else
          (let* payloads := Flush now in
           appendEvent e ;;;
           let* flushed := flush_if_full now in ret (payloads ++ flushed)) s
    | [] => (appendEvent e ;;; flush_if_full now) s
    end.
End encoder.
