(* ===== verification/ReflowExportSflowProps.v ===== *)
(** * pkg/reflow/encode: properties of the sFlow encoder

    The longest header that fits; what a flush does with the events of a batch; from an event
    to a datagram and back. *)
From S2P Require Import Prelude Text DecodersUtils NetflowTypes SflowTypes SflowDecode SflowEncode SflowEncodeSafety SflowRoundtrip SamplingInterface ReflowEvent ReflowDecode ReflowDecodeProps ReflowSflow ReflowPacketEncode ReflowNormalize ReflowFields ReflowExportV5 ReflowExportSflow.

(** ** The binary search *)

Section search.
Variables (size : Z -> res Z) (f : Z -> Z) (n max : Z).
Hypothesis Hsize : forall i, 0 <= i <= n -> size i = Ok (f i).
Hypothesis Hmono : forall i j, 0 <= i <= j -> j <= n -> f i <= f j.

(** The greatest cut up to [n] that fits, if any does. *)
Definition best_cut (best : option Z) : Prop :=
  match best with
  | Some i => 0 <= i <= n /\ f i <= max /\ forall j, i < j <= n -> max < f j
  | None => forall j, 0 <= j <= n -> max < f j
  end.

Lemma search_best fuel low high best : 0 <= low -> high <= n -> low <= high + 1 -> high - low + 1 < Z.of_nat fuel ->
  match best with Some i => i = low - 1 /\ 0 <= i /\ f i <= max | None => low = 0 end ->
  (forall j, high < j <= n -> max < f j) ->
  exists best', search fuel size max low high best = Ok best' /\ best_cut best'.
Proof using Hsize Hmono.
  revert low high best. induction fuel as [|fuel IH]; intros low high best Hl Hh Hlh Hfuel Hbest Hrest; [lia|].
  cbn [search]. destruct (Z.leb_spec low high) as [Hle|Hgt].
  - set (mid := (low + high) / 2). assert (Hmid : low <= mid <= high) by (subst mid; Z.to_euclidean_division_equations; lia).
    rewrite Hsize by lia. cbn [rbind]. destruct (Z.leb_spec (f mid) max) as [Hfit|Hbig].
    + apply IH; try lia; done.
    + apply IH; try lia; [done|]. intros j Hj. destruct (Z.le_gt_cases j high); [|by apply Hrest; lia].
      pose proof (Hmono mid j). lia.
  - exists best. split; [done|]. assert (high = low - 1) as -> by lia. destruct best as [i|].
    + destruct Hbest as (-> & ? & ?). cbn. splits; try lia; done.
    + intros j Hj. apply Hrest. lia.
Qed.
End search.

(** ** The longest header that fits *)

Lemma len_header_value h : len (shHeaderData h) = shOriginalLength h ->
  len (value_bytes (FV_SampledHeader h)) = 16 + shOriginalLength h + xdr_padding (shOriginalLength h).
Proof.
  intros Hl. unfold value_bytes. cbn [encode_value flow_kind encodeFlowValue].
  assert (Hw : writes (encodeSampledHeader h) (be_put 4 (shProtocol h) ++ be_put 4 (shFrameLength h) ++ be_put 4 (shStripped h) ++
    be_put 4 (shOriginalLength h) ++ shHeaderData h ++ pad_bytes (shOriginalLength h))).
  { unfold encodeSampledHeader. write_steps. apply writes_writeXDRPadding. }
  rewrite (written_writes _ _ Hw). rewrite !len_app, !len_be_put, len_pad_bytes. lia.
Qed.

Lemma cut_header_ok h n : flow_value_ok (FV_SampledHeader h) -> len (shHeaderData h) = shOriginalLength h -> 0 <= n <= len (shHeaderData h) ->
  flow_value_ok (FV_SampledHeader (cut_header h n)) /\ len (shHeaderData (cut_header h n)) = shOriginalLength (cut_header h n) /\
  shOriginalLength (cut_header h n) = n.
Proof.
  intros (H1 & H2 & H3 & H4 & Hb & _) Hl Hn. destruct H4 as [_ H4].
  assert (E : len (take (Z.to_nat n) (shHeaderData h)) = n) by (unfold len in *; rewrite length_take; lia).
  cbn [cut_header flow_value_ok shProtocol shFrameLength shStripped shOriginalLength shHeaderData]. rewrite to_uint_small by (unfold uint; lia).
  splits; try done; [unfold uint; lia|by apply Forall_take|by left].
Qed.

Section cut.
Variables (p : Packet) (samples : list sample) (s : FlowSample) (r : FlowRecord) (rs : list FlowRecord) (h : SampledHeader).
Hypothesis Hrs : fsRecords s = r :: rs.
Hypothesis Hr : rData r = Some (Val (FV_SampledHeader h)).
Hypothesis Hlen : len (shHeaderData h) = shOriginalLength h.
Hypothesis Hp : packet_ok (with_samples p 0 (samples ++ [Some (Val (SV_FlowSample s))])).

Lemma rounded_mono i j : 0 <= i <= j -> i + xdr_padding i <= j + xdr_padding j.
Proof.
  intros Hij. pose proof (xdr_padding_bounds i). pose proof (xdr_padding_bounds j).
  pose proof (xdr_padding_mod i ltac:(lia)) as Hi. pose proof (xdr_padding_mod j ltac:(lia)) as Hj.
  apply Z.mod_divide in Hi as [a Ha]; [|lia]. apply Z.mod_divide in Hj as [b Hb]; [|lia]. lia.
Qed.

Definition cut_value (n : Z) : sample_value :=
  SV_FlowSample {| fsHeader := fsHeader s; fsSamplingRate := fsSamplingRate s; fsSamplePool := fsSamplePool s; fsDrops := fsDrops s;
    fsInput := fsInput s; fsOutput := fsOutput s; fsFlowRecordsCount := fsFlowRecordsCount s;
    fsRecords := {| rHeader := rHeader r; rData := Some (Val (FV_SampledHeader (cut_header h n))) |} :: rs |}.

Lemma flow_sample_parts : sample_ok (SV_FlowSample s) /\ record_ok r /\ flow_value_ok (FV_SampledHeader h).
Proof using Hrs Hr Hp.
  destruct Hp as (_ & _ & _ & _ & _ & _ & _ & _ & _ & Hall). cbn [with_samples Samples] in Hall.
  apply Forall_app in Hall as [_ Hall]. apply Forall_cons in Hall as [(b & v & Hb & Hv & Hs) _]. injection Hb as <-. injection Hv as <-.
  split; [done|]. destruct Hs as (_ & _ & _ & _ & _ & _ & _ & _ & Hrec & _). rewrite Hrs in Hrec. apply Forall_cons in Hrec as [Hrec _].
  split; [done|]. destruct Hrec as (b & v & Hb & Hv & Hok & _). rewrite Hr in Hb. injection Hb as <-. injection Hv as <-. exact Hok.
Qed.

Lemma cut_record_size n : 0 <= n <= len (shHeaderData h) ->
  len (record_bytes (V := flow_value) {| rHeader := rHeader r; rData := Some (Val (FV_SampledHeader (cut_header h n))) |}) = 24 + (n + xdr_padding n).
Proof using Hrs Hr Hp Hlen.
  intros Hn. destruct flow_sample_parts as (_ & _ & Hh). destruct (cut_header_ok h n Hh Hlen Hn) as (_ & El & En).
  unfold record_bytes. cbn [rData mbind option_bind unbox]. rewrite !len_app, !len_be_put, len_header_value by done. rewrite En. lia.
Qed.

Lemma whole_record_size : len (record_bytes r) = 24 + (len (shHeaderData h) + xdr_padding (len (shHeaderData h))).
Proof using Hr Hlen.
  unfold record_bytes. rewrite Hr. cbn [mbind option_bind unbox]. rewrite !len_app, !len_be_put, len_header_value by done. rewrite Hlen. lia.
Qed.

Lemma cut_sample_ok n : 0 <= n <= len (shHeaderData h) -> sample_ok (cut_value n) /\
  len (sample_payload (cut_value n)) + (len (shHeaderData h) + xdr_padding (len (shHeaderData h))) = len (sample_payload (SV_FlowSample s)) + (n + xdr_padding n).
Proof using Hrs Hr Hp Hlen.
  intros Hn. pose proof (cut_record_size n Hn) as Hc. pose proof whole_record_size as Hw. destruct flow_sample_parts as (Hs & Hrec & Hh).
  destruct (cut_header_ok h n Hh Hlen Hn) as (Hok & El & En). pose proof (rounded_mono n (len (shHeaderData h)) ltac:(lia)) as Hm.
  assert (E : len (sample_payload (cut_value n)) + (len (shHeaderData h) + xdr_padding (len (shHeaderData h))) =
              len (sample_payload (SV_FlowSample s)) + (n + xdr_padding n)).
  { unfold cut_value. cbn [sample_payload sample_format fsHeader fsSamplingRate fsSamplePool fsDrops fsInput fsOutput fsRecords]. rewrite Hrs.
    unfold records_bytes. cbn [flat_map]. rewrite !len_app, !len_be_put, Hc, Hw. lia. }
  split; [|exact E]. destruct Hs as (Hl & Hf & Hso & H1 & H2 & H3 & H4 & H5 & Hrs' & Hcount & Hc0). rewrite Hrs in Hrs', Hcount, Hc0.
  split; [lia|]. cbn [cut_value sample_format fsHeader fsSamplingRate fsSamplePool fsDrops fsInput fsOutput fsRecords fsFlowRecordsCount].
  splits; try done. apply Forall_cons in Hrs' as [_ Hrs']. split; [|by rewrite len_cons in *]. constructor; [|done].
  destruct Hrec as (b & v & Hb & Hv & _ & Hfo & Hlv). rewrite Hr in Hb. injection Hb as <-. injection Hv as <-.
  exists (Val (FV_SampledHeader (cut_header h n))), (FV_SampledHeader (cut_header h n)). splits; [done..|].
  rewrite len_header_value, En by done. rewrite len_header_value in Hlv by done. rewrite <- Hlen in Hlv. lia.
Qed.

(** The datagram with the header cut to [n] bytes. *)
Definition cut_size (n : Z) : Z :=
  len (packet_bytes (with_samples p 0 (samples ++ [Some (Val (SV_FlowSample s))]))) -
  (len (shHeaderData h) + xdr_padding (len (shHeaderData h))) + (n + xdr_padding n).

Lemma datagram_cut_size n : 0 <= n <= len (shHeaderData h) -> datagram_size p (samples ++ [cut_sample s r rs h n]) = Ok (cut_size n).
Proof using Hrs Hr Hp Hlen.
  intros Hn. destruct (cut_sample_ok n Hn) as [Hok E].
  assert (Hp' : packet_ok (with_samples p 0 (samples ++ [cut_sample s r rs h n]))).
  { destruct Hp as (H1 & H2 & H3 & H4 & H5 & H6 & H7 & H8 & H9 & Hall). unfold packet_ok.
    cbn [with_samples Samples Version AgentIP IPVersion SubAgentId SequenceNumber Uptime SamplesCount] in *.
    rewrite len_app in *. splits; try done. apply Forall_app in Hall as [Hall _]. apply Forall_app. split; [done|].
    constructor; [|constructor]. by exists (Val (cut_value n)), (cut_value n). }
  unfold datagram_size. rewrite EncodeMessage_ok by done. cbn [rbind]. f_equal. unfold cut_size, packet_bytes.
  cbn [with_samples Samples Version AgentIP IPVersion SubAgentId SequenceNumber Uptime SamplesCount].
  rewrite !flat_map_app. cbn [flat_map]. change (cut_sample s r rs h n) with (Some (Val (cut_value n))).
  rewrite !len_app, !len_be_put. unfold element_bytes. cbn [mbind option_bind unbox]. rewrite !len_app, !len_be_put. cbn [len length Z.of_nat]. lia.
Qed.
End cut.

(** C25: truncation keeps as much of the sampled header as fits.  The binary search ends with
    the sample whose datagram is the longest one within the limit: every longer header is too
    long; and it gives up only when even the sample without header bytes is too long. *)
Theorem sflow_truncate_best (cfg : encoder_config) (p : Packet) (samples : list sample) (s : FlowSample) (r : FlowRecord) (rs : list FlowRecord)
    (h : SampledHeader) :
  fsRecords s = r :: rs -> rData r = Some (Val (FV_SampledHeader h)) -> len (shHeaderData h) = shOriginalLength h -> shHeaderData h <> [] ->
  packet_ok (with_samples p 0 (samples ++ [Some (Val (SV_FlowSample s))])) ->
  let size n := datagram_size p (samples ++ [cut_sample s r rs h n]) in
  let too_long n := exists k, size n = Ok k /\ maxDatagramBytes cfg < k in
  match truncateLastSampleToFit cfg p samples (Some (Val (SV_FlowSample s))) with
  | Ok (Some t) => exists n k, t = cut_sample s r rs h n /\ 0 <= n <= len (shHeaderData h) /\ size n = Ok k /\ k <= maxDatagramBytes cfg /\
                     forall n', n < n' <= len (shHeaderData h) -> too_long n'
  | Ok None => forall n, 0 <= n <= len (shHeaderData h) -> too_long n
  | _ => False
  end.
Proof.
  intros Hrs Hr Hlen Hne Hp size too_long. pose proof (len_nonneg (shHeaderData h)) as Hn.
  assert (Hsize : forall n, 0 <= n <= len (shHeaderData h) -> size n = Ok (cut_size p samples s h n)) by (intros n; by apply datagram_cut_size).
  unfold truncateLastSampleToFit. rewrite Hrs, Hr. destruct (Z.eqb_spec (len (shHeaderData h)) 0) as [E|_].
  { destruct (shHeaderData h); [done|]. rewrite len_cons in E. pose proof (len_nonneg l). lia. }
  destruct (search_best size (cut_size p samples s h) (len (shHeaderData h)) (maxDatagramBytes cfg) Hsize) with
    (fuel := S (S (length (shHeaderData h)))) (low := 0) (high := len (shHeaderData h)) (best := @None Z) as (best & E & Hbest); try lia; try done.
  - intros i j Hi Hj. unfold cut_size. pose proof (rounded_mono i j Hi). lia.
  - unfold len. lia.
  - change (fun mid => datagram_size p (samples ++ [cut_sample s r rs h mid])) with size. rewrite E.
    destruct best as [n|]; cbn [fmap option_fmap option_map].
    + destruct Hbest as (Hn' & Hfit & Hrest). exists n, (cut_size p samples s h n). splits; try done; [lia|lia|by apply Hsize|].
      intros n' Hn''. exists (cut_size p samples s h n'). split; [apply Hsize; lia|by apply Hrest].
    + intros n Hn'. exists (cut_size p samples s h n). split; [by apply Hsize|by apply Hbest].
Qed.

(** A datagram with a header of ten bytes and a limit that leaves room for six. *)
Definition small_config : encoder_config :=
  {| started := 0; maxDatagramBytes := 104; allowTruncate := true; maxHeaderBytes := 0;
     batch := {| batchEnabled := Some true; MaxRecords := 0; MaxBytes := 0 |}; cfgAgentIP := ""; CounterFormat := ""; EmitExtendedRecords := Some false;
     UseMetadataSequenceNumber := false;
     BatchOver := {| overAgentIP := None; overSubAgentID := None; overSequenceNumber := None; overUptime := None |} |}.
Definition small_packet : Packet :=
  {| Version := 5; IPVersion := 0; AgentIP := [192; 0; 2; 1]; SubAgentId := 0; SequenceNumber := 1; Uptime := 7; SamplesCount := 0; Samples := [] |}.
Definition small_header : SampledHeader :=
  {| shProtocol := 1; shFrameLength := 64; shStripped := 0; shOriginalLength := 10; shHeaderData := repeat 7 10 |}.
Definition small_sample : FlowSample :=
  {| fsHeader := sample_header 1 1 0 5; fsSamplingRate := 100; fsSamplePool := 0; fsDrops := 0; fsInput := 1; fsOutput := 2; fsFlowRecordsCount := 0;
     fsRecords := [record_of (FV_SampledHeader small_header)] |}.

Lemma small_packet_ok : packet_ok (with_samples small_packet 0 [Some (Val (SV_FlowSample small_sample))]).
Proof.
  unfold packet_ok. cbn [with_samples small_packet Version AgentIP IPVersion SubAgentId SequenceNumber Uptime SamplesCount Samples].
  splits; try done; try (by left); try (by right); try (unfold uint; lia); [repeat constructor; unfold uint; lia|].
  constructor; [|constructor]. eexists _, _. split; [reflexivity|]. split; [reflexivity|]. split; [done|].
  splits; try done; try (unfold uint; cbn; lia). split; [|split; [by vm_compute|by left]]. constructor; [|constructor].
  eexists _, _. split; [reflexivity|]. split; [reflexivity|]. splits; try done; try (unfold uint; cbn; lia).
  cbn. splits; try (unfold uint; lia); [|by left]. repeat constructor; unfold uint; lia.
Qed.
Lemma sflow_truncate_best_witness :
  match truncateLastSampleToFit small_config small_packet [] (Some (Val (SV_FlowSample small_sample))) with
  | Ok (Some t) => exists n k, t = cut_sample small_sample (record_of (FV_SampledHeader small_header)) [] small_header n /\ 0 <= n <= 10 /\
      datagram_size small_packet [t] = Ok k /\ k <= 104
  | _ => False
  end.
Proof.
  pose proof (sflow_truncate_best small_config small_packet [] small_sample (record_of (FV_SampledHeader small_header)) [] small_header) as H.
  specialize (H eq_refl eq_refl eq_refl ltac:(done) small_packet_ok). cbv zeta in H.
  destruct (truncateLastSampleToFit _ _ _ _) as [[t|]|e|w|] eqn:E; [|exfalso; by vm_compute in E|done..].
  destruct H as (n & k & -> & Hn & Hs & Hk & _). exists n, k. splits; try done; apply Hn.
Defined.

(** ** What becomes of the events of a batch *)

(** The encoder leaves the packet model that it makes in the event. *)
Definition same_event (e e' : Event) : Prop := set_packet None e = set_packet None e'.

Lemma same_event_refl e : same_event e e.
Proof. done. Qed.
Lemma same_set_packet p e : same_event (set_packet p e) e.
Proof. done. Qed.

Lemma same_events_refl l : Forall2 same_event l l.
Proof. induction l; constructor; done. Qed.
#[local] Hint Resolve same_event_refl same_set_packet same_events_refl : core.

(** The preserved records are no nil pointers. *)
Definition event_set (e : Event) : Prop := Forall record_set (preservedSFlowFlowRecords e) /\ Forall record_set (preservedSFlowCounterRecords e).

(** What does not look at the packet model is the same for both. *)
Lemma same_fun {A} (f : Event -> A) e e' : (forall x, f (set_packet None x) = f x) -> same_event e e' -> f e = f e'.
Proof. intros Hf Hs. by rewrite <- (Hf e), <- (Hf e'), Hs. Qed.

Lemma same_event_set e e' : same_event e e' -> event_set e' -> event_set e.
Proof.
  intros H. unfold event_set, preservedSFlowFlowRecords, preservedSFlowCounterRecords. by rewrite (same_fun Internal e e').
Qed.

Section flush.
Context `{GoLib} (cfg : encoder_config).
Implicit Types (e : Event).

Lemma same_top e e' : same_event e e' -> packetTopLevel cfg e = packetTopLevel cfg e'.
Proof. by apply same_fun. Qed.

Lemma same_compatible a a' b b' : same_event a a' -> same_event b b' -> compatibleTopLevel cfg a b = compatibleTopLevel cfg a' b'.
Proof. intros Ha Hb. unfold compatibleTopLevel. by rewrite (same_top a a'), (same_top b b'). Qed.

Lemma raw_records_set {V} (mk : RawRecord -> V) l : Forall record_set (omap (raw_record mk) l).
Proof.
  apply Forall_forall. intros r Hr. apply list_elem_of_omap in Hr as (x & _ & Hx). unfold raw_record in Hx.
  destruct (publicSFlowDataFormat _ _ _); [|done]. injection Hx as <-. by eexists.
Qed.

Lemma flow_records_set e m h : event_set e -> Forall record_set (flow_records cfg e m h).
Proof.
  intros [Hf _]. assert (Hb : Forall record_set ([record_of (FV_SampledHeader h)] ++ preservedSFlowFlowRecords e ++ publicSFlowFlowRecords e)).
  { constructor; [by eexists|]. apply Forall_app. split; [done|]. unfold publicSFlowFlowRecords. destruct (first_sample e); [|constructor]. apply raw_records_set. }
  unfold flow_records. destruct (emitExtendedRecords cfg); [|done]. apply Forall_app. split; [done|].
  apply Forall_forall. intros r Hr. unfold syntheticExtendedRecords in Hr. apply list_elem_of_In, in_flat_map in Hr as ([f syn] & _ & Hr).
  destruct (hasStandardSFlowRecord _ _); [done|]. destruct (syn m); [|done]. destruct Hr as [<-|[]]. by eexists.
Qed.

Lemma counter_records_set e m rs : event_set e -> counterRecords e m = Ok rs -> Forall record_set rs.
Proof.
  intros [_ Hc]. assert (Hp : Forall record_set (publicSFlowCounterRecords e)).
  { unfold publicSFlowCounterRecords. destruct (first_sample e); [|constructor]. apply raw_records_set. }
  unfold counterRecords. revert Hc. destruct (preservedSFlowCounterRecords e); intros Hc; [|by intros [= <-]].
  destruct (_ && _); [by intros [= <-]|]. destruct (String.eqb _ _); [intros [= <-]; constructor; [by eexists|done]|].
  destruct (String.eqb _ _); [intros [= <-]; constructor; [by eexists|done]|done].
Qed.

(** Building a sample ends, and changes only the sequence number and the event's model. *)
Lemma buildSample_spec e st : event_set e ->
  match buildSample cfg e st with
  | (Ok (x, e'), st') => sample_set x /\ same_event e' e /\ events st' = events st
  | (Err _, st') => events st' = events st
  | _ => False
  end.
Proof.
  intros He. unfold buildSample. destruct (sflow_sample (Internal e)); [done|]. destruct (publicSFlowRawSample e); [done|].
  destruct (isSFlowCounterEvent e).
  - unfold bind at 1, buildCounterSample. set (m := ReflowEvent.Fields e). clearbody m.
    assert (Hc : forall m, match counter_sample cfg e m st with
                           | (Ok c, st') => Forall record_set (csRecords c) /\ events st' = events st
                           | (Err _, st') => events st' = events st | _ => False end).
    { intros m'. unfold counter_sample. destruct (counterSampleFormat cfg m'). unfold bind at 1, lift_res.
      destruct (counterRecords e m') as [rs|err|w|] eqn:E; [|done| |].
      - cbn. split; [by eapply counter_records_set|done].
      - exfalso. revert E. unfold counterRecords. repeat case_match; done.
      - exfalso. revert E. unfold counterRecords. repeat case_match; done. }
    destruct m as [m|].
    + specialize (Hc m). destruct (counter_sample cfg e m st) as [[c|err|w|] st']; [|done..]. cbn. by destruct Hc.
    + destruct (_ && _); [done|]. specialize (Hc ∅). destruct (counter_sample cfg e ∅ st) as [[c|err|w|] st']; [|done..]. cbn. by destruct Hc.
  - unfold bind at 1, buildFlowSample. destruct (ReflowEvent.Fields e) as [m|]; [|done].
    destruct (sampledHeaderFields cfg e m) as [[[[hd pr] fl] ol] pk]. cbn. splits; [|done..]. by apply flow_records_set.
Qed.

(** *** Cutting *)

Lemma search_found fuel size max low high best i : search fuel size max low high best = Ok (Some i) ->
  best = Some i \/ (low <= i <= high /\ exists k, size i = Ok k /\ k <= max).
Proof.
  revert low high best. induction fuel as [|fuel IH]; intros low high best; [done|]. cbn [search].
  destruct (Z.leb_spec low high) as [Hle|]; [|intros [= ->]; by left].
  set (mid := (low + high) / 2). assert (Hmid : low <= mid <= high) by (subst mid; Z.to_euclidean_division_equations; lia).
  destruct (size mid) as [k| | |] eqn:E; [|done..]. cbn [rbind]. destruct (Z.leb_spec k max); intros Hs; apply IH in Hs as [Hs|(Hi & Hk)].
  - injection Hs as <-. right. split; [lia|]. by exists k.
  - right. split; [lia|done].
  - by left.
  - right. split; [lia|done].
Qed.

Lemma search_ends fuel size max low high best : (forall n, ends (size n)) -> 0 <= low -> low <= high + 1 -> high - low + 1 < Z.of_nat fuel ->
  ends (search fuel size max low high best).
Proof.
  intros Hs. revert low high best. induction fuel as [|fuel IH]; intros low high best Hl Hh Hf; [lia|]. cbn [search].
  destruct (Z.leb_spec low high); [|done]. set (mid := (low + high) / 2).
  assert (Hmid : low <= mid <= high) by (subst mid; Z.to_euclidean_division_equations; lia).
  apply ends_rbind; [done|]. intros k. destruct (k <=? max); apply IH; lia.
Qed.

(** A sample whose sampled header was cut. *)
Definition cut_of (x t : sample) : Prop := exists s r rs h n,
  x = Some (Val (SV_FlowSample s)) /\ fsRecords s = r :: rs /\ rData r = Some (Val (FV_SampledHeader h)) /\ 0 <= n <= len (shHeaderData h) /\
  t = cut_sample s r rs h n.

Lemma cut_of_set x t : cut_of x t -> sample_set x -> sample_set t.
Proof.
  intros (s & r & rs & h & n & -> & Hrs & _ & _ & ->) Hx. cbn in *. rewrite Hrs in Hx. apply Forall_cons in Hx as [_ Hx].
  constructor; [by eexists|done].
Qed.

Lemma datagram_size_ends p l : Forall sample_set l -> ends (datagram_size p l).
Proof. intros Hl. apply ends_rbind; [|done]. by apply EncodeMessage_ends. Qed.

Lemma truncate_spec p samples x : Forall sample_set samples -> sample_set x ->
  match truncateLastSampleToFit cfg p samples x with
  | Ok (Some t) => cut_of x t /\ exists k, datagram_size p (samples ++ [t]) = Ok k /\ k <= maxDatagramBytes cfg
  | Ok None | Err _ => True
  | _ => False
  end.
Proof.
  intros Hs Hx. unfold truncateLastSampleToFit. destruct x as [[[s|s|s|s|s]|o]|]; try done.
  destruct (fsRecords s) as [|r rs] eqn:Hrs; [done|]. destruct (rData r) as [[[h| | | | | | | | | | | | | | | |]|o]|] eqn:Hr; try done.
  destruct (len (shHeaderData h) =? 0); [done|]. pose proof (len_nonneg (shHeaderData h)).
  set (size := fun mid => datagram_size p (samples ++ [cut_sample s r rs h mid])).
  assert (He : ends (search (S (S (length (shHeaderData h)))) size (maxDatagramBytes cfg) 0 (len (shHeaderData h)) None)).
  { apply search_ends; [|lia..|unfold len; lia]. intros n. apply datagram_size_ends, Forall_app. split; [done|]. constructor; [|constructor].
    cbn in Hx |- *. rewrite Hrs in Hx. apply Forall_cons in Hx as [_ Hx]. constructor; [by eexists|done]. }
  destruct (search _ _ _ _ _ _) as [[i|]|err|w|] eqn:E; try done. cbn [fmap option_fmap option_map].
  apply search_found in E as [E|(Hi & k & Hk & Hmax)]; [done|]. split; [by exists s, r, rs, h, i|by exists k].
Qed.

(** *** Packing *)

(** A sample made of an event: as built, or cut. *)
Definition sample_of (e : Event) (t : sample) : Prop := exists e1 st x e2 st',
  same_event e1 e /\ buildSample cfg e1 st = (Ok (x, e2), st') /\ (t = x \/ allowTruncate cfg = true /\ cut_of x t).

(** The longest a datagram can get: a cut sample only has to fit [maxDatagramBytes]. *)
Definition bound : Z := if allowTruncate cfg then Z.max (batchDatagramLimit cfg) (maxDatagramBytes cfg) else batchDatagramLimit cfg.

Definition fits_bound (p : Packet) (l : list sample) : Prop := 0 < batchDatagramLimit cfg -> exists k, datagram_size p l = Ok k /\ k <= bound.

(** An event whose sample does not fit a datagram of its own, whole or cut. *)
Definition too_large (p : Packet) (e : Event) : Prop := exists e1 st x e2 st' size,
  same_event e1 e /\ buildSample cfg e1 st = (Ok (x, e2), st') /\ datagram_size p [x] = Ok size /\ 0 < batchDatagramLimit cfg < size /\
  (allowTruncate cfg = true -> truncateLastSampleToFit cfg p [] x = Ok None).

Definition packs (first : Event) (p : Packet) (samples : list sample) (l : list Event) (r : packed) : Prop :=
  match r with
  | Packed samples' rest => exists g l2 gs, l = g ++ l2 /\ samples' = samples ++ gs /\ Forall2 sample_of g gs /\ Forall2 same_event rest l2 /\
      (samples = [] \/ fits_bound p samples -> samples' = [] \/ fits_bound p samples') /\
      (samples = [] -> l <> [] -> g <> []) /\ Forall sample_set samples' /\
      Forall (fun e => compatibleTopLevel cfg first e = true) (if samples then tail g else g)
  | TooLarge _ _ => samples = [] /\ exists e l2, l = e :: l2 /\ too_large p e
  end.

Lemma packs_step first p samples e l t r :
  sample_of e t -> (samples = [] \/ compatibleTopLevel cfg first e = true) -> fits_bound p (samples ++ [t]) ->
  packs first p (samples ++ [t]) l r -> packs first p samples (e :: l) r.
Proof.
  intros Ht Hc Hf. destruct r as [samples' rest|]; [|by intros [? _]; destruct samples].
  intros (g & l2 & gs & -> & -> & Hg & Hrest & Hfit & _ & Hset & Hcomp).
  assert (Hcomp' : Forall (fun e => compatibleTopLevel cfg first e = true) g) by (by destruct samples).
  exists (e :: g), l2, (t :: gs). splits; try done.
  - by rewrite <- app_assoc.
  - by constructor.
  - intros _. apply Hfit. by right.
  - destruct samples; [done|]. constructor; [by destruct Hc|done].
Qed.

Lemma pack_spec first p samples l st : Forall event_set l -> Forall sample_set samples ->
  match pack cfg first p samples l st with
  | (Ok r, st') => packs first p samples l r /\ events st' = events st
  | (Err _, st') => events st' = events st
  | _ => False
  end.
Proof.
  intros Hl. revert samples st. induction Hl as [|e l He Hl IH]; intros samples st Hs.
  { cbn. split; [|done]. exists [], [], []. splits; try done; [by rewrite app_nil_r|]. by destruct samples. }
  cbn [pack]. destruct ((0 <? len samples) && negb (compatibleTopLevel cfg first e)) eqn:Ec.
  { cbn. split; [|done]. apply andb_prop in Ec as [Ec _]. exists [], (e :: l), []. splits; try done; [by rewrite app_nil_r| |by destruct samples].
    intros ->. done. }
  assert (Hc : samples = [] \/ compatibleTopLevel cfg first e = true).
  { destruct samples as [|x xs]; [by left|right]. destruct (compatibleTopLevel cfg first e); [done|].
    rewrite andb_true_r in Ec. apply Z.ltb_ge in Ec. rewrite len_cons in Ec. pose proof (len_nonneg xs). lia. }
  unfold bind at 1. pose proof (buildSample_spec e st He) as Hb. destruct (buildSample cfg e st) as [[[x e2]|err|w|] st1] eqn:Eb; try done.
  destruct Hb as (Hx & Hsame & <-).
  assert (Hpush : forall t st2, sample_of e t -> sample_set t -> fits_bound p (samples ++ [t]) -> events st2 = events st1 ->
    match pack cfg first p (samples ++ [t]) l st2 with
    | (Ok r, st') => packs first p samples (e :: l) r /\ events st' = events st1
    | (Err _, st') => events st' = events st1
    | _ => False
    end).
  { intros t st2 Ht Hset Hf <-. assert (Hs' : Forall sample_set (samples ++ [t])) by (apply Forall_app; split; [done|by repeat constructor]).
    specialize (IH _ st2 Hs'). destruct (pack cfg first p (samples ++ [t]) l st2) as [[r| | |] st3]; try done.
    destruct IH as [IH He']. split; [by eapply packs_step|done]. }
  assert (Hwhole : sample_of e x) by (exists e, st, x, e2, st1; splits; auto).
  destruct (Z.ltb_spec 0 (batchDatagramLimit cfg)) as [Hlim|Hno]; [|apply Hpush; try done; intros ?; lia].
  assert (Hsx : Forall sample_set (samples ++ [x])) by (apply Forall_app; split; [done|by repeat constructor]).
  unfold bind at 1, errctx, lift_res. pose proof (datagram_size_ends p _ Hsx) as Hends.
  destruct (datagram_size p (samples ++ [x])) as [size|err|w|] eqn:Esize; try done.
  destruct (Z.ltb_spec (batchDatagramLimit cfg) size) as [Hbig|Hfit].
  2: { apply Hpush; try done. intros _. exists size. split; [done|]. unfold bound. destruct (allowTruncate cfg); lia. }
  pose proof (truncate_spec p samples x Hs Hx) as Ht.
  assert (Hgiven : (allowTruncate cfg = true -> truncateLastSampleToFit cfg p samples x = Ok None) ->
    packs first p samples (e :: l) (if len samples =? 0 then TooLarge (batchDatagramLimit cfg) size else Packed samples (e2 :: l))).
  { intros Hnone. destruct samples as [|y ys].
    - split; [done|]. exists e, l. split; [done|]. exists e, st, x, e2, st1, size. splits; try done.
    - destruct (Z.eqb_spec (len (y :: ys)) 0) as [E|_]; [rewrite len_cons in E; pose proof (len_nonneg ys); lia|].
      exists [], (e :: l), []. splits; try done; [by rewrite app_nil_r|by constructor]. }
  destruct (allowTruncate cfg) eqn:Eat.
  - unfold bind at 1. destruct (truncateLastSampleToFit cfg p samples x) as [[t|]|err|w|] eqn:Etr; try done.
    + destruct Ht as (Hcut & k & Hk & Hmax). apply Hpush; try done.
      * exists e, st, x, e2, st1. splits; auto.
      * by eapply cut_of_set.
      * intros _. exists k. split; [done|]. unfold bound. rewrite Eat. lia.
    + specialize (Hgiven (fun _ => eq_refl)). by destruct (len samples =? 0).
  - unfold bind at 1. cbn [ret]. specialize (Hgiven ltac:(done)). by destruct (len samples =? 0).
Qed.

(** *** Datagrams *)

(** The packet that a datagram of [first] and other events is made from. *)
Record headed (first : Event) (p : Packet) : Prop := {
  hd_version : Version p = 5;
  hd_agent : exists addr, ParseAddr (sflowAgentIP cfg first) = Some addr /\ AgentIP p = AsSlice addr;
  hd_sub : SubAgentId p = sflowSubAgentID first;
  hd_uptime : of_sflow 0 sfUptime first <> 0 -> Uptime p = of_sflow 0 sfUptime first
}.

Lemma EncodeMessage_count p n l : n = to_uint 32 (len l) -> EncodeMessage (Some (with_samples p n l)) = EncodeMessage (Some (with_samples p 0 l)).
Proof.
  intros ->. unfold EncodeMessage, encodeDatagram. cbn [with_samples Version IPVersion AgentIP SubAgentId SequenceNumber Uptime SamplesCount Samples Z.eqb].
  destruct (Z.eqb_spec (to_uint 32 (len l)) 0) as [->|]; done.
Qed.

Lemma datagram_size_data p l data : EncodeMessage (Some (with_samples p (to_uint 32 (len l)) l)) = Ok data -> datagram_size p l = Ok (len data).
Proof. intros E. unfold datagram_size. rewrite <- (EncodeMessage_count p (to_uint 32 (len l))), E by done. done. Qed.

Lemma buildPacketWithLimit_spec now l st : l <> [] -> Forall event_set l ->
  match buildPacketWithLimit cfg now l st with
  | (Ok (Datagram p rest), st') => events st' = events st /\ exists first g l2 p0,
      l = (first :: g) ++ l2 /\ Forall2 same_event rest l2 /\ Forall2 sample_of (first :: g) (Samples p) /\ headed first p /\
      Forall (fun e => compatibleTopLevel cfg first e = true) g /\ Forall sample_set (Samples p) /\
      p = with_samples p0 (to_uint 32 (len (Samples p))) (Samples p) /\ fits_bound p0 (Samples p)
  | (Ok (Oversized _ _), st') => events st' = events st /\ exists e l2 p, l = e :: l2 /\ too_large p e /\ headed e p
  | (Err _, st') => events st' = events st
  | _ => False
  end.
Proof.
  intros Hne Hl. destruct l as [|first l]; [done|]. unfold buildPacketWithLimit, bind at 1, lift_res.
  destruct (packetTopLevel cfg first) as [top|err| |] eqn:Et; [|done|..].
  2,3: exfalso; revert Et; unfold packetTopLevel; by destruct (String.eqb _ _).
  assert (Htop : top = {| topAgentIP := sflowAgentIP cfg first; topSubAgentID := sflowSubAgentID first;
             topSequenceNumber := if UseMetadataSequenceNumber cfg then of_sflow 0 sfSequenceNumber first else 0; topUptime := of_sflow 0 sfUptime first |}).
  { revert Et. unfold packetTopLevel. destruct (String.eqb _ _); [done|]. by intros [= <-]. }
  destruct (ParseAddr (topAgentIP top)) as [addr|] eqn:Ea; [|done].
  assert (Hseq : exists n st1, (if topSequenceNumber top =? 0 then next_packetSeq else ret (topSequenceNumber top)) st = (Ok n, st1) /\ events st1 = events st).
  { destruct (_ =? 0); [by eexists _, _|by eexists _, _]. }
  destruct Hseq as (n & st1 & Es & Hev). unfold bind at 1. rewrite Es. cbv zeta. set (p0 := {| Version := 5; AgentIP := AsSlice addr |}).
  assert (Hh : forall c ss, headed first (with_samples p0 c ss)).
  { intros c ss. subst top. split; cbn; [done|by exists addr|done|]. intros Hu. by destruct (Z.eqb_spec (of_sflow 0 sfUptime first) 0). }
  unfold bind at 1. pose proof (pack_spec first p0 [] (first :: l) st1 Hl (Forall_nil_2 _)) as Hp.
  destruct (pack cfg first p0 [] (first :: l) st1) as [[[samples rest|mx sz]|err| |] st2]; cbn in Hp; try done; rewrite Hev in Hp; try done.
  - destruct Hp as ((g & l2 & gs & El & -> & Hg & Hrest & Hfit & Hnn & Hset & Hcomp) & <-). cbn [app] in *.
    specialize (Hnn eq_refl ltac:(done)). destruct g as [|e0 g]; [done|]. injection El as <- El.
    inversion Hg as [|a t g' gs' Ht Hgs]; subst.
    destruct (Z.eqb_spec (len (t :: gs')) 0) as [E|_]; [rewrite len_cons in E; pose proof (len_nonneg gs'); lia|].
    cbn. split; [done|]. exists first, g, l2, p0. splits; try done; try apply Hh. destruct (Hfit (or_introl eq_refl)) as [?|Hb]; [done|exact Hb].
  - destruct Hp as ((_ & e & l2 & [= <- <-] & Htl) & <-). cbn. split; [done|]. exists first, l, p0. splits; try done. exact (Hh 0 []).
Qed.

(** What a flush does with its events: one after the other, they are dropped because their sample
    is too large, or they go into a datagram with the events behind them that are compatible. *)
Inductive flushed : list Event -> list bytes -> Prop :=
  | flushed_done : flushed [] []
  | flushed_dropped e p l ds : too_large p e -> headed e p -> flushed l ds -> flushed (e :: l) ds
  | flushed_datagram first g l p data ds :
      headed first p -> Forall2 sample_of (first :: g) (Samples p) -> Forall (fun e => compatibleTopLevel cfg first e = true) g ->
      EncodeMessage (Some p) = Ok data -> (0 < batchDatagramLimit cfg -> len data <= bound) ->
      flushed l ds -> flushed ((first :: g) ++ l) (data :: ds).

Lemma same_headed e e' p : same_event e e' -> headed e p -> headed e' p.
Proof.
  intros Hs [H1 H2 H3 H4]. split.
  - done.
  - by rewrite <- (same_fun (sflowAgentIP cfg) e e').
  - by rewrite <- (same_fun sflowSubAgentID e e').
  - by rewrite <- (same_fun (of_sflow 0 sfUptime) e e').
Qed.

Lemma same_sample_of e e' t : same_event e e' -> sample_of e t -> sample_of e' t.
Proof. intros Hs (e1 & st & x & e2 & st' & Hs1 & Hb). exists e1, st, x, e2, st'. split; [by etrans|done]. Qed.

Lemma same_too_large p e e' : same_event e e' -> too_large p e -> too_large p e'.
Proof. intros Hs (e1 & st & x & e2 & st' & size & Hs1 & Hb). exists e1, st, x, e2, st', size. split; [by etrans|done]. Qed.

Lemma same_samples_of l l' ts : Forall2 same_event l l' -> Forall2 sample_of l ts -> Forall2 sample_of l' ts.
Proof.
  intros Hs. revert ts. induction Hs as [|e e' l l' Hs _ IH]; intros ts Hl; [by inversion Hl|].
  inversion Hl as [|? t ? ts' Ht Hts]; subst. constructor; [by eapply same_sample_of|by apply IH].
Qed.

Lemma same_all_compatible a a' l l' : same_event a a' -> Forall2 same_event l l' ->
  Forall (fun e => compatibleTopLevel cfg a e = true) l -> Forall (fun e => compatibleTopLevel cfg a' e = true) l'.
Proof.
  intros Ha Hl. induction Hl as [|e e' l l' He _ IH]; intros Hc; [done|]. apply Forall_cons in Hc as [Hc Hcs].
  constructor; [by rewrite <- (same_compatible a a' e e')|by apply IH].
Qed.

(** The loop, on events that may carry a packet model of an earlier attempt. *)
Lemma flush_loop_spec fuel now pending orig payloads st :
  Forall event_set orig -> Forall2 same_event pending orig -> (length pending < fuel)%nat ->
  match flush_loop cfg fuel now pending payloads st with
  | (Ok r, st') => events st' = events st /\ exists ds, r = payloads ++ ds /\ flushed orig ds
  | (Err _, st') => events st' = events st
  | _ => False
  end.
Proof.
  revert pending orig payloads st. induction fuel as [|fuel IH]; intros pending orig payloads st Hset Hs Hf; [lia|].
  destruct pending as [|e pending].
  { inversion Hs; subst. cbn. split; [done|]. exists []. split; [by rewrite app_nil_r|constructor]. }
  assert (Hpset : Forall event_set (e :: pending)).
  { clear -Hset Hs. induction Hs; constructor; apply Forall_cons in Hset as [? ?]; [by eapply same_event_set|auto]. }
  cbn [flush_loop]. unfold bind at 1. pose proof (buildPacketWithLimit_spec now (e :: pending) st ltac:(done) Hpset) as Hb.
  destruct (buildPacketWithLimit cfg now (e :: pending) st) as [[[p rest|mx sz]|err|w|] st1]; try done.
  - destruct Hb as (Hev & first & g & l2 & p0 & El & Hrest & Hsam & Hh & Hc & Hss & Ep & Hfit).
    unfold bind at 1, encodePacket, errctx, lift_res. pose proof (EncodeMessage_ends p Hss) as Hends.
    destruct (EncodeMessage (Some p)) as [data|err|w|] eqn:Ed; try done.
    rewrite El in Hs. apply Forall2_app_inv_l in Hs as (orig1 & orig2 & Hs1 & Hs2 & ->).
    inversion Hs1 as [|? first' ? g' Hfirst Hg]; subst orig1. apply Forall_app in Hset as [_ Hset2].
    assert (Hrest' : Forall2 same_event rest orig2) by (eapply Forall2_trans; [|exact Hrest|exact Hs2]; intros ???; apply eq_trans).
    assert (Hlen : (length rest < fuel)%nat).
    { apply (f_equal length) in El. rewrite length_app in El. cbn in El, Hf. apply Forall2_length in Hrest. lia. }
    specialize (IH rest orig2 (payloads ++ [data]) st1 Hset2 Hrest' Hlen).
    destruct (flush_loop cfg fuel now rest (payloads ++ [data]) st1) as [[r|err|w|] st2]; try done; [|by rewrite IH].
    destruct IH as (He2 & ds & -> & Hds). split; [by rewrite He2|]. exists (data :: ds). split; [by rewrite <- app_assoc|].
    apply flushed_datagram with (p := p); try done.
    + by eapply same_headed.
    + eapply same_samples_of; [by constructor|done].
    + by eapply same_all_compatible.
    + intros Hl. destruct (Hfit Hl) as (k & Hk & Hle). rewrite Ep in Ed. rewrite (datagram_size_data _ _ _ Ed) in Hk. by injection Hk as ->.
  - destruct Hb as (Hev & e0 & l2 & p & [= <- <-] & Htl & Hh). inversion Hs as [|? e' ? orig' He Hs']; subst.
    apply Forall_cons in Hset as [_ Hset]. specialize (IH pending orig' payloads st1 Hset Hs' ltac:(cbn in Hf; lia)).
    destruct (flush_loop cfg fuel now pending payloads st1) as [[r|err|w|] st2]; try done; [|by rewrite IH].
    destruct IH as (He2 & ds & -> & Hds). split; [by rewrite He2|]. exists ds. split; [done|].
    apply flushed_dropped with (p := p); [by eapply same_too_large|by eapply same_headed|done].
Qed.
End flush.

(** C18: a flush accounts for every event of the batch.  With preserved records that are no nil
    pointers it neither panics nor runs on, and leaves the batch empty.  When it succeeds, the
    events have gone, one after the other, each into a datagram or away because its sample is too
    large for a datagram of its own, cut or whole.  A datagram holds one sample for each of its
    events, in their order; its agent, sub-agent and uptime are those of its first event, with
    which all others are compatible; and it is no longer than the batch limit, or than the
    limit for cut samples where these are allowed. *)
Theorem sflow_flush_accounts `{GoLib} (cfg : encoder_config) (now : Z) (st : SFlowEncoder) :
  Forall event_set (events st) ->
  match Flush cfg now st with
  | (Ok payloads, st') => events st' = [] /\ flushed cfg (events st) payloads
  | (Err _, st') => events st' = []
  | _ => False
  end.
Proof.
  intros Hset. unfold Flush.
  pose proof (flush_loop_spec cfg (S (length (events st))) now (events st) (events st) [] (set_events [] st) Hset (same_events_refl _) ltac:(lia)) as Hl.
  destruct (flush_loop _ _ _ _ _ _) as [[r|err|w|] st']; try done. destruct Hl as (He & ds & -> & Hds). by split.
Qed.

(** Two events with a frame of ten and of thirty bytes, and one whose frame is too long even for a
    datagram of its own. *)
Definition frame_event (n : nat) : Event :=
  {| ReceivedAt := 0; Kind := ""; Stream := ""; Source := zero_source; Control := None;
     ReflowEvent.Fields := Some (put_fields [("header_data", A_bytes (repeat 7 n)); ("frame_length", u32_field 64); ("protocol", u32_field 1)]%string ∅);
     evtMessage := []; evtPacket := None; SFlow := None; Aggregation := None; Payload := PL_nil; Internal := no_internal |}.
Definition frames : SFlowEncoder := {| packetSeq := 0; sampleSeq := 0; events := [frame_event 10; frame_event 200; frame_event 30] |}.
Definition small_batch : encoder_config :=
  {| started := 0; maxDatagramBytes := 150; allowTruncate := false; maxHeaderBytes := 0;
     batch := {| batchEnabled := Some true; MaxRecords := 8; MaxBytes := 0 |}; cfgAgentIP := "10.0.0.1"; CounterFormat := ""; EmitExtendedRecords := None;
     UseMetadataSequenceNumber := false;
     BatchOver := {| overAgentIP := None; overSubAgentID := None; overSequenceNumber := None; overUptime := None |} |}.

Lemma sflow_flush_accounts_witness :
  Forall event_set (events frames) /\ exists a b st', @Flush one_address small_batch 0 frames = (Ok [a; b], st') /\ events st' = [] /\
    @flushed one_address small_batch (events frames) [a; b].
Proof.
  assert (Hset : Forall event_set (events frames)) by repeat constructor.
  split; [exact Hset|]. pose proof (@sflow_flush_accounts one_address small_batch 0 frames Hset) as Hf.
  destruct (@Flush one_address small_batch 0 frames) as [[r|err|w|] st'] eqn:E; [|exfalso; by vm_compute in E|done..].
  destruct r as [|a [|b [|c r]]]; try (exfalso; by vm_compute in E). exists a, b, st'. split; [reflexivity|exact Hf].
Defined.

(** With [allowTruncate] and a batch limit below the datagram limit, the cut sample is measured
    against the datagram limit: this datagram is longer than the batch allows. *)
Definition tight_batch : encoder_config :=
  {| started := 0; maxDatagramBytes := 150; allowTruncate := true; maxHeaderBytes := 0;
     batch := {| batchEnabled := Some true; MaxRecords := 8; MaxBytes := 104 |}; cfgAgentIP := "10.0.0.1"; CounterFormat := ""; EmitExtendedRecords := None;
     UseMetadataSequenceNumber := false;
     BatchOver := {| overAgentIP := None; overSubAgentID := None; overSequenceNumber := None; overUptime := None |} |}.
Definition long_frame : SFlowEncoder := {| packetSeq := 0; sampleSeq := 0; events := [frame_event 200] |}.
Example sflow_limit_exceeded :
  batchDatagramLimit tight_batch = 104 /\ exists payloads data st',
    @Flush one_address tight_batch 0 long_frame = (Ok payloads, st') /\ head payloads = Some data /\ len data = 148.
Proof.
  split; [done|]. destruct (@Flush one_address tight_batch 0 long_frame) as [[[|data l]|e|w|] st'] eqn:E; try (exfalso; by vm_compute in E).
  exists (data :: l), data, st'. split; [reflexivity|]. split; [reflexivity|]. vm_compute in E. injection E as <- _ _. vm_compute. reflexivity.
Qed.
