(* ===== verification/ReflowTemplated.v ===== *)
(** * pkg/reflow/encode: fields of templated flows

    The part of [tflow.go] that the NetFlow v9 and the IPFIX encoder share: values to bytes, the
    definitions that a field of the catalog stands for, templates and data records made from a
    schema or from the fields of an event, and the state kept for a schema. *)
From S2P Require Import Prelude Text DecodersUtils NetflowTypes ProducerNetflow ReflowEvent ReflowDecode ReflowPacketEncode ReflowFields.

(** ** Configuration (config.go) *)

Record TemplatedFlowFieldMatch : Type := { matchField : string; matchFrom : string }.
Record TemplatedFlowDataConfig : Type := {
  Select : list string; Matches : list TemplatedFlowFieldMatch; Catalog : gmap string IPFIXFieldDefinition
}.

(** NetFlow v9 or IPFIX, and the two times of a NetFlow v9 record. *)
Record templatedEncodingContext : Type := { ctxV9 : bool; firstSwitched : Z; lastSwitched : Z }.
Definition ipfix_context : templatedEncodingContext := {| ctxV9 := false; firstSwitched := 0; lastSwitched := 0 |}.
Definition planning_context (v9 : bool) : templatedEncodingContext := {| ctxV9 := v9; firstSwitched := 0; lastSwitched := 0 |}.

(** [net.ParseMAC]. *)
Class TemplatedLib : Type := { ParseMAC : string -> option bytes }.

Definition one_of (s : string) (l : list string) : bool := existsb (String.eqb s) l.

Section templated.
Context `{GoLib} `{TemplatedLib}.

(** ** Values to bytes *)

Definition encodeU32 (v : Z) : bytes := be_put 4 v.
Definition encodeU64 (v : Z) : bytes := be_put 8 v.

Definition boolField (val : any) : bool :=
  match val with
  | A_bool b => b
  | A_int (K_uint64 | K_uint32 | K_uint16 | K_uint8 | K_int64 | K_int) v => negb (v =? 0)
  | A_float64 b => negb (Z.land b (2 ^ 63 - 1) =? 0)
  | A_number s => negb (ParseInt s =? 0)
  | A_string s => one_of s ["true"; "1"]%string
  | _ => false
  end.

(** The width of a kind of integers; eight bytes for any other kind. *)
Definition kind_width (kind : string) : nat :=
  if one_of kind ["unsigned8"; "signed8"]%string then 1
  else if one_of kind ["unsigned16"; "signed16"]%string then 2
  else if one_of kind ["unsigned32"; "signed32"]%string then 4 else 8.
Definition encodeUnsigned (kind : string) (val : any) : bytes := be_put (kind_width kind) (uint64FromAny val).
Definition encodeSigned (kind : string) (val : any) : bytes := be_put (kind_width kind) (int64_value val).

Definition six_bytes (b : bytes) : res bytes := if len b =? 6 then Ok b else Err (Errorf "expected 6-byte MAC address" [len b]).

Definition encodeIPFIXValue (def : IPFIXFieldDefinition) (val : any) : res bytes :=
  let ty := defType def in
  if one_of ty ["ipv4Address"; "ipv6Address"]%string then
    match val with
    | A_string s =>
        match ParseAddr s with
        | None => Err (Errorf "ParseAddr" [])
        | Some addr =>
            if String.eqb ty "ipv4Address" then if Is4 addr then Ok (AsSlice addr) else Err (Errorf "expected IPv4 address" [])
            else if Is6 addr then Ok (AsSlice addr) else Err (Errorf "expected IPv6 address" [])
        end
    | _ => Err (Errorf "expected string IP" [])
    end
  else if String.eqb ty "macAddress" then
    match val with
    | A_bytes b => six_bytes b
    | A_string s => match ParseMAC s with Some hw => six_bytes hw | None => Err (Errorf "ParseMAC" []) end
    | _ => Err (Errorf "expected MAC string/[]byte" [])
    end
  else if one_of ty ["unsigned8"; "unsigned16"; "unsigned32"; "unsigned64"]%string then Ok (encodeUnsigned ty val)
  else if one_of ty ["signed8"; "signed16"; "signed32"; "signed64"]%string then Ok (encodeSigned ty val)
  else if String.eqb ty "boolean" then Ok [if boolField val then 1 else 0]
  else if String.eqb ty "string" then
    match val with
    | A_string s => Ok (string_bytes s)
    | A_bytes b => Ok b
    | _ => Err (Errorf "expected string/[]byte" [])
    end
  else
    match val with
    | A_bytes b => Ok b
    | A_string s => Ok (string_bytes s)
    | _ => Ok (encodeUnsigned "unsigned64" val)
    end.

(** The length of a type of fixed length. *)
Definition type_length (ty : string) : option Z :=
  if String.eqb ty "ipv4Address" then Some 4 else if String.eqb ty "ipv6Address" then Some 16 else if String.eqb ty "macAddress" then Some 6
  else if one_of ty ["unsigned8"; "signed8"; "boolean"]%string then Some 1
  else if one_of ty ["unsigned16"; "signed16"]%string then Some 2
  else if one_of ty ["unsigned32"; "signed32"]%string then Some 4
  else if one_of ty ["unsigned64"; "signed64"]%string then Some 8 else None.

(** It never fails in the code either, which returns a nil error. *)
Definition defaultEncodedValue (def : IPFIXFieldDefinition) : bytes :=
  match type_length (defType def) with
  | Some n => replicate (Z.to_nat n) 0
  | None => if (defLength def =? 0xffff) || (defLength def =? 0) then [] else replicate (Z.to_nat (defLength def)) 0
  end.

Definition ipfixFieldLength (def : IPFIXFieldDefinition) (encoded : bytes) : Z :=
  if negb (defLength def =? 0) then defLength def else if 65535 <? len encoded then 0xffff else to_uint 16 (len encoded).

(** ** Definitions of a field *)

Definition as_field (name : string) (id length : Z) (ty : string) (d : IPFIXFieldDefinition) : IPFIXFieldDefinition :=
  {| defName := name; defID := id; PEN := PEN d; defLength := length; defType := ty; defFormat := defFormat d; EnterpriseScoped := EnterpriseScoped d |}.
Definition as_ipv6 (name : string) (id : Z) : IPFIXFieldDefinition -> IPFIXFieldDefinition := as_field name id 16 "ipv6Address".
Definition as_time (name : string) (id : Z) (d : IPFIXFieldDefinition) : IPFIXFieldDefinition :=
  {| defName := name; defID := id; PEN := PEN d; defLength := 4; defType := "unsigned32"; defFormat := ""; EnterpriseScoped := EnterpriseScoped d |}.

Definition wireFieldDefinition (name : string) (d : IPFIXFieldDefinition) (v9 : bool) : IPFIXFieldDefinition :=
  if negb v9 then d
  else if String.eqb name "start_time_unix" then as_time "FIRST_SWITCHED" NFV9_FIELD_FIRST_SWITCHED d
  else if String.eqb name "end_time_unix" then as_time "LAST_SWITCHED" NFV9_FIELD_LAST_SWITCHED d
  else d.

Definition defaultNetFlowV9ScopeID (name : string) : Z :=
  if one_of name ["observation_domain_id"; "source_id"]%string then 1 else if one_of name ["if_index"; "input_if"]%string then 2 else 0.

Definition optionWireFieldDefinition (name : string) (d : IPFIXFieldDefinition) (v9 scope : bool) : IPFIXFieldDefinition :=
  if negb v9 then d
  else
    let id := defaultNetFlowV9ScopeID name in
    if scope && negb (id =? 0)
    then {| defName := defName d; defID := id; PEN := 0; defLength := 4; defType := "unsigned32"; defFormat := defFormat d; EnterpriseScoped := false |}
    else wireFieldDefinition name d v9.

(** [NFv9TypeToString] of decoders/netflow/nfv9.go has no name for 97 and 101. *)
Definition isNetFlowV9FieldID (id : Z) : bool := (0 <? id) && (id <=? 104) && negb (id =? 97) && negb (id =? 101).
Definition fieldAllowedForEncoding (d : IPFIXFieldDefinition) (v9 : bool) : bool := if v9 then isNetFlowV9FieldID (defID d) else true.

Definition IPFIX_FIELD_sourceIPv4Address := 8.
Definition IPFIX_FIELD_destinationIPv4Address := 12.
Definition IPFIX_FIELD_sourceIPv6Address := 27.
Definition IPFIX_FIELD_destinationIPv6Address := 28.
Definition IPFIX_FIELD_exporterIPv6Address := 131.
Definition IPFIX_FIELD_observationPointId := 138.
Definition IPFIX_FIELD_samplingInterval := 34.
Definition IPFIX_FIELD_postNATSourceIPv4Address := 225.
Definition IPFIX_FIELD_postNATDestinationIPv4Address := 226.
Definition IPFIX_FIELD_postNATSourceIPv6Address := 281.
Definition IPFIX_FIELD_postNATDestinationIPv6Address := 282.

Definition HasSuffix (s suffix : string) : bool :=
  let n := String.length suffix in
  (n <=? String.length s)%nat && String.eqb (String.substring (String.length s - n) n s) suffix.
Definition isSourceAddressField (name : string) : bool := String.eqb name "src_addr" || HasSuffix name "_src_addr".
Definition isDestinationAddressField (name : string) : bool := String.eqb name "dst_addr" || HasSuffix name "_dst_addr".

Definition is_ipv4_definition (id : Z) (name : string) (d : IPFIXFieldDefinition) : bool :=
  String.eqb (defType d) "ipv4Address" && ((defID d =? id) || String.eqb (defName d) name).
Definition isStandardSourceIPv4Definition := is_ipv4_definition IPFIX_FIELD_sourceIPv4Address "sourceIPv4Address".
Definition isStandardDestinationIPv4Definition := is_ipv4_definition IPFIX_FIELD_destinationIPv4Address "destinationIPv4Address".
Definition isPostNATSourceIPv4Definition := is_ipv4_definition IPFIX_FIELD_postNATSourceIPv4Address "postNATSourceIPv4Address".
Definition isPostNATDestinationIPv4Definition := is_ipv4_definition IPFIX_FIELD_postNATDestinationIPv4Address "postNATDestinationIPv4Address".

Definition isIPAddressDefinition (d : IPFIXFieldDefinition) : bool := one_of (defType d) ["ipv4Address"; "ipv6Address"]%string.
Definition isDualStackAddressDefinition (name : string) (d : IPFIXFieldDefinition) : bool :=
  isStandardSourceIPv4Definition d && isSourceAddressField name ||
  isStandardDestinationIPv4Definition d && isDestinationAddressField name ||
  isPostNATSourceIPv4Definition d && String.eqb name "nat_src_addr" ||
  isPostNATDestinationIPv4Definition d && String.eqb name "nat_dst_addr".

Definition resolvedFieldDefinitionForFamily (name : string) (d : IPFIXFieldDefinition) (ipv6 : bool) : IPFIXFieldDefinition :=
  if negb ipv6 then d
  else if String.eqb name "agent_ip" then as_ipv6 "exporterIPv6Address" IPFIX_FIELD_exporterIPv6Address d
  else if String.eqb name "nat_src_addr" && isPostNATSourceIPv4Definition d
  then as_ipv6 "postNATSourceIPv6Address" IPFIX_FIELD_postNATSourceIPv6Address d
  else if String.eqb name "nat_dst_addr" && isPostNATDestinationIPv4Definition d
  then as_ipv6 "postNATDestinationIPv6Address" IPFIX_FIELD_postNATDestinationIPv6Address d
  else if isSourceAddressField name && isStandardSourceIPv4Definition d then as_ipv6 "sourceIPv6Address" IPFIX_FIELD_sourceIPv6Address d
  else if isDestinationAddressField name && isStandardDestinationIPv4Definition d
  then as_ipv6 "destinationIPv6Address" IPFIX_FIELD_destinationIPv6Address d
  else d.

(** The definition for a value: an address field becomes the IPv6 one for an IPv6 address. *)
Definition resolvedFieldDefinition (name : string) (d : IPFIXFieldDefinition) (val : any) : IPFIXFieldDefinition :=
  match val with
  | A_string s => match ParseAddr s with Some a => resolvedFieldDefinitionForFamily name d (Is6 a) | None => d end
  | _ => d
  end.

Definition named (name : string) (d : IPFIXFieldDefinition) : IPFIXFieldDefinition :=
  if String.eqb (defName d) "" then as_field name (defID d) (defLength d) (defType d) d else d.

Definition fieldDefinitionsForFamily (name : string) (d : IPFIXFieldDefinition) (family : string) : res (list IPFIXFieldDefinition) :=
  let d := named name d in
  if String.eqb family "" then
    Ok (if isDualStackAddressDefinition name d then [d; resolvedFieldDefinitionForFamily name d true] else [d])
  else if String.eqb family "ip4" then
    if negb (isIPAddressDefinition d) then Err (Errorf "family requires IP address field" [])
    else if negb (String.eqb (defType d) "ipv4Address") then Err (Errorf "cannot be exported as IPv4" [])
    else Ok [d]
  else if one_of family ["ip6"; "ip4in6"]%string then
    if negb (isIPAddressDefinition d) then Err (Errorf "family requires IP address field" [])
    else if String.eqb (defType d) "ipv6Address" then Ok [d]
    else
      let promoted := resolvedFieldDefinitionForFamily name d true in
      if negb (String.eqb (defType promoted) "ipv6Address") || (defID promoted =? defID d) then Err (Errorf "cannot be exported as IPv6" [])
      else Ok [promoted]
  else Err (Errorf "unsupported field family" []).

Definition ipFamilyModifier (value : any) : option string :=
  match value with A_string s => if one_of s ["ip4"; "ip6"; "ip4in6"]%string then Some s else None | _ => None end.
Definition schemaFieldFamily (field : SchemaField) : string :=
  if String.eqb (sRole field) "static" then ""%string else default ""%string (ipFamilyModifier (sValue field)).

(** ** Which fields, and their values *)

Definition selectPresentFlowFields (cfg : TemplatedFlowDataConfig) (m : fields) : list string :=
  match Select cfg with
  | [] => sort_Strings (List.filter (fun name => bool_decide (is_Some (Catalog cfg !! name))) (map fst (map_to_list m)))
  | l => List.filter (fun name => bool_decide (is_Some (Catalog cfg !! name))) l
  end.

Definition apply_match (m : fields) (match_ : TemplatedFlowFieldMatch) : fields :=
  if String.eqb (matchField match_) "" || String.eqb (matchFrom match_) "" then m
  else
    match m !! matchField match_, m !! matchFrom match_ with
    | None, Some val => <[matchField match_ := val]> m
    | _, _ => m
    end.
Definition applyTemplatedFlowDataMatches (cfg : TemplatedFlowDataConfig) (m : fields) : fields := fold_left apply_match (Matches cfg) m.

Definition encodeTemplatedValue (name : string) (d : IPFIXFieldDefinition) (val : any) (ctx : templatedEncodingContext) : res bytes :=
  if ctxV9 ctx && String.eqb name "start_time_unix" then Ok (encodeU32 (firstSwitched ctx))
  else if ctxV9 ctx && String.eqb name "end_time_unix" then Ok (encodeU32 (lastSwitched ctx))
  else encodeIPFIXValue d val.

Definition mappedIPv4String (a : addr) : string := Addr_String (Addr6 (replicate 10 0 ++ [0xff; 0xff] ++ AsSlice a) "").

Definition encodeTemplatedValueForFamily (name : string) (d : IPFIXFieldDefinition) (val : any) (family : string) (ctx : templatedEncodingContext)
    : res bytes :=
  if negb (isIPAddressDefinition d) then
    if negb (String.eqb family "") then Err (Errorf "family modifier requires IP address field" [])
    else encodeTemplatedValue name d val ctx
  else
    match val with
    | A_string ip =>
        match ParseAddr ip with
        | None => Err (Errorf "ParseAddr" [])
        | Some a =>
            let '(ip, parsed) := if String.eqb family "ip4in6" && Is4 a then (mappedIPv4String a, ParseAddr (mappedIPv4String a)) else (ip, Some a) in
            let holds (f : addr -> bool) := match parsed with Some a => f a | None => false end in
            if String.eqb (defType d) "ipv4Address" && negb (holds Is4) then Ok (defaultEncodedValue d)
            else if String.eqb (defType d) "ipv6Address" && negb (holds Is6) then Ok (defaultEncodedValue d)
            else encodeTemplatedValue name d (A_string ip) ctx
        end
    | _ => Err (Errorf "expected string IP" [])
    end.

Definition encodeFallbackValueWithFamily (name : string) (d : IPFIXFieldDefinition) (m : fields) (family : string) (ctx : templatedEncodingContext)
    : res bytes :=
  match m !! name with
  | Some val => encodeTemplatedValueForFamily name d val family ctx
  | None => Ok (defaultEncodedValue d)
  end.
Definition encodeFallbackValue (name : string) (d : IPFIXFieldDefinition) (m : fields) (ctx : templatedEncodingContext) : res bytes :=
  encodeFallbackValueWithFamily name d m "" ctx.

(** The field of a template and the value of a record for a definition. *)
Definition template_field (d : IPFIXFieldDefinition) (length : Z) : Field :=
  {| PenProvided := EnterpriseScoped d || negb (PEN d =? 0); NetflowTypes.Type_ := defID d; Length := length; Pen := PEN d |}.
Definition data_field (d : IPFIXFieldDefinition) (type length : Z) (encoded : bytes) : DataField :=
  {| dPenProvided := EnterpriseScoped d || negb (PEN d =? 0); dType := type; dLength := length; dPen := PEN d; dValue := VBytes encoded |}.

Definition template_of (templateID : Z) (l : list Field) : TemplateRecord :=
  {| TemplateId := templateID; FieldCount := to_uint 16 (len l); NetflowTypes.Fields := l |}.

(** ** Templates made from the fields of an event *)

(** [names], [defs] and [families] of the code are the parts of [entries]. *)
Record fallbackTemplatePlan : Type := { planTemplate : TemplateRecord; entries : list (string * IPFIXFieldDefinition * string) }.

(** The definitions of a field that go on the wire. *)
Definition wire_definitions (cfg : TemplatedFlowDataConfig) (name : string) (v9 : bool) : res (list IPFIXFieldDefinition) :=
  match Catalog cfg !! name with
  | None => Ok []
  | Some d =>
      rbind (fieldDefinitionsForFamily name d "") (fun defs =>
        Ok (List.filter (fun d => fieldAllowedForEncoding d v9) (map (fun d => wireFieldDefinition name d v9) defs)))
  end.

Definition bool_text (b : bool) : string := if b then "true" else "false".

Definition key_length (name : string) (m : fields) (v9 : bool) (d : IPFIXFieldDefinition) : Z :=
  let length := defLength d in
  if (length =? 0) || (length =? 0xffff)
  then match encodeFallbackValue name d m (planning_context v9) with Ok encoded => ipfixFieldLength d encoded | _ => length end else length.
Definition key_part (name : string) (m : fields) (v9 : bool) (d : IPFIXFieldDefinition) : string :=
  ("|" +:+ name +:+ ":" +:+ itoa (defID d) +:+ ":" +:+ itoa (key_length name m v9 d) +:+ ":" +:+ itoa (defLength d) +:+ ":" +:+ itoa (PEN d) +:+ ":" +:+
   bool_text (EnterpriseScoped d))%string.

Definition fallbackPlanKey (cfg : TemplatedFlowDataConfig) (m : fields) (templateID : Z) (v9 : bool) : res string :=
  rbind (rflat_map (fun name => rbind (wire_definitions cfg name v9) (fun defs => Ok (map (key_part name m v9) defs)))
           (selectPresentFlowFields cfg m)) (fun parts =>
    Ok (fold_left String.append parts (bool_text v9 +:+ "|" +:+ itoa templateID)%string)).

Definition plan_field (name : string) (m : fields) (v9 : bool) (d : IPFIXFieldDefinition) : res (list (Field * (string * IPFIXFieldDefinition * string))) :=
  match encodeFallbackValue name d m (planning_context v9) with
  | Ok encoded => Ok [(template_field d (ipfixFieldLength d encoded), (name, d, ""%string))]
  | Err e => Err (Wrap "encode field" [] e)
  | Panic w => Panic w
  | Hang => Hang
  end.

Definition buildFallbackPlan (cfg : TemplatedFlowDataConfig) (m : fields) (templateID : Z) (v9 : bool) : res fallbackTemplatePlan :=
  rbind (rflat_map (fun name => rbind (wire_definitions cfg name v9) (rflat_map (plan_field name m v9))) (selectPresentFlowFields cfg m)) (fun l =>
    if len l =? 0 then Err (Errorf "no encodable fields found for ipfix packet" [])
    else Ok {| planTemplate := template_of templateID (map fst l); entries := map snd l |}).

Definition fallback_value (m : fields) (ctx : templatedEncodingContext) (x : (string * IPFIXFieldDefinition * string) * Field) : res (list DataField) :=
  let '((name, d, family), field) := x in
  match encodeFallbackValueWithFamily name d m family ctx with
  | Ok encoded => Ok [data_field d (NetflowTypes.Type_ field) (Length field) encoded]
  | Err e => Err (Wrap "encode field" [] e)
  | Panic w => Panic w
  | Hang => Hang
  end.

(** The fields of the template and the entries of a plan are equally many. *)
Definition buildFallbackValues (plan : fallbackTemplatePlan) (m : fields) (ctx : templatedEncodingContext) : res DataRecord :=
  rbind (rflat_map (fallback_value m ctx) (combine (entries plan) (NetflowTypes.Fields (planTemplate plan)))) (fun values =>
    let present := List.filter (fun '(name, _, _) => bool_decide (is_Some (m !! name))) (entries plan) in
    if (len values =? 0) || (len present =? 0) then Err (Errorf "no encodable values found for templated packet" [])
    else Ok {| Values := values |}).

(** [buildTemplatedDataRecord]: template and record of the fields that are present. *)
Definition selectFlowFields (cfg : TemplatedFlowDataConfig) (m : fields) : list string :=
  match Select cfg with [] => sort_Strings (map fst (map_to_list m)) | l => l end.

Definition present_field (cfg : TemplatedFlowDataConfig) (m : fields) (ctx : templatedEncodingContext) (name : string) : res (list (Field * DataField)) :=
  match Catalog cfg !! name, m !! name with
  | Some d, Some val =>
      let d := wireFieldDefinition name (resolvedFieldDefinition name d val) (ctxV9 ctx) in
      if negb (fieldAllowedForEncoding d (ctxV9 ctx)) then Ok []
      else
        match encodeTemplatedValue name d val ctx with
        | Ok encoded => let n := ipfixFieldLength d encoded in Ok [(template_field d n, data_field d (defID d) n encoded)]
        | Err e => Err (Wrap "encode field" [] e)
        | Panic w => Panic w
        | Hang => Hang
        end
  | _, _ => Ok []
  end.

Definition buildTemplatedDataRecordWithNames (cfg : TemplatedFlowDataConfig) (m : fields) (names : list string) (templateID : Z)
    (ctx : templatedEncodingContext) : res (TemplateRecord * DataRecord) :=
  rbind (rflat_map (present_field cfg m ctx) names) (fun l =>
    if len l =? 0 then Err (Errorf "no encodable fields found for ipfix packet" [])
    else Ok (template_of templateID (map fst l), {| Values := map snd l |})).
Definition buildTemplatedDataRecord (cfg : TemplatedFlowDataConfig) (m : fields) (templateID : Z) (v9 : bool) : res (TemplateRecord * DataRecord) :=
  buildTemplatedDataRecordWithNames cfg m (selectFlowFields cfg m) templateID (planning_context v9).

(** ** Templates and records of a schema *)

Definition schemaFieldsOrNames (schema : AggregationSchema) : list SchemaField :=
  match asFields schema with
  | [] => map (fun name => {| sRole := "current"; sName := name; sValue := A_nil |}) (FieldNames schema)
  | l => l
  end.

Definition tflowRecordTypeField : string := "tflow_record_type".
Definition isTFlowRecordTypeMarker (field : SchemaField) : bool := String.eqb (sRole field) "static" && String.eqb (sName field) tflowRecordTypeField.

Definition schemaIsOptions (schema : AggregationSchema) : bool :=
  existsb (fun field => isTFlowRecordTypeMarker field && String.eqb (SprintAny (sValue field)) "options") (schemaFieldsOrNames schema) ||
  match asStaticFields schema !! tflowRecordTypeField with Some val => String.eqb (SprintAny val) "options" | None => false end.

Definition with_length (length : Z) (d : IPFIXFieldDefinition) : IPFIXFieldDefinition :=
  as_field (defName d) (defID d) length (defType d) d.

Definition schemaWireFieldDefinition (name : string) (d : IPFIXFieldDefinition) (v9 : bool) : res IPFIXFieldDefinition :=
  let d := wireFieldDefinition name d v9 in
  if negb (defLength d =? 0) then Ok d
  else
    let zero := defaultEncodedValue d in
    if 0 <? len zero then Ok (with_length (to_uint 16 (len zero)) d)
    else if v9 then Err (Errorf "schema field requires an explicit fixed length for NetFlow v9" [])
    else Ok (with_length 0xffff d).

(** [Ok []] also for a field that is not in the catalog, where the callers skip the field. *)
Definition schemaFieldDefinitions (cfg : TemplatedFlowDataConfig) (field : SchemaField) (v9 : bool) : res (list IPFIXFieldDefinition) :=
  match Catalog cfg !! sName field with
  | None => Ok []
  | Some d =>
      rbind (fieldDefinitionsForFamily (sName field) (named (sName field) d) (schemaFieldFamily field)) (rflat_map (fun d =>
        rbind (schemaWireFieldDefinition (sName field) d v9) (fun d => Ok [d])))
  end.

(** The definitions of a field of a schema that go on the wire. *)
Definition schema_wire_definitions (cfg : TemplatedFlowDataConfig) (v9 : bool) (field : SchemaField) : res (list IPFIXFieldDefinition) :=
  rbind (schemaFieldDefinitions cfg field v9) (fun defs =>
    Ok (List.filter (fun d => fieldAllowedForEncoding d v9) (map (fun d => wireFieldDefinition (sName field) d v9) defs))).

(** The value of a field: of the event, or static. *)
Definition schema_value (m : fields) (field : SchemaField) : option any :=
  match m !! sName field with
  | Some val => Some val
  | None =>
      if String.eqb (sRole field) "static" then match sValue field with A_nil => None | val => Some val end else None
  end.

Definition schema_data_field (m : fields) (field : SchemaField) (encode : any -> res bytes) (d : IPFIXFieldDefinition) : res (list DataField) :=
  match schema_value m field with
  | Some val =>
      match encode val with
      | Ok encoded => Ok [data_field d (defID d) (defLength d) encoded]
      | Err e => Err (Wrap "encode field" [] e)
      | Panic w => Panic w
      | Hang => Hang
      end
  | None => Ok [data_field d (defID d) (defLength d) (defaultEncodedValue d)]
  end.

Definition buildTemplatedValuesFromSchemaFields (cfg : TemplatedFlowDataConfig) (m : fields) (l : list SchemaField) (ctx : templatedEncodingContext)
    : res DataRecord :=
  rbind (rflat_map (fun field => rbind (schema_wire_definitions cfg (ctxV9 ctx) field) (rflat_map (fun d =>
      schema_data_field m field (fun val => encodeTemplatedValueForFamily (sName field) d val (schemaFieldFamily field) ctx) d))) l) (fun values =>
    if len values =? 0 then Err (Errorf "no encodable values found for templated packet" []) else Ok {| Values := values |}).

Definition buildTemplateRecordFromSchemaFields (cfg : TemplatedFlowDataConfig) (l : list SchemaField) (templateID : Z) (v9 : bool) : res TemplateRecord :=
  rbind (rflat_map (fun field => rbind (schema_wire_definitions cfg v9 field) (fun defs =>
      Ok (map (fun d => template_field d (defLength d)) defs))) l) (fun fs =>
    if len fs =? 0 then Err (Errorf "no encodable fields found for schema template" []) else Ok (template_of templateID fs)).

(** *** Options *)

(** The definition of an option or scope on the wire, if it goes there. *)
Definition option_definitions (cfg : TemplatedFlowDataConfig) (v9 scope : bool) (field : SchemaField) : res (list IPFIXFieldDefinition) :=
  match Catalog cfg !! sName field with
  | None => Ok []
  | Some d =>
      rbind (schemaWireFieldDefinition (sName field) (optionWireFieldDefinition (sName field) d v9 scope) v9) (fun d =>
        Ok (if fieldAllowedForEncoding d v9 then [d] else []))
  end.

Definition buildOptionsDataFieldsFromSchemaFields (cfg : TemplatedFlowDataConfig) (m : fields) (l : list SchemaField) (ctx : templatedEncodingContext)
    (scope : bool) : res (list DataField) :=
  rflat_map (fun field => rbind (option_definitions cfg (ctxV9 ctx) scope field) (rflat_map (fun d =>
    schema_data_field m field (fun val => encodeTemplatedValue (sName field) d val ctx) d))) l.

Definition buildOptionsDataRecordFromSchemaFields (cfg : TemplatedFlowDataConfig) (m : fields) (scopes options : list SchemaField)
    (ctx : templatedEncodingContext) : res OptionsDataRecord :=
  rbind (buildOptionsDataFieldsFromSchemaFields cfg m scopes ctx true) (fun scopeValues =>
  rbind (buildOptionsDataFieldsFromSchemaFields cfg m options ctx false) (fun optionValues =>
    if len scopeValues =? 0 then Err (Errorf "no encodable scope values found for options packet" [])
    else if len optionValues =? 0 then Err (Errorf "no encodable option values found for options packet" [])
    else Ok {| ScopesValues := scopeValues; OptionsValues := optionValues |})).

Definition buildOptionsTemplateFields (cfg : TemplatedFlowDataConfig) (l : list SchemaField) (v9 scope : bool) : res (list Field) :=
  rflat_map (fun field => rbind (option_definitions cfg v9 scope field) (fun defs =>
    Ok (map (fun d => template_field d (defLength d)) defs))) l.

Definition options_template {A} (mk : list Field -> list Field -> A) (cfg : TemplatedFlowDataConfig) (scopes options : list SchemaField) (v9 : bool)
    : res A :=
  rbind (buildOptionsTemplateFields cfg scopes v9 true) (fun scopeFields =>
  rbind (buildOptionsTemplateFields cfg options v9 false) (fun optionFields =>
    if (len scopeFields =? 0) || (len optionFields =? 0) then Err (Errorf "options template requires at least one scope and option field" [])
    else Ok (mk scopeFields optionFields))).

Definition buildIPFIXOptionsTemplateRecordFromSchemaFields (cfg : TemplatedFlowDataConfig) (scopes options : list SchemaField) (templateID : Z) :=
  options_template (fun sc op =>
    {| ipfixTemplateId := templateID; ipfixFieldCount := to_uint 16 (len sc + len op); ScopeFieldCount := to_uint 16 (len sc);
       ipfixOptions := op; ipfixScopes := sc |}) cfg scopes options false.
Definition buildNFv9OptionsTemplateRecordFromSchemaFields (cfg : TemplatedFlowDataConfig) (scopes options : list SchemaField) (templateID : Z) :=
  options_template (fun sc op =>
    {| v9TemplateId := templateID; ScopeLength := to_uint 16 (len sc * 4); OptionLength := to_uint 16 (len op * 4);
       v9Scopes := sc; v9Options := op |}) cfg scopes options true.

(** *** State of a schema *)

Record templatedSchemaState : Type := {
  tsStream : string; fieldNames : list string; tsFields : list SchemaField; baseTemplateID : Z; tsTemplate : TemplateRecord
}.

(** The template is the one of the encoder's protocol. *)
Record optionsSchemaState : Type := {
  osStream : string; osTemplateID : Z; osScopes : list SchemaField; osOptions : list SchemaField;
  osTemplate : IPFIXOptionsTemplateRecord + NFv9OptionsTemplateRecord
}.
Definition optionsSchemaFields (schema : optionsSchemaState) : list SchemaField := osScopes schema ++ osOptions schema.

Definition or_string (s default_ : string) : string := if String.eqb s "" then default_ else s.
Definition or_number (n default_ : Z) : Z := if n =? 0 then default_ else n.

Definition buildSchemaStateWithBase (cfg : TemplatedFlowDataConfig) (schema : AggregationSchema) (v9 : bool) (base : Z) : res templatedSchemaState :=
  let base := or_number base 256 in
  let l := schemaFieldsOrNames schema in
  rbind (buildTemplateRecordFromSchemaFields cfg l base v9) (fun t =>
    Ok {| tsStream := or_string (asStream schema) "flow_data"; fieldNames := FieldNames schema; tsFields := l; baseTemplateID := base; tsTemplate := t |}).
Definition buildSchemaState (cfg : TemplatedFlowDataConfig) (schema : AggregationSchema) (v9 : bool) : res templatedSchemaState :=
  buildSchemaStateWithBase cfg schema v9 (or_number (BaseTemplateID schema) 256).

Definition templates (s : templatedSchemaState) : list TemplateRecord := if FieldCount (tsTemplate s) =? 0 then [] else [tsTemplate s].
Definition templateForFields (s : templatedSchemaState) (m : fields) : TemplateRecord := tsTemplate s.

Definition buildOptionsSchemaState (cfg : TemplatedFlowDataConfig) (schema : AggregationSchema) (v9 : bool) (defaultTemplateID : Z)
    : res optionsSchemaState :=
  let templateID := or_number (or_number (BaseTemplateID schema) defaultTemplateID) 1024 in
  let l := List.filter (fun field => negb (isTFlowRecordTypeMarker field) && bool_decide (is_Some (Catalog cfg !! sName field)))
             (schemaFieldsOrNames schema) in
  let scopes := List.filter (fun field => String.eqb (sRole field) "key") l in
  let options := List.filter (fun field => negb (String.eqb (sRole field) "key")) l in
  if len scopes =? 0 then Err (Errorf "options schema has no key scope fields" [])
  else if len options =? 0 then Err (Errorf "options schema has no option fields" [])
  else
    rbind (if v9 then rbind (buildNFv9OptionsTemplateRecordFromSchemaFields cfg scopes options templateID) (fun r => Ok (inr r))
           else rbind (buildIPFIXOptionsTemplateRecordFromSchemaFields cfg scopes options templateID) (fun r => Ok (inl r))) (fun t =>
      Ok {| osStream := or_string (asStream schema) "options_data"; osTemplateID := templateID; osScopes := scopes; osOptions := options; osTemplate := t |}).
End templated.
