(* ===== verification/ReflowTemplatedProps.v ===== *)
(** * pkg/reflow/encode: properties of templated flows

    The functions of ReflowTemplated end with a value or an error; a record made for a schema has
    the fields of the schema's template; a plan that is kept for the fields of an event is the
    plan that would be made again. *)
From S2P Require Import Prelude Text DecodersUtils NetflowTypes ReflowEvent ReflowDecode ReflowFields ReflowTemplated.

(** ** Lists of results *)

Lemma ends_rflat_map {A B} (f : A -> res (list B)) l : (forall a, ends (f a)) -> ends (rflat_map f l).
Proof. intros Hf. induction l; [done|]. cbn [rflat_map]. apply ends_rbind; [done|]. intros b. by apply ends_rbind. Qed.

Lemma rbind_Ok {A B} (r : res A) (k : A -> res B) b : rbind r k = Ok b -> exists a, r = Ok a /\ k a = Ok b.
Proof. destruct r as [a| | |]; try done. intros E. by exists a. Qed.

Lemma rflat_map_Ok {A B} (f : A -> res (list B)) l r : rflat_map f l = Ok r -> exists ls, Forall2 (fun a bs => f a = Ok bs) l ls /\ r = concat ls.
Proof.
  revert r. induction l as [|a l IH]; intros r; cbn [rflat_map]; [intros [= <-]; by exists []|].
  intros E. apply rbind_Ok in E as (bs & Ea & E). apply rbind_Ok in E as (rest & El & E). injection E as <-.
  destruct (IH _ El) as (ls & Hls & ->). exists (bs :: ls). by split; [constructor|].
Qed.

(** Two results of the same list, related part by part. *)
Lemma rflat_map_Forall2 {A B C} (R : B -> C -> Prop) (f : A -> res (list B)) (g : A -> res (list C)) l r r' :
  (forall a bs cs, a ∈ l -> f a = Ok bs -> g a = Ok cs -> Forall2 R bs cs) ->
  rflat_map f l = Ok r -> rflat_map g l = Ok r' -> Forall2 R r r'.
Proof.
  revert r r'. induction l as [|a l IH]; intros r r' Hfg; cbn [rflat_map]; [intros [= <-] [= <-]; constructor|].
  intros E E'. apply rbind_Ok in E as (bs & Ea & E). apply rbind_Ok in E as (rest & El & E). injection E as <-.
  apply rbind_Ok in E' as (bs' & Ea' & E'). apply rbind_Ok in E' as (rest' & El' & E'). injection E' as <-.
  apply Forall2_app; [eapply Hfg; [by left|done..]|]. eapply IH; [|done..]. intros b bs0 cs0 Hb. apply Hfg. by right.
Qed.

Section templated.
Context `{GoLib} `{TemplatedLib}.
Implicit Types (cfg : TemplatedFlowDataConfig) (d : IPFIXFieldDefinition) (m : fields) (ctx : templatedEncodingContext).

(** ** Values or errors *)

Ltac ends_cases := try done; repeat (match goal with |- ends (if ?b then _ else _) => destruct b | |- ends (match ?x with _ => _ end) => destruct x end; try done).

Lemma ends_six_bytes b : ends (six_bytes b).
Proof. unfold six_bytes. ends_cases. Qed.
Lemma ends_encodeIPFIXValue d v : ends (encodeIPFIXValue d v).
Proof. unfold encodeIPFIXValue. cbv zeta. ends_cases; apply ends_six_bytes. Qed.
Lemma ends_encodeTemplatedValue name d v ctx : ends (encodeTemplatedValue name d v ctx).
Proof. unfold encodeTemplatedValue. ends_cases; apply ends_encodeIPFIXValue. Qed.
Lemma ends_encodeTemplatedValueForFamily name d v family ctx : ends (encodeTemplatedValueForFamily name d v family ctx).
Proof. unfold encodeTemplatedValueForFamily. cbv zeta. ends_cases; apply ends_encodeTemplatedValue. Qed.
Lemma ends_encodeFallbackValueWithFamily name d m family ctx : ends (encodeFallbackValueWithFamily name d m family ctx).
Proof. unfold encodeFallbackValueWithFamily. ends_cases; apply ends_encodeTemplatedValueForFamily. Qed.

Lemma ends_fieldDefinitionsForFamily name d family : ends (fieldDefinitionsForFamily name d family).
Proof. unfold fieldDefinitionsForFamily. cbv zeta. ends_cases. Qed.
Lemma ends_wire_definitions cfg name v9 : ends (wire_definitions cfg name v9).
Proof. unfold wire_definitions. ends_cases. Qed.
Lemma ends_fallbackPlanKey cfg m id v9 : ends (fallbackPlanKey cfg m id v9).
Proof. apply ends_rbind; [|done]. apply ends_rflat_map. intros name. apply ends_rbind; [apply ends_wire_definitions|done]. Qed.
Lemma ends_buildFallbackPlan cfg m id v9 : ends (buildFallbackPlan cfg m id v9).
Proof.
  apply ends_rbind; [|intros l; ends_cases]. apply ends_rflat_map. intros name. apply ends_rbind; [apply ends_wire_definitions|].
  intros defs. apply ends_rflat_map. intros d. unfold plan_field. pose proof (ends_encodeFallbackValueWithFamily name d m "" (planning_context v9)) as Hv.
  unfold encodeFallbackValue. by destruct (encodeFallbackValueWithFamily _ _ _ _ _).
Qed.
Lemma ends_buildFallbackValues plan m ctx : ends (buildFallbackValues plan m ctx).
Proof.
  apply ends_rbind; [|intros l; cbv zeta; ends_cases]. apply ends_rflat_map. intros [[[name d] family] f]. unfold fallback_value.
  pose proof (ends_encodeFallbackValueWithFamily name d m family ctx) as Hv. by destruct (encodeFallbackValueWithFamily _ _ _ _ _).
Qed.

Lemma ends_schemaWireFieldDefinition name d v9 : ends (schemaWireFieldDefinition name d v9).
Proof. unfold schemaWireFieldDefinition. cbv zeta. ends_cases. Qed.
Lemma ends_schema_wire_definitions cfg v9 field : ends (schema_wire_definitions cfg v9 field).
Proof.
  apply ends_rbind; [|done]. unfold schemaFieldDefinitions. ends_cases; apply ends_rbind; [apply ends_fieldDefinitionsForFamily|].
  intros defs. apply ends_rflat_map. intros d. apply ends_rbind; [apply ends_schemaWireFieldDefinition|done].
Qed.
Lemma ends_schema_data_field m field encode d : (forall v, ends (encode v)) -> ends (schema_data_field m field encode d).
Proof. intros He. unfold schema_data_field. destruct (schema_value m field) as [v|]; [|done]. specialize (He v). by destruct (encode v). Qed.
Lemma ends_buildTemplatedValuesFromSchemaFields cfg m l ctx : ends (buildTemplatedValuesFromSchemaFields cfg m l ctx).
Proof.
  apply ends_rbind; [|intros values; ends_cases]. apply ends_rflat_map. intros field. apply ends_rbind; [apply ends_schema_wire_definitions|].
  intros defs. apply ends_rflat_map. intros d. apply ends_schema_data_field. intros v. apply ends_encodeTemplatedValueForFamily.
Qed.
Lemma ends_buildTemplateRecordFromSchemaFields cfg l id v9 : ends (buildTemplateRecordFromSchemaFields cfg l id v9).
Proof.
  apply ends_rbind; [|intros fs; ends_cases]. apply ends_rflat_map. intros field. apply ends_rbind; [apply ends_schema_wire_definitions|done].
Qed.

Lemma ends_option_definitions cfg v9 scope field : ends (option_definitions cfg v9 scope field).
Proof. unfold option_definitions. ends_cases; apply ends_rbind; [apply ends_schemaWireFieldDefinition|intros d; ends_cases]. Qed.
Lemma ends_buildOptionsDataFieldsFromSchemaFields cfg m l ctx scope : ends (buildOptionsDataFieldsFromSchemaFields cfg m l ctx scope).
Proof.
  apply ends_rflat_map. intros field. apply ends_rbind; [apply ends_option_definitions|]. intros defs. apply ends_rflat_map. intros d.
  apply ends_schema_data_field. intros v. apply ends_encodeTemplatedValue.
Qed.
Lemma ends_buildOptionsDataRecordFromSchemaFields cfg m sc op ctx : ends (buildOptionsDataRecordFromSchemaFields cfg m sc op ctx).
Proof.
  apply ends_rbind; [apply ends_buildOptionsDataFieldsFromSchemaFields|]. intros s. apply ends_rbind; [apply ends_buildOptionsDataFieldsFromSchemaFields|].
  intros o. ends_cases.
Qed.
Lemma ends_options_template {A} (mk : list Field -> list Field -> A) cfg sc op v9 : ends (options_template mk cfg sc op v9).
Proof.
  assert (Hf : forall l scope, ends (buildOptionsTemplateFields cfg l v9 scope)).
  { intros l scope. apply ends_rflat_map. intros field. apply ends_rbind; [apply ends_option_definitions|done]. }
  apply ends_rbind; [done|]. intros s. apply ends_rbind; [done|]. intros o. ends_cases.
Qed.
Lemma ends_buildOptionsSchemaState cfg schema v9 id : ends (buildOptionsSchemaState cfg schema v9 id).
Proof.
  unfold buildOptionsSchemaState. cbv zeta. destruct (_ =? 0); [done|]. destruct (_ =? 0); [done|]. apply ends_rbind; [|done].
  destruct v9; (apply ends_rbind; [apply ends_options_template|done]).
Qed.
Lemma ends_buildSchemaStateWithBase cfg schema v9 base : ends (buildSchemaStateWithBase cfg schema v9 base).
Proof. apply ends_rbind; [apply ends_buildTemplateRecordFromSchemaFields|done]. Qed.

(** ** Records and their templates *)

(** The values of a record are those that a template announces. *)
Definition announces (f : Field) (d : DataField) : Prop :=
  dPenProvided d = PenProvided f /\ dType d = NetflowTypes.Type_ f /\ dLength d = Length f /\ dPen d = Pen f /\ exists b, dValue d = VBytes b.

Lemma schema_data_fields m field (encode : IPFIXFieldDefinition -> any -> res bytes) ds vs :
  rflat_map (fun d => schema_data_field m field (encode d) d) ds = Ok vs ->
  Forall2 announces (map (fun d => template_field d (defLength d)) ds) vs.
Proof.
  intros E. apply rflat_map_Ok in E as (ls & Hls & ->). induction Hls as [|d l ds ls Hd _ IH]; [constructor|]. cbn [map concat].
  assert (exists b, l = [data_field d (defID d) (defLength d) b]) as [b ->].
  { revert Hd. unfold schema_data_field. destruct (schema_value m field) as [v|]; [|intros [= <-]; by eexists].
    destruct (encode d v); try done. intros [= <-]. by eexists. }
  constructor; [|done]. unfold announces. splits; try done. by exists b.
Qed.

Lemma schema_record_announced cfg m l ctx id t r :
  buildTemplateRecordFromSchemaFields cfg l id (ctxV9 ctx) = Ok t -> buildTemplatedValuesFromSchemaFields cfg m l ctx = Ok r ->
  Forall2 announces (NetflowTypes.Fields t) (Values r).
Proof.
  unfold buildTemplateRecordFromSchemaFields, buildTemplatedValuesFromSchemaFields. intros Et Er.
  apply rbind_Ok in Et as (fs & Ef & Et). destruct (len fs =? 0); [done|]. injection Et as <-.
  apply rbind_Ok in Er as (vs & Ev & Er). destruct (len vs =? 0); [done|]. injection Er as <-. cbn [template_of NetflowTypes.Fields Values].
  eapply rflat_map_Forall2; [|exact Ef|exact Ev]. intros field fs' vs' _ Ef' Ev'. cbv beta in *.
  apply rbind_Ok in Ef' as (ds & Ed & Ef'). injection Ef' as <-. rewrite Ed in Ev'. cbn [rbind] in Ev'. by eapply (schema_data_fields m field (fun d val => encodeTemplatedValueForFamily (sName field) d val (schemaFieldFamily field) ctx)).
Qed.

Lemma options_fields_announced cfg m l ctx scope fs vs :
  buildOptionsTemplateFields cfg l (ctxV9 ctx) scope = Ok fs -> buildOptionsDataFieldsFromSchemaFields cfg m l ctx scope = Ok vs -> Forall2 announces fs vs.
Proof.
  intros Ef Ev. eapply rflat_map_Forall2; [|exact Ef|exact Ev]. intros field fs' vs' _ Ef' Ev'. cbv beta in *.
  apply rbind_Ok in Ef' as (ds & Ed & Ef'). injection Ef' as <-. rewrite Ed in Ev'. cbn [rbind] in Ev'. by eapply (schema_data_fields m field (fun d val => encodeTemplatedValue (sName field) d val ctx)).
Qed.

Lemma options_record_announced {A} (mk : list Field -> list Field -> A) cfg m sc op ctx t r :
  options_template mk cfg sc op (ctxV9 ctx) = Ok t -> buildOptionsDataRecordFromSchemaFields cfg m sc op ctx = Ok r ->
  exists fs gs, t = mk fs gs /\ Forall2 announces fs (ScopesValues r) /\ Forall2 announces gs (OptionsValues r).
Proof.
  unfold options_template, buildOptionsDataRecordFromSchemaFields. intros Et Er.
  apply rbind_Ok in Et as (fs & Ef & Et). apply rbind_Ok in Et as (gs & Eg & Et). destruct (_ || _); [done|]. injection Et as <-.
  apply rbind_Ok in Er as (vs & Ev & Er). apply rbind_Ok in Er as (ws & Ew & Er). destruct (_ =? 0); [done|]. destruct (_ =? 0); [done|].
  injection Er as <-. exists fs, gs. split; [done|]. split; by eapply options_fields_announced.
Qed.
End templated.
