(* ===== verification/ReflowTemplatedPlans.v ===== *)
(** * pkg/reflow/encode: the cache of plans is transparent

    An encoder keeps the plan it made for the fields of an event under a text key, and uses it
    for the next event with that key.  The key tells plans apart as long as names of the
    catalog have no separators in them; so the kept plan gives what a new plan would give. *)
From Stdlib Require Import Ascii.
From S2P Require Import Prelude Text DecodersUtils NetflowTypes ReflowEvent AggregateKeys ReflowDecode ReflowFields ReflowTemplated ReflowTemplatedProps.

(** ** Names in keys *)

Definition name_char (c : Ascii.ascii) : bool := negb ((c =? "|") || (c =? ":"))%char.
Definition clean (s : string) : Prop := all_chars name_char s = true.

Lemma itoa_clean z : clean (itoa z).
Proof.
  apply (all_chars_impl is_number_char); [|apply itoa_number]. intros c Hc. destruct c as [[] [] [] [] [] [] [] []]; (done || by vm_compute in Hc).
Qed.

Lemma no_bar_app a b : all_chars text_char a = true -> all_chars text_char b = true -> all_chars text_char (a +:+ b) = true.
Proof. intros Ha Hb. by rewrite all_chars_app, Ha, Hb. Qed.

Lemma clean_no_bar s : clean s -> all_chars text_char s = true.
Proof. apply all_chars_impl. intros c. unfold name_char, text_char. destruct (c =? "|")%char; [done|]. done. Qed.

(** Texts behind bars. *)
Definition bars (l : list string) : string := fold_right (fun s r => "|" +:+ s +:+ r)%string "" l.

Lemma bars_tail l : tail_ok (bars l).
Proof. destruct l as [|s l]; [by left|right]. by eexists. Qed.

Lemma bars_inj l l' : Forall (fun s => all_chars text_char s = true) l -> Forall (fun s => all_chars text_char s = true) l' -> bars l = bars l' -> l = l'.
Proof.
  intros Hl. revert l'. induction Hl as [|s l Hs _ IH]; intros l' Hl' E; destruct Hl' as [|s' l' Hs' Hl']; [done|done|done|].
  cbn [bars fold_right] in E. apply (string_app_inj "|" "|") in E as [_ E]; [|done].
  apply text_split in E as [-> E]; [|done|done|apply bars_tail|apply bars_tail]. f_equal. by apply IH.
Qed.

Lemma fold_append l pre : fold_left String.append (map (fun s => "|" +:+ s)%string l) pre = (pre +:+ bars l)%string.
Proof.
  revert pre. induction l as [|s l IH]; intros pre; cbn [map fold_left bars fold_right]; [by rewrite string_app_nil_r|].
  rewrite IH, string_app_assoc. done.
Qed.

(** ** The definitions on the wire, with their names *)

Section plans.
Context `{GoLib} `{TemplatedLib}.
Variable cfg : TemplatedFlowDataConfig.
Variable v9 : bool.
Hypothesis clean_names : forall name, is_Some (Catalog cfg !! name) -> clean name.
Implicit Types (m : fields) (E : list (string * IPFIXFieldDefinition)).

Definition tagged (names : list string) : res (list (string * IPFIXFieldDefinition)) :=
  rflat_map (fun name => rbind (wire_definitions cfg name v9) (fun defs => Ok (map (pair name) defs))) names.

Lemma tagged_eq name names : tagged (name :: names) =
  rbind (wire_definitions cfg name v9) (fun defs => rbind (tagged names) (fun E => Ok (map (pair name) defs ++ E))).
Proof. unfold tagged. cbn [rflat_map]. by destruct (wire_definitions cfg name v9). Qed.

Lemma tagged_map {A} (g : string -> IPFIXFieldDefinition -> A) names :
  rflat_map (fun name => rbind (wire_definitions cfg name v9) (fun defs => Ok (map (g name) defs))) names =
  rbind (tagged names) (fun E => Ok (map (fun x => g x.1 x.2) E)).
Proof.
  induction names as [|name names IH]; [done|]. cbn [rflat_map]. rewrite IH, tagged_eq.
  destruct (wire_definitions cfg name v9) as [defs| | |]; cbn [rbind]; try done.
  destruct (tagged names) as [E| | |]; cbn [rbind]; try done. by rewrite map_app, map_map.
Qed.

Lemma rflat_map_app {A B} (f : A -> res (list B)) l l' :
  rflat_map f (l ++ l') = rbind (rflat_map f l) (fun r => rbind (rflat_map f l') (fun r' => Ok (r ++ r'))).
Proof.
  induction l as [|a l IH]; cbn [rflat_map app rbind]; [by destruct (rflat_map f l')|]. destruct (f a) as [bs| | |]; cbn [rbind]; try done.
  rewrite IH. destruct (rflat_map f l) as [r| | |]; cbn [rbind]; try done. destruct (rflat_map f l') as [r'| | |]; cbn [rbind]; try done.
  by rewrite app_assoc.
Qed.

Lemma rflat_map_map {A B C} (f : B -> res (list C)) (g : A -> B) l : rflat_map f (map g l) = rflat_map (fun a => f (g a)) l.
Proof. induction l as [|a l IH]; [done|]. cbn [map rflat_map]. by rewrite IH. Qed.

Lemma tagged_rflat_map {A} (p : string -> IPFIXFieldDefinition -> res (list A)) names E : tagged names = Ok E ->
  rflat_map (fun name => rbind (wire_definitions cfg name v9) (rflat_map (p name))) names = rflat_map (fun x => p x.1 x.2) E.
Proof.
  revert E. induction names as [|name names IH]; intros E; [by intros [= <-]|]. rewrite tagged_eq. intros Ht.
  apply rbind_Ok in Ht as (defs & Ed & Ht). apply rbind_Ok in Ht as (E' & Et & Ht). injection Ht as <-. cbn [rflat_map]. rewrite Ed. cbn [rbind]. rewrite rflat_map_app, rflat_map_map.
  by rewrite (IH _ Et).
Qed.

(** The first name that has definitions. *)
Lemma tagged_cons names n d E : tagged names = Ok ((n, d) :: E) ->
  exists defs E1 names1, wire_definitions cfg n v9 = Ok defs /\ defs <> [] /\ (n, d) :: E = map (pair n) defs ++ E1 /\ tagged names1 = Ok E1.
Proof.
  induction names as [|name names IH]; [done|]. rewrite tagged_eq. intros Ht.
  apply rbind_Ok in Ht as (defs & Ed & Ht). apply rbind_Ok in Ht as (E' & Et & Ht). injection Ht as Ht. destruct defs as [|d0 defs]; [apply IH; by rewrite <- Ht|].
  exists (d0 :: defs), E', names. injection Ht as -> -> <-. done.
Qed.

(** The names tell the definitions. *)
Lemma tagged_names names names' E E' : tagged names = Ok E -> tagged names' = Ok E' -> map fst E = map fst E' -> E = E'.
Proof.
  remember (length E) as n eqn:Hn. assert (Hle : (length E <= n)%nat) by lia. clear Hn. revert names names' E E' Hle.
  induction n as [|n IH]; intros names names' E E' Hle Ht Ht' Hf.
  { destruct E; [|cbn in Hle; lia]. by destruct E'. }
  destruct E as [|[a d] E]; [by destruct E'|]. destruct E' as [|[a' d'] E']; [done|]. injection Hf as <- Hf.
  apply tagged_cons in Ht as (defs & E1 & names1 & Hw & Hne & HE & Ht). apply tagged_cons in Ht' as (defs' & E1' & names1' & Hw' & _ & HE' & Ht').
  rewrite Hw in Hw'. injection Hw' as <-. rewrite HE, HE'. f_equal. apply (IH names1 names1'); try done.
  - apply (f_equal length) in HE. cbn in HE, Hle. rewrite length_app, length_map in HE. destruct defs; [done|]. cbn in HE. lia.
  - assert (Hfst : map fst (map (pair a) defs ++ E1) = map fst (map (pair a) defs ++ E1')) by (rewrite <- HE, <- HE'; cbn; by rewrite Hf).
    rewrite !map_app in Hfst. by apply app_inv_head in Hfst.
Qed.

(** Every definition comes from the catalog, changed for the wire. *)
Definition wired (x : string * IPFIXFieldDefinition) : Prop := clean x.1 /\ exists d, x.2 = wireFieldDefinition x.1 d v9.

Lemma tagged_wired names E : tagged names = Ok E -> Forall wired E.
Proof using clean_names.
  revert E. induction names as [|name names IH]; intros E; [intros [= <-]; constructor|]. rewrite tagged_eq. intros Ht.
  apply rbind_Ok in Ht as (defs & Ed & Ht). apply rbind_Ok in Ht as (E' & Et & Ht). injection Ht as <-. apply Forall_app. split; [|by apply IH].
  unfold wire_definitions in Ed. destruct (Catalog cfg !! name) as [d|] eqn:Ec; [|by injection Ed as <-].
  apply rbind_Ok in Ed as (ds & _ & Ed). injection Ed as <-. apply Forall_map, Forall_forall. intros x Hx.
  apply list_elem_of_In, filter_In in Hx as [Hx _]. apply in_map_iff in Hx as (d' & <- & _). split; [|by eexists]. apply (clean_names name). by rewrite Ec.
Qed.

(** ** Keys *)

Definition part_body (m : fields) (x : string * IPFIXFieldDefinition) : string :=
  (x.1 +:+ ":" +:+ itoa (defID x.2) +:+ ":" +:+ itoa (key_length x.1 m v9 x.2) +:+ ":" +:+ itoa (defLength x.2) +:+ ":" +:+ itoa (PEN x.2) +:+ ":" +:+
   bool_text (EnterpriseScoped x.2))%string.

Lemma part_body_no_bar m x : wired x -> all_chars text_char (part_body m x) = true.
Proof.
  intros [Hc _]. unfold part_body. repeat apply no_bar_app; try done; try (apply clean_no_bar; (done || apply itoa_clean)).
  by destruct (EnterpriseScoped _).
Qed.

Lemma part_body_inj m m' x x' : wired x -> wired x' -> part_body m x = part_body m' x' ->
  x.1 = x'.1 /\ key_length x.1 m v9 x.2 = key_length x'.1 m' v9 x'.2.
Proof.
  intros [Hc _] [Hc' _] E. unfold part_body in E.
  assert (Hcut : forall a a' r r', clean a -> clean a' -> (a +:+ ":" +:+ r = a' +:+ ":" +:+ r')%string -> a = a' /\ r = r').
  { intros a a' r r' Ha Ha' Hr. by apply (chars_split name_char) in Hr as (-> & _ & ->). }
  apply Hcut in E as [Hn E]; [|done..]. apply Hcut in E as [_ E]; [|apply itoa_clean..]. apply Hcut in E as [Hl _]; [|apply itoa_clean..].
  split; [done|]. by apply itoa_inj in Hl.
Qed.

Lemma key_tagged m id key : fallbackPlanKey cfg m id v9 = Ok key ->
  exists E, tagged (selectPresentFlowFields cfg m) = Ok E /\ key = (bool_text v9 +:+ bars (itoa id :: map (part_body m) E))%string.
Proof.
  intros Hk. apply rbind_Ok in Hk as (parts & Hp & Hk). rewrite tagged_map in Hp. apply rbind_Ok in Hp as (E & Ht & Hp).
  injection Hp as <-. injection Hk as <-. exists E. split; [done|]. cbn [bars fold_right].
  replace (map (fun x => key_part x.1 m v9 x.2) E) with (map (fun s => "|" +:+ s)%string (map (part_body m) E)) by (by rewrite map_map).
  rewrite fold_append, !string_app_assoc. done.
Qed.

(** Equal keys: the same definitions, with the same lengths. *)
Lemma key_same m m' id id' key : fallbackPlanKey cfg m id v9 = Ok key -> fallbackPlanKey cfg m' id' v9 = Ok key ->
  id = id' /\ exists E, tagged (selectPresentFlowFields cfg m) = Ok E /\ tagged (selectPresentFlowFields cfg m') = Ok E /\
    Forall (fun x => wired x /\ key_length x.1 m v9 x.2 = key_length x.1 m' v9 x.2) E.
Proof using clean_names.
  intros Hk Hk'. apply key_tagged in Hk as (E & Ht & ->). apply key_tagged in Hk' as (E' & Ht' & Hk).
  pose proof (tagged_wired _ _ Ht) as Hw. pose proof (tagged_wired _ _ Ht') as Hw'.
  apply string_app_inj in Hk as [_ Hk]; [|done].
  assert (Hbar : forall m E id, Forall wired E -> Forall (fun s => all_chars text_char s = true) (itoa id :: map (part_body m) E)).
  { intros m0 E0 id0 H0'. constructor; [apply clean_no_bar, itoa_clean|]. apply Forall_map. eapply Forall_impl; [done|].
    intros x. apply part_body_no_bar. }
  apply bars_inj in Hk; [|by apply Hbar..]. injection Hk as Hid Hk. apply itoa_inj in Hid. split; [done|].
  assert (Hall : Forall2 (fun x x' => x.1 = x'.1 /\ key_length x.1 m v9 x.2 = key_length x'.1 m' v9 x'.2) E E').
  { clear Ht Ht' Hid. revert E' Hw' Hk. induction Hw as [|x E Hx _ IH]; intros E' Hw' Hk; destruct Hw' as [|x' E' Hx' Hw']; try done.
    injection Hk as Hk1 Hk. constructor; [by apply part_body_inj|by apply IH]. }
  assert (E = E') as <-.
  { apply (tagged_names _ _ _ _ Ht Ht'). clear -Hall. induction Hall as [|x x' E E' [Hx _] _ IH]; [done|]. cbn. by rewrite Hx, IH. }
  exists E. splits; try done. clear -Hall Hw. induction E as [|x E IH]; [done|].
  apply Forall_cons in Hw as [Hx Hw]. apply Forall2_cons in Hall as [[_ Hl] Hall]. constructor; [done|by apply IH].
Qed.

(** ** Plans *)

(** The record of an event without a cache. *)
Definition planned (m : fields) (id : Z) (ctx : templatedEncodingContext) : res (fallbackTemplatePlan * DataRecord) :=
  rbind (buildFallbackPlan cfg m id v9) (fun plan => rbind (buildFallbackValues plan m ctx) (fun r => Ok (plan, r))).

Definition plan_entry (m : fields) (x : string * IPFIXFieldDefinition) : Field * (string * IPFIXFieldDefinition * string) :=
  (template_field x.2 (key_length x.1 m v9 x.2), (x.1, x.2, ""%string)).

Lemma key_length_Ok m x b : encodeFallbackValue x.1 x.2 m (planning_context v9) = Ok b -> ipfixFieldLength x.2 b = key_length x.1 m v9 x.2.
Proof.
  intros Eb. unfold key_length. rewrite Eb. unfold ipfixFieldLength. destruct (Z.eqb_spec (defLength x.2) 0) as [->|Hn]; cbn [negb orb]; [done|].
  by destruct (defLength x.2 =? 0xffff).
Qed.

(** The same value or not, and the same error. *)
Definition agree {A} (r r' : res A) : Prop := match r, r' with Ok _, Ok _ => True | Err e, Err e' => e = e' | _, _ => False end.

Lemma agree_refl {A} (r : res A) : ends r -> agree r r.
Proof. by destruct r. Qed.

Lemma encode_same name d val family c c' : (forall v, encodeTemplatedValue name d v c = encodeTemplatedValue name d v c') ->
  encodeTemplatedValueForFamily name d val family c = encodeTemplatedValueForFamily name d val family c'.
Proof.
  intros He. unfold encodeTemplatedValueForFamily. rewrite He. destruct (negb _); [done|]. destruct val; try done. destruct (ParseAddr s) as [a|]; [|done].
  destruct (if (_ && _)%bool then _ else _) as [ip parsed]. by rewrite He.
Qed.

(** The times of the context do not decide whether a value can be encoded. *)
Lemma planning_agrees m x ctx : wired x -> ctxV9 ctx = v9 ->
  agree (encodeFallbackValue x.1 x.2 m (planning_context v9)) (encodeFallbackValueWithFamily x.1 x.2 m "" ctx).
Proof.
  destruct x as [name d']. intros [_ [d Hd]] Hv. unfold encodeFallbackValue, encodeFallbackValueWithFamily. cbn [fst snd] in *.
  destruct (m !! name) as [val|]; [|done].
  destruct (v9 && one_of name ["start_time_unix"; "end_time_unix"]%string) eqn:Et.
  - apply andb_prop in Et as [Ev Et]. unfold one_of in Et. cbn [existsb] in Et. rewrite orb_false_r in Et.
    assert (Hip : isIPAddressDefinition d' = false).
    { rewrite Hd, Ev. unfold wireFieldDefinition. cbn [negb]. destruct (String.eqb name "start_time_unix"); [done|]. cbn [orb] in Et. by rewrite Et. }
    unfold encodeTemplatedValueForFamily. rewrite Hip. cbn [negb String.eqb]. unfold encodeTemplatedValue. rewrite Hv. cbn [ctxV9 planning_context].
    rewrite Ev. cbn [andb]. destruct (String.eqb name "start_time_unix"); [done|]. cbn [orb] in Et. by rewrite Et.
  - rewrite (encode_same name d' val "" ctx (planning_context v9)).
    + apply agree_refl, ends_encodeTemplatedValueForFamily.
    + intros v. unfold encodeTemplatedValue. rewrite Hv. cbn [ctxV9 planning_context]. destruct v9; [|done]. cbn [andb] in *.
      unfold one_of in Et. cbn [existsb] in Et. rewrite orb_false_r in Et. apply orb_false_elim in Et as [-> ->]. done.
Qed.

Lemma plan_fields m E l : rflat_map (fun x => plan_field x.1 m v9 x.2) E = Ok l -> l = map (plan_entry m) E.
Proof.
  revert l. induction E as [|x E IH]; intros l; cbn [rflat_map map]; [by intros [= <-]|]. intros Hl.
  apply rbind_Ok in Hl as (l1 & E1 & Hl). apply rbind_Ok in Hl as (l2 & E2 & Hl). injection Hl as <-. rewrite <- (IH _ E2).
  revert E1. unfold plan_field. destruct (encodeFallbackValue x.1 x.2 m (planning_context v9)) as [b| | |] eqn:Eb; try done. intros [= <-].
  unfold plan_entry. by rewrite (key_length_Ok _ _ _ Eb).
Qed.

(** The plan of an event is the one of another event with these definitions and lengths, or no
    value can be made for either, with the same error. *)
Lemma plan_or_error m m' E ctx : ctxV9 ctx = v9 -> Forall (fun x => wired x /\ key_length x.1 m v9 x.2 = key_length x.1 m' v9 x.2) E ->
  let l := map (plan_entry m') E in
  rflat_map (fun x => plan_field x.1 m v9 x.2) E = Ok l \/
  exists e, rflat_map (fun x => plan_field x.1 m v9 x.2) E = Err e /\ rflat_map (fallback_value m ctx) (combine (map snd l) (map fst l)) = Err e.
Proof.
  intros Hv HE. cbv zeta. induction HE as [|x E [Hw Hl] _ IH]; [by left|]. cbn [map combine rflat_map plan_entry fst snd].
  pose proof (planning_agrees m x ctx Hw Hv) as Ha. unfold plan_field at 1 3, fallback_value at 1.
  destruct (encodeFallbackValue x.1 x.2 m (planning_context v9)) as [b|e| |] eqn:Eb; cbn [agree] in Ha; try done;
    destruct (encodeFallbackValueWithFamily x.1 x.2 m "" ctx) as [b'|e'| |]; try done; cbn [rbind].
  - rewrite (key_length_Ok _ _ _ Eb), Hl. destruct IH as [->|(e & -> & ->)]; [by left|right; by exists e].
  - right. subst e'. by eexists.
Qed.

Lemma plan_cached m m' id id' key plan ctx : ctxV9 ctx = v9 ->
  fallbackPlanKey cfg m id v9 = Ok key -> fallbackPlanKey cfg m' id' v9 = Ok key -> buildFallbackPlan cfg m' id' v9 = Ok plan ->
  planned m id ctx = rbind (buildFallbackValues plan m ctx) (fun r => Ok (plan, r)).
Proof using clean_names.
  intros Hv Hk Hk' Hp. destruct (key_same m m' id id' key Hk Hk') as (<- & E & Ht & Ht' & HE).
  unfold planned, buildFallbackPlan in *. rewrite (tagged_rflat_map _ _ _ Ht). rewrite (tagged_rflat_map _ _ _ Ht') in Hp.
  apply rbind_Ok in Hp as (l & El & Hp). apply plan_fields in El as ->. destruct (Z.eqb_spec (len (map (plan_entry m') E)) 0) as [|Hn]; [done|].
  injection Hp as <-. destruct (plan_or_error m m' E ctx Hv HE) as [->|(e & -> & Ev)]; cbn [rbind].
  - by destruct (Z.eqb_spec (len (map (plan_entry m') E)) 0).
  - unfold buildFallbackValues. cbn [entries planTemplate template_of NetflowTypes.Fields]. by rewrite Ev.
Qed.
End plans.
