(* ===== verification/ReflowExportTflow.v ===== *)
(** * pkg/reflow/encode: the state of the NetFlow v9 and IPFIX encoders

    The structs [IPFIXEncoder] and [NFv9Encoder] of [tflow.go] have the same fields, and most
    of their methods are the same but for the packet they build: the records of events, their
    sets in a batch, the loop that sends a batch, and the state of schemas and sources are here,
    with what differs as arguments.  Results are returned next to errors where callers use
    both. *)
From S2P Require Import Prelude Text DecodersUtils NetflowTypes NetflowEncode ReflowEvent Aggregate ReflowDecode ReflowNormalize ReflowFields ReflowTemplated.

(** ** Configuration and state *)

Record TemplatedFlowConfig : Type := {
  TemplateBaseID : Z; OptionsTemplateBaseID : Z; ObservationDomainID : Z; TemplateRefresh : Z; OptionsRefresh : Z; Data : TemplatedFlowDataConfig
}.
Record EncoderConfig : Type := { MaxDatagramBytes : Z; batch : BatchConfig; TemplatedFlow : TemplatedFlowConfig }.

Record sourceOptionsState : Type := {
  soStream : string; agentIP : string; sourceID : Z; observationDomainID : Z; samplingRate : Z; samplePool : Z; drops : Z;
  inputIf : Z; outputIf : Z; soTemplateID : Z
}.

Record TflowEncoder : Type := {
  seq : Z; dataSchemas : gmap string templatedSchemaState; optionsSchemas : gmap string optionsSchemaState;
  fallbackPlans : gmap string fallbackTemplatePlan; sourceOptions : gmap string sourceOptionsState;
  lastTemplateRun : Z; lastOptionsRun : Z; events : list Event; estimatedBytes : Z
}.
Definition NewTflowEncoder : TflowEncoder :=
  {| seq := 0; dataSchemas := ∅; optionsSchemas := ∅; fallbackPlans := ∅; sourceOptions := ∅; lastTemplateRun := zero_time; lastOptionsRun := zero_time;
     events := []; estimatedBytes := 0 |}.

(** [e.seq.Add(n)]. *)
Definition add_seq (n : Z) : ST TflowEncoder unit := fun s =>
  (Ok tt, {| seq := to_uint 32 (seq s + n); dataSchemas := dataSchemas s; optionsSchemas := optionsSchemas s; fallbackPlans := fallbackPlans s;
             sourceOptions := sourceOptions s; lastTemplateRun := lastTemplateRun s; lastOptionsRun := lastOptionsRun s; events := events s;
             estimatedBytes := estimatedBytes s |}).
Definition set_batch (l : list Event) (size : Z) (s : TflowEncoder) : TflowEncoder :=
  {| seq := seq s; dataSchemas := dataSchemas s; optionsSchemas := optionsSchemas s; fallbackPlans := fallbackPlans s;
     sourceOptions := sourceOptions s; lastTemplateRun := lastTemplateRun s; lastOptionsRun := lastOptionsRun s; events := l;
     estimatedBytes := size |}.
Definition set_schemas (d : gmap string templatedSchemaState) (o : gmap string optionsSchemaState) (s : TflowEncoder) : TflowEncoder :=
  {| seq := seq s; dataSchemas := d; optionsSchemas := o; fallbackPlans := fallbackPlans s;
     sourceOptions := sourceOptions s; lastTemplateRun := lastTemplateRun s; lastOptionsRun := lastOptionsRun s; events := events s;
     estimatedBytes := estimatedBytes s |}.
Definition set_plans (p : gmap string fallbackTemplatePlan) (s : TflowEncoder) : TflowEncoder :=
  {| seq := seq s; dataSchemas := dataSchemas s; optionsSchemas := optionsSchemas s; fallbackPlans := p;
     sourceOptions := sourceOptions s; lastTemplateRun := lastTemplateRun s; lastOptionsRun := lastOptionsRun s; events := events s;
     estimatedBytes := estimatedBytes s |}.
Definition set_sources (m : gmap string sourceOptionsState) (s : TflowEncoder) : TflowEncoder :=
  {| seq := seq s; dataSchemas := dataSchemas s; optionsSchemas := optionsSchemas s; fallbackPlans := fallbackPlans s;
     sourceOptions := m; lastTemplateRun := lastTemplateRun s; lastOptionsRun := lastOptionsRun s; events := events s;
     estimatedBytes := estimatedBytes s |}.
Definition set_runs (t o : Z) (s : TflowEncoder) : TflowEncoder :=
  {| seq := seq s; dataSchemas := dataSchemas s; optionsSchemas := optionsSchemas s; fallbackPlans := fallbackPlans s;
     sourceOptions := sourceOptions s; lastTemplateRun := t; lastOptionsRun := o; events := events s;
     estimatedBytes := estimatedBytes s |}.

(** ** Rendered sizes *)

Definition renderedDataFieldSize (field : DataField) : Z :=
  match dValue field with
  | VBytes value => if dLength field =? 0xffff then (if len value <? 255 then 1 + len value else 3 + len value) else len value
  | _ => 0
  end.
Definition total {A} (f : A -> Z) (l : list A) : Z := fold_left (fun n x => n + f x) l 0.
Definition renderedDataRecordSize (record : DataRecord) : Z := total renderedDataFieldSize (Values record).
Definition renderedDataRecordsSize (records : list DataRecord) : Z := total renderedDataRecordSize records.
Definition renderedOptionsDataRecordsSize (records : list OptionsDataRecord) : Z :=
  total (fun r => total renderedDataFieldSize (ScopesValues r) + total renderedDataFieldSize (OptionsValues r)) records.
Definition renderedFlowSetsDataSize (flowSets : list flowset) : Z :=
  total (fun fs => match fs with
                   | FS_Data b => match unbox b with Some f => renderedDataRecordsSize (Records f) | None => 0 end
                   | FS_OptionsData b => match unbox b with Some f => renderedOptionsDataRecordsSize (Records f) | None => 0 end
                   | _ => 0
                   end) flowSets.

(** ** The record of an event *)

Inductive content : Type := Data_record (r : DataRecord) | Options_record (r : OptionsDataRecord).

(** [ipfixBatchRecord] and [nfv9BatchRecord], without what goes into the packet header; the
    options templates that the structs have too are never set. *)
Record batch_record : Type := { brKey : string; brTemplateID : Z; brTemplate : option TemplateRecord; brContent : content }.

Definition eventStream (e : Event) (fallback : string) : string :=
  or_string (Stream e) (match Control e with Some c => or_string (cStream c) fallback | None => fallback end).
Definition controlType (e : Event) : string := match Control e with Some c => cType c | None => ""%string end.

Section tflow.
Context `{GoLib} `{TemplatedLib}.
Variable cfg : EncoderConfig.

Definition data_config : TemplatedFlowDataConfig := Data (TemplatedFlow cfg).

(** [fallbackDataRecord]: the plan is kept for the next event with its key. *)
Definition fallbackDataRecord (v9 : bool) (m : fields) (templateID : Z) (ctx : templatedEncodingContext) : ST TflowEncoder (fallbackTemplatePlan * DataRecord) :=
  let* key := lift_res (fallbackPlanKey data_config m templateID v9) in
  let* s := get in
  let* plan := match fallbackPlans s !! key with
               | Some plan => ret plan
               | None =>
                   let* plan := lift_res (buildFallbackPlan data_config m templateID v9) in
                   put (set_plans (<[key := plan]> (fallbackPlans s)) s) ;;; ret plan
               end in
  let* record := lift_res (buildFallbackValues plan m ctx) in
  ret (plan, record).

(** The fields of an event for a schema. *)
Definition schema_fields (e : Event) (l : list SchemaField) : fields :=
  applyTemplatedFlowDataMatches data_config (eventFieldsWithMetadataForSchema e l).

Definition event_record (v9 : bool) (ctx : templatedEncodingContext) (e : Event) : ST TflowEncoder batch_record :=
  match ReflowEvent.Fields e with
  | None => fail (Errorf "event fields are empty" [])
  | Some _ =>
      let m := applyTemplatedFlowDataMatches data_config (eventFieldsWithMetadata e) in
      let templateID := or_number (uint16Field m "template_id") 256 in
      let stream := eventStream e "flow_data" in
      let* s := get in
      match optionsSchemas s !! stream with
      | Some schema =>
          let* r := lift_res (buildOptionsDataRecordFromSchemaFields data_config (schema_fields e (optionsSchemaFields schema))
                                (osScopes schema) (osOptions schema) ctx) in
          ret {| brKey := ("options-schema:" +:+ stream +:+ ":" +:+ itoa (osTemplateID schema))%string; brTemplateID := osTemplateID schema;
                 brTemplate := None; brContent := Options_record r |}
      | None =>
          match dataSchemas s !! stream with
          | Some schema =>
              let* r := lift_res (buildTemplatedValuesFromSchemaFields data_config (schema_fields e (tsFields schema)) (tsFields schema) ctx) in
              ret {| brKey := ("schema:" +:+ stream +:+ ":" +:+ itoa (TemplateId (tsTemplate schema)))%string;
                     brTemplateID := TemplateId (tsTemplate schema); brTemplate := None; brContent := Data_record r |}
          | None =>
              let* (plan, r) := fallbackDataRecord v9 m templateID ctx in
              let* key := lift_res (fallbackPlanKey data_config m templateID v9) in
              ret {| brKey := key; brTemplateID := TemplateId (planTemplate plan); brTemplate := Some (planTemplate plan); brContent := Data_record r |}
          end
      end
  end.

Definition record_size (r : batch_record) : Z :=
  match brContent r with Data_record d => renderedDataRecordSize d | Options_record o => renderedOptionsDataRecordsSize [o] end.

(** ** Sets of a batch *)

(** [ipfixBatchSet]; its kind is the kind of its records. *)
Record batch_set : Type := { bsKey : string; bsTemplateID : Z; bsTemplate : option TemplateRecord; bsRecords : list DataRecord + list OptionsDataRecord }.

Definition records_of (c : content) : list DataRecord + list OptionsDataRecord :=
  match c with Data_record r => inl [r] | Options_record r => inr [r] end.
Definition set_of (r : batch_record) : batch_set :=
  {| bsKey := brKey r; bsTemplateID := brTemplateID r; bsTemplate := brTemplate r; bsRecords := records_of (brContent r) |}.

(** The records with one more of the same kind. *)
Definition with_record (l : list DataRecord + list OptionsDataRecord) (c : content) : option (list DataRecord + list OptionsDataRecord) :=
  match l, c with
  | inl l, Data_record r => Some (inl (l ++ [r]))
  | inr l, Options_record r => Some (inr (l ++ [r]))
  | _, _ => None
  end.

(** [None]: the template ID is in use for another key. *)
Fixpoint appendIPFIXBatchRecord (sets : list batch_set) (r : batch_record) : option (list batch_set) :=
  match sets with
  | [] => Some [set_of r]
  | x :: rest =>
      match (if bsTemplateID x =? brTemplateID r then with_record (bsRecords x) (brContent r) else None) with
      | Some l =>
          if String.eqb (bsKey x) (brKey r)
          then Some ({| bsKey := bsKey x; bsTemplateID := bsTemplateID x; bsTemplate := bsTemplate x; bsRecords := l |} :: rest)
          else None
      | None => match appendIPFIXBatchRecord rest r with Some rest' => Some (x :: rest') | None => None end
      end
  end.

(** The templates of data sets, each ID once. *)
Fixpoint set_templates (seen : list Z) (sets : list batch_set) : list TemplateRecord :=
  match sets with
  | [] => []
  | x :: rest =>
      match bsRecords x, bsTemplate x with
      | inl _, Some t => if bool_decide (bsTemplateID x ∈ seen) then set_templates seen rest else t :: set_templates (bsTemplateID x :: seen) rest
      | _, _ => set_templates seen rest
      end
  end.

Definition flow_set {A} (id : Z) (l : A) : FlowSetOf A := {| Header := {| Id := id; fsLength := 0 |}; Records := l |}.

(** Fields without an enterprise number, and values without a length of their own. *)
Definition plain_field (type length : Z) : Field := {| PenProvided := false; NetflowTypes.Type_ := type; Length := length; Pen := 0 |}.
Definition plain_value (type : Z) (b : bytes) : DataField := {| dPenProvided := false; dType := type; dLength := 0; dPen := 0; dValue := VBytes b |}.

Definition data_set (x : batch_set) : flowset :=
  match bsRecords x with
  | inl l => FS_Data (Val (flow_set (bsTemplateID x) l))
  | inr l => FS_OptionsData (Val (flow_set (bsTemplateID x) l))
  end.

(** Templates first, in a set with the given ID. *)
Definition batch_flow_sets (templateSetID : Z) (sets : list batch_set) : list flowset :=
  match set_templates [] sets with [] => [] | l => [FS_Template (Val (flow_set templateSetID l))] end ++ map data_set sets.

(** ** Batches *)

Definition batchFlushTrigger (s : TflowEncoder) : string :=
  if len (events s) =? 0 then ""%string
  else if (0 <? MaxRecords (batch cfg)) && (MaxRecords (batch cfg) <=? len (events s)) then "max_records"%string
  else if (0 <? MaxBytes (batch cfg)) && (MaxBytes (batch cfg) <=? estimatedBytes s) then "max_bytes"%string
  else ""%string.

Definition shouldContinueDataFlush (trigger : string) (s : TflowEncoder) : bool :=
  if len (events s) =? 0 then false
  else if one_of trigger ["max_records"; "max_bytes"]%string then negb (String.eqb (batchFlushTrigger s) "") else true.

Section batch.
Variable P : Type.
(** A packet of the first events, with their number; and what the encoder takes of a packet. *)
Variable buildBatchedPacket : list Event -> ST TflowEncoder (P * nat).
Variable encode : P -> res bytes.
Variable flow_sets : P -> list flowset.
Variable estimatedEventRenderedSize : Event -> ST TflowEncoder Z.

Fixpoint estimatedEventsRenderedSize (l : list Event) : ST TflowEncoder Z :=
  match l with
  | [] => ret 0
  | e :: l =>
      let* size := fun s => match estimatedEventRenderedSize e s with (Err _, s') => (Ok 0, s') | r => r end in
      let* rest := estimatedEventsRenderedSize l in ret (size + rest)
  end.

Definition keep_pending (pending : list Event) : ST TflowEncoder unit :=
  let* size := estimatedEventsRenderedSize pending in fun s => (Ok tt, set_batch pending size s).

(** One packet of the loop: its bytes, the events behind it and the size it had. *)
Definition flush_packet (pending : list Event) : ST TflowEncoder (bytes * list Event * Z) :=
  let* (packet, accepted) := buildBatchedPacket pending in
  let* data := lift_res (encode packet) in
  ret (data, drop accepted pending, renderedFlowSetsDataSize (flow_sets packet)).

Definition take_off (rest : list Event) (size : Z) : ST TflowEncoder unit := fun s =>
  let bytes := estimatedBytes s - size in
  if bytes <? 0 then keep_pending rest (set_batch rest (estimatedBytes s) s) else (Ok tt, set_batch rest bytes s).

Fixpoint flush_loop (fuel : nat) (trigger : string) (pending : list Event) (payloads : list bytes) : ST TflowEncoder (list bytes * option error) := fun s =>
  match fuel with
  | O => (Hang, s)
  | S fuel =>
      match pending with
      | [] => (Ok (payloads, None), set_batch [] 0 s)
      | _ =>
          match flush_packet pending s with
          | (Ok (data, rest, size), s) =>
              (take_off rest size ;;;
               let* s := get in
               if shouldContinueDataFlush trigger s then flush_loop fuel trigger rest (payloads ++ [data]) else ret (payloads ++ [data], None)) s
          | (Err e, s) => (keep_pending pending ;;; ret (payloads, Some e)) s
          | (Panic w, s) => (Panic w, s)
          | (Hang, s) => (Hang, s)
          end
      end
  end.

Definition flushDataPackets (trigger : string) : ST TflowEncoder (list bytes * option error) := fun s =>
  match events s with [] => (Ok ([], None), s) | l => flush_loop (S (length l)) trigger l [] s end.

Definition appendEvent (e : Event) : ST TflowEncoder unit :=
  let* size := estimatedEventRenderedSize e in
  fun s => (Ok tt, set_batch (events s ++ [e]) (estimatedBytes s + size) s).

(** A returned error next to nothing. *)
Definition or_error {A} (zero : A) (m : ST TflowEncoder A) : ST TflowEncoder (A * option error) := fun s =>
  match m s with (Ok a, s) => (Ok (a, None), s) | (Err e, s) => (Ok (zero, Some e), s) | (Panic w, s) => (Panic w, s) | (Hang, s) => (Hang, s) end.

(** [Encode] of a data event in a batch. *)
Definition encode_batched (e : Event) : ST TflowEncoder (list bytes * option error) :=
  let* (_, err) := or_error tt (appendEvent e) in
  match err with
  | Some err => ret ([], Some err)
  | None =>
      let* s := get in
      let trigger := batchFlushTrigger s in
      if String.eqb trigger "" then ret ([], None) else flushDataPackets trigger
  end.

(** Data packets first, then those of [control]. *)
Definition flush_then (trigger : string) (control : ST TflowEncoder (list bytes)) : ST TflowEncoder (list bytes * option error) :=
  let* (payloads, err) := flushDataPackets trigger in
  match err with
  | Some err => ret (payloads, Some err)
  | None => let* (more, err) := or_error [] control in ret (payloads ++ more, err)
  end.
End batch.

(** ** Schemas *)

(** The first lines of [registerSchema]: the state of a data schema. *)
Definition schema_state (v9 : bool) (schema : AggregationSchema) : res templatedSchemaState :=
  rbind (buildSchemaState data_config schema v9) (fun state =>
    let base := or_number (baseTemplateID state) (TemplateBaseID (TemplatedFlow cfg)) in
    if (TemplateId (tsTemplate state) =? 0) || negb (base =? TemplateId (tsTemplate state))
    then buildSchemaStateWithBase data_config schema v9 base
    else Ok {| tsStream := tsStream state; fieldNames := fieldNames state; tsFields := tsFields state; baseTemplateID := base;
               tsTemplate := tsTemplate state |}).

Definition put_state (f : TflowEncoder -> TflowEncoder) : ST TflowEncoder unit := fun s => (Ok tt, f s).

(** [registerSchema]; a payload that is no schema does nothing. *)
Definition registerSchema (v9 : bool) (now : Z) (encodeOptionsSchemaTemplate : optionsSchemaState -> ST TflowEncoder (list bytes))
    (encodeSchemaTemplates : templatedSchemaState -> ST TflowEncoder (list bytes)) (e : Event) : ST TflowEncoder (list bytes) :=
  match Payload e with
  | PL_schema schema =>
      let stream := eventStream e (asStream schema) in
      if schemaIsOptions schema then
        let* state := lift_res (buildOptionsSchemaState data_config schema v9 (OptionsTemplateBaseID (TemplatedFlow cfg))) in
        put_state (fun s => set_schemas (dataSchemas s) (<[stream := state]> (optionsSchemas s)) s) ;;;
        let* payloads := encodeOptionsSchemaTemplate state in
        put_state (fun s => set_runs (lastTemplateRun s) now s) ;;;
        ret payloads
      else
        let* state := lift_res (schema_state v9 schema) in
        put_state (fun s => set_schemas (<[stream := state]> (dataSchemas s)) (optionsSchemas s) s) ;;;
        let* payloads := encodeSchemaTemplates state in
        put_state (fun s => set_runs now (lastOptionsRun s) s) ;;;
        ret payloads
  | _ => ret []
  end.

(** ** Sources *)

Definition sourceOptionsKey (state : sourceOptionsState) : string :=
  (soStream state +:+ "|" +:+ itoa (observationDomainID state) +:+ "|" +:+ itoa (sourceID state) +:+ "|" +:+ itoa (soTemplateID state))%string.

Definition sortedSourceOptions (m : gmap string sourceOptionsState) : list sourceOptionsState :=
  omap (fun key => m !! key) (sort_Strings (map fst (map_to_list m))).

(** [sourceOptionsFromEvent], with the template ID and the domain that the callers put in. *)
Definition sourceOptionsFromEvent (e : Event) : sourceOptionsState :=
  let stream := eventStream e "options_data" in
  let input := uint32Field (fields_of e) "input_if" in
  let output := uint32Field (fields_of e) "output_if" in
  let '(stream, input, output) :=
    match Payload e with
    | PL_source_init p => (or_string (siStream p) stream, or_number (siInputIf p) input, or_number (siOutputIf p) output)
    | _ => (stream, input, output)
    end in
  {| soStream := stream; agentIP := eventAgentIP e; sourceID := eventSourceID e; observationDomainID := ObservationDomainID (TemplatedFlow cfg);
     samplingRate := eventSamplingRate e; samplePool := eventSamplePool e; drops := eventDrops e; inputIf := input; outputIf := output;
     soTemplateID := OptionsTemplateBaseID (TemplatedFlow cfg) |}.

Definition store_source (e : Event) : ST TflowEncoder sourceOptionsState :=
  let state := sourceOptionsFromEvent e in
  put_state (fun s => set_sources (<[sourceOptionsKey state := state]> (sourceOptions s)) s) ;;; ret state.

(** ** Refreshing *)

(** [f] on the values of a map, in the order in which Go visits its keys. *)
Fixpoint each_of {A} (m : gmap string A) (f : A -> ST TflowEncoder (list bytes)) (order : list string) : ST TflowEncoder (list bytes) :=
  match order with
  | [] => ret []
  | key :: order =>
      match m !! key with
      | Some a => let* l := f a in let* rest := each_of m f order in ret (l ++ rest)
      | None => each_of m f order
      end
  end.

Definition refresh_due (ms now last : Z) : bool := (0 <? ms) && ((last =? zero_time) || (Millisecond ms <=? Sub now last)).

(** [flushControlPackets]; [data_order] and [options_order] are the orders of the schemas. *)
Definition flushControlPackets (now : Z) (encodeSchemaTemplates : templatedSchemaState -> ST TflowEncoder (list bytes))
    (encode_sources : gmap string sourceOptionsState -> ST TflowEncoder (list bytes))
    (encodeOptionsSchemaTemplate : optionsSchemaState -> ST TflowEncoder (list bytes)) (data_order options_order : list string)
    : ST TflowEncoder (list bytes) :=
  let* s := get in
  let* templates :=
    if refresh_due (TemplateRefresh (TemplatedFlow cfg)) now (lastTemplateRun s)
    then let* l := each_of (dataSchemas s) encodeSchemaTemplates data_order in put_state (fun s => set_runs now (lastOptionsRun s) s) ;;; ret l
    else ret [] in
  let* options :=
    if refresh_due (OptionsRefresh (TemplatedFlow cfg)) now (lastOptionsRun s)
    then let* l := encode_sources (sourceOptions s) in
         let* l' := each_of (optionsSchemas s) encodeOptionsSchemaTemplate options_order in
         put_state (fun s => set_runs (lastTemplateRun s) now s) ;;; ret (l ++ l')
    else ret [] in
  ret (templates ++ options).
End tflow.
