(* ===== verification/ReflowExportTflowProps.v ===== *)
(** * pkg/reflow/encode: properties of the state of the NetFlow v9 and IPFIX encoders

    What [Encode] and [Flush] keep: cached plans are those that the code would make again, and
    the templates of schemas are made from their fields.  The record of an event without a
    cache; what becomes of the events of a batch. *)
From S2P Require Import Prelude Text DecodersUtils NetflowTypes ReflowEvent ReflowDecode ReflowNormalize ReflowFields ReflowTemplated ReflowTemplatedProps ReflowTemplatedPlans ReflowExportTflow.

Section tflow.
Context `{GoLib} `{TemplatedLib}.
Variable cfg : EncoderConfig.
Variable v9 : bool.
Implicit Types (s : TflowEncoder) (e : Event).

(** ** The record of an event *)

Definition plans_ok s : Prop := forall key plan, fallbackPlans s !! key = Some plan ->
  exists m id, fallbackPlanKey (data_config cfg) m id v9 = Ok key /\ buildFallbackPlan (data_config cfg) m id v9 = Ok plan.

Definition names_clean : Prop := forall name, is_Some (Catalog (data_config cfg) !! name) -> clean name.

(** [event_record] without the cache. *)
Definition uncached_record (ds : gmap string templatedSchemaState) (os : gmap string optionsSchemaState) (ctx : templatedEncodingContext) e
    : res batch_record :=
  match ReflowEvent.Fields e with
  | None => Err (Errorf "event fields are empty" [])
  | Some _ =>
      let m := applyTemplatedFlowDataMatches (data_config cfg) (eventFieldsWithMetadata e) in
      let templateID := or_number (uint16Field m "template_id") 256 in
      let stream := eventStream e "flow_data" in
      match os !! stream with
      | Some schema =>
          rbind (buildOptionsDataRecordFromSchemaFields (data_config cfg) (schema_fields cfg e (optionsSchemaFields schema))
                   (osScopes schema) (osOptions schema) ctx) (fun r =>
            Ok {| brKey := ("options-schema:" +:+ stream +:+ ":" +:+ itoa (osTemplateID schema))%string; brTemplateID := osTemplateID schema;
                  brTemplate := None; brContent := Options_record r |})
      | None =>
          match ds !! stream with
          | Some schema =>
              rbind (buildTemplatedValuesFromSchemaFields (data_config cfg) (schema_fields cfg e (tsFields schema)) (tsFields schema) ctx) (fun r =>
                Ok {| brKey := ("schema:" +:+ stream +:+ ":" +:+ itoa (TemplateId (tsTemplate schema)))%string;
                      brTemplateID := TemplateId (tsTemplate schema); brTemplate := None; brContent := Data_record r |})
          | None =>
              rbind (fallbackPlanKey (data_config cfg) m templateID v9) (fun key =>
              rbind (planned (data_config cfg) v9 m templateID ctx) (fun '(plan, r) =>
                Ok {| brKey := key; brTemplateID := TemplateId (planTemplate plan); brTemplate := Some (planTemplate plan); brContent := Data_record r |}))
          end
      end
  end.

Lemma ends_uncached_record ds os ctx e : ends (uncached_record ds os ctx e).
Proof.
  unfold uncached_record. destruct (ReflowEvent.Fields e); [|done]. cbv zeta. destruct (os !! _).
  { apply ends_rbind; [apply ends_buildOptionsDataRecordFromSchemaFields|done]. }
  destruct (ds !! _); [apply ends_rbind; [apply ends_buildTemplatedValuesFromSchemaFields|done]|].
  apply ends_rbind; [apply ends_fallbackPlanKey|]. intros key. apply ends_rbind; [|by intros []].
  apply ends_rbind; [apply ends_buildFallbackPlan|]. intros plan. apply ends_rbind; [apply ends_buildFallbackValues|done].
Qed.

Lemma set_plans_id s : set_plans (fallbackPlans s) s = s.
Proof. by destruct s. Qed.

(** The cache may grow. *)
Definition cached s s' : Prop := plans_ok s' /\ s' = set_plans (fallbackPlans s') s.

Lemma cached_refl s : plans_ok s -> cached s s.
Proof. intros Hp. split; [done|]. by rewrite set_plans_id. Qed.
Lemma cached_trans s1 s2 s3 : cached s1 s2 -> cached s2 s3 -> cached s1 s3.
Proof. intros [_ E1] [Hp E2]. split; [done|]. rewrite E2 at 1. rewrite E1. done. Qed.

Lemma fallbackDataRecord_planned m id ctx s : names_clean -> ctxV9 ctx = v9 -> plans_ok s ->
  exists s', cached s s' /\ fallbackDataRecord cfg v9 m id ctx s =
    (rbind (fallbackPlanKey (data_config cfg) m id v9) (fun _ => planned (data_config cfg) v9 m id ctx), s').
Proof.
  intros Hc Hv Hp. unfold fallbackDataRecord, bind at 1, lift_res.
  destruct (fallbackPlanKey (data_config cfg) m id v9) as [key|err|w|] eqn:Ek; cbn [rbind]; try (exists s; split; [by apply cached_refl|done]).
  unfold bind at 1, get. destruct (fallbackPlans s !! key) as [plan|] eqn:El.
  - destruct (Hp key plan El) as (m' & id' & Ek' & Eb). exists s. split; [by apply cached_refl|].
    rewrite (plan_cached (data_config cfg) v9 Hc m m' id id' key plan ctx Hv Ek Ek' Eb). unfold bind, ret.
    by destruct (buildFallbackValues plan m ctx).
  - unfold planned. destruct (buildFallbackPlan (data_config cfg) m id v9) as [plan|err|w|] eqn:Eb; cbn [rbind];
      try (exists s; split; [by apply cached_refl|done]).
    exists (set_plans (<[key := plan]> (fallbackPlans s)) s). split.
    + split; [|done]. intros k p. cbn [fallbackPlans set_plans]. destruct (decide (key = k)) as [<-|Hk].
      * rewrite lookup_insert_eq. intros [= <-]. by exists m, id.
      * rewrite lookup_insert_ne by done. apply Hp.
    + unfold bind, put, ret. by destruct (buildFallbackValues plan m ctx).
Qed.

Lemma event_record_uncached ctx e s : names_clean -> ctxV9 ctx = v9 -> plans_ok s ->
  exists s', cached s s' /\ event_record cfg v9 ctx e s = (uncached_record (dataSchemas s) (optionsSchemas s) ctx e, s').
Proof.
  intros Hc Hv Hp. unfold event_record, uncached_record. destruct (ReflowEvent.Fields e); [|exists s; split; [by apply cached_refl|done]].
  cbv zeta. unfold bind at 1, get. destruct (optionsSchemas s !! _) as [schema|].
  { exists s. split; [by apply cached_refl|]. unfold bind, lift_res. by destruct (buildOptionsDataRecordFromSchemaFields _ _ _ _ _). }
  destruct (dataSchemas s !! _) as [schema|].
  { exists s. split; [by apply cached_refl|]. unfold bind, lift_res. by destruct (buildTemplatedValuesFromSchemaFields _ _ _ _). }
  set (m := applyTemplatedFlowDataMatches _ _). set (id := or_number _ _).
  destruct (fallbackDataRecord_planned m id ctx s Hc Hv Hp) as (s' & Hs & E). exists s'. split; [done|]. unfold bind at 1. rewrite E.
  destruct (fallbackPlanKey (data_config cfg) m id v9) as [key| | |] eqn:Ek; cbn [rbind]; try done.
  destruct (planned _ v9 m id ctx) as [[plan r]| | |]; cbn [rbind]; try done; unfold bind, lift_res; by rewrite Ek.
Qed.

Lemma wp_event_record ctx e s : names_clean -> ctxV9 ctx = v9 -> plans_ok s ->
  wp (event_record cfg v9 ctx e) (fun r s' => cached s s' /\ uncached_record (dataSchemas s) (optionsSchemas s) ctx e = Ok r)
    (fun _ s' => cached s s') s.
Proof.
  intros Hc Hv Hp. destruct (event_record_uncached ctx e s Hc Hv Hp) as (s' & Hs & E). unfold wp. rewrite E.
  pose proof (ends_uncached_record (dataSchemas s) (optionsSchemas s) ctx e) as He. by destruct (uncached_record _ _ ctx e).
Qed.

(** ** Sets of a batch *)

(** The sets behind [sets], with more records. *)
Inductive appends : list batch_set -> list batch_record -> list batch_set -> Prop :=
  | appends_done sets : appends sets [] sets
  | appends_record sets r sets1 rs sets' : appendIPFIXBatchRecord sets r = Some sets1 -> appends sets1 rs sets' -> appends sets (r :: rs) sets'.

Definition set_size (x : batch_set) : nat := match bsRecords x with inl l => length l | inr l => length l end.
Definition sets_size (sets : list batch_set) : nat := list_sum (map set_size sets).

Lemma sets_size_cons x sets : sets_size (x :: sets) = (set_size x + sets_size sets)%nat.
Proof. done. Qed.

Lemma appendIPFIXBatchRecord_size sets r sets' : appendIPFIXBatchRecord sets r = Some sets' -> sets_size sets' = S (sets_size sets).
Proof.
  revert sets'. induction sets as [|x sets IH]; intros sets'; cbn [appendIPFIXBatchRecord].
  - intros [= <-]. cbn. unfold set_size, set_of. cbn. by destruct (brContent r).
  - assert (Hskip : match appendIPFIXBatchRecord sets r with Some rest' => Some (x :: rest') | None => None end = Some sets' ->
                    sets_size sets' = S (sets_size (x :: sets))).
    { destruct (appendIPFIXBatchRecord sets r) as [rest|]; [|done]. intros [= <-]. specialize (IH rest eq_refl). rewrite !sets_size_cons. lia. }
    destruct (bsTemplateID x =? brTemplateID r); [|done]. destruct (with_record (bsRecords x) (brContent r)) as [l|] eqn:E; [|done].
    destruct (String.eqb _ _); [|done]. intros [= <-]. rewrite !sets_size_cons. unfold set_size. cbn [bsRecords]. revert E. unfold with_record.
    destruct (bsRecords x), (brContent r); try done; intros [= <-]; rewrite length_app; cbn [length]; lia.
Qed.

Lemma appends_size sets rs sets' : appends sets rs sets' -> sets_size sets' = (sets_size sets + length rs)%nat.
Proof. induction 1 as [|sets r sets1 rs sets' Ha _ IH]; [by rewrite Nat.add_0_r|]. apply appendIPFIXBatchRecord_size in Ha. cbn. lia. Qed.

Lemma set_of_size r : sets_size [set_of r] = 1%nat.
Proof. unfold sets_size, set_size, set_of. cbn. by destruct (brContent r). Qed.

Lemma batch_flow_sets_present id sets : Forall (fun fs => match fs with FS_Data b => is_Some (unbox b) | FS_OptionsData b => is_Some (unbox b) | _ => True end)
  (batch_flow_sets id sets).
Proof.
  unfold batch_flow_sets. apply Forall_app. split; [destruct (set_templates [] sets); by repeat constructor|].
  apply Forall_map, Forall_forall. intros x _. unfold data_set. destruct (bsRecords x); by eexists.
Qed.

(** ** What a flush does with its events *)

Section batch.
Variable P : Type.
Variable buildBatchedPacket : list Event -> ST TflowEncoder (P * nat).
Variable encode : P -> res bytes.
Variable flow_sets : P -> list flowset.
Variable estimate : Event -> ST TflowEncoder Z.
(** The invariant of the encoder, which does not look at its batch; and what a packet of some
    events is, with the sequence number before and behind it. *)
Variable I : TflowEncoder -> Prop.
Variable sent : Z -> list Event -> P -> Z -> Prop.

(** Events that went into packets, in their order. *)
Inductive flushed : Z -> list Event -> list bytes -> Z -> Prop :=
  | flushed_done n : flushed n [] [] n
  | flushed_packet n g p data n1 l ds n2 :
      g <> [] -> sent n g p n1 -> encode p = Ok data -> flushed n1 l ds n2 -> flushed n (g ++ l) (data :: ds) n2.

Hypothesis I_batch : forall s l size, I s -> I (set_batch l size s).
Hypothesis build_spec : forall l s, l <> [] -> I s ->
  wp (buildBatchedPacket l) (fun '(p, n) s' => I s' /\ (1 <= n <= length l)%nat /\ sent (seq s) (take n l) p (seq s') /\ ends (encode p)) (fun _ s' => I s') s.
Hypothesis estimate_spec : forall e s, I s -> wp (estimate e) (fun _ s' => I s' /\ seq s' = seq s) (fun _ s' => I s' /\ seq s' = seq s) s.

Lemma wp_estimates l s : I s -> wp (estimatedEventsRenderedSize estimate l) (fun _ s' => I s' /\ seq s' = seq s) (fun _ _ => False) s.
Proof using estimate_spec.
  revert s. induction l as [|e l IH]; intros s Hs; [done|]. cbn [estimatedEventsRenderedSize]. apply wp_bind.
  eapply (wp_mono _ (fun _ s' => I s' /\ seq s' = seq s) _ (fun _ _ => False)); [|intros size s1 [Hs1 E1]|done].
  - pose proof (estimate_spec e s Hs) as He. unfold wp in *. by destruct (estimate e s) as [[]].
  - apply wp_bind. eapply wp_mono; [by apply IH| |done]. intros rest s2 [Hs2 E2]. split; [done|by rewrite E2].
Qed.

Lemma wp_keep_pending l s : I s -> wp (keep_pending estimate l) (fun _ s' => I s' /\ seq s' = seq s /\ events s' = l) (fun _ _ => False) s.
Proof using I_batch estimate_spec.
  intros Hs. apply wp_bind. eapply wp_mono; [by apply wp_estimates| |done]. intros size s1 [Hs1 E1]. unfold wp. splits; [by apply I_batch|done|done].
Qed.

Lemma wp_take_off l size s : I s -> wp (take_off estimate l size) (fun _ s' => I s' /\ seq s' = seq s /\ events s' = l) (fun _ _ => False) s.
Proof using I_batch estimate_spec.
  intros Hs. unfold take_off, wp. cbv zeta. destruct (_ <? 0); [|by splits; [apply I_batch|..]].
  pose proof (wp_keep_pending l (set_batch l (estimatedBytes s) s) (I_batch _ _ _ Hs)) as Hk. unfold wp in Hk.
  by destruct (keep_pending _ _ _) as [[] ?].
Qed.

Lemma wp_flush_packet pending s : pending <> [] -> I s ->
  wp (flush_packet P buildBatchedPacket encode flow_sets pending)
    (fun '(data, rest, _) s' => I s' /\ exists g p, g <> [] /\ pending = g ++ rest /\ sent (seq s) g p (seq s') /\ encode p = Ok data)
    (fun _ s' => I s') s.
Proof using build_spec.
  intros Hne Hs. apply wp_bind. eapply wp_mono; [by apply build_spec| |done]. intros [p n] s1 (Hs1 & Hn & Hsent & Hends). apply wp_bind.
  unfold wp, lift_res. destruct (encode p) as [data|err|w|] eqn:Ed; try done. cbn. split; [done|]. exists (take n pending), p. splits; try done.
  - destruct pending; [done|]. destruct n; [lia|done].
  - by rewrite take_drop.
Qed.

(** The triggers by which a flush may stop before the batch is empty. *)
Definition by_size (trigger : string) : bool := one_of trigger ["max_records"; "max_bytes"]%string.

Lemma flush_loop_accounts fuel trigger pending payloads s : (length pending < fuel)%nat -> I s ->
  wp (flush_loop cfg P buildBatchedPacket encode flow_sets estimate fuel trigger pending payloads)
    (fun '(out, err) s' => I s' /\ exists l ds n, pending = l ++ events s' /\ out = payloads ++ ds /\ flushed (seq s) l ds n /\
       match err with None => seq s' = n /\ (by_size trigger = false -> events s' = []) | Some _ => True end)
    (fun _ _ => False) s.
Proof using I_batch build_spec estimate_spec.
  revert pending payloads s. induction fuel as [|fuel IH]; intros pending payloads s Hf Hs; [lia|]. unfold wp at 1. cbn [flush_loop].
  destruct pending as [|e pending].
  { cbn. split; [by apply I_batch|]. exists [], [], (seq s). splits; [done|by rewrite app_nil_r|constructor|done|done]. }
  pose proof (wp_flush_packet (e :: pending) s ltac:(done) Hs) as Hp. unfold wp in Hp.
  destruct (flush_packet _ _ _ _ _ s) as [[[[data rest] size]|err|w|] s1]; try done.
  - destruct Hp as (Hs1 & g & p & Hne & Hg & Hsent & Ed). pose proof (wp_take_off rest size s1 Hs1) as Ht. unfold wp in Ht.
    unfold bind at 1. destruct (take_off _ _ _ s1) as [[[]|err|w|] s2]; try done. destruct Ht as (Hs2 & Eseq & Eev). unfold bind at 1, get.
    destruct (shouldContinueDataFlush cfg trigger s2) eqn:Ec.
    + assert (Hlen : (length rest < fuel)%nat).
      { apply (f_equal length) in Hg. rewrite length_app in Hg. destruct g; [done|]. cbn in Hg, Hf. lia. }
      specialize (IH rest (payloads ++ [data]) s2 Hlen Hs2). unfold wp in IH.
      destruct (flush_loop _ _ _ _ _ _ _ _ _ _ s2) as [[[out err]|err|w|] s3]; try done.
      destruct IH as (Hs3 & l & ds & n & -> & -> & Hfl & Herr). split; [done|]. exists (g ++ l), (data :: ds), n. splits; try done.
      * by rewrite Hg, app_assoc.
      * by rewrite <- app_assoc.
      * eapply flushed_packet; [done|exact Hsent|done|]. by rewrite <- Eseq.
    + cbn. split; [done|]. exists g, [data], (seq s2). splits; try done; [by rewrite Eev| |].
      * rewrite <- (app_nil_r g). eapply flushed_packet; [done|exact Hsent|done|]. rewrite Eseq. constructor.
      * intros Hby. revert Ec. unfold shouldContinueDataFlush. change (by_size trigger = false) in Hby. change (one_of trigger _) with (by_size trigger). rewrite Hby.
        destruct (Z.eqb_spec (len (events s2)) 0) as [E0|]; [|done]. intros _. destruct (events s2); [done|]. rewrite len_cons in E0. pose proof (len_nonneg l). lia.
  - pose proof (wp_keep_pending (e :: pending) s1 Hp) as Hk. unfold wp in Hk. unfold bind at 1.
    destruct (keep_pending _ _ s1) as [[[]|err'|w|] s2]; try done. destruct Hk as (Hs2 & _ & Eev). cbn. split; [done|].
    exists [], [], (seq s). splits; [by rewrite Eev|by rewrite app_nil_r|constructor|done].
Qed.

Lemma flushDataPackets_accounts trigger s : I s ->
  wp (flushDataPackets cfg P buildBatchedPacket encode flow_sets estimate trigger)
    (fun '(out, err) s' => I s' /\ exists l n, events s = l ++ events s' /\ flushed (seq s) l out n /\
       match err with None => seq s' = n /\ (by_size trigger = false -> events s' = []) | Some _ => True end)
    (fun _ _ => False) s.
Proof using I_batch build_spec estimate_spec.
  intros Hs. unfold wp at 1, flushDataPackets. destruct (events s) as [|e l] eqn:Ee.
  { split; [done|]. exists [], (seq s). rewrite Ee. splits; [done|constructor|done..]. }
  pose proof (flush_loop_accounts (S (length (e :: l))) trigger (e :: l) [] s ltac:(lia) Hs) as Hl. unfold wp in Hl.
  destruct (flush_loop _ _ _ _ _ _ _ _ _ _ s) as [[[out err]|err|w|] s']; try done.
  destruct Hl as (Hs' & l' & ds & n & El & -> & Hfl & Herr). split; [done|]. by exists l', n.
Qed.
End batch.

(** ** What every call keeps *)

(** The operation ends and keeps [I], with an error too. *)
Definition keeps {A} (I : TflowEncoder -> Prop) (m : ST TflowEncoder A) : Prop := forall s, I s -> wp m (fun _ s' => I s') (fun _ s' => I s') s.

Lemma keeps_ret {A} I (a : A) : keeps I (ret a).
Proof. by intros s Hs. Qed.
Lemma keeps_fail {A} I err : keeps I (@fail _ A err).
Proof. by intros s Hs. Qed.
Lemma keeps_get I : keeps I get.
Proof. by intros s Hs. Qed.
Lemma keeps_lift_res {A} I (r : res A) : ends r -> keeps I (lift_res r).
Proof. intros Hr s Hs. by destruct r. Qed.
Lemma keeps_put_state (I : TflowEncoder -> Prop) f : (forall s, I s -> I (f s)) -> keeps I (put_state f).
Proof. intros Hf s Hs. by apply Hf. Qed.
Lemma keeps_add_seq (I : TflowEncoder -> Prop) n : (forall s s', I s -> s' = (add_seq n s).2 -> I s') -> keeps I (add_seq n).
Proof. intros Hf s Hs. by apply (Hf s). Qed.
Lemma keeps_bind {A B} I (m : ST TflowEncoder A) (k : A -> ST TflowEncoder B) : keeps I m -> (forall a, keeps I (k a)) -> keeps I (bind m k).
Proof. intros Hm Hk s Hs. apply wp_bind. eapply wp_mono; [by apply Hm| |done]. intros a s'. apply Hk. Qed.
Lemma keeps_or_error {A} I (zero : A) m : keeps I m -> keeps I (or_error zero m).
Proof. intros Hm s Hs. specialize (Hm s Hs). unfold wp, or_error in *. by destruct (m s) as [[]]. Qed.
Lemma keeps_each_of {A} I (m : gmap string A) f order : (forall a, keeps I (f a)) -> keeps I (each_of m f order).
Proof.
  intros Hf. induction order as [|key order IH]; [apply keeps_ret|]. cbn [each_of]. destruct (m !! key); [|done].
  apply keeps_bind; [done|]. intros l. apply keeps_bind; [done|]. intros rest. apply keeps_ret.
Qed.

(** The templates of schemas have the fields of the schemas. *)
Definition schemas_ok s : Prop := forall stream schema, dataSchemas s !! stream = Some schema ->
  exists base, buildTemplateRecordFromSchemaFields (data_config cfg) (tsFields schema) base v9 = Ok (tsTemplate schema).
Definition options_ok s : Prop := forall stream schema, optionsSchemas s !! stream = Some schema ->
  exists id, match osTemplate schema with
             | inl r => v9 = false /\ buildIPFIXOptionsTemplateRecordFromSchemaFields (data_config cfg) (osScopes schema) (osOptions schema) id = Ok r
             | inr r => v9 = true /\ buildNFv9OptionsTemplateRecordFromSchemaFields (data_config cfg) (osScopes schema) (osOptions schema) id = Ok r
             end.
Definition good s : Prop := plans_ok s /\ schemas_ok s /\ options_ok s.

Lemma good_new : good NewTflowEncoder.
Proof. split; [|split]; intros k p; cbn; by rewrite lookup_empty. Qed.

(** Plans, with these schemas. *)
Definition with_schemas (d : gmap string templatedSchemaState) (o : gmap string optionsSchemaState) s : Prop :=
  plans_ok s /\ dataSchemas s = d /\ optionsSchemas s = o.

Lemma with_schemas_good s s' : good s -> with_schemas (dataSchemas s) (optionsSchemas s) s' -> good s'.
Proof. intros (Hp & Hd & Ho) (Hp' & Ed & Eo). split; [done|]. unfold schemas_ok, options_ok. by rewrite Ed, Eo. Qed.

Lemma good_with_schemas s : good s -> with_schemas (dataSchemas s) (optionsSchemas s) s.
Proof. by intros [Hp _]. Qed.

Lemma cached_with_schemas d o s s' : with_schemas d o s -> cached s s' -> with_schemas d o s' /\ seq s' = seq s.
Proof. intros (_ & Ed & Eo) (Hp & E). split; [split; [done|]|]; by rewrite E. Qed.

Lemma keeps_good {A} (m : ST TflowEncoder A) : (forall d o, keeps (with_schemas d o) m) -> keeps good m.
Proof.
  intros Hm s Hs. eapply wp_mono; [apply (Hm _ _ s (good_with_schemas s Hs))|..]; intros; by eapply with_schemas_good.
Qed.

Lemma wp_record_with_schemas ctx e d o s : names_clean -> ctxV9 ctx = v9 -> with_schemas d o s ->
  wp (event_record cfg v9 ctx e) (fun r s' => with_schemas d o s' /\ seq s' = seq s /\ uncached_record d o ctx e = Ok r)
    (fun _ s' => with_schemas d o s' /\ seq s' = seq s) s.
Proof.
  intros Hc Hv Hs. eapply wp_mono; [apply wp_event_record; [done..|apply Hs]| |].
  - intros r s' [Hcd Hr]. destruct (cached_with_schemas d o s s' Hs Hcd). destruct Hs as (_ & <- & <-). done.
  - intros err s' Hcd. by apply (cached_with_schemas d o s).
Qed.

Lemma schema_state_Ok schema state : schema_state cfg v9 schema = Ok state ->
  exists base, buildTemplateRecordFromSchemaFields (data_config cfg) (tsFields state) base v9 = Ok (tsTemplate state).
Proof.
  assert (Hb : forall base st, buildSchemaStateWithBase (data_config cfg) schema v9 base = Ok st ->
             exists base, buildTemplateRecordFromSchemaFields (data_config cfg) (tsFields st) base v9 = Ok (tsTemplate st)).
  { intros base st Hs. apply rbind_Ok in Hs as (t & Et & Hs). injection Hs as <-. by eexists. }
  intros Hs. apply rbind_Ok in Hs as (st & Est & Hs). cbv zeta in Hs. destruct (_ || _); [by eapply Hb|].
  injection Hs as <-. cbn [tsFields tsTemplate]. by apply (Hb _ _ Est).
Qed.

Lemma buildOptionsSchemaState_Ok schema id state : buildOptionsSchemaState (data_config cfg) schema v9 id = Ok state ->
  exists id, match osTemplate state with
             | inl r => v9 = false /\ buildIPFIXOptionsTemplateRecordFromSchemaFields (data_config cfg) (osScopes state) (osOptions state) id = Ok r
             | inr r => v9 = true /\ buildNFv9OptionsTemplateRecordFromSchemaFields (data_config cfg) (osScopes state) (osOptions state) id = Ok r
             end.
Proof.
  unfold buildOptionsSchemaState. cbv zeta. destruct (_ =? 0); [done|]. destruct (_ =? 0); [done|]. intros Hs.
  apply rbind_Ok in Hs as (t & Et & Hs). injection Hs as <-. cbn [osTemplate osScopes osOptions].
  destruct v9; apply rbind_Ok in Et as (r & Er & Et); injection Et as <-; by eexists.
Qed.

Lemma ends_schema_state schema : ends (schema_state cfg v9 schema).
Proof.
  apply ends_rbind; [apply ends_buildSchemaStateWithBase|]. intros st. cbv zeta. destruct (_ || _); [apply ends_buildSchemaStateWithBase|done].
Qed.

Lemma keeps_registerSchema now encode_options encode_schema e :
  (forall state, keeps good (encode_options state)) -> (forall state, keeps good (encode_schema state)) ->
  keeps good (registerSchema cfg v9 now encode_options encode_schema e).
Proof.
  intros Ho Hd s Hs. unfold registerSchema. destruct (Payload e) as [| |schema| | | | | |]; try (by apply (keeps_ret good)).
  cbv zeta. destruct (schemaIsOptions schema); apply wp_bind; unfold wp at 1, lift_res.
  - pose proof (ends_buildOptionsSchemaState (data_config cfg) schema v9 (OptionsTemplateBaseID (TemplatedFlow cfg))) as He.
    destruct (buildOptionsSchemaState _ _ _ _) as [state|err| |] eqn:E; try done. apply buildOptionsSchemaState_Ok in E. apply wp_bind.
    apply (keeps_bind good _ _ (Ho state)).
    + intros l. apply keeps_bind; [by apply keeps_put_state|]. intros _. apply keeps_ret.
    + destruct Hs as (Hp & Hsd & Hso). split; [done|]. split; [done|]. intros stream st. cbn [optionsSchemas set_schemas].
      destruct (decide (eventStream e (asStream schema) = stream)) as [<-|Hn]; [rewrite lookup_insert_eq; by intros [= <-]|].
      rewrite lookup_insert_ne by done. apply Hso.
  - pose proof (ends_schema_state schema) as He.
    destruct (schema_state _ _ _) as [state|err| |] eqn:E; try done. apply schema_state_Ok in E. apply wp_bind.
    apply (keeps_bind good _ _ (Hd state)).
    + intros l. apply keeps_bind; [by apply keeps_put_state|]. intros _. apply keeps_ret.
    + destruct Hs as (Hp & Hsd & Hso). split; [done|]. split; [|done]. intros stream st. cbn [dataSchemas set_schemas].
      destruct (decide (eventStream e (asStream schema) = stream)) as [<-|Hn]; [rewrite lookup_insert_eq; by intros [= <-]|].
      rewrite lookup_insert_ne by done. apply Hsd.
Qed.

Lemma keeps_store_source e : keeps good (store_source cfg e).
Proof. apply keeps_bind; [by apply keeps_put_state|]. intros _. apply keeps_ret. Qed.

Lemma keeps_flushControlPackets now encode_schema encode_sources encode_options order order' :
  (forall state, keeps good (encode_schema state)) -> (forall m, keeps good (encode_sources m)) -> (forall state, keeps good (encode_options state)) ->
  keeps good (flushControlPackets cfg now encode_schema encode_sources encode_options order order').
Proof.
  intros Hd Hso Ho. apply keeps_bind; [apply keeps_get|]. intros s. apply keeps_bind.
  { destruct (refresh_due _ _ _); [|apply keeps_ret]. apply keeps_bind; [by apply keeps_each_of|]. intros l.
    apply keeps_bind; [by apply keeps_put_state|]. intros _. apply keeps_ret. }
  intros l. apply keeps_bind; [|intros; apply keeps_ret].
  destruct (refresh_due _ _ _); [|apply keeps_ret]. apply keeps_bind; [done|]. intros l1. apply keeps_bind; [by apply keeps_each_of|]. intros l2.
  apply keeps_bind; [by apply keeps_put_state|]. intros _. apply keeps_ret.
Qed.

(** ** Calls on data events *)

Section calls.
Variable P : Type.
Variable buildBatchedPacket : list Event -> ST TflowEncoder (P * nat).
Variable encode : P -> res bytes.
Variable flow_sets : P -> list flowset.
Variable estimate : Event -> ST TflowEncoder Z.
Variable sent : gmap string templatedSchemaState -> gmap string optionsSchemaState -> Z -> list Event -> P -> Z -> Prop.
Hypothesis build_spec : forall d o l s, l <> [] -> with_schemas d o s ->
  wp (buildBatchedPacket l) (fun '(p, n) s' => with_schemas d o s' /\ (1 <= n <= length l)%nat /\ sent d o (seq s) (take n l) p (seq s') /\ ends (encode p))
    (fun _ s' => with_schemas d o s') s.
Hypothesis estimate_spec : forall d o e s, with_schemas d o s ->
  wp (estimate e) (fun _ s' => with_schemas d o s' /\ seq s' = seq s) (fun _ s' => with_schemas d o s' /\ seq s' = seq s) s.

Lemma flush_accounts trigger s : good s ->
  wp (flushDataPackets cfg P buildBatchedPacket encode flow_sets estimate trigger)
    (fun '(out, err) s' => with_schemas (dataSchemas s) (optionsSchemas s) s' /\ exists l n, events s = l ++ events s' /\
       flushed P encode (sent (dataSchemas s) (optionsSchemas s)) (seq s) l out n /\
       match err with None => seq s' = n /\ (by_size trigger = false -> events s' = []) | Some _ => True end)
    (fun _ _ => False) s.
Proof using build_spec estimate_spec.
  intros Hs. apply flushDataPackets_accounts; [done|apply build_spec|apply estimate_spec|by apply good_with_schemas].
Qed.

Lemma keeps_flushDataPackets trigger : keeps good (flushDataPackets cfg P buildBatchedPacket encode flow_sets estimate trigger).
Proof using build_spec estimate_spec.
  intros s Hs. eapply wp_mono; [by apply flush_accounts| |done]. intros [out err] s' [Hw _]. by eapply with_schemas_good.
Qed.

Lemma keeps_encode_batched e : keeps good (encode_batched cfg P buildBatchedPacket encode flow_sets estimate e).
Proof using build_spec estimate_spec.
  apply keeps_bind.
  - apply keeps_or_error, keeps_bind; [|by intros size s Hs].
    apply keeps_good. intros d o s Hs. eapply wp_mono; [by apply (estimate_spec d o)|..]; by intros ? ? [].
  - intros [[] [err|]]; [apply keeps_ret|]. apply keeps_bind; [apply keeps_get|]. intros s. cbv zeta.
    destruct (String.eqb _ _); [apply keeps_ret|apply keeps_flushDataPackets].
Qed.

Lemma keeps_flush_then trigger control : keeps good control ->
  keeps good (flush_then cfg P buildBatchedPacket encode flow_sets estimate trigger control).
Proof using build_spec estimate_spec.
  intros Hc. apply keeps_bind; [apply keeps_flushDataPackets|]. intros [payloads [err|]]; [apply keeps_ret|].
  apply keeps_bind; [by apply keeps_or_error|]. intros [more err]. apply keeps_ret.
Qed.
End calls.
End tflow.
