(* ===== verification/ReflowExportIpfix.v ===== *)
(** * pkg/reflow/encode: the IPFIX encoder

    [IPFIXEncoder] of [tflow.go], on the state of ReflowExportTflow.  The clock is read once
    per call.  The events of a [source_init_batch], which are its payload, are an argument. *)
From S2P Require Import Prelude Text DecodersUtils NetflowTypes NetflowEncode ReflowEvent Aggregate ReflowDecode ReflowNormalize ReflowFields ReflowTemplated ReflowExportTflow.

Section ipfix.
Context `{GoLib} `{TemplatedLib}.
Variable cfg : EncoderConfig.
(** The clock. *)
Variable now : Z.

(** ** Packets *)

Definition Unix (t : Z) : Z := t / 1000000000.
Definition exportTime (e : Event) : Z := to_uint 32 (Unix (if ReceivedAt e =? zero_time then now else ReceivedAt e)).
Definition exporter_domain : Z := ObservationDomainID (TemplatedFlow cfg).

Definition ipfixSequenceIncrement (flowSets : list flowset) : Z :=
  to_uint 32 (total (fun fs => match fs with
                               | FS_Data b => match unbox b with Some f => len (Records f) | None => 0 end
                               | FS_OptionsData b => match unbox b with Some f => len (Records f) | None => 0 end
                               | _ => 0
                               end) flowSets).

(** A packet with the current sequence number. *)
Definition ipfix_packet (time : Z) (flowSets : list flowset) : ST TflowEncoder IPFIXPacket := fun s =>
  (Ok {| ipfixVersion := 10; ipfixLength := 0; ExportTime := time; ipfixSequenceNumber := seq s; ObservationDomainId := exporter_domain;
         ipfixFlowSets := flowSets |}, s).
Definition advanceIPFIXSequence (p : IPFIXPacket) : ST TflowEncoder unit := add_seq (ipfixSequenceIncrement (ipfixFlowSets p)).

Definition encode_ipfix (what : string) (p : IPFIXPacket) : res bytes :=
  match EncodeMessage (P_IPFIX (Val p)) with Err e => Err (Wrap what [] e) | r => r end.

(** ** Single events *)

Definition ipfix_flow_sets (e : Event) : ST TflowEncoder (list flowset) :=
  match Payload e with
  | PL_template r => ret [FS_Template (Val (flow_set 2 [r]))]
  | PL_ipfix_options_template r => ret [FS_IPFIXOptionsTemplate (Val (flow_set 3 [r]))]
  | _ => let* r := event_record cfg false ipfix_context e in ret (batch_flow_sets 2 [set_of r])
  end.

Definition buildPacket (e : Event) : ST TflowEncoder IPFIXPacket :=
  match ReflowEvent.Fields e with
  | None => fail (Errorf "event fields are empty" [])
  | Some _ =>
      let* fs := ipfix_flow_sets e in
      let* packet := ipfix_packet (exportTime e) fs in
      advanceIPFIXSequence packet ;;; ret packet
  end.

(** ** Batches *)

(** The loop of [buildBatchedPacket]: the sets behind [sets] and the number of events they take.
    Every record has the observation domain of the encoder. *)
Fixpoint ipfix_sets (time : Z) (sets : list batch_set) (l : list Event) : ST TflowEncoder (list batch_set * nat) :=
  match l with
  | [] => ret (sets, 0%nat)
  | e :: l =>
      let* next := event_record cfg false ipfix_context e in
      match appendIPFIXBatchRecord sets next with
      | None => ret (sets, 0%nat)
      | Some nextSets =>
          let* packet := ipfix_packet time (batch_flow_sets 2 nextSets) in
          let* fit := if 0 <? MaxDatagramBytes cfg
                      then let* data := lift_res (encode_ipfix "encode ipfix packet" packet) in ret (len data <=? MaxDatagramBytes cfg)
                      else ret true in
          if fit then let* (sets, n) := ipfix_sets time nextSets l in ret (sets, S n) else ret (sets, 0%nat)
      end
  end.

Definition buildBatchedPacket (l : list Event) : ST TflowEncoder (IPFIXPacket * nat) :=
  match l with
  | [] => fail (Errorf "empty ipfix packet batch" [])
  | first :: rest =>
      let* r := event_record cfg false ipfix_context first in
      let* (sets, n) := ipfix_sets (exportTime first) [set_of r] rest in
      let* packet := ipfix_packet (exportTime first) (batch_flow_sets 2 sets) in
      advanceIPFIXSequence packet ;;; ret (packet, S n)
  end.

Definition estimatedEventRenderedSize (e : Event) : ST TflowEncoder Z :=
  let* r := event_record cfg false ipfix_context e in ret (record_size r).

Definition flushDataPackets : string -> ST TflowEncoder (list bytes * option error) :=
  ReflowExportTflow.flushDataPackets cfg IPFIXPacket buildBatchedPacket (encode_ipfix "encode ipfix packet") ipfixFlowSets estimatedEventRenderedSize.

(** ** Templates, schemas and sources *)

(** A packet with these sets, sent. *)
Definition send (what : string) (domain : Z) (flowSets : list flowset) : ST TflowEncoder bytes := fun s =>
  let packet := {| ipfixVersion := 10; ipfixLength := 0; ExportTime := to_uint 32 (Unix now); ipfixSequenceNumber := seq s;
                   ObservationDomainId := domain; ipfixFlowSets := flowSets |} in
  (let* data := lift_res (encode_ipfix what packet) in advanceIPFIXSequence packet ;;; ret data) s.

Fixpoint send_templates (l : list TemplateRecord) : ST TflowEncoder (list bytes) :=
  match l with
  | [] => ret []
  | t :: l =>
      let* data := send "encode ipfix schema template" exporter_domain [FS_Template (Val (flow_set 2 [t]))] in
      let* rest := send_templates l in ret (data :: rest)
  end.
Definition encodeSchemaTemplates (state : templatedSchemaState) : ST TflowEncoder (list bytes) := send_templates (templates state).

(** A state of the other protocol has a zero record here. *)
Definition ipfix_options_template (state : optionsSchemaState) : IPFIXOptionsTemplateRecord :=
  match osTemplate state with
  | inl r => r
  | inr _ => {| ipfixTemplateId := 0; ipfixFieldCount := 0; ScopeFieldCount := 0; ipfixOptions := []; ipfixScopes := [] |}
  end.
Definition encodeOptionsSchemaTemplate (state : optionsSchemaState) : ST TflowEncoder (list bytes) :=
  let* data := send "encode ipfix options schema template" exporter_domain [FS_IPFIXOptionsTemplate (Val (flow_set 3 [ipfix_options_template state]))] in
  ret [data].

(** The states with the same domain and template ID, in the order of the first of them. *)
Fixpoint group_add (groups : list (list sourceOptionsState)) (state : sourceOptionsState) : list (list sourceOptionsState) :=
  match groups with
  | [] => [[state]]
  | g :: rest =>
      match g with
      | x :: _ => if (observationDomainID x =? observationDomainID state) && (soTemplateID x =? soTemplateID state)
                  then (g ++ [state]) :: rest else g :: group_add rest state
      | [] => g :: group_add rest state
      end
  end.
Definition groupedIPFIXSourceOptions (states : list sourceOptionsState) : list (list sourceOptionsState) := fold_left group_add states [].

Definition source_options_template (first : sourceOptionsState) : IPFIXOptionsTemplateRecord :=
  {| ipfixTemplateId := soTemplateID first; ipfixFieldCount := 2; ScopeFieldCount := 1;
     ipfixOptions := [plain_field IPFIX_FIELD_samplingInterval 4]; ipfixScopes := [plain_field IPFIX_FIELD_observationPointId 8] |}.
Definition source_options_record (state : sourceOptionsState) : OptionsDataRecord :=
  {| ScopesValues := [plain_value IPFIX_FIELD_observationPointId (encodeU64 (sourceID state))];
     OptionsValues := [plain_value IPFIX_FIELD_samplingInterval (encodeU32 (samplingRate state))] |}.

Definition encodeSourceOptionsGroup (states : list sourceOptionsState) : ST TflowEncoder bytes :=
  match states with
  | [] => ret []
  | first :: _ =>
      send "encode ipfix source options" (observationDomainID first)
        [FS_IPFIXOptionsTemplate (Val (flow_set 3 [source_options_template first]));
         FS_OptionsData (Val (flow_set (soTemplateID first) (map source_options_record states)))]
  end.

Fixpoint send_groups (groups : list (list sourceOptionsState)) : ST TflowEncoder (list bytes) :=
  match groups with
  | [] => ret []
  | g :: groups => let* data := encodeSourceOptionsGroup g in let* rest := send_groups groups in ret (data :: rest)
  end.
Definition encodeSourceOptionsBatch (states : list sourceOptionsState) : ST TflowEncoder (list bytes) := send_groups (groupedIPFIXSourceOptions states).
Definition encodeSourceOptions (state : sourceOptionsState) : ST TflowEncoder (list bytes) := encodeSourceOptionsBatch [state].

Definition ran_options : ST TflowEncoder unit := put_state (fun s => set_runs (lastTemplateRun s) now s).

Definition registerSourceInit (e : Event) : ST TflowEncoder (list bytes) :=
  let* state := store_source cfg e in
  let* payloads := encodeSourceOptions state in ran_options ;;; ret payloads.

Fixpoint store_sources (l : list Event) : ST TflowEncoder (list sourceOptionsState) :=
  match l with
  | [] => ret []
  | e :: l => let* state := store_source cfg e in let* rest := store_sources l in ret (state :: rest)
  end.
Definition registerSourceInitBatch (sources : list Event) : ST TflowEncoder (list bytes) :=
  let* states := store_sources sources in
  let* payloads := encodeSourceOptionsBatch states in ran_options ;;; ret payloads.

Definition handleControl (e : Event) (sources : option (list Event)) : ST TflowEncoder (list bytes) :=
  if String.eqb (controlType e) "schema" then registerSchema cfg false now encodeOptionsSchemaTemplate encodeSchemaTemplates e
  else if String.eqb (controlType e) "source_init" then registerSourceInit e
  else if String.eqb (controlType e) "source_init_batch" then match sources with Some l => registerSourceInitBatch l | None => ret [] end
  else ret [].

(** ** Encode and Flush *)

Definition Encode (e : Event) (sources : option (list Event)) : ST TflowEncoder (list bytes * option error) :=
  if String.eqb (Kind e) "control" then
    flush_then cfg IPFIXPacket buildBatchedPacket (encode_ipfix "encode ipfix packet") ipfixFlowSets estimatedEventRenderedSize "control"
      (handleControl e sources)
  else if negb (IsEnabled (batch cfg)) then
    or_error [] (let* packet := buildPacket e in let* data := lift_res (encode_ipfix "encode ipfix packet" packet) in ret [data])
  else encode_batched cfg IPFIXPacket buildBatchedPacket (encode_ipfix "encode ipfix packet") ipfixFlowSets estimatedEventRenderedSize e.

Definition Flush (data_order options_order : list string) : ST TflowEncoder (list bytes * option error) :=
  flush_then cfg IPFIXPacket buildBatchedPacket (encode_ipfix "encode ipfix packet") ipfixFlowSets estimatedEventRenderedSize "flush"
    (flushControlPackets cfg now encodeSchemaTemplates (fun m => encodeSourceOptionsBatch (sortedSourceOptions m)) encodeOptionsSchemaTemplate
       data_order options_order).
End ipfix.
