(* ===== verification/ReflowExportIpfixProps.v ===== *)
(** * pkg/reflow/encode: properties of the IPFIX encoder

    Packets of a batch: their sets have the records of the first events, their sequence numbers
    count records, and they keep the limit when they have more than one event.  Every call ends
    and keeps the state good. *)
From S2P Require Import Prelude Text DecodersUtils NetflowTypes NetflowEncode NetflowEncodeSafety ReflowEvent ReflowDecode ReflowNormalize ReflowFields ReflowTemplated ReflowTemplatedProps ReflowTemplatedPlans ReflowExportTflow ReflowExportTflowProps ReflowExportIpfix.

(** ** Sequence numbers *)

Lemma total_shift {A} (f : A -> Z) l n : fold_left (fun n x => n + f x) l n = n + total f l.
Proof.
  unfold total. revert n. induction l as [|x l IH]; intros n; cbn [fold_left]; [lia|]. rewrite IH, (IH (0 + f x)). lia.
Qed.
Lemma total_cons {A} (f : A -> Z) x l : total f (x :: l) = f x + total f l.
Proof. unfold total at 1. cbn [fold_left]. rewrite total_shift. lia. Qed.
Lemma total_sum {A} (f : A -> Z) l l' : total f (l ++ l') = total f l + total f l'.
Proof. induction l as [|x l IH]; cbn [app]; [done|]. rewrite !total_cons, IH. lia. Qed.

(** Templates do not count. *)
Lemma ipfixSequenceIncrement_batch id sets : ipfixSequenceIncrement (batch_flow_sets id sets) = to_uint 32 (Z.of_nat (sets_size sets)).
Proof.
  unfold ipfixSequenceIncrement, batch_flow_sets. rewrite total_sum. f_equal.
  match goal with |- total ?f _ + _ = _ => set (g := f) end.
  replace (total g (match set_templates [] sets with [] => [] | l => [FS_Template (Val (flow_set id l))] end)) with 0
    by (by destruct (set_templates [] sets)).
  rewrite Z.add_0_l.
  induction sets as [|x sets IH]; [done|]. cbn [map]. rewrite total_cons, IH, sets_size_cons, Nat2Z.inj_add. f_equal.
  unfold g, data_set, set_size. by destruct (bsRecords x).
Qed.

Lemma to_uint_add_l w a b : to_uint w (a + to_uint w b) = to_uint w (a + b).
Proof. unfold to_uint. apply Zplus_mod_idemp_r. Qed.

Section ipfix.
Context `{GoLib} `{TemplatedLib}.
Variable cfg : EncoderConfig.
Variable now : Z.
Hypothesis names : names_clean cfg.
Implicit Types (s : TflowEncoder) (e : Event) (l g : list Event).

Notation with_schemas := (with_schemas cfg false).
Notation good := (good cfg false).
Notation encode := (encode_ipfix "encode ipfix packet").

Lemma ends_encode_ipfix what p : Forall flow_set_present (ipfixFlowSets p) -> ends (encode_ipfix what p).
Proof. intros Hp. apply EncodeMessage_ipfix_ends in Hp. unfold encode_ipfix. by destruct (EncodeMessage _). Qed.

(** ** Packets *)

(** The packet of some sets, with a sequence number. *)
Definition packet_of (time n : Z) (sets : list batch_set) : IPFIXPacket :=
  {| ipfixVersion := 10; ipfixLength := 0; ExportTime := time; ipfixSequenceNumber := n; ObservationDomainId := exporter_domain cfg;
     ipfixFlowSets := batch_flow_sets 2 sets |}.

Lemma ends_packet_of what time n sets : ends (encode_ipfix what (packet_of time n sets)).
Proof. apply ends_encode_ipfix, batch_flow_sets_present. Qed.

(** The limit on packets holds for one with these sets. *)
Definition fits (p : IPFIXPacket) : Prop := 0 < MaxDatagramBytes cfg -> exists data, encode p = Ok data /\ len data <= MaxDatagramBytes cfg.

(** The records of events, without a cache of plans. *)
Definition records (d : gmap string templatedSchemaState) (o : gmap string optionsSchemaState) : list Event -> list batch_record -> Prop :=
  Forall2 (fun e r => uncached_record cfg false d o ipfix_context e = Ok r).

Lemma ipfix_sets_spec d o time l sets s : with_schemas d o s ->
  wp (ipfix_sets cfg time sets l)
    (fun '(sets', n) s' => with_schemas d o s' /\ seq s' = seq s /\ (n <= length l)%nat /\
       exists rs, records d o (take n l) rs /\ appends sets rs sets' /\ ((0 < n)%nat -> fits (packet_of time (seq s) sets')))
    (fun _ s' => with_schemas d o s') s.
Proof using names.
  revert sets s. induction l as [|e l IH]; intros sets s Hs; cbn [ipfix_sets].
  { unfold wp, ret. splits; try done. exists []. splits; [apply Forall2_nil; constructor|apply appends_done|intros ?; lia]. }
  assert (Hstop : forall s', with_schemas d o s' -> seq s' = seq s ->
            with_schemas d o s' /\ seq s' = seq s /\ (0 <= length (e :: l))%nat /\
            exists rs, records d o (take 0 (e :: l)) rs /\ appends sets rs sets /\ ((0 < 0)%nat -> fits (packet_of time (seq s) sets))).
  { intros s' Hs' Es. splits; [done..|lia|]. exists []. splits; [apply Forall2_nil; constructor|apply appends_done|intros ?; lia]. }
  apply wp_bind. eapply wp_mono; [by apply (wp_record_with_schemas cfg false ipfix_context e d o)| |by intros ? ? []].
  intros r s1 (Hs1 & E1 & Hr). destruct (appendIPFIXBatchRecord sets r) as [nextSets|] eqn:Ea; [|by apply Hstop].
  apply wp_bind. unfold wp at 1, ipfix_packet. change {| ipfixVersion := 10; ipfixLength := 0; ExportTime := time; ipfixSequenceNumber := seq s1;
    ObservationDomainId := exporter_domain cfg; ipfixFlowSets := batch_flow_sets 2 nextSets |} with (packet_of time (seq s1) nextSets).
  apply wp_bind. apply (wp_mono _ (fun fit s' => s' = s1 /\ (fit = true -> fits (packet_of time (seq s) nextSets))) _ (fun _ s' => s' = s1)); [| |by intros _ s' ->].
  { destruct (Z.ltb_spec 0 (MaxDatagramBytes cfg)) as [Hm|Hm]; [|split; [done|intros _ ?; lia]]. apply wp_bind. unfold wp, lift_res.
    pose proof (ends_packet_of "encode ipfix packet" time (seq s1) nextSets) as He.
    destruct (encode_ipfix "encode ipfix packet" (packet_of time (seq s1) nextSets)) as [data|err|w|] eqn:Ed; try done.
    split; [done|]. intros Hfit _. apply Z.leb_le in Hfit. exists data. by rewrite <- E1. }
  intros fit s' [-> Hfit]. destruct fit; [|by apply Hstop]. apply wp_bind. eapply wp_mono; [by apply IH| |done].
  intros [sets' n] s2 (Hs2 & E2 & Hn & rs & Hrs & Happ & Hlast). rewrite E1 in *. unfold wp, ret. splits; [done|done|cbn; lia|].
  exists (r :: rs). cbn [take]. splits; [by constructor|by econstructor|]. intros _. destruct n as [|n]; [|by apply Hlast; lia].
  cbn [take] in Hrs. inversion Hrs; subst. inversion Happ; subst. by apply Hfit.
Qed.

(** What a packet of the events [g] is, with the sequence number before and behind it. *)
Definition ipfix_sent d o (n : Z) (g : list Event) (p : IPFIXPacket) (n' : Z) : Prop :=
  n' = to_uint 32 (n + len g) /\
  exists e g' r rs sets, g = e :: g' /\ records d o g (r :: rs) /\ appends [set_of r] rs sets /\
    p = packet_of (exportTime now e) n sets /\ (g' <> [] -> fits p).

Lemma build_batched d o l s : l <> [] -> with_schemas d o s ->
  wp (buildBatchedPacket cfg now l)
    (fun '(p, n) s' => with_schemas d o s' /\ (1 <= n <= length l)%nat /\ ipfix_sent d o (seq s) (take n l) p (seq s') /\ ends (encode p))
    (fun _ s' => with_schemas d o s') s.
Proof using names.
  intros Hne Hs. destruct l as [|first rest]; [done|]. apply wp_bind.
  eapply wp_mono; [by apply (wp_record_with_schemas cfg false ipfix_context first d o)| |by intros ? ? []].
  intros r s1 (Hs1 & E1 & Hr). apply wp_bind. eapply wp_mono; [by apply (ipfix_sets_spec d o)| |done].
  intros [sets n] s2 (Hs2 & E2 & Hn & rs & Hrs & Happ & Hfit). unfold wp, bind, ipfix_packet, advanceIPFIXSequence, add_seq, ret.
  cbn [ipfixFlowSets ReflowExportTflow.seq take length]. splits; [done|lia|lia| |apply ends_packet_of].
  rewrite E2, E1. split.
  - rewrite ipfixSequenceIncrement_batch, to_uint_add_l, (appends_size _ _ _ Happ), set_of_size, len_cons. apply Forall2_length in Hrs. rewrite <- Hrs.
    f_equal. unfold len. lia.
  - exists first, (take n rest), r, rs, sets. splits; [done|by constructor|done|done|]. intros Hg. rewrite <- E1.
    apply Hfit. destruct n; [done|lia].
Qed.

Lemma estimate_keeps d o e s : with_schemas d o s ->
  wp (estimatedEventRenderedSize cfg e) (fun _ s' => with_schemas d o s' /\ seq s' = seq s) (fun _ s' => with_schemas d o s' /\ seq s' = seq s) s.
Proof using names.
  intros Hs. apply wp_bind. eapply wp_mono; [by apply (wp_record_with_schemas cfg false ipfix_context e d o)| |done]. by intros r s' (Hs' & E' & _).
Qed.

(** ** Every call keeps the state *)

Lemma keeps_advance p : keeps good (advanceIPFIXSequence p).
Proof. by intros s Hs. Qed.

Lemma keeps_send what domain sets : Forall flow_set_present sets -> keeps good (send now what domain sets).
Proof.
  intros Hp s. revert Hp. unfold send, wp. cbv zeta. generalize (ReflowExportTflow.seq s) at 1 2. intros n Hp. revert s.
  set (p := {| ipfixVersion := _ |}). change (keeps good (let* data := lift_res (encode_ipfix what p) in advanceIPFIXSequence p ;;; ret data)).
  apply keeps_bind; [apply keeps_lift_res; by apply ends_encode_ipfix|].
  intros data. apply keeps_bind; [apply keeps_advance|intros; apply keeps_ret].
Qed.

Lemma keeps_encodeSchemaTemplates state : keeps good (encodeSchemaTemplates cfg now state).
Proof.
  unfold encodeSchemaTemplates. induction (templates state) as [|t l IH]; [apply keeps_ret|]. cbn [send_templates].
  apply keeps_bind; [by apply keeps_send; repeat constructor|]. intros data. apply keeps_bind; [done|]. intros rest. apply keeps_ret.
Qed.

Lemma keeps_encodeOptionsSchemaTemplate state : keeps good (encodeOptionsSchemaTemplate cfg now state).
Proof. apply keeps_bind; [by apply keeps_send; repeat constructor|]. intros data. apply keeps_ret. Qed.

Lemma keeps_encodeSourceOptionsBatch states : keeps good (encodeSourceOptionsBatch now states).
Proof.
  unfold encodeSourceOptionsBatch. induction (groupedIPFIXSourceOptions states) as [|g l IH]; [apply keeps_ret|]. cbn [send_groups].
  apply keeps_bind; [|intros data; apply keeps_bind; [done|intros rest; apply keeps_ret]].
  destruct g as [|first g]; [apply keeps_ret|]. apply keeps_send. repeat constructor; by eexists.
Qed.

Lemma keeps_handleControl e sources : keeps good (handleControl cfg now e sources).
Proof.
  unfold handleControl. destruct (String.eqb _ _).
  { apply keeps_registerSchema; [apply keeps_encodeOptionsSchemaTemplate|apply keeps_encodeSchemaTemplates]. }
  assert (Hran : forall payloads, keeps good (ran_options now ;;; ret (S := TflowEncoder) (payloads : list bytes))).
  { intros payloads. apply keeps_bind; [by apply keeps_put_state|]. intros; apply keeps_ret. }
  destruct (String.eqb _ _).
  { apply keeps_bind; [apply keeps_store_source|]. intros state. apply keeps_bind; [apply keeps_encodeSourceOptionsBatch|apply Hran]. }
  destruct (String.eqb _ _); [|apply keeps_ret]. destruct sources as [l|]; [|apply keeps_ret]. apply keeps_bind.
  - induction l as [|x l IH]; [apply keeps_ret|]. cbn [store_sources]. apply keeps_bind; [apply keeps_store_source|]. intros state.
    apply keeps_bind; [done|]. intros rest. apply keeps_ret.
  - intros states. apply keeps_bind; [apply keeps_encodeSourceOptionsBatch|apply Hran].
Qed.

Lemma keeps_buildPacket e : keeps good (buildPacket cfg now e).
Proof using names.
  unfold buildPacket. destruct (ReflowEvent.Fields e); [|apply keeps_fail]. apply keeps_bind.
  - apply keeps_good. intros d o s Hs. unfold ipfix_flow_sets. destruct (Payload e); try done;
      (apply wp_bind; eapply wp_mono; [by apply (wp_record_with_schemas cfg false ipfix_context e d o)| |by intros ? ? []]; by intros ? s' (Hs' & _)).
  - intros fs. apply keeps_bind; [by intros s Hs|]. intros p. apply keeps_bind; [apply keeps_advance|intros; apply keeps_ret].
Qed.

Lemma keeps_Flush order order' : keeps good (Flush cfg now order order').
Proof using names.
  eapply keeps_flush_then; [apply build_batched|apply estimate_keeps|].
  apply keeps_flushControlPackets; [apply keeps_encodeSchemaTemplates|intros; apply keeps_encodeSourceOptionsBatch|apply keeps_encodeOptionsSchemaTemplate].
Qed.

Lemma buildPacket_present e s : match buildPacket cfg now e s with (Ok p, _) => Forall flow_set_present (ipfixFlowSets p) | _ => True end.
Proof.
  unfold buildPacket. destruct (ReflowEvent.Fields e); [|done]. unfold bind at 1, ipfix_flow_sets.
  destruct (Payload e); cbn; try by repeat constructor.
  all: unfold bind; destruct (event_record cfg false ipfix_context e s) as [[record|err|w|] s1]; try done; exact (batch_flow_sets_present 2 [set_of record]).
Qed.

Lemma keeps_Encode e sources : keeps good (Encode cfg now e sources).
Proof using names.
  unfold Encode. destruct (String.eqb _ _).
  { eapply keeps_flush_then; [apply build_batched|apply estimate_keeps|apply keeps_handleControl]. }
  destruct (negb _); [|eapply keeps_encode_batched; [apply build_batched|apply estimate_keeps]].
  apply keeps_or_error. intros s Hs. pose proof (keeps_buildPacket e s Hs) as Hk. pose proof (buildPacket_present e s) as Hp.
  unfold wp, bind in *. destruct (buildPacket cfg now e s) as [[p|err|w|] s1]; try done.
  pose proof (ends_encode_ipfix "encode ipfix packet" p Hp) as He. unfold lift_res. by destruct (encode p).
Qed.

Lemma ipfix_flush_wp trigger s : good s ->
  wp (flushDataPackets cfg now trigger)
    (fun '(out, err) s' => with_schemas (dataSchemas s) (optionsSchemas s) s' /\ exists l n, events s = l ++ events s' /\
       flushed IPFIXPacket encode (ipfix_sent (dataSchemas s) (optionsSchemas s)) (seq s) l out n /\
       match err with None => seq s' = n /\ (by_size trigger = false -> events s' = []) | Some _ => True end)
    (fun _ _ => False) s.
Proof using names. eapply flush_accounts; [apply build_batched|apply estimate_keeps]. Qed.
End ipfix.
