(* ===== verification/ReflowExportNFv9.v ===== *)
(** * pkg/reflow/encode: the NetFlow v9 encoder

    [NFv9Encoder] of [tflow.go], on the state of ReflowExportTflow.  The clock is read once per
    call. *)
From S2P Require Import Prelude Text DecodersUtils ProducerNetflow NetflowTypes NetflowEncode ReflowEvent Aggregate ReflowDecode ReflowNormalize ReflowFields ReflowTemplated ReflowExportTflow.

Section nfv9.
Context `{GoLib} `{TemplatedLib}.
Variable cfg : EncoderConfig.
(** The clock. *)
Variable now : Z.

(** ** Times *)

(** Seconds, rounded up. *)
Definition export_seconds (ms : Z) : Z := to_uint 32 (Z.quot (to_int 64 (ms + 999)) 1000).

Record nfv9BatchTiming : Type := { packetExportMS : Z; baseMS : Z; unixSeconds : Z; systemUptime : Z }.

Definition event_times (l : list Event) : list Z :=
  flat_map (fun e => [int64Field (fields_of e) "start_time_unix"; int64Field (fields_of e) "end_time_unix"]) l.

Definition nfv9BatchTimingFor (l : list Event) : nfv9BatchTiming :=
  let exportMS := match l with e :: _ => exportUnixMilliseconds now (ReceivedAt e) (fields_of e) | [] => UnixMilli now end in
  let seconds := export_seconds exportMS in
  let packetExport := seconds * 1000 in
  let base := fold_left (fun base ms => if (0 <? ms) && (ms <? base) then ms else base) (event_times l) packetExport in
  {| packetExportMS := packetExport; baseMS := base; unixSeconds := seconds; systemUptime := to_uint 32 (packetExport - base) |}.

(** The times of an event in a packet with this timing. *)
Definition nfv9_context (timing : nfv9BatchTiming) (e : Event) : templatedEncodingContext :=
  let time key := let ms := int64Field (fields_of e) key in if ms <=? 0 then packetExportMS timing else ms in
  {| ctxV9 := true; firstSwitched := to_uint 32 (time "start_time_unix"%string - baseMS timing);
     lastSwitched := to_uint 32 (time "end_time_unix"%string - baseMS timing) |}.

Definition nfv9BatchRecord (timing : nfv9BatchTiming) (e : Event) : ST TflowEncoder batch_record := event_record cfg true (nfv9_context timing e) e.

(** ** Packets *)

Definition exporter_source : Z := ObservationDomainID (TemplatedFlow cfg).

Definition nfv9_packet (seconds uptime : Z) (flowSets : list flowset) : ST TflowEncoder NFv9Packet := fun s =>
  (Ok {| v9Version := 9; v9Count := to_uint 16 (len flowSets); SystemUptime := uptime; UnixSeconds := seconds; v9SequenceNumber := seq s;
         SourceId := exporter_source; v9FlowSets := flowSets |}, s).

Definition advanceSequence : ST TflowEncoder unit := add_seq 1.

Definition encode_nfv9 (what : string) (p : NFv9Packet) : res bytes :=
  match EncodeMessage (P_NFv9 (Val p)) with Err e => Err (Wrap what [] e) | r => r end.

(** ** Single events *)

Definition nfv9_flow_sets (ctx : templatedEncodingContext) (e : Event) : ST TflowEncoder (list flowset) :=
  match Payload e with
  | PL_template r => ret [FS_Template (Val (flow_set 0 [r]))]
  | PL_v9_options_template r => ret [FS_NFv9OptionsTemplate (Val (flow_set 1 [r]))]
  | _ => let* r := event_record cfg true ctx e in ret (batch_flow_sets 0 [set_of r])
  end.

Definition buildPacket (e : Event) : ST TflowEncoder NFv9Packet :=
  match ReflowEvent.Fields e with
  | None => fail (Errorf "event fields are empty" [])
  | Some m =>
      let seconds := export_seconds (exportUnixMilliseconds now (ReceivedAt e) m) in
      let '(uptime, first, last) := uptimeWindow (seconds * 1000) (int64Field m "start_time_unix") (int64Field m "end_time_unix") in
      let* fs := nfv9_flow_sets {| ctxV9 := true; firstSwitched := first; lastSwitched := last |} e in
      nfv9_packet seconds uptime fs
  end.

(** ** Batches *)

(** The sets of events behind [sets]; [None] when an event cannot go into the packet.  Every
    record has the source of the encoder. *)
Fixpoint nfv9_sets (timing : nfv9BatchTiming) (sets : list batch_set) (l : list Event) : ST TflowEncoder (option (list batch_set)) :=
  match l with
  | [] => ret (Some sets)
  | e :: l =>
      let* next := nfv9BatchRecord timing e in
      match appendIPFIXBatchRecord sets next with
      | None => ret None
      | Some sets => nfv9_sets timing sets l
      end
  end.

Definition nfv9BatchPacketForEvents (l : list Event) : ST TflowEncoder (option NFv9Packet) :=
  match l with
  | [] => ret None
  | first :: rest =>
      let timing := nfv9BatchTimingFor l in
      let* r := nfv9BatchRecord timing first in
      let* sets := nfv9_sets timing [set_of r] rest in
      match sets with
      | None => ret None
      | Some sets => let* p := nfv9_packet (unixSeconds timing) (systemUptime timing) (batch_flow_sets 0 sets) in ret (Some p)
      end
  end.

(** The loop of [buildBatchedPacket]: the packet of [candidate] and of the events of [l] that it
    can take, and how many these are. *)
Fixpoint nfv9_grow (candidate : list Event) (packet : NFv9Packet) (l : list Event) : ST TflowEncoder (NFv9Packet * nat) :=
  match l with
  | [] => ret (packet, 0%nat)
  | e :: l =>
      let* next := nfv9BatchPacketForEvents (candidate ++ [e]) in
      match next with
      | None => ret (packet, 0%nat)
      | Some nextPacket =>
          let* fit := if 0 <? MaxDatagramBytes cfg
                      then let* data := lift_res (encode_nfv9 "encode netflow v9 packet" nextPacket) in ret (len data <=? MaxDatagramBytes cfg)
                      else ret true in
          if fit then let* (p, n) := nfv9_grow (candidate ++ [e]) nextPacket l in ret (p, S n) else ret (packet, 0%nat)
      end
  end.

Definition buildBatchedPacket (l : list Event) : ST TflowEncoder (NFv9Packet * nat) :=
  match l with
  | [] => fail (Errorf "empty netflow v9 packet batch" [])
  | first :: rest =>
      let* packet := nfv9BatchPacketForEvents [first] in
      match packet with
      | None => fail (Errorf "empty netflow v9 packet batch" [])
      | Some packet =>
          let* (packet, n) := nfv9_grow [first] packet rest in
          advanceSequence ;;; ret (packet, S n)
      end
  end.

Definition estimatedEventRenderedSize (e : Event) : ST TflowEncoder Z :=
  let* r := nfv9BatchRecord (nfv9BatchTimingFor [e]) e in ret (record_size r).

Definition flushDataPackets : string -> ST TflowEncoder (list bytes * option error) :=
  ReflowExportTflow.flushDataPackets cfg NFv9Packet buildBatchedPacket (encode_nfv9 "encode netflow v9 packet") v9FlowSets estimatedEventRenderedSize.

(** ** Templates, schemas and sources *)

(** A packet with these sets, sent. *)
Definition send (what : string) (seconds source : Z) (flowSets : list flowset) : ST TflowEncoder bytes := fun s =>
  let packet := {| v9Version := 9; v9Count := to_uint 16 (len flowSets); SystemUptime := 0; UnixSeconds := seconds; v9SequenceNumber := seq s;
                   SourceId := source; v9FlowSets := flowSets |} in
  (let* data := lift_res (encode_nfv9 what packet) in advanceSequence ;;; ret data) s.

Definition now_seconds : Z := to_uint 32 (now / 1000000000).

Fixpoint send_templates (l : list TemplateRecord) : ST TflowEncoder (list bytes) :=
  match l with
  | [] => ret []
  | t :: l =>
      let* data := send "encode netflow v9 schema template" (export_seconds (UnixMilli now)) exporter_source [FS_Template (Val (flow_set 0 [t]))] in
      let* rest := send_templates l in ret (data :: rest)
  end.
Definition encodeSchemaTemplates (state : templatedSchemaState) : ST TflowEncoder (list bytes) := send_templates (templates state).

(** A state of the other protocol has a zero record here. *)
Definition nfv9_options_template (state : optionsSchemaState) : NFv9OptionsTemplateRecord :=
  match osTemplate state with
  | inr r => r
  | inl _ => {| v9TemplateId := 0; ScopeLength := 0; OptionLength := 0; v9Scopes := []; v9Options := [] |}
  end.
Definition encodeOptionsSchemaTemplate (state : optionsSchemaState) : ST TflowEncoder (list bytes) :=
  let* data := send "encode netflow v9 options schema template" now_seconds exporter_source
                 [FS_NFv9OptionsTemplate (Val (flow_set 1 [nfv9_options_template state]))] in
  ret [data].

Definition NFV9_FIELD_SAMPLING_INTERVAL : Z := 34.

(** The packet has the ID of the source, not of the exporter. *)
Definition encodeSourceOptions (state : sourceOptionsState) : ST TflowEncoder (list bytes) :=
  let* data := send "encode netflow v9 source options" now_seconds (sourceID state)
    [FS_NFv9OptionsTemplate (Val (flow_set 1 [{| v9TemplateId := soTemplateID state; ScopeLength := 4; OptionLength := 4;
                                                 v9Scopes := [plain_field 1 4]; v9Options := [plain_field NFV9_FIELD_SAMPLING_INTERVAL 4] |}]));
     FS_OptionsData (Val (flow_set (soTemplateID state)
       [{| ScopesValues := [plain_value 1 (encodeU32 (sourceID state))];
           OptionsValues := [plain_value NFV9_FIELD_SAMPLING_INTERVAL (encodeU32 (samplingRate state))] |}]))] in
  ret [data].

Definition registerSourceInit (e : Event) : ST TflowEncoder (list bytes) :=
  let* state := store_source cfg e in
  let* payloads := encodeSourceOptions state in
  put_state (fun s => set_runs (lastTemplateRun s) now s) ;;; ret payloads.

Definition handleControl (e : Event) : ST TflowEncoder (list bytes) :=
  if String.eqb (controlType e) "schema" then registerSchema cfg true now encodeOptionsSchemaTemplate encodeSchemaTemplates e
  else if String.eqb (controlType e) "source_init" then registerSourceInit e
  else ret [].

(** ** Encode and Flush *)

Definition Encode (e : Event) : ST TflowEncoder (list bytes * option error) :=
  if String.eqb (Kind e) "control" then
    flush_then cfg NFv9Packet buildBatchedPacket (encode_nfv9 "encode netflow v9 packet") v9FlowSets estimatedEventRenderedSize "control"
      (handleControl e)
  else if negb (IsEnabled (batch cfg)) then
    or_error [] (let* packet := buildPacket e in
                 let* data := lift_res (encode_nfv9 "encode netflow v9 packet" packet) in advanceSequence ;;; ret [data])
  else encode_batched cfg NFv9Packet buildBatchedPacket (encode_nfv9 "encode netflow v9 packet") v9FlowSets estimatedEventRenderedSize e.

Definition Flush (data_order options_order source_order : list string) : ST TflowEncoder (list bytes * option error) :=
  flush_then cfg NFv9Packet buildBatchedPacket (encode_nfv9 "encode netflow v9 packet") v9FlowSets estimatedEventRenderedSize "flush"
    (flushControlPackets cfg now encodeSchemaTemplates (fun m => each_of m encodeSourceOptions source_order) encodeOptionsSchemaTemplate
       data_order options_order).
End nfv9.
