(* ===== verification/ReflowExportNFv9Props.v ===== *)
(** * pkg/reflow/encode: properties of the NetFlow v9 encoder

    Packets of a batch: their sets have the records of the first events, with times that are
    relative to the earliest of them, and their sequence numbers count packets.  Every call ends
    and keeps the state good. *)
From S2P Require Import Prelude Text DecodersUtils NetflowTypes NetflowEncode NetflowEncodeSafety ReflowEvent ReflowDecode ReflowNormalize ReflowFields ReflowTemplated ReflowTemplatedProps ReflowTemplatedPlans ReflowExportTflow ReflowExportTflowProps ReflowExportNFv9.

Section nfv9.
Context `{GoLib} `{TemplatedLib}.
Variable cfg : EncoderConfig.
Variable now : Z.
Hypothesis names : names_clean cfg.
Implicit Types (s : TflowEncoder) (e : Event) (l g : list Event).

Notation with_schemas := (with_schemas cfg true).
Notation good := (good cfg true).
Notation encode := (encode_nfv9 "encode netflow v9 packet").

Lemma ends_encode_nfv9 what p : Forall flow_set_present (v9FlowSets p) -> ends (encode_nfv9 what p).
Proof. intros Hp. apply EncodeMessage_nfv9_ends in Hp. unfold encode_nfv9. by destruct (EncodeMessage _). Qed.

(** ** Packets *)

(** The limit on packets holds. *)
Definition fits (p : NFv9Packet) : Prop := 0 < MaxDatagramBytes cfg -> exists data, encode p = Ok data /\ len data <= MaxDatagramBytes cfg.

(** The records of events in a packet with this timing, without a cache of plans. *)
Definition records (d : gmap string templatedSchemaState) (o : gmap string optionsSchemaState) (timing : nfv9BatchTiming) : list Event -> list batch_record -> Prop :=
  Forall2 (fun e r => uncached_record cfg true d o (nfv9_context timing e) e = Ok r).

(** The packet of some events, with a sequence number. *)
Definition packet_for d o (n : Z) (g : list Event) (p : NFv9Packet) : Prop :=
  exists r rs sets, records d o (nfv9BatchTimingFor now g) g (r :: rs) /\ appends [set_of r] rs sets /\
    p = {| v9Version := 9; v9Count := to_uint 16 (len (batch_flow_sets 0 sets)); SystemUptime := systemUptime (nfv9BatchTimingFor now g);
           UnixSeconds := unixSeconds (nfv9BatchTimingFor now g); v9SequenceNumber := n; SourceId := exporter_source cfg;
           v9FlowSets := batch_flow_sets 0 sets |}.

Lemma ends_packet_for what d o n g p : packet_for d o n g p -> ends (encode_nfv9 what p).
Proof. intros (r & rs & sets & _ & _ & ->). apply ends_encode_nfv9, batch_flow_sets_present. Qed.

Lemma wp_nfv9BatchRecord timing e d o s : with_schemas d o s ->
  wp (nfv9BatchRecord cfg timing e) (fun r s' => with_schemas d o s' /\ seq s' = seq s /\ uncached_record cfg true d o (nfv9_context timing e) e = Ok r)
    (fun _ s' => with_schemas d o s' /\ seq s' = seq s) s.
Proof using names. intros Hs. by apply (wp_record_with_schemas cfg true). Qed.

Lemma nfv9_sets_spec d o timing l sets s : with_schemas d o s ->
  wp (nfv9_sets cfg timing sets l)
    (fun r s' => with_schemas d o s' /\ seq s' = seq s /\
       match r with Some sets' => exists rs, records d o timing l rs /\ appends sets rs sets' | None => True end)
    (fun _ s' => with_schemas d o s' /\ seq s' = seq s) s.
Proof using names.
  revert sets s. induction l as [|e l IH]; intros sets s Hs; cbn [nfv9_sets].
  { unfold wp, ret. splits; [done..|]. exists []. split; [apply Forall2_nil; constructor|apply appends_done]. }
  apply wp_bind. eapply wp_mono; [by apply wp_nfv9BatchRecord| |done]. intros r s1 (Hs1 & E1 & Hr).
  destruct (appendIPFIXBatchRecord sets r) as [next|] eqn:Ea; [|done]. eapply wp_mono; [by apply IH| |].
  - intros [sets'|] s2 (Hs2 & E2 & Hx); (splits; [done|by rewrite E2|]); [|done]. destruct Hx as (rs & Hrs & Happ). exists (r :: rs).
    split; [by constructor|by econstructor].
  - intros err s2 [Hs2 E2]. split; [done|by rewrite E2].
Qed.

Lemma nfv9BatchPacketForEvents_spec d o l s : with_schemas d o s ->
  wp (nfv9BatchPacketForEvents cfg now l)
    (fun r s' => with_schemas d o s' /\ seq s' = seq s /\ match r with Some p => packet_for d o (seq s) l p | None => True end)
    (fun _ s' => with_schemas d o s' /\ seq s' = seq s) s.
Proof using names.
  intros Hs. destruct l as [|first rest]; [done|]. unfold nfv9BatchPacketForEvents. cbv zeta. set (timing := nfv9BatchTimingFor now _).
  apply wp_bind. eapply wp_mono; [by apply wp_nfv9BatchRecord| |done]. intros r s1 (Hs1 & E1 & Hr).
  apply wp_bind. eapply wp_mono; [by apply (nfv9_sets_spec d o)| |].
  - intros [sets|] s2 (Hs2 & E2 & Hx); [|by unfold wp, ret; splits; [done|rewrite E2|]]. destruct Hx as (rs & Hrs & Happ).
    unfold wp, bind, nfv9_packet, ret. splits; [done|by rewrite E2|]. exists r, rs, sets. splits; [by constructor|done|]. by rewrite E2, E1.
  - intros err s2 [Hs2 E2]. split; [done|by rewrite E2].
Qed.

Lemma nfv9_grow_spec d o candidate packet l s : with_schemas d o s -> packet_for d o (seq s) candidate packet ->
  wp (nfv9_grow cfg now candidate packet l)
    (fun '(p, n) s' => with_schemas d o s' /\ seq s' = seq s /\ (n <= length l)%nat /\ packet_for d o (seq s) (candidate ++ take n l) p /\
       if decide (n = 0%nat) then p = packet else fits p)
    (fun _ s' => with_schemas d o s') s.
Proof using names.
  revert candidate packet s. induction l as [|e l IH]; intros candidate packet s Hs Hp; cbn [nfv9_grow].
  { unfold wp, ret. splits; try done; by rewrite app_nil_r. }
  assert (Hstop : forall s', with_schemas d o s' -> seq s' = seq s ->
            with_schemas d o s' /\ seq s' = seq s /\ (0 <= length (e :: l))%nat /\
            packet_for d o (seq s) (candidate ++ take 0 (e :: l)) packet /\ if decide (0%nat = 0%nat) then packet = packet else fits packet).
  { intros s' Hs' Es. splits; [done..|cbn; lia| |done]. by rewrite app_nil_r. }
  apply wp_bind. eapply wp_mono; [by apply (nfv9BatchPacketForEvents_spec d o)| |by intros ? ? []].
  intros [next|] s1 (Hs1 & E1 & Hnext); [|by apply Hstop].
  apply wp_bind. apply (wp_mono _ (fun fit s' => s' = s1 /\ (fit = true -> fits next)) _ (fun _ s' => s' = s1)); [| |by intros _ s' ->].
  { destruct (Z.ltb_spec 0 (MaxDatagramBytes cfg)) as [Hm|Hm]; [|split; [done|intros _ ?; lia]]. apply wp_bind. unfold wp, lift_res.
    pose proof (ends_packet_for "encode netflow v9 packet" d o (seq s) _ _ Hnext) as He.
    destruct (encode next) as [data|err|w|] eqn:Ed; try done. split; [done|]. intros Hfit _. apply Z.leb_le in Hfit. by exists data. }
  intros fit s' [-> Hfit]. destruct fit; [|by apply Hstop]. rewrite <- E1 in Hnext. apply wp_bind. eapply wp_mono; [by apply IH| |done].
  intros [p n] s2 (Hs2 & E2 & Hn & Hp2 & Hlast). unfold wp, ret. rewrite E1 in *. splits; [done|done|cbn; lia| |].
  - cbn [take]. by rewrite <- app_assoc in Hp2.
  - destruct (decide (n = 0%nat)) as [->|Hn0]; [|done]. subst p. by apply Hfit.
Qed.

(** What a packet of the events [g] is, with the sequence number before and behind it. *)
Definition nfv9_sent d o (n : Z) (g : list Event) (p : NFv9Packet) (n' : Z) : Prop :=
  n' = to_uint 32 (n + 1) /\ packet_for d o n g p /\ (1 < len g -> fits p).

Lemma nfv9_build_batched d o l s : l <> [] -> with_schemas d o s ->
  wp (buildBatchedPacket cfg now l)
    (fun '(p, n) s' => with_schemas d o s' /\ (1 <= n <= length l)%nat /\ nfv9_sent d o (seq s) (take n l) p (seq s') /\ ends (encode p))
    (fun _ s' => with_schemas d o s') s.
Proof using names.
  intros Hne Hs. destruct l as [|first rest]; [done|]. apply wp_bind.
  eapply wp_mono; [by apply (nfv9BatchPacketForEvents_spec d o)| |by intros ? ? []].
  intros [packet|] s1 (Hs1 & E1 & Hp); [|done]. apply wp_bind. rewrite <- E1 in Hp. eapply wp_mono; [by apply (nfv9_grow_spec d o)| |done].
  intros [p n] s2 (Hs2 & E2 & Hn & Hp2 & Hfit). unfold wp, bind, advanceSequence, add_seq, ret.
  cbn [ReflowExportTflow.seq take length]. rewrite E1 in *. splits; [done|lia|lia| |by eapply ends_packet_for].
  rewrite E2. split; [done|]. split; [done|]. destruct (decide (n = 0%nat)) as [->|Hn0]; [|done]. intros Hlt. change (1 < 1) in Hlt. lia.
Qed.

Lemma nfv9_estimate_keeps d o e s : with_schemas d o s ->
  wp (estimatedEventRenderedSize cfg now e) (fun _ s' => with_schemas d o s' /\ seq s' = seq s) (fun _ s' => with_schemas d o s' /\ seq s' = seq s) s.
Proof using names.
  intros Hs. apply wp_bind. eapply wp_mono; [by apply (wp_nfv9BatchRecord _ e d o)| |done]. by intros r s' (Hs' & E' & _).
Qed.

(** ** Every call keeps the state *)

Lemma nfv9_keeps_advance : keeps good advanceSequence.
Proof. by intros s Hs. Qed.

Lemma nfv9_keeps_send what seconds source sets : Forall flow_set_present sets -> keeps good (send what seconds source sets).
Proof.
  intros Hp s. revert Hp. unfold send, wp. cbv zeta. generalize (ReflowExportTflow.seq s) at 1. intros n Hp. revert s.
  set (p := {| v9Version := _ |}). change (keeps good (let* data := lift_res (encode_nfv9 what p) in advanceSequence ;;; ret data)).
  apply keeps_bind; [apply keeps_lift_res; by apply ends_encode_nfv9|].
  intros data. apply keeps_bind; [apply nfv9_keeps_advance|intros; apply keeps_ret].
Qed.

Lemma nfv9_keeps_encodeSchemaTemplates state : keeps good (encodeSchemaTemplates cfg now state).
Proof.
  unfold encodeSchemaTemplates. induction (templates state) as [|t l IH]; [apply keeps_ret|]. cbn [send_templates].
  apply keeps_bind; [by apply nfv9_keeps_send; repeat constructor|]. intros data. apply keeps_bind; [done|]. intros rest. apply keeps_ret.
Qed.

Lemma nfv9_keeps_encodeOptionsSchemaTemplate state : keeps good (encodeOptionsSchemaTemplate cfg now state).
Proof. apply keeps_bind; [by apply nfv9_keeps_send; repeat constructor|]. intros data. apply keeps_ret. Qed.

Lemma keeps_encodeSourceOptions state : keeps good (encodeSourceOptions now state).
Proof. apply keeps_bind; [apply nfv9_keeps_send; repeat constructor; by eexists|]. intros data. apply keeps_ret. Qed.

Lemma nfv9_keeps_handleControl e : keeps good (handleControl cfg now e).
Proof.
  unfold handleControl. destruct (String.eqb _ _).
  { apply keeps_registerSchema; [apply nfv9_keeps_encodeOptionsSchemaTemplate|apply nfv9_keeps_encodeSchemaTemplates]. }
  destruct (String.eqb _ _); [|apply keeps_ret]. apply keeps_bind; [apply keeps_store_source|]. intros state.
  apply keeps_bind; [apply keeps_encodeSourceOptions|]. intros payloads. apply keeps_bind; [by apply keeps_put_state|]. intros; apply keeps_ret.
Qed.

Lemma nfv9_keeps_buildPacket e : keeps good (buildPacket cfg now e).
Proof using names.
  unfold buildPacket. destruct (ReflowEvent.Fields e); [|apply keeps_fail]. cbv zeta. destruct (uptimeWindow _ _ _) as [[uptime first] last].
  apply keeps_bind; [|by intros fs s Hs]. apply keeps_good. intros d o s Hs. unfold nfv9_flow_sets. destruct (Payload e); try done;
    (apply wp_bind; eapply wp_mono; [by apply (wp_record_with_schemas cfg true)| |by intros ? ? []]; by intros ? s' (Hs' & _)).
Qed.

Lemma nfv9_buildPacket_present e s : match buildPacket cfg now e s with (Ok p, _) => Forall flow_set_present (v9FlowSets p) | _ => True end.
Proof.
  unfold buildPacket. destruct (ReflowEvent.Fields e); [|done]. cbv zeta. destruct (uptimeWindow _ _ _) as [[uptime first] last].
  unfold bind at 1, nfv9_flow_sets. destruct (Payload e); cbn; try by repeat constructor.
  all: unfold bind; destruct (event_record cfg true _ e s) as [[record|err|w|] s1]; try done; exact (batch_flow_sets_present 0 [set_of record]).
Qed.

Lemma nfv9_keeps_Encode e : keeps good (Encode cfg now e).
Proof using names.
  unfold Encode. destruct (String.eqb _ _).
  { eapply keeps_flush_then; [apply nfv9_build_batched|apply nfv9_estimate_keeps|apply nfv9_keeps_handleControl]. }
  destruct (negb _); [|eapply keeps_encode_batched; [apply nfv9_build_batched|apply nfv9_estimate_keeps]].
  apply keeps_or_error. intros s Hs. pose proof (nfv9_keeps_buildPacket e s Hs) as Hk. pose proof (nfv9_buildPacket_present e s) as Hp.
  unfold wp, bind in *. destruct (buildPacket cfg now e s) as [[p|err|w|] s1]; try done.
  pose proof (ends_encode_nfv9 "encode netflow v9 packet" p Hp) as He. unfold lift_res. by destruct (encode p).
Qed.

Lemma nfv9_keeps_Flush order order' order'' : keeps good (Flush cfg now order order' order'').
Proof using names.
  eapply keeps_flush_then; [apply nfv9_build_batched|apply nfv9_estimate_keeps|].
  apply keeps_flushControlPackets;
    [apply nfv9_keeps_encodeSchemaTemplates|intros m; apply keeps_each_of, keeps_encodeSourceOptions|apply nfv9_keeps_encodeOptionsSchemaTemplate].
Qed.

Lemma nfv9_flush_wp trigger s : good s ->
  wp (flushDataPackets cfg now trigger)
    (fun '(out, err) s' => with_schemas (dataSchemas s) (optionsSchemas s) s' /\ exists l n, events s = l ++ events s' /\
       flushed NFv9Packet encode (nfv9_sent (dataSchemas s) (optionsSchemas s)) (seq s) l out n /\
       match err with None => seq s' = n /\ (by_size trigger = false -> events s' = []) | Some _ => True end)
    (fun _ _ => False) s.
Proof using names. eapply flush_accounts; [apply nfv9_build_batched|apply nfv9_estimate_keeps]. Qed.
End nfv9.
