(* ===== verification/ReflowExportReach.v ===== *)
(** * pkg/reflow/encode: histories of the NetFlow v9 and IPFIX encoders

    What holds after any calls of [Encode] and [Flush]: the cache of plans does not show in the
    records, records have the fields of their templates, and a flush accounts for the events of
    the batch. *)
From S2P Require Import Prelude Text DecodersUtils NetflowTypes NetflowEncode ReflowEvent ReflowDecode ReflowNormalize ReflowFields ReflowTemplated ReflowTemplatedProps ReflowTemplatedPlans ReflowExportV5 ReflowExportTflow ReflowExportTflowProps ReflowExportIpfix ReflowExportIpfixProps ReflowExportNFv9 ReflowExportNFv9Props.

(** ** Histories *)

(** The state of a NetFlow v9 encoder ([true]) or of an IPFIX encoder ([false]) after some calls,
    whatever they returned. *)
Inductive reached `{GoLib} `{TemplatedLib} (cfg : EncoderConfig) : bool -> TflowEncoder -> Prop :=
  | reached_new v9 : reached cfg v9 NewTflowEncoder
  | reached_ipfix_encode now e sources s : reached cfg false s -> reached cfg false (ReflowExportIpfix.Encode cfg now e sources s).2
  | reached_ipfix_flush now order order' s : reached cfg false s -> reached cfg false (ReflowExportIpfix.Flush cfg now order order' s).2
  | reached_nfv9_encode now e s : reached cfg true s -> reached cfg true (ReflowExportNFv9.Encode cfg now e s).2
  | reached_nfv9_flush now order order' order'' s : reached cfg true s -> reached cfg true (ReflowExportNFv9.Flush cfg now order order' order'' s).2.

Lemma keeps_state {A} I (m : ST TflowEncoder A) s : keeps I m -> I s -> I (m s).2.
Proof. intros Hm Hs. specialize (Hm s Hs). unfold wp in Hm. by destruct (m s) as [[] s']. Qed.

Lemma reached_good `{GoLib} `{TemplatedLib} cfg v9 s : names_clean cfg -> reached cfg v9 s -> good cfg v9 s.
Proof.
  intros Hn Hr. induction Hr as [v9|now e sources s _ IH|now order order' s _ IH|now e s _ IH|now order order' order'' s _ IH].
  - apply good_new.
  - apply (keeps_state _ _ s); [by apply keeps_Encode|done].
  - apply (keeps_state _ _ s); [by apply keeps_Flush|done].
  - apply (keeps_state _ _ s); [by apply nfv9_keeps_Encode|done].
  - apply (keeps_state _ _ s); [by apply nfv9_keeps_Flush|done].
Qed.

(** ** Records *)

(** C21: The cache of plans is transparent.  After any calls of [Encode] and [Flush] of a NetFlow v9 or
    an IPFIX encoder whose catalog has no names with [|] or [:], the record of an event is the
    one (or the error) that the code gives when it makes a new plan for the event, with the
    schemas that are registered; and only the cache changes. *)
Theorem tflow_cache_transparent `{GoLib} `{TemplatedLib} (cfg : EncoderConfig) (v9 : bool) (s : TflowEncoder) (ctx : templatedEncodingContext) (e : Event) :
  names_clean cfg -> reached cfg v9 s -> ctxV9 ctx = v9 ->
  exists plans, event_record cfg v9 ctx e s = (uncached_record cfg v9 (dataSchemas s) (optionsSchemas s) ctx e, set_plans plans s).
Proof.
  intros Hn Hr Hv. destruct (reached_good cfg v9 s Hn Hr) as [Hp _].
  destruct (event_record_uncached cfg v9 ctx e s Hn Hv Hp) as (s' & [_ Es] & E). exists (fallbackPlans s'). by rewrite <- Es.
Qed.

(** The fields of a record are those that a template announces. *)
Definition follows (schema : option optionsSchemaState) (schema' : option templatedSchemaState) (r : batch_record) : Prop :=
  match schema with
  | Some schema => exists o, brContent r = Options_record o /\
      match osTemplate schema with
      | inl t => Forall2 announces (ipfixScopes t) (ScopesValues o) /\ Forall2 announces (ipfixOptions t) (OptionsValues o)
      | inr t => Forall2 announces (v9Scopes t) (ScopesValues o) /\ Forall2 announces (v9Options t) (OptionsValues o)
      end
  | None => exists d, brContent r = Data_record d /\
      match schema' with
      | Some schema' => brTemplateID r = TemplateId (tsTemplate schema') /\ Forall2 announces (NetflowTypes.Fields (tsTemplate schema')) (Values d)
      | None => exists t, brTemplate r = Some t /\ brTemplateID r = TemplateId t /\ Forall2 announces (NetflowTypes.Fields t) (Values d)
      end
  end.

Lemma plan_announced `{GoLib} `{TemplatedLib} cfg v9 m id ctx plan r : planned cfg v9 m id ctx = Ok (plan, r) ->
  Forall2 announces (NetflowTypes.Fields (planTemplate plan)) (Values r).
Proof.
  intros Hp. apply rbind_Ok in Hp as (plan' & Eb & Hp). apply rbind_Ok in Hp as (r' & Er & Hp). injection Hp as -> ->.
  apply rbind_Ok in Eb as (l & El & Eb). destruct (_ =? 0); [done|]. injection Eb as <-.
  assert (Hl : Forall (fun x => exists name d n, x = (template_field d n, (name, d, ""%string))) l).
  { apply rflat_map_Ok in El as (ls & Hls & ->). apply Forall_concat. clear Er. induction Hls as [|name x names ls Hx _ IH]; [constructor|].
    constructor; [|done]. apply rbind_Ok in Hx as (defs & _ & Hx). apply rflat_map_Ok in Hx as (ls' & Hls' & ->). apply Forall_concat.
    clear -Hls'. induction Hls' as [|d y ds ls' Hy _ IH]; [constructor|]. constructor; [|done]. revert Hy. unfold plan_field.
    destruct (encodeFallbackValue _ _ _ _); try done. intros [= <-]. constructor; [|constructor]. by eexists _, _, _. }
  apply rbind_Ok in Er as (vs & Ev & Er). cbv zeta in Er. destruct (_ || _); [done|]. injection Er as <-.
  cbn [planTemplate template_of NetflowTypes.Fields entries Values] in *. clear El. revert vs Ev.
  induction Hl as [|x l (name & d & n & ->) _ IH]; intros vs; cbn [map combine rflat_map fst snd]; [intros [= <-]; constructor|].
  intros Ev. apply rbind_Ok in Ev as (v & Ex & Ev). apply rbind_Ok in Ev as (rest & El & Ev). injection Ev as <-.
  revert Ex. unfold fallback_value. destruct (encodeFallbackValueWithFamily _ _ _ _ _) as [b| | |]; try done. intros [= <-].
  constructor; [|by apply IH]. unfold announces. splits; try done. by exists b.
Qed.

(** C22: Every record has the fields of its template.  After any calls of an encoder, the record
    of an event whose stream has a schema has, field by field, the type, the enterprise number and
    the length that the template of that schema announces, and a record without a schema those of
    the template that goes with it. *)
Theorem tflow_records_announced `{GoLib} `{TemplatedLib} (cfg : EncoderConfig) (v9 : bool) (s s' : TflowEncoder) (ctx : templatedEncodingContext) (e : Event)
    (r : batch_record) :
  names_clean cfg -> reached cfg v9 s -> ctxV9 ctx = v9 -> event_record cfg v9 ctx e s = (Ok r, s') ->
  follows (optionsSchemas s !! eventStream e "flow_data") (dataSchemas s !! eventStream e "flow_data") r.
Proof.
  intros Hn Hr Hv E. destruct (reached_good cfg v9 s Hn Hr) as (Hp & Hd & Ho).
  destruct (event_record_uncached cfg v9 ctx e s Hn Hv Hp) as (s1 & _ & E1). rewrite E1 in E. injection E as Eu _. clear E1.
  revert Eu. unfold uncached_record. destruct (ReflowEvent.Fields e); [|done]. cbv zeta.
  destruct (optionsSchemas s !! _) as [schema|] eqn:Eo; [|destruct (dataSchemas s !! _) as [schema|] eqn:Es].
  - intros Eu. apply rbind_Ok in Eu as (o & Er & Eu). injection Eu as <-. exists o. split; [done|].
    destruct (Ho _ _ Eo) as [id Ht]. destruct (osTemplate schema) as [t|t]; destruct Ht as [Ht9 Ht]; rewrite <- Hv in Ht9.
    + unfold buildIPFIXOptionsTemplateRecordFromSchemaFields in Ht. rewrite <- Ht9 in Ht.
      destruct (options_record_announced _ _ _ _ _ ctx _ _ Ht Er) as (fs & gs & -> & Hf & Hg). done.
    + unfold buildNFv9OptionsTemplateRecordFromSchemaFields in Ht. rewrite <- Ht9 in Ht.
      destruct (options_record_announced _ _ _ _ _ ctx _ _ Ht Er) as (fs & gs & -> & Hf & Hg). done.
  - intros Eu. apply rbind_Ok in Eu as (d & Er & Eu). injection Eu as <-. exists d. split; [done|]. split; [done|].
    destruct (Hd _ _ Es) as [base Ht]. rewrite <- Hv in Ht. by eapply schema_record_announced.
  - intros Eu. apply rbind_Ok in Eu as (key & _ & Eu). apply rbind_Ok in Eu as ([plan d] & Ed & Eu). injection Eu as <-. exists d.
    split; [done|]. exists (planTemplate plan). splits; try done. by eapply plan_announced.
Qed.

(** ** Batches *)

(** C20: What a flush of the IPFIX encoder sends.  After any calls, a flush ends; the payloads are the
    packets of the first events of the batch, in their order, and the events behind them are still
    in the batch, which is empty after a flush without an error.  A packet has the records of its
    events (as without a cache) in sets by template, the export time of its first event, and the
    sequence number that the packets before it leave, which counts records; it is no longer than
    [MaxDatagramBytes] unless it has a single event. *)
Theorem ipfix_flush_accounts `{GoLib} `{TemplatedLib} (cfg : EncoderConfig) (now : Z) (trigger : string) (s : TflowEncoder) :
  names_clean cfg -> reached cfg false s ->
  match ReflowExportIpfix.flushDataPackets cfg now trigger s with
  | (Ok (payloads, err), s') => exists l n, events s = l ++ events s' /\
      flushed IPFIXPacket (encode_ipfix "encode ipfix packet") (ipfix_sent cfg now (dataSchemas s) (optionsSchemas s)) (seq s) l payloads n /\
      (err = None -> seq s' = n /\ (by_size trigger = false -> events s' = []))
  | _ => False
  end.
Proof.
  intros Hn Hr. pose proof (ipfix_flush_wp cfg now Hn trigger s (reached_good cfg false s Hn Hr)) as Hw. unfold wp in Hw.
  destruct (ReflowExportIpfix.flushDataPackets _ _ _ _) as [[[payloads err]|e|w|] s']; try done.
  destruct Hw as (_ & l & n & El & Hf & He). exists l, n. splits; try done. by intros ->.
Qed.

(** What a flush of the NetFlow v9 encoder sends.  As for IPFIX, but a packet has the times of
    its events, relative to the earliest of them, and sequence numbers count packets. *)
Theorem nfv9_flush_accounts `{GoLib} `{TemplatedLib} (cfg : EncoderConfig) (now : Z) (trigger : string) (s : TflowEncoder) :
  names_clean cfg -> reached cfg true s ->
  match ReflowExportNFv9.flushDataPackets cfg now trigger s with
  | (Ok (payloads, err), s') => exists l n, events s = l ++ events s' /\
      flushed NFv9Packet (encode_nfv9 "encode netflow v9 packet") (nfv9_sent cfg now (dataSchemas s) (optionsSchemas s)) (seq s) l payloads n /\
      (err = None -> seq s' = n /\ (by_size trigger = false -> events s' = []))
  | _ => False
  end.
Proof.
  intros Hn Hr. pose proof (nfv9_flush_wp cfg now Hn trigger s (reached_good cfg true s Hn Hr)) as Hw. unfold wp in Hw.
  destruct (ReflowExportNFv9.flushDataPackets _ _ _ _) as [[[payloads err]|e|w|] s']; try done.
  destruct Hw as (_ & l & n & El & Hf & He). exists l, n. splits; try done. by intros ->.
Qed.

(** ** Witnesses *)

Definition simple_mac : TemplatedLib := {| ParseMAC s := if String.eqb s "02:00:00:00:00:01" then Some [2; 0; 0; 0; 0; 1] else None |}.

Definition catalog_entry (name : string) (id length : Z) (type : string) : IPFIXFieldDefinition :=
  {| defName := name; defID := id; PEN := 0; defLength := length; defType := type; defFormat := ""; EnterpriseScoped := false |}.
Definition small_catalog : gmap string IPFIXFieldDefinition :=
  <["bytes"%string := catalog_entry "octetDeltaCount" 1 8 "unsigned64"]> (<["src_port"%string := catalog_entry "sourceTransportPort" 7 2 "unsigned16"]> ∅).
(** Batches of eight events, packets of at most 60 bytes. *)
Definition small_export : EncoderConfig :=
  {| MaxDatagramBytes := 60; batch := {| batchEnabled := Some true; MaxRecords := 8; MaxBytes := 0 |};
     TemplatedFlow := {| TemplateBaseID := 0; OptionsTemplateBaseID := 0; ObservationDomainID := 5; TemplateRefresh := 0; OptionsRefresh := 0;
                         Data := {| Select := []; Matches := []; Catalog := small_catalog |} |} |}.

Lemma small_names : names_clean small_export.
Proof.
  intros name [d Hd]. change (small_catalog !! name = Some d) in Hd. unfold small_catalog in Hd.
  apply lookup_insert_Some in Hd as [[<- _]|[_ Hd]]; [by vm_compute|].
  apply lookup_insert_Some in Hd as [[<- _]|[_ Hd]]; [by vm_compute|]. by rewrite lookup_empty in Hd.
Qed.

Definition flow_event (stream : string) (port size : Z) : Event :=
  {| ReceivedAt := 0; Kind := ""; Stream := stream; Source := zero_source; Control := None;
     ReflowEvent.Fields := Some (put_fields [("src_port", u32_field port); ("bytes", A_int K_uint64 size)]%string ∅); evtMessage := [];
     evtPacket := None; SFlow := None; Aggregation := None; Payload := PL_nil; Internal := no_internal |}.
Definition ports_schema : AggregationSchema :=
  {| asStream := "ports"; FieldNames := ["src_port"; "bytes"]%string; asFields := []; asKeyFields := []; SumFields := []; FirstFields := [];
     CurrentFields := []; MinFields := []; MaxFields := []; AndFields := []; asMatch := None; asStaticFields := ∅; BaseTemplateID := 300 |}.
Definition schema_event : Event :=
  {| ReceivedAt := 0; Kind := "control"; Stream := ""; Source := zero_source; Control := Some {| cType := "schema"; cStream := "" |};
     ReflowEvent.Fields := None; evtMessage := []; evtPacket := None; SFlow := None; Aggregation := None; Payload := PL_schema ports_schema;
     Internal := no_internal |}.

(** A schema, and three events of the batch. *)
Definition ipfix_history : TflowEncoder :=
  let encode e s := (@ReflowExportIpfix.Encode one_address simple_mac small_export 1700000000000000000 e None s).2 in
  encode (flow_event "" 80 7) (encode (flow_event "" 443 5) (encode (flow_event "" 22 3) (encode schema_event NewTflowEncoder))).
Definition nfv9_history : TflowEncoder :=
  let encode e s := (@ReflowExportNFv9.Encode one_address simple_mac small_export 1700000000000000000 e s).2 in
  encode (flow_event "" 80 7) (encode (flow_event "" 443 5) (encode (flow_event "" 22 3) (encode schema_event NewTflowEncoder))).

Lemma ipfix_history_reached : @reached one_address simple_mac small_export false ipfix_history.
Proof. do 4 apply reached_ipfix_encode. apply reached_new. Qed.
Lemma nfv9_history_reached : @reached one_address simple_mac small_export true nfv9_history.
Proof. do 4 apply reached_nfv9_encode. apply reached_new. Qed.

#[local] Opaque ipfix_history nfv9_history.

(** The history has a plan for events with these fields. *)
Lemma tflow_cache_transparent_witness :
  size (fallbackPlans ipfix_history) = 1%nat /\ exists plans r,
    @event_record one_address simple_mac small_export false ipfix_context (flow_event "" 53 9) ipfix_history = (Ok r, set_plans plans ipfix_history).
Proof.
  split; [by vm_compute|].
  destruct (@tflow_cache_transparent one_address simple_mac small_export false ipfix_history ipfix_context (flow_event "" 53 9)
    small_names ipfix_history_reached (eq_refl _)) as (plans & E).
  assert (Hr : exists r, @uncached_record one_address simple_mac small_export false (dataSchemas ipfix_history) (optionsSchemas ipfix_history)
    ipfix_context (flow_event "" 53 9) = Ok r) by (eexists; vm_compute; reflexivity).
  destruct Hr as [r Er]. exists plans, r. exact (eq_trans E (f_equal (fun x => (x, set_plans plans ipfix_history)) Er)).
Defined.

(** An event of the stream with the schema. *)
Lemma tflow_records_announced_witness :
  exists schema r d s', dataSchemas ipfix_history !! "ports"%string = Some schema /\
    @event_record one_address simple_mac small_export false ipfix_context (flow_event "ports" 53 9) ipfix_history = (Ok r, s') /\
    brContent r = Data_record d /\ brTemplateID r = 300 /\ Forall2 announces (NetflowTypes.Fields (tsTemplate schema)) (Values d).
Proof.
  destruct (@event_record one_address simple_mac small_export false ipfix_context (flow_event "ports" 53 9) ipfix_history) as [[r|e|w|] s'] eqn:Er;
    try (exfalso; by vm_compute in Er).
  pose proof (@tflow_records_announced one_address simple_mac small_export false ipfix_history s' ipfix_context (flow_event "ports" 53 9) r
    small_names ipfix_history_reached (eq_refl _) Er) as Hf.
  change (eventStream (flow_event "ports" 53 9) "flow_data") with "ports"%string in Hf.
  assert (Ho : optionsSchemas ipfix_history !! "ports"%string = None) by (vm_compute; reflexivity). rewrite Ho in Hf. destruct Hf as (d & Hd & Hf).
  assert (Es : exists schema, dataSchemas ipfix_history !! "ports"%string = Some schema /\ TemplateId (tsTemplate schema) = 300)
    by (eexists; split; vm_compute; reflexivity).
  destruct Es as (schema & Es & Eid). rewrite Es in Hf. destruct Hf as [Hid Hf]. exists schema, r, d, s'. rewrite Eid in Hid.
  split; [exact Es|]. split; [reflexivity|]. split; [exact Hd|]. split; [exact Hid|exact Hf].
Defined.

(** A packet with two records, and one with the third. *)
Lemma ipfix_flush_accounts_witness :
  length (events ipfix_history) = 3%nat /\ exists a b s',
    @ReflowExportIpfix.flushDataPackets one_address simple_mac small_export 1700000000000000000 "flush" ipfix_history = (Ok ([a; b], None), s') /\
    events s' = [] /\ seq s' = 3 /\ len a = 56 /\
    @flushed IPFIXPacket (encode_ipfix "encode ipfix packet")
      (@ipfix_sent one_address simple_mac small_export 1700000000000000000 (dataSchemas ipfix_history) (optionsSchemas ipfix_history))
      0 (events ipfix_history) [a; b] 3.
Proof.
  split; [by vm_compute|].
  pose proof (@ipfix_flush_accounts one_address simple_mac small_export 1700000000000000000 "flush" ipfix_history small_names ipfix_history_reached) as Hf.
  assert (E0 : seq ipfix_history = 0) by (by vm_compute). rewrite E0 in Hf.
  assert (E : exists a b s', @ReflowExportIpfix.flushDataPackets one_address simple_mac small_export 1700000000000000000 "flush" ipfix_history =
      (Ok ([a; b], None), s') /\ seq s' = 3 /\ len a = 56) by (do 3 eexists; split; [vm_compute; reflexivity|split; vm_compute; reflexivity]).
  destruct E as (a & b & s' & E & E3 & Ea). rewrite E in Hf. destruct Hf as (l & n & El & Hf & He). destruct (He eq_refl) as [En Ee].
  specialize (Ee eq_refl). rewrite Ee, app_nil_r in El. rewrite <- El, <- En, E3 in Hf.
  exists a, b, s'. split; [exact E|]. split; [exact Ee|]. split; [exact E3|]. split; [exact Ea|exact Hf].
Defined.

(** Two packets after that of the template. *)
Lemma nfv9_flush_accounts_witness :
  length (events nfv9_history) = 3%nat /\ exists a b s',
    @ReflowExportNFv9.flushDataPackets one_address simple_mac small_export 1700000000000000000 "flush" nfv9_history = (Ok ([a; b], None), s') /\
    events s' = [] /\ seq s' = 3 /\ len a = 60 /\
    @flushed NFv9Packet (encode_nfv9 "encode netflow v9 packet")
      (@nfv9_sent one_address simple_mac small_export 1700000000000000000 (dataSchemas nfv9_history) (optionsSchemas nfv9_history))
      1 (events nfv9_history) [a; b] 3.
Proof.
  split; [by vm_compute|].
  pose proof (@nfv9_flush_accounts one_address simple_mac small_export 1700000000000000000 "flush" nfv9_history small_names nfv9_history_reached) as Hf.
  assert (E1 : seq nfv9_history = 1) by (by vm_compute). rewrite E1 in Hf.
  assert (E : exists a b s', @ReflowExportNFv9.flushDataPackets one_address simple_mac small_export 1700000000000000000 "flush" nfv9_history =
      (Ok ([a; b], None), s') /\ seq s' = 3 /\ len a = 60) by (do 3 eexists; split; [vm_compute; reflexivity|split; vm_compute; reflexivity]).
  destruct E as (a & b & s' & E & E3 & Ea). rewrite E in Hf. destruct Hf as (l & n & El & Hf & He). destruct (He eq_refl) as [En Ee].
  specialize (Ee eq_refl). rewrite Ee, app_nil_r in El. rewrite <- El, <- En, E3 in Hf.
  exists a, b, s'. split; [exact E|]. split; [exact Ee|]. split; [exact E3|]. split; [exact Ea|exact Hf].
Defined.

(** A value that is shorter than its field cannot be encoded, which only the flush finds: the
    event stays in the batch and is found again by every flush, the event behind it is not sent,
    and each time the sequence number goes on without a packet. *)
Definition fixed_text_export : EncoderConfig :=
  {| MaxDatagramBytes := 0; batch := {| batchEnabled := Some true; MaxRecords := 8; MaxBytes := 0 |};
     TemplatedFlow := {| TemplateBaseID := 0; OptionsTemplateBaseID := 0; ObservationDomainID := 5; TemplateRefresh := 0; OptionsRefresh := 0;
                         Data := {| Select := []; Matches := [];
                                    Catalog := <["name"%string := catalog_entry "interfaceName" 82 8 "string"]> small_catalog |} |} |}.
Definition name_event (name : string) : Event :=
  {| ReceivedAt := 0; Kind := ""; Stream := ""; Source := zero_source; Control := None;
     ReflowEvent.Fields := Some (put_fields [("name", A_string name)]%string ∅); evtMessage := [];
     evtPacket := None; SFlow := None; Aggregation := None; Payload := PL_nil; Internal := no_internal |}.
Example ipfix_blocked_batch :
  let encode e s := @ReflowExportIpfix.Encode one_address simple_mac fixed_text_export 0 e None s in
  let flush s := @ReflowExportIpfix.Flush one_address simple_mac fixed_text_export 0 [] [] s in
  let s1 := (encode (name_event "ethernet") (encode (name_event "eth0") NewTflowEncoder).2).2 in
  length (events s1) = 2%nat /\ seq s1 = 0 /\
  exists err s2, flush s1 = (Ok ([], Some err), s2) /\ events s2 = events s1 /\ seq s2 = 2 /\
  exists err' s3, flush s2 = (Ok ([], Some err'), s3) /\ events s3 = events s1 /\ seq s3 = 4.
Proof.
  cbv zeta. split; [vm_compute; reflexivity|]. split; [vm_compute; reflexivity|]. do 2 eexists. split; [vm_compute; reflexivity|].
  split; [vm_compute; reflexivity|]. split; [vm_compute; reflexivity|]. do 2 eexists. split; [vm_compute; reflexivity|].
  split; vm_compute; reflexivity.
Qed.
